(* ===== verification/_CoqProject ===== *)
-Q . S2P
Prelude.v
PyStr.v
StoreApi.v
LoadBatch.v
Hasher.v
Layout.v
Connector.v
ConnectorWorker.v
LayerWise.v
Variants.v
Config.v
Affinity.v
Rope.v
Blend.v
Scheduler.v
BlockPool.v
KvConfig.v
CacheRecovery.v
GsaStat.v
GsaRun.v
GsaSparse.v
Wp.v
SparseScheduler.v
SparseSchedulerRuns.v
MindieHash.v
MindiePool.v
MindiePlugin.v
Prefetch.v
DeviceMem.v
Esa.v
EsaBlocks.v
EsaRuns.v
EsaPool.v
EsaDemo.v
StoreBase.v
Kvstar.v
KvstarRuns.v
KvstarSwap.v
KvstarDecode.v
KvstarSlots.v
KvstarBind.v
KvstarDemo.v
GsaOnDevice.v
GsaOnDeviceTopk.v
GsaOnDeviceRuns.v
GsaOnDeviceBuild.v
GsaOnDeviceConfig.v
GsaOnDeviceDemo.v
Triton.v
HashEncoder.v
HashEncoderFacts.v
HashEncoderCache.v
HammingScore.v
HashEncoderDemo.v
Rerope.v
ReropeFacts.v
ReropeRuns.v
ReropeSegments.v
ReropeAttention.v
ReropeDemo.v
