(* ===== verification/Prelude.v ===== *)
(** * Unified Cache Management: verification library (root file)

    Unified Cache Management (UCM) extends LLM inference engines with a KV cache
    kept outside the accelerator: blocks of computed keys and values are stored
    under content hashes, found again for later prompts, and loaded instead of
    being recomputed; sparse-attention methods use the same store to keep only
    the relevant blocks of a long prompt on the device.  This library models
    the Python code of [src/ucm] that decides what is stored, loaded, scheduled
    and kept.

    ** How the program's parts interact

    - The _connectors_ (src/ucm/integration/vllm/ucm_connector.py) run twice in
      vLLM.  In the scheduler's process a connector hashes a request's tokens
      into block ids, asks the store for the longest held prefix
      ([get_num_new_matched_tokens]) and writes, per step, which blocks each
      request loads and dumps ([build_connector_meta]).  In a worker's process
      it turns block numbers into device addresses ([KVCacheLayout]), loads
      before the forward pass and dumps after it, or layer by layer.
    - The _patched scheduler_ (.../patch/v0110/vllm/pc) takes back the requests
      whose blocks failed to load; the _patched cache manager_ keeps such
      blocks out of the prefix cache.
    - The _sparse patch_ (.../patch/v0110/vllm/sparse) schedules with the slots
      a sparse method estimates; the methods ([src/ucm/sparse]) free blocks on
      the scheduler's side and move, drop or load blocks on the worker's.
    - The _MindIE integration_ (src/ucm/integration/mindie) puts another engine
      in front of the same stores, with its own hashes and keys.
    - _Stores_ are native code behind the interface of
      src/ucm/store/ucmstore_v1.py.

    ** Files, and what they correspond to

    Foundations.
    - [Prelude]: Python's exceptions, the state-and-error monad [M], lists with
      Python's slices and indices, floats (binary64), insertion-ordered
      dictionaries; the lemmas all files share.  [PyStr]: strings.  [Wp]:
      total-correctness rules for [M].
    - [StoreApi]: the class [Store] (ucmstore_v1.py), its contract [StoreLaws]
      as the docstrings state it, and [MemStore], an instance that satisfies it
      and runs the examples.  [LoadBatch]: batches of asynchronous loads.
      [StoreBase]: the older interface (ucmstore.py).  [DeviceMem]: reading and
      writing the blocks of a KV cache by address.

    Connectors.
    - [Hasher]: [RequestHasher], [generate_hash].  [Layout]: [KVCacheLayout].
    - [Connector], [ConnectorWorker]: the two sides of [UCMDirectConnector]; the
      state is the record [ConnState].  [LayerWise]: [UCMLayerWiseConnector].
      [Variants]: the context-parallel, mock, lite and PD connectors and the
      dispatcher [UCMConnector].  [Config]: ucm/utils.py.
    - [Affinity]: device.py, which cores a worker and its store use.
    - [Blend], [Rope]: the cache-blend connector (blend_connector.py) and the
      kernel that rotates moved keys (sparse/blend/blockwise_rope.py), a step
      relation over the interleavings of its programs.

    vLLM patches.
    - [Scheduler]: pc/v1/core/sched/scheduler.py.  [BlockPool], [KvConfig]: the
      block pool, the cache managers and the sizing of the KV cache.
      [CacheRecovery]: both together.
    - [SparseScheduler], [SparseSchedulerRuns]: sparse/v1/core/sched/scheduler.py,
      the definitions and the proofs about a whole scheduling step.

    Sparse attention.
    - [GsaStat], [GsaRun], [GsaSparse]: sparse/gsa/gsa.py and sparse/utils.py, the
      state of the requests, a request from its first batch on, and the blocks
      that are dropped, moved and transferred.  [Prefetch]:
      sparse/gsa/prefetch/prefetch_engine.py.
    - [Esa]: sparse/esa/esa.py, the state machine of a request in a layer
      ([ReqStatePerLayer]), the hooks of the batch, the scheduler's side.
      [EsaBlocks]: which blocks change and their names; [EsaRuns]: the decoding
      of one request among others, as an inductive relation; [EsaPool]: the
      slots of all requests; [EsaDemo]: concrete runs.
    - [Kvstar]: sparse/kvstar/multistep.py, the same three levels.
      [KvstarRuns]: the groups of queries and the prompt; [KvstarSwap],
      [KvstarDecode]: the window and the pipeline of a decoding request, as an
      inductive relation over its steps and what other requests do in between;
      [KvstarSlots]: the block table, and prompts of few blocks; [KvstarBind]:
      the CPU cores (sparse/kvstar/utils.py); [KvstarDemo]: concrete runs.
    - [GsaOnDevice]: sparse/gsa_on_device/gsa_on_device.py on CUDA, with the
      selection of hamming_topk.py and its kernel, the attention metadata that
      the layers share and the tables overwritten in place, as a heap.
      [GsaOnDeviceTopk]: what a selected row lets attention read;
      [GsaOnDeviceRuns]: the hooks of one layer; [GsaOnDeviceBuild]: a step of
      all layers, and the prefill flags; [GsaOnDeviceConfig]: the configuration
      files and the captured graphs; [GsaOnDeviceDemo]: concrete runs.
    - [Triton]: launches of concurrent programs as their single writes in any
      order, tiles, sums of products.  [HashEncoder]: hash_encoder.py;
      [HashEncoderFacts], [HashEncoderCache]: its kernels against the plain
      computation.  [HammingScore]: the distance kernel, csrc/cuda/ham_dist, thread
      by thread, over the cached codes.  [HashEncoderDemo]: concrete runs.
    - [Rerope]: sparse/rerope/triton_unified_attention_rerope.py, the kernels and
      the function that launches them, over an interface of scalars.
      [ReropeFacts]: the search, softmax in pieces by exact arithmetic, and the
      attention the kernels are to compute; [ReropeRuns], [ReropeSegments]: what
      their programs store; [ReropeAttention]: the function; [ReropeDemo]:
      rational runs, and the laws for the real numbers.

    MindIE.
    - [MindieHash], [MindiePool], [MindiePlugin]: hash_mindie/uc_hash_ext.cpp and
      the Python hash, unifiedcache_mempool.py, prefix_cache_plugin.py with
      uc_utils.py.

    ** Conventions

    Python integers are [Z]; machine-width integers wrap explicitly ([Layout.u64],
    the hashes of [MindieHash]).  A dictionary whose order matters is an
    association list ([od_get], [od_set]), others are [gmap]s.  Objects that
    Python shares (requests, blocks) live in heaps indexed by their ids.  A
    method is a function [S -> res A * S]: the state changes made before an
    exception survive it.  Tensors are lists, or opaque behind operations the
    code applies to them.  What is not under [src] (hashlib, pickle, YAML, the
    operating system, vLLM's managers, torch) is a parameter, with its documented
    behaviour as a record or class of laws; every theorem that assumes such laws
    has a witness at an instance that satisfies them.

    ** What the theorems show

    - Storing and finding: what is saved is restored ([kv_round_trip]), promised
      tokens are held ([matched_tokens_are_held]), every block is dumped once
      ([prefill_dumps_each_new_block_once]), ids name prefixes
      ([block_ids_name_prefixes]), a load fills its blocks or reports them
      ([start_load_fills_or_reports]), also layer by layer
      ([layerwise_load_complete], [save_kv_layer_overlaps]).
    - Errors: recovered requests recompute and emit nothing
      ([invalid_blocks_are_recomputed], [recovered_requests_emit_nothing],
      [async_load_keeps_the_valid_prefix], [failed_blocks_are_not_cached]).
    - Scheduling: a step of the sparse scheduler ends, within its budget, and
      loses no request ([schedule_returns_within_budget],
      [schedule_keeps_every_request]).
    - Memory: caching block by block is caching at once
      ([cache_blocks_in_steps]), allocation and sizing stay within what is
      there ([allocate_slots_caches_final_tokens], [kv_cache_config_fits]).
    - Sparse attention: the two sides keep the same blocks
      ([scheduler_and_worker_keep_the_same_blocks]), moves keep contents
      ([moved_blocks_keep_their_content]), requests do not share rows
      ([gsa_rows_are_disjoint]), tables hold the selected blocks and
      where the block being filled is not their last one
      ([sparse_tables_hold_the_selection]).  ESA's window holds the stored
      blocks of a retrieval whenever an attention runs
      ([esa_window_holds_the_selection]), asked for under the names they were
      stored with ([esa_hashes_are_the_connectors]), and every slot has one
      owner ([esa_slots_have_one_owner]).  KVStar's first group holds the last
      queries of the prompt ([prefill_group_is_the_last_queries]) and its window
      the blocks chosen for a full group one stride old
      ([retrieved_blocks_reach_their_window]); boundary cases of it go wrong
      ([first_decode_step_keeps_the_tail], [short_prompts_cannot_decode],
      [prompt_below_a_block_raises]).
    - Kernels: paged attention computes the masked softmax of every token,
      launched over all blocks or over segments that are merged
      ([rerope_attention_is_masked_attention]), with a window one shorter than
      the argument ([rerope_window_is_one_short]).
    - Kernels and hashes: the rotation kernel equals the plain loop in every
      interleaving ([block_wise_rope_is_naive_rope]); the C++ hashes are the
      Python ones ([hash_prefix_is_hash_block]).

    The [Example]s of the modules named [...Demo] evaluate the definitions, and
    trace the places where the code does not do what it means to.

    ** Fuel

    Recursion is structural wherever the code's loop is over a list.  The loops
    that are not: [SparseScheduler.schedule_running] and [schedule_waiting] get
    one round per request and one to end, [allocate_or_preempt] one round per
    running request (each preempts one); [schedule_returns_within_budget] shows
    that this is enough.  [PyStr.digits_of] gets the binary logarithm of its
    argument.  [Rerope.find_loop] gets the number of sequences: every round shrinks
    the range ([find_loop_spec]).

    ** Not modelled

    - Tensor arithmetic: attention and the representatives of keys (the hooks of
      gsa.py that compute them, retake, the attention patches); it has no
      decisions to verify apart from the numbers.
      The branches of gsa_on_device.py for NPUs, which call other kernels.
    - vLLM's own code repeated in the patches of the model runners, and the
      patches of model classes, which move tensors between the hooks.
    - Native code: the stores, the retrieval and offload workers in C++ and CUDA;
      they appear as interfaces ([uc_hash_ext.cpp] is modelled).
    - Input and output: logging, metrics, traces, command-line tools, the proxy
      server, benchmarks, tests, and patching modules at import. *)

From Stdlib Require Export ZArith Lia.
From Stdlib Require SpecFloat.
From stdpp Require Export base gmap strings list fin_maps fin_sets.

#[export] Set Default Goal Selector "!".
Local Open Scope Z_scope.

(** Python's [//] and [%] are floor division and its remainder, which are
    [Z.div] and [Z.modulo]; [lia] is told their equations. *)
Ltac Zify.zify_post_hook ::= Z.div_mod_to_equations.

Declare Scope py_scope.
Delimit Scope py_scope with py.

(** ** Exceptions, results *)

(** The exception classes the modelled code raises or catches. *)
Inductive exn : Type :=
  | AssertionError
  | IndexError
  | KeyError
  | ValueError
  | TypeError
  | AttributeError
  | NameError
  | ImportError
  | ZeroDivisionError
  | OverflowError
  | StopIteration
  | FileNotFoundError
  | RuntimeError
  | NotImplementedError.

#[global] Instance exn_eq_dec : EqDecision exn.
Proof. solve_decision. Defined.

(** [except RuntimeError] also catches its subclass [NotImplementedError]. *)
Definition is_runtime_error (e : exn) : bool :=
  match e with
  | RuntimeError | NotImplementedError => true
  | _ => false
  end.

Inductive res (A : Type) : Type :=
  | Ok (a : A)
  | Err (e : exn).
Arguments Ok {A} _.
Arguments Err {A} _.

Definition is_ok {A} (r : res A) : bool :=
  match r with Ok _ => true | Err _ => false end.

Definition res_map {A B} (f : A -> B) (r : res A) : res B :=
  match r with Ok a => Ok (f a) | Err e => Err e end.

(** [[f(x) for x in l]] for an [f] that may raise. *)
Fixpoint map_res {A B} (f : A -> res B) (l : list A) : res (list B) :=
  match l with
  | [] => Ok []
  | x :: l' => match f x with
               | Ok y => match map_res f l' with Ok ys => Ok (y :: ys) | Err e => Err e end
               | Err e => Err e
               end
  end.

(** A lookup that fails with the given exception. *)
Definition of_option {A} (e : exn) (o : option A) : res A :=
  match o with Some a => Ok a | None => Err e end.

(** ** Stateful, fallible code

    A method is a function from the state to its result and the state it
    leaves; a state change made before an exception survives it, as in
    Python. *)
Definition M (S A : Type) : Type := S -> res A * S.

Section monad.
Context {S : Type}.

Definition ret {A} (a : A) : M S A := fun s => (Ok a, s).
Definition raise {A} (e : exn) : M S A := fun s => (Err e, s).
Definition bind {A B} (m : M S A) (k : A -> M S B) : M S B :=
  fun s => match m s with
           | (Ok a, s') => k a s'
           | (Err e, s') => (Err e, s')
           end.
Definition get : M S S := fun s => (Ok s, s).
Definition gets {A} (f : S -> A) : M S A := fun s => (Ok (f s), s).
Definition modify (f : S -> S) : M S unit := fun s => (Ok tt, f s).
Definition lift_res {A} (r : res A) : M S A := fun s => (r, s).
(** [assert b] *)
Definition py_assert (b : bool) : M S unit :=
  if b then ret tt else raise AssertionError.
(** [try: m  except <matching p>: h] *)
Definition catch {A} (p : exn -> bool) (m : M S A) (h : exn -> M S A) : M S A :=
  fun s => match m s with
           | (Ok a, s') => (Ok a, s')
           | (Err e, s') => if p e then h e s' else (Err e, s')
           end.
Definition catch_runtime {A} (m : M S A) (h : M S A) : M S A :=
  catch is_runtime_error m (fun _ => h).
(** [except Exception]: every class above derives from [Exception]. *)
Definition catch_any {A} (m : M S A) (h : M S A) : M S A :=
  catch (fun _ => true) m (fun _ => h).
(** [try: m  finally: h], for an [h] that cannot fail. *)
Definition finally {A} (m : M S A) (h : S -> S) : M S A :=
  fun s => match m s with (r, s') => (r, h s') end.

(** [for x in l: f x] *)
Fixpoint for_ {A} (l : list A) (f : A -> M S unit) : M S unit :=
  match l with
  | [] => ret tt
  | x :: l' => bind (f x) (fun _ => for_ l' f)
  end.
(** A loop that carries a local accumulator. *)
Fixpoint for_acc {A B} (l : list A) (b : B) (f : B -> A -> M S B) : M S B :=
  match l with
  | [] => ret b
  | x :: l' => bind (f b x) (fun b' => for_acc l' b' f)
  end.
Fixpoint map_m {A B} (f : A -> M S B) (l : list A) : M S (list B) :=
  match l with
  | [] => ret []
  | x :: l' => bind (f x) (fun y => bind (map_m f l') (fun ys => ret (y :: ys)))
  end.
End monad.

(** Running a computation on a part of the state. *)
Definition zoom {S T A} (g : S -> T) (p : T -> S -> S) (m : M T A) : M S A :=
  fun s => match m (g s) with (r, t) => (r, p t s) end.

Notation "'let!' x := m 'in' k" := (bind m (fun x => k))
  (at level 10, x name, m at level 100, k at level 200) : py_scope.
Notation "'let!' ' p := m 'in' k" := (bind m (fun x => match x with p => k end))
  (at level 10, p pattern, m at level 100, k at level 200) : py_scope.
Notation "'do!' m 'in' k" := (bind m (fun _ => k))
  (at level 10, m at level 100, k at level 200) : py_scope.
Notation "'let?' x := m 'in' k" :=
  (match m with Ok x => k | Err e => Err e end)
  (at level 10, x name, m at level 100, k at level 200) : py_scope.

(** ** Python lists *)

Definition pylen {A} (l : list A) : Z := Z.of_nat (length l).

(** [-(-a // b)]: what [math.ceil(a / b)] is on the sizes the code divides. *)
Definition cdiv (a b : Z) : Z := - ((- a) / b).

(** The items [lo, lo+1, ...] below [hi]. *)
Definition zrange (lo hi : Z) : list Z :=
  (fun i => lo + Z.of_nat i) <$> seq 0 (Z.to_nat (hi - lo)).

(** [range(lo, hi, step)] for a positive step. *)
Definition pyrange (lo hi step : Z) : list Z :=
  (fun i => lo + step * Z.of_nat i) <$> seq 0 (Z.to_nat (cdiv (hi - lo) step)).

Definition enumerate_from {A} (i : Z) (l : list A) : list (Z * A) :=
  zip (zrange i (i + pylen l)) l.
Definition enumerate {A} (l : list A) : list (Z * A) := enumerate_from 0 l.

(** A slice bound, as CPython's [PySlice_AdjustIndices] clamps it. *)
Definition slice_bound (n i : Z) : Z :=
  if i <? 0 then Z.max 0 (n + i) else Z.min i n.

(** [l[lo:hi]], [l[lo:]] and [l[:hi]], negative bounds counted from the end. *)
Definition slice {A} (l : list A) (lo hi : Z) : list A :=
  let n := pylen l in
  let lo' := slice_bound n lo in
  let hi' := slice_bound n hi in
  take (Z.to_nat (hi' - lo')) (drop (Z.to_nat lo') l).
Definition slice_from {A} (l : list A) (lo : Z) : list A := slice l lo (pylen l).
Definition slice_to {A} (l : list A) (hi : Z) : list A := slice l 0 hi.

(** [l[r::k]] for [0 <= r] and [0 < k]. *)
Fixpoint every_nth {A} (k r : nat) (l : list A) : list A :=
  match l with
  | [] => []
  | x :: l' => match r with
               | O => x :: every_nth k (k - 1) l'
               | S r' => every_nth k r' l'
               end
  end.
Definition slice_step {A} (l : list A) (r k : Z) : list A :=
  every_nth (Z.to_nat k) (Z.to_nat r) l.

(** [l[i]], [None] where Python raises [IndexError]. *)
Definition py_nth {A} (l : list A) (i : Z) : option A :=
  let n := pylen l in
  if i <? 0 then (if n + i <? 0 then None else l !! Z.to_nat (n + i))
  else l !! Z.to_nat i.
Definition py_idx {A} (l : list A) (i : Z) : res A := of_option IndexError (py_nth l i).

(** [l[i] = x] on an existing index; [None] where Python raises. *)
Definition py_setitem {A} (l : list A) (i : Z) (x : A) : option (list A) :=
  let n := pylen l in
  let j := if i <? 0 then n + i else i in
  if (j <? 0) || (n <=? j) then None else Some (<[Z.to_nat j := x]> l).

(** [[x] * n] *)
Definition py_repeat {A} (x : A) (n : Z) : list A := replicate (Z.to_nat n) x.

Definition zsum (l : list Z) : Z := foldr Z.add 0 l.
Definition zprod (l : list Z) : Z := foldr Z.mul 1 l.

Definition mem {A} `{EqDecision A} (x : A) (l : list A) : bool := bool_decide (x ∈ l).

(** [list(itertools.compress(data, selectors))] *)
Fixpoint compress {A} (l : list A) (sel : list bool) : list A :=
  match l, sel with
  | x :: l', b :: sel' => if b then x :: compress l' sel' else compress l' sel'
  | _, _ => []
  end.

(** [list(itertools.accumulate(l))] *)
Fixpoint accumulate_from (acc : Z) (l : list Z) : list Z :=
  match l with
  | [] => []
  | x :: l' => (acc + x) :: accumulate_from (acc + x) l'
  end.
Definition accumulate (l : list Z) : list Z := accumulate_from 0 l.

(** ** Floats

    Python floats are IEEE binary64. *)
Definition float := SpecFloat.spec_float.
Definition float_of_Z (z : Z) : float := SpecFloat.binary_normalize 53 1024 z 0 false.
Definition float_mul (x y : float) : float := SpecFloat.SFmul 53 1024 x y.

(** [int(x)]: truncation towards zero. *)
Definition int_of_float (x : float) : res Z :=
  match x with
  | SpecFloat.S754_zero _ => Ok 0
  | SpecFloat.S754_infinity _ => Err OverflowError
  | SpecFloat.S754_nan => Err ValueError
  | SpecFloat.S754_finite s m e =>
      let a := if 0 <=? e then Z.pos m * 2 ^ e else Z.pos m / 2 ^ (- e) in
      Ok (if s then - a else a)
  end.

(** [math.ceil(x)] *)
Definition ceil_of_float (x : float) : res Z :=
  match x with
  | SpecFloat.S754_zero _ => Ok 0
  | SpecFloat.S754_infinity _ => Err OverflowError
  | SpecFloat.S754_nan => Err ValueError
  | SpecFloat.S754_finite s m e =>
      let v := if s then Z.neg m else Z.pos m in
      Ok (if 0 <=? e then v * 2 ^ e else cdiv v (2 ^ (- e)))
  end.

(** ** Ordered dictionaries

    A Python [dict] whose iteration order matters is an association list
    without duplicate keys, in insertion order; assigning to an existing key
    keeps its place. *)
Section odict.
Context {K V : Type} `{EqDecision K}.

Fixpoint od_get (k : K) (d : list (K * V)) : option V :=
  match d with
  | [] => None
  | (k', v) :: d' => if decide (k = k') then Some v else od_get k d'
  end.
Fixpoint od_set (k : K) (v : V) (d : list (K * V)) : list (K * V) :=
  match d with
  | [] => [(k, v)]
  | (k', v') :: d' => if decide (k = k') then (k, v) :: d' else (k', v') :: od_set k v d'
  end.
Fixpoint od_del (k : K) (d : list (K * V)) : list (K * V) :=
  match d with
  | [] => []
  | (k', v') :: d' => if decide (k = k') then d' else (k', v') :: od_del k d'
  end.
Definition od_mem (k : K) (d : list (K * V)) : bool :=
  match od_get k d with Some _ => true | None => false end.
Definition od_keys (d : list (K * V)) : list K := d.*1.
Definition od_values (d : list (K * V)) : list V := d.*2.
End odict.

(** ** Lemmas the components share *)

Create HintDb py.
Create Rewrite HintDb pylen.

(** Run the monadic glue of a goal. *)
Ltac m_unfold :=
  unfold bind, ret, raise, get, gets, modify, lift_res, py_assert, catch_runtime,
    catch_any, catch, finally, zoom in *.

(** Case analysis on the scrutinee of the first [match] of the goal. *)
Ltac m_case :=
  match goal with
  | |- context [ match ?x with _ => _ end ] => destruct x eqn:?
  end.

Lemma bind_ret {S A B} (a : A) (k : A -> M S B) : bind (ret a) k = k a.
Proof. reflexivity. Qed.

Lemma bind_raise {S A B} e (k : A -> M S B) : bind (raise e) k = raise e.
Proof. reflexivity. Qed.

Lemma bind_ok {S A B} (m : M S A) (k : A -> M S B) s a s' :
  m s = (Ok a, s') -> bind m k s = k a s'.
Proof. intros H. unfold bind. by rewrite H. Qed.

Lemma bind_err {S A B} (m : M S A) (k : A -> M S B) s e s' :
  m s = (Err e, s') -> bind m k s = (Err e, s').
Proof. intros H. unfold bind. by rewrite H. Qed.

Lemma bind_assert {S B} b (k : unit -> M S B) : b = true -> bind (py_assert b) k = k tt.
Proof. by intros ->. Qed.

Lemma bind_assert_fail {S B} b (k : unit -> M S B) s :
  b = false -> bind (py_assert b) k s = (Err AssertionError, s).
Proof. by intros ->. Qed.

Lemma bind_inv_ok {S A B} (m : M S A) (k : A -> M S B) s b s'' :
  bind m k s = (Ok b, s'') -> exists a s', m s = (Ok a, s') /\ k a s' = (Ok b, s'').
Proof. unfold bind. destruct (m s) as [[a|e] s']; intros; [eauto | done]. Qed.

Lemma run_ok {S A} (m : M S A) s a : (m s).1 = Ok a -> m s = (Ok a, (m s).2).
Proof. destruct (m s) as [r s']. simpl. by intros ->. Qed.

Lemma catch_any_ok {S A} (m : M S A) h s a s' :
  m s = (Ok a, s') -> catch_any m h s = (Ok a, s').
Proof. intros H. unfold catch_any, catch. by rewrite H. Qed.

(** A loop body that preserves a state property keeps it through the loop,
    whether or not the loop runs to its end. *)
Lemma for_preserves {S A} (P : S -> Prop) (l : list A) (f : A -> M S unit) s :
  (forall x s, x ∈ l -> P s -> P (f x s).2) -> P s -> P (for_ l f s).2.
Proof.
  revert s. induction l as [|x l IH]; intros s Hf Hs; simpl; [done|].
  unfold bind. pose proof (Hf x s ltac:(left) Hs) as Hx.
  destruct (f x s) as [[[]|e] s']; simpl in *; [|done].
  apply IH; [|done]. intros y s'' Hy. apply Hf. by right.
Qed.

Lemma for_inv_ok {S A} (P : S -> Prop) (l : list A) (f : A -> M S unit) s s' :
  (forall x s s', x ∈ l -> P s -> f x s = (Ok tt, s') -> P s') ->
  for_ l f s = (Ok tt, s') -> P s -> P s'.
Proof.
  revert s. induction l as [|x l IH]; intros s Hf Hr Hs; [by injection Hr as <-|].
  cbn [for_] in Hr. apply bind_inv_ok in Hr as ([] & s1 & H1 & Hr).
  apply (IH s1); [intros y ? ? Hy; apply Hf; by right|done|]. by eapply Hf; [left|..].
Qed.

Lemma for_app {S A} (l1 l2 : list A) (f : A -> M S unit) s :
  for_ (l1 ++ l2) f s = bind (for_ l1 f) (fun _ => for_ l2 f) s.
Proof.
  revert s. induction l1 as [|x l1 IH]; intros s; [done|].
  simpl. unfold bind at 1 2 3. unfold bind in IH at 1.
  destruct (f x s) as [[[]|e] s']; [apply IH | done].
Qed.

Lemma for_acc_ext {S A A' B} (f : B -> A -> M S B) (g : B -> A' -> M S B) l l' b s :
  Forall2 (fun x y => forall b s, f b x s = g b y s) l l' ->
  for_acc l b f s = for_acc l' b g s.
Proof.
  intros Hl. revert b s. induction Hl as [|x y l l' Hxy _ IH]; intros b s; [done|].
  simpl. unfold bind. rewrite Hxy. destruct (g b y s) as [[b'|e] s']; [apply IH|done].
Qed.

Lemma for_acc_inv {S A B} (P : B -> Prop) (f : B -> A -> M S B) l b s b' s' :
  (forall b a s b' s', a ∈ l -> P b -> f b a s = (Ok b', s') -> P b') ->
  for_acc l b f s = (Ok b', s') -> P b -> P b'.
Proof.
  revert b s. induction l as [|a l IH]; intros b s Hf Hr Hb; [by injection Hr as <- <-|].
  cbn [for_acc] in Hr. apply bind_inv_ok in Hr as (b1 & s1 & H1 & Hr).
  apply (IH b1 s1); [|done|by eapply Hf; [left|..]]. intros ????? Hin. apply Hf. by right.
Qed.

Lemma for_acc_app {S A B} (f : B -> A -> M S B) l1 l2 b s :
  for_acc (l1 ++ l2) b f s = bind (for_acc l1 b f) (fun b' => for_acc l2 b' f) s.
Proof.
  revert b s. induction l1 as [|x l1 IH]; intros b s; [done|].
  simpl. unfold bind at 1 2 3. unfold bind in IH at 1.
  destruct (f b x s) as [[b'|e] s']; [apply IH | done].
Qed.

Lemma map_m_ret {S A B} (f : A -> B) (l : list A) (s : S) :
  map_m (fun x => ret (f x)) l s = (Ok (f <$> l), s).
Proof. induction l as [|x l IH]; simpl; [done|]. unfold bind, ret in *. by rewrite IH. Qed.

Lemma map_res_ok {A B} (f : A -> res B) (g : A -> B) l : (forall x, x ∈ l -> f x = Ok (g x)) -> map_res f l = Ok (g <$> l).
Proof.
  induction l as [|x l IH]; intros Hf; [done|]. simpl. rewrite (Hf x) by (by left).
  rewrite IH; [done|]. intros y Hy. apply Hf. by right.
Qed.

Lemma py_setitem_ok {A} (l : list A) i x :
  0 <= i < pylen l -> py_setitem l i x = Some (<[Z.to_nat i := x]> l).
Proof.
  intros Hi. unfold py_setitem. rewrite (proj2 (Z.ltb_ge i 0)) by lia.
  by rewrite (proj2 (Z.ltb_ge i 0)), (proj2 (Z.leb_gt _ _)) by lia.
Qed.

Lemma pylen_nil {A} : pylen (@nil A) = 0.
Proof. reflexivity. Qed.
Lemma pylen_cons {A} (x : A) l : pylen (x :: l) = 1 + pylen l.
Proof. unfold pylen. simpl. lia. Qed.
Lemma pylen_app {A} (l1 l2 : list A) : pylen (l1 ++ l2) = pylen l1 + pylen l2.
Proof. unfold pylen. rewrite length_app. lia. Qed.
Lemma pylen_nonneg {A} (l : list A) : 0 <= pylen l.
Proof. unfold pylen. lia. Qed.
Lemma pylen_fmap {A B} (f : A -> B) l : pylen (f <$> l) = pylen l.
Proof. unfold pylen. by rewrite length_fmap. Qed.
Lemma pylen_zero {A} (l : list A) : pylen l = 0 <-> l = [].
Proof. unfold pylen. destruct l; simpl; split; intros; [done..|lia|done]. Qed.
Lemma pylen_repeat {A} (x : A) n : 0 <= n -> pylen (py_repeat x n) = n.
Proof. intros. unfold pylen, py_repeat. rewrite length_replicate. lia. Qed.

#[export] Hint Rewrite @pylen_nil @pylen_cons @pylen_app @pylen_fmap : pylen.
#[export] Hint Resolve pylen_nonneg : py.

Lemma cdiv_spec a b : 0 < b -> b * (cdiv a b - 1) < a <= b * cdiv a b.
Proof. intros Hb. unfold cdiv. nia. Qed.

Lemma cdiv_unique a b q : 0 < b -> b * (q - 1) < a <= b * q -> cdiv a b = q.
Proof. intros Hb Hq. pose proof (cdiv_spec a b Hb). nia. Qed.

Lemma cdiv_mul q b : 0 < b -> cdiv (b * q) b = q.
Proof. intros. apply cdiv_unique; lia. Qed.

Lemma cdiv_mono a a' b : 0 < b -> a <= a' -> cdiv a b <= cdiv a' b.
Proof. intros Hb Ha. pose proof (cdiv_spec a b Hb). pose proof (cdiv_spec a' b Hb). nia. Qed.

Lemma cdiv_nonneg a b : 0 < b -> 0 <= a -> 0 <= cdiv a b.
Proof. intros Hb Ha. pose proof (cdiv_spec a b Hb). nia. Qed.

Lemma length_zrange lo hi : length (zrange lo hi) = Z.to_nat (hi - lo).
Proof. unfold zrange. by rewrite length_fmap, length_seq. Qed.

Lemma pylen_zrange lo hi : lo <= hi -> pylen (zrange lo hi) = hi - lo.
Proof. intros. unfold pylen. rewrite length_zrange. lia. Qed.

Lemma elem_of_zrange lo hi x : x ∈ zrange lo hi <-> lo <= x < hi.
Proof.
  unfold zrange. rewrite list_elem_of_fmap. setoid_rewrite elem_of_seq. split.
  - intros (i & -> & Hi). lia.
  - intros Hx. exists (Z.to_nat (x - lo)). lia.
Qed.

Lemma zrange_nil lo hi : hi <= lo -> zrange lo hi = [].
Proof. intros. unfold zrange. by replace (Z.to_nat (hi - lo)) with O by lia. Qed.

Lemma zrange_cons lo hi : lo < hi -> zrange lo hi = lo :: zrange (lo + 1) hi.
Proof.
  intros. unfold zrange. replace (Z.to_nat (hi - lo)) with (S (Z.to_nat (hi - (lo + 1)))) by lia.
  simpl. f_equal; [lia|]. rewrite <- fmap_S_seq, <- list_fmap_compose.
  apply list_fmap_ext. intros i x _. simpl. lia.
Qed.

Lemma zrange_app lo mid hi :
  lo <= mid <= hi -> zrange lo hi = zrange lo mid ++ zrange mid hi.
Proof.
  intros H. unfold zrange.
  replace (Z.to_nat (hi - lo)) with (Z.to_nat (mid - lo) + Z.to_nat (hi - mid))%nat by lia.
  rewrite seq_app, fmap_app. f_equal.
  simpl. rewrite <- (Nat.add_0_r (Z.to_nat (mid - lo))) at 1.
  rewrite <- fmap_add_seq, <- list_fmap_compose.
  apply list_fmap_ext. intros i x _. simpl. lia.
Qed.

(** *** Slices *)

Lemma slice_nonneg {A} (l : list A) lo hi :
  0 <= lo -> 0 <= hi ->
  slice l lo hi = take (Z.to_nat hi - Z.to_nat lo) (drop (Z.to_nat lo) l).
Proof.
  intros Hlo Hhi. unfold slice, slice_bound, pylen.
  rewrite (proj2 (Z.ltb_ge lo 0)), (proj2 (Z.ltb_ge hi 0)) by lia.
  destruct (decide (Z.of_nat (length l) <= lo)) as [Hge|Hlt].
  - rewrite !(drop_ge l) by lia. by rewrite !take_nil.
  - replace (Z.min lo (Z.of_nat (length l))) with lo by lia.
    destruct (decide (Z.of_nat (length l) <= hi)).
    + rewrite !take_ge; [done|rewrite length_drop; lia..].
    + f_equal. lia.
Qed.

Lemma pylen_slice {A} (l : list A) lo hi :
  0 <= lo -> 0 <= hi ->
  pylen (slice l lo hi) = Z.max 0 (Z.min hi (pylen l) - lo).
Proof.
  intros. rewrite slice_nonneg by done. unfold pylen.
  rewrite length_take, length_drop. lia.
Qed.

Lemma slice_empty {A} (l : list A) lo hi : 0 <= lo -> 0 <= hi <= lo -> slice l lo hi = [].
Proof.
  intros. apply pylen_zero. rewrite pylen_slice by lia. lia.
Qed.

Lemma slice_app_adj {A} (l : list A) a b c :
  0 <= a <= b -> b <= c -> slice l a b ++ slice l b c = slice l a c.
Proof.
  intros Ha Hb. rewrite !slice_nonneg by lia.
  replace (Z.to_nat c - Z.to_nat a)%nat
    with ((Z.to_nat b - Z.to_nat a) + (Z.to_nat c - Z.to_nat b))%nat by lia.
  rewrite <- take_take_drop. f_equal. f_equal. rewrite drop_drop. f_equal. lia.
Qed.

Lemma slice_full {A} (l : list A) lo hi :
  0 <= lo -> pylen l <= hi -> slice l lo hi = drop (Z.to_nat lo) l.
Proof.
  intros Hlo Hhi. pose proof (pylen_nonneg l). rewrite slice_nonneg by lia. apply take_ge.
  rewrite length_drop. unfold pylen in *. lia.
Qed.

Lemma slice_from_drop {A} (l : list A) lo : 0 <= lo -> slice_from l lo = drop (Z.to_nat lo) l.
Proof. intros. apply slice_full; lia. Qed.

Lemma slice_to_take {A} (l : list A) hi : 0 <= hi -> slice_to l hi = take (Z.to_nat hi) l.
Proof.
  intros. unfold slice_to. rewrite slice_nonneg by lia. simpl. by rewrite Nat.sub_0_r.
Qed.

Lemma slice_init {A} (l : list A) : slice l 0 (-1) = take (length l - 1) l.
Proof.
  unfold slice, slice_bound, pylen. rewrite (Z.min_l 0) by lia. cbn -[Z.sub Z.max Z.to_nat].
  rewrite drop_0. f_equal. lia.
Qed.

Lemma slice_to_from {A} (l : list A) k : 0 <= k -> slice_to l k ++ slice_from l k = l.
Proof. intros. rewrite slice_from_drop, slice_to_take by done. apply take_drop. Qed.

Lemma lookup_slice {A} (l : list A) lo hi (i : nat) :
  0 <= lo -> 0 <= hi ->
  slice l lo hi !! i =
    if decide (Z.of_nat i < hi - lo) then l !! (Z.to_nat lo + i)%nat else None.
Proof.
  intros Hlo Hhi. rewrite slice_nonneg by done. case_decide as H.
  - rewrite lookup_take_lt by lia. apply lookup_drop.
  - apply lookup_take_ge. lia.
Qed.

Lemma slice_fmap {A B} (f : A -> B) l lo hi : f <$> slice l lo hi = slice (f <$> l) lo hi.
Proof. unfold slice. rewrite pylen_fmap, fmap_take, fmap_drop. done. Qed.

Lemma slice_app_l {A} (l1 l2 : list A) lo hi :
  0 <= lo -> 0 <= hi <= pylen l1 -> slice (l1 ++ l2) lo hi = slice l1 lo hi.
Proof.
  intros Hlo Hhi. rewrite !slice_nonneg by lia. unfold pylen in *.
  apply list_eq. intros i. destruct (decide (i < Z.to_nat hi - Z.to_nat lo)%nat).
  - rewrite !lookup_take_lt, !lookup_drop by lia. apply lookup_app_l. lia.
  - by rewrite !lookup_take_ge by lia.
Qed.

Lemma sublist_fmap {A B} (f : A -> B) l1 l2 : l1 `sublist_of` l2 -> f <$> l1 `sublist_of` f <$> l2.
Proof. apply fmap_sublist. Qed.

Lemma slice_sublist {A} (l : list A) lo hi : slice l lo hi `sublist_of` l.
Proof. unfold slice. etrans; [apply sublist_take|apply sublist_drop]. Qed.

Lemma NoDup_slice {A} (l : list A) lo hi : NoDup l -> NoDup (slice l lo hi).
Proof. intros Hl. exact (sublist_NoDup _ _ Hl (slice_sublist l lo hi)). Qed.

Lemma elem_of_slice {A} (l : list A) lo hi x : x ∈ slice l lo hi -> x ∈ l.
Proof.
  unfold slice. intros H.
  apply elem_of_take in H as (i & H & _). rewrite lookup_drop in H.
  by eapply list_elem_of_lookup_2.
Qed.

(** *** Strided slices *)

Lemma every_nth_drop {A} k r (l : list A) : every_nth k r l = every_nth k 0 (drop r l).
Proof. revert r. induction l as [|x l IH]; intros [|r]; simpl; auto. Qed.

Lemma lookup_every_nth {A} k r (l : list A) i :
  (0 < k)%nat -> every_nth k r l !! i = l !! (r + k * i)%nat.
Proof.
  intros Hk. revert r i. induction l as [|x l IH]; intros r i; simpl.
  - by rewrite lookup_nil.
  - destruct r as [|r].
    + destruct i as [|i]; simpl; [by rewrite Nat.mul_0_r|].
      rewrite IH. replace (k * S i)%nat with (S (k - 1 + k * i)) by lia. done.
    + rewrite IH. done.
Qed.

Lemma lookup_slice_step {A} (l : list A) r k (i : nat) :
  0 <= r -> 0 < k -> slice_step l r k !! i = l !! (Z.to_nat r + Z.to_nat k * i)%nat.
Proof. intros. unfold slice_step. apply lookup_every_nth. lia. Qed.

Lemma every_nth_fmap {A B} (f : A -> B) k r l : f <$> every_nth k r l = every_nth k r (f <$> l).
Proof. revert r. induction l as [|x l IH]; intros [|r]; simpl; f_equal; auto. Qed.

(** The strides of a list of [k * n] items have [n] items each. *)
Lemma length_every_nth {A} k r (l : list A) n :
  (r < k)%nat -> length l = (k * n)%nat -> length (every_nth k r l) = n.
Proof.
  intros Hr Hl. apply Nat.le_antisymm.
  - apply lookup_ge_None. rewrite lookup_every_nth by lia. apply lookup_ge_None. lia.
  - destruct n as [|n]; [lia|]. apply (lookup_lt_is_Some (every_nth k r l) n).
    rewrite lookup_every_nth by lia. apply lookup_lt_is_Some. nia.
Qed.

(** *** [enumerate], [compress] *)

Lemma lookup_enumerate {A} (l : list A) i :
  enumerate l !! i = (fun x => (Z.of_nat i, x)) <$> l !! i.
Proof.
  unfold enumerate, enumerate_from, zrange. rewrite lookup_zip_with, list_lookup_fmap.
  destruct (l !! i) as [x|] eqn:Hx; simpl.
  - apply lookup_lt_Some in Hx as Hlt. rewrite lookup_seq_lt; [simpl; f_equal; f_equal; lia|].
    unfold pylen. lia.
  - by destruct (seq _ _ !! i).
Qed.

Lemma enumerate_from_nil {A} i : enumerate_from i (@nil A) = [].
Proof. unfold enumerate_from. by destruct (zrange _ _). Qed.
Lemma enumerate_from_cons {A} i (x : A) l : enumerate_from i (x :: l) = (i, x) :: enumerate_from (i + 1) l.
Proof.
  unfold enumerate_from. rewrite pylen_cons, (zrange_cons i) by (pose proof (pylen_nonneg l); lia). simpl.
  do 3 f_equal. lia.
Qed.

Lemma enumerate_snd {A} (l : list A) : (enumerate l).*2 = l.
Proof.
  apply list_eq. intros i. rewrite list_lookup_fmap, lookup_enumerate. by destruct (l !! i).
Qed.

Lemma compress_fmap {A B} (f : A -> B) l sel : f <$> compress l sel = compress (f <$> l) sel.
Proof. revert sel. induction l; intros [|[]]; simpl; f_equal; auto. Qed.

Lemma length_compress_eq {A B} (l : list A) (l' : list B) sel :
  length l = length l' -> length (compress l sel) = length (compress l' sel).
Proof. revert l' sel. induction l; intros [|? ?] [|[]] ?; simplify_eq/=; auto. Qed.

Lemma compress_true {A} (l : list A) sel :
  Forall (eq true) sel -> length l = length sel -> compress l sel = l.
Proof.
  intros H. revert l. induction H as [|b sel <- _ IH]; intros [|x l] ?; simplify_eq/=; auto.
  f_equal; auto.
Qed.

Lemma sublist_compress {A} (l : list A) sel : compress l sel `sublist_of` l.
Proof.
  revert sel. induction l as [|x l IH]; intros [|b sel]; simpl; [constructor..| |].
  - apply sublist_nil_l.
  - destruct b; constructor; auto.
Qed.

(** *** Ordered dictionaries *)
Section odict_lemmas.
Context {K V : Type} `{EqDecision K}.
Implicit Types (d : list (K * V)).

Lemma od_get_set_eq k v d : od_get k (od_set k v d) = Some v.
Proof.
  induction d as [|[k' v'] d IH]; simpl; [by rewrite decide_True|].
  case_decide; subst; simpl; [by rewrite decide_True | by rewrite decide_False].
Qed.

Lemma od_get_set_ne k k' v d : k <> k' -> od_get k (od_set k' v d) = od_get k d.
Proof.
  intros Hne. induction d as [|[k'' v''] d IH]; simpl.
  - by rewrite decide_False.
  - repeat (case_decide; simpl); simplify_eq; auto.
Qed.

Lemma od_get_set k k' v d :
  od_get k (od_set k' v d) = if decide (k = k') then Some v else od_get k d.
Proof. case_decide; subst; [apply od_get_set_eq | by apply od_get_set_ne]. Qed.

Lemma od_get_del_ne k k' d : k <> k' -> od_get k (od_del k' d) = od_get k d.
Proof.
  intros Hne. induction d as [|[k'' v''] d IH]; simpl; [done|].
  repeat (case_decide; simpl); simplify_eq; auto.
Qed.

Lemma od_get_None k d : od_get k d = None <-> k ∉ od_keys d.
Proof.
  unfold od_keys. induction d as [|[k' v'] d IH]; simpl; [set_solver|].
  case_decide; subst; set_solver.
Qed.

Lemma od_get_elem k v d : od_get k d = Some v -> (k, v) ∈ d.
Proof.
  induction d as [|[k' v'] d IH]; simpl; [done|].
  case_decide; intros; simplify_eq; [left | right; auto].
Qed.

Lemma od_elem_get k v d : NoDup (od_keys d) -> (k, v) ∈ d -> od_get k d = Some v.
Proof.
  unfold od_keys. induction d as [|[k' v'] d IH]; simpl; [set_solver|].
  intros [Hn Hd]%NoDup_cons [?|Hin]%elem_of_cons; simplify_eq.
  - by rewrite decide_True.
  - rewrite decide_False; [auto|]. intros ->. apply Hn.
    apply list_elem_of_fmap. by exists (k', v).
Qed.

Lemma od_keys_set_mem k v d : k ∈ od_keys d -> od_keys (od_set k v d) = od_keys d.
Proof.
  unfold od_keys. induction d as [|[k' v'] d IH]; simpl; [set_solver|].
  case_decide; subst; simpl; [done|]. intros [?|?]%elem_of_cons; [done|].
  f_equal. auto.
Qed.

Lemma od_keys_set_new k v d : k ∉ od_keys d -> od_keys (od_set k v d) = od_keys d ++ [k].
Proof.
  unfold od_keys. induction d as [|[k' v'] d IH]; simpl; [done|].
  intros [??]%not_elem_of_cons. rewrite decide_False by done. simpl. f_equal. auto.
Qed.

Lemma od_set_new k v d : k ∉ od_keys d -> od_set k v d = d ++ [(k, v)].
Proof.
  unfold od_keys. induction d as [|[k' v'] d IH]; simpl; [done|].
  intros [??]%not_elem_of_cons. rewrite decide_False by done. f_equal. auto.
Qed.

Lemma elem_of_od_keys_set k k' v d : k ∈ od_keys (od_set k' v d) <-> k = k' \/ k ∈ od_keys d.
Proof.
  destruct (decide (k' ∈ od_keys d)) as [Hin|Hin].
  - rewrite od_keys_set_mem by done. naive_solver.
  - rewrite od_keys_set_new by done. set_solver.
Qed.

Lemma elem_of_od_set k v d x w : (x, w) ∈ od_set k v d -> (x = k /\ w = v) \/ (x, w) ∈ d.
Proof.
  induction d as [|[k' v'] d IH]; simpl; [intros [= -> ->]%list_elem_of_singleton; by left|].
  case_decide as Hd; rewrite !elem_of_cons; [subst; naive_solver|]. naive_solver.
Qed.

Lemma od_set_NoDup k v d : NoDup (od_keys d) -> NoDup (od_keys (od_set k v d)).
Proof.
  intros Hd. destruct (decide (k ∈ od_keys d)).
  - by rewrite od_keys_set_mem.
  - rewrite od_keys_set_new by done. apply NoDup_app. repeat split; [done| |apply NoDup_singleton].
    set_solver.
Qed.

Lemma od_del_NoDup k d : NoDup (od_keys d) -> NoDup (od_keys (od_del k d)).
Proof.
  unfold od_keys. induction d as [|[k' v'] d IH]; simpl; [done|].
  intros [Hn Hd]%NoDup_cons. case_decide; [done|]. simpl. apply NoDup_cons. split; [|auto].
  intros Hin. apply Hn. clear -Hin. induction d as [|[k'' v''] d IH]; simpl in *; [done|].
  case_decide; simpl in *; set_solver.
Qed.
Lemma od_get_del_eq k d : NoDup (od_keys d) -> od_get k (od_del k d) = None.
Proof.
  induction d as [|[k' v'] d IH]; intros Hnd; [done|]. cbn in *. apply NoDup_cons in Hnd as [Hk Hnd].
  destruct (decide (k = k')) as [->|Hne]; cbn; [by apply od_get_None|].
  rewrite decide_False by done. by apply IH.
Qed.

Lemma od_del_absent k d : od_get k d = None -> od_del k d = d.
Proof.
  induction d as [|[k' v'] d IH]; cbn; [done|]. destruct (decide (k = k')); [done|].
  intros Hd. by rewrite IH.
Qed.

Lemma od_del_values k v d : od_get k d = Some v -> od_values d ≡ₚ v :: od_values (od_del k d).
Proof.
  induction d as [|[k' v'] d IH]; cbn; [done|]. destruct (decide (k = k')); [by intros [= ->]|].
  intros Hd. cbn. rewrite (IH Hd). apply Permutation_swap.
Qed.

End odict_lemmas.

#[export] Hint Resolve od_set_NoDup od_del_NoDup : py.

(** *** Membership and sums *)

Lemma mem_spec {A} `{EqDecision A} (x : A) l : mem x l = true <-> x ∈ l.
Proof. unfold mem. apply bool_decide_eq_true. Qed.

Lemma mem_false {A} `{EqDecision A} (x : A) l : mem x l = false <-> x ∉ l.
Proof. unfold mem. apply bool_decide_eq_false. Qed.

Lemma zsum_app l1 l2 : zsum (l1 ++ l2) = zsum l1 + zsum l2.
Proof. unfold zsum. induction l1; simpl; lia. Qed.

Lemma zsum_nonneg l : Forall (fun x => 0 <= x) l -> 0 <= zsum l.
Proof. unfold zsum. induction 1; simpl; lia. Qed.

Lemma zsum_const {A} (l : list A) c : zsum ((fun _ => c) <$> l) = pylen l * c.
Proof. induction l as [|x l IH]; cbn; [done|]. fold (zsum ((fun _ : A => c) <$> l)). rewrite IH, pylen_cons. lia. Qed.

Lemma py_nth_nonneg {A} (l : list A) i : 0 <= i -> py_nth l i = l !! Z.to_nat i.
Proof. intros. unfold py_nth. by rewrite (proj2 (Z.ltb_ge i 0)). Qed.

Lemma py_idx_nth {A} (l : list A) i x : 0 <= i -> l !! Z.to_nat i = Some x -> py_idx l i = Ok x.
Proof. intros Hi Hx. unfold py_idx. rewrite py_nth_nonneg by done. by rewrite Hx. Qed.

Lemma py_setitem_nth {A} (l : list A) i x y : 0 <= i -> l !! Z.to_nat i = Some x ->
  py_setitem l i y = Some (<[Z.to_nat i := y]> l).
Proof.
  intros Hi Hx. apply lookup_lt_Some in Hx. unfold py_setitem, pylen.
  rewrite (proj2 (Z.ltb_ge i 0)) by done. rewrite (proj2 (Z.ltb_ge i 0)), (proj2 (Z.leb_gt _ _)) by lia. done.
Qed.

Lemma py_nth_Some {A} (l : list A) i x : py_nth l i = Some x -> - pylen l <= i < pylen l.
Proof.
  unfold py_nth, pylen. destruct (Z.ltb_spec i 0).
  - destruct (Z.ltb_spec (Z.of_nat (length l) + i) 0); [done|]. lia.
  - intros ?%lookup_lt_Some. lia.
Qed.

(** *** Concatenations *)

Lemma py_idx_snoc {A} (l : list A) x : py_idx (l ++ [x]) (-1) = Ok x.
Proof.
  unfold py_idx, py_nth. rewrite pylen_app. change (pylen [x]) with 1. pose proof (pylen_nonneg l). change (-1 <? 0) with true. cbv iota.
  rewrite (proj2 (Z.ltb_ge _ _)) by lia. unfold pylen.
  replace (Z.to_nat (Z.of_nat (length l) + 1 + -1)) with (length l) by lia.
  by rewrite list_lookup_middle.
Qed.

Lemma zrange_snoc o n : 0 <= n -> zrange o (o + n) ++ [o + n] = zrange o (o + n + 1).
Proof.
  intros Hn. rewrite (zrange_app o (o + n) (o + n + 1)) by lia.
  by rewrite (zrange_cons (o + n)), (zrange_nil (o + n + 1)) by lia.
Qed.

Lemma zrange_succ n : 0 <= n -> zrange 0 (n + 1) = zrange 0 n ++ [n].
Proof. intros Hn. symmetry. by apply (zrange_snoc 0). Qed.

Lemma elem_of_concat {A} (x : A) ls : x ∈ concat ls <-> exists l, l ∈ ls /\ x ∈ l.
Proof.
  induction ls as [|l ls IH]; simpl; [set_solver|].
  rewrite elem_of_app, IH. set_solver.
Qed.

Lemma NoDup_concat_elem {A} (ls : list (list A)) l : NoDup (concat ls) -> l ∈ ls -> NoDup l.
Proof.
  induction ls as [|l' ls IH]; simpl; [set_solver|].
  intros (H1 & _ & H2)%NoDup_app [->|?]%elem_of_cons; auto.
Qed.

Lemma NoDup_concat_lookup {A} (ls : list (list A)) i j l1 l2 x :
  NoDup (concat ls) -> ls !! i = Some l1 -> ls !! j = Some l2 -> x ∈ l1 -> x ∈ l2 -> i = j.
Proof.
  revert i j. induction ls as [|l ls IH]; intros i j Hn Hi Hj H1 H2; [done|].
  simpl in Hn. apply NoDup_app in Hn as (_ & Hd & Hn).
  destruct i as [|i], j as [|j]; simplify_eq/=; [done|..|by f_equal; eapply IH].
  - exfalso. apply (Hd x H1). apply elem_of_concat. exists l2. split; [|done].
    by eapply list_elem_of_lookup_2.
  - exfalso. apply (Hd x H2). apply elem_of_concat. exists l1. split; [|done].
    by eapply list_elem_of_lookup_2.
Qed.

Lemma concat_concat {A} (ls : list (list (list A))) : concat (concat ls) = concat (@concat A <$> ls).
Proof. induction ls as [|l ls IH]; simpl; [done|]. by rewrite concat_app, IH. Qed.
