(* ===== verification/PyStr.v ===== *)
(** * Python strings: [str(int)], [int(str)], [split], [strip], [join]

    The string operations the modelled code uses, on byte strings.  The
    whitespace of [strip] is the ASCII whitespace of [str.isspace]. *)

From S2P Require Import Prelude.
From Stdlib Require Import Ascii String.
From stdpp Require Import strings.
Local Open Scope Z_scope.

Definition comma : ascii := ","%char.
Definition dash : ascii := "-"%char.
Definition colon : ascii := ":"%char.
Definition underscore : ascii := "_"%char.
Definition slash : ascii := "/"%char.
Definition dot : ascii := "."%char.
Definition newline : ascii := "010"%char.

Definition ascii_code (a : ascii) : Z := Z.of_N (N_of_ascii a).

Definition is_space (a : ascii) : bool :=
  let n := ascii_code a in ((9 <=? n) && (n <=? 13)) || ((28 <=? n) && (n <=? 32)).

Definition is_digit (a : ascii) : bool :=
  let n := ascii_code a in (48 <=? n) && (n <=? 57).

Definition digit_char (d : Z) : ascii := ascii_of_N (Z.to_N (48 + d)).

Fixpoint string_forall (p : ascii -> bool) (s : string) : bool :=
  match s with
  | EmptyString => true
  | String a s' => p a && string_forall p s'
  end.

(** [s.split(c)] for a one-character separator *)
Fixpoint split_on (c : ascii) (s : string) : list string :=
  match s with
  | EmptyString => [EmptyString]
  | String a s' =>
      if Ascii.eqb a c then EmptyString :: split_on c s'
      else match split_on c s' with
           | x :: xs => String a x :: xs
           | [] => [String a EmptyString]
           end
  end.

(** [s.split(c, 1)] when [c in s], else [None] *)
Fixpoint split_once (c : ascii) (s : string) : option (string * string) :=
  match s with
  | EmptyString => None
  | String a s' =>
      if Ascii.eqb a c then Some (EmptyString, s')
      else match split_once c s' with
           | Some (x, y) => Some (String a x, y)
           | None => None
           end
  end.

Fixpoint lstrip (s : string) : string :=
  match s with
  | EmptyString => EmptyString
  | String a s' => if is_space a then lstrip s' else s
  end.

Fixpoint rstrip (s : string) : string :=
  match s with
  | EmptyString => EmptyString
  | String a s' =>
      match rstrip s' with
      | EmptyString => if is_space a then EmptyString else String a EmptyString
      | r => String a r
      end
  end.

Definition strip (s : string) : string := lstrip (rstrip s).

(** [sep.join(l)] *)
Fixpoint join (sep : string) (l : list string) : string :=
  match l with
  | [] => EmptyString
  | [x] => x
  | x :: l' => String.append x (String.append sep (join sep l'))
  end.

(** [s.split()]: the maximal runs of non-space characters *)
Fixpoint words_aux (cur : string) (s : string) : list string :=
  match s with
  | EmptyString => if String.eqb cur EmptyString then [] else [cur]
  | String a s' =>
      if is_space a then
        if String.eqb cur EmptyString then words_aux EmptyString s'
        else cur :: words_aux EmptyString s'
      else words_aux (String.append cur (String a EmptyString)) s'
  end.
Definition words (s : string) : list string := words_aux EmptyString s.

(** Digits with single underscores between them, as [int()] accepts them. *)
Fixpoint digits_val (acc : Z) (after_digit : bool) (s : string) : option Z :=
  match s with
  | EmptyString => if after_digit then Some acc else None
  | String a s' =>
      if is_digit a then digits_val (10 * acc + (ascii_code a - 48)) true s'
      else if Ascii.eqb a "_"%char && after_digit then digits_val acc false s'
      else None
  end.

(** [int(s)], [None] where Python raises [ValueError] *)
Definition py_int (s : string) : option Z :=
  match strip s with
  | String "-" r => Z.opp <$> digits_val 0 false r
  | String "+" r => digits_val 0 false r
  | r => digits_val 0 false r
  end.

(** [str(z)] *)
Fixpoint digits_of (fuel : nat) (n : Z) (acc : string) : string :=
  match fuel with
  | O => acc
  | S fuel' =>
      let acc' := String (digit_char (n mod 10)) acc in
      if n <? 10 then acc' else digits_of fuel' (n / 10) acc'
  end.
Definition str_of_nonneg (n : Z) : string := digits_of (S (Z.to_nat (Z.log2 n))) n EmptyString.
Definition str_of_Z (z : Z) : string :=
  if z <? 0 then String "-" (str_of_nonneg (- z)) else str_of_nonneg z.

(** ** Round trip of [str] and [int] *)

Lemma digit_char_code d : 0 <= d < 10 -> ascii_code (digit_char d) = 48 + d.
Proof.
  intros. unfold ascii_code, digit_char. rewrite N_ascii_embedding; lia.
Qed.

Lemma digit_char_digit d : 0 <= d < 10 -> is_digit (digit_char d) = true.
Proof. intros. unfold is_digit. rewrite digit_char_code by done. lia. Qed.

Lemma digit_not_space a : is_digit a = true -> is_space a = false.
Proof. unfold is_digit, is_space. lia. Qed.

Lemma digits_of_val fuel n acc b :
  0 <= n -> n < 2 ^ Z.of_nat fuel -> (0 < fuel)%nat ->
  digits_val 0 b (digits_of fuel n acc) = digits_val n true acc.
Proof.
  revert n acc b. induction fuel as [|fuel IH]; intros n acc b Hn Hlt Hf; [lia|].
  cbn [digits_of]. destruct (Z.ltb_spec n 10).
  - rewrite Z.mod_small by lia. simpl. rewrite digit_char_digit, digit_char_code by lia.
    f_equal. lia.
  - assert (Hf' : (0 < fuel)%nat).
    { destruct fuel; [simpl in Hlt; lia|lia]. }
    rewrite IH; [|apply Z.div_pos; lia| |done].
    + simpl. pose proof (Z.mod_pos_bound n 10 ltac:(lia)).
      rewrite digit_char_digit, digit_char_code by lia. f_equal. lia.
    + rewrite Nat2Z.inj_succ, Z.pow_succ_r in Hlt by lia. lia.
Qed.

Lemma str_of_nonneg_val n b : 0 <= n -> digits_val 0 b (str_of_nonneg n) = Some n.
Proof.
  intros Hn. unfold str_of_nonneg. rewrite digits_of_val; [done|done| |lia].
  destruct (decide (n = 0)) as [->|]; [done|].
  pose proof (Z.log2_spec n ltac:(lia)). pose proof (Z.log2_nonneg n).
  replace (Z.of_nat (S (Z.to_nat (Z.log2 n)))) with (Z.succ (Z.log2 n)) by lia. lia.
Qed.

Lemma digits_of_forall fuel n acc :
  0 <= n -> string_forall is_digit acc = true ->
  string_forall is_digit (digits_of fuel n acc) = true.
Proof.
  revert n acc. induction fuel as [|fuel IH]; intros n acc Hn Ha; simpl; [done|].
  assert (Hd : is_digit (digit_char (n mod 10)) = true) by (apply digit_char_digit; lia).
  case_match; [|apply IH; [lia|]]; cbn [string_forall]; by rewrite Hd, Ha.
Qed.

Lemma str_of_nonneg_digits n : 0 <= n -> string_forall is_digit (str_of_nonneg n) = true.
Proof. intros. by apply digits_of_forall. Qed.

Lemma rstrip_digits s : string_forall is_digit s = true -> rstrip s = s.
Proof.
  induction s as [|a s IH]; simpl; [done|]. intros [Ha Hs]%andb_true_iff.
  rewrite IH by done. destruct s; [|done]. by rewrite digit_not_space.
Qed.

Lemma lstrip_digits s : string_forall is_digit s = true -> lstrip s = s.
Proof.
  destruct s as [|a s]; simpl; [done|]. intros [Ha Hs]%andb_true_iff. by rewrite digit_not_space.
Qed.

Lemma strip_digits s : string_forall is_digit s = true -> strip s = s.
Proof. intros. unfold strip. by rewrite rstrip_digits, lstrip_digits. Qed.

Lemma py_int_digits s :
  string_forall is_digit s = true -> py_int s = digits_val 0 false s.
Proof.
  intros Hs. unfold py_int. rewrite strip_digits by done.
  destruct s as [|a s]; [done|]. simpl in Hs. apply andb_true_iff in Hs as [Ha _].
  unfold is_digit, ascii_code in Ha.
  destruct a as [[] [] [] [] [] [] [] []]; first [done | (cbv in Ha; discriminate)].
Qed.

Lemma py_int_str_nonneg n : 0 <= n -> py_int (str_of_nonneg n) = Some n.
Proof.
  intros. rewrite py_int_digits by (by apply str_of_nonneg_digits).
  by apply str_of_nonneg_val.
Qed.

Lemma str_of_nonneg_nonempty n : 0 <= n -> str_of_nonneg n <> EmptyString.
Proof.
  intros Hn He. pose proof (str_of_nonneg_val n false Hn) as Hv. by rewrite He in Hv.
Qed.

Lemma str_of_nonneg_inj n m :
  0 <= n -> 0 <= m -> str_of_nonneg n = str_of_nonneg m -> n = m.
Proof.
  intros Hn Hm He. pose proof (str_of_nonneg_val n false Hn) as H1.
  rewrite He, str_of_nonneg_val in H1 by done. congruence.
Qed.

(** ** Splitting *)

Lemma split_on_none c s : string_forall (fun a => negb (Ascii.eqb a c)) s = true ->
  split_on c s = [s].
Proof.
  induction s as [|a s IH]; simpl; [done|]. intros [Ha Hs]%andb_true_iff.
  apply negb_true_iff in Ha. by rewrite Ha, IH.
Qed.

Lemma split_on_app c s1 s2 : string_forall (fun a => negb (Ascii.eqb a c)) s1 = true ->
  split_on c (String.append s1 (String c s2)) = s1 :: split_on c s2.
Proof.
  induction s1 as [|a s1 IH]; simpl.
  - intros _. by rewrite Ascii.eqb_refl.
  - intros [Ha Hs]%andb_true_iff. apply negb_true_iff in Ha. by rewrite Ha, IH.
Qed.

Lemma split_on_join c l :
  Forall (fun s => string_forall (fun a => negb (Ascii.eqb a c)) s = true) l -> l <> [] ->
  split_on c (join (String c EmptyString) l) = l.
Proof.
  induction 1 as [|x l Hx Hl IH]; [done|]. intros _. destruct l as [|y l].
  - by apply split_on_none.
  - change (join (String c EmptyString) (x :: y :: l))
      with (String.append x (String c (join (String c EmptyString) (y :: l)))).
    rewrite split_on_app by done. by rewrite IH.
Qed.

Lemma split_once_app c s1 s2 : string_forall (fun a => negb (Ascii.eqb a c)) s1 = true ->
  split_once c (String.append s1 (String c s2)) = Some (s1, s2).
Proof.
  induction s1 as [|a s1 IH]; simpl.
  - intros _. by rewrite Ascii.eqb_refl.
  - intros [Ha Hs]%andb_true_iff. apply negb_true_iff in Ha. by rewrite Ha, IH.
Qed.

Lemma split_once_none c s : string_forall (fun a => negb (Ascii.eqb a c)) s = true ->
  split_once c s = None.
Proof.
  induction s as [|a s IH]; simpl; [done|]. intros [Ha Hs]%andb_true_iff.
  apply negb_true_iff in Ha. by rewrite Ha, IH.
Qed.

Lemma string_forall_app p s1 s2 :
  string_forall p (String.append s1 s2) = string_forall p s1 && string_forall p s2.
Proof. induction s1; simpl; [done|]. by rewrite IHs1, andb_assoc. Qed.

Lemma string_forall_impl (p q : ascii -> bool) s :
  (forall a, p a = true -> q a = true) -> string_forall p s = true -> string_forall q s = true.
Proof.
  intros Hpq. induction s as [|a s IH]; simpl; [done|].
  intros [??]%andb_true_iff. by rewrite Hpq, IH.
Qed.

Lemma digits_no_char c s : is_digit c = false ->
  string_forall is_digit s = true -> string_forall (fun a => negb (Ascii.eqb a c)) s = true.
Proof.
  intros Hc. apply string_forall_impl. intros a Ha. destruct (Ascii.eqb_spec a c); [congruence|done].
Qed.
