(* ===== verification/StoreApi.v ===== *)
(** * The store interface (ucm/store/ucmstore_v1.py)

    [UcmKVStoreBaseV1] is the abstract class every storage backend implements
    and every connector calls.  [Store] is that interface; the backends are
    native code, so a connector's definitions take an instance as argument.
    [StoreLaws] states what the docstrings of the interface promise, over two
    observations of the store's world: the shards it holds and the device
    memory it copies to and from.  [MemStore] is a concrete in-memory instance,
    used to show that the laws can hold and to evaluate the connectors. *)

From S2P Require Import Prelude.
Local Open Scope Z_scope.
Local Open Scope py_scope.

(** Python [bytes] and [str] (as its UTF-8 encoding) are both byte strings. *)
Abbreviation bytes := string.

(** ** Interface *)
Class Store (W : Type) : Type := {
  (** an opaque [Task] handle *)
  task : Type;
  lookup : list bytes -> M W (list bool);
  lookup_on_prefix : list bytes -> M W Z;
  prefetch : list bytes -> M W unit;
  (** block ids, shard index of each, destination addresses of each *)
  load_data : list bytes -> list Z -> list (list Z) -> M W task;
  (** ... and the event to wait for before the copy, 0 for none *)
  dump_data : list bytes -> list Z -> list (list Z) -> Z -> M W task;
  wait : task -> M W unit;
  check : task -> M W bool;
}.

(** ** Contract *)

(** A transfer that was submitted and not waited for yet; a dump carries the
    contents its source addresses had when it was submitted. *)
Inductive flight (D : Type) : Type :=
  | FLoad (ids : list bytes) (shards : list Z) (addrs : list (list Z))
  | FDump (ids : list bytes) (shards : list Z) (addrs : list (list Z)) (data : list (list D)).
Arguments FLoad {D} _ _ _.
Arguments FDump {D} _ _ _ _.

(** What can be observed of the store's world; [D] is the contents of the piece
    of device memory at an address. *)
Class StoreView (W D : Type) `{Store W} : Type := {
  (** the blocks a lookup finds *)
  held : W -> bytes -> Prop;
  (** the contents of a block's shard *)
  stored : W -> bytes -> Z -> option (list D);
  devmem : W -> Z -> D;
  flights : W -> task -> option (flight D);
}.

(** Row [i] of a transfer: a block, its shard and the row's addresses. *)
Definition transfer_row {A} (ids : list bytes) (shards : list Z) (rows : list A)
    (i : nat) (id : bytes) (sh : Z) (row : A) : Prop :=
  ids !! i = Some id /\ shards !! i = Some sh /\ rows !! i = Some row.

Section observations.
Context {W D : Type} `{StoreView W D}.

(** the contents of the addresses of a transfer *)
Definition contents (w : W) (addrs : list (list Z)) : list (list D) :=
  (fun row : list Z => devmem w <$> row) <$> addrs.

(** a load in flight writes address [a] *)
Definition busy (w : W) (a : Z) : Prop :=
  exists t ids shards addrs, flights w t = Some (FLoad ids shards addrs) /\ a ∈ concat addrs.

(** a dump in flight writes shard [sh] of block [id] *)
Definition writing (w : W) (id : bytes) (sh : Z) : Prop :=
  exists t ids shards addrs data i, flights w t = Some (FDump ids shards addrs data) /\
    ids !! i = Some id /\ shards !! i = Some sh.

(** device memory changes only where loads in flight write, the store only
    where dumps in flight write *)
Definition frame (w w' : W) : Prop :=
  (forall a, ~ busy w a -> ~ busy w' a -> devmem w' a = devmem w a) /\
  (forall id sh, ~ writing w id sh -> ~ writing w' id sh -> stored w' id sh = stored w id sh).

Definition flights_add (w w' : W) (t : task) (f : flight D) : Prop :=
  flights w t = None /\
  forall t' f', flights w' t' = Some f' <-> (t' = t /\ f' = f) \/ flights w t' = Some f'.

Definition flights_remove (w w' : W) (t : task) : Prop :=
  forall t' f', flights w' t' = Some f' <-> t' <> t /\ flights w t' = Some f'.

Definition quiet (w w' : W) : Prop :=
  frame w w' /\ forall t, flights w' t = flights w t.
Definition idle_world (w : W) : Prop := forall t, flights w t = None.

Lemma idle_not_writing w id sh : idle_world w -> ~ writing w id sh.
Proof. intros Hi (t & ? & ? & ? & ? & ? & Hf & _). by rewrite Hi in Hf. Qed.

Lemma idle_not_busy w a : idle_world w -> ~ busy w a.
Proof. intros Hi (t & ? & ? & ? & Hf & _). by rewrite Hi in Hf. Qed.
Lemma frame_trans w1 w2 w3 :
  frame w1 w2 -> frame w2 w3 ->
  (forall a, busy w2 a -> busy w1 a \/ busy w3 a) ->
  (forall id sh, writing w2 id sh -> writing w1 id sh \/ writing w3 id sh) -> frame w1 w3.
Proof.
  intros [M1 S1] [M2 S2] Hb Hw. split.
  - intros a H1 H3. assert (~ busy w2 a) by naive_solver. rewrite M2, M1; auto.
  - intros id sh H1 H3. assert (~ writing w2 id sh) by naive_solver. rewrite S2, S1; auto.
Qed.

Lemma quiet_refl w : quiet w w.
Proof. done. Qed.

Lemma quiet_busy w w' a : quiet w w' -> busy w' a <-> busy w a.
Proof. intros [_ Hf]. unfold busy. by setoid_rewrite Hf. Qed.

Lemma quiet_writing w w' id sh : quiet w w' -> writing w' id sh <-> writing w id sh.
Proof. intros [_ Hf]. unfold writing. by setoid_rewrite Hf. Qed.

Lemma quiet_trans w1 w2 w3 : quiet w1 w2 -> quiet w2 w3 -> quiet w1 w3.
Proof.
  intros Q1 Q2. split; [|intros t; by rewrite (proj2 Q2), (proj2 Q1)].
  eapply frame_trans; [apply Q1|apply Q2|..].
  - intros a. rewrite (quiet_busy w1 w2 a Q1). auto.
  - intros id sh. rewrite (quiet_writing w1 w2 id sh Q1). auto.
Qed.

Lemma quiet_idle w w' : idle_world w -> quiet w w' ->
  idle_world w' /\ (forall a, devmem w' a = devmem w a) /\ (forall id sh, stored w' id sh = stored w id sh).
Proof.
  intros Hi [[Hm Hs] Hf]. assert (Hi' : idle_world w') by (intros t; by rewrite Hf).
  split; [done|]. split.
  - intros a. apply Hm; by apply idle_not_busy.
  - intros id sh. apply Hs; by apply idle_not_writing.
Qed.
End observations.

Class StoreLaws (W D : Type) `{StoreView W D} : Prop := {
  (** "A list of booleans ... The order matches block_ids." *)
  lookup_ok : forall ids w bs w', lookup ids w = (Ok bs, w') -> length bs = length ids;
  lookup_hit : forall ids w bs w' i id, lookup ids w = (Ok bs, w') ->
    ids !! i = Some id -> bs !! i = Some true -> held w id;
  lookup_held : forall ids w id, held (lookup ids w).2 id <-> held w id;
  (** "the maximum index of blocks found in storage, returns -1 if none" *)
  lookup_on_prefix_ok : forall ids w k w', lookup_on_prefix ids w = (Ok k, w') ->
    -1 <= k < pylen ids;
  lookup_on_prefix_hit : forall ids w k w' i id, lookup_on_prefix ids w = (Ok k, w') ->
    ids !! i = Some id -> Z.of_nat i <= k -> held w id;
  lookup_on_prefix_quiet : forall ids w, quiet w (lookup_on_prefix ids w).2;
  (** a failing call raises [RuntimeError] *)
  lookup_on_prefix_err : forall ids w e w', lookup_on_prefix ids w = (Err e, w') ->
    is_runtime_error e = true;
  load_data_err : forall ids shards addrs w e w',
    load_data ids shards addrs w = (Err e, w') -> is_runtime_error e = true /\ quiet w w';
  dump_data_err : forall ids shards addrs h w e w',
    dump_data ids shards addrs h w = (Err e, w') -> is_runtime_error e = true /\ quiet w w';
  wait_err : forall t w e w', wait t w = (Err e, w') -> is_runtime_error e = true;
  (** a submitted transfer is in flight under a new task handle until it is
      waited for *)
  load_data_ok : forall ids shards addrs w t w',
    load_data ids shards addrs w = (Ok t, w') ->
    flights_add w w' t (FLoad ids shards addrs) /\ frame w w';
  dump_data_ok : forall ids shards addrs h w t w',
    dump_data ids shards addrs h w = (Ok t, w') ->
    flights_add w w' t (FDump ids shards addrs (contents w addrs)) /\ frame w w';
  wait_flights : forall t w r w', wait t w = (r, w') -> flights_remove w w' t /\ frame w w';
  (** a load that has been waited for has filled its addresses, unless another
      transfer writes them or the shards it reads *)
  wait_load : forall t w w' ids shards addrs i id sh (row : list Z) ds,
    wait t w = (Ok tt, w') -> flights w t = Some (FLoad ids shards addrs) ->
    NoDup (concat addrs) ->
    (forall t' ids' shards' addrs', flights w t' = Some (FLoad ids' shards' addrs') -> t' <> t ->
       forall a, a ∈ concat addrs -> a ∉ concat addrs') ->
    transfer_row ids shards addrs i id sh row -> ~ writing w id sh ->
    stored w id sh = Some ds -> length ds = length row ->
    devmem w' <$> row = ds;
  (** a dump that has been waited for is in the store, if its source did not
      change meanwhile and no other dump writes the same shard *)
  wait_dump : forall t w w' ids shards addrs data i id sh (row : list Z),
    wait t w = (Ok tt, w') -> flights w t = Some (FDump ids shards addrs data) ->
    NoDup (zip ids shards) ->
    (forall t' ids' shards' addrs' data', flights w t' = Some (FDump ids' shards' addrs' data') ->
       t' <> t -> forall x, x ∈ zip ids shards -> x ∉ zip ids' shards') ->
    (forall a, a ∈ concat addrs -> ~ busy w a) -> data = contents w addrs ->
    transfer_row ids shards addrs i id sh row ->
    stored w' id sh = Some (devmem w <$> row);
}.

(** The prefix a [lookup_on_prefix] answer [k] denotes has [k + 1] blocks. *)
Lemma lookup_on_prefix_count {W D} `{StoreLaws W D} ids w k w' :
  lookup_on_prefix ids w = (Ok k, w') -> 0 <= k + 1 <= pylen ids.
Proof. intros Hl. pose proof (lookup_on_prefix_ok _ _ _ _ Hl). lia. Qed.

(** ** An in-memory instance *)
Module MemStore.
Section mem_store.
Context (D : Type).

Record world := World {
  blocks : gmap (bytes * Z) (list D);
  memory : Z -> D;
  pending : gmap nat (flight D);
  (** keys whose transfers fail when they are waited for *)
  broken : list bytes;
  (** keys whose transfers are refused *)
  refused : list bytes;
}.

Fixpoint write_row (row : list Z) (ds : list D) (m : Z -> D) : Z -> D :=
  match row, ds with
  | a :: row', d :: ds' => fun x => if decide (x = a) then d else write_row row' ds' m x
  | _, _ => m
  end.

Fixpoint store_rows (ids : list bytes) (shards : list Z) (data : list (list D))
    (bl : gmap (bytes * Z) (list D)) : gmap (bytes * Z) (list D) :=
  match ids, shards, data with
  | id :: ids', sh :: shards', row :: data' =>
      store_rows ids' shards' data' (<[(id, sh) := row]> bl)
  | _, _, _ => bl
  end.

Fixpoint load_rows (ids : list bytes) (shards : list Z) (addrs : list (list Z))
    (bl : gmap (bytes * Z) (list D)) (m : Z -> D) : Z -> D :=
  match ids, shards, addrs with
  | id :: ids', sh :: shards', row :: addrs' =>
      load_rows ids' shards' addrs' bl
        (match bl !! (id, sh) with Some ds => write_row row ds m | None => m end)
  | _, _, _ => m
  end.

Definition is_held (w : world) (id : bytes) : bool :=
  match blocks w !! (id, 0) with Some _ => true | None => false end.

Fixpoint prefix_hits (w : world) (ids : list bytes) : Z :=
  match ids with
  | [] => 0
  | id :: ids' => if is_held w id then 1 + prefix_hits w ids' else 0
  end.

Definition any_in (l ids : list bytes) : bool := existsb (fun id => mem id l) ids.

Definition submit (ids : list bytes) (f : world -> flight D) : M world nat := fun w =>
  if any_in (refused w) ids then (Err RuntimeError, w)
  else let t := fresh (dom (pending w)) in
       (Ok t, World (blocks w) (memory w) (<[t := f w]> (pending w)) (broken w) (refused w)).

(** Transfers are performed when they are waited for. *)
Definition finish (t : nat) : M world unit := fun w =>
  let rest := delete t (pending w) in
  match pending w !! t with
  | Some (FLoad ids shards addrs) =>
      if any_in (broken w) ids
      then (Err RuntimeError, World (blocks w) (memory w) rest (broken w) (refused w))
      else (Ok tt, World (blocks w) (load_rows ids shards addrs (blocks w) (memory w)) rest
                     (broken w) (refused w))
  | Some (FDump ids shards addrs data) =>
      if any_in (broken w) ids
      then (Err RuntimeError, World (blocks w) (memory w) rest (broken w) (refused w))
      else (Ok tt, World (store_rows ids shards data (blocks w)) (memory w) rest
                     (broken w) (refused w))
  | None => (Err RuntimeError, w)
  end.

#[global] Instance store : Store world := {|
  task := nat;
  lookup ids := fun w => (Ok (is_held w <$> ids), w);
  lookup_on_prefix ids := fun w =>
    if any_in (broken w) ids then (Err RuntimeError, w) else (Ok (prefix_hits w ids - 1), w);
  prefetch ids := ret tt;
  load_data ids shards addrs := submit ids (fun _ => FLoad ids shards addrs);
  dump_data ids shards addrs _ :=
    submit ids (fun w => FDump ids shards addrs ((fun row : list Z => memory w <$> row) <$> addrs));
  wait := finish;
  check t := ret true;
|}.

#[global] Instance view : StoreView world D := {|
  held w id := is_held w id = true;
  stored w id sh := blocks w !! (id, sh);
  devmem w a := memory w a;
  flights w t := pending w !! t;
|}.
End mem_store.
Arguments World {D} _ _ _ _ _.
Arguments blocks {D} _.
Arguments memory {D} _ _.
Arguments pending {D} _.
Arguments broken {D} _.
Arguments refused {D} _.

Section laws.
Context {D : Type}.
Implicit Types (w : world D) (m : Z -> D).

Lemma prefix_hits_bound w ids : 0 <= prefix_hits D w ids <= pylen ids.
Proof.
  induction ids as [|id ids IH]; simpl; [done|]. rewrite pylen_cons.
  destruct (is_held D w id); lia.
Qed.

Lemma prefix_hits_held w ids i id :
  ids !! i = Some id -> Z.of_nat i < prefix_hits D w ids -> is_held D w id = true.
Proof.
  revert i. induction ids as [|id' ids IH]; intros [|i] Hi; simplify_eq/=.
  - by destruct (is_held D w id).
  - pose proof (prefix_hits_bound w ids). destruct (is_held D w id'); [|lia].
    intros. apply (IH i); [done|lia].
Qed.

Lemma write_row_other row ds m x : x ∉ row -> write_row D row ds m x = m x.
Proof.
  revert ds. induction row as [|a row IH]; intros [|d ds] Hx; simpl; try done.
  apply not_elem_of_cons in Hx as [??]. rewrite decide_False by done. auto.
Qed.

Lemma write_row_row row ds m :
  NoDup row -> length ds = length row -> write_row D row ds m <$> row = ds.
Proof.
  revert ds. induction row as [|a row IH]; intros [|d ds] Hn Hl; simplify_eq/=; [done|].
  apply NoDup_cons in Hn as [Ha Hn]. rewrite decide_True by done. f_equal.
  etransitivity; [|by apply (IH ds)]. apply list_fmap_ext. intros i x Hx.
  rewrite decide_False; [done|]. intros ->. apply Ha. by eapply list_elem_of_lookup_2.
Qed.

Lemma load_rows_other ids shards addrs bl m x :
  x ∉ concat addrs -> load_rows D ids shards addrs bl m x = m x.
Proof.
  revert shards addrs m. induction ids as [|id ids IH]; intros [|sh shards] [|row addrs] m Hx;
    simpl; try done.
  simpl in Hx. apply not_elem_of_app in Hx as [Hr Hc]. rewrite IH by done.
  destruct (bl !! (id, sh)); [by apply write_row_other|done].
Qed.

Lemma load_rows_row ids shards addrs bl m i id sh row ds :
  NoDup (concat addrs) -> transfer_row ids shards addrs i id sh row ->
  bl !! (id, sh) = Some ds -> length ds = length row ->
  load_rows D ids shards addrs bl m <$> row = ds.
Proof.
  revert shards addrs m i. induction ids as [|id' ids IH]; intros shards addrs m i Hn (H1 & H2 & H3) Hb Hl;
    [done|].
  destruct shards as [|sh' shards]; [done|]. destruct addrs as [|row' addrs]; [done|].
  simpl in Hn. apply NoDup_app in Hn as (Hr & Hd & Hn). destruct i as [|i]; simplify_eq/=.
  - rewrite Hb. etransitivity; [|by apply (write_row_row row ds m)].
    apply list_fmap_ext. intros j x Hx. apply load_rows_other.
    apply Hd. by eapply list_elem_of_lookup_2.
  - by apply (IH shards addrs _ i).
Qed.

Lemma store_rows_other ids shards data bl k :
  k ∉ zip ids shards -> store_rows D ids shards data bl !! k = bl !! k.
Proof.
  revert shards data bl. induction ids as [|id' ids IH]; intros [|sh' shards] [|row data] bl Hx;
    simpl in *; try done.
  apply not_elem_of_cons in Hx as [??]. rewrite IH by done. by apply lookup_insert_ne.
Qed.

Lemma store_rows_row ids shards data bl i id sh row :
  NoDup (zip ids shards) -> transfer_row ids shards data i id sh row ->
  store_rows D ids shards data bl !! (id, sh) = Some row.
Proof.
  revert shards data bl i. induction ids as [|id' ids IH]; intros shards data bl i Hn (H1 & H2 & H3);
    [done|].
  destruct shards as [|sh' shards]; [done|]. destruct data as [|row' data]; [done|].
  simpl in Hn. apply NoDup_cons in Hn as [Hni Hn]. destruct i as [|i]; simplify_eq/=.
  - rewrite store_rows_other by done. apply lookup_insert_eq.
  - by apply (IH shards data _ i).
Qed.

Lemma frame_refl w : frame w w.
Proof. done. Qed.

Lemma submit_spec ids f w r w' :
  submit D ids f w = (r, w') ->
  match r with
  | Ok t => flights_add w w' t (f w) /\ frame w w'
  | Err e => e = RuntimeError /\ w' = w
  end.
Proof.
  unfold submit. destruct (any_in (refused w) ids); intros [= <- <-]; [done|].
  assert (Hf : pending w !! fresh (dom (pending w)) = None) by apply not_elem_of_dom, is_fresh.
  split; [split|split]; simpl; try done.
  intros t' f'. rewrite lookup_insert_Some. naive_solver.
Qed.

Lemma finish_spec t w r w' :
  finish D t w = (r, w') -> flights_remove w w' t /\ frame w w'.
Proof.
  unfold finish. destruct (pending w !! t) as [[ids shards addrs|ids shards addrs data]|] eqn:Ht.
  - destruct (any_in _ _); intros [= <- <-]; split;
      try (intros ??; simpl; rewrite lookup_delete_Some; naive_solver); [done|].
    split; [|done]. intros a Ha _. simpl. apply load_rows_other. intros Hin. apply Ha.
    eexists t, ids, shards, addrs. done.
  - destruct (any_in _ _); intros [= <- <-]; split;
      try (intros ??; simpl; rewrite lookup_delete_Some; naive_solver); [done|].
    split; [done|]. intros id sh Hn _. simpl. apply store_rows_other. intros Hin. apply Hn.
    apply list_elem_of_lookup in Hin as [i Hi]. apply lookup_zip_Some in Hi as [H1 H2].
    by eexists t, ids, shards, addrs, data, i.
  - intros [= <- <-]. split; [|done]. intros t' f. simpl. naive_solver.
Qed.

#[global] Instance laws : StoreLaws (world D) D.
Proof.
  split; simpl.
  - intros ids w bs w' [= <- <-]. by rewrite length_fmap.
  - intros ids w bs w' i id [= <- <-] Hi. rewrite list_lookup_fmap, Hi. simpl. by intros [= ?].
  - done.
  - intros ids w k w'. case_match; [done|]. intros [= <- <-].
    pose proof (prefix_hits_bound w ids). lia.
  - intros ids w k w' i id. case_match; [done|]. intros [= <- <-] Hi Hk.
    apply (prefix_hits_held w ids i); [done|lia].
  - intros ids w. by case_match.
  - intros ids w e w'. case_match; [|done]. by intros [= <- <-].
  - intros ids shards addrs w e w' Hs. by destruct (submit_spec _ _ _ _ _ Hs) as [-> ->].
  - intros ids shards addrs _ w e w' Hs. by destruct (submit_spec _ _ _ _ _ Hs) as [-> ->].
  - intros t w e w'. unfold finish. repeat case_match; intros; by simplify_eq.
  - intros ids shards addrs w t w' Hs. by apply submit_spec in Hs.
  - intros ids shards addrs _ w t w' Hs. by apply submit_spec in Hs.
  - intros t w r w' Hs. by apply finish_spec in Hs.
  - intros t w w' ids shards addrs i id sh row ds Hw Hf Hn _ Hrow _ Hst Hl.
    unfold finish in Hw. rewrite Hf in Hw. destruct (any_in _ _); [done|]. injection Hw as <-.
    simpl. by eapply load_rows_row.
  - intros t w w' ids shards addrs data i id sh row Hw Hf Hn _ _ Hd (H1 & H2 & H3).
    unfold finish in Hw. rewrite Hf in Hw. destruct (any_in _ _); [done|]. injection Hw as <-.
    simpl. apply (store_rows_row _ _ _ _ i); [done|]. split; [done|]. split; [done|].
    subst data. unfold contents. by rewrite list_lookup_fmap, H3.
Qed.
End laws.

(** a world with no transfer in flight and no failing key *)
Definition idle {D} (bl : gmap (bytes * Z) (list D)) (m : Z -> D) : world D := World bl m ∅ [] [].
End MemStore.
