(* ===== verification/LoadBatch.v ===== *)
(** * Batches of asynchronous loads

    The connectors submit the loads of several requests, keep the task handles in
    a dictionary by request id, and wait for them one by one.  This file holds the
    invariant of such a batch against the store contract [StoreLaws]: which loads
    are in flight, and that a request whose wait succeeds has its destination
    filled, whatever the other loads do. *)

From S2P Require Import Prelude.
From S2P Require Import StoreApi.
Local Open Scope Z_scope.

(** One request's load: its block ids, the shard they are read from and the
    destination addresses of each. *)
Record load_req := LReq { lr_ids : list bytes; lr_shard : Z; lr_rows : list (list Z) }.

Definition batch_dests (B : list (string * load_req)) : list Z :=
  concat (concat ((fun e => lr_rows e.2) <$> B)).

Definition lr_shards (d : load_req) : list Z := py_repeat (lr_shard d) (pylen (lr_ids d)).

Section batch.
Context {W D : Type} `{StoreLaws W D}.
Context (B : list (string * load_req)) (Hkeys : NoDup (od_keys B)) (Hdst : NoDup (batch_dests B)).

(** The task of request [id] is in flight. *)
Definition in_flight (w : W) (id : string) (t : task) : Prop :=
  exists d, (id, d) ∈ B /\ flights w t = Some (FLoad (lr_ids d) (lr_shards d) (lr_rows d)).

(** The loads in flight are the tasks of the list, one per request and handle;
    since [w0] neither the dumps in flight nor anything but the destinations of
    the batch has changed. *)
Record tasks_inv (w0 w : W) (tasks : list (string * task)) : Prop := {
  ti_flight : forall id t, (id, t) ∈ tasks -> in_flight w id t;
  ti_all : forall t ids shards addrs, flights w t = Some (FLoad ids shards addrs) ->
    exists id, (id, t) ∈ tasks;
  ti_keys : NoDup (od_keys tasks);
  ti_tasks : NoDup tasks.*2;
  ti_dumps : forall t ids shards addrs data,
    flights w t = Some (FDump ids shards addrs data) <-> flights w0 t = Some (FDump ids shards addrs data);
  ti_store : forall id sh, ~ writing w0 id sh -> stored w id sh = stored w0 id sh;
  ti_mem : forall a, a ∉ batch_dests B -> devmem w a = devmem w0 a;
}.

(** Request [d]'s rows hold what the store held for them. *)
Definition loaded (w0 w : W) (d : load_req) : Prop :=
  forall i u row ds, lr_ids d !! i = Some u -> lr_rows d !! i = Some row ->
    ~ writing w0 u (lr_shard d) -> stored w0 u (lr_shard d) = Some ds -> length ds = length row ->
    devmem w <$> row = ds.

Lemma row_in_dests id d a : (id, d) ∈ B -> a ∈ concat (lr_rows d) -> a ∈ batch_dests B.
Proof.
  intros Hd Ha. unfold batch_dests. rewrite concat_concat. apply elem_of_concat.
  exists (concat (lr_rows d)). split; [|done]. rewrite <- list_fmap_compose.
  apply list_elem_of_fmap. by exists (id, d).
Qed.

Lemma rows_disjoint id d id' d' a :
  (id, d) ∈ B -> (id', d') ∈ B -> a ∈ concat (lr_rows d) -> a ∈ concat (lr_rows d') ->
  id = id' /\ d = d'.
Proof.
  intros [i Hi]%list_elem_of_lookup [j Hj]%list_elem_of_lookup Ha Ha'.
  pose proof Hdst as Hn. unfold batch_dests in Hn.
  rewrite concat_concat in Hn. rewrite <- list_fmap_compose in Hn.
  assert (i = j) as <-.
  { eapply (NoDup_concat_lookup _ i j); [exact Hn|..|exact Ha|exact Ha'];
      rewrite list_lookup_fmap; [by rewrite Hi|by rewrite Hj]. }
  rewrite Hi in Hj. by injection Hj.
Qed.

Lemma rows_NoDup id d : (id, d) ∈ B -> NoDup (concat (lr_rows d)).
Proof.
  intros Hd. pose proof Hdst as Hn. unfold batch_dests in Hn. rewrite concat_concat in Hn.
  eapply NoDup_concat_elem; [exact Hn|].
  apply list_elem_of_fmap. exists (lr_rows d). split; [done|].
  apply list_elem_of_fmap. by exists (id, d).
Qed.

Lemma batch_unique id d d' : (id, d) ∈ B -> (id, d') ∈ B -> d = d'.
Proof.
  intros Hd Hd'. apply (od_elem_get _ _ _ Hkeys) in Hd. apply (od_elem_get _ _ _ Hkeys) in Hd'.
  congruence.
Qed.

(** A busy address is a destination of the request of some task. *)
Lemma task_busy w0 w tasks a : tasks_inv w0 w tasks -> busy w a ->
  exists id d, id ∈ od_keys tasks /\ (id, d) ∈ B /\ a ∈ concat (lr_rows d).
Proof.
  intros Hi (t & ids & sh & addrs & Hf & Ha). destruct (ti_all _ _ _ Hi _ _ _ _ Hf) as [id Ht].
  destruct (ti_flight _ _ _ Hi _ _ Ht) as (d & Hd & Hf'). rewrite Hf in Hf'.
  injection Hf' as -> -> ->. exists id, d. split; [|done].
  apply list_elem_of_fmap. by exists (id, t).
Qed.

Lemma task_not_busy w0 w tasks id d a : tasks_inv w0 w tasks -> id ∉ od_keys tasks ->
  (id, d) ∈ B -> a ∈ concat (lr_rows d) -> ~ busy w a.
Proof.
  intros Hi Hk Hd Ha Hb. destruct (task_busy _ _ _ _ Hi Hb) as (id' & d' & Hk' & Hd' & Ha').
  destruct (rows_disjoint _ _ _ _ a Hd Hd' Ha Ha') as [<- _]. done.
Qed.

Lemma not_dest_not_busy w0 w tasks a : tasks_inv w0 w tasks -> a ∉ batch_dests B -> ~ busy w a.
Proof.
  intros Hi Ha Hb. destruct (task_busy _ _ _ _ Hi Hb) as (id & d & _ & Hd & Hin).
  by eapply Ha, row_in_dests.
Qed.

Lemma tasks_writing w0 w tasks id sh : tasks_inv w0 w tasks -> writing w id sh <-> writing w0 id sh.
Proof.
  intros Hi. split; intros (t & ids & shs & addrs & data & i & Hf & Hx);
    exists t, ids, shs, addrs, data, i; (split; [|done]); by eapply (ti_dumps _ _ _ Hi).
Qed.

Lemma loaded_frame w0 w w' d :
  loaded w0 w d -> (forall a, a ∈ concat (lr_rows d) -> devmem w' a = devmem w a) -> loaded w0 w' d.
Proof.
  intros Hld Hm i u row ds Hu Hb Hnw Hst Hle. rewrite <- (Hld i u row ds Hu Hb Hnw Hst Hle).
  apply list_fmap_ext. intros j a Ha. apply Hm. apply elem_of_concat.
  exists row. split; by eapply list_elem_of_lookup_2.
Qed.

(** The parts of the invariant that follow from the frame of a step. *)
Lemma tasks_inv_frame w0 w w' tasks tasks' :
  tasks_inv w0 w tasks -> frame w w' ->
  (forall id t, (id, t) ∈ tasks' -> in_flight w' id t) ->
  (forall t ids shards addrs, flights w' t = Some (FLoad ids shards addrs) -> exists id, (id, t) ∈ tasks') ->
  NoDup (od_keys tasks') -> NoDup tasks'.*2 ->
  (forall t ids shards addrs data,
    flights w' t = Some (FDump ids shards addrs data) <-> flights w t = Some (FDump ids shards addrs data)) ->
  tasks_inv w0 w' tasks'.
Proof.
  intros Hi [Hmem Hsto] Hfl Hall Hk Ht Hd.
  assert (Hdumps : forall t ids shards addrs data, flights w' t = Some (FDump ids shards addrs data) <->
            flights w0 t = Some (FDump ids shards addrs data)).
  { intros. rewrite Hd. apply (ti_dumps _ _ _ Hi). }
  split; [done..| |].
  - intros id sh Hnw. rewrite Hsto; [by apply (ti_store _ _ _ Hi)|by rewrite (tasks_writing _ _ _ id sh Hi)|].
    intros (t & ids & shs & addrs & data & i & Hf & Hx). apply Hnw.
    exists t, ids, shs, addrs, data, i. by rewrite <- Hdumps.
  - intros a Ha. rewrite Hmem; [by apply (ti_mem _ _ _ Hi)|by eapply not_dest_not_busy|].
    intros (t & ids & sh & addrs & Hf & Hin). destruct (Hall _ _ _ _ Hf) as [id Hx].
    destruct (Hfl _ _ Hx) as (d & Hb & Hf'). rewrite Hf in Hf'. injection Hf' as -> -> ->.
    by eapply Ha, row_in_dests.
Qed.

(** Waiting for the first of the tasks ... *)
Lemma wait_task_inv w0 w id t tasks r w' :
  tasks_inv w0 w ((id, t) :: tasks) -> wait t w = (r, w') -> tasks_inv w0 w' tasks.
Proof.
  intros Hi Hw. destruct (wait_flights _ _ _ _ Hw) as [Hrest Hframe].
  unfold flights_remove in Hrest.
  pose proof (ti_keys _ _ _ Hi) as Hk. cbn in Hk. apply NoDup_cons in Hk as [Hk1 Hk2].
  pose proof (ti_tasks _ _ _ Hi) as Ht. cbn in Ht. apply NoDup_cons in Ht as [Ht1 Ht2].
  apply (tasks_inv_frame w0 w w' _ _ Hi Hframe); [..|done|done|].
  - intros id' t' Hin. destruct (ti_flight _ _ _ Hi id' t' ltac:(by right)) as (d & Hd & Hf).
    exists d. split; [done|]. apply Hrest. split; [|done].
    intros ->. apply Ht1. apply list_elem_of_fmap. by exists (id', t).
  - intros t' ids sh addrs [Hne Hf]%Hrest.
    destruct (ti_all _ _ _ Hi _ _ _ _ Hf) as [id' [?|?]%elem_of_cons]; [congruence|eauto].
  - intros t' ids sh addrs data. rewrite Hrest. split; [by intros [_ ?]|].
    intros Hf. split; [|done]. intros ->.
    destruct (ti_flight _ _ _ Hi id t ltac:(left)) as (d & _ & Hf'). congruence.
Qed.

(** ... fills the rows of its request ... *)
Lemma wait_task_loaded w0 w id t tasks d w' :
  tasks_inv w0 w ((id, t) :: tasks) -> wait t w = (Ok tt, w') -> (id, d) ∈ B -> loaded w0 w' d.
Proof.
  intros Hi Hw Hd i u row ds Hu Hrow Hnw Hst Hle.
  pose proof (ti_keys _ _ _ Hi) as Hk. cbn in Hk. apply NoDup_cons in Hk as [Hk1 _].
  destruct (ti_flight _ _ _ Hi id t ltac:(left)) as (d' & Hd' & Hf).
  destruct (batch_unique _ _ _ Hd Hd').
  eapply (wait_load t w w' _ _ _ i u (lr_shard d) _ ds Hw Hf); [by eapply rows_NoDup| |
    |by rewrite (tasks_writing _ _ _ _ _ Hi)|by rewrite (ti_store _ _ _ Hi)|done].
  - intros t' ids' shs' addrs' Hf' Hne a Ha Ha'.
    destruct (ti_all _ _ _ Hi _ _ _ _ Hf') as [id' Hin].
    destruct (ti_flight _ _ _ Hi _ _ Hin) as (d'' & Hd'' & Hf''). rewrite Hf' in Hf''.
    injection Hf'' as -> -> ->. destruct (rows_disjoint _ _ _ _ a Hd Hd'' Ha Ha') as [-> ->].
    apply elem_of_cons in Hin as [?|Hin]; [congruence|]. apply Hk1.
    apply list_elem_of_fmap. by exists (id', t').
  - split; [done|]. split; [|done]. apply lookup_replicate. split; [done|].
    apply lookup_lt_Some in Hu. unfold pylen. lia.
Qed.

(** ... and leaves the requests that have no task any more. *)
Lemma wait_task_others w0 w id t tasks r w' id' d' :
  tasks_inv w0 w ((id, t) :: tasks) -> wait t w = (r, w') ->
  (id', d') ∈ B -> id' ∉ od_keys ((id, t) :: tasks) -> loaded w0 w d' -> loaded w0 w' d'.
Proof.
  intros Hi Hw Hd' Hnk Hld. pose proof (wait_task_inv _ _ _ _ _ _ _ Hi Hw) as Hi'.
  destruct (wait_flights _ _ _ _ Hw) as [_ [Hmem _]].
  eapply loaded_frame; [done..|]. intros a Ha. apply Hmem.
  - by eapply task_not_busy.
  - eapply (task_not_busy w0 w' tasks); [done| |done..]. intros Hx. apply Hnk. by right.
Qed.

(** Submitting the load of one more request. *)
Lemma submit_task w0 w tasks id d t w' :
  tasks_inv w0 w tasks -> id ∉ od_keys tasks -> (id, d) ∈ B ->
  load_data (lr_ids d) (lr_shards d) (lr_rows d) w = (Ok t, w') ->
  tasks_inv w0 w' (od_set id t tasks).
Proof.
  intros Hi Hk Hd Hl. destruct (load_data_ok _ _ _ _ _ _ Hl) as [(Hnew & Hrest) Hframe].
  rewrite od_set_new by done.
  apply (tasks_inv_frame w0 w w' _ _ Hi Hframe).
  - intros id' t' [Hin'|[= -> ->]%list_elem_of_singleton]%elem_of_app.
    + destruct (ti_flight _ _ _ Hi _ _ Hin') as (d' & ? & Hf). exists d'. split; [done|].
      apply Hrest. auto.
    + exists d. split; [done|]. apply Hrest. auto.
  - intros t' ids sh addrs [[-> _]|Hf]%Hrest; [exists id; set_solver|].
    destruct (ti_all _ _ _ Hi _ _ _ _ Hf) as [id' ?]. exists id'. set_solver.
  - rewrite <- od_set_new by done. apply od_set_NoDup, Hi.
  - rewrite fmap_app. apply NoDup_app. split; [apply Hi|]. split; [|apply NoDup_singleton].
    intros t' Hin' Ht'. apply list_elem_of_singleton in Ht' as ->.
    apply list_elem_of_fmap in Hin' as ([id' t''] & Ht & Hin'). simpl in Ht. subst t''.
    destruct (ti_flight _ _ _ Hi _ _ Hin') as (? & _ & ?). simpl in *. congruence.
  - intros t' ids sh addrs data. rewrite Hrest. naive_solver.
Qed.

(** A call that only lets transfers progress. *)
Lemma quiet_tasks w0 w w' tasks : tasks_inv w0 w tasks -> quiet w w' -> tasks_inv w0 w' tasks.
Proof.
  intros Hi [Hframe Hfl]. apply (tasks_inv_frame w0 w w' _ _ Hi Hframe); [| |apply Hi|apply Hi|].
  - intros id t Hin. destruct (ti_flight _ _ _ Hi _ _ Hin) as (d & ? & Hf). exists d. by rewrite Hfl.
  - intros t ids sh addrs. rewrite Hfl. apply (ti_all _ _ _ Hi).
  - intros. by rewrite Hfl.
Qed.

(** With no task left, no load is in flight. *)
Lemma no_tasks_not_busy w0 w a : tasks_inv w0 w [] -> ~ busy w a.
Proof. clear Hkeys Hdst. intros Hi Hb. destruct (task_busy _ _ _ _ Hi Hb) as (? & ? & Hx & _). set_solver. Qed.

(** A step that leaves the loads in flight as they are starts the invariant anew. *)
Lemma tasks_inv_rebase w1 w w' tasks :
  tasks_inv w1 w tasks ->
  (forall t ids shards addrs, flights w' t = Some (FLoad ids shards addrs) <->
                              flights w t = Some (FLoad ids shards addrs)) ->
  tasks_inv w' w' tasks.
Proof.
  clear Hkeys Hdst. intros Hi Hf. split; [..|apply Hi|apply Hi|done|done|done].
  - intros id t Hin. destruct (ti_flight _ _ _ Hi _ _ Hin) as (d & Hd & Hx). exists d. by rewrite Hf.
  - intros t ids shards addrs. rewrite Hf. apply (ti_all _ _ _ Hi).
Qed.

(** An idle world starts a batch. *)
Lemma tasks_inv_start w : (forall t ids shards addrs, flights w t <> Some (FLoad ids shards addrs)) -> tasks_inv w w [].
Proof.
  clear Hkeys Hdst. intros Hidle. split; try done; [set_solver| |constructor|constructor].
  intros t ids shards addrs Hf. by apply Hidle in Hf.
Qed.
End batch.
