(* ===== verification/Hasher.v ===== *)
(** * Block identifiers (ucm/integration/vllm/ucm_connector.py: [RequestHasher],
    [UCMDirectConnector.generate_hash])

    A request's token ids are cut into full blocks and every block is named by
    the MD5 digest of its parent's digest and its own tokens.  [hashlib.md5]
    and [pickle.dumps] are the parameters [md5] and [pickle_dumps]. *)

From S2P Require Import Prelude.
From S2P Require Import PyStr.
From S2P Require Import StoreApi.
From stdpp Require Import strings pretty countable.
Local Open Scope Z_scope.

(** What the connectors hash: a block id, the seed string, or a parent digest
    with the tuple of a block's tokens. *)
Inductive hash_input : Type :=
  | HBytes (b : bytes)
  | HStr (s : string)
  | HBlock (parent : bytes) (tokens : list Z).

Record RequestHasher := { meta_bytes : bytes }.

Definition new_RequestHasher (model : string) (tp_size : Z) (dtype : string) (rank_id : Z)
  : RequestHasher :=
  {| meta_bytes := (model ++ ":" ++ str_of_Z tp_size ++ ":" ++ dtype ++ ":" ++ str_of_Z rank_id)%string |}.

Section hashing.
Context (md5 : bytes -> bytes) (pickle_dumps : hash_input -> bytes).

Definition hash_call (h : RequestHasher) (input_data : hash_input) : bytes :=
  let input_bytes := match input_data with
                     | HBytes b => b
                     | _ => pickle_dumps input_data
                     end in
  md5 (String.append (meta_bytes h) input_bytes).

Definition seed (h : RequestHasher) : bytes := hash_call h (HStr "UCM_HASH_SEED").

(** The body of the loop over [range(0, len(token_ids), block_size)]; the
    first block that is not full ends it. *)
Fixpoint generate_hash_loop (h : RequestHasher) (block_size : Z) (token_ids : list Z)
    (starts : list Z) (parent_block_hash_value : bytes) : list bytes :=
  match starts with
  | [] => []
  | start :: starts' =>
      let block_token_ids := slice token_ids start (start + block_size) in
      if pylen block_token_ids <? block_size then []
      else
        let hash_value := hash_call h (HBlock parent_block_hash_value block_token_ids) in
        hash_value :: generate_hash_loop h block_size token_ids starts' hash_value
  end.

Definition generate_hash (h : RequestHasher) (block_size : Z) (token_ids : list Z)
    (parent_block_hash_value : bytes) : list bytes :=
  generate_hash_loop h block_size token_ids
    (pyrange 0 (pylen token_ids) block_size) parent_block_hash_value.

(** ** Reference definition: the chain of the full blocks *)

Fixpoint chain (h : RequestHasher) (parent : bytes) (blocks : list (list Z)) : list bytes :=
  match blocks with
  | [] => []
  | b :: blocks' =>
      let v := hash_call h (HBlock parent b) in v :: chain h v blocks'
  end.

Definition block_at (block_size : Z) (token_ids : list Z) (i : Z) : list Z :=
  slice token_ids (i * block_size) ((i + 1) * block_size).

Definition full_blocks (block_size : Z) (token_ids : list Z) : list (list Z) :=
  block_at block_size token_ids <$> zrange 0 (pylen token_ids / block_size).

Lemma length_chain h parent bs : length (chain h parent bs) = length bs.
Proof. revert parent. induction bs; intros; simpl; auto. Qed.

Lemma pylen_block_at bs toks i :
  0 < bs -> 0 <= i < pylen toks / bs -> pylen (block_at bs toks i) = bs.
Proof. intros Hbs Hi. unfold block_at. rewrite pylen_slice by nia. nia. Qed.

(** The loop from block [i] on. *)
Lemma generate_hash_loop_chain h bs toks parent n i :
  0 < bs -> 0 <= i -> (i = pylen toks / bs \/ i < pylen toks / bs) ->
  i + Z.of_nat n = cdiv (pylen toks) bs ->
  generate_hash_loop h bs toks ((fun k => bs * (i + Z.of_nat k)) <$> seq 0 n) parent =
  chain h parent (block_at bs toks <$> zrange i (pylen toks / bs)).
Proof.
  intros Hbs. revert i parent. induction n as [|n IH]; intros i parent Hi Hle Hn.
  - rewrite zrange_nil; [done|]. pose proof (cdiv_spec (pylen toks) bs Hbs). nia.
  - cbn [seq fmap list_fmap generate_hash_loop].
    replace (bs * (i + Z.of_nat 0)) with (i * bs) by lia.
    replace (i * bs + bs) with ((i + 1) * bs) by lia.
    change (slice toks (i * bs) ((i + 1) * bs)) with (block_at bs toks i).
    destruct (decide (i < pylen toks / bs)) as [Hlt|Hge].
    + rewrite pylen_block_at, Z.ltb_irrefl by lia. rewrite zrange_cons by lia.
      cbn [fmap list_fmap chain]. f_equal. rewrite <- IH by lia.
      rewrite <- fmap_S_seq, <- list_fmap_compose. f_equal.
      apply list_fmap_ext. intros. simpl. lia.
    + assert (pylen (block_at bs toks i) < bs).
      { unfold block_at. rewrite pylen_slice by nia. nia. }
      rewrite (proj2 (Z.ltb_lt _ _)) by done. rewrite zrange_nil by lia. done.
Qed.

Lemma generate_hash_chain h bs toks parent :
  0 < bs -> generate_hash h bs toks parent = chain h parent (full_blocks bs toks).
Proof.
  intros Hbs. unfold generate_hash, full_blocks, pyrange.
  pose proof (pylen_nonneg toks). pose proof (cdiv_nonneg (pylen toks) bs Hbs ltac:(lia)).
  assert (0 <= pylen toks / bs) by (apply Z.div_pos; lia).
  rewrite Z.sub_0_r.
  rewrite <- (generate_hash_loop_chain h bs toks parent (Z.to_nat (cdiv (pylen toks) bs)) 0);
    [done|done|done|by apply Z.le_lteq in H1 as [|]; auto|by rewrite Z2Nat.id].
Qed.

Lemma pylen_generate_hash h bs toks parent :
  0 < bs -> pylen (generate_hash h bs toks parent) = pylen toks / bs.
Proof.
  intros Hbs. pose proof (pylen_nonneg toks).
  assert (0 <= pylen toks / bs) by (apply Z.div_pos; lia).
  rewrite generate_hash_chain by done. unfold pylen, full_blocks in *.
  by rewrite length_chain, length_fmap, length_zrange, Z.sub_0_r, Z2Nat.id.
Qed.

Lemma full_blocks_app bs toks more :
  0 < bs -> exists rest, full_blocks bs (toks ++ more) = full_blocks bs toks ++ rest.
Proof.
  intros Hbs. pose proof (pylen_nonneg toks). pose proof (pylen_nonneg more).
  assert (0 <= pylen toks / bs) by (apply Z.div_pos; lia).
  unfold full_blocks. rewrite pylen_app.
  rewrite (zrange_app 0 (pylen toks / bs)) by (split; [lia|apply Z.div_le_mono; lia]).
  rewrite fmap_app. eexists. f_equal. apply list_fmap_ext. intros i k Hk.
  apply list_elem_of_lookup_2, elem_of_zrange in Hk. unfold block_at.
  apply slice_app_l; nia.
Qed.

(** No two block inputs collide. *)
Definition collision_free (h : RequestHasher) : Prop :=
  forall p toks p' toks', hash_call h (HBlock p toks) = hash_call h (HBlock p' toks') ->
    p = p' /\ toks = toks'.

Lemma chain_lookup_inj h p1 p2 bs1 bs2 i v :
  collision_free h ->
  chain h p1 bs1 !! i = Some v -> chain h p2 bs2 !! i = Some v ->
  p1 = p2 /\ take (S i) bs1 = take (S i) bs2.
Proof.
  intros Hinj. revert p1 p2 bs1 bs2. induction i as [|i IH]; intros p1 p2 [|b1 bs1] [|b2 bs2] H1 H2;
    try done; simpl in H1, H2.
  - rewrite <- H1 in H2. injection H2 as H2. apply Hinj in H2 as [-> ->]. done.
  - destruct (IH _ _ _ _ H1 H2) as [Hp Ht]. apply Hinj in Hp as [-> ->]. split; [done|]. by apply (f_equal (cons b2)) in Ht.
Qed.

Lemma chain_take h parent bs n : take n (chain h parent bs) = chain h parent (take n bs).
Proof. revert parent n. induction bs; intros parent [|n]; simpl; f_equal; auto. Qed.

Lemma blocks_concat bs toks (n : nat) :
  0 < bs -> concat (block_at bs toks <$> zrange 0 (Z.of_nat n)) = slice_to toks (Z.of_nat n * bs).
Proof.
  intros Hbs. unfold slice_to. induction n as [|k IH].
  - rewrite zrange_nil by lia. simpl. by rewrite slice_empty by lia.
  - rewrite (zrange_app 0 (Z.of_nat k)) by lia. rewrite fmap_app, concat_app, IH.
    rewrite zrange_cons, zrange_nil by lia. simpl. rewrite app_nil_r. unfold block_at.
    rewrite slice_app_adj by nia. f_equal. lia.
Qed.

Lemma take_full_blocks bs toks (n : nat) :
  0 < bs -> Z.of_nat n <= pylen toks / bs ->
  take n (full_blocks bs toks) = block_at bs toks <$> zrange 0 (Z.of_nat n).
Proof.
  intros Hbs Hn. unfold full_blocks. rewrite <- fmap_take. f_equal.
  rewrite (zrange_app 0 (Z.of_nat n)) by lia. apply take_app_length'.
  rewrite length_zrange. lia.
Qed.

(** The blocks of equal token prefixes are equal. *)
Lemma block_at_prefix bs toks1 toks2 (n : nat) :
  0 < bs -> slice_to toks1 (Z.of_nat n * bs) = slice_to toks2 (Z.of_nat n * bs) ->
  block_at bs toks1 <$> zrange 0 (Z.of_nat n) = block_at bs toks2 <$> zrange 0 (Z.of_nat n).
Proof.
  intros Hbs Heq. apply list_fmap_ext. intros i k Hk.
  apply list_elem_of_lookup_2, elem_of_zrange in Hk. unfold block_at.
  apply list_eq. intros j. rewrite !lookup_slice by nia. case_decide; [|done].
  rewrite !slice_to_take in Heq by nia. apply (f_equal (fun l => l !! (Z.to_nat (k * bs) + j)%nat)) in Heq.
  rewrite !lookup_take_lt in Heq by nia. done.
Qed.
End hashing.

(** ** Properties *)

(** C20. A request's block ids name token prefixes.  The id list has one entry
    per full block; requests that agree on their first [n] blocks' tokens get
    the same first [n] ids; and, when no two block inputs collide, two requests
    that share a single id at position [i] agree on every token up to the end
    of block [i], so a hit on an id is a hit on the whole prefix. *)
Theorem block_ids_name_prefixes md5 pickle_dumps h bs toks1 toks2 parent :
  0 < bs -> collision_free md5 pickle_dumps h ->
  let ids toks := generate_hash md5 pickle_dumps h bs toks parent in
  pylen (ids toks1) = pylen toks1 / bs /\
  (forall n : nat, Z.of_nat n <= pylen toks1 / bs -> Z.of_nat n <= pylen toks2 / bs ->
     slice_to toks1 (Z.of_nat n * bs) = slice_to toks2 (Z.of_nat n * bs) ->
     take n (ids toks1) = take n (ids toks2)) /\
  (forall i v, ids toks1 !! i = Some v -> ids toks2 !! i = Some v ->
     slice_to toks1 (Z.of_nat (S i) * bs) = slice_to toks2 (Z.of_nat (S i) * bs)).
Proof.
  intros Hbs Hinj ids. subst ids. cbn beta. split; [by apply pylen_generate_hash|].
  rewrite !generate_hash_chain by done. split.
  - intros n H1 H2 Heq. rewrite !chain_take, !take_full_blocks by done.
    by rewrite (block_at_prefix bs toks1 toks2).
  - intros i v H1 H2.
    destruct (chain_lookup_inj _ _ _ _ _ _ _ _ _ Hinj H1 H2) as [_ Heq].
    apply lookup_lt_Some in H1, H2. rewrite length_chain in H1, H2.
    unfold full_blocks in H1, H2. rewrite length_fmap, length_zrange in H1, H2.
    rewrite !take_full_blocks in Heq by lia.
    apply (f_equal (@concat Z)) in Heq. by rewrite !blocks_concat in Heq.
Qed.

(** ** Concrete parameters *)
Module Demo.
Definition md5 (b : bytes) : bytes := b.
Definition pickle_dumps (x : hash_input) : bytes :=
  match x with
  | HBytes b => b
  | HStr s => s
  | HBlock p toks => pretty (Npos (encode (p, toks)))
  end.
(** A short digest of a block, one byte per token, for evaluation. *)
Definition pickle_short (x : hash_input) : bytes :=
  match x with
  | HBytes b => b
  | HStr s => s
  | HBlock p toks => String.append p (PyStr.join "" (str_of_Z <$> toks))
  end.
Definition h : RequestHasher := new_RequestHasher "m" 1 "bf16" 0.

Lemma demo_collision_free : collision_free md5 pickle_dumps h.
Proof.
  intros p toks p' toks' Heq. unfold hash_call, md5, pickle_dumps in Heq.
  apply (inj (String.append _)) in Heq. apply (inj pretty) in Heq.
  injection Heq as Heq. apply (inj encode) in Heq. by injection Heq.
Qed.
End Demo.

Lemma block_ids_name_prefixes_witness :
  let ids toks := generate_hash Demo.md5 Demo.pickle_dumps Demo.h 2 toks "" in
  take 1 (ids [1; 2; 3; 4]) = take 1 (ids [1; 2; 3; 5]) /\ pylen (ids [1; 2; 3; 4; 5]) = 2.
Proof.
  split.
  - apply (block_ids_name_prefixes Demo.md5 Demo.pickle_dumps Demo.h 2 [1; 2; 3; 4] [1; 2; 3; 5] "");
      [lia|apply Demo.demo_collision_free|vm_compute; congruence..|reflexivity].
  - apply (block_ids_name_prefixes Demo.md5 Demo.pickle_dumps Demo.h 2 [1; 2; 3; 4; 5] [] "");
      [lia|apply Demo.demo_collision_free].
Defined.
