(* ===== verification/Layout.v ===== *)
(** * KV cache layout (ucm/integration/vllm/ucm_connector.py: [KVCacheLayout])

    The base pointers and the per-block strides of every tensor of every local
    layer, and the device addresses of a list of vLLM blocks.  Tensors are
    torch's: the code uses their shape, element size and data pointer, and
    indexes their first dimension; [TensorOps] names these operations. *)

From S2P Require Import Prelude.
Local Open Scope Z_scope.
Local Open Scope py_scope.

Class TensorOps (T : Type) : Type := {
  t_shape : T -> list Z;
  t_element_size : T -> Z;
  t_data_ptr : T -> Z;
  (** [t[i]] *)
  t_index : T -> Z -> T;
}.

(** What a connector is given for a layer: one tensor, a tuple of tensors, or
    something it rejects. *)
Inductive kv_layer (T : Type) : Type :=
  | KTensor (t : T)
  | KTuple (ts : list T)
  | KOther.
Arguments KTensor {T} _.
Arguments KTuple {T} _.
Arguments KOther {T}.

(** numpy arrays of dtype [uint64] *)
Definition u64 (z : Z) : Z := z mod 2 ^ 64.

Record KVCacheLayout := {
  base_ptrs : list (list Z);            (** (n_layers, n_ptrs) *)
  tensor_size_lists : list (list Z);    (** (n_layers, n_tensor_sizes) *)
  l_use_layerwise : bool;
  l_pp_size : Z;
  l_num_hidden_layers : Z;
  local_num_hidden_layers : Z;
  layer_name_to_id : list (string * Z);
  l_first_layer_id : Z;
}.

Section layout.
Context {T : Type} `{TensorOps T}.

Definition t_dim (t : T) : Z := pylen (t_shape t).

(** [handle_tensor]: the pointer of the tensor's first block and the size of
    one block over the trailing dimensions [size_dims]. *)
Definition handle_tensor (t : T) (size_dims : list Z) (acc : list Z * list Z)
  : res (list Z * list Z) :=
  let ptrs := acc.1 ++ [t_data_ptr (t_index t 0)] in
  match mapM (py_nth (t_shape t)) size_dims with
  | None => Err IndexError
  | Some dims => Ok (ptrs, acc.2 ++ [zprod dims * t_element_size t])
  end.

Fixpoint handle_tensors (ts : list T) (size_dims : list Z) (acc : list Z * list Z)
  : res (list Z * list Z) :=
  match ts with
  | [] => Ok acc
  | t :: ts' => let? acc' := handle_tensor t size_dims acc in handle_tensors ts' size_dims acc'
  end.

(** The pointers and strides of one layer. *)
Definition layer_entry (kv : kv_layer T) : res (list Z * list Z) :=
  match kv with
  | KTensor t =>
      if t_dim t =? 5 then
        let? acc := handle_tensor (t_index t 0) [-3; -2; -1] ([], []) in
        handle_tensor (t_index t 1) [-3; -2; -1] acc
      else if t_dim t =? 3 then handle_tensor t [-2; -1] ([], [])
      else Err ValueError
  | KTuple ts => handle_tensors ts [-3; -2; -1] ([], [])
  | KOther => Err TypeError
  end.

(** [rows[i].extend(x)] *)
Definition extend_row (rows : list (list Z)) (i : Z) (x : list Z) : res (list (list Z)) :=
  match py_nth rows i with
  | None => Err IndexError
  | Some row => of_option IndexError (py_setitem rows i (row ++ x))
  end.

Fixpoint build_rows (kvcaches : list (string * kv_layer T)) (ids : list (string * Z))
    (first_layer_id : Z) (rows : list (list Z) * list (list Z))
  : res (list (list Z) * list (list Z)) :=
  match kvcaches with
  | [] => Ok rows
  | (layer_name, kv) :: rest =>
      let? entry := layer_entry kv in
      let? layer_id := of_option KeyError (od_get layer_name ids) in
      let local_layer_id := layer_id - first_layer_id in
      let? ptr_rows := extend_row rows.1 local_layer_id entry.1 in
      let? stride_rows := extend_row rows.2 local_layer_id entry.2 in
      build_rows rest ids first_layer_id (ptr_rows, stride_rows)
  end.

(** [np.asarray(rows, dtype=np.uint64)]: rows of unequal lengths and values
    that do not fit are rejected. *)
Definition as_uint64_matrix (rows : list (list Z)) : res (list (list Z)) :=
  match rows with
  | [] => Ok []
  | r :: _ =>
      if negb (forallb (fun r' => Nat.eqb (length r') (length r)) rows) then Err ValueError
      else if negb (forallb (fun z => (0 <=? z) && (z <? 2 ^ 64)) (concat rows))
      then Err OverflowError
      else Ok rows
  end.

Definition build_layout (kvcaches : list (string * kv_layer T)) (ids : list (string * Z))
    (first_layer_id : Z) : res (list (list Z) * list (list Z)) :=
  let num_rows := Z.of_nat (length (remove_dups ids.*2)) in
  let empty := py_repeat [] num_rows in
  let? rows := build_rows kvcaches ids first_layer_id (empty, empty) in
  let? ptrs := as_uint64_matrix rows.1 in
  let? strides := as_uint64_matrix rows.2 in
  Ok (ptrs, strides).

(** [KVCacheLayout.__init__].  [get_pp_indices] and [extract_layer_index] are
    vLLM's. *)
Definition new_KVCacheLayout (get_pp_indices : Z -> Z -> Z -> Z * Z)
    (extract_layer_index : string -> Z)
    (kvcaches : list (string * kv_layer T)) (use_layerwise : bool)
    (pp_size num_hidden_layers rank tp_size : Z) : res KVCacheLayout :=
  let pp_rank := (rank / tp_size) mod pp_size in
  let '(start, end_) := get_pp_indices num_hidden_layers pp_rank pp_size in
  if (1 <? pp_size) && (num_hidden_layers <=? 0) then Err ValueError
  else
    let ids := (fun e => (e.1, extract_layer_index e.1)) <$> kvcaches in
    match ids with
    | [] => Err StopIteration (* next(iter(())) *)
    | (_, first) :: _ =>
        let? ps := build_layout kvcaches ids first in
        Ok {| base_ptrs := ps.1; tensor_size_lists := ps.2;
              l_use_layerwise := use_layerwise; l_pp_size := pp_size;
              l_num_hidden_layers := num_hidden_layers;
              local_num_hidden_layers := end_ - start;
              layer_name_to_id := ids; l_first_layer_id := first |}
    end.
End layout.

(** ** Addresses *)

(** One row: [tensor_size * block + base], elementwise in [uint64]. *)
Definition block_row (sizes bases : list Z) (block : Z) : list Z :=
  zip_with (fun size base => u64 (u64 (size * u64 block) + base)) sizes bases.

(** [extract_block_addrs(vllm_block_ids)]: (num_blocks, n_layers, n_ptrs) *)
Definition extract_block_addrs (l : KVCacheLayout) (vllm_block_ids : list Z)
  : list (list (list Z)) :=
  (fun b => zip_with (fun sizes bases => block_row sizes bases b)
              (tensor_size_lists l) (base_ptrs l)) <$> vllm_block_ids.

(** [extract_block_addrs(vllm_block_ids, layer_first=True)]:
    (n_layers, num_blocks, n_ptrs) *)
Definition extract_block_addrs_layer_first (l : KVCacheLayout) (vllm_block_ids : list Z)
  : list (list (list Z)) :=
  zip_with (fun sizes bases => block_row sizes bases <$> vllm_block_ids)
    (tensor_size_lists l) (base_ptrs l).

(** [a.reshape(a.shape[0], -1)]: numpy rejects it when the first dimension is 0. *)
Definition reshape_rows (a : list (list (list Z))) : res (list (list Z)) :=
  match a with
  | [] => Err ValueError
  | _ => Ok (@concat Z <$> a)
  end.

Definition tensor_size_list (l : KVCacheLayout) : list Z :=
  if negb (l_use_layerwise l) then concat (tensor_size_lists l)
  else from_option id [] (head (tensor_size_lists l)).

Definition shard_size (l : KVCacheLayout) : Z :=
  if negb (l_use_layerwise l) then u64 (zsum (concat (tensor_size_lists l)))
  else u64 (zsum (from_option id [] (head (tensor_size_lists l)))).

Definition layout_block_size (l : KVCacheLayout) : Z :=
  if 1 <? l_pp_size l
  then u64 (u64 (zsum (from_option id [] (head (tensor_size_lists l)))) * l_num_hidden_layers l)
  else u64 (zsum (concat (tensor_size_lists l))).

(** ** Facts the connectors use *)

(** The addresses of a layout's blocks stay clear of the [uint64] wrap. *)
Definition addr_in_range (l : KVCacheLayout) (nblocks : Z) : Prop :=
  forall layer p sizes bases size base,
    tensor_size_lists l !! layer = Some sizes -> base_ptrs l !! layer = Some bases ->
    sizes !! p = Some size -> bases !! p = Some base ->
    0 <= base /\ 0 <= size /\ base + size * nblocks <= 2 ^ 64.

Lemma u64_small z : 0 <= z < 2 ^ 64 -> u64 z = z.
Proof. intros. by apply Z.mod_small. Qed.

Lemma length_block_row sizes bases b :
  length (block_row sizes bases b) = Nat.min (length sizes) (length bases).
Proof. unfold block_row. apply length_zip_with. Qed.

Lemma lookup_block_row sizes bases b p :
  block_row sizes bases b !! p =
  match sizes !! p, bases !! p with
  | Some size, Some base => Some (u64 (u64 (size * u64 b) + base))
  | _, _ => None
  end.
Proof.
  unfold block_row. rewrite lookup_zip_with. destruct (sizes !! p), (bases !! p); done.
Qed.

(** The address of tensor [p] of layer [layer] of block [b], without wrap. *)
Lemma block_addr_in_range l n layer p b sizes bases size base :
  addr_in_range l n -> 0 <= b < n -> n <= 2 ^ 64 ->
  tensor_size_lists l !! layer = Some sizes -> base_ptrs l !! layer = Some bases ->
  sizes !! p = Some size -> bases !! p = Some base -> 0 < size ->
  block_row sizes bases b !! p = Some (size * b + base).
Proof.
  intros Hr Hb Hn Hs Hbs Hp1 Hp2 Hsz. rewrite lookup_block_row, Hp1, Hp2. f_equal.
  destruct (Hr _ _ _ _ _ _ Hs Hbs Hp1 Hp2) as (H1 & H2 & H3).
  assert (size * (b + 1) <= size * n) by nia.
  rewrite (u64_small b) by lia. rewrite (u64_small (size * b)) by nia.
  apply u64_small. nia.
Qed.

Lemma lookup_extract_block_addrs l ids i b :
  ids !! i = Some b ->
  extract_block_addrs l ids !! i =
    Some (zip_with (fun sizes bases => block_row sizes bases b)
            (tensor_size_lists l) (base_ptrs l)).
Proof. intros Hi. unfold extract_block_addrs. by rewrite list_lookup_fmap, Hi. Qed.

Lemma length_extract_block_addrs l ids : length (extract_block_addrs l ids) = length ids.
Proof. apply length_fmap. Qed.

Lemma reshape_rows_ok a : a <> [] -> reshape_rows a = Ok (@concat Z <$> a).
Proof. by destruct a. Qed.

Lemma build_layout_rectangular {T} `{TensorOps T} kvcaches ids first p s :
  build_layout kvcaches ids first = Ok (p, s) ->
  (forall r r', r ∈ s -> r' ∈ s -> length r = length r') /\
  (forall z, z ∈ concat s -> 0 <= z < 2 ^ 64).
Proof.
  unfold build_layout. destruct (build_rows _ _ _ _) as [rows|]; [|done].
  assert (Hm : forall rs m, as_uint64_matrix rs = Ok m ->
    (forall r r', r ∈ m -> r' ∈ m -> length r = length r') /\
    (forall z, z ∈ concat m -> 0 <= z < 2 ^ 64)).
  { intros rs m. unfold as_uint64_matrix. destruct rs as [|r0 rs]; [intros [= <-]; set_solver|].
    destruct (forallb (fun r' => Nat.eqb (length r') (length r0)) (r0 :: rs)) eqn:H1; simpl negb; [|done].
    destruct (forallb (fun z => (0 <=? z) && (z <? 2 ^ 64)) _) eqn:H2; simpl negb; [|done].
    intros [= <-].
    rewrite forallb_forall in H1. rewrite forallb_forall in H2. split.
    - intros r r' Hr Hr'. apply list_elem_of_In in Hr, Hr'.
      apply H1, Nat.eqb_eq in Hr. apply H1, Nat.eqb_eq in Hr'. congruence.
    - intros z Hz. apply list_elem_of_In, H2 in Hz. lia. }
  destruct (as_uint64_matrix rows.1) as [ptrs|]; [|done].
  destruct (as_uint64_matrix rows.2) as [strides|] eqn:Hs; [|done].
  intros [= <- <-]. by apply (Hm rows.2).
Qed.
