(* ===== verification/Connector.v ===== *)
(** * The direct connector, scheduler side
    (ucm/integration/vllm/ucm_connector.py: [UCMDirectConnector])

    The requests the connector tracks, the hit lookup of a new request, and the
    per-step dispatch of the blocks to load and to dump.  The store is any
    instance of [Store]; [hashlib.md5] and [pickle.dumps] are parameters. *)

From S2P Require Import Prelude.
From S2P Require Import PyStr.
From S2P Require Import StoreApi.
From S2P Require Import Hasher.
From S2P Require Import Layout.
From Stdlib Require SpecFloat.
Local Open Scope Z_scope.
Local Open Scope py_scope.

(** ** Data *)

Record RequestMeta := {
  ucm_block_ids : list bytes;
  hbm_hit_block_num : Z;
  total_hit_block_num : Z;
  num_token_ids : Z;
  vllm_block_ids : list Z;
  token_processed : Z;
}.

(** [RequestMeta()] *)
Definition empty_RequestMeta : RequestMeta :=
  {| ucm_block_ids := []; hbm_hit_block_num := 0; total_hit_block_num := 0;
     num_token_ids := 0; vllm_block_ids := []; token_processed := 0 |}.

Record RequestDispatchMeta := {
  load_block_ids : list bytes * list Z;
  dump_block_ids : list bytes * list Z;
}.

(** [UCMConnectorMetadata.request_meta], in insertion order *)
Abbreviation UCMConnectorMetadata := (list (string * RequestDispatchMeta)).

(** vLLM's request, as far as the connector reads it *)
Record Request := {
  request_id : string;
  all_token_ids : list Z;
  num_tokens : Z;
  num_prompt_tokens : Z;
}.

Record NewRequestData := { new_req_id : string; new_req_block_ids : list (list Z) }.

(** The two encodings of "resumed": a flag per index, or a set of ids *)
Inductive resumed_info : Type :=
  | ResumedFlags (flags : list bool)
  | ResumedIds (ids : list string).

Record OldCachedRequest := {
  old_req_id : string;
  old_new_block_ids : list (list Z);
  old_resumed_from_preemption : bool;
}.

(** [scheduled_cached_reqs]: an object from vLLM 0.9.2 on, a list before *)
Inductive cached_reqs : Type :=
  | CachedObject (req_ids : list string) (new_block_ids : list (option (list (list Z))))
      (resumed : resumed_info)
  | CachedList (reqs : list OldCachedRequest).

Record SchedulerOutput := {
  scheduled_new_reqs : list NewRequestData;
  scheduled_cached_reqs : cached_reqs;
  num_scheduled_tokens : list (string * Z);
  finished_req_ids : list string;
}.

(** ** Configuration *)

Inductive KVConnectorRole := SCHEDULER | WORKER.
#[global] Instance role_eq_dec : EqDecision KVConnectorRole.
Proof. solve_decision. Defined.

Inductive platform := CudaAlike | Npu | OtherPlatform.

Record StoreEntry := {
  ucm_connector_name : string;
  ucm_connector_module_path : option string;
  e_storage_backends : option string;
  e_share_buffer_enable : option bool;
}.

Record VllmConfig := {
  v_model : string; v_dtype : string; v_engine_id : string;
  v_rank : Z; v_tp_size : Z; v_pp_size : Z; v_block_size : Z;
  v_is_mla : bool; v_num_layers : Z; v_num_kv_heads : Z; v_head_size : Z; v_element_size : Z;
  v_num_hidden_layers : Z;
  (** [None] when the attribute does not exist *)
  v_pcp_size : option Z; v_dcp_size : option Z;
}.

(** [self.launch_config]: [None] for a key that is not in the dict *)
Record LaunchConfig := {
  ucm_connectors : list StoreEntry;
  g_enable_event_sync : option bool;
  g_metrics_config_path : option string;
  g_persist_token_threshold : option Z;
  g_use_layerwise : option bool;
  g_use_lite : option bool;
  g_hit_ratio : option SpecFloat.spec_float;
}.

(** The attributes [__init__] sets and no method changes. *)
Record ConnConfig := {
  c_vllm : VllmConfig;
  c_role : KVConnectorRole;
  c_launch : LaunchConfig;
  use_layerwise : bool;
  local_rank : Z;
  tp_rank : Z;
  tp_size : Z;
  is_mla : bool;
  block_size : Z;
  hash_block_size : Z;
  cp_world_size : Z;
  blocks_per_chunk : Z;
  request_hasher : RequestHasher;
  enable_event_sync : bool;
  metrics_config : bool;
  persist_token_threshold : Z;
}.

(** [UCMDirectConnector.__init__]; [get_world_group().local_rank] is an argument. *)
Definition new_UCMDirectConnector (v : VllmConfig) (g : LaunchConfig) (role : KVConnectorRole)
    (p : platform) (world_local_rank : Z) : res ConnConfig :=
  match p with
  | OtherPlatform => Err RuntimeError
  | _ =>
    if (length (ucm_connectors g) =? 0)%nat then Err AssertionError
    else
      let chunk_size := v_block_size v in
      let hasher_rank := match role with SCHEDULER => 0 | WORKER => v_rank v mod v_tp_size v end in
      let c := {| c_vllm := v; c_role := role; c_launch := g; use_layerwise := false;
                  local_rank := match role with SCHEDULER => -1 | WORKER => world_local_rank end;
                  tp_rank := v_rank v; tp_size := v_tp_size v; is_mla := v_is_mla v;
                  block_size := v_block_size v * 1; hash_block_size := v_block_size v;
                  cp_world_size := 1; blocks_per_chunk := chunk_size / v_block_size v;
                  request_hasher := new_RequestHasher (v_model v) (v_tp_size v) (v_dtype v) hasher_rank;
                  enable_event_sync := default true (g_enable_event_sync g);
                  metrics_config := match g_metrics_config_path g with
                                    | Some s => negb (bool_decide (s = EmptyString))
                                    | None => false
                                    end;
                  persist_token_threshold := default 0 (g_persist_token_threshold g) |} in
      match role with
      | SCHEDULER => if (length (ucm_connectors g) =? 1)%nat then Ok c else Err RuntimeError
      | WORKER => Ok c
      end
  end.

(** The configuration [_create_store] hands to the store factory. *)
Record StoreConfig := {
  s_name : string;
  s_module_path : option string;
  s_share_buffer_enable : bool;
  s_storage_backends : option (list string);
  s_unique_id : string;
  s_device_id : option Z;
  s_tensor_size_list : option (list Z);
  s_shard_size : option Z;
  s_block_size : Z;
  s_local_rank_size : option Z;
  s_cpu_affinity_cores : option (list Z);
  s_posix_gc_enable : bool;
}.

Definition create_store_config (c : ConnConfig) (kv_cache_layout : option KVCacheLayout)
    (cpu_affinity_cores : option (list Z)) : res StoreConfig :=
  match ucm_connectors (c_launch c) with
  | [e] =>
      let v := c_vllm c in
      let mk dev tsl shard block lrs cores :=
        Ok {| s_name := ucm_connector_name e; s_module_path := ucm_connector_module_path e;
              s_share_buffer_enable := default (is_mla c) (e_share_buffer_enable e);
              s_storage_backends := split_on colon <$> e_storage_backends e;
              s_unique_id := v_engine_id v; s_device_id := dev; s_tensor_size_list := tsl;
              s_shard_size := shard; s_block_size := block; s_local_rank_size := lrs;
              s_cpu_affinity_cores := cores;
              s_posix_gc_enable := negb (bool_decide (c_role c = WORKER)) && (v_rank v =? 0) |} in
      match c_role c with
      | WORKER =>
          match kv_cache_layout with
          | None => Err AttributeError
          | Some l =>
              mk (Some (local_rank c))
                 (Some (concat (py_repeat (tensor_size_list l) (blocks_per_chunk c))))
                 (Some (shard_size l * blocks_per_chunk c))
                 (layout_block_size l * blocks_per_chunk c)
                 (Some (if is_mla c then tp_size c else 1))
                 (match cpu_affinity_cores with Some [] => None | o => o end)
          end
      | SCHEDULER =>
          let config_base := block_size c * v_element_size v * v_head_size v in
          mk None None None
             (config_base * v_num_layers v * (if is_mla c then 1 else v_num_kv_heads v * 2)
              * blocks_per_chunk c)
             None None
      end
  | _ => Err RuntimeError
  end.

(** ** State *)

(** What is handed to [ucmmetrics.update_stats]; clock readings and the
    durations and speeds computed from them are left out. *)
Inductive metric : Type :=
  | HitRate (hit_blocks total_blocks : Z)
  | LoadStats (load_requests_num load_blocks_num : Z)
  | SaveStats (save_requests_num save_blocks_num : Z).

Record ConnState (W : Type) := ConnSt {
  requests_meta : gmap string RequestMeta;
  invalid_block_ids : gset Z;
  (** vLLM's [_connector_metadata] *)
  connector_metadata : option UCMConnectorMetadata;
  (** set by [register_kv_caches] *)
  kv_cache_layout : option KVCacheLayout;
  stats : list metric;
  world : W;
}.
Arguments ConnSt {W} _ _ _ _ _ _.
Arguments requests_meta {W} _.
Arguments invalid_block_ids {W} _.
Arguments connector_metadata {W} _.
Arguments kv_cache_layout {W} _.
Arguments stats {W} _.
Arguments world {W} _.

Section setters.
Context {W : Type}.
Definition set_requests_meta f (s : ConnState W) : ConnState W := ConnSt (f (requests_meta s)) (invalid_block_ids s)
  (connector_metadata s) (kv_cache_layout s) (stats s) (world s).
Definition set_invalid_block_ids f (s : ConnState W) : ConnState W := ConnSt (requests_meta s) (f (invalid_block_ids s))
  (connector_metadata s) (kv_cache_layout s) (stats s) (world s).
Definition set_connector_metadata m (s : ConnState W) : ConnState W := ConnSt (requests_meta s) (invalid_block_ids s)
  m (kv_cache_layout s) (stats s) (world s).
Definition set_kv_cache_layout l (s : ConnState W) : ConnState W := ConnSt (requests_meta s) (invalid_block_ids s)
  (connector_metadata s) l (stats s) (world s).
Definition add_stats x (s : ConnState W) : ConnState W := ConnSt (requests_meta s) (invalid_block_ids s)
  (connector_metadata s) (kv_cache_layout s) (stats s ++ [x]) (world s).
Definition set_world (w : W) (s : ConnState W) : ConnState W := ConnSt (requests_meta s) (invalid_block_ids s)
  (connector_metadata s) (kv_cache_layout s) (stats s) w.
(** A call to the store or the device. *)
Definition call {A} (m : M W A) : M (ConnState W) A := zoom world set_world m.

Lemma requests_meta_set_world w s : requests_meta (set_world w s) = requests_meta s.
Proof. done. Qed.
Lemma set_world_same s : set_world (world s) s = s.
Proof. by destruct s. Qed.
End setters.

Definition initial_ConnState {W} (w : W) : ConnState W := ConnSt ∅ ∅ None None [] w.

(** ** Scheduler-side operations *)
Section direct.
Context {W : Type} `{Store W}.
Context (md5 : bytes -> bytes) (pickle_dumps : hash_input -> bytes).
Abbreviation ST := (ConnState W).

(** [generate_hash(hash_block_size, request.all_token_ids, self._seed)] *)
Definition request_hashes (c : ConnConfig) (r : Request) : list bytes :=
  generate_hash md5 pickle_dumps (request_hasher c) (hash_block_size c) (all_token_ids r)
    (seed md5 pickle_dumps (request_hasher c)).

(** The blocks the store holds beyond the [hbm_hit_block_num] first ones; a
    [RuntimeError] of the lookup counts as no hit. *)
Definition lookup_external (c : ConnConfig) (external_block_ids : list bytes) : M ST Z :=
  catch_runtime
    (let! k := call (lookup_on_prefix external_block_ids) in
     ret ((k + 1) / cp_world_size c))
    (ret 0).

Definition get_num_new_matched_tokens (c : ConnConfig) (request : Request)
    (num_computed_tokens : Z) : M ST (Z * bool) :=
  do! py_assert (num_computed_tokens mod block_size c =? 0) in
  let hbm_hit_block_num := num_computed_tokens / block_size c in
  let ucm_block_ids := request_hashes c request in
  if num_tokens request <? persist_token_threshold c then ret (0, false)
  else
    let external_block_ids :=
      slice_from ucm_block_ids (hbm_hit_block_num * cp_world_size c) in
    match external_block_ids with
    | [] => ret (0, false)
    | _ =>
        let! external_hit_blocks := lookup_external c external_block_ids in
        do! (if metrics_config c
             then modify (add_stats (HitRate (external_hit_blocks * cp_world_size c)
                                             (pylen ucm_block_ids)))
             else ret tt) in
        let total_hit_block_num := hbm_hit_block_num + external_hit_blocks in
        let num_total_hit_tokens := total_hit_block_num * block_size c in
        let external_hit_tokens :=
          if num_total_hit_tokens =? num_tokens request
          then external_hit_blocks * block_size c - 1
          else external_hit_blocks * block_size c in
        do! modify (set_requests_meta
              (insert (request_id request)
                 {| ucm_block_ids := ucm_block_ids;
                    hbm_hit_block_num := hbm_hit_block_num;
                    total_hit_block_num := total_hit_block_num;
                    num_token_ids := pylen (all_token_ids request);
                    vllm_block_ids := [];
                    token_processed := num_total_hit_tokens |})) in
        ret (external_hit_tokens, false)
    end.

(** [_generate_dispatch_meta]: the dispatch, and the request meta it leaves. *)
Definition generate_dispatch_meta (c : ConnConfig) (req_meta : RequestMeta)
    (new_tokens : Z) (new_vllm_block_ids : list Z) (need_load : bool)
  : RequestMeta * RequestDispatchMeta :=
  let hbm := hbm_hit_block_num req_meta in
  let total := total_hit_block_num req_meta in
  let ids := ucm_block_ids req_meta in
  let vids := vllm_block_ids req_meta ++ new_vllm_block_ids in
  let load :=
    if need_load
    then (slice ids (hbm * cp_world_size c) (total * cp_world_size c),
          slice new_vllm_block_ids hbm total)
    else ([], []) in
  let '(dump, processed) :=
    if token_processed req_meta <? num_token_ids req_meta then
      let start_idx := token_processed req_meta / block_size c in
      let end_idx := (token_processed req_meta + new_tokens) / block_size c in
      ((slice ids (start_idx * cp_world_size c) (end_idx * cp_world_size c),
        slice vids start_idx end_idx),
       token_processed req_meta + new_tokens)
    else (([], []), token_processed req_meta) in
  ({| ucm_block_ids := ids; hbm_hit_block_num := hbm; total_hit_block_num := total;
      num_token_ids := num_token_ids req_meta; vllm_block_ids := vids;
      token_processed := processed |},
   {| load_block_ids := load; dump_block_ids := dump |}).

(** [requests_dispatch_meta[request_id] = self._generate_dispatch_meta(...)] *)
Definition dispatch_request (c : ConnConfig) (o : SchedulerOutput) (id : string)
    (req_meta : RequestMeta) (blocks : list Z) (need_load : bool)
    (acc : UCMConnectorMetadata) : M ST UCMConnectorMetadata :=
  let! new_tokens := lift_res (of_option KeyError (od_get id (num_scheduled_tokens o))) in
  let '(req_meta', d) := generate_dispatch_meta c req_meta new_tokens blocks need_load in
  do! modify (set_requests_meta (insert id req_meta')) in
  ret (od_set id d acc).

Definition dispatch_new (c : ConnConfig) (o : SchedulerOutput) (acc : UCMConnectorMetadata)
    (request : NewRequestData) : M ST UCMConnectorMetadata :=
  let id := new_req_id request in
  let! blocks := lift_res (py_idx (new_req_block_ids request) 0) in
  let! metas := gets requests_meta in
  match metas !! id with
  | Some req_meta => dispatch_request c o id req_meta blocks true acc
  | None => ret acc
  end.

Definition is_resumed (resumed : resumed_info) (i : Z) (id : string) : res bool :=
  match resumed with
  | ResumedFlags flags => py_idx flags i
  | ResumedIds ids => Ok (mem id ids)
  end.

Definition dispatch_cached (c : ConnConfig) (o : SchedulerOutput)
    (new_block_ids : list (option (list (list Z)))) (resumed : resumed_info)
    (acc : UCMConnectorMetadata) (ix : Z * string) : M ST UCMConnectorMetadata :=
  let '(i, id) := ix in
  let! metas := gets requests_meta in
  match metas !! id with
  | Some req_meta =>
      let! nb := lift_res (py_idx new_block_ids i) in
      let! blocks := match nb with
                     | Some groups => lift_res (py_idx groups 0)
                     | None => ret []
                     end in
      let! r := lift_res (is_resumed resumed i id) in
      dispatch_request c o id req_meta blocks r acc
  | None => ret acc
  end.

Definition dispatch_old (c : ConnConfig) (o : SchedulerOutput) (acc : UCMConnectorMetadata)
    (request : OldCachedRequest) : M ST UCMConnectorMetadata :=
  let id := old_req_id request in
  let! metas := gets requests_meta in
  match metas !! id with
  | Some req_meta =>
      let! new_tokens := lift_res (of_option KeyError (od_get id (num_scheduled_tokens o))) in
      let! blocks := lift_res (py_idx (old_new_block_ids request) 0) in
      dispatch_request c o id req_meta blocks (old_resumed_from_preemption request) acc
  | None => ret acc
  end.

(** [self.requests_meta.pop(request_id, None)] for every finished request *)
Definition clear_finished (ids : list string) (m : gmap string RequestMeta)
  : gmap string RequestMeta := foldl (fun m id => delete id m) m ids.

Definition build_connector_meta (c : ConnConfig) (o : SchedulerOutput)
  : M ST UCMConnectorMetadata :=
  let! acc := for_acc (scheduled_new_reqs o) [] (dispatch_new c o) in
  let! acc := match scheduled_cached_reqs o with
              | CachedObject req_ids new_block_ids resumed =>
                  for_acc (enumerate req_ids) acc (dispatch_cached c o new_block_ids resumed)
              | CachedList reqs => for_acc reqs acc (dispatch_old c o)
              end in
  do! modify (set_requests_meta (clear_finished (finished_req_ids o))) in
  ret acc.

(** [get_block_ids_with_load_errors]: read and reset. *)
Definition get_block_ids_with_load_errors : M ST (gset Z) :=
  let! r := gets invalid_block_ids in
  do! modify (set_invalid_block_ids (fun _ => ∅)) in
  ret r.
End direct.

(** ** Correctness of the hit lookup *)

(** The sizes [__init__] and the context-parallel subclass establish. *)
Record sizes_ok (c : ConnConfig) : Prop := {
  hbs_pos : 0 < hash_block_size c;
  cp_pos : 0 < cp_world_size c;
  bs_eq : block_size c = hash_block_size c * cp_world_size c;
}.

Lemma new_UCMDirectConnector_sizes v g role p lr c :
  0 < v_block_size v -> new_UCMDirectConnector v g role p lr = Ok c ->
  sizes_ok c /\ cp_world_size c = 1 /\ blocks_per_chunk c = 1.
Proof.
  intros Hb Hc. unfold new_UCMDirectConnector in Hc.
  destruct p; [..|done]; (destruct (_ =? 0)%nat; [done|]);
    (destruct role; [destruct (_ =? 1)%nat; [|done]|]); injection Hc as <-; simpl;
    (split; [split; simpl; lia|]); (split; [done|]); apply Z.div_same; lia.
Qed.

Section direct_lemmas.
Context {W D : Type} `{StoreLaws W D}.
Context (md5 : bytes -> bytes) (pickle_dumps : hash_input -> bytes).

Abbreviation get_matched := (get_num_new_matched_tokens md5 pickle_dumps).
Abbreviation hashes := (request_hashes md5 pickle_dumps).

Lemma lookup_external_spec c ids s :
  0 < cp_world_size c ->
  exists k w, lookup_external c ids s = (Ok k, set_world w s) /\ 0 <= k /\
    k * cp_world_size c <= pylen ids /\
    forall i id, ids !! i = Some id -> Z.of_nat i < k * cp_world_size c ->
      held (world s) id.
Proof.
  intros Hcp. unfold lookup_external, catch_runtime, catch, call, zoom, bind, ret.
  destruct (lookup_on_prefix ids (world s)) as [[k|e] w] eqn:Hl.
  - exists ((k + 1) / cp_world_size c), w. pose proof (lookup_on_prefix_count _ _ _ _ Hl).
    assert ((k + 1) / cp_world_size c * cp_world_size c <= k + 1) by nia.
    split; [done|]. split; [apply Z.div_pos; lia|]. split; [lia|].
    intros i id Hi Hlt. apply (lookup_on_prefix_hit _ _ _ _ i id Hl Hi). lia.
  - rewrite (lookup_on_prefix_err _ _ _ _ Hl). exists 0, w.
    split; [done|]. split; [done|]. pose proof (pylen_nonneg ids).
    split; [lia|]. intros. lia.
Qed.

Lemma pylen_request_hashes c r :
  sizes_ok c -> pylen (hashes c r) = pylen (all_token_ids r) / hash_block_size c.
Proof. intros []. by apply pylen_generate_hash. Qed.

(** What [get_num_new_matched_tokens] returns and records, on every branch. *)
Lemma get_matched_spec c r n s :
  sizes_ok c -> n mod block_size c = 0 -> 0 <= n ->
  let h := n / block_size c in
  exists t s', get_matched c r n s = (Ok (t, false), s') /\
    ((t = 0 /\ s' = s /\
      (num_tokens r < persist_token_threshold c \/
       slice_from (hashes c r) (h * cp_world_size c) = []))
     \/ exists k, 0 <= k /\ (h + k) * cp_world_size c <= pylen (hashes c r) /\
         h * cp_world_size c < pylen (hashes c r) /\
         t = (if (h + k) * block_size c =? num_tokens r
              then k * block_size c - 1 else k * block_size c) /\
         requests_meta s' = <[request_id r :=
           {| ucm_block_ids := hashes c r; hbm_hit_block_num := h;
              total_hit_block_num := h + k;
              num_token_ids := pylen (all_token_ids r); vllm_block_ids := [];
              token_processed := (h + k) * block_size c |}]> (requests_meta s) /\
         forall i id, hashes c r !! i = Some id ->
           h * cp_world_size c <= Z.of_nat i < (h + k) * cp_world_size c ->
           held (world s) id).
Proof.
  intros Hs Hmod Hn h. destruct Hs as [Hhb Hcp Hbs].
  assert (Hh : 0 <= h) by (apply Z.div_pos; nia).
  unfold get_num_new_matched_tokens. fold h. rewrite bind_assert by lia. destruct (Z.ltb_spec (num_tokens r) (persist_token_threshold c)).
  { exists 0, s. split; [done|]. left. auto. }
  assert (Hhc : 0 <= h * cp_world_size c) by (apply Z.mul_nonneg_nonneg; lia).
  clearbody h.
  assert (Hdrop := slice_from_drop (hashes c r) (h * cp_world_size c) Hhc).
  destruct (slice_from (hashes c r) _) as [|e0 es] eqn:Hext.
  { exists 0, s. split; [done|]. left. auto. }
  destruct (lookup_external_spec c (e0 :: es) s Hcp) as (k & w & Hl & Hk & Hlen & Hst).
  rewrite (bind_ok _ _ _ _ _ Hl).
  match goal with |- context [ bind ?m _ (set_world w s) ] =>
    assert (exists s1, m (set_world w s) = (Ok tt, s1) /\ requests_meta s1 = requests_meta s)
      as (s1 & Hm & Hs1) by (destruct (metrics_config c); by eexists)
  end.
  rewrite (bind_ok _ _ _ _ _ Hm). eexists _, _. split; [reflexivity|]. right. exists k.
  assert (pylen (e0 :: es) = pylen (hashes c r) - h * cp_world_size c) as Hpl.
  { rewrite Hdrop. unfold pylen. rewrite length_drop.
    apply (f_equal length) in Hdrop. rewrite length_drop in Hdrop. simpl in Hdrop. lia. }
  rewrite Hpl in Hlen. pose proof (pylen_nonneg es). rewrite pylen_cons in Hpl.
  split; [done|]. split; [nia|]. split; [lia|]. split; [done|].
  split; [simpl; by rewrite Hs1|].
  intros i id Hi [Hlo Hhi]. apply (Hst (i - Z.to_nat (h * cp_world_size c))%nat); [|nia].
  rewrite Hdrop, lookup_drop. rewrite <- Hi. f_equal. lia.
Qed.
End direct_lemmas.

(** ** Chunked prefill: the dumps of a request's steps *)

(** The dispatches of consecutive steps of one request, each with its number of
    scheduled tokens, its newly allocated blocks and whether it loads. *)
Fixpoint dispatch_steps (c : ConnConfig) (m : RequestMeta) (steps : list (Z * list Z * bool))
  : RequestMeta * list RequestDispatchMeta :=
  match steps with
  | [] => (m, [])
  | (n, blocks, load) :: rest =>
      let '(m1, d) := generate_dispatch_meta c m n blocks load in
      let '(m2, ds) := dispatch_steps c m1 rest in
      (m2, d :: ds)
  end.

(** vLLM schedules a positive number of tokens and has allocated the blocks of
    every token it has scheduled. *)
Fixpoint steps_ok (c : ConnConfig) (m : RequestMeta) (steps : list (Z * list Z * bool)) : Prop :=
  match steps with
  | [] => True
  | (n, blocks, load) :: rest =>
      let m1 := (generate_dispatch_meta c m n blocks load).1 in
      0 <= n /\
      (token_processed m < num_token_ids m ->
        token_processed m + n <= pylen (vllm_block_ids m ++ blocks) * block_size c) /\
      steps_ok c m1 rest
  end.

Lemma generate_dispatch_ids c m n blocks load :
  ucm_block_ids (generate_dispatch_meta c m n blocks load).1 = ucm_block_ids m.
Proof. unfold generate_dispatch_meta. by destruct (_ <? _). Qed.

Lemma generate_dispatch_vllm_ids c m n blocks load :
  vllm_block_ids (generate_dispatch_meta c m n blocks load).1 = vllm_block_ids m ++ blocks.
Proof. unfold generate_dispatch_meta. by destruct (_ <? _). Qed.

(** One step dumps the blocks its tokens complete. *)
Lemma generate_dispatch_dump c m n blocks load :
  sizes_ok c -> 0 <= token_processed m -> 0 <= n ->
  (token_processed m < num_token_ids m ->
    token_processed m + n <= pylen (vllm_block_ids m ++ blocks) * block_size c) ->
  let m' := (generate_dispatch_meta c m n blocks load).1 in
  let d := (generate_dispatch_meta c m n blocks load).2 in
  token_processed m <= token_processed m' /\
  (dump_block_ids d).1 = slice (ucm_block_ids m) (token_processed m / block_size c * cp_world_size c)
    (token_processed m' / block_size c * cp_world_size c) /\
  (dump_block_ids d).2 = slice (vllm_block_ids m') (token_processed m / block_size c)
    (token_processed m' / block_size c) /\
  (token_processed m' = token_processed m \/
   token_processed m' / block_size c <= pylen (vllm_block_ids m')).
Proof.
  intros [Hhb Hcp Hbs] Hp Hn Hcov. assert (0 < block_size c) as Hb by nia.
  assert (0 <= token_processed m / block_size c) by (apply Z.div_pos; lia).
  unfold generate_dispatch_meta. destruct (Z.ltb_spec (token_processed m) (num_token_ids m)); simpl.
  - split; [lia|]. split; [done|]. split; [done|]. right.
    specialize (Hcov ltac:(done)). apply Z.div_le_upper_bound; lia.
  - rewrite !slice_empty by nia. split; [lia|auto].
Qed.

Lemma dispatch_steps_tiles c m steps :
  sizes_ok c -> 0 <= token_processed m -> steps_ok c m steps ->
  let m' := (dispatch_steps c m steps).1 in
  let ds := (dispatch_steps c m steps).2 in
  token_processed m <= token_processed m' /\
  (exists more, vllm_block_ids m' = vllm_block_ids m ++ more) /\
  concat ((fun d => (dump_block_ids d).1) <$> ds) =
    slice (ucm_block_ids m) (token_processed m / block_size c * cp_world_size c)
      (token_processed m' / block_size c * cp_world_size c) /\
  concat ((fun d => (dump_block_ids d).2) <$> ds) =
    slice (vllm_block_ids m') (token_processed m / block_size c)
      (token_processed m' / block_size c).
Proof.
  intros Hs. pose proof Hs as [Hhb Hcp Hbs]. assert (0 < block_size c) as Hb by nia.
  revert m. induction steps as [|[[n blocks] load] rest IH]; intros m Hp Hok.
  - simpl. assert (0 <= token_processed m / block_size c) by (apply Z.div_pos; lia).
    rewrite !slice_empty by nia. split; [lia|]. split; [exists []; by rewrite app_nil_r|done].
  - cbn [steps_ok] in Hok. destruct Hok as (Hn & Hcov & Hok). cbn [dispatch_steps].
    destruct (generate_dispatch_dump c m n blocks load Hs Hp Hn Hcov) as (Hmono & Hu & Hv & Hlen).
    pose proof (generate_dispatch_ids c m n blocks load) as Hids.
    pose proof (generate_dispatch_vllm_ids c m n blocks load) as Hvids.
    destruct (generate_dispatch_meta c m n blocks load) as [m1 d]. cbn [fst snd] in *.
    destruct (IH m1 ltac:(lia) Hok) as (IH1 & (more & IH2) & IH3 & IH4).
    destruct (dispatch_steps c m1 rest) as [m2 ds]. cbn [fst snd] in *.
    assert (0 <= token_processed m / block_size c) by (apply Z.div_pos; lia).
    assert (token_processed m / block_size c <= token_processed m1 / block_size c)
      by (apply Z.div_le_mono; lia).
    assert (token_processed m1 / block_size c <= token_processed m2 / block_size c)
      by (apply Z.div_le_mono; lia).
    split; [lia|]. split; [exists (blocks ++ more); by rewrite IH2, Hvids, app_assoc|].
    cbn [fmap list_fmap concat]. rewrite Hu, Hv, IH3, IH4, Hids, IH2. split.
    + apply slice_app_adj; nia.
    + destruct Hlen as [Heq|Hlen].
      * rewrite Heq. by rewrite slice_empty by lia.
      * rewrite <- (slice_app_l (vllm_block_ids m1) more) by lia. apply slice_app_adj; lia.
Qed.

(** ** What one scheduler step builds *)

(** A request of a step: its id, the blocks vLLM allocated for it in this step
    and whether its hit blocks have to be loaded. *)
Record job := Job { j_id : string; j_blocks : list Z; j_load : bool }.

Definition cached_jobs (req_ids : list string) (new_block_ids : list (option (list (list Z))))
    (resumed : resumed_info) : option (list job) :=
  mapM (fun ix : Z * string =>
    nb ← py_nth new_block_ids ix.1;
    blocks ← match nb with Some groups => py_nth groups 0 | None => Some [] end;
    load ← match is_resumed resumed ix.1 ix.2 with Ok b => Some b | Err _ => None end;
    Some (Job ix.2 blocks load)) (enumerate req_ids).

(** The jobs of a scheduler output, [None] when it is malformed. *)
Definition scheduled_jobs (o : SchedulerOutput) : option (list job) :=
  js ← mapM (fun r => blocks ← py_nth (new_req_block_ids r) 0;
                      Some (Job (new_req_id r) blocks true)) (scheduled_new_reqs o);
  js' ← match scheduled_cached_reqs o with
        | CachedObject req_ids nb resumed => cached_jobs req_ids nb resumed
        | CachedList reqs =>
            mapM (fun r => blocks ← py_nth (old_new_block_ids r) 0;
                    Some (Job (old_req_id r) blocks (old_resumed_from_preemption r))) reqs
        end;
  Some (js ++ js').

Definition find_job (id : string) (js : list job) : option job :=
  List.find (fun j => String.eqb (j_id j) id) js.

(** What the step leaves for one request: its dispatch and its meta. *)
Definition job_result (c : ConnConfig) (o : SchedulerOutput) (js : list job)
    (metas : gmap string RequestMeta) (id : string)
  : option RequestDispatchMeta * option RequestMeta :=
  match find_job id js, metas !! id, od_get id (num_scheduled_tokens o) with
  | Some j, Some m, Some n =>
      let '(m', d) := generate_dispatch_meta c m n (j_blocks j) (j_load j) in (Some d, Some m')
  | _, _, _ => (None, metas !! id)
  end.

Section build_meta.
Context {W : Type}.
Implicit Types (s : ConnState W).

Definition dispatch_job (c : ConnConfig) (o : SchedulerOutput) (acc : UCMConnectorMetadata)
    (j : job) : M (ConnState W) UCMConnectorMetadata :=
  fun s => match requests_meta s !! j_id j with
           | Some m => dispatch_request c o (j_id j) m (j_blocks j) (j_load j) acc s
           | None => (Ok acc, s)
           end.

Lemma clear_finished_lookup ids m (id : string) :
  clear_finished ids m !! id = if bool_decide (id ∈ ids) then None else m !! id.
Proof.
  unfold clear_finished. revert m. induction ids as [|x ids IH]; intros m; [done|].
  simpl. rewrite IH. destruct (decide (id = x)) as [->|Hne].
  - rewrite lookup_delete_eq. rewrite (bool_decide_true (x ∈ x :: ids)) by left.
    by case_bool_decide.
  - rewrite lookup_delete_ne by done. rewrite (bool_decide_ext (id ∈ x :: ids) (id ∈ ids)); [done|].
    set_solver.
Qed.

Lemma build_meta_jobs c o js s :
  scheduled_jobs o = Some js ->
  build_connector_meta c o s =
    bind (for_acc js [] (dispatch_job c o))
      (fun acc => bind (modify (set_requests_meta (clear_finished (finished_req_ids o))))
                    (fun _ => ret acc)) s.
Proof.
  unfold scheduled_jobs. intros (js1 & H1 & (js2 & H2 & [= <-])%bind_Some)%bind_Some.
  unfold build_connector_meta.
  assert (E1 : forall b s, for_acc (scheduled_new_reqs o) b (dispatch_new c o) s =
                           for_acc js1 b (dispatch_job c o) s).
  { intros b s0. apply for_acc_ext. apply mapM_Some in H1. eapply Forall2_impl; [exact H1|].
    intros r j (blocks & Hb & [= <-])%bind_Some b' s'.
    unfold dispatch_new, dispatch_job, py_idx. rewrite Hb. simpl.
    unfold bind, gets, lift_res, ret. by destruct (requests_meta s' !! _). }
  assert (E2 : forall b s, match scheduled_cached_reqs o with
              | CachedObject req_ids new_block_ids resumed =>
                  for_acc (enumerate req_ids) b (dispatch_cached c o new_block_ids resumed)
              | CachedList reqs => for_acc reqs b (dispatch_old c o)
              end s = for_acc js2 b (dispatch_job c o) s).
  { intros b s0. destruct (scheduled_cached_reqs o) as [ids nbs rs|reqs];
      apply for_acc_ext; apply mapM_Some in H2; (eapply Forall2_impl; [exact H2|]).
    - intros [i id] j (nb & Hnb & (bl & Hbl & (ld & Hld & [= <-])%bind_Some)%bind_Some)%bind_Some b' s'.
      unfold dispatch_cached, dispatch_job, py_idx. simpl in *. rewrite Hnb.
      unfold bind, gets, lift_res, ret. destruct (requests_meta s' !! id); [|done]. simpl.
      destruct (is_resumed rs i id) eqn:Hr; [|done]. simplify_eq.
      destruct nb; simpl in *; [by rewrite Hbl|by simplify_eq].
    - intros r j (bl & Hbl & [= <-])%bind_Some b' s'.
      unfold dispatch_old, dispatch_job, py_idx, dispatch_request. simpl in *. rewrite Hbl.
      unfold bind, gets, lift_res, ret. destruct (requests_meta s' !! _); [|done]. simpl.
      by destruct (od_get (old_req_id r) (num_scheduled_tokens o)). }
  unfold bind. rewrite for_acc_app. unfold bind. rewrite E1.
  destruct (for_acc js1 [] _ s) as [[acc|e] s1]; [|done]. rewrite E2. done.
Qed.

(** The loop over jobs with distinct ids leaves every request its result. *)
Lemma jobs_loop c o js acc0 s :
  NoDup (j_id <$> js) ->
  (forall j, j ∈ js -> is_Some (od_get (j_id j) (num_scheduled_tokens o))) ->
  exists acc s', for_acc js acc0 (dispatch_job c o) s = (Ok acc, s') /\
    s' = set_requests_meta (fun _ => requests_meta s') s /\
    forall id,
      let '(d, m) := job_result c o js (requests_meta s) id in
      requests_meta s' !! id = m /\
      od_get id acc = match d with Some d => Some d | None => od_get id acc0 end.
Proof.
  revert acc0 s. induction js as [|j js IH]; intros acc0 s Hn Hsch.
  - exists acc0, s. by destruct s.
  - cbn [fmap list_fmap] in Hn. apply NoDup_cons in Hn as [Hj Hn].
    destruct (Hsch j ltac:(left)) as [n Hjn].
    assert (Hfj : find_job (j_id j) js = None).
    { destruct (find_job (j_id j) js) as [x|] eqn:Hf; [|done]. exfalso. apply Hj.
      apply List.find_some in Hf as [Hin Heq]. apply String.eqb_eq in Heq. rewrite <- Heq.
      apply list_elem_of_fmap. exists x. split; [done|]. by apply list_elem_of_In. }
    cbn [for_acc]. unfold dispatch_job at 1, bind.
    destruct (requests_meta s !! j_id j) as [m|] eqn:Hm.
    + unfold dispatch_request, bind, lift_res, modify, ret. rewrite Hjn. simpl.
      destruct (generate_dispatch_meta c m n (j_blocks j) (j_load j)) as [m' d] eqn:Hg.
      destruct (IH (od_set (j_id j) d acc0) (set_requests_meta (insert (j_id j) m') s) Hn)
        as (acc & s' & Hl & Hfr & Hres); [intros; apply Hsch; by right|].
      exists acc, s'. split; [done|]. split; [by rewrite Hfr|]. intros id.
      specialize (Hres id). unfold job_result in *. cbn [find_job List.find].
      fold (find_job id js). simpl (requests_meta (set_requests_meta _ _)) in Hres.
      destruct (String.eqb_spec (j_id j) id) as [<-|Hne].
      * rewrite Hfj in Hres. rewrite Hm, Hjn, Hg. rewrite lookup_insert_eq in Hres.
        by rewrite od_get_set_eq in Hres.
      * rewrite lookup_insert_ne in Hres by done. by rewrite od_get_set_ne in Hres.
    + destruct (IH acc0 s Hn) as (acc & s' & Hl & Hfr & Hres); [intros; apply Hsch; by right|].
      exists acc, s'. split; [done|]. split; [done|]. intros id. specialize (Hres id).
      unfold job_result in *. cbn [find_job List.find]. fold (find_job id js).
      destruct (String.eqb_spec (j_id j) id) as [<-|Hne]; [|done].
      rewrite Hfj in Hres. by rewrite Hm in *.
Qed.
End build_meta.

(** ** Properties *)
Section properties.
Context {W D : Type} `{StoreLaws W D}.
Context (md5 : bytes -> bytes) (pickle_dumps : hash_input -> bytes).

(** C3. The hit lookup never fails and never over-promises: for a request with
    at least one token left to compute it returns a number [t >= 0] of tokens
    such that at least one token stays to be computed, and every block that
    the promised tokens beyond [n] touch is one the store held at the lookup,
    also when the lookup itself raised [RuntimeError]. *)
Theorem matched_tokens_are_held c r n s :
  sizes_ok c -> n mod block_size c = 0 -> 0 <= n < num_tokens r ->
  num_tokens r = pylen (all_token_ids r) ->
  exists t s',
    get_num_new_matched_tokens md5 pickle_dumps c r n s = (Ok (t, false), s') /\
    0 <= t /\ n + t < num_tokens r /\
    forall i id, request_hashes md5 pickle_dumps c r !! i = Some id ->
      n <= Z.of_nat i * hash_block_size c < n + t ->
      held (world s) id.
Proof.
  intros Hs Hmod Hn Htok.
  destruct (get_matched_spec md5 pickle_dumps c r n s Hs Hmod ltac:(lia))
    as (t & s' & Hc & Hcase).
  pose proof (pylen_request_hashes md5 pickle_dumps c r Hs) as Hlen.
  exists t, s'. split; [done|]. destruct Hs as [Hhb Hcp Hbs].
  destruct Hcase as [(-> & _ & _) | (k & Hk & Htot & _ & -> & _ & Hst)].
  { split; [done|]. split; [lia|]. intros. lia. }
  rewrite Hlen, <- Htok in Htot.
  assert (Hn' : n = n / block_size c * block_size c) by nia.
  set (h := n / block_size c) in *. clearbody h.
  assert (Hle : (h + k) * block_size c <= num_tokens r).
  { rewrite Hbs. assert (num_tokens r / hash_block_size c * hash_block_size c <= num_tokens r) by nia.
    nia. }
  split; [destruct (Z.eqb_spec ((h + k) * block_size c) (num_tokens r)); nia|].
  split; [destruct (Z.eqb_spec ((h + k) * block_size c) (num_tokens r)); nia|].
  intros i id Hi [Hlo Hhi]. apply (Hst i id Hi).
  assert (Z.of_nat i * hash_block_size c < (h + k) * cp_world_size c * hash_block_size c).
  { destruct (Z.eqb_spec ((h + k) * block_size c) (num_tokens r)); nia. }
  split; nia.
Qed.

(** C33. What a new request loads is exactly its external hit.  When the lookup
    recorded the request, its first dispatch names, one by one, the hash ids of
    the hit blocks the store held, next to the device blocks at the same
    positions; the loaded device blocks follow the blocks vLLM already has and
    end where the promised tokens end; nothing else is loaded. *)
Theorem new_request_loads_the_hit c r n s t s' m new_tokens blocks :
  sizes_ok c -> n mod block_size c = 0 -> 0 <= n ->
  get_num_new_matched_tokens md5 pickle_dumps c r n s = (Ok (t, false), s') ->
  requests_meta s !! request_id r = None ->
  requests_meta s' !! request_id r = Some m ->
  total_hit_block_num m <= pylen blocks ->
  let d := (generate_dispatch_meta c m new_tokens blocks true).2 in
  let h := n / block_size c in
  pylen (load_block_ids d).1 = pylen (load_block_ids d).2 * cp_world_size c /\
  (forall i id, (load_block_ids d).1 !! i = Some id ->
     request_hashes md5 pickle_dumps c r !! (Z.to_nat (h * cp_world_size c) + i)%nat = Some id /\
     held (world s) id) /\
  (forall i b, (load_block_ids d).2 !! i = Some b -> blocks !! (Z.to_nat h + i)%nat = Some b) /\
  (t = pylen (load_block_ids d).2 * block_size c \/
   t = pylen (load_block_ids d).2 * block_size c - 1 /\
     n + t + 1 = num_tokens r).
Proof.
  intros Hs Hmod Hn Hc Hnone Hm Htot d h.
  destruct (get_matched_spec md5 pickle_dumps c r n s Hs Hmod Hn) as (t0 & s0 & Hc0 & Hcase).
  rewrite Hc in Hc0. injection Hc0 as <- <-. destruct Hs as [Hhb Hcp Hbs].
  assert (0 <= h) as Hh by (apply Z.div_pos; nia).
  assert (Hnh : n = h * block_size c) by (subst h; nia).
  destruct Hcase as [(_ & -> & _) | (k & Hk & Hlen & _ & Ht & Hmeta & Hst)]; [congruence|].
  rewrite Hmeta, lookup_insert_eq in Hm. injection Hm as <-. fold h in Hlen, Ht, Hst, Htot, d.
  clearbody h. simpl in Htot.
  assert (Hd : load_block_ids d =
    (slice (request_hashes md5 pickle_dumps c r) (h * cp_world_size c) ((h + k) * cp_world_size c),
     slice blocks h (h + k))).
  { subst d. unfold generate_dispatch_meta. simpl. by destruct (_ <? _). }
  clearbody d. rewrite Hd. simpl. rewrite !pylen_slice by nia.
  replace (Z.max 0 (Z.min (h + k) (pylen blocks) - h)) with k by lia.
  split; [nia|]. split; [|split].
  - intros i id Hi. rewrite lookup_slice in Hi by nia. case_decide; [|done].
    split; [done|]. apply (Hst _ _ Hi). nia.
  - intros i b Hi. rewrite lookup_slice in Hi by lia. by case_decide.
  - rewrite Ht. destruct (Z.eqb_spec ((h + k) * block_size c) (num_tokens r)); [right; nia|by left].
Qed.
End properties.

(** C12. Chunked prefill dumps every new block exactly once.  From the state the
    hit lookup records, over any sequence of scheduled steps
    (chunks, with or without a load), the dumped hash ids, concatenated in step
    order, are the request's ids from its hit to the last block its processed
    tokens complete, and the dumped device blocks are the request's device blocks
    at the same positions; once the whole prompt is processed, these are all the
    ids that were not hit. *)
Theorem prefill_dumps_each_new_block_once c m steps :
  sizes_ok c -> 0 <= total_hit_block_num m ->
  token_processed m = total_hit_block_num m * block_size c ->
  steps_ok c m steps ->
  let m' := (dispatch_steps c m steps).1 in
  let ds := (dispatch_steps c m steps).2 in
  concat ((fun d => (dump_block_ids d).1) <$> ds) =
    slice (ucm_block_ids m) (total_hit_block_num m * cp_world_size c)
      (token_processed m' / block_size c * cp_world_size c) /\
  concat ((fun d => (dump_block_ids d).2) <$> ds) =
    slice (vllm_block_ids m') (total_hit_block_num m) (token_processed m' / block_size c) /\
  (pylen (ucm_block_ids m) <= token_processed m' / block_size c * cp_world_size c ->
   concat ((fun d => (dump_block_ids d).1) <$> ds) =
     slice_from (ucm_block_ids m) (total_hit_block_num m * cp_world_size c)).
Proof.
  intros Hs Ht Hp Hok m' ds. pose proof Hs as [Hhb Hcp Hbs].
  assert (0 < block_size c) as Hb by nia.
  destruct (dispatch_steps_tiles c m steps Hs ltac:(nia) Hok) as (_ & _ & H1 & H2).
  fold m' ds in H1, H2. rewrite Hp in H1, H2. rewrite Z.div_mul in H1, H2 by lia.
  split; [done|]. split; [done|]. intros Hall. rewrite H1.
  rewrite slice_from_drop, slice_full by nia. done.
Qed.

(** What a scheduler step builds.  On a well-formed scheduler output,
    [build_connector_meta] succeeds; every scheduled request the connector
    tracks gets the dispatch of its own tokens, blocks and load flag and its
    meta is advanced by it; a scheduled request it does not track and a tracked
    one that is not scheduled get no dispatch and keep their meta; and afterwards
    no finished request is tracked. *)
Theorem build_connector_meta_per_request {W} c o js (s : ConnState W) :
  scheduled_jobs o = Some js -> NoDup (j_id <$> js) ->
  (forall j, j ∈ js -> is_Some (od_get (j_id j) (num_scheduled_tokens o))) ->
  exists acc s', build_connector_meta c o s = (Ok acc, s') /\
    s' = set_requests_meta (fun _ => requests_meta s') s /\
    forall id,
      let '(d, m) := job_result c o js (requests_meta s) id in
      od_get id acc = d /\
      requests_meta s' !! id = if bool_decide (id ∈ finished_req_ids o) then None else m.
Proof.
  intros Hjs Hn Hsch. rewrite (build_meta_jobs c o js s Hjs).
  destruct (jobs_loop c o js [] s Hn Hsch) as (acc & s1 & Hl & Hfr & Hres).
  rewrite (bind_ok _ _ _ _ _ Hl). eexists acc, _. split; [done|]. split.
  { rewrite Hfr at 1. done. }
  intros id. specialize (Hres id). destruct (job_result c o js (requests_meta s) id) as [d m].
  destruct Hres as [<- Hg]. split; [rewrite Hg; by destruct d|].
  cbn [requests_meta set_requests_meta]. apply clear_finished_lookup.
Qed.

(** ** Concrete inputs *)
Module ConnDemo.
Definition vllm : VllmConfig := {|
  v_model := "m"; v_dtype := "bf16"; v_engine_id := "e"; v_rank := 0; v_tp_size := 1;
  v_pp_size := 1; v_block_size := 2; v_is_mla := false; v_num_layers := 1;
  v_num_kv_heads := 1; v_head_size := 1; v_element_size := 2; v_num_hidden_layers := 1;
  v_pcp_size := None; v_dcp_size := None |}.
Definition entry : StoreEntry := {| ucm_connector_name := "UcmPipelineStore";
  ucm_connector_module_path := None; e_storage_backends := None; e_share_buffer_enable := None |}.
Definition launch : LaunchConfig := {| ucm_connectors := [entry]; g_enable_event_sync := None;
  g_metrics_config_path := None; g_persist_token_threshold := None; g_use_layerwise := None;
  g_use_lite := None; g_hit_ratio := None |}.
Definition conn (role : KVConnectorRole) : ConnConfig :=
  match new_UCMDirectConnector vllm launch role CudaAlike 0 with
  | Ok c => c
  | Err _ => Build_ConnConfig vllm role launch false 0 0 1 false 1 1 1 1 (Build_RequestHasher "") false false 0
  end.
Lemma conn_sizes role : sizes_ok (conn role).
Proof. by destruct role; split. Qed.

Definition req (toks : list Z) : Request :=
  {| request_id := "r"; all_token_ids := toks; num_tokens := pylen toks; num_prompt_tokens := pylen toks |}.
Definition hashes (r : Request) : list bytes := request_hashes Demo.md5 Demo.pickle_short (conn SCHEDULER) r.
(** A store that holds the first [n] blocks of a request. *)
Definition holding (r : Request) (n : nat) : MemStore.world Z :=
  MemStore.idle (list_to_map ((fun id => ((id, 0), [0; 0])) <$> take n (hashes r))) (fun a => a).

Definition request_meta (r : Request) (hbm hit : Z) : RequestMeta :=
  {| ucm_block_ids := hashes r; hbm_hit_block_num := hbm; total_hit_block_num := hit;
     num_token_ids := pylen (all_token_ids r); vllm_block_ids := [];
     token_processed := hit * 2 |}.
Definition lookup_state (r : Request) (n : nat) (computed : Z) :=
  get_num_new_matched_tokens Demo.md5 Demo.pickle_short (conn SCHEDULER) r computed
    (initial_ConnState (holding r n)).
End ConnDemo.
Import ConnDemo.

Lemma matched_tokens_are_held_witness :
  exists t s', lookup_state (req [1; 2; 3; 4]) 2 0 = (Ok (t, false), s') /\ 0 <= t /\ 0 + t < 4.
Proof.
  destruct (matched_tokens_are_held Demo.md5 Demo.pickle_short (conn SCHEDULER) (req [1; 2; 3; 4]) 0
              (initial_ConnState (holding (req [1; 2; 3; 4]) 2)) (conn_sizes SCHEDULER))
    as (t & s' & H & H1 & H2 & _); [reflexivity|split; [lia|reflexivity]|reflexivity|].
  exists t, s'. split; [exact H|]. split; [exact H1|exact H2].
Defined.

Lemma new_request_loads_the_hit_witness :
  let r := req [1; 2; 3; 4; 5] in
  let m := request_meta r 0 1 in
  pylen (load_block_ids (generate_dispatch_meta (conn SCHEDULER) m 3 [7; 8; 9] true).2).1 =
  pylen (load_block_ids (generate_dispatch_meta (conn SCHEDULER) m 3 [7; 8; 9] true).2).2 * 1.
Proof.
  intros r m.
  apply (new_request_loads_the_hit Demo.md5 Demo.pickle_short (conn SCHEDULER) r 0
           (initial_ConnState (holding r 1)) 2 (lookup_state r 1 0).2 m 3 [7; 8; 9]
           (conn_sizes SCHEDULER)); [reflexivity|lia|reflexivity|reflexivity|vm_compute; reflexivity|].
  vm_compute; congruence.
Defined.

Lemma prefill_dumps_each_new_block_once_witness :
  let r := req [1; 2; 3; 4; 5; 6; 7] in
  let m := request_meta r 0 1 in
  let ds := (dispatch_steps (conn SCHEDULER) m [(3, [7; 8; 9], true); (2, [10], false)]).2 in
  concat ((fun d => (dump_block_ids d).1) <$> ds) = slice_from (hashes r) 1 /\
  concat ((fun d => (dump_block_ids d).2) <$> ds) = [8; 9].
Proof.
  intros r m ds.
  destruct (prefill_dumps_each_new_block_once (conn SCHEDULER) m
    [(3, [7; 8; 9], true); (2, [10], false)] (conn_sizes SCHEDULER)) as (_ & H2 & H3);
    [vm_compute; congruence|reflexivity|vm_compute; repeat split; congruence|].
  split; [apply H3; vm_compute; congruence|exact H2].
Defined.

Definition demo_output : SchedulerOutput := {|
  scheduled_new_reqs := [{| new_req_id := "r"; new_req_block_ids := [[7; 8]] |}];
  scheduled_cached_reqs := CachedObject ["q"%string] [None] (ResumedIds []);
  num_scheduled_tokens := [("r"%string, 4); ("q"%string, 1)];
  finished_req_ids := ["f"%string] |}.

Lemma build_connector_meta_per_request_witness :
  exists acc s', build_connector_meta (conn SCHEDULER) demo_output
      (set_requests_meta (fun _ => {["r"%string := request_meta (req [1; 2; 3; 4]) 0 0]})
         (initial_ConnState tt)) = (Ok acc, s') /\
    is_Some (od_get "r"%string acc).
Proof.
  destruct (build_connector_meta_per_request (conn SCHEDULER) demo_output
    [Job "r" [7; 8] true; Job "q" [] false]
    (set_requests_meta (fun _ => {["r"%string := request_meta (req [1; 2; 3; 4]) 0 0]})
         (initial_ConnState tt))) as (acc & s' & H1 & _ & H2).
  - reflexivity.
  - vm_compute. repeat constructor; set_solver.
  - intros j Hj. repeat (apply elem_of_cons in Hj as [->|Hj]; [by eexists|]). set_solver.
  - exists acc, s'. split; [exact H1|]. specialize (H2 "r"%string). destruct H2 as [-> _]. by eexists.
Defined.

(** A request that is preempted and then resumed when all its full blocks are in
    device memory keeps the meta of its first run ([get_num_new_matched_tokens]
    returns before it records a new one): the device blocks of the first run
    stay in front of the new ones, and a later step dumps the block of position
    0 under the id of position 1. *)
Example resumed_request_dumps_another_block :
  let r := req [1; 2; 3; 4; 5] in
  let s1 := (lookup_state r 0 0).2 in
  let step s ids n blocks resumed :=
    build_connector_meta (conn SCHEDULER)
      {| scheduled_new_reqs := if resumed : bool then [] else [{| new_req_id := "r"; new_req_block_ids := [blocks] |}];
         scheduled_cached_reqs := if resumed then CachedObject ["r"%string] [Some [blocks]] (ResumedIds ids)
                                  else CachedObject [] [] (ResumedIds []);
         num_scheduled_tokens := [("r"%string, n)]; finished_req_ids := [] |} s in
  (* first run: two tokens in device block 7, then preempted *)
  let s2 := (step s1 [] 2 [7] false).2 in
  (* resumed with four tokens computed by another request, in blocks 20 and 21 *)
  let l3 := get_num_new_matched_tokens Demo.md5 Demo.pickle_short (conn SCHEDULER) r 4 s2 in
  let s4 := (step l3.2 ["r"%string] 1 [20; 21; 22] true).2 in
  l3.1 = Ok (0, false) /\
  exists acc id1, (step s4 [] 1 [] true).1 = Ok acc /\ hashes r !! 1%nat = Some id1 /\
    (dump_block_ids <$> od_get "r"%string acc) = Some ([id1], [20]).
Proof. split; [reflexivity|]. eexists _, _. repeat split; vm_compute; reflexivity. Qed.
