(* ===== verification/ConnectorWorker.v ===== *)
(** * The direct connector, worker side
    (ucm/integration/vllm/ucm_connector.py: [UCMDirectConnector])

    Registration of the KV caches, the synchronous load before the forward pass
    and the synchronous save after it.  The store is any instance of [Store],
    the accelerator any instance of [Device]; both act on the same world. *)

From S2P Require Import Prelude.
From S2P Require Import PyStr.
From S2P Require Import StoreApi.
From S2P Require Import LoadBatch.
From S2P Require Import Hasher.
From S2P Require Import Layout.
From S2P Require Import Connector.
From stdpp Require Import sorting.
Local Open Scope Z_scope.
Local Open Scope py_scope.

(** [ucm.integration.vllm.device.Device], as the connectors call it *)
Class Device (W : Type) : Type := {
  dev_get_event_handle : M W Z;
  dev_synchronize : M W unit;
  dev_destroy_event_handles : M W unit;
}.

(** Both implementations of [get_event_handle] catch every exception; a failing
    synchronisation raises [RuntimeError]; none of the calls moves KV data. *)
Class DeviceLaws (W D : Type) `{StoreView W D} `{Device W} : Prop := {
  dev_handle_total : forall w, exists h w', dev_get_event_handle w = (Ok h, w') /\ quiet w w';
  dev_sync_err : forall w e w', dev_synchronize w = (Err e, w') -> is_runtime_error e = true;
  dev_sync_quiet : forall w, quiet w (dev_synchronize w).2;
  dev_destroy_total : forall w, exists w', dev_destroy_event_handles w = (Ok tt, w') /\ quiet w w';
}.

Definition with_load_ids (ids : list bytes) (d : RequestDispatchMeta) : RequestDispatchMeta :=
  {| load_block_ids := (ids, (load_block_ids d).2); dump_block_ids := dump_block_ids d |}.
Definition with_dump_ids (ids : list bytes) (d : RequestDispatchMeta) : RequestDispatchMeta :=
  {| load_block_ids := load_block_ids d; dump_block_ids := (ids, (dump_block_ids d).2) |}.

(** The local variables of the load loop. *)
Record LoadAcc (T : Type) := {
  request_to_task : list (string * T);
  is_load : bool;
  num_loaded_block : Z;
  num_loaded_request : Z;
}.
Arguments request_to_task {T} _.
Arguments is_load {T} _.
Arguments num_loaded_block {T} _.
Arguments num_loaded_request {T} _.

(** ... and of the save loop *)
Record SaveAcc := {
  a_is_save : bool;
  num_saved_block : Z;
  num_saved_request : Z;
  total_ucm_block_ids : list bytes;
  total_vllm_block_ids : list Z;
}.

Section worker.
Context {W : Type} `{Store W} `{Device W}.
Context (md5 : bytes -> bytes) (pickle_dumps : hash_input -> bytes).
Abbreviation ST := (ConnState W).

(** vLLM's [_get_connector_metadata] *)
Definition get_connector_metadata : M ST UCMConnectorMetadata :=
  let! m := gets connector_metadata in
  match m with Some md => ret md | None => raise AssertionError end.

Definition get_layout : M ST KVCacheLayout :=
  let! l := gets kv_cache_layout in
  match l with Some l => ret l | None => raise AttributeError end.

(** [for i, id in enumerate(ids): ids[i] = self.request_hasher(id)] *)
Definition rehash (c : ConnConfig) (ids : list bytes) : list bytes :=
  (fun id => hash_call md5 pickle_dumps (request_hasher c) (HBytes id)) <$> ids.

(** The ids a worker loads and dumps under; the lists of the metadata are
    rewritten in place. *)
Definition load_key_ids (c : ConnConfig) (ids : list bytes) : list bytes :=
  if negb (tp_rank c =? 0) && negb (is_mla c) then rehash c ids else ids.
Definition dump_key_ids (c : ConnConfig) (ids : list bytes) : list bytes :=
  if negb (tp_rank c =? 0) then rehash c ids else ids.

Definition update_dispatch (id : string) (d : RequestDispatchMeta) : M ST unit :=
  modify (fun s => set_connector_metadata (od_set id d <$> connector_metadata s) s).

(** [extract_block_addrs(ids)] reshaped to one row per block *)
Definition block_ptrs (vllm_block_ids : list Z) : M ST (list (list Z)) :=
  let! l := get_layout in lift_res (reshape_rows (extract_block_addrs l vllm_block_ids)).

Definition report_invalid (vllm_block_ids : list Z) : M ST unit :=
  modify (set_invalid_block_ids (fun inv => inv ∪ list_to_set vllm_block_ids)).

(** The body of the first loop of [start_load_kv]. *)
Definition submit_load (c : ConnConfig) (acc : LoadAcc task) (e : string * RequestDispatchMeta)
  : M ST (LoadAcc task) :=
  let '(request_id, request) := e in
  let n := pylen (load_block_ids request).1 in
  if n =? 0 then ret acc
  else
    let ids := load_key_ids c (load_block_ids request).1 in
    let vllm_block_ids := (load_block_ids request).2 in
    do! update_dispatch request_id (with_load_ids ids request) in
    let! total_ptrs := block_ptrs vllm_block_ids in
    let shard_indexs := py_repeat 0 (pylen ids) in
    catch_runtime
      (let! t := call (load_data ids shard_indexs total_ptrs) in
       ret {| request_to_task := od_set request_id t (request_to_task acc); is_load := true;
              num_loaded_block := num_loaded_block acc + n;
              num_loaded_request := num_loaded_request acc + 1 |})
      (do! report_invalid vllm_block_ids in
       ret {| request_to_task := request_to_task acc; is_load := true;
              num_loaded_block := num_loaded_block acc + n - n;
              num_loaded_request := num_loaded_request acc + 1 |}).

(** The body of the second loop: the count of the loaded blocks is carried. *)
Definition wait_load_task (num_loaded_block : Z) (e : string * task) : M ST Z :=
  let '(request_id, t) := e in
  catch_runtime
    (do! call (wait t) in ret num_loaded_block)
    (let! md := get_connector_metadata in
     let! d := lift_res (of_option KeyError (od_get request_id md)) in
     do! report_invalid (load_block_ids d).2 in
     ret (num_loaded_block - pylen (load_block_ids d).1)).

Definition start_load_kv (c : ConnConfig) : M ST unit :=
  let! metadata := get_connector_metadata in
  let! acc := for_acc metadata
                {| request_to_task := []; is_load := false;
                   num_loaded_block := 0; num_loaded_request := 0 |} (submit_load c) in
  let! n := for_acc (request_to_task acc) (num_loaded_block acc) wait_load_task in
  if metrics_config c && is_load acc
  then modify (add_stats (LoadStats (num_loaded_request acc) n))
  else ret tt.

(** [wait_for_layer_load] and [save_kv_layer] of the direct connector *)
Definition direct_wait_for_layer_load (layer_name : string) : M ST unit := ret tt.
Definition direct_save_kv_layer (layer_name : string) : M ST unit := ret tt.

Definition get_dump_event_handle (c : ConnConfig) : M ST Z :=
  if negb (enable_event_sync c) then
    do! call dev_synchronize in ret 0
  else
    let! event_handle := call dev_get_event_handle in
    do! (if event_handle =? 0 then call dev_synchronize else ret tt) in
    ret event_handle.

Definition collect_dump (c : ConnConfig) (acc : SaveAcc) (e : string * RequestDispatchMeta)
  : M ST SaveAcc :=
  let '(request_id, request) := e in
  let n := pylen (dump_block_ids request).1 in
  if n =? 0 then ret acc
  else
    let ids := dump_key_ids c (dump_block_ids request).1 in
    do! update_dispatch request_id (with_dump_ids ids request) in
    ret {| a_is_save := true; num_saved_block := num_saved_block acc + n;
           num_saved_request := num_saved_request acc + 1;
           total_ucm_block_ids := total_ucm_block_ids acc ++ ids;
           total_vllm_block_ids := total_vllm_block_ids acc ++ (dump_block_ids request).2 |}.

(** The submission and the wait of the step's dump; [false] when either
    failed with a [RuntimeError]. *)
Definition dump_and_wait (c : ConnConfig) (ids : list bytes) (ptrs : list (list Z)) : M ST bool :=
  let! t := catch_runtime
      (let! event_handle := get_dump_event_handle c in
       let! t := call (dump_data ids (py_repeat 0 (pylen ids)) ptrs event_handle) in
       ret (Some t))
      (ret None) in
  match t with
  | None => ret false
  | Some t => catch_runtime (do! call (wait t) in ret true) (ret false)
  end.

Definition wait_for_save (c : ConnConfig) : M ST unit :=
  if is_mla c && negb (tp_rank c =? 0) then ret tt
  else
    let! metadata := get_connector_metadata in
    let! acc := for_acc metadata
                  {| a_is_save := false; num_saved_block := 0; num_saved_request := 0;
                     total_ucm_block_ids := []; total_vllm_block_ids := [] |} (collect_dump c) in
    if a_is_save acc then
      let! total_ptrs := block_ptrs (total_vllm_block_ids acc) in
      let! saved := dump_and_wait c (total_ucm_block_ids acc) total_ptrs in
      if saved && metrics_config c
      then modify (add_stats (SaveStats (num_saved_request acc) (num_saved_block acc)))
      else ret tt
    else ret tt.
End worker.

(** ** Registration of the KV caches *)

(** A value of the dict vLLM passes: a KV cache, or with hash attention a pair of
    the cache and its key hashes. *)
Inductive kv_value (T : Type) : Type :=
  | KvPlain (kv : kv_layer T)
  | KvPaired (kv : kv_layer T) (k_hash : T).
Arguments KvPlain {T} _.
Arguments KvPaired {T} _ _.

Record Registration := {
  reg_store : StoreConfig;
  layer_ids : list Z;
  first_layer_id : Z;
}.

Section register.
Context {W T : Type} `{TensorOps T}.
Abbreviation ST := (ConnState W).

(** [kv_cache, k_hash = value]: unpacking one tensor splits its first
    dimension, which must be 2. *)
Definition unpack_kv (hash_attention : bool) (v : kv_value T) : res (kv_layer T) :=
  match v with
  | KvPlain kv =>
      if negb hash_attention then Ok kv
      else match kv with
           | KTensor t => match t_shape t with
                          | 2 :: _ => Ok (KTensor (t_index t 0))
                          | _ => Err ValueError
                          end
           | KTuple [k; _] => Ok (KTensor k)
           | KTuple _ => Err ValueError
           | KOther => Err TypeError
           end
  | KvPaired kv _ => if hash_attention then Ok kv else Ok KOther
  end.

Fixpoint unpack_all (hash_attention : bool) (kv_caches : list (string * kv_value T))
  : res (list (string * kv_layer T)) :=
  match kv_caches with
  | [] => Ok []
  | (n, v) :: rest =>
      let? kv := unpack_kv hash_attention v in
      let? kvs := unpack_all hash_attention rest in
      Ok ((n, kv) :: kvs)
  end.

Definition sorted_layer_ids (l : KVCacheLayout) : list Z :=
  merge_sort Z.le (remove_dups (layer_name_to_id l).*2).

(** [hash_attention] is [has_ucm_sparse() and VLLM_HASH_ATTENTION == "1"];
    [device] is what [create_device()] returns; [cores] is [split_cores] of the
    device when [VLLM_CPU_AFFINITY == "1"]. *)
Definition register_kv_caches (get_pp_indices : Z -> Z -> Z -> Z * Z)
    (extract_layer_index : string -> Z) (c : ConnConfig) (hash_attention : bool)
    (device : bool) (cores : option (list Z * list Z)) (kv_caches : list (string * kv_value T))
  : M ST Registration :=
  let! kvs := lift_res (unpack_all hash_attention kv_caches) in
  match kvs with
  | [] => raise StopIteration
  | _ =>
      let v := c_vllm c in
      let! l := lift_res (new_KVCacheLayout get_pp_indices extract_layer_index kvs
                            (use_layerwise c) (v_pp_size v) (v_num_hidden_layers v)
                            (v_rank v) (v_tp_size v)) in
      do! modify (set_kv_cache_layout (Some l)) in
      let ids := sorted_layer_ids l in
      let! first := lift_res (py_idx ids 0) in
      do! (match cores with
           | Some _ => if device then ret tt else raise AttributeError
           | None => ret tt
           end) in
      let! cfg := lift_res (create_store_config c (Some l) (snd <$> cores)) in
      if device then ret {| reg_store := cfg; layer_ids := ids; first_layer_id := first |}
      else raise RuntimeError
  end.
End register.

(** ** Facts about the load *)

(** The addresses of one block. *)
Definition block_row_addrs (l : KVCacheLayout) (b : Z) : list Z :=
  concat (zip_with (fun sizes bases => block_row sizes bases b) (tensor_size_lists l) (base_ptrs l)).

Lemma reshape_extract l vids :
  vids <> [] -> reshape_rows (extract_block_addrs l vids) = Ok (block_row_addrs l <$> vids).
Proof.
  intros Hv. rewrite reshape_rows_ok; [|by destruct vids].
  unfold extract_block_addrs. by rewrite <- list_fmap_compose.
Qed.

(** The rows a request loads into. *)
Definition load_addrs (l : KVCacheLayout) (d : RequestDispatchMeta) : list (list Z) :=
  if pylen (load_block_ids d).1 =? 0 then [] else block_row_addrs l <$> (load_block_ids d).2.

(** The load of one request. *)
Definition load_request (md5 : bytes -> bytes) (pickle_dumps : hash_input -> bytes)
    (c : ConnConfig) (l : KVCacheLayout) (d : RequestDispatchMeta) : load_req :=
  LReq (load_key_ids md5 pickle_dumps c (load_block_ids d).1) 0 (load_addrs l d).

(** The destination addresses of a step's loads, request by request. *)
Definition load_destinations (l : KVCacheLayout) (md : UCMConnectorMetadata) : list Z :=
  concat (concat ((fun e => load_addrs l e.2) <$> md)).

Section load_lemmas.
Context {W D : Type} `{StoreLaws W D} `{Device W}.
Context (md5 : bytes -> bytes) (pickle_dumps : hash_input -> bytes).
Context (c : ConnConfig) (l : KVCacheLayout) (md : UCMConnectorMetadata).
Abbreviation req := (load_request md5 pickle_dumps c l).

Definition load_batch : list (string * load_req) := (fun e => (e.1, req e.2)) <$> md.

(** the world before the step *)
Context (w0 : W).
Context (Hkeys : NoDup (od_keys md))
  (Hlen : forall id d, (id, d) ∈ md -> pylen (load_block_ids d).1 = pylen (load_block_ids d).2)
  (Hdst : NoDup (batch_dests load_batch)).

Lemma length_load_key_ids ids : length (load_key_ids md5 pickle_dumps c ids) = length ids.
Proof. unfold load_key_ids, rehash. case_match; [apply length_fmap|done]. Qed.

Lemma load_batch_dests : batch_dests load_batch = load_destinations l md.
Proof. unfold batch_dests, load_batch, load_destinations. by rewrite <- list_fmap_compose. Qed.

Lemma load_row_lookup d i b u :
  (load_block_ids d).2 !! i = Some b -> load_key_ids md5 pickle_dumps c (load_block_ids d).1 !! i = Some u ->
  load_addrs l d !! i = Some (block_row_addrs l b).
Proof.
  intros Hb Hu. unfold load_addrs. destruct (Z.eqb_spec (pylen (load_block_ids d).1) 0) as [He|He].
  - apply lookup_lt_Some in Hu. rewrite length_load_key_ids in Hu. unfold pylen in He. lia.
  - by rewrite list_lookup_fmap, Hb.
Qed.

Lemma batch_keys : od_keys load_batch = od_keys md.
Proof. unfold load_batch, od_keys. by rewrite <- list_fmap_compose. Qed.

Lemma elem_of_batch id d : (id, d) ∈ md -> (id, req d) ∈ load_batch.
Proof. intros Hd. apply list_elem_of_fmap. by exists (id, d). Qed.

Lemma md_unique id d d' : (id, d) ∈ md -> (id, d') ∈ md -> d = d'.
Proof.
  intros Hd Hd'. apply (od_elem_get _ _ _ Hkeys) in Hd. apply (od_elem_get _ _ _ Hkeys) in Hd'.
  congruence.
Qed.

Lemma batch_NoDup : NoDup (od_keys load_batch).
Proof. by rewrite batch_keys. Qed.

Implicit Types (s : ConnState W).

Definition reported (s : ConnState W) (d : RequestDispatchMeta) : Prop :=
  forall b, b ∈ (load_block_ids d).2 -> b ∈ invalid_block_ids s.

(** What both loops keep: the layout, the blocks to report for each request,
    and that only blocks of the step's loads are reported. *)
Record step_inv (s0 s : ConnState W) (tasks : list (string * task)) : Prop := {
  si_tasks : tasks_inv load_batch w0 (world s) tasks;
  si_keys : forall id, id ∈ od_keys tasks -> id ∈ od_keys md;
  si_layout : kv_cache_layout s = Some l;
  si_md : exists md', connector_metadata s = Some md' /\
    forall id, (fun d => (load_block_ids d).2) <$> od_get id md' =
               (fun d => (load_block_ids d).2) <$> od_get id md;
  si_inv : invalid_block_ids s0 ⊆ invalid_block_ids s;
  si_inv_only : forall b, b ∈ invalid_block_ids s -> b ∈ invalid_block_ids s0 \/
    exists id d, (id, d) ∈ md /\ b ∈ (load_block_ids d).2;
}.

Lemma step_inv_report s0 s tasks id d :
  step_inv s0 s tasks -> (id, d) ∈ md ->
  let s' := set_invalid_block_ids (fun inv => inv ∪ list_to_set (load_block_ids d).2) s in
  step_inv s0 s' tasks /\ reported s' d /\ (forall d', reported s d' -> reported s' d').
Proof.
  intros [] Hd s'. split; [split; try done; simpl|split].
  - set_solver.
  - intros b [?|Hb]%elem_of_union; [auto|]. apply elem_of_list_to_set in Hb. right. eauto.
  - intros b Hb. simpl. apply elem_of_union_r. by apply elem_of_list_to_set.
  - intros d' Hr b Hb. simpl. apply elem_of_union_l. auto.
Qed.

Lemma od_get_set_same_load id d ids (md' : UCMConnectorMetadata) id' :
  (id, d) ∈ md ->
  (forall id, (fun d => (load_block_ids d).2) <$> od_get id md' =
              (fun d => (load_block_ids d).2) <$> od_get id md) ->
  (fun d => (load_block_ids d).2) <$> od_get id' (od_set id (with_load_ids ids d) md') =
  (fun d => (load_block_ids d).2) <$> od_get id' md.
Proof.
  intros Hd Hs. rewrite od_get_set. case_decide; [|apply Hs]. subst.
  by rewrite (od_elem_get _ _ _ Hkeys Hd).
Qed.

(** One iteration of the submission loop. *)
Lemma submit_load_step s0 s acc id d :
  step_inv s0 s (request_to_task acc) -> (id, d) ∈ md -> id ∉ od_keys (request_to_task acc) ->
  exists acc' s', submit_load md5 pickle_dumps c acc (id, d) s = (Ok acc', s') /\
    step_inv s0 s' (request_to_task acc') /\
    (pylen (load_block_ids d).1 = 0 \/ id ∈ od_keys (request_to_task acc') \/ reported s' d) /\
    (forall x, x ∈ od_keys (request_to_task acc') -> x = id \/ x ∈ od_keys (request_to_task acc)) /\
    (forall x, x ∈ od_keys (request_to_task acc) -> x ∈ od_keys (request_to_task acc')) /\
    (forall d', reported s d' -> reported s' d').
Proof.
  intros Hi Hd Hk. unfold submit_load. destruct (Z.eqb_spec (pylen (load_block_ids d).1) 0) as [He|He].
  { exists acc, s. auto 10. }
  set (s1 := set_connector_metadata (od_set id (with_load_ids (load_key_ids md5 pickle_dumps c (load_block_ids d).1) d) <$> connector_metadata s) s).
  assert (Hi1 : step_inv s0 s1 (request_to_task acc)).
  { destruct Hi as [? ? ? (md' & Hmd & Hget) ? ?]. split; try done.
    exists (od_set id (with_load_ids (load_key_ids md5 pickle_dumps c (load_block_ids d).1) d) md'). split; [simpl; by rewrite Hmd|].
    intros id'. by apply od_get_set_same_load. }
  assert (Hptr : block_ptrs (W := W) (load_block_ids d).2 s1 = (Ok (load_addrs l d), s1)).
  { unfold block_ptrs, get_layout, bind, gets, lift_res, ret. rewrite (si_layout _ _ _ Hi1).
    rewrite reshape_extract; [unfold load_addrs; by rewrite (proj2 (Z.eqb_neq _ _) He)|].
    intros Hv. apply He. rewrite (Hlen _ _ Hd), Hv. done. }
  unfold update_dispatch, bind at 1, modify. fold s1. rewrite (bind_ok _ _ _ _ _ Hptr).
  unfold catch_runtime, catch, bind, call, zoom.
  destruct (load_data _ _ _ (world s1)) as [[t|e] w'] eqn:Hl.
  - eexists _, _. split; [reflexivity|]. simpl.
    split; [destruct Hi1; split; try done; simpl|].
    + eapply (submit_task load_batch batch_NoDup Hdst w0 (world s) _ id (req d)); [done..|by apply elem_of_batch|exact Hl].
    + intros x [->|?]%elem_of_od_keys_set; [|auto]. apply list_elem_of_fmap. by exists (id, d).
    + setoid_rewrite elem_of_od_keys_set. auto 10.
  - destruct (load_data_err _ _ _ _ _ _ Hl) as [Hrt Hq]. rewrite Hrt.
    assert (Hi2 : step_inv s0 (set_world w' s1) (request_to_task acc)).
    { destruct Hi1. split; try done. by eapply (quiet_tasks load_batch). }
    destruct (step_inv_report _ _ _ _ _ Hi2 Hd) as (Hi3 & Hr & Hmono).
    eexists _, _. split; [reflexivity|]. cbn [request_to_task]. auto 10.
Qed.
(** A request of the step is accounted for: nothing to load, a task, or its
    blocks reported. *)
Definition accounted (s : ConnState W) (tasks : list (string * task))
    (e : string * RequestDispatchMeta) : Prop :=
  pylen (load_block_ids e.2).1 = 0 \/ e.1 ∈ od_keys tasks \/ reported s e.2.

Lemma submit_load_loop s0 post acc s :
  step_inv s0 s (request_to_task acc) -> NoDup (od_keys post) ->
  (forall e, e ∈ post -> e ∈ md /\ e.1 ∉ od_keys (request_to_task acc)) ->
  exists acc' s', for_acc post acc (submit_load md5 pickle_dumps c) s = (Ok acc', s') /\
    step_inv s0 s' (request_to_task acc') /\
    (forall e, accounted s (request_to_task acc) e -> accounted s' (request_to_task acc') e) /\
    (forall e, e ∈ post -> accounted s' (request_to_task acc') e).
Proof.
  revert acc s. induction post as [|[id d] post IH]; intros acc s Hi Hn Hp.
  { exists acc, s. split; [done|]. split; [done|]. split; [done|]. set_solver. }
  cbn in Hn. apply NoDup_cons in Hn as [Hn1 Hn2].
  destruct (Hp (id, d) ltac:(left)) as [Hd Hk].
  destruct (submit_load_step s0 s acc id d Hi Hd Hk)
    as (acc1 & s1 & Hs1 & Hi1 & Hacc & Hnew & Hold & Hrep).
  destruct (IH acc1 s1 Hi1 Hn2) as (acc2 & s2 & Hs2 & Hi2 & Hmono & Hpost).
  { intros e He. destruct (Hp e ltac:(by right)) as [? Hek]. split; [done|].
    intros [Heq|?]%Hnew; [|done]. apply Hn1. rewrite <- Heq. apply list_elem_of_fmap. by exists e. }
  exists acc2, s2. cbn [for_acc]. rewrite (bind_ok _ _ _ _ _ Hs1).
  split; [done|]. split; [done|]. split.
  - intros e [?|[?|?]]; apply Hmono; unfold accounted; auto.
  - intros e [->|He]%elem_of_cons; [|auto]. apply Hmono. exact Hacc.
Qed.

(** A request of the step is settled: its blocks are filled, reported, or its
    task is still to be waited for. *)
Definition settled (s : ConnState W) (tasks : list (string * task))
    (e : string * RequestDispatchMeta) : Prop :=
  e.1 ∈ od_keys tasks \/ reported s e.2 \/ loaded w0 (world s) (req e.2).

Lemma wait_load_step s0 s n id t tasks :
  step_inv s0 s ((id, t) :: tasks) ->
  (forall e, e ∈ md -> settled s ((id, t) :: tasks) e) ->
  exists n' s', wait_load_task n (id, t) s = (Ok n', s') /\ step_inv s0 s' tasks /\
    (forall e, e ∈ md -> settled s' tasks e).
Proof.
  intros Hi Hset. pose proof (si_tasks _ _ _ Hi) as Ht.
  unfold wait_load_task, catch_runtime, catch, bind at 1, call, zoom.
  destruct (wait t (world s)) as [r w'] eqn:Hw.
  pose proof (wait_task_inv load_batch _ _ _ _ _ _ _ Ht Hw) as Ht'.
  assert (Hi1 : step_inv s0 (set_world w' s) tasks).
  { destruct Hi. split; try done. intros x Hx. apply si_keys0. by right. }
  assert (Hkeep : forall e, e ∈ md -> e.1 <> id -> settled (set_world w' s) tasks e).
  { intros [id' d'] He Hne. destruct (decide (id' ∈ od_keys tasks)); [by left|].
    assert (Hk : id' ∉ od_keys ((id, t) :: tasks)) by (apply not_elem_of_cons; auto).
    destruct (Hset _ He) as [?|[Hr|Hld]]; [done|right; by left|].
    right. right. eapply (wait_task_others load_batch Hdst); [done..|by apply elem_of_batch|done|done]. }
  destruct r as [[]|e].
  - exists n, (set_world w' s). split; [done|]. split; [done|].
    intros [id' d'] He. destruct (decide (id' = id)) as [->|]; [|by apply Hkeep].
    right. right. eapply (wait_task_loaded load_batch batch_NoDup Hdst); [done..|by apply elem_of_batch].
  - rewrite (wait_err _ _ _ _ Hw).
    assert (exists d, (id, d) ∈ md) as [d Hd].
    { pose proof (si_keys _ _ _ Hi id ltac:(left)) as Hk.
      apply list_elem_of_fmap in Hk as ([id' d] & -> & ?). by exists d. }
    destruct (si_md _ _ _ Hi1) as (md' & Hmd & Hget). specialize (Hget id).
    rewrite (od_elem_get _ _ _ Hkeys Hd) in Hget.
    apply fmap_Some in Hget as (d' & Hd' & Hv).
    unfold get_connector_metadata, gets, bind, ret, lift_res. rewrite Hmd, Hd'. simpl.
    rewrite <- Hv. destruct (step_inv_report _ _ _ id d Hi1 Hd) as (Hi2 & Hr & Hmono).
    eexists _, _. split; [reflexivity|]. split; [exact Hi2|].
    intros [id' d''] He. destruct (decide (id' = id)) as [->|Hne].
    + right. left. by rewrite (md_unique _ _ _ He Hd).
    + destruct (Hkeep _ He Hne) as [?|[?|?]]; [by left|right; left; auto|right; by right].
Qed.

Lemma wait_load_loop s0 tasks n s :
  step_inv s0 s tasks -> (forall e, e ∈ md -> settled s tasks e) ->
  exists n' s', for_acc tasks n wait_load_task s = (Ok n', s') /\ step_inv s0 s' [] /\
    (forall e, e ∈ md -> settled s' [] e).
Proof.
  revert n s. induction tasks as [|[id t] tasks IH]; intros n s Hi Hset; [by exists n, s|].
  destruct (wait_load_step s0 s n id t tasks Hi Hset) as (n1 & s1 & Hs1 & Hi1 & Hset1).
  destruct (IH n1 s1 Hi1 Hset1) as (n2 & s2 & Hs2 & Hi2 & Hset2).
  exists n2, s2. cbn [for_acc]. rewrite (bind_ok _ _ _ _ _ Hs1). done.
Qed.

Lemma start_load_spec s :
  world s = w0 -> (forall t, flights w0 t = None) -> connector_metadata s = Some md ->
  kv_cache_layout s = Some l ->
  exists s', start_load_kv md5 pickle_dumps c s = (Ok tt, s') /\
    step_inv s s' [] /\ (forall e, e ∈ md -> settled s' [] e).
Proof.
  intros Hw Hidle Hmd Hlay. unfold start_load_kv.
  assert (Hg : get_connector_metadata s = (Ok md, s)).
  { unfold get_connector_metadata, bind, gets. by rewrite Hmd. }
  rewrite (bind_ok _ _ _ _ _ Hg).
  assert (Hi0 : step_inv s s []).
  { split; try done; [|set_solver|by exists md|auto]. rewrite Hw. apply tasks_inv_start.
    intros t ids shards addrs. by rewrite Hidle. }
  destruct (submit_load_loop s md
    {| request_to_task := []; is_load := false; num_loaded_block := 0; num_loaded_request := 0 |} s
    Hi0 Hkeys) as (acc & s1 & Hs1 & Hi1 & _ & Hacc); [intros; split; [done|set_solver]|].
  rewrite (bind_ok _ _ _ _ _ Hs1).
  destruct (wait_load_loop s (request_to_task acc) (num_loaded_block acc) s1 Hi1)
    as (n & s2 & Hs2 & Hi2 & Hset).
  { intros e He. destruct (Hacc e He) as [Hz|[?|?]]; [|by left|right; by left].
    right. right. intros i u b ds Hu. apply lookup_lt_Some in Hu. simpl in Hu. rewrite length_load_key_ids in Hu.
    unfold pylen in Hz. lia. }
  rewrite (bind_ok _ _ _ _ _ Hs2). destruct (metrics_config c && is_load acc).
  - eexists. split; [reflexivity|]. split; [by destruct Hi2; split|done].
  - by exists s2.
Qed.
End load_lemmas.

(** ** Facts about the save *)
Section save_lemmas.
Context {W D : Type} `{DeviceLaws W D}.
Context `{!StoreLaws W D}.
Context (md5 : bytes -> bytes) (pickle_dumps : hash_input -> bytes).
Implicit Types (s : ConnState W).

(** The ids and the device blocks of a step's dump. *)
Definition save_ids (c : ConnConfig) (md : UCMConnectorMetadata) : list bytes :=
  concat ((fun e => dump_key_ids md5 pickle_dumps c (dump_block_ids e.2).1) <$> md).
Definition save_blocks (md : UCMConnectorMetadata) : list Z :=
  concat ((fun e => (dump_block_ids e.2).2) <$> md).

Lemma length_dump_key_ids c ids : length (dump_key_ids md5 pickle_dumps c ids) = length ids.
Proof. unfold dump_key_ids, rehash. case_match; [apply length_fmap|done]. Qed.

Lemma length_save_ids c md :
  (forall e, e ∈ md -> pylen (dump_block_ids e.2).1 = pylen (dump_block_ids e.2).2) ->
  length (save_ids c md) = length (save_blocks md).
Proof.
  intros Hl. unfold save_ids, save_blocks. rewrite !length_concat, <- !list_fmap_compose.
  f_equal. apply list_fmap_ext. intros i e Hx. simpl. rewrite length_dump_key_ids.
  specialize (Hl e ltac:(by eapply list_elem_of_lookup_2)). unfold pylen in Hl. lia.
Qed.

Lemma collect_dump_loop c md acc s :
  (forall e, e ∈ md -> pylen (dump_block_ids e.2).1 = pylen (dump_block_ids e.2).2) ->
  exists acc' m', for_acc md acc (collect_dump md5 pickle_dumps c) s =
      (Ok acc', set_connector_metadata m' s) /\
    total_ucm_block_ids acc' = total_ucm_block_ids acc ++ save_ids c md /\
    total_vllm_block_ids acc' = total_vllm_block_ids acc ++ save_blocks md /\
    a_is_save acc' = a_is_save acc || negb (pylen (save_ids c md) =? 0).
Proof.
  revert acc s. induction md as [|[id d] md IH]; intros acc s Hl.
  - exists acc, (connector_metadata s). cbn. rewrite !app_nil_r, orb_false_r. by destruct s.
  - pose proof (Hl (id, d) ltac:(left)) as Hd. simpl in Hd.
    pose proof (length_dump_key_ids c (dump_block_ids d).1) as Hk.
    cbn [for_acc]. unfold collect_dump at 1.
    destruct (Z.eqb_spec (pylen (dump_block_ids d).1) 0) as [He|He].
    + rewrite bind_ret. destruct (IH acc s) as (acc' & m' & E1 & E2 & E3 & E4);
        [intros; apply Hl; by right|].
      exists acc', m'. split; [done|]. unfold save_ids, save_blocks in *. simpl.
      rewrite He in Hd. symmetry in Hd. apply pylen_zero in Hd. rewrite Hd.
      apply pylen_zero in He. rewrite He in *. destruct (dump_key_ids _ _ c []); [|done]. done.
    + match goal with |- context [ bind _ _ s ] => unfold bind at 2, update_dispatch, modify, ret end.
      unfold bind. edestruct IH as (acc' & m' & E1 & E2 & E3 & E4);
        [|exists acc', m'; split; [exact E1|]]; [intros; apply Hl; by right|].
      rewrite E2, E3, E4. unfold save_ids, save_blocks. cbn. rewrite !app_assoc.
      split; [done|]. split; [done|]. symmetry. apply orb_true_intro.
      right. apply negb_true_iff, Z.eqb_neq. rewrite pylen_app. pose proof (pylen_nonneg (concat
        ((λ e, dump_key_ids md5 pickle_dumps c (dump_block_ids e.2).1) <$> md))).
      unfold pylen in *. lia.
Qed.

(** The event handle: always a handle or a [RuntimeError], and no data moved. *)
Lemma get_dump_event_handle_quiet c s :
  exists rr w', get_dump_event_handle c s = (rr, set_world w' s) /\
    (forall e, rr = Err e -> is_runtime_error e = true) /\ quiet (world s) w'.
Proof.
  unfold get_dump_event_handle, call, zoom, bind, ret.
  destruct (negb (enable_event_sync c)).
  - pose proof (dev_sync_quiet (world s)) as Hq.
    destruct (dev_synchronize (world s)) as [[u|e] w'] eqn:Hs; eexists _, w';
      (split; [reflexivity|split; [|exact Hq]]); intros ? [= <-].
    by eapply dev_sync_err.
  - destruct (dev_handle_total (world s)) as (h & w1 & -> & Hq1). destruct (h =? 0).
    + simpl. pose proof (quiet_trans _ _ _ Hq1 (dev_sync_quiet w1)) as Hq2.
      destruct (dev_synchronize w1) as [[u|e] w2] eqn:Hs; eexists _, w2;
        (split; [reflexivity|split; [|exact Hq2]]); intros ? [= <-].
      by eapply dev_sync_err.
    + eexists _, w1. split; [reflexivity|]. done.
Qed.

Lemma get_dump_event_handle_spec c s :
  idle_world (world s) ->
  exists r w', get_dump_event_handle c s = (r, set_world w' s) /\
    (forall e, r = Err e -> is_runtime_error e = true) /\ idle_world w' /\
    (forall a, devmem w' a = devmem (world s) a) /\
    (forall id sh, stored w' id sh = stored (world s) id sh).
Proof.
  intros Hi. destruct (get_dump_event_handle_quiet c s) as (rr & w' & Hg & He & Hq).
  exists rr, w'. split; [done|]. split; [done|]. by apply quiet_idle.
Qed.

(** The only dump in flight, waited for. *)
Lemma wait_single_dump ids rows h w t w1 r w2 :
  idle_world w -> dump_data ids (py_repeat 0 (pylen ids)) rows h w = (Ok t, w1) ->
  wait t w1 = (r, w2) -> NoDup ids ->
  idle_world w2 /\ (forall a, devmem w2 a = devmem w a) /\
  (forall id sh, id ∉ ids \/ sh <> 0 -> stored w2 id sh = stored w id sh) /\
  (r = Ok tt -> forall i id row, ids !! i = Some id -> rows !! i = Some row ->
     stored w2 id 0 = Some (devmem w <$> row)).
Proof.
  intros Hi Hd Hw Hn. destruct (dump_data_ok _ _ _ _ _ _ _ Hd) as [[_ Hf1] [Em1 Es1]].
  destruct (wait_flights _ _ _ _ Hw) as [Hf2 [Em2 Es2]].
  assert (Hf1' : forall t' f, flights w1 t' = Some f -> t' = t /\
            f = FDump ids (py_repeat 0 (pylen ids)) rows (contents w rows)).
  { intros t' f [?|Hx]%Hf1; [done|]. by rewrite Hi in Hx. }
  assert (Hi2 : idle_world w2).
  { intros t'. destruct (flights w2 t') as [f|] eqn:Hf; [|done]. apply Hf2 in Hf as [Hne Hf].
    apply Hf1' in Hf as [-> _]. done. }
  assert (Hnb : forall a, ~ busy w a /\ ~ busy w1 a /\ ~ busy w2 a).
  { intros a. split; [|split]; intros (t' & ? & ? & ? & Hx & _); [by rewrite Hi in Hx| |by rewrite Hi2 in Hx].
    by apply Hf1' in Hx as [_ ?]. }
  assert (Em : forall a, devmem w1 a = devmem w a) by (intros a; apply Em1; apply Hnb).
  assert (Hzip : forall id sh, (id, sh) ∈ zip ids (py_repeat 0 (pylen ids)) -> id ∈ ids /\ sh = 0).
  { intros id sh Hx. apply list_elem_of_lookup in Hx as [i Hx]. apply lookup_zip_Some in Hx as [Hx Hy].
    apply lookup_replicate in Hy as [-> _]. split; [by eapply list_elem_of_lookup_2|done]. }
  split; [done|]. split; [|split].
  - intros a. rewrite Em2; [apply Em|apply Hnb..].
  - intros id sh Hx.
    assert (Hnw : forall w', (forall t' f, flights w' t' = Some f ->
              f = FDump ids (py_repeat 0 (pylen ids)) rows (contents w rows)) -> ~ writing w' id sh).
    { intros w' Hw' (t' & ? & ? & ? & ? & i & Hy & Hi1 & Hi3). apply Hw' in Hy. injection Hy as -> -> -> ->.
      destruct (Hzip id sh) as [? ->]; [|naive_solver].
      apply (list_elem_of_lookup_2 _ i). by apply lookup_zip_Some. }
    assert (writing w id sh -> False) by (apply Hnw; intros ? ? Hz; by rewrite Hi in Hz).
    assert (writing w2 id sh -> False) by (apply Hnw; intros ? ? Hz; by rewrite Hi2 in Hz).
    assert (writing w1 id sh -> False) by (apply Hnw; intros ? ? Hz; by apply Hf1' in Hz as [_ ?]).
    rewrite Es2, Es1; auto.
  - intros -> i id row Hid Hrow.
    assert (Hat : flights w1 t = Some (FDump ids (py_repeat 0 (pylen ids)) rows (contents w rows)))
      by (apply Hf1; auto).
    assert (Hrow' : devmem w <$> row = devmem w1 <$> row)
      by (apply list_fmap_ext; intros; by rewrite Em).
    rewrite Hrow'. eapply (wait_dump t w1 w2 _ _ _ _ i id 0 row Hw Hat).
    + apply (NoDup_fmap_1 fst). rewrite fst_zip; [done|].
      unfold py_repeat. rewrite length_replicate. unfold pylen. lia.
    + intros t' ? ? ? ? Hx Hne. by apply Hf1' in Hx as [? _].
    + intros a _. apply Hnb.
    + unfold contents. apply list_fmap_ext. intros ? ? _. apply list_fmap_ext. intros. by rewrite Em.
    + split; [done|]. split; [|done]. apply lookup_replicate. split; [done|].
      apply lookup_lt_Some in Hid. unfold pylen. lia.
Qed.

Lemma dump_and_wait_spec c ids rows s :
  idle_world (world s) -> NoDup ids ->
  exists saved w', dump_and_wait c ids rows s = (Ok saved, set_world w' s) /\
    idle_world w' /\ (forall a, devmem w' a = devmem (world s) a) /\
    (forall id sh, id ∉ ids \/ sh <> 0 -> stored w' id sh = stored (world s) id sh) /\
    (saved = true -> forall i id row, ids !! i = Some id -> rows !! i = Some row ->
       stored w' id 0 = Some (devmem (world s) <$> row)).
Proof.
  intros Hi Hn. unfold dump_and_wait, catch_runtime, catch, bind, ret.
  destruct (get_dump_event_handle_spec c s Hi) as (r & w1 & -> & Hrt & Hi1 & Em1 & Es1).
  destruct r as [h|e].
  - unfold call, zoom. cbn [world set_world].
    destruct (dump_data ids _ rows h w1) as [[t|e] w2] eqn:Hd; cbn [world set_world].
    + destruct (wait t w2) as [r w3] eqn:Hw.
      destruct (wait_single_dump ids rows h w1 t w2 r w3 Hi1 Hd Hw Hn) as (Hi3 & Em3 & Es3 & Hok).
      destruct r as [[]|e].
      * exists true, w3. split; [done|]. split; [done|]. split; [intros; by rewrite Em3|].
        split; [intros; by rewrite Es3|]. intros _ i id row Hid Hrow.
        rewrite (Hok eq_refl i id row Hid Hrow). f_equal. apply list_fmap_ext. intros. by rewrite Em1.
      * rewrite (wait_err _ _ _ _ Hw). exists false, w3. split; [done|]. split; [done|].
        split; [intros; by rewrite Em3|]. split; [intros; by rewrite Es3|done].
    + destruct (dump_data_err _ _ _ _ _ _ _ Hd) as [-> Hq].
      destruct (quiet_idle _ _ Hi1 Hq) as (Hi2 & Em2 & Es2).
      exists false, w2. split; [done|]. split; [done|]. split; [intros; by rewrite Em2|].
      split; [intros; by rewrite Es2|done].
  - rewrite (Hrt e eq_refl). exists false, w1. do 3 (split; [done|]). split; [auto|done].
Qed.

(** What [wait_for_save] does for a worker that saves. *)
Lemma wait_for_save_spec c md l s :
  is_mla c && negb (tp_rank c =? 0) = false ->
  connector_metadata s = Some md -> kv_cache_layout s = Some l -> idle_world (world s) ->
  (forall e, e ∈ md -> pylen (dump_block_ids e.2).1 = pylen (dump_block_ids e.2).2) ->
  NoDup (save_ids c md) ->
  exists saved s', wait_for_save md5 pickle_dumps c s = (Ok tt, s') /\
    idle_world (world s') /\ (forall a, devmem (world s') a = devmem (world s) a) /\
    (forall id sh, id ∉ save_ids c md \/ sh <> 0 ->
       stored (world s') id sh = stored (world s) id sh) /\
    (exists m' w', dump_and_wait c (save_ids c md) (block_row_addrs l <$> save_blocks md)
        (set_connector_metadata m' s) = (Ok saved, set_world w' (set_connector_metadata m' s))) /\
    (saved = true -> forall i id b, save_ids c md !! i = Some id -> save_blocks md !! i = Some b ->
       stored (world s') id 0 = Some (devmem (world s) <$> block_row_addrs l b)).
Proof.
  intros Hskip Hmd Hlay Hi Hl Hn. unfold wait_for_save. rewrite Hskip.
  assert (Hg : get_connector_metadata s = (Ok md, s)).
  { unfold get_connector_metadata, bind, gets. by rewrite Hmd. }
  rewrite (bind_ok _ _ _ _ _ Hg).
  destruct (collect_dump_loop c md {| a_is_save := false; num_saved_block := 0;
    num_saved_request := 0; total_ucm_block_ids := []; total_vllm_block_ids := [] |} s Hl)
    as (acc & m' & Hloop & Hids & Hvids & Hsv).
  rewrite (bind_ok _ _ _ _ _ Hloop). simpl in Hids, Hvids, Hsv. rewrite Hsv.
  destruct (dump_and_wait_spec c (save_ids c md) (block_row_addrs l <$> save_blocks md)
              (set_connector_metadata m' s) Hi Hn) as (saved & w' & Hd & Hi' & Em & Es & Hok).
  cbn [world set_connector_metadata] in *.
  destruct (Z.eqb_spec (pylen (save_ids c md)) 0) as [He|He].
  - cbn [negb]. exists saved, (set_connector_metadata m' s). split; [done|].
    split; [done|]. split; [done|]. split; [done|].
    split; [by exists m', w'|]. intros _ i id b Hid. apply pylen_zero in He. by rewrite He in Hid.
  - cbn [negb]. unfold block_ptrs, get_layout, bind at 1 2 3, gets, lift_res.
    cbn [kv_cache_layout set_connector_metadata]. rewrite Hlay. cbn [ret].
    unfold ret at 1. rewrite Hvids, reshape_extract.
    + rewrite Hids. rewrite (bind_ok _ _ _ _ _ Hd).
      destruct (saved && metrics_config c);
        (eexists saved, _; split; [reflexivity|]; cbn [world add_stats set_world];
         do 3 (split; [done|]); split; [by exists m', w'|];
         intros Hsv' i id b Hid Hb; apply (Hok Hsv' i); [done|];
         by rewrite list_lookup_fmap, Hb).
    + intros Hv. apply He. unfold pylen. by rewrite (length_save_ids c md Hl), Hv.
Qed.
End save_lemmas.

(** ** Properties *)
Section worker_properties.
Context {W D : Type} `{DeviceLaws W D}.
Context `{!StoreLaws W D}.
Context (md5 : bytes -> bytes) (pickle_dumps : hash_input -> bytes).
Implicit Types (s : ConnState W).

(** C17. Every block a step loads is either filled or reported.  For distinct
    destination addresses, [start_load_kv] never fails, whatever the store's
    submissions and waits do: every block of every request's load either is
    in the set of invalid blocks or holds exactly what the store held under
    the worker's key; no other device memory and no stored block changes; only
    blocks of the step's loads are added to the invalid set; and no transfer is
    left in flight. *)
Theorem start_load_fills_or_reports c l md s :
  connector_metadata s = Some md -> kv_cache_layout s = Some l -> idle_world (world s) ->
  NoDup (od_keys md) ->
  (forall id d, (id, d) ∈ md -> pylen (load_block_ids d).1 = pylen (load_block_ids d).2) ->
  NoDup (load_destinations l md) ->
  exists s', start_load_kv md5 pickle_dumps c s = (Ok tt, s') /\ idle_world (world s') /\
    (forall id d i u b ds, (id, d) ∈ md ->
       load_key_ids md5 pickle_dumps c (load_block_ids d).1 !! i = Some u ->
       (load_block_ids d).2 !! i = Some b -> stored (world s) u 0 = Some ds ->
       length ds = length (block_row_addrs l b) ->
       b ∈ invalid_block_ids s' \/ devmem (world s') <$> block_row_addrs l b = ds) /\
    (forall a, a ∉ load_destinations l md -> devmem (world s') a = devmem (world s) a) /\
    (forall id sh, stored (world s') id sh = stored (world s) id sh) /\
    invalid_block_ids s ⊆ invalid_block_ids s' /\
    (forall b, b ∈ invalid_block_ids s' -> b ∈ invalid_block_ids s \/
       exists id d, (id, d) ∈ md /\ b ∈ (load_block_ids d).2).
Proof.
  intros Hmd Hlay Hidle Hkeys Hlen Hdst. rewrite <- (load_batch_dests md5 pickle_dumps c) in *.
  destruct (start_load_spec md5 pickle_dumps c l md (world s) Hkeys Hlen Hdst s eq_refl Hidle Hmd Hlay)
    as (s' & Hs & Hi & Hset).
  pose proof (si_tasks _ _ _ _ _ _ _ _ _ Hi) as Ht.
  exists s'. split; [done|]. split; [|split; [|split; [|split; [|split]]]].
  - intros t. destruct (flights (world s') t) as [[ids sh addrs|ids sh addrs data]|] eqn:Hf; [| |done].
    + destruct (ti_all _ _ _ _ Ht _ _ _ _ Hf) as [id Hx]. set_solver.
    + apply (ti_dumps _ _ _ _ Ht) in Hf. by rewrite Hidle in Hf.
  - intros id d i u b ds Hd Hu Hb Hst Hle. destruct (Hset _ Hd) as [Hx|[Hr|Hld]]; [set_solver| |].
    + left. apply Hr. by eapply list_elem_of_lookup_2.
    + right. apply (Hld i u (block_row_addrs l b) ds); [done|by eapply load_row_lookup| |done|done].
      by apply idle_not_writing.
  - apply (ti_mem _ _ _ _ Ht).
  - intros id sh. apply (ti_store _ _ _ _ Ht). by apply idle_not_writing.
  - apply (si_inv _ _ _ _ _ _ _ _ _ Hi).
  - apply (si_inv_only _ _ _ _ _ _ _ _ _ Hi).
Qed.

(** C25. A step's save persists the step's blocks.  On a worker that saves,
    [wait_for_save] never fails; when the store accepts and finishes the dump,
    every block of the step's dump is stored under the worker's key with the
    contents of its device memory; in every case device memory and the shards
    of all other blocks are untouched and no transfer is left in flight.  A
    worker other than rank 0 of an MLA model dumps nothing. *)
Theorem wait_for_save_persists c md l s :
  connector_metadata s = Some md -> kv_cache_layout s = Some l -> idle_world (world s) ->
  (forall e, e ∈ md -> pylen (dump_block_ids e.2).1 = pylen (dump_block_ids e.2).2) ->
  NoDup (save_ids md5 pickle_dumps c md) ->
  if is_mla c && negb (tp_rank c =? 0) then wait_for_save md5 pickle_dumps c s = (Ok tt, s)
  else exists saved s', wait_for_save md5 pickle_dumps c s = (Ok tt, s') /\
    idle_world (world s') /\ (forall a, devmem (world s') a = devmem (world s) a) /\
    (forall id sh, id ∉ save_ids md5 pickle_dumps c md \/ sh <> 0 ->
       stored (world s') id sh = stored (world s) id sh) /\
    (exists m' w', dump_and_wait c (save_ids md5 pickle_dumps c md)
        (block_row_addrs l <$> save_blocks md)
        (set_connector_metadata m' s) = (Ok saved, set_world w' (set_connector_metadata m' s))) /\
    (saved = true -> forall i id b, save_ids md5 pickle_dumps c md !! i = Some id ->
       save_blocks md !! i = Some b ->
       stored (world s') id 0 = Some (devmem (world s) <$> block_row_addrs l b)).
Proof.
  intros Hmd Hlay Hi Hl Hn.
  destruct (is_mla c && negb (tp_rank c =? 0)) eqn:Hskip.
  - unfold wait_for_save. by rewrite Hskip.
  - by apply wait_for_save_spec.
Qed.

(** The ids a step's save is asked to dump. *)
Definition save_raw_ids (md : UCMConnectorMetadata) : list bytes :=
  concat ((fun e => (dump_block_ids e.2).1) <$> md).

Lemma save_ids_raw c md :
  save_ids md5 pickle_dumps c md = dump_key_ids md5 pickle_dumps c (save_raw_ids md).
Proof.
  unfold save_ids, save_raw_ids, dump_key_ids, rehash.
  destruct (negb (tp_rank c =? 0)); [|done].
  induction md as [|e md IH]; [done|]. cbn. rewrite fmap_app. f_equal. apply IH.
Qed.

(** A worker loads a block under the key the saving worker dumped it under:
    rank 0 for MLA, its own rank otherwise. *)
Lemma load_key_is_dump_key cd cl ids :
  is_mla cd = is_mla cl ->
  (if is_mla cd then tp_rank cd = 0
   else tp_rank cd = tp_rank cl /\ request_hasher cd = request_hasher cl) ->
  load_key_ids md5 pickle_dumps cl ids = dump_key_ids md5 pickle_dumps cd ids.
Proof.
  unfold load_key_ids, dump_key_ids, rehash. intros Hm Hr. rewrite Hm in Hr.
  destruct (is_mla cl).
  - by rewrite Hr, andb_false_r.
  - destruct Hr as [-> ->]. by rewrite andb_true_r.
Qed.

Lemma dump_key_lookup c ids1 ids2 i j r u :
  ids1 !! i = Some r -> ids2 !! j = Some r ->
  dump_key_ids md5 pickle_dumps c ids1 !! i = Some u ->
  dump_key_ids md5 pickle_dumps c ids2 !! j = Some u.
Proof.
  unfold dump_key_ids, rehash. destruct (negb _); [|congruence].
  rewrite !list_lookup_fmap. by intros -> ->.
Qed.

(** The store accepts the step's dump and reports it finished. *)
Definition save_finishes (c : ConnConfig) (md : UCMConnectorMetadata) (l : KVCacheLayout) s : Prop :=
  forall m, (dump_and_wait c (save_ids md5 pickle_dumps c md) (block_row_addrs l <$> save_blocks md)
               (set_connector_metadata m s)).1 = Ok true.

(** C1. KV round trip.  A step of one worker dumps blocks; a later step of a
    worker of the same rank (for MLA: rank 0 dumps, any rank loads), possibly of
    another instance with another layout of its device memory, loads ids that
    were dumped.  If the dump finished and the store still holds what it held
    then, every block the load names under a dumped id has, unless it is
    reported invalid, exactly the contents the dumped device block had. *)
Theorem kv_round_trip cd cl l1 md1 s1 s1' l2 md2 s2 :
  is_mla cd = is_mla cl ->
  (if is_mla cd then tp_rank cd = 0
   else tp_rank cd = tp_rank cl /\ request_hasher cd = request_hasher cl) ->
  connector_metadata s1 = Some md1 -> kv_cache_layout s1 = Some l1 -> idle_world (world s1) ->
  (forall e, e ∈ md1 -> pylen (dump_block_ids e.2).1 = pylen (dump_block_ids e.2).2) ->
  NoDup (save_ids md5 pickle_dumps cd md1) -> save_finishes cd md1 l1 s1 ->
  wait_for_save md5 pickle_dumps cd s1 = (Ok tt, s1') ->
  connector_metadata s2 = Some md2 -> kv_cache_layout s2 = Some l2 -> idle_world (world s2) ->
  (forall id, id ∈ save_ids md5 pickle_dumps cd md1 ->
     stored (world s2) id 0 = stored (world s1') id 0) ->
  NoDup (od_keys md2) ->
  (forall id d, (id, d) ∈ md2 -> pylen (load_block_ids d).1 = pylen (load_block_ids d).2) ->
  NoDup (load_destinations l2 md2) ->
  (forall a b, length (block_row_addrs l1 a) = length (block_row_addrs l2 b)) ->
  exists s2', start_load_kv md5 pickle_dumps cl s2 = (Ok tt, s2') /\
    forall req d i j id a b, (req, d) ∈ md2 ->
      save_raw_ids md1 !! j = Some id -> save_blocks md1 !! j = Some a ->
      (load_block_ids d).1 !! i = Some id -> (load_block_ids d).2 !! i = Some b ->
      b ∈ invalid_block_ids s2' \/
      devmem (world s2') <$> block_row_addrs l2 b = devmem (world s1) <$> block_row_addrs l1 a.
Proof.
  intros Hm Hr Hmd1 Hl1 Hi1 Hlen1 Hn1 Hfin Hsave Hmd2 Hl2 Hi2 Hkept Hkeys Hlen2 Hdst Hrow.
  assert (Hskip : is_mla cd && negb (tp_rank cd =? 0) = false).
  { destruct (is_mla cd); [by rewrite Hr|done]. }
  destruct (wait_for_save_spec md5 pickle_dumps cd md1 l1 s1 Hskip Hmd1 Hl1 Hi1 Hlen1 Hn1)
    as (saved & s' & Hs & _ & _ & _ & (m & w' & Hd) & Hok).
  rewrite Hsave in Hs. injection Hs as <-.
  assert (saved = true) as ->.
  { specialize (Hfin m). rewrite Hd in Hfin. by injection Hfin. }
  rewrite <- (load_batch_dests md5 pickle_dumps cl) in Hdst.
  destruct (start_load_spec md5 pickle_dumps cl l2 md2 (world s2) Hkeys Hlen2 Hdst s2 eq_refl Hi2 Hmd2 Hl2)
    as (s2' & Hload & Hinv & Hset).
  exists s2'. split; [done|]. intros req d i j id a b Hreq Hj Ha Hi Hb.
  destruct (Hset _ Hreq) as [Hx|[Hrep|Hld]]; [set_solver| |].
  - left. apply Hrep. by eapply list_elem_of_lookup_2.
  - right. rewrite save_ids_raw in Hok, Hkept.
    assert (is_Some (dump_key_ids md5 pickle_dumps cd (save_raw_ids md1) !! j)) as [u Hu].
    { apply lookup_lt_is_Some. rewrite length_dump_key_ids. by eapply lookup_lt_Some. }
    assert (Hu' : load_key_ids md5 pickle_dumps cl (load_block_ids d).1 !! i = Some u).
    { rewrite (load_key_is_dump_key cd cl) by done. by eapply (dump_key_lookup cd _ _ j i id u). }
    apply (Hld i u (block_row_addrs l2 b)); [done|by eapply load_row_lookup|by apply idle_not_writing|..].
    + rewrite Hkept by by eapply list_elem_of_lookup_2. by eapply Hok.
    + by rewrite length_fmap.
Qed.
End worker_properties.

(** ** Concrete inputs *)
Import ConnDemo.

Module WorkerDemo.
#[global] Instance mem_device D : Device (MemStore.world D) := {|
  dev_get_event_handle := ret 1; dev_synchronize := ret tt; dev_destroy_event_handles := ret tt |}.
#[global] Instance mem_device_laws D : DeviceLaws (MemStore.world D) D.
Proof. split; [intros w; by exists 1, w|done|done|intros w; by exists w]. Qed.

(** one layer, a key and a value tensor of 16 bytes per block *)
Definition layout : KVCacheLayout := {| base_ptrs := [[1000; 2000]]; tensor_size_lists := [[16; 16]];
  l_use_layerwise := false; l_pp_size := 1; l_num_hidden_layers := 1; local_num_hidden_layers := 1;
  layer_name_to_id := [("model.layers.0"%string, 0)]; l_first_layer_id := 0 |}.
Definition worker_state (md : UCMConnectorMetadata) (w : MemStore.world Z) : ConnState (MemStore.world Z) :=
  ConnSt ∅ ∅ (Some md) (Some layout) [] w.
Definition dump_step : UCMConnectorMetadata :=
  [("r"%string, {| load_block_ids := ([], []); dump_block_ids := (["a"; "b"]%string, [3; 4]) |})].
Definition load_step : UCMConnectorMetadata :=
  [("q"%string, {| load_block_ids := (["a"; "b"]%string, [7; 5]); dump_block_ids := ([], []) |})].
Definition before_dump := worker_state dump_step (MemStore.idle ∅ (fun a => a)).
Definition after_dump :=
  (wait_for_save Demo.md5 Demo.pickle_short (conn WORKER) before_dump).2.
Definition before_load :=
  worker_state load_step (MemStore.idle (MemStore.blocks (world after_dump)) (fun _ => 0)).

Lemma dests_distinct : NoDup (load_destinations layout load_step).
Proof. vm_compute. repeat constructor; set_solver by lia. Qed.
Lemma ids_distinct :
  NoDup (save_ids Demo.md5 Demo.pickle_short (conn WORKER) dump_step).
Proof. vm_compute. repeat constructor; set_solver. Qed.
End WorkerDemo.

Lemma start_load_fills_or_reports_witness :
  exists s', start_load_kv Demo.md5 Demo.pickle_short (conn WORKER) WorkerDemo.before_load = (Ok tt, s').
Proof.
  destruct (start_load_fills_or_reports Demo.md5 Demo.pickle_short (conn WORKER)
    WorkerDemo.layout WorkerDemo.load_step WorkerDemo.before_load) as (s' & H & _);
    [reflexivity|reflexivity|intros t; reflexivity|repeat constructor; set_solver|
     |exact WorkerDemo.dests_distinct|].
  - intros id d [= -> ->]%list_elem_of_singleton. reflexivity.
  - exists s'. exact H.
Defined.

Lemma wait_for_save_persists_witness :
  exists s', wait_for_save Demo.md5 Demo.pickle_short (conn WORKER) WorkerDemo.before_dump = (Ok tt, s') /\
    stored (world s') "a"%string 0 = Some [1048; 2048].
Proof.
  destruct (wait_for_save_persists Demo.md5 Demo.pickle_short (conn WORKER) WorkerDemo.dump_step
    WorkerDemo.layout WorkerDemo.before_dump) as (saved & s' & Hs & _ & _ & _ & (m & w & Hd) & Hok).
  - reflexivity.
  - reflexivity.
  - intros t. reflexivity.
  - intros e ->%list_elem_of_singleton. reflexivity.
  - exact WorkerDemo.ids_distinct.
  - exists s'. split; [exact Hs|].
    assert (saved = true) as -> by (vm_compute in Hd; congruence).
    exact (Hok eq_refl 0%nat "a"%string 3 eq_refl eq_refl).
Defined.

Lemma kv_round_trip_witness :
  exists s2', start_load_kv Demo.md5 Demo.pickle_short (conn WORKER) WorkerDemo.before_load = (Ok tt, s2') /\
    (7 ∈ invalid_block_ids s2' \/
     MemStore.memory (world s2') <$> [1112; 2112] = [1048; 2048]).
Proof.
  destruct (kv_round_trip Demo.md5 Demo.pickle_short (conn WORKER) (conn WORKER) WorkerDemo.layout
    WorkerDemo.dump_step WorkerDemo.before_dump WorkerDemo.after_dump WorkerDemo.layout
    WorkerDemo.load_step WorkerDemo.before_load) as (s2' & Hs & Hok).
  - reflexivity.
  - split; reflexivity.
  - reflexivity.
  - reflexivity.
  - intros t. reflexivity.
  - intros e ->%list_elem_of_singleton. reflexivity.
  - exact WorkerDemo.ids_distinct.
  - intros m. reflexivity.
  - reflexivity.
  - reflexivity.
  - reflexivity.
  - intros t. reflexivity.
  - intros id _. reflexivity.
  - repeat constructor. set_solver.
  - intros id d [= -> ->]%list_elem_of_singleton. reflexivity.
  - exact WorkerDemo.dests_distinct.
  - intros a b. reflexivity.
  - exists s2'. split; [exact Hs|].
    exact (Hok "q"%string _ 0%nat 0%nat "a"%string 3 7 ltac:(left) eq_refl eq_refl eq_refl eq_refl).
Defined.
