(* ===== verification/LayerWise.v ===== *)
(** * The layer-wise connector
    (ucm/integration/vllm/ucm_connector.py: [UCMLayerWiseConnector])

    Loads and saves are overlapped with the forward pass, one layer ahead: while
    a layer is computed, the next one is loaded; a layer is dumped as soon as it
    is computed.  A request whose load fails in some layer is reported and is not
    loaded any further in this step. *)

From S2P Require Import Prelude.
From S2P Require Import PyStr.
From S2P Require Import StoreApi.
From S2P Require Import LoadBatch.
From S2P Require Import Hasher.
From S2P Require Import Layout.
From S2P Require Import Connector.
From S2P Require Import ConnectorWorker.
Local Open Scope Z_scope.
Local Open Scope py_scope.

(** ** State *)

Section state.
Context {W : Type} `{Store W}.

(** The attributes of the subclass on top of those of the direct connector; the
    registration gives [kv_caches] (its names), [layer_ids], [first_layer_id] and
    [layer_name_to_id]. *)
Record LayerState := LaySt {
  base : ConnState W;
  kv_cache_names : list string;
  reg : Registration;
  layer_name_to_id_ : list (string * Z);
  load_tasks : list (Z * list (string * task));
  dump_tasks : list (string * task);
  is_save : bool;
  need_load : bool;
  (** (n_layers, num_blocks, n_ptrs) *)
  dump_total_ptrs : option (list (list (list Z)));
  request_data : list (string * list bytes * list (list (list Z)));
  failure_req_ids : gset string;
}.

Definition set_base f (s : LayerState) : LayerState :=
  LaySt (f (base s)) (kv_cache_names s) (reg s) (layer_name_to_id_ s) (load_tasks s) (dump_tasks s)
    (is_save s) (need_load s) (dump_total_ptrs s) (request_data s) (failure_req_ids s).
Definition set_load_tasks f (s : LayerState) : LayerState :=
  LaySt (base s) (kv_cache_names s) (reg s) (layer_name_to_id_ s) (f (load_tasks s)) (dump_tasks s)
    (is_save s) (need_load s) (dump_total_ptrs s) (request_data s) (failure_req_ids s).
Definition set_dump_tasks f (s : LayerState) : LayerState :=
  LaySt (base s) (kv_cache_names s) (reg s) (layer_name_to_id_ s) (load_tasks s) (f (dump_tasks s))
    (is_save s) (need_load s) (dump_total_ptrs s) (request_data s) (failure_req_ids s).
Definition set_is_save b (s : LayerState) : LayerState :=
  LaySt (base s) (kv_cache_names s) (reg s) (layer_name_to_id_ s) (load_tasks s) (dump_tasks s)
    b (need_load s) (dump_total_ptrs s) (request_data s) (failure_req_ids s).
Definition set_need_load b (s : LayerState) : LayerState :=
  LaySt (base s) (kv_cache_names s) (reg s) (layer_name_to_id_ s) (load_tasks s) (dump_tasks s)
    (is_save s) b (dump_total_ptrs s) (request_data s) (failure_req_ids s).
Definition set_dump_total_ptrs p (s : LayerState) : LayerState :=
  LaySt (base s) (kv_cache_names s) (reg s) (layer_name_to_id_ s) (load_tasks s) (dump_tasks s)
    (is_save s) (need_load s) p (request_data s) (failure_req_ids s).
Definition set_request_data f (s : LayerState) : LayerState :=
  LaySt (base s) (kv_cache_names s) (reg s) (layer_name_to_id_ s) (load_tasks s) (dump_tasks s)
    (is_save s) (need_load s) (dump_total_ptrs s) (f (request_data s)) (failure_req_ids s).
Definition set_failure_req_ids f (s : LayerState) : LayerState :=
  LaySt (base s) (kv_cache_names s) (reg s) (layer_name_to_id_ s) (load_tasks s) (dump_tasks s)
    (is_save s) (need_load s) (dump_total_ptrs s) (request_data s) (f (failure_req_ids s)).

(** [__init__] followed by [register_kv_caches]. *)
Definition new_LayerState (cs : ConnState W) (names : list string) (r : Registration)
    (ids : list (string * Z)) : LayerState :=
  LaySt cs names r ids [] [] false false None [] ∅.

(** A method of the parent class. *)
Definition super {A} (m : M (ConnState W) A) : M LayerState A := zoom base (fun b => set_base (fun _ => b)) m.
Definition lcall {A} (m : M W A) : M LayerState A := super (call m).
End state.
Arguments LayerState W {H}.

(** ** Operations *)

Section layerwise.
Context {W : Type} `{Store W} `{Device W}.
Context (md5 : bytes -> bytes) (pickle_dumps : hash_input -> bytes).
Abbreviation ST := (LayerState W).

(** The super class's [__init__] runs first; [use_layerwise] is set afterwards. *)
Definition layerwise_config (c : ConnConfig) : ConnConfig :=
  {| c_vllm := c_vllm c; c_role := c_role c; c_launch := c_launch c; use_layerwise := true;
     local_rank := local_rank c; tp_rank := tp_rank c; tp_size := tp_size c; is_mla := is_mla c;
     block_size := block_size c; hash_block_size := hash_block_size c;
     cp_world_size := cp_world_size c; blocks_per_chunk := blocks_per_chunk c;
     request_hasher := request_hasher c; enable_event_sync := enable_event_sync c;
     metrics_config := metrics_config c; persist_token_threshold := persist_token_threshold c |}.

Definition new_UCMLayerWiseConnector (v : VllmConfig) (g : LaunchConfig) (role : KVConnectorRole)
    (p : platform) (world_local_rank : Z) : res ConnConfig :=
  res_map layerwise_config (new_UCMDirectConnector v g role p world_local_rank).

(** A request failed: report its blocks and leave it out from now on. *)
Definition fail_request (metadata : UCMConnectorMetadata) (request_id : string) : M ST unit :=
  let! d := lift_res (of_option KeyError (od_get request_id metadata)) in
  do! super (report_invalid (load_block_ids d).2) in
  modify (set_failure_req_ids (fun f => {[ request_id ]} ∪ f)).

(** [self.load_tasks[layer_id][request_id] = task] *)
Definition record_task (layer_id : Z) (request_id : string) (t : task) : M ST unit :=
  modify (set_load_tasks (fun lt => od_set layer_id (od_set request_id t (default [] (od_get layer_id lt))) lt)).

(** The body of the loop of [_submit_request_load_tasks_for_layer]. *)
Definition submit_request (layer_id local_row : Z) (metadata : UCMConnectorMetadata)
    (e : string * list bytes * list (list (list Z))) : M ST unit :=
  let '(request_id, ids, total_ptrs) := e in
  let! failed := gets failure_req_ids in
  if bool_decide (request_id ∈ failed) then ret tt
  else
    catch_runtime
      (let shard_indexs := py_repeat layer_id (pylen ids) in
       let! layer_ptrs := lift_res (py_idx total_ptrs local_row) in
       let! t := lcall (load_data ids shard_indexs layer_ptrs) in
       record_task layer_id request_id t)
      (fail_request metadata request_id).

Definition submit_request_load_tasks_for_layer (layer_id local_row : Z)
    (metadata : UCMConnectorMetadata) : M ST unit :=
  let! data := gets request_data in
  for_ data (submit_request layer_id local_row metadata).

(** The ids of a load or dump on a worker, for [tp_rank % tp_size]. *)
Definition layer_load_ids (c : ConnConfig) (ids : list bytes) : list bytes :=
  if negb (tp_rank c mod tp_size c =? 0) && negb (is_mla c) then rehash md5 pickle_dumps c ids else ids.
Definition layer_dump_ids (c : ConnConfig) (local_layer_id : Z) (ids : list bytes) : list bytes :=
  if negb (tp_rank c mod tp_size c =? 0) && (local_layer_id =? 0)
  then rehash md5 pickle_dumps c ids else ids.

Definition collect_load (c : ConnConfig) (e : string * RequestDispatchMeta) : M ST unit :=
  let '(request_id, request) := e in
  if pylen (load_block_ids request).1 =? 0 then ret tt
  else
    do! modify (set_need_load true) in
    let ids := layer_load_ids c (load_block_ids request).1 in
    do! super (update_dispatch request_id (with_load_ids ids request)) in
    let! l := super get_layout in
    let total_ptrs := extract_block_addrs_layer_first l (load_block_ids request).2 in
    modify (set_request_data (fun rd => rd ++ [(request_id, ids, total_ptrs)])).

Definition layer_start_load_kv (c : ConnConfig) : M ST unit :=
  let! metadata := super get_connector_metadata in
  do! modify (fun s => set_need_load false (set_failure_req_ids (fun _ => ∅)
                (set_request_data (fun _ => []) (set_load_tasks (fun _ => []) s)))) in
  do! for_ metadata (collect_load c) in
  let! need := gets need_load in
  if need then
    let! r := gets reg in
    submit_request_load_tasks_for_layer (first_layer_id r) 0 metadata
  else ret tt.

(** The wait for one task of the current layer. *)
Definition wait_layer_task (metadata : UCMConnectorMetadata) (e : string * task) : M ST unit :=
  catch_runtime (lcall (wait e.2)) (fail_request metadata e.1).

Definition layer_wait_for_layer_load (layer_name : string) : M ST unit :=
  let! bound := gets (fun s => connector_metadata (base s)) in
  let! need := gets need_load in
  match bound with
  | None => ret tt
  | Some metadata =>
      if negb need then ret tt
      else
        let! names := gets layer_name_to_id_ in
        let! current_layer_id := lift_res (of_option KeyError (od_get layer_name names)) in
        let! tasks := gets (fun s => default [] (od_get current_layer_id (load_tasks s))) in
        do! for_ tasks (wait_layer_task metadata) in
        let next_layer_id := current_layer_id + 1 in
        let! r := gets reg in
        if negb (mem next_layer_id (layer_ids r)) then ret tt
        else submit_request_load_tasks_for_layer next_layer_id (next_layer_id - first_layer_id r) metadata
  end.

Definition collect_layer_dump (c : ConnConfig) (local_layer_id : Z)
    (acc : list bytes * list Z) (e : string * RequestDispatchMeta) : M ST (list bytes * list Z) :=
  let '(request_id, request) := e in
  if pylen (dump_block_ids request).1 =? 0 then ret acc
  else
    do! modify (set_is_save true) in
    let ids := layer_dump_ids c local_layer_id (dump_block_ids request).1 in
    do! super (update_dispatch request_id (with_dump_ids ids request)) in
    ret (acc.1 ++ ids, acc.2 ++ (dump_block_ids request).2).

(** [self.dump_total_ptrs], computed by the first layer of the step that saves *)
Definition cached_dump_ptrs (vllm_block_ids : list Z) : M ST (list (list (list Z))) :=
  let! old := gets dump_total_ptrs in
  match old with
  | Some p => ret p
  | None =>
      let! l := super get_layout in
      let p := extract_block_addrs_layer_first l vllm_block_ids in
      do! modify (set_dump_total_ptrs (Some p)) in
      ret p
  end.

(** The submission of a layer's dump; a [RuntimeError] is logged. *)
Definition submit_layer_dump (c : ConnConfig) (layer_name : string) (layer_id local_layer_id : Z)
    (ids : list bytes) (ptrs : list (list (list Z))) : M ST unit :=
  let shard_indexs := py_repeat layer_id (pylen ids) in
  catch_runtime
    (let! layer_ptrs := lift_res (py_idx ptrs local_layer_id) in
     let! event_handle := super (get_dump_event_handle c) in
     let! t := lcall (dump_data ids shard_indexs layer_ptrs event_handle) in
     modify (set_dump_tasks (od_set layer_name t)))
    (ret tt).

Definition layer_save_kv_layer (c : ConnConfig) (layer_name : string) : M ST unit :=
  let! bound := gets (fun s => connector_metadata (base s)) in
  match bound with
  | None => ret tt
  | Some metadata =>
      if is_mla c && negb (tp_rank c mod tp_size c =? 0) then ret tt
      else
        let! names := gets layer_name_to_id_ in
        let! layer_id := lift_res (of_option KeyError (od_get layer_name names)) in
        let! r := gets reg in
        let local_layer_id := layer_id - first_layer_id r in
        let! acc := for_acc metadata ([], []) (collect_layer_dump c local_layer_id) in
        let! save := gets is_save in
        if negb save then ret tt
        else
          let! ptrs := cached_dump_ptrs acc.2 in
          submit_layer_dump c layer_name layer_id local_layer_id acc.1 ptrs
  end.

Definition layer_wait_for_save (c : ConnConfig) : M ST unit :=
  let! save := gets is_save in
  if negb save then ret tt
  else
    let! names := gets kv_cache_names in
    do! catch_runtime
          (for_ names (fun layer_name =>
             let! tasks := gets dump_tasks in
             match od_get layer_name tasks with
             | Some t => lcall (wait t)
             | None => ret tt
             end))
          (ret tt) in
    do! modify (fun s => set_dump_total_ptrs None (set_is_save false (set_dump_tasks (fun _ => []) s))) in
    if enable_event_sync c then lcall dev_destroy_event_handles else ret tt.
End layerwise.

(** ** The layer-by-layer load as a state machine *)

(** The addresses of row [k] of the layout, for a list of blocks. *)
Definition layer_addrs (l : KVCacheLayout) (k : nat) (vllm_block_ids : list Z) : list (list Z) :=
  default [] (extract_block_addrs_layer_first l vllm_block_ids !! k).

Section layer_load.
Context {W D : Type} `{StoreLaws W D} `{Device W}.
Context (md5 : bytes -> bytes) (pickle_dumps : hash_input -> bytes).
Context (c : ConnConfig) (l : KVCacheLayout) (r : Registration) (names : list string)
  (ids : list (string * Z)) (md : UCMConnectorMetadata).
(** the world when the step starts *)
Context (w0 : W).

Abbreviation n := (length names).
Abbreviation f := (first_layer_id r).

(** the requests with something to load *)
Definition to_load : UCMConnectorMetadata :=
  filter (fun e => pylen (load_block_ids e.2).1 <> 0) md.

Definition layer_request (k : nat) (d : RequestDispatchMeta) : load_req :=
  LReq (layer_load_ids md5 pickle_dumps c (load_block_ids d).1) (f + Z.of_nat k)
    (layer_addrs l k (load_block_ids d).2).

(** the loads of layer row [k] *)
Definition layer_batch (k : nat) : list (string * load_req) :=
  (fun e => (e.1, layer_request k e.2)) <$> to_load.

(** What the registration and the step's metadata establish: the layer names have
    consecutive ids from the first layer on, the layout has a row for each, the
    requests and all destination addresses are distinct. *)
Record layers_ok : Prop := {
  lo_names : forall k nm, names !! k = Some nm -> od_get nm ids = Some (f + Z.of_nat k);
  lo_ids : forall z, z ∈ layer_ids r <-> f <= z < f + Z.of_nat n;
  lo_rows : forall k vids, (k < n)%nat -> is_Some (extract_block_addrs_layer_first l vids !! k);
  lo_nonempty : (0 < n)%nat;
  lo_keys : NoDup (od_keys md);
  lo_dests : NoDup (concat ((fun k => batch_dests (layer_batch k)) <$> seq 0 n));
  lo_idle : forall t ids shards addrs, flights w0 t <> Some (FLoad ids shards addrs);
  lo_nowrite : forall k e u, (k < n)%nat -> e ∈ layer_batch k -> u ∈ lr_ids e.2 ->
    ~ writing w0 u (f + Z.of_nat k);
}.

(** What may happen between two calls of the load machinery, such as the dump of
    a finished layer: the world progresses and dumps are added, but nothing the
    loads use is touched. *)
Definition overlap (s s' : LayerState W) : Prop :=
  load_tasks s' = load_tasks s /\ need_load s' = need_load s /\ request_data s' = request_data s /\
  failure_req_ids s' = failure_req_ids s /\ reg s' = reg s /\
  layer_name_to_id_ s' = layer_name_to_id_ s /\
  invalid_block_ids (base s') = invalid_block_ids (base s) /\
  (forall md0, connector_metadata (base s) = Some md0 ->
     exists md', connector_metadata (base s') = Some md' /\
       forall id, (fun d => (load_block_ids d).2) <$> od_get id md' =
                  (fun d => (load_block_ids d).2) <$> od_get id md0) /\
  let w := world (base s) in let w' := world (base s') in
  frame w w' /\
  (forall t bids shards addrs, flights w' t = Some (FLoad bids shards addrs) <->
                               flights w t = Some (FLoad bids shards addrs)) /\
  (forall k e u, (k < n)%nat -> e ∈ layer_batch k -> u ∈ lr_ids e.2 ->
     ~ writing w u (f + Z.of_nat k) -> ~ writing w' u (f + Z.of_nat k)).

(** The states of one step after [k] layers have been waited for. *)
Inductive layer_run (s0 : LayerState W) : nat -> LayerState W -> Prop :=
  | run_start s : layer_start_load_kv md5 pickle_dumps c s0 = (Ok tt, s) -> layer_run s0 0 s
  | run_overlap k s s' : layer_run s0 k s -> overlap s s' -> layer_run s0 k s'
  | run_wait k nm s s' : layer_run s0 k s -> names !! k = Some nm ->
      layer_wait_for_layer_load nm s = (Ok tt, s') -> layer_run s0 (S k) s'.

(** ** Its invariant *)

Definition lreported (s : LayerState W) (d : RequestDispatchMeta) : Prop :=
  forall b, b ∈ (load_block_ids d).2 -> b ∈ invalid_block_ids (base s).

(** The blocks of [d] in layer row [k] hold what the store held. *)
Definition layer_loaded (w : W) (k : nat) (d : RequestDispatchMeta) : Prop :=
  forall i u row ds, lr_ids (layer_request k d) !! i = Some u ->
    lr_rows (layer_request k d) !! i = Some row ->
    stored w0 u (f + Z.of_nat k) = Some ds -> length ds = length row -> devmem w <$> row = ds.

(** The parts no load operation changes. *)
Record static (s : LayerState W) : Prop := {
  st_reg : reg s = r;
  st_ids : layer_name_to_id_ s = ids;
  st_need : need_load s = negb (bool_decide (to_load = []));
  st_data : request_data s =
    (fun e => (e.1, layer_load_ids md5 pickle_dumps c (load_block_ids e.2).1,
               extract_block_addrs_layer_first l (load_block_ids e.2).2)) <$> to_load;
  st_md : exists md', connector_metadata (base s) = Some md' /\
    forall id, (fun d => (load_block_ids d).2) <$> od_get id md' =
               (fun d => (load_block_ids d).2) <$> od_get id md;
  st_fail : forall id d, (id, d) ∈ md -> id ∈ failure_req_ids s -> lreported s d;
}.

(** The stored contents of what is still to be loaded are those of the start. *)
Definition keys_kept (w : W) : Prop :=
  forall k e u, (k < n)%nat -> e ∈ layer_batch k -> u ∈ lr_ids e.2 ->
    stored w u (f + Z.of_nat k) = stored w0 u (f + Z.of_nat k) /\ ~ writing w u (f + Z.of_nat k).

(** The tasks recorded for layer row [k]. *)
Definition row_tasks (s : LayerState W) (k : nat) : list (string * task) :=
  default [] (od_get (f + Z.of_nat k) (load_tasks s)).

Record layer_inv (k : nat) (s : LayerState W) : Prop := {
  li_static : static s;
  li_kept : keys_kept (world (base s));
  (** row [k] is in flight for every request that has not failed *)
  li_tasks : (k < n)%nat ->
    tasks_inv (layer_batch k) (world (base s)) (world (base s)) (row_tasks s k) /\
    (forall e, e ∈ to_load -> e.1 ∈ failure_req_ids s \/ e.1 ∈ od_keys (row_tasks s k));
  li_later : forall j, (k < j)%nat -> od_get (f + Z.of_nat j) (load_tasks s) = None;
  li_done : (n <= k)%nat -> forall a, ~ busy (world (base s)) a;
  li_loaded : forall j e, (j < k)%nat -> e ∈ to_load ->
    e.1 ∈ failure_req_ids s \/ layer_loaded (world (base s)) j e.2;
}.

Context (Hok : layers_ok).

Lemma elem_of_to_load e : e ∈ to_load <-> e ∈ md /\ pylen (load_block_ids e.2).1 <> 0.
Proof. unfold to_load. rewrite list_elem_of_filter. naive_solver. Qed.

Lemma elem_of_layer_batch k e : e ∈ to_load -> (e.1, layer_request k e.2) ∈ layer_batch k.
Proof. intros He. apply list_elem_of_fmap. by exists e. Qed.

Lemma layer_batch_keys k : od_keys (layer_batch k) = od_keys to_load.
Proof. unfold layer_batch, od_keys. by rewrite <- list_fmap_compose. Qed.

Lemma layer_batch_NoDup k : NoDup (od_keys (layer_batch k)).
Proof.
  rewrite layer_batch_keys. unfold to_load, od_keys. pose proof (lo_keys Hok) as Hn.
  unfold od_keys in Hn. clear Hok. induction md as [|e m IH]; [constructor|].
  cbn [fmap list_fmap] in Hn. apply NoDup_cons in Hn as [Hne Hn]. rewrite filter_cons.
  case_decide; [|auto]. cbn. apply NoDup_cons. split; [|auto].
  intros Hin. apply Hne. apply list_elem_of_fmap in Hin as (e' & -> & Hin).
  apply list_elem_of_filter in Hin as [_ Hin]. apply list_elem_of_fmap. by exists e'.
Qed.

Lemma layer_dests_NoDup k : (k < n)%nat -> NoDup (batch_dests (layer_batch k)).
Proof.
  intros Hk. eapply NoDup_concat_elem; [exact (lo_dests Hok)|].
  apply list_elem_of_fmap. exists k. split; [done|]. apply elem_of_seq. lia.
Qed.

Lemma layer_dests_disjoint j k a :
  (j < n)%nat -> (k < n)%nat -> a ∈ batch_dests (layer_batch j) -> a ∈ batch_dests (layer_batch k) -> j = k.
Proof.
  intros Hj Hk Ha Ha'. eapply (NoDup_concat_lookup _ j k); [exact (lo_dests Hok)|..|exact Ha|exact Ha'];
    by rewrite list_lookup_fmap, lookup_seq_lt.
Qed.

Lemma to_load_unique e e' : e ∈ to_load -> e' ∈ to_load -> e.1 = e'.1 -> e = e'.
Proof.
  intros [He _]%elem_of_to_load [He' _]%elem_of_to_load Heq. destruct e as [id d], e' as [id' d'].
  simpl in Heq. subst. apply (od_elem_get _ _ _ (lo_keys Hok)) in He, He'. congruence.
Qed.
(** Memory and store as a batch of row [k] leaves them. *)
Lemma batch_kept k w1 w tasks :
  tasks_inv (layer_batch k) w1 w tasks -> keys_kept w1 -> keys_kept w.
Proof.
  intros Hi Hk j e u Hj He Hu. destruct (Hk j e u Hj He Hu) as [Hs Hw].
  split; [rewrite (ti_store _ _ _ _ Hi); done|]. by rewrite (tasks_writing _ _ _ _ _ _ Hi).
Qed.

Lemma layer_loaded_frame w w' j d :
  layer_loaded w j d ->
  (forall a, a ∈ concat (lr_rows (layer_request j d)) -> devmem w' a = devmem w a) ->
  layer_loaded w' j d.
Proof.
  intros Hld Hm i u row ds Hu Hrow Hst Hle. rewrite <- (Hld i u row ds Hu Hrow Hst Hle).
  apply list_fmap_ext. intros x a Ha. apply Hm. apply elem_of_concat.
  exists row. split; by eapply list_elem_of_lookup_2.
Qed.

Lemma batch_keeps_loaded k w1 w tasks j e :
  tasks_inv (layer_batch k) w1 w tasks -> (k < n)%nat -> (j < n)%nat -> j <> k -> e ∈ to_load ->
  layer_loaded w1 j e.2 -> layer_loaded w j e.2.
Proof.
  intros Hi Hk Hj Hne He Hld. eapply layer_loaded_frame; [done|]. intros a Ha.
  apply (ti_mem _ _ _ _ Hi). intros Ha'. apply Hne. eapply layer_dests_disjoint; [done..| |exact Ha'].
  eapply row_in_dests; [by apply elem_of_layer_batch|done].
Qed.

(** A failed request is reported; nothing else changes. *)
Lemma fail_request_spec s md' id d :
  static s -> (id, d) ∈ md ->
  (forall id, (fun d => (load_block_ids d).2) <$> od_get id md' =
              (fun d => (load_block_ids d).2) <$> od_get id md) ->
  exists s', fail_request md' id s = (Ok tt, s') /\ static s' /\
    load_tasks s' = load_tasks s /\ world (base s') = world (base s) /\
    failure_req_ids s' = {[id]} ∪ failure_req_ids s.
Proof.
  intros Hs Hd Hmd. pose proof (Hmd id) as Hg. rewrite (od_elem_get _ _ _ (lo_keys Hok) Hd) in Hg.
  apply fmap_Some in Hg as (d' & Hd' & Hv).
  unfold fail_request, report_invalid, super, zoom, lift_res, bind, modify. rewrite Hd'. simpl.
  eexists. split; [reflexivity|]. split; [|done]. destruct Hs as [? ? ? ? (m & Hm & Hm') Hf].
  split; try done; simpl.
  - by exists m.
  - intros id' d'' Hin Hfail b Hb. simpl. apply elem_of_union in Hfail as [->%elem_of_singleton|Hfail].
    + apply elem_of_union_r, elem_of_list_to_set. rewrite <- Hv.
      apply (od_elem_get _ _ _ (lo_keys Hok)) in Hin, Hd. congruence.
    + apply elem_of_union_l. by eapply Hf.
Qed.

(** While the tasks of row [k] are waited for. *)
Record wait_inv (k : nat) (w1 : W) (s1 s : LayerState W) (tasks : list (string * task)) : Prop := {
  wi_static : static s;
  wi_tasks : tasks_inv (layer_batch k) w1 (world (base s)) tasks;
  wi_lt : load_tasks s = load_tasks s1;
  wi_fail : failure_req_ids s1 ⊆ failure_req_ids s;
  wi_all : forall e, e ∈ to_load -> e.1 ∈ failure_req_ids s \/ e.1 ∈ od_keys tasks \/
    loaded w1 (world (base s)) (layer_request k e.2);
}.

Lemma wait_layer_step k w1 s1 s md' id t tasks :
  (k < n)%nat -> wait_inv k w1 s1 s ((id, t) :: tasks) ->
  (forall id, (fun d => (load_block_ids d).2) <$> od_get id md' =
              (fun d => (load_block_ids d).2) <$> od_get id md) ->
  exists s', wait_layer_task md' (id, t) s = (Ok tt, s') /\ wait_inv k w1 s1 s' tasks.
Proof.
  intros Hk Hi Hmd. pose proof (wi_tasks _ _ _ _ _ Hi) as Ht.
  unfold wait_layer_task, catch_runtime, catch, lcall, super, call, zoom.
  destruct (wait (id, t).2 (world (base s))) as [rr w'] eqn:Hw. cbn [snd] in Hw.
  pose proof (wait_task_inv (layer_batch k) _ _ _ _ _ _ _ Ht Hw) as Ht'.
  set (s2 := set_base (fun _ => set_world w' (base s)) s).
  assert (Hst2 : static s2) by (destruct (wi_static _ _ _ _ _ Hi); by split).
  assert (Hrest : forall e, e ∈ to_load -> e.1 <> id ->
    e.1 ∈ failure_req_ids s \/ e.1 ∈ od_keys tasks \/ loaded w1 w' (layer_request k e.2)).
  { intros e He Hne. destruct (decide (e.1 ∈ od_keys tasks)); [auto|].
    assert (e.1 ∉ od_keys ((id, t) :: tasks)) by (apply not_elem_of_cons; auto).
    destruct (wi_all _ _ _ _ _ Hi e He) as [?|[?|Hld]]; [auto|done|]. right. right.
    eapply (wait_task_others (layer_batch k) (layer_dests_NoDup k Hk)); [done..|
      by apply elem_of_layer_batch|done|done]. }
  destruct rr as [[]|ex].
  - exists s2. split; [done|]. split; [done|done|apply Hi|apply Hi|].
    intros e He. destruct (decide (e.1 = id)) as [Heq|Hne]; [|by apply Hrest]. right. right.
    eapply (wait_task_loaded (layer_batch k) (layer_batch_NoDup k) (layer_dests_NoDup k Hk)); [done..|].
    rewrite <- Heq. by apply elem_of_layer_batch.
  - rewrite (wait_err _ _ _ _ Hw). cbn [fst].
    destruct (ti_flight _ _ _ _ Ht id t ltac:(left)) as (d0 & Hd0 & _).
    apply list_elem_of_fmap in Hd0 as ([id' d] & [= -> ->] & Hin).
    apply elem_of_to_load in Hin as [Hin _].
    destruct (fail_request_spec s2 md' id' d Hst2 Hin Hmd) as (s' & Hs' & Hst' & Hlt & Hwd & Hfl).
    exists s'. split; [done|]. split; [done|by rewrite Hwd|rewrite Hlt; apply Hi| |].
    + rewrite Hfl. intros x Hx. apply elem_of_union_r. by apply (wi_fail _ _ _ _ _ Hi).
    + intros e He. rewrite Hfl, Hwd. destruct (decide (e.1 = id')) as [->|Hne]; [set_solver|].
      destruct (Hrest e He Hne) as [?|[?|?]]; [set_solver|auto..].
Qed.

Lemma wait_layer_loop k w1 s1 s md' tasks :
  (k < n)%nat -> wait_inv k w1 s1 s tasks ->
  (forall id, (fun d => (load_block_ids d).2) <$> od_get id md' =
              (fun d => (load_block_ids d).2) <$> od_get id md) ->
  exists s', for_ tasks (wait_layer_task md') s = (Ok tt, s') /\ wait_inv k w1 s1 s' [].
Proof.
  intros Hk. revert s. induction tasks as [|[id t] tasks IH]; intros s Hi Hmd; [by exists s|].
  destruct (wait_layer_step k w1 s1 s md' id t tasks Hk Hi Hmd) as (s2 & Hs2 & Hi2).
  destruct (IH s2 Hi2 Hmd) as (s3 & Hs3 & Hi3). exists s3. cbn [for_].
  by rewrite (bind_ok _ _ _ _ _ Hs2).
Qed.
(** While the requests of row [k] are submitted. *)
Record sub_inv (k : nat) (w1 : W) (s1 s : LayerState W) : Prop := {
  su_static : static s;
  su_tasks : tasks_inv (layer_batch k) w1 (world (base s)) (row_tasks s k);
  su_later : forall j, (k < j)%nat -> od_get (f + Z.of_nat j) (load_tasks s) = None;
  su_fail : failure_req_ids s1 ⊆ failure_req_ids s;
}.

Definition data_of (e : string * RequestDispatchMeta) : string * list bytes * list (list (list Z)) :=
  (e.1, layer_load_ids md5 pickle_dumps c (load_block_ids e.2).1,
   extract_block_addrs_layer_first l (load_block_ids e.2).2).

Lemma row_tasks_record s k id t :
  row_tasks (set_load_tasks (fun lt => od_set (f + Z.of_nat k)
    (od_set id t (default [] (od_get (f + Z.of_nat k) lt))) lt) s) k = od_set id t (row_tasks s k).
Proof. unfold row_tasks. simpl. by rewrite od_get_set_eq. Qed.

Lemma submit_request_step k w1 s1 s md' e :
  (k < n)%nat -> sub_inv k w1 s1 s -> e ∈ to_load -> e.1 ∉ od_keys (row_tasks s k) ->
  (forall id, (fun d => (load_block_ids d).2) <$> od_get id md' =
              (fun d => (load_block_ids d).2) <$> od_get id md) ->
  exists s', submit_request (f + Z.of_nat k) (Z.of_nat k) md' (data_of e) s = (Ok tt, s') /\
    sub_inv k w1 s1 s' /\ (e.1 ∈ failure_req_ids s' \/ e.1 ∈ od_keys (row_tasks s' k)) /\
    (forall x, x ∈ od_keys (row_tasks s' k) -> x = e.1 \/ x ∈ od_keys (row_tasks s k)) /\
    (forall x, x ∈ failure_req_ids s \/ x ∈ od_keys (row_tasks s k) ->
               x ∈ failure_req_ids s' \/ x ∈ od_keys (row_tasks s' k)).
Proof.
  intros Hk Hi He Hnk Hmd. unfold submit_request, data_of. unfold bind at 1, gets.
  destruct (bool_decide_reflect (e.1 ∈ failure_req_ids s)) as [Hf|Hf]; [by exists s; auto 10|].
  unfold catch_runtime, catch, bind, lift_res, lcall, super, call, zoom, record_task, modify.
  destruct (lo_rows Hok k (load_block_ids e.2).2 Hk) as [rows Hrows].
  assert (py_idx (extract_block_addrs_layer_first l (load_block_ids e.2).2) (Z.of_nat k) = Ok rows) as ->.
  { unfold py_idx. rewrite py_nth_nonneg, Nat2Z.id, Hrows by lia. done. }
  assert (Hreq : lr_rows (layer_request k e.2) = rows).
  { simpl. unfold layer_addrs. by rewrite Hrows. }
  destruct (load_data _ _ rows _) as [[t|ex] w'] eqn:Hl.
  - eexists. split; [reflexivity|]. rewrite !row_tasks_record.
    split; [split|split; [|split]].
    + destruct (su_static _ _ _ _ Hi); by split.
    + rewrite row_tasks_record. simpl.
      apply (submit_task (layer_batch k) (layer_batch_NoDup k) (layer_dests_NoDup k Hk) w1 (world (base s))
        (row_tasks s k) e.1 (layer_request k e.2)); [apply Hi|done|by apply elem_of_layer_batch|].
      rewrite Hreq. exact Hl.
    + intros j Hj. simpl. rewrite od_get_set_ne by lia. by apply (su_later _ _ _ _ Hi).
    + apply Hi.
    + right. apply elem_of_od_keys_set. by left.
    + intros x. by rewrite elem_of_od_keys_set.
    + intros x [?|?]; [by left|right]. apply elem_of_od_keys_set. by right.
  - destruct (load_data_err _ _ _ _ _ _ Hl) as [Hrt Hq]. rewrite Hrt.
    set (s2 := set_base (fun _ => set_world w' (base s)) s).
    assert (Hst2 : static s2) by (destruct (su_static _ _ _ _ Hi); by split).
    destruct e as [id d]. apply elem_of_to_load in He as [Hin _].
    destruct (fail_request_spec s2 md' id d Hst2 Hin Hmd) as (s' & Hs' & Hst' & Hlt & Hwd & Hfl).
    exists s'. split; [done|]. unfold row_tasks. rewrite Hlt, Hfl. cbn [fst].
    split; [split; [done| |by rewrite Hlt; apply (su_later _ _ _ _ Hi)|]|set_solver].
    + unfold row_tasks. rewrite Hlt, Hwd. simpl.
      apply (quiet_tasks (layer_batch k) w1 (world (base s))); [apply (su_tasks _ _ _ _ Hi)|done].
    + rewrite Hfl. intros x Hx. apply elem_of_union_r. by apply (su_fail _ _ _ _ Hi).
Qed.

Lemma submit_request_loop k w1 s1 s md' es :
  (k < n)%nat -> sub_inv k w1 s1 s -> NoDup (od_keys es) ->
  (forall e, e ∈ es -> e ∈ to_load /\ e.1 ∉ od_keys (row_tasks s k)) ->
  (forall id, (fun d => (load_block_ids d).2) <$> od_get id md' =
              (fun d => (load_block_ids d).2) <$> od_get id md) ->
  exists s', for_ (data_of <$> es) (submit_request (f + Z.of_nat k) (Z.of_nat k) md') s = (Ok tt, s') /\
    sub_inv k w1 s1 s' /\
    (forall e, e ∈ es -> e.1 ∈ failure_req_ids s' \/ e.1 ∈ od_keys (row_tasks s' k)) /\
    (forall x, x ∈ failure_req_ids s \/ x ∈ od_keys (row_tasks s k) ->
               x ∈ failure_req_ids s' \/ x ∈ od_keys (row_tasks s' k)).
Proof.
  intros Hk. revert s. induction es as [|e es IH]; intros s Hi Hn Hes Hmd.
  { exists s. split; [done|]. split; [done|]. split; [set_solver|auto]. }
  cbn in Hn. apply NoDup_cons in Hn as [Hne Hn]. destruct (Hes e ltac:(left)) as [He Hnk].
  destruct (submit_request_step k w1 s1 s md' e Hk Hi He Hnk Hmd) as (s2 & Hs2 & Hi2 & Hin & Hnew & Hmono).
  destruct (IH s2 Hi2 Hn) as (s3 & Hs3 & Hi3 & Hall & Hmono3); [|done|].
  { intros e' He'. destruct (Hes e' ltac:(by right)) as [? Hk']. split; [done|].
    intros [Heq|?]%Hnew; [|done]. apply Hne. rewrite <- Heq. apply list_elem_of_fmap. by exists e'. }
  exists s3. cbn [fmap list_fmap for_]. rewrite (bind_ok _ _ _ _ _ Hs2).
  split; [done|]. split; [done|]. split; [|auto].
  intros e' [->|He']%elem_of_cons; auto.
Qed.

(** Submitting row [k], in a world where no load is in flight. *)
Lemma submit_row k s md' :
  (k < n)%nat -> static s ->
  (forall t bids shards addrs, flights (world (base s)) t <> Some (FLoad bids shards addrs)) ->
  (forall j, (k <= j)%nat -> od_get (f + Z.of_nat j) (load_tasks s) = None) ->
  (forall id, (fun d => (load_block_ids d).2) <$> od_get id md' =
              (fun d => (load_block_ids d).2) <$> od_get id md) ->
  exists s', submit_request_load_tasks_for_layer (f + Z.of_nat k) (Z.of_nat k) md' s = (Ok tt, s') /\
    sub_inv k (world (base s)) s s' /\
    (forall e, e ∈ to_load -> e.1 ∈ failure_req_ids s' \/ e.1 ∈ od_keys (row_tasks s' k)).
Proof.
  intros Hk Hs Hnl Hno Hmd.
  assert (Hrt : row_tasks s k = []) by (unfold row_tasks; by rewrite Hno).
  assert (Hi : sub_inv k (world (base s)) s s).
  { split; [done| |intros; apply Hno; lia|done]. rewrite Hrt. by apply tasks_inv_start. }
  assert (Hkeys : NoDup (od_keys to_load)).
  { rewrite <- (layer_batch_keys 0). apply layer_batch_NoDup. }
  destruct (submit_request_loop k (world (base s)) s s md' to_load Hk Hi Hkeys) as (s' & Hs' & Hi' & Hall & _);
    [intros e He; rewrite Hrt; split; [done|set_solver]|done|].
  exists s'. split; [|done]. unfold submit_request_load_tasks_for_layer, bind, gets.
  rewrite (st_data _ Hs). exact Hs'.
Qed.
(** The collection of the requests at the start. *)
Record collecting (s0 s : LayerState W) (es : UCMConnectorMetadata) : Prop := {
  co_base : world (base s) = world (base s0) /\ kv_cache_layout (base s) = Some l /\
    invalid_block_ids (base s) = invalid_block_ids (base s0);
  co_reg : reg s = r /\ layer_name_to_id_ s = ids;
  co_empty : load_tasks s = [] /\ failure_req_ids s = ∅;
  co_data : request_data s = data_of <$> filter (fun e => pylen (load_block_ids e.2).1 <> 0) es;
  co_need : need_load s =
    negb (bool_decide (filter (fun e => pylen (load_block_ids e.2).1 <> 0) es = []));
  co_md : exists md', connector_metadata (base s) = Some md' /\
    forall id, (fun d => (load_block_ids d).2) <$> od_get id md' =
               (fun d => (load_block_ids d).2) <$> od_get id md;
}.

Lemma collect_load_step s0 s es e :
  collecting s0 s es -> e ∈ md ->
  exists s', collect_load md5 pickle_dumps c e s = (Ok tt, s') /\ collecting s0 s' (es ++ [e]).
Proof.
  intros [(Hw & Hl & Hinv) [Hr Hid] [Hlt Hfl] Hd Hn (md' & Hm & Hm')] He. destruct e as [id d].
  unfold collect_load. destruct (Z.eqb_spec (pylen (load_block_ids d).1) 0) as [Hz|Hz].
  - exists s. split; [done|]. split; try done; rewrite ?filter_app, ?filter_cons_False; simpl;
      try (by intros []); rewrite ?filter_nil, ?app_nil_r; try done. by exists md'.
  - unfold super, zoom, update_dispatch, get_layout, bind, modify, gets, ret. simpl. rewrite Hl.
    eexists. split; [reflexivity|]. split; simpl; try done.
    + by rewrite Hd, filter_app, filter_cons_True, filter_nil, fmap_app.
    + rewrite filter_app, filter_cons_True, filter_nil by done.
      by destruct (filter _ es).
    + rewrite Hm. simpl. eexists. split; [reflexivity|]. intros id'.
      by apply (od_get_set_same_load md (lo_keys Hok)).
Qed.

Lemma collect_load_loop s0 s es post :
  collecting s0 s es -> es ++ post = md ->
  exists s', for_ post (collect_load md5 pickle_dumps c) s = (Ok tt, s') /\ collecting s0 s' md.
Proof.
  revert s es. induction post as [|e post IH]; intros s es Hc Heq.
  { rewrite app_nil_r in Heq. subst. by exists s. }
  destruct (collect_load_step s0 s es e Hc) as (s2 & Hs2 & Hc2).
  { rewrite <- Heq. apply elem_of_app. right. left. }
  destruct (IH s2 (es ++ [e]) Hc2) as (s3 & Hs3 & Hc3); [by rewrite <- app_assoc|].
  exists s3. cbn [for_]. by rewrite (bind_ok _ _ _ _ _ Hs2).
Qed.

(** What the step starts from. *)
Definition step_start (s0 : LayerState W) : Prop :=
  connector_metadata (base s0) = Some md /\ kv_cache_layout (base s0) = Some l /\
  reg s0 = r /\ layer_name_to_id_ s0 = ids /\ world (base s0) = w0.

Lemma start_inv s0 :
  step_start s0 -> exists s, layer_start_load_kv md5 pickle_dumps c s0 = (Ok tt, s) /\ layer_inv 0 s.
Proof.
  intros (Hmd & Hl & Hr & Hids & Hw). unfold layer_start_load_kv.
  assert (Hg : super get_connector_metadata s0 = (Ok md, s0)).
  { unfold super, zoom, get_connector_metadata, bind, gets, ret. rewrite Hmd. by destruct s0. }
  rewrite (bind_ok _ _ _ _ _ Hg). unfold bind at 1, modify.
  match goal with |- context [ bind (for_ md _) _ ?s1 ] => set (s1' := s1) end.
  assert (Hc : collecting s0 s1' []).
  { split; simpl; try done. by exists md. }
  destruct (collect_load_loop s0 s1' [] md Hc eq_refl) as (s2 & Hs2 & Hc2).
  rewrite (bind_ok _ _ _ _ _ Hs2). unfold bind, gets.
  destruct Hc2 as [(Hw2 & Hl2 & Hinv2) [Hr2 Hid2] [Hlt2 Hfl2] Hd2 Hn2 Hm2].
  assert (Hst : static s2).
  { split; try done. intros id d _ Hx. rewrite Hfl2 in Hx. set_solver. }
  assert (Hnl : forall t bids shards addrs, flights (world (base s2)) t <> Some (FLoad bids shards addrs)).
  { rewrite Hw2, Hw. apply (lo_idle Hok). }
  assert (Hkept : keys_kept (world (base s2))).
  { rewrite Hw2, Hw. intros k e u Hk He Hu. split; [done|]. by eapply (lo_nowrite Hok). }
  rewrite Hn2. fold to_load. destruct (bool_decide_reflect (to_load = [])) as [He|He]; cbn [negb].
  - exists s2. split; [done|]. split; [done|done|..].
    + intros _. unfold row_tasks. rewrite Hlt2. split; [by apply tasks_inv_start|].
      rewrite He. set_solver.
    + intros j _. by rewrite Hlt2.
    + intros _ a (t & ? & ? & ? & Hf & _). by apply Hnl in Hf.
    + intros j e Hj. lia.
  - rewrite Hr2. destruct (submit_row 0 s2 md (lo_nonempty Hok) Hst Hnl) as (s3 & Hs3 & Hi3 & Hall);
      [intros; by rewrite Hlt2|done|].
    rewrite Z.add_0_r in Hs3. exists s3. split; [done|].
    split; [apply Hi3|by eapply batch_kept; [apply (su_tasks _ _ _ _ Hi3)|]|..].
    + intros _. split; [|done]. by eapply (tasks_inv_rebase (layer_batch 0)); [apply (su_tasks _ _ _ _ Hi3)|].
    + apply (su_later _ _ _ _ Hi3).
    + pose proof (lo_nonempty Hok). lia.
    + intros j e Hj. lia.
Qed.
Lemma no_loads k w1 w :
  tasks_inv (layer_batch k) w1 w [] ->
  forall t bids shards addrs, flights w t <> Some (FLoad bids shards addrs).
Proof. intros Hi t bids shards addrs Hf. destruct (ti_all _ _ _ _ Hi _ _ _ _ Hf) as [id Hx]. set_solver. Qed.

Lemma overlap_inv k s s' : layer_inv k s -> overlap s s' -> layer_inv k s'.
Proof.
  intros Hi (Hlt & Hn & Hd & Hf & Hr & Hids & Hinv & Hmd & Hframe & Hfl & Hnw).
  destruct Hframe as [Hmem Hsto]. destruct (li_static _ _ Hi) as [S1 S2 S3 S4 (m & Hm & Hm') S6].
  assert (Hrt : row_tasks s' k = row_tasks s k) by (unfold row_tasks; by rewrite Hlt).
  split.
  - split; [congruence..| |].
    + destruct (Hmd m Hm) as (m2 & Hm2 & Hg). exists m2. split; [done|]. intros id. by rewrite Hg.
    + intros id d Hin Hx b Hb. rewrite Hinv. rewrite Hf in Hx. by apply (S6 id d).
  - intros j e u Hj He Hu. destruct (li_kept _ _ Hi j e u Hj He Hu) as [Hs Hw].
    split; [rewrite Hsto; [done|done|]|]; by eapply Hnw.
  - intros Hk. rewrite Hrt, Hf. destruct (li_tasks _ _ Hi Hk) as [Ht Ha]. split; [|done].
    by eapply (tasks_inv_rebase (layer_batch k)).
  - intros j Hj. rewrite Hlt. by apply (li_later _ _ Hi).
  - intros Hk a (t & bids & shards & addrs & Hx & Ha). apply (li_done _ _ Hi Hk a).
    exists t, bids, shards, addrs. split; [by apply Hfl|done].
  - intros j e Hj He. rewrite Hf. destruct (li_loaded _ _ Hi j e Hj He) as [?|Hld]; [by left|right].
    eapply layer_loaded_frame; [done|]. intros a Ha.
    assert (Hbusy : busy (world (base s')) a -> busy (world (base s)) a).
    { intros (t & bids & shards & addrs & Hx & Hin). exists t, bids, shards, addrs.
      split; [by apply Hfl|done]. }
    assert (Hnb : ~ busy (world (base s)) a).
    { destruct (decide (k < n)%nat) as [Hk|Hk]; [|apply (li_done _ _ Hi); lia].
      intros Hb. destruct (li_tasks _ _ Hi Hk) as [Ht _].
      destruct (task_busy _ _ _ _ _ Ht Hb) as (id & d & _ & Hin & Hax).
      assert (j = k); [|lia]. apply (layer_dests_disjoint j k a); [lia|done|..].
      - eapply row_in_dests; [by apply elem_of_layer_batch|done].
      - by eapply row_in_dests. }
    apply Hmem; auto.
Qed.

(** The wait for row [k], before the next row is submitted. *)
Lemma wait_row k s md' :
  (k < n)%nat -> layer_inv k s ->
  (forall id, (fun d => (load_block_ids d).2) <$> od_get id md' =
              (fun d => (load_block_ids d).2) <$> od_get id md) ->
  exists s1, for_ (row_tasks s k) (wait_layer_task md') s = (Ok tt, s1) /\ static s1 /\
    load_tasks s1 = load_tasks s /\ keys_kept (world (base s1)) /\
    (forall t bids shards addrs, flights (world (base s1)) t <> Some (FLoad bids shards addrs)) /\
    (forall j e, (j < S k)%nat -> e ∈ to_load ->
       e.1 ∈ failure_req_ids s1 \/ layer_loaded (world (base s1)) j e.2).
Proof.
  intros Hk Hi Hmd. destruct (li_tasks _ _ Hi Hk) as [Ht Ha].
  assert (Hw : wait_inv k (world (base s)) s s (row_tasks s k)).
  { split; [apply Hi|done|done|done|]. intros e He. destruct (Ha e He); auto. }
  destruct (wait_layer_loop k _ s s md' _ Hk Hw Hmd) as (s1 & Hs1 & [W1 W2 W3 W4 W5]).
  exists s1. split; [done|]. split; [done|]. split; [done|].
  split; [by eapply batch_kept; [|apply Hi]|]. split; [by eapply no_loads|].
  intros j e Hj He. destruct (decide (j = k)) as [->|Hne].
  - destruct (W5 e He) as [?|[Hx|Hld]]; [by left|set_solver|right].
    intros i u row ds Hu Hrow Hst Hle.
    destruct (li_kept _ _ Hi k _ u Hk (elem_of_layer_batch k e He)) as [Hsame Hnw];
      [by eapply list_elem_of_lookup_2|].
    apply (Hld i u row ds Hu Hrow); [exact Hnw|by rewrite <- Hst|done].
  - destruct (li_loaded _ _ Hi j e ltac:(lia) He) as [Hx|Hld]; [left; by apply W4|right].
    by eapply (batch_keeps_loaded k _ _ _ j e W2 Hk ltac:(lia) Hne).
Qed.

Lemma wait_inv_step k nm s :
  layer_inv k s -> names !! k = Some nm ->
  exists s', layer_wait_for_layer_load nm s = (Ok tt, s') /\ layer_inv (S k) s'.
Proof.
  intros Hi Hnm. assert (Hk : (k < n)%nat) by by eapply lookup_lt_Some.
  destruct (li_static _ _ Hi) as [S1 S2 S3 S4 (md' & Hm & Hm') S6].
  unfold layer_wait_for_layer_load. unfold bind at 1 2, gets. rewrite Hm, S3.
  destruct (bool_decide_reflect (to_load = [])) as [He|He]; cbn [negb].
  - exists s. split; [done|]. destruct (li_tasks _ _ Hi Hk) as [Ht _].
    assert (Hrt : row_tasks s k = []).
    { destruct (row_tasks s k) as [|[id t] ts]; [done|].
      destruct (ti_flight _ _ _ _ Ht id t ltac:(left)) as (d & Hin & _).
      unfold layer_batch in Hin. rewrite He in Hin. set_solver. }
    rewrite Hrt in Ht. pose proof (no_loads _ _ _ Ht) as Hnl.
    split; [apply Hi|apply Hi|..].
    + intros Hk'. unfold row_tasks. rewrite (li_later _ _ Hi) by lia.
      split; [by apply tasks_inv_start|]. rewrite He. set_solver.
    + intros j Hj. apply (li_later _ _ Hi). lia.
    + intros _ a (t & ? & ? & ? & Hf & _). by apply Hnl in Hf.
    + rewrite He. set_solver.
  - unfold bind at 1 2 3, lift_res. rewrite S2, (lo_names Hok _ _ Hnm). cbn [of_option].
    fold (row_tasks s k).
    destruct (wait_row k s md' Hk Hi Hm') as (s1 & Hs1 & Hst1 & Hlt1 & Hkept1 & Hnl1 & Hld1).
    rewrite (bind_ok _ _ _ _ _ Hs1). unfold bind. rewrite (st_reg _ Hst1).
    destruct (mem (f + Z.of_nat k + 1) (layer_ids r)) eqn:Hmem; cbn [negb].
    + apply mem_spec, (lo_ids Hok) in Hmem.
      replace (f + Z.of_nat k + 1) with (f + Z.of_nat (S k)) by lia.
      replace (f + Z.of_nat (S k) - f) with (Z.of_nat (S k)) by lia.
      destruct (submit_row (S k) s1 md' ltac:(lia) Hst1 Hnl1) as (s2 & Hs2 & Hi2 & Hall);
        [intros j Hj; rewrite Hlt1; apply (li_later _ _ Hi); lia|done|].
      exists s2. split; [done|]. pose proof (su_tasks _ _ _ _ Hi2) as Ht2.
      split; [apply Hi2|by eapply batch_kept|..].
      * intros _. split; [|done]. by eapply (tasks_inv_rebase (layer_batch (S k))).
      * apply (su_later _ _ _ _ Hi2).
      * lia.
      * intros j e Hj Hel. destruct (Hld1 j e Hj Hel) as [Hx|Hld]; [left; by apply (su_fail _ _ _ _ Hi2)|right].
        by eapply (batch_keeps_loaded (S k) _ _ _ j e Ht2 ltac:(lia) ltac:(lia) ltac:(lia)).
    + exists s1. split; [done|].
      assert (Hlast : ~ (S k < n)%nat).
      { intros Hlt. apply mem_false in Hmem. apply Hmem, (lo_ids Hok). lia. }
      split; [done|done|lia| | |done].
      * intros j Hj. rewrite Hlt1. apply (li_later _ _ Hi). lia.
      * intros _ a (t & ? & ? & ? & Hf & _). by apply Hnl1 in Hf.
Qed.

Lemma layer_run_inv s0 k s : step_start s0 -> layer_run s0 k s -> layer_inv k s.
Proof.
  intros Hs0. induction 1 as [s Hs|k s s' _ IH Ho|k nm s s' _ IH Hnm Hw].
  - destruct (start_inv s0 Hs0) as (s2 & Hs2 & Hi). rewrite Hs in Hs2. by injection Hs2 as <-.
  - by eapply overlap_inv.
  - destruct (wait_inv_step k nm s IH Hnm) as (s2 & Hs2 & Hi). rewrite Hw in Hs2. by injection Hs2 as <-.
Qed.
End layer_load.

(** ** Saving a layer leaves the loads alone *)
Section layer_save.
Context {W D : Type} `{DeviceLaws W D}.
Context `{!StoreLaws W D}.
Context (md5 : bytes -> bytes) (pickle_dumps : hash_input -> bytes).
Context (c : ConnConfig) (l : KVCacheLayout) (r : Registration) (names : list string)
  (md : UCMConnectorMetadata).

Abbreviation overlaps := (overlap md5 pickle_dumps c l r names md).

(** A change of the save bookkeeping only. *)
Definition save_only (s s' : LayerState W) : Prop :=
  load_tasks s' = load_tasks s /\ need_load s' = need_load s /\ request_data s' = request_data s /\
  failure_req_ids s' = failure_req_ids s /\ reg s' = reg s /\
  layer_name_to_id_ s' = layer_name_to_id_ s /\
  invalid_block_ids (base s') = invalid_block_ids (base s) /\
  kv_cache_layout (base s') = kv_cache_layout (base s) /\
  (forall md0, connector_metadata (base s) = Some md0 ->
     exists md', connector_metadata (base s') = Some md' /\
       forall id, (fun d => (load_block_ids d).2) <$> od_get id md' =
                  (fun d => (load_block_ids d).2) <$> od_get id md0) /\
  world (base s') = world (base s).

Lemma save_only_refl s : save_only s s.
Proof. do 8 (split; [done|]). split; [|done]. intros m Hm. by exists m. Qed.

Lemma save_only_trans s1 s2 s3 : save_only s1 s2 -> save_only s2 s3 -> save_only s1 s3.
Proof.
  intros (?&?&?&?&?&?&?&?&M1&?) (?&?&?&?&?&?&?&?&M2&?). do 8 (split; [congruence|]).
  split; [|congruence]. intros m Hm. destruct (M1 m Hm) as (m1 & Hm1 & Hg1).
  destruct (M2 m1 Hm1) as (m2 & Hm2 & Hg2). exists m2. split; [done|]. intros id. by rewrite Hg2.
Qed.

(** ... combined with a step of the world that adds at most one dump. *)
Lemma save_only_overlap s s' s2 (keys : list (bytes * Z)) :
  save_only s s' ->
  load_tasks s2 = load_tasks s' -> need_load s2 = need_load s' -> request_data s2 = request_data s' ->
  failure_req_ids s2 = failure_req_ids s' -> reg s2 = reg s' ->
  layer_name_to_id_ s2 = layer_name_to_id_ s' ->
  invalid_block_ids (base s2) = invalid_block_ids (base s') ->
  connector_metadata (base s2) = connector_metadata (base s') ->
  frame (world (base s')) (world (base s2)) ->
  (forall t bids shards addrs, flights (world (base s2)) t = Some (FLoad bids shards addrs) <->
                               flights (world (base s')) t = Some (FLoad bids shards addrs)) ->
  (forall u sh, writing (world (base s2)) u sh -> writing (world (base s')) u sh \/ (u, sh) ∈ keys) ->
  (forall k e u, (k < length names)%nat -> e ∈ layer_batch md5 pickle_dumps c l r md k -> u ∈ lr_ids e.2 ->
     (u, first_layer_id r + Z.of_nat k) ∉ keys) ->
  overlaps s s2.
Proof.
  intros (E1&E2&E3&E4&E5&E6&E7&_&M1&E8) F1 F2 F3 F4 F5 F6 F7 F8 Hfr Hfl Hw Hk.
  do 7 (split; [congruence|]). split; [by rewrite F8|]. rewrite <- E8. split; [done|].
  split; [done|]. intros k e u Hkn He Hu Hnw [?|Hin]%Hw; [done|]. by eapply Hk.
Qed.

Definition dump_keys (local_layer_id : Z) (m : UCMConnectorMetadata) : list bytes :=
  concat ((fun e => layer_dump_ids md5 pickle_dumps c local_layer_id (dump_block_ids e.2).1) <$> m).

Lemma collect_layer_dump_loop local m acc s md0 :
  connector_metadata (base s) = Some md0 -> NoDup (od_keys m) ->
  (forall id d, (id, d) ∈ m -> (fun d => (load_block_ids d).2) <$> od_get id md0 = Some (load_block_ids d).2) ->
  exists acc' s', for_acc m acc (collect_layer_dump md5 pickle_dumps c local) s = (Ok acc', s') /\
    save_only s s' /\ (forall u, u ∈ acc'.1 -> u ∈ acc.1 \/ u ∈ dump_keys local m).
Proof.
  revert acc s md0. induction m as [|[id d] m IH]; intros acc s md0 Hmd Hn Hg.
  { exists acc, s. split; [done|]. split; [apply save_only_refl|]. auto. }
  cbn in Hn. apply NoDup_cons in Hn as [Hid Hn]. cbn [for_acc]. unfold collect_layer_dump at 1.
  destruct (Z.eqb_spec (pylen (dump_block_ids d).1) 0) as [Hz|Hz].
  - rewrite bind_ret. destruct (IH acc s md0 Hmd Hn) as (acc' & s' & Hs & Hso & Hu).
    { intros id' d' Hin. apply Hg. by right. }
    exists acc', s'. split; [done|]. split; [done|]. intros u [?|?]%Hu; [by left|right].
    unfold dump_keys. cbn. by apply elem_of_app; right.
  - unfold super, zoom, update_dispatch, bind at 1 2 3, modify, ret at 1.
    match goal with |- context [ for_acc m ?a _ ?s1 ] =>
      destruct (IH a s1 (od_set id (with_dump_ids (layer_dump_ids md5 pickle_dumps c local
        (dump_block_ids d).1) d) md0)) as (acc' & s' & Hs & Hso & Hu)
    end.
    + simpl. by rewrite Hmd.
    + done.
    + intros id' d' Hin. rewrite od_get_set_ne; [apply Hg; by right|].
      intros ->. apply Hid. apply list_elem_of_fmap. by exists (id, d').
    + exists acc', s'. split; [exact Hs|]. split.
      * eapply save_only_trans; [|exact Hso]. do 8 (split; [done|]). split; [|done].
        intros m0 Hm0. simpl. rewrite Hm0. eexists. split; [reflexivity|]. intros id'.
        rewrite od_get_set. case_decide; [subst|done]. simpl.
        assert (m0 = md0) as -> by congruence. by rewrite (Hg id d) by left.
      * intros u [Hin|?]%Hu; [|right; unfold dump_keys; cbn; by apply elem_of_app; right].
        simpl in Hin. apply elem_of_app in Hin as [?|?]; [by left|right].
        unfold dump_keys. cbn. by apply elem_of_app; left.
Qed.

Lemma save_only_overlaps s s' : save_only s s' -> overlaps s s'.
Proof. intros Hs. eapply (save_only_overlap s s' s' []); try done; [auto|set_solver]. Qed.

Lemma cached_dump_ptrs_save_only vids s : save_only s (cached_dump_ptrs vids s).2.
Proof.
  unfold cached_dump_ptrs, bind at 1, gets.
  destruct (dump_total_ptrs s); [apply save_only_refl|].
  unfold super, zoom, get_layout, bind, gets, modify, ret, raise.
  destruct (kv_cache_layout (base s)); (do 8 (split; [done|]); split; [intros m0 Hm0; by exists m0|done]).
Qed.

Lemma submit_layer_dump_overlap nm lid local dids ptrs s s2 :
  save_only s s2 ->
  (forall k e u, (k < length names)%nat -> e ∈ layer_batch md5 pickle_dumps c l r md k ->
     u ∈ lr_ids e.2 -> u ∉ dids) ->
  overlaps s (submit_layer_dump c nm lid local dids ptrs s2).2.
Proof.
  intros Hso Hdis. unfold submit_layer_dump, catch_runtime, catch, bind at 1, lift_res.
  destruct (py_idx ptrs local) as [rows|ex];
    [|by destruct (is_runtime_error ex); apply save_only_overlaps].
  unfold bind at 1, super at 1, zoom.
  destruct (get_dump_event_handle_quiet c (base s2)) as (rh & w1 & Hh & _ & Hq1). rewrite Hh.
  assert (Hquiet : forall w', quiet (world (base s2)) w' ->
            overlaps s (set_base (fun _ => set_world w' (base s2)) s2)).
  { intros w' Hq. eapply (save_only_overlap s s2 _ []); try done; [apply Hq| | |set_solver].
    - intros. simpl. by rewrite (proj2 Hq).
    - intros u sh. simpl. rewrite (quiet_writing _ _ u sh Hq). auto. }
  destruct rh as [h|ex]; [|by destruct (is_runtime_error ex); apply Hquiet].
  unfold bind, lcall, super, call, zoom. simpl.
  destruct (dump_data dids (py_repeat lid (pylen dids)) rows h w1) as [[t|ex] w2] eqn:Hd; simpl.
  - destruct (dump_data_ok _ _ _ _ _ _ _ Hd) as [[_ Hfl] Hfr].
    eapply (save_only_overlap s s2 _ ((., lid) <$> dids)); try done; simpl.
    + eapply frame_trans; [apply Hq1|exact Hfr|..].
      * intros a. rewrite (quiet_busy _ _ a Hq1). auto.
      * intros u sh. rewrite (quiet_writing _ _ u sh Hq1). auto.
    + intros t' bids shards addrs. rewrite Hfl, (proj2 Hq1). naive_solver.
    + intros u sh (t' & bids & shs & addrs & data & i & Hx & Hi & Hsh). apply Hfl in Hx as [[_ Hx]|Hx].
      * injection Hx as -> -> -> ->. right. apply list_elem_of_fmap. exists u.
        apply lookup_replicate in Hsh as [-> _]. split; [done|]. by eapply list_elem_of_lookup_2.
      * left. exists t', bids, shs, addrs, data, i. by rewrite <- (proj2 Hq1).
    + intros k e u Hk He Hu Hin. apply list_elem_of_fmap in Hin as (u' & [= <- _] & Hin).
      by eapply Hdis.
  - destruct (dump_data_err _ _ _ _ _ _ _ Hd) as [-> Hq2]. simpl.
    apply Hquiet. by eapply quiet_trans.
Qed.

Lemma save_kv_layer_overlap nm s m :
  connector_metadata (base s) = Some m -> NoDup (od_keys m) ->
  (forall local k e u, (k < length names)%nat -> e ∈ layer_batch md5 pickle_dumps c l r md k ->
     u ∈ lr_ids e.2 -> u ∉ dump_keys local m) ->
  overlaps s (layer_save_kv_layer md5 pickle_dumps c nm s).2.
Proof.
  intros Hm Hn Hdis. pose proof (save_only_overlaps s s (save_only_refl s)) as Hrefl.
  unfold layer_save_kv_layer, bind at 1, gets. rewrite Hm.
  destruct (is_mla c && _); [done|]. unfold bind at 1 2, lift_res.
  destruct (of_option KeyError (od_get nm (layer_name_to_id_ s))) as [lid|]; [|done].
  unfold bind at 1. set (local := lid - first_layer_id (reg s)).
  destruct (collect_layer_dump_loop local m ([], []) s m Hm Hn) as (acc & s1 & Hs1 & Hso & Hacc).
  { intros id d Hin. by rewrite (od_elem_get _ _ _ Hn Hin). }
  rewrite (bind_ok _ _ _ _ _ Hs1). unfold bind at 1.
  destruct (is_save s1); cbn [negb]; [|by apply save_only_overlaps].
  unfold bind at 1. pose proof (cached_dump_ptrs_save_only acc.2 s1) as Hso2.
  destruct (cached_dump_ptrs acc.2 s1) as [[ptrs|ex] s2]; cbn [snd] in Hso2.
  - apply submit_layer_dump_overlap; [by eapply save_only_trans|].
    intros k e u Hk He Hu Hin. destruct (Hacc _ Hin) as [Hx|Hx]; [set_solver|]. by eapply (Hdis local).
  - by eapply save_only_overlaps, save_only_trans.
Qed.
End layer_save.

(** ** Properties *)

(** C8. Layer-by-layer loading is one layer ahead and loses nothing.  In a step
    that starts with no load in flight, the start and every layer's wait succeed
    whatever the store's submissions and waits do, and when the wait for layer
    row [k] returns, every request with something to load either has all its
    blocks reported invalid or holds, in every layer up to [k], what the store
    held when the step started, also when dumps of finished layers run in
    between. *)
Theorem layerwise_load_complete {W D} `{StoreLaws W D} md5 pickle_dumps c l r names ids md
    (w0 : W) (s0 : LayerState W) :
  layers_ok md5 pickle_dumps c l r names ids md w0 -> step_start l r ids md w0 s0 ->
  (exists s, layer_start_load_kv md5 pickle_dumps c s0 = (Ok tt, s)) /\
  forall k s, layer_run md5 pickle_dumps c l r names md s0 k s ->
    (forall nm, names !! k = Some nm -> exists s', layer_wait_for_layer_load nm s = (Ok tt, s')) /\
    (forall j id d, (j < k)%nat -> (id, d) ∈ to_load md ->
       lreported s d \/ layer_loaded md5 pickle_dumps c l r w0 (world (base s)) j d).
Proof.
  intros Hok Hs0. split.
  { destruct (start_inv md5 pickle_dumps c l r names ids md w0 Hok s0 Hs0) as (s & Hs & _). by exists s. }
  intros k s Hrun. pose proof (layer_run_inv _ _ _ _ _ _ _ _ _ Hok s0 k s Hs0 Hrun) as Hi. split.
  - intros nm Hnm. destruct (wait_inv_step _ _ _ _ _ _ _ _ _ Hok k nm s Hi Hnm) as (s' & Hs' & _).
    by exists s'.
  - intros j id d Hj He. destruct (li_loaded _ _ _ _ _ _ _ _ _ _ _ Hi j (id, d) Hj He) as [Hf|Hld]; [left|by right].
    eapply (st_fail _ _ _ _ _ _ _ _ (li_static _ _ _ _ _ _ _ _ _ _ _ Hi)); [|exact Hf].
    by apply (elem_of_to_load md) in He as [? _].
Qed.

(** Dumping a finished layer does not disturb the loads.  Whatever
    [save_kv_layer] does, its bookkeeping, the device's event and the store's
    answer included, it is an admissible step between two layer waits of
    [layerwise_load_complete], as long as no block is dumped and loaded in the
    same step. *)
Theorem save_kv_layer_overlaps {W D} `{DeviceLaws W D} `{!StoreLaws W D} md5 pickle_dumps c l r names md m
    nm (s : LayerState W) :
  connector_metadata (base s) = Some m -> NoDup (od_keys m) ->
  (forall local k e u, (k < length names)%nat -> e ∈ layer_batch md5 pickle_dumps c l r md k ->
     u ∈ lr_ids e.2 -> u ∉ dump_keys md5 pickle_dumps c local m) ->
  overlap md5 pickle_dumps c l r names md s (layer_save_kv_layer md5 pickle_dumps c nm s).2.
Proof. apply save_kv_layer_overlap. Qed.

(** ** Concrete inputs *)
Module LayerDemo.
Import ConnDemo.

Definition layout : KVCacheLayout := {| base_ptrs := [[1000]; [2000]]; tensor_size_lists := [[16]; [16]];
  l_use_layerwise := true; l_pp_size := 1; l_num_hidden_layers := 2; local_num_hidden_layers := 2;
  layer_name_to_id := [("L0"%string, 0); ("L1"%string, 1)]; l_first_layer_id := 0 |}.
Definition names : list string := ["L0"%string; "L1"%string].
Definition ids : list (string * Z) := layer_name_to_id layout.
Definition store_cfg : StoreConfig := {| s_name := "UcmPipelineStore"; s_module_path := None;
  s_share_buffer_enable := false; s_storage_backends := None; s_unique_id := "e";
  s_device_id := Some 0; s_tensor_size_list := Some [16]; s_shard_size := Some 16; s_block_size := 32;
  s_local_rank_size := Some 1; s_cpu_affinity_cores := None; s_posix_gc_enable := false |}.
Definition registration : Registration := {|
  reg_store := store_cfg; layer_ids := [0; 1]; first_layer_id := 0 |}.
Definition cfg : ConnConfig := layerwise_config (conn WORKER).
Definition req : RequestDispatchMeta :=
  {| load_block_ids := (["a"; "b"]%string, [7; 5]); dump_block_ids := (["z"%string], [9]) |}.
Definition md : UCMConnectorMetadata := [("q"%string, req)].
Definition w0 : MemStore.world Z :=
  MemStore.idle (list_to_map [(("a"%string, 0), [11]); (("a"%string, 1), [12]);
                              (("b"%string, 0), [21]); (("b"%string, 1), [22])]) (fun _ => 0).
Definition s0 : LayerState (MemStore.world Z) :=
  new_LayerState (ConnSt ∅ ∅ (Some md) (Some layout) [] w0) names registration ids.

Lemma ok : layers_ok Demo.md5 Demo.pickle_short cfg layout registration names ids md w0.
Proof.
  split.
  - intros [|[|k]] nm; simpl; intros; simplify_eq; reflexivity.
  - intros z. simpl. rewrite !elem_of_cons. split; [|lia].
    intros [->|[->|?%elem_of_nil]]; [lia..|done].
  - intros [|[|k]] vids Hk; simpl in *; [by eexists..|lia].
  - simpl. lia.
  - repeat constructor. set_solver.
  - vm_compute. repeat constructor; set_solver by lia.
  - intros t ? ? ?. simpl. by rewrite lookup_empty.
  - intros k e u _ _ _. by apply idle_not_writing.
Qed.

Definition s1 := (layer_start_load_kv Demo.md5 Demo.pickle_short cfg s0).2.
Definition s2 := (layer_wait_for_layer_load "L0" s1).2.

Lemma start_ok : layer_start_load_kv Demo.md5 Demo.pickle_short cfg s0 = (Ok tt, s1).
Proof.
  exact (run_ok (layer_start_load_kv Demo.md5 Demo.pickle_short cfg) s0 tt ltac:(vm_compute; reflexivity)).
Qed.
Lemma wait_ok : layer_wait_for_layer_load "L0" s1 = (Ok tt, s2).
Proof. exact (run_ok (layer_wait_for_layer_load "L0") s1 tt ltac:(vm_compute; reflexivity)). Qed.
End LayerDemo.

Lemma layerwise_load_complete_witness :
  lreported LayerDemo.s2 LayerDemo.req \/
  devmem (world (base LayerDemo.s2)) <$> [1112] = [11].
Proof.
  destruct (layerwise_load_complete Demo.md5 Demo.pickle_short LayerDemo.cfg LayerDemo.layout
    LayerDemo.registration LayerDemo.names LayerDemo.ids LayerDemo.md LayerDemo.w0 LayerDemo.s0
    LayerDemo.ok) as [_ Hrun]; [repeat split|].
  destruct (Hrun 1%nat LayerDemo.s2) as [_ Hl].
  - eapply run_wait; [apply run_start; exact LayerDemo.start_ok|reflexivity|exact LayerDemo.wait_ok].
  - destruct (Hl 0%nat "q"%string LayerDemo.req) as [Hr|Hld]; [lia| |left; exact Hr|right].
    + apply elem_of_to_load. split; [left|]. vm_compute. congruence.
    + exact (Hld 0%nat "a"%string [1112] [11] ltac:(vm_compute; reflexivity)
        ltac:(vm_compute; reflexivity) ltac:(vm_compute; reflexivity) eq_refl).
Defined.

Lemma save_kv_layer_overlaps_witness :
  overlap Demo.md5 Demo.pickle_short LayerDemo.cfg LayerDemo.layout LayerDemo.registration
    LayerDemo.names LayerDemo.md LayerDemo.s2
    (layer_save_kv_layer Demo.md5 Demo.pickle_short LayerDemo.cfg "L0" LayerDemo.s2).2.
Proof.
  apply (save_kv_layer_overlaps Demo.md5 Demo.pickle_short LayerDemo.cfg LayerDemo.layout
    LayerDemo.registration LayerDemo.names LayerDemo.md LayerDemo.md).
  - reflexivity.
  - repeat constructor. set_solver.
  - intros local k e u _ He Hu Hin. vm_compute in He. apply list_elem_of_singleton in He as ->.
    vm_compute in Hu, Hin. set_solver.
Defined.
