(* ===== verification/Variants.v ===== *)
(** * The other connectors and their selection
    (ucm/integration/vllm/ucm_connector.py: [UCMCPConnector], [UCMPDConnector],
    [UCMMockConnector], [UCMLiteConnector], [UCMConnector])

    Context parallelism strides the hash ids over the ranks; the mock connector
    caps the hit at a configured ratio; the lite connector only measures hits;
    [UCMConnector] picks one connector and delegates to it. *)

From S2P Require Import Prelude.
From S2P Require Import PyStr.
From S2P Require Import StoreApi.
From S2P Require Import LoadBatch.
From S2P Require Import Hasher.
From S2P Require Import Layout.
From S2P Require Import Connector.
From S2P Require Import ConnectorWorker.
From S2P Require Import LayerWise.
From Stdlib Require SpecFloat.
Local Open Scope Z_scope.
Local Open Scope py_scope.

(** ** Context parallelism *)

(** vLLM's context-parallel groups, as far as the connector reads them. *)
Record CPGroups := {
  g_pcp_world_size : Z; g_pcp_rank : Z; g_dcp_world_size : Z; g_dcp_rank : Z;
}.

Record CPConfig := {
  cp_conn : ConnConfig;
  pcp_world_size : Z;
  pcp_rank : Z;
  dcp_world_size : Z;
  dcp_rank : Z;
  current_rank : Z;
}.

(** [UCMCPConnector.__init__]; [groups] is [None] when the import fails, and
    [Some None] when the groups are not initialised ([AssertionError]). *)
Definition new_UCMCPConnector (v : VllmConfig) (g : LaunchConfig) (role : KVConnectorRole)
    (p : platform) (world_local_rank : Z) (groups : option (option CPGroups)) : res CPConfig :=
  let? c := new_UCMLayerWiseConnector v g role p world_local_rank in
  match groups with
  | None => Err ImportError
  | Some gs =>
      let '(pw, pr, dw, dr) :=
        match gs with
        | Some gs => (g_pcp_world_size gs, (if 1 <? g_pcp_world_size gs then g_pcp_rank gs else 0),
                      g_dcp_world_size gs, g_dcp_rank gs)
        | None => (1, 0, 1, 0)
        end in
      let? pcp := of_option AttributeError (v_pcp_size v) in
      let? dcp := of_option AttributeError (v_dcp_size v) in
      let rank := (tp_rank c mod tp_size c) / dw in
      let hash_tp := if negb (is_mla c) then v_tp_size v / dw else v_tp_size v in
      let hasher_rank := match role with SCHEDULER => 0 | WORKER => rank end in
      Ok {| cp_conn :=
              {| c_vllm := c_vllm c; c_role := c_role c; c_launch := c_launch c;
                 use_layerwise := default false (g_use_layerwise g);
                 local_rank := local_rank c; tp_rank := rank; tp_size := tp_size c;
                 is_mla := is_mla c; block_size := block_size c * (pcp * dcp);
                 hash_block_size := hash_block_size c; cp_world_size := pcp * dcp;
                 blocks_per_chunk := blocks_per_chunk c;
                 request_hasher := new_RequestHasher (v_model v) hash_tp (v_dtype v) hasher_rank;
                 enable_event_sync := enable_event_sync c; metrics_config := metrics_config c;
                 persist_token_threshold := persist_token_threshold c |};
            pcp_world_size := pw; pcp_rank := pr; dcp_world_size := dw; dcp_rank := dr;
            current_rank := dw * pr + dr |}
  end.

(** The rewriting of one request's dispatch on binding. *)
Definition cp_dispatch (c : CPConfig) (d : RequestDispatchMeta) : RequestDispatchMeta :=
  let stride ids := if 0 <? pylen ids then slice_step ids (current_rank c) (cp_world_size (cp_conn c)) else ids in
  {| load_block_ids := (stride (load_block_ids d).1, (load_block_ids d).2);
     dump_block_ids := (stride (dump_block_ids d).1, (dump_block_ids d).2) |}.

(** vLLM's [bind_connector_metadata] and [clear_connector_metadata] *)
Definition bind_connector_metadata {W} (md : UCMConnectorMetadata) : M (ConnState W) unit :=
  modify (set_connector_metadata (Some md)).
Definition clear_connector_metadata {W} : M (ConnState W) unit :=
  modify (set_connector_metadata None).

Definition cp_bind_connector_metadata {W} (c : CPConfig) (md : UCMConnectorMetadata)
  : M (ConnState W) unit :=
  bind_connector_metadata ((fun e => (e.1, cp_dispatch c e.2)) <$> md).

Section cp.
Context {W : Type} `{Store W} `{Device W}.
Context (md5 : bytes -> bytes) (pickle_dumps : hash_input -> bytes).

Definition cp_start_load_kv (c : CPConfig) : M (LayerState W) unit :=
  if use_layerwise (cp_conn c) then layer_start_load_kv md5 pickle_dumps (cp_conn c)
  else super (start_load_kv md5 pickle_dumps (cp_conn c)).
Definition cp_wait_for_layer_load (c : CPConfig) (layer_name : string) : M (LayerState W) unit :=
  if use_layerwise (cp_conn c) then layer_wait_for_layer_load layer_name else ret tt.
Definition cp_save_kv_layer (c : CPConfig) (layer_name : string) : M (LayerState W) unit :=
  if use_layerwise (cp_conn c) then layer_save_kv_layer md5 pickle_dumps (cp_conn c) layer_name
  else ret tt.
Definition cp_wait_for_save (c : CPConfig) : M (LayerState W) unit :=
  if use_layerwise (cp_conn c) then layer_wait_for_save (cp_conn c)
  else super (wait_for_save md5 pickle_dumps (cp_conn c)).
End cp.

(** ** The connector for disaggregated decoding is a stub *)

Definition pd_get_num_new_matched_tokens {S} (request : Request) (n : Z) : M S (Z * bool) :=
  raise NotImplementedError.
Definition pd_get_finished {S} (finished_req_ids : list string) : M S unit := raise NotImplementedError.

(** ** The mock connector *)

Section mock.
Context {W : Type} `{Store W}.
Context (md5 : bytes -> bytes) (pickle_dumps : hash_input -> bytes).

Definition mock_get_num_new_matched_tokens (c : ConnConfig) (hit_ratio : float)
    (request : Request) (num_computed_tokens : Z) : M (ConnState W) (Z * bool) :=
  let! r := get_num_new_matched_tokens md5 pickle_dumps c request num_computed_tokens in
  let hit_tokens := r.1 in
  let! expect_hit_tokens :=
    lift_res (int_of_float (float_mul hit_ratio (float_of_Z (num_prompt_tokens request)))) in
  if hit_tokens <=? expect_hit_tokens then ret (hit_tokens, false)
  else
    let expect_hit_block_num := expect_hit_tokens / block_size c in
    let! metas := gets requests_meta in
    match metas !! request_id request with
    | None => raise KeyError
    | Some m =>
        do! modify (set_requests_meta (insert (request_id request)
              {| ucm_block_ids := ucm_block_ids m;
                 hbm_hit_block_num := Z.min expect_hit_block_num (hbm_hit_block_num m);
                 total_hit_block_num := expect_hit_block_num;
                 num_token_ids := num_token_ids m; vllm_block_ids := vllm_block_ids m;
                 token_processed := token_processed m |})) in
        ret (expect_hit_block_num * block_size c, false)
    end.
End mock.

(** ** The lite connector *)

Definition lite_launch_config (g : LaunchConfig) : LaunchConfig :=
  {| ucm_connectors := [{| ucm_connector_name := "UcmPipelineStore"; ucm_connector_module_path := None;
                           e_storage_backends := None; e_share_buffer_enable := Some true |}];
     g_enable_event_sync := None; g_metrics_config_path := None;
     g_persist_token_threshold := Some (default 0 (g_persist_token_threshold g));
     g_use_layerwise := None; g_use_lite := Some true; g_hit_ratio := None |}.

Definition new_UCMLiteConnector (v : VllmConfig) (g : LaunchConfig) (role : KVConnectorRole)
    (p : platform) (world_local_rank : Z) : res ConnConfig :=
  new_UCMDirectConnector v (lite_launch_config g) role p world_local_rank.

(** All the state a connector can have: that of the layer-wise connector and the
    lite connector's counters. *)
Record AnyState (W : Type) `{Store W} := AnySt {
  layer : LayerState W;
  total_block_nums : Z;
  total_hit_block_nums : Z;
}.
Arguments AnySt {W H} _ _ _.
Arguments layer {W H} _.
Arguments total_block_nums {W H} _.
Arguments total_hit_block_nums {W H} _.

Section any.
Context {W : Type} `{Store W} `{Device W}.
Context (md5 : bytes -> bytes) (pickle_dumps : hash_input -> bytes).

Definition on_layer {A} (m : M (LayerState W) A) : M (AnyState W) A :=
  zoom layer (fun l s => AnySt l (total_block_nums s) (total_hit_block_nums s)) m.
Definition on_base {A} (m : M (ConnState W) A) : M (AnyState W) A := on_layer (super m).

Definition add_blocks (n : Z) (s : AnyState W) : AnyState W :=
  AnySt (layer s) (total_block_nums s + n) (total_hit_block_nums s).
Definition add_hits (n : Z) (s : AnyState W) : AnyState W :=
  AnySt (layer s) (total_block_nums s) (total_hit_block_nums s + n).

(** The lookup result is dropped; the blocks that were not hit are recorded in
    the store by a dump of null pointers. *)
Definition lite_record (c : ConnConfig) (request : Request) (m : RequestMeta) : M (ConnState W) unit :=
  let need_dump_blks := slice_from (ucm_block_ids m) (total_hit_block_num m) in
  let shard_indexs := py_repeat 0 (pylen need_dump_blks) in
  let total_ptrs := py_repeat [0] (pylen need_dump_blks) in
  do! catch_runtime
        (let! t := call (dump_data need_dump_blks shard_indexs total_ptrs 0) in call (wait t))
        (ret tt) in
  modify (set_requests_meta (insert (request_id request) empty_RequestMeta)).

Definition lite_get_num_new_matched_tokens (c : ConnConfig) (request : Request)
    (num_computed_tokens : Z) : M (AnyState W) (Z * bool) :=
  do! on_base (get_num_new_matched_tokens md5 pickle_dumps c request num_computed_tokens) in
  let req_blocks_num := pylen (all_token_ids request) / hash_block_size c in
  if req_blocks_num <? 1 then ret (0, false)
  else
    do! modify (add_blocks req_blocks_num) in
    let! metas := gets (fun s => requests_meta (base (layer s))) in
    let! external_hit_blocks :=
      match metas !! request_id request with
      | None => ret 0
      | Some m =>
          do! on_base (lite_record c request m) in
          ret (total_hit_block_num m - hbm_hit_block_num m)
      end in
    do! modify (add_hits external_hit_blocks) in
    ret (0, false).

(** ** Selection and delegation *)

Inductive connector : Type :=
  | CLite (c : ConnConfig)
  | CMock (c : ConnConfig) (hit_ratio : float)
  | CContextParallel (c : CPConfig)
  | CLayerWise (c : ConnConfig)
  | CDirect (c : ConnConfig).

(** [UCMConnector.__init__] *)
Definition new_UCMConnector (v : VllmConfig) (g : LaunchConfig) (role : KVConnectorRole)
    (p : platform) (world_local_rank : Z) (groups : option (option CPGroups)) : res connector :=
  let use_layerwise := default false (g_use_layerwise g) in
  let pp_enabled := 1 <? v_pp_size v in
  if pp_enabled && negb use_layerwise then Err RuntimeError
  else
    let use_lite := default false (g_use_lite g) in
    let use_cp_parallel := match v_pcp_size v, v_dcp_size v with
                           | Some pcp, Some dcp => 1 <? pcp * dcp
                           | _, _ => false
                           end in
    if use_lite then res_map CLite (new_UCMLiteConnector v g role p world_local_rank)
    else match g_hit_ratio g with
    | Some ratio => res_map (fun c => CMock c ratio) (new_UCMDirectConnector v g role p world_local_rank)
    | None =>
        if use_cp_parallel
        then res_map CContextParallel (new_UCMCPConnector v g role p world_local_rank groups)
        else if use_layerwise
        then res_map CLayerWise (new_UCMLayerWiseConnector v g role p world_local_rank)
        else res_map CDirect (new_UCMDirectConnector v g role p world_local_rank)
    end.

Definition connector_config (k : connector) : ConnConfig :=
  match k with
  | CLite c | CMock c _ | CLayerWise c | CDirect c => c
  | CContextParallel c => cp_conn c
  end.

Definition ucm_get_num_new_matched_tokens (k : connector) (request : Request) (n : Z)
  : M (AnyState W) (Z * bool) :=
  match k with
  | CLite c => lite_get_num_new_matched_tokens c request n
  | CMock c ratio => on_base (mock_get_num_new_matched_tokens md5 pickle_dumps c ratio request n)
  | _ => on_base (get_num_new_matched_tokens md5 pickle_dumps (connector_config k) request n)
  end.
Definition ucm_update_state_after_alloc (k : connector) (request : Request) (n : Z)
  : M (AnyState W) unit := ret tt.
Definition ucm_build_connector_meta (k : connector) (o : SchedulerOutput)
  : M (AnyState W) UCMConnectorMetadata :=
  on_base (build_connector_meta (connector_config k) o).
Definition ucm_bind_connector_metadata (k : connector) (md : UCMConnectorMetadata)
  : M (AnyState W) unit :=
  match k with
  | CContextParallel c => on_base (cp_bind_connector_metadata c md)
  | _ => on_base (bind_connector_metadata md)
  end.
Definition ucm_has_connector_metadata : M (AnyState W) bool :=
  gets (fun s => match connector_metadata (base (layer s)) with Some _ => true | None => false end).
Definition ucm_start_load_kv (k : connector) : M (AnyState W) unit :=
  match k with
  | CContextParallel c => on_layer (cp_start_load_kv md5 pickle_dumps c)
  | CLayerWise c => on_layer (layer_start_load_kv md5 pickle_dumps c)
  | _ => on_base (start_load_kv md5 pickle_dumps (connector_config k))
  end.
Definition ucm_wait_for_layer_load (k : connector) (layer_name : string) : M (AnyState W) unit :=
  match k with
  | CContextParallel c => on_layer (cp_wait_for_layer_load c layer_name)
  | CLayerWise c => on_layer (layer_wait_for_layer_load layer_name)
  | _ => on_base (direct_wait_for_layer_load layer_name)
  end.
Definition ucm_save_kv_layer (k : connector) (layer_name : string) : M (AnyState W) unit :=
  match k with
  | CContextParallel c => on_layer (cp_save_kv_layer md5 pickle_dumps c layer_name)
  | CLayerWise c => on_layer (layer_save_kv_layer md5 pickle_dumps c layer_name)
  | _ => on_base (direct_save_kv_layer layer_name)
  end.
Definition ucm_wait_for_save (k : connector) : M (AnyState W) unit :=
  match k with
  | CContextParallel c => on_layer (cp_wait_for_save md5 pickle_dumps c)
  | CLayerWise c => on_layer (layer_wait_for_save c)
  | _ => on_base (wait_for_save md5 pickle_dumps (connector_config k))
  end.
Definition ucm_clear_connector_metadata : M (AnyState W) unit := on_base clear_connector_metadata.
Definition ucm_get_block_ids_with_load_errors : M (AnyState W) (gset Z) :=
  on_base get_block_ids_with_load_errors.
End any.

(** ** Facts *)

Lemma cp_stride_lookup ids r w i :
  0 <= r -> 0 < w -> (if 0 <? pylen ids then slice_step ids r w else ids) !! i =
    (ids : list bytes) !! (Z.to_nat r + Z.to_nat w * i)%nat.
Proof.
  intros Hr Hw. destruct (Z.ltb_spec 0 (pylen ids)); [by apply lookup_slice_step|].
  assert (ids = []) as -> by (apply pylen_zero; pose proof (pylen_nonneg ids); lia).
  by rewrite !lookup_nil.
Qed.

Lemma cp_stride_length ids r w n :
  0 <= r < w -> pylen ids = n * w -> pylen (if 0 <? pylen ids then slice_step ids r w else (ids : list bytes)) = n.
Proof.
  intros Hr Hl. destruct (Z.ltb_spec 0 (pylen ids)) as [Hp|Hp].
  - unfold slice_step, pylen in *.
    rewrite (length_every_nth _ _ ids (Z.to_nat n)); [|lia|]; [nia|].
    apply Nat2Z.inj. rewrite Nat2Z.inj_mul, !Z2Nat.id by nia. lia.
  - pose proof (pylen_nonneg ids). nia.
Qed.

(** ** Properties *)

(** The context-parallel ranks share out a load (and a dump) without overlap.
    The ranks that the connector computes from the group ranks are exactly the
    numbers below the world size, one per pair of group ranks; each rank gets as
    many hash ids as there are device blocks, its id number [i] being the id at
    position [rank + world * i], so device block [i] of the request is filled
    with the ids [world * i, ..., world * i + world - 1], one per rank, and
    every id is handled by exactly one rank. *)
Theorem cp_ranks_partition v g role p lr gs c d :
  new_UCMCPConnector v g role p lr (Some (Some gs)) = Ok c ->
  v_pcp_size v = Some (g_pcp_world_size gs) -> v_dcp_size v = Some (g_dcp_world_size gs) ->
  0 <= g_pcp_rank gs < g_pcp_world_size gs -> 0 <= g_dcp_rank gs < g_dcp_world_size gs ->
  pylen (load_block_ids d).1 = pylen (load_block_ids d).2 * cp_world_size (cp_conn c) ->
  let r := current_rank c in
  let w := cp_world_size (cp_conn c) in
  0 <= r < w /\
  (forall r', 0 <= r' < w -> exists pr dr, 0 <= pr < g_pcp_world_size gs /\ 0 <= dr < g_dcp_world_size gs /\
     r' = g_dcp_world_size gs * pr + dr) /\
  pylen (load_block_ids (cp_dispatch c d)).1 = pylen (load_block_ids d).2 /\
  (load_block_ids (cp_dispatch c d)).2 = (load_block_ids d).2 /\
  (forall i u, (load_block_ids (cp_dispatch c d)).1 !! i = Some u <->
     (load_block_ids d).1 !! (Z.to_nat r + Z.to_nat w * i)%nat = Some u) /\
  (forall j u, (load_block_ids d).1 !! j = Some u -> Z.of_nat j mod w = r ->
     (load_block_ids (cp_dispatch c d)).1 !! Z.to_nat (Z.of_nat j / w) = Some u).
Proof.
  intros Hc Hpv Hdv Hpr Hdr Hlen r w.
  assert (Hrw : r = g_dcp_world_size gs * g_pcp_rank gs + g_dcp_rank gs /\
                w = g_pcp_world_size gs * g_dcp_world_size gs).
  { subst r w. unfold new_UCMCPConnector in Hc.
    destruct (new_UCMLayerWiseConnector v g role p lr); [|done].
    rewrite Hpv, Hdv in Hc. simpl in Hc. injection Hc as <-. simpl. split; [|done].
    destruct (Z.ltb_spec 1 (g_pcp_world_size gs)); [done|].
    by replace (g_pcp_rank gs) with 0 by lia. }
  destruct Hrw as [Hr Hw]. assert (Hin : 0 <= r < w) by (clear -Hr Hw Hpr Hdr; nia).
  assert (Hstr : (load_block_ids (cp_dispatch c d)).1 =
    if 0 <? pylen (load_block_ids d).1
    then slice_step (load_block_ids d).1 (current_rank c) w else (load_block_ids d).1) by done.
  fold w in Hlen. fold r in Hstr. rewrite Hstr. clearbody r.
  split; [done|]. split.
  { intros r' Hr'. exists (r' / g_dcp_world_size gs), (r' mod g_dcp_world_size gs). nia. }
  split; [by apply cp_stride_length|]. split; [done|]. split.
  - intros i u. by rewrite cp_stride_lookup by lia.
  - intros j u Hj Hm. rewrite cp_stride_lookup by lia. rewrite <- Hj. f_equal.
    assert (Hq : 0 <= Z.of_nat j / w) by (apply Z.div_pos; lia).
    pose proof (Z.div_mod (Z.of_nat j) w ltac:(lia)) as Hdm. rewrite Hm in Hdm.
    set (q := Z.of_nat j / w) in *. clearbody q. clear Hm.
    apply Nat2Z.inj. rewrite Nat2Z.inj_add, Nat2Z.inj_mul, !Z2Nat.id by lia. lia.
Qed.

Section variant_properties.
Context {W D : Type} `{StoreLaws W D}.
Context (md5 : bytes -> bytes) (pickle_dumps : hash_input -> bytes).

(** The mock connector caps the hit consistently.  For a request without
    blocks in device memory, and a configured ratio whose product with the prompt
    length is the expected number of tokens [e], the mock connector answers at
    most the real hit and, when it caps, at most [e] tokens; the request's meta
    then loads exactly the promised tokens. *)
Theorem mock_caps_the_hit c ratio r s e :
  sizes_ok c -> num_tokens r = pylen (all_token_ids r) -> 0 < num_tokens r ->
  int_of_float (float_mul ratio (float_of_Z (num_prompt_tokens r))) = Ok e -> 0 <= e ->
  exists t0 s0 t s',
    get_num_new_matched_tokens md5 pickle_dumps c r 0 s = (Ok (t0, false), s0) /\
    mock_get_num_new_matched_tokens md5 pickle_dumps c ratio r 0 s = (Ok (t, false), s') /\
    0 <= t <= t0 /\
    (t0 <= e -> t = t0 /\ s' = s0) /\
    (e < t0 -> t <= e /\ exists m, requests_meta s' !! request_id r = Some m /\
       hbm_hit_block_num m = 0 /\ t = total_hit_block_num m * block_size c /\
       forall new_tokens blocks,
         pylen (load_block_ids (generate_dispatch_meta c m new_tokens blocks true).2).1 * hash_block_size c = t).
Proof.
  intros Hs Hn Hpos He He0. pose proof Hs as [Hhb Hcp Hbs]. assert (0 < block_size c) as Hb by nia.
  destruct (get_matched_spec md5 pickle_dumps c r 0 s Hs ltac:(by rewrite Zmod_0_l) ltac:(lia))
    as (t0 & s0 & Hg & Hcase).
  pose proof (pylen_request_hashes md5 pickle_dumps c r Hs) as Hlen.
  unfold mock_get_num_new_matched_tokens. rewrite (bind_ok _ _ _ _ _ Hg).
  unfold bind at 1, lift_res. rewrite He. cbn [fst].
  assert (Ht0 : 0 <= t0).
  { destruct Hcase as [(-> & _)|(k & Hk & Htot & _ & -> & _)]; [done|].
    rewrite Zdiv_0_l in *. destruct (Z.eqb_spec ((0 + k) * block_size c) (num_tokens r)); nia. }
  destruct (Z.leb_spec t0 e) as [Hle|Hgt].
  - exists t0, s0, t0, s0. split; [done|]. split; [done|]. split; [lia|]. split; [done|lia].
  - destruct Hcase as [(-> & _)|(k & Hk & Htot & _ & Ht & Hm & _)]; [lia|].
    rewrite Zdiv_0_l in *. unfold bind, gets, modify, ret. rewrite Hm, lookup_insert_eq.
    assert (Hq : 0 <= e / block_size c) by (apply Z.div_pos; lia).
    assert (Hqe : e / block_size c * block_size c <= e) by nia.
    eexists t0, s0, _, _. split; [done|]. split; [reflexivity|].
    split; [nia|]. split; [lia|]. intros _. split; [done|].
    eexists. simpl. rewrite lookup_insert_eq. split; [reflexivity|]. simpl.
    split; [lia|]. split; [done|]. intros nt blocks. unfold generate_dispatch_meta. simpl.
    assert (e / block_size c <= k).
    { assert (t0 <= k * block_size c) by (destruct (Z.eqb_spec ((0 + k) * block_size c) (num_tokens r)); lia).
      nia. }
    assert (Hsl : pylen (slice (request_hashes md5 pickle_dumps c r)
      (Z.min (e / block_size c) 0 * cp_world_size c) (e / block_size c * cp_world_size c)) =
      e / block_size c * cp_world_size c).
    { rewrite pylen_slice by nia. replace (Z.min (e / block_size c) 0) with 0 by lia. nia. }
    destruct (_ <? _); simpl; rewrite Hsl; rewrite Hbs; ring.
Qed.
End variant_properties.

(** Pipeline parallelism never runs without layers.  With more than one
    pipeline stage the dispatcher refuses every configuration without
    [use_layerwise]; with it, and neither the lite connector nor a mock ratio
    configured, it picks a connector that works layer by layer. *)
Theorem pipeline_parallel_needs_layerwise v g role p lr groups :
  1 < v_pp_size v ->
  (default false (g_use_layerwise g) = false ->
     new_UCMConnector v g role p lr groups = Err RuntimeError) /\
  (forall k, new_UCMConnector v g role p lr groups = Ok k ->
     default false (g_use_lite g) = false -> g_hit_ratio g = None ->
     use_layerwise (connector_config k) = true /\
     match k with CLayerWise _ | CContextParallel _ => True | _ => False end).
Proof.
  intros Hpp. unfold new_UCMConnector. rewrite (proj2 (Z.ltb_lt _ _) Hpp). cbn [andb].
  split; [by intros ->|]. intros k Hk Hl Hr. rewrite Hl, Hr in Hk.
  destruct (default false (g_use_layerwise g)) eqn:Hlw; [|done]. cbn [negb] in Hk.
  destruct (match v_pcp_size v with Some _ => _ | None => _ end).
  - unfold new_UCMCPConnector in Hk. destruct (new_UCMLayerWiseConnector _ _ _ _ _); [|done].
    destruct groups as [gs|]; [|done]. destruct gs as [gs|], (v_pcp_size v), (v_dcp_size v); try done;
      simpl in Hk; injection Hk as <-; simpl; by rewrite Hlw.
  - unfold new_UCMLayerWiseConnector in Hk. destruct (new_UCMDirectConnector _ _ _ _ _); [|done].
    simpl in Hk. by injection Hk as <-.
Qed.

(** ** Concrete inputs *)
Module VariantDemo.
Import ConnDemo.

Definition cp_vllm : VllmConfig := {|
  v_model := "m"; v_dtype := "bf16"; v_engine_id := "e"; v_rank := 1; v_tp_size := 2;
  v_pp_size := 1; v_block_size := 2; v_is_mla := true; v_num_layers := 1;
  v_num_kv_heads := 1; v_head_size := 1; v_element_size := 2; v_num_hidden_layers := 1;
  v_pcp_size := Some 1; v_dcp_size := Some 2 |}.
Definition groups : CPGroups :=
  {| g_pcp_world_size := 1; g_pcp_rank := 0; g_dcp_world_size := 2; g_dcp_rank := 1 |}.
Definition cp : CPConfig :=
  match new_UCMCPConnector cp_vllm launch WORKER CudaAlike 1 (Some (Some groups)) with
  | Ok c => c
  | Err _ => {| cp_conn := conn WORKER; pcp_world_size := 1; pcp_rank := 0; dcp_world_size := 1;
                dcp_rank := 0; current_rank := 0 |}
  end.
Definition dispatch : RequestDispatchMeta :=
  {| load_block_ids := (["a"; "b"; "c"; "d"]%string, [7; 8]); dump_block_ids := ([], []) |}.
Definition half : float := SpecFloat.S754_finite false 4503599627370496 (-53).
Definition lw_launch : LaunchConfig := {| ucm_connectors := [entry]; g_enable_event_sync := None;
  g_metrics_config_path := None; g_persist_token_threshold := None; g_use_layerwise := Some true;
  g_use_lite := None; g_hit_ratio := None |}.
Definition pp_vllm : VllmConfig := {|
  v_model := "m"; v_dtype := "bf16"; v_engine_id := "e"; v_rank := 1; v_tp_size := 1;
  v_pp_size := 2; v_block_size := 2; v_is_mla := true; v_num_layers := 1;
  v_num_kv_heads := 1; v_head_size := 1; v_element_size := 2; v_num_hidden_layers := 2;
  v_pcp_size := None; v_dcp_size := None |}.
End VariantDemo.

Lemma cp_ranks_partition_witness :
  (load_block_ids (cp_dispatch VariantDemo.cp VariantDemo.dispatch)).1 = ["b"; "d"]%string /\
  pylen (load_block_ids (cp_dispatch VariantDemo.cp VariantDemo.dispatch)).1 = 2.
Proof.
  split; [reflexivity|].
  destruct (cp_ranks_partition VariantDemo.cp_vllm ConnDemo.launch WORKER CudaAlike 1 VariantDemo.groups
    VariantDemo.cp VariantDemo.dispatch) as (_ & _ & Hl & _);
    [reflexivity..|simpl; lia|simpl; lia|reflexivity|]. exact Hl.
Defined.

Lemma mock_caps_the_hit_witness :
  let r := ConnDemo.req [1; 2; 3; 4; 5; 6; 7; 8] in
  exists t0 t, (ConnDemo.lookup_state r 4 0).1 = Ok (t0, false) /\ t <= 4 /\ 4 < t0 /\
    (mock_get_num_new_matched_tokens Demo.md5 Demo.pickle_short (ConnDemo.conn SCHEDULER) VariantDemo.half r 0
       (initial_ConnState (ConnDemo.holding r 4))).1 = Ok (t, false).
Proof.
  intros r.
  destruct (mock_caps_the_hit Demo.md5 Demo.pickle_short (ConnDemo.conn SCHEDULER) VariantDemo.half r
    (initial_ConnState (ConnDemo.holding r 4)) 4 (ConnDemo.conn_sizes SCHEDULER))
    as (t0 & s0 & t & s' & H0 & H1 & _ & _ & H3); [reflexivity|reflexivity|reflexivity|lia|].
  exists t0, t. assert (t0 = 7) as -> by (apply (f_equal fst) in H0; vm_compute in H0; congruence).
  split; [unfold ConnDemo.lookup_state; rewrite H0; reflexivity|].
  split; [apply H3; lia|]. split; [lia|]. rewrite H1. reflexivity.
Defined.

Lemma pipeline_parallel_needs_layerwise_witness :
  exists k, new_UCMConnector VariantDemo.pp_vllm VariantDemo.lw_launch WORKER CudaAlike 0 None = Ok k /\
    use_layerwise (connector_config k) = true.
Proof.
  eexists. split; [reflexivity|].
  apply (pipeline_parallel_needs_layerwise VariantDemo.pp_vllm VariantDemo.lw_launch WORKER CudaAlike 0 None);
    [simpl; lia|reflexivity..].
Defined.

(** With blocks already in device memory the mock connector caps the total hit but
    answers it as if it were all external: it promises two tokens beyond the two
    that are computed, while its meta has nothing to load. *)
Example mock_promises_what_it_does_not_load :
  let r := ConnDemo.req [1; 2; 3; 4; 5; 6; 7; 8] in
  let quarter := SpecFloat.S754_finite false 4503599627370496 (-54) in
  let out := mock_get_num_new_matched_tokens Demo.md5 Demo.pickle_short
    (ConnDemo.conn SCHEDULER) quarter r 2 (initial_ConnState (ConnDemo.holding r 4)) in
  out.1 = Ok (2, false) /\
  (fun m => load_block_ids (generate_dispatch_meta (ConnDemo.conn SCHEDULER) m 4 [7; 8; 9; 10] true).2)
    <$> requests_meta out.2 !! "r"%string = Some ([], []).
Proof. split; vm_compute; reflexivity. Qed.
