(* ===== verification/Config.v ===== *)
(** * Configuration (ucm/utils.py: [Config])

    Where the connector's launch configuration comes from: vLLM's extra
    configuration, a YAML file it names, or a default.  [yaml.safe_load] on the
    named file is a parameter. *)

From S2P Require Import Prelude.
From S2P Require Import PyStr.
From Stdlib Require Import String.
Local Open Scope Z_scope.
#[local] Set Warnings "-register-all".

(** Values of a configuration dictionary *)
Inductive cfg_value : Type :=
  | CNone
  | CBool (b : bool)
  | CInt (z : Z)
  | CStr (s : string)
  | CList (l : list cfg_value)
  | CDict (d : list (string * cfg_value)).

Abbreviation cfg_dict := (list (string * cfg_value)).

(** [open] and [yaml.safe_load] of a file *)
Inductive yaml_result : Type :=
  | YamlValue (v : cfg_value)
  | YamlFileNotFound
  | YamlError.

(** Python's truth value *)
Definition truthy (v : cfg_value) : bool :=
  match v with
  | CNone => false
  | CBool b => b
  | CInt z => negb (z =? 0)
  | CStr s => negb (String.eqb s EmptyString)
  | CList l => match l with [] => false | _ => true end
  | CDict d => match d with [] => false | _ => true end
  end.

Section config.
Context (read_yaml : string -> yaml_result).

Definition load_ucm_config_from_yaml (file_path : cfg_value) : res cfg_dict :=
  if negb (truthy file_path) then Ok []
  else match file_path with
  | CStr path =>
      match read_yaml path with
      | YamlValue v =>
          let config := if truthy v then v else CDict [] in
          match config with CDict d => Ok d | _ => Ok [] end
      | YamlFileNotFound => Ok []
      | YamlError => Ok []
      end
  | _ => Err TypeError
  end.

Definition get_default_config : cfg_dict := [("ucm_connector_name"%string, CStr "UcmNfsStore")].

(** [_load_config]; [extra_config] is [None] when there is no transfer
    configuration or its extra configuration is missing or [None]. *)
Definition load_config (extra_config : option cfg_dict) : res cfg_dict :=
  match extra_config with
  | None => Ok get_default_config
  | Some extra =>
      match od_get "UCM_CONFIG_FILE"%string extra with
      | Some config_file => load_ucm_config_from_yaml config_file
      | None => match extra with [] => Ok get_default_config | _ => Ok extra end
      end
  end.

Definition get_config (extra_config : option cfg_dict) : res cfg_dict := load_config extra_config.
End config.

(** The configuration comes from exactly one place.  A named file wins over
    every inline setting, and a file that is missing, malformed or not a
    dictionary gives the empty configuration; inline settings
    are used as they are; and the default is used exactly when there are none. *)
Theorem config_source read_yaml extra :
  (forall path, od_get "UCM_CONFIG_FILE"%string (default [] extra) = Some (CStr path) ->
     get_config read_yaml extra = Ok
       match read_yaml path with
       | YamlValue (CDict d) => if String.eqb path EmptyString then [] else d
       | _ => []
       end) /\
  (od_get "UCM_CONFIG_FILE"%string (default [] extra) = None ->
     get_config read_yaml extra = Ok
       match extra with Some (kv :: rest) => kv :: rest | _ => get_default_config end).
Proof.
  unfold get_config, load_config. split.
  - intros path Hp. destruct extra as [extra|]; [|done]. simpl in Hp. rewrite Hp.
    unfold load_ucm_config_from_yaml. simpl.
    destruct (String.eqb_spec path EmptyString) as [->|Hne]; simpl.
    + by destruct (read_yaml EmptyString) as [[]| |].
    + destruct (read_yaml path) as [[|[]|z|t|[]|[]]| |]; try done; simpl.
      * by destruct (z =? 0).
      * by destruct (t =? "")%string.
  - intros Hp. destruct extra as [extra|]; [|done]. simpl in Hp. rewrite Hp. by destruct extra.
Qed.

Lemma config_source_witness :
  get_config (fun _ => YamlFileNotFound) (Some [("UCM_CONFIG_FILE"%string, CStr "/a.yaml")]) = Ok [] /\
  get_config (fun _ => YamlFileNotFound) None = Ok get_default_config.
Proof.
  split.
  - exact (proj1 (config_source (fun _ => YamlFileNotFound)
             (Some [("UCM_CONFIG_FILE"%string, CStr "/a.yaml")])) "/a.yaml"%string eq_refl).
  - exact (proj2 (config_source (fun _ => YamlFileNotFound) None) eq_refl).
Defined.
