(* ===== verification/Affinity.v ===== *)
(** * CPU affinity of a worker (ucm/integration/vllm/device.py)

    Which CPU cores a worker and its store use: the cores near the accelerator
    when the topology can be read, else an even slice of the allowed cores,
    printed as a cpulist ("0-43,88-131") and split between worker and store.
    The operating system and the platform tools are the record [Env]. *)

From S2P Require Import Prelude.
From S2P Require Import PyStr.
From Stdlib Require Import Ascii.
From stdpp Require Import strings sorting.
Local Open Scope Z_scope.
Local Open Scope py_scope.

(** ** Strings *)

Definition ascii_lower (a : ascii) : ascii :=
  let n := ascii_code a in if (65 <=? n) && (n <=? 90) then ascii_of_N (Z.to_N (n + 32)) else a.
Definition ascii_upper (a : ascii) : ascii :=
  let n := ascii_code a in if (97 <=? n) && (n <=? 122) then ascii_of_N (Z.to_N (n - 32)) else a.
Fixpoint str_map (f : ascii -> ascii) (s : string) : string :=
  match s with EmptyString => EmptyString | String a s' => String (f a) (str_map f s') end.
Definition lower := str_map ascii_lower.
Definition upper := str_map ascii_upper.

(** ["".join(s.split())] *)
Fixpoint squeeze (s : string) : string :=
  match s with
  | EmptyString => EmptyString
  | String a s' => if is_space a then squeeze s' else String a (squeeze s')
  end.

(** [p] removed from the front of [s], [None] when [s] does not start with it *)
Fixpoint drop_prefix (p s : string) : option string :=
  match p, s with
  | EmptyString, _ => Some s
  | String a p', String b s' => if Ascii.eqb a b then drop_prefix p' s' else None
  | _, EmptyString => None
  end.
Definition starts_with (p s : string) : bool := match drop_prefix p s with Some _ => true | None => false end.
Fixpoint contains (p s : string) : bool :=
  starts_with p s || match s with EmptyString => false | String _ s' => contains p s' end.

(** the longest run of digits at the front, and the rest *)
Fixpoint span_digits (s : string) : string * string :=
  match s with
  | String a s' => if is_digit a then let '(d, r) := span_digits s' in (String a d, r) else (EmptyString, s)
  | EmptyString => (EmptyString, EmptyString)
  end.
Definition is_digits (s : string) : bool := negb (String.eqb s EmptyString) && string_forall is_digit s.
Definition to_int (s : string) : res Z := of_option ValueError (py_int s).

(** lower-case hexadecimal, zero-padded to [w] digits *)
Definition hex_digit (d : Z) : ascii :=
  if d <? 10 then digit_char d else ascii_of_N (Z.to_N (87 + d)).
Fixpoint hex_of (fuel : nat) (n : Z) (acc : string) : string :=
  match fuel with
  | O => acc
  | S f => let acc' := String (hex_digit (n mod 16)) acc in if n <? 16 then acc' else hex_of f (n / 16) acc'
  end.
Fixpoint pad0 (k : nat) (s : string) : string := match k with O => s | S k' => String "0" (pad0 k' s) end.
Definition hex_pad (w : nat) (n : Z) : string :=
  let h := hex_of (S (Z.to_nat (Z.log2 n))) n EmptyString in pad0 (w - String.length h) h.

(** ** cpulists *)

(** One part of a cpulist: "a", or "a-b" in either order. *)
Definition parse_part (part : string) : res (list Z) :=
  match split_once dash part with
  | Some (x, y) =>
      let? a := to_int x in
      let? b := to_int y in
      Ok (zrange (Z.min a b) (Z.max a b + 1))
  | None => let? a := to_int part in Ok [a]
  end.

(** The segments of a cpulist, empty parts skipped. *)
Fixpoint parse_parts (parts : list string) : res (list (list Z)) :=
  match parts with
  | [] => Ok []
  | p :: rest =>
      let p' := strip p in
      if String.eqb p' EmptyString then parse_parts rest
      else
        let? seg := parse_part p' in
        let? segs := parse_parts rest in
        Ok (seg :: segs)
  end.

(** A maximal run of consecutive cores, printed. *)
Definition print_run (s e : Z) : string :=
  if s =? e then str_of_Z s else String.append (str_of_Z s) (String dash (str_of_Z e)).

(** The loop over the sorted cores, [s..e] being the current run. *)
Fixpoint cpulist_parts (s e : Z) (cores : list Z) : list string :=
  match cores with
  | [] => [print_run s e]
  | c :: rest =>
      if c =? e + 1 then cpulist_parts s c rest
      else print_run s e :: cpulist_parts c c rest
  end.

Definition print_sorted (cores : list Z) : option string :=
  match cores with
  | [] => None
  | c :: rest => Some (PyStr.join (String comma EmptyString) (cpulist_parts c c rest))
  end.

Definition sorted_set (l : list Z) : list Z := merge_sort Z.le (remove_dups l).

(** [_to_cpulist_str] *)
Definition to_cpulist_str (cores : list Z) : option string :=
  match cores with [] => None | _ => print_sorted (sorted_set cores) end.

(** [_merge_cpulist_parts] *)
Definition merge_cpulist_parts (parts : list string) : option string :=
  match filter (fun p => negb (String.eqb p EmptyString)) (strip <$> parts) with
  | [] => None
  | ps => Some (PyStr.join (String comma EmptyString) ps)
  end.

(** ** The environment *)

Record NpuDeviceInfo := {
  npu_id : Z;
  chip_id : Z;
  chip_logic_id : Z + string;
  chip_name : string;
  pcie_info : option string;
  numa_id : option Z;
}.

Record Env := {
  (** the environment variables that name the visible devices *)
  cuda_visible_devices : option string;
  ascend_rt_visible_devices : option string;
  ascend_visible_devices : option string;
  (** [os.sched_getaffinity(0)] *)
  allowed_cpus : res (gset Z);
  device_count : res Z;
  (** PCI domain, bus and device of a CUDA device *)
  cuda_pci : Z -> res (Z * Z * Z);
  (** [subprocess] output of a command, and the contents of a file that exists *)
  run_command : list string -> res string;
  read_file : string -> option (res string);
}.

Section affinity.
Context (env : Env).

(** ** The even slices of the allowed cores *)

Definition sorted_cpus (cpus : gset Z) : list Z := merge_sort Z.le (elements cpus).

Definition rank_slice (cores : list Z) (total_devices local_rank : Z) : list Z :=
  let base := pylen cores / total_devices in
  let extra := pylen cores mod total_devices in
  let start := local_rank * base + Z.min local_rank extra in
  let length := base + (if local_rank <? extra then 1 else 0) in
  slice cores start (start + length).

(** The slice of a rank as a cpulist, [None] when there is none; [print] prints it. *)
Definition slice_affinity (print : list Z -> option string) (total_devices local_rank : Z)
    (cores : list Z) : option string :=
  if (total_devices <=? 0) || (local_rank <? 0) || (total_devices <=? local_rank) then None
  else match rank_slice cores total_devices local_rank with
       | [] => None
       | sliced => print sliced
       end.

(** [except Exception: return None] *)
Definition or_none (r : res (option string)) : option string :=
  match r with Ok o => o | Err _ => None end.

(** ** CUDA *)

(** Whether the value of an environment variable counts: set and not empty. *)
Definition nonempty (o : option string) : option string :=
  match o with Some s => if String.eqb s EmptyString then None else Some s | None => None end.

(** The non-empty entries of a comma-separated list. *)
Definition comma_entries (s : string) : list string :=
  filter (fun x => negb (String.eqb x EmptyString)) (strip <$> split_on comma s).

(** The cpulist of the NUMA node of the GPU; [Ok None] when the code goes on to
    its fallback. *)
Definition cuda_numa_affinity (local_rank : Z) : res (option string) :=
  let? prop := cuda_pci env local_rank in
  let '(domain, bus, dev) := prop in
  let pci_bus_id := (hex_pad 4 domain ++ ":" ++ hex_pad 2 bus ++ ":" ++ hex_pad 2 dev ++ ".0")%string in
  match read_file env ("/sys/bus/pci/devices/" ++ pci_bus_id ++ "/numa_node")%string with
  | None => Ok None
  | Some r =>
      let? s := r in
      let? numa_node := to_int (strip s) in
      if numa_node <? 0 then Ok None
      else match read_file env ("/sys/devices/system/node/node" ++ str_of_Z numa_node ++ "/cpulist")%string with
           | None => Ok None
           | Some r => let? s := r in Ok (Some (strip s))
           end
  end.

Definition cuda_fallback (local_rank : Z) : res (option string) :=
  let? cpus := allowed_cpus env in
  let cores := sorted_cpus cpus in
  match cores with
  | [] => Ok None
  | _ =>
      let? total := match nonempty (cuda_visible_devices env) with
                    | Some v => Ok (pylen (comma_entries v))
                    | None => device_count env
                    end in
      Ok (slice_affinity print_sorted total local_rank cores)
  end.

Definition cuda_get_cpu_affinity (local_rank : Z) : option string :=
  match cuda_numa_affinity local_rank with
  | Ok (Some s) => Some s
  | _ => or_none (cuda_fallback local_rank)
  end.

(** ** NPU: devices *)

Definition get_visible_device_list_from_env : res (option (list Z)) :=
  let visible := match nonempty (ascend_rt_visible_devices env) with
                 | Some v => Some v
                 | None => nonempty (ascend_visible_devices env)
                 end in
  match visible with
  | None => Ok None
  | Some v => match mapM py_int (comma_entries v) with Some l => Ok (Some l) | None => Err ValueError end
  end.

Definition get_device_id (local_rank : Z) : res Z :=
  let? dev_list := get_visible_device_list_from_env in
  match dev_list with
  | None | Some [] => Ok local_rank
  | Some l => if local_rank <? pylen l then py_idx l local_rank else Ok local_rank
  end.

(** [line.strip().split(None, 3)]: three words and the rest of the line. *)
Fixpoint next_word (s : string) : string * string :=
  match s with
  | EmptyString => (EmptyString, EmptyString)
  | String a s' => if is_space a then (EmptyString, s) else let '(w, r) := next_word s' in (String a w, r)
  end.
Definition word (s : string) : string * string := let '(w, r) := next_word (lstrip s) in (w, lstrip r).

Definition from_info_line (line : string) : res NpuDeviceInfo :=
  let '(w1, r1) := word (strip line) in
  let '(w2, r2) := word r1 in
  let '(w3, r3) := word r2 in
  if String.eqb r3 EmptyString then Err ValueError
  else
    let? logic := (if is_digits w3 then let? z := to_int w3 in Ok (inl z) else Ok (inr w3)) in
    let? n := to_int w1 in
    let? c := to_int w2 in
    Ok {| npu_id := n; chip_id := c; chip_logic_id := logic; chip_name := r3;
          pcie_info := None; numa_id := None |}.

Abbreviation DeviceMap := (list (Z * NpuDeviceInfo)).

(** A line that does not parse, or whose logic id is not a number, is skipped. *)
Definition add_info_line (m : DeviceMap) (line : string) : DeviceMap :=
  if String.eqb (strip line) EmptyString then m
  else match from_info_line (strip line) with
       | Ok topo => match chip_logic_id topo with inl z => od_set z topo m | inr _ => m end
       | Err _ => m
       end.

Definition get_device_map_info : res DeviceMap :=
  let? out := run_command env ["npu-smi"; "info"; "-m"]%string in
  Ok (foldl add_info_line [] (tail (split_on newline (strip out)))).

Definition get_visible_devices : res (list Z) :=
  let? visible := get_visible_device_list_from_env in
  match visible with
  | Some (d :: ds) => Ok (d :: ds)
  | _ => match get_device_map_info with
         | Ok m => Ok (merge_sort Z.le (od_keys m))
         | Err _ => let? n := device_count env in Ok (zrange 0 n)
         end
  end.

Definition with_pcie (p : option string) (t : NpuDeviceInfo) : NpuDeviceInfo :=
  {| npu_id := npu_id t; chip_id := chip_id t; chip_logic_id := chip_logic_id t;
     chip_name := chip_name t; pcie_info := p; numa_id := numa_id t |}.
Definition with_numa (n : option Z) (t : NpuDeviceInfo) : NpuDeviceInfo :=
  {| npu_id := npu_id t; chip_id := chip_id t; chip_logic_id := chip_logic_id t;
     chip_name := chip_name t; pcie_info := pcie_info t; numa_id := n |}.

(** The PCI address on the first line that starts with the keyword. *)
Fixpoint find_pcie (lines : list string) : option string :=
  match lines with
  | [] => None
  | l :: rest =>
      match drop_prefix "PCIeBusInfo" (squeeze l) with
      | Some EmptyString => Some EmptyString
      | Some (String _ r) => Some (upper r)
      | None => find_pcie rest
      end
  end.

Definition pcie_of (t : NpuDeviceInfo) : option string :=
  match run_command env ["npu-smi"; "info"; "-t"; "board"; "-i"; str_of_Z (npu_id t); "-c";
                         str_of_Z (chip_id t)]%string with
  | Ok out => find_pcie (split_on newline (strip out))
  | Err _ => None
  end.

Definition get_pcie_info (m : DeviceMap) : DeviceMap :=
  (fun e => (e.1, with_pcie (pcie_of e.2) e.2)) <$> m.

(** the first "NUMA node : <digits>" of the output, spaces and case ignored *)
Definition match_numa_here (s : string) : option Z :=
  match drop_prefix "numa" s with
  | None => None
  | Some r =>
      match drop_prefix "node" (lstrip r) with
      | None => None
      | Some r =>
          match drop_prefix ":" (lstrip r) with
          | None => None
          | Some r => let d := (span_digits (lstrip r)).1 in
                      if String.eqb d EmptyString then None else py_int d
          end
      end
  end.
Fixpoint search_numa (s : string) : option Z :=
  match match_numa_here s with
  | Some z => Some z
  | None => match s with EmptyString => None | String _ s' => search_numa s' end
  end.

(** The NUMA node in sysfs, when it can be read and is not negative. *)
Definition sysfs_numa (pcie : string) : option Z :=
  match read_file env ("/sys/bus/pci/devices/" ++ lower pcie ++ "/numa_node")%string with
  | Some (Ok s) => match py_int (strip s) with
                   | Some z => if 0 <=? z then Some z else None
                   | None => None
                   end
  | _ => None
  end.

Definition lspci_numa (pcie : string) : option Z :=
  match run_command env ["/usr/bin/lspci"; "-s"; pcie; "-vvv"]%string with
  | Ok out => search_numa (lower out)
  | Err _ => None
  end.

Definition numa_of (t : NpuDeviceInfo) : option Z :=
  match nonempty (pcie_info t) with
  | None => numa_id t
  | Some pcie =>
      match sysfs_numa pcie with
      | Some z => Some z
      | None => match lspci_numa pcie with Some z => Some z | None => numa_id t end
      end
  end.

Definition get_numa_info (m : DeviceMap) : DeviceMap :=
  (fun e => (e.1, with_numa (numa_of e.2) e.2)) <$> m.

(** *** Even distribution over the NUMA nodes *)

(** [int(line.split(":")[-1])] of the first line about the number of nodes *)
Fixpoint numa_node_count (lines : list string) : Z :=
  match lines with
  | [] => 1
  | l :: rest =>
      let line := squeeze l in
      if contains "NUMAnode(s)" line
      then default 1 (py_int (List.last (split_on colon line) EmptyString))
      else numa_node_count rest
  end.

(** The number of devices of every node, and where each node's devices start and
    end. *)
Definition devices_per_numa (num_devices numa_nodes : Z) : list Z :=
  (fun i => num_devices / numa_nodes + (if i <? num_devices mod numa_nodes then 1 else 0))
    <$> zrange 0 numa_nodes.
Definition numa_ranges (num_devices numa_nodes : Z) : list (Z * (Z * Z)) :=
  let ends := accumulate (devices_per_numa num_devices numa_nodes) in
  let starts := 0 :: slice ends 0 (-1) in
  enumerate (zip starts ends).

Definition assign_numa (node : Z) (m : DeviceMap) (device_id : Z) : DeviceMap :=
  match od_get device_id m with
  | Some t => od_set device_id (with_numa (Some node) t) m
  | None => m
  end.

Definition distribute_numa (m : DeviceMap) (devices : list Z) (numa_nodes : Z) : DeviceMap :=
  foldl (fun m e => foldl (assign_numa e.1) m (slice devices e.2.1 e.2.2)) m
    (numa_ranges (pylen devices) numa_nodes).

Definition get_numa_info_v2 (m : DeviceMap) (devices : list Z) : res DeviceMap :=
  let? out := run_command env ["lscpu"]%string in
  let numa_nodes := numa_node_count (split_on newline out) in
  if numa_nodes =? 0 then Err ZeroDivisionError
  else Ok (distribute_numa m devices numa_nodes).

(** *** The CPUs of the NUMA nodes *)

(** the regular expression of the lines "NUMA node<digits> CPU(s): <cpulist>" of
    lscpu *)
Definition match_numa_cpus (line : string) : option (Z * string) :=
  match drop_prefix "NUMA node" line with
  | None => None
  | Some r =>
      let '(d, r) := span_digits r in
      match drop_prefix " CPU(s):" r with
      | Some r => if String.eqb d EmptyString then None
                  else match py_int d with Some z => Some (z, lstrip r) | None => None end
      | None => None
      end
  end.

Fixpoint cpu_table (numa_ids : list Z) (lines : list string) (tbl : list (Z * list Z))
  : res (list (Z * list Z)) :=
  match lines with
  | [] => Ok tbl
  | l :: rest =>
      match match_numa_cpus l with
      | Some (node, cpus) =>
          if mem node numa_ids then
            let? segs := parse_parts (split_on comma cpus) in
            cpu_table numa_ids rest (od_set node (concat segs) tbl)
          else cpu_table numa_ids rest tbl
      | None => cpu_table numa_ids rest tbl
      end
  end.

Definition get_cpu_info (numa_ids : list Z) : res (list (Z * list Z)) :=
  let? out := run_command env ["lscpu"]%string in
  cpu_table numa_ids (split_on newline out) [].

(** *** Sockets *)

(** [int] of a string of digits *)
Definition digits_int (s : string) : Z := default 0 (py_int s).

Definition add_node_socket (acc : list (Z * Z) * list (Z * list Z)) (line : string)
  : list (Z * Z) * list (Z * list Z) :=
  match words line with
  | [cpu; node; socket] =>
      if String.eqb (upper cpu) "CPU" then acc
      else if negb (is_digits node && is_digits socket) then acc
      else
        let n := digits_int node in
        let s := digits_int socket in
        (od_set n s acc.1, od_set s (n :: default [] (od_get s acc.2)) acc.2)
  | _ => acc
  end.

Definition get_node_socket_map : res (list (Z * Z) * list (Z * list Z)) :=
  let? out := run_command env ["lscpu"; "-e=cpu,node,socket"]%string in
  let '(n2s, s2n) := foldl add_node_socket ([], []) (split_on newline out) in
  Ok (n2s, (fun e => (e.1, sorted_set e.2)) <$> s2n).

(** *** The NPU's affinity *)

Definition npu_fallback (local_rank : Z) : option string :=
  or_none
    (let? cpus := allowed_cpus env in
     let cores := sorted_cpus cpus in
     match cores with
     | [] => Ok None
     | _ =>
         let? visible := get_visible_device_list_from_env in
         let? total := match visible with
                       | Some (d :: ds) => Ok (pylen (d :: ds))
                       | _ => device_count env
                       end in
         Ok (slice_affinity to_cpulist_str total local_rank cores)
     end).

Definition has_numa (m : DeviceMap) (devices : list Z) : bool :=
  existsb (fun d => match od_get d m with
                    | Some t => match numa_id t with Some _ => true | None => false end
                    | None => false
                    end) devices.

(** The cpulists of the NUMA nodes of the device's socket, [Ok None] when the
    code returns its fallback. *)
Definition npu_numa_affinity (device_id : Z) : res (option string) :=
  let? devices := get_visible_devices in
  let? m := get_device_map_info in
  match m with
  | [] => Ok None
  | _ =>
      let m := get_numa_info (get_pcie_info m) in
      let? m := (if has_numa m devices then Ok m else get_numa_info_v2 m devices) in
      match od_get device_id m with
      | None => Ok None
      | Some topo =>
          match numa_id topo with
          | None => Ok None
          | Some node =>
              let? maps := get_node_socket_map in
              match od_get node maps.1 with
              | None => Ok None
              | Some socket =>
                  let local_numa_ids := merge_sort Z.le (default [node] (od_get socket maps.2)) in
                  let? tbl := get_cpu_info local_numa_ids in
                  let parts := omap (fun nid => match od_get nid tbl with
                                                | Some cores => to_cpulist_str cores
                                                | None => None
                                                end) local_numa_ids in
                  match parts with
                  | [] => Ok None
                  | _ => Ok (merge_cpulist_parts parts)
                  end
              end
          end
      end
  end.

Definition npu_get_cpu_affinity (local_rank : Z) : res (option string) :=
  let? device_id := get_device_id local_rank in
  match npu_numa_affinity device_id with
  | Ok (Some s) => Ok (Some s)
  | _ => Ok (npu_fallback local_rank)
  end.

(** ** The split between worker and store *)

Definition split_seg (seg : list Z) : list Z * list Z :=
  let mid := Z.max 1 (pylen seg / 2) in (slice_to seg mid, slice_from seg mid).

Definition split_cpulist (cpu_affinity : string) : res (list Z * list Z) :=
  let? segs := parse_parts (split_on comma cpu_affinity) in
  let worker := concat ((fun s => (split_seg s).1) <$> segs) in
  let store := concat ((fun s => (split_seg s).2) <$> segs) in
  match worker with
  | [] =>
      let? cpus := allowed_cpus env in
      match sorted_cpus cpus with
      | [] => Ok (worker, store)
      | c :: cs => Ok ([c], cs)
      end
  | _ => Ok (worker, store)
  end.

(** [split_cores] of a device whose [get_cpu_affinity] gave [cpu_affinity]. *)
Definition split_cores (cpu_affinity : option string) : list Z * list Z :=
  match nonempty cpu_affinity with
  | None => ([], [])
  | Some s => match split_cpulist s with Ok r => r | Err _ => ([], []) end
  end.

(** [create_device]: which implementation, if any *)
Inductive device_kind := CudaDevice | NpuDevice.
Definition create_device (is_cuda_alike : bool) (device_type : string) : option device_kind :=
  if is_cuda_alike then Some CudaDevice
  else if String.eqb device_type "npu" then Some NpuDevice
  else None.
End affinity.

(** ** Facts: printing and parsing cpulists *)

(** Strictly increasing cores above [lo]. *)
Fixpoint increasing (lo : Z) (cores : list Z) : Prop :=
  match cores with
  | [] => True
  | c :: rest => lo < c /\ increasing c rest
  end.

Lemma dash_not_digit : is_digit dash = false. Proof. reflexivity. Qed.
Lemma comma_not_digit : is_digit comma = false. Proof. reflexivity. Qed.

Lemma str_of_Z_nonneg z : 0 <= z -> str_of_Z z = str_of_nonneg z.
Proof. intros. unfold str_of_Z. by rewrite (proj2 (Z.ltb_ge z 0)). Qed.

Lemma to_int_str z : 0 <= z -> to_int (str_of_nonneg z) = Ok z.
Proof. intros. unfold to_int. by rewrite py_int_str_nonneg. Qed.

(** A printed run has no comma and no space, and parses to its cores. *)
Lemma print_run_parse s e :
  0 <= s <= e -> parse_part (print_run s e) = Ok (zrange s (e + 1)).
Proof.
  intros Hse. unfold print_run, parse_part. destruct (Z.eqb_spec s e) as [<-|Hne].
  - rewrite str_of_Z_nonneg, split_once_none, to_int_str by (try apply digits_no_char; try apply str_of_nonneg_digits; try apply dash_not_digit; lia).
    by rewrite zrange_cons, zrange_nil by lia.
  - rewrite !str_of_Z_nonneg by lia. rewrite split_once_app, !to_int_str
      by (try apply digits_no_char; try apply str_of_nonneg_digits; try apply dash_not_digit; lia).
    by rewrite Z.min_l, Z.max_r by lia.
Qed.

Lemma rstrip_no_space s : string_forall (fun a => negb (is_space a)) s = true -> rstrip s = s.
Proof.
  induction s as [|a s IH]; simpl; [done|]. intros [Ha Hs]%andb_true_iff.
  rewrite IH by done. destruct s; [|done]. apply negb_true_iff in Ha. by rewrite Ha.
Qed.

Lemma strip_no_space s : string_forall (fun a => negb (is_space a)) s = true -> strip s = s.
Proof.
  intros Hs. unfold strip. rewrite rstrip_no_space by done. destruct s as [|a s]; [done|].
  simpl in *. apply andb_true_iff in Hs as [Ha _]. apply negb_true_iff in Ha. by rewrite Ha.
Qed.

Lemma print_run_chars s e p :
  0 <= s -> 0 <= e -> p dash = true -> (forall a, is_digit a = true -> p a = true) ->
  string_forall p (print_run s e) = true.
Proof.
  intros Hs He Hd Hp. unfold print_run. rewrite !str_of_Z_nonneg by done.
  destruct (s =? e); [|rewrite string_forall_app; simpl; rewrite Hd];
    repeat rewrite (string_forall_impl is_digit p) by (try done; by apply str_of_nonneg_digits); done.
Qed.

Lemma print_run_strip s e : 0 <= s -> 0 <= e -> strip (print_run s e) = print_run s e.
Proof.
  intros Hs He. apply strip_no_space, print_run_chars; [done|done|done|].
  intros a Ha. by rewrite digit_not_space.
Qed.

Lemma print_run_nonempty s e : 0 <= s -> 0 <= e -> String.eqb (print_run s e) EmptyString = false.
Proof.
  intros Hs He. apply String.eqb_neq. unfold print_run. rewrite !str_of_Z_nonneg by done.
  pose proof (str_of_nonneg_nonempty s Hs). destruct (s =? e); [done|].
  by destruct (str_of_nonneg s).
Qed.

Lemma cpulist_parts_ok s e cores :
  0 <= s <= e -> increasing e cores ->
  cpulist_parts s e cores <> [] /\
  Forall (fun p => string_forall (fun a => negb (Ascii.eqb a comma)) p = true) (cpulist_parts s e cores) /\
  exists segs, parse_parts (cpulist_parts s e cores) = Ok segs /\
    concat segs = zrange s (e + 1) ++ cores /\ Forall (fun seg => seg <> []) segs.
Proof.
  assert (Hone : forall s e rest segs, 0 <= s <= e -> parse_parts rest = Ok segs ->
    parse_parts (print_run s e :: rest) = Ok (zrange s (e + 1) :: segs)).
  { intros s0 e0 rest segs Hse Hr. cbn [parse_parts].
    rewrite print_run_strip, print_run_nonempty, print_run_parse by lia. by rewrite Hr. }
  assert (Hchar : forall s e, 0 <= s <= e ->
    string_forall (fun a => negb (Ascii.eqb a comma)) (print_run s e) = true).
  { intros s0 e0 Hse. apply print_run_chars; [lia|lia|done|].
    intros a Ha. apply negb_true_iff. destruct (Ascii.eqb_spec a comma); [|done]. subst. done. }
  assert (Hne : forall s e : Z, s <= e -> zrange s (e + 1) <> []).
  { intros s0 e0 Hse. rewrite zrange_cons by lia. done. }
  revert s e. induction cores as [|c rest IH]; intros s e Hse Hinc; cbn [cpulist_parts].
  - split; [done|]. split; [auto|]. eexists. split; [by apply Hone|].
    simpl. rewrite !app_nil_r. split; [done|]. constructor; [apply Hne; lia|constructor].
  - destruct Hinc as [Hlt Hinc]. destruct (Z.eqb_spec c (e + 1)) as [->|Hc].
    + destruct (IH s (e + 1) ltac:(lia) Hinc) as (H1 & H2 & segs & H3 & H4 & H5).
      split; [done|]. split; [done|]. exists segs. split; [done|]. split; [|done].
      rewrite H4, (zrange_app s (e + 1) (e + 1 + 1)) by lia.
      rewrite (zrange_cons (e + 1)), (zrange_nil (e + 1 + 1)) by lia. by rewrite <- app_assoc.
    + destruct (IH c c ltac:(lia) Hinc) as (H1 & H2 & segs & H3 & H4 & H5).
      split; [done|]. split; [constructor; auto|]. eexists. split; [by apply Hone|].
      simpl. rewrite H4, (zrange_cons c), (zrange_nil (c + 1)) by lia. split; [done|].
      constructor; [apply Hne; lia|done].
Qed.

(** The cpulist of increasing cores parses back to them. *)
Lemma print_sorted_parse c rest :
  0 <= c -> increasing c rest ->
  exists str segs, print_sorted (c :: rest) = Some str /\ str <> EmptyString /\
    parse_parts (split_on comma str) = Ok segs /\ concat segs = c :: rest /\
    Forall (fun seg => seg <> []) segs.
Proof.
  intros Hc Hinc. destruct (cpulist_parts_ok c c rest ltac:(lia) Hinc) as (H1 & H2 & segs & H3 & H4 & H5).
  eexists _, segs. split; [reflexivity|]. split; [|split; [by rewrite split_on_join|]].
  - intros He. assert (Hs : split_on comma (PyStr.join (String comma EmptyString) (cpulist_parts c c rest)) =
      cpulist_parts c c rest) by (by apply split_on_join).
    rewrite He in Hs. simpl in Hs. rewrite <- Hs in H3. simpl in H3. injection H3 as <-.
    rewrite zrange_cons in H4 by lia. done.
  - rewrite H4, zrange_cons, zrange_nil by lia. done.
Qed.

(** ** Facts: the split *)

Lemma split_seg_perm seg : (split_seg seg).1 ++ (split_seg seg).2 = seg.
Proof. unfold split_seg. simpl. apply slice_to_from. lia. Qed.

Lemma split_segs_perm (segs : list (list Z)) :
  concat ((fun s => (split_seg s).1) <$> segs) ++ concat ((fun s => (split_seg s).2) <$> segs)
    ≡ₚ concat segs.
Proof.
  induction segs as [|seg segs IH]; [done|]. cbn [fmap list_fmap concat].
  rewrite <- (split_seg_perm seg) at 3. rewrite <- IH.
  set (a := (split_seg seg).1). set (b := (split_seg seg).2).
  set (u := concat (_ <$> segs)). set (v := concat (_ <$> segs)).
  rewrite <- !app_assoc. apply Permutation_app_head. rewrite !app_assoc.
  apply Permutation_app_tail. apply Permutation_app_comm.
Qed.

Lemma split_seg_worker seg : seg <> [] -> (split_seg seg).1 <> [].
Proof.
  intros Hs. unfold split_seg. simpl. rewrite slice_to_take by lia.
  destruct seg as [|x seg]; [done|].
  destruct (Z.to_nat (Z.max 1 (pylen (x :: seg) / 2))) as [|k] eqn:Hk; [lia|done].
Qed.

Lemma split_cpulist_perm env str segs :
  parse_parts (split_on comma str) = Ok segs -> segs <> [] -> Forall (fun seg => seg <> []) segs ->
  exists worker store, split_cpulist env str = Ok (worker, store) /\
    worker <> [] /\ worker ++ store ≡ₚ concat segs.
Proof.
  intros Hp Hne Hsegs. unfold split_cpulist. rewrite Hp.
  pose proof (split_segs_perm segs) as Hperm.
  set (w := concat ((fun s => (split_seg s).1) <$> segs)) in *.
  set (st := concat ((fun s => (split_seg s).2) <$> segs)) in *.
  assert (Hw : w <> []).
  { subst w. destruct Hsegs as [|seg segs Hseg]; [done|].
    pose proof (split_seg_worker seg Hseg) as Hw. cbn [fmap list_fmap concat].
    by destruct (split_seg seg).1. }
  clearbody w st. destruct w as [|x w]; [done|]. by exists (x :: w), st.
Qed.

(** ** Facts: the rank slices *)

Definition slice_start (n total r : Z) : Z := r * (n / total) + Z.min r (n mod total).

Lemma rank_slice_bounds cores total r :
  0 <= r < total ->
  rank_slice cores total r = slice cores (slice_start (pylen cores) total r)
                                         (slice_start (pylen cores) total (r + 1)).
Proof.
  intros Hr. unfold rank_slice, slice_start. f_equal.
  destruct (Z.ltb_spec r (pylen cores mod total)); lia.
Qed.

Lemma slice_start_mono n total r : 0 < total -> 0 <= n -> 0 <= r ->
  0 <= slice_start n total r <= slice_start n total (r + 1).
Proof.
  intros Ht Hn Hr. unfold slice_start.
  assert (0 <= n / total) by (apply Z.div_pos; lia).
  pose proof (Z.mod_pos_bound n total Ht). nia.
Qed.

Lemma slice_start_total n total : 0 < total -> slice_start n total total = n.
Proof.
  intros Ht. unfold slice_start. pose proof (Z.mod_pos_bound n total Ht).
  rewrite Z.min_r by lia. pose proof (Z.div_mod n total ltac:(lia)). lia.
Qed.

Lemma rank_slices_prefix cores total (k : nat) :
  0 < total -> Z.of_nat k <= total ->
  concat (rank_slice cores total <$> zrange 0 (Z.of_nat k)) =
    slice cores 0 (slice_start (pylen cores) total (Z.of_nat k)).
Proof.
  intros Ht. induction k as [|k IH]; intros Hk.
  - rewrite zrange_nil by lia. simpl. unfold slice_start. rewrite slice_empty; [done|lia|].
    pose proof (Z.mod_pos_bound (pylen cores) total Ht). lia.
  - rewrite (zrange_app 0 (Z.of_nat k)) by lia. rewrite fmap_app, concat_app, IH by lia.
    rewrite zrange_cons, zrange_nil by lia. simpl. rewrite app_nil_r, rank_slice_bounds by lia.
    pose proof (slice_start_mono (pylen cores) total (Z.of_nat k) Ht (pylen_nonneg cores) ltac:(lia)).
    rewrite slice_app_adj by lia. f_equal. f_equal. lia.
Qed.

Lemma StronglySorted_increasing (l : list Z) :
  StronglySorted Z.le l -> NoDup l -> forall c rest, l = c :: rest -> increasing c rest.
Proof.
  induction 1 as [|x l Hs IH Hf]; [done|]. intros [Hx Hn]%NoDup_cons c rest [= <- <-].
  destruct l as [|y l]; [done|]. simpl. split; [|by apply IH].
  rewrite Forall_cons in Hf. destruct Hf as [Hf _]. assert (x <> y); [|lia].
  intros ->. apply Hx. left.
Qed.

Lemma increasing_slice l lo hi c rest : 0 <= lo <= hi ->
  StronglySorted Z.le l -> NoDup l -> slice l lo hi = c :: rest -> increasing c rest.
Proof.
  intros Hb Hs Hn Heq. rewrite slice_nonneg in Heq by lia.
  apply (StronglySorted_increasing (c :: rest)); [..|done]; rewrite <- Heq.
  - rewrite <- (take_drop (Z.to_nat lo) l) in Hs.
    apply StronglySorted_app in Hs as (_ & _ & Hs).
    rewrite <- (take_drop (Z.to_nat hi - Z.to_nat lo) (drop (Z.to_nat lo) l)) in Hs.
    by apply StronglySorted_app in Hs as (_ & Hs & _).
  - eapply sublist_NoDup; [|apply sublist_take]. eapply sublist_NoDup; [|apply sublist_drop]. done.
Qed.

Lemma sorted_cpus_ok cpus :
  StronglySorted Z.le (sorted_cpus cpus) /\ NoDup (sorted_cpus cpus) /\
  forall x, x ∈ sorted_cpus cpus <-> x ∈ cpus.
Proof.
  unfold sorted_cpus. pose proof (merge_sort_Permutation Z.le (elements cpus)) as Hp.
  split; [by apply (StronglySorted_merge_sort Z.le)|]. split.
  - rewrite Hp. apply NoDup_elements.
  - intros x. by rewrite Hp, elem_of_elements.
Qed.

(** ** Properties *)

(** The fallback slices share the allowed cores out evenly: over the ranks of
    a node they are, one after the other, exactly the allowed cores, and the
    sizes of two ranks' slices differ by at most one. *)
Theorem rank_slices_partition cores total :
  0 < total ->
  concat (rank_slice cores total <$> zrange 0 total) = cores /\
  forall r, 0 <= r < total ->
    pylen cores / total <= pylen (rank_slice cores total r) <= pylen cores / total + 1.
Proof.
  intros Ht. pose proof (pylen_nonneg cores) as Hn. split.
  - rewrite <- (Z2Nat.id total) at 2 by lia. rewrite rank_slices_prefix by lia.
    rewrite Z2Nat.id, slice_start_total by lia. by rewrite slice_full by lia.
  - intros r Hr. rewrite rank_slice_bounds by done.
    pose proof (slice_start_mono (pylen cores) total r Ht Hn ltac:(lia)).
    pose proof (slice_start_total (pylen cores) total Ht).
    assert (Hle : slice_start (pylen cores) total (r + 1) <= pylen cores).
    { unfold slice_start. pose proof (Z.mod_pos_bound (pylen cores) total Ht).
      pose proof (Z.div_mod (pylen cores) total ltac:(lia)).
      assert (0 <= pylen cores / total) by (apply Z.div_pos; lia). nia. }
    rewrite pylen_slice by lia. unfold slice_start in *. lia.
Qed.

(** The whole fallback path is lossless: for an NPU or GPU without topology
    information, the slice of the allowed cores of a rank, printed as a cpulist
    and parsed again by [split_cores], gives the worker and the store together
    exactly the cores of the slice, and the worker at least one. *)
Theorem fallback_split_lossless env total r cpus str :
  (forall x, x ∈ cpus -> 0 <= x) ->
  slice_affinity print_sorted total r (sorted_cpus cpus) = Some str ->
  exists worker store, split_cores env (Some str) = (worker, store) /\
    worker <> [] /\ worker ++ store ≡ₚ rank_slice (sorted_cpus cpus) total r.
Proof.
  intros Hpos Ha. unfold slice_affinity in Ha.
  destruct ((total <=? 0) || (r <? 0) || (total <=? r)) eqn:Hb; [done|].
  assert (0 <= r < total) as Hr by lia.
  destruct (rank_slice (sorted_cpus cpus) total r) as [|c rest] eqn:Hs; [done|].
  destruct (sorted_cpus_ok cpus) as (Hsort & Hnd & Hin).
  pose proof (slice_start_mono (pylen (sorted_cpus cpus)) total r ltac:(lia) (pylen_nonneg _) ltac:(lia)).
  assert (Hinc : increasing c rest).
  { rewrite rank_slice_bounds in Hs by lia. by apply (increasing_slice _ _ _ c rest) in Hs. }
  assert (Hc : 0 <= c).
  { apply Hpos, Hin. rewrite (rank_slice_bounds _ _ _ Hr) in Hs. eapply elem_of_slice. rewrite Hs. left. }
  destruct (print_sorted_parse c rest Hc Hinc) as (str' & segs & Hp & Hne & Hparse & Hcat & Hsegs).
  rewrite Hp in Ha. injection Ha as <-.
  destruct (split_cpulist_perm env str' segs Hparse) as (w & st & Hsp & Hw & Hperm); [by intros ->|done|].
  exists w, st. split; [|split; [done|by rewrite Hperm, Hcat]].
  unfold split_cores, nonempty. rewrite (proj2 (String.eqb_neq _ _) Hne). by rewrite Hsp.
Qed.

(** [split_cores] never loses, adds or duplicates a core: when the cpulist
    parses, worker and store together are exactly its cores, segment by segment,
    and a non-empty cpulist leaves the worker at least one core. *)
Theorem split_cores_partition env str segs :
  parse_parts (split_on comma str) = Ok segs -> segs <> [] -> Forall (fun seg => seg <> []) segs ->
  str <> EmptyString ->
  exists worker store, split_cores env (Some str) = (worker, store) /\
    worker <> [] /\ worker ++ store ≡ₚ concat segs.
Proof.
  intros Hp Hne Hsegs Hstr.
  destruct (split_cpulist_perm env str segs Hp Hne Hsegs) as (w & st & Hsp & Hw & Hperm).
  exists w, st. split; [|done].
  unfold split_cores, nonempty. rewrite (proj2 (String.eqb_neq _ _) Hstr). by rewrite Hsp.
Qed.

(** ** Facts: the even distribution over NUMA nodes *)

Lemma length_accumulate_from acc l : length (accumulate_from acc l) = length l.
Proof. revert acc. induction l; intros; simpl; auto. Qed.

Lemma accumulate_lookup acc l i x :
  accumulate_from acc l !! i = Some x <-> (i < length l)%nat /\ x = acc + zsum (take (S i) l).
Proof.
  revert acc i. induction l as [|y l IH]; intros acc i; simpl.
  - split; [done|lia].
  - destruct i as [|i]; simpl.
    + split; [intros [= <-]; split; [lia|unfold zsum; simpl; lia]|].
      intros [_ ->]. f_equal. unfold zsum. simpl. lia.
    + rewrite IH. split; intros [H1 H2]; (split; [lia|]); rewrite H2; unfold zsum; simpl; lia.
Qed.

(** The start of node [i]'s devices: as the slices of the cores. *)
Lemma zsum_devices n nodes (i : nat) :
  0 < nodes -> Z.of_nat i <= nodes ->
  zsum (take i (devices_per_numa n nodes)) = slice_start n nodes (Z.of_nat i).
Proof.
  intros Hn Hi. unfold devices_per_numa. rewrite <- fmap_take.
  assert (take i (zrange 0 nodes) = zrange 0 (Z.of_nat i)) as ->.
  { rewrite (zrange_app 0 (Z.of_nat i)) by lia. apply take_app_length'. rewrite length_zrange. lia. }
  induction i as [|i IH].
  - rewrite zrange_nil by lia. unfold slice_start. simpl. pose proof (Z.mod_pos_bound n nodes Hn). lia.
  - rewrite (zrange_app 0 (Z.of_nat i)), fmap_app, zsum_app, IH by lia.
    rewrite zrange_cons, zrange_nil by lia. unfold slice_start. simpl.
    destruct (Z.ltb_spec (Z.of_nat i) (n mod nodes)); lia.
Qed.

(** Node [i] gets the devices of slice [i]. *)
Lemma numa_ranges_lookup n nodes (i : nat) :
  0 < nodes -> (Z.of_nat i < nodes) ->
  numa_ranges n nodes !! i =
    Some (Z.of_nat i, (slice_start n nodes (Z.of_nat i), slice_start n nodes (Z.of_nat i + 1))).
Proof.
  intros Hn Hi. unfold numa_ranges. rewrite lookup_enumerate.
  set (ends := accumulate (devices_per_numa n nodes)).
  assert (Hlen : length (devices_per_numa n nodes) = Z.to_nat nodes).
  { unfold devices_per_numa. rewrite length_fmap, length_zrange. lia. }
  assert (Hend : forall k : nat, Z.of_nat k < nodes -> ends !! k = Some (slice_start n nodes (Z.of_nat k + 1))).
  { intros k Hk. apply accumulate_lookup. split; [lia|].
    rewrite Z.add_0_l, zsum_devices by lia. f_equal. lia. }
  assert (Hel : length ends = Z.to_nat nodes).
  { unfold ends, accumulate. by rewrite length_accumulate_from. }
  assert (Hstart : (0 :: slice ends 0 (-1)) !! i = Some (slice_start n nodes (Z.of_nat i))).
  { destruct i as [|i].
    - simpl. unfold slice_start. pose proof (Z.mod_pos_bound n nodes Hn). f_equal. lia.
    - change (slice ends 0 (-1) !! i = Some (slice_start n nodes (Z.of_nat (S i)))).
      rewrite slice_init, lookup_take_lt by lia. rewrite Hend by lia.
      f_equal. f_equal. lia. }
  rewrite lookup_zip_with, Hstart, Hend by lia. done.
Qed.

Lemma od_get_assign node m ds k t :
  od_get k m = Some t ->
  od_get k (foldl (assign_numa node) m ds) =
    Some (if bool_decide (k ∈ ds) then with_numa (Some node) t else t).
Proof.
  revert m t. induction ds as [|d ds IH]; intros m t Hk; [done|]. cbn [foldl].
  unfold assign_numa at 2. destruct (decide (k = d)) as [->|Hne].
  - rewrite Hk. rewrite (IH _ (with_numa (Some node) t)) by apply od_get_set_eq.
    rewrite (bool_decide_true (d ∈ d :: ds)) by left. by case_bool_decide.
  - assert (Hin : bool_decide (k ∈ d :: ds) = bool_decide (k ∈ ds)) by (apply bool_decide_ext; set_solver).
    rewrite Hin. apply IH. destruct (od_get d m); [|done]. by rewrite od_get_set_ne.
Qed.

(** The slice of a list that position [k] falls into. *)
Lemma slice_start_search n nodes (k : Z) :
  0 < nodes -> 0 <= k < n ->
  exists i : nat, Z.of_nat i < nodes /\
    slice_start n nodes (Z.of_nat i) <= k < slice_start n nodes (Z.of_nat i + 1).
Proof.
  intros Hn Hk. assert (Hs : forall m : nat, Z.of_nat m <= nodes -> k < slice_start n nodes (Z.of_nat m) ->
    exists i : nat, Z.of_nat i < nodes /\
      slice_start n nodes (Z.of_nat i) <= k < slice_start n nodes (Z.of_nat i + 1)).
  { induction m as [|m IH]; intros Hm Hlt.
    - unfold slice_start in Hlt. pose proof (Z.mod_pos_bound n nodes Hn). lia.
    - destruct (decide (k < slice_start n nodes (Z.of_nat m))) as [?|Hge]; [apply IH; lia|].
      exists m. split; [lia|]. replace (Z.of_nat m + 1) with (Z.of_nat (S m)) by lia. lia. }
  apply (Hs (Z.to_nat nodes)); [lia|]. rewrite Z2Nat.id, slice_start_total by lia. lia.
Qed.

(** A device's node after the first [j] nodes have been given their devices. *)
Lemma distribute_get devices m rs k t :
  od_get k m = Some t ->
  exists t', od_get k (foldl (fun m e => foldl (assign_numa e.1) m (slice devices e.2.1 e.2.2)) m rs) = Some t' /\
    (forall e, e ∈ rs -> k ∈ slice devices e.2.1 e.2.2 -> exists e', e' ∈ rs /\
       k ∈ slice devices e'.2.1 e'.2.2 /\ numa_id t' = Some e'.1).
Proof.
  revert m t. induction rs as [|e rs IH] using rev_ind; intros m t Hk.
  - exists t. split; [done|]. set_solver.
  - rewrite foldl_app. cbn [foldl]. destruct (IH m t Hk) as (t' & Ht' & Hin).
    rewrite (od_get_assign _ _ _ _ t') by done. eexists. split; [reflexivity|].
    intros e0 He0 Hk0. case_bool_decide as Hd.
    + exists e. split; [apply elem_of_app; right; by left|]. done.
    + apply elem_of_app in He0 as [He0|He0%list_elem_of_singleton]; [|by subst e0].
      destruct (Hin e0 He0 Hk0) as (e' & ? & ? & ?). exists e'. split; [by apply elem_of_app; left|done].
Qed.

(** The NUMA fallback leaves no device behind: distributed over any positive
    number of nodes, every visible device of the map is given a node, one in
    whose share of the device list it appears, and the shares are the even
    consecutive slices of the list. *)
Theorem distribute_numa_total m devices nodes k t :
  0 < nodes -> k ∈ devices -> od_get k m = Some t ->
  exists t' (i : nat), od_get k (distribute_numa m devices nodes) = Some t' /\
    numa_id t' = Some (Z.of_nat i) /\ Z.of_nat i < nodes /\
    k ∈ slice devices (slice_start (pylen devices) nodes (Z.of_nat i))
                      (slice_start (pylen devices) nodes (Z.of_nat i + 1)).
Proof.
  intros Hn Hk Ht. apply list_elem_of_lookup in Hk as [p Hp]. apply lookup_lt_Some in Hp as Hlt.
  unfold distribute_numa.
  destruct (distribute_get devices m (numa_ranges (pylen devices) nodes) k t Ht) as (t' & Hg & Hall).
  assert (Hlk : forall e, e ∈ numa_ranges (pylen devices) nodes -> exists i : nat, Z.of_nat i < nodes /\
    e = (Z.of_nat i, (slice_start (pylen devices) nodes (Z.of_nat i),
                      slice_start (pylen devices) nodes (Z.of_nat i + 1)))).
  { intros e [i Hi]%list_elem_of_lookup. exists i. apply lookup_lt_Some in Hi as Hil.
    assert (Hi' : Z.of_nat i < nodes).
    { unfold numa_ranges, enumerate, enumerate_from in Hil. rewrite !length_zip_with in Hil.
      unfold accumulate in Hil. rewrite length_accumulate_from in Hil. unfold devices_per_numa in Hil.
      rewrite !length_fmap, !length_zrange in Hil. lia. }
    split; [done|]. rewrite numa_ranges_lookup in Hi by lia. congruence. }
  destruct (slice_start_search (pylen devices) nodes (Z.of_nat p) Hn) as (i & Hi & Hrange);
    [unfold pylen; lia|].
  pose proof (slice_start_mono (pylen devices) nodes (Z.of_nat i) Hn (pylen_nonneg _) ltac:(lia)).
  destruct (Hall (Z.of_nat i, (slice_start (pylen devices) nodes (Z.of_nat i),
                      slice_start (pylen devices) nodes (Z.of_nat i + 1)))) as (e' & He' & Hke' & Hn').
  - eapply list_elem_of_lookup_2. by apply (numa_ranges_lookup _ _ i).
  - simpl. apply (list_elem_of_lookup_2 _ (p - Z.to_nat (slice_start (pylen devices) nodes (Z.of_nat i)))%nat).
    rewrite lookup_slice by lia. rewrite decide_True by lia. rewrite <- Hp. f_equal. lia.
  - destruct (Hlk e' He') as (i' & Hi' & ->). exists t', i'. done.
Qed.

(** ** Concrete inputs *)
Module AffinityDemo.
Definition env : Env := {|
  cuda_visible_devices := Some "0, 1"%string; ascend_rt_visible_devices := None;
  ascend_visible_devices := None; allowed_cpus := Ok (list_to_set [7; 0; 1; 2; 3; 5]);
  device_count := Ok 2; cuda_pci := fun _ => Err RuntimeError;
  run_command := fun _ => Err FileNotFoundError; read_file := fun _ => None |}.
Definition topo : NpuDeviceInfo := {| npu_id := 0; chip_id := 0; chip_logic_id := inl 0;
  chip_name := "a"; pcie_info := None; numa_id := None |}.
Definition map : list (Z * NpuDeviceInfo) := [(0, topo); (1, topo); (2, topo)].
End AffinityDemo.

Lemma rank_slices_partition_witness :
  concat (rank_slice [0; 1; 2; 3; 5; 7; 9] 3 <$> zrange 0 3) = [0; 1; 2; 3; 5; 7; 9].
Proof. apply (rank_slices_partition [0; 1; 2; 3; 5; 7; 9] 3). lia. Defined.

Lemma fallback_split_lossless_witness :
  cuda_get_cpu_affinity AffinityDemo.env 1 = Some "3,5,7"%string /\
  exists worker store, split_cores AffinityDemo.env (Some "3,5,7"%string) = (worker, store) /\
    worker ++ store ≡ₚ [3; 5; 7].
Proof.
  split; [vm_compute; reflexivity|].
  destruct (fallback_split_lossless AffinityDemo.env 2 1 (list_to_set [7; 0; 1; 2; 3; 5]) "3,5,7"%string)
    as (w & st & H1 & _ & H2).
  - intros x. rewrite elem_of_list_to_set, !elem_of_cons, elem_of_nil. lia.
  - vm_compute. reflexivity.
  - exists w, st. split; [exact H1|]. exact H2.
Defined.

Lemma split_cores_partition_witness :
  exists worker store, split_cores AffinityDemo.env (Some "0-3,8"%string) = (worker, store) /\
    worker ++ store ≡ₚ [0; 1; 2; 3; 8].
Proof.
  destruct (split_cores_partition AffinityDemo.env "0-3,8"%string [[0; 1; 2; 3]; [8]]) as (w & st & H1 & _ & H2);
    [vm_compute; reflexivity|congruence|repeat constructor; congruence|congruence|].
  exists w, st. split; [exact H1|exact H2].
Defined.

Lemma distribute_numa_total_witness :
  exists t' (i : nat), od_get 2 (distribute_numa AffinityDemo.map [0; 1; 2] 2) = Some t' /\
    numa_id t' = Some (Z.of_nat i).
Proof.
  destruct (distribute_numa_total AffinityDemo.map [0; 1; 2] 2 2 AffinityDemo.topo) as (t' & i & H1 & H2 & _);
    [lia|right; right; left|reflexivity|].
  exists t', i. split; [exact H1|exact H2].
Defined.
