(* ===== verification/Rope.v ===== *)
(** * Block-wise rotation of cached keys
    (ucm/sparse/blend/blockwise_rope.py)

    The Triton kernel that rotates the keys of moved blocks in place, one
    program per head of a token of a listed block, and the plain loop it is meant to
    equal.  Programs run concurrently: each loads its tile, then stores the two
    halves, in any interleaving with the others.  Element arithmetic is a
    parameter; both caches have the same element type, so that the kernel's
    conversion to the type of the cosines is the identity.  Tensors are flat
    memories with row-major strides. *)

From S2P Require Import Prelude.
Local Open Scope Z_scope.

Section rope.
Context {V : Type} (mul sub add : V -> V -> V) (zero : V).
(** [triton.next_power_of_2] *)
Context (next_power_of_2 : Z -> Z).

(** ** The kernel *)

Record Launch := {
  k_row_stride : Z;
  k_head_stride : Z;
  cos_sin_row_stride : Z;
  sl : Z;
  bs : Z;
  n_kh : Z;
  hd : Z;
  pad_hd : Z;
  vllm_ids : list Z;
  positions : list Z;
}.

(** The arguments of the launch for a contiguous key cache of shape
    [(total_blocks, seq_len, n_kv_head, head_dim)] and a contiguous cos/sin cache
    with rows of length [head_dim]. *)
Definition block_wise_rope_launch (seq_len n_kv_head head_dim : Z) (ids pos : list Z) : Launch :=
  {| k_row_stride := seq_len * n_kv_head * head_dim; k_head_stride := head_dim;
     cos_sin_row_stride := head_dim; sl := seq_len; bs := pylen ids; n_kh := n_kv_head; hd := head_dim;
     pad_hd := next_power_of_2 head_dim; vllm_ids := ids; positions := pos |}.

Definition n_row (l : Launch) : Z := bs l * sl l * n_kh l.

Definition batch_idx (l : Launch) (pid : Z) : Z := pid / (sl l * n_kh l).
Definition seq_idx (l : Launch) (pid : Z) : Z := (pid mod (sl l * n_kh l)) / n_kh l.
Definition head_idx (l : Launch) (pid : Z) : Z := (pid mod (sl l * n_kh l)) mod n_kh l.

Definition block_id (l : Launch) (pid : Z) : Z := default 0 (py_nth (vllm_ids l) (batch_idx l pid)).
Definition pos_idx (l : Launch) (pid : Z) : Z := default 0 (py_nth (positions l) (batch_idx l pid)).

Definition k_offset (l : Launch) (pid : Z) : Z :=
  block_id l pid * k_row_stride l + seq_idx l pid * (n_kh l * hd l) + head_idx l pid * hd l.
Definition cos_base (l : Launch) (pid : Z) : Z := pos_idx l pid * cos_sin_row_stride l.
Definition sin_base (l : Launch) (pid : Z) : Z := cos_base l pid + hd l / 2.

(** The lanes [tl.arange(0, pad_hd // 2)] that the mask lets through. *)
Definition lane (l : Launch) (o : Z) : bool := (0 <=? o) && (o <? pad_hd l / 2) && (o <? hd l / 2).

Abbreviation memory := (Z -> V).
Abbreviation tile := (Z -> V).
Definition load (l : Launch) (m : memory) (base : Z) : tile :=
  fun o => if lane l o then m (base + o) else zero.
Definition store (l : Launch) (m : memory) (base : Z) (t : tile) : memory :=
  fun x => if lane l (x - base) then t (x - base) else m x.

(** What a program computes from the memory it has loaded from. *)
Definition new_k_tiles (l : Launch) (cs m : memory) (pid : Z) : tile * tile :=
  let cos_row := load l cs (cos_base l pid) in
  let sin_row := load l cs (sin_base l pid) in
  let k1 := load l m (k_offset l pid) in
  let k2 := load l m (k_offset l pid + hd l / 2) in
  (fun o => sub (mul (k1 o) (cos_row o)) (mul (k2 o) (sin_row o)),
   fun o => add (mul (k2 o) (cos_row o)) (mul (k1 o) (sin_row o))).

Inductive phase : Type :=
  | Todo
  | Loaded (new1 new2 : tile)
  | Stored1 (new2 : tile)
  | Done.

Record gpu := Gpu { mem : memory; phases : Z -> phase }.
Definition set_phase (pid : Z) (p : phase) (f : Z -> phase) : Z -> phase :=
  fun q => if q =? pid then p else f q.

(** One program makes one step. *)
Inductive gpu_step (l : Launch) (cs : memory) : gpu -> gpu -> Prop :=
  | step_load m f pid : 0 <= pid < n_row l -> f pid = Todo ->
      gpu_step l cs (Gpu m f)
        (Gpu m (set_phase pid (Loaded (new_k_tiles l cs m pid).1 (new_k_tiles l cs m pid).2) f))
  | step_store1 m f pid t1 t2 : 0 <= pid < n_row l -> f pid = Loaded t1 t2 ->
      gpu_step l cs (Gpu m f)
        (Gpu (store l m (k_offset l pid) t1) (set_phase pid (Stored1 t2) f))
  | step_store2 m f pid t2 : 0 <= pid < n_row l -> f pid = Stored1 t2 ->
      gpu_step l cs (Gpu m f)
        (Gpu (store l m (k_offset l pid + hd l / 2) t2) (set_phase pid Done f)).

Definition launched (m : memory) : gpu := Gpu m (fun _ => Todo).
Definition finished (l : Launch) (g : gpu) : Prop := forall pid, 0 <= pid < n_row l -> phases g pid = Done.

(** ** The plain loop *)

(** The body: the row of keys at [base], rotated by the row [pos] of the table. *)
Definition rotate_row (half head_dim : Z) (cs : memory) (pos : Z) (base : Z) (k_out : memory) : memory :=
  let cos j := cs (pos * head_dim + j) in
  let sin j := cs (pos * head_dim + half + j) in
  let k1 j := k_out (base + j) in
  let k2 j := k_out (base + half + j) in
  let new_k1 j := sub (mul (k1 j) (cos j)) (mul (k2 j) (sin j)) in
  let new_k2 j := add (mul (k2 j) (cos j)) (mul (k1 j) (sin j)) in
  fun x => let j := x - base in
    if (0 <=? j) && (j <? half) then new_k1 j
    else if (half <=? j) && (j <? head_dim) then new_k2 (j - half)
    else k_out x.

Definition rope_naive_torch (seq_len n_heads head_dim : Z) (ids pos : list Z) (cs k_cache : memory)
  : memory :=
  foldl (fun m b =>
    let blk := default 0 (py_nth ids b) in
    let p := default 0 (py_nth pos b) in
    foldl (fun m s =>
      foldl (fun m h =>
        rotate_row (head_dim / 2) head_dim cs p
          (blk * (seq_len * n_heads * head_dim) + s * (n_heads * head_dim) + h * head_dim) m)
        m (zrange 0 n_heads))
      m (zrange 0 seq_len))
    k_cache (zrange 0 (pylen ids)).

(** ** Facts *)
Context (Hpow : forall n, n <= next_power_of_2 n).
Context (seq_len n_heads head_dim : Z) (ids pos : list Z) (cs m0 : memory).
Context (Hsl : 0 < seq_len) (Hnh : 0 < n_heads) (Hhd : 0 < head_dim) (Heven : head_dim mod 2 = 0).
Context (Hids : NoDup ids).
Abbreviation lch := (block_wise_rope_launch seq_len n_heads head_dim ids pos).
Abbreviation half := (head_dim / 2).
Abbreviation tpb := (seq_len * n_heads).

Lemma tpb_pos : 0 < tpb.
Proof. nia. Qed.

Lemma lane_spec o : lane lch o = (0 <=? o) && (o <? half).
Proof.
  unfold lane. simpl. pose proof (Hpow head_dim). apply Bool.eq_iff_eq_true.
  rewrite !andb_true_iff, !Z.leb_le, !Z.ltb_lt. split; [lia|]. intros [??]. split; [split; [lia|]|lia].
  assert (half <= next_power_of_2 head_dim / 2) by (apply Z.div_le_mono; lia). lia.
Qed.

Lemma half_pos : 0 < half /\ head_dim = half + half.
Proof. lia. Qed.

(** The row a program works on, as a block, a token and a head. *)
Definition row_of (b s h : Z) : Z :=
  default 0 (py_nth ids b) * (seq_len * n_heads * head_dim) + s * (n_heads * head_dim) + h * head_dim.
Definition pid_of (b s h : Z) : Z := b * tpb + s * n_heads + h.

Lemma pid_of_idx b s h :
  0 <= s < seq_len -> 0 <= h < n_heads ->
  batch_idx lch (pid_of b s h) = b /\ seq_idx lch (pid_of b s h) = s /\ head_idx lch (pid_of b s h) = h.
Proof.
  intros Hs Hh. pose proof tpb_pos. unfold batch_idx, seq_idx, head_idx, pid_of. simpl.
  assert (Hr : 0 <= s * n_heads + h < tpb) by nia.
  assert (Hm : (b * tpb + s * n_heads + h) mod tpb = s * n_heads + h).
  { rewrite <- Z.add_assoc, Z.add_comm, Z_mod_plus_full. by apply Z.mod_small. }
  rewrite Hm. split.
  - rewrite <- Z.add_assoc, Z.div_add_l by lia. rewrite Z.div_small by done. lia.
  - split; [rewrite Z.div_add_l by lia; rewrite Z.div_small by done; lia|].
    rewrite Z.add_comm, Z_mod_plus_full. by apply Z.mod_small.
Qed.

Lemma pid_split pid :
  0 <= pid < n_row lch ->
  let b := batch_idx lch pid in let s := seq_idx lch pid in let h := head_idx lch pid in
  0 <= b < pylen ids /\ 0 <= s < seq_len /\ 0 <= h < n_heads /\ pid = pid_of b s h.
Proof.
  intros Hp. pose proof tpb_pos. unfold n_row, batch_idx, seq_idx, head_idx, pid_of in *. simpl in *.
  pose proof (Z.mod_pos_bound pid tpb tpb_pos) as Hr.
  pose proof (Z.mod_pos_bound (pid mod tpb) n_heads Hnh) as Hh.
  pose proof (Z.div_mod pid tpb ltac:(lia)) as E1.
  pose proof (Z.div_mod (pid mod tpb) n_heads ltac:(lia)) as E2.
  split; [split; [apply Z.div_pos; lia|apply Z.div_lt_upper_bound; nia]|].
  split; [split; [apply Z.div_pos; lia|apply Z.div_lt_upper_bound; nia]|].
  split; [done|]. lia.
Qed.

Lemma k_offset_row pid : k_offset lch pid = row_of (batch_idx lch pid) (seq_idx lch pid) (head_idx lch pid).
Proof. done. Qed.

(** *** The rows are disjoint *)

Definition in_row (base x : Z) : Prop := base <= x < base + head_dim.

Lemma row_disjoint b s h b' s' h' x :
  0 <= b < pylen ids -> 0 <= s < seq_len -> 0 <= h < n_heads ->
  0 <= b' < pylen ids -> 0 <= s' < seq_len -> 0 <= h' < n_heads ->
  in_row (row_of b s h) x -> in_row (row_of b' s' h') x -> b = b' /\ s = s' /\ h = h'.
Proof.
  intros Hb Hs Hh Hb' Hs' Hh' Hx Hx'. pose proof tpb_pos. unfold in_row, row_of in *.
  set (k := default 0 (py_nth ids b)) in *. set (k' := default 0 (py_nth ids b')) in *.
  assert (Hq : forall k s h, k * (seq_len * n_heads * head_dim) + s * (n_heads * head_dim) + h * head_dim =
                 head_dim * (k * tpb + (s * n_heads + h))) by (intros; ring).
  rewrite Hq in Hx, Hx'.
  assert (Heq : k * tpb + (s * n_heads + h) = k' * tpb + (s' * n_heads + h')) by nia.
  assert (0 <= s * n_heads + h < tpb) by nia. assert (0 <= s' * n_heads + h' < tpb) by nia.
  assert (Hk : k = k' /\ s * n_heads + h = s' * n_heads + h').
  { apply (Z.div_mod_unique tpb); [by left|by left|lia]. }
  destruct Hk as [Hk Hr]. assert (s = s' /\ h = h') as [-> ->].
  { apply (Z.div_mod_unique n_heads); [by left|by left|lia]. }
  split; [|done]. unfold k, k' in Hk. rewrite !py_nth_nonneg in Hk by lia. unfold pylen in *.
  destruct (lookup_lt_is_Some_2 ids (Z.to_nat b)) as [v Hv]; [lia|].
  destruct (lookup_lt_is_Some_2 ids (Z.to_nat b')) as [v' Hv']; [lia|].
  rewrite Hv, Hv' in Hk. simpl in Hk. subst v'. pose proof (NoDup_lookup _ _ _ _ Hids Hv Hv'). lia.
Qed.

(** *** The plain loop *)

(** The rotated contents of a row. *)
Definition rot (b s h : Z) (m : memory) : memory :=
  rotate_row half head_dim cs (default 0 (py_nth pos b)) (row_of b s h) m.

Lemma rot_ext b s h m m' x :
  (forall y, in_row (row_of b s h) y -> m y = m' y) -> in_row (row_of b s h) x ->
  rot b s h m x = rot b s h m' x.
Proof.
  intros Hm Hx. unfold rot, rotate_row, in_row in *. pose proof half_pos as [Hh He].
  destruct ((0 <=? x - row_of b s h) && (x - row_of b s h <? half)) eqn:E1.
  - rewrite !Hm by lia. done.
  - destruct ((half <=? x - row_of b s h) && (x - row_of b s h <? head_dim)) eqn:E2; [|lia].
    rewrite !Hm by lia. done.
Qed.

Lemma rot_outside b s h m x : ~ in_row (row_of b s h) x -> rot b s h m x = m x.
Proof.
  intros Hx. unfold rot, rotate_row, in_row in *. pose proof half_pos as [Hh He].
  destruct ((0 <=? x - row_of b s h) && (x - row_of b s h <? half)) eqn:E1; [lia|].
  destruct ((half <=? x - row_of b s h) && (x - row_of b s h <? head_dim)) eqn:E2; [lia|done].
Qed.

Definition rows : list (Z * (Z * Z)) :=
  b ← zrange 0 (pylen ids); s ← zrange 0 seq_len; h ← zrange 0 n_heads; [(b, (s, h))].

Lemma elem_of_rows b s h :
  (b, (s, h)) ∈ rows <-> 0 <= b < pylen ids /\ 0 <= s < seq_len /\ 0 <= h < n_heads.
Proof.
  unfold rows. rewrite list_elem_of_bind. setoid_rewrite list_elem_of_bind.
  setoid_rewrite list_elem_of_bind. setoid_rewrite elem_of_zrange. split.
  - intros (b' & (s' & (h' & Hin%list_elem_of_singleton & ?) & ?) & ?). by simplify_eq.
  - intros (? & ? & ?). exists b. split; [|done]. exists s. split; [|done]. exists h. split; [|done]. by left.
Qed.

Lemma foldl_bind {A B C} (f : C -> B -> C) (g : A -> list B) (l : list A) c :
  foldl f c (l ≫= g) = foldl (fun c a => foldl f c (g a)) c l.
Proof. revert c. induction l as [|a l IH]; intros c; [done|]. csimpl. by rewrite foldl_app, IH. Qed.

Lemma foldl_ext {A B} (f g : A -> B -> A) l a :
  (forall a b, f a b = g a b) -> foldl f a l = foldl g a l.
Proof. intros Hfg. revert a. induction l as [|b l IH]; intros a; [done|]. simpl. by rewrite Hfg, IH. Qed.

Lemma naive_rows :
  rope_naive_torch seq_len n_heads head_dim ids pos cs m0 =
  foldl (fun m r => rot r.1 r.2.1 r.2.2 m) m0 rows.
Proof.
  unfold rows, rope_naive_torch. rewrite foldl_bind. apply foldl_ext. intros m b.
  rewrite foldl_bind. apply foldl_ext. intros m1 s. rewrite foldl_bind. by apply foldl_ext.
Qed.

Lemma NoDup_zrange lo hi : NoDup (zrange lo hi).
Proof. unfold zrange. apply NoDup_fmap_2; [intros x y ?; lia|apply NoDup_seq]. Qed.

Lemma NoDup_rows : NoDup rows.
Proof.
  unfold rows. apply NoDup_bind; [|intros b _; apply NoDup_bind; [|intros s _; apply NoDup_bind|]|];
    try apply NoDup_zrange.
  - intros b b' [c [s h]] _ _ H1 H2. apply list_elem_of_bind in H1 as (? & H1 & _).
    apply list_elem_of_bind in H1 as (? & H1%list_elem_of_singleton & _).
    apply list_elem_of_bind in H2 as (? & H2 & _).
    apply list_elem_of_bind in H2 as (? & H2%list_elem_of_singleton & _). by simplify_eq.
  - intros s s' [c [u h]] _ _ H1 H2. apply list_elem_of_bind in H1 as (? & H1%list_elem_of_singleton & _).
    apply list_elem_of_bind in H2 as (? & H2%list_elem_of_singleton & _). by simplify_eq.
  - intros h h' r _ _ H1%list_elem_of_singleton H2%list_elem_of_singleton. by simplify_eq.
  - intros h _. apply NoDup_singleton.
Qed.

Lemma rows_apart b s h b' s' h' x :
  (b, (s, h)) ∈ rows -> (b', (s', h')) ∈ rows ->
  in_row (row_of b s h) x -> in_row (row_of b' s' h') x -> (b, (s, h)) = (b', (s', h')).
Proof.
  intros (? & ? & ?)%elem_of_rows (? & ? & ?)%elem_of_rows Hx Hx'.
  by destruct (row_disjoint b s h b' s' h' x) as (-> & -> & ->).
Qed.

Lemma naive_value rs x :
  NoDup rs -> (forall r, r ∈ rs -> r ∈ rows) ->
  let m := foldl (fun m r => rot r.1 r.2.1 r.2.2 m) m0 rs in
  (forall b s h, (b, (s, h)) ∈ rs -> in_row (row_of b s h) x -> m x = rot b s h m0 x) /\
  ((forall b s h, (b, (s, h)) ∈ rs -> ~ in_row (row_of b s h) x) -> m x = m0 x).
Proof.
  revert x. induction rs as [|[b0 [s0 h0]] rs IH] using rev_ind; intros x Hn Hr; cbn zeta.
  { split; [set_solver|done]. }
  apply NoDup_app in Hn as (Hn & Hd & _). rewrite foldl_app. cbn [foldl fst snd].
  set (m := foldl _ m0 rs) in *.
  assert (IHx : forall x, (forall b s h, (b, (s, h)) ∈ rs -> in_row (row_of b s h) x -> m x = rot b s h m0 x) /\
            ((forall b s h, (b, (s, h)) ∈ rs -> ~ in_row (row_of b s h) x) -> m x = m0 x)).
  { intros y. apply IH; [done|]. intros r Hin. apply Hr, elem_of_app. by left. }
  assert (H0 : (b0, (s0, h0)) ∈ rows) by (apply Hr, elem_of_app; right; by left).
  assert (Hfresh : forall y, in_row (row_of b0 s0 h0) y -> m y = m0 y).
  { intros y Hy. apply IHx. intros b s h Hin Hy'. apply (Hd _ Hin). apply list_elem_of_singleton.
    apply (rows_apart _ _ _ _ _ _ y); [apply Hr, elem_of_app; by left|done..]. }
  split.
  - intros b s h Hin Hx. apply elem_of_app in Hin as [Hin|Hin%list_elem_of_singleton].
    + rewrite rot_outside; [by apply IHx|]. intros Hx'. apply (Hd _ Hin), list_elem_of_singleton.
      apply (rows_apart _ _ _ _ _ _ x); [apply Hr, elem_of_app; by left|done..].
    + injection Hin as -> -> ->. by apply rot_ext.
  - intros Hno. rewrite rot_outside; [apply IHx; intros b s h Hin; apply Hno, elem_of_app; by left|].
    apply Hno, elem_of_app. right. by left.
Qed.

(** *** The programs *)

Definition prow (pid : Z) : Z := k_offset lch pid.
Definition prot (pid : Z) (m : memory) : memory :=
  rot (batch_idx lch pid) (seq_idx lch pid) (head_idx lch pid) m.

Definition tile1_ok (pid : Z) (t : tile) : Prop :=
  forall o, 0 <= o < half -> t o = prot pid m0 (prow pid + o).
Definition tile2_ok (pid : Z) (t : tile) : Prop :=
  forall o, 0 <= o < half -> t o = prot pid m0 (prow pid + half + o).

(** What a program's row holds in each phase. *)
Definition pid_ok (m : memory) (pid : Z) (p : phase) : Prop :=
  match p with
  | Todo => forall x, in_row (prow pid) x -> m x = m0 x
  | Loaded t1 t2 => (forall x, in_row (prow pid) x -> m x = m0 x) /\ tile1_ok pid t1 /\ tile2_ok pid t2
  | Stored1 t2 =>
      (forall x, prow pid <= x < prow pid + half -> m x = prot pid m0 x) /\
      (forall x, prow pid + half <= x < prow pid + head_dim -> m x = m0 x) /\ tile2_ok pid t2
  | Done => forall x, in_row (prow pid) x -> m x = prot pid m0 x
  end.

Definition gpu_inv (g : gpu) : Prop :=
  (forall pid, 0 <= pid < n_row lch -> pid_ok (mem g) pid (phases g pid)) /\
  (forall x, (forall pid, 0 <= pid < n_row lch -> ~ in_row (prow pid) x) -> mem g x = m0 x).

Lemma prow_disjoint pid pid' x :
  0 <= pid < n_row lch -> 0 <= pid' < n_row lch -> in_row (prow pid) x -> in_row (prow pid') x -> pid = pid'.
Proof.
  intros Hp Hp' Hx Hx'. destruct (pid_split pid Hp) as (H1 & H2 & H3 & E).
  destruct (pid_split pid' Hp') as (H1' & H2' & H3' & E'). rewrite E, E'.
  unfold prow in *. rewrite k_offset_row in Hx, Hx'.
  by destruct (row_disjoint _ _ _ _ _ _ x H1 H2 H3 H1' H2' H3' Hx Hx') as (-> & -> & ->).
Qed.

Lemma pid_ok_frame m m' pid p :
  (forall x, in_row (prow pid) x -> m' x = m x) -> pid_ok m pid p -> pid_ok m' pid p.
Proof.
  intros Hm. pose proof half_pos. destruct p; simpl.
  - intros Hp x Hx. rewrite Hm; auto.
  - intros (Hp & ? & ?). split; [|done]. intros x Hx. rewrite Hm; auto.
  - intros (H1 & H2 & ?). split; [|split; [|done]]; intros x Hx; rewrite Hm; auto; unfold in_row; lia.
  - intros Hp x Hx. rewrite Hm; auto.
Qed.

Lemma new_tiles_ok m pid :
  (forall x, in_row (prow pid) x -> m x = m0 x) ->
  tile1_ok pid (new_k_tiles lch cs m pid).1 /\ tile2_ok pid (new_k_tiles lch cs m pid).2.
Proof.
  intros Hm. pose proof half_pos as [Hh He]. unfold tile1_ok, tile2_ok, new_k_tiles, load, prot, rot, rotate_row.
  cbn [fst snd]. rewrite <- k_offset_row. fold (prow pid). unfold in_row in Hm.
  change (hd lch / 2) with half.
  assert (Hc : forall o, 0 <= o < half -> lane lch o = true) by (intros; rewrite lane_spec; lia).
  split; intros o Ho; rewrite !Hc by done; rewrite !Hm by lia.
  - replace (prow pid + o - prow pid) with o by lia.
    replace ((0 <=? o) && (o <? half)) with true by lia. done.
  - replace (prow pid + half + o - prow pid) with (half + o) by lia.
    replace ((0 <=? half + o) && (half + o <? half)) with false by lia.
    replace ((half <=? half + o) && (half + o <? head_dim)) with true by lia.
    replace (half + o - half) with o by lia. done.
Qed.

Lemma store_value m base t x :
  store lch m base t x = if (base <=? x) && (x <? base + half) then t (x - base) else m x.
Proof.
  unfold store. rewrite lane_spec.
  by replace ((base <=? x) && (x <? base + half)) with ((0 <=? x - base) && (x - base <? half)) by lia.
Qed.

(** A step that changes one program's row only. *)
Lemma gpu_inv_step m m' f pid p :
  0 <= pid < n_row lch -> gpu_inv (Gpu m f) ->
  (forall x, ~ in_row (prow pid) x -> m' x = m x) -> pid_ok m' pid p ->
  gpu_inv (Gpu m' (set_phase pid p f)).
Proof.
  intros Hp [Hi Ho] Hm Hok. split; simpl in *.
  - intros q Hq. unfold set_phase. destruct (Z.eqb_spec q pid) as [->|Hne]; [done|].
    apply (pid_ok_frame m); [|by apply Hi]. intros x Hx. apply Hm. intros Hx'.
    apply Hne. by apply (prow_disjoint q pid x).
  - intros x Hx. rewrite Hm by (by apply Hx). by apply Ho.
Qed.

Lemma gpu_inv_preserved g g' : gpu_step lch cs g g' -> gpu_inv g -> gpu_inv g'.
Proof.
  pose proof half_pos as [Hh He].
  intros Hs Hi. destruct Hs as [m f pid Hp Hf|m f pid t1 t2 Hp Hf|m f pid t2 Hp Hf];
    pose proof (proj1 Hi pid Hp) as Hok; simpl in Hok; rewrite Hf in Hok; simpl in Hok;
    (eapply gpu_inv_step; [done|exact Hi|..]).
  - done.
  - simpl. split; [done|]. by apply new_tiles_ok.
  - intros x Hx. rewrite store_value. unfold in_row in Hx.
    destruct ((_ <=? x) && _) eqn:E; [|done]. unfold prow in *. lia.
  - destruct Hok as (Hm & Ht1 & Ht2). simpl. fold (prow pid). split; [|split; [|done]]; intros x Hx;
      rewrite store_value.
    + replace ((prow pid <=? x) && (x <? prow pid + half)) with true by lia. rewrite Ht1 by lia. f_equal. lia.
    + replace ((prow pid <=? x) && (x <? prow pid + half)) with false by lia.
      apply Hm. unfold in_row. lia.
  - intros x Hx. rewrite store_value. unfold in_row in Hx. change (hd lch / 2) with half.
    destruct ((_ <=? x) && _) eqn:E; [|done]. unfold prow in *. lia.
  - destruct Hok as (H1 & H2 & Ht2). simpl. fold (prow pid). intros x Hx. rewrite store_value.
    change (hd lch / 2) with half. unfold in_row in Hx.
    destruct ((prow pid + half <=? x) && (x <? prow pid + half + half)) eqn:E.
    + rewrite Ht2 by lia. f_equal. lia.
    + apply H1. lia.
Qed.

Lemma gpu_inv_launched : gpu_inv (launched m0).
Proof. by split. Qed.

Lemma gpu_inv_reachable g : rtc (gpu_step lch cs) (launched m0) g -> gpu_inv g.
Proof.
  intros Hr. pose proof gpu_inv_launched as Hi. revert Hr Hi. generalize (launched m0). intros g0 Hr.
  induction Hr as [|g0 g1 g2 Hs _ IH]; [done|]. intros Hi. apply IH. by eapply gpu_inv_preserved.
Qed.

(** *** Completion *)

Definition phase_steps (p : phase) : nat :=
  match p with Todo => 3 | Loaded _ _ => 2 | Stored1 _ => 1 | Done => 0 end.
Definition remaining (g : gpu) : nat :=
  sum_list_with (fun pid => phase_steps (phases g pid)) (zrange 0 (n_row lch)).

Lemma sum_set_phase pid p f (l : list Z) :
  NoDup l -> pid ∈ l -> (phase_steps p < phase_steps (f pid))%nat ->
  (sum_list_with (fun q => phase_steps (set_phase pid p f q)) l <
   sum_list_with (fun q => phase_steps (f q)) l)%nat.
Proof.
  intros Hn Hin Hlt. induction l as [|q l IH]; [set_solver|]. apply NoDup_cons in Hn as [Hq Hn].
  simpl. unfold set_phase at 1. apply elem_of_cons in Hin as [<-|Hin].
  - rewrite Z.eqb_refl.
    assert (sum_list_with (fun q => phase_steps (set_phase pid p f q)) l =
            sum_list_with (fun q => phase_steps (f q)) l) as ->; [|lia].
    clear IH Hn. induction l as [|q' l IHl]; [done|]. simpl. rewrite IHl by set_solver. f_equal.
    unfold set_phase. destruct (Z.eqb_spec q' pid) as [->|]; [set_solver|done].
  - destruct (Z.eqb_spec q pid) as [->|]; [done|]. specialize (IH Hn Hin). lia.
Qed.

Lemma step_remaining g g' : gpu_step lch cs g g' -> (remaining g' < remaining g)%nat.
Proof.
  intros Hs. destruct Hs as [m f pid Hp Hf|m f pid t1 t2 Hp Hf|m f pid t2 Hp Hf]; unfold remaining; simpl;
    (apply sum_set_phase; [apply NoDup_zrange|by apply elem_of_zrange|rewrite Hf; simpl; lia]).
Qed.

Lemma step_or_finished g : finished lch g \/ exists g', gpu_step lch cs g g'.
Proof.
  destruct g as [m f]. destruct (decide (Exists (fun pid => phase_steps (f pid) <> 0%nat) (zrange 0 (n_row lch))))
    as [Hex|Hno].
  - right. apply Exists_exists in Hex as (pid & Hin%elem_of_zrange & Hp).
    destruct (f pid) as [|t1 t2|t2|] eqn:Hf; [..|done].
    + eexists. by apply step_load.
    + eexists. by eapply step_store1.
    + eexists. by eapply step_store2.
  - left. intros pid Hp. simpl. apply not_Exists_Forall in Hno; [|apply _].
    rewrite Forall_forall in Hno. specialize (Hno pid (proj2 (elem_of_zrange _ _ _) Hp)).
    destruct (decide (phase_steps (f pid) = 0%nat)) as [E|E]; [by destruct (f pid)|by destruct Hno].
Qed.

Lemma launch_completes g : exists g', rtc (gpu_step lch cs) g g' /\ finished lch g'.
Proof.
  induction (Nat.lt_wf_0_projected remaining g) as [g _ IH].
  destruct (step_or_finished g) as [Hf|(g1 & Hs)]; [by exists g|].
  destruct (IH g1 (step_remaining _ _ Hs)) as (g' & Hr & Hf). exists g'. split; [|done].
  by eapply rtc_l.
Qed.

Lemma finished_naive g :
  gpu_inv g -> finished lch g -> forall x, mem g x = rope_naive_torch seq_len n_heads head_dim ids pos cs m0 x.
Proof.
  intros [Hi Ho] Hf x. rewrite naive_rows.
  destruct (naive_value rows x NoDup_rows ltac:(done)) as [Hin Hout].
  destruct (decide (Exists (fun pid => prow pid <= x /\ x < prow pid + head_dim) (zrange 0 (n_row lch)))) as [Hex|Hno].
  - apply Exists_exists in Hex as (pid & Hp%elem_of_zrange & Hx). specialize (Hi pid Hp).
    rewrite Hf in Hi by done. simpl in Hi. rewrite (Hi x Hx). symmetry.
    destruct (pid_split pid Hp) as (H1 & H2 & H3 & _). apply Hin; [by apply elem_of_rows|done].
  - apply not_Exists_Forall in Hno; [|apply _]. rewrite Forall_forall in Hno.
    rewrite Ho; [|intros pid Hp; apply Hno; by apply elem_of_zrange]. symmetry. apply Hout.
    intros b s h (Hb & Hs & Hh)%elem_of_rows Hx. destruct (pid_of_idx b s h Hs Hh) as (E1 & E2 & E3).
    apply (Hno (pid_of b s h)).
    + apply elem_of_zrange. unfold n_row, pid_of. simpl. rewrite <- Z.mul_assoc.
      assert (0 <= s * n_heads + h < tpb) by nia. assert ((b + 1) * tpb <= pylen ids * tpb) by nia.
      assert (0 <= b * tpb) by nia. lia.
    + unfold prow. by rewrite k_offset_row, E1, E2, E3.
Qed.
End rope.

(** ** Properties *)

(** C10. The block-wise rotation kernel implements the plain loop.  Launched over
    distinct blocks of a contiguous cache with an even head dimension, in
    whatever order the programs' loads and stores interleave: no program is ever stuck, every
    execution can be completed, each step brings it closer to completion, and
    the memory of every completed execution is the one the plain loop computes,
    at every address. *)
Theorem block_wise_rope_is_naive_rope {V : Type} (mul sub add : V -> V -> V) zero next_power_of_2
    seq_len n_heads head_dim ids pos cs m0 :
  (forall n, n <= next_power_of_2 n) ->
  0 < seq_len -> 0 < n_heads -> 0 < head_dim -> head_dim mod 2 = 0 -> NoDup ids ->
  let l := block_wise_rope_launch next_power_of_2 seq_len n_heads head_dim ids pos in
  let step := gpu_step mul sub add zero l cs in
  (forall g, rtc step (launched m0) g -> finished l g ->
     forall x, mem g x = rope_naive_torch mul sub add seq_len n_heads head_dim ids pos cs m0 x) /\
  (forall g, finished l g \/ exists g', step g g') /\
  (forall g, exists g', rtc step g g' /\ finished l g') /\
  (forall g g', step g g' ->
     (remaining next_power_of_2 seq_len n_heads head_dim ids pos g' <
      remaining next_power_of_2 seq_len n_heads head_dim ids pos g)%nat).
Proof.
  intros Hpow Hsl Hnh Hhd Heven Hids l step. split; [|split; [|split]].
  - intros g Hr Hf. apply (finished_naive mul sub add next_power_of_2); try done.
    by apply (gpu_inv_reachable mul sub add zero).
  - apply step_or_finished; (exact m0 || done).
  - apply launch_completes; (exact m0 || done).
  - apply step_remaining; (exact m0 || done).
Qed.

(** Two moved blocks of two tokens, two heads and two elements. *)
Lemma block_wise_rope_is_naive_rope_witness :
  let l := block_wise_rope_launch (fun n => 2 ^ Z.log2_up n) 2 2 2 [3; 1] [5; 7] in
  exists g, rtc (gpu_step Z.mul Z.sub Z.add 0 l (fun x => x)) (launched (fun x => x)) g /\
    finished l g /\ mem g 24 = 24 * 10 - 25 * 11 /\ mem g 25 = 25 * 10 + 24 * 11.
Proof.
  intros l.
  destruct (block_wise_rope_is_naive_rope Z.mul Z.sub Z.add 0 (fun n => 2 ^ Z.log2_up n) 2 2 2 [3; 1] [5; 7]
              (fun x => x) (fun x => x)) as (Heq & _ & Hex & _).
  - intros n. destruct (Z.le_gt_cases n 1) as [Hn|Hn]; [|apply Z.log2_log2_up_spec; lia].
    pose proof (Z.pow_pos_nonneg 2 (Z.log2_up n) ltac:(lia) (Z.log2_up_nonneg n)). lia.
  - lia.
  - lia.
  - lia.
  - reflexivity.
  - apply NoDup_cons. split; [set_solver|apply NoDup_singleton].
  - destruct (Hex (launched (fun x => x))) as (g & Hr & Hf). exists g. split; [exact Hr|]. split; [exact Hf|].
    split; rewrite (Heq g Hr Hf); reflexivity.
Defined.
