(* ===== verification/Blend.v ===== *)
(** * The cache-blend connector
    (ucm/integration/vllm/blend_connector.py)

    A prompt made of text chunks, each ending in a marker token on a block
    boundary, is looked up chunk by chunk: a chunk's blocks are named by the
    chunk's own tokens, so the KV cache of a chunk is found wherever the chunk
    stands in the prompt.  The keys loaded for a moved chunk are rotated by the
    distance it moved.  The metadata objects are shared between the connector's
    table and what it hands to the worker; the model writes the updated chunks
    back to the table. *)

From S2P Require Import Prelude.
From S2P Require Import PyStr.
From S2P Require Import StoreApi.
From S2P Require Import Hasher.
From S2P Require Import Connector.
Local Open Scope Z_scope.
Local Open Scope py_scope.

(** ** Data *)

Record ChunkMetaData := Chunk {
  start_token_dix : Z;
  chunk_tokens_len : Z;
  start_blk_idx : Z;
  chunk_blks_len : Z;
  cached_start_position : Z;
  vllm_blk_ids : list Z;
  chunk_blks_hash : list bytes;
  store_hits : list bool;
}.

Definition end_token_dix (m : ChunkMetaData) : Z := start_token_dix m + chunk_tokens_len m.
Definition end_blk_idx (m : ChunkMetaData) : Z := start_blk_idx m + chunk_blks_len m.
Definition cached_end_position (m : ChunkMetaData) : Z := cached_start_position m + chunk_tokens_len m.
Definition position_offset (m : ChunkMetaData) : Z := start_token_dix m - cached_start_position m.
Definition hits_vllm_blk_ids (m : ChunkMetaData) : list Z := compress (vllm_blk_ids m) (store_hits m).
Definition hits_chunk_blks_hash (m : ChunkMetaData) : list bytes :=
  compress (chunk_blks_hash m) (store_hits m).

Definition merge_chunk (m temp : ChunkMetaData) : ChunkMetaData :=
  Chunk (start_token_dix m) (chunk_tokens_len m + chunk_tokens_len temp)
    (start_blk_idx m) (chunk_blks_len m + chunk_blks_len temp)
    (cached_start_position m) (vllm_blk_ids m)
    (chunk_blks_hash m ++ chunk_blks_hash temp) (store_hits m).

Definition update_meta_partial_pc (m : ChunkMetaData) (num_pc_part_blks block_size : Z) : ChunkMetaData :=
  if num_pc_part_blks >? 0 then
    Chunk (start_token_dix m + num_pc_part_blks * block_size)
      (chunk_tokens_len m - num_pc_part_blks * block_size)
      (start_blk_idx m + num_pc_part_blks) (chunk_blks_len m - num_pc_part_blks)
      (cached_start_position m + num_pc_part_blks * block_size) (vllm_blk_ids m)
      (slice_from (chunk_blks_hash m) num_pc_part_blks)
      (slice_from (store_hits m) num_pc_part_blks)
  else m.

Definition with_store_hits (hits : list bool) (m : ChunkMetaData) : ChunkMetaData :=
  Chunk (start_token_dix m) (chunk_tokens_len m) (start_blk_idx m) (chunk_blks_len m)
    (cached_start_position m) (vllm_blk_ids m) (chunk_blks_hash m) hits.
Definition with_vllm_blk_ids (ids : list Z) (m : ChunkMetaData) : ChunkMetaData :=
  Chunk (start_token_dix m) (chunk_tokens_len m) (start_blk_idx m) (chunk_blks_len m)
    (cached_start_position m) ids (chunk_blks_hash m) (store_hits m).

Inductive BlendStage := BUILD_CHUNK_CACHE | BUILD_PREFIX_CACHE | CACHE_BLEND.
#[global] Instance stage_eq_dec : EqDecision BlendStage.
Proof. solve_decision. Defined.
Definition is_blend_cache (s : BlendStage) : bool := bool_decide (s = CACHE_BLEND).
Definition is_prefix_cache (s : BlendStage) : bool := bool_decide (s = BUILD_PREFIX_CACHE).

Record BlendRequestMeta := BMeta {
  ucm_block_hashs : list bytes;
  pc_hit_block_num : Z;
  chunks_meta : list ChunkMetaData;
  blend_stage : BlendStage;
}.

(** [BlendRequestDispatchMeta] extends [RequestDispatchMeta]. *)
Record BlendRequestDispatchMeta := BDispatch {
  b_dispatch : RequestDispatchMeta;
  d_chunks_meta : list ChunkMetaData;
}.

Abbreviation UCMBlendConnectorMetadata := (list (string * BlendRequestDispatchMeta)).

Record BlendConfig := { b_conn : ConnConfig; chunk_end_token_id : Z }.

(** [__init__] after that of the direct connector.  [blend_config] is
    [ucm_sparse_config["Blend"]], if there is one, with its
    [chunk_end_token_id]; raising a string raises [TypeError]. *)
Definition new_UCMBlendConnector (c : ConnConfig) (blend_config : option (option Z)) : res BlendConfig :=
  match blend_config with
  | None => Err TypeError
  | Some None => Err KeyError
  | Some (Some id) => Ok {| b_conn := c; chunk_end_token_id := id |}
  end.
Definition min_blend_threshold : Z := 16.

(** The state of the direct connector and the fields added to it; [Tensor] is
    the type of the [cos_sin_cache] tensor and of a layer's key cache. *)
Record BlendState (W Tensor : Type) := BlendSt {
  b_base : ConnState W;
  requests_blend_meta : gmap string BlendRequestMeta;
  cos_sin_cache : option Tensor;
  delta_rope_vllm_ids : option (list Z);
  delta_rope_positions : option (list Z);
}.
Arguments BlendSt {W Tensor} _ _ _ _ _.
Arguments b_base {W Tensor} _.
Arguments requests_blend_meta {W Tensor} _.
Arguments cos_sin_cache {W Tensor} _.
Arguments delta_rope_vllm_ids {W Tensor} _.
Arguments delta_rope_positions {W Tensor} _.

Definition initial_BlendState {W Tensor} (w : W) : BlendState W Tensor :=
  BlendSt (initial_ConnState w) ∅ None None None.

Section setters.
Context {W Tensor : Type}.
Definition set_base (b : ConnState W) (s : BlendState W Tensor) : BlendState W Tensor :=
  BlendSt b (requests_blend_meta s) (cos_sin_cache s) (delta_rope_vllm_ids s) (delta_rope_positions s).
Definition set_blend_meta f (s : BlendState W Tensor) : BlendState W Tensor :=
  BlendSt (b_base s) (f (requests_blend_meta s)) (cos_sin_cache s) (delta_rope_vllm_ids s) (delta_rope_positions s).
Definition set_cos_sin_cache t (s : BlendState W Tensor) : BlendState W Tensor :=
  BlendSt (b_base s) (requests_blend_meta s) t (delta_rope_vllm_ids s) (delta_rope_positions s).
Definition set_delta_rope ids pos (s : BlendState W Tensor) : BlendState W Tensor :=
  BlendSt (b_base s) (requests_blend_meta s) (cos_sin_cache s) ids pos.
(** [super().f()] *)
Definition super {A} (m : M (ConnState W) A) : M (BlendState W Tensor) A := zoom b_base set_base m.
End setters.

(** ** Operations *)
Section blend.
Context {W Tensor : Type} `{Store W}.
Context (md5 : bytes -> bytes) (pickle_dumps : hash_input -> bytes).
Abbreviation ST := (BlendState W Tensor).

(** [self.generate_hash(self.block_size, token_ids, self._seed)] *)
Definition block_hashes (c : ConnConfig) (token_ids : list Z) : list bytes :=
  generate_hash md5 pickle_dumps (request_hasher c) (block_size c) token_ids
    (seed md5 pickle_dumps (request_hasher c)).

(** The variables of the loop that splits the prompt. *)
Record SplitAcc := Split {
  sp_blk : Z;
  sp_token : Z;
  sp_chunks : list ChunkMetaData;
  sp_hashes : list bytes;
}.

(** One block: the index is within the prompt. *)
Definition split_step (b : BlendConfig) (all_token_ids : list Z) (acc : SplitAcc)
    (e : Z * Z) : SplitAcc :=
  let '(end_blk, end_token) := e in
  if bool_decide (py_nth all_token_ids end_token = Some (chunk_end_token_id b)) then
    let chunk_token_ids := slice all_token_ids (sp_token acc) (end_token + 1) in
    let hashes := block_hashes (b_conn b) chunk_token_ids in
    let blks_len := end_blk - sp_blk acc + 1 in
    Split (end_blk + 1) (end_token + 1)
      (sp_chunks acc ++ [Chunk (sp_token acc) (blks_len * block_size (b_conn b)) (sp_blk acc) blks_len 0
                           [] hashes []])
      (sp_hashes acc ++ hashes)
  else acc.

Definition split_chunks (b : BlendConfig) (all_token_ids : list Z) : SplitAcc :=
  let bs := block_size (b_conn b) in
  foldl (split_step b all_token_ids) (Split 0 0 [] [])
    (enumerate (pyrange (bs - 1) (pylen all_token_ids) bs)).

Definition process_req (b : BlendConfig) (all_token_ids : list Z)
  : res (BlendStage * list bytes * list ChunkMetaData * list bytes) :=
  let prefix_block_hashes := block_hashes (b_conn b) all_token_ids in
  let? last := py_idx all_token_ids (-1) in
  if (last =? chunk_end_token_id b) && (pylen all_token_ids mod block_size (b_conn b) =? 0)
  then Ok (BUILD_CHUNK_CACHE, prefix_block_hashes, [], [])
  else
    let acc := split_chunks b all_token_ids in
    match sp_chunks acc with
    | [] => Ok (BUILD_PREFIX_CACHE, prefix_block_hashes, [], sp_hashes acc)
    | ch => Ok (CACHE_BLEND, prefix_block_hashes, ch, sp_hashes acc)
    end.

Fixpoint leading_hits (l : list bool) : Z :=
  match l with
  | true :: l' => 1 + leading_hits l'
  | _ => 0
  end.

Definition count_hits (l : list bool) : Z := zsum ((fun h : bool => if h then 1 else 0) <$> l).

(** The hits and the chunk list as the method leaves it. *)
Definition get_req_chunk_hit (c : ConnConfig) (req_stage : BlendStage)
    (prefix_block_hashes : list bytes) (req_chunks_meta : list ChunkMetaData)
    (req_chunks_hashes : list bytes) : M W (Z * Z * list ChunkMetaData) :=
  let! pc_lookup_results := lookup prefix_block_hashes in
  let pc_hit_blocks := leading_hits pc_lookup_results in
  if negb (is_blend_cache req_stage) then ret (pc_hit_blocks, 0, req_chunks_meta)
  else
    let! chunk_lookup := lookup (slice_from req_chunks_hashes pc_hit_blocks) in
    let results := slice_to pc_lookup_results pc_hit_blocks ++ chunk_lookup in
    let metas := (fun m => with_store_hits (slice results (start_blk_idx m) (end_blk_idx m)) m)
                   <$> req_chunks_meta in
    match metas with
    | [] => raise IndexError
    | first :: rest =>
        let first := update_meta_partial_pc first pc_hit_blocks (block_size c) in
        ret (pc_hit_blocks, count_hits chunk_lookup,
             if chunk_tokens_len first =? 0 then rest else first :: rest)
    end.

(** The dispatch, and the request meta with its chunks' block ids set. *)
Definition generate_blend_dispatch_meta (m : BlendRequestMeta) (vllm_block_ids : list Z)
  : BlendRequestMeta * BlendRequestDispatchMeta :=
  let pc := pc_hit_block_num m in
  let load := (slice_to (ucm_block_hashs m) pc, slice_to vllm_block_ids pc) in
  if is_blend_cache (blend_stage m) then
    let chunks := (fun ch => with_vllm_blk_ids
                     (slice vllm_block_ids (start_blk_idx ch) (end_blk_idx ch)) ch) <$> chunks_meta m in
    (BMeta (ucm_block_hashs m) pc chunks (blend_stage m),
     BDispatch {| load_block_ids := (load.1 ++ concat (hits_chunk_blks_hash <$> chunks),
                                     load.2 ++ concat (hits_vllm_blk_ids <$> chunks));
                  dump_block_ids := ([], []) |} chunks)
  else
    (m, BDispatch {| load_block_ids := load;
                     dump_block_ids := (slice_from (ucm_block_hashs m) pc,
                                        slice vllm_block_ids pc (pylen (ucm_block_hashs m))) |}
          (chunks_meta m)).

Definition post_process_chunk_cache (rope : Tensor -> list Z -> list Z -> Tensor -> M W unit)
    (k_cache : Tensor) (ids positions : list Z) : M ST unit :=
  let! t := gets cos_sin_cache in
  match t with
  | None => raise TypeError
  | Some t => super (call (rope k_cache ids positions t))
  end.

(** [model_cache] is the model's [cos_sin_cache], if the attributes that lead
    to it exist. *)
Definition register_cos_sin_cache (model_cache : option Tensor) : M ST unit :=
  match model_cache with
  | Some t => modify (set_cos_sin_cache (Some t))
  | None => raise TypeError
  end.
Definition setup_model (model_cache : option Tensor) : M ST unit := register_cos_sin_cache model_cache.

(** [self.monitor] is never set: with metrics configured it cannot be read. *)
Definition blend_get_num_new_matched_tokens (b : BlendConfig) (request : Request)
    (num_computed_tokens : Z) : M ST (Z * bool) :=
  let c := b_conn b in
  do! py_assert (num_computed_tokens =? 0) in
  let tokens := all_token_ids request in
  let max_blk_num := pylen tokens / block_size c in
  if max_blk_num =? 0 then ret (0, false)
  else
    let! ' (req_stage, prefix_block_hashes, req_chunks_meta, req_chunks_hashes) :=
      lift_res (process_req b tokens) in
    let! ' (pc_hit_blocks, chunk_hit_blocks, req_chunks_meta) :=
      super (call (get_req_chunk_hit c req_stage prefix_block_hashes req_chunks_meta req_chunks_hashes)) in
    let enough := negb (chunk_hit_blocks <? min_blend_threshold) in
    let req_stage := if enough then req_stage else BUILD_PREFIX_CACHE in
    let req_chunks_meta := if enough then req_chunks_meta else [] in
    let req_block_hashes :=
      if is_blend_cache req_stage then req_chunks_hashes else prefix_block_hashes in
    do! (if metrics_config c then raise AttributeError else ret tt) in
    let pc_hit_tokens := pc_hit_blocks * block_size c in
    let pc_hit_tokens :=
      if pc_hit_tokens =? num_tokens request then pc_hit_tokens - 1 else pc_hit_tokens in
    do! modify (set_blend_meta (insert (request_id request)
          (BMeta req_block_hashes pc_hit_blocks req_chunks_meta req_stage))) in
    ret (pc_hit_tokens, false).

Definition blend_update_state_after_alloc (request : Request) (num_external_tokens : Z) : M ST unit :=
  ret tt.

Definition blend_dispatch (id : string) (m : BlendRequestMeta) (blocks : list Z)
    (acc : UCMBlendConnectorMetadata) : M ST UCMBlendConnectorMetadata :=
  let '(m', d) := generate_blend_dispatch_meta m blocks in
  do! modify (set_blend_meta (insert id m')) in
  ret (od_set id d acc).

Definition blend_dispatch_new (o : SchedulerOutput) (acc : UCMBlendConnectorMetadata)
    (request : NewRequestData) : M ST UCMBlendConnectorMetadata :=
  let id := new_req_id request in
  let! blocks := lift_res (py_idx (new_req_block_ids request) 0) in
  let! metas := gets requests_blend_meta in
  match metas !! id with
  | Some m =>
      let! new_tokens := lift_res (of_option KeyError (od_get id (num_scheduled_tokens o))) in
      blend_dispatch id m blocks acc
  | None => ret acc
  end.

Definition blend_dispatch_cached (o : SchedulerOutput) (new_block_ids : list (option (list (list Z))))
    (acc : UCMBlendConnectorMetadata) (ix : Z * string) : M ST UCMBlendConnectorMetadata :=
  let '(i, id) := ix in
  let! new_tokens := lift_res (of_option KeyError (od_get id (num_scheduled_tokens o))) in
  if new_tokens =? 1 then ret acc
  else
    let! metas := gets requests_blend_meta in
    match metas !! id with
    | Some m =>
        let! nb := lift_res (py_idx new_block_ids i) in
        let! groups := lift_res (of_option TypeError nb) in
        let! blocks := lift_res (py_idx groups 0) in
        blend_dispatch id m blocks acc
    | None => ret acc
    end.

Definition blend_dispatch_old (o : SchedulerOutput) (acc : UCMBlendConnectorMetadata)
    (request : OldCachedRequest) : M ST UCMBlendConnectorMetadata :=
  let id := old_req_id request in
  let! new_tokens := lift_res (of_option KeyError (od_get id (num_scheduled_tokens o))) in
  if new_tokens =? 1 then ret acc
  else
    let! metas := gets requests_blend_meta in
    match metas !! id with
    | Some m =>
        let! blocks := lift_res (py_idx (old_new_block_ids request) 0) in
        blend_dispatch id m blocks acc
    | None => ret acc
    end.

(** The finished requests are popped from the direct connector's table. *)
Definition blend_build_connector_meta (o : SchedulerOutput) : M ST UCMBlendConnectorMetadata :=
  let! acc := for_acc (scheduled_new_reqs o) [] (blend_dispatch_new o) in
  let! acc := match scheduled_cached_reqs o with
              | CachedObject req_ids new_block_ids _ =>
                  for_acc (enumerate req_ids) acc (blend_dispatch_cached o new_block_ids)
              | CachedList reqs => for_acc reqs acc (blend_dispatch_old o)
              end in
  do! super (modify (set_requests_meta (clear_finished (finished_req_ids o)))) in
  ret acc.

(** The chunks of every request of the step. *)
Definition meta_chunks (md : UCMBlendConnectorMetadata) : list ChunkMetaData :=
  concat ((fun e => d_chunks_meta e.2) <$> md).

(** The blocks whose keys are rotated, with the distances. *)
Definition rope_blocks (chunks : list ChunkMetaData) : list Z := concat (hits_vllm_blk_ids <$> chunks).
Definition rope_positions (chunks : list ChunkMetaData) : list Z :=
  concat ((fun ch => py_repeat (position_offset ch) (pylen (hits_vllm_blk_ids ch))) <$> chunks).

Definition blend_bind_connector_metadata (md : UCMBlendConnectorMetadata) : M ST unit :=
  do! super (modify (set_connector_metadata (Some ((fun e => (e.1, b_dispatch e.2)) <$> md)))) in
  let all_hits_vllm_ids := rope_blocks (meta_chunks md) in
  let positions := rope_positions (meta_chunks md) in
  match all_hits_vllm_ids with
  | [] => ret tt
  | _ => modify (set_delta_rope (Some all_hits_vllm_ids) (Some positions))
  end.

Definition blend_clear_connector_metadata : M ST unit :=
  do! super (modify (set_connector_metadata None)) in
  modify (set_delta_rope None None).

(** [kv_caches] gives the key cache of each layer. *)
Definition blend_wait_for_layer_load (rope : Tensor -> list Z -> list Z -> Tensor -> M W unit)
    (kv_caches : list (string * Tensor)) (layer_name : string) : M ST unit :=
  let! ids := gets delta_rope_vllm_ids in
  match ids with
  | None => ret tt
  | Some ids =>
      let! k_cache := lift_res (of_option KeyError (od_get layer_name kv_caches)) in
      let! positions := gets delta_rope_positions in
      post_process_chunk_cache rope k_cache ids (default [] positions)
  end.
End blend.

(** ** Facts: splitting the prompt *)

(** The chunks cover the blocks from [lo] to [hi] one after the other; each is
    named by the hashes of its own tokens and ends in the marker. *)
Fixpoint tiles (md5 : bytes -> bytes) (pickle_dumps : hash_input -> bytes) (b : BlendConfig)
    (toks : list Z) (lo : Z) (chunks : list ChunkMetaData) (hi : Z) : Prop :=
  match chunks with
  | [] => lo = hi
  | ch :: rest =>
      let bs := block_size (b_conn b) in
      start_blk_idx ch = lo /\ 0 < chunk_blks_len ch /\
      start_token_dix ch = lo * bs /\ chunk_tokens_len ch = chunk_blks_len ch * bs /\
      cached_start_position ch = 0 /\ vllm_blk_ids ch = [] /\
      chunk_blks_hash ch = block_hashes md5 pickle_dumps (b_conn b)
                             (slice toks (start_token_dix ch) (end_token_dix ch)) /\
      py_nth toks (end_token_dix ch - 1) = Some (chunk_end_token_id b) /\
      end_token_dix ch <= pylen toks /\
      tiles md5 pickle_dumps b toks (end_blk_idx ch) rest hi
  end.

Section blend_lemmas.
Context (md5 : bytes -> bytes) (pickle_dumps : hash_input -> bytes).
Context (b : BlendConfig).
Abbreviation bs := (block_size (b_conn b)).
Abbreviation hashes := (block_hashes md5 pickle_dumps (b_conn b)).
Abbreviation tiling := (tiles md5 pickle_dumps b).
Context (Hbs : 0 < bs).

Lemma block_ends n :
  0 <= n -> enumerate (pyrange (bs - 1) n bs) = (fun k => (k, bs - 1 + bs * k)) <$> zrange 0 (n / bs).
Proof.
  intros Hn. assert (Hc : cdiv (n - (bs - 1)) bs = n / bs).
  { apply cdiv_unique; [done|]. pose proof (Z.div_mod n bs ltac:(lia)).
    pose proof (Z.mod_pos_bound n bs Hbs). lia. }
  unfold pyrange. rewrite Hc. apply list_eq. intros i. rewrite lookup_enumerate.
  rewrite !list_lookup_fmap. unfold zrange. rewrite list_lookup_fmap, Z.sub_0_r.
  destruct (seq 0 (Z.to_nat (n / bs)) !! i) as [k|] eqn:Hk; [|done]. simpl.
  apply lookup_seq in Hk as [-> _]. simpl. f_equal.
Qed.

Lemma tiles_snoc toks lo chunks mid ch hi :
  tiling toks lo chunks mid -> tiling toks mid [ch] hi -> tiling toks lo (chunks ++ [ch]) hi.
Proof.
  revert lo. induction chunks as [|c0 chunks IH]; intros lo.
  - intros <-. done.
  - cbn [tiles app]. intros (? & ? & ? & ? & ? & ? & ? & ? & ? & Hrest) Hch.
    repeat (split; [done|]). by apply IH.
Qed.

Lemma tiles_le toks lo chunks hi : tiling toks lo chunks hi -> lo <= hi.
Proof.
  revert lo. induction chunks as [|ch chunks IH]; intros lo; cbn [tiles]; [lia|].
  intros (? & ? & ? & ? & ? & ? & ? & ? & ? & Hrest). apply IH in Hrest. unfold end_blk_idx in Hrest. lia.
Qed.

(** The loop after [n] blocks. *)
Lemma split_loop toks (n : nat) :
  Z.of_nat n <= pylen toks / bs ->
  let acc := foldl (split_step md5 pickle_dumps b toks) (Split 0 0 [] [])
               ((fun k => (k, bs - 1 + bs * k)) <$> zrange 0 (Z.of_nat n)) in
  0 <= sp_blk acc <= Z.of_nat n /\ sp_token acc = sp_blk acc * bs /\
  tiling toks 0 (sp_chunks acc) (sp_blk acc) /\
  sp_hashes acc = concat (chunk_blks_hash <$> sp_chunks acc) /\
  Forall (fun ch => store_hits ch = []) (sp_chunks acc) /\
  forall k, sp_blk acc <= k < Z.of_nat n -> py_nth toks (bs - 1 + bs * k) <> Some (chunk_end_token_id b).
Proof.
  induction n as [|n IH]; intros Hn.
  - rewrite zrange_nil by lia. cbn. do 4 (split; [lia||done|]). split; [constructor|]. lia.
  - rewrite (zrange_app 0 (Z.of_nat n)) by lia. rewrite fmap_app, foldl_app.
    rewrite (zrange_cons (Z.of_nat n)), (zrange_nil (Z.of_nat n + 1)) by lia.
    specialize (IH ltac:(lia)). cbn zeta in IH |- *.
    set (acc := foldl _ _ _) in *. clearbody acc.
    destruct IH as (Hb & Ht & Hti & Hh & Hst & Hno). cbn [fmap list_fmap foldl].
    unfold split_step. case_bool_decide as Hm.
    + cbn [sp_blk sp_token sp_chunks sp_hashes]. split; [lia|]. split; [lia|].
      assert (Hpl : bs * (Z.of_nat n + 1) <= pylen toks) by nia.
      split; [|split; [|split]].
      * eapply tiles_snoc; [exact Hti|]. cbn [tiles]. unfold end_token_dix, end_blk_idx.
        cbn [start_blk_idx chunk_blks_len start_token_dix chunk_tokens_len cached_start_position
             vllm_blk_ids chunk_blks_hash].
        split; [done|]. split; [lia|]. split; [done|]. split; [done|]. split; [done|]. split; [done|].
        rewrite Ht. replace (sp_blk acc * bs + (Z.of_nat n - sp_blk acc + 1) * bs)
          with (bs - 1 + bs * Z.of_nat n + 1) by lia.
        split; [done|]. split; [by replace (bs - 1 + bs * Z.of_nat n + 1 - 1) with (bs - 1 + bs * Z.of_nat n) by lia|].
        split; lia.
      * by rewrite fmap_app, concat_app, Hh; cbn [fmap list_fmap concat]; rewrite app_nil_r.
      * apply Forall_app. split; [done|]. by constructor.
      * intros k Hk. lia.
    + split; [lia|]. repeat (split; [done|]). intros k Hk.
      destruct (decide (k = Z.of_nat n)) as [->|?]; [done|]. apply Hno. lia.
Qed.

Lemma split_chunks_spec toks :
  let acc := split_chunks md5 pickle_dumps b toks in
  0 <= sp_blk acc <= pylen toks / bs /\
  tiling toks 0 (sp_chunks acc) (sp_blk acc) /\
  sp_hashes acc = concat (chunk_blks_hash <$> sp_chunks acc) /\
  Forall (fun ch => store_hits ch = []) (sp_chunks acc) /\
  forall k, sp_blk acc <= k < pylen toks / bs -> py_nth toks (bs - 1 + bs * k) <> Some (chunk_end_token_id b).
Proof.
  unfold split_chunks. rewrite block_ends by apply pylen_nonneg.
  assert (0 <= pylen toks / bs) by (apply Z.div_pos; [apply pylen_nonneg|done]).
  pose proof (split_loop toks (Z.to_nat (pylen toks / bs)) ltac:(lia)) as Hl.
  rewrite Z2Nat.id in Hl by done. cbn zeta in *. naive_solver.
Qed.

Lemma chunk_hash_length toks lo ch rest hi :
  0 <= lo -> tiling toks lo (ch :: rest) hi -> pylen (chunk_blks_hash ch) = chunk_blks_len ch.
Proof.
  intros Hlo. cbn [tiles]. intros (? & ? & Hs & Hl & ? & ? & Hh & ? & He & ?).
  rewrite Hh. unfold block_hashes. rewrite pylen_generate_hash by done.
  unfold end_token_dix in *. assert (0 <= lo * bs) by (apply Z.mul_nonneg_nonneg; lia).
  assert (0 < chunk_blks_len ch * bs) by (apply Z.mul_pos_pos; lia).
  rewrite pylen_slice by lia. rewrite Hs, Hl.
  rewrite Z.min_l by lia. replace (lo * bs + chunk_blks_len ch * bs - lo * bs) with (chunk_blks_len ch * bs) by lia.
  rewrite Z.max_r by lia. apply Z.div_mul. lia.
Qed.

Lemma tiles_hash_length toks lo chunks hi :
  0 <= lo -> tiling toks lo chunks hi -> pylen (concat (chunk_blks_hash <$> chunks)) = hi - lo.
Proof.
  revert lo. induction chunks as [|ch chunks IH]; intros lo Hlo Ht.
  - cbn [tiles] in Ht. simpl. rewrite pylen_nil. lia.
  - cbn [fmap list_fmap concat]. rewrite pylen_app, (chunk_hash_length toks lo ch chunks hi) by done.
    cbn [tiles] in Ht. destruct Ht as (<- & ? & ? & ? & ? & ? & ? & ? & ? & Ht). unfold end_blk_idx in Ht.
    rewrite (IH (start_blk_idx ch + chunk_blks_len ch) ltac:(lia) Ht). lia.
Qed.

(** The first chunk's hashes are those of the prompt's first blocks. *)
Lemma first_chunk_prefix toks ch rest hi i h :
  tiling toks 0 (ch :: rest) hi -> chunk_blks_hash ch !! i = Some h -> hashes toks !! i = Some h.
Proof.
  cbn [tiles]. intros (? & ? & Hs & Hl & ? & ? & Hh & ? & He & ?). rewrite Hh. unfold block_hashes.
  rewrite !generate_hash_chain by done. rewrite Hs. rewrite Z.mul_0_l.
  change (slice toks 0 (end_token_dix ch)) with (slice_to toks (end_token_dix ch)).
  assert (Hd : 0 <= end_token_dix ch) by (unfold end_token_dix; nia).
  rewrite slice_to_take by done.
  destruct (full_blocks_app bs (take (Z.to_nat (end_token_dix ch)) toks)
              (drop (Z.to_nat (end_token_dix ch)) toks) Hbs) as [more Hmore].
  rewrite take_drop in Hmore. rewrite Hmore.
  set (f := full_blocks _ (take _ _)). intros Hi.
  assert (Hc : forall p l l', exists t, chain md5 pickle_dumps (request_hasher (b_conn b)) p (l ++ l') =
                 chain md5 pickle_dumps (request_hasher (b_conn b)) p l ++ t).
  { intros p l. revert p. induction l as [|x l IHl]; intros p l'; [by eexists|]. cbn [chain app].
    destruct (IHl (hash_call md5 pickle_dumps (request_hasher (b_conn b)) (HBlock p x)) l') as [t ->].
    by exists t. }
  destruct (Hc (seed md5 pickle_dumps (request_hasher (b_conn b))) f more) as [t ->].
  by apply lookup_app_l_Some.
Qed.
End blend_lemmas.

(** ** Facts: the hits *)

Lemma compress_app {A} (l1 l2 : list A) s1 s2 :
  length l1 = length s1 -> compress (l1 ++ l2) (s1 ++ s2) = compress l1 s1 ++ compress l2 s2.
Proof.
  revert s1. induction l1 as [|x l1 IH]; intros [|[] s1] Hl; simplify_eq/=; [done|by rewrite IH|by apply IH].
Qed.

Lemma compress_take {A} (l : list A) s : compress (take (length s) l) s = compress l s.
Proof. revert s. induction l as [|x l IH]; intros [|[] s]; simpl; try done. by rewrite IH. Qed.

Lemma compress_replicate {A B} (x : A) (l : list B) s :
  compress (replicate (length l) x) s = replicate (length (compress l s)) x.
Proof. revert s. induction l as [|y l IH]; intros [|[] s]; simpl; try done. by rewrite IH. Qed.

Lemma compress_prefix {A} (l : list A) s (k : nat) :
  (k <= length l)%nat -> (forall i, (i < k)%nat -> s !! i = Some true) ->
  compress l s = take k l ++ compress (drop k l) (drop k s).
Proof.
  revert l s. induction k as [|k IH]; intros [|x l] s Hk Hs; simpl in Hk; try done; try lia.
  pose proof (Hs 0%nat ltac:(lia)) as H0. destruct s as [|a s]; [done|]. injection H0 as ->.
  simpl. f_equal. apply IH; [lia|]. intros i Hi. by apply (Hs (S i)); lia.
Qed.

Lemma leading_hits_spec l :
  0 <= leading_hits l <= pylen l /\ forall i, Z.of_nat i < leading_hits l -> l !! i = Some true.
Proof.
  induction l as [|[] l [IH1 IH2]]; cbn [leading_hits]; rewrite ?pylen_nil, ?pylen_cons.
  - split; [by unfold pylen|]. intros i Hi. lia.
  - split; [lia|]. intros [|i] Hi; [done|]. apply IH2. lia.
  - split; [pose proof (pylen_nonneg l); lia|]. intros i Hi. lia.
Qed.

Lemma take_leading_hits l : take (Z.to_nat (leading_hits l)) l = py_repeat true (leading_hits l).
Proof.
  induction l as [|[] l IH]; [done| |done]. cbn [leading_hits]. destruct (leading_hits_spec l) as [Hb _].
  unfold py_repeat in *. rewrite Z2Nat.inj_add by lia. change (Z.to_nat 1) with 1%nat. cbn [Nat.add take replicate]. by rewrite IH.
Qed.

Section hits.
Context (md5 : bytes -> bytes) (pickle_dumps : hash_input -> bytes).
Context (b : BlendConfig) (toks : list Z).
Abbreviation bs := (block_size (b_conn b)).
Abbreviation tiling := (tiles md5 pickle_dumps b toks).

Lemma compress_chunks {A} (X : ChunkMetaData -> list A) lo chunks hi R :
  0 <= lo -> tiling lo chunks hi -> hi <= pylen R ->
  (forall ch, ch ∈ chunks -> pylen (X ch) = chunk_blks_len ch) ->
  compress (concat (X <$> chunks)) (slice R lo hi) =
  concat ((fun ch => compress (X ch) (slice R (start_blk_idx ch) (end_blk_idx ch))) <$> chunks).
Proof.
  revert lo. induction chunks as [|ch chunks IH]; intros lo Hlo Ht Hhi HX.
  - cbn [tiles] in Ht. subst. done.
  - cbn [tiles] in Ht. destruct Ht as (Hst & Hpos & _ & _ & _ & _ & _ & _ & _ & Ht).
    pose proof (tiles_le _ _ _ _ _ _ _ Ht) as Hle. pose proof (HX ch ltac:(left)) as Hch.
    unfold end_blk_idx in *. cbn [fmap list_fmap concat].
    rewrite <- (slice_app_adj R lo (start_blk_idx ch + chunk_blks_len ch)) by lia.
    rewrite compress_app.
    2:{ pose proof (pylen_slice R lo (start_blk_idx ch + chunk_blks_len ch) ltac:(lia) ltac:(lia)).
        unfold pylen in *. lia. }
    rewrite IH by (try done; try lia; intros; apply HX; by right). by rewrite Hst.
Qed.

(** Without the first [pc] blocks of the first chunk. *)
Lemma compress_chunks_drop {A} (X : ChunkMetaData -> list A) first rest hi (R : list bool) (pc : nat) :
  tiling 0 (first :: rest) hi -> hi = pylen R ->
  (forall ch, ch ∈ first :: rest -> pylen (X ch) = chunk_blks_len ch) ->
  Z.of_nat pc <= chunk_blks_len first ->
  compress (drop pc (concat (X <$> first :: rest))) (drop pc R) =
  compress (drop pc (X first)) (drop pc (slice R (start_blk_idx first) (end_blk_idx first))) ++
  concat ((fun ch => compress (X ch) (slice R (start_blk_idx ch) (end_blk_idx ch))) <$> rest).
Proof.
  intros Ht Hhi HX Hpc. pose proof (HX first ltac:(left)) as Hf. cbn [tiles] in Ht.
  destruct Ht as (Hst & Hpos & _ & _ & _ & _ & _ & _ & _ & Ht).
  pose proof (tiles_le _ _ _ _ _ _ _ Ht) as Hle. unfold end_blk_idx in *. rewrite Hst in *.
  rewrite fmap_cons. cbn [concat]. rewrite drop_app_le by (unfold pylen in *; lia).
  assert (HR : R = slice R 0 (0 + chunk_blks_len first) ++ slice R (0 + chunk_blks_len first) hi).
  { rewrite slice_app_adj by lia. by rewrite slice_full by lia. }
  pose proof (pylen_slice R 0 (0 + chunk_blks_len first) ltac:(lia) ltac:(lia)) as Hl.
  rewrite HR at 1. rewrite drop_app_le by (unfold pylen in *; lia).
  rewrite compress_app by (rewrite !length_drop; unfold pylen in *; lia).
  f_equal. apply compress_chunks; try done; try lia.
  intros; apply HX. by right.
Qed.
End hits.

(** The chunks a lookup leaves, given a hit flag per chunk block. *)
Definition chunks_after_lookup (bs pc : Z) (R : list bool) (first : ChunkMetaData)
    (rest : list ChunkMetaData) : list ChunkMetaData :=
  let hit m := with_store_hits (slice R (start_blk_idx m) (end_blk_idx m)) m in
  let first' := update_meta_partial_pc (hit first) pc bs in
  if chunk_tokens_len first' =? 0 then hit <$> rest else first' :: (hit <$> rest).

Definition with_blocks (vids : list Z) (ch : ChunkMetaData) : ChunkMetaData :=
  with_vllm_blk_ids (slice vids (start_blk_idx ch) (end_blk_idx ch)) ch.

(** The distance every block of the prompt's chunks has moved. *)
Definition chunk_offsets (ch : ChunkMetaData) : list Z :=
  py_repeat (start_token_dix ch) (chunk_blks_len ch).
Definition block_offsets (chunks : list ChunkMetaData) : list Z := concat (chunk_offsets <$> chunks).

Section lookups.
Context {W D : Type} `{StoreLaws W D}.

Lemma get_hit_spec c prefix first rest hashes pc n chunks' w w' :
  get_req_chunk_hit c CACHE_BLEND prefix (first :: rest) hashes w = (Ok (pc, n, chunks'), w') ->
  pc <= pylen hashes ->
  exists pre w1 rs, lookup prefix w = (Ok pre, w1) /\ pc = leading_hits pre /\
    lookup (drop (Z.to_nat pc) hashes) w1 = (Ok rs, w') /\
    let R := py_repeat true pc ++ rs in pylen R = pylen hashes /\ 0 <= pc /\
    (forall i : nat, Z.of_nat i < pc -> R !! i = Some true) /\
    (forall (i : nat) h, Z.of_nat i < pc -> prefix !! i = Some h -> held w h) /\
    (forall (i : nat) h, pc <= Z.of_nat i -> R !! i = Some true -> hashes !! i = Some h -> held w h) /\
    n = count_hits (drop (Z.to_nat pc) R) /\
    chunks' = chunks_after_lookup (block_size c) pc R first rest.
Proof.
  unfold get_req_chunk_hit. cbn [negb is_blend_cache]. intros Hg Hpc.
  apply bind_inv_ok in Hg as (pre & w1 & Hq1 & Hg). cbn beta zeta in Hg.
  change (negb (is_blend_cache CACHE_BLEND)) with false in Hg. cbn [negb] in Hg. cbv iota in Hg.
  apply bind_inv_ok in Hg as (rs & w2 & Hq2 & Hg). unfold ret in Hg. injection Hg as Hpc' <- <- <-.
  rewrite Hpc' in *. destruct (leading_hits_spec pre) as [Hb Hlead]. rewrite Hpc' in *.
  pose proof (lookup_ok _ _ _ _ Hq1) as L1. pose proof (lookup_ok _ _ _ _ Hq2) as L2.
  rewrite slice_from_drop in Hq2, L2 by lia. rewrite length_drop in L2.
  exists pre, w1, rs. split; [done|]. split; [done|]. split; [done|]. rewrite slice_to_take by lia.
  assert (Hl : length (take (Z.to_nat pc) pre) = Z.to_nat pc).
  { rewrite length_take. unfold pylen in *. lia. }
  assert (Htr : take (Z.to_nat pc) pre = py_repeat true pc).
  { rewrite <- Hpc'. apply take_leading_hits. }
  rewrite <- Htr. cbv zeta.
  split; [rewrite pylen_app; unfold pylen in *; lia|]. split; [lia|].
  split; [intros i Hi; rewrite lookup_app_l, lookup_take_lt by lia; by apply Hlead|].
  split; [intros i h Hi Hh; apply (lookup_hit _ _ _ _ i h Hq1 Hh); by apply Hlead|].
  split.
  - intros i h Hi HR Hh. rewrite lookup_app_r in HR by lia. rewrite Hl in HR.
    apply (lookup_held prefix w). rewrite Hq1. cbn [snd].
    apply (lookup_hit _ _ _ _ (i - Z.to_nat pc) h Hq2); [|done].
    rewrite lookup_drop. rewrite <- Hh. f_equal. lia.
  - split; [|done]. f_equal. by rewrite drop_app_length'.
Qed.
End lookups.

Section after.
Context (md5 : bytes -> bytes) (pickle_dumps : hash_input -> bytes).
Context (b : BlendConfig) (toks : list Z) (Hbs : 0 < block_size (b_conn b)).
Abbreviation bs := (block_size (b_conn b)).
Context (first : ChunkMetaData) (rest : list ChunkMetaData) (hi : Z) (R : list bool) (pc : Z).
Context (Ht : tiles md5 pickle_dumps b toks 0 (first :: rest) hi) (HR : pylen R = hi)
  (Hpc : 0 <= pc <= chunk_blks_len first).

(** A per-block list [X] of every chunk, read through the hits of the chunks the
    lookup leaves, is the list of all the blocks after the prefix, compressed. *)
Lemma after_lookup_compress {A} (X : ChunkMetaData -> list A) (G : ChunkMetaData -> list A) vids :
  (forall ch, ch ∈ first :: rest -> pylen (X ch) = chunk_blks_len ch) ->
  (forall ch, ch ∈ rest ->
     G (with_blocks vids (with_store_hits (slice R (start_blk_idx ch) (end_blk_idx ch)) ch)) =
     compress (X ch) (slice R (start_blk_idx ch) (end_blk_idx ch))) ->
  (G (with_blocks vids (update_meta_partial_pc
        (with_store_hits (slice R (start_blk_idx first) (end_blk_idx first)) first) pc bs)) =
     compress (drop (Z.to_nat pc) (X first))
       (drop (Z.to_nat pc) (slice R (start_blk_idx first) (end_blk_idx first)))) ->
  concat (G <$> (with_blocks vids <$> chunks_after_lookup bs pc R first rest)) =
  compress (drop (Z.to_nat pc) (concat (X <$> first :: rest))) (drop (Z.to_nat pc) R).
Proof.
  intros HX Hrest Hfirst.
  rewrite (compress_chunks_drop _ _ _ _ X first rest hi R) by (done || lia).
  assert (Hr : concat (G <$> (with_blocks vids <$> ((fun m => with_store_hits
                  (slice R (start_blk_idx m) (end_blk_idx m)) m) <$> rest))) =
               concat ((fun ch => compress (X ch) (slice R (start_blk_idx ch) (end_blk_idx ch))) <$> rest)).
  { f_equal. rewrite <- !list_fmap_compose. apply list_fmap_ext. intros i ch Hch.
    apply Hrest. by eapply list_elem_of_lookup_2. }
  unfold chunks_after_lookup. destruct (Z.eqb_spec (chunk_tokens_len (update_meta_partial_pc
    (with_store_hits (slice R (start_blk_idx first) (end_blk_idx first)) first) pc bs)) 0) as [He|He].
  - rewrite Hr. cbn [tiles] in Ht. destruct Ht as (Hst & Hpos & _ & Hlen & _).
    assert (Hpe : pc = chunk_blks_len first).
    { unfold update_meta_partial_pc in He. destruct (pc >? 0) eqn:?; simpl in He; nia. }
    rewrite drop_ge; [done|]. pose proof (HX first ltac:(left)). unfold pylen in *. lia.
  - rewrite !fmap_cons. cbn [concat]. by rewrite Hfirst, Hr.
Qed.
End after.

Section dispatch.
Context (md5 : bytes -> bytes) (pickle_dumps : hash_input -> bytes).
Context (b : BlendConfig) (toks : list Z) (Hbs : 0 < block_size (b_conn b)).
Abbreviation bs := (block_size (b_conn b)).

Lemma tiles_elem lo chunks top ch :
  0 <= lo -> tiles md5 pickle_dumps b toks lo chunks top -> ch ∈ chunks ->
  0 <= start_blk_idx ch /\ 0 < chunk_blks_len ch /\ end_blk_idx ch <= top /\
  start_token_dix ch = start_blk_idx ch * bs /\ cached_start_position ch = 0 /\
  pylen (chunk_blks_hash ch) = chunk_blks_len ch.
Proof.
  revert lo. induction chunks as [|c0 chunks IH]; intros lo Hlo Hti Hin; [set_solver|].
  pose proof (chunk_hash_length _ _ _ Hbs toks lo c0 chunks top Hlo Hti) as Hh.
  cbn [tiles] in Hti. destruct Hti as (Hst & Hpos & Htok & _ & Hca & _ & _ & _ & _ & Hti).
  pose proof (tiles_le _ _ _ _ _ _ _ Hti). apply elem_of_cons in Hin as [->|Hin].
  - rewrite Hst. repeat (split; [done || lia|]). done.
  - apply (IH (end_blk_idx c0)); [unfold end_blk_idx; lia|done..].
Qed.

Lemma slice_from_sub {A} (l : list A) lo mid top :
  0 <= lo -> 0 <= mid -> lo + mid <= top -> drop (Z.to_nat mid) (slice l lo top) = slice l (lo + mid) top.
Proof.
  intros. rewrite !slice_nonneg by lia. apply list_eq. intros i.
  rewrite lookup_drop, !lookup_take, !lookup_drop. 
  replace (Z.to_nat lo + (Z.to_nat mid + i))%nat with (Z.to_nat (lo + mid) + i)%nat by lia.
  repeat case_decide; (done || lia).
Qed.

Context (first : ChunkMetaData) (rest : list ChunkMetaData) (hi : Z) (R : list bool) (pc : Z).
Context (Ht : tiles md5 pickle_dumps b toks 0 (first :: rest) hi) (HR : pylen R = hi)
  (Hpc : 0 <= pc <= chunk_blks_len first).
Context (vids : list Z) (Hv : hi <= pylen vids).
Abbreviation after := (chunks_after_lookup bs pc R first rest).

Lemma update_partial_fields ch :
  start_blk_idx (update_meta_partial_pc ch pc bs) = start_blk_idx ch + pc /\
  end_blk_idx (update_meta_partial_pc ch pc bs) = end_blk_idx ch /\
  position_offset (update_meta_partial_pc ch pc bs) = position_offset ch /\
  chunk_blks_hash (update_meta_partial_pc ch pc bs) = drop (Z.to_nat pc) (chunk_blks_hash ch) /\
  store_hits (update_meta_partial_pc ch pc bs) = drop (Z.to_nat pc) (store_hits ch).
Proof.
  unfold update_meta_partial_pc, end_blk_idx, position_offset. destruct (Z.gtb_spec pc 0); simpl.
  - rewrite !slice_from_drop by lia. repeat split; lia.
  - replace pc with 0 by lia. rewrite !drop_0. repeat split; lia.
Qed.

Lemma after_hashes :
  concat (hits_chunk_blks_hash <$> (with_blocks vids <$> after)) =
  compress (drop (Z.to_nat pc) (concat (chunk_blks_hash <$> first :: rest))) (drop (Z.to_nat pc) R).
Proof.
  eapply (after_lookup_compress md5 pickle_dumps b toks Hbs first rest hi R pc Ht HR Hpc).
  - intros ch Hch. by eapply (tiles_elem 0).
  - done.
  - unfold hits_chunk_blks_hash. cbn [with_blocks with_vllm_blk_ids chunk_blks_hash store_hits].
    destruct (update_partial_fields (with_store_hits (slice R (start_blk_idx first) (end_blk_idx first)) first))
      as (_ & _ & _ & -> & ->). done.
Qed.

Lemma after_vllm_first :
  vllm_blk_ids (with_blocks vids (update_meta_partial_pc
    (with_store_hits (slice R (start_blk_idx first) (end_blk_idx first)) first) pc bs)) =
  drop (Z.to_nat pc) (slice vids (start_blk_idx first) (end_blk_idx first)).
Proof.
  cbn [with_blocks with_vllm_blk_ids vllm_blk_ids].
  destruct (update_partial_fields (with_store_hits (slice R (start_blk_idx first) (end_blk_idx first)) first))
    as (-> & -> & _). cbn [with_store_hits start_blk_idx end_blk_idx].
  destruct (tiles_elem 0 (first :: rest) hi first ltac:(lia) Ht ltac:(left)) as (? & ? & ? & _).
  unfold end_blk_idx in *. by rewrite slice_from_sub by (simpl; lia).
Qed.

Lemma after_vllm_ids :
  rope_blocks (with_blocks vids <$> after) =
  compress (drop (Z.to_nat pc) vids) (drop (Z.to_nat pc) R).
Proof.
  unfold rope_blocks. etransitivity.
  - eapply (after_lookup_compress md5 pickle_dumps b toks Hbs first rest hi R pc Ht HR Hpc
              (fun ch => slice vids (start_blk_idx ch) (end_blk_idx ch))).
    + intros ch Hch. destruct (tiles_elem 0 _ _ ch ltac:(lia) Ht Hch) as (? & ? & ? & _).
      unfold end_blk_idx in *. rewrite pylen_slice by lia. lia.
    + done.
    + unfold hits_vllm_blk_ids. rewrite after_vllm_first. cbn [with_blocks with_vllm_blk_ids store_hits].
      by destruct (update_partial_fields (with_store_hits (slice R (start_blk_idx first) (end_blk_idx first)) first))
        as (_ & _ & _ & _ & ->).
  - rewrite <- (compress_take (drop (Z.to_nat pc) vids)). f_equal. rewrite length_drop.
    rewrite take_drop_commute. f_equal.
    assert (Hs : forall chunks lo, 0 <= lo -> tiles md5 pickle_dumps b toks lo chunks hi ->
              concat ((fun ch => slice vids (start_blk_idx ch) (end_blk_idx ch)) <$> chunks) = slice vids lo hi).
    { induction chunks as [|ch chunks IH]; intros lo Hlo Hti.
      - cbn [tiles] in Hti. subst. by rewrite slice_empty by lia.
      - rewrite fmap_cons. cbn [concat]. cbn [tiles] in Hti.
        destruct Hti as (Hst & Hpos & _ & _ & _ & _ & _ & _ & _ & Hti).
        pose proof (tiles_le _ _ _ _ _ _ _ Hti). rewrite (IH (end_blk_idx ch)); [|unfold end_blk_idx; lia|done].
        rewrite Hst. apply slice_app_adj; unfold end_blk_idx in *; lia. }
    rewrite (Hs _ 0 ltac:(lia) Ht). change (slice vids 0 hi) with (slice_to vids hi).
    pose proof (tiles_le _ _ _ _ _ _ _ Ht). rewrite slice_to_take by lia. f_equal.
    destruct (tiles_elem 0 (first :: rest) hi first ltac:(lia) Ht ltac:(left)) as (? & ? & ? & _).
    unfold end_blk_idx, pylen in *. lia.
Qed.

Lemma after_positions :
  rope_positions (with_blocks vids <$> after) =
  compress (drop (Z.to_nat pc) (block_offsets (first :: rest))) (drop (Z.to_nat pc) R).
Proof.
  unfold rope_positions, block_offsets.
  apply (after_lookup_compress md5 pickle_dumps b toks Hbs first rest hi R pc Ht HR Hpc chunk_offsets
           (fun ch => py_repeat (position_offset ch) (pylen (hits_vllm_blk_ids ch))) vids).
  - intros ch Hch. destruct (tiles_elem 0 _ _ ch ltac:(lia) Ht Hch) as (? & ? & _).
    unfold chunk_offsets. by rewrite pylen_repeat by lia.
  - intros ch Hch. destruct (tiles_elem 0 _ _ ch ltac:(lia) Ht ltac:(by right)) as (? & ? & ? & ? & Hca & _).
    unfold position_offset, hits_vllm_blk_ids, chunk_offsets.
    cbn [with_blocks with_vllm_blk_ids with_store_hits start_token_dix cached_start_position vllm_blk_ids
         store_hits start_blk_idx end_blk_idx]. rewrite Hca, Z.sub_0_r. unfold end_blk_idx in *.
    set (v := slice vids _ _). assert (Hl : Z.to_nat (chunk_blks_len ch) = length v).
    { pose proof (pylen_slice vids (start_blk_idx ch) (start_blk_idx ch + chunk_blks_len ch)
        ltac:(lia) ltac:(lia)) as Hp. change (slice vids _ _) with v in Hp. unfold pylen in *. lia. }
    unfold py_repeat, pylen. rewrite Hl, compress_replicate. f_equal. lia.
  - destruct (tiles_elem 0 _ _ first ltac:(lia) Ht ltac:(left)) as (? & ? & ? & ? & Hca & _).
    unfold hits_vllm_blk_ids. rewrite after_vllm_first. unfold position_offset at 1.
    cbn [with_blocks with_vllm_blk_ids store_hits start_token_dix cached_start_position].
    destruct (update_partial_fields (with_store_hits (slice R (start_blk_idx first) (end_blk_idx first)) first))
      as (_ & _ & Ho & _ & ->). unfold position_offset in Ho. rewrite Ho.
    cbn [with_store_hits start_token_dix cached_start_position store_hits]. rewrite Hca, Z.sub_0_r.
    unfold chunk_offsets, py_repeat. rewrite drop_replicate.
    set (v := slice vids _ _). assert (Hl : Z.to_nat (chunk_blks_len first) = length v).
    { pose proof (pylen_slice vids (start_blk_idx first) (end_blk_idx first)) as Hp.
      change (slice vids _ _) with v in Hp. unfold end_blk_idx, pylen in *. lia. }
    rewrite Hl, <- length_drop, compress_replicate. f_equal. unfold pylen. lia.
Qed.
End dispatch.

(** The branches of [process_req]. *)
Lemma process_req_cases md5 pickle_dumps b toks stage prefix chunks hashes :
  process_req md5 pickle_dumps b toks = Ok (stage, prefix, chunks, hashes) ->
  prefix = block_hashes md5 pickle_dumps (b_conn b) toks /\
  exists last, py_nth toks (-1) = Some last /\
  ((stage = BUILD_CHUNK_CACHE /\ last = chunk_end_token_id b /\
    pylen toks mod block_size (b_conn b) = 0 /\ chunks = [] /\ hashes = []) \/
   (~ (last = chunk_end_token_id b /\ pylen toks mod block_size (b_conn b) = 0) /\
    stage = (match chunks with [] => BUILD_PREFIX_CACHE | _ => CACHE_BLEND end) /\
    chunks = sp_chunks (split_chunks md5 pickle_dumps b toks) /\
    hashes = sp_hashes (split_chunks md5 pickle_dumps b toks))).
Proof.
  intros Hp. unfold process_req, py_idx in Hp.
  destruct (py_nth toks (-1)) as [last|]; [|done]. cbn [of_option] in Hp.
  destruct ((last =? chunk_end_token_id b) && (pylen toks mod block_size (b_conn b) =? 0)) eqn:Hc.
  - apply andb_prop in Hc as [Hl%Z.eqb_eq Hc%Z.eqb_eq]. injection Hp as <- <- <- <-.
    split; [done|]. exists last. split; [done|]. by left.
  - assert (Hne : ~ (last = chunk_end_token_id b /\ pylen toks mod block_size (b_conn b) = 0)).
    { intros [-> Hm]. by rewrite Hm, Z.eqb_refl in Hc. }
    destruct (sp_chunks _); injection Hp as <- <- <- <-;
      (split; [done|]); exists last; (split; [done|]); by right.
Qed.

Lemma process_req_tiles md5 pickle_dumps b toks stage prefix chunks hashes :
  0 < block_size (b_conn b) ->
  process_req md5 pickle_dumps b toks = Ok (stage, prefix, chunks, hashes) ->
  exists hi, tiles md5 pickle_dumps b toks 0 chunks hi /\ pylen hashes = hi /\
    hashes = concat (chunk_blks_hash <$> chunks) /\ 0 <= hi /\
    (stage <> BUILD_CHUNK_CACHE -> forall k, hi <= k < pylen toks / block_size (b_conn b) ->
       py_nth toks (block_size (b_conn b) - 1 + block_size (b_conn b) * k) <> Some (chunk_end_token_id b)).
Proof.
  intros Hbs (_ & last & _ & [(-> & _ & _ & -> & ->)|(_ & _ & -> & ->)])%process_req_cases; [by exists 0|].
  destruct (split_chunks_spec md5 pickle_dumps b Hbs toks) as (Hb & Ht & Hh & _ & Hno).
  pose proof (tiles_hash_length _ _ _ Hbs _ 0 _ _ ltac:(lia) Ht) as Hlen. rewrite <- Hh, Z.sub_0_r in Hlen.
  eexists. split; [exact Ht|]. split; [done|]. split; [done|]. split; [lia|]. intros _. exact Hno.
Qed.

(** A request that is left in the cache-blend stage has gone through the lookup. *)
Lemma blend_meta_inv {W Tensor : Type} `{Store W} md5 pickle_dumps b r (s s' : BlendState W Tensor) t
    prefix first rest hashes m :
  0 < block_size (b_conn b) ->
  process_req md5 pickle_dumps b (all_token_ids r) = Ok (CACHE_BLEND, prefix, first :: rest, hashes) ->
  blend_get_num_new_matched_tokens md5 pickle_dumps b r 0 s = (Ok (t, false), s') ->
  requests_blend_meta s' !! request_id r = Some m -> blend_stage m = CACHE_BLEND ->
  exists pc n chunks' w',
    get_req_chunk_hit (b_conn b) CACHE_BLEND prefix (first :: rest) hashes (world (b_base s)) =
      (Ok (pc, n, chunks'), w') /\
    m = BMeta hashes pc chunks' CACHE_BLEND.
Proof.
  intros Hbs Hp Hg Hm Hst.
  destruct (process_req_tiles _ _ _ _ _ _ _ _ Hbs Hp) as (hi & Ht & Hlen & Hha & _).
  unfold blend_get_num_new_matched_tokens in Hg. rewrite bind_assert in Hg by done.
  destruct (pylen (all_token_ids r) / block_size (b_conn b) =? 0) eqn:Hz.
  { exfalso. cbn [tiles] in Ht. destruct Ht as (_ & Hpos & Hs & Hl & _ & _ & _ & _ & Hend & _).
    unfold end_token_dix in Hend. assert (1 <= pylen (all_token_ids r) / block_size (b_conn b)).
    { apply Z.div_le_lower_bound; nia. }
    lia. }
  rewrite (bind_ok _ _ s (CACHE_BLEND, prefix, first :: rest, hashes) s) in Hg by (unfold lift_res; by rewrite Hp).
  cbv beta iota in Hg. apply bind_inv_ok in Hg as ([[pc0 n] chunks'] & s1 & Hh & Hg).
  unfold super, call, zoom in Hh.
  destruct (get_req_chunk_hit _ _ _ _ _ _) as [[?|?] w'] eqn:Hgh; [|done].
  injection Hh as -> <-. cbv beta iota zeta in Hg.
  apply bind_inv_ok in Hg as ([] & s2 & Hq & Hg).
  destruct (metrics_config (b_conn b)); [done|]. injection Hq as <-.
  injection Hg as _ <-. cbn [requests_blend_meta set_blend_meta] in Hm.
  rewrite lookup_insert_eq in Hm. injection Hm as <-.
  cbn [blend_stage] in Hst. destruct (n <? min_blend_threshold); [done|]. cbn [negb] in *.
  by exists pc0, n, chunks', w'.
Qed.

(** ** Properties *)

(** Splitting a prompt: the chunks found cover the prompt's blocks from the
    first on, without gap or overlap, up to the last block that ends in the
    marker; each chunk ends in the marker and is named by its own tokens
    alone, wherever it stands, one hash per block; the stage is cache blend exactly when there is
    a chunk, and a prompt that is itself one padded chunk is only built. *)
Theorem process_req_splits md5 pickle_dumps b toks stage prefix chunks hashes :
  0 < block_size (b_conn b) ->
  process_req md5 pickle_dumps b toks = Ok (stage, prefix, chunks, hashes) ->
  prefix = block_hashes md5 pickle_dumps (b_conn b) toks /\
  hashes = concat (chunk_blks_hash <$> chunks) /\
  (stage = CACHE_BLEND <-> chunks <> []) /\
  (stage = BUILD_CHUNK_CACHE <-> py_nth toks (-1) = Some (chunk_end_token_id b) /\
                                 pylen toks mod block_size (b_conn b) = 0) /\
  exists hi, tiles md5 pickle_dumps b toks 0 chunks hi /\ pylen hashes = hi /\
    (stage <> BUILD_CHUNK_CACHE -> forall k, hi <= k < pylen toks / block_size (b_conn b) ->
       py_nth toks (block_size (b_conn b) - 1 + block_size (b_conn b) * k) <> Some (chunk_end_token_id b)).
Proof.
  intros Hbs Hp. destruct (process_req_tiles _ _ _ _ _ _ _ _ Hbs Hp) as (hi & Ht & Hlen & Hh & _ & Hno).
  apply process_req_cases in Hp as (-> & last & -> & Hc). split; [done|]. split; [done|].
  destruct Hc as [(-> & -> & Hm & -> & ->)|(Hne & Hs & _)].
  - split; [done|]. split; [done|]. by exists hi.
  - split; [by destruct chunks; subst stage|].
    split; [split; [by destruct chunks; subst stage|intros [[= ->] Hm]; by destruct Hne]|]. by exists hi.
Qed.

(** C15. What a cache-blend request loads.  The store is asked for the prompt's
    blocks, of which it has [pc] in front, and then for the chunks' blocks from
    there on.  Given that the prefix hit stays within the first chunk, the request
    loads exactly the first [pc] blocks of the chunks and those the second answer
    says the store has, each into the vLLM block at its own place in the prompt;
    every one of them was held at the lookup; it dumps nothing; and the blocks
    beyond the prefix, exactly those that hit, are rotated by the position their
    chunk starts at, the chunk having been cached at position 0. *)
Theorem blend_loads_exactly_the_hits {W D Tensor : Type} `{StoreLaws W D} md5 pickle_dumps b r s s' t
    prefix first rest hashes m vids :
  0 < block_size (b_conn b) ->
  process_req md5 pickle_dumps b (all_token_ids r) = Ok (CACHE_BLEND, prefix, first :: rest, hashes) ->
  blend_get_num_new_matched_tokens (Tensor := Tensor) md5 pickle_dumps b r 0 s = (Ok (t, false), s') ->
  requests_blend_meta s' !! request_id r = Some m -> blend_stage m = CACHE_BLEND ->
  pc_hit_block_num m <= chunk_blks_len first -> pylen hashes <= pylen vids ->
  let d := (generate_blend_dispatch_meta m vids).2 in
  let pc := Z.to_nat (pc_hit_block_num m) in
  exists prefix_answer w1 chunk_answer w2,
    lookup prefix (world (b_base s)) = (Ok prefix_answer, w1) /\ pc_hit_block_num m = leading_hits prefix_answer /\
    lookup (drop pc hashes) w1 = (Ok chunk_answer, w2) /\
    let hits := py_repeat true (pc_hit_block_num m) ++ chunk_answer in
    pylen hits = pylen hashes /\
    (forall i h, hits !! i = Some true -> hashes !! i = Some h -> held (world (b_base s)) h) /\
    load_block_ids (b_dispatch d) = (compress hashes hits, compress vids hits) /\
    dump_block_ids (b_dispatch d) = ([], []) /\
    rope_blocks (d_chunks_meta d) = compress (drop pc vids) (drop pc hits) /\
    rope_positions (d_chunks_meta d) = compress (drop pc (block_offsets (first :: rest))) (drop pc hits).
Proof.
  intros Hbs Hp Hg Hm Hst Hpc Hv d pc.
  destruct (process_req_tiles _ _ _ _ _ _ _ _ Hbs Hp) as (hi & Ht & Hlen & Hha & _).
  destruct (process_req_cases _ _ _ _ _ _ _ _ Hp) as (Hpre & _).
  destruct (blend_meta_inv _ _ _ _ _ _ _ _ _ _ _ _ Hbs Hp Hg Hm Hst) as (pc0 & n & chunks' & w' & Hgh & ->).
  cbn [pc_hit_block_num] in *. subst d pc. change (is_blend_cache CACHE_BLEND) with true.
  assert (Hle : chunk_blks_len first <= pylen hashes).
  { destruct (tiles_elem _ _ _ _ Hbs 0 _ _ first ltac:(lia) Ht ltac:(left)) as (? & ? & ? & _).
    unfold end_blk_idx in *. lia. }
  destruct (get_hit_spec _ _ _ _ _ _ _ _ _ _ Hgh ltac:(lia))
    as (pre & w1 & rs & Hq1 & Hlead & Hq2 & HR & Hpc0 & Hpref & Hheldp & Hheld & _ & ->).
  set (R := py_repeat true pc0 ++ rs) in *.
  assert (HRi : forall i, (i < Z.to_nat pc0)%nat -> R !! i = Some true) by (intros; apply Hpref; lia).
  exists pre, w1, rs, w'. do 3 (split; [done|]). cbv zeta. fold R. split; [done|]. split.
  { intros i h HRt Hh. destruct (decide (Z.of_nat i < pc0)) as [Hi|Hi]; [|apply (Hheld i); (done || lia)].
    apply (Hheldp i); [done|]. rewrite Hpre. eapply (first_chunk_prefix _ _ _ Hbs _ _ _ _ _ _ Ht).
    rewrite Hha, fmap_cons in Hh. cbn [concat] in Hh. rewrite lookup_app_l in Hh; [exact Hh|].
    pose proof (chunk_hash_length _ _ _ Hbs _ 0 _ _ _ ltac:(lia) Ht). unfold pylen in *. lia. }
  unfold generate_blend_dispatch_meta. cbn [blend_stage pc_hit_block_num ucm_block_hashs chunks_meta].
  change (is_blend_cache CACHE_BLEND) with true. cbn [snd fst b_dispatch d_chunks_meta load_block_ids dump_block_ids].
  fold (with_blocks vids).
  pose proof (after_hashes _ _ _ _ Hbs _ _ _ R pc0 Ht ltac:(lia) ltac:(lia) vids) as E1.
  pose proof (after_vllm_ids _ _ _ _ Hbs _ _ _ R pc0 Ht ltac:(lia) ltac:(lia) vids ltac:(lia)) as E2.
  pose proof (after_positions _ _ _ _ Hbs _ _ _ R pc0 Ht ltac:(lia) ltac:(lia) vids ltac:(lia)) as E3.
  split; [|split; [done|split; [exact E2|exact E3]]].
  rewrite E1, <- Hha. unfold rope_blocks in E2. rewrite E2. f_equal.
  - rewrite slice_to_take by lia. symmetry. apply compress_prefix; [unfold pylen in *; lia|done].
  - rewrite slice_to_take by lia. symmetry. apply compress_prefix; [unfold pylen in *; lia|done].
Qed.

(** ** Concrete runs *)
Module BlendDemo.
Definition vllm1 : VllmConfig := {|
  v_model := "m"; v_dtype := "bf16"; v_engine_id := "e"; v_rank := 0; v_tp_size := 1;
  v_pp_size := 1; v_block_size := 1; v_is_mla := false; v_num_layers := 1;
  v_num_kv_heads := 1; v_head_size := 1; v_element_size := 2; v_num_hidden_layers := 1;
  v_pcp_size := None; v_dcp_size := None |}.
Definition conn1 : ConnConfig :=
  match new_UCMDirectConnector vllm1 ConnDemo.launch SCHEDULER CudaAlike 0 with
  | Ok c => c
  | Err _ => ConnDemo.conn SCHEDULER
  end.
Definition cfg : BlendConfig := {| b_conn := conn1; chunk_end_token_id := 9 |}.
Abbreviation hash := (block_hashes Demo.md5 Demo.pickle_short conn1).

Definition text_a : list Z := [1; 9].
Definition text_b : list Z := replicate 17 3 ++ [9].
Definition prompt : list Z := text_a ++ text_b ++ [5].

Definition holding (ids : list bytes) : BlendState (MemStore.world Z) unit :=
  initial_BlendState (MemStore.idle (list_to_map ((fun id => ((id, 0), [0])) <$> ids)) (fun a => a)).
Definition split := process_req Demo.md5 Demo.pickle_short cfg.
Definition run (toks : list Z) (s : BlendState (MemStore.world Z) unit) :=
  blend_get_num_new_matched_tokens Demo.md5 Demo.pickle_short cfg (ConnDemo.req toks) 0 s.
Definition meta (toks : list Z) (s : BlendState (MemStore.world Z) unit) : BlendRequestMeta :=
  default (BMeta [] 0 [] BUILD_PREFIX_CACHE) (requests_blend_meta (run toks s).2 !! "r").
(** The chunks of [prompt] after the split. *)
Definition first_chunk : ChunkMetaData := Chunk 0 2 0 2 0 [] (hash text_a) [].
Definition second_chunk : ChunkMetaData := Chunk 2 18 2 18 0 [] (hash text_b) [].
(** The store has seen the text [b] alone, and one block of [a]. *)
Definition state : BlendState (MemStore.world Z) unit := holding (take 1 (hash text_a) ++ hash text_b).
End BlendDemo.
Import BlendDemo.

Lemma process_req_splits_witness :
  split prompt = Ok (CACHE_BLEND, hash prompt, [first_chunk; second_chunk], hash text_a ++ hash text_b) /\
  CACHE_BLEND <> BUILD_CHUNK_CACHE.
Proof.
  assert (Hs : split prompt = Ok (CACHE_BLEND, hash prompt, [first_chunk; second_chunk],
                                  hash text_a ++ hash text_b)) by (vm_compute; reflexivity).
  split; [exact Hs|].
  destruct (process_req_splits Demo.md5 Demo.pickle_short cfg prompt CACHE_BLEND (hash prompt)
              [first_chunk; second_chunk] (hash text_a ++ hash text_b)) as (_ & _ & _ & Hc & _);
    [reflexivity|exact Hs|]. discriminate.
Defined.

Lemma blend_loads_exactly_the_hits_witness :
  let m := meta prompt state in
  exists chunk_answer, pylen (py_repeat true 1 ++ chunk_answer) = 20 /\
    rope_positions (d_chunks_meta (generate_blend_dispatch_meta m (zrange 100 121)).2) =
      compress (drop 1 (block_offsets [first_chunk; second_chunk])) (drop 1 (py_repeat true 1 ++ chunk_answer)).
Proof.
  destruct (blend_loads_exactly_the_hits Demo.md5 Demo.pickle_short cfg (ConnDemo.req prompt) state
              (run prompt state).2 1 (hash prompt) first_chunk [second_chunk] (hash text_a ++ hash text_b)
              (meta prompt state) (zrange 100 121)) as (pre & w1 & rs & w2 & _ & _ & Hrs & Hl & _ & _ & _ & _ & Hp).
  - reflexivity.
  - vm_compute; reflexivity.
  - exact (run_ok (run prompt) state (1, false) ltac:(vm_compute; reflexivity)).
  - vm_compute; reflexivity.
  - vm_compute; reflexivity.
  - vm_compute; congruence.
  - vm_compute; congruence.
  - exists rs. split; [exact Hl|exact Hp].
Defined.

(** A store that an earlier prompt sharing the three first tokens has filled as
    a plain prefix cache: the prefix hit runs past the first chunk, the blocks of
    the second chunk are then asked for under the chunk's own hashes, which the
    store does not hold. *)
Example prefix_hit_beyond_first_chunk_loads_absent_blocks :
  let toks := text_a ++ [2; 9] ++ text_b ++ [5] in
  let s := holding (take 3 (hash toks) ++ hash text_b) in
  let d := (generate_blend_dispatch_meta (meta toks s) (zrange 100 124)).2 in
  exists id, (load_block_ids (b_dispatch d)).1 !! 2%nat = Some id /\ id = default "" (hash [2; 9] !! 0%nat) /\
    MemStore.is_held Z (world (b_base s)) id = false.
Proof. eexists. split; [vm_compute; reflexivity|]. split; vm_compute; reflexivity. Qed.
