(* ===== verification/Scheduler.v ===== *)
(** * The patched vLLM scheduler: recovery from failed KV loads
    (ucm/integration/vllm/patch/v0110/vllm/pc/v1/core/sched/scheduler.py)

    When a worker reports blocks it could not load, the scheduler rolls the
    requests that use them back to their longest valid prefix, has every invalid
    block recomputed by the first request that holds it, and drops the step's
    output of those requests.  Request objects are shared between the queues and
    the request table: they live in a heap indexed by their id.  What the patch
    calls of vLLM (the cache manager, stop checks, freeing, statistics) is
    the record [Vllm]. *)

From S2P Require Import Prelude.
From S2P Require Import StoreApi.
From S2P Require Import Connector.
Local Open Scope Z_scope.
Local Open Scope py_scope.

(** ** Data *)

Inductive RequestStatus := WAITING | WAITING_FOR_REMOTE_KVS | RUNNING | PREEMPTED | FinishedStatus (n : Z).
#[global] Instance status_eq_dec : EqDecision RequestStatus.
Proof. solve_decision. Defined.

(** A request object, as far as the patch reads or writes it. *)
Record SReq := {
  r_status : RequestStatus;
  r_num_computed_tokens : Z;
  r_num_cached_tokens : Z;
  r_num_tokens : Z;
  r_all_token_ids : list Z;
  r_output_token_ids : list Z;
  r_num_output_tokens : Z;
  r_client_index : Z;
  (** [sampling_params] is set and asks for log-probabilities *)
  r_wants_logprobs : bool;
  r_num_nans_in_logits : Z;
  r_finished_reason : option Z;
}.

Definition with_computed (n : Z) (r : SReq) : SReq :=
  {| r_status := r_status r; r_num_computed_tokens := n; r_num_cached_tokens := r_num_cached_tokens r;
     r_num_tokens := r_num_tokens r; r_all_token_ids := r_all_token_ids r;
     r_output_token_ids := r_output_token_ids r; r_num_output_tokens := r_num_output_tokens r;
     r_client_index := r_client_index r; r_wants_logprobs := r_wants_logprobs r;
     r_num_nans_in_logits := r_num_nans_in_logits r; r_finished_reason := r_finished_reason r |}.
Definition with_num_output (n : Z) (r : SReq) : SReq :=
  {| r_status := r_status r; r_num_computed_tokens := r_num_computed_tokens r;
     r_num_cached_tokens := r_num_cached_tokens r;
     r_num_tokens := r_num_tokens r; r_all_token_ids := r_all_token_ids r;
     r_output_token_ids := r_output_token_ids r; r_num_output_tokens := n;
     r_client_index := r_client_index r; r_wants_logprobs := r_wants_logprobs r;
     r_num_nans_in_logits := r_num_nans_in_logits r; r_finished_reason := r_finished_reason r |}.
Definition with_nans (n : Z) (r : SReq) : SReq :=
  {| r_status := r_status r; r_num_computed_tokens := r_num_computed_tokens r;
     r_num_cached_tokens := r_num_cached_tokens r;
     r_num_tokens := r_num_tokens r; r_all_token_ids := r_all_token_ids r;
     r_output_token_ids := r_output_token_ids r; r_num_output_tokens := r_num_output_tokens r;
     r_client_index := r_client_index r; r_wants_logprobs := r_wants_logprobs r;
     r_num_nans_in_logits := n; r_finished_reason := r_finished_reason r |}.

(** [K] is the state of the KV cache manager and of the rest of vLLM's
    scheduler the patch does not touch. *)
Record SchedState (K : Type) := Sched {
  heap : gmap string SReq;
  (** the keys of [self.requests] *)
  requests : gset string;
  waiting : list string;
  running : list string;
  finished_recving_kv_req_ids : gset string;
  failed_recving_kv_req_ids : gset string;
  (** [finished_req_ids_dict], [None] unless the finished set is included *)
  finished_req_ids_dict : option (list (Z * gset string));
  (** the [requests_meta] dict of the connector implementation, if there is one *)
  connector_requests_meta : option (gmap string RequestMeta);
  kv_cache_manager : K;
}.
Arguments Sched {K} _ _ _ _ _ _ _ _ _.
Arguments heap {K} _.
Arguments requests {K} _.
Arguments waiting {K} _.
Arguments running {K} _.
Arguments finished_recving_kv_req_ids {K} _.
Arguments failed_recving_kv_req_ids {K} _.
Arguments finished_req_ids_dict {K} _.
Arguments connector_requests_meta {K} _.
Arguments kv_cache_manager {K} _.

Section setters.
Context {K : Type}.
Implicit Types s : SchedState K.
Definition set_heap f s := Sched (f (heap s)) (requests s) (waiting s) (running s)
  (finished_recving_kv_req_ids s) (failed_recving_kv_req_ids s) (finished_req_ids_dict s)
  (connector_requests_meta s) (kv_cache_manager s).
Definition set_queues w r s := Sched (heap s) (requests s) w r
  (finished_recving_kv_req_ids s) (failed_recving_kv_req_ids s) (finished_req_ids_dict s)
  (connector_requests_meta s) (kv_cache_manager s).
Definition set_finished_recving f s := Sched (heap s) (requests s) (waiting s) (running s)
  (f (finished_recving_kv_req_ids s)) (failed_recving_kv_req_ids s) (finished_req_ids_dict s)
  (connector_requests_meta s) (kv_cache_manager s).
Definition set_failed_recving f s := Sched (heap s) (requests s) (waiting s) (running s)
  (finished_recving_kv_req_ids s) (f (failed_recving_kv_req_ids s)) (finished_req_ids_dict s)
  (connector_requests_meta s) (kv_cache_manager s).
Definition set_finished_dict d s := Sched (heap s) (requests s) (waiting s) (running s)
  (finished_recving_kv_req_ids s) (failed_recving_kv_req_ids s) d
  (connector_requests_meta s) (kv_cache_manager s).
Definition set_connector_meta f s := Sched (heap s) (requests s) (waiting s) (running s)
  (finished_recving_kv_req_ids s) (failed_recving_kv_req_ids s) (finished_req_ids_dict s)
  (f (connector_requests_meta s)) (kv_cache_manager s).
Definition set_kv (k : K) s := Sched (heap s) (requests s) (waiting s) (running s)
  (finished_recving_kv_req_ids s) (failed_recving_kv_req_ids s) (finished_req_ids_dict s)
  (connector_requests_meta s) k.
End setters.

(** ** Configuration *)

Inductive SchedulingPolicy := PRIORITY | FCFS.

Record SchedInit := {
  i_policy : string;
  i_max_num_seqs : Z;
  i_max_num_batched_tokens : Z;
  i_max_model_len : Z;
  i_has_kv_transfer_config : bool;
  i_num_kv_cache_groups : Z;
  i_is_encoder_decoder : bool;
  i_num_gpu_blocks : option Z;
  i_block_size : Z;
  i_decode_context_parallel_size : Z;
  i_pipeline_parallel_size : Z;
  (** number of speculative tokens and [use_eagle()], if speculation is on *)
  i_speculative : option (Z * bool);
  i_include_finished_set : bool;
}.

Record SchedConfig := {
  sc_policy : SchedulingPolicy;
  max_num_running_reqs : Z;
  max_num_scheduled_tokens : Z;
  max_model_len : Z;
  sc_block_size : Z;
  sc_has_connector : bool;
  num_spec_tokens : Z;
  num_lookahead_tokens : Z;
  use_eagle : bool;
  use_pp : bool;
}.

(** [Scheduler.__init__]; the encoder cache, the event publisher and the cache
    manager it creates are vLLM's. *)
Definition new_Scheduler {K} (i : SchedInit) (conn_meta : option (gmap string RequestMeta)) (kv : K)
  : res (SchedConfig * SchedState K) :=
  if i_has_kv_transfer_config i && negb (i_num_kv_cache_groups i =? 1) then Err AssertionError
  else if i_has_kv_transfer_config i && i_is_encoder_decoder i then Err AssertionError
  else match i_num_gpu_blocks i with
  | None => Err AssertionError
  | Some n =>
    if negb (0 <? n) then Err AssertionError
    else
      let? policy := if bool_decide (i_policy i = "priority"%string) then Ok PRIORITY
                     else if bool_decide (i_policy i = "fcfs"%string) then Ok FCFS
                     else Err ValueError in
      let dcp := i_decode_context_parallel_size i in
      let '(spec, lookahead, eagle) :=
        match i_speculative i with
        | None => (0, 0, false)
        | Some (n, true) => (n, n, true)
        | Some (n, false) => (n, 0, false)
        end in
      Ok ({| sc_policy := policy; max_num_running_reqs := i_max_num_seqs i;
             max_num_scheduled_tokens := i_max_num_batched_tokens i;
             max_model_len := i_max_model_len i;
             sc_block_size := if 1 <? dcp then i_block_size i * dcp else i_block_size i;
             sc_has_connector := i_has_kv_transfer_config i;
             num_spec_tokens := spec; num_lookahead_tokens := lookahead; use_eagle := eagle;
             use_pp := 1 <? i_pipeline_parallel_size i |},
          Sched ∅ ∅ [] [] ∅ ∅ (if i_include_finished_set i then Some [] else None)
            (if i_has_kv_transfer_config i then conn_meta else None) kv)
  end.

(** ** What the patch calls of vLLM *)

(** [P], [L]: a pooling output, log-probabilities; [T] what [_free_request]
    returns; [S], [St]: speculative-decoding statistics, scheduler statistics. *)
Record KVConnectorOutput := {
  ko_invalid_block_ids : gset Z;
  ko_finished_sending : list string;
  ko_finished_recving : list string;
}.

Record Vllm (K P L T S St : Type) := {
  (** [(block_ids,) = kv_cache_manager.get_block_ids(id)] *)
  get_block_ids : K -> string -> res (list Z);
  cache_blocks : string -> SReq -> Z -> K -> K;
  kv_free : string -> SReq -> K -> K;
  update_request_with_output : SReq -> list Z -> SReq * list Z * bool;
  check_stop : SReq -> Z -> option P -> SReq * bool;
  free_request : string -> M (SchedState K) (option T);
  should_advance : string -> SReq -> K -> bool;
  accept_tokens : string -> list Z -> K -> K;
  slice_logprobs : L -> Z -> Z -> L;
  make_spec_decoding_stats : option S -> Z -> Z -> option S;
  update_from_kv_xfer_finished : KVConnectorOutput -> M (SchedState K) unit;
  (** the statistics of the connector are part of its output *)
  make_stats : option S -> option KVConnectorOutput -> M (SchedState K) (option St);
  remove_all : list string -> gset string -> list string;
  remove_requests : list string -> gset string -> list string;
}.
Arguments get_block_ids {K P L T S St} _ _ _.
Arguments cache_blocks {K P L T S St} _ _ _ _ _.
Arguments kv_free {K P L T S St} _ _ _ _.
Arguments update_request_with_output {K P L T S St} _ _ _.
Arguments check_stop {K P L T S St} _ _ _ _.
Arguments free_request {K P L T S St} _ _.
Arguments should_advance {K P L T S St} _ _ _ _.
Arguments accept_tokens {K P L T S St} _ _ _ _.
Arguments slice_logprobs {K P L T S St} _ _ _ _.
Arguments make_spec_decoding_stats {K P L T S St} _ _ _ _.
Arguments update_from_kv_xfer_finished {K P L T S St} _ _.
Arguments make_stats {K P L T S St} _ _ _.
Arguments remove_all {K P L T S St} _ _ _.
Arguments remove_requests {K P L T S St} _ _ _.

(** ** Recovery from invalid blocks *)
Section recovery.
Context {K P L T S St : Type} (v : Vllm K P L T S St) (c : SchedConfig).
Abbreviation ST := (SchedState K).

Definition get_req (id : string) : M ST SReq :=
  let! h := gets heap in lift_res (of_option KeyError (h !! id)).
Definition put_req (id : string) (r : SReq) : M ST unit := modify (set_heap (insert id r)).

(** The local variables of the loop over one request's blocks, with the set of
    the blocks marked so far. *)
Record Scan := {
  is_affected : bool;
  marked_invalid_block : bool;
  marked_invalid_block_ids : gset Z;
  sc_computed : Z;
  sc_total : Z;
}.

Definition scan_block (invalid_block_ids : gset Z) (req_num_computed_tokens : Z) (a : Scan) (e : Z * Z) : Scan :=
  let '(idx, block_id) := e in
  if bool_decide (block_id ∉ invalid_block_ids) then a
  else if bool_decide (block_id ∈ marked_invalid_block_ids a) then
    {| is_affected := true; marked_invalid_block := marked_invalid_block a;
       marked_invalid_block_ids := marked_invalid_block_ids a; sc_computed := sc_computed a;
       sc_total := sc_total a |}
  else if marked_invalid_block a then
    {| is_affected := true; marked_invalid_block := true;
       marked_invalid_block_ids := {[block_id]} ∪ marked_invalid_block_ids a;
       sc_computed := sc_computed a; sc_total := sc_total a |}
  else
    {| is_affected := true; marked_invalid_block := true;
       marked_invalid_block_ids := {[block_id]} ∪ marked_invalid_block_ids a;
       sc_computed := idx * sc_block_size c;
       sc_total := sc_total a + (req_num_computed_tokens - idx * sc_block_size c) |}.

(** The tokens of a request that may have been computed externally. *)
Definition externally_computed (failed : gset string) (id : string) (r : SReq) (req_block_ids : list Z) : Z :=
  if bool_decide (r_status r = WAITING_FOR_REMOTE_KVS)
  then if bool_decide (id ∈ failed) then r_num_computed_tokens r
       else pylen req_block_ids * sc_block_size c
  else r_num_cached_tokens r.

Definition computed_blocks (tokens : Z) : Z := (tokens + sc_block_size c - 1) / sc_block_size c.

(** One request: the affected ids, the token total and the marked blocks are
    carried along. *)
Definition update_request_with_invalid_blocks (invalid_block_ids : gset Z)
    (acc : gset string * Z * gset Z) (id : string) : M ST (gset string * Z * gset Z) :=
  let '(affected, total, marked) := acc in
  let! r := get_req id in
  let! kv := gets kv_cache_manager in
  let! req_block_ids := lift_res (get_block_ids v kv id) in
  let! failed := gets failed_recving_kv_req_ids in
  let n := externally_computed failed id r req_block_ids in
  let a := foldl (scan_block invalid_block_ids n)
             {| is_affected := false; marked_invalid_block := false; marked_invalid_block_ids := marked;
                sc_computed := r_num_computed_tokens r; sc_total := total |}
             (zip (zrange 0 (computed_blocks n)) req_block_ids) in
  if is_affected a then
    let revert := negb (marked_invalid_block a) in
    let total' := if revert then sc_total a + (sc_computed a - r_num_cached_tokens r) else sc_total a in
    let computed := if revert then r_num_cached_tokens r else sc_computed a in
    do! put_req id (with_computed computed r) in
    ret ({[id]} ∪ affected, total', marked_invalid_block_ids a)
  else ret (affected, total, marked_invalid_block_ids a).

Definition update_requests_with_invalid_blocks (ids : list string) (invalid_block_ids : gset Z)
  : M ST (gset string * Z) :=
  let! acc := for_acc ids (∅, 0, ∅) (update_request_with_invalid_blocks invalid_block_ids) in
  ret acc.1.

(** [requests_meta.pop(req_id, None)] for every affected id *)
Definition drop_requests_meta (ids : gset string) (m : gmap string RequestMeta) : gmap string RequestMeta :=
  filter (fun kv => kv.1 ∉ ids) m.

Definition is_async (s : ST) (id : string) : bool :=
  match heap s !! id with
  | Some r => bool_decide (r_status r = WAITING_FOR_REMOTE_KVS)
  | None => false
  end.

Definition handle_invalid_blocks (invalid_block_ids : gset Z) : M ST (gset string) :=
  let! async_load_reqs := gets (fun s => filter (is_async s) (waiting s)) in
  let! ' (async_affected, _) := update_requests_with_invalid_blocks async_load_reqs invalid_block_ids in
  do! modify (set_failed_recving (fun f => f ∪ async_affected)) in
  let! sync := gets running in
  let! ' (sync_affected, _) := update_requests_with_invalid_blocks sync invalid_block_ids in
  do! modify (set_connector_meta (fun m => drop_requests_meta sync_affected <$> m)) in
  ret sync_affected.

(** ** A request whose asynchronous load has finished *)
Definition update_waiting_for_remote_kv (id : string) : M ST bool :=
  do! py_assert (sc_has_connector c) in
  let! r := get_req id in
  let! finished := gets finished_recving_kv_req_ids in
  if bool_decide (id ∉ finished) then ret false
  else
    let! failed := gets failed_recving_kv_req_ids in
    let! kv := gets kv_cache_manager in
    do! (if bool_decide (id ∈ failed) then
           do! (if r_num_computed_tokens r =? 0
                then modify (set_kv (kv_free v id r kv))
                else modify (set_kv (cache_blocks v id r (r_num_computed_tokens r) kv))) in
           modify (set_failed_recving (fun f => f ∖ {[id]}))
         else
           let! block_ids := lift_res (get_block_ids v kv id) in
           let n := Z.min (pylen block_ids * sc_block_size c) (r_num_tokens r) in
           let n := if n =? r_num_tokens r then n - 1 else n in
           do! modify (set_kv (cache_blocks v id r n kv)) in
           put_req id (with_computed n r)) in
    do! modify (set_finished_recving (fun f => f ∖ {[id]})) in
    ret true.
End recovery.

(** ** The output of a step *)

Record ModelRunnerOutput (P L : Type) := {
  sampled_token_ids : list (list Z);
  logprobs : option L;
  prompt_logprobs_dict : list (string * L);
  pooler_output : list (option P);
  num_nans_in_logits : option (list (string * Z));
  kv_connector_output : option KVConnectorOutput;
  req_id_to_index : list (string * Z);
}.
Arguments sampled_token_ids {P L} _.
Arguments logprobs {P L} _.
Arguments prompt_logprobs_dict {P L} _.
Arguments pooler_output {P L} _.
Arguments num_nans_in_logits {P L} _.
Arguments kv_connector_output {P L} _.
Arguments req_id_to_index {P L} _.

(** The stop reason, the events and the trace headers, read off the request by
    vLLM's accessors, are left out. *)
Record EngineCoreOutput (P L T : Type) := {
  out_request_id : string;
  out_new_token_ids : list Z;
  out_finish_reason : option Z;
  out_new_logprobs : option L;
  out_prompt_logprobs : option L;
  out_pooling_output : option P;
  out_kv_transfer_params : option T;
  out_num_cached_tokens : Z;
}.
Arguments out_request_id {P L T} _.

Record EngineCoreOutputs (P L T St : Type) := {
  eco_outputs : list (EngineCoreOutput P L T);
  eco_finished_requests : option (gset string);
  eco_scheduler_stats : option St;
}.
Arguments eco_outputs {P L T St} _.
Arguments eco_finished_requests {P L T St} _.
Arguments eco_scheduler_stats {P L T St} _.

Section output.
Context {K P L T S St : Type} (v : Vllm K P L T S St) (c : SchedConfig).
Abbreviation ST := (SchedState K).
Abbreviation output := (EngineCoreOutput P L T).

(** The variables the loop over the scheduled requests carries. *)
Record OutAcc := {
  outputs : list (Z * list output);
  spec_decoding_stats : option S;
  stopped_running_reqs : gset string;
  stopped_preempted_reqs : gset string;
}.

(** [outputs[client_index].append(o)] of a [defaultdict(list)] *)
Definition append_output (client_index : Z) (o : output) (outs : list (Z * list output)) :=
  od_set client_index (default [] (od_get client_index outs) ++ [o]) outs.

(** The rejected draft tokens are taken back. *)
Definition take_back_rejected (num_draft_tokens num_generated : Z) (r : SReq) : SReq :=
  let num_accepted := num_generated - 1 in
  let num_rejected := num_draft_tokens - num_accepted in
  let r := if 0 <? r_num_computed_tokens r
           then with_computed (r_num_computed_tokens r - num_rejected) r else r in
  if 0 <? r_num_output_tokens r then with_num_output (r_num_output_tokens r - num_rejected) r else r.

(** The body of the loop for a request that is still known and was not
    recovered from a failed load. *)
Definition output_of_request (spec_tokens : list (string * list Z)) (o : ModelRunnerOutput P L)
    (acc : OutAcc) (id : string) : M ST OutAcc :=
  let! req_index := lift_res (of_option KeyError (od_get id (req_id_to_index o))) in
  let! generated := match sampled_token_ids o with
                    | [] => ret []
                    | l => lift_res (py_idx l req_index)
                    end in
  let! r := get_req id in
  let draft := default [] (od_get id spec_tokens) in
  let r := match draft with [] => r | _ => take_back_rejected (pylen draft) (pylen generated) r end in
  let spec := match draft with
              | [] => spec_decoding_stats acc
              | _ => make_spec_decoding_stats v (spec_decoding_stats acc) (pylen draft) (pylen generated - 1)
              end in
  let status_before_stop := r_status r in
  let '(r, new_token_ids, stopped) :=
    match generated with
    | [] => (r, [], false)
    | _ => update_request_with_output v r generated
    end in
  do! put_req id r in
  let! pooling := match pooler_output o with
                  | [] => ret None
                  | l => lift_res (py_idx l req_index)
                  end in
  let '(r, stopped) := match pooler_output o with
                       | [] => (r, stopped)
                       | _ => check_stop v r (max_model_len c) pooling
                       end in
  do! put_req id r in
  let! kv_transfer_params := if stopped : bool then free_request v id else ret None in
  let! r := get_req id in
  let new_logprobs := if r_wants_logprobs r
                      then (fun l => slice_logprobs v l req_index (req_index + 1)) <$> logprobs o
                      else None in
  let! kv := gets kv_cache_manager in
  do! (match new_token_ids with
       | [] => ret tt
       | _ => if should_advance v id r kv then modify (set_kv (accept_tokens v id new_token_ids kv)) else ret tt
       end) in
  let r := match num_nans_in_logits o with
           | Some nans => match od_get id nans with Some n => with_nans n r | None => r end
           | None => r
           end in
  do! put_req id r in
  let prompt_logprobs := od_get id (prompt_logprobs_dict o) in
  let emit := negb (bool_decide (new_token_ids = [])) ||
              match pooling with Some _ => true | None => false end ||
              match kv_transfer_params with Some _ => true | None => false end in
  do! py_assert (emit || match prompt_logprobs with Some _ => false | None => true end) in
  let out := {| out_request_id := id; out_new_token_ids := new_token_ids;
                out_finish_reason := r_finished_reason r; out_new_logprobs := new_logprobs;
                out_prompt_logprobs := prompt_logprobs; out_pooling_output := pooling;
                out_kv_transfer_params := kv_transfer_params; out_num_cached_tokens := r_num_cached_tokens r |} in
  let was_running := bool_decide (status_before_stop = RUNNING) in
  ret {| outputs := if emit then append_output (r_client_index r) out (outputs acc) else outputs acc;
         spec_decoding_stats := spec;
         stopped_running_reqs := if stopped && was_running
                                 then {[id]} ∪ stopped_running_reqs acc else stopped_running_reqs acc;
         stopped_preempted_reqs := if stopped && negb was_running
                                   then {[id]} ∪ stopped_preempted_reqs acc else stopped_preempted_reqs acc |}.

Definition output_step (spec_tokens : list (string * list Z)) (o : ModelRunnerOutput P L)
    (failed_kv_load_req_ids : gset string) (acc : OutAcc) (e : string * Z) : M ST OutAcc :=
  let '(id, num_tokens_scheduled) := e in
  do! py_assert (0 <? num_tokens_scheduled) in
  if bool_decide (id ∈ failed_kv_load_req_ids) then ret acc
  else
    let! known := gets requests in
    if bool_decide (id ∉ known) then ret acc
    else output_of_request spec_tokens o acc id.

(** The requests finished since the last outputs, one set per client. *)
Definition add_finished (d : list (Z * gset string)) (eco : list (Z * EngineCoreOutputs P L T St)) :=
  foldl (fun eco e =>
    let old := od_get e.1 eco in
    od_set e.1 {| eco_outputs := match old with Some x => eco_outputs x | None => [] end;
                  eco_finished_requests := Some e.2;
                  eco_scheduler_stats := match old with Some x => eco_scheduler_stats x | None => None end |} eco)
    eco d.

(** The statistics go to the first client. *)
Definition add_stats_to_first (stats : option St) (eco : list (Z * EngineCoreOutputs P L T St)) :=
  match stats with
  | None => eco
  | Some x =>
      match eco with
      | [] => [(0, {| eco_outputs := []; eco_finished_requests := None; eco_scheduler_stats := Some x |})]
      | (k, e) :: rest =>
          (k, {| eco_outputs := eco_outputs e; eco_finished_requests := eco_finished_requests e;
                 eco_scheduler_stats := Some x |}) :: rest
      end
  end.

Definition update_from_output (scheduled : list (string * Z)) (spec_tokens : list (string * list Z))
    (o : ModelRunnerOutput P L) : M ST (list (Z * EngineCoreOutputs P L T St)) :=
  let! failed := match kv_connector_output o with
                 | Some k => if bool_decide (ko_invalid_block_ids k = ∅) then ret ∅
                             else handle_invalid_blocks v c (ko_invalid_block_ids k)
                 | None => ret ∅
                 end in
  let! acc := for_acc scheduled
                {| outputs := []; spec_decoding_stats := None; stopped_running_reqs := ∅;
                   stopped_preempted_reqs := ∅ |} (output_step spec_tokens o failed) in
  do! modify (fun s =>
    let run := if bool_decide (stopped_running_reqs acc = ∅) then running s
               else remove_all v (running s) (stopped_running_reqs acc) in
    let wait := if bool_decide (stopped_preempted_reqs acc = ∅) then waiting s
                else remove_requests v (waiting s) (stopped_preempted_reqs acc) in
    set_queues wait run s) in
  do! (match kv_connector_output o with
       | Some k => update_from_kv_xfer_finished v k
       | None => ret tt
       end) in
  let eco := (fun e => (e.1, {| eco_outputs := e.2; eco_finished_requests := None;
                                eco_scheduler_stats := None |})) <$> outputs acc in
  let! d := gets finished_req_ids_dict in
  let! eco := match d with
              | Some (_ :: _ as d) => do! modify (set_finished_dict (Some [])) in ret (add_finished d eco)
              | _ => ret eco
              end in
  let! stats := make_stats v (spec_decoding_stats acc) (kv_connector_output o) in
  ret (add_stats_to_first stats eco).
End output.

(** ** What the scheduler tells the workers about cached requests *)

Record CachedRequestData := {
  crd_req_ids : list string;
  crd_resumed_from_preemption : list bool;
  crd_new_token_ids : list (list Z);
  crd_new_block_ids : list (option (list (list Z)));
  crd_num_computed_tokens : list Z;
  crd_num_output_tokens : list Z;
}.

Section cached.
Context {K : Type} (c : SchedConfig).
Abbreviation ST := (SchedState K).

(** One request; [req_to_new_blocks] gives [get_block_ids(allow_none=True)]. *)
Definition cached_request (scheduled : list (string * Z)) (spec_tokens : list (string * list Z))
    (req_to_new_blocks : list (string * option (list (list Z)))) (acc : CachedRequestData) (id : string)
  : M ST CachedRequestData :=
  let! n := lift_res (of_option KeyError (od_get id scheduled)) in
  let num_tokens := n - pylen (default [] (od_get id spec_tokens)) in
  let! r := get_req id in
  let! blocks := lift_res (of_option KeyError (od_get id req_to_new_blocks)) in
  ret {| crd_req_ids := crd_req_ids acc ++ [id];
         crd_resumed_from_preemption := crd_resumed_from_preemption acc;
         crd_new_token_ids := crd_new_token_ids acc ++
           (if use_pp c then [slice (r_all_token_ids r) (r_num_computed_tokens r)
                                (r_num_computed_tokens r + num_tokens)]
            else if sc_has_connector c then [[]] else []);
         crd_new_block_ids := crd_new_block_ids acc ++ [blocks];
         crd_num_computed_tokens := crd_num_computed_tokens acc ++ [r_num_computed_tokens r];
         crd_num_output_tokens := crd_num_output_tokens acc ++ [pylen (r_output_token_ids r)] |}.

Definition make_cached_request_data (running_reqs resumed_reqs : list string) (scheduled : list (string * Z))
    (spec_tokens : list (string * list Z)) (req_to_new_blocks : list (string * option (list (list Z))))
  : M ST CachedRequestData :=
  let! d := for_acc (running_reqs ++ resumed_reqs)
              {| crd_req_ids := []; crd_resumed_from_preemption := []; crd_new_token_ids := [];
                 crd_new_block_ids := []; crd_num_computed_tokens := []; crd_num_output_tokens := [] |}
              (cached_request scheduled spec_tokens req_to_new_blocks) in
  ret {| crd_req_ids := crd_req_ids d;
         crd_resumed_from_preemption := py_repeat false (pylen running_reqs) ++ py_repeat true (pylen resumed_reqs);
         crd_new_token_ids := crd_new_token_ids d; crd_new_block_ids := crd_new_block_ids d;
         crd_num_computed_tokens := crd_num_computed_tokens d; crd_num_output_tokens := crd_num_output_tokens d |}.
End cached.

(** ** Facts about the recovery *)

Section scan.
Context (c : SchedConfig) (inv : gset Z) (n : Z).
Abbreviation bs := (sc_block_size c).
Abbreviation scan a0 i bl := (foldl (scan_block c inv n) a0 (zip (zrange i (i + pylen bl)) bl)).

(** An invalid block that no earlier request has marked. *)
Definition fresh_invalid (marked : gset Z) (b : Z) : Prop := b ∈ inv /\ b ∉ marked.

Lemma scan_nil a0 i : scan a0 i (@nil Z) = a0.
Proof. unfold pylen. by rewrite zrange_nil by (simpl; lia). Qed.

Lemma scan_cons a0 i b bl :
  scan a0 i (b :: bl) = scan (scan_block c inv n a0 (i, b)) (i + 1) bl.
Proof.
  rewrite pylen_cons, zrange_cons by (pose proof (pylen_nonneg bl); lia). cbn [zip zip_with foldl].
  by replace (i + (1 + pylen bl)) with (i + 1 + pylen bl) by lia.
Qed.

Lemma scan_marked a0 i bl :
  marked_invalid_block_ids (scan a0 i bl) = marked_invalid_block_ids a0 ∪ (inv ∩ list_to_set bl) /\
  (is_affected (scan a0 i bl) = true <-> is_affected a0 = true \/ Exists (fun b => b ∈ inv) bl).
Proof.
  revert a0 i. induction bl as [|b bl IH]; intros a0 i.
  - rewrite scan_nil, Exists_nil. split; [set_solver|tauto].
  - rewrite scan_cons. destruct (IH (scan_block c inv n a0 (i, b)) (i + 1)) as [-> ->]. rewrite Exists_cons.
    unfold scan_block. case_bool_decide as H1; [|case_bool_decide as H2; [|destruct (marked_invalid_block a0)]];
      simpl; (split; [set_solver|]); naive_solver.
Qed.

Lemma scan_done a0 i bl :
  marked_invalid_block a0 = true ->
  marked_invalid_block (scan a0 i bl) = true /\ sc_computed (scan a0 i bl) = sc_computed a0.
Proof.
  revert a0 i. induction bl as [|b bl IH]; intros a0 i Hm; [by rewrite scan_nil|]. rewrite scan_cons.
  assert (H1 : marked_invalid_block (scan_block c inv n a0 (i, b)) = true /\
               sc_computed (scan_block c inv n a0 (i, b)) = sc_computed a0).
  { unfold scan_block. rewrite Hm. by repeat case_bool_decide. }
  destruct H1 as [H1 <-]. by apply IH.
Qed.

(** The computed tokens end at the first block that is invalid and not marked. *)
Lemma scan_truncates a0 i bl :
  marked_invalid_block a0 = false ->
  (marked_invalid_block (scan a0 i bl) = false /\ sc_computed (scan a0 i bl) = sc_computed a0 /\
   forall b, b ∈ bl -> ~ fresh_invalid (marked_invalid_block_ids a0) b) \/
  (marked_invalid_block (scan a0 i bl) = true /\
   exists k b, bl !! k = Some b /\ fresh_invalid (marked_invalid_block_ids a0) b /\
     sc_computed (scan a0 i bl) = (i + Z.of_nat k) * bs /\
     forall k' b', (k' < k)%nat -> bl !! k' = Some b' -> ~ fresh_invalid (marked_invalid_block_ids a0) b').
Proof.
  revert a0 i. induction bl as [|b bl IH]; intros a0 i Hm; [left; rewrite scan_nil; set_solver|]. rewrite scan_cons.
  destruct (decide (b ∈ inv /\ b ∉ marked_invalid_block_ids a0)) as [[Hi Hf]|Hno].
  - right. set (a1 := scan_block c inv n a0 (i, b)).
    assert (H1 : marked_invalid_block a1 = true /\ sc_computed a1 = i * bs).
    { unfold a1, scan_block. rewrite bool_decide_false by tauto. by rewrite bool_decide_false, Hm. }
    destruct (scan_done a1 (i + 1) bl (proj1 H1)) as [-> ->]. split; [done|].
    exists 0%nat, b. split; [done|]. split; [done|]. split; [rewrite (proj2 H1); f_equal; lia|]. lia.
  - set (a1 := scan_block c inv n a0 (i, b)).
    assert (H1 : marked_invalid_block a1 = false /\ sc_computed a1 = sc_computed a0 /\
                 marked_invalid_block_ids a1 = marked_invalid_block_ids a0).
    { unfold a1, scan_block. case_bool_decide; [done|]. case_bool_decide; [done|]. exfalso. tauto. }
    destruct H1 as (Hm1 & Hc1 & Hs1). destruct (IH a1 (i + 1) Hm1) as [(E1 & E2 & E3)|(E1 & k & b' & Hk & Hf & E2 & E3)].
    + left. rewrite E1, E2, Hc1. split; [done|]. split; [done|]. intros x [->|Hx]%elem_of_cons; [done|].
      rewrite <- Hs1. by apply E3.
    + right. split; [done|]. exists (S k), b'. rewrite Hs1 in *. split; [done|]. split; [done|].
      split; [rewrite E2; f_equal; lia|]. intros [|k'] x Hlt Hx; [by simplify_eq/=|]. apply (E3 k'); [lia|done].
Qed.
End scan.

Lemma zip_zrange {A} (n : Z) (l : list A) :
  zip (zrange 0 n) l = zip (zrange 0 (0 + pylen (take (Z.to_nat n) l))) (take (Z.to_nat n) l).
Proof.
  apply list_eq. intros i. rewrite !lookup_zip_with.
  assert (Hz : forall m, zrange 0 m !! i = if decide (Z.of_nat i < m) then Some (Z.of_nat i) else None).
  { intros m. unfold zrange. rewrite list_lookup_fmap. case_decide.
    - rewrite lookup_seq_lt by lia. simpl. f_equal; lia.
    - rewrite lookup_seq_ge by lia. done. }
  rewrite !Hz. unfold pylen. rewrite length_take, lookup_take.
  destruct (l !! i) as [x|] eqn:Hl.
  - apply lookup_lt_Some in Hl. repeat case_decide; simpl; (done || lia).
  - repeat case_decide; simpl; done.
Qed.

Section recovery_lemmas.
Context {K P L T S St : Type} (v : Vllm K P L T S St) (c : SchedConfig) (inv : gset Z).
Abbreviation bs := (sc_block_size c).
Implicit Types s : SchedState K.

(** The blocks of a request that may hold externally computed tokens. *)
Definition held_blocks s (id : string) : list Z :=
  match heap s !! id, get_block_ids v (kv_cache_manager s) id with
  | Some r, Ok bl =>
      take (Z.to_nat (computed_blocks c (externally_computed c (failed_recving_kv_req_ids s) id r bl))) bl
  | _, _ => []
  end.

Definition known s (id : string) : Prop :=
  is_Some (heap s !! id) /\ exists bl, get_block_ids v (kv_cache_manager s) id = Ok bl.

Definition has_invalid (bl : list Z) : Prop := Exists (fun b => b ∈ inv) bl.

(** What the loop leaves of a request whose earlier requests have marked [marked]. *)
Definition rolled_back (bl : list Z) (marked : gset Z) (r r' : SReq) : Prop :=
  r' = with_computed (r_num_computed_tokens r') r /\
  (~ has_invalid bl -> r' = r) /\
  (forall (i : nat) b, bl !! i = Some b -> fresh_invalid inv marked b ->
     r_num_computed_tokens r' <= Z.of_nat i * bs) /\
  (has_invalid bl -> (forall b, b ∈ bl -> ~ fresh_invalid inv marked b) ->
     r_num_computed_tokens r' = r_num_cached_tokens r) /\
  (has_invalid bl -> r_num_computed_tokens r' = r_num_cached_tokens r \/
     exists (i : nat) b, bl !! i = Some b /\ fresh_invalid inv marked b /\
       r_num_computed_tokens r' = Z.of_nat i * bs).

Lemma with_computed_same r : with_computed (r_num_computed_tokens r) r = r.
Proof. by destruct r. Qed.

(** One request. *)
Lemma update_one s id affected total marked :
  0 < bs -> known s id ->
  exists r r' total',
    heap s !! id = Some r /\ rolled_back (held_blocks s id) marked r r' /\
    update_request_with_invalid_blocks v c inv (affected, total, marked) id s =
      (Ok (if decide (has_invalid (held_blocks s id)) then {[id]} ∪ affected else affected, total',
           marked ∪ (inv ∩ list_to_set (held_blocks s id))),
       if decide (has_invalid (held_blocks s id)) then set_heap (insert id r') s else s).
Proof.
  intros Hbs [[r Hr] [bl Hbl]].
  set (a0 := {| is_affected := false; marked_invalid_block := false; marked_invalid_block_ids := marked;
                sc_computed := r_num_computed_tokens r; sc_total := total |}).
  set (n := externally_computed c (failed_recving_kv_req_ids s) id r bl).
  assert (Hheld : held_blocks s id = take (Z.to_nat (computed_blocks c n)) bl).
  { unfold held_blocks. by rewrite Hr, Hbl. }
  set (a := foldl (scan_block c inv n) a0 (zip (zrange 0 (computed_blocks c n)) bl)).
  assert (Ha : a = foldl (scan_block c inv n) a0 (zip (zrange 0 (0 + pylen (held_blocks s id))) (held_blocks s id))).
  { unfold a. by rewrite Hheld, zip_zrange. }
  destruct (scan_marked c inv n a0 0 (held_blocks s id)) as [Hm Haff]. rewrite <- Ha in Hm, Haff.
  pose proof (scan_truncates c inv n a0 0 (held_blocks s id) eq_refl) as Htr. rewrite <- Ha in Htr.
  cbn [marked_invalid_block_ids is_affected a0] in Hm, Haff, Htr.
  assert (Hrun : forall k, update_request_with_invalid_blocks v c inv (affected, total, marked) id s = k <->
    (if is_affected a
     then (Ok ({[id]} ∪ affected,
              if negb (marked_invalid_block a) then sc_total a + (sc_computed a - r_num_cached_tokens r) else sc_total a,
              marked_invalid_block_ids a),
           set_heap (insert id (with_computed (if negb (marked_invalid_block a) then r_num_cached_tokens r
                                               else sc_computed a) r)) s)
     else (Ok (affected, total, marked_invalid_block_ids a), s)) = k).
  { intros k. unfold update_request_with_invalid_blocks, get_req, bind, gets, lift_res, of_option.
    rewrite Hr. cbn iota beta. rewrite Hbl. cbn zeta iota beta. fold n. fold a0. fold a.
    by destruct (is_affected a). }
  destruct (is_affected a) eqn:Ea.
  - assert (Hinv : has_invalid (held_blocks s id)) by (destruct (proj1 Haff eq_refl) as [|]; done).
    exists r, (with_computed (if negb (marked_invalid_block a) then r_num_cached_tokens r else sc_computed a) r).
    eexists. split; [done|]. split.
    + split; [done|]. split; [done|]. cbn [r_num_computed_tokens with_computed].
      destruct Htr as [(E1 & E2 & E3)|(E1 & k & b & Hk & Hf & E2 & E3)]; rewrite E1; cbn [negb].
      * split; [intros i b Hi Hfr; by destruct (E3 b (list_elem_of_lookup_2 _ _ _ Hi))|]. split; [done|]. by left.
      * split; [|split; [|right; exists k, b; split; [done|]; split; [done|]; rewrite E2; f_equal; lia]].
        -- intros i x Hi Hfr. rewrite E2. destruct (decide (i < k)%nat) as [Hlt|]; [by destruct (E3 i x)|nia].
        -- intros _ Hno. by destruct (Hno b (list_elem_of_lookup_2 _ _ _ Hk)).
    + apply Hrun. rewrite Hm. rewrite !decide_True by done. reflexivity.
  - assert (Hinv : ~ has_invalid (held_blocks s id)) by (intros Hx; pose proof (proj2 Haff (or_intror Hx)); done).
    exists r, r, total. split; [done|]. split.
    + split; [by rewrite with_computed_same|]. split; [done|]. split.
      * intros i b Hi [Hb _]. destruct Hinv. apply Exists_exists. exists b.
        split; [by eapply list_elem_of_lookup_2|done].
      * split; intros; done.
    + apply Hrun. rewrite Hm. rewrite !decide_False by done. reflexivity.
Qed.

Lemma held_blocks_insert s id id' r : id' <> id -> held_blocks (set_heap (insert id r) s) id' = held_blocks s id'.
Proof. intros Hne. unfold held_blocks. simpl. by rewrite lookup_insert_ne. Qed.

Lemma known_insert s id id' r : id' <> id -> known s id' -> known (set_heap (insert id r) s) id'.
Proof. intros Hne Hk. unfold known. simpl. by rewrite lookup_insert_ne. Qed.

(** The blocks the first [k] requests hold. *)
Definition marked_by s (ids : list string) : gset Z := inv ∩ list_to_set (concat (held_blocks s <$> ids)).

Lemma marked_by_nil s : marked_by s [] = ∅.
Proof. unfold marked_by. set_solver. Qed.

Lemma marked_by_cons s id ids : marked_by s (id :: ids) = (inv ∩ list_to_set (held_blocks s id)) ∪ marked_by s ids.
Proof. unfold marked_by. rewrite fmap_cons. cbn [concat]. rewrite list_to_set_app_L. set_solver. Qed.

Lemma marked_by_ext s s' ids :
  (forall id, id ∈ ids -> held_blocks s' id = held_blocks s id) -> marked_by s' ids = marked_by s ids.
Proof.
  intros Hh. unfold marked_by. do 3 f_equal. apply list_fmap_ext. intros i id Hi.
  apply Hh. by eapply list_elem_of_lookup_2.
Qed.

Lemma update_loop s ids affected total marked :
  0 < bs -> NoDup ids -> (forall id, id ∈ ids -> known s id) ->
  exists s' aff tot,
    for_acc ids (affected, total, marked) (update_request_with_invalid_blocks v c inv) s =
      (Ok (aff, tot, marked ∪ marked_by s ids), s') /\
    s' = set_heap (fun _ => heap s') s /\
    (forall id, id ∈ aff <-> id ∈ affected \/ (id ∈ ids /\ has_invalid (held_blocks s id))) /\
    (forall id, id ∉ ids -> heap s' !! id = heap s !! id) /\
    (forall k id, ids !! k = Some id -> exists r r', heap s !! id = Some r /\ heap s' !! id = Some r' /\
       rolled_back (held_blocks s id) (marked ∪ marked_by s (take k ids)) r r').
Proof.
  intros Hbs. revert s affected total marked. induction ids as [|id ids IH]; intros s affected total marked Hn Hk.
  - exists s, affected, total. rewrite marked_by_nil, union_empty_r_L. split; [done|]. split; [by destruct s|]. split; [set_solver|]. done.
  - apply NoDup_cons in Hn as [Hid Hn].
    destruct (update_one s id affected total marked Hbs (Hk id ltac:(left))) as (r & r' & total' & Hr & Hrb & Hrun).
    set (s1 := if decide (has_invalid (held_blocks s id)) then set_heap (insert id r') s else s) in *.
    assert (Hh1 : forall id', id' <> id -> held_blocks s1 id' = held_blocks s id' /\ heap s1 !! id' = heap s !! id').
    { intros id' Hne. unfold s1. case_decide; [|done]. split; [by apply held_blocks_insert|].
      by apply lookup_insert_ne. }
    assert (Hs1 : s1 = set_heap (fun _ => heap s1) s) by (unfold s1; case_decide; by destruct s).
    assert (Hr1 : heap s1 !! id = Some r').
    { unfold s1. case_decide as Hd; [apply lookup_insert_eq|]. by rewrite (proj1 (proj2 Hrb) Hd). }
    destruct (IH s1 (if decide (has_invalid (held_blocks s id)) then {[id]} ∪ affected else affected) total'
                (marked ∪ (inv ∩ list_to_set (held_blocks s id))) Hn) as (s' & aff & tot & Hl & Hs' & Haff & Ho & Hi).
    { intros id' Hin. assert (id' <> id) by (intros ->; done). unfold s1. case_decide.
      - apply known_insert; [done|]. apply Hk. by right.
      - apply Hk. by right. }
    assert (Hne : forall id', id' ∈ ids -> id' <> id) by (intros id' Hin ->; done).
    assert (Hmk : forall l, (forall x, x ∈ l -> x ∈ ids) -> marked_by s1 l = marked_by s l).
    { intros l Hl'. apply marked_by_ext. intros id' Hin. apply Hh1, Hne, Hl', Hin. }
    exists s', aff, tot. cbn [for_acc]. rewrite (bind_ok _ _ _ _ _ Hrun), Hl.
    rewrite Hmk by done. rewrite marked_by_cons, (assoc_L (∪)). split; [done|].
    split; [rewrite Hs', Hs1; by destruct s|]. split; [|split].
    + intros id'. rewrite Haff, elem_of_cons. destruct (decide (id' = id)) as [->|Hne'].
      * destruct (decide (has_invalid (held_blocks s id))); rewrite ?elem_of_union, ?elem_of_singleton; tauto.
      * rewrite (proj1 (Hh1 id' Hne')). destruct (decide (has_invalid (held_blocks s id)));
          rewrite ?elem_of_union, ?elem_of_singleton; tauto.
    + intros id' Hin. apply not_elem_of_cons in Hin as [Hne' Hin]. rewrite Ho by done. by apply Hh1.
    + intros [|k] id' Hk'; simpl in Hk'.
      * injection Hk' as <-. exists r, r'. split; [done|]. split; [by rewrite Ho|].
        cbn [take]. by rewrite marked_by_nil, union_empty_r_L.
      * assert (Hin : id' ∈ ids) by (by eapply list_elem_of_lookup_2).
        destruct (Hi k id' Hk') as (r0 & r0' & H1 & H2 & H3). destruct (Hh1 id' (Hne id' Hin)) as [E1 E2].
        exists r0, r0'. rewrite <- E2, <- E1. split; [done|]. split; [done|].
        cbn [take]. rewrite marked_by_cons, (assoc_L (∪)). rewrite <- (Hmk (take k ids)); [done|].
        intros x Hx. by eapply elem_of_take in Hx as (? & ?%list_elem_of_lookup_2 & _).
Qed.

(** *** One pass *)

(** The first of the requests that holds an invalid block gives up its tokens
    from that block on. *)
Definition first_holder_recomputes s s' (ids : list string) : Prop :=
  forall k id i b, ids !! k = Some id -> held_blocks s id !! i = Some b -> b ∈ inv ->
    (forall j id', (j < k)%nat -> ids !! j = Some id' -> b ∉ held_blocks s id') ->
    exists r', heap s' !! id = Some r' /\ r_num_computed_tokens r' <= Z.of_nat i * bs.

(** Nothing but the computed tokens of the affected requests changes. *)
Definition rolls_back_only s s' (ids : list string) : Prop :=
  forall id, heap s' !! id = heap s !! id \/
    (id ∈ ids /\ has_invalid (held_blocks s id) /\
     exists r n, heap s !! id = Some r /\ heap s' !! id = Some (with_computed n r)).

Lemma held_index s id r i b :
  0 < bs -> heap s !! id = Some r -> r_status r <> WAITING_FOR_REMOTE_KVS ->
  held_blocks s id !! i = Some b -> Z.of_nat i * bs < r_num_cached_tokens r.
Proof.
  intros Hbs Hr Hst Hi. unfold held_blocks in Hi. rewrite Hr in Hi.
  destruct (get_block_ids v (kv_cache_manager s) id) as [bl|]; [|done].
  unfold externally_computed in Hi. rewrite bool_decide_false in Hi by done.
  apply lookup_take_Some in Hi as [_ Hi]. unfold computed_blocks in Hi.
  assert (Hle : Z.of_nat i + 1 <= (r_num_cached_tokens r + bs - 1) / bs) by lia.
  pose proof (Z.mul_div_le (r_num_cached_tokens r + bs - 1) bs Hbs). nia.
Qed.

Lemma update_pass s ids :
  0 < bs -> NoDup ids -> (forall id, id ∈ ids -> known s id) ->
  exists s' aff tot, update_requests_with_invalid_blocks v c ids inv s = (Ok (aff, tot), s') /\
    s' = set_heap (fun _ => heap s') s /\
    (forall id, id ∈ aff <-> id ∈ ids /\ has_invalid (held_blocks s id)) /\
    first_holder_recomputes s s' ids /\ rolls_back_only s s' ids /\
    (forall id r, id ∈ ids -> heap s !! id = Some r -> r_status r <> WAITING_FOR_REMOTE_KVS ->
       r_num_cached_tokens r <= r_num_computed_tokens r ->
       exists r', heap s' !! id = Some r' /\ r_num_computed_tokens r' <= r_num_computed_tokens r).
Proof.
  intros Hbs Hn Hk. destruct (update_loop s ids ∅ 0 ∅ Hbs Hn Hk) as (s' & aff & tot & Hl & Hs' & Haff & Ho & Hi).
  exists s', aff, tot. unfold update_requests_with_invalid_blocks. rewrite (bind_ok _ _ _ _ _ Hl).
  split; [done|]. split; [done|]. split; [intros id; rewrite Haff; set_solver|]. split; [|split].
  - intros k id i b Hk' Hb Hinv Hfirst. destruct (Hi k id Hk') as (r & r' & Hr & Hr' & _ & _ & Hle & _).
    exists r'. split; [done|]. apply (Hle i b Hb). split; [done|]. rewrite union_empty_l_L.
    unfold marked_by. rewrite elem_of_intersection, elem_of_list_to_set, elem_of_concat.
    intros [_ (l & Hl' & Hbl)]. apply list_elem_of_fmap in Hl' as (id' & -> & Hin).
    apply list_elem_of_lookup in Hin as [j Hj]. apply lookup_take_Some in Hj as [Hj Hlt].
    by apply (Hfirst j id').
  - intros id. destruct (decide (id ∈ ids)) as [Hin|Hin]; [|left; by apply Ho].
    apply list_elem_of_lookup in Hin as [k Hk']. destruct (Hi k id Hk') as (r & r' & Hr & Hr' & Heq & Hsame & _).
    destruct (decide (has_invalid (held_blocks s id))) as [Hd|Hd].
    + right. split; [by eapply list_elem_of_lookup_2|]. split; [done|]. exists r, (r_num_computed_tokens r').
      by rewrite <- Heq.
    + left. by rewrite Hr, Hr', Hsame.
  - intros id r Hin Hr Hst Hc. apply list_elem_of_lookup in Hin as [k Hk'].
    destruct (Hi k id Hk') as (r0 & r' & Hr0 & Hr' & _ & Hsame & _ & _ & Hcase).
    rewrite Hr in Hr0. injection Hr0 as <-. exists r'. split; [done|].
    destruct (decide (has_invalid (held_blocks s id))) as [Hd|Hd]; [|by rewrite Hsame].
    destruct (Hcase Hd) as [->|(i & b & Hb & _ & ->)]; [done|].
    pose proof (held_index s id r i b Hbs Hr Hst Hb). lia.
Qed.
End recovery_lemmas.

(** ** Properties of the recovery *)

Section handle.
Context {K P L T S St : Type} (v : Vllm K P L T S St) (c : SchedConfig) (inv : gset Z).
Implicit Types s : SchedState K.

(** The requests that wait for an asynchronous load. *)
Definition loading s : list string := filter (is_async s) (waiting s).

(** The queues name known requests, without repetition. *)
Definition queues_ok s : Prop :=
  NoDup (waiting s ++ running s) /\ forall id, id ∈ waiting s ++ running s -> known v s id.

Lemma held_blocks_frame s s' id :
  heap s' !! id = heap s !! id -> kv_cache_manager s' = kv_cache_manager s ->
  (id ∈ failed_recving_kv_req_ids s' <-> id ∈ failed_recving_kv_req_ids s) ->
  held_blocks v c s' id = held_blocks v c s id.
Proof.
  intros Hh Hk Hf. unfold held_blocks. rewrite Hh, Hk. destruct (heap s !! id) as [r|]; [|done].
  unfold externally_computed. by rewrite (bool_decide_ext _ _ Hf).
Qed.

Lemma queues_split s id : queues_ok s -> id ∈ running s -> id ∉ loading s.
Proof.
  intros [Hn _] Hr Hl. apply NoDup_app in Hn as (_ & Hd & _). apply list_elem_of_filter in Hl as [_ Hl].
  by apply (Hd id).
Qed.

Lemma drop_requests_meta_lookup ids m (id : string) :
  drop_requests_meta ids m !! id = if decide (id ∈ ids) then None else m !! id.
Proof.
  unfold drop_requests_meta. case_decide as Hd.
  - apply map_lookup_filter_None. right. intros x _ Hx. by apply Hx.
  - destruct (m !! id) as [x|] eqn:Hm.
    + by apply map_lookup_filter_Some.
    + apply map_lookup_filter_None. by left.
Qed.

(** The second pass sees the running requests as they were. *)
Lemma second_pass_held s s1 aff id :
  queues_ok s -> rolls_back_only v c inv s s1 (loading s) -> s1 = set_heap (fun _ => heap s1) s ->
  (forall x, x ∈ aff -> x ∈ loading s) -> id ∈ running s ->
  held_blocks v c (set_failed_recving (fun f => f ∪ aff) s1) id = held_blocks v c s id /\
  heap s1 !! id = heap s !! id.
Proof.
  intros Hq Hroll Hs1 Haff Hid. pose proof (queues_split s id Hq Hid) as Hnl.
  assert (Hh : heap s1 !! id = heap s !! id) by (destruct (Hroll id) as [|[]]; done).
  split; [|done]. apply held_blocks_frame; [done|by rewrite Hs1|]. simpl. rewrite Hs1. simpl.
  rewrite elem_of_union. split; [intros [|Hx]; [done|]|by left]. by destruct (Hnl (Haff _ Hx)).
Qed.

Lemma handle_invalid_blocks_spec s :
  0 < sc_block_size c -> queues_ok s ->
  exists s' aff, handle_invalid_blocks v c inv s = (Ok aff, s') /\
    (forall id, id ∈ aff <-> id ∈ running s /\ has_invalid inv (held_blocks v c s id)) /\
    (forall id, id ∈ failed_recving_kv_req_ids s' <-> id ∈ failed_recving_kv_req_ids s \/
       (id ∈ loading s /\ has_invalid inv (held_blocks v c s id))) /\
    first_holder_recomputes v c inv s s' (loading s) /\
    first_holder_recomputes v c inv s s' (running s) /\
    rolls_back_only v c inv s s' (loading s ++ running s) /\
    (forall id r, id ∈ running s -> heap s !! id = Some r -> r_status r <> WAITING_FOR_REMOTE_KVS ->
       r_num_cached_tokens r <= r_num_computed_tokens r ->
       exists r', heap s' !! id = Some r' /\ r_num_computed_tokens r' <= r_num_computed_tokens r) /\
    (forall m, connector_requests_meta s = Some m -> exists m', connector_requests_meta s' = Some m' /\
       forall id, m' !! id = if decide (id ∈ aff) then None else m !! id) /\
    kv_cache_manager s' = kv_cache_manager s /\ waiting s' = waiting s /\ running s' = running s.
Proof.
  intros Hbs Hq. pose proof Hq as [Hn Hk]. apply NoDup_app in Hn as (Hnw & Hdis & Hnr).
  assert (Hload : forall id, id ∈ loading s -> id ∈ waiting s) by (intros id Hx; by apply list_elem_of_filter in Hx as []).
  destruct (update_pass v c inv s (loading s) Hbs) as (s1 & aff1 & t1 & H1 & Hs1 & Ha1 & Hf1 & Hr1 & _);
    [by apply NoDup_filter|intros id Hx; apply Hk, elem_of_app; left; auto|].
  set (s2 := set_failed_recving (fun f => f ∪ aff1) s1).
  assert (H2s : forall id, id ∈ running s -> held_blocks v c s2 id = held_blocks v c s id /\ heap s1 !! id = heap s !! id).
  { intros id Hx. apply second_pass_held; try done. intros x Hxa. by apply Ha1 in Hxa as []. }
  assert (Hrun : running s2 = running s) by (unfold s2; by rewrite Hs1).
  destruct (update_pass v c inv s2 (running s) Hbs Hnr) as (s3 & aff & t3 & H3 & Hs3 & Ha3 & Hf3 & Hr3 & Hc3).
  { intros id Hx. destruct (Hk id (proj2 (elem_of_app _ _ _) (or_intror Hx))) as [Hh Hb]. split.
    - simpl. by rewrite (proj2 (H2s id Hx)).
    - unfold s2. rewrite Hs1. exact Hb. }
  exists (set_connector_meta (fun m => drop_requests_meta aff <$> m) s3), aff.
  split; [|split; [|split; [|split; [|split; [|split; [|split; [|split; [|split]]]]]]]].
  - unfold handle_invalid_blocks, bind, gets, modify. fold (loading s). rewrite H1. cbn beta iota.
    fold s2. rewrite Hrun, H3. done.
  - intros id. rewrite Ha3. split; (intros [Hx Hi]; split; [done|]); by rewrite (proj1 (H2s id Hx)) in *.
  - intros id. simpl. rewrite Hs3. simpl. rewrite elem_of_union, Ha1, Hs1. done.
  - intros k id i b Hid Hb Hinv Hfst. destruct (Hf1 k id i b Hid Hb Hinv Hfst) as (r' & Hr' & Hle).
    exists r'. split; [|done]. simpl. destruct (Hr3 id) as [->|(Hx & _)]; [done|].
    exfalso. apply (queues_split s id Hq Hx). by eapply list_elem_of_lookup_2.
  - intros k id i b Hid Hb Hinv Hfst. assert (Hx : id ∈ running s) by (by eapply list_elem_of_lookup_2).
    apply (Hf3 k id i b Hid); [by rewrite (proj1 (H2s id Hx))|done|]. intros j id' Hj Hid'.
    rewrite (proj1 (H2s id' ltac:(by eapply list_elem_of_lookup_2))). by apply (Hfst j).
  - intros id. simpl. destruct (Hr3 id) as [E|(Hx & Hi & r & n & E1 & E2)].
    + rewrite E. simpl. destruct (Hr1 id) as [E'|(Hx & Hi & Hrn)]; [by left|]. right.
      split; [apply elem_of_app; by left|]. done.
    + right. split; [apply elem_of_app; by right|]. destruct (H2s id Hx) as [Eh Eo].
      rewrite Eh in Hi. simpl in E1. rewrite Eo in E1. split; [done|]. by exists r, n.
  - intros id r Hx Hr Hst Hle. apply (Hc3 id r Hx); [|done..]. simpl. by rewrite (proj2 (H2s id Hx)).
  - intros m Hm. assert (Hm3 : connector_requests_meta s3 = Some m) by (rewrite Hs3; simpl; by rewrite Hs1).
    exists (drop_requests_meta aff m). simpl. rewrite Hm3. split; [done|]. intros id. apply drop_requests_meta_lookup.
  - simpl. rewrite Hs3. simpl. by rewrite Hs1.
  - simpl. rewrite Hs3. simpl. by rewrite Hs1.
Qed.

(** The affected requests alone. *)
Lemma recovery_pass s :
  0 < sc_block_size c -> queues_ok s ->
  exists s' aff, handle_invalid_blocks v c inv s = (Ok aff, s') /\
    (forall id, id ∈ aff <-> id ∈ running s /\ has_invalid inv (held_blocks v c s id)).
Proof.
  intros Hbs Hq. destruct (handle_invalid_blocks_spec s Hbs Hq) as (s' & aff & ? & ? & _). by exists s', aff.
Qed.

(** C7. Recovery from blocks that failed to load.  The returned requests are
    exactly the running ones that hold an invalid block among their externally computed blocks;
    the requests that still load asynchronously are remembered as failed; every
    invalid block is given up, and so recomputed, by the first request of its
    queue that holds it; a running request never gains computed tokens; nothing
    but the computed tokens of the affected requests changes, and the connector
    forgets exactly the returned requests. *)
Theorem invalid_blocks_are_recomputed s :
  0 < sc_block_size c -> queues_ok s ->
  exists s' aff, handle_invalid_blocks v c inv s = (Ok aff, s') /\
    (forall id, id ∈ aff <-> id ∈ running s /\ has_invalid inv (held_blocks v c s id)) /\
    (forall id, id ∈ failed_recving_kv_req_ids s' <-> id ∈ failed_recving_kv_req_ids s \/
       (id ∈ loading s /\ has_invalid inv (held_blocks v c s id))) /\
    first_holder_recomputes v c inv s s' (loading s) /\
    first_holder_recomputes v c inv s s' (running s) /\
    rolls_back_only v c inv s s' (loading s ++ running s) /\
    (forall id r, id ∈ running s -> heap s !! id = Some r -> r_status r <> WAITING_FOR_REMOTE_KVS ->
       r_num_cached_tokens r <= r_num_computed_tokens r ->
       exists r', heap s' !! id = Some r' /\ r_num_computed_tokens r' <= r_num_computed_tokens r) /\
    (forall m, connector_requests_meta s = Some m -> exists m', connector_requests_meta s' = Some m' /\
       forall id, m' !! id = if decide (id ∈ aff) then None else m !! id) /\
    kv_cache_manager s' = kv_cache_manager s /\ waiting s' = waiting s /\ running s' = running s.
Proof. apply handle_invalid_blocks_spec. Qed.
End handle.

(** ** Properties of the step's output *)

(** The outputs of all the clients. *)
Definition all_outputs {P L T St} (eco : list (Z * EngineCoreOutputs P L T St)) : list (EngineCoreOutput P L T) :=
  concat ((fun e => eco_outputs e.2) <$> eco).

Section outputs.
Context {K P L T S St : Type} (v : Vllm K P L T S St) (c : SchedConfig).
Implicit Types s : SchedState K.

Lemma elem_of_append (k : Z) (o x : EngineCoreOutput P L T) outs :
  x ∈ concat (append_output k o outs).*2 -> x = o \/ x ∈ concat outs.*2.
Proof.
  unfold append_output. rewrite !elem_of_concat. intros (l & Hl & Hx).
  apply list_elem_of_fmap in Hl as ([k' l'] & -> & Hl). simpl in Hx.
  apply elem_of_od_set in Hl as [[-> ->]|Hl].
  - apply elem_of_app in Hx as [Hx|Hx%list_elem_of_singleton]; [|by left]. right.
    destruct (od_get k outs) as [l|] eqn:Hk; [|by apply elem_of_nil in Hx].
    exists l. split; [|done]. apply list_elem_of_fmap. exists (k, l). split; [done|]. by apply od_get_elem.
  - right. exists l'. split; [|done]. apply list_elem_of_fmap. by exists (k', l').
Qed.

(** One scheduled request adds at most one output, its own, and none when its
    load has failed. *)
Lemma output_step_outputs spec o failed acc id n s acc' s' x :
  output_step v c spec o failed acc (id, n) s = (Ok acc', s') ->
  x ∈ concat (outputs acc').*2 -> x ∈ concat (outputs acc).*2 \/ (out_request_id x = id /\ id ∉ failed).
Proof.
  unfold output_step. intros Hs Hx. apply bind_inv_ok in Hs as ([] & s1 & _ & Hs).
  case_bool_decide as Hf; [injection Hs as <- <-; by left|].
  apply bind_inv_ok in Hs as (known & s2 & _ & Hs).
  case_bool_decide; [injection Hs as <- <-; by left|].
  unfold output_of_request in Hs. cbv zeta in Hs.
  repeat match type of Hs with
  | bind _ _ _ = _ => apply bind_inv_ok in Hs as (? & ? & _ & Hs)
  | (let '(_, _) := ?e in _) _ = _ => destruct e as [[? ?] ?]
  | (let '(_, _) := ?e in _) _ = _ => destruct e as [? ?]
  end.
  injection Hs as <- <-. cbn [outputs] in Hx.
  match type of Hx with context [if ?e then _ else _] => destruct e end; [|by left].
  apply elem_of_append in Hx as [->|Hx]; [by right|by left].
Qed.

Lemma elem_of_all_outputs (eco : list (Z * EngineCoreOutputs P L T St)) x :
  x ∈ all_outputs eco <-> exists k e, (k, e) ∈ eco /\ x ∈ eco_outputs e.
Proof.
  unfold all_outputs. rewrite elem_of_concat. setoid_rewrite list_elem_of_fmap. split.
  - intros (l & ([k e] & -> & Hin) & Hx). by exists k, e.
  - intros (k & e & Hin & Hx). exists (eco_outputs e). split; [|done]. by exists (k, e).
Qed.

Lemma add_finished_outputs d (eco : list (Z * EngineCoreOutputs P L T St)) x :
  x ∈ all_outputs (add_finished d eco) -> x ∈ all_outputs eco.
Proof.
  unfold add_finished. revert eco. induction d as [|[k f] d IH]; intros eco; [done|]. cbn [foldl fst snd].
  intros Hx%IH. apply elem_of_all_outputs in Hx as (k' & e & Hin & Hx).
  apply elem_of_od_set in Hin as [[-> ->]|Hin]; [|apply elem_of_all_outputs; by exists k', e].
  cbn [eco_outputs] in Hx. destruct (od_get k eco) as [e0|] eqn:Hk; [|by apply elem_of_nil in Hx].
  apply elem_of_all_outputs. exists k, e0. split; [by apply od_get_elem|done].
Qed.

Lemma add_stats_outputs st (eco : list (Z * EngineCoreOutputs P L T St)) :
  all_outputs (add_stats_to_first st eco) = all_outputs eco.
Proof. by destruct st, eco as [|[]]. Qed.

(** C24. No output for a request that was rolled back.  Whatever vLLM's own steps
    do, every output a step sends to a client belongs to a scheduled request;
    when the workers report blocks that failed to load, it is not one of the
    running requests that hold such a block: tokens sampled over missing KV
    data are never emitted. *)
Theorem recovered_requests_emit_nothing scheduled spec o ko s s' eco :
  0 < sc_block_size c -> queues_ok v s ->
  kv_connector_output o = Some ko -> ko_invalid_block_ids ko <> ∅ ->
  update_from_output v c scheduled spec o s = (Ok eco, s') ->
  forall x, x ∈ all_outputs eco -> out_request_id x ∈ scheduled.*1 /\
    ~ (out_request_id x ∈ running s /\
       has_invalid (ko_invalid_block_ids ko) (held_blocks v c s (out_request_id x))).
Proof.
  intros Hbs Hq Hko Hinv Hrun x Hx. unfold update_from_output in Hrun. rewrite Hko in Hrun.
  destruct (recovery_pass v c (ko_invalid_block_ids ko) s Hbs Hq) as (s1 & aff & Hh & Haff).
  rewrite bool_decide_false in Hrun by done. rewrite (bind_ok _ _ _ _ _ Hh) in Hrun.
  apply bind_inv_ok in Hrun as (acc & s2 & Hacc & Hrun).
  assert (Hinvt : forall x, x ∈ concat (outputs acc).*2 -> out_request_id x ∈ scheduled.*1 /\ out_request_id x ∉ aff).
  { refine (for_acc_inv (fun acc => forall x, x ∈ concat (outputs acc).*2 -> _) _ _ _ _ _ _ _ Hacc _);
      [|intros y Hy; by apply elem_of_nil in Hy].
    intros b [id n] sa b' sb Hin IH Hstep y Hy.
    destruct (output_step_outputs _ _ _ _ _ _ _ _ _ _ Hstep Hy) as [Hy'|[-> Hy']]; [by apply IH|].
    split; [|done]. apply list_elem_of_fmap. by exists (id, n). }
  repeat (apply bind_inv_ok in Hrun as (? & ? & ? & Hrun)). injection Hrun as <- _.
  rewrite add_stats_outputs in Hx.
  assert (Hx' : x ∈ concat (outputs acc).*2).
  { assert (Hbase : forall y, y ∈ all_outputs ((fun e => (e.1, {| eco_outputs := e.2; eco_finished_requests := None;
        eco_scheduler_stats := @None St |})) <$> outputs acc) -> y ∈ concat (outputs acc).*2).
    { intros y Hy. unfold all_outputs in Hy. by rewrite <- list_fmap_compose in Hy. }
    apply Hbase. match goal with Hd : (match ?d with _ => _ end) _ = (Ok _, _) |- _ =>
      destruct d as [[|??]|]; [by injection Hd as <- <-| |by injection Hd as <- <-];
      apply bind_inv_ok in Hd as (? & ? & _ & Hd); injection Hd as <- <- end.
    by apply add_finished_outputs in Hx. }
  destruct (Hinvt x Hx') as [Hsch Hna]. split; [done|]. intros Hbad. by apply Hna, Haff.
Qed.
End outputs.

(** ** Properties of the end of an asynchronous load *)

Section remote.
Context {K P L T S St : Type} (v : Vllm K P L T S St) (c : SchedConfig) (inv : gset Z).
Implicit Types s : SchedState K.

(** What [update_waiting_for_remote_kv] leaves of a finished request: all the
    tokens of its blocks are computed but the last of the request, unless its
    load has failed. *)
Lemma update_waiting_finished s id r bl :
  sc_has_connector c = true -> heap s !! id = Some r -> id ∈ finished_recving_kv_req_ids s ->
  get_block_ids v (kv_cache_manager s) id = Ok bl ->
  let n := Z.min (pylen bl * sc_block_size c) (r_num_tokens r - 1) in
  let failed := bool_decide (id ∈ failed_recving_kv_req_ids s) in
  exists s', update_waiting_for_remote_kv v c id s = (Ok true, s') /\
    finished_recving_kv_req_ids s' = finished_recving_kv_req_ids s ∖ {[id]} /\
    (id ∉ failed_recving_kv_req_ids s') /\
    heap s' = (if failed then heap s else <[id := with_computed n r]> (heap s)) /\
    kv_cache_manager s' =
      (if failed then (if r_num_computed_tokens r =? 0 then kv_free v id r (kv_cache_manager s)
                       else cache_blocks v id r (r_num_computed_tokens r) (kv_cache_manager s))
       else cache_blocks v id r n (kv_cache_manager s)).
Proof.
  intros Hc Hr Hfin Hbl n failed. unfold update_waiting_for_remote_kv. rewrite bind_assert by done.
  unfold get_req, bind at 1 2 3, gets, lift_res. cbv beta iota. rewrite Hr. cbn [of_option].
  rewrite bool_decide_false by tauto. unfold bind at 1 2 3. cbv beta iota. fold failed.
  destruct failed eqn:Hf.
  - apply bool_decide_eq_true in Hf. unfold bind, modify.
    destruct (r_num_computed_tokens r =? 0); (eexists; split; [reflexivity|]; cbn; split; [done|];
      split; [set_solver|done]).
  - apply bool_decide_eq_false in Hf. rewrite Hbl. unfold bind, modify, put_req. eexists.
    split; [reflexivity|]. cbn.
    assert (Hn : (if Z.min (pylen bl * sc_block_size c) (r_num_tokens r) =? r_num_tokens r
                  then Z.min (pylen bl * sc_block_size c) (r_num_tokens r) - 1
                  else Z.min (pylen bl * sc_block_size c) (r_num_tokens r)) = n).
    { unfold n. destruct (Z.eqb_spec (Z.min (pylen bl * sc_block_size c) (r_num_tokens r)) (r_num_tokens r)); lia. }
    rewrite Hn. done.
Qed.

(** A request that alone holds its failed blocks is rolled back before them. *)
Lemma sole_holder_rolls_back s s1 id r i b :
  queues_ok v s -> first_holder_recomputes v c inv s s1 (loading s) -> id ∈ loading s ->
  (forall id' b, id' ∈ loading s -> id' <> id -> b ∈ inv -> b ∈ held_blocks v c s id -> b ∉ held_blocks v c s id') ->
  heap s1 !! id = Some r -> held_blocks v c s id !! i = Some b -> b ∈ inv ->
  r_num_computed_tokens r <= Z.of_nat i * sc_block_size c.
Proof.
  intros Hq Hfirst Hid Hsole Hr Hb Hbi. apply list_elem_of_lookup in Hid as [k Hk].
  destruct (Hfirst k id i b Hk Hb Hbi) as (r1 & Hr1 & Hle); [|by simplify_eq].
  intros j id' Hj Hid'. apply Hsole; [by eapply list_elem_of_lookup_2| |done|by eapply list_elem_of_lookup_2].
  intros ->. pose proof Hq as [Hnd _]. apply NoDup_app in Hnd as (Hnw & _ & _).
  pose proof (NoDup_lookup _ _ _ _ (NoDup_filter _ _ Hnw) Hid' Hk). lia.
Qed.

(** C23. After a failed asynchronous load only valid blocks are kept.  A request that is loading
    remotely, and whose invalid blocks no other loading request holds, is, once
    its transfer has ended, made schedulable again with exactly the computed tokens the
    recovery left it: none of its invalid blocks lies within them, only those
    tokens are put in the prefix cache, and with none left its blocks are freed.
    A request without invalid blocks keeps all its loaded tokens but the last of the
    request. *)
Theorem async_load_keeps_the_valid_prefix s s1 aff id :
  0 < sc_block_size c -> queues_ok v s -> sc_has_connector c = true ->
  handle_invalid_blocks v c inv s = (Ok aff, s1) -> id ∈ loading s ->
  id ∈ finished_recving_kv_req_ids s1 ->
  (forall id' b, id' ∈ loading s -> id' <> id -> b ∈ inv -> b ∈ held_blocks v c s id -> b ∉ held_blocks v c s id') ->
  exists r1 bl s2, heap s1 !! id = Some r1 /\ get_block_ids v (kv_cache_manager s1) id = Ok bl /\
    update_waiting_for_remote_kv v c id s1 = (Ok true, s2) /\
    (id ∉ failed_recving_kv_req_ids s2) /\ (id ∉ finished_recving_kv_req_ids s2) /\
    (has_invalid inv (held_blocks v c s id) ->
       heap s2 !! id = Some r1 /\
       (forall i b, held_blocks v c s id !! i = Some b -> b ∈ inv ->
          r_num_computed_tokens r1 <= Z.of_nat i * sc_block_size c) /\
       kv_cache_manager s2 =
         (if r_num_computed_tokens r1 =? 0 then kv_free v id r1 (kv_cache_manager s1)
          else cache_blocks v id r1 (r_num_computed_tokens r1) (kv_cache_manager s1))) /\
    (~ has_invalid inv (held_blocks v c s id) -> id ∉ failed_recving_kv_req_ids s ->
       let n := Z.min (pylen bl * sc_block_size c) (r_num_tokens r1 - 1) in
       heap s2 !! id = Some (with_computed n r1) /\
       kv_cache_manager s2 = cache_blocks v id r1 n (kv_cache_manager s1)).
Proof.
  intros Hbs Hq Hc Hh Hid Hfin Hsole.
  destruct (handle_invalid_blocks_spec v c inv s Hbs Hq)
    as (s1' & aff' & Hh' & _ & Hfail & Hfirst & _ & Hroll & _ & _ & Hkv & _).
  rewrite Hh in Hh'. injection Hh' as <- <-.
  assert (Hidw : id ∈ waiting s ++ running s).
  { apply elem_of_app. left. by apply list_elem_of_filter in Hid as []. }
  destruct (proj2 Hq id Hidw) as [[r Hr] [bl Hbl]].
  assert (Hr1 : exists r1, heap s1 !! id = Some r1).
  { destruct (Hroll id) as [->|(_ & _ & r0 & n & _ & ->)]; by eexists. }
  destruct Hr1 as [r1 Hr1]. rewrite <- Hkv in Hbl.
  destruct (update_waiting_finished s1 id r1 bl Hc Hr1 Hfin Hbl) as (s2 & Hu & Hf2 & Hn2 & Hheap & Hk2).
  exists r1, bl, s2. do 4 (split; [done|]). split; [rewrite Hf2; set_solver|]. split.
  - intros Hinv. assert (Hfl : id ∈ failed_recving_kv_req_ids s1) by (apply Hfail; by right).
    rewrite bool_decide_true in Hheap, Hk2 by done. rewrite Hheap. split; [done|]. split; [|done].
    intros i b Hb Hbi. by apply (sole_holder_rolls_back s s1 id r1 i b).
  - intros Hinv Hnf. assert (Hfl : id ∉ failed_recving_kv_req_ids s1) by (rewrite Hfail; tauto).
    rewrite bool_decide_false in Hheap, Hk2 by done. rewrite Hheap. split; [apply lookup_insert_eq|done].
Qed.
End remote.

(** ** The cached requests reach the connector *)

Section cached_facts.
Context {K : Type} (c : SchedConfig) (scheduled : list (string * Z)) (spec : list (string * list Z)).
Context (blocks : list (string * option (list (list Z)))).
Implicit Types s : SchedState K.

Lemma cached_loop ids d0 s d s' :
  for_acc ids d0 (cached_request c scheduled spec blocks) s = (Ok d, s') ->
  s' = s /\ crd_req_ids d = crd_req_ids d0 ++ ids /\
  exists nbs nct not, crd_new_block_ids d = crd_new_block_ids d0 ++ nbs /\
    crd_num_computed_tokens d = crd_num_computed_tokens d0 ++ nct /\
    crd_num_output_tokens d = crd_num_output_tokens d0 ++ not /\
    Forall2 (fun id nb => od_get id blocks = Some nb) ids nbs /\
    Forall2 (fun id n => exists r, heap s !! id = Some r /\ n = r_num_computed_tokens r) ids nct /\
    length not = length ids.
Proof.
  revert d0. induction ids as [|id ids IH]; intros d0 Hrun.
  - injection Hrun as <- <-. rewrite app_nil_r. split; [done|]. split; [done|]. exists [], [], [].
    rewrite !app_nil_r. by repeat split.
  - cbn [for_acc] in Hrun. apply bind_inv_ok in Hrun as (d1 & s1 & H1 & Hrun).
    unfold cached_request, get_req, bind, lift_res, gets in H1.
    destruct (od_get id scheduled) as [n|]; [|done]. cbn [of_option] in H1.
    destruct (heap s !! id) as [r|] eqn:Hr; [|done]. cbn [of_option] in H1.
    destruct (od_get id blocks) as [nb|] eqn:Hnb; [|done]. injection H1 as <- <-.
    destruct (IH _ Hrun) as (-> & E1 & nbs & nct & not & E2 & E3 & E4 & F1 & F2 & Hl).
    split; [done|]. cbn in E1, E2, E3, E4. rewrite E1, E2, E3, E4, <- !app_assoc. split; [done|].
    exists (nb :: nbs), (r_num_computed_tokens r :: nct), (pylen (r_output_token_ids r) :: not).
    repeat (split; [done|]). split; [by constructor|]. split; [constructor; [by exists r|done]|]. simpl. by rewrite Hl.
Qed.

(** The first group of the blocks of a request. *)
Definition new_blocks (id : string) : option (list Z) :=
  match od_get id blocks with
  | Some None => Some []
  | Some (Some (g :: _)) => Some g
  | _ => None
  end.

Lemma flags_lookup (run res : list string) i :
  (i < length (run ++ res))%nat ->
  (py_repeat false (pylen run) ++ py_repeat true (pylen res)) !! i = Some (bool_decide (length run <= i)%nat).
Proof.
  intros Hi. rewrite length_app in Hi. unfold py_repeat, pylen. rewrite !Nat2Z.id.
  case_bool_decide as Hd.
  - rewrite lookup_app_r; rewrite length_replicate; [|done]. apply lookup_replicate_2. lia.
  - rewrite lookup_app_l; [|rewrite length_replicate; lia]. apply lookup_replicate_2. lia.
Qed.

(** The scheduler's description of the cached requests is one the connector
    accepts: all its lists have an entry per request, running ones first, the
    token counts are the requests' own, and the connector's reading of it gives
    each request its new blocks and has exactly the resumed ones loaded again. *)
Theorem cached_requests_reach_the_connector run res s d s' :
  make_cached_request_data c run res scheduled spec blocks s = (Ok d, s') ->
  (forall id, id ∈ run ++ res -> is_Some (new_blocks id)) ->
  s' = s /\ crd_req_ids d = run ++ res /\
  Forall2 (fun id n => exists r, heap s !! id = Some r /\ n = r_num_computed_tokens r)
    (run ++ res) (crd_num_computed_tokens d) /\
  length (crd_num_output_tokens d) = length (run ++ res) /\
  cached_jobs (crd_req_ids d) (crd_new_block_ids d) (ResumedFlags (crd_resumed_from_preemption d)) =
    Some (((fun id => Job id (default [] (new_blocks id)) false) <$> run) ++
          ((fun id => Job id (default [] (new_blocks id)) true) <$> res)).
Proof.
  intros Hrun Hnb. unfold make_cached_request_data in Hrun.
  apply bind_inv_ok in Hrun as (d1 & s1 & H1 & Hrun). injection Hrun as <- <-.
  destruct (cached_loop _ _ _ _ _ H1) as (-> & E1 & nbs & nct & not & E2 & E3 & E4 & F1 & F2 & Hl).
  cbn in *. rewrite E1, E2, E3, E4. do 4 (split; [done|]). apply mapM_Some.
  apply Forall2_same_length_lookup_2.
  { unfold enumerate. rewrite length_app, !length_fmap, <- length_app.
    transitivity (length (enumerate (run ++ res)).*2); [by rewrite length_fmap|by rewrite enumerate_snd]. }
  intros i [k id] j Hk Hj. rewrite lookup_enumerate in Hk.
  destruct ((run ++ res) !! i) as [id'|] eqn:Hid; [|done]. injection Hk as <- <-. cbn [fst snd].
  destruct (Forall2_lookup_l _ _ _ _ _ F1 Hid) as (nb & Hnbi & Hget).
  pose proof (lookup_lt_Some _ _ _ Hid) as Hlt.
  destruct (Hnb id' ltac:(by eapply list_elem_of_lookup_2)) as [bl Hbl]. pose proof Hbl as Hbl'.
  unfold new_blocks in Hbl'. rewrite Hget in Hbl'.
  rewrite py_nth_nonneg, Nat2Z.id, Hnbi by lia. cbn [mbind option_bind].
  unfold is_resumed, py_idx. rewrite py_nth_nonneg, Nat2Z.id, flags_lookup by (done || lia). cbn [of_option].
  assert (Hg : match nb with Some groups => py_nth groups 0 | None => Some [] end = Some bl).
  { destruct nb as [[|g gs]|]; by simplify_eq/=. }
  rewrite Hg. cbn [mbind option_bind].
  assert (Hjj : j = Job id' bl (bool_decide (length run <= i)%nat)); [|by rewrite Hjj].
  case_bool_decide as Hd.
  - rewrite lookup_app_r in Hj by (by rewrite length_fmap). rewrite length_fmap, list_lookup_fmap in Hj.
    rewrite lookup_app_r in Hid by done. rewrite Hid in Hj. simpl in Hj. rewrite Hbl in Hj. by injection Hj.
  - rewrite lookup_app_l in Hj by (rewrite length_fmap; lia). rewrite list_lookup_fmap in Hj.
    rewrite lookup_app_l in Hid by lia. rewrite Hid in Hj. simpl in Hj. rewrite Hbl in Hj. by injection Hj.
Qed.
End cached_facts.

(** ** A concrete scheduler *)
Module SchedDemo.
(** The cache manager knows the blocks of each request and the tokens cached. *)
Record kv := { kv_blocks : gmap string (list Z); kv_cached : list (string * Z) }.
Definition vllm : Vllm kv unit unit unit unit unit := {|
  get_block_ids k id := of_option KeyError (kv_blocks k !! id);
  cache_blocks id _ n k := {| kv_blocks := kv_blocks k; kv_cached := kv_cached k ++ [(id, n)] |};
  kv_free id _ k := {| kv_blocks := delete id (kv_blocks k); kv_cached := kv_cached k |};
  update_request_with_output r toks := (r, toks, false);
  check_stop r _ _ := (r, false);
  free_request _ := ret None;
  should_advance _ _ _ := false;
  accept_tokens _ _ k := k;
  slice_logprobs l _ _ := l;
  make_spec_decoding_stats s _ _ := s;
  update_from_kv_xfer_finished k := modify (set_finished_recving (fun f => f ∪ list_to_set (ko_finished_recving k)));
  make_stats _ _ := ret None;
  remove_all l gone := filter (fun id => id ∉ gone) l;
  remove_requests l gone := filter (fun id => id ∉ gone) l |}.

Definition cfg : SchedConfig := {|
  sc_policy := FCFS; max_num_running_reqs := 8; max_num_scheduled_tokens := 64; max_model_len := 128;
  sc_block_size := 2; sc_has_connector := true; num_spec_tokens := 0; num_lookahead_tokens := 0;
  use_eagle := false; use_pp := false |}.

Definition req (st : RequestStatus) (computed cached : Z) : SReq := {|
  r_status := st; r_num_computed_tokens := computed; r_num_cached_tokens := cached; r_num_tokens := 7;
  r_all_token_ids := [1; 2; 3; 4; 5; 6; 7]; r_output_token_ids := []; r_num_output_tokens := 0;
  r_client_index := 0; r_wants_logprobs := false; r_num_nans_in_logits := 0; r_finished_reason := None |}.

(** "a" and "b" run and share block 10; "w" loads asynchronously. *)
Definition st : SchedState kv :=
  Sched (<["a" := req RUNNING 7 6]> (<["b" := req RUNNING 7 6]> {["w" := req WAITING_FOR_REMOTE_KVS 0 0]}))
    {["a"; "b"; "w"]} ["w"] ["a"; "b"] {["w"]} ∅ None (Some ∅)
    {| kv_blocks := <["a" := [10; 11; 12]]> (<["b" := [10; 21; 22]]> {["w" := [30; 31; 32]]});
       kv_cached := [] |}.

Lemma known_demo id : id ∈ ["w"; "a"; "b"] -> known vllm st id.
Proof.
  intros Hin. rewrite !elem_of_cons, elem_of_nil in Hin.
  destruct Hin as [->|[->|[->|[]]]]; (split; [by eexists|by eexists]).
Qed.

Lemma queues_demo : queues_ok vllm st.
Proof.
  split; [|exact known_demo].
  apply (bool_decide_unpack (NoDup (waiting st ++ running st))). by vm_compute.
Qed.

Definition output : ModelRunnerOutput unit unit := {|
  sampled_token_ids := [[42]; [43]]; logprobs := None; prompt_logprobs_dict := []; pooler_output := [];
  num_nans_in_logits := None;
  kv_connector_output := Some {| ko_invalid_block_ids := {[21]}; ko_finished_sending := [];
                                 ko_finished_recving := [] |};
  req_id_to_index := [("a", 0); ("b", 1)] |}.
End SchedDemo.
Import SchedDemo.

(** Block 10 is recomputed by "a" only. *)
Lemma invalid_blocks_are_recomputed_witness :
  exists s' aff, handle_invalid_blocks vllm cfg {[10]} st = (Ok aff, s') /\
    first_holder_recomputes vllm cfg {[10]} st s' ["a"; "b"].
Proof.
  destruct (invalid_blocks_are_recomputed vllm cfg {[10]} st) as (s' & aff & Hr & _ & _ & _ & Hf & _);
    [reflexivity|exact queues_demo|].
  exists s', aff. split; [exact Hr|exact Hf].
Defined.

(** The rolled-back request "b" gets no output, the other one does. *)
Lemma recovered_requests_emit_nothing_witness :
  exists eco s', update_from_output vllm cfg [("a", 1); ("b", 1)] [] output st = (Ok eco, s') /\
    out_request_id <$> all_outputs eco = ["a"] /\
    (forall x, x ∈ all_outputs eco -> out_request_id x ∈ ["a"; "b"]).
Proof.
  set (r := update_from_output vllm cfg [("a", 1); ("b", 1)] [] output st).
  assert (Hr : exists eco, r.1 = Ok eco /\ out_request_id <$> all_outputs eco = ["a"])
    by (eexists; split; vm_compute; reflexivity).
  destruct Hr as (eco & Hr & Hids). exists eco, r.2. split; [exact (run_ok _ st eco Hr)|]. split; [exact Hids|].
  intros x Hx.
  apply (recovered_requests_emit_nothing vllm cfg [("a", 1); ("b", 1)] [] output
           {| ko_invalid_block_ids := {[21]}; ko_finished_sending := []; ko_finished_recving := [] |} st r.2 eco);
    [reflexivity|exact queues_demo|reflexivity|discriminate|exact (run_ok _ st eco Hr)|exact Hx].
Defined.

(** Block 31 of "w" fails: one block of tokens stays computed. *)
Lemma async_load_keeps_the_valid_prefix_witness :
  exists s2, update_waiting_for_remote_kv vllm cfg "w" (handle_invalid_blocks vllm cfg {[31]} st).2 = (Ok true, s2) /\
    ("w"%string ∉ failed_recving_kv_req_ids s2) /\ kv_cached (kv_cache_manager s2) = [("w"%string, 2)].
Proof.
  assert (Hrun : (handle_invalid_blocks vllm cfg {[31]} st).1 = Ok ∅) by (vm_compute; reflexivity).
  set (s1 := (handle_invalid_blocks vllm cfg {[31]} st).2).
  assert (Hfin : "w"%string ∈ finished_recving_kv_req_ids s1).
  { apply (bool_decide_unpack ("w"%string ∈ finished_recving_kv_req_ids s1)). by vm_compute. }
  assert (Hheap : heap s1 !! "w"%string = Some (with_computed 2 (req WAITING_FOR_REMOTE_KVS 0 0))) by (by vm_compute).
  assert (Hcached : kv_cached (kv_cache_manager s1) = []) by (by vm_compute).
  apply run_ok in Hrun. fold s1 in Hrun. clearbody s1.
  destruct (async_load_keeps_the_valid_prefix vllm cfg {[31]} st s1 ∅ "w")
    as (r1 & bl & s2 & Hr1 & _ & Hu & Hf & _ & Hi & _).
  - reflexivity.
  - exact queues_demo.
  - reflexivity.
  - exact Hrun.
  - apply (bool_decide_unpack ("w"%string ∈ loading st)). by vm_compute.
  - exact Hfin.
  - intros id' b Hin Hne. apply list_elem_of_filter in Hin as [_ Hin]. apply list_elem_of_singleton in Hin. congruence.
  - exists s2. split; [exact Hu|]. split; [exact Hf|].
    destruct Hi as (_ & _ & Hk).
    + assert (Hh : held_blocks vllm cfg st "w" = [30; 31; 32]) by (vm_compute; reflexivity).
      rewrite Hh. apply Exists_cons_tl, Exists_cons_hd. by apply elem_of_singleton.
    + rewrite Hk. rewrite Hheap in Hr1. injection Hr1 as <-. cbn. by rewrite Hcached.
Defined.

Lemma cached_requests_reach_the_connector_witness :
  exists d s', make_cached_request_data cfg ["a"] ["b"] [("a", 1); ("b", 3)] []
      [("a", None); ("b", Some [[7; 8]])] st = (Ok d, s') /\
    cached_jobs (crd_req_ids d) (crd_new_block_ids d) (ResumedFlags (crd_resumed_from_preemption d)) =
      Some [Job "a" [] false; Job "b" [7; 8] true].
Proof.
  set (m := make_cached_request_data cfg ["a"] ["b"] [("a", 1); ("b", 3)] [] [("a", None); ("b", Some [[7; 8]])]).
  assert (Hr : exists d, (m st).1 = Ok d) by (eexists; vm_compute; reflexivity).
  destruct Hr as [d Hr]. exists d, (m st).2. split; [exact (run_ok m st d Hr)|].
  refine (proj2 (proj2 (proj2 (proj2 (cached_requests_reach_the_connector cfg [("a", 1); ("b", 3)] []
    [("a", None); ("b", Some [[7; 8]])] ["a"] ["b"] st d (m st).2 (run_ok m st d Hr) _))))).
  intros id Hin. cbn in Hin. rewrite !elem_of_cons, elem_of_nil in Hin.
  destruct Hin as [->|[->|[]]]; by eexists.
Defined.
