(* ===== verification/BlockPool.v ===== *)
(** * The patched prefix cache of vLLM: caching full blocks and allocating slots
    (ucm/integration/vllm/patch/v0110/vllm/pc/v1/core/block_pool.py,
    single_type_kv_cache_manager.py and kv_cache_manager.py, and the variants
    of the sparse patch under .../sparse/v1/core)

    A request's full blocks get the request's block hashes, enter the map from
    hashes to blocks, and are announced to the event stream, a call at a time:
    the theorems show that the calls publish a chain of blocks, each once, and
    that only finished tokens are published.  Blocks are shared objects, so the
    pool is a heap indexed by the block's id; vLLM's hash helpers and its
    coordinator are parameters. *)

From S2P Require Import Prelude.
Local Open Scope Z_scope.
Local Open Scope py_scope.

(** ** Data *)

(** vLLM's helpers on hashes: [BH] block hashes, [HG] hashes with a group id,
    [EH] the hashes of the events, [C] the map from hashes to cached blocks. *)
Record HashOps (BH HG EH C : Type) := {
  make_block_hash_with_group_id : BH -> Z -> HG;
  get_block_hash : HG -> BH;
  maybe_convert_block_hash : BH -> EH;
  cached_block_hash_insert : HG -> Z -> C -> C;
}.
Arguments make_block_hash_with_group_id {BH HG EH C} _ _ _.
Arguments get_block_hash {BH HG EH C} _ _.
Arguments maybe_convert_block_hash {BH HG EH C} _ _.
Arguments cached_block_hash_insert {BH HG EH C} _ _ _ _.

Record BRequest (BH : Type) := {
  b_request_id : string;
  b_block_hashes : list BH;
  b_all_token_ids : list Z;
  b_num_tokens : Z;
  b_num_computed_tokens : Z;
  b_lora_id : option Z;
}.
Arguments b_request_id {BH} _.
Arguments b_block_hashes {BH} _.
Arguments b_all_token_ids {BH} _.
Arguments b_num_tokens {BH} _.
Arguments b_num_computed_tokens {BH} _.
Arguments b_lora_id {BH} _.

(** The medium of the event is the constant [MEDIUM_GPU]. *)
Record BlockStored (EH : Type) := {
  block_hashes : option (list EH);
  parent_block_hash : option EH;
  ev_token_ids : list Z;
  ev_block_size : Z;
  ev_lora_id : option Z;
}.
Arguments block_hashes {EH} _.
Arguments parent_block_hash {EH} _.
Arguments ev_token_ids {EH} _.
Arguments ev_block_size {EH} _.
Arguments ev_lora_id {EH} _.

(** The block pool: [blk.block_hash] of each block, [None] where it is unset. *)
Record Pool (HG EH C : Type) := MkPool {
  block_hash : gmap Z HG;
  cached_block_hash_to_block : C;
  kv_event_queue : list (BlockStored EH);
}.
Arguments MkPool {HG EH C} _ _ _.
Arguments block_hash {HG EH C} _.
Arguments cached_block_hash_to_block {HG EH C} _.
Arguments kv_event_queue {HG EH C} _.

(** The manager of one cache group; with the tables of its requests. *)
Record Manager := MkManager {
  req_to_blocks : gmap string (list Z);
  num_cached_block : gmap string Z;
}.

(** [self.req_to_blocks[id]] of a [defaultdict(list)] *)
Definition blocks_of (m : Manager) (id : string) : list Z := default [] (req_to_blocks m !! id).

Record GroupConfig := {
  g_block_size : Z;
  g_kv_cache_group_id : Z;
}.

(** ** Caching full blocks *)
Section cache.
Context {BH HG EH C : Type} (h : HashOps BH HG EH C) (enable_kv_cache_events : bool).
Abbreviation POOL := (Pool HG EH C).
Abbreviation REQ := (BRequest BH).

Definition put_block_hash (blk : Z) (k : HG) (p : POOL) : POOL :=
  MkPool (<[blk := k]> (block_hash p)) (cached_block_hash_to_block p) (kv_event_queue p).
Definition put_cached (k : HG) (blk : Z) (p : POOL) : POOL :=
  MkPool (block_hash p) (cached_block_hash_insert h k blk (cached_block_hash_to_block p)) (kv_event_queue p).
Definition put_event (e : BlockStored EH) (p : POOL) : POOL :=
  MkPool (block_hash p) (cached_block_hash_to_block p) (kv_event_queue p ++ [e]).

Definition is_None_b {A} (o : option A) : bool := match o with None => true | Some _ => false end.

(** The body of the loop over the new full blocks. *)
Definition cache_block (new_block_hashes : list BH) (gid : Z)
    (new_hashes : option (list EH)) (ib : Z * Z) : M POOL (option (list EH)) :=
  let '(i, blk) := ib in
  let! old := gets (fun p => block_hash p !! blk) in
  do! py_assert (is_None_b old) in
  let! bh := lift_res (py_idx new_block_hashes i) in
  let key := make_block_hash_with_group_id h bh gid in
  do! modify (put_block_hash blk key) in
  do! modify (put_cached key blk) in
  ret (match new_hashes with
       | Some l => Some (l ++ [maybe_convert_block_hash h bh])
       | None => None
       end).

Definition parent_of (blocks : list Z) (num_cached_blocks : Z) : M POOL (option EH) :=
  if num_cached_blocks =? 0 then ret None
  else
    let! parent_block := lift_res (py_idx blocks (num_cached_blocks - 1)) in
    let! k := gets (fun p => block_hash p !! parent_block) in
    match k with
    | None => raise AssertionError
    | Some k => ret (Some (maybe_convert_block_hash h (get_block_hash h k)))
    end.

Definition cache_full_blocks (r : REQ) (blocks : list Z)
    (num_cached_blocks num_full_blocks block_size kv_cache_group_id : Z) : M POOL unit :=
  if num_full_blocks <=? num_cached_blocks then ret tt
  else
    let new_full_blocks := slice blocks num_cached_blocks num_full_blocks in
    do! py_assert (num_full_blocks <=? pylen (b_block_hashes r)) in
    let new_block_hashes := slice_from (b_block_hashes r) num_cached_blocks in
    let! new_hashes := for_acc (enumerate new_full_blocks)
                         (if enable_kv_cache_events then Some [] else None)
                         (cache_block new_block_hashes kv_cache_group_id) in
    if enable_kv_cache_events then
      let! parent := parent_of blocks num_cached_blocks in
      modify (put_event
        {| block_hashes := new_hashes;
           parent_block_hash := parent;
           ev_token_ids := slice (b_all_token_ids r) (num_cached_blocks * block_size)
                             (num_full_blocks * block_size);
           ev_block_size := block_size;
           ev_lora_id := b_lora_id r |})
    else ret tt.

(** [SingleTypeKVCacheManager.cache_blocks] *)
Definition manager_cache_blocks (g : GroupConfig) (r : REQ) (num_tokens : Z)
    : M (POOL * Manager) unit :=
  let! cached := gets (fun s => num_cached_block s.2 !! b_request_id r) in
  let! num_cached_blocks := lift_res (of_option KeyError cached) in
  let num_full_blocks := num_tokens / g_block_size g in
  if num_full_blocks <=? num_cached_blocks then ret tt
  else
    let! blocks := gets (fun s => blocks_of s.2 (b_request_id r)) in
    do! zoom fst (fun p s => (p, s.2))
          (cache_full_blocks r blocks num_cached_blocks num_full_blocks
             (g_block_size g) (g_kv_cache_group_id g)) in
    modify (fun s => (s.1, MkManager (req_to_blocks s.2)
                             (<[b_request_id r := num_full_blocks]> (num_cached_block s.2)))).

End cache.

(** ** Allocating slots *)

(** What [allocate_slots] calls of vLLM's coordinator and block pool; [K] is
    the state of the whole cache manager.  Blocks come in a list per group. *)
Record Coordinator (BH K : Type) := {
  num_kv_cache_groups : Z;
  remove_skipped_blocks : string -> Z -> K -> K;
  num_blocks_to_allocate : string -> Z -> list (list Z) -> Z -> K -> res Z;
  get_num_free_blocks : K -> Z;
  touch : list (list Z) -> K -> K;
  save_new_computed_blocks : string -> list (list Z) -> M K unit;
  allocate_new_blocks : string -> Z -> Z -> M K (list (list Z));
  coordinator_cache_blocks : BRequest BH -> Z -> M K unit;
}.
Arguments num_kv_cache_groups {BH K} _.
Arguments remove_skipped_blocks {BH K} _ _ _ _.
Arguments num_blocks_to_allocate {BH K} _ _ _ _ _ _.
Arguments get_num_free_blocks {BH K} _ _.
Arguments touch {BH K} _ _ _.
Arguments save_new_computed_blocks {BH K} _ _ _ _.
Arguments allocate_new_blocks {BH K} _ _ _ _ _.
Arguments coordinator_cache_blocks {BH K} _ _ _ _.

Record AllocConfig := {
  a_max_model_len : Z;
  a_enable_caching : bool;
}.

(** The arguments of a call, [num_new_computed_tokens] and so on. *)
Record AllocArgs := {
  num_new_tokens : Z;
  num_new_computed_tokens : Z;
  new_computed_blocks : option (list (list Z));
  num_lookahead_tokens : Z;
  delay_cache_blocks : bool;
  num_encoder_tokens : Z;
}.

Section allocate.
Context {BH K : Type} (co : Coordinator BH K) (cfg : AllocConfig).
Abbreviation REQ := (BRequest BH).

Definition new_computed_block_list (a : AllocArgs) : list (list Z) :=
  match new_computed_blocks a with
  | Some bs => bs
  | None => py_repeat [] (num_kv_cache_groups co)
  end.

(** The tokens that need a slot, and those that are final once the new ones
    are computed. *)
Definition num_tokens_need_slot (r : REQ) (a : AllocArgs) : Z :=
  Z.min (b_num_computed_tokens r + num_new_computed_tokens a + num_new_tokens a + num_lookahead_tokens a)
    (a_max_model_len cfg).
Definition num_tokens_to_cache (r : REQ) (a : AllocArgs) : Z :=
  Z.min (b_num_computed_tokens r + num_new_computed_tokens a + num_new_tokens a) (b_num_tokens r).

(** [KVCacheManager.allocate_slots] after the check of its argument. *)
Definition allocate_slots_checked (r : REQ) (a : AllocArgs) : M K (option (list (list Z))) :=
  let id := b_request_id r in
  let computed := new_computed_block_list a in
  do! modify (remove_skipped_blocks co id (b_num_computed_tokens r)) in
  let! need := (fun k => (num_blocks_to_allocate co id (num_tokens_need_slot r a) computed
                            (num_encoder_tokens a) k, k)) in
  let! free := gets (get_num_free_blocks co) in
  if free <? need then ret None
  else
    do! (if a_enable_caching cfg then modify (touch co computed)
         else py_assert (forallb (fun l => pylen l =? 0) computed)) in
    do! save_new_computed_blocks co id computed in
    let! new_blocks := allocate_new_blocks co id (num_tokens_need_slot r a) (num_encoder_tokens a) in
    if negb (a_enable_caching cfg) || delay_cache_blocks a then ret (Some new_blocks)
    else
      do! coordinator_cache_blocks co r (num_tokens_to_cache r a) in
      ret (Some new_blocks).

Definition allocate_slots (r : REQ) (a : AllocArgs) : M K (option (list (list Z))) :=
  if num_new_tokens a =? 0 then raise ValueError else allocate_slots_checked r a.

(** ucm/sparse/base.py *)
Definition INVALID_SLOT : Z := -1.

(** [allocate_slots] of the sparse patch; [sparse_allocate] is the method of the
    sparse algorithm in use. *)
Definition sparse_allocate_slots (sparse_allocate : REQ -> option Z -> M K (option (list (list Z))))
    (r : REQ) (a : AllocArgs) (num_slots_sparsed : option Z) : M K (option (list (list Z))) :=
  if num_new_tokens a =? 0 then raise ValueError
  else if bool_decide (num_slots_sparsed <> Some INVALID_SLOT) then sparse_allocate r num_slots_sparsed
  else allocate_slots_checked r a.

(** [KVCacheCoordinator.get_num_blocks_to_allocate] of the sparse patch: a
    manager is a [CrossAttentionManager] or not, with its own count. *)
Definition get_num_blocks_to_allocate (managers : list (bool * (string -> Z -> list Z -> K -> Z)))
    (id : string) (num_tokens : Z) (computed : list (list Z)) (num_encoder : Z) (k : K) : res Z :=
  foldl (fun acc '(i, (is_cross, count)) =>
           let? n := acc in
           if is_cross : bool then Ok (n + count id num_encoder [] k)
           else let? l := py_idx computed i in Ok (n + count id num_tokens l k))
    (Ok 0) (enumerate managers).
End allocate.

(** ** What caching blocks does to the pool *)
Section pool_facts.
Context {BH HG EH C : Type} (h : HashOps BH HG EH C).
Abbreviation POOL := (Pool HG EH C).
Implicit Types (p : POOL) (r : BRequest BH) (gid : Z).

Definition publish1 gid p (bk : Z * BH) : POOL :=
  let key := make_block_hash_with_group_id h bk.2 gid in
  put_cached h key bk.1 (put_block_hash bk.1 key p).
Definition publish gid (l : list (Z * BH)) p : POOL := foldl (publish1 gid) p l.

Lemma publish_app gid l1 l2 p : publish gid (l1 ++ l2) p = publish gid l2 (publish gid l1 p).
Proof. apply foldl_app. Qed.

Lemma publish_queue gid l p : kv_event_queue (publish gid l p) = kv_event_queue p.
Proof. revert p. induction l as [|bk l IH]; intros p; [done|]. simpl. by rewrite IH. Qed.

Definition append_events es p : POOL :=
  MkPool (block_hash p) (cached_block_hash_to_block p) (kv_event_queue p ++ es).

Lemma publish_append_events gid l es p :
  publish gid l (append_events es p) = append_events es (publish gid l p).
Proof. revert p. induction l as [|bk l IH]; intros p; [done|]. apply (IH (publish1 gid p bk)). Qed.

Lemma publish_other gid l p b : b ∉ l.*1 -> block_hash (publish gid l p) !! b = block_hash p !! b.
Proof.
  revert p. induction l as [|bk l IH]; intros p Hb; [done|]. cbn in Hb. apply not_elem_of_cons in Hb as [Hne Hb].
  simpl. rewrite IH by done. by apply lookup_insert_ne.
Qed.

Lemma publish_lookup gid l p b bh :
  NoDup l.*1 -> (b, bh) ∈ l ->
  block_hash (publish gid l p) !! b = Some (make_block_hash_with_group_id h bh gid).
Proof.
  revert p. induction l as [|[b' bh'] l IH]; intros p Hnd Hin; [by apply elem_of_nil in Hin|].
  cbn in Hnd. apply NoDup_cons in Hnd as [Hb' Hnd]. simpl.
  apply elem_of_cons in Hin as [Heq|Hin]; [|by apply IH]. injection Heq as -> ->.
  rewrite publish_other by done. apply lookup_insert_eq.
Qed.

Lemma cache_block_ok gid hs k b bh nh p :
  0 <= k -> hs !! Z.to_nat k = Some bh -> block_hash p !! b = None ->
  cache_block h hs gid nh (k, b) p =
    (Ok (match nh with Some es => Some (es ++ [maybe_convert_block_hash h bh]) | None => None end),
     publish1 gid p (b, bh)).
Proof.
  intros Hk Hbh Hb. unfold cache_block, bind, gets. cbn. rewrite Hb. cbn.
  unfold py_idx. by rewrite py_nth_nonneg, Hbh by done.
Qed.

(** The loop over new full blocks publishes them, in order. *)
Lemma cache_loop gid hs l k nh p :
  0 <= k -> NoDup l -> (forall b, b ∈ l -> block_hash p !! b = None) -> k + pylen l <= pylen hs ->
  for_acc (enumerate_from k l) nh (cache_block h hs gid) p =
    (Ok (match nh with
         | Some es => Some (es ++ (maybe_convert_block_hash h <$> slice hs k (k + pylen l)))
         | None => None end),
     publish gid (zip l (slice hs k (k + pylen l))) p).
Proof.
  revert k nh p. induction l as [|b l IH]; intros k nh p Hk Hnd Hnone Hlen.
  - unfold enumerate_from; rewrite pylen_nil, slice_empty, zrange_nil by lia. cbn. destruct nh; cbn; [by rewrite app_nil_r|done].
  - rewrite pylen_cons in *. pose proof (pylen_nonneg l). apply NoDup_cons in Hnd as [Hb Hnd].
    destruct (hs !! Z.to_nat k) as [bh|] eqn:Hbh; [|apply lookup_ge_None in Hbh; unfold pylen in *; lia].
    assert (Hsl : slice hs k (k + (1 + pylen l)) = bh :: slice hs (k + 1) (k + 1 + pylen l)).
    { rewrite !slice_nonneg by lia. replace (Z.to_nat (k + (1 + pylen l)) - Z.to_nat k)%nat
        with (S (Z.to_nat (k + 1 + pylen l) - Z.to_nat (k + 1))) by lia.
      rewrite (drop_S hs bh) by done. cbn. do 3 f_equal. lia. }
    rewrite Hsl, enumerate_from_cons. cbn [for_acc].
    rewrite (bind_ok _ _ _ _ _ (cache_block_ok gid hs k b bh nh p Hk Hbh (Hnone b ltac:(left)))).
    rewrite IH; [|lia|done| |lia].
    + f_equal. destruct nh; [|done]. by rewrite <- app_assoc.
    + intros b' Hb'. cbn. rewrite lookup_insert_ne by (intros ->; done). apply Hnone. by right.
Qed.

(** The first [nc] blocks of the request carry its hashes, the others none. *)
Definition hashed gid (hashes : list BH) (blocks : list Z) (nc : Z) p : Prop :=
  0 <= nc <= pylen blocks /\ nc <= pylen hashes /\ NoDup blocks /\
  forall (i : nat) b, blocks !! i = Some b ->
    block_hash p !! b =
      if Z.of_nat i <? nc then (fun bh => make_block_hash_with_group_id h bh gid) <$> hashes !! i
      else None.

(** [publish] for the blocks [a] to [b] of the request. *)
Definition publish_range gid (hashes : list BH) (blocks : list Z) (a b : Z) p : POOL :=
  publish gid (zip (slice blocks a b) (slice hashes a b)) p.

Lemma slices_same_length {A B} (l1 : list A) (l2 : list B) a b :
  0 <= a -> a <= b <= pylen l1 -> b <= pylen l2 -> length (slice l1 a b) = length (slice l2 a b).
Proof.
  intros. apply Nat2Z.inj. fold (pylen (slice l1 a b)) (pylen (slice l2 a b)).
  rewrite !pylen_slice by lia. lia.
Qed.

Lemma publish_range_app gid hashes blocks a b c p :
  0 <= a -> a <= b <= c -> c <= pylen blocks -> c <= pylen hashes ->
  publish_range gid hashes blocks b c (publish_range gid hashes blocks a b p) =
    publish_range gid hashes blocks a c p.
Proof.
  intros. unfold publish_range. rewrite <- publish_app. f_equal.
  rewrite <- (slice_app_adj blocks a b c), <- (slice_app_adj hashes a b c) by lia.
  rewrite zip_with_app; [done|]. by apply slices_same_length; lia.
Qed.

Lemma append_events_app es1 es2 p : append_events es2 (append_events es1 p) = append_events (es1 ++ es2) p.
Proof. unfold append_events. cbn. by rewrite app_assoc. Qed.

Lemma append_events_nil p : append_events [] p = p.
Proof. unfold append_events. rewrite app_nil_r. by destruct p. Qed.

Lemma hashed_publish gid hashes blocks a b p :
  hashed gid hashes blocks a p -> a <= b <= pylen blocks -> b <= pylen hashes ->
  hashed gid hashes blocks b (publish_range gid hashes blocks a b p).
Proof.
  intros (Ha & _ & Hnd & Hp) Hb Hh. split; [lia|]. split; [lia|]. split; [done|]. intros i blk Hi.
  pose proof (slices_same_length blocks hashes a b ltac:(lia) Hb Hh) as Hlen.
  assert (Hfst : (zip (slice blocks a b) (slice hashes a b)).*1 = slice blocks a b)
    by (apply fst_zip; lia).
  assert (Hnds : NoDup (slice blocks a b)) by by apply NoDup_slice.
  destruct (decide (a <= Z.of_nat i < b)) as [Hin|Hout].
  - rewrite (proj2 (Z.ltb_lt _ _)) by lia.
    destruct (hashes !! i) as [bh|] eqn:Hbh; [|apply lookup_ge_None in Hbh; unfold pylen in *; lia].
    apply publish_lookup; [by rewrite Hfst|]. apply (list_elem_of_lookup_2 _ (i - Z.to_nat a)).
    apply lookup_zip_with_Some. exists blk, bh. split; [done|].
    rewrite !lookup_slice, !decide_True by lia. by replace (Z.to_nat a + (i - Z.to_nat a))%nat with i by lia.
  - unfold publish_range. rewrite publish_other.
    { rewrite (Hp i blk Hi). by destruct (Z.ltb_spec (Z.of_nat i) a), (Z.ltb_spec (Z.of_nat i) b); try lia. }
    rewrite Hfst. intros (j & Hj)%list_elem_of_lookup. rewrite lookup_slice in Hj by lia.
    case_decide; [|done]. pose proof (NoDup_lookup _ _ _ _ Hnd Hi Hj). lia.
Qed.

Context (enable_kv_cache_events : bool).
Hypothesis Hget : forall bh gid, get_block_hash h (make_block_hash_with_group_id h bh gid) = bh.

(** The event of a call that raises the cached blocks from [a] to [b]. *)
Definition stored r (bs a b : Z) : BlockStored EH :=
  {| block_hashes := Some (maybe_convert_block_hash h <$> slice (b_block_hashes r) a b);
     parent_block_hash := last (maybe_convert_block_hash h <$> slice (b_block_hashes r) 0 a);
     ev_token_ids := slice (b_all_token_ids r) (a * bs) (b * bs);
     ev_block_size := bs;
     ev_lora_id := b_lora_id r |}.
Definition stored_events r (bs a b : Z) : list (BlockStored EH) :=
  if enable_kv_cache_events then [stored r bs a b] else [].

Lemma last_slice_0 {A} (l : list A) a : 0 < a <= pylen l -> last (slice l 0 a) = l !! Z.to_nat (a - 1).
Proof.
  intros Ha. rewrite last_lookup, slice_nonneg, length_take by lia. rewrite drop_0. unfold pylen in *.
  rewrite lookup_take_lt by lia. f_equal. lia.
Qed.

Lemma cache_full_blocks_ok r blocks a b bs gid p :
  hashed gid (b_block_hashes r) blocks a p -> a < b <= pylen blocks -> b <= pylen (b_block_hashes r) ->
  cache_full_blocks h enable_kv_cache_events r blocks a b bs gid p =
    (Ok tt, append_events (stored_events r bs a b) (publish_range gid (b_block_hashes r) blocks a b p)).
Proof.
  intros Hhd Hb Hh. pose proof Hhd as (Ha & _ & Hnd & Hp). unfold cache_full_blocks.
  rewrite (proj2 (Z.leb_gt _ _)), bind_assert by (apply Z.leb_le || idtac; lia).
  set (hs := b_block_hashes r) in *.
  assert (Hlen : pylen (slice blocks a b) = b - a) by (rewrite pylen_slice; lia).
  assert (Hsub : slice (slice_from hs a) 0 (0 + pylen (slice blocks a b)) = slice hs a b).
  { rewrite Hlen, slice_from_drop, !slice_nonneg, drop_0 by lia. f_equal. lia. }
  pose proof (cache_loop gid (slice_from hs a) (slice blocks a b) 0
    (if enable_kv_cache_events then Some [] else None) p) as Hloop.
  rewrite Hsub in Hloop. erewrite bind_ok; [|apply Hloop].
  - fold (publish_range gid hs blocks a b p). unfold stored_events.
    destruct enable_kv_cache_events; [|by rewrite append_events_nil].
    assert (Hpar : parent_of h blocks a (publish_range gid hs blocks a b p) =
      (Ok (last (maybe_convert_block_hash h <$> slice hs 0 a)), publish_range gid hs blocks a b p)).
    { unfold parent_of. destruct (Z.eqb_spec a 0) as [->|Hne]; [by rewrite slice_empty by lia|].
      rewrite fmap_last, last_slice_0 by lia. unfold bind, lift_res, gets, py_idx. rewrite py_nth_nonneg by lia.
      destruct (blocks !! Z.to_nat (a - 1)) as [blk|] eqn:Hblk; [|apply lookup_ge_None in Hblk; unfold pylen in *; lia].
      cbn. destruct (hashed_publish gid hs blocks a b p Hhd ltac:(lia) Hh) as (_ & _ & _ & Hp').
      rewrite (Hp' _ _ Hblk), (proj2 (Z.ltb_lt _ _)) by lia.
      destruct (hs !! Z.to_nat (a - 1)) as [bh|] eqn:Hbh; [|apply lookup_ge_None in Hbh; unfold pylen in *; lia].
      cbn. by rewrite Hget. }
    by rewrite (bind_ok _ _ _ _ _ Hpar).
  - lia.
  - by apply NoDup_slice.
  - intros blk (j & Hj)%list_elem_of_lookup. rewrite lookup_slice in Hj by lia. case_decide; [|done].
    rewrite (Hp _ _ Hj). by rewrite (proj2 (Z.ltb_ge _ _)) by lia.
  - rewrite Hlen, slice_from_drop by lia. unfold pylen in *. rewrite length_drop. lia.
Qed.

Lemma hashed_append_events gid hashes blocks a es p :
  hashed gid hashes blocks a p -> hashed gid hashes blocks a (append_events es p).
Proof. done. Qed.

Definition with_cached (id : string) (n : Z) (m : Manager) : Manager :=
  MkManager (req_to_blocks m) (<[id := n]> (num_cached_block m)).

Lemma manager_cache_blocks_ok g r n p m a :
  let id := b_request_id r in let b := Z.max a (n / g_block_size g) in
  let gid := g_kv_cache_group_id g in
  num_cached_block m !! id = Some a ->
  hashed gid (b_block_hashes r) (blocks_of m id) a p ->
  b <= pylen (blocks_of m id) -> b <= pylen (b_block_hashes r) ->
  manager_cache_blocks h enable_kv_cache_events g r n (p, m) =
    (Ok tt, (append_events (if b =? a then [] else stored_events r (g_block_size g) a b)
               (publish_range gid (b_block_hashes r) (blocks_of m id) a b p), with_cached id b m)).
Proof.
  intros id b gid Hm Hh Hb Hbh. unfold manager_cache_blocks, bind, gets, lift_res, zoom. cbn. fold id. rewrite Hm. cbn.
  destruct (Z.leb_spec (n / g_block_size g) a) as [Hle|Hgt].
  - replace b with a by lia. rewrite Z.eqb_refl, append_events_nil.
    unfold publish_range, with_cached. rewrite slice_empty, insert_id by (done || destruct Hh; lia). by destruct m.
  - replace b with (n / g_block_size g) in * by lia. rewrite (proj2 (Z.eqb_neq _ _)) by lia.
    rewrite cache_full_blocks_ok by (done || lia). done.
Qed.

(** A stream of events that extends the chain of the hashes [known]: each event
    names the last hash before its own as its parent. *)
Fixpoint chained (known : list EH) (es : list (BlockStored EH)) : Prop :=
  match es with
  | [] => True
  | e :: es' => parent_block_hash e = last known /\
      exists hs, block_hashes e = Some hs /\ hs <> [] /\ chained (known ++ hs) es'
  end.
Definition stream_hashes (es : list (BlockStored EH)) : list EH :=
  concat ((fun e => default [] (block_hashes e)) <$> es).
Definition stream_tokens (es : list (BlockStored EH)) : list Z := concat (ev_token_ids <$> es).

(** The number of full blocks after caching up to each of [ns] tokens in turn. *)
Definition full_blocks (bs a : Z) (ns : list Z) : Z := foldl (fun k n => Z.max k (n / bs)) a ns.

Lemma full_blocks_ge bs a ns : a <= full_blocks bs a ns.
Proof.
  unfold full_blocks. revert a. induction ns as [|n ns IH]; intros a; cbn; [lia|].
  specialize (IH (Z.max a (n / bs))). lia.
Qed.

Lemma full_blocks_le bs a ns b : a <= b -> Forall (fun n => n / bs <= b) ns -> full_blocks bs a ns <= b.
Proof.
  unfold full_blocks. intros Ha Hns. revert a Ha. induction Hns as [|n ns Hn _ IH]; intros a Ha; cbn; [lia|].
  apply IH. lia.
Qed.

Lemma with_cached_twice id a b m : with_cached id b (with_cached id a m) = with_cached id b m.
Proof. unfold with_cached. cbn. f_equal. apply insert_insert_eq. Qed.

Definition good_stream r bs a k (es : list (BlockStored EH)) : Prop :=
  if enable_kv_cache_events then
    chained (maybe_convert_block_hash h <$> slice (b_block_hashes r) 0 a) es /\
    stream_hashes es = maybe_convert_block_hash h <$> slice (b_block_hashes r) a k /\
    stream_tokens es = slice (b_all_token_ids r) (a * bs) (k * bs)
  else es = [].

Lemma good_stream_cons r bs a b k es :
  0 < bs -> 0 <= a <= b -> b <= k -> b <= pylen (b_block_hashes r) -> good_stream r bs b k es ->
  good_stream r bs a k ((if b =? a then [] else stored_events r bs a b) ++ es).
Proof.
  unfold good_stream, stored_events. intros Hbs Ha Hk Hb Hes.
  destruct (Z.eqb_spec b a) as [->|Hne]; [done|]. destruct enable_kv_cache_events; [|done].
  destruct Hes as (Hch & Hh & Ht). split.
  - split; [done|]. eexists. split; [done|]. rewrite <- fmap_app, slice_app_adj by lia. split; [|done].
    intros Hnil%fmap_nil_inv. pose proof (pylen_slice (b_block_hashes r) a b ltac:(lia) ltac:(lia)) as Hlen.
    rewrite Hnil, pylen_nil in Hlen. lia.
  - unfold stream_hashes, stream_tokens. cbn. fold (stream_hashes es) (stream_tokens es).
    rewrite Hh, Ht, <- fmap_app, !slice_app_adj by nia. done.
Qed.

Lemma cache_steps g r ns p m a :
  let id := b_request_id r in let gid := g_kv_cache_group_id g in let bs := g_block_size g in
  let blocks := blocks_of m id in let k := full_blocks bs a ns in
  0 < bs -> num_cached_block m !! id = Some a -> hashed gid (b_block_hashes r) blocks a p ->
  k <= pylen blocks -> k <= pylen (b_block_hashes r) ->
  exists es, for_ ns (manager_cache_blocks h enable_kv_cache_events g r) (p, m) =
      (Ok tt, (append_events es (publish_range gid (b_block_hashes r) blocks a k p), with_cached id k m)) /\
    good_stream r bs a k es.
Proof.
  intros id gid bs blocks k Hbs Hm Hh Hk Hkh. revert p m a blocks k Hm Hh Hk Hkh.
  induction ns as [|n ns IH]; intros p m a blocks k Hm Hh Hk Hkh.
  - exists []. pose proof Hh as ((Ha & _) & _). unfold publish_range, k, full_blocks, with_cached. cbn.
    rewrite slice_empty, append_events_nil, insert_id by (done || lia). split; [by destruct m|].
    unfold good_stream. destruct enable_kv_cache_events; [|done].
    rewrite (slice_empty _ a a), (slice_empty _ (a * bs)) by nia. done.
  - pose proof Hh as ((Ha & _) & _). set (b := Z.max a (n / bs)).
    assert (Hbk : b <= k) by exact (full_blocks_ge bs b ns).
    destruct (IH (append_events (if b =? a then [] else stored_events r bs a b)
        (publish_range gid (b_block_hashes r) blocks a b p)) (with_cached id b m) b) as (es & Hrun & Hes).
    { apply lookup_insert_eq. }
    { apply hashed_append_events, hashed_publish; [done|cbn; fold blocks; lia|lia]. }
    { exact Hk. }
    { exact Hkh. }
    eexists. split; [|apply good_stream_cons; [..|exact Hes]; lia].
    assert (Hb1 : b <= pylen blocks) by lia. assert (Hb2 : b <= pylen (b_block_hashes r)) by lia.
    cbn [for_]. rewrite (bind_ok _ _ _ _ _ (manager_cache_blocks_ok g r n p m a Hm Hh Hb1 Hb2)).
    fold id bs gid b. fold blocks. rewrite Hrun. f_equal. f_equal; [|apply with_cached_twice].
    unfold publish_range at 1. rewrite publish_append_events, append_events_app.
    f_equal. apply publish_range_app; [lia..| |]; done.
Qed.

(** C21. Caching step by step publishes what caching at once would.  From a state where
    the request's first [a] blocks carry its hashes, any sequence of calls of
    [cache_blocks] leaves, as one call for the largest number of tokens, the first [k] blocks with its hashes, the others
    and those of other requests as they were, and the same map of cached blocks; and the events of the
    calls form a chain, each naming the block before its own as its parent, that
    announces the hashes and the tokens of the blocks from [a] to [k], each once and in order. *)
Theorem cache_blocks_in_steps g r ns p m a :
  let id := b_request_id r in let gid := g_kv_cache_group_id g in let bs := g_block_size g in
  let blocks := blocks_of m id in let k := full_blocks bs a ns in
  0 < bs -> num_cached_block m !! id = Some a -> hashed gid (b_block_hashes r) blocks a p ->
  k <= pylen blocks -> k <= pylen (b_block_hashes r) ->
  exists p' es es1,
    for_ ns (manager_cache_blocks h enable_kv_cache_events g r) (p, m) =
      (Ok tt, (append_events es p', with_cached id k m)) /\
    manager_cache_blocks h enable_kv_cache_events g r (k * bs) (p, m) =
      (Ok tt, (append_events es1 p', with_cached id k m)) /\
    hashed gid (b_block_hashes r) blocks k p' /\
    (forall b, b ∉ blocks -> block_hash p' !! b = block_hash p !! b) /\
    kv_event_queue p' = kv_event_queue p /\
    good_stream r bs a k es.
Proof.
  intros id gid bs blocks k Hbs Hm Hh Hk Hkh. pose proof Hh as ((Ha & _) & _).
  pose proof (full_blocks_ge bs a ns : a <= k) as Hak.
  destruct (cache_steps g r ns p m a Hbs Hm Hh Hk Hkh) as (es & Hrun & Hes).
  assert (Hmax : Z.max a (k * bs / bs) = k) by (rewrite Z.div_mul; lia).
  pose proof (manager_cache_blocks_ok g r (k * bs) p m a Hm Hh) as Hone. cbv zeta in Hone.
  fold id bs gid in Hone. fold blocks in Hone. rewrite Hmax in Hone.
  eexists _, es, _. split; [exact Hrun|]. split; [by apply Hone|].
  split; [by apply hashed_publish|]. split; [|split; [apply publish_queue|exact Hes]].
  intros b Hb. apply publish_other. intros Hin. apply Hb. rewrite fst_zip in Hin.
  - by eapply elem_of_slice.
  - apply Nat.eq_le_incl, (slices_same_length blocks (b_block_hashes r) a k); lia.
Qed.
End pool_facts.

(** ** Allocation against the laws of the coordinator *)

(** What vLLM's coordinator of a model with one cache group promises.  [view] is
    the part of its state the patch works on.  New blocks come without a hash
    and are not among the request's; the count of needed blocks includes the
    computed ones that leave the free list. *)
Record UnitaryLaws {BH HG EH C K : Type} (h : HashOps BH HG EH C) (events : bool) (g : GroupConfig)
    (co : Coordinator BH K) (view : K -> Pool HG EH C * Manager) : Prop := {
  law_groups : num_kv_cache_groups co = 1;
  law_skip : forall id n k, view (remove_skipped_blocks co id n k) = view k;
  law_skip_free : forall id n k, get_num_free_blocks co k <= get_num_free_blocks co (remove_skipped_blocks co id n k);
  law_need : forall id n l e k, exists need, num_blocks_to_allocate co id n [l] e k = Ok need;
  law_touch : forall ls k, view (touch co ls k) = view k;
  law_save_running : forall id k a, num_cached_block (view k).2 !! id = Some a ->
    exists k', save_new_computed_blocks co id [[]] k = (Ok tt, k') /\ view k' = view k;
  law_save_new : forall id l k, num_cached_block (view k).2 !! id = None ->
    exists k', save_new_computed_blocks co id [l] k = (Ok tt, k') /\
      view k' = ((view k).1, MkManager (<[id := blocks_of (view k).2 id ++ l]> (req_to_blocks (view k).2))
                               (<[id := pylen l]> (num_cached_block (view k).2)));
  law_allocate : forall id n l e k0 need k2,
    num_blocks_to_allocate co id n [l] e k0 = Ok need -> need <= get_num_free_blocks co k0 ->
    save_new_computed_blocks co id [l] (touch co [l] k0) = (Ok tt, k2) ->
    NoDup (blocks_of (view k2).2 id) ->
    exists new k3, allocate_new_blocks co id n e k2 = (Ok [new], k3) /\
      get_num_free_blocks co k3 = get_num_free_blocks co k0 - need /\
      num_cached_block (view k3).2 = num_cached_block (view k2).2 /\
      blocks_of (view k3).2 id = blocks_of (view k2).2 id ++ new /\
      NoDup (blocks_of (view k3).2 id) /\
      n <= pylen (blocks_of (view k3).2 id) * g_block_size g /\
      (forall b, b ∈ new -> block_hash (view k3).1 !! b = None) /\
      (forall b, b ∉ new -> block_hash (view k3).1 !! b = block_hash (view k2).1 !! b);
  law_cache : forall r n k s, manager_cache_blocks h events g r n (view k) = (Ok tt, s) ->
    exists k', coordinator_cache_blocks co r n k = (Ok tt, k') /\ view k' = s /\
      get_num_free_blocks co k' = get_num_free_blocks co k;
}.

Section allocate_facts.
Context {BH HG EH C K : Type} (h : HashOps BH HG EH C) (events : bool) (g : GroupConfig).
Context (co : Coordinator BH K) (view : K -> Pool HG EH C * Manager) (cfg : AllocConfig).
Hypothesis Hget : forall bh gid, get_block_hash h (make_block_hash_with_group_id h bh gid) = bh.
Hypothesis laws : UnitaryLaws h events g co view.
Implicit Types (k : K) (r : BRequest BH) (a : AllocArgs).

(** The state of a request before a call: a running one has all its blocks with
    the manager, the first [n] cached; a new one brings [n] computed blocks. *)
Definition resident r (l : list Z) (n : Z) k : Prop :=
  hashed h (g_kv_cache_group_id g) (b_block_hashes r) (blocks_of (view k).2 (b_request_id r) ++ l) n (view k).1 /\
  match num_cached_block (view k).2 !! b_request_id r with
  | Some n' => l = [] /\ n = n'
  | None => blocks_of (view k).2 (b_request_id r) = [] /\ n = pylen l
  end.

(** The request's blocks after a call, the first [n] of them cached. *)
Definition settled r (n : Z) k : Prop :=
  num_cached_block (view k).2 !! b_request_id r = Some n /\
  hashed h (g_kv_cache_group_id g) (b_block_hashes r) (blocks_of (view k).2 (b_request_id r)) n (view k).1.

Lemma blocks_of_insert id l t c : blocks_of (MkManager (<[id := l]> t) c) id = l.
Proof. unfold blocks_of. cbn. by rewrite lookup_insert_eq. Qed.

Lemma save_resident r l n k : resident r l n k ->
  exists k', save_new_computed_blocks co (b_request_id r) [l] k = (Ok tt, k') /\ settled r n k'.
Proof.
  intros [Hh Hm]. unfold settled. destruct (num_cached_block (view k).2 !! b_request_id r) as [n'|] eqn:Hn.
  - destruct Hm as [-> ->]. destruct (law_save_running _ _ _ _ _ laws _ _ _ Hn) as (k' & Hk' & Hv).
    exists k'. rewrite Hv, Hn. rewrite app_nil_r in Hh. done.
  - destruct Hm as [Hb ->]. destruct (law_save_new _ _ _ _ _ laws _ l _ Hn) as (k' & Hk' & Hv).
    exists k'. rewrite Hv. cbn [snd fst num_cached_block]. by rewrite blocks_of_insert, lookup_insert_eq.
Qed.

Lemma hashed_grow gid hashes blocks new n p p' :
  hashed h gid hashes blocks n p -> NoDup (blocks ++ new) ->
  (forall b, b ∈ new -> block_hash p' !! b = None) ->
  (forall b, b ∉ new -> block_hash p' !! b = block_hash p !! b) ->
  hashed h gid hashes (blocks ++ new) n p'.
Proof.
  intros ([Hn Hle] & Hhl & _ & Hp) Hnd Hnew Hold. split; [rewrite pylen_app; pose proof (pylen_nonneg new); lia|].
  split; [done|]. split; [done|]. intros i b Hi. apply lookup_app_Some in Hi as [Hi|[Hge Hi]].
  - rewrite Hold; [by apply Hp|]. apply NoDup_app in Hnd as (_ & Hd & _). apply Hd. by eapply list_elem_of_lookup_2.
  - rewrite Hnew by by eapply list_elem_of_lookup_2. unfold pylen in Hle. by rewrite (proj2 (Z.ltb_ge _ _)) by lia.
Qed.

(** A request the code schedules: positive counts, at most the model's length,
    a block hash for every full block it has. *)
Definition schedulable r a : Prop :=
  0 < g_block_size g /\ 0 < num_new_tokens a /\ 0 <= num_new_computed_tokens a /\
  0 <= num_lookahead_tokens a /\ 0 <= b_num_computed_tokens r /\
  b_num_tokens r <= a_max_model_len cfg /\ b_num_tokens r / g_block_size g <= pylen (b_block_hashes r).

Lemma allocate_short r a l k need :
  let k0 := remove_skipped_blocks co (b_request_id r) (b_num_computed_tokens r) k in
  num_new_tokens a <> 0 -> new_computed_block_list co a = [l] ->
  num_blocks_to_allocate co (b_request_id r) (num_tokens_need_slot cfg r a) [l] (num_encoder_tokens a) k0 = Ok need ->
  get_num_free_blocks co k0 < need ->
  allocate_slots co cfg r a k = (Ok None, k0).
Proof.
  intros k0 Hn Hl Hneed Hlt. unfold allocate_slots. rewrite (proj2 (Z.eqb_neq _ _)) by done.
  unfold allocate_slots_checked. rewrite Hl. unfold bind, modify, gets. fold k0.
  by rewrite Hneed, (proj2 (Z.ltb_lt _ _)).
Qed.

Lemma allocate_enough r a l k need :
  let k0 := remove_skipped_blocks co (b_request_id r) (b_num_computed_tokens r) k in
  num_new_tokens a <> 0 -> new_computed_block_list co a = [l] -> a_enable_caching cfg = true ->
  num_blocks_to_allocate co (b_request_id r) (num_tokens_need_slot cfg r a) [l] (num_encoder_tokens a) k0 = Ok need ->
  need <= get_num_free_blocks co k0 ->
  allocate_slots co cfg r a k =
    bind (save_new_computed_blocks co (b_request_id r) [l]) (fun _ =>
    bind (allocate_new_blocks co (b_request_id r) (num_tokens_need_slot cfg r a) (num_encoder_tokens a)) (fun new =>
    if delay_cache_blocks a then ret (Some new)
    else bind (coordinator_cache_blocks co r (num_tokens_to_cache r a)) (fun _ => ret (Some new)))) (touch co [l] k0).
Proof.
  intros k0 Hn Hl Hen Hneed Hge. unfold allocate_slots. rewrite (proj2 (Z.eqb_neq _ _)) by done.
  unfold allocate_slots_checked. rewrite Hl, Hen. unfold bind at 1 2 3 4, modify, gets. fold k0.
  by rewrite Hneed, (proj2 (Z.ltb_ge _ _)).
Qed.

End allocate_facts.

(** With the slots of a request that is not sparsified, the sparse patch
    allocates as the plain one does. *)
Lemma sparse_allocate_slots_invalid {BH K} (co : Coordinator BH K) cfg sparse r a :
  sparse_allocate_slots co cfg sparse r a (Some INVALID_SLOT) = allocate_slots co cfg r a.
Proof. unfold sparse_allocate_slots, allocate_slots. by rewrite bool_decide_false by naive_solver. Qed.

(** ** A concrete pool *)
Module PoolDemo.
(** A hash with its group is a pair, the cached map an association list. *)
Definition ops : HashOps Z (Z * Z) Z (list ((Z * Z) * Z)) := {|
  make_block_hash_with_group_id bh gid := (bh, gid);
  get_block_hash := fst;
  maybe_convert_block_hash bh := bh;
  cached_block_hash_insert k blk l := l ++ [(k, blk)] |}.
Abbreviation POOL := (Pool (Z * Z) Z (list ((Z * Z) * Z))).

Definition group : GroupConfig := {| g_block_size := 2; g_kv_cache_group_id := 0 |}.
Definition pool : POOL := MkPool ∅ [] [].
Definition manager : Manager := MkManager {["r" := [10; 11; 12; 13]]} {["r" := 0]}.
Definition request : BRequest Z :=
  {| b_request_id := "r"; b_block_hashes := [100; 101; 102; 103]; b_all_token_ids := [1; 2; 3; 4; 5; 6; 7; 8];
     b_num_tokens := 8; b_num_computed_tokens := 0; b_lora_id := None |}.

Lemma hashed_demo : hashed ops 0 (b_block_hashes request) (blocks_of manager "r") 0 pool.
Proof.
  split; [vm_compute; by split|]. split; [by vm_compute|]. split.
  - apply (bool_decide_unpack (NoDup (blocks_of manager "r"))). by vm_compute.
  - intros i b _. by rewrite (proj2 (Z.ltb_ge _ _)) by lia.
Qed.

(** Three calls, the second of which has nothing new: two events, chained. *)
Example cache_steps_demo :
  (fun e => (block_hashes e, parent_block_hash e, ev_token_ids e))
    <$> kv_event_queue (for_ [3; 2; 8] (manager_cache_blocks ops true group request) (pool, manager)).2.1 =
  [(Some [100], None, [1; 2]); (Some [101; 102; 103], Some 100, [3; 4; 5; 6; 7; 8])].
Proof. by vm_compute. Qed.

(** A coordinator that hands out blocks nobody holds. *)
Record kv := KV { d_view : POOL * Manager; d_free : Z }.
Definition all_blocks (m : Manager) : gset Z := map_fold (fun _ l s => list_to_set l ∪ s) ∅ (req_to_blocks m).
Definition demo_need (id : string) (n : Z) (l : list Z) (k : kv) : Z :=
  Z.max 0 (cdiv n 2 - pylen (blocks_of (d_view k).2 id ++ l)).
Definition demo_allocate (id : string) (n e : Z) (k : kv) : res (list (list Z)) * kv :=
  let '(p, m) := d_view k in
  let need := demo_need id n [] k in
  let new := fresh_list (Z.to_nat need) (all_blocks m) in
  (Ok [new], KV (MkPool (foldr delete (block_hash p) new) (cached_block_hash_to_block p) (kv_event_queue p),
                 MkManager (<[id := blocks_of m id ++ new]> (req_to_blocks m)) (num_cached_block m))
               (d_free k - need)).
Definition demo_save (id : string) (ls : list (list Z)) (k : kv) : res unit * kv :=
  let '(p, m) := d_view k in
  (Ok tt, match num_cached_block m !! id with
          | Some _ => k
          | None => KV (p, MkManager (<[id := blocks_of m id ++ concat ls]> (req_to_blocks m))
                             (<[id := pylen (concat ls)]> (num_cached_block m))) (d_free k)
          end).
Definition coordinator : Coordinator Z kv := {|
  num_kv_cache_groups := 1;
  remove_skipped_blocks _ _ k := k;
  num_blocks_to_allocate id n ls e k :=
    Ok (demo_need id n (match num_cached_block (d_view k).2 !! id with Some _ => [] | None => concat ls end) k);
  get_num_free_blocks := d_free;
  touch _ k := k;
  save_new_computed_blocks := demo_save;
  allocate_new_blocks := demo_allocate;
  coordinator_cache_blocks r n k :=
    match manager_cache_blocks ops true group r n (d_view k) with (x, s) => (x, KV s (d_free k)) end |}.

Lemma elem_of_all_blocks m id b : b ∈ blocks_of m id -> b ∈ all_blocks m.
Proof.
  unfold blocks_of, all_blocks. destruct (req_to_blocks m !! id) as [l|] eqn:Hl; [|intros Hb; by apply elem_of_nil in Hb].
  cbn. revert l Hl. apply (map_fold_weak_ind (fun s t => forall l, t !! id = Some l -> b ∈ l -> b ∈ s)).
  - intros l Hl. by rewrite lookup_empty in Hl.
  - intros i l' t s _ IH l Hl Hb. apply elem_of_union. destruct (decide (i = id)) as [->|Hne].
    + rewrite lookup_insert_eq in Hl. injection Hl as ->. left. by apply elem_of_list_to_set.
    + rewrite lookup_insert_ne in Hl by done. right. by apply (IH l).
Qed.

Lemma lookup_foldr_delete (l : list Z) (t : gmap Z (Z * Z)) b :
  foldr delete t l !! b = if decide (b ∈ l) then None else t !! b.
Proof.
  induction l as [|x l IH]; cbn; [by rewrite decide_False by apply not_elem_of_nil|].
  destruct (decide (x = b)) as [->|Hne].
  - by rewrite lookup_delete_eq, decide_True by left.
  - rewrite lookup_delete_ne, IH by done. destruct (decide (b ∈ l)) as [Hin|Hin].
    + by rewrite decide_True by by right.
    + rewrite decide_False; [done|]. rewrite elem_of_cons. intros [Heq|?]; [by apply Hne|done].
Qed.

Lemma laws_demo : UnitaryLaws ops true group coordinator d_view.
Proof.
  split; cbn.
  - done.
  - done.
  - intros. lia.
  - intros. by eexists.
  - done.
  - intros id k a Ha. unfold demo_save. destruct (d_view k) as [p m] eqn:Hk. cbn in Ha. rewrite Ha. by exists k.
  - intros id l k Hn. unfold demo_save. destruct (d_view k) as [p m]. cbn in *. rewrite Hn, app_nil_r. by eexists.
  - intros id n l e k need k2 [= Hneed] Hfree Hsave Hnd.
    assert (Hk2 : demo_need id n [] k2 = need /\ d_free k2 = d_free k).
    { unfold demo_save in Hsave. rewrite <- Hneed. unfold demo_need. destruct (d_view k) as [p m] eqn:Hk.
      injection Hsave as <-. cbn. destruct (num_cached_block m !! id); [by rewrite Hk|].
      cbn [d_view d_free snd]. by rewrite blocks_of_insert, !app_nil_r. }
    destruct Hk2 as [Hn2 Hf2]. unfold demo_allocate. rewrite Hn2. clear Hneed Hsave Hfree.
    destruct (d_view k2) as [p m] eqn:Hk2. cbn in Hnd. eexists _, _. split; [reflexivity|].
    cbn [d_view d_free fst snd num_cached_block block_hash]. rewrite blocks_of_insert.
    set (new := fresh_list _ _). assert (Hfresh : forall b, b ∈ new -> b ∉ all_blocks m)
      by (intros b; apply fresh_list_is_fresh).
    split; [lia|]. split; [done|]. split; [done|]. split; [|split; [|split]].
    + apply NoDup_app. split; [done|]. split; [|apply NoDup_fresh_list].
      intros b Hb Hnew. apply (Hfresh b Hnew). by apply elem_of_all_blocks with id.
    + rewrite pylen_app. unfold pylen at 2, new. rewrite length_fresh_list. rewrite <- Hn2.
      unfold demo_need. rewrite Hk2, app_nil_r. cbn. pose proof (cdiv_spec n 2 ltac:(lia)). lia.
    + intros b Hb. by rewrite lookup_foldr_delete, decide_True.
    + intros b Hb. by rewrite lookup_foldr_delete, decide_False.
  - intros r n k s Hrun. rewrite Hrun. by eexists.
Qed.

(** A new request with one computed block, [5], and eight tokens of which two are
    computed: three blocks are allocated, and all four are cached. *)
Definition start : kv :=
  KV (MkPool {[5 := (100, 0)]} [((100, 0), 5)] [], MkManager ∅ ∅) 6.
Definition args : AllocArgs :=
  {| num_new_tokens := 6; num_new_computed_tokens := 2; new_computed_blocks := Some [[5]];
     num_lookahead_tokens := 1; delay_cache_blocks := false; num_encoder_tokens := 0 |}.
Definition config : AllocConfig := {| a_max_model_len := 64; a_enable_caching := true |}.

Example allocate_demo :
  let k := (allocate_slots coordinator config request args start).2 in
  d_free k = 2 /\ num_cached_block (d_view k).2 !! "r"%string = Some 4.
Proof. by vm_compute. Qed.
End PoolDemo.
Import PoolDemo.

Lemma cache_blocks_in_steps_witness :
  exists p' es, for_ [3; 2; 8] (manager_cache_blocks ops true group request) (pool, manager) =
      (Ok tt, (append_events es p', with_cached "r" 4 manager)) /\
    hashed ops 0 [100; 101; 102; 103] [10; 11; 12; 13] 4 p' /\
    stream_tokens es = [1; 2; 3; 4; 5; 6; 7; 8].
Proof.
  destruct (cache_blocks_in_steps ops true (fun _ _ => eq_refl) group request [3; 2; 8] pool manager 0)
    as (p' & es & es1 & Hrun & _ & Hh & _ & _ & Hes).
  - reflexivity.
  - reflexivity.
  - exact hashed_demo.
  - vm_compute. discriminate.
  - vm_compute. discriminate.
  - exists p', es. split; [exact Hrun|]. split; [exact Hh|]. destruct Hes as (_ & _ & Ht). exact Ht.
Defined.

