(* ===== verification/KvConfig.v ===== *)
(** * Sizing the KV cache (ucm/integration/vllm/patch/v0110/vllm/sparse/v1/core/kv_cache_utils.py)

    [get_kv_cache_config_from_groups] turns the groups of layers that share a
    kind of KV cache into the tensors the workers allocate.  The theorem says
    that every layer gets its place in exactly one tensor and that the tensors,
    with the hashed keys of the hash-attention mode, fit in the memory given. *)

From S2P Require Import Prelude.
Local Open Scope Z_scope.
Local Open Scope py_scope.

(** A group of layers; [g_uniform] is the per-layer page size of a
    [UniformTypeKVCacheSpecs], [None] for the other specs. *)
Record KVCacheGroup := {
  layer_names : list string;
  g_page_size_bytes : Z;
  g_uniform : option (list (string * Z));
}.

Record KVCacheTensor := {
  t_size : Z;
  shared_by : list string;
}.

Record KVCacheConfig := {
  num_blocks : Z;
  kv_cache_tensors : list KVCacheTensor;
  kv_cache_groups : list KVCacheGroup;
}.

(** What the function reads of its surroundings, and the helpers of vLLM it
    calls with them: the number of blocks for a number of layers, a memory size
    and a page size, and the override of that number by the configuration. *)
Record KvEnv := {
  hash_attention : bool;
  cache_dtype : string;
  model_dtype_itemsize : Z;
  str_dtype_itemsize : string -> option Z;
  get_num_blocks : Z -> Z -> Z -> Z;
  may_override_num_blocks : Z -> Z;
  (** of the specs of all layers; fails when they differ *)
  get_uniform_page_size : res Z;
}.

Section config.
Context (e : KvEnv).

Definition per_layer_tensor (specs : list (string * Z)) (n : Z) (name : string) : res KVCacheTensor :=
  let? page := of_option KeyError (od_get name specs) in
  Ok {| t_size := page * n; shared_by := [name] |}.

Fixpoint res_list {A} (l : list (res A)) : res (list A) :=
  match l with
  | [] => Ok []
  | r :: l' => let? x := r in let? xs := res_list l' in Ok (x :: xs)
  end.

(** The hashed keys take [1 / khash_scale] of a block. *)
Definition khash_scale : res Z :=
  let? itemsize := if bool_decide (cache_dtype e = "auto"%string) then Ok (model_dtype_itemsize e)
                   else of_option KeyError (str_dtype_itemsize e (cache_dtype e)) in
  Ok (itemsize * 8).

Definition reduce_for_khash (n : Z) : res Z :=
  if hash_attention e then
    let? scale := khash_scale in Ok (n * scale / (scale + 1))
  else Ok n.

Definition group_size (groups : list KVCacheGroup) : Z :=
  foldr Z.max 0 ((fun g => pylen (layer_names g)) <$> groups).

(** The [i]-th layer of each group that has one. *)
Definition layers_at (groups : list KVCacheGroup) (i : Z) : list string :=
  concat ((fun g => if i <? pylen (layer_names g) then
                      match py_nth (layer_names g) i with Some l => [l] | None => [] end
                    else []) <$> groups).

Definition uniform_of (groups : list KVCacheGroup) : option (KVCacheGroup * list (string * Z)) :=
  match groups with
  | [g] => match g_uniform g with Some specs => Some (g, specs) | None => None end
  | _ => None
  end.

Definition get_kv_cache_config_from_groups (groups : list KVCacheGroup) (available_memory : Z)
    : res KVCacheConfig :=
  match groups with
  | [] => Ok {| num_blocks := 1; kv_cache_tensors := []; kv_cache_groups := groups |}
  | _ =>
    match uniform_of groups with
    | Some (g, specs) =>
      if g_page_size_bytes g =? 0 then Err ZeroDivisionError
      else
        let n := may_override_num_blocks e (available_memory / g_page_size_bytes g) in
        let? ts := res_list (per_layer_tensor specs n <$> layer_names g) in
        Ok {| num_blocks := n; kv_cache_tensors := ts; kv_cache_groups := groups |}
    | None =>
      let size := group_size groups in
      let? page_size := get_uniform_page_size e in
      if size <=? 0 then Err AssertionError
      else
        let? n := reduce_for_khash (get_num_blocks e size available_memory page_size) in
        Ok {| num_blocks := n;
              kv_cache_tensors :=
                (fun i => {| t_size := page_size * n; shared_by := layers_at groups i |}) <$> zrange 0 size;
              kv_cache_groups := groups |}
    end
  end.

(** ** Every layer once, within the memory *)

Definition total_size (c : KVCacheConfig) : Z := zsum (t_size <$> kv_cache_tensors c).

Lemma group_size_ge groups g : g ∈ groups -> pylen (layer_names g) <= group_size groups.
Proof.
  unfold group_size. induction groups as [|g' groups IH]; intros Hin; [by apply elem_of_nil in Hin|].
  cbn. apply elem_of_cons in Hin as [->|Hin]; [lia|]. specialize (IH Hin). lia.
Qed.

Lemma layers_at_cons g groups i :
  0 <= i -> layers_at (g :: groups) i = option_list (layer_names g !! Z.to_nat i) ++ layers_at groups i.
Proof.
  intros Hi. unfold layers_at. cbn. f_equal. rewrite py_nth_nonneg by done.
  destruct (Z.ltb_spec i (pylen (layer_names g))) as [Hlt|Hge].
  - by destruct (layer_names g !! Z.to_nat i).
  - rewrite lookup_ge_None_2; [done|]. unfold pylen in Hge. lia.
Qed.

Lemma concat_app_Permutation {A} (f g : Z -> list A) l :
  concat ((fun i => f i ++ g i) <$> l) ≡ₚ concat (f <$> l) ++ concat (g <$> l).
Proof.
  induction l as [|i l IH]; [done|]. cbn. rewrite IH, <- !app_assoc. apply Permutation_app_head.
  rewrite !app_assoc. apply Permutation_app_tail, Permutation_app_comm.
Qed.

Lemma concat_lookup_prefix {A} (l : list A) n :
  (length l <= n)%nat -> concat ((fun i => option_list (l !! i)) <$> seq 0 n) = l.
Proof.
  revert n. induction l as [|x l IH]; intros n Hn.
  - clear Hn. generalize O. induction n as [|n IH]; intros k; [done|]. cbn. apply IH.
  - destruct n as [|n]; [cbn in Hn; lia|]. cbn. f_equal.
    rewrite <- fmap_S_seq, <- list_fmap_compose. apply (IH n). cbn in Hn. lia.
Qed.

Lemma concat_nth_zrange {A} (l : list A) n :
  pylen l <= n -> concat ((fun i => option_list (l !! Z.to_nat i)) <$> zrange 0 n) = l.
Proof.
  intros Hn. unfold zrange. rewrite <- list_fmap_compose. unfold pylen in Hn.
  etrans; [|apply (concat_lookup_prefix l (Z.to_nat (n - 0))); lia].
  f_equal. apply list_fmap_ext. intros _ i _. unfold compose. by replace (Z.to_nat (0 + Z.of_nat i)) with i by lia.
Qed.

Lemma layers_at_Permutation groups n :
  (forall g, g ∈ groups -> pylen (layer_names g) <= n) ->
  concat (layers_at groups <$> zrange 0 n) ≡ₚ concat (layer_names <$> groups).
Proof.
  induction groups as [|g groups IH]; intros Hn.
  - cbn. induction (zrange 0 n) as [|i l IHl]; [done|]. cbn. exact IHl.
  - cbn. rewrite <- IH by (intros g' Hg'; apply Hn; by right).
    rewrite <- (concat_nth_zrange (layer_names g) n) at 1 by (apply Hn; left).
    rewrite <- concat_app_Permutation. match goal with |- ?a ≡ₚ ?b => enough (a = b) as -> by done end. f_equal. apply list_fmap_ext. intros ? i Hi.
    apply list_elem_of_lookup_2, elem_of_zrange in Hi. apply layers_at_cons. lia.
Qed.

Lemma res_list_Forall2 {A B} (f : A -> res B) l ys :
  res_list (f <$> l) = Ok ys -> Forall2 (fun x y => f x = Ok y) l ys.
Proof.
  revert ys. induction l as [|x l IH]; intros ys Hys; cbn in Hys; [by injection Hys as <-|].
  destruct (f x) as [y|] eqn:Hx; [|done]. fold (res_list (f <$> l)) in Hys. destruct (res_list (f <$> l)) as [ys'|] eqn:Hl; [|done].
  injection Hys as <-. constructor; auto.
Qed.

Lemma zsum_scale (l : list Z) c : zsum ((fun x => x * c) <$> l) = zsum l * c.
Proof. induction l as [|x l IH]; cbn; [done|]. fold (zsum ((fun y => y * c) <$> l)) (zsum l). lia. Qed.

Lemma length_layers_at groups i : (length (layers_at groups i) <= length groups)%nat.
Proof.
  unfold layers_at. induction groups as [|g groups IH]; cbn; [done|].
  rewrite length_app. destruct (_ <? _); [|cbn; lia]. destruct (py_nth _ _); cbn; lia.
Qed.

Lemma config_uniform groups g specs available c :
  uniform_of groups = Some (g, specs) -> 0 <= available -> 0 <= g_page_size_bytes g ->
  (forall n, 0 <= n -> 0 <= may_override_num_blocks e n <= n) ->
  zsum ((fun l => default 0 (od_get l specs)) <$> layer_names g) <= g_page_size_bytes g ->
  get_kv_cache_config_from_groups groups available = Ok c ->
  concat (shared_by <$> kv_cache_tensors c) = concat (layer_names <$> groups) /\
  (forall t, t ∈ kv_cache_tensors c -> length (shared_by t) = 1%nat) /\
  total_size c <= available.
Proof.
  intros Hu Hav Hpg Hover Hsum Hok. unfold get_kv_cache_config_from_groups in Hok.
  destruct groups as [|g' [|]]; [done| |done]. assert (g' = g) as ->.
  { cbn in Hu. destruct (g_uniform g'); by simplify_eq. }
  cbn [get_kv_cache_config_from_groups] in Hok. rewrite Hu in Hok.
  destruct (Z.eqb_spec (g_page_size_bytes g) 0) as [|Hne]; [done|].
  specialize (Hover (available / g_page_size_bytes g) ltac:(apply Z.div_pos; lia)).
  set (n := may_override_num_blocks e (available / g_page_size_bytes g)) in *.
  destruct (res_list _) as [ts|] eqn:Hts; [|done]. injection Hok as <-. cbn. rewrite app_nil_r.
  apply res_list_Forall2 in Hts. unfold total_size. cbn.
  assert (Hall : concat (shared_by <$> ts) = layer_names g /\ (forall t, t ∈ ts -> length (shared_by t) = 1%nat) /\
            zsum (t_size <$> ts) = zsum ((fun l => default 0 (od_get l specs)) <$> layer_names g) * n).
  { clear Hsum. induction Hts as [|l t ls ts Ht _ (IH1 & IH2 & IH3)]; [repeat split; intros ? Hin; by apply elem_of_nil in Hin|].
    unfold per_layer_tensor in Ht. destruct (od_get l specs) as [pg|] eqn:Hl; [|done]. injection Ht as <-.
    cbn. rewrite IH1, Hl. split; [done|]. split.
    - intros t' [->|Hin]%elem_of_cons; [done|auto].
    - unfold zsum in *. cbn. rewrite IH3. cbn. ring. }
  fold (zsum (t_size <$> ts)). destruct Hall as (H1 & H2 & ->). split; [done|]. split; [done|].
  pose proof (Z.mul_div_le available (g_page_size_bytes g) ltac:(lia)). nia.
Qed.

Lemma config_general groups available c page :
  groups <> [] -> uniform_of groups = None -> get_uniform_page_size e = Ok page -> 0 <= page ->
  let size := group_size groups in let n := get_num_blocks e size available page in
  0 <= n -> (0 < size -> size * (page * n) <= available) ->
  get_kv_cache_config_from_groups groups available = Ok c ->
  0 < size /\ exists n', reduce_for_khash n = Ok n' /\ total_size c = size * (page * n') /\
  kv_cache_tensors c = (fun i => {| t_size := page * n'; shared_by := layers_at groups i |}) <$> zrange 0 size.
Proof.
  intros Hne Hu Hpage Hp0 size n Hn Hfit Hok. unfold get_kv_cache_config_from_groups in Hok.
  rewrite Hu, Hpage in Hok. fold size n in Hok. destruct groups as [|g0 gs]; [done|].
  destruct (Z.leb_spec size 0); [done|]. split; [done|].
  destruct (reduce_for_khash n) as [n'|]; [|done]. injection Hok as <-. exists n'. unfold total_size. cbn.
  split; [done|]. split; [|done]. rewrite <- list_fmap_compose. unfold compose. cbn. rewrite zsum_const.
  unfold pylen. rewrite length_zrange, Z.sub_0_r, Z2Nat.id by lia. done.
Qed.

(** Every layer gets its place in exactly one tensor, and everything fits.  When
    [get_kv_cache_config_from_groups] succeeds, the tensors' [shared_by] lists, put
    together, are the layers of the groups, each once (and so no two layers of a
    group share a tensor, a tensor holding one layer per group at most), and the tensors take at most the
    available memory; with hash attention they leave room for the hashed keys,
    which take one [khash_scale]-th of the tensors.  The hypotheses are what vLLM's
    block count, override and uniform page size promise. *)
Theorem kv_cache_config_fits groups available c page :
  0 <= available ->
  get_uniform_page_size e = Ok page -> 0 <= page ->
  (forall size, 0 < size -> 0 <= get_num_blocks e size available page /\
                 size * (page * get_num_blocks e size available page) <= available) ->
  (forall n, 0 <= n -> 0 <= may_override_num_blocks e n <= n) ->
  (forall s, khash_scale = Ok s -> 0 < s) ->
  (forall g specs, uniform_of groups = Some (g, specs) ->
     0 <= g_page_size_bytes g /\
     zsum ((fun l => default 0 (od_get l specs)) <$> layer_names g) <= g_page_size_bytes g) ->
  get_kv_cache_config_from_groups groups available = Ok c ->
  concat (shared_by <$> kv_cache_tensors c) ≡ₚ concat (layer_names <$> groups) /\
  (forall t, t ∈ kv_cache_tensors c -> (length (shared_by t) <= length groups)%nat) /\
  total_size c <= available /\
  (hash_attention e = true -> uniform_of groups = None -> groups <> [] ->
   exists s, khash_scale = Ok s /\ total_size c * (s + 1) <= available * s).
Proof.
  intros Hav Hpage Hp0 Hnum Hover Hscale Huni Hok.
  destruct (uniform_of groups) as [[g specs]|] eqn:Hu.
  { destruct (Huni _ _ eq_refl) as [Hpg Hsum].
    destruct (config_uniform groups g specs available c Hu Hav Hpg Hover Hsum Hok) as (H1 & H2 & H3).
    split; [by rewrite H1|]. split; [|done]. intros t Ht. rewrite (H2 t Ht). destruct groups; cbn; [done|lia]. }
  destruct (decide (groups = [])) as [->|Hne].
  { injection Hok as <-. unfold total_size. cbn. split; [done|]. split; [intros t Ht; by apply elem_of_nil in Ht|done]. }
  destruct (decide (0 < group_size groups)) as [Hpos|Hpos].
  2: { unfold get_kv_cache_config_from_groups in Hok. rewrite Hu, Hpage, (proj2 (Z.leb_le _ _)) in Hok by lia. by destruct groups. }
  destruct (Hnum _ Hpos) as [Hn0 Hfit].
  destruct (config_general groups available c page Hne Hu Hpage Hp0 Hn0 (fun _ => Hfit) Hok) as (_ & n' & Hred & Htot & Hts).
  set (n := get_num_blocks e (group_size groups) available page) in *.
  set (area := group_size groups * page). assert (Harea : 0 <= area) by nia.
  assert (Htot' : total_size c = area * n') by (rewrite Htot; unfold area; ring).
  assert (Hfit' : area * n <= available) by (unfold area; lia). clear Htot Hfit.
  rewrite Hts, <- list_fmap_compose. split; [by apply layers_at_Permutation, group_size_ge|]. split.
  { intros t (i & -> & _)%list_elem_of_fmap. apply length_layers_at. }
  unfold reduce_for_khash in Hred. rewrite Htot'.
  destruct (hash_attention e); [|injection Hred as ->; split; [done|discriminate]].
  destruct khash_scale as [s|] eqn:Hs; [|done]. injection Hred as <-. specialize (Hscale s eq_refl).
  assert (Hroom : n * s / (s + 1) * (s + 1) <= n * s)
    by (pose proof (Z.mul_div_le (n * s) (s + 1) ltac:(lia)); lia).
  set (n' := n * s / (s + 1)) in *. assert (area * n' * (s + 1) <= area * n * s) by nia.
  split; [|intros _ _ _; exists s; split; [done|]]; nia.
Qed.
End config.

Module KvDemo.
(** Two groups, (full.0, full.1) and (sw.0): two tensors. *)
Definition env : KvEnv :=
  {| hash_attention := true; cache_dtype := "auto"; model_dtype_itemsize := 2;
     str_dtype_itemsize := fun _ => None;
     get_num_blocks := fun size available page => available / page / size;
     may_override_num_blocks := fun n => n;
     get_uniform_page_size := Ok 10 |}.
Definition groups : list KVCacheGroup :=
  [{| layer_names := ["full.0"; "full.1"]; g_page_size_bytes := 20; g_uniform := None |};
   {| layer_names := ["sw.0"]; g_page_size_bytes := 10; g_uniform := None |}].

Example kv_config_demo :
  (fun c => (num_blocks c, (fun t => (t_size t, shared_by t)) <$> kv_cache_tensors c))
    <$> (match get_kv_cache_config_from_groups env groups 1000 with Ok c => Some c | Err _ => None end) =
  Some (47, [(470, ["full.0"; "sw.0"]); (470, ["full.1"])]).
Proof. by vm_compute. Qed.

(** The 940 bytes of the tensors leave the 60 bytes the hashed keys need. *)
Lemma kv_cache_config_fits_witness :
  exists c, get_kv_cache_config_from_groups env groups 1000 = Ok c /\
    concat (shared_by <$> kv_cache_tensors c) ≡ₚ ["full.0"; "full.1"; "sw.0"] /\
    exists s, khash_scale env = Ok s /\ total_size c * (s + 1) <= 1000 * s.
Proof.
  assert (Hr : exists c, get_kv_cache_config_from_groups env groups 1000 = Ok c)
    by (eexists; vm_compute; reflexivity).
  destruct Hr as [c Hr]. exists c. split; [exact Hr|].
  destruct (kv_cache_config_fits env groups 1000 c 10) as (Hperm & _ & _ & Hroom).
  - lia.
  - reflexivity.
  - lia.
  - intros size Hsize. cbn. change (1000 / 10) with 100. split; [apply Z.div_pos; lia|].
    pose proof (Z.mul_div_le 100 size Hsize). lia.
  - intros n Hn. cbn. lia.
  - intros s Hs. injection Hs as <-. lia.
  - intros g specs Hu. discriminate Hu.
  - exact Hr.
  - split; [exact Hperm|]. apply Hroom; [reflexivity|reflexivity|discriminate].
Defined.
End KvDemo.
