(* ===== verification/CacheRecovery.v ===== *)
(** * Failed loads and the prefix cache

    The scheduler ([Scheduler]) recovers a request whose asynchronous load
    failed by caching its valid prefix, and the cache manager ([BlockPool]) does
    the caching: together they keep every block that failed to load out of the
    prefix cache. *)

From S2P Require Import Prelude.
From S2P Require Import BlockPool.
From S2P Require Import Scheduler.
Local Open Scope Z_scope.
Local Open Scope py_scope.

(** What vLLM's [KVCacheManager] promises the scheduler of a model with one
    cache group: [view] is the pool and the manager in its state, [breq] the
    request as the manager sees it.  [cache_blocks] is the manager's; [free]
    leaves the blocks' hashes. *)
Record ManagerLaws {K P L T S St BH HG EH C : Type} (v : Vllm K P L T S St) (c : SchedConfig)
    (h : HashOps BH HG EH C) (events : bool) (g : GroupConfig) (view : K -> Pool HG EH C * Manager)
    (breq : string -> SReq -> BRequest BH) : Prop := {
  law_block_size : g_block_size g = sc_block_size c;
  law_request_id : forall id r, b_request_id (breq id r) = id;
  law_block_ids : forall k id, get_block_ids v k id = Ok (blocks_of (view k).2 id);
  law_cache_blocks : forall id r n k,
    view (cache_blocks v id r n k) = (manager_cache_blocks h events g (breq id r) n (view k)).2;
  law_free : forall id r k, block_hash (view (kv_free v id r k)).1 = block_hash (view k).1;
}.

Section recovery.
Context {K P L T S St BH HG EH C : Type} (v : Vllm K P L T S St) (c : SchedConfig) (inv : gset Z).
Context (h : HashOps BH HG EH C) (events : bool) (g : GroupConfig) (view : K -> Pool HG EH C * Manager).
Context (breq : string -> SReq -> BRequest BH).
Hypothesis Hget : forall bh gid, get_block_hash h (make_block_hash_with_group_id h bh gid) = bh.
Hypothesis laws : ManagerLaws v c h events g view breq.

(** The request's blocks carry its hashes exactly up to the larger of what was cached
    before and its computed tokens. *)
Lemma recovered_view id r n kv0 kv1 :
  0 < sc_block_size c ->
  let blocks := blocks_of (view kv0).2 id in
  num_cached_block (view kv0).2 !! id = Some n ->
  hashed h (g_kv_cache_group_id g) (b_block_hashes (breq id r)) blocks n (view kv0).1 ->
  0 <= r_num_computed_tokens r ->
  r_num_computed_tokens r / sc_block_size c <= pylen blocks ->
  r_num_computed_tokens r / sc_block_size c <= pylen (b_block_hashes (breq id r)) ->
  kv1 = (if r_num_computed_tokens r =? 0 then kv_free v id r kv0
         else cache_blocks v id r (r_num_computed_tokens r) kv0) ->
  hashed h (g_kv_cache_group_id g) (b_block_hashes (breq id r)) blocks
    (Z.max n (r_num_computed_tokens r / sc_block_size c)) (view kv1).1.
Proof.
  intros Hbs blocks Hn Hh Hc0 Hb Hbh ->. pose proof Hh as ([Hn0 Hnb] & Hnh & Hnd & Hp).
  destruct (Z.eqb_spec (r_num_computed_tokens r) 0) as [->|Hne].
  - rewrite Zdiv_0_l, Z.max_l by lia. split; [done|]. split; [done|]. split; [done|].
    intros i b Hi. rewrite (law_free _ _ _ _ _ _ _ laws). by apply Hp.
  - rewrite (law_cache_blocks _ _ _ _ _ _ _ laws).
    pose proof (manager_cache_blocks_ok h events Hget g (breq id r) (r_num_computed_tokens r)
                  (view kv0).1 (view kv0).2 n) as Hrun.
    cbv zeta in Hrun. rewrite (law_request_id _ _ _ _ _ _ _ laws), (law_block_size _ _ _ _ _ _ _ laws) in Hrun.
    fold blocks in Hrun. rewrite <- (surjective_pairing (view kv0)) in Hrun.
    rewrite Hrun by (done || lia). apply hashed_append_events. by apply hashed_publish; [|lia..].
Qed.

(** [computed] lies before every failed block once it lies before those held. *)
Lemma failed_beyond s id r i b :
  0 < sc_block_size c -> let blocks := blocks_of (view (kv_cache_manager s)).2 id in
  (forall i b, held_blocks v c s id !! i = Some b -> b ∈ inv -> r_num_computed_tokens r <= Z.of_nat i * sc_block_size c) ->
  has_invalid inv (held_blocks v c s id) -> blocks !! i = Some b -> b ∈ inv ->
  r_num_computed_tokens r / sc_block_size c <= Z.of_nat i.
Proof.
  intros Hbs blocks Hheld Hinv Hi Hb. apply Z.div_le_upper_bound; [lia|]. rewrite Z.mul_comm.
  apply Exists_exists in Hinv as (b0 & (i0 & Hi0)%list_elem_of_lookup & Hb0).
  pose proof (Hheld i0 b0 Hi0 Hb0) as Hle.
  destruct (held_blocks v c s id !! i) as [b'|] eqn:Hhi.
  - assert (b' = b) as ->; [|by eapply Hheld].
    unfold held_blocks in Hhi. destruct (heap s !! id); [|done]. rewrite (law_block_ids _ _ _ _ _ _ _ laws) in Hhi.
    apply lookup_take_Some in Hhi as [Hhi _]. fold blocks in Hhi. congruence.
  - apply lookup_ge_None in Hhi. apply lookup_lt_Some in Hi0. nia.
Qed.

(** C22. Blocks that failed to load never enter the prefix cache.  Take a request that is
    loading remotely, whose first [n] blocks were found in the prefix cache and
    carry its hashes, when some of the others fail to load and no other loading request
    holds them.  Once its transfer has ended, none of its failed blocks carries a hash, so
    that no request can find them, while the valid blocks before the first failed one
    that the recovery kept do carry theirs. *)
Theorem failed_blocks_are_not_cached s s1 aff id r n :
  0 < sc_block_size c -> queues_ok v s -> sc_has_connector c = true ->
  handle_invalid_blocks v c inv s = (Ok aff, s1) -> id ∈ loading s ->
  id ∈ finished_recving_kv_req_ids s1 ->
  (forall id' b, id' ∈ loading s -> id' <> id -> b ∈ inv -> b ∈ held_blocks v c s id -> b ∉ held_blocks v c s id') ->
  has_invalid inv (held_blocks v c s id) ->
  heap s1 !! id = Some r -> 0 <= r_num_computed_tokens r ->
  let blocks := blocks_of (view (kv_cache_manager s)).2 id in
  num_cached_block (view (kv_cache_manager s)).2 !! id = Some n ->
  hashed h (g_kv_cache_group_id g) (b_block_hashes (breq id r)) blocks n (view (kv_cache_manager s)).1 ->
  (forall i b, blocks !! i = Some b -> Z.of_nat i < n -> b ∉ inv) ->
  pylen blocks <= pylen (b_block_hashes (breq id r)) + 1 ->
  exists s2, update_waiting_for_remote_kv v c id s1 = (Ok true, s2) /\
    (forall b, b ∈ blocks -> b ∈ inv -> block_hash (view (kv_cache_manager s2)).1 !! b = None) /\
    (forall i b bh, blocks !! i = Some b -> b_block_hashes (breq id r) !! i = Some bh ->
       Z.of_nat i < r_num_computed_tokens r / sc_block_size c ->
       block_hash (view (kv_cache_manager s2)).1 !! b = Some (make_block_hash_with_group_id h bh (g_kv_cache_group_id g))).
Proof.
  intros Hbs Hq Hc Hh Hid Hfin Hsole Hinv Hr Hcomp blocks Hn Hhash Hlocal Hlen.
  destruct (handle_invalid_blocks_spec v c inv s Hbs Hq)
    as (s1' & aff' & Hh' & _ & Hfail & Hfirst & _ & _ & _ & _ & Hkv & _).
  rewrite Hh in Hh'. injection Hh' as <- <-.
  assert (Hfl : id ∈ failed_recving_kv_req_ids s1) by (apply Hfail; by right).
  destruct (update_waiting_finished v c s1 id r blocks Hc Hr Hfin) as (s2 & Hu & _ & _ & _ & Hk2).
  { rewrite Hkv. apply laws. }
  rewrite bool_decide_true, Hkv in Hk2 by done. exists s2. split; [exact Hu|].
  assert (Hheld : forall i b, held_blocks v c s id !! i = Some b -> b ∈ inv ->
            r_num_computed_tokens r <= Z.of_nat i * sc_block_size c).
  { intros i b. by apply (sole_holder_rolls_back v c inv s s1 id r i b Hq Hfirst Hid Hsole Hr). }
  assert (Hmin : forall i b, blocks !! i = Some b -> b ∈ inv -> r_num_computed_tokens r / sc_block_size c <= Z.of_nat i).
  { intros i b. by apply failed_beyond. }
  pose proof Hinv as (b0 & Hin0 & Hb0)%Exists_exists.
  assert (Hin0' : b0 ∈ blocks).
  { unfold held_blocks in Hin0. destruct (heap s !! id); [|by apply elem_of_nil in Hin0].
    rewrite (law_block_ids _ _ _ _ _ _ _ laws) in Hin0. eapply elem_of_take in Hin0 as (j & Hj & _).
    by eapply list_elem_of_lookup_2. }
  apply list_elem_of_lookup in Hin0' as [i0 Hi0]. pose proof (Hmin i0 b0 Hi0 Hb0) as Hle0.
  assert (Hlt0 : Z.of_nat i0 < pylen blocks) by (apply lookup_lt_Some in Hi0; unfold pylen; lia).
  destruct (recovered_view id r n (kv_cache_manager s) (kv_cache_manager s2) Hbs Hn Hhash Hcomp)
    as (_ & _ & _ & Hp); [fold blocks; lia|lia|done|].
  split.
  - intros b (i & Hi)%list_elem_of_lookup Hb. rewrite (Hp i b Hi), (proj2 (Z.ltb_ge _ _)); [done|].
    pose proof (Hmin i b Hi Hb). destruct (Z.ltb_spec (Z.of_nat i) n) as [Hlt|]; [|lia].
    by destruct (Hlocal i b Hi Hlt).
  - intros i b bh Hi Hbh Hlt. rewrite (Hp i b Hi), (proj2 (Z.ltb_lt _ _)), Hbh by lia. done.
Qed.
End recovery.

Module RecoveryDemo.
Import SchedDemo PoolDemo.

Definition breq (id : string) (r : SReq) : BRequest Z :=
  {| b_request_id := id; b_block_hashes := [100; 101; 102]; b_all_token_ids := r_all_token_ids r;
     b_num_tokens := r_num_tokens r; b_num_computed_tokens := r_num_computed_tokens r; b_lora_id := None |}.

(** The scheduler of the demo, on the pool of the demo. *)
Definition vllm_pool : Vllm (POOL * Manager) unit unit unit unit unit := {|
  get_block_ids k id := Ok (blocks_of k.2 id);
  cache_blocks id r n k := (manager_cache_blocks ops true group (breq id r) n k).2;
  kv_free id _ k := (k.1, MkManager (delete id (req_to_blocks k.2)) (delete id (num_cached_block k.2)));
  update_request_with_output r toks := (r, toks, false);
  check_stop r _ _ := (r, false);
  free_request _ := ret None;
  should_advance _ _ _ := false;
  accept_tokens _ _ k := k;
  slice_logprobs l _ _ := l;
  make_spec_decoding_stats s _ _ := s;
  update_from_kv_xfer_finished k := ret tt;
  make_stats _ _ := ret None;
  remove_all l gone := filter (fun id => id ∉ gone) l;
  remove_requests l gone := filter (fun id => id ∉ gone) l |}.

(** "w" loads three blocks, of which 31 fails. *)
Definition state : SchedState (POOL * Manager) :=
  Sched {["w" := req WAITING_FOR_REMOTE_KVS 0 0]} {["w"]} ["w"] [] {["w"]} ∅ None (Some ∅)
    (MkPool ∅ [] [], MkManager {["w" := [30; 31; 32]]} {["w" := 0]}).

Lemma laws_recovery : ManagerLaws vllm_pool cfg ops true group id breq.
Proof. split; reflexivity. Qed.

Lemma queues_recovery : queues_ok vllm_pool state.
Proof.
  split; [apply NoDup_singleton|]. intros id Hin. apply list_elem_of_singleton in Hin as ->.
  split; by eexists.
Qed.
End RecoveryDemo.
Import RecoveryDemo.

(** Block 30 is cached, 31 is not. *)
Lemma failed_blocks_are_not_cached_witness :
  exists s2, update_waiting_for_remote_kv vllm_pool SchedDemo.cfg "w"
      (handle_invalid_blocks vllm_pool SchedDemo.cfg {[31]} state).2 = (Ok true, s2) /\
    block_hash (kv_cache_manager s2).1 !! 31 = None /\
    block_hash (kv_cache_manager s2).1 !! 30 = Some (100, 0).
Proof.
  assert (Hrun : (handle_invalid_blocks vllm_pool SchedDemo.cfg {[31]} state).1 = Ok ∅) by (vm_compute; reflexivity).
  set (s1 := (handle_invalid_blocks vllm_pool SchedDemo.cfg {[31]} state).2).
  assert (Hfin : "w"%string ∈ finished_recving_kv_req_ids s1).
  { apply (bool_decide_unpack ("w"%string ∈ finished_recving_kv_req_ids s1)). by vm_compute. }
  assert (Hheap : heap s1 !! "w"%string = Some (with_computed 2 (SchedDemo.req WAITING_FOR_REMOTE_KVS 0 0))) by (by vm_compute).
  apply run_ok in Hrun. fold s1 in Hrun. clearbody s1.
  destruct (failed_blocks_are_not_cached vllm_pool SchedDemo.cfg {[31]} PoolDemo.ops true PoolDemo.group id breq
    (fun _ _ => eq_refl) laws_recovery state s1 ∅ "w" (with_computed 2 (SchedDemo.req WAITING_FOR_REMOTE_KVS 0 0)) 0)
    as (s2 & Hu & Hfailed & Hkept).
  - reflexivity.
  - exact queues_recovery.
  - reflexivity.
  - exact Hrun.
  - apply (bool_decide_unpack ("w"%string ∈ loading state)). by vm_compute.
  - exact Hfin.
  - intros id' b Hin Hne. apply list_elem_of_filter in Hin as [_ Hin]. apply list_elem_of_singleton in Hin. congruence.
  - assert (Hh : held_blocks vllm_pool SchedDemo.cfg state "w" = [30; 31; 32]) by (vm_compute; reflexivity).
    rewrite Hh. apply Exists_cons_tl, Exists_cons_hd. by apply elem_of_singleton.
  - exact Hheap.
  - discriminate.
  - reflexivity.
  - split; [vm_compute; by split|]. split; [by vm_compute|]. split.
    + apply (bool_decide_unpack (NoDup (blocks_of (kv_cache_manager state).2 "w"))). by vm_compute.
    + intros i b _. rewrite (proj2 (Z.ltb_ge _ _)) by lia. apply lookup_empty.
  - intros i b _ Hlt. lia.
  - by vm_compute.
  - exists s2. split; [exact Hu|]. split.
    + apply (Hfailed 31); [|by apply elem_of_singleton].
      apply (bool_decide_unpack (31 ∈ blocks_of (kv_cache_manager state).2 "w")). by vm_compute.
    + apply (Hkept 0%nat 30 100); [reflexivity|reflexivity|by vm_compute].
Defined.
