(* ===== verification/GsaStat.v ===== *)
(** * Gathered sparse attention: the state of the requests
    (ucm/sparse/utils.py and ucm/sparse/gsa/gsa.py: [GSAReqStat], [GSAMetaData],
    [TopKAndKpreManger] and the methods of [GSA] that drive them)

    The worker keeps, per request, its blocks and the rows of the cache of
    representative keys its blocks own, the masks of the blocks the top-k
    selection must take, and the blocks whose representatives the next step
    computes.  The rows are cut into slots, one per request, that the manager
    hands out.  Tensors are lists. *)

From S2P Require Import Prelude.
Local Open Scope Z_scope.
Local Open Scope py_scope.

(** ** Configuration (ucm/sparse/utils.py) *)

Definition DEFAULT_BLOCK_SIZE : Z := 128.
Definition MIN_TOPK_LEN : Z := 32.
Definition MAX_TOPK_LEN : Z := 48.
Definition MAX_BS : Z := 256.
Definition SEG_PREFILL_THRESHOLD : Z := 8400.
Definition CUDA_TOPK : bool := false.
Definition PTOPK_PREFETCH_ENABLE : bool := false.
Definition INIT_WINDOW_SZ : Z := 1.
Definition NUM_PREFETCH_BLOCKS : Z := 1.
Definition NUM_GSA_BLOCKS : Z := 1.

Record GSAConfig := {
  gc_block_size : Z;
  init_windows_size : Z;
  num_prefetch_blocks : Z;
  min_topk_len : Z;
  max_topk_len : Z;
  (** only set by [set_config] *)
  num_gsa_blocks : option Z;
}.

Definition new_GSAConfig : GSAConfig :=
  {| gc_block_size := DEFAULT_BLOCK_SIZE; init_windows_size := INIT_WINDOW_SZ;
     num_prefetch_blocks := NUM_PREFETCH_BLOCKS; min_topk_len := MIN_TOPK_LEN;
     max_topk_len := MAX_TOPK_LEN; num_gsa_blocks := None |}.

(** The quotients of these small numbers are exact enough in binary64 for
    [math.ceil] to be the ceiling of the quotient. *)
Definition set_config (block_size : Z) : res GSAConfig :=
  if block_size =? 0 then Err ZeroDivisionError
  else
    let scaled x := cdiv (x * DEFAULT_BLOCK_SIZE) block_size in
    Ok {| gc_block_size := block_size; init_windows_size := scaled INIT_WINDOW_SZ;
          num_prefetch_blocks := scaled NUM_PREFETCH_BLOCKS; min_topk_len := scaled MIN_TOPK_LEN;
          max_topk_len := scaled MAX_TOPK_LEN; num_gsa_blocks := Some (scaled NUM_GSA_BLOCKS) |}.

(** The literal [0.3]. *)
Definition topk_ratio : float := SpecFloat.S754_finite false 5404319552844595 (-54).

Definition compute_topk_len (c : GSAConfig) (raw_seq_len : Z) : res Z :=
  let? topk_len := ceil_of_float (float_mul (float_of_Z raw_seq_len) topk_ratio) in
  Ok (if topk_len <? min_topk_len c then Z.min (min_topk_len c) raw_seq_len
      else if max_topk_len c <? topk_len then max_topk_len c
      else topk_len).

(** ** The state of a request *)

Inductive SequenceStage := PREFILL | DECODE.
#[global] Instance stage_eq_dec : EqDecision SequenceStage.
Proof. solve_decision. Defined.

(** The numbers the scheduler gives of a request at each step. *)
Record Progress := {
  num_computed_tokens : Z;
  num_scheduled_tokens : Z;
  num_prompt_tokens : Z;
  num_output_tokens : Z;
  index_in_batch : Z;
}.

(** The rows of representatives and what the step computes of them. *)
Record Slots := {
  repre_slot_mapping : list Z;
  calc_block_table : list Z;
  calc_repre_slot_mapping : list Z;
  include_mask : list bool;
  exclude_mask : list bool;
}.

(** [topk_buf_tmp] has a row per layer; the two maps have an entry per layer. *)
Record GSAReqStat (H : Type) := {
  blocks : list Z;
  progress : Progress;
  slots : Slots;
  is_use_gsa : bool;
  remain_idx : option (list Z);
  prefetch_idx : option (list Z);
  sparse_len : Z;
  topk_buf_tmp : option (list (list Z));
  reamin_map : option (list (option (list (Z * Z))));
  prefetch_map : option (list (option (list (Z * Z))));
  block_hashes : option (list H);
  num_prompt_blocks : Z;
}.
Arguments blocks {H} _.
Arguments progress {H} _.
Arguments slots {H} _.
Arguments is_use_gsa {H} _.
Arguments remain_idx {H} _.
Arguments prefetch_idx {H} _.
Arguments sparse_len {H} _.
Arguments topk_buf_tmp {H} _.
Arguments reamin_map {H} _.
Arguments prefetch_map {H} _.
Arguments block_hashes {H} _.
Arguments num_prompt_blocks {H} _.

(** vLLM's [CachedRequestState], as far as it is read. *)
Record CachedRequestState := {
  c_block_ids : list (list Z);
  c_num_computed_tokens : Z;
  c_prompt_token_ids : list Z;
  c_output_token_ids : list Z;
}.

Section stat.
Context {H : Type}.
Abbreviation STAT := (GSAReqStat H).
Implicit Types st : STAT.

Definition with_blocks b st : STAT :=
  {| blocks := b; progress := progress st; slots := slots st; is_use_gsa := is_use_gsa st;
     remain_idx := remain_idx st; prefetch_idx := prefetch_idx st; sparse_len := sparse_len st;
     topk_buf_tmp := topk_buf_tmp st; reamin_map := reamin_map st; prefetch_map := prefetch_map st;
     block_hashes := block_hashes st; num_prompt_blocks := num_prompt_blocks st |}.
Definition with_progress p st : STAT :=
  {| blocks := blocks st; progress := p; slots := slots st; is_use_gsa := is_use_gsa st;
     remain_idx := remain_idx st; prefetch_idx := prefetch_idx st; sparse_len := sparse_len st;
     topk_buf_tmp := topk_buf_tmp st; reamin_map := reamin_map st; prefetch_map := prefetch_map st;
     block_hashes := block_hashes st; num_prompt_blocks := num_prompt_blocks st |}.
Definition with_slots sl st : STAT :=
  {| blocks := blocks st; progress := progress st; slots := sl; is_use_gsa := is_use_gsa st;
     remain_idx := remain_idx st; prefetch_idx := prefetch_idx st; sparse_len := sparse_len st;
     topk_buf_tmp := topk_buf_tmp st; reamin_map := reamin_map st; prefetch_map := prefetch_map st;
     block_hashes := block_hashes st; num_prompt_blocks := num_prompt_blocks st |}.
Definition with_idx rem pre st : STAT :=
  {| blocks := blocks st; progress := progress st; slots := slots st; is_use_gsa := is_use_gsa st;
     remain_idx := rem; prefetch_idx := pre; sparse_len := sparse_len st;
     topk_buf_tmp := topk_buf_tmp st; reamin_map := reamin_map st; prefetch_map := prefetch_map st;
     block_hashes := block_hashes st; num_prompt_blocks := num_prompt_blocks st |}.
Definition with_sparse_len n st : STAT :=
  {| blocks := blocks st; progress := progress st; slots := slots st; is_use_gsa := is_use_gsa st;
     remain_idx := remain_idx st; prefetch_idx := prefetch_idx st; sparse_len := n;
     topk_buf_tmp := topk_buf_tmp st; reamin_map := reamin_map st; prefetch_map := prefetch_map st;
     block_hashes := block_hashes st; num_prompt_blocks := num_prompt_blocks st |}.
Definition with_topk_buf t st : STAT :=
  {| blocks := blocks st; progress := progress st; slots := slots st; is_use_gsa := is_use_gsa st;
     remain_idx := remain_idx st; prefetch_idx := prefetch_idx st; sparse_len := sparse_len st;
     topk_buf_tmp := t; reamin_map := reamin_map st; prefetch_map := prefetch_map st;
     block_hashes := block_hashes st; num_prompt_blocks := num_prompt_blocks st |}.
Definition with_maps rm pm st : STAT :=
  {| blocks := blocks st; progress := progress st; slots := slots st; is_use_gsa := is_use_gsa st;
     remain_idx := remain_idx st; prefetch_idx := prefetch_idx st; sparse_len := sparse_len st;
     topk_buf_tmp := topk_buf_tmp st; reamin_map := rm; prefetch_map := pm;
     block_hashes := block_hashes st; num_prompt_blocks := num_prompt_blocks st |}.
Definition with_prompt use n hs st : STAT :=
  {| blocks := blocks st; progress := progress st; slots := slots st; is_use_gsa := use;
     remain_idx := remain_idx st; prefetch_idx := prefetch_idx st; sparse_len := sparse_len st;
     topk_buf_tmp := topk_buf_tmp st; reamin_map := reamin_map st; prefetch_map := prefetch_map st;
     block_hashes := hs; num_prompt_blocks := n |}.

Definition set_calc (table repre : list Z) (sl : Slots) : Slots :=
  {| repre_slot_mapping := repre_slot_mapping sl; calc_block_table := table;
     calc_repre_slot_mapping := repre; include_mask := include_mask sl; exclude_mask := exclude_mask sl |}.
Definition set_repre (l : list Z) (sl : Slots) : Slots :=
  {| repre_slot_mapping := l; calc_block_table := calc_block_table sl;
     calc_repre_slot_mapping := calc_repre_slot_mapping sl; include_mask := include_mask sl;
     exclude_mask := exclude_mask sl |}.

Definition new_GSAReqStat : STAT :=
  {| blocks := []; progress := {| num_computed_tokens := 0; num_scheduled_tokens := 0; num_prompt_tokens := 0;
                                  num_output_tokens := 0; index_in_batch := 0 |};
     slots := {| repre_slot_mapping := []; calc_block_table := []; calc_repre_slot_mapping := [];
                 include_mask := []; exclude_mask := [] |};
     is_use_gsa := false; remain_idx := None; prefetch_idx := None; sparse_len := 0; topk_buf_tmp := None;
     reamin_map := None; prefetch_map := None; block_hashes := None; num_prompt_blocks := 0 |}.

Definition step st : Z := num_output_tokens (progress st).

Definition stage st : SequenceStage :=
  if num_prompt_tokens (progress st) <=? num_computed_tokens (progress st) then DECODE else PREFILL.

Definition is_gsa st : bool :=
  (SEG_PREFILL_THRESHOLD <? num_prompt_tokens (progress st)) && bool_decide (stage st <> PREFILL).

Definition is_last_chunk st : bool :=
  num_computed_tokens (progress st) + num_scheduled_tokens (progress st) =? num_prompt_tokens (progress st).

Definition get_seq_len st : Z := num_computed_tokens (progress st) + num_scheduled_tokens (progress st).
End stat.

(** ** The configuration of the worker, hashing *)

(** [hasher] is the call of [RequestHasher] on a parent and the tokens of a block,
    [rank_hasher] the call of the hasher of the rank on a hash. *)
Record GSAEnv (H : Type) := {
  e_config : GSAConfig;
  e_block_size : Z;
  e_rank : Z;
  e_use_mla : bool;
  e_parent_block_hash : H;
  e_hasher : H -> list Z -> H;
  e_rank_hasher : H -> H;
  e_max_block_len : Z;
}.
Arguments e_config {H} _.
Arguments e_block_size {H} _.
Arguments e_rank {H} _.
Arguments e_use_mla {H} _.
Arguments e_parent_block_hash {H} _.
Arguments e_hasher {H} _ _ _.
Arguments e_rank_hasher {H} _ _.
Arguments e_max_block_len {H} _.

Section ops.
Context {H : Type} (env : GSAEnv H).
Abbreviation STAT := (GSAReqStat H).
Implicit Types st : STAT.

(** The loop of [set_block_hashes] over the starts of the blocks: it carries the
    list of hashes and the parent, and stops at a block that is not full. *)
Fixpoint hash_blocks (token_ids starts : list Z) (block_hashes : list H) (parent : H) : list H * H :=
  match starts with
  | [] => (block_hashes, parent)
  | start :: starts' =>
      let block_token_ids := slice token_ids start (start + e_block_size env) in
      if pylen block_token_ids <? e_block_size env then (block_hashes, parent)
      else hash_blocks token_ids starts' block_hashes (e_hasher env parent block_token_ids)
  end.

Definition set_block_hashes (token_ids : list Z) (hashes : option (list H)) : list H :=
  match hashes with
  | Some hs => hs
  | None =>
      let hs := (hash_blocks token_ids (pyrange 0 (pylen token_ids) (e_block_size env)) []
                   (e_parent_block_hash env)).1 in
      if negb (e_rank env =? 0) && negb (e_use_mla env) then e_rank_hasher env <$> hs else hs
  end.

(** The mask of [n] blocks with the first and the last two set. *)
Definition init_mask (n : Z) : res (list bool) :=
  if 2 <? n then
    of_option IndexError
      (m ← py_setitem (py_repeat false n) 0 true; m ← py_setitem m (-1) true; py_setitem m (-2) true)
  else Ok (py_repeat true n).

Definition init_slot (offset : Z) st : res STAT :=
  let repre := (fun x => x + offset) <$> zrange 0 (pylen (blocks st)) in
  let '(table, calc) := if is_last_chunk st then (slice_to (blocks st) (-1), slice_to repre (-1))
                        else (blocks st, repre) in
  let? mask := init_mask (pylen (blocks st)) in
  Ok (with_slots {| repre_slot_mapping := repre; calc_block_table := table; calc_repre_slot_mapping := calc;
                    include_mask := mask; exclude_mask := py_repeat false (pylen (blocks st)) |} st).

(** The body of the loop of [_update_slot]. *)
Definition add_slot (sl : Slots) : res Slots :=
  let? last := py_idx (repre_slot_mapping sl) (-1) in
  let? mask := if 2 <? pylen (include_mask sl)
               then of_option IndexError (py_setitem (include_mask sl) (-2) false)
               else Ok (include_mask sl) in
  Ok {| repre_slot_mapping := repre_slot_mapping sl ++ [last + 1];
        calc_block_table := calc_block_table sl; calc_repre_slot_mapping := calc_repre_slot_mapping sl;
        include_mask := mask ++ [true]; exclude_mask := exclude_mask sl ++ [false] |}.

Fixpoint add_slots (n : nat) (sl : Slots) : res Slots :=
  match n with
  | O => Ok sl
  | S n' => let? sl' := add_slot sl in add_slots n' sl'
  end.

Definition update_slot (add_blocks : list Z) st : res STAT :=
  let? sl := add_slots (length add_blocks) (slots st) in
  let add_len := pylen add_blocks in
  let repre := repre_slot_mapping sl in
  if 0 <? add_len then
    if bool_decide (stage st = PREFILL) then
      if is_last_chunk st
      then Ok (with_slots (set_calc (slice_to add_blocks (-1)) (slice repre (- add_len) (-1)) sl) st)
      else Ok (with_slots (set_calc add_blocks (slice_from repre (- add_len)) sl) st)
    else
      let? b := py_idx (blocks st) (-1) in
      let? r := py_idx repre (-1) in
      Ok (with_slots (set_calc [b] [r] sl) st)
  else Ok (with_slots (set_calc [] [] sl) st).

Definition add_req_new (num_scheduled : Z) (s : CachedRequestState) (index offset : Z) st : res STAT :=
  let? bl := py_idx (c_block_ids s) 0 in
  let n := pylen (c_prompt_token_ids s) in
  let st := with_blocks bl (with_progress
              {| num_computed_tokens := c_num_computed_tokens s; num_scheduled_tokens := num_scheduled;
                 num_prompt_tokens := n; num_output_tokens := pylen (c_output_token_ids s);
                 index_in_batch := index |} st) in
  let? st := init_slot offset (with_prompt (SEG_PREFILL_THRESHOLD <? n) (cdiv n (e_block_size env)) (block_hashes st) st) in
  let st := if pylen (blocks st) <? pylen (repre_slot_mapping (slots st))
            then with_slots (set_repre (slice_to (repre_slot_mapping (slots st)) (pylen (blocks st))) (slots st)) st
            else st in
  Ok (with_prompt (is_use_gsa st) (num_prompt_blocks st)
        (Some (set_block_hashes (c_prompt_token_ids s) (block_hashes st))) st).

Definition get_sparse_and_free_block st : res STAT :=
  if negb (num_prompt_tokens (progress st) =? num_computed_tokens (progress st)) then Ok (with_idx None None st)
  else
    let blocks_len := pylen (blocks st) in
    let all := with_sparse_len blocks_len (with_idx (Some (zrange 0 blocks_len)) (Some []) st) in
    if (SEG_PREFILL_THRESHOLD <? num_prompt_tokens (progress st)) && PTOPK_PREFETCH_ENABLE then
      let? remain_len := compute_topk_len (e_config env) blocks_len in
      if remain_len <? blocks_len then
        let prefetch_len := Z.min (num_prefetch_blocks (e_config env)) (blocks_len - remain_len) in
        let l := zrange 0 blocks_len in
        let w := init_windows_size (e_config env) in
        Ok (with_sparse_len (remain_len + prefetch_len)
              (with_idx (Some (slice_to l w ++ slice_from l (w - remain_len)))
                        (Some (slice l (w - remain_len - prefetch_len) (w - remain_len))) st))
      else Ok all
    else Ok all.

Definition updata_req_state (num_scheduled : Z) (s : CachedRequestState) (index : Z) st : res STAT :=
  let p := {| num_computed_tokens := c_num_computed_tokens s; num_scheduled_tokens := num_scheduled;
              num_prompt_tokens := num_prompt_tokens (progress st);
              num_output_tokens := pylen (c_output_token_ids s); index_in_batch := index |} in
  let st := with_progress p st in
  let? bl := py_idx (c_block_ids s) 0 in
  let? st :=
    if bool_decide (stage st = PREFILL) then
      let add_blocks := filter (fun x => x ∉ blocks st) bl in
      update_slot add_blocks (with_blocks bl st)
    else
      let? st := get_sparse_and_free_block st in
      if negb (pylen bl =? sparse_len st) then
        let? b := py_idx bl (-1) in
        update_slot [b] (with_sparse_len (pylen bl) (with_blocks (blocks st ++ [b]) st))
      else Ok (with_slots (set_calc [] [] (slots st)) st) in
  if pylen (blocks st) <? pylen (repre_slot_mapping (slots st)) then
    Ok (with_topk_buf None
          (with_slots (set_repre (slice_to (repre_slot_mapping (slots st)) (pylen (blocks st))) (slots st)) st))
  else Ok st.

End ops.

(** ** The slots of the cache of representatives *)

Record TopKAndKpreManger := {
  cache_map : list (string * Z);
  max_num : Z;
  free_cache : list Z;
}.

Definition new_TopKAndKpreManger (n : Z) : TopKAndKpreManger :=
  {| cache_map := []; max_num := n; free_cache := zrange 0 n |}.

Definition kpre_free (req_id : string) : M TopKAndKpreManger bool :=
  let! m := get in
  let! slot := lift_res (of_option KeyError (od_get req_id (cache_map m))) in
  if mem slot (free_cache m) then ret false
  else
    do! modify (fun m => {| cache_map := od_del req_id (cache_map m); max_num := max_num m;
                            free_cache := free_cache m ++ [slot] |}) in
    ret true.

Definition kpre_alloc (req_id : string) : M TopKAndKpreManger (option Z) :=
  let! m := get in
  match free_cache m with
  | free_index :: rest =>
      do! modify (fun m => {| cache_map := od_set req_id free_index (cache_map m); max_num := max_num m;
                              free_cache := rest |}) in
      ret (Some free_index)
  | [] => ret None
  end.

Definition is_exist (req_id : string) (m : TopKAndKpreManger) : bool := od_mem req_id (cache_map m).

(** ** A step of the worker *)

Record SchedulerOutput := {
  so_cached_req_ids : list string;
  so_resumed_from_preemption : list bool;
  so_new_req_ids : list string;
  (** in order *)
  so_num_scheduled_tokens : list (string * Z);
}.

(** The requests and the batch of the model runner. *)
Record Batch := {
  b_requests : gmap string CachedRequestState;
  b_req_id_to_index : list (string * Z);
  b_req_ids : list string;
}.

(** The tables of [GSAPrefetchBase] that have an entry per request. *)
Record EngineTables := {
  block_map_flag : gmap string (list (Z * Z));
  block_table_flag : gmap string (list Z);
  is_gsa_req_id : gmap string bool;
}.

Record ModelInput := {
  mi_calc_block_table : list Z;
  mi_calc_repre_slot_mapping : list Z;
  query_locals : list Z;
  query_locals_prefill : option (list Z);
}.

Record GSAWorker (H : Type) := {
  topk_kpre_manger : TopKAndKpreManger;
  gsa_stats : list (string * GSAReqStat H);
  tables : EngineTables;
  model_input : option ModelInput;
  decode_index : list Z;
}.
Arguments topk_kpre_manger {H} _.
Arguments gsa_stats {H} _.
Arguments tables {H} _.
Arguments model_input {H} _.
Arguments decode_index {H} _.

Section worker.
Context {H : Type} (env : GSAEnv H).
Abbreviation STAT := (GSAReqStat H).
Abbreviation ST := (GSAWorker H).

Definition put_manger (m : TopKAndKpreManger) (s : ST) : ST :=
  {| topk_kpre_manger := m; gsa_stats := gsa_stats s; tables := tables s; model_input := model_input s;
     decode_index := decode_index s |}.
Definition put_stats (l : list (string * STAT)) (s : ST) : ST :=
  {| topk_kpre_manger := topk_kpre_manger s; gsa_stats := l; tables := tables s; model_input := model_input s;
     decode_index := decode_index s |}.
Definition put_tables (t : EngineTables) (s : ST) : ST :=
  {| topk_kpre_manger := topk_kpre_manger s; gsa_stats := gsa_stats s; tables := t; model_input := model_input s;
     decode_index := decode_index s |}.
Definition put_input (mi : option ModelInput) (s : ST) : ST :=
  {| topk_kpre_manger := topk_kpre_manger s; gsa_stats := gsa_stats s; tables := tables s; model_input := mi;
     decode_index := decode_index s |}.
Definition put_decode_index (l : list Z) (s : ST) : ST :=
  {| topk_kpre_manger := topk_kpre_manger s; gsa_stats := gsa_stats s; tables := tables s;
     model_input := model_input s; decode_index := l |}.

(** The entries of the request; the C++ engine is told with [flag] when the
    prefetch is on. *)
Definition del_tables (id : string) (t : EngineTables) : EngineTables :=
  {| block_map_flag := delete id (block_map_flag t); block_table_flag := delete id (block_table_flag t);
     is_gsa_req_id := delete id (is_gsa_req_id t) |}.
Definition del_finish_meta (id : string) (s : ST) : ST := put_tables (del_tables id (tables s)) s.

Definition key {A} (id : string) (l : list (string * A)) : M ST A := lift_res (of_option KeyError (od_get id l)).
Definition stat_of (id : string) : M ST STAT := let! l := gets gsa_stats in key id l.
Definition put_stat (id : string) (st : STAT) : M ST unit := modify (fun s => put_stats (od_set id st (gsa_stats s)) s).

(** [GSAReqStat(...).add_req_new(...)] at the request's slot. *)
Definition enter_new (out : SchedulerOutput) (b : Batch) (id : string) : M ST unit :=
  do! put_stat id new_GSAReqStat in
  let! n := key id (so_num_scheduled_tokens out) in
  let! r := lift_res (of_option KeyError (b_requests b !! id)) in
  let! index := key id (b_req_id_to_index b) in
  let! m := gets topk_kpre_manger in
  let! slot := key id (cache_map m) in
  let! st := stat_of id in
  let! st' := lift_res (add_req_new env n r index (e_max_block_len env * slot) st) in
  put_stat id st'.

Definition update_cached (out : SchedulerOutput) (b : Batch) (ix : Z * string) : M ST unit :=
  let '(index, id) := ix in
  let! stats := gets gsa_stats in
  do! py_assert (od_mem id stats) in
  let! resumed := lift_res (py_idx (so_resumed_from_preemption out) index) in
  if resumed : bool then
    do! modify (fun s => put_stats (od_del id (gsa_stats s)) s) in
    do! modify (del_finish_meta id) in
    enter_new out b id
  else
    let! n := key id (so_num_scheduled_tokens out) in
    let! r := lift_res (of_option KeyError (b_requests b !! id)) in
    let! i := key id (b_req_id_to_index b) in
    let! st := stat_of id in
    let! st' := lift_res (updata_req_state env n r i st) in
    put_stat id st'.

Definition update_new (out : SchedulerOutput) (b : Batch) (id : string) : M ST unit :=
  let! stats := gets gsa_stats in
  do! (if od_mem id stats then modify (fun s => put_stats (od_del id (gsa_stats s)) s) else ret tt) in
  enter_new out b id.

(** The lists the loop of [trans_input_tensor] fills. *)
Definition trans_request (acc : list Z * list Z * list Z * list Z) (e : string * Z)
    : M ST (list Z * list Z * list Z * list Z) :=
  let '(table, repre, locals, prefill) := acc in
  let '(id, num_tokens) := e in
  let! st := stat_of id in
  let i := index_in_batch (progress st) in
  let! locals' := lift_res (of_option IndexError (py_setitem locals (i + 1) num_tokens)) in
  let! prefill' :=
    if e_use_mla env && bool_decide (stage st = PREFILL)
    then lift_res (of_option IndexError (py_setitem prefill (i + 1) num_tokens)) else ret prefill in
  ret (table ++ calc_block_table (slots st), repre ++ calc_repre_slot_mapping (slots st), locals', prefill').

Definition trans_input_tensor (out : SchedulerOutput) : M ST ModelInput :=
  let zeros := py_repeat 0 (pylen (so_num_scheduled_tokens out) + 1) in
  let! ' (table, repre, locals, prefill) :=
    for_acc (so_num_scheduled_tokens out) ([], [], zeros, zeros) trans_request in
  ret {| mi_calc_block_table := table; mi_calc_repre_slot_mapping := repre; query_locals := accumulate locals;
         query_locals_prefill := if e_use_mla env then Some (accumulate prefill) else None |}.

Definition get_model_input (out : SchedulerOutput) (b : Batch) : M ST ModelInput :=
  do! for_ (enumerate (so_cached_req_ids out)) (update_cached out b) in
  do! for_ (so_new_req_ids out) (update_new out b) in
  trans_input_tensor out.

Definition ensure_slot (id : string) : M ST unit :=
  let! m := gets topk_kpre_manger in
  if is_exist id m then ret tt
  else
    let! index := zoom topk_kpre_manger put_manger (kpre_alloc id) in
    py_assert (match index with Some _ => true | None => false end).

(** The metadata object shares [self.gsa_stats]: it has no state of its own. *)
Definition build_gsa_metadata (out : SchedulerOutput) (b : Batch) : M ST unit :=
  do! for_ (od_keys (so_num_scheduled_tokens out)) ensure_slot in
  let! mi := get_model_input out b in
  modify (put_input (Some mi)).

Definition build_sparse_meta (out : SchedulerOutput) (b : Batch) : M ST unit :=
  do! build_gsa_metadata out b in
  let! idx := map_m (fun id => key id (b_req_id_to_index b))
                (filter (fun id => default 0 (od_get id (so_num_scheduled_tokens out)) = 1) (b_req_ids b)) in
  modify (put_decode_index idx).

Definition request_finished_in_worker (id : string) : M ST unit :=
  let! m := gets topk_kpre_manger in
  do! (if is_exist id m then do! zoom topk_kpre_manger put_manger (kpre_free id) in ret tt else ret tt) in
  do! modify (fun s => put_stats (od_del id (gsa_stats s)) s) in
  modify (del_finish_meta id).

Definition new_GSA : ST :=
  {| topk_kpre_manger := new_TopKAndKpreManger MAX_BS; gsa_stats := [];
     tables := {| block_map_flag := ∅; block_table_flag := ∅; is_gsa_req_id := ∅ |};
     model_input := None; decode_index := [] |}.
End worker.

(** ** The rows of a request *)
Section rows.
Context {H : Type} (env : GSAEnv H).
Abbreviation STAT := (GSAReqStat H).
Implicit Types st : STAT.

(** The blocks of the request own consecutive rows from [o] on. *)
Definition rows (o : Z) st : Prop :=
  repre_slot_mapping (slots st) = zrange o (o + pylen (blocks st)).

Lemma fmap_add_zrange o n : (fun x => x + o) <$> zrange 0 n = zrange o (o + n).
Proof.
  unfold zrange. rewrite <- list_fmap_compose. replace (o + n - o) with (n - 0) by lia.
  apply list_fmap_ext. intros _ i _. unfold compose. lia.
Qed.

Lemma take_zrange o n k : 0 <= k <= n -> take (Z.to_nat k) (zrange o (o + n)) = zrange o (o + k).
Proof.
  intros Hk. rewrite (zrange_app o (o + k) (o + n)) by lia. rewrite take_app_length'; [done|].
  rewrite length_zrange. lia.
Qed.

Lemma py_idx_last {A} (l : list A) x : py_idx l (-1) = Ok x -> exists l', l = l' ++ [x].
Proof.
  unfold py_idx, py_nth. change (-1 <? 0) with true. cbv iota. destruct l as [|y l _] using rev_ind; [done|]. intros Hx.
  exists l. f_equal. rewrite pylen_app in Hx. change (pylen [y]) with 1 in Hx.
  pose proof (pylen_nonneg l). rewrite (proj2 (Z.ltb_ge _ _)) in Hx by lia.
  unfold pylen in Hx. replace (Z.to_nat (Z.of_nat (length l) + 1 + -1)) with (length l) in Hx by lia.
  rewrite list_lookup_middle in Hx by done. cbn in Hx. congruence.
Qed.

Lemma add_slots_rows n sl sl' o k :
  0 <= k -> repre_slot_mapping sl = zrange o (o + k) -> add_slots n sl = Ok sl' ->
  repre_slot_mapping sl' = zrange o (o + k + Z.of_nat n).
Proof.
  revert sl k. induction n as [|n IH]; intros sl k Hk Hsl Hr; cbn [add_slots] in Hr.
  - injection Hr as <-. rewrite Hsl. f_equal. lia.
  - destruct (add_slot sl) as [sl1|] eqn:H1; [|done].
    assert (Hsl1 : repre_slot_mapping sl1 = zrange o (o + (k + 1))).
    { unfold add_slot in H1. destruct (py_idx (repre_slot_mapping sl) (-1)) as [x|] eqn:Hx; [|done].
      pose proof (py_idx_last _ _ Hx) as [l' Hl']. destruct (if 2 <? _ then _ else _) as [mask|]; [|done]. injection H1 as <-. cbn.
      assert (0 < k).
      { destruct (decide (k = 0)) as [->|]; [|lia]. rewrite Hsl, zrange_nil in Hl' by lia. by destruct l'. }
      assert (x = o + k - 1) as ->.
      { rewrite Hsl in Hx. replace (o + k) with (o + (k - 1) + 1) in Hx by lia.
        rewrite <- zrange_snoc, py_idx_snoc in Hx by lia. injection Hx as <-. lia. }
      rewrite Hsl. replace (o + k - 1 + 1) with (o + k) by lia. rewrite zrange_snoc by lia. f_equal. lia. }
    rewrite (IH sl1 (k + 1)) by (lia || done). f_equal. lia.
Qed.

Lemma update_slot_rows bs st st' o :
  repre_slot_mapping (slots st) = zrange o (o + pylen (repre_slot_mapping (slots st))) ->
  update_slot bs st = Ok st' ->
  blocks st' = blocks st /\
  repre_slot_mapping (slots st') = zrange o (o + pylen (repre_slot_mapping (slots st)) + pylen bs).
Proof.
  intros Hst Hr. unfold update_slot in Hr. destruct (add_slots (length bs) (slots st)) as [sl|] eqn:Hsl; [|done].
  pose proof (add_slots_rows _ _ _ _ _ (pylen_nonneg _) Hst Hsl) as Hrows. fold (pylen bs) in Hrows.
  repeat (case_match; try done); by injection Hr as <-.
Qed.

(** [add_blocks] has every new block of the table. *)
Lemma filter_new_length (old bl : list Z) :
  NoDup bl -> pylen bl <= pylen old + pylen (filter (fun x => x ∉ old) bl).
Proof.
  intros Hnd. unfold pylen.
  assert (Hsub : (length (filter (fun x => x ∈ old) bl) <= length old)%nat).
  { apply submseteq_length, NoDup_submseteq; [by apply NoDup_filter|]. intros x Hx. by apply list_elem_of_filter in Hx as []. }
  assert (Hsplit : length bl = (length (filter (fun x => x ∈ old) bl) + length (filter (fun x => x ∉ old) bl))%nat).
  { clear. induction bl as [|x bl IH]; [done|]. rewrite !filter_cons. cbn.
    destruct (decide (x ∈ old)), (decide (x ∉ old)); try tauto; cbn; lia. }
  lia.
Qed.

(** Cutting the rows to the blocks. *)
Definition trim st : STAT :=
  if pylen (blocks st) <? pylen (repre_slot_mapping (slots st))
  then with_topk_buf None
         (with_slots (set_repre (slice_to (repre_slot_mapping (slots st)) (pylen (blocks st))) (slots st)) st)
  else st.

Lemma trim_rows st o k :
  repre_slot_mapping (slots st) = zrange o (o + k) -> pylen (blocks st) <= k -> rows o (trim st).
Proof.
  intros Hr Hk. unfold trim, rows. pose proof (pylen_nonneg (blocks st)).
  rewrite Hr, pylen_zrange by lia. destruct (Z.ltb_spec (pylen (blocks st)) (o + k - o)) as [Hlt|Hge]; cbn.
  - rewrite slice_to_take by lia. by apply take_zrange.
  - rewrite Hr. f_equal. lia.
Qed.

Lemma get_sparse_and_free_block_kept st st' :
  get_sparse_and_free_block env st = Ok st' ->
  blocks st' = blocks st /\ slots st' = slots st /\ progress st' = progress st.
Proof. unfold get_sparse_and_free_block. intros Hr. repeat (case_match; try done); by injection Hr as <-. Qed.

Lemma updata_req_state_rows n s i st st' o bl :
  rows o st -> c_block_ids s !! 0%nat = Some bl -> NoDup bl ->
  updata_req_state env n s i st = Ok st' -> rows o st'.
Proof.
  intros Hst Hbl Hnd Hr. unfold updata_req_state in Hr.
  set (st1 := with_progress _ st) in *. assert (Hst1 : rows o st1) by exact Hst. clearbody st1. clear Hst.
  assert (Hidx : py_idx (c_block_ids s) 0 = Ok bl) by (unfold py_idx; rewrite py_nth_nonneg by lia; change (Z.to_nat 0) with O; by rewrite Hbl).
  rewrite Hidx in Hr.
  assert (Hlen : repre_slot_mapping (slots st1) = zrange o (o + pylen (repre_slot_mapping (slots st1)))).
  { unfold rows in Hst1. rewrite Hst1 at 2. pose proof (pylen_nonneg (blocks st1)). rewrite pylen_zrange by lia.
    rewrite Hst1. f_equal. lia. }
  assert (Hblen : pylen (repre_slot_mapping (slots st1)) = pylen (blocks st1)).
  { rewrite Hst1. pose proof (pylen_nonneg (blocks st1)). rewrite pylen_zrange by lia. lia. }
  assert (Htrim : forall st2 k, Ok (trim st2) = Ok st' -> repre_slot_mapping (slots st2) = zrange o (o + k) ->
            pylen (blocks st2) <= k -> rows o st').
  { intros st2 k [= <-] Hrep Hk. by apply trim_rows with k. }
  case_bool_decide as Hstage.
  - destruct (update_slot _ _) as [st2|] eqn:Hup; [|done].
    apply (update_slot_rows _ (with_blocks bl st1) st2 o Hlen) in Hup as [Hb2 Hr2]. cbn in Hb2, Hr2.
    apply (Htrim st2 (pylen (blocks st1) + pylen (filter (fun x => x ∉ blocks st1) bl))).
    + unfold trim. by destruct (_ <? _).
    + rewrite Hr2, Hblen. f_equal. lia.
    + rewrite Hb2. by apply filter_new_length.
  - destruct (get_sparse_and_free_block env st1) as [st2|] eqn:Hg; [|done].
    apply get_sparse_and_free_block_kept in Hg as (Hb2 & Hs2 & _).
    destruct (negb (pylen bl =? sparse_len st2)).
    + destruct (py_idx bl (-1)) as [b|]; [|done].
      set (st3 := with_sparse_len _ _) in *.
      assert (Hrep3 : slots st3 = slots st1) by exact Hs2. assert (Hb3 : blocks st3 = blocks st1 ++ [b]) by (cbn; by rewrite Hb2).
      clearbody st3. rewrite <- Hrep3 in Hlen, Hblen.
      destruct (update_slot [b] st3) as [st4|] eqn:Hup; [|done].
      apply (update_slot_rows _ _ _ o Hlen) in Hup as [Hb4 Hr4].
      apply (Htrim st4 (pylen (blocks st1) + 1)).
      * unfold trim. by destruct (_ <? _).
      * rewrite Hr4, Hblen. change (pylen [b]) with 1. f_equal. lia.
      * rewrite Hb4, Hb3, pylen_app. done.
    + apply (Htrim (with_slots (set_calc [] [] (slots st2)) st2) (pylen (blocks st1))).
      * unfold trim. by destruct (_ <? _).
      * cbn. rewrite Hs2. exact Hst1.
      * cbn. rewrite Hb2. lia.
Qed.

Lemma add_req_new_rows n s i o st st' : add_req_new env n s i o st = Ok st' -> rows o st'.
Proof.
  unfold add_req_new. intros Hr. destruct (py_idx (c_block_ids s) 0) as [bl|]; [|done].
  set (st1 := with_prompt _ _ _ _) in *. clearbody st1.
  destruct (init_slot o st1) as [st2|] eqn:Hi; [|done]. injection Hr as <-.
  assert (Hst2 : rows o st2).
  { unfold init_slot in Hi. pose proof (pylen_nonneg (blocks st1)) as Hn.
    destruct (if is_last_chunk st1 then _ else _) as [table calc]. destruct (init_mask _); [|done].
    injection Hi as <-. unfold rows. cbn. apply fmap_add_zrange. }
  destruct (_ <? _) eqn:Hlt; [|exact Hst2].
  unfold rows. cbn. pose proof (pylen_nonneg (blocks st2)). rewrite slice_to_take, Hst2 by lia. apply take_zrange. lia.
Qed.
End rows.

(** ** The invariant of the worker *)
Section worker_facts.
Context {H : Type} (env : GSAEnv H).
Abbreviation ST := (GSAWorker H).
Implicit Types (s : ST) (m : TopKAndKpreManger) (id : string).

(** Every slot is free or some request's. *)
Definition slots_ok m : Prop :=
  NoDup (od_keys (cache_map m)) /\ free_cache m ++ od_values (cache_map m) ≡ₚ zrange 0 (max_num m).

Definition worker_ok s : Prop :=
  slots_ok (topk_kpre_manger s) /\ max_num (topk_kpre_manger s) = MAX_BS /\ NoDup (od_keys (gsa_stats s)) /\
  forall id st, od_get id (gsa_stats s) = Some st ->
    exists slot, od_get id (cache_map (topk_kpre_manger s)) = Some slot /\ rows (e_max_block_len env * slot) st.

(** The block table of every scheduled request is without repetition. *)
Definition batch_ok (b : Batch) : Prop :=
  forall id r bl, b_requests b !! id = Some r -> c_block_ids r !! 0%nat = Some bl -> NoDup bl.

Lemma kpre_alloc_ok id m o m' :
  slots_ok m -> is_exist id m = false -> kpre_alloc id m = (Ok o, m') ->
  slots_ok m' /\ max_num m' = max_num m /\
  (forall id' x, od_get id' (cache_map m) = Some x -> od_get id' (cache_map m') = Some x) /\
  match o with
  | Some slot => od_get id (cache_map m') = Some slot /\ (slot ∈ free_cache m)
  | None => free_cache m = []
  end.
Proof.
  intros [Hnd Hperm] Hnew Hr.
  assert (Hid : od_get id (cache_map m) = None) by (unfold is_exist, od_mem in Hnew; by destruct (od_get id _)).
  unfold kpre_alloc, get, modify, bind in Hr. destruct (free_cache m) as [|x rest] eqn:Hf; injection Hr as <- <-.
  - split; [by split; [|rewrite Hf]|]. done.
  - unfold slots_ok. cbn. assert (Hin : id ∉ od_keys (cache_map m)) by (by apply od_get_None).
    split; [split; [by apply od_set_NoDup|]|split; [done|split]].
    + rewrite od_set_new by done. unfold od_values in *. rewrite fmap_app. cbn. rewrite <- Hperm. cbn.
      rewrite app_assoc, <- Permutation_middle. by rewrite app_nil_r.
    + intros id' x' Hx. rewrite od_get_set_ne; [done|]. intros ->. congruence.
    + split; [apply od_get_set_eq|left].
Qed.

Lemma kpre_free_ok id m m' b :
  slots_ok m -> kpre_free id m = (Ok b, m') ->
  b = true /\ slots_ok m' /\ max_num m' = max_num m /\ cache_map m' = od_del id (cache_map m).
Proof.
  intros [Hnd Hperm] Hr. unfold kpre_free, get, lift_res, modify, bind in Hr.
  destruct (od_get id (cache_map m)) as [slot|] eqn:Hid; [|done]. cbn in Hr.
  pose proof (od_del_values _ _ _ Hid) as Hdel.
  assert (Hslot : slot ∉ free_cache m).
  { intros Hin. assert (Hall : NoDup (free_cache m ++ od_values (cache_map m))).
    { rewrite Hperm. apply NoDup_fmap_2; [intros ? ? Heq; lia|apply NoDup_seq]. }
    apply NoDup_app in Hall as (_ & Hd & _). apply (Hd slot Hin). rewrite Hdel. by left. }
  rewrite (proj2 (mem_false _ _)) in Hr by done. injection Hr as <- <-.
  split; [done|]. unfold slots_ok. cbn. split; [split; [by apply od_del_NoDup|]|done].
  rewrite <- Hperm, Hdel, <- app_assoc. cbn. done.
Qed.

Lemma enter_new_ok out b id s s' :
  enter_new env out b id s = (Ok tt, s') ->
  exists st slot, od_get id (cache_map (topk_kpre_manger s)) = Some slot /\ rows (e_max_block_len env * slot) st /\
    topk_kpre_manger s' = topk_kpre_manger s /\ gsa_stats s' = od_set id st (od_set id new_GSAReqStat (gsa_stats s)).
Proof.
  unfold enter_new. intros Hr. apply bind_inv_ok in Hr as ([] & s1 & [= <-] & Hr).
  apply bind_inv_ok in Hr as (n & s1 & Hn & Hr). injection Hn as _ <-.
  apply bind_inv_ok in Hr as (r & s1 & Hreq & Hr). injection Hreq as _ <-.
  apply bind_inv_ok in Hr as (i & s1 & Hi & Hr). injection Hi as _ <-.
  apply bind_inv_ok in Hr as (m & s1 & [= <- <-] & Hr).
  apply bind_inv_ok in Hr as (slot & s1 & Hslot & Hr). injection Hslot as Hslot <-.
  apply bind_inv_ok in Hr as (st & s1 & Hst & Hr). unfold stat_of, bind, gets, key, lift_res in Hst.
  cbn in Hst. rewrite od_get_set_eq in Hst. injection Hst as <- <-.
  apply bind_inv_ok in Hr as (st' & s1 & Hadd & Hr). injection Hadd as Hadd <-. injection Hr as <-.
  apply add_req_new_rows in Hadd. cbn in Hslot. destruct (od_get id (cache_map (topk_kpre_manger s))) as [x|] eqn:Hx; [|done].
  injection Hslot as ->. by exists st', slot.
Qed.

Lemma worker_ok_stat s id st slot l :
  worker_ok s -> od_get id (cache_map (topk_kpre_manger s)) = Some slot -> rows (e_max_block_len env * slot) st ->
  NoDup (od_keys l) -> (forall id' st', id' <> id -> od_get id' l = Some st' -> od_get id' (gsa_stats s) = Some st') ->
  worker_ok (put_stats (od_set id st l) s).
Proof.
  intros (Hm & Hmax & Hnd & Hst) Hslot Hrows Hl Hold. split; [done|]. split; [done|]. split; [by apply od_set_NoDup|].
  intros id' st' Hget. cbn in *. rewrite od_get_set in Hget. case_decide as Heq; [|by apply Hst, Hold].
  injection Hget as <-. subst. by exists slot.
Qed.

(** The loops of the step that only read the state. *)
Lemma trans_loop_state l acc s acc' s' : for_acc l acc (trans_request env) s = (Ok acc', s') -> s' = s.
Proof.
  revert acc acc' s'. induction l as [|[id n] l IH]; intros acc acc' s' Hr; [by injection Hr as _ <-|].
  cbn [for_acc] in Hr. apply bind_inv_ok in Hr as (acc1 & s1 & H1 & Hr).
  assert (s1 = s) as ->; [|by eapply IH]. destruct acc as [[[table repre] locals] prefill]. unfold trans_request in H1.
  apply bind_inv_ok in H1 as (st & s2 & Hst & H1). unfold stat_of, bind, gets, key, lift_res in Hst. injection Hst as _ <-.
  apply bind_inv_ok in H1 as (x & s2 & Hx & H1). injection Hx as _ <-.
  apply bind_inv_ok in H1 as (y & s2 & Hy & H1). injection H1 as _ <-.
  destruct (_ && _); [by injection Hy as _ <-|by injection Hy as _ <-].
Qed.

Lemma trans_input_tensor_state out s mi s' : trans_input_tensor env out s = (Ok mi, s') -> s' = s.
Proof.
  unfold trans_input_tensor. intros Hr. apply bind_inv_ok in Hr as ([[[table repre] locals] prefill] & s1 & H1 & Hr).
  apply trans_loop_state in H1 as ->. by injection Hr as _ <-.
Qed.

Lemma map_m_key_state {A} (l : list (string * A)) ids s r s' :
  map_m (fun id => key id l) ids s = (Ok r, s') -> s' = s.
Proof.
  revert r s'. induction ids as [|id ids IH]; intros r s' Hr; [by injection Hr as _ <-|].
  cbn [map_m] in Hr. apply bind_inv_ok in Hr as (y & s1 & Hk & Hr). injection Hk as _ <-.
  apply bind_inv_ok in Hr as (ys & s2 & Hm & Hr). injection Hr as _ <-. by eapply IH.
Qed.

Lemma worker_ok_drop s id : worker_ok s -> worker_ok (put_stats (od_del id (gsa_stats s)) s).
Proof.
  intros (Hm & Hmax & Hnd & Hst). split; [done|]. split; [done|]. split; [by apply od_del_NoDup|].
  intros id' st Hget. cbn in *. destruct (decide (id' = id)) as [->|Hne].
  - by rewrite od_get_del_eq in Hget.
  - rewrite od_get_del_ne in Hget by done. by apply Hst.
Qed.

Lemma enter_new_keeps out b id s s' : worker_ok s -> enter_new env out b id s = (Ok tt, s') -> worker_ok s'.
Proof.
  intros Hs Hr. apply enter_new_ok in Hr as (st & slot & Hslot & Hrows & Hm & Hst).
  assert (Hkeep : worker_ok (put_stats (od_set id st (od_set id new_GSAReqStat (gsa_stats s))) s)).
  { apply (worker_ok_stat s id st slot); [done..| |].
    - apply od_set_NoDup. apply Hs.
    - intros id' st' Hne Hget. by rewrite od_get_set_ne in Hget. }
  unfold worker_ok in *. rewrite Hm, Hst. exact Hkeep.
Qed.

Lemma update_cached_keeps out b ix s s' :
  batch_ok b -> worker_ok s -> update_cached env out b ix s = (Ok tt, s') -> worker_ok s'.
Proof.
  intros Hb Hs Hr. destruct ix as [index id]. unfold update_cached in Hr.
  apply bind_inv_ok in Hr as (stats & s1 & [= <- <-] & Hr).
  apply bind_inv_ok in Hr as ([] & s1 & Ha & Hr).
  assert (s1 = s) as -> by (unfold py_assert in Ha; destruct (od_mem _ _); by injection Ha).
  apply bind_inv_ok in Hr as (resumed & s1 & Hres & Hr). injection Hres as _ <-. destruct resumed.
  - apply bind_inv_ok in Hr as ([] & s1 & [= <-] & Hr). apply bind_inv_ok in Hr as ([] & s1 & [= <-] & Hr).
    apply enter_new_keeps in Hr; [done|]. exact (worker_ok_drop s id Hs).
  - apply bind_inv_ok in Hr as (n & s1 & Hn & Hr). injection Hn as _ <-.
    apply bind_inv_ok in Hr as (r & s1 & Hreq & Hr). injection Hreq as Hreq <-.
    apply bind_inv_ok in Hr as (i & s1 & Hi & Hr). injection Hi as _ <-.
    apply bind_inv_ok in Hr as (st & s1 & Hst & Hr). unfold stat_of, bind, gets, key, lift_res in Hst.
    cbn in Hst. destruct (od_get id (gsa_stats s)) as [st0|] eqn:Hget; [|done]. injection Hst as <- <-.
    apply bind_inv_ok in Hr as (st' & s1 & Hup & Hr). injection Hup as Hup <-. injection Hr as <-.
    destruct (b_requests b !! id) as [r0|] eqn:Hreq0; [|done]. injection Hreq as <-.
    pose proof Hs as (_ & _ & Hnd & Hall). destruct (Hall id st0 Hget) as (slot & Hslot & Hrows).
    apply (worker_ok_stat s id st' slot); [done..| |done|done].
    destruct (c_block_ids r0 !! 0%nat) as [bl|] eqn:Hbl.
    + by eapply updata_req_state_rows; [exact Hrows|exact Hbl|by eapply Hb|exact Hup].
    + exfalso. unfold updata_req_state in Hup.
      assert (Hidx : py_idx (c_block_ids r0) 0 = Err IndexError)
        by (unfold py_idx; rewrite py_nth_nonneg by lia; change (Z.to_nat 0) with O; by rewrite Hbl).
      by rewrite Hidx in Hup.
Qed.

Lemma update_new_keeps out b id s s' : worker_ok s -> update_new env out b id s = (Ok tt, s') -> worker_ok s'.
Proof.
  intros Hs Hr. unfold update_new in Hr. apply bind_inv_ok in Hr as (stats & s1 & [= <- <-] & Hr).
  apply bind_inv_ok in Hr as ([] & s1 & Hd & Hr). apply enter_new_keeps in Hr; [done|].
  destruct (od_mem id (gsa_stats s)); injection Hd as <-; [by apply worker_ok_drop|done].
Qed.

Lemma ensure_slot_keeps id s s' : worker_ok s -> ensure_slot id s = (Ok tt, s') -> worker_ok s'.
Proof.
  intros (Hm & Hmax & Hnd & Hst) Hr. unfold ensure_slot in Hr.
  apply bind_inv_ok in Hr as (m & s1 & [= <- <-] & Hr).
  destruct (is_exist id (topk_kpre_manger s)) eqn:Hex; [by injection Hr as <-|].
  apply bind_inv_ok in Hr as (o & s1 & Hz & Hr). unfold zoom in Hz.
  destruct (kpre_alloc id (topk_kpre_manger s)) as [x m'] eqn:Ha. injection Hz as -> <-.
  assert (put_manger m' s = s') as <- by (unfold py_assert in Hr; destruct o; by injection Hr).
  apply (kpre_alloc_ok id _ _ _ Hm Hex) in Ha as (Hm' & Hmax' & Hold & _).
  split; [done|]. split; [cbn; congruence|]. split; [done|]. intros id' st Hget.
  destruct (Hst id' st Hget) as (slot & Hslot & Hrows). exists slot. split; [by apply Hold|done].
Qed.

Lemma build_sparse_meta_keeps out b s s' :
  batch_ok b -> worker_ok s -> build_sparse_meta env out b s = (Ok tt, s') -> worker_ok s'.
Proof.
  intros Hb Hs Hr. unfold build_sparse_meta, build_gsa_metadata, get_model_input in Hr.
  apply bind_inv_ok in Hr as ([] & s1 & H1 & Hr). apply bind_inv_ok in Hr as (idx & s2 & H2 & Hr).
  apply bind_inv_ok in H1 as ([] & s3 & H3 & H1). apply bind_inv_ok in H1 as (mi & s4 & H4 & H1).
  apply bind_inv_ok in H4 as ([] & s5 & H5 & H4). apply bind_inv_ok in H4 as ([] & s6 & H6 & H4).
  assert (Hs3 : worker_ok s3) by (eapply for_inv_ok; [|exact H3|done]; intros; by eapply ensure_slot_keeps).
  assert (Hs5 : worker_ok s5) by (eapply for_inv_ok; [|exact H5|done]; intros; by eapply update_cached_keeps).
  assert (Hs6 : worker_ok s6) by (eapply for_inv_ok; [|exact H6|done]; intros; by eapply update_new_keeps).
  assert (s4 = s6) as -> by exact (trans_input_tensor_state _ _ _ _ H4).
  injection H1 as <-. assert (s2 = put_input (Some mi) s6) as -> by exact (map_m_key_state _ _ _ _ _ H2).
  injection Hr as <-. exact Hs6.
Qed.

Lemma request_finished_keeps id s : worker_ok s ->
  exists s', request_finished_in_worker id s = (Ok tt, s') /\ worker_ok s' /\
    od_get id (cache_map (topk_kpre_manger s')) = None /\ od_get id (gsa_stats s') = None.
Proof.
  intros (Hm & Hmax & Hnd & Hst). unfold request_finished_in_worker.
  assert (Hfree : exists m', slots_ok m' /\ max_num m' = max_num (topk_kpre_manger s) /\
    cache_map m' = od_del id (cache_map (topk_kpre_manger s)) /\
    (if is_exist id (topk_kpre_manger s)
     then bind (zoom topk_kpre_manger put_manger (kpre_free id)) (fun _ => ret tt) else ret tt) s =
      (Ok tt, put_manger m' s)).
  { destruct (is_exist id (topk_kpre_manger s)) eqn:Hex.
    - unfold is_exist, od_mem in Hex. destruct (od_get id _) as [slot|] eqn:Hid; [|done].
      destruct (kpre_free id (topk_kpre_manger s)) as [[b|e] m'] eqn:Hf.
      + destruct (kpre_free_ok _ _ _ _ Hm Hf) as (-> & Hm' & Hmax' & Hmap). exists m'.
        split; [done|]. split; [done|]. split; [done|]. unfold bind, zoom. by rewrite Hf.
      + exfalso. unfold kpre_free, get, bind, lift_res, modify in Hf. rewrite Hid in Hf. cbn in Hf.
        by destruct (mem slot _).
    - exists (topk_kpre_manger s). unfold is_exist, od_mem in Hex. destruct (od_get id _) eqn:Hid; [done|].
      split; [done|]. split; [done|]. split; [|by destruct s].
      by rewrite od_del_absent. }
  destruct Hfree as (m' & Hm' & Hmax' & Hmap & Hrun). unfold bind at 1, gets. rewrite (bind_ok _ _ _ _ _ Hrun).
  eexists. split; [reflexivity|].
  assert (Hid : od_get id (od_del id (cache_map (topk_kpre_manger s))) = None) by (apply od_get_del_eq, Hm).
  split; [split; [done|split; [cbn; congruence|split; [by apply od_del_NoDup|]]]|].
  - intros id' st Hget. cbn in *. destruct (decide (id' = id)) as [->|Hne].
    { by rewrite od_get_del_eq in Hget. }
    rewrite od_get_del_ne in Hget by done. rewrite Hmap, od_get_del_ne by done. by apply Hst.
  - cbn. rewrite Hmap. split; [done|by apply od_get_del_eq].
Qed.

(** The steps of the worker: a batch, and the end of a request. *)
Inductive gsa_step : ST -> ST -> Prop :=
  | step_batch out b s s' : batch_ok b -> build_sparse_meta env out b s = (Ok tt, s') -> gsa_step s s'
  | step_finished id s s' : request_finished_in_worker id s = (Ok tt, s') -> gsa_step s s'.

Lemma new_GSA_ok : worker_ok new_GSA.
Proof.
  split; [|split; [done|split; [constructor|intros id st Hget; done]]].
  split; [constructor|]. cbn. by rewrite app_nil_r.
Qed.

Lemma reachable_ok s : rtc gsa_step new_GSA s -> worker_ok s.
Proof.
  apply (rtc_ind_r worker_ok); [exact new_GSA_ok|]. intros s1 s2 _ Hstep Hs1.
  destruct Hstep as [out b s1 s2 Hb Hr|id s1 s2 Hf].
  - by eapply build_sparse_meta_keeps.
  - destruct (request_finished_keeps id s1 Hs1) as (s'' & Hr & Hok & _). rewrite Hf in Hr. by injection Hr as <-.
Qed.

(** Requests never share rows of the cache of representatives.  In every state the
    worker reaches by batches and ends of requests, each tracked request owns the rows [max_block_len * slot + i]
    of its blocks [i] and no others, all within the [MAX_BS * max_block_len] rows of the
    cache, and the rows of two requests are disjoint; every slot is free or belongs to one
    request, and the end of a request gives its slot back. *)
Theorem gsa_rows_are_disjoint s id1 id2 st1 st2 :
  0 <= e_max_block_len env -> rtc gsa_step new_GSA s -> id1 <> id2 ->
  od_get id1 (gsa_stats s) = Some st1 -> od_get id2 (gsa_stats s) = Some st2 ->
  pylen (blocks st1) <= e_max_block_len env -> pylen (blocks st2) <= e_max_block_len env ->
  (forall x, x ∈ repre_slot_mapping (slots st1) -> x ∉ repre_slot_mapping (slots st2)) /\
  (forall x, x ∈ repre_slot_mapping (slots st1) -> 0 <= x < MAX_BS * e_max_block_len env) /\
  length (repre_slot_mapping (slots st1)) = length (blocks st1) /\
  pylen (free_cache (topk_kpre_manger s)) + pylen (cache_map (topk_kpre_manger s)) = MAX_BS /\
  (exists s', request_finished_in_worker id1 s = (Ok tt, s') /\
     od_get id1 (cache_map (topk_kpre_manger s')) = None /\
     pylen (free_cache (topk_kpre_manger s')) + pylen (cache_map (topk_kpre_manger s')) = MAX_BS).
Proof.
  intros Hmbl Hreach Hne Hst1 Hst2 Hl1 Hl2. pose proof (reachable_ok s Hreach) as Hok.
  assert (Hcount : forall s', worker_ok s' ->
            pylen (free_cache (topk_kpre_manger s')) + pylen (cache_map (topk_kpre_manger s')) = MAX_BS).
  { intros s' (Hm & Hmax & _). apply proj2, Permutation_length in Hm.
    rewrite length_app, length_zrange, Hmax in Hm. unfold od_values in Hm. rewrite length_fmap in Hm.
    change (Z.to_nat (MAX_BS - 0)) with 256%nat in Hm. unfold pylen, MAX_BS. lia. }
  pose proof Hok as ([Hnd Hperm] & Hmax & _ & Hall).
  destruct (Hall id1 st1 Hst1) as (x1 & Hx1 & Hr1). destruct (Hall id2 st2 Hst2) as (x2 & Hx2 & Hr2).
  assert (Hx1r : 0 <= x1 < MAX_BS).
  { rewrite <- Hmax. apply elem_of_zrange. rewrite <- Hperm. apply elem_of_app. right.
    apply od_get_elem in Hx1. apply list_elem_of_fmap. by exists (id1, x1). }
  assert (Hx12 : x1 <> x2).
  { intros <-. apply Hne. assert (Hndv : NoDup (od_values (cache_map (topk_kpre_manger s)))).
    { assert (Hz : NoDup (zrange 0 (max_num (topk_kpre_manger s))))
        by (apply NoDup_fmap_2; [intros ? ? Heq; lia|apply NoDup_seq]).
      rewrite <- Hperm in Hz. by apply NoDup_app in Hz as (_ & _ & Hz). }
    apply od_get_elem, list_elem_of_lookup in Hx1 as [i1 Hi1]. apply od_get_elem, list_elem_of_lookup in Hx2 as [i2 Hi2].
    assert (i1 = i2) as ->.
    { apply (NoDup_lookup _ _ _ x1 Hndv); unfold od_values; rewrite list_lookup_fmap; [by rewrite Hi1|by rewrite Hi2]. }
    congruence. }
  unfold rows in Hr1, Hr2. rewrite Hr1, Hr2. split; [|split; [|split; [|split; [by apply Hcount|]]]].
  - intros x Hin1 Hin2. rewrite elem_of_zrange in Hin1, Hin2. nia.
  - intros x Hin. rewrite elem_of_zrange in Hin. nia.
  - rewrite length_zrange. unfold pylen. lia.
  - destruct (request_finished_keeps id1 s Hok) as (s' & Hf & Hok' & Hgone & _). exists s'. auto.
Qed.
End worker_facts.
