(* ===== verification/GsaRun.v ===== *)
(** * Gathered sparse attention: a request from its first batch on
    (ucm/sparse/gsa/gsa.py: [GSAReqStat])

    Along the batches of a request, the state kept for it follows its block
    table: each block owns its row, the masks make the selection take the first
    and the last two blocks, and the representatives a step computes go to the
    rows of their blocks. *)

From S2P Require Import Prelude.
From S2P Require Import GsaStat.
Local Open Scope Z_scope.
Local Open Scope py_scope.

(** ** Masks *)

(** The first and the last two of [n] blocks. *)
Definition mask_of (n : Z) : list bool := (fun i => (i =? 0) || (n - 2 <=? i)) <$> zrange 0 n.

Lemma lookup_mask_of n (i : nat) :
  mask_of n !! i = if decide (Z.of_nat i < n) then Some ((Z.of_nat i =? 0) || (n - 2 <=? Z.of_nat i)) else None.
Proof.
  unfold mask_of, zrange. rewrite list_lookup_fmap, list_lookup_fmap. case_decide as Hi.
  - rewrite lookup_seq_lt by lia. cbn. by replace (0 + i)%nat with i by lia.
  - rewrite lookup_seq_ge by lia. done.
Qed.

Lemma pylen_mask_of n : 0 <= n -> pylen (mask_of n) = n.
Proof. intros. unfold mask_of. rewrite pylen_fmap, pylen_zrange; lia. Qed.

Lemma py_setitem_neg {A} (l : list A) i x :
  - pylen l <= i < 0 -> py_setitem l i x = Some (<[Z.to_nat (pylen l + i) := x]> l).
Proof.
  intros Hi. unfold py_setitem. rewrite (proj2 (Z.ltb_lt i 0)) by lia.
  by rewrite (proj2 (Z.ltb_ge _ 0)), (proj2 (Z.leb_gt _ _)) by lia.
Qed.

Lemma init_mask_ok n : 0 <= n -> init_mask n = Ok (mask_of n).
Proof.
  intros Hn. unfold init_mask. destruct (Z.ltb_spec 2 n) as [Hlt|Hge].
  - rewrite py_setitem_ok by (rewrite pylen_repeat; lia). cbn [mbind option_bind].
    assert (Hl : forall (l : list bool) i x, pylen (<[i := x]> l) = pylen l) by (intros; unfold pylen; by rewrite length_insert).
    rewrite py_setitem_neg by (rewrite Hl, pylen_repeat; lia). cbn [mbind option_bind].
    rewrite py_setitem_neg by (rewrite !Hl, pylen_repeat; lia). cbn [of_option]. f_equal.
    rewrite !Hl, pylen_repeat by lia. apply list_eq. intros i. rewrite lookup_mask_of.
    rewrite !list_lookup_insert, !length_insert. unfold py_repeat. rewrite length_replicate.
    destruct (decide (Z.of_nat i < n)) as [Hi|Hi].
    + repeat (case_decide; [f_equal; symmetry; apply orb_true_iff; rewrite ?Z.eqb_eq, ?Z.leb_le; lia|]).
      rewrite lookup_replicate_2 by lia. f_equal. symmetry. apply orb_false_iff.
      rewrite Z.eqb_neq, Z.leb_gt. lia.
    + repeat (case_decide; [lia|]). apply lookup_replicate_None. lia.
  - f_equal. apply list_eq. intros i. rewrite lookup_mask_of. unfold py_repeat. case_decide as Hi.
    + rewrite lookup_replicate_2 by lia. f_equal. symmetry. apply orb_true_iff. rewrite Z.eqb_eq, Z.leb_le. lia.
    + apply lookup_replicate_None. lia.
Qed.

Lemma grow_mask n : 0 <= n ->
  (if 2 <? n then of_option IndexError (py_setitem (mask_of n) (-2) false) else Ok (mask_of n)) =
    Ok (take (Z.to_nat n) (mask_of (n + 1))).
Proof.
  intros Hn. destruct (Z.ltb_spec 2 n) as [Hlt|Hge].
  - rewrite py_setitem_neg by (rewrite pylen_mask_of; lia). cbn [of_option]. f_equal.
    rewrite pylen_mask_of by lia. apply list_eq. intros i.
    rewrite list_lookup_insert. rewrite lookup_mask_of.
    assert (Hlen : length (mask_of n) = Z.to_nat n) by (pose proof (pylen_mask_of n Hn); unfold pylen in *; lia).
    rewrite Hlen. destruct (decide (Z.of_nat i < n)) as [Hi|Hi].
    + rewrite lookup_take_lt, lookup_mask_of, (decide_True (P := Z.of_nat i < n + 1)) by lia. case_decide.
      * f_equal. symmetry. apply orb_false_iff. rewrite Z.eqb_neq, Z.leb_gt. lia.
      * f_equal. f_equal. apply Bool.eq_iff_eq_true. rewrite !Z.leb_le. lia.
    + rewrite lookup_take_ge by lia. rewrite decide_False by lia. done.
  - f_equal. apply list_eq. intros i. rewrite lookup_mask_of. destruct (decide (Z.of_nat i < n)) as [Hi|Hi].
    + rewrite lookup_take_lt, lookup_mask_of, decide_True by lia. f_equal.
      apply Bool.eq_iff_eq_true. rewrite !orb_true_iff, !Z.eqb_eq, !Z.leb_le. lia.
    + by rewrite lookup_take_ge by lia.
Qed.

Lemma mask_of_snoc n : 0 <= n -> take (Z.to_nat n) (mask_of (n + 1)) ++ [true] = mask_of (n + 1).
Proof.
  intros Hn. rewrite <- (take_drop (Z.to_nat n) (mask_of (n + 1))) at 2. f_equal.
  assert (Hlast : mask_of (n + 1) !! Z.to_nat n = Some true).
  { rewrite lookup_mask_of, decide_True by lia. f_equal. apply orb_true_iff. rewrite Z.leb_le. lia. }
  rewrite (drop_S _ _ _ Hlast), drop_ge; [done|].
  pose proof (pylen_mask_of (n + 1)). unfold pylen in *. lia.
Qed.

(** ** Adding rows *)

(** The rows and masks of [n] blocks from row [o] on. *)
Definition rows_of (o n : Z) (sl : Slots) : Prop :=
  repre_slot_mapping sl = zrange o (o + n) /\ include_mask sl = mask_of n /\ exclude_mask sl = py_repeat false n.

Lemma py_idx_zrange_last o n : 0 < n -> py_idx (zrange o (o + n)) (-1) = Ok (o + n - 1).
Proof.
  intros Hn. replace (zrange o (o + n)) with (zrange o (o + (n - 1)) ++ [o + (n - 1)]).
  - rewrite py_idx_snoc. f_equal. lia.
  - rewrite zrange_snoc by lia. f_equal. lia.
Qed.

Lemma add_slot_ok o n sl : 0 < n -> rows_of o n sl ->
  exists sl', add_slot sl = Ok sl' /\ rows_of o (n + 1) sl'.
Proof.
  intros Hn (Hr & Hi & He). unfold add_slot. rewrite Hr, Hi, He.
  rewrite py_idx_zrange_last by lia. rewrite pylen_mask_of, grow_mask by lia. eexists. split; [reflexivity|].
  split; cbn; [|split].
  - replace (o + n - 1 + 1) with (o + n) by lia. rewrite zrange_snoc by lia. f_equal. lia.
  - apply mask_of_snoc. lia.
  - unfold py_repeat. replace (Z.to_nat (n + 1)) with (Z.to_nat n + 1)%nat by lia. by rewrite replicate_add.
Qed.

Lemma add_slots_ok k o n sl : (k = 0%nat \/ 0 < n) -> rows_of o n sl ->
  exists sl', add_slots k sl = Ok sl' /\ rows_of o (n + Z.of_nat k) sl'.
Proof.
  revert n sl. induction k as [|k IH]; intros n sl Hn Hsl.
  - exists sl. split; [done|]. by replace (n + Z.of_nat 0) with n by lia.
  - destruct Hn as [|Hn]; [done|]. destruct (add_slot_ok o n sl Hn Hsl) as (sl1 & H1 & Hsl1).
    destruct (IH (n + 1) sl1) as (sl2 & H2 & Hsl2); [lia|done|].
    exists sl2. split; [cbn [add_slots]; by rewrite H1|]. by replace (n + Z.of_nat (S k)) with (n + 1 + Z.of_nat k) by lia.
Qed.

(** ** The batches of a request *)
Section run.
Context {H : Type} (env : GSAEnv H).
Abbreviation STAT := (GSAReqStat H).
Implicit Types st : STAT.

(** The representatives to compute go to the rows of their blocks. *)
Definition calc_aligned (o : Z) st : Prop :=
  Forall2 (fun b r => exists i : nat, blocks st !! i = Some b /\ r = o + Z.of_nat i)
    (calc_block_table (slots st)) (calc_repre_slot_mapping (slots st)).

Definition tracks (o : Z) (bl : list Z) st : Prop :=
  blocks st = bl /\ rows_of o (pylen bl) (slots st) /\ calc_aligned o st.

(** What the runner says of the request in one batch. *)
Record Input := {
  in_num_scheduled : Z;
  in_state : CachedRequestState;
  in_index : Z;
}.

(** A request whose table grows: by any blocks while the prompt is computed, by one
    at most in a decoding step; the first decoding step comes when exactly the
    prompt is computed. *)
Fixpoint grows (prompt : Z) (prev : list Z) (decoding : bool) (ins : list Input) : Prop :=
  match ins with
  | [] => True
  | i :: ins' =>
      exists bl, c_block_ids (in_state i) = [bl] /\ NoDup bl /\
        if c_num_computed_tokens (in_state i) <? prompt
        then decoding = false /\ (exists ext, bl = prev ++ ext) /\ grows prompt bl false ins'
        else (decoding = true \/ c_num_computed_tokens (in_state i) = prompt) /\
             (bl = prev \/ exists b, bl = prev ++ [b]) /\ grows prompt bl true ins'
  end.

Fixpoint run (ins : list Input) st : res STAT :=
  match ins with
  | [] => Ok st
  | i :: ins' => let? st' := updata_req_state env (in_num_scheduled i) (in_state i) (in_index i) st in run ins' st'
  end.

Definition last_blocks (bl0 : list Z) (ins : list Input) : list Z :=
  foldl (fun bl i => default bl (c_block_ids (in_state i) !! 0%nat)) bl0 ins.

Lemma aligned_zip (o k : Z) (bl1 bl2 bl3 : list Z) :
  k = pylen bl1 ->
  Forall2 (fun b r => exists i : nat, (bl1 ++ bl2 ++ bl3) !! i = Some b /\ r = o + Z.of_nat i)
    bl2 (zrange (o + k) (o + k + pylen bl2)).
Proof.
  intros ->. apply Forall2_same_length_lookup_2.
  - rewrite length_zrange. unfold pylen. lia.
  - intros i b r Hb Hr. exists (length bl1 + i)%nat. split.
    + rewrite lookup_app_r by lia. rewrite lookup_app_l by (apply lookup_lt_Some in Hb; lia).
      by replace (length bl1 + i - length bl1)%nat with i by lia.
    + unfold zrange in Hr. rewrite list_lookup_fmap in Hr. apply fmap_Some in Hr as (j & Hj & ->).
      apply lookup_seq in Hj as [-> _]. unfold pylen. lia.
Qed.

Lemma slice_to_neg1 {A} (l : list A) x : slice_to (l ++ [x]) (-1) = l.
Proof.
  unfold slice_to. rewrite slice_init, length_app. cbn. replace (length l + 1 - 1)%nat with (length l) by lia.
  apply take_app_length.
Qed.

Lemma slice_from_tail o n k : 0 <= k -> 0 <= n -> 0 < n ->
  slice_from (zrange o (o + k + n)) (- n) = zrange (o + k) (o + k + n).
Proof.
  intros Hk Hn Hn0. unfold slice_from, slice, slice_bound. rewrite pylen_zrange by lia.
  rewrite (proj2 (Z.ltb_lt (- n) 0)), (proj2 (Z.ltb_ge _ 0)) by lia.
  replace (Z.max 0 (o + k + n - o + - n)) with k by lia. rewrite (zrange_app o (o + k)) by lia.
  rewrite drop_app_length' by (rewrite length_zrange; lia). rewrite take_ge; [done|]. rewrite length_zrange. lia.
Qed.

Lemma slice_tail_init o n k : 0 <= k -> 0 < n ->
  slice (zrange o (o + k + n)) (- n) (-1) = zrange (o + k) (o + k + n - 1).
Proof.
  intros Hk Hn0. unfold slice, slice_bound. rewrite pylen_zrange by lia.
  rewrite (proj2 (Z.ltb_lt (- n) 0)) by lia. change (-1 <? 0) with true. cbv iota.
  replace (Z.max 0 (o + k + n - o + - n)) with k by lia. rewrite (zrange_app o (o + k)) by lia.
  rewrite drop_app_length' by (rewrite length_zrange; lia). rewrite (zrange_app (o + k) (o + k + n - 1)) by lia.
  rewrite take_app_length'; [done|]. rewrite length_zrange. lia.
Qed.

Lemma filter_suffix (prev ext : list Z) : NoDup (prev ++ ext) -> filter (fun x => x ∉ prev) (prev ++ ext) = ext.
Proof.
  intros (_ & Hd & _)%NoDup_app. rewrite filter_app.
  assert (Hnone : forall l, (forall x, x ∈ l -> x ∈ prev) -> filter (fun x => x ∉ prev) l = []).
  { induction l as [|x l IH]; intros Hl; [done|]. rewrite filter_cons_False by (intros Hx; apply Hx, Hl; left).
    apply IH. intros y Hy. apply Hl. by right. }
  assert (Hall : forall l : list Z, (forall x, x ∈ l -> x ∉ prev) -> filter (fun x => x ∉ prev) l = l).
  { induction l as [|x l IH]; intros Hl; [done|]. rewrite filter_cons_True by (apply Hl; left).
    f_equal. apply IH. intros y Hy. apply Hl. by right. }
  rewrite Hnone, Hall; [done| |done]. intros x Hx Hin. by apply (Hd x).
Qed.

Lemma update_slot_prefill o prev ext st :
  blocks st = prev ++ ext -> stage st = PREFILL -> rows_of o (pylen prev) (slots st) -> (ext = [] \/ prev <> []) ->
  exists sl, update_slot ext st = Ok (with_slots sl st) /\ rows_of o (pylen (prev ++ ext)) sl /\
    calc_block_table sl = (if is_last_chunk st then slice_to ext (-1) else ext) /\
    calc_aligned o (with_slots sl st).
Proof.
  intros Hb Hst Hrows Hne. unfold update_slot. pose proof (pylen_nonneg prev) as Hn.
  destruct (add_slots_ok (length ext) o (pylen prev) (slots st)) as (sl & -> & Hsl); [|done|].
  { destruct Hne as [->|Hne]; [by left|right]. destruct prev; [done|]. rewrite pylen_cons. pose proof (pylen_nonneg prev). lia. }
  fold (pylen ext) in Hsl. rewrite <- pylen_app in Hsl. pose proof Hsl as (Hr & _). rewrite bool_decide_true by done.
  destruct ext as [|b ext' _] using rev_ind.
  { cbn. eexists. split; [reflexivity|]. split; [exact Hsl|]. cbn. split; [by destruct (is_last_chunk st)|constructor]. }
  assert (Hlen : 0 < pylen (ext' ++ [b])) by (rewrite pylen_app; change (pylen [b]) with 1; pose proof (pylen_nonneg ext'); lia).
  rewrite (proj2 (Z.ltb_lt _ _)) by done. rewrite Hr. rewrite (pylen_app prev (ext' ++ [b])), Z.add_assoc. rewrite pylen_app in Hsl.
  destruct (is_last_chunk st); (eexists; split; [reflexivity|split; [exact Hsl|split; [reflexivity|]]]);
    unfold calc_aligned; cbn [slots with_slots blocks set_calc calc_block_table calc_repre_slot_mapping]; rewrite Hb.
  - rewrite slice_tail_init, slice_to_neg1, pylen_app by lia. change (pylen [b]) with 1.
    replace (o + pylen prev + (pylen ext' + 1) - 1) with (o + pylen prev + pylen ext') by lia. by apply aligned_zip.
  - rewrite slice_from_tail by lia.
    pose proof (aligned_zip o (pylen prev) prev (ext' ++ [b]) [] eq_refl) as Hz. by rewrite app_nil_r in Hz.
Qed.

Lemma update_slot_decode o prev b st :
  blocks st = prev ++ [b] -> stage st = DECODE -> rows_of o (pylen prev) (slots st) -> prev <> [] ->
  exists sl, update_slot [b] st = Ok (with_slots sl st) /\ rows_of o (pylen (prev ++ [b])) sl /\
    calc_block_table sl = [b] /\ calc_aligned o (with_slots sl st).
Proof.
  intros Hb Hst Hrows Hne. unfold update_slot.
  assert (Hn : 0 < pylen prev) by (destruct prev; [done|]; rewrite pylen_cons; pose proof (pylen_nonneg prev); lia).
  destruct (add_slots_ok 1 o (pylen prev) (slots st)) as (sl & Hadd & Hsl); [by right|done|].
  cbn [length]. rewrite Hadd. change (pylen [b]) with 1. change (0 <? 1) with true. cbv iota.
  rewrite bool_decide_false by (by rewrite Hst). rewrite Hb, py_idx_snoc.
  change (Z.of_nat 1) with 1 in Hsl. pose proof Hsl as (Hr & _). rewrite Hr, py_idx_zrange_last by lia.
  eexists. split; [reflexivity|]. rewrite pylen_app. split; [exact Hsl|]. split; [reflexivity|].
  unfold calc_aligned. cbn. rewrite Hb. constructor; [|constructor]. exists (length prev).
  split; [by rewrite list_lookup_middle|]. unfold pylen. lia.
Qed.

Lemma trim_tracks o bl st : tracks o bl st -> trim st = st.
Proof.
  intros (Hb & (Hr & _) & _). unfold trim. pose proof (pylen_nonneg bl). rewrite Hr, Hb, pylen_zrange by lia.
  by rewrite (proj2 (Z.ltb_ge _ _)) by lia.
Qed.

(** What the state says between two batches. *)
Definition between (o prompt : Z) (bl : list Z) (decoding : bool) st : Prop :=
  tracks o bl st /\ num_prompt_tokens (progress st) = prompt /\ bl <> [] /\
  (decoding = true -> sparse_len st = pylen bl).

Lemma updata_finish st o bl : tracks o bl st ->
  (if pylen (blocks st) <? pylen (repre_slot_mapping (slots st))
   then Ok (with_topk_buf None
          (with_slots (set_repre (slice_to (repre_slot_mapping (slots st)) (pylen (blocks st))) (slots st)) st))
   else Ok st) = Ok st.
Proof. intros Ht%trim_tracks. unfold trim in Ht. destruct (_ <? _); [by rewrite Ht|done]. Qed.

Lemma updata_prefill o prompt prev ext n s i st :
  between o prompt prev false st -> c_block_ids s = [prev ++ ext] -> NoDup (prev ++ ext) ->
  c_num_computed_tokens s < prompt ->
  exists st', updata_req_state env n s i st = Ok st' /\ between o prompt (prev ++ ext) false st' /\
    calc_block_table (slots st') = (if is_last_chunk st' then slice_to ext (-1) else ext).
Proof.
  intros ((Hb & Hrows & Hcalc) & Hp & Hne & _) Hs Hnd Hlt. unfold updata_req_state. rewrite Hs, Hp.
  set (st1 := with_progress _ st). change (py_idx [prev ++ ext] 0) with (Ok (prev ++ ext)). cbv iota beta.
  assert (Hst1 : stage st1 = PREFILL) by (unfold stage; cbn; by rewrite (proj2 (Z.leb_gt _ _))).
  rewrite bool_decide_true by done. assert (Hb1 : blocks st1 = prev) by exact Hb.
  rewrite Hb1, filter_suffix by done.
  destruct (update_slot_prefill o prev ext (with_blocks (prev ++ ext) st1)) as (sl & -> & Hsl & Hc & Ha);
    [done|done|exact Hrows|by right|].
  assert (Ht : tracks o (prev ++ ext) (with_slots sl (with_blocks (prev ++ ext) st1))) by (split; [done|by split]).
  rewrite (updata_finish _ _ _ Ht). eexists. split; [reflexivity|]. split; [|exact Hc].
  split; [exact Ht|]. split; [done|]. split; [by destruct prev|done].
Qed.

Lemma updata_decode o prompt prev bl decoding n s i st :
  between o prompt prev decoding st -> c_block_ids s = [bl] -> (bl = prev \/ exists b, bl = prev ++ [b]) ->
  prompt <= c_num_computed_tokens s -> (decoding = true \/ c_num_computed_tokens s = prompt) ->
  exists st', updata_req_state env n s i st = Ok st' /\ between o prompt bl true st' /\
    calc_block_table (slots st') = drop (length prev) bl.
Proof.
  intros ((Hb & Hrows & Hcalc) & Hp & Hne & Hsp) Hs Hbl Hle Hdec. unfold updata_req_state. rewrite Hs, Hp.
  set (st1 := with_progress _ st). change (py_idx [bl] 0) with (Ok bl). cbv iota beta.
  assert (Hst1 : stage st1 = DECODE) by (unfold stage; cbn; by rewrite (proj2 (Z.leb_le _ _))).
  rewrite bool_decide_false by (by rewrite Hst1).
  assert (Hg : exists st2, get_sparse_and_free_block env st1 = Ok st2 /\ blocks st2 = prev /\ slots st2 = slots st /\
            progress st2 = progress st1 /\ sparse_len st2 = pylen prev).
  { unfold get_sparse_and_free_block. change (num_prompt_tokens (progress st1)) with prompt.
    change (num_computed_tokens (progress st1)) with (c_num_computed_tokens s).
    destruct (Z.eqb_spec prompt (c_num_computed_tokens s)) as [Heq|Hneq]; cbn [negb].
    - unfold PTOPK_PREFETCH_ENABLE. rewrite andb_false_r. eexists. split; [reflexivity|].
      cbn. by rewrite Hb.
    - eexists. split; [reflexivity|]. cbn. rewrite Hb. repeat split; [done..|]. apply Hsp.
      destruct Hdec as [->|Hdec]; [done|lia]. }
  destruct Hg as (st2 & -> & Hb2 & Hs2 & Hp2 & Hl2). rewrite Hl2.
  destruct Hbl as [->|[b ->]].
  - rewrite Z.eqb_refl. cbn [negb].
    assert (Ht : tracks o prev (with_slots (set_calc [] [] (slots st2)) st2))
      by (split; [done|split; [cbn; rewrite Hs2; exact Hrows|constructor]]).
    rewrite (updata_finish _ _ _ Ht). eexists. split; [reflexivity|]. split; [|cbn; by rewrite drop_all].
    split; [exact Ht|]. split; [cbn; by rewrite Hp2|done].
  - rewrite pylen_app. change (pylen [b]) with 1. rewrite (proj2 (Z.eqb_neq _ _)) by lia. cbn [negb].
    rewrite py_idx_snoc, Hb2.
    destruct (update_slot_decode o prev b (with_sparse_len (pylen prev + 1) (with_blocks (prev ++ [b]) st2)))
      as (sl & -> & Hsl & Hc & Ha).
    + done.
    + unfold stage. cbn. rewrite Hp2. exact Hst1.
    + cbn. rewrite Hs2. exact Hrows.
    + done.
    + assert (Ht : tracks o (prev ++ [b]) (with_slots sl (with_sparse_len (pylen prev + 1) (with_blocks (prev ++ [b]) st2))))
        by (split; [done|by split]).
      rewrite (updata_finish _ _ _ Ht). eexists. split; [reflexivity|]. split.
      * split; [exact Ht|]. split; [cbn; by rewrite Hp2|]. split; [by destruct prev|]. intros _. cbn. by rewrite pylen_app.
      * cbn. rewrite Hc. by rewrite drop_app_length.
Qed.

Lemma add_req_new_ok n s i o bl :
  c_block_ids s = [bl] -> bl <> [] ->
  exists st, add_req_new env n s i o new_GSAReqStat = Ok st /\
    between o (pylen (c_prompt_token_ids s)) bl false st.
Proof.
  intros Hs Hne. unfold add_req_new. rewrite Hs. change (py_idx [bl] 0) with (Ok bl). cbv iota beta.
  set (st1 := with_prompt _ _ _ _). unfold init_slot. change (blocks st1) with bl. pose proof (pylen_nonneg bl) as Hn.
  rewrite init_mask_ok, fmap_add_zrange by done.
  assert (Hal : forall table calc, (table, calc) =
      (if is_last_chunk st1 then (slice_to bl (-1), slice_to (zrange o (o + pylen bl)) (-1)) else (bl, zrange o (o + pylen bl))) ->
      Forall2 (fun b r => exists j : nat, bl !! j = Some b /\ r = o + Z.of_nat j) table calc).
  { intros table calc Heq. pose proof (aligned_zip o 0 [] bl [] eq_refl) as Hz.
    rewrite Z.add_0_r, app_nil_r in Hz. cbn in Hz. destruct (is_last_chunk st1); injection Heq as -> ->; [|exact Hz].
    destruct bl as [|b bl' _] using rev_ind; [done|]. rewrite slice_to_neg1, pylen_app in *. change (pylen [b]) with 1 in *.
    rewrite Z.add_assoc, <- zrange_snoc, slice_to_neg1 by (pose proof (pylen_nonneg bl'); lia).
    pose proof (aligned_zip o 0 [] bl' [b] eq_refl) as Hz'. by rewrite Z.add_0_r in Hz'. }
  destruct (if is_last_chunk st1 then _ else _) as [table calc]. specialize (Hal _ _ eq_refl).
  cbn [slots with_slots blocks repre_slot_mapping]. change (blocks st1) with bl. rewrite pylen_zrange by lia.
  rewrite (proj2 (Z.ltb_ge (pylen bl) (o + pylen bl - o))) by lia. eexists. split; [reflexivity|].
  split; [|done]. split; [done|]. split; [done|]. exact Hal.
Qed.

Lemma run_tracks o prompt ins prev decoding st :
  between o prompt prev decoding st -> grows prompt prev decoding ins ->
  exists st', run ins st = Ok st' /\ tracks o (last_blocks prev ins) st'.
Proof.
  revert prev decoding st. induction ins as [|i ins IH]; intros prev decoding st Hst Hg; [exists st; split; [done|apply Hst]|].
  destruct Hg as (bl & Hs & Hnd & Hg). cbn [run last_blocks foldl]. unfold last_blocks in IH. rewrite Hs. cbn [default lookup list_lookup].
  destruct (Z.ltb_spec (c_num_computed_tokens (in_state i)) prompt) as [Hlt|Hge].
  - destruct Hg as (-> & (ext & ->) & Hg).
    destruct (updata_prefill o prompt prev ext (in_num_scheduled i) (in_state i) (in_index i) st Hst Hs Hnd Hlt)
      as (st' & -> & Hst' & _).
    by apply (IH _ false).
  - destruct Hg as (Hd & Hbl & Hg).
    destruct (updata_decode o prompt prev bl decoding (in_num_scheduled i) (in_state i) (in_index i) st Hst Hs Hbl Hge Hd)
      as (st' & -> & Hst' & _).
    by apply (IH _ true).
Qed.

(** C36. The state kept for a request follows its block table.  For a request that enters with a
    non-empty table and grows as the scheduler makes it grow (any number of blocks while
    its prompt is computed, one at most per decoding step), every update succeeds, and after any number of
    them the blocks are those of the last table, block [i] owns row [o + i], the
    selection must take the first and the last two blocks and may take all, and each representative
    the step computes goes to the row of its block. *)
Theorem gsa_request_tracks_its_blocks first ins o bl0 :
  c_block_ids (in_state first) = [bl0] -> bl0 <> [] ->
  grows (pylen (c_prompt_token_ids (in_state first))) bl0 false ins ->
  exists st0 st,
    add_req_new env (in_num_scheduled first) (in_state first) (in_index first) o new_GSAReqStat = Ok st0 /\
    run ins st0 = Ok st /\
    let bl := last_blocks bl0 ins in
    blocks st = bl /\
    repre_slot_mapping (slots st) = zrange o (o + pylen bl) /\
    include_mask (slots st) = (fun i => (i =? 0) || (pylen bl - 2 <=? i)) <$> zrange 0 (pylen bl) /\
    exclude_mask (slots st) = py_repeat false (pylen bl) /\
    Forall2 (fun b r => exists i : nat, bl !! i = Some b /\ r = o + Z.of_nat i)
      (calc_block_table (slots st)) (calc_repre_slot_mapping (slots st)).
Proof.
  intros Hs Hne Hg.
  destruct (add_req_new_ok (in_num_scheduled first) (in_state first) (in_index first) o bl0 Hs Hne) as (st0 & H0 & Hst0).
  destruct (run_tracks o _ ins bl0 false st0 Hst0 Hg) as (st & Hr & Hb & (Hrep & Hinc & Hexc) & Hcalc).
  exists st0, st. unfold calc_aligned in Hcalc. rewrite Hb in Hcalc. auto 8.
Qed.
End run.

Module GsaDemo.
Definition env : GSAEnv Z :=
  {| e_config := new_GSAConfig; e_block_size := 2; e_rank := 0; e_use_mla := false; e_parent_block_hash := 0;
     e_hasher := fun p l => 31 * p + zsum l; e_rank_hasher := Z.succ; e_max_block_len := 8 |}.
Definition input (n computed : Z) (bl out : list Z) : Input :=
  {| in_num_scheduled := n;
     in_state := {| c_block_ids := [bl]; c_num_computed_tokens := computed;
                    c_prompt_token_ids := [1; 2; 3; 4; 5; 6]; c_output_token_ids := out |};
     in_index := 0 |}.
(** A prompt of six tokens in chunks of four and two, then three decoding steps. *)
Definition batches : list Input :=
  [input 2 4 [10; 11; 12] []; input 1 6 [10; 11; 12; 13] [7]; input 1 7 [10; 11; 12; 13] [7; 8];
   input 1 8 [10; 11; 12; 13; 14] [7; 8; 9]].

Lemma batches_grow : grows 6 [10; 11] false batches.
Proof.
  assert (Hnd : forall l : list Z, bool_decide (NoDup l) = true -> NoDup l) by (intros l; by apply bool_decide_eq_true_1).
  exists [10; 11; 12]. split; [done|]. split; [by apply Hnd|]. split; [done|]. split; [by exists [12]|].
  exists [10; 11; 12; 13]. split; [done|]. split; [by apply Hnd|]. split; [by right|]. split; [right; by exists 13|].
  exists [10; 11; 12; 13]. split; [done|]. split; [by apply Hnd|]. split; [by left|]. split; [by left|].
  exists [10; 11; 12; 13; 14]. split; [done|]. split; [by apply Hnd|]. split; [by left|]. split; [right; by exists 14|done].
Qed.

(** A request resumed from preemption with two output tokens enters with its
    eight tokens to compute: the next step finds [sparse_len] unset and takes the
    last block a second time. *)
Example resumed_request_gets_its_last_block_twice :
  match add_req_new env 8 (in_state (input 8 0 [10; 11; 12; 13] [7; 8])) 0 0 new_GSAReqStat with
  | Ok st => match updata_req_state env 1 (in_state (input 1 8 [10; 11; 12; 13] [7; 8; 9])) 0 st with
             | Ok st' => Some (blocks st')
             | Err _ => None
             end
  | Err _ => None
  end = Some [10; 11; 12; 13; 13].
Proof. by vm_compute. Qed.

(** Two requests in the worker, of four and two blocks. *)
Definition out : SchedulerOutput :=
  {| so_cached_req_ids := []; so_resumed_from_preemption := []; so_new_req_ids := ["a"; "b"];
     so_num_scheduled_tokens := [("a", 6); ("b", 4)] |}.
Definition batch : Batch :=
  {| b_requests := <["a" := in_state (input 6 0 [10; 11; 12; 13] [])]> {["b" := in_state (input 4 0 [20; 21] [])]};
     b_req_id_to_index := [("a", 0); ("b", 1)]; b_req_ids := ["a"; "b"] |}.
Definition worker : GSAWorker Z := (build_sparse_meta env out batch new_GSA).2.

Example worker_rows :
  (fun e => (e.1, repre_slot_mapping (slots e.2), calc_block_table (slots e.2))) <$> gsa_stats worker =
  [("a", [0; 1; 2; 3], [10; 11; 12]); ("b", [8; 9], [20; 21])].
Proof. by vm_compute. Qed.

Lemma batch_demo : batch_ok batch.
Proof.
  intros id r bl Hr Hbl. cbn in Hr. apply lookup_insert_Some in Hr as [[_ <-]|[_ Hr]].
  - injection Hbl as <-. apply (bool_decide_eq_true_1 (NoDup _)). by vm_compute.
  - apply lookup_singleton_Some in Hr as [_ <-]. injection Hbl as <-.
    apply (bool_decide_eq_true_1 (NoDup _)). by vm_compute.
Qed.
End GsaDemo.
Import GsaDemo.

Lemma gsa_request_tracks_its_blocks_witness :
  exists st0 st, add_req_new env 4 (in_state (input 4 0 [10; 11] [])) 0 16 new_GSAReqStat = Ok st0 /\
    run env batches st0 = Ok st /\ repre_slot_mapping (slots st) = [16; 17; 18; 19; 20].
Proof.
  destruct (gsa_request_tracks_its_blocks env (input 4 0 [10; 11] []) batches 16 [10; 11])
    as (st0 & st & H0 & Hr & _ & Hrep & _).
  - reflexivity.
  - discriminate.
  - exact batches_grow.
  - exists st0, st. split; [exact H0|]. split; [exact Hr|exact Hrep].
Defined.

Lemma gsa_rows_are_disjoint_witness :
  exists st1 st2, od_get "a" (gsa_stats worker) = Some st1 /\ od_get "b" (gsa_stats worker) = Some st2 /\
    forall x, x ∈ repre_slot_mapping (slots st1) -> x ∉ repre_slot_mapping (slots st2).
Proof.
  assert (Hrun : (build_sparse_meta env out batch new_GSA).1 = Ok tt) by (vm_compute; reflexivity).
  assert (H1 : exists st1, od_get "a" (gsa_stats worker) = Some st1 /\ blocks st1 = [10; 11; 12; 13])
    by (eexists; vm_compute; by split).
  assert (H2 : exists st2, od_get "b" (gsa_stats worker) = Some st2 /\ blocks st2 = [20; 21])
    by (eexists; vm_compute; by split).
  apply run_ok in Hrun. fold worker in Hrun.
  destruct H1 as (st1 & H1 & Hb1). destruct H2 as (st2 & H2 & Hb2).
  exists st1, st2. split; [exact H1|]. split; [exact H2|].
  apply (gsa_rows_are_disjoint env worker "a" "b" st1 st2).
  - discriminate.
  - apply rtc_once. exact (step_batch env out batch new_GSA worker batch_demo Hrun).
  - discriminate.
  - exact H1.
  - exact H2.
  - rewrite Hb1. discriminate.
  - rewrite Hb2. discriminate.
Defined.
