(* ===== verification/GsaSparse.v ===== *)
(** * Gathered sparse attention: dropping and moving blocks
    (ucm/sparse/gsa/gsa.py: [estimate_num_slots_sparsed], [allocate_slots],
    [get_mv_map], [kvcache_init_last_chunk], the layer offsets and the transfer
    tasks)

    At the first decoding step of a long prompt the scheduler frees most of the
    request's blocks, and the worker moves the blocks the top-k selection took into
    those that remain.  The two sides compute the remaining blocks
    independently; the theorems show that they agree, and that the moves put
    every selected block's content where the new table says. *)

From S2P Require Import Prelude.
From S2P Require Import BlockPool.
From S2P Require Import GsaStat.
From S2P Require Import GsaRun.
Local Open Scope Z_scope.
Local Open Scope py_scope.

(** ** The scheduler's side *)

(** vLLM's request, as far as it is read. *)
Record SparseRequest := {
  sr_id : string;
  sr_num_prompt_tokens : Z;
  sr_num_output_tokens : Z;
  sr_num_tokens : Z;
}.

Definition prefetch_len (c : GSAConfig) (blocks_len topk_len : Z) : Z :=
  Z.min (num_prefetch_blocks c) (blocks_len - topk_len).

(** [ptopk] is [PTOPK_PREFETCH_ENABLE], which is false as the code is shipped. *)
Definition estimate_num_slots_sparsed (ptopk : bool) (c : GSAConfig) (block_size : Z) (r : SparseRequest) : res Z :=
  if negb ptopk then Ok INVALID_SLOT
  else if (sr_num_output_tokens r =? 0) || (sr_num_prompt_tokens r <? block_size) then Ok INVALID_SLOT
  else if sr_num_prompt_tokens r <=? SEG_PREFILL_THRESHOLD then Ok INVALID_SLOT
  else
    let num_prompt_blocks := cdiv (sr_num_prompt_tokens r) block_size in
    let num_all_blocks := cdiv (sr_num_tokens r) block_size in
    let? topk_len := compute_topk_len c num_prompt_blocks in
    let num_sparse_blocks :=
      num_all_blocks - num_prompt_blocks + topk_len + prefetch_len c num_prompt_blocks topk_len in
    let flaw := sr_num_tokens r mod block_size in
    let flaw := if flaw =? 0 then 0 else block_size - flaw in
    Ok (num_sparse_blocks * block_size - flaw).

(** What [allocate_slots] reads and writes of vLLM's cache manager: the table of
    the first manager, the reference counts, and the rest [K]. *)
Record SlotState (K : Type) := MkSlots {
  sl_table : gmap string (list Z);
  sl_ref_cnt : gmap Z Z;
  sl_rest : K;
}.
Arguments MkSlots {K} _ _ _.
Arguments sl_table {K} _.
Arguments sl_ref_cnt {K} _.
Arguments sl_rest {K} _.

Record SlotOps (K : Type) := {
  maybe_evict_cached_block : Z -> K -> K;
  free_blocks : list Z -> SlotState K -> SlotState K;
  blocks_to_allocate : string -> Z -> SlotState K -> Z;
  sl_num_free_blocks : SlotState K -> Z;
  (** extends the request's list in place *)
  sl_allocate_new_blocks : string -> Z -> SlotState K -> SlotState K;
}.
Arguments maybe_evict_cached_block {K} _ _ _.
Arguments free_blocks {K} _ _ _.
Arguments blocks_to_allocate {K} _ _ _ _.
Arguments sl_num_free_blocks {K} _ _.
Arguments sl_allocate_new_blocks {K} _ _ _ _.

Section slots.
Context {K : Type} (ops : SlotOps K) (c : GSAConfig) (block_size : Z).
Abbreviation ST := (SlotState K).

(** The blocks the request keeps. *)
Definition num_blocks_need (r : SparseRequest) (num_slots_sparsed : Z) : Z :=
  if (sr_num_prompt_tokens r + 1 =? sr_num_tokens r) && (sr_num_tokens r mod block_size =? 1)
  then cdiv num_slots_sparsed block_size - 1
  else cdiv num_slots_sparsed block_size.

Definition keeps (num_blocks_original need i : Z) : bool :=
  (num_blocks_original - need + init_windows_size c <=? i) || (i <? init_windows_size c).

(** The loop over the allocated blocks: the kept and the returned ones. *)
Definition sort_block (original need : Z) (acc : list Z * list Z) (ib : Z * Z) : M ST (list Z * list Z) :=
  let '(kept, returned) := acc in
  let '(i, block) := ib in
  let! acc' :=
    if keeps original need i then ret (kept ++ [block], returned)
    else
      do! modify (fun s : ST => MkSlots (sl_table s) (<[block := 1]> (sl_ref_cnt s)) (sl_rest s)) in
      ret (kept, returned ++ [block]) in
  do! modify (fun s => MkSlots (sl_table s) (sl_ref_cnt s) (maybe_evict_cached_block ops block (sl_rest s))) in
  ret acc'.

(** The list of kept blocks is the request's list in the manager's table, so the
    blocks allocated after it was stored are part of the result. *)
Definition gsa_allocate_slots (r : SparseRequest) (num_slots_sparsed : Z) : M ST (option (list Z)) :=
  let need := num_blocks_need r num_slots_sparsed in
  let! allocated := gets (fun s => default [] (sl_table s !! sr_id r)) in
  let! ' (kept, returned) := for_acc (enumerate allocated) ([], []) (sort_block (pylen allocated) need) in
  do! modify (free_blocks ops returned) in
  do! modify (fun s => MkSlots (<[sr_id r := kept]> (sl_table s)) (sl_ref_cnt s) (sl_rest s)) in
  let! n := gets (blocks_to_allocate ops (sr_id r) num_slots_sparsed) in
  let! free := gets (sl_num_free_blocks ops) in
  if free <? n then ret None
  else
    do! modify (sl_allocate_new_blocks ops (sr_id r) num_slots_sparsed) in
    let! blocks := gets (fun s => default [] (sl_table s !! sr_id r)) in
    ret (Some blocks).
End slots.

(** ** The worker's side *)

(** [remain_idx] of [kvcache_init_last_chunk] *)
Definition last_chunk_remain_idx (c : GSAConfig) (blocks_len remain_len : Z) : list Z :=
  let req_idx_list := zrange 0 blocks_len in
  let p := prefetch_len c blocks_len remain_len in
  slice_to req_idx_list (init_windows_size c)
    ++ slice_from req_idx_list (init_windows_size c - remain_len - p).

(** The loop that fills the free places: [acc] is the free indices, the map of
    moves and the new blocks so far. *)
Definition fill_block (blocks : list Z) (acc : list Z * list (Z * Z) * list Z) (e : Z * option Z)
    : res (list Z * list (Z * Z) * list Z) :=
  let '(free_block, mv_map, new_block) := acc in
  let '(idx, b) := e in
  match b with
  | Some b => Ok (free_block, mv_map, new_block ++ [b])
  | None =>
      match free_block with
      | [] => Err IndexError
      | one_free_idx :: rest =>
          let? dst := py_idx blocks one_free_idx in
          let? src := py_idx blocks idx in
          Ok (rest, od_set src dst mv_map, new_block ++ [dst])
      end
  end.

Fixpoint fill_blocks (blocks : list Z) (acc : list Z * list (Z * Z) * list Z) (l : list (Z * option Z))
    : res (list Z * list (Z * Z) * list Z) :=
  match l with
  | [] => Ok acc
  | e :: l' => let? acc' := fill_block blocks acc e in fill_blocks blocks acc' l'
  end.

Fixpoint place_hits (blocks remain_idxs topk_values : list Z) : res (list (option Z)) :=
  match topk_values with
  | [] => Ok []
  | idx :: l =>
      let? b := (if mem idx remain_idxs then let? b := py_idx blocks idx in Ok (Some b) else Ok None) in
      let? bs := place_hits blocks remain_idxs l in
      Ok (b :: bs)
  end.

Definition map_of (l : list (Z * Z)) : list (Z * Z) := foldl (fun m e => od_set e.1 e.2 m) [] l.

Definition get_mv_map (blocks remain_idxs topk_values : list Z) (remain_len : Z)
    : res (list (Z * Z) * list (Z * Z) * list (Z * Z)) :=
  let? hits := place_hits blocks remain_idxs topk_values in
  let hit_block := filter (fun idx => idx ∈ remain_idxs) topk_values in
  let free_block := filter (fun idx => idx ∉ hit_block) remain_idxs in
  let? r := fill_blocks blocks (free_block, [], []) (zip topk_values hits) in
  let '(_, mv_map, new_block) := r in
  let placed := zip topk_values new_block in
  let k := Z.to_nat remain_len in
  Ok (mv_map, map_of (take k placed), map_of (drop k placed)).

(** [layer_cache[mv_map[block_id]].copy_(layer_cache[block_id])] for each entry. *)
Definition apply_moves {D} (mv_map : list (Z * Z)) (cache : Z -> D) : Z -> D :=
  foldl (fun c e => fun b => if b =? e.2 then c e.1 else c b) cache mv_map.

(** [kvcache_init_last_chunk] on one layer's cache: the cache after the moves and
    the layer's maps. *)
Definition kvcache_init_last_chunk {D} (c : GSAConfig) (blocks topk_value : list Z) (cache : Z -> D)
    : res ((Z -> D) * list (Z * Z) * list (Z * Z)) :=
  let? remain_len := compute_topk_len c (pylen blocks) in
  let remain_idx := last_chunk_remain_idx c (pylen blocks) remain_len in
  if negb (pylen remain_idx =? pylen topk_value) then Err AssertionError
  else
    let? r := get_mv_map blocks remain_idx topk_value remain_len in
    let '(mv_map, reamin_map, prefetch_map) := r in
    Ok (apply_moves mv_map cache, reamin_map, prefetch_map).

(** ** Both sides keep the same blocks *)
Section agree.
Context {K : Type} (ops : SlotOps K).
Implicit Types (c : GSAConfig) (s : SlotState K).

(** The kept and the returned blocks of a table. *)
Definition kept_blocks c (need : Z) (l : list Z) : list Z :=
  (filter (fun ib => keeps c (pylen l) need ib.1 = true) (enumerate l)).*2.
Definition returned_blocks c (need : Z) (l : list Z) : list Z :=
  (filter (fun ib => keeps c (pylen l) need ib.1 <> true) (enumerate l)).*2.

(** The state after the loop: the returned blocks have one reference, and no block
    is cached any more. *)
Definition sorted_state c (need original : Z) (l : list (Z * Z)) s : SlotState K :=
  MkSlots (sl_table s)
    (foldl (fun m ib => if keeps c original need ib.1 then m else <[ib.2 := 1]> m) (sl_ref_cnt s) l)
    (foldl (fun k ib => maybe_evict_cached_block ops ib.2 k) (sl_rest s) l).

Lemma sort_blocks_ok c original need l kept returned s :
  for_acc l (kept, returned) (sort_block ops c original need) s =
    (Ok (kept ++ (filter (fun ib => keeps c original need ib.1 = true) l).*2,
         returned ++ (filter (fun ib => keeps c original need ib.1 <> true) l).*2),
     sorted_state c need original l s).
Proof.
  revert kept returned s. induction l as [|[i b] l IH]; intros kept returned s.
  - cbn. rewrite !app_nil_r. by destruct s.
  - cbn [for_acc]. assert (Hstep : sort_block ops c original need (kept, returned) (i, b) s =
      (Ok (if keeps c original need i then (kept ++ [b], returned) else (kept, returned ++ [b])),
       sorted_state c need original [(i, b)] s)).
    { unfold sort_block, sorted_state, bind, modify, ret. cbn. by destruct (keeps c original need i). }
    rewrite (bind_ok _ _ _ _ _ Hstep).
    assert (Hst : sorted_state c need original l (sorted_state c need original [(i, b)] s) =
                  sorted_state c need original ((i, b) :: l) s) by done.
    destruct (keeps c original need i) eqn:Hk; rewrite IH, Hst.
    + rewrite filter_cons_True, filter_cons_False by (cbn; congruence). cbn. by rewrite <- !app_assoc.
    + rewrite filter_cons_False, filter_cons_True by (cbn; congruence). cbn. by rewrite <- !app_assoc.
Qed.

Lemma filter_enumerate (P : Z -> bool) i (l : list Z) lo hi :
  0 <= lo -> lo <= hi ->
  (forall j, i <= j -> P j = (j <? i + lo) || (i + hi <=? j)) ->
  (filter (fun ib => P ib.1 = true) (enumerate_from i l)).*2 = take (Z.to_nat lo) l ++ drop (Z.to_nat hi) l.
Proof.
  revert i lo hi. induction l as [|x l IH]; intros i lo hi Hlo Hhi HP.
  - unfold enumerate_from. rewrite pylen_nil, zrange_nil by lia. by rewrite take_nil, drop_nil.
  - rewrite enumerate_from_cons. pose proof (HP i ltac:(lia)) as Hi.
    assert (Hrec : forall lo' hi', 0 <= lo' -> lo' <= hi' -> lo' = Z.max 0 (lo - 1) -> hi' = Z.max 0 (hi - 1) ->
      (filter (fun ib => P ib.1 = true) (enumerate_from (i + 1) l)).*2 = take (Z.to_nat lo') l ++ drop (Z.to_nat hi') l).
    { intros lo' hi' H1 H2 H3 H4. apply IH; [done..|]. intros j Hj. rewrite HP by lia.
      apply Bool.eq_iff_eq_true. rewrite !orb_true_iff, !Z.ltb_lt, !Z.leb_le. lia. }
    specialize (Hrec (Z.max 0 (lo - 1)) (Z.max 0 (hi - 1)) ltac:(lia) ltac:(lia) eq_refl eq_refl). destruct (P i) eqn:Hp.
    + rewrite filter_cons_True by done. rewrite fmap_cons, Hrec. cbn [snd].
      symmetry in Hi. apply orb_true_iff in Hi. rewrite Z.ltb_lt, Z.leb_le in Hi.
      destruct (decide (0 < lo)) as [Hpos|Hpos].
      * replace (Z.to_nat lo) with (S (Z.to_nat (Z.max 0 (lo - 1)))) by lia.
        by replace (Z.to_nat hi) with (S (Z.to_nat (Z.max 0 (hi - 1)))) by lia.
      * by replace lo with 0 by lia; replace hi with 0 by lia.
    + rewrite filter_cons_False by (cbn; congruence). rewrite Hrec.
      symmetry in Hi. apply orb_false_iff in Hi. rewrite Z.ltb_ge, Z.leb_gt in Hi.
      replace lo with 0 by lia. by replace (Z.to_nat hi) with (S (Z.to_nat (Z.max 0 (hi - 1)))) by lia.
Qed.

Lemma kept_blocks_ok c need (l : list Z) :
  0 <= init_windows_size c <= need -> need <= pylen l ->
  kept_blocks c need l =
    take (Z.to_nat (init_windows_size c)) l ++ drop (Z.to_nat (pylen l - need + init_windows_size c)) l.
Proof.
  intros Hw Hn. unfold kept_blocks, enumerate. apply (filter_enumerate (keeps c (pylen l) need)); [lia..|].
  intros j _. unfold keeps. rewrite orb_comm. f_equal.
Qed.

Lemma omap_zrange (l : list Z) a b : 0 <= a -> a <= b <= pylen l ->
  omap (fun i => py_nth l i) (zrange a b) = take (Z.to_nat (b - a)) (drop (Z.to_nat a) l).
Proof.
  intros Ha Hb. remember (Z.to_nat (b - a)) as n eqn:Hn. revert a Ha Hb Hn.
  induction n as [|n IH]; intros a Ha Hb Hn; [by rewrite zrange_nil by lia|].
  rewrite zrange_cons by lia. cbn [omap list_omap]. rewrite py_nth_nonneg by lia.
  destruct (l !! Z.to_nat a) as [x|] eqn:Hx; [|apply lookup_ge_None in Hx; unfold pylen in *; lia].
  rewrite (drop_S l x _ Hx). cbn [take]. f_equal. replace (S (Z.to_nat a)) with (Z.to_nat (a + 1)) by lia.
  apply IH; lia.
Qed.

(** The worker's indices, at the blocks they stand for. *)
Lemma remain_idx_blocks c (l : list Z) remain :
  let need := remain + prefetch_len c (pylen l) remain in
  0 <= init_windows_size c < need -> need <= pylen l ->
  omap (fun i => py_nth l i) (last_chunk_remain_idx c (pylen l) remain) =
    take (Z.to_nat (init_windows_size c)) l ++ drop (Z.to_nat (pylen l - need + init_windows_size c)) l.
Proof.
  intros need Hw Hn. unfold last_chunk_remain_idx. set (w := init_windows_size c) in *.
  assert (Hto : slice_to (zrange 0 (pylen l)) w = zrange 0 w).
  { rewrite slice_to_take by lia. change (pylen l) with (0 + pylen l) at 1. by rewrite take_zrange by lia. }
  assert (Hfrom : slice_from (zrange 0 (pylen l)) (w - remain - prefetch_len c (pylen l) remain) =
                  zrange (pylen l - need + w) (pylen l)).
  { replace (w - remain - prefetch_len c (pylen l) remain) with (- (need - w)) by lia.
    pose proof (slice_from_tail 0 (need - w) (pylen l - need + w) ltac:(lia) ltac:(lia) ltac:(lia)) as Hs.
    by replace (0 + (pylen l - need + w) + (need - w)) with (pylen l) in Hs by lia. }
  rewrite Hto, Hfrom, omap_app, !omap_zrange by lia. rewrite drop_0. f_equal; [f_equal; lia|].
  apply take_ge. rewrite length_drop. unfold pylen in *. lia.
Qed.

Lemma returned_blocks_perm c need (l : list Z) : kept_blocks c need l ++ returned_blocks c need l ≡ₚ l.
Proof.
  unfold kept_blocks, returned_blocks. rewrite <- fmap_app. rewrite <- (enumerate_snd l) at 3.
  apply fmap_Permutation. induction (enumerate l) as [|ib e IH]; [done|].
  destruct (keeps c (pylen l) need ib.1) eqn:Hk.
  - rewrite filter_cons_True, filter_cons_False by (cbn; congruence). cbn. by rewrite IH.
  - rewrite filter_cons_False, filter_cons_True by (cbn; congruence). rewrite <- Permutation_middle. by rewrite IH.
Qed.

Lemma set_config_spec bs c : 0 < bs -> set_config bs = Ok c ->
  init_windows_size c = cdiv 128 bs /\ num_prefetch_blocks c = cdiv 128 bs /\
  min_topk_len c = cdiv 4096 bs /\ max_topk_len c = cdiv 6144 bs.
Proof.
  intros Hbs Hc. unfold set_config in Hc. rewrite (proj2 (Z.eqb_neq _ _)) in Hc by lia. by injection Hc as <-.
Qed.

Lemma compute_topk_len_pos c n t :
  0 < n -> 0 < min_topk_len c <= max_topk_len c -> compute_topk_len c n = Ok t -> 0 < t.
Proof.
  intros Hn Hc Hr. unfold compute_topk_len in Hr. destruct (ceil_of_float _) as [x|]; [|done].
  injection Hr as <-. destruct (Z.ltb_spec x (min_topk_len c)), (Z.ltb_spec (max_topk_len c) x); lia.
Qed.

Lemma cdiv_pos a b : 0 < b -> 0 < a -> 0 < cdiv a b.
Proof. intros Hb Ha. pose proof (cdiv_spec a b Hb). nia. Qed.

(** The blocks to keep, as the scheduler counts them from the slots. *)
Lemma num_blocks_need_ok bs r k n :
  2 <= bs -> sr_num_tokens r = sr_num_prompt_tokens r + 1 -> n = cdiv (sr_num_prompt_tokens r) bs ->
  let flaw := sr_num_tokens r mod bs in
  num_blocks_need bs r ((cdiv (sr_num_tokens r) bs - n + k) * bs - (if flaw =? 0 then 0 else bs - flaw)) = k.
Proof.
  intros Hbs Htok Hn flaw. unfold num_blocks_need. rewrite Htok, Z.eqb_refl. cbn [andb].
  pose proof (cdiv_spec (sr_num_prompt_tokens r) bs ltac:(lia)) as Hp. rewrite <- Hn in Hp.
  set (p := sr_num_prompt_tokens r) in *. subst flaw. rewrite Htok. fold p.
  pose proof (Z.mod_eq (p + 1) bs ltac:(lia)) as Hm. pose proof (Z.mod_pos_bound (p + 1) bs ltac:(lia)) as Hr.
  set (f := (p + 1) mod bs) in *. set (q := (p + 1) / bs) in *. clearbody f q.
  destruct (Z.eqb_spec f 1) as [->|H1].
  - change (1 =? 0) with false. cbv iota. assert (q = n) as -> by nia. assert (Hpn : p = bs * n) by lia.
    rewrite (cdiv_unique (p + 1) bs (n + 1)) by nia.
    rewrite (cdiv_unique _ bs (k + 1)) by nia. lia.
  - assert (Hc : cdiv (p + 1) bs = n).
    { apply cdiv_unique; [lia|]. split; [lia|]. destruct (decide (bs * n < p + 1)) as [Hlt|]; [|lia].
      exfalso. assert (p = bs * n) by lia. assert (q = n) by nia. subst q. lia. }
    rewrite Hc. destruct (Z.eqb_spec f 0) as [H0|H0]; apply cdiv_unique; nia.
Qed.

Lemma gsa_allocate_slots_ok c bs r slots s :
  let l := default [] (sl_table s !! sr_id r) in let need := num_blocks_need bs r slots in
  exists s1, sl_table s1 = <[sr_id r := kept_blocks c need l]> (sl_table (free_blocks ops (returned_blocks c need l) (sorted_state c need (pylen l) (enumerate l) s))) /\
    gsa_allocate_slots ops c bs r slots s =
      (if sl_num_free_blocks ops s1 <? blocks_to_allocate ops (sr_id r) slots s1 then (Ok None, s1)
       else let s2 := sl_allocate_new_blocks ops (sr_id r) slots s1 in
            (Ok (Some (default [] (sl_table s2 !! sr_id r))), s2)).
Proof.
  intros l need. unfold gsa_allocate_slots, bind at 1, gets at 1. fold l need.
  rewrite (bind_ok _ _ _ _ _ (sort_blocks_ok c (pylen l) need (enumerate l) [] [] s)). cbn [app].
  fold (kept_blocks c need l) (returned_blocks c need l).
  set (f := free_blocks ops (returned_blocks c need l) (sorted_state c need (pylen l) (enumerate l) s)).
  exists (MkSlots (<[sr_id r := kept_blocks c need l]> (sl_table f)) (sl_ref_cnt f) (sl_rest f)). split; [done|].
  unfold bind, modify, gets. cbv beta iota. fold f. by destruct (_ <? _).
Qed.

(** C37. The scheduler and the worker keep the same blocks of a long prompt.  At the first decoding
    step, with the prefetch on, the slots the scheduler estimates make [allocate_slots] keep
    exactly the blocks at the indices the worker computes on its own in
    [kvcache_init_last_chunk], in the same order: [topk_len + prefetch_len] of them.  The
    other blocks, and no others, are freed; and the request is given its new blocks or, when
    there are too few, none. *)
Theorem scheduler_and_worker_keep_the_same_blocks c bs r t s :
  let l := default [] (sl_table s !! sr_id r) in
  set_config bs = Ok c -> 2 <= bs <= SEG_PREFILL_THRESHOLD ->
  SEG_PREFILL_THRESHOLD < sr_num_prompt_tokens r -> sr_num_tokens r = sr_num_prompt_tokens r + 1 ->
  sr_num_output_tokens r <> 0 ->
  pylen l = cdiv (sr_num_prompt_tokens r) bs -> compute_topk_len c (pylen l) = Ok t ->
  let kept := omap (fun i => py_nth l i) (last_chunk_remain_idx c (pylen l) t) in
  exists slots returned s0 s1,
    estimate_num_slots_sparsed true c bs r = Ok slots /\
    pylen kept = t + prefetch_len c (pylen l) t /\
    kept ++ returned ≡ₚ l /\
    sl_table s1 = <[sr_id r := kept]> (sl_table (free_blocks ops returned s0)) /\
    gsa_allocate_slots ops c bs r slots s =
      (if sl_num_free_blocks ops s1 <? blocks_to_allocate ops (sr_id r) slots s1 then (Ok None, s1)
       else let s2 := sl_allocate_new_blocks ops (sr_id r) slots s1 in
            (Ok (Some (default [] (sl_table s2 !! sr_id r))), s2)).
Proof.
  intros l Hc Hbs Hlong Htok Hout Hl Ht kept. pose proof (set_config_spec bs c ltac:(lia) Hc) as (Hw & Hp & Hmin & Hmax).
  unfold SEG_PREFILL_THRESHOLD in *.
  pose proof (cdiv_spec 128 bs ltac:(lia)) as H128. pose proof (cdiv_spec 4096 bs ltac:(lia)) as H4096.
  pose proof (cdiv_spec 6144 bs ltac:(lia)) as H6144. pose proof (cdiv_spec (sr_num_prompt_tokens r) bs ltac:(lia)) as Hn.
  rewrite <- Hl in Hn. set (n := pylen l) in *.
  assert (Hw0 : 0 < cdiv 128 bs) by (apply cdiv_pos; lia).
  assert (Hn2 : cdiv 128 bs < n) by nia.
  assert (Hmm : cdiv 4096 bs <= cdiv 6144 bs) by (apply cdiv_mono; lia).
  assert (Ht0 : 0 < t) by (apply (compute_topk_len_pos c n t); rewrite ?Hmin, ?Hmax; [lia|nia|done]).
  set (need := t + prefetch_len c n t). assert (Hneed : init_windows_size c < need <= n) by (unfold need, prefetch_len; lia).
  set (flaw := sr_num_tokens r mod bs).
  set (slots := (cdiv (sr_num_tokens r) bs - n + t + prefetch_len c n t) * bs - (if flaw =? 0 then 0 else bs - flaw)).
  assert (Hest : estimate_num_slots_sparsed true c bs r = Ok slots).
  { unfold estimate_num_slots_sparsed. cbn [negb]. rewrite (proj2 (Z.eqb_neq _ _)), (proj2 (Z.ltb_ge _ _)) by lia.
    cbn [orb]. unfold SEG_PREFILL_THRESHOLD. rewrite (proj2 (Z.leb_gt _ _)) by lia. rewrite <- Hl. by rewrite Ht. }
  assert (Hnb : num_blocks_need bs r slots = need).
  { unfold slots. rewrite <- (num_blocks_need_ok bs r need n ltac:(lia) Htok Hl). f_equal. unfold need. fold flaw. lia. }
  pose proof (remain_idx_blocks c l t ltac:(fold n; fold need; lia) ltac:(fold n; fold need; lia)) as Hkept.
  fold n need kept in Hkept. pose proof (kept_blocks_ok c need l ltac:(lia) ltac:(lia)) as Hkb. fold n in Hkb.
  destruct (gsa_allocate_slots_ok c bs r slots s) as (s1 & Hs1 & Hrun). fold l in Hs1. rewrite Hnb, Hkb, <- Hkept in Hs1.
  exists slots, (returned_blocks c need l), (sorted_state c need n (enumerate l) s), s1.
  split; [exact Hest|]. split; [|split; [|split; [exact Hs1|exact Hrun]]].
  - rewrite Hkept, pylen_app. unfold pylen. rewrite length_take, length_drop. unfold n, pylen in *. lia.
  - rewrite Hkept, <- Hkb. apply returned_blocks_perm.
Qed.
End agree.

(** ** The moves *)
Section moves.
Context (blocks : list Z).
Implicit Types (l : list (Z * Z)) (remain free topk : list Z).

Definition at_ (i : Z) : Z := default 0 (py_nth blocks i).
Definition in_range (i : Z) : Prop := 0 <= i < pylen blocks.

Lemma py_idx_at i : in_range i -> py_idx blocks i = Ok (at_ i).
Proof.
  intros Hi. unfold py_idx, at_. rewrite py_nth_nonneg by apply Hi.
  destruct (blocks !! Z.to_nat i) as [b|] eqn:Hb; [done|]. apply lookup_ge_None in Hb. unfold in_range, pylen in *. lia.
Qed.

Lemma at_inj i j : NoDup blocks -> in_range i -> in_range j -> at_ i = at_ j -> i = j.
Proof.
  unfold at_, in_range. intros Hnd Hi Hj. rewrite !py_nth_nonneg by lia.
  destruct (blocks !! Z.to_nat i) as [b|] eqn:Hb; [|apply lookup_ge_None in Hb; unfold pylen in *; lia].
  destruct (blocks !! Z.to_nat j) as [b'|] eqn:Hb'; [|apply lookup_ge_None in Hb'; unfold pylen in *; lia].
  cbn. intros ->. pose proof (NoDup_lookup _ _ _ _ Hnd Hb Hb'). lia.
Qed.

(** Which index's block each selected index gets: its own when it remains,
    otherwise the next free one. *)
Fixpoint assign remain free topk : list (Z * Z) :=
  match topk with
  | [] => []
  | idx :: topk' =>
      if mem idx remain then (idx, idx) :: assign remain free topk'
      else match free with
           | [] => []
           | f :: free' => (idx, f) :: assign remain free' topk'
           end
  end.

Definition misses remain topk : list Z := filter (fun idx => idx ∉ remain) topk.

Lemma assign_keys remain free topk :
  (length (misses remain topk) <= length free)%nat -> (assign remain free topk).*1 = topk.
Proof.
  revert free. induction topk as [|idx topk IH]; intros free Hlen; [done|]. cbn. unfold misses in *.
  destruct (mem idx remain) eqn:Hm.
  - apply mem_spec in Hm. rewrite filter_cons_False in Hlen by tauto. cbn. by rewrite IH.
  - apply mem_false in Hm. rewrite filter_cons_True in Hlen by done. destruct free as [|f free]; cbn in Hlen; [lia|].
    cbn. rewrite IH by lia. done.
Qed.

Lemma assign_values remain free topk :
  length (misses remain topk) = length free ->
  (assign remain free topk).*2 ≡ₚ filter (fun idx => idx ∈ remain) topk ++ free.
Proof.
  revert free. induction topk as [|idx topk IH]; intros free Hlen; unfold misses in *; [by destruct free|]. cbn [assign].
  destruct (mem idx remain) eqn:Hm.
  - apply mem_spec in Hm. rewrite filter_cons_False in Hlen by tauto. rewrite filter_cons_True by done. cbn. by rewrite IH.
  - apply mem_false in Hm. rewrite filter_cons_True in Hlen by done. rewrite filter_cons_False by done.
    destruct free as [|f free]; [done|]. cbn. rewrite IH by (cbn in Hlen; lia). apply Permutation_middle.
Qed.

Lemma place_hits_ok remain topk :
  Forall in_range topk ->
  place_hits blocks remain topk = Ok ((fun idx => if mem idx remain then Some (at_ idx) else None) <$> topk).
Proof.
  induction 1 as [|idx topk Hidx _ IH]; [done|]. cbn. rewrite IH.
  destruct (mem idx remain); [by rewrite py_idx_at|done].
Qed.

(** The map of the moves that are not the identity. *)
Definition moves l : list (Z * Z) := (fun e => (at_ e.1, at_ e.2)) <$> filter (fun e => e.1 <> e.2) l.

Lemma fill_blocks_ok remain free topk mv new :
  NoDup blocks -> NoDup topk -> Forall in_range topk -> Forall in_range free ->
  (length (misses remain topk) <= length free)%nat -> (forall f, f ∈ free -> f ∈ remain) ->
  (forall idx, idx ∈ topk -> at_ idx ∉ od_keys mv) ->
  exists rest, fill_blocks blocks (free, mv, new)
      (zip topk ((fun idx => if mem idx remain then Some (at_ idx) else None) <$> topk)) =
    Ok (rest, mv ++ moves (assign remain free topk), new ++ (at_ <$> (assign remain free topk).*2)).
Proof.
  intros Hnd Hndt Htopk. revert free mv new. induction Htopk as [|idx topk Hidx Htopk IH]; intros free mv new Hfree Hlen Hsub Hkeys.
  - exists free. cbn. by rewrite !app_nil_r.
  - apply NoDup_cons in Hndt as [Hni Hndt]. rewrite fmap_cons. cbn [zip_with fill_blocks assign]. unfold misses in Hlen.
    destruct (mem idx remain) eqn:Hm.
    + apply mem_spec in Hm. rewrite filter_cons_False in Hlen by tauto. cbn [fill_block].
      destruct (IH Hndt free mv (new ++ [at_ idx])) as [rest Hr]; [done..|intros j Hj; apply Hkeys; by right|].
      exists rest. rewrite Hr. unfold moves. rewrite filter_cons_False by (cbn; tauto).
      cbn. by rewrite <- app_assoc.
    + apply mem_false in Hm. rewrite filter_cons_True in Hlen by done. destruct free as [|f free]; [cbn in Hlen; lia|].
      apply Forall_cons in Hfree as [Hf Hfree]. cbn [fill_block]. rewrite !py_idx_at by done. cbv iota beta.
      assert (Hnew : at_ idx ∉ od_keys mv) by (apply Hkeys; left). rewrite od_set_new by done.
      destruct (IH Hndt free (mv ++ [(at_ idx, at_ f)]) (new ++ [at_ f])) as [rest Hr].
      * done.
      * cbn in Hlen. unfold misses. lia.
      * intros g Hg. apply Hsub. by right.
      * intros j Hj. unfold od_keys in *. rewrite fmap_app, elem_of_app. cbn. rewrite list_elem_of_singleton.
        intros [Hin|Heq]; [by apply (Hkeys j ltac:(by right))|].
        apply at_inj in Heq; [subst; done|done| |done]. rewrite Forall_forall in Htopk. by apply Htopk.
      * exists rest. rewrite Hr. unfold moves.
        rewrite filter_cons_True by (cbn; intros ->; apply Hm, Hsub; left). cbn. by rewrite <- !app_assoc.
Qed.

Lemma map_of_NoDup l : NoDup l.*1 -> map_of l = l.
Proof.
  unfold map_of. intros Hnd. change l with ([] ++ l) at 2. change l with ([] ++ l) in Hnd.
  assert (Hgen : forall acc, NoDup (acc ++ l).*1 -> foldl (fun m e => od_set e.1 e.2 m) acc l = acc ++ l).
  { clear Hnd. induction l as [|[k v] l IH]; intros acc Hnd; [by rewrite app_nil_r|]. cbn.
    rewrite od_set_new.
    - rewrite IH, <- app_assoc; [done|]. by rewrite <- app_assoc.
    - rewrite fmap_app in Hnd. apply NoDup_app in Hnd as (_ & Hd & _). intros Hin. apply (Hd k Hin). left. }
  by apply Hgen.
Qed.

(** Moves whose targets are distinct and not sources put every source's content
    at its target, and leave the rest. *)
Lemma apply_moves_ok {D} l (cache : Z -> D) b :
  NoDup l.*2 -> (forall x, x ∈ l.*1 -> x ∉ l.*2) ->
  (forall src, (src, b) ∈ l -> apply_moves l cache b = cache src) /\
  (b ∉ l.*2 -> apply_moves l cache b = cache b).
Proof.
  revert cache. induction l as [|[s d] l IH]; intros cache Hnd Hdis.
  - split; [intros src Hin; by apply elem_of_nil in Hin|done].
  - cbn in Hnd. apply NoDup_cons in Hnd as [Hd Hnd].
    assert (Hdis' : forall x, x ∈ l.*1 -> x ∉ l.*2).
    { intros x Hx Hin. apply (Hdis x); cbn; by right. }
    destruct (IH (fun b' => if b' =? d then cache s else cache b') Hnd Hdis') as [IH1 IH2].
    unfold apply_moves in *. cbn [foldl fst snd]. split.
    + intros src [Heq|Hin]%elem_of_cons.
      * injection Heq as <- <-. rewrite IH2 by done. by rewrite Z.eqb_refl.
      * rewrite (IH1 src Hin). rewrite (proj2 (Z.eqb_neq _ _)); [done|]. intros ->.
        apply (Hdis d); cbn; [right|left]. apply list_elem_of_fmap. by exists (d, b).
    + cbn. intros Hb. apply not_elem_of_cons in Hb as [Hbd Hb]. rewrite IH2 by done.
      by rewrite (proj2 (Z.eqb_neq _ _)).
Qed.

Lemma free_count remain topk :
  NoDup remain -> NoDup topk -> length topk = length remain ->
  let hit := filter (fun idx => idx ∈ remain) topk in
  length (misses remain topk) = length (filter (fun idx => idx ∉ hit) remain) /\
  hit ++ filter (fun idx => idx ∉ hit) remain ≡ₚ remain.
Proof.
  intros Hnr Hnt Hlen hit.
  assert (Hperm : hit ++ filter (fun idx => idx ∉ hit) remain ≡ₚ remain).
  { apply NoDup_Permutation; [|done|].
    - apply NoDup_app. split; [by apply NoDup_filter|]. split; [|by apply NoDup_filter].
      intros x Hx [Hnx _]%list_elem_of_filter. done.
    - intros x. rewrite elem_of_app. unfold hit. rewrite !list_elem_of_filter.
      destruct (decide (x ∈ topk)); tauto. }
  split; [|done]. apply Permutation_length in Hperm. rewrite length_app in Hperm.
  assert (Hsplit : (length hit + length (misses remain topk))%nat = length topk).
  { unfold hit, misses. clear. induction topk as [|x l IH]; [done|]. rewrite !filter_cons. cbn.
    destruct (decide (x ∈ remain)), (decide (x ∉ remain)); try tauto; cbn; lia. }
  lia.
Qed.

Lemma assign_hits remain free topk i j :
  (forall f, f ∈ free -> f ∈ remain) -> (i, j) ∈ assign remain free topk -> i ∈ remain -> i = j.
Proof.
  revert free. induction topk as [|idx topk IH]; intros free Hfree Hin Hi; [by apply elem_of_nil in Hin|].
  cbn in Hin. destruct (mem idx remain) eqn:Hm.
  - apply elem_of_cons in Hin as [[= -> ->]|Hin]; [done|]. by apply (IH free).
  - apply mem_false in Hm. destruct free as [|f free]; [by apply elem_of_nil in Hin|].
    apply elem_of_cons in Hin as [[= -> ->]|Hin]; [done|]. apply (IH free); [|done..].
    intros g Hg. apply Hfree. by right.
Qed.

(** Which index's place each selected index takes, and that the places are the
    remaining blocks. *)
Lemma get_mv_map_ok remain topk k :
  NoDup blocks -> NoDup remain -> NoDup topk -> length topk = length remain ->
  Forall in_range remain -> Forall in_range topk -> 0 <= k ->
  exists asg, get_mv_map blocks remain topk k =
      Ok (moves asg, (fun e => (e.1, at_ e.2)) <$> take (Z.to_nat k) asg,
                     (fun e => (e.1, at_ e.2)) <$> drop (Z.to_nat k) asg) /\
    asg.*1 = topk /\ asg.*2 ≡ₚ remain /\ (forall i j, (i, j) ∈ asg -> i ∈ remain -> i = j).
Proof.
  intros Hnb Hnr Hnt Hlen Hrr Hrt Hk. destruct (free_count remain topk Hnr Hnt Hlen) as [Hcount Hperm].
  set (free := filter (fun idx => idx ∉ filter (fun idx => idx ∈ remain) topk) remain) in *.
  assert (Hfree : forall f, f ∈ free -> f ∈ remain) by (intros f Hf; by apply list_elem_of_filter in Hf as []).
  exists (assign remain free topk). pose proof (assign_keys remain free topk ltac:(lia)) as Hkeys.
  split; [|split; [exact Hkeys|split; [by rewrite assign_values|]]].
  - unfold get_mv_map. rewrite place_hits_ok by done. fold free.
    destruct (fill_blocks_ok remain free topk [] [] Hnb Hnt Hrt) as [rest Hr]; [|lia|exact Hfree| |].
    { rewrite Forall_forall in *. auto. }
    { intros idx _ Hin. by apply elem_of_nil in Hin. }
    rewrite Hr. cbn [app].
    assert (Hz : zip topk (at_ <$> (assign remain free topk).*2) = (fun e => (e.1, at_ e.2)) <$> assign remain free topk).
    { rewrite <- Hkeys at 1. generalize (assign remain free topk). intros l. induction l as [|[i j] l IH]; [done|].
      cbn. f_equal. exact IH. }
    rewrite Hz, !fmap_take, !fmap_drop.
    assert (Hnd : NoDup ((fun e => (e.1, at_ e.2)) <$> assign remain free topk).*1).
    { rewrite <- list_fmap_compose. change (NoDup (assign remain free topk).*1). by rewrite Hkeys. }
    rewrite !map_of_NoDup; [done| |]; (eapply sublist_NoDup; [exact Hnd|apply sublist_fmap]);
      first [apply sublist_take|apply sublist_drop].
  - intros i j. by apply assign_hits.
Qed.

(** The moves of an assignment put the content of each index's block at its place. *)
Lemma moves_content {D} remain asg (cache : Z -> D) i j :
  NoDup blocks -> NoDup remain -> Forall in_range remain -> asg.*2 ≡ₚ remain ->
  (forall i j, (i, j) ∈ asg -> in_range i /\ in_range j /\ j ∈ remain) ->
  (forall i j, (i, j) ∈ asg -> i ∈ remain -> i = j) -> (i, j) ∈ asg ->
  apply_moves (moves asg) cache (at_ j) = cache (at_ i).
Proof.
  intros Hnb Hnr Hrr Hvals Hrange Hhit Hin. destruct (Hrange i j Hin) as (Hi & Hj & Hjr).
  assert (Hsub : moves asg `sublist_of` ((fun e => (at_ e.1, at_ e.2)) <$> asg)).
  { unfold moves. apply sublist_fmap. apply sublist_filter. }
  assert (Hnd2 : NoDup (at_ <$> asg.*2)).
  { rewrite Hvals. clear -Hnb Hnr Hrr. induction Hrr as [|x l Hx Hl IH]; [constructor|].
    apply NoDup_cons in Hnr as [Hxl Hnl]. cbn. constructor; [|by apply IH].
    intros (y & Heq & Hy)%list_elem_of_fmap. apply at_inj in Heq; [by subst|done|done|].
    rewrite Forall_forall in Hl. by apply Hl. }
  assert (Hmv : NoDup (moves asg).*2).
  { eapply sublist_NoDup; [|apply (sublist_fmap snd), Hsub]. rewrite <- list_fmap_compose.
    by rewrite <- list_fmap_compose in Hnd2. }
  assert (Hdis : forall x, x ∈ (moves asg).*1 -> x ∉ (moves asg).*2).
  { intros x ([s d] & -> & ([i1 j1] & [= -> ->] & [Hne1 Hin1]%list_elem_of_filter)%list_elem_of_fmap)%list_elem_of_fmap
           ([s2 d2] & Heq & ([i2 j2] & [= -> ->] & [Hne2 Hin2]%list_elem_of_filter)%list_elem_of_fmap)%list_elem_of_fmap.
    cbn in *. destruct (Hrange _ _ Hin1) as (Hr1 & _). destruct (Hrange _ _ Hin2) as (_ & Hr2 & Hj2).
    apply at_inj in Heq; [|done..]. subst. by apply Hne1, Hhit. }
  destruct (apply_moves_ok (moves asg) cache (at_ j) Hmv Hdis) as [Hmoved Hkept].
  destruct (decide (i = j)) as [->|Hne].
  + apply Hkept. intros ([s d] & Heq & ([i1 j1] & [= -> ->] & [Hne1 Hin1]%list_elem_of_filter)%list_elem_of_fmap)%list_elem_of_fmap.
    cbn in *. destruct (Hrange _ _ Hin1) as (_ & Hr1 & _). apply at_inj in Heq; [|done..]. subst.
    assert (Hsame : i1 = j1); [|done].
    assert (Hndv : NoDup asg.*2) by (by rewrite Hvals).
    apply list_elem_of_lookup in Hin as [a Ha]. apply list_elem_of_lookup in Hin1 as [a1 Ha1].
    assert (a = a1) as <-; [|congruence].
    apply (NoDup_lookup _ _ _ j1 Hndv); rewrite list_lookup_fmap; [by rewrite Ha|by rewrite Ha1].
  + apply Hmoved. apply list_elem_of_fmap. exists (i, j). split; [done|]. by apply list_elem_of_filter.
Qed.

(** C31. The moves of the last chunk keep the content of every selected block.  When as many
    blocks are selected as remain, [get_mv_map] never runs out of places, the remain map
    and the prefetch map together give each selected index a block of its own among those that
    remain, the first [remain_len] selected ones in the remain map; and after the copies,
    made in the order of the map, each of these blocks holds what the selected block
    held before. *)
Theorem moved_blocks_keep_their_content {D} remain topk k (cache : Z -> D) :
  NoDup blocks -> NoDup remain -> NoDup topk -> length topk = length remain ->
  Forall in_range remain -> Forall in_range topk -> 0 <= k ->
  exists mv rm pm, get_mv_map blocks remain topk k = Ok (mv, rm, pm) /\
    od_keys rm ++ od_keys pm = topk /\
    od_values rm ++ od_values pm ≡ₚ (fun i => default 0 (py_nth blocks i)) <$> remain /\
    forall (n : nat) idx, topk !! n = Some idx ->
      exists nb b, od_get idx (if Z.of_nat n <? k then rm else pm) = Some nb /\ py_nth blocks idx = Some b /\
        apply_moves mv cache nb = cache b.
Proof.
  intros Hnb Hnr Hnt Hlen Hrr Hrt Hk.
  destruct (get_mv_map_ok remain topk k Hnb Hnr Hnt Hlen Hrr Hrt Hk) as (asg & Hget & Hkeys & Hvals & Hhit).
  eexists _, _, _. split; [exact Hget|].
  assert (Hrange : forall i j, (i, j) ∈ asg -> in_range i /\ in_range j /\ j ∈ remain).
  { intros i j Hin. rewrite Forall_forall in Hrr, Hrt.
    assert (Hj : j ∈ remain) by (rewrite <- Hvals; apply list_elem_of_fmap; by exists (i, j)).
    split; [|split; [by apply Hrr|done]]. apply Hrt. rewrite <- Hkeys. apply list_elem_of_fmap. by exists (i, j). }
  assert (Hk1 : forall l, od_keys ((fun e : Z * Z => (e.1, at_ e.2)) <$> l) = l.*1)
    by (intros l; unfold od_keys; by rewrite <- list_fmap_compose).
  assert (Hv1 : forall l, od_values ((fun e : Z * Z => (e.1, at_ e.2)) <$> l) = at_ <$> l.*2)
    by (intros l; unfold od_values; by rewrite <- !list_fmap_compose).
  split; [by rewrite !Hk1, <- fmap_app, take_drop|].
  split; [by rewrite !Hv1, <- !fmap_app, take_drop, Hvals|].
  intros n idx Hn. rewrite <- Hkeys, list_lookup_fmap in Hn. apply fmap_Some in Hn as ([i j] & Hij & ->). cbn.
  assert (Hin : (i, j) ∈ asg) by (by eapply list_elem_of_lookup_2).
  destruct (Hrange i j Hin) as (Hi & Hj & Hjr). exists (at_ j), (at_ i).
  assert (Hat : py_nth blocks i = Some (at_ i)).
  { pose proof (py_idx_at i Hi) as Hx. unfold py_idx in Hx. destruct (py_nth blocks i); [|done]. by injection Hx as ->. }
  split; [|split; [exact Hat|]].
  - assert (Hnk : forall l, l `sublist_of` asg -> NoDup (od_keys ((fun e : Z * Z => (e.1, at_ e.2)) <$> l))).
    { intros l Hl. rewrite Hk1. eapply sublist_NoDup; [|apply (sublist_fmap fst), Hl]. by rewrite Hkeys. }
    destruct (Z.ltb_spec (Z.of_nat n) k); apply od_elem_get; [by apply Hnk, sublist_take| |by apply Hnk, sublist_drop|];
      apply list_elem_of_fmap; exists (i, j); (split; [done|]).
    + apply (list_elem_of_lookup_2 _ n). rewrite lookup_take_lt by lia. done.
    + apply (list_elem_of_lookup_2 _ (n - Z.to_nat k)). rewrite lookup_drop.
      by replace (Z.to_nat k + (n - Z.to_nat k))%nat with n by lia.
  - by apply (moves_content remain).
Qed.
End moves.

(** ** Offsets in a stored block *)

(** [block_shape] is block size, key heads per rank and head size. *)
Definition get_offset (block_shape : Z * Z * Z) (rank tp_size precision layer_id : Z) (is_v is_mla : bool) : Z :=
  let '(block_size, num_key_heads_per_tp, head_size) := block_shape in
  let k_min_data_block_size := block_size * num_key_heads_per_tp * head_size * precision in
  let v_min_data_block_size := if negb is_mla then k_min_data_block_size else 0 in
  let layer_size := (k_min_data_block_size + v_min_data_block_size) * (if negb is_mla then tp_size else 1) in
  let k_offset := if is_mla then layer_size * layer_id
                  else layer_size * layer_id + layer_size / tp_size * rank in
  let v_offset := k_offset + k_min_data_block_size in
  if is_v then v_offset else k_offset.

Definition compute_layer_offset (block_data_size layer_id : Z) (is_v is_mla : bool) : Z :=
  let layer_data_size := if is_mla then block_data_size else block_data_size * 2 in
  let k_offset := layer_data_size * layer_id in
  if is_mla then k_offset
  else
    let v_offset := k_offset + block_data_size in
    if is_v then v_offset else k_offset.

Lemma get_offset_index a b d rank tp p layer (is_v : bool) :
  0 < tp ->
  get_offset (a, b, d) rank tp p layer is_v false =
    (a * b * d * p) * (2 * (tp * layer + rank) + (if is_v then 1 else 0)).
Proof.
  intros Htp. unfold get_offset. cbn [negb]. set (k := a * b * d * p).
  replace ((k + k) * tp / tp) with (2 * k) by (rewrite Z.div_mul; lia). destruct is_v; ring.
Qed.

(** The parts of a stored block do not overlap.  In the layout the worker and the store agree
    on, the keys and values of every layer and rank take disjoint ranges that fill
    [layers * tp_size] pairs of parts; with one rank the layout is the one [compute_layer_offset]
    uses for the transfers. *)
Theorem kv_offsets_do_not_overlap bs heads hd tp p layers l1 l2 r1 r2 (v1 v2 : bool) :
  let size := bs * heads * hd * p in
  0 < size -> 0 < tp -> 0 <= r1 < tp -> 0 <= r2 < tp -> 0 <= l1 < layers -> 0 <= l2 < layers ->
  (l1, r1, v1) <> (l2, r2, v2) ->
  let o1 := get_offset (bs, heads, hd) r1 tp p l1 v1 false in
  let o2 := get_offset (bs, heads, hd) r2 tp p l2 v2 false in
  (o1 + size <= o2 \/ o2 + size <= o1) /\
  0 <= o1 /\ o1 + size <= 2 * size * tp * layers /\
  compute_layer_offset size l1 v1 false = get_offset (bs, heads, hd) 0 1 p l1 v1 false.
Proof.
  intros size Hs Htp Hr1 Hr2 Hl1 Hl2 Hne o1 o2. unfold o1, o2. rewrite !get_offset_index by lia. fold size.
  assert (He : tp * l1 + r1 <> tp * l2 + r2 \/ v1 <> v2).
  { destruct (decide (v1 = v2)) as [->|]; [|by right]. left. intros Heq. apply Hne.
    destruct (Z.div_mod_unique tp l1 l2 r1 r2) as [-> ->]; [by left|by left|exact Heq|done]. }
  set (e1 := tp * l1 + r1) in *. set (e2 := tp * l2 + r2) in *.
  assert (Hb1 : 0 <= e1 < tp * layers) by (unfold e1; nia).
  split; [|split; [|split]].
  - set (i1 := 2 * e1 + (if v1 then 1 else 0)). set (i2 := 2 * e2 + (if v2 then 1 else 0)).
    assert (Hi : i1 < i2 \/ i2 < i1) by (unfold i1, i2; destruct v1, v2; destruct He as [He|He]; try done; lia).
    clearbody size i1 i2. destruct Hi; [left|right]; nia.
  - clearbody size. destruct v1; nia.
  - assert (Hm : size * (2 * e1 + (if v1 then 1 else 0) + 1) <= size * (2 * (tp * layers)))
      by (apply Z.mul_le_mono_nonneg_l; [lia|destruct v1; lia]).
    clearbody size e1. lia.
  - unfold compute_layer_offset. destruct v1; ring.
Qed.

(** ** The transfer tasks *)

(** A tensor a block is loaded into: the keys or the values of a layer at a block. *)
Record Dst := {
  d_layer : Z;
  d_is_v : bool;
  d_block : Z;
}.

Section transfer.
Context {H : Type} (use_mla : bool) (block_data_size : Z).

Fixpoint pick_hashes (req_block_hash : option (list H)) (miss : list Z) : res (list H) :=
  match miss with
  | [] => Ok []
  | i :: miss' =>
      let? hs := of_option TypeError req_block_hash in
      let? x := py_idx hs i in
      let? xs := pick_hashes req_block_hash miss' in
      Ok (x :: xs)
  end.

(** The three lists one layer of a request adds. *)
Definition layer_transfer (req_block_hash : option (list H)) (layer_id : Z) (free : list Z) (miss : res (list Z))
    : res (list H * list Z * list Dst) :=
  let length := pylen free in
  if length =? 0 then Ok ([], [], [])
  else
    let? miss := miss in
    let? hs := pick_hashes req_block_hash miss in
    let dst v := (fun b => {| d_layer := layer_id; d_is_v := v; d_block := b |}) <$> free in
    let offset v := py_repeat (compute_layer_offset block_data_size layer_id v use_mla) length in
    if use_mla then Ok (hs, offset false, dst false)
    else Ok (hs ++ hs, offset false ++ offset true, dst false ++ dst true).

Fixpoint layers_transfer (req_block_hash : option (list H)) (layers : list Z) (free : list (list Z))
    (miss : res (list (list Z))) : res (list H * list Z * list Dst) :=
  match layers with
  | [] => Ok ([], [], [])
  | l :: layers' =>
      let? f := py_idx free l in
      let? r := layer_transfer req_block_hash l f (let? ms := miss in py_idx ms l) in
      let? rest := layers_transfer req_block_hash layers' free miss in
      let '(hs, os, ds) := r in
      let '(hs', os', ds') := rest in
      Ok (hs ++ hs', os ++ os', ds ++ ds')
  end.

(** The arguments of the load: [hashes] are the block hashes of each request. *)
Fixpoint transfer_lists (layer_num : Z) (hashes : list (string * option (list H)))
    (free : list (string * list (list Z))) (all_miss : option (list (string * list (list Z))))
    : res (list H * list Z * list Dst) :=
  match free with
  | [] => Ok ([], [], [])
  | (id, f) :: free' =>
      let? hs := of_option KeyError (od_get id hashes) in
      let miss := let? ms := of_option TypeError all_miss in of_option KeyError (od_get id ms) in
      let? r := layers_transfer hs (zrange 0 layer_num) f miss in
      let? rest := transfer_lists layer_num hashes free' all_miss in
      let '(hs, os, ds) := r in
      let '(hs', os', ds') := rest in
      Ok (hs ++ hs', os ++ os', ds ++ ds')
  end.

(** [task_load], the tasks by their hash; [load] and [check] are the store's. *)
Definition launch_transfer_task {T} (task_hash : list H -> Z) (load : list H -> list Z -> list Dst -> T)
    (layer_num : Z) (hashes : list (string * option (list H)))
    (free miss : option (list (string * list (list Z)))) : M (list (Z * T)) unit :=
  match free with
  | None => ret tt
  | Some free =>
      let! ' (hs, os, ds) := lift_res (transfer_lists layer_num hashes free miss) in
      modify (od_set (task_hash hs) (load hs os ds))
  end.

Fixpoint all_done {T} (check : T -> bool) (tasks : list (Z * T)) : bool :=
  match tasks with
  | [] => true
  | (_, t) :: tasks' => if check t then all_done check tasks' else false
  end.

Definition check_transfer_task_done {T} (check : T -> bool) : M (list (Z * T)) bool :=
  let! tasks := get in
  match tasks with
  | [] => ret true
  | _ => if all_done check tasks then do! modify (fun _ => []) in ret true else ret false
  end.

(** What one layer loads: the keys, then the values, of each missed block. *)
Definition layer_loads (hs : list H) (layer : Z) (free miss : list Z) (v : bool) : list (option H * Z * Dst) :=
  (fun bm => (py_nth hs bm.2, compute_layer_offset block_data_size layer v use_mla,
              {| d_layer := layer; d_is_v := v; d_block := bm.1 |})) <$> zip free miss.

Definition loads_of (l : list H * list Z * list Dst) : list (option H * Z * Dst) :=
  zip (zip (Some <$> l.1.1) l.1.2) l.2.

Lemma pick_hashes_ok hs miss : Forall (fun i => 0 <= i < pylen hs) miss ->
  exists l, pick_hashes (Some hs) miss = Ok l /\ Some <$> l = py_nth hs <$> miss.
Proof.
  induction 1 as [|i miss Hi _ (l & Hl & Hm)]; [by exists []|]. cbn [pick_hashes of_option]. unfold py_idx.
  destruct (py_nth hs i) as [x|] eqn:Hx.
  - cbn [of_option]. rewrite Hl. exists (x :: l). split; [done|]. by rewrite !fmap_cons, Hm, Hx.
  - rewrite py_nth_nonneg in Hx by lia. apply lookup_ge_None in Hx. unfold pylen in Hi. lia.
Qed.

Lemma zip3_repeat (hs : list (option H)) (o : Z) (ds : list Dst) :
  length hs = length ds -> zip (zip hs (py_repeat o (pylen ds))) ds = (fun hd : option H * Dst => (hd.1, o, hd.2)) <$> zip hs ds.
Proof.
  unfold py_repeat, pylen. rewrite Nat2Z.id. revert ds.
  induction hs as [|x hs IH]; intros [|d ds] Hlen; try done. cbn. f_equal. apply IH. by injection Hlen.
Qed.

Lemma zip_fmap_both (hs : list H) free miss layer (o : Z) v :
  length miss = length free ->
  (fun hd : option H * Dst => (hd.1, o, hd.2)) <$> zip (py_nth hs <$> miss)
      ((fun b => {| d_layer := layer; d_is_v := v; d_block := b |}) <$> free) =
  (fun bm => (py_nth hs bm.2, o, {| d_layer := layer; d_is_v := v; d_block := bm.1 |})) <$> zip free miss.
Proof. revert miss. induction free as [|f free IH]; intros [|m miss] Hlen; try done. cbn. f_equal. apply IH. by injection Hlen. Qed.

Lemma layer_transfer_ok hs layer free miss :
  length miss = length free -> Forall (fun i => 0 <= i < pylen hs) miss ->
  exists l, layer_transfer (Some hs) layer free (Ok miss) = Ok l /\
    length l.1.1 = length l.2 /\ length l.1.2 = length l.2 /\
    loads_of l = layer_loads hs layer free miss false ++
                 (if use_mla then [] else layer_loads hs layer free miss true).
Proof.
  intros Hlen Hm. unfold layer_transfer, loads_of. destruct (Z.eqb_spec (pylen free) 0) as [Hz|Hz].
  { apply pylen_zero in Hz as ->. exists ([], [], []). by destruct use_mla. }
  destruct (pick_hashes_ok hs miss Hm) as (l & -> & Hl).
  assert (Hll : length l = length free) by (rewrite <- Hlen, <- (length_fmap (py_nth hs) miss), <- Hl; by rewrite length_fmap).
  assert (Hone : forall v, zip (zip (Some <$> l) (py_repeat (compute_layer_offset block_data_size layer v use_mla) (pylen free)))
      ((fun b => {| d_layer := layer; d_is_v := v; d_block := b |}) <$> free) = layer_loads hs layer free miss v).
  { intros v. set (ds := _ <$> free). assert (Hds : pylen free = pylen ds) by (unfold ds; by rewrite pylen_fmap).
    rewrite Hds, zip3_repeat, Hl by (unfold ds; rewrite !length_fmap; lia). by apply zip_fmap_both. }
  assert (Hrep : forall o : Z, length (py_repeat o (pylen free)) = length free)
    by (intros o; unfold py_repeat, pylen; rewrite length_replicate; lia).
  destruct use_mla eqn:Hmla.
  - eexists. split; [reflexivity|]. cbn [fst snd]. rewrite Hrep, length_fmap. split; [done|]. split; [done|]. rewrite Hone. symmetry. apply app_nil_r.
  - eexists. split; [reflexivity|]. cbn [fst snd]. rewrite !length_app, !Hrep, !length_fmap. split; [lia|]. split; [done|].
    rewrite fmap_app, !zip_with_app; [by rewrite !Hone| |]; rewrite ?length_zip_with, ?Hrep, !length_fmap; lia.
Qed.
End transfer.

(** [set_block_hashes] computes the hash of every block and stores none of them. *)
Lemma set_block_hashes_stores_none {H} (env : GSAEnv H) token_ids : set_block_hashes env token_ids None = [].
Proof.
  assert (Hnil : forall starts parent, (hash_blocks env token_ids starts [] parent).1 = []).
  { induction starts as [|s starts IH]; intros parent; [done|]. cbn. by destruct (_ <? _). }
  unfold set_block_hashes. rewrite Hnil. by destruct (_ && _).
Qed.

(** So the first transfer of a missed block fails. *)
Lemma transfer_without_hashes {H} mla size layer (b : Z) (i : Z) free miss :
  layer_transfer mla size (Some (@nil H)) layer (b :: free) (Ok (i :: miss)) = Err IndexError.
Proof.
  unfold layer_transfer. rewrite pylen_cons. pose proof (pylen_nonneg free) as Hn.
  rewrite (proj2 (Z.eqb_neq (1 + pylen free) 0)) by lia. cbn [pick_hashes of_option].
  assert (Hnil : py_nth (@nil H) i = None) by (unfold py_nth; repeat case_match; by rewrite ?lookup_nil).
  unfold py_idx. by rewrite Hnil.
Qed.

Module SparseDemo.
(** Blocks of 128 tokens: at most 48 blocks of a prompt of 66 remain. *)
Definition cfg : GSAConfig :=
  {| gc_block_size := 128; init_windows_size := 1; num_prefetch_blocks := 1; min_topk_len := 32; max_topk_len := 48;
     num_gsa_blocks := Some 1 |}.
Definition request : SparseRequest :=
  {| sr_id := "r"; sr_num_prompt_tokens := 8448; sr_num_output_tokens := 1; sr_num_tokens := 8449 |}.
Definition demo_ops : SlotOps (list Z) := {|
  maybe_evict_cached_block b k := b :: k;
  free_blocks l s := MkSlots (sl_table s) (sl_ref_cnt s) (sl_rest s ++ l);
  blocks_to_allocate _ _ _ := 1;
  sl_num_free_blocks s := 1;
  sl_allocate_new_blocks id _ s :=
    MkSlots (<[id := default [] (sl_table s !! id) ++ [500]]> (sl_table s)) (sl_ref_cnt s) (sl_rest s) |}.
Definition start : SlotState (list Z) := MkSlots {["r" := zrange 100 166]} ∅ [].

Example topk_of_66 : compute_topk_len cfg 66 = Ok 32 /\ compute_topk_len cfg 200 = Ok 48 /\ compute_topk_len cfg 120 = Ok 36.
Proof. by vm_compute. Qed.
End SparseDemo.
Import SparseDemo.

Lemma scheduler_and_worker_keep_the_same_blocks_witness :
  exists slots returned, estimate_num_slots_sparsed true cfg 128 request = Ok slots /\
    omap (fun i => py_nth (zrange 100 166) i) (last_chunk_remain_idx cfg 66 32) ++ returned ≡ₚ zrange 100 166 /\
    pylen (omap (fun i => py_nth (zrange 100 166) i) (last_chunk_remain_idx cfg 66 32)) = 33.
Proof.
  destruct (scheduler_and_worker_keep_the_same_blocks demo_ops cfg 128 request 32 start)
    as (slots & returned & _ & _ & Hest & Hlen & Hperm & _).
  - reflexivity.
  - by split.
  - reflexivity.
  - reflexivity.
  - discriminate.
  - by vm_compute.
  - by vm_compute.
  - exists slots, returned. split; [exact Hest|]. split; [exact Hperm|]. exact Hlen.
Defined.

(** Blocks 10 and 13 remain, indices 3 and 1 are selected: block 11 moves to block 10. *)
Lemma moved_blocks_keep_their_content_witness :
  exists mv rm pm, get_mv_map [10; 11; 12; 13] [0; 3] [3; 1] 1 = Ok (mv, rm, pm) /\
    od_get 1 pm = Some 10 /\ apply_moves mv (fun b => b * 100) 10 = 1100.
Proof.
  destruct (moved_blocks_keep_their_content [10; 11; 12; 13] [0; 3] [3; 1] 1 (fun b => b * 100))
    as (mv & rm & pm & Hget & _ & _ & Hcontent).
  - apply (bool_decide_eq_true_1 (NoDup [10; 11; 12; 13])). by vm_compute.
  - apply (bool_decide_eq_true_1 (NoDup [0; 3])). by vm_compute.
  - apply (bool_decide_eq_true_1 (NoDup [3; 1])). by vm_compute.
  - reflexivity.
  - repeat constructor; discriminate.
  - repeat constructor; discriminate.
  - discriminate.
  - exists mv, rm, pm. split; [exact Hget|].
    destruct (Hcontent 1%nat 1 eq_refl) as (nb & b & Hnb & Hb & Hc). vm_compute in Hb. injection Hb as <-.
    assert (Hpm : od_get 1 pm = Some 10).
    { assert (Heq : get_mv_map [10; 11; 12; 13] [0; 3] [3; 1] 1 = Ok ([(11, 10)], [(3, 13)], [(1, 10)])) by (by vm_compute).
      rewrite Heq in Hget. by injection Hget as <- <- <-. }
    split; [exact Hpm|]. change (od_get 1 pm = Some nb) in Hnb. rewrite Hpm in Hnb. injection Hnb as <-. exact Hc.
Defined.

(** Four layers on two ranks: the values of rank 0 end where the keys of rank 1 begin. *)
Lemma kv_offsets_do_not_overlap_witness :
  let o1 := get_offset (128, 2, 64) 0 2 2 3 true false in
  let o2 := get_offset (128, 2, 64) 1 2 2 3 false false in
  (o1 + 32768 <= o2 \/ o2 + 32768 <= o1) /\ o1 + 32768 <= 2 * 32768 * 2 * 4.
Proof.
  destruct (kv_offsets_do_not_overlap 128 2 64 2 2 4 3 3 0 1 true false) as (Hd & _ & Hb & _);
    [reflexivity|reflexivity|by split|by split|by split|by split|discriminate|].
  exact (conj Hd Hb).
Defined.
