(* ===== verification/Wp.v ===== *)
(** * Total correctness of stateful, fallible code

    [wp m Q s]: run from [s], [m] returns a result and leaves a state with
    which [Q] holds; an exception satisfies nothing.  The rules below follow
    the structure of the code, so that a proof about a handler goes statement
    by statement. *)

From S2P Require Import Prelude.
Local Open Scope Z_scope.
Local Open Scope py_scope.

Definition wp {S A} (m : M S A) (Q : A -> S -> Prop) (s : S) : Prop :=
  match m s with (Ok a, s') => Q a s' | (Err _, _) => False end.

Section rules.
Context {S : Type}.

Lemma wp_elim {A} (m : M S A) Q s : wp m Q s -> exists a s', m s = (Ok a, s') /\ Q a s'.
Proof. unfold wp. destruct (m s) as [[a|e] s']; [eauto|done]. Qed.
Lemma wp_intro {A} (m : M S A) (Q : A -> S -> Prop) s a s' : m s = (Ok a, s') -> Q a s' -> wp m Q s.
Proof. unfold wp. by intros ->. Qed.
Lemma wp_mono {A} (m : M S A) (Q Q' : A -> S -> Prop) s :
  wp m Q s -> (forall a s', Q a s' -> Q' a s') -> wp m Q' s.
Proof. unfold wp. destruct (m s) as [[a|e] s']; auto. Qed.
Lemma wp_bind {A B} (m : M S A) (k : A -> M S B) Q s :
  wp m (fun a => wp (k a) Q) s -> wp (bind m k) Q s.
Proof. unfold wp, bind. destruct (m s) as [[a|e] s']; auto. Qed.
(** A call by its specification. *)
Lemma wp_call {A B} (m : M S A) (k : A -> M S B) (R : A -> S -> Prop) Q s :
  wp m R s -> (forall a s', R a s' -> wp (k a) Q s') -> wp (bind m k) Q s.
Proof. intros Hm Hk. apply wp_bind. eapply wp_mono; [exact Hm|exact Hk]. Qed.
Lemma wp_ret {A} (a : A) (Q : A -> S -> Prop) s : Q a s -> wp (ret a) Q s.
Proof. done. Qed.
Lemma wp_gets {A} (f : S -> A) (Q : A -> S -> Prop) s : Q (f s) s -> wp (gets f) Q s.
Proof. done. Qed.
Lemma wp_modify (f : S -> S) (Q : unit -> S -> Prop) s : Q tt (f s) -> wp (modify f) Q s.
Proof. done. Qed.
Lemma wp_assert b (Q : unit -> S -> Prop) s : b = true -> Q tt s -> wp (py_assert b) Q s.
Proof. by intros ->. Qed.
Lemma wp_lift {A} (r : res A) a (Q : A -> S -> Prop) s : r = Ok a -> Q a s -> wp (lift_res r) Q s.
Proof. by intros ->. Qed.
Lemma wp_zoom {T A} (g : S -> T) p (m : M T A) Q s :
  wp m (fun a t => Q a (p t s)) (g s) -> wp (zoom g p m) Q s.
Proof. unfold wp, zoom. by destruct (m (g s)) as [[a|e] t]. Qed.

(** A loop by its invariant. *)
Lemma wp_for {A} (I : S -> Prop) (l : list A) f (Q : unit -> S -> Prop) s :
  I s -> (forall x s, x ∈ l -> I s -> wp (f x) (fun _ => I) s) -> (forall s, I s -> Q tt s) -> wp (for_ l f) Q s.
Proof.
  revert s. induction l as [|x l IH]; intros s Hi Hf Hq; [by apply Hq|]. simpl.
  eapply wp_call; [apply Hf; [by left|done]|]. intros [] s' Hs'.
  apply IH; [done| |done]. intros y s'' Hy. apply Hf. by right.
Qed.
Lemma wp_map_m {A B} (f : A -> M S B) (g : A -> B) (l : list A) s (Q : list B -> S -> Prop) :
  (forall x, x ∈ l -> f x s = (Ok (g x), s)) -> Q (g <$> l) s -> wp (map_m f l) Q s.
Proof.
  intros Hf HQ. eapply wp_intro; [|exact HQ]. clear HQ Q. induction l as [|x l IH]; [done|]. simpl.
  rewrite (bind_ok _ _ _ _ _ (Hf x ltac:(by left))), (bind_ok _ _ _ (g <$> l) s); [done|].
  apply IH. intros y Hy. apply Hf. by right.
Qed.
Lemma wp_map_Forall2 {A B} (f : A -> M S B) (l : list A) (ys : list B) s (Q : list B -> S -> Prop) :
  Forall2 (fun x y => f x s = (Ok y, s)) l ys -> Q ys s -> wp (map_m f l) Q s.
Proof.
  intros Hf HQ. eapply wp_intro; [|exact HQ]. clear HQ Q. induction Hf as [|x y l ys Hx Hl IH]; [done|]. simpl.
  by rewrite (bind_ok _ _ _ _ _ Hx), (bind_ok _ _ _ _ _ IH).
Qed.
End rules.

(** ** Code that may fail in known ways

    [wpx ok m Q s]: an exception is one of [ok]. *)
Definition wpx {S A} (ok : exn -> bool) (m : M S A) (Q : A -> S -> Prop) (s : S) : Prop :=
  match m s with (Ok a, s') => Q a s' | (Err e, _) => ok e = true end.

#[global] Arguments wp {S A} m Q s : simpl never.
#[global] Arguments wpx {S A} ok m Q s : simpl never.

Section may_fail.
Context {S : Type} (ok : exn -> bool).

Lemma wpx_wp {A} (m : M S A) Q s : wp m Q s -> wpx ok m Q s.
Proof. unfold wp, wpx. by destruct (m s) as [[a|e] s']. Qed.
Lemma wpx_run {A} (m : M S A) Q s a s' : m s = (Ok a, s') -> wpx ok m Q s -> Q a s'.
Proof. unfold wpx. by intros ->. Qed.
Lemma wpx_err {A} (m : M S A) Q s e s' : m s = (Err e, s') -> wpx ok m Q s -> ok e = true.
Proof. unfold wpx. by intros ->. Qed.
Lemma wpx_of {A} (m : M S A) (Q : A -> S -> Prop) s :
  (forall e s', m s = (Err e, s') -> ok e = true) -> (forall a s', m s = (Ok a, s') -> Q a s') -> wpx ok m Q s.
Proof. unfold wpx. destruct (m s) as [[a|e] s']; eauto. Qed.
Lemma wpx_mono {A} (m : M S A) (Q Q' : A -> S -> Prop) s :
  wpx ok m Q s -> (forall a s', Q a s' -> Q' a s') -> wpx ok m Q' s.
Proof. unfold wpx. destruct (m s) as [[a|e] s']; auto. Qed.
Lemma wpx_bind {A B} (m : M S A) (k : A -> M S B) Q s :
  wpx ok m (fun a => wpx ok (k a) Q) s -> wpx ok (bind m k) Q s.
Proof. unfold wpx, bind. destruct (m s) as [[a|e] s']; auto. Qed.
Lemma wpx_call {A B} (m : M S A) (k : A -> M S B) (R : A -> S -> Prop) Q s :
  wpx ok m R s -> (forall a s', R a s' -> wpx ok (k a) Q s') -> wpx ok (bind m k) Q s.
Proof. intros Hm Hk. apply wpx_bind. eapply wpx_mono; [exact Hm|exact Hk]. Qed.
Lemma wpx_zoom {T A} (g : S -> T) p (m : M T A) Q s :
  wpx ok m (fun a t => Q a (p t s)) (g s) -> wpx ok (zoom g p m) Q s.
Proof. unfold wpx, zoom. by destruct (m (g s)) as [[a|e] t]. Qed.
End may_fail.

(** ** Code that stays within a relation

    [msteps R m]: whatever the result, the state is left in [R] of the state
    before; for a preorder [R] the statements compose. *)
Definition msteps {S A} (R : S -> S -> Prop) (m : M S A) : Prop := forall s, R s (m s).2.

Section within.
Context {S : Type} (R : S -> S -> Prop) `{!PreOrder R}.

Lemma msteps_run {A} (m : M S A) s r s' : msteps R m -> m s = (r, s') -> R s s'.
Proof. intros Hm Hr. pose proof (Hm s) as Hs. by rewrite Hr in Hs. Qed.
Lemma msteps_ret {A} (a : A) : msteps R (ret a).
Proof. intros s. simpl. reflexivity. Qed.
Lemma msteps_raise {A} e : msteps R (raise (A := A) e).
Proof. intros s. simpl. reflexivity. Qed.
Lemma msteps_gets {A} (f : S -> A) : msteps R (gets f).
Proof. intros s. simpl. reflexivity. Qed.
Lemma msteps_lift {A} (r : res A) : msteps R (lift_res r).
Proof. intros s. simpl. reflexivity. Qed.
Lemma msteps_bind {A B} (m : M S A) (k : A -> M S B) :
  msteps R m -> (forall a, msteps R (k a)) -> msteps R (bind m k).
Proof.
  intros Hm Hk s. unfold bind. pose proof (Hm s) as Hs. destruct (m s) as [[a|e] s']; simpl in *; [|done].
  etransitivity; [exact Hs|apply Hk].
Qed.
Lemma msteps_for {A} (l : list A) f : (forall x, msteps R (f x)) -> msteps R (for_ l f).
Proof. intros Hf. induction l; [apply msteps_ret|by apply msteps_bind]. Qed.
Lemma msteps_map {A B} (l : list A) (f : A -> M S B) : (forall x, msteps R (f x)) -> msteps R (map_m f l).
Proof.
  intros Hf. induction l; [apply msteps_ret|]. apply msteps_bind; [done|]. intros y.
  apply msteps_bind; [done|]. intros ys. apply msteps_ret.
Qed.
End within.
Create HintDb msteps.
(** A statement and what follows it; down to the calls that change the state,
    which the hints of [msteps] close. *)
Ltac m_bind := apply msteps_bind; [typeclasses eauto| |].
Ltac m_steps :=
  repeat first
    [ apply msteps_ret; typeclasses eauto
    | apply msteps_raise; typeclasses eauto
    | apply msteps_gets; typeclasses eauto
    | apply msteps_lift; typeclasses eauto
    | solve [auto with msteps]
    | apply msteps_bind; [typeclasses eauto| |intros ?]
    | apply msteps_for; [typeclasses eauto|intros ?]
    | apply msteps_map; [typeclasses eauto|intros ?]
    | match goal with |- msteps _ (match ?x with _ => _ end) => destruct x end ].

(** One statement of the code. *)
Ltac wp_step :=
  match goal with
  | |- wp (bind _ _) _ _ => apply wp_bind
  | |- wp (ret _) _ _ => apply wp_ret
  | |- wp (gets _) _ _ => apply wp_gets
  | |- wp (modify _) _ _ => apply wp_modify
  | |- wpx _ (bind _ _) _ _ => apply wpx_bind
  | |- wpx _ (ret _) _ _ => apply wpx_wp, wp_ret
  | |- wpx _ (gets _) _ _ => apply wpx_wp, wp_gets
  | |- wpx _ (modify _) _ _ => apply wpx_wp, wp_modify
  | |- wpx _ (lift_res (Ok _)) _ _ => apply wpx_wp; eapply wp_lift; [reflexivity|]
  end; cbv beta.
Ltac wp_steps := repeat wp_step.
(** A lookup that succeeds. *)
Ltac wp_lift := apply wpx_wp; eapply wp_lift; [first [reflexivity|eassumption]|]; wp_steps.
(** The same, and nothing after it. *)
Ltac wp_lift1 := apply wpx_wp; eapply wp_lift; [first [reflexivity|eassumption]|]; cbv beta.
