(* ===== verification/SparseScheduler.v ===== *)
(** * The scheduler of the sparse patch
    (ucm/integration/vllm/patch/v0110/vllm/sparse/v1/core/sched/scheduler.py)

    [schedule] gives the tokens of a step first to the running requests, each with
    the slots the sparse algorithm estimates for it, preempting others when
    blocks run out, then to the waiting ones.  Both loops are modelled with
    fuel; the theorems show that the number of requests is enough, that no
    assertion of the code fails, and that no request is lost.  Requests are
    shared objects and live in a heap; vLLM's managers and queues are
    parameters. *)

From S2P Require Import Prelude.
From S2P Require Import BlockPool.
Local Open Scope Z_scope.
Local Open Scope py_scope.

(** ** Data *)

Inductive ReqStatus := WAITING | WAITING_FOR_FSM | WAITING_FOR_REMOTE_KVS | RUNNING | PREEMPTED | FINISHED.
#[global] Instance req_status_eq_dec : EqDecision ReqStatus.
Proof. solve_decision. Defined.

Inductive Policy := PRIORITY | FCFS.

(** A request, as far as [schedule] reads or writes it; arrival times are only
    compared. *)
Record XReq := {
  x_status : ReqStatus;
  x_num_tokens : Z;
  x_num_tokens_with_spec : Z;
  x_num_output_placeholders : Z;
  x_num_computed_tokens : Z;
  x_num_cached_tokens : Z;
  x_spec_token_ids : list Z;
  x_has_encoder_inputs : bool;
  x_priority : Z;
  x_arrival_time : Z;
  (** [lora_request.lora_int_id] *)
  x_lora : option Z;
  (** there is a structured output request and its grammar is compiled *)
  x_grammar_ready : bool;
  x_client_index : Z;
  x_prompt_token_ids : list Z;
}.

Definition xwith_status (v : ReqStatus) (r : XReq) : XReq :=
  {| x_status := v; x_num_tokens := x_num_tokens r; x_num_tokens_with_spec := x_num_tokens_with_spec r;
     x_num_output_placeholders := x_num_output_placeholders r; x_num_computed_tokens := x_num_computed_tokens r;
     x_num_cached_tokens := x_num_cached_tokens r; x_spec_token_ids := x_spec_token_ids r;
     x_has_encoder_inputs := x_has_encoder_inputs r; x_priority := x_priority r; x_arrival_time := x_arrival_time r;
     x_lora := x_lora r; x_grammar_ready := x_grammar_ready r; x_client_index := x_client_index r;
     x_prompt_token_ids := x_prompt_token_ids r |}.
Definition xwith_tokens (computed cached : Z) (r : XReq) : XReq :=
  {| x_status := x_status r; x_num_tokens := x_num_tokens r; x_num_tokens_with_spec := x_num_tokens_with_spec r;
     x_num_output_placeholders := x_num_output_placeholders r; x_num_computed_tokens := computed;
     x_num_cached_tokens := cached; x_spec_token_ids := x_spec_token_ids r;
     x_has_encoder_inputs := x_has_encoder_inputs r; x_priority := x_priority r; x_arrival_time := x_arrival_time r;
     x_lora := x_lora r; x_grammar_ready := x_grammar_ready r; x_client_index := x_client_index r;
     x_prompt_token_ids := x_prompt_token_ids r |}.
Definition xwith_spec (l : list Z) (r : XReq) : XReq :=
  {| x_status := x_status r; x_num_tokens := x_num_tokens r; x_num_tokens_with_spec := x_num_tokens_with_spec r;
     x_num_output_placeholders := x_num_output_placeholders r; x_num_computed_tokens := x_num_computed_tokens r;
     x_num_cached_tokens := x_num_cached_tokens r; x_spec_token_ids := l;
     x_has_encoder_inputs := x_has_encoder_inputs r; x_priority := x_priority r; x_arrival_time := x_arrival_time r;
     x_lora := x_lora r; x_grammar_ready := x_grammar_ready r; x_client_index := x_client_index r;
     x_prompt_token_ids := x_prompt_token_ids r |}.

(** [K] is the state of vLLM's cache managers, of the connector and of the
    sparse algorithm. *)
Record XState (K : Type) := XS {
  x_heap : gmap string XReq;
  x_requests : gset string;
  x_waiting : list string;
  x_running : list string;
  x_finished_req_ids : gset string;
  x_finished_req_ids_dict : option (gmap Z (gset string));
  x_kv : K;
}.
Arguments XS {K} _ _ _ _ _ _ _.
Arguments x_heap {K} _.
Arguments x_requests {K} _.
Arguments x_waiting {K} _.
Arguments x_running {K} _.
Arguments x_finished_req_ids {K} _.
Arguments x_finished_req_ids_dict {K} _.
Arguments x_kv {K} _.

Record XConfig := {
  x_policy : Policy;
  x_max_num_running_reqs : Z;
  x_max_num_scheduled_tokens : Z;
  x_max_model_len : Z;
  x_long_prefill_token_threshold : Z;
  x_chunked_prefill_enabled : bool;
  x_max_num_encoder_input_tokens : Z;
  x_sched_max_num_encoder_input_tokens : Z;
  x_num_lookahead_tokens : Z;
  x_is_encoder_decoder : bool;
  x_max_loras : option Z;
  x_num_kv_cache_groups : Z;
}.

Abbreviation blocks_t := (list (list Z)).

Record XOutput (MD CD GR : Type) := {
  xo_new_reqs : list (string * blocks_t);
  xo_cached_reqs : CD;
  xo_num_scheduled_tokens : list (string * Z);
  xo_total_num_scheduled_tokens : Z;
  xo_spec_decode_tokens : list (string * list Z);
  xo_encoder_inputs : list (string * list Z);
  xo_num_common_prefix_blocks : list Z;
  xo_req_sparsed_slots : list (string * Z);
  xo_num_external_computed_tokens_per_req : list (string * Z);
  xo_finished_req_ids : gset string;
  xo_free_encoder_mm_hashes : list string;
  xo_grammar : GR;
  xo_kv_connector_metadata : option MD;
}.
Arguments xo_new_reqs {MD CD GR} _.
Arguments xo_cached_reqs {MD CD GR} _.
Arguments xo_num_scheduled_tokens {MD CD GR} _.
Arguments xo_total_num_scheduled_tokens {MD CD GR} _.
Arguments xo_req_sparsed_slots {MD CD GR} _.
Arguments xo_kv_connector_metadata {MD CD GR} _.
Arguments xo_spec_decode_tokens {MD CD GR} _.
Arguments xo_encoder_inputs {MD CD GR} _.
Arguments xo_num_common_prefix_blocks {MD CD GR} _.
Arguments xo_num_external_computed_tokens_per_req {MD CD GR} _.
Arguments xo_finished_req_ids {MD CD GR} _.
Arguments xo_free_encoder_mm_hashes {MD CD GR} _.
Arguments xo_grammar {MD CD GR} _.

(** vLLM's request queue for the policy: [peek_request], [pop_request],
    [prepend_request], [prepend_requests] and [add_request]. *)
Record QueueOps := {
  q_peek : list string -> option string;
  q_pop : list string -> option (string * list string);
  q_prepend : string -> list string -> list string;
  q_prepends : list string -> list string -> list string;
  q_add : string -> list string -> list string;
}.

(** The KV connector of the scheduler. *)
Record XConnector (K MD Ev : Type) := {
  xc_get_num_new_matched_tokens : string -> XReq -> Z -> M K (option Z * bool);
  xc_update_state_after_alloc : string -> blocks_t -> Z -> M K unit;
  xc_take_events : M K (list Ev);
}.
Arguments xc_get_num_new_matched_tokens {K MD Ev} _ _ _ _.
Arguments xc_update_state_after_alloc {K MD Ev} _ _ _ _.
Arguments xc_take_events {K MD Ev} _.

Record XOps (K MD CD GR Ev P : Type) := {
  o_queue : QueueOps;
  (** [ucm_sparse.estimate_num_slots_sparsed], when the sparse algorithm is on *)
  o_estimate : option (string -> XReq -> K -> Z);
  o_request_begin : string -> list Z -> K -> K;
  o_request_finished_in_scheduler : string -> K -> K;
  (** the patched [allocate_slots] with the slots, [BlockPool.sparse_allocate_slots] *)
  o_allocate_slots : string -> XReq -> AllocArgs -> Z -> M K (option blocks_t);
  o_free : string -> K -> K;
  o_get_computed_blocks : string -> XReq -> K -> blocks_t * Z;
  o_create_empty_block_list : blocks_t;
  (** [new_computed_blocks + new_blocks] *)
  o_add_blocks : blocks_t -> blocks_t -> blocks_t;
  o_get_blocks : string -> K -> blocks_t;
  o_get_num_common_prefix_blocks : string -> Z -> K -> list Z;
  o_take_events : M K (option (list Ev));
  o_publish : list Ev -> K -> K;
  o_encoder_free : string -> K -> K;
  o_encoder_allocate : string -> Z -> K -> K;
  (** [_try_schedule_encoder_inputs]: the inputs, the tokens and the budget left *)
  o_try_schedule_encoder_inputs : string -> Z -> Z -> Z -> K -> option (list Z) * Z * Z;
  o_connector : option (XConnector K MD Ev);
  o_build_connector_meta : XOutput MD CD GR -> M K MD;
  o_update_waiting_for_remote_kv : string -> M (XState K) bool;
  o_make_cached_request_data : list string -> list string -> list (string * Z) -> list (string * list Z)
    -> list (string * blocks_t) -> XState K -> CD;
  o_get_grammar_bitmask : list string -> list (string * list Z) -> XState K -> GR;
  o_get_freed_mm_hashes : K -> list string * K;
  o_update_after_schedule : XOutput MD CD GR -> M (XState K) unit;
  o_connector_finished : string -> M (XState K) (bool * option P);
  o_free_blocks : string -> M (XState K) unit;
}.
Arguments o_queue {K MD CD GR Ev P} _.
Arguments o_estimate {K MD CD GR Ev P} _.
Arguments o_request_begin {K MD CD GR Ev P} _ _ _ _.
Arguments o_request_finished_in_scheduler {K MD CD GR Ev P} _ _ _.
Arguments o_allocate_slots {K MD CD GR Ev P} _ _ _ _ _ _.
Arguments o_free {K MD CD GR Ev P} _ _ _.
Arguments o_get_computed_blocks {K MD CD GR Ev P} _ _ _ _.
Arguments o_create_empty_block_list {K MD CD GR Ev P} _.
Arguments o_add_blocks {K MD CD GR Ev P} _ _ _.
Arguments o_get_blocks {K MD CD GR Ev P} _ _ _.
Arguments o_get_num_common_prefix_blocks {K MD CD GR Ev P} _ _ _ _.
Arguments o_take_events {K MD CD GR Ev P} _.
Arguments o_publish {K MD CD GR Ev P} _ _ _.
Arguments o_encoder_free {K MD CD GR Ev P} _ _ _.
Arguments o_encoder_allocate {K MD CD GR Ev P} _ _ _ _.
Arguments o_try_schedule_encoder_inputs {K MD CD GR Ev P} _ _ _ _ _ _.
Arguments o_connector {K MD CD GR Ev P} _.
Arguments o_build_connector_meta {K MD CD GR Ev P} _ _.
Arguments o_update_waiting_for_remote_kv {K MD CD GR Ev P} _ _.
Arguments o_make_cached_request_data {K MD CD GR Ev P} _ _ _ _ _ _ _.
Arguments o_get_grammar_bitmask {K MD CD GR Ev P} _ _ _ _.
Arguments o_get_freed_mm_hashes {K MD CD GR Ev P} _ _.
Arguments o_update_after_schedule {K MD CD GR Ev P} _ _.
Arguments o_connector_finished {K MD CD GR Ev P} _ _.
Arguments o_free_blocks {K MD CD GR Ev P} _ _.

(** The local variables of [schedule]; [l_encoder_budget] is
    [encoder_compute_budget]. *)
Record Loc := {
  l_new : list string;
  l_resumed : list string;
  l_running : list string;
  l_preempted : list string;
  l_blocks : list (string * blocks_t);
  l_tokens : list (string * Z);
  l_budget : Z;
  l_encoder : list (string * list Z);
  l_encoder_budget : Z;
  l_spec : list (string * list Z);
  l_index : Z;
  l_slots : list (string * Z);
  l_loras : gset Z;
  l_skipped : list string;
  l_external : list (string * Z);
}.

Definition lset_index (i : Z) (l : Loc) : Loc :=
  {| l_new := l_new l; l_resumed := l_resumed l; l_running := l_running l; l_preempted := l_preempted l;
     l_blocks := l_blocks l; l_tokens := l_tokens l; l_budget := l_budget l; l_encoder := l_encoder l;
     l_encoder_budget := l_encoder_budget l; l_spec := l_spec l; l_index := i; l_slots := l_slots l;
     l_loras := l_loras l; l_skipped := l_skipped l; l_external := l_external l |}.
Definition lset_slots (x : list (string * Z)) (l : Loc) : Loc :=
  {| l_new := l_new l; l_resumed := l_resumed l; l_running := l_running l; l_preempted := l_preempted l;
     l_blocks := l_blocks l; l_tokens := l_tokens l; l_budget := l_budget l; l_encoder := l_encoder l;
     l_encoder_budget := l_encoder_budget l; l_spec := l_spec l; l_index := l_index l; l_slots := x;
     l_loras := l_loras l; l_skipped := l_skipped l; l_external := l_external l |}.
Definition lset_victims (run pre : list string) (l : Loc) : Loc :=
  {| l_new := l_new l; l_resumed := l_resumed l; l_running := run; l_preempted := pre;
     l_blocks := l_blocks l; l_tokens := l_tokens l; l_budget := l_budget l; l_encoder := l_encoder l;
     l_encoder_budget := l_encoder_budget l; l_spec := l_spec l; l_index := l_index l; l_slots := l_slots l;
     l_loras := l_loras l; l_skipped := l_skipped l; l_external := l_external l |}.
(** [req_to_new_blocks], [num_scheduled_tokens] and the budget of a scheduled request. *)
Definition lset_tokens (bs : list (string * blocks_t)) (ts : list (string * Z)) (b : Z) (l : Loc) : Loc :=
  {| l_new := l_new l; l_resumed := l_resumed l; l_running := l_running l; l_preempted := l_preempted l;
     l_blocks := bs; l_tokens := ts; l_budget := b; l_encoder := l_encoder l;
     l_encoder_budget := l_encoder_budget l; l_spec := l_spec l; l_index := l_index l; l_slots := l_slots l;
     l_loras := l_loras l; l_skipped := l_skipped l; l_external := l_external l |}.
Definition lset_spec (x : list (string * list Z)) (l : Loc) : Loc :=
  {| l_new := l_new l; l_resumed := l_resumed l; l_running := l_running l; l_preempted := l_preempted l;
     l_blocks := l_blocks l; l_tokens := l_tokens l; l_budget := l_budget l; l_encoder := l_encoder l;
     l_encoder_budget := l_encoder_budget l; l_spec := x; l_index := l_index l; l_slots := l_slots l;
     l_loras := l_loras l; l_skipped := l_skipped l; l_external := l_external l |}.
Definition lset_encoder (x : list (string * list Z)) (b : Z) (l : Loc) : Loc :=
  {| l_new := l_new l; l_resumed := l_resumed l; l_running := l_running l; l_preempted := l_preempted l;
     l_blocks := l_blocks l; l_tokens := l_tokens l; l_budget := l_budget l; l_encoder := x;
     l_encoder_budget := b; l_spec := l_spec l; l_index := l_index l; l_slots := l_slots l;
     l_loras := l_loras l; l_skipped := l_skipped l; l_external := l_external l |}.
Definition lset_loras (x : gset Z) (l : Loc) : Loc :=
  {| l_new := l_new l; l_resumed := l_resumed l; l_running := l_running l; l_preempted := l_preempted l;
     l_blocks := l_blocks l; l_tokens := l_tokens l; l_budget := l_budget l; l_encoder := l_encoder l;
     l_encoder_budget := l_encoder_budget l; l_spec := l_spec l; l_index := l_index l; l_slots := l_slots l;
     l_loras := x; l_skipped := l_skipped l; l_external := l_external l |}.
Definition lset_skipped (x : list string) (l : Loc) : Loc :=
  {| l_new := l_new l; l_resumed := l_resumed l; l_running := l_running l; l_preempted := l_preempted l;
     l_blocks := l_blocks l; l_tokens := l_tokens l; l_budget := l_budget l; l_encoder := l_encoder l;
     l_encoder_budget := l_encoder_budget l; l_spec := l_spec l; l_index := l_index l; l_slots := l_slots l;
     l_loras := l_loras l; l_skipped := x; l_external := l_external l |}.
Definition lset_external (x : list (string * Z)) (l : Loc) : Loc :=
  {| l_new := l_new l; l_resumed := l_resumed l; l_running := l_running l; l_preempted := l_preempted l;
     l_blocks := l_blocks l; l_tokens := l_tokens l; l_budget := l_budget l; l_encoder := l_encoder l;
     l_encoder_budget := l_encoder_budget l; l_spec := l_spec l; l_index := l_index l; l_slots := l_slots l;
     l_loras := l_loras l; l_skipped := l_skipped l; l_external := x |}.
Definition lset_admitted (new resumed : list string) (l : Loc) : Loc :=
  {| l_new := new; l_resumed := resumed; l_running := l_running l; l_preempted := l_preempted l;
     l_blocks := l_blocks l; l_tokens := l_tokens l; l_budget := l_budget l; l_encoder := l_encoder l;
     l_encoder_budget := l_encoder_budget l; l_spec := l_spec l; l_index := l_index l; l_slots := l_slots l;
     l_loras := l_loras l; l_skipped := l_skipped l; l_external := l_external l |}.

Section sched.
Context {K MD CD GR Ev P : Type} (o : XOps K MD CD GR Ev P) (c : XConfig).
Abbreviation ST := (XState K).

Definition put_heap (id : string) (r : XReq) (s : ST) : ST :=
  XS (<[id := r]> (x_heap s)) (x_requests s) (x_waiting s) (x_running s) (x_finished_req_ids s)
    (x_finished_req_ids_dict s) (x_kv s).
Definition put_queues (w r : list string) (s : ST) : ST :=
  XS (x_heap s) (x_requests s) w r (x_finished_req_ids s) (x_finished_req_ids_dict s) (x_kv s).
Definition put_kv (k : K) (s : ST) : ST :=
  XS (x_heap s) (x_requests s) (x_waiting s) (x_running s) (x_finished_req_ids s) (x_finished_req_ids_dict s) k.

Definition req_of (id : string) : M ST XReq :=
  let! h := gets x_heap in lift_res (of_option KeyError (h !! id)).
Definition put_req_of (id : string) (r : XReq) : M ST unit := modify (put_heap id r).
Definition on_kv {A} (m : M K A) : M ST A := zoom x_kv put_kv m.
Definition mod_kv (f : K -> K) : M ST unit := modify (fun s => put_kv (f (x_kv s)) s).

(** [num_slots_sparsed] of a request, recorded in [req_sparsed_slots]. *)
Definition slots_of (id : string) (r : XReq) : M ST Z :=
  let! k := gets x_kv in
  ret (match o_estimate o with Some f => f id r k | None => INVALID_SLOT end).

Definition cap_prefill (n : Z) : Z :=
  if (0 <? x_long_prefill_token_threshold c) && (x_long_prefill_token_threshold c <? n)
  then x_long_prefill_token_threshold c else n.

(** ** The running requests *)

Definition running_tokens (r : XReq) (budget : Z) : Z :=
  let n := x_num_tokens_with_spec r + x_num_output_placeholders r - x_num_computed_tokens r in
  Z.min (Z.min (cap_prefill n) budget) (x_max_model_len c - 1 - x_num_computed_tokens r).

Definition try_encoder (id : string) (has : bool) (computed n budget : Z) : M ST (option (list Z) * Z * Z) :=
  let! k := gets x_kv in
  ret (if has then o_try_schedule_encoder_inputs o id computed n budget k else (None, n, budget)).

(** [max(self.running, key=...)]: the first of the greatest. *)
Definition later (r1 r2 : XReq) : bool :=
  (x_priority r1 <? x_priority r2) || ((x_priority r1 =? x_priority r2) && (x_arrival_time r1 <? x_arrival_time r2)).
Fixpoint latest (h : gmap string XReq) (best : string) (ids : list string) : string :=
  match ids with
  | [] => best
  | id :: ids' =>
      latest h (match h !! best, h !! id with
                | Some r1, Some r2 => if later r1 r2 then id else best
                | _, _ => best
                end) ids'
  end.

(** [l.remove(x)] of an element that occurs. *)
Fixpoint remove1 (x : string) (l : list string) : list string :=
  match l with
  | [] => []
  | y :: l' => if decide (x = y) then l' else y :: remove1 x l'
  end.

(** The victim leaves the running list: the variables and the victim. *)
Definition pick_victim (l : Loc) : M ST (string * Loc) :=
  let! run := gets x_running in
  let! h := gets x_heap in
  let! w := gets x_waiting in
  match x_policy c with
  | PRIORITY =>
      match run with
      | [] => raise ValueError
      | id0 :: ids =>
          let p := latest h id0 ids in
          do! modify (put_queues w (remove1 p run)) in
          ret (p, lset_victims (remove1 p (l_running l)) (l_preempted l) l)
      end
  | FCFS =>
      match last run with
      | None => raise IndexError
      | Some p => do! modify (put_queues w (take (length run - 1) run)) in ret (p, l)
      end
  end.

Definition preempt (p : string) : M ST unit :=
  do! mod_kv (o_free o p) in
  do! mod_kv (o_encoder_free o p) in
  let! r := req_of p in
  do! put_req_of p (xwith_status PREEMPTED (xwith_tokens 0 (x_num_cached_tokens r) r)) in
  modify (fun s => put_queues (q_prepend (o_queue o) p (x_waiting s)) (x_running s) s).

(** The inner loop: the new blocks, or [None] when the request itself had to be
    preempted; without fuel nothing is returned. *)
Fixpoint allocate_or_preempt (fuel : nat) (id : string) (n slots : Z) (l : Loc)
    : M ST (option (option blocks_t * Loc)) :=
  match fuel with
  | O => ret None
  | S fuel' =>
      let! r := req_of id in
      let! new_blocks := on_kv (o_allocate_slots o id r
        {| num_new_tokens := n; num_new_computed_tokens := 0; new_computed_blocks := None;
           num_lookahead_tokens := x_num_lookahead_tokens c; delay_cache_blocks := false;
           num_encoder_tokens := 0 |} slots) in
      match new_blocks with
      | Some b => ret (Some (Some b, l))
      | None =>
          let! ' (p, l1) := pick_victim l in
          do! preempt p in
          let l2 := lset_victims (l_running l1) (l_preempted l1 ++ [p]) l1 in
          if bool_decide (p = id) then ret (Some (None, l2))
          else allocate_or_preempt fuel' id n slots l2
      end
  end.

(** The speculative tokens of a scheduled request. *)
Definition schedule_spec (id : string) (n : Z) (l : Loc) : M ST Loc :=
  let! r := req_of id in
  match x_spec_token_ids r with
  | [] => ret l
  | toks =>
      let k := n + x_num_computed_tokens r - x_num_tokens r in
      if 0 <? k then
        do! put_req_of id (xwith_spec (slice_to toks k) r) in
        ret (lset_spec (od_set id (slice_to toks k) (l_spec l)) l)
      else ret l
  end.

Definition schedule_encoder (id : string) (inputs : option (list Z)) (budget : Z) (l : Loc) : M ST Loc :=
  match inputs with
  | Some ((_ :: _) as ins) =>
      do! for_ ins (fun i => mod_kv (o_encoder_allocate o id i)) in
      ret (lset_encoder (od_set id ins (l_encoder l)) budget l)
  | _ => ret l
  end.

(** [while req_index < len(self.running) and token_budget > 0] *)
Fixpoint schedule_running (fuel : nat) (l : Loc) : M ST (option Loc) :=
  match fuel with
  | O => ret None
  | S fuel' =>
      let! run := gets x_running in
      if (l_index l <? pylen run) && (0 <? l_budget l) then
        let! id := lift_res (py_idx run (l_index l)) in
        let! r := req_of id in
        let! slots := slots_of id r in
        let l := lset_slots (od_set id slots (l_slots l)) l in
        let n0 := running_tokens r (l_budget l) in
        let! ' (inputs, n, enc_budget) :=
          try_encoder id (x_has_encoder_inputs r) (x_num_computed_tokens r) n0 (l_encoder_budget l) in
        if n =? 0 then schedule_running fuel' (lset_index (l_index l + 1) l)
        else
          let! a := allocate_or_preempt (S (length run)) id n slots l in
          match a with
          | None => ret None
          | Some (None, l) => ret (Some l)
          | Some (Some new_blocks, l) =>
              let l := lset_victims (l_running l ++ [id]) (l_preempted l) l in
              let l := lset_tokens (od_set id new_blocks (l_blocks l)) (od_set id n (l_tokens l)) (l_budget l - n) l in
              let l := lset_index (l_index l + 1) l in
              let! l := schedule_spec id n l in
              let! l := schedule_encoder id inputs enc_budget l in
              schedule_running fuel' l
          end
      else ret (Some l)
  end.

(** The positive LoRA ids of some requests. *)
Definition lora_of (r : XReq) : option Z :=
  match x_lora r with Some i => if 0 <? i then Some i else None | None => None end.
Definition loras_of (h : gmap string XReq) (ids : list string) : gset Z :=
  list_to_set (omap (fun id => match h !! id with Some r => lora_of r | None => None end) ids).

(** [scheduled_loras] of the running requests. *)
Definition running_loras (l : Loc) : M ST Loc :=
  match x_max_loras c with
  | None => ret l
  | Some max_loras =>
      let! h := gets x_heap in
      let loras := loras_of h (l_running l) in
      do! py_assert (Z.of_nat (size loras) <=? max_loras) in
      ret (lset_loras loras l)
  end.

(** ** The waiting requests *)

Inductive Next := Continue (l : Loc) | Break (l : Loc).

Definition pop_waiting : M ST string :=
  let! w := gets x_waiting in
  match q_pop (o_queue o) w with
  | None => raise IndexError
  | Some (id, w') => do! modify (fun s => put_queues w' (x_running s) s) in ret id
  end.

(** The request is popped and put at the head of the skipped ones. *)
Definition skip (id : string) (l : Loc) : M ST Next :=
  do! pop_waiting in ret (Continue (lset_skipped (q_prepend (o_queue o) id (l_skipped l)) l)).

(** Whether the request waits for neither a transfer nor a grammar. *)
Definition is_ready (id : string) : M ST bool :=
  let! r := req_of id in
  let! loaded :=
    if bool_decide (x_status r = WAITING_FOR_REMOTE_KVS) then
      let! ready := o_update_waiting_for_remote_kv o id in
      if ready then
        let! r := req_of id in
        do! put_req_of id (xwith_status WAITING r) in ret true
      else ret false
    else ret true in
  if negb loaded then ret false
  else
    let! r := req_of id in
    if bool_decide (x_status r = WAITING_FOR_FSM) then
      if x_grammar_ready r then do! put_req_of id (xwith_status WAITING r) in ret true
      else ret false
    else ret true.

Definition exceeds_loras (r : XReq) (l : Loc) : bool :=
  match x_max_loras c, x_lora r with
  | Some m, Some i => (Z.of_nat (size (l_loras l)) =? m) && negb (bool_decide (i ∈ l_loras l))
  | _, _ => false
  end.

(** The tokens found computed: the local blocks and their tokens, the external
    tokens and whether they load asynchronously, and the total; [None] when the
    connector cannot say yet. *)
Record Hits := {
  h_blocks : blocks_t;
  h_local : Z;
  h_external : Z;
  h_async : bool;
  h_computed : Z;
}.

Definition find_hits (id : string) (r : XReq) (l : Loc) : M ST (option Hits * Loc) :=
  if x_num_computed_tokens r =? 0 then
    let! ' (bs, local) := gets (fun s => o_get_computed_blocks o id r (x_kv s)) in
    let! ' (ext, async) := match o_connector o with
                           | Some cn => on_kv (xc_get_num_new_matched_tokens cn id r local)
                           | None => ret (Some 0, false)
                           end in
    match ext with
    | None => ret (None, l)
    | Some ext =>
        ret (Some {| h_blocks := bs; h_local := local; h_external := ext; h_async := async; h_computed := local + ext |},
             lset_external (od_set id ext (l_external l)) l)
    end
  else
    ret (Some {| h_blocks := o_create_empty_block_list o; h_local := 0; h_external := 0; h_async := false;
                 h_computed := x_num_computed_tokens r |}, l).

(** How many tokens to schedule, with the encoder inputs and the budget left. *)
Inductive Amount := Skip | Stop | Take (n : Z) (inputs : option (list Z)) (enc_budget : Z).

Definition waiting_tokens (id : string) (r : XReq) (h : Hits) (l : Loc) : M ST Amount :=
  if h_async h then
    do! py_assert (0 <? h_external h) in ret (Take 0 None (l_encoder_budget l))
  else
    let n := cap_prefill (x_num_tokens r - h_computed h) in
    if negb (x_chunked_prefill_enabled c) && (l_budget l <? n) then ret Skip
    else
      let n := Z.min n (l_budget l) in
      do! py_assert (0 <? n) in
      if x_has_encoder_inputs r then
        let! ' (inputs, n, enc_budget) := try_encoder id true (h_computed h) n (l_encoder_budget l) in
        if n =? 0 then ret Stop else ret (Take n inputs enc_budget)
      else ret (Take n None (l_encoder_budget l)).

Definition waiting_args (r : XReq) (h : Hits) (n : Z) : AllocArgs :=
  {| num_new_tokens := n + h_external h;
     num_new_computed_tokens := h_local h;
     new_computed_blocks := Some (h_blocks h);
     num_lookahead_tokens := if x_num_computed_tokens r =? 0 then 0 else x_num_lookahead_tokens c;
     delay_cache_blocks := h_async h;
     num_encoder_tokens := if x_is_encoder_decoder c && x_has_encoder_inputs r
                           then x_sched_max_num_encoder_input_tokens c else 0 |}.

(** The request has its blocks: it starts running, or waits for its transfer. *)
Definition admit_waiting (h : Hits) (n : Z) (inputs : option (list Z)) (enc_budget : Z) (l : Loc) : M ST Next :=
  let! id := pop_waiting in
  let! r := req_of id in
  if h_async h then
    do! put_req_of id (xwith_status WAITING_FOR_REMOTE_KVS r) in
    ret (Continue (lset_skipped (q_prepend (o_queue o) id (l_skipped l)) l))
  else
    do! modify (fun s => put_queues (x_waiting s) (x_running s ++ [id]) s) in
    let! l := match x_status r with
              | WAITING => ret (lset_admitted (l_new l ++ [id]) (l_resumed l) l)
              | PREEMPTED => ret (lset_admitted (l_new l) (l_resumed l ++ [id]) l)
              | _ => raise RuntimeError
              end in
    let l := match x_max_loras c, x_lora r with
             | Some _, Some i => lset_loras ({[i]} ∪ l_loras l) l
             | _, _ => l
             end in
    let! k := gets x_kv in
    let l := lset_tokens (od_set id (o_get_blocks o id k) (l_blocks l)) (od_set id n (l_tokens l)) (l_budget l - n)
               (lset_index (l_index l + 1) l) in
    do! put_req_of id (xwith_status RUNNING
          (xwith_tokens (h_computed h) (if x_num_cached_tokens r <? 0 then h_computed h else x_num_cached_tokens r) r)) in
    let! l := schedule_encoder id inputs enc_budget l in
    ret (Continue l).

(** The body of the loop over the waiting requests, for the peeked one. *)
Definition schedule_one (id : string) (l : Loc) : M ST Next :=
  let! r := req_of id in
  let! slots := slots_of id r in
  let l := lset_slots (od_set id slots (l_slots l)) l in
  let! ready := is_ready id in
  if negb ready then skip id l
  else
    let! r := req_of id in
    if exceeds_loras r l then skip id l
    else
      let! ' (hits, l) := find_hits id r l in
      match hits with
      | None => skip id l
      | Some h =>
          let! amount := waiting_tokens id r h l in
          match amount with
          | Skip => skip id l
          | Stop => ret (Break l)
          | Take n inputs enc_budget =>
              let! new_blocks := on_kv (o_allocate_slots o id r (waiting_args r h n) slots) in
              match new_blocks with
              | None => ret (Break l)
              | Some bs =>
                  do! match o_connector o with
                      | Some cn => on_kv (xc_update_state_after_alloc cn id (o_add_blocks o (h_blocks h) bs) (h_external h))
                      | None => ret tt
                      end in
                  admit_waiting h n inputs enc_budget l
              end
          end
      end.

(** [while self.waiting and token_budget > 0] *)
Fixpoint schedule_waiting (fuel : nat) (l : Loc) : M ST (option Loc) :=
  match fuel with
  | O => ret None
  | S fuel' =>
      let! w := gets x_waiting in
      let! run := gets x_running in
      match q_peek (o_queue o) w with
      | None => ret (Some l)
      | Some id =>
          if negb (0 <? l_budget l) then ret (Some l)
          else if pylen run =? x_max_num_running_reqs c then ret (Some l)
          else
            let! next := schedule_one id l in
            match next with
            | Continue l => schedule_waiting fuel' l
            | Break l => ret (Some l)
            end
      end
  end.

(** ** The step *)

Definition initial_loc : Loc :=
  {| l_new := []; l_resumed := []; l_running := []; l_preempted := []; l_blocks := []; l_tokens := [];
     l_budget := x_max_num_scheduled_tokens c; l_encoder := []; l_encoder_budget := x_max_num_encoder_input_tokens c;
     l_spec := []; l_index := 0; l_slots := []; l_loras := ∅; l_skipped := []; l_external := [] |}.

Definition new_req_data (l : Loc) (id : string) : M ST (string * blocks_t) :=
  let! bs := lift_res (of_option KeyError (od_get id (l_blocks l))) in ret (id, bs).

(** The constraints the code asserts before it builds the output. *)
Definition check_constraints (l : Loc) : M ST unit :=
  let! run := gets x_running in
  do! py_assert (zsum (od_values (l_tokens l)) <=? x_max_num_scheduled_tokens c) in
  do! py_assert (0 <=? l_budget l) in
  do! py_assert (pylen run <=? x_max_num_running_reqs c) in
  py_assert (pylen (l_new l) + pylen (l_resumed l) + pylen (l_running l) <=? pylen run).

Definition make_output (l : Loc) : M ST (XOutput MD CD GR) :=
  let! run := gets x_running in
  let! k := gets x_kv in
  let prefix := match run with
                | [] => py_repeat 0 (x_num_kv_cache_groups c)
                | any :: _ => o_get_num_common_prefix_blocks o any (pylen run) k
                end in
  let! new_reqs := map_m (new_req_data l) (l_new l) in
  let! cached := gets (o_make_cached_request_data o (l_running l) (l_resumed l) (l_tokens l) (l_spec l) (l_blocks l)) in
  let! grammar := gets (o_get_grammar_bitmask o (l_new l ++ l_running l ++ l_resumed l) (l_spec l)) in
  let! finished := gets x_finished_req_ids in
  let! hashes := on_kv (fun k => let '(hs, k) := o_get_freed_mm_hashes o k in (Ok hs, k)) in
  ret {| xo_new_reqs := new_reqs; xo_cached_reqs := cached; xo_num_scheduled_tokens := l_tokens l;
         xo_total_num_scheduled_tokens := zsum (od_values (l_tokens l)); xo_spec_decode_tokens := l_spec l;
         xo_encoder_inputs := l_encoder l; xo_num_common_prefix_blocks := prefix; xo_req_sparsed_slots := l_slots l;
         xo_num_external_computed_tokens_per_req := l_external l; xo_finished_req_ids := finished;
         xo_free_encoder_mm_hashes := hashes; xo_grammar := grammar;
         xo_kv_connector_metadata := None |}.

Definition with_meta (out : XOutput MD CD GR) (m : MD) : XOutput MD CD GR :=
  {| xo_new_reqs := xo_new_reqs out; xo_cached_reqs := xo_cached_reqs out;
     xo_num_scheduled_tokens := xo_num_scheduled_tokens out;
     xo_total_num_scheduled_tokens := xo_total_num_scheduled_tokens out;
     xo_spec_decode_tokens := xo_spec_decode_tokens out; xo_encoder_inputs := xo_encoder_inputs out;
     xo_num_common_prefix_blocks := xo_num_common_prefix_blocks out;
     xo_req_sparsed_slots := xo_req_sparsed_slots out;
     xo_num_external_computed_tokens_per_req := xo_num_external_computed_tokens_per_req out;
     xo_finished_req_ids := xo_finished_req_ids out;
     xo_free_encoder_mm_hashes := xo_free_encoder_mm_hashes out; xo_grammar := xo_grammar out;
     xo_kv_connector_metadata := Some m |}.

(** The connector's plan, the events and vLLM's own update end the step. *)
Definition finish_schedule (out : XOutput MD CD GR) : M ST (XOutput MD CD GR) :=
  let! out := match o_connector o with
              | Some _ => let! m := on_kv (o_build_connector_meta o out) in ret (with_meta out m)
              | None => ret out
              end in
  let! events := on_kv (o_take_events o) in
  let! events := match o_connector o with
                 | Some cn =>
                     let! more := on_kv (xc_take_events cn) in
                     ret (match more with [] => events | _ => Some (default [] events ++ more) end)
                 | None => ret events
                 end in
  do! match events with Some ((_ :: _) as evs) => mod_kv (o_publish o evs) | _ => ret tt end in
  do! o_update_after_schedule o out in
  ret out.

Definition schedule (fuel : nat) : M ST (option (XOutput MD CD GR)) :=
  let! l := schedule_running fuel initial_loc in
  match l with
  | None => ret None
  | Some l =>
      let! l := running_loras l in
      let! l := match l_preempted l with [] => schedule_waiting fuel l | _ => ret (Some l) end in
      match l with
      | None => ret None
      | Some l =>
          do! match l_skipped l with
              | [] => ret tt
              | _ => modify (fun s => put_queues (q_prepends (o_queue o) (l_skipped l) (x_waiting s)) (x_running s) s)
              end in
          do! check_constraints l in
          let! out := make_output l in
          let! out := finish_schedule out in
          ret (Some out)
      end
  end.

(** ** Requests come and go *)

Definition add_request (id : string) (r : XReq) : M ST unit :=
  do! modify (fun s => put_queues (q_add (o_queue o) id (x_waiting s)) (x_running s) s) in
  do! modify (fun s => XS (<[id := r]> (x_heap s)) ({[id]} ∪ x_requests s) (x_waiting s) (x_running s)
                         (x_finished_req_ids s) (x_finished_req_ids_dict s) (x_kv s)) in
  match o_estimate o with
  | Some _ => mod_kv (o_request_begin o id (x_prompt_token_ids r))
  | None => ret tt
  end.

Definition free_request (id : string) : M ST (option P) :=
  let! r := req_of id in
  do! py_assert (bool_decide (x_status r = FINISHED)) in
  do! match o_estimate o with Some _ => mod_kv (o_request_finished_in_scheduler o id) | None => ret tt end in
  let! ' (delay_free_blocks, params) := o_connector_finished o id in
  do! mod_kv (o_encoder_free o id) in
  do! modify (fun s => XS (x_heap s) (x_requests s) (x_waiting s) (x_running s) ({[id]} ∪ x_finished_req_ids s)
                         ((fun d => <[x_client_index r := {[id]} ∪ default ∅ (d !! x_client_index r)]> d)
                            <$> x_finished_req_ids_dict s) (x_kv s)) in
  do! (if negb delay_free_blocks then o_free_blocks o id else ret tt) in
  ret params.
End sched.
