(* ===== verification/SparseSchedulerRuns.v ===== *)
(** * A step of the sparse scheduler

    Under the contracts vLLM documents for its managers and queues, [schedule]
    terminates without an exception, respects the limits it asserts, and
    neither loses nor duplicates a request. *)

From S2P Require Import Prelude.
From S2P Require Import Wp.
From S2P Require Import BlockPool.
From S2P Require Import SparseScheduler.
Local Open Scope Z_scope.
Local Open Scope py_scope.

(** ** Removing a victim *)

Lemma remove1_perm p l : p ∈ l -> l ≡ₚ p :: remove1 p l.
Proof.
  induction l as [|y l IH]; simpl; [set_solver|]. rewrite elem_of_cons. intros Hin.
  destruct (decide (p = y)) as [->|Hne]; [done|]. destruct Hin as [|Hin]; [done|].
  rewrite (perm_swap y p). by rewrite <- IH.
Qed.

Lemma remove1_absent p l : p ∉ l -> remove1 p l = l.
Proof.
  induction l as [|y l IH]; simpl; [done|]. rewrite not_elem_of_cons. intros [Hne Hl].
  rewrite decide_False by done. by rewrite IH.
Qed.

Lemma remove1_sublist p l : remove1 p l `sublist_of` l.
Proof.
  induction l as [|y l IH]; simpl; [constructor|]. destruct (decide _); [by constructor|by constructor].
Qed.

Lemma NoDup_remove1 p l : NoDup l -> NoDup (remove1 p l) /\ p ∉ remove1 p l.
Proof.
  intros Hl. split; [eapply sublist_NoDup; [exact Hl|apply remove1_sublist]|].
  destruct (decide (p ∈ l)) as [Hin|Hout]; [|by rewrite remove1_absent].
  rewrite (remove1_perm p l Hin) in Hl. by inversion Hl.
Qed.

Lemma elem_of_take_mono {A} (x : A) i j l : (i <= j)%nat -> x ∈ take i l -> x ∈ take j l.
Proof. intros Hij. rewrite !elem_of_take. intros (k & Hk & Hlt). exists k. split; [done|lia]. Qed.

Lemma elem_of_drop_mono {A} (x : A) i j l : (i <= j)%nat -> x ∈ drop j l -> x ∈ drop i l.
Proof.
  intros Hij Hx. replace j with (i + (j - i))%nat in Hx by lia. rewrite <- drop_drop in Hx.
  by apply (subseteq_drop _ _) in Hx.
Qed.

Lemma take_remove1 x p i l : x ∈ take i l -> x <> p -> x ∈ take i (remove1 p l).
Proof.
  revert i. induction l as [|y l IH]; intros [|i]; simpl; [done..|]. rewrite elem_of_cons.
  destruct (decide (p = y)) as [->|Hne].
  - intros [->|Hx] Hp; [done|]. eapply elem_of_take_mono; [|exact Hx]. lia.
  - intros [->|Hx] Hp; simpl; [by left|]. right. by apply IH.
Qed.

Lemma drop_remove1 x p i l : x ∈ drop i (remove1 p l) -> x ∈ drop i l.
Proof.
  revert i. induction l as [|y l IH]; intros i; simpl; [done|].
  destruct (decide (p = y)) as [->|Hne].
  - destruct i as [|i]; [by right|]. simpl. intros Hx.
    eapply elem_of_drop_mono; [|exact Hx]. lia.
  - destruct i as [|i]; simpl; [|apply IH].
    rewrite !elem_of_cons. intros [->|Hx]; [by left|]. right. by apply (IH 0%nat).
Qed.

(** [self.running.pop()] also removes its element. *)
Lemma pop_remove1 p l : NoDup l -> last l = Some p -> take (length l - 1) l = remove1 p l.
Proof.
  intros Hl Hp. apply last_Some in Hp as [l' ->]. rewrite length_app. simpl.
  rewrite Nat.add_sub, take_app_length. apply NoDup_app in Hl as (Hl & Hd & _).
  assert (p ∉ l') by (intros Hp; apply (Hd p Hp); by left). clear Hl Hd.
  induction l' as [|y l' IH]; simpl; [by destruct (decide (p = p))|].
  apply not_elem_of_cons in H as [Hne Hl]. destruct (decide (p = y)); [done|]. by rewrite <- IH.
Qed.

Lemma latest_elem h b l : latest h b l ∈ b :: l.
Proof.
  revert b. induction l as [|y l IH]; intros b; simpl; [by left|].
  match goal with |- latest h ?x l ∈ _ => pose proof (IH x) as Hi; assert (x = b \/ x = y) as Hx end.
  { destruct (h !! b) as [r1|]; [|by left]. destruct (h !! y) as [r2|]; [|by left].
    destruct (later r1 r2); auto. }
  destruct Hx as [Hx|Hx]; rewrite Hx in *; set_solver.
Qed.

(** ** The contracts of vLLM's objects *)

(** A request queue: which request is first depends on the policy. *)
Record QueueLaws (q : QueueOps) := {
  ql_peek : forall w, q_peek q w = None <-> w = [];
  ql_pop : forall w id, q_peek q w = Some id -> exists w', q_pop q w = Some (id, w') /\ w ≡ₚ id :: w';
  ql_prepend : forall id w, q_prepend q id w ≡ₚ id :: w;
  ql_prepends : forall l w, q_prepends q l w ≡ₚ l ++ w;
}.

Definition succeeds {S A} (m : M S A) : Prop := forall s, exists a s', m s = (Ok a, s').

Record ConnectorLaws {K MD Ev} (cn : XConnector K MD Ev) := {
  (** the hit lies inside the request, and an asynchronous load is not empty *)
  cl_matched : forall id r local k, 0 <= local < x_num_tokens r ->
    exists e b k', xc_get_num_new_matched_tokens cn id r local k = (Ok (e, b), k') /\
      forall n, e = Some n -> 0 <= n /\ (b = true -> 0 < n) /\ (b = false -> local + n < x_num_tokens r);
  cl_update : forall id bs n, succeeds (xc_update_state_after_alloc cn id bs n);
  cl_events : succeeds (xc_take_events cn);
}.

Record OpsLaws {K MD CD GR Ev P} (o : XOps K MD CD GR Ev P) := {
  ol_queue : QueueLaws (o_queue o);
  (** [allocate_slots] raises for zero tokens only *)
  ol_allocate : forall id r a slots, num_new_tokens a <> 0 -> succeeds (o_allocate_slots o id r a slots);
  (** [_try_schedule_encoder_inputs] only lowers the number of tokens *)
  ol_encoder : forall id computed n b k inputs n' b',
    o_try_schedule_encoder_inputs o id computed n b k = (inputs, n', b') -> n' <= n /\ (0 < n -> 0 <= n');
  ol_local : forall id r k, 0 < x_num_tokens r -> 0 <= (o_get_computed_blocks o id r k).2 < x_num_tokens r;
  ol_connector : forall cn, o_connector o = Some cn -> ConnectorLaws cn;
  ol_meta : forall out, succeeds (o_build_connector_meta o out);
  ol_events : succeeds (o_take_events o);
  (** [_update_waiting_for_remote_kv] may set the computed tokens of its request *)
  ol_remote : forall id s r, x_heap s !! id = Some r -> 0 <= x_num_computed_tokens r < x_num_tokens r ->
    exists b v k', o_update_waiting_for_remote_kv o id s =
        (Ok b, put_kv k' (put_heap id (xwith_tokens v (x_num_cached_tokens r) r) s)) /\ 0 <= v < x_num_tokens r;
  (** [_update_after_schedule] advances the running requests only *)
  ol_update : forall out s, exists s', o_update_after_schedule o out s = (Ok tt, s') /\
    x_waiting s' = x_waiting s /\ x_running s' = x_running s /\
    forall id r, x_heap s !! id = Some r -> exists r', x_heap s' !! id = Some r' /\
      x_status r' = x_status r /\ x_num_tokens r' = x_num_tokens r /\ (id ∉ x_running s -> r' = r);
}.

(** ** The invariant of the scheduler *)

Definition waiting_ok (r : XReq) : Prop :=
  x_status r ∈ [WAITING; WAITING_FOR_FSM; WAITING_FOR_REMOTE_KVS; PREEMPTED] /\
  0 <= x_num_computed_tokens r < x_num_tokens r.
(** [L], when given, holds the LoRAs of the running requests. *)
Definition running_ok (L : option (gset Z)) (r : XReq) : Prop :=
  x_status r = RUNNING /\ 0 < x_num_tokens r /\ (forall ls i, L = Some ls -> lora_of r = Some i -> i ∈ ls).
Definition known (P : XReq -> Prop) (h : gmap string XReq) (id : string) : Prop :=
  exists r, h !! id = Some r /\ P r.

(** [sk] are the requests that wait aside during a step, [ids] all of them. *)
Record Inv {K} (c : XConfig) (L : option (gset Z)) (ids sk : list string) (s : XState K) : Prop := {
  inv_nodup : NoDup ids;
  inv_perm : x_waiting s ++ sk ++ x_running s ≡ₚ ids;
  inv_wait : forall id, id ∈ x_waiting s ++ sk -> known waiting_ok (x_heap s) id;
  inv_run : forall id, id ∈ x_running s -> known (running_ok L) (x_heap s) id;
  inv_len : pylen (x_running s) <= x_max_num_running_reqs c;
}.

Definition sched_ok {K} (c : XConfig) (s : XState K) : Prop := Inv c None (x_waiting s ++ x_running s) [] s.

Section runs.
Context {K MD CD GR Ev P : Type} (o : XOps K MD CD GR Ev P) (c : XConfig).
Context (laws : OpsLaws o).
Abbreviation ST := (XState K).
Implicit Types (s : ST) (l : Loc) (id : string).

Lemma inv_parts L ids sk s : Inv c L ids sk s ->
  NoDup (x_waiting s ++ sk ++ x_running s) /\ NoDup (x_running s) /\
  (forall id, id ∈ x_waiting s ++ sk -> id ∉ x_running s).
Proof.
  intros [Hn Hp _ _ _]. rewrite <- Hp in Hn. split; [done|].
  rewrite app_assoc in Hn. apply NoDup_app in Hn as (_ & Hd & Hr). split; [done|exact Hd].
Qed.

(** A request changes in place. *)
Lemma inv_heap L ids sk s id r : Inv c L ids sk s ->
  (id ∈ x_waiting s ++ sk -> waiting_ok r) -> (id ∈ x_running s -> running_ok L r) ->
  Inv c L ids sk (put_heap id r s).
Proof.
  intros [Hn Hp Hw Hr Hl] Hwk Hrk. split; simpl; [done..| | |done].
  - intros id' Hin. destruct (decide (id' = id)) as [->|Hne].
    + exists r. rewrite lookup_insert_eq. auto.
    + destruct (Hw id' Hin) as (r' & Hr' & ?). exists r'. by rewrite lookup_insert_ne.
  - intros id' Hin. destruct (decide (id' = id)) as [->|Hne].
    + exists r. rewrite lookup_insert_eq. auto.
    + destruct (Hr id' Hin) as (r' & Hr' & ?). exists r'. by rewrite lookup_insert_ne.
Qed.

Lemma inv_kv L ids sk s k : Inv c L ids sk s -> Inv c L ids sk (put_kv k s).
Proof. intros [? ? ? ? ?]. by split. Qed.

Lemma wp_req_of id r (Q : XReq -> ST -> Prop) s :
  x_heap s !! id = Some r -> Q r s -> wp (req_of id) Q s.
Proof. intros Hr HQ. unfold req_of. wp_steps. by rewrite Hr. Qed.

Lemma wp_put_req id r (Q : unit -> ST -> Prop) s : Q tt (put_heap id r s) -> wp (put_req_of id r) Q s.
Proof. done. Qed.

Lemma wp_mod_kv f (Q : unit -> ST -> Prop) s : Q tt (put_kv (f (x_kv s)) s) -> wp (mod_kv f) Q s.
Proof. done. Qed.

(** An operation of a manager changes its own state only. *)
Lemma wp_on_kv {A} (m : M K A) (Q : A -> ST -> Prop) s :
  succeeds m -> (forall a k, m (x_kv s) = (Ok a, k) -> Q a (put_kv k s)) -> wp (on_kv m) Q s.
Proof.
  intros Hm HQ. destruct (Hm (x_kv s)) as (a & k & Hk). unfold on_kv, wp, zoom.
  rewrite Hk. by apply HQ.
Qed.

Lemma inv_none L ids sk s : Inv c L ids sk s -> Inv c None ids sk s.
Proof.
  intros [Hn Hp Hw Hr Hl]. split; try done. intros id Hid.
  destruct (Hr id Hid) as (r & ? & ? & ? & _). exists r. done.
Qed.

Context (L : option (gset Z)).

(** *** Preemption *)

Lemma wp_pick_victim l s (Q : string * Loc -> ST -> Prop) : NoDup (x_running s) -> x_running s <> [] ->
  (forall p, p ∈ x_running s -> (x_policy c = FCFS -> last (x_running s) = Some p) ->
    Q (p, match x_policy c with
          | PRIORITY => lset_victims (remove1 p (l_running l)) (l_preempted l) l
          | FCFS => l
          end) (put_queues (x_waiting s) (remove1 p (x_running s)) s)) ->
  wp (pick_victim c l) Q s.
Proof.
  intros Hnd Hne HQ. unfold pick_victim. wp_steps.
  destruct (x_policy c) eqn:Hpol.
  - destruct (x_running s) as [|id0 ids] eqn:Hrun; [done|]. wp_steps. apply HQ; [apply latest_elem|done].
  - destruct (last (x_running s)) as [p|] eqn:Hlast; [|by apply last_None in Hlast].
    wp_steps. rewrite (pop_remove1 p) by done. apply HQ; [|done].
    apply last_Some in Hlast as [l' ->]. set_solver.
Qed.

Lemma wp_preempt ids s p (Q : unit -> ST -> Prop) : Inv c L ids [] s -> p ∈ x_running s ->
  (forall s', Inv c L ids [] s' -> x_running s' = remove1 p (x_running s) -> Q tt s') ->
  wp (preempt o p) Q (put_queues (x_waiting s) (remove1 p (x_running s)) s).
Proof.
  intros Hi Hp HQ. pose proof (inv_parts _ _ _ _ Hi) as (_ & Hnr & Hd).
  destruct Hi as [Hn Hperm Hw Hr Hl]. destruct (Hr p Hp) as (r & Hr0 & Hst & Hpos & _).
  unfold preempt. wp_steps. apply wp_mod_kv. apply wp_bind, wp_mod_kv.
  apply wp_bind, (wp_req_of p r); [done|]. apply wp_bind, wp_put_req. wp_steps.
  assert (Hq := ql_prepend _ (ol_queue _ laws) p (x_waiting s)).
  apply HQ; [|done]. split; simpl; [done|..].
  - rewrite Hq, <- Hperm. simpl. rewrite (remove1_perm p (x_running s)) at 2 by done.
    by rewrite Permutation_middle.
  - intros id. rewrite app_nil_r, Hq, elem_of_cons. intros Hin.
    destruct (decide (id = p)) as [->|Hne].
    + exists (xwith_status PREEMPTED (xwith_tokens 0 (x_num_cached_tokens r) r)).
      rewrite lookup_insert_eq. split; [done|]. split; simpl; [set_solver|lia].
    + destruct (Hw id) as (r' & ? & ?); [rewrite app_nil_r; naive_solver|].
      exists r'. by rewrite lookup_insert_ne.
  - intros id Hin. assert (id <> p) by (intros ->; by apply (NoDup_remove1 p) in Hnr as [_ ?]).
    apply (sublist_subseteq _ _ (remove1_sublist _ _)) in Hin.
    destruct (Hr id Hin) as (r' & ? & ?). exists r'. by rewrite lookup_insert_ne.
  - pose proof (sublist_length _ _ (remove1_sublist p (x_running s))). unfold pylen in *. lia.
Qed.

(** The local variables while the running requests are scheduled: those
    scheduled are among the first [i] running ones, and none after the first
    [k] has its tokens yet. *)
Record Part (ids : list string) (i k : nat) (s : ST) (l : Loc) : Prop := {
  pt_inv : Inv c L ids [] s;
  pt_sum : zsum (od_values (l_tokens l)) = x_max_num_scheduled_tokens c - l_budget l;
  pt_budget : 0 <= l_budget l;
  pt_phase : l_new l = [] /\ l_resumed l = [] /\ l_skipped l = [];
  pt_index : l_index l = Z.of_nat i;
  pt_nodup : NoDup (l_running l);
  pt_sched : forall id, id ∈ l_running l -> id ∈ take i (x_running s);
  pt_keys : forall id, id ∈ od_keys (l_tokens l) -> id ∉ drop k (x_running s);
  pt_pre : l_preempted l = [] -> forall id, id ∈ od_keys (l_tokens l) -> id ∈ l_running l;
}.

(** The request being scheduled. *)
Record Focus (i : nat) (id : string) (s : ST) (l : Loc) : Prop := {
  fc_run : id ∈ take (S i) (x_running s);
  fc_sched : id ∉ l_running l;
  fc_keys : id ∉ od_keys (l_tokens l);
  fc_fcfs : x_policy c = FCFS -> x_running s !! i = Some id;
}.

(** One victim leaves: the request itself, or another one. *)
Lemma part_victim ids i id s l p s' l' : Part ids i (S i) s l -> Focus i id s l ->
  p ∈ x_running s -> (x_policy c = FCFS -> last (x_running s) = Some p) ->
  Inv c L ids [] s' -> x_running s' = remove1 p (x_running s) ->
  l' = match x_policy c with
       | PRIORITY => lset_victims (remove1 p (l_running l)) (l_preempted l) l
       | FCFS => l
       end ->
  Part ids i (S i) s' (lset_victims (l_running l') (l_preempted l' ++ [p]) l') /\ (p <> id -> Focus i id s' (lset_victims (l_running l') (l_preempted l' ++ [p]) l')).
Proof.
  intros [Hi Hs Hb Hph Hx Hnd Hsc Hk Hpre] [Fr Fs Fk Ff] Hp Hlast Hi' Hrun Hl'.
  assert (Hnr : NoDup (x_running s)) by (eapply inv_parts; eauto).
  assert (Hsame : l_running l' = remove1 p (l_running l) /\ l' = lset_victims (l_running l') (l_preempted l) l).
  { destruct (x_policy c); subst l'; [done|]. rewrite remove1_absent; [by destruct l|].
    specialize (Hlast eq_refl). specialize (Ff eq_refl). rewrite last_lookup in Hlast.
    intros Hin. apply Hsc, elem_of_take in Hin as (j & Hj & Hji).
    assert (j = Nat.pred (length (x_running s))) by (eapply NoDup_lookup; eauto).
    apply lookup_lt_Some in Ff. lia. }
  destruct Hsame as [Hrl El]. clear Hl'. rewrite El. simpl. rewrite Hrl. split.
  - split; simpl; [done|done|done|done|done|by apply NoDup_remove1| | |by destruct (l_preempted l)].
    + intros x Hin. rewrite Hrun. apply take_remove1.
      * apply Hsc. by apply (sublist_subseteq _ _ (remove1_sublist _ _)) in Hin.
      * intros ->. by apply (NoDup_remove1 p) in Hnd as [_ ?].
    + intros x Hin. rewrite Hrun. intros Hd. apply drop_remove1 in Hd. by apply (Hk x).
  - intros Hne. split; simpl; [|by intros ?%(sublist_subseteq _ _ (remove1_sublist _ _))|done|].
    + rewrite Hrun. by apply take_remove1.
    + intros Hpol. specialize (Ff Hpol). specialize (Hlast Hpol).
      rewrite Hrun, <- pop_remove1 by done. rewrite last_lookup in Hlast.
      rewrite lookup_take_lt; [done|]. pose proof (lookup_lt_Some _ _ _ Ff).
      destruct (decide (i = Nat.pred (length (x_running s)))) as [->|]; [congruence|lia].
Qed.

Lemma part_kv ids i k s l kv : Part ids i k s l -> Part ids i k (put_kv kv s) l.
Proof. intros [? ? ? ? ? ? ? ? ?]. split; [by apply inv_kv|done..]. Qed.

Lemma focus_running ids i k id s l : Part ids i k s l -> Focus i id s l ->
  id ∈ x_running s /\ known (running_ok L) (x_heap s) id.
Proof.
  intros HP [Hr _ _ _]. apply (subseteq_take _ _) in Hr. split; [done|].
  eapply inv_run; [apply (pt_inv _ _ _ _ _ HP)|done].
Qed.

(** Whatever the memory, the inner loop ends: each round frees a request. *)
Lemma wp_allocate_or_preempt fuel ids i id n slots s l : n <> 0 ->
  Part ids i (S i) s l -> Focus i id s l -> (length (x_running s) <= fuel)%nat ->
  wp (allocate_or_preempt o c fuel id n slots l)
    (fun r s' => exists bs l', r = Some (bs, l') /\ Part ids i (S i) s' l' /\ l_budget l' = l_budget l /\
       (length (x_running s') <= length (x_running s))%nat /\
       (bs <> None -> Focus i id s' l')) s.
Proof.
  intros Hn. revert s l. induction fuel as [|fuel IH]; intros s l HP HF Hfuel.
  { destruct (focus_running _ _ _ _ _ _ HP HF) as [Hin _]. destruct (x_running s); simpl in *; [set_solver|lia]. }
  destruct (focus_running _ _ _ _ _ _ HP HF) as (Hin & r & Hr & _). simpl.
  apply wp_bind, (wp_req_of id r); [done|].
  apply wp_bind, wp_on_kv; [by apply (ol_allocate _ laws)|]. intros [b|] kv _.
  { wp_steps. exists (Some b), l. split; [done|]. split; [by apply part_kv|].
    split; [done|]. split; [done|]. intros _. by destruct HF. }
  set (s1 := put_kv kv s). apply (part_kv _ _ _ _ _ kv) in HP. fold s1 in HP.
  assert (HF1 : Focus i id s1 l) by (by destruct HF).
  assert (Hne : x_running s1 <> []) by (simpl; intros Hn'; rewrite Hn' in Hin; set_solver).
  assert (Hnr : NoDup (x_running s1)) by (eapply inv_parts; apply HP).
  apply wp_bind, wp_pick_victim; [done|done|]. intros p Hp Hlast.
  apply wp_bind, (wp_preempt ids); [apply HP|done|]. intros s2 Hi2 Hrun2.
  destruct (part_victim ids i id s1 l p s2 _ HP HF1 Hp Hlast Hi2 Hrun2 eq_refl) as [HP2 HF2].
  assert (Hlen : length (x_running s1) = S (length (x_running s2))).
  { rewrite Hrun2. by rewrite (remove1_perm p (x_running s1)) at 1. }
  assert (Hb : forall l', l' = match x_policy c with
          | PRIORITY => lset_victims (remove1 p (l_running l)) (l_preempted l) l | FCFS => l end ->
          l_budget l' = l_budget l) by (intros l' ->; by destruct (x_policy c)).
  specialize (Hb _ eq_refl). case_bool_decide as Hpid.
  - wp_steps. eexists None, _. split; [done|]. split; [exact HP2|]. split; [exact Hb|].
    split; [simpl in Hlen; lia|done].
  - eapply wp_mono; [apply (IH s2 _ HP2 (HF2 Hpid)); simpl in Hlen; lia|]. cbv beta.
    intros a s' (bs & l' & -> & HP' & Hb' & Hlen' & HF'). exists bs, l'.
    split; [done|]. split; [done|]. split; [rewrite Hb'; exact Hb|]. split; [simpl in Hlen; lia|done].
Qed.

(** Local variables the invariant does not mention. *)
Lemma part_locals ids i k s l l' : Part ids i k s l ->
  l_new l' = l_new l -> l_resumed l' = l_resumed l -> l_running l' = l_running l ->
  l_preempted l' = l_preempted l -> l_tokens l' = l_tokens l -> l_budget l' = l_budget l ->
  l_index l' = l_index l -> l_skipped l' = l_skipped l -> Part ids i k s l'.
Proof.
  intros [? ? ? ? ? ? ? ? ?] E1 E2 E3 E4 E5 E6 E7 E8. split; rewrite ?E1, ?E2, ?E3, ?E4, ?E5, ?E6, ?E7, ?E8; done.
Qed.

(** The request is scheduled and the index moves on. *)
Lemma part_schedule ids i id n b s l : Part ids i (S i) s l -> Focus i id s l -> n <= l_budget l ->
  Part ids (S i) (S i) s
    (lset_index (l_index l + 1)
       (lset_tokens (od_set id b (l_blocks l)) (od_set id n (l_tokens l)) (l_budget l - n)
          (lset_victims (l_running l ++ [id]) (l_preempted l) l))).
Proof.
  intros HP HF Hn. pose proof (inv_parts _ _ _ _ (pt_inv _ _ _ _ _ HP)) as (_ & Hnr & _).
  destruct HP as [Hi Hs Hb Hph Hx Hnd Hsc Hk Hpre], HF as [Fr Fs Fk _].
  split; simpl; [done| |lia|done|lia| | | |].
  - rewrite od_set_new by done. unfold od_values in *. rewrite fmap_app, zsum_app, Hs. simpl. lia.
  - apply NoDup_app. split; [done|]. split; [set_solver|]. apply NoDup_singleton.
  - intros x. rewrite elem_of_app, list_elem_of_singleton. intros [Hx'| ->]; [|done].
    eapply elem_of_take_mono; [|by apply Hsc]. lia.
  - intros x. rewrite elem_of_od_keys_set. intros [->|Hx']; [|by apply Hk].
    intros Hd. rewrite <- (take_drop (S i) (x_running s)) in Hnr.
    apply NoDup_app in Hnr as (_ & Hd' & _). by apply (Hd' id).
  - intros Hp x. rewrite elem_of_od_keys_set, elem_of_app. intros [->|Hx']; [right; by left|].
    left. by apply Hpre.
Qed.

Lemma wp_schedule_spec id n s l ids i k : Part ids i k s l -> known (running_ok L) (x_heap s) id -> id ∈ x_running s ->
  wp (schedule_spec id n l) (fun l' s' => Part ids i k s' l' /\ x_running s' = x_running s) s.
Proof.
  intros HP (r & Hr & Hok) Hin. unfold schedule_spec. apply wp_bind, (wp_req_of id r); [done|].
  destruct (x_spec_token_ids r) as [|t ts]; [by wp_steps|]. destruct (0 <? _); [|by wp_steps].
  apply wp_bind, wp_put_req, wp_ret. split; [|done].
  eapply (part_locals _ _ _ _ l); try reflexivity. destruct HP as [Hi ? ? ? ? ? ? ? ?].
  split; [|done..]. apply inv_heap; [done| |done].
  intros Hw. pose proof (inv_parts _ _ _ _ Hi) as (_ & _ & Hd). exfalso. by apply (Hd id).
Qed.

Lemma wp_schedule_encoder id inputs eb s l (Q : Loc -> ST -> Prop) :
  (forall kv l', (l' = l \/ exists x, l' = lset_encoder x eb l) -> Q l' (put_kv kv s)) ->
  wp (schedule_encoder o id inputs eb l) Q s.
Proof.
  intros HQ. assert (Hs : s = put_kv (x_kv s) s) by (by destruct s).
  assert (H0 : Q l s) by (rewrite Hs; apply HQ; by left).
  unfold schedule_encoder. destruct inputs as [[|x ins]|]; [by wp_steps| |by wp_steps].
  apply wp_bind. eapply (wp_for (fun s' => exists kv, s' = put_kv kv s)); [by exists (x_kv s)| |].
  - intros y s' _ [kv ->]. apply wp_mod_kv. by eexists.
  - intros s' [kv ->]. wp_steps. apply HQ. right. by eexists.
Qed.

Lemma running_tokens_le r b : running_tokens c r b <= b.
Proof. unfold running_tokens. lia. Qed.

Lemma try_encoder_le id has comp n b s (Q : option (list Z) * Z * Z -> ST -> Prop) :
  (forall inputs n' b', n' <= n -> (0 < n -> 0 <= n') -> Q (inputs, n', b') s) ->
  wp (try_encoder o id has comp n b) Q s.
Proof.
  intros HQ. unfold try_encoder. wp_steps. destruct has; [|apply HQ; lia].
  destruct (o_try_schedule_encoder_inputs o id comp n b (x_kv s)) as [[inputs n'] b'] eqn:He.
  destruct (ol_encoder _ laws _ _ _ _ _ _ _ _ He). by apply HQ.
Qed.

Lemma part_skip ids i id s l : Part ids i i s l ->
  Part ids (S i) (S i) s (lset_index (l_index l + 1) l).
Proof.
  intros [Hi Hs Hb Hph Hx Hnd Hsc Hk Hpre]. split; simpl; [done|done|done|done|lia|done| | |done].
  - intros x Hx'. eapply elem_of_take_mono; [|by apply Hsc]. lia.
  - intros x Hx' Hd. apply (Hk x Hx'). eapply elem_of_drop_mono; [|exact Hd]. lia.
Qed.

Lemma part_focus ids i id s l : Part ids i i s l -> x_running s !! i = Some id ->
  Part ids i (S i) s l /\ Focus i id s l.
Proof.
  intros HP Hid. pose proof (inv_parts _ _ _ _ (pt_inv _ _ _ _ _ HP)) as (_ & Hnr & _).
  destruct HP as [Hi Hs Hb Hph Hx Hnd Hsc Hk Hpre]. split; split; try done.
  - intros x Hx' Hd. apply (Hk x Hx'). eapply elem_of_drop_mono; [|exact Hd]. lia.
  - apply elem_of_take. exists i. split; [done|lia].
  - intros Hin. apply Hsc, elem_of_take in Hin as (j & Hj & Hji).
    assert (j = i) by (eapply NoDup_lookup; eauto). lia.
  - intros Hin. apply (Hk id Hin). eapply list_elem_of_lookup_2 with (i := 0%nat).
    by rewrite lookup_drop, Nat.add_0_r.
Qed.

(** The loop over the running requests ends, and schedules running ones. *)
Lemma wp_schedule_running fuel ids i s l : Part ids i i s l -> (length (x_running s) - i < fuel)%nat ->
  wp (schedule_running o c fuel l) (fun r s' => exists l' i' k', r = Some l' /\ Part ids i' k' s' l') s.
Proof.
  revert i s l. induction fuel as [|fuel IH]; intros i s l HP Hfuel; [lia|]. cbn [schedule_running]. wp_steps.
  destruct ((l_index l <? pylen (x_running s)) && (0 <? l_budget l)) eqn:Hgo; [|wp_steps; by eauto 6].
  apply andb_true_iff in Hgo as [Hlt Hpos]. rewrite (pt_index _ _ _ _ _ HP) in Hlt.
  apply Z.ltb_lt in Hlt, Hpos. unfold pylen in Hlt.
  destruct (lookup_lt_is_Some_2 (x_running s) i) as [id Hid]; [lia|].
  apply wp_bind, (wp_lift _ id).
  { unfold py_idx. by rewrite (pt_index _ _ _ _ _ HP), py_nth_nonneg, Nat2Z.id, Hid by lia. }
  destruct (part_focus _ _ _ _ _ HP Hid) as [HP0 HF0].
  destruct (focus_running _ _ _ _ _ _ HP0 HF0) as (Hin & r & Hr & Hok).
  apply wp_bind, (wp_req_of id r); [done|]. unfold slots_of. wp_steps.
  set (sl := match o_estimate o with Some _ => _ | None => _ end). set (l1 := lset_slots _ l).
  assert (HP1 : Part ids i i s l1) by (by eapply part_locals; [exact HP|..]).
  assert (HPF : Part ids i (S i) s l1 /\ Focus i id s l1) by (by apply part_focus).
  destruct HPF as [HP2 HF2]. apply try_encoder_le. intros inputs n eb Hn _.
  pose proof (running_tokens_le r (l_budget l1)) as Hle.
  destruct (Z.eqb_spec n 0) as [Hz|Hz]; [apply (IH (S i)); [exact (part_skip _ _ id _ _ HP1)|lia]|].
  eapply wp_call; [apply (wp_allocate_or_preempt _ ids i id n sl s l1 Hz HP2 HF2); lia|]. cbv beta.
  intros a s2 (bs & l2 & -> & HP3 & Hb & Hlen & HF3). destruct bs as [b|]; [|wp_steps; by eauto 6].
  specialize (HF3 ltac:(done)).
  assert (HP4 := part_schedule _ _ _ n b _ _ HP3 HF3 ltac:(lia)).
  destruct (focus_running _ _ _ _ _ _ HP3 HF3) as (Hin2 & Hk2).
  eapply wp_call; [apply (wp_schedule_spec id n _ _ ids (S i) (S i)); [exact HP4|done|done]|]. cbv beta.
  intros l3 s3 [HP5 Hrun3]. apply wp_bind, wp_schedule_encoder. intros kv l4 Hl4.
  apply (IH (S i)); [|simpl; rewrite Hrun3; lia]. apply part_kv.
  destruct Hl4 as [->|[x ->]]; [done|]. by eapply part_locals; [exact HP5|..].
Qed.

Lemma part_initial ids s : Inv c L ids [] s -> 0 <= x_max_num_scheduled_tokens c ->
  Part ids 0 0 s (initial_loc c).
Proof.
  intros Hi Hm. split; simpl; try done; try lia; try set_solver. constructor.
Qed.

(** ** The waiting requests *)

(** The local variables while the waiting requests are scheduled. *)
Record Admits (ids : list string) (s : ST) (l : Loc) : Prop := {
  ad_inv : Inv c None ids (l_skipped l) s;
  ad_sum : zsum (od_values (l_tokens l)) = x_max_num_scheduled_tokens c - l_budget l;
  ad_budget : 0 <= l_budget l;
  ad_nodup : NoDup (l_new l ++ l_resumed l ++ l_running l);
  ad_sched : forall id, id ∈ l_new l ++ l_resumed l ++ l_running l -> id ∈ x_running s;
  ad_blocks : forall id, id ∈ l_new l -> id ∈ od_keys (l_blocks l);
}.
Definition tokens_running (s : ST) (l : Loc) : Prop :=
  forall id, id ∈ od_keys (l_tokens l) -> id ∈ x_running s.

Lemma admits_of_part ids i k s l : Part ids i k s l ->
  Admits ids s l /\ (l_preempted l = [] -> tokens_running s l).
Proof.
  intros [Hi Hs Hb (Hn & Hr & Hk) Hx Hnd Hsc _ Hpre]. split.
  - split; [rewrite Hk; by eapply inv_none|done|done|by rewrite Hn, Hr| |rewrite Hn; set_solver].
    rewrite Hn, Hr. simpl. intros id Hin. by eapply subseteq_take, Hsc.
  - intros Hp id Hin. by eapply subseteq_take, Hsc, Hpre.
Qed.

Lemma admits_locals ids s l l' : Admits ids s l ->
  l_new l' = l_new l -> l_resumed l' = l_resumed l -> l_running l' = l_running l ->
  l_tokens l' = l_tokens l -> l_budget l' = l_budget l -> l_blocks l' = l_blocks l ->
  l_skipped l' = l_skipped l -> Admits ids s l'.
Proof.
  intros [? ? ? ? ? ?] E1 E2 E3 E4 E5 E6 E7. split; rewrite ?E1, ?E2, ?E3, ?E4, ?E5, ?E6, ?E7; done.
Qed.

Lemma admits_kv ids s l kv : Admits ids s l -> Admits ids (put_kv kv s) l.
Proof. intros [? ? ? ? ? ?]. split; [by apply inv_kv|done..]. Qed.

Lemma admits_heap ids s l id r : Admits ids s l -> id ∉ x_running s -> waiting_ok r ->
  Admits ids (put_heap id r s) l.
Proof. intros [? ? ? ? ? ?] Hout Hr. split; [by apply inv_heap|done..]. Qed.

(** The peeked request is being considered; [w] is the waiting queue. *)
Record At (ids w : list string) (id : string) (s : ST) (l : Loc) : Prop := {
  at_admits : Admits ids s l;
  at_tokens : tokens_running s l;
  at_waiting : x_waiting s = w;
  at_peek : q_peek (o_queue o) w = Some id;
  at_budget : 0 < l_budget l;
  at_room : pylen (x_running s) < x_max_num_running_reqs c;
}.

(** The loop goes on with fewer waiting requests, or stops. *)
Definition Good (ids w : list string) (next : Next) (s : ST) : Prop :=
  match next with
  | Continue l => Admits ids s l /\ tokens_running s l /\ (length (x_waiting s) < length w)%nat
  | Break l => Admits ids s l
  end.

Lemma at_request ids w id s l : At ids w id s l ->
  known waiting_ok (x_heap s) id /\ id ∉ x_running s.
Proof.
  intros [[Hi _ _ _ _ _] _ Hw Hp _ _]. destruct (ql_pop _ (ol_queue _ laws) _ _ Hp) as (w' & _ & Hw').
  assert (Hin : id ∈ x_waiting s ++ l_skipped l) by (rewrite Hw, Hw'; set_solver).
  split; [by eapply inv_wait|]. by eapply inv_parts.
Qed.

Lemma at_locals ids w id s l l' : At ids w id s l ->
  l_new l' = l_new l -> l_resumed l' = l_resumed l -> l_running l' = l_running l ->
  l_tokens l' = l_tokens l -> l_budget l' = l_budget l -> l_blocks l' = l_blocks l ->
  l_skipped l' = l_skipped l -> At ids w id s l'.
Proof.
  intros [Ha Ht Hw Hp Hb Hr] E1 E2 E3 E4 E5 E6 E7. split; rewrite ?E5; try done.
  - by eapply admits_locals.
  - unfold tokens_running. by rewrite E4.
Qed.

Lemma at_kv ids w id s l kv : At ids w id s l -> At ids w id (put_kv kv s) l.
Proof. intros [? ? ? ? ? ?]. split; [by apply admits_kv|done..]. Qed.

Lemma at_heap ids w id s l r : At ids w id s l -> waiting_ok r -> At ids w id (put_heap id r s) l.
Proof.
  intros Ha Hr. pose proof (at_request _ _ _ _ _ Ha) as [_ Hout]. destruct Ha as [? ? ? ? ? ?].
  split; [by apply admits_heap|done..].
Qed.

Lemma waiting_ok_status r v : waiting_ok r -> v ∈ [WAITING; WAITING_FOR_REMOTE_KVS] -> waiting_ok (xwith_status v r).
Proof. intros [_ Hc] Hv. split; [simpl; set_solver|done]. Qed.

Lemma wp_pop_waiting w id s (Q : string -> ST -> Prop) :
  x_waiting s = w -> q_peek (o_queue o) w = Some id ->
  (forall w', w ≡ₚ id :: w' -> Q id (put_queues w' (x_running s) s)) -> wp (pop_waiting o) Q s.
Proof.
  intros Hw Hp HQ. destruct (ql_pop _ (ol_queue _ laws) _ _ Hp) as (w' & Hpop & Hperm).
  unfold pop_waiting. wp_steps. rewrite Hw, Hpop. wp_steps. by apply HQ.
Qed.

(** The invariant once the peeked request stands aside. *)
Lemma inv_aside ids w id s sk w' : Inv c None ids sk s -> x_waiting s = w -> w ≡ₚ id :: w' ->
  Inv c None ids (q_prepend (o_queue o) id sk) (put_queues w' (x_running s) s).
Proof.
  intros [Hn Hp Hw Hr Hl] Ew Hperm. pose proof (ql_prepend _ (ol_queue _ laws) id sk) as Hq.
  split; simpl; [done| | |done|done].
  - rewrite Hq, <- Hp, Ew, Hperm. solve_Permutation.
  - intros x. rewrite Hq. intros Hx. apply Hw. rewrite Ew, Hperm. set_solver.
Qed.

Lemma wp_skip ids w id s l : At ids w id s l -> wp (skip o id l) (Good ids w) s.
Proof.
  intros [[Hi Hs Hb Hn Hsc Hbl] Ht Hw Hp Hb' Hr]. unfold skip.
  apply wp_bind, (wp_pop_waiting w id); [done|done|]. intros w' Hperm. wp_steps.
  split; [|split; [done|by rewrite Hperm; simpl; lia]].
  split; simpl; [by eapply inv_aside|done..].
Qed.

Lemma wp_is_ready ids w id s l (Q : bool -> ST -> Prop) : At ids w id s l ->
  (forall s', At ids w id s' l -> Q false s') ->
  (forall s' r, At ids w id s' l -> x_heap s' !! id = Some r -> x_status r ∈ [WAITING; PREEMPTED] -> Q true s') ->
  wp (is_ready o id) Q s.
Proof.
  intros Ha Hf Ht. destruct (at_request _ _ _ _ _ Ha) as [(r & Hr & Hok) _]. unfold is_ready.
  apply wp_bind, (wp_req_of id r); [done|]. apply wp_bind. case_bool_decide as Hst.
  - destruct (ol_remote _ laws id s r Hr (proj2 Hok)) as (b & v & k' & Hrun & Hv).
    set (r1 := xwith_tokens v (x_num_cached_tokens r) r) in *.
    assert (Hok1 : waiting_ok r1) by (split; [apply Hok|exact Hv]).
    assert (Ha1 : At ids w id (put_kv k' (put_heap id r1 s)) l) by (by apply at_kv, at_heap).
    assert (Hr1 : x_heap (put_kv k' (put_heap id r1 s)) !! id = Some r1) by (simpl; apply lookup_insert_eq).
    apply wp_bind. eapply wp_intro; [exact Hrun|]. destruct b; [|wp_steps; by apply Hf].
    apply wp_bind, (wp_req_of id r1); [done|]. apply wp_bind, wp_put_req, wp_ret. simpl negb. cbv iota.
    apply wp_bind, (wp_req_of id (xwith_status WAITING r1)); [simpl; apply lookup_insert_eq|].
    rewrite bool_decide_eq_false_2 by done. wp_steps. eapply (Ht _ (xwith_status WAITING r1)).
    + apply at_heap; [done|]. apply waiting_ok_status; [done|set_solver].
    + simpl. apply lookup_insert_eq.
    + simpl. set_solver.
  - wp_steps. simpl negb. cbv iota. apply wp_bind, (wp_req_of id r); [done|]. case_bool_decide as Hfsm.
    + destruct (x_grammar_ready r); [|wp_steps; by apply Hf]. apply wp_bind, wp_put_req, wp_ret.
      eapply (Ht _ (xwith_status WAITING r)).
      * apply at_heap; [done|]. apply waiting_ok_status; [done|set_solver].
      * simpl. apply lookup_insert_eq.
      * simpl. set_solver.
    + wp_steps. apply (Ht s r); [done|done|]. destruct Hok as [Hok _]. set_solver.
Qed.

(** What the search for computed tokens promises of a request [r]. *)
Definition hits_ok (r : XReq) (h : Hits) : Prop :=
  0 <= h_external h /\ (h_async h = true -> 0 < h_external h) /\
  (h_async h = false -> 0 <= h_computed h < x_num_tokens r).

Lemma wp_find_hits ids w id r s l (Q : option Hits * Loc -> ST -> Prop) : At ids w id s l -> waiting_ok r ->
  (forall s' l', At ids w id s' l' -> x_heap s' = x_heap s -> Q (None, l') s') ->
  (forall s' l' h, At ids w id s' l' -> x_heap s' = x_heap s -> hits_ok r h -> Q (Some h, l') s') ->
  wp (find_hits o id r l) Q s.
Proof.
  intros Ha [_ Hc] HN HS. unfold find_hits. destruct (Z.eqb_spec (x_num_computed_tokens r) 0) as [Hz|Hz].
  - wp_steps. pose proof (ol_local _ laws id r (x_kv s) ltac:(lia)) as Hloc.
    destruct (o_get_computed_blocks o id r (x_kv s)) as [bs local] eqn:Eb. simpl in Hloc.
    apply wp_bind. destruct (o_connector o) as [cn|] eqn:Ecn.
    + destruct (cl_matched _ (ol_connector _ laws cn Ecn) id r local (x_kv s) Hloc) as (e & b & k' & Hm & He).
      eapply (wp_intro _ _ _ (e, b) (put_kv k' s)); [unfold on_kv, zoom; by rewrite Hm|].
      apply (at_kv _ _ _ _ _ k') in Ha. destruct e as [e|]; wp_steps; [|by apply HN].
      destruct (He e eq_refl) as (He0 & Hea & Hes).
      apply HS; [by eapply at_locals; [exact Ha|..]|done|]. split; [done|]. split; [done|].
      intros Hb. simpl in *. specialize (Hes Hb). lia.
    + wp_steps. apply HS; [by eapply at_locals; [exact Ha|..]|done|]. split; [simpl; lia|]. split; [done|].
      intros _. simpl. lia.
  - wp_steps. apply HS; [done|done|]. split; [simpl; lia|]. split; [done|]. intros _. simpl. lia.
Qed.

Lemma cap_prefill_pos n : 0 < n -> 0 < cap_prefill c n.
Proof. unfold cap_prefill. intros Hn. destruct (andb _ _) eqn:E; [|done]. apply andb_true_iff in E. lia. Qed.

Lemma wp_waiting_tokens id r h s l (Q : Amount -> ST -> Prop) : hits_ok r h -> 0 < l_budget l ->
  Q Skip s -> Q Stop s ->
  (forall n inputs eb, 0 <= n <= l_budget l -> n + h_external h <> 0 -> Q (Take n inputs eb) s) ->
  wp (waiting_tokens o c id r h l) Q s.
Proof.
  intros (He & Ha & Hs) Hb Hskip Hstop Htake. unfold waiting_tokens. destruct (h_async h).
  - specialize (Ha eq_refl). apply wp_bind, wp_assert; [lia|]. wp_steps. apply Htake; lia.
  - pose proof (cap_prefill_pos (x_num_tokens r - h_computed h) ltac:(lia)) as Hn.
    destruct (_ && _); [by wp_steps|]. apply wp_bind, wp_assert; [lia|].
    destruct (x_has_encoder_inputs r); [|wp_steps; apply Htake; lia].
    apply wp_bind, try_encoder_le. intros inputs n' b' Hle Hpos.
    destruct (Z.eqb_spec n' 0); wp_steps; [done|]. apply Htake; lia.
Qed.

(** The invariant once the peeked request runs. *)
Lemma inv_running ids w id s sk w' r : Inv c None ids sk s -> x_waiting s = w -> w ≡ₚ id :: w' ->
  pylen (x_running s) < x_max_num_running_reqs c -> running_ok None r ->
  Inv c None ids sk (put_heap id r (put_queues w' (x_running s ++ [id]) s)).
Proof.
  intros Hi Ew Hperm Hmax Hr0. pose proof (inv_parts _ _ _ _ Hi) as (Hnd & _ & _).
  destruct Hi as [Hn Hp Hw Hr Hl]. rewrite Ew, Hperm in Hnd. apply NoDup_cons in Hnd as [Hout _].
  split; simpl; [done| | | |by autorewrite with pylen; lia].
  - rewrite <- Hp, Ew, Hperm. solve_Permutation.
  - intros x Hx. assert (x <> id) by (intros ->; apply Hout; set_solver).
    destruct (Hw x) as (r' & ? & ?); [rewrite Ew, Hperm; set_solver|]. exists r'. by rewrite lookup_insert_ne.
  - intros x. rewrite elem_of_app, list_elem_of_singleton. intros Hx. destruct (decide (x = id)) as [->|Hne].
    + exists r. by rewrite lookup_insert_eq.
    + destruct (Hr x) as (r' & ? & ?); [naive_solver|]. exists r'. by rewrite lookup_insert_ne.
Qed.

(** The locals once it runs, in either list of admitted requests. *)
Lemma admits_running ids id n bs s s' l l' : Admits ids s l -> tokens_running s l -> id ∉ x_running s ->
  Inv c None ids (l_skipped l) s' -> x_running s' = x_running s ++ [id] -> n <= l_budget l ->
  (l_new l' = l_new l ++ [id] /\ l_resumed l' = l_resumed l \/ l_new l' = l_new l /\ l_resumed l' = l_resumed l ++ [id]) ->
  l_running l' = l_running l -> l_tokens l' = od_set id n (l_tokens l) -> l_blocks l' = od_set id bs (l_blocks l) ->
  l_budget l' = l_budget l - n -> l_skipped l' = l_skipped l ->
  Admits ids s' l' /\ tokens_running s' l'.
Proof.
  intros [Hi Hs Hb Hn Hsc Hbl] Ht Hout Hi' Hrun Hle Hnr E1 E2 E3 E4 E5.
  assert (Hp : l_new l' ++ l_resumed l' ++ l_running l' ≡ₚ id :: l_new l ++ l_resumed l ++ l_running l).
  { rewrite E1. destruct Hnr as [[-> ->]|[-> ->]]; solve_Permutation. }
  split; [split|].
  - by rewrite E5.
  - rewrite E2, E4, od_set_new by (intros Hk; by apply Hout, Ht).
    unfold od_values in *. rewrite fmap_app, zsum_app, Hs. simpl. lia.
  - lia.
  - rewrite Hp. apply NoDup_cons. split; [|done]. intros Hin. by apply Hout, Hsc.
  - intros x. rewrite Hp, Hrun. set_solver.
  - intros x Hx. rewrite E3, elem_of_od_keys_set.
    assert (x = id \/ x ∈ l_new l) as [->|Hx']; [|by left|right; by apply Hbl].
    destruct Hnr as [[Hnew _]|[Hnew _]]; rewrite Hnew in Hx; set_solver.
  - intros x. rewrite E2, elem_of_od_keys_set, Hrun. intros [->|Hx]; [set_solver|].
    apply elem_of_app. left. by apply Ht.
Qed.

Lemma wp_admit ids w id r h n inputs eb s l : At ids w id s l -> x_heap s !! id = Some r ->
  waiting_ok r -> x_status r ∈ [WAITING; PREEMPTED] -> n <= l_budget l ->
  wp (admit_waiting o c h n inputs eb l) (Good ids w) s.
Proof.
  intros Ha Hr Hok Hst Hle. destruct (at_request _ _ _ _ _ Ha) as [_ Hout].
  destruct Ha as [HA Ht Hw Hp Hb Hroom]. unfold admit_waiting.
  apply wp_bind, (wp_pop_waiting w id); [done|done|]. intros w' Hperm.
  assert (Hlen : (length w' < length w)%nat) by (rewrite Hperm; simpl; lia).
  apply wp_bind, (wp_req_of id r); [done|]. destruct (h_async h).
  - apply wp_bind, wp_put_req, wp_ret. split; [|split; done]. destruct HA as [Hi ? ? ? ? ?].
    split; simpl; [|done..]. apply inv_heap; [by eapply inv_aside| |done].
    intros _. apply waiting_ok_status; [done|set_solver].
  - wp_steps. apply (wp_mono _ (fun l1 s' => s' = put_queues w' (x_running s ++ [id]) s /\
      l1 = (if decide (x_status r = WAITING) then lset_admitted (l_new l ++ [id]) (l_resumed l) l
            else lset_admitted (l_new l) (l_resumed l ++ [id]) l))).
    { destruct (x_status r); (by wp_steps) || set_solver. }
    intros l1 s1 [-> ->]. set (l1 := if decide _ then _ else _).
    set (l2 := match x_max_loras c with Some _ => _ | None => _ end). wp_steps.
    apply wp_put_req, wp_bind, wp_schedule_encoder. intros kv l3 Hl3. apply wp_ret.
    set (r' := xwith_status RUNNING _).
    assert (Hi' : Inv c None ids (l_skipped l) (put_heap id r' (put_queues w' (x_running s ++ [id]) s))).
    { eapply inv_running; [by destruct HA|done|done|done|]. split; [done|]. split; [destruct Hok; simpl; lia|done]. }
    set (l4 := lset_tokens _ _ _ _) in *.
    assert (HG : Admits ids (put_heap id r' (put_queues w' (x_running s ++ [id]) s)) l4 /\
                 tokens_running (put_heap id r' (put_queues w' (x_running s ++ [id]) s)) l4).
    { eapply (admits_running ids id n _ s _ l); [done|done|done|exact Hi'|done|done|..];
        subst l4 l2 l1; destruct (x_max_loras c), (x_lora r), (decide _); simpl; auto. }
    destruct HG as [HA4 Ht4]. apply (admits_kv _ _ _ kv) in HA4.
    destruct Hl3 as [->|[x ->]]; (split; [by eapply admits_locals; [exact HA4|..]|split; [exact Ht4|done]]).
Qed.

Lemma wp_schedule_one ids w id s l : At ids w id s l -> wp (schedule_one o c id l) (Good ids w) s.
Proof.
  intros Ha. destruct (at_request _ _ _ _ _ Ha) as [(r0 & Hr0 & Hok0) _]. unfold schedule_one.
  apply wp_bind, (wp_req_of id r0); [done|]. unfold slots_of. wp_steps.
  set (sl := match o_estimate o with Some _ => _ | None => _ end). set (l1 := lset_slots _ l).
  assert (Ha1 : At ids w id s l1) by (by eapply at_locals; [exact Ha|..]).
  eapply wp_is_ready; [exact Ha1|intros s1 Ha2; by apply wp_skip|]. intros s1 r Ha2 Hr Hst.
  simpl negb. cbv iota. apply wp_bind, (wp_req_of id r); [done|].
  assert (Hok : waiting_ok r) by (destruct (at_request _ _ _ _ _ Ha2) as [(r' & ? & ?) _]; by simplify_eq).
  destruct (exceeds_loras c r l1); [by apply wp_skip|].
  apply wp_bind. eapply wp_find_hits; [exact Ha2|done|intros s2 l2 Ha3 _; by apply wp_skip|].
  intros s2 l2 h Ha3 Hh2 Hh. apply wp_bind. eapply wp_waiting_tokens; [exact Hh|apply Ha3|by apply wp_skip| |].
  { wp_steps. apply Ha3. }
  intros n inputs eb Hn Hne. apply wp_bind, wp_on_kv; [by apply (ol_allocate _ laws)|].
  intros [bs|] kv _; [|wp_steps; apply admits_kv, Ha3].
  apply wp_bind. assert (Hgo : forall kv', wp (admit_waiting o c h n inputs eb l2) (Good ids w) (put_kv kv' s2)).
  { intros kv'. eapply (wp_admit _ _ id r); [by apply at_kv|simpl; by rewrite Hh2|done|done|lia]. }
  destruct (o_connector o) as [cn|] eqn:Ecn; [|apply wp_ret, Hgo].
  apply wp_on_kv; [apply (cl_update _ (ol_connector _ laws _ Ecn))|]. intros [] kv' _. apply Hgo.
Qed.

(** The loop over the waiting requests ends: every round takes one out. *)
Lemma wp_schedule_waiting fuel ids s l : Admits ids s l -> tokens_running s l ->
  (length (x_waiting s) < fuel)%nat ->
  wp (schedule_waiting o c fuel l) (fun r s' => exists l', r = Some l' /\ Admits ids s' l') s.
Proof.
  revert s l. induction fuel as [|fuel IH]; intros s l HA Ht Hfuel; [lia|]. cbn [schedule_waiting]. wp_steps.
  destruct (q_peek (o_queue o) (x_waiting s)) as [id|] eqn:Hp; [|wp_steps; by eauto].
  destruct (Z.ltb_spec 0 (l_budget l)) as [Hb|Hb]; simpl negb; cbv iota; [|wp_steps; by eauto].
  destruct (Z.eqb_spec (pylen (x_running s)) (x_max_num_running_reqs c)) as [Hm|Hm]; [wp_steps; by eauto|].
  pose proof (inv_len _ _ _ _ _ (ad_inv _ _ _ HA)) as Hmax.
  eapply wp_call; [apply (wp_schedule_one ids (x_waiting s)); split; try done; lia|]. cbv beta.
  intros [l'|l'] s' HG; [|wp_steps; by eauto]. destruct HG as (HA' & Ht' & Hlen).
  apply IH; [done|done|lia].
Qed.

(** ** The step *)

Lemma lora_subset ids i k s l : Part ids i k s l -> forall ls, L = Some ls ->
  loras_of (x_heap s) (l_running l) ⊆ ls.
Proof.
  intros HP ls HL x. unfold loras_of. rewrite elem_of_list_to_set, list_elem_of_omap.
  intros (id & Hin & Hx). apply (pt_sched _ _ _ _ _ HP), (subseteq_take _ _) in Hin.
  destruct (inv_run _ _ _ _ _ (pt_inv _ _ _ _ _ HP) id Hin) as (r & Hr & _ & _ & Hl).
  rewrite Hr in Hx. by eapply Hl.
Qed.

Lemma wp_running_loras ids i k s l (Q : Loc -> ST -> Prop) : Part ids i k s l ->
  (forall m, x_max_loras c = Some m -> exists ls, L = Some ls /\ Z.of_nat (size ls) <= m) ->
  Part ids i k s l ->
  (forall l', Part ids i k s l' -> Q l' s) -> wp (running_loras c l) Q s.
Proof.
  intros HP HL _ HQ. unfold running_loras. destruct (x_max_loras c) as [m|]; [|wp_steps; by apply HQ].
  destruct (HL m eq_refl) as (ls & Els & Hm). wp_steps. apply wp_assert.
  - apply Z.leb_le. pose proof (subseteq_size _ _ (lora_subset _ _ _ _ _ HP ls Els)). lia.
  - wp_steps. apply HQ. by eapply part_locals; [exact HP|..].
Qed.

Lemma wp_put_back ids s l (Q : unit -> ST -> Prop) : Admits ids s l ->
  (forall s', Inv c None ids [] s' -> x_running s' = x_running s -> Q tt s') ->
  wp (match l_skipped l with
      | [] => ret tt
      | _ => modify (fun s => put_queues (q_prepends (o_queue o) (l_skipped l) (x_waiting s)) (x_running s) s)
      end) Q s.
Proof.
  intros [Hi _ _ _ _ _] HQ. destruct (l_skipped l) as [|a sk] eqn:Esk; [wp_steps; by apply HQ|].
  wp_steps. apply HQ; [|done]. destruct Hi as [Hn Hp Hw Hr Hl].
  pose proof (ql_prepends _ (ol_queue _ laws) (a :: sk) (x_waiting s)) as Hq.
  split; simpl; [done| | |done|done].
  - rewrite Hq, <- Hp. solve_Permutation.
  - intros x. rewrite app_nil_r, Hq. intros Hx. apply Hw. set_solver.
Qed.

Lemma wp_constraints ids s s' l (Q : unit -> ST -> Prop) : Admits ids s l -> Inv c None ids [] s' ->
  x_running s' = x_running s -> Q tt s' -> wp (check_constraints c l) Q s'.
Proof.
  intros [_ Hs Hb Hn Hsc _] Hi Hrun HQ. unfold check_constraints. wp_steps.
  apply wp_assert; [apply Z.leb_le; lia|]. apply wp_bind, wp_assert; [by apply Z.leb_le|].
  apply wp_bind, wp_assert; [apply Z.leb_le, Hi|]. apply wp_assert; [|done]. apply Z.leb_le.
  assert (Hsub : l_new l ++ l_resumed l ++ l_running l ⊆+ x_running s') by (rewrite Hrun; by apply NoDup_submseteq).
  apply submseteq_length in Hsub. rewrite !length_app in Hsub. unfold pylen. lia.
Qed.

Lemma wp_make_output s l (Q : XOutput MD CD GR -> ST -> Prop) :
  (forall id, id ∈ l_new l -> id ∈ od_keys (l_blocks l)) ->
  (forall out kv, xo_num_scheduled_tokens out = l_tokens l ->
     xo_total_num_scheduled_tokens out = zsum (od_values (l_tokens l)) -> Q out (put_kv kv s)) ->
  wp (make_output o c l) Q s.
Proof.
  intros Hbl HQ. unfold make_output. wp_steps.
  apply (wp_map_m _ (fun id => (id, default [] (od_get id (l_blocks l))))).
  - intros id Hid. unfold new_req_data. destruct (od_get id (l_blocks l)) eqn:E; [done|].
    apply od_get_None in E. by destruct (E (Hbl id Hid)).
  - wp_steps. unfold on_kv. apply wp_zoom. destruct (o_get_freed_mm_hashes o (x_kv s)) as [hs kv] eqn:Eh.
    unfold wp. rewrite Eh. by apply HQ.
Qed.

Lemma wp_finish_schedule out s (Q : XOutput MD CD GR -> ST -> Prop) :
  (forall out' s', xo_num_scheduled_tokens out' = xo_num_scheduled_tokens out ->
     xo_total_num_scheduled_tokens out' = xo_total_num_scheduled_tokens out ->
     x_waiting s' = x_waiting s -> x_running s' = x_running s ->
     (forall id r, x_heap s !! id = Some r -> exists r', x_heap s' !! id = Some r' /\
        x_status r' = x_status r /\ x_num_tokens r' = x_num_tokens r /\ (id ∉ x_running s -> r' = r)) ->
     Q out' s') ->
  wp (finish_schedule o out) Q s.
Proof.
  intros HQ.
  assert (Hend : forall out' kv, xo_num_scheduled_tokens out' = xo_num_scheduled_tokens out ->
     xo_total_num_scheduled_tokens out' = xo_total_num_scheduled_tokens out ->
     wp (do! o_update_after_schedule o out' in ret out') Q (put_kv kv s)).
  { intros out' kv E1 E2. destruct (ol_update _ laws out' (put_kv kv s)) as (s' & Hu & Hw & Hr & Hh).
    apply wp_bind. eapply wp_intro; [exact Hu|]. apply wp_ret, HQ; done. }
  assert (Hpub : forall out' kv (evs : option (list Ev)), xo_num_scheduled_tokens out' = xo_num_scheduled_tokens out ->
     xo_total_num_scheduled_tokens out' = xo_total_num_scheduled_tokens out ->
     wp (match evs with Some ((_ :: _) as evs) => mod_kv (o_publish o evs) | _ => ret tt end)
        (fun _ => wp (do! o_update_after_schedule o out' in ret out') Q) (put_kv kv s)).
  { intros out' kv evs E1 E2.
    destruct evs as [[|e evs]|]; [apply wp_ret| |apply wp_ret]; by apply Hend. }
  unfold finish_schedule. destruct (o_connector o) as [cn|] eqn:Ecn.
  - pose proof (ol_connector _ laws _ Ecn) as Hcn. wp_steps. apply wp_on_kv; [apply (ol_meta _ laws)|].
    intros m k1 _. wp_steps. apply wp_on_kv; [apply (ol_events _ laws)|]. intros ev k2 _.
    wp_steps. apply wp_on_kv; [apply (cl_events _ Hcn)|]. intros more k3 _. wp_steps. by apply (Hpub (with_meta out m) k3).
  - wp_steps. apply wp_on_kv; [apply (ol_events _ laws)|]. intros ev k2 _. wp_steps. by apply (Hpub out k2).
Qed.

(** What a step leaves, and what it promises of its output. *)
Record StepOk (ids : list string) (out : XOutput MD CD GR) (s' : ST) : Prop := {
  so_inv : Inv c None ids [] s';
  so_total : xo_total_num_scheduled_tokens out = zsum (od_values (xo_num_scheduled_tokens out));
  so_budget : xo_total_num_scheduled_tokens out <= x_max_num_scheduled_tokens c;
}.

Lemma wp_output ids s0 s l : Admits ids s0 l -> Inv c None ids [] s -> x_running s = x_running s0 ->
  wp (do! check_constraints c l in
      let! out := make_output o c l in
      let! out := finish_schedule o out in
      ret (Some out)) (fun r s' => exists out, r = Some out /\ StepOk ids out s') s.
Proof.
  intros HA Hi Hrun. apply wp_bind, (wp_constraints ids s0); [done|done|done|].
  apply wp_bind, wp_make_output; [apply HA|]. intros out kv E1 E2.
  apply wp_bind, wp_finish_schedule. intros out' s' E1' E2' Hw Hr Hh. apply wp_ret.
  exists out'. split; [done|]. split; [|by rewrite E1', E1, E2', E2|].
  - pose proof (inv_parts _ _ _ _ Hi) as (_ & _ & Hd). destruct Hi as [Hn Hp Hwt Hrt Hl].
    simpl in Hw, Hr, Hh. split; rewrite ?Hw, ?Hr; try done.
    + intros id Hid. destruct (Hwt id Hid) as (r & Er & Hok).
      destruct (Hh id r Er) as (r' & Er' & _ & _ & Heq). exists r'. split; [done|]. by rewrite Heq by (by apply Hd).
    + intros id Hid. destruct (Hrt id Hid) as (r & Er & Hst & Hpos & _).
      destruct (Hh id r Er) as (r' & Er' & Hs' & Hn' & _). exists r'. split; [done|].
      split; [by rewrite Hs'|]. split; [by rewrite Hn'|done].
  - rewrite E2', E2, (ad_sum _ _ _ HA). pose proof (ad_budget _ _ _ HA). lia.
Qed.

Lemma wp_schedule ids fuel s : Inv c L ids [] s -> 0 <= x_max_num_scheduled_tokens c ->
  (forall m, x_max_loras c = Some m -> exists ls, L = Some ls /\ Z.of_nat (size ls) <= m) ->
  (length ids < fuel)%nat ->
  wp (schedule o c fuel) (fun r s' => exists out, r = Some out /\ StepOk ids out s') s.
Proof.
  intros Hi Hm HL Hfuel. unfold schedule.
  assert (Hlen : forall s', Inv c L ids [] s' ->
    (length (x_running s') <= length ids)%nat /\ (length (x_waiting s') <= length ids)%nat).
  { intros s' [_ Hp _ _ _]. apply Permutation_length in Hp. rewrite !length_app in Hp. lia. }
  eapply wp_call; [apply (wp_schedule_running fuel ids 0); [by apply part_initial|]|].
  { destruct (Hlen s Hi). lia. }
  cbv beta. intros r s1 (l & i & k & -> & HP). apply wp_bind, (wp_running_loras ids i k); [done|done|done|].
  clear l HP. intros l HP. destruct (admits_of_part _ _ _ _ _ HP) as [HA Ht].
  assert (Hend : forall s2 l2, Admits ids s2 l2 ->
    wp (do! match l_skipped l2 with
            | [] => ret tt
            | _ => modify (fun s => put_queues (q_prepends (o_queue o) (l_skipped l2) (x_waiting s)) (x_running s) s)
            end in
        do! check_constraints c l2 in
        let! out := make_output o c l2 in
        let! out := finish_schedule o out in
        ret (Some out)) (fun r s' => exists out, r = Some out /\ StepOk ids out s') s2).
  { intros s2 l2 HA2. apply wp_bind, (wp_put_back ids); [done|]. intros s3 Hi3 Hrun3. by apply (wp_output ids s2). }
  destruct (l_preempted l) as [|p ps] eqn:Epre; [|apply wp_bind, wp_ret; by apply Hend].
  eapply wp_call; [apply (wp_schedule_waiting fuel ids); [done|by apply Ht|]|].
  { destruct (Hlen s1 (pt_inv _ _ _ _ _ HP)). lia. }
  cbv beta. intros r s2 (l2 & -> & HA2). by apply Hend.
Qed.
End runs.

(** ** The theorems *)

(** The LoRAs of the running requests fit together. *)
Definition loras_fit {K} (c : XConfig) (s : XState K) : Prop :=
  forall m, x_max_loras c = Some m -> Z.of_nat (size (loras_of (x_heap s) (x_running s))) <= m.

Section theorems.
Context {K MD CD GR Ev P : Type} (o : XOps K MD CD GR Ev P) (c : XConfig).

Lemma step_runs (s : XState K) fuel : OpsLaws o -> sched_ok c s -> loras_fit c s ->
  0 <= x_max_num_scheduled_tokens c -> (length (x_waiting s) + length (x_running s) < fuel)%nat ->
  wp (schedule o c fuel) (fun r s' => exists out, r = Some out /\ StepOk c (x_waiting s ++ x_running s) out s') s.
Proof.
  intros laws Hok Hl Hm Hfuel.
  apply (wp_schedule o c laws (Some (loras_of (x_heap s) (x_running s)))); [|done| |by rewrite length_app].
  - destruct Hok as [Hn Hp Hw Hr Hlen]. split; try done. intros id Hid.
    destruct (Hr id Hid) as (r & Er & Hs & Hpos & _). exists r. split; [done|]. split; [done|]. split; [done|].
    intros ls i [= <-] Hi. unfold loras_of. rewrite elem_of_list_to_set, list_elem_of_omap.
    exists id. by rewrite Er.
  - intros m Hmax. eexists. split; [done|]. by apply Hl.
Qed.


(** C2. A step neither loses nor duplicates a request, whatever it preempts,
    admits, skips or puts aside: afterwards the waiting and the running
    requests together are those from before, and the invariant still holds, so
    every running request is marked as running and every waiting one has a
    status from which it can be scheduled. *)
Theorem schedule_keeps_every_request (s : XState K) fuel :
  OpsLaws o -> sched_ok c s -> loras_fit c s -> 0 <= x_max_num_scheduled_tokens c ->
  (length (x_waiting s) + length (x_running s) < fuel)%nat ->
  let s' := (schedule o c fuel s).2 in
  x_waiting s' ++ x_running s' ≡ₚ x_waiting s ++ x_running s /\ sched_ok c s'.
Proof.
  intros laws Hok Hl Hm Hfuel.
  destruct (wp_elim _ _ _ (step_runs s fuel laws Hok Hl Hm Hfuel)) as (r & s1 & Hrun & out & -> & [Hi _ _]).
  rewrite Hrun. simpl. destruct Hi as [Hn Hp Hw Hr Hlen]. split; [done|].
  split; [by rewrite Hp|done|done|done|done].
Qed.

(** A new request joins the waiting ones. *)
Lemma add_request_keeps_ok (s : XState K) id r : (forall w, q_add (o_queue o) id w ≡ₚ id :: w) ->
  sched_ok c s -> id ∉ x_waiting s ++ x_running s -> waiting_ok r -> sched_ok c (add_request o id r s).2.
Proof.
  intros Hq [Hn Hp Hw Hr Hlen] Hout Hok.
  set (s2 := XS (<[id := r]> (x_heap s)) ({[id]} ∪ x_requests s) (q_add (o_queue o) id (x_waiting s)) (x_running s)
               (x_finished_req_ids s) (x_finished_req_ids_dict s) (x_kv s)).
  assert (Hs2 : sched_ok c s2).
  { split; simpl; [|done| | |done].
    - rewrite Hq. by constructor.
    - intros x. rewrite app_nil_r, Hq, elem_of_cons. intros Hx. destruct (decide (x = id)) as [->|Hne].
      + exists r. by rewrite lookup_insert_eq.
      + destruct (Hw x) as (r' & ? & ?); [rewrite app_nil_r; naive_solver|]. exists r'. by rewrite lookup_insert_ne.
    - intros x Hx. destruct (Hr x Hx) as (r' & ? & ?). exists r'.
      rewrite lookup_insert_ne; [done|]. intros ->. set_solver. }
  assert (Hrun : exists k, (add_request o id r s).2 = put_kv k s2).
  { unfold add_request. m_unfold. simpl. destruct (o_estimate o); by eexists. }
  destruct Hrun as [k ->]. by apply (inv_kv c).
Qed.
End theorems.

(** ** A concrete scheduler

    The managers hold three blocks and give a request one block per call; the
    queue is first come, first served. *)
Module SchedDemo.
Definition queue : QueueOps := {|
  q_peek := head;
  q_pop := fun w => match w with [] => None | x :: w' => Some (x, w') end;
  q_prepend := cons;
  q_prepends := app;
  q_add := fun x w => w ++ [x];
|}.

Definition ops : XOps (list string) unit unit unit unit unit := {|
  o_queue := queue;
  o_estimate := None;
  o_request_begin := fun _ _ k => k;
  o_request_finished_in_scheduler := fun _ k => k;
  o_allocate_slots := fun id _ _ _ k =>
    if (length k <? 3)%nat then (Ok (Some [[pylen k]]), id :: k) else (Ok None, k);
  o_free := fun id k => filter (fun x => x <> id) k;
  o_get_computed_blocks := fun _ _ _ => ([], 0);
  o_create_empty_block_list := [];
  o_add_blocks := fun a b => a ++ b;
  o_get_blocks := fun id k => [[pylen (filter (fun x => x = id) k)]];
  o_get_num_common_prefix_blocks := fun _ _ _ => [0];
  o_take_events := ret None;
  o_publish := fun _ k => k;
  o_encoder_free := fun _ k => k;
  o_encoder_allocate := fun _ _ k => k;
  o_try_schedule_encoder_inputs := fun _ _ n b _ => (None, n, b);
  o_connector := None;
  o_build_connector_meta := fun _ => ret tt;
  o_update_waiting_for_remote_kv := fun _ => ret true;
  o_make_cached_request_data := fun _ _ _ _ _ _ => tt;
  o_get_grammar_bitmask := fun _ _ _ => tt;
  o_get_freed_mm_hashes := fun k => ([], k);
  o_update_after_schedule := fun _ => ret tt;
  o_connector_finished := fun _ => ret (false, None);
  o_free_blocks := fun id => mod_kv (fun k => filter (fun x => x <> id) k);
|}.

Lemma ops_laws : OpsLaws ops.
Proof.
  split; simpl.
  - split; simpl; [by intros []|intros [] ? [= ->]; by eexists|done|done].
  - intros id r a slots _ k. destruct (_ <? _)%nat; by do 2 eexists.
  - intros ? ? ? ? ? ? ? ? [= <- <- <-]. lia.
  - intros. lia.
  - done.
  - intros ? ?. by do 2 eexists.
  - intros ?. by do 2 eexists.
  - intros id s r Hr Hc. exists true, (x_num_computed_tokens r), (x_kv s). split; [|done].
    unfold ret. f_equal. destruct s as [h q w ru f d k]. unfold put_kv, put_heap. simpl in *. f_equal.
    symmetry. apply insert_id. rewrite Hr. by destruct r.
  - intros out s. exists s. split; [done|]. split; [done|]. split; [done|]. intros id r Hr. by exists r.
Qed.

Definition cfg (p : Policy) (loras : option Z) : XConfig := {|
  x_policy := p; x_max_num_running_reqs := 4; x_max_num_scheduled_tokens := 16; x_max_model_len := 100;
  x_long_prefill_token_threshold := 0; x_chunked_prefill_enabled := true; x_max_num_encoder_input_tokens := 0;
  x_sched_max_num_encoder_input_tokens := 0; x_num_lookahead_tokens := 0; x_is_encoder_decoder := false;
  x_max_loras := loras; x_num_kv_cache_groups := 1;
|}.

(** A request of [n] tokens, [m] of them computed. *)
Definition req (st : ReqStatus) (n m prio : Z) (lora : option Z) : XReq := {|
  x_status := st; x_num_tokens := n; x_num_tokens_with_spec := n; x_num_output_placeholders := 0;
  x_num_computed_tokens := m; x_num_cached_tokens := 0; x_spec_token_ids := []; x_has_encoder_inputs := false;
  x_priority := prio; x_arrival_time := 0; x_lora := lora; x_grammar_ready := false; x_client_index := 0;
  x_prompt_token_ids := [];
|}.

Definition state (waiting running : list (string * XReq)) (blocks : list string) : XState (list string) :=
  XS (list_to_map (waiting ++ running)) (list_to_set (waiting ++ running).*1) waiting.*1 running.*1 ∅ None blocks.

(** Two requests decode, one new one waits and one of its kind is preempted. *)
Definition start : XState (list string) :=
  state [("p", req PREEMPTED 6 0 0 None); ("w", req WAITING 5 0 0 None)]
        [("a", req RUNNING 9 8 0 None); ("b", req RUNNING 9 8 0 None)] [].

(** The running requests take two blocks and the preempted one the last. *)
Example start_runs : let '(r, s') := schedule ops (cfg FCFS None) 5 start in
  (match r with Ok (Some out) => Some (xo_num_scheduled_tokens out) | _ => None end, x_waiting s', x_running s')
  = (Some [("a", 1); ("b", 1); ("p", 6)], ["w"], ["a"; "b"; "p"]).
Proof. vm_compute. reflexivity. Qed.

(** The decision procedure of the invariant. *)
Definition waiting_okb (r : XReq) : bool :=
  bool_decide (x_status r ∈ [WAITING; WAITING_FOR_FSM; WAITING_FOR_REMOTE_KVS; PREEMPTED]) &&
  (0 <=? x_num_computed_tokens r) && (x_num_computed_tokens r <? x_num_tokens r).
Definition running_okb (r : XReq) : bool := bool_decide (x_status r = RUNNING) && (0 <? x_num_tokens r).
Definition sched_okb (c : XConfig) (s : XState (list string)) : bool :=
  bool_decide (NoDup (x_waiting s ++ x_running s)) &&
  forallb (fun id => match x_heap s !! id with Some r => waiting_okb r | None => false end) (x_waiting s) &&
  forallb (fun id => match x_heap s !! id with Some r => running_okb r | None => false end) (x_running s) &&
  (pylen (x_running s) <=? x_max_num_running_reqs c).

Lemma sched_okb_sound c s : sched_okb c s = true -> sched_ok c s.
Proof.
  unfold sched_okb. rewrite !andb_true_iff. intros [[[Hn Hw] Hr] Hl].
  rewrite forallb_forall in Hw. rewrite forallb_forall in Hr.
  split; [by apply bool_decide_eq_true_1 in Hn|done| | |by apply Z.leb_le].
  - intros id. rewrite app_nil_r. intros Hid. apply list_elem_of_In, Hw in Hid.
    destruct (x_heap s !! id) as [r|] eqn:Er; [|done]. exists r. split; [done|].
    unfold waiting_okb in Hid. rewrite !andb_true_iff in Hid. destruct Hid as [[H1 H2] H3].
    apply bool_decide_eq_true_1 in H1. split; [done|lia].
  - intros id Hid. apply list_elem_of_In, Hr in Hid.
    destruct (x_heap s !! id) as [r|] eqn:Er; [|done]. exists r. split; [done|].
    unfold running_okb in Hid. rewrite andb_true_iff in Hid. destruct Hid as [H1 H2].
    apply bool_decide_eq_true_1 in H1. split; [done|]. split; [lia|done].
Qed.


Lemma schedule_keeps_every_request_witness :
  let s' := (schedule ops (cfg FCFS (Some 1)) 5 start).2 in
  x_waiting s' ++ x_running s' ≡ₚ ["p"; "w"; "a"; "b"] /\ sched_ok (cfg FCFS (Some 1)) s'.
Proof.
  apply (schedule_keeps_every_request ops (cfg FCFS (Some 1)) start 5 ops_laws).
  - apply sched_okb_sound. vm_compute. reflexivity.
  - intros m [= <-]. vm_compute. discriminate.
  - simpl. lia.
  - simpl. lia.
Defined.

(** With the priority policy the victim can be a request that this step has
    already scheduled.  It leaves [scheduled_running_reqs], but its tokens stay
    in the output and in the total, and the index is not moved back, so that
    ["c"] is passed over although budget and memory would suffice. *)
Example preempted_request_stays_scheduled :
  let s := state [] [("a", req RUNNING 9 8 5 None); ("b", req RUNNING 9 8 0 None); ("c", req RUNNING 9 8 1 None)]
                 ["a"; "b"] in
  let '(r, s') := schedule ops (cfg PRIORITY None) 4 s in
  (match r with
   | Ok (Some out) => Some (xo_num_scheduled_tokens out, xo_total_num_scheduled_tokens out)
   | _ => None
   end, x_waiting s', x_running s', x_kv s')
  = (Some ([("a", 1); ("b", 1)], 2), ["a"], ["b"; "c"], ["b"; "b"]).
Proof. vm_compute. reflexivity. Qed.

(** Only the running requests scheduled in this step count towards
    [max_loras].  ["a"] has no new token now, so ["b"] with another LoRA is
    admitted; when ["a"] has one again, the assertion fails. *)
Example unscheduled_loras_are_not_counted :
  let c := cfg FCFS (Some 1) in
  let s := state [("b", req WAITING 5 0 0 (Some 2))] [("a", req RUNNING 8 8 0 (Some 1))] ["a"] in
  let '(r1, s1) := schedule ops c 3 s in
  let '(r2, _) := schedule ops c 3 (put_kv [] (put_heap "a" (req RUNNING 9 8 0 (Some 1)) s1)) in
  (x_running s1, is_ok r1, r2) = (["a"; "b"], true, Err AssertionError).
Proof. vm_compute. reflexivity. Qed.
End SchedDemo.
