(* ===== verification/MindieHash.v ===== *)
(** * The block hashes of the MindIE integration
    (ucm/integration/mindie/patch/prefix_cache_plugin.py, hash_mindie/uc_hash_ext.cpp)

    The keys of MindIE's memory pool are chained 64-bit hashes.  The plugin has
    them twice: [hash_block] in Python, on unbounded integers, and the
    extension [HashPrefix], on [uint64_t].  The extension calls itself
    compatible with [hash_combine]; the theorem says when it is. *)

From S2P Require Import Prelude.
Local Open Scope Z_scope.
Local Open Scope py_scope.

Definition HASH_SHIFT_LEFT : Z := 6.
Definition HASH_SHIFT_RIGHT : Z := 2.
Definition INVALID_HASH_VALUE : Z := 0.
Definition EXTRA_HASH : Z := INVALID_HASH_VALUE.
Definition CONST : Z := 0x9e3779b97f4a7c15.

(** ** In Python *)

(** An [int], a [str] as its code points, or an object with its [hash()]. *)
Inductive PyVal := PInt (z : Z) | PStr (ords : list Z) | PObj (hash : Z).

Definition cpp_style_hash (value : PyVal) : Z :=
  match value with
  | PInt z => z
  | PStr ords => foldl (fun hash_value c => Z.land (hash_value * 31 + c) 0xFFFFFFFFFFFFFFFF) 0 ords
  | PObj h => h
  end.

(** The new seed before it is brought to 64 bits. *)
Definition combine_raw (seed : Z) (token_id : PyVal) : Z :=
  Z.lxor seed (cpp_style_hash token_id + CONST + Z.shiftl seed HASH_SHIFT_LEFT + Z.shiftr seed HASH_SHIFT_RIGHT).

Definition hash_combine (seed : Z) (token_id : PyVal) : Z :=
  let seed := combine_raw seed token_id in
  let seed := if seed =? INVALID_HASH_VALUE then 1 else seed in
  seed mod 2 ^ 64.

Definition hash_block (prefix_hash_value : Z) (block_token_ids : list PyVal) : Z :=
  let seed := INVALID_HASH_VALUE in
  let seed := if prefix_hash_value =? INVALID_HASH_VALUE then seed else hash_combine seed (PInt prefix_hash_value) in
  let seed := foldl hash_combine seed block_token_ids in
  hash_combine seed (PInt EXTRA_HASH).

(** ** In C++ *)

(** [static_cast<uint64_t>] *)
Definition u64 (z : Z) : Z := z mod 2 ^ 64.

(** [std::hash] of an integer is the integer. *)
Definition HashCombine (seed v : Z) : Z :=
  let result := Z.lxor seed (u64 (v + CONST + u64 (Z.shiftl seed HASH_SHIFT_LEFT) + Z.shiftr seed HASH_SHIFT_RIGHT)) in
  if result =? INVALID_HASH_VALUE then 1 else result.

(** A token of [w] bits, made unsigned and then widened. *)
Definition ToU64Mask (w v : Z) : Z := v mod 2 ^ w.

Definition HashBlock (w prefix_hash : Z) (p : list Z) : Z :=
  let seed := 0 in
  let seed := if prefix_hash =? 0 then seed else HashCombine seed prefix_hash in
  let seed := foldl (fun seed v => HashCombine seed (ToU64Mask w v)) seed p in
  HashCombine seed EXTRA_HASH.

(** The loop over the blocks [b, b + 1, ...] *)
Fixpoint hash_blocks_from (w : Z) (tokens : list Z) (block_size b : Z) (n : nat) (prefix_hash_value : Z) : list Z :=
  match n with
  | O => []
  | S n' =>
      let h := HashBlock w prefix_hash_value (slice tokens (b * block_size) (b * block_size + block_size)) in
      h :: hash_blocks_from w tokens block_size (b + 1) n' h
  end.

Definition HashPrefix (w prefix0 : Z) (tokens : list Z) (block_size start_block end_block : Z) : res (list Z) :=
  let prefix_hash_value := u64 prefix0 in
  if block_size =? 0 then Err RuntimeError
  else if end_block <? start_block then Err RuntimeError
  else if pylen tokens <? u64 (end_block * block_size) then Err RuntimeError
  else Ok (hash_blocks_from w tokens block_size start_block (Z.to_nat (end_block - start_block)) prefix_hash_value).

(** ** Words of 64 bits *)

Lemma u64_range z : 0 <= u64 z < 2 ^ 64.
Proof. apply Z.mod_pos_bound. lia. Qed.

Lemma u64_block_small z : 0 <= z < 2 ^ 64 -> u64 z = z.
Proof. apply Z.mod_small. Qed.

Lemma u64_land z : u64 z = Z.land z (Z.ones 64).
Proof. unfold u64. by rewrite Z.land_ones by lia. Qed.

Lemma u64_lxor a b : u64 (Z.lxor a b) = Z.lxor (u64 a) (u64 b).
Proof.
  rewrite !u64_land. apply Z.bits_inj. intros i. rewrite !Z.land_spec, !Z.lxor_spec, !Z.land_spec.
  by destruct (Z.testbit a i), (Z.testbit b i), (Z.testbit (Z.ones 64) i).
Qed.

Lemma hash_combine_range seed v : 0 <= hash_combine seed v < 2 ^ 64.
Proof. apply Z.mod_pos_bound. lia. Qed.

(** The two ways to combine agree on the low 64 bits before the check for zero. *)
Lemma combine_raw_u64 seed v : 0 <= seed < 2 ^ 64 ->
  u64 (combine_raw seed v) =
  Z.lxor seed (u64 (u64 (cpp_style_hash v) + CONST + u64 (Z.shiftl seed HASH_SHIFT_LEFT) + Z.shiftr seed HASH_SHIFT_RIGHT)).
Proof.
  intros Hs. unfold combine_raw. rewrite u64_lxor, (u64_block_small seed) by done. f_equal.
  unfold u64. set (a := Z.shiftr seed _). set (b := Z.shiftl seed _). set (h := cpp_style_hash v).
  rewrite <- !Z.add_assoc, Zplus_mod_idemp_l, !Z.add_assoc.
  replace (h + CONST + b mod 2 ^ 64 + a) with (b mod 2 ^ 64 + (h + CONST + a)) by lia.
  rewrite Zplus_mod_idemp_l. f_equal. lia.
Qed.

(** The raw value vanishes in 64 bits although it is not zero. *)
Definition collapses (seed : Z) (v : PyVal) : bool :=
  (u64 (combine_raw seed v) =? 0) && negb (combine_raw seed v =? 0).

Lemma hash_combine_cpp seed v : 0 <= seed < 2 ^ 64 ->
  hash_combine seed v = if collapses seed v then 0 else HashCombine seed (u64 (cpp_style_hash v)).
Proof.
  intros Hs. unfold hash_combine, collapses, HashCombine. rewrite <- combine_raw_u64 by done.
  change INVALID_HASH_VALUE with 0. fold (u64 (if combine_raw seed v =? 0 then 1 else combine_raw seed v)).
  destruct (Z.eqb_spec (combine_raw seed v) 0) as [->|Hne]; [done|].
  destruct (Z.eqb_spec (u64 (combine_raw seed v)) 0) as [->|Hne']; [done|]. simpl. done.
Qed.

(** ** Whole blocks *)

(** No combination of a block collapses, from the seed [seed] on. *)
Fixpoint clean_from (seed : Z) (vs : list PyVal) : bool :=
  match vs with
  | [] => true
  | v :: vs' => negb (collapses seed v) && clean_from (hash_combine seed v) vs'
  end.
Definition block_words (prefix : Z) (block : list PyVal) : list PyVal :=
  (if prefix =? 0 then [] else [PInt prefix]) ++ block ++ [PInt EXTRA_HASH].
Definition clean_block (prefix : Z) (block : list PyVal) : bool := clean_from 0 (block_words prefix block).

(** The chained hashes of some blocks, and that none of them collapses. *)
Fixpoint hash_chain (prefix : Z) (blocks : list (list PyVal)) : list Z :=
  match blocks with
  | [] => []
  | b :: blocks' => let h := hash_block prefix b in h :: hash_chain h blocks'
  end.
Fixpoint clean_chain (prefix : Z) (blocks : list (list PyVal)) : bool :=
  match blocks with
  | [] => true
  | b :: blocks' => clean_block prefix b && clean_chain (hash_block prefix b) blocks'
  end.

Lemma clean_combine seed vs : 0 <= seed < 2 ^ 64 -> clean_from seed vs = true ->
  foldl hash_combine seed vs = foldl (fun s v => HashCombine s (u64 (cpp_style_hash v))) seed vs.
Proof.
  revert seed. induction vs as [|v vs IH]; intros seed Hs Hc; [done|]. simpl in *.
  apply andb_true_iff in Hc as [Hn Hc]. apply negb_true_iff in Hn.
  rewrite IH by (done || apply hash_combine_range). f_equal. by rewrite hash_combine_cpp, Hn.
Qed.

Lemma hash_block_words prefix block : hash_block prefix block = foldl hash_combine 0 (block_words prefix block).
Proof.
  unfold hash_block, block_words. change INVALID_HASH_VALUE with 0. rewrite !foldl_app. simpl.
  by destruct (prefix =? 0).
Qed.

Lemma foldl_fmap_combine seed w block :
  foldl (fun s v => HashCombine s (ToU64Mask w v)) seed block =
  foldl HashCombine seed (ToU64Mask w <$> block).
Proof. revert seed. induction block as [|t block IH]; intros seed; [done|]. simpl. apply IH. Qed.

(** A token for which widening loses nothing. *)
Definition token_fits (w t : Z) : Prop := ToU64Mask w t = u64 t.

Lemma HashBlock_python w prefix block : 0 <= prefix < 2 ^ 64 -> Forall (token_fits w) block ->
  clean_block prefix (PInt <$> block) = true -> HashBlock w prefix block = hash_block prefix (PInt <$> block).
Proof.
  intros Hp Ht Hc. rewrite hash_block_words, clean_combine by (done || lia).
  unfold HashBlock, block_words. rewrite !foldl_app, foldl_fmap_combine. cbn [foldl].
  change (u64 (cpp_style_hash (PInt EXTRA_HASH))) with EXTRA_HASH. f_equal.
  assert (Hf : forall seed, foldl HashCombine seed (ToU64Mask w <$> block) =
    foldl (fun s v => HashCombine s (u64 (cpp_style_hash v))) seed (PInt <$> block)).
  { clear Hc. induction Ht as [|t block Hft _ IH]; intros seed; [done|]. rewrite !fmap_cons. simpl.
    by rewrite Hft, IH. }
  destruct (prefix =? 0); simpl; rewrite ?(u64_block_small prefix) by done; apply Hf.
Qed.

(** The blocks [b .. b + n - 1] of a token list. *)
Definition token_blocks (tokens : list Z) (block_size b : Z) (n : nat) : list (list Z) :=
  (fun i => slice tokens ((b + Z.of_nat i) * block_size) ((b + Z.of_nat i) * block_size + block_size)) <$> seq 0 n.

Lemma blocks_of_cons tokens bs b n :
  token_blocks tokens bs b (S n) = slice tokens (b * bs) (b * bs + bs) :: token_blocks tokens bs (b + 1) n.
Proof.
  unfold token_blocks. simpl. rewrite Z.add_0_r. f_equal. rewrite <- fmap_S_seq, <- list_fmap_compose.
  apply list_fmap_ext. intros i x _. simpl. by replace (b + 1 + Z.of_nat x) with (b + Z.of_nat (S x)) by lia.
Qed.

Lemma hash_block_range prefix block : 0 <= hash_block prefix block < 2 ^ 64.
Proof. apply hash_combine_range. Qed.

Lemma hash_blocks_chain w tokens bs b n prefix : 0 <= prefix < 2 ^ 64 -> Forall (token_fits w) tokens ->
  clean_chain prefix ((fun blk : list Z => PInt <$> blk) <$> token_blocks tokens bs b n) = true ->
  hash_blocks_from w tokens bs b n prefix = hash_chain prefix ((fun blk : list Z => PInt <$> blk) <$> token_blocks tokens bs b n).
Proof.
  intros Hp Ht. revert b prefix Hp. induction n as [|n IH]; intros b prefix Hp Hc; [done|].
  rewrite blocks_of_cons, fmap_cons in *. cbn [clean_chain hash_chain hash_blocks_from] in *.
  apply andb_true_iff in Hc as [Hb Hc]. rewrite HashBlock_python; [|done| |done].
  - rewrite IH; [done|apply hash_block_range|done].
  - apply Forall_forall. intros t Hin. rewrite Forall_forall in Ht. by apply Ht, (elem_of_slice _ _ _ _ Hin).
Qed.

(** C39. The extension is compatible with the plugin's own hash: for tokens that
    fit the element type, [HashPrefix] returns the chained [hash_block]s of the
    blocks from [start_block] to [end_block], each hashed after its
    predecessor, unless some 64-bit combination on the way collapses to zero
    while Python's unbounded value is not zero. *)
Theorem hash_prefix_is_hash_block w prefix tokens block_size start_block end_block :
  0 <= prefix < 2 ^ 64 -> Forall (token_fits w) tokens -> 0 < block_size ->
  0 <= start_block <= end_block -> end_block * block_size <= pylen tokens < 2 ^ 64 ->
  let blocks := (fun blk : list Z => PInt <$> blk) <$> token_blocks tokens block_size start_block (Z.to_nat (end_block - start_block)) in
  clean_chain prefix blocks = true ->
  HashPrefix w prefix tokens block_size start_block end_block = Ok (hash_chain prefix blocks).
Proof.
  intros Hp Ht Hbs Hse Hlen blocks Hc. unfold HashPrefix.
  rewrite (proj2 (Z.eqb_neq block_size 0)) by lia. rewrite (proj2 (Z.ltb_ge end_block start_block)) by lia.
  rewrite (u64_block_small (end_block * block_size)) by nia.
  rewrite (proj2 (Z.ltb_ge (pylen tokens) (end_block * block_size))) by lia.
  rewrite (u64_block_small prefix) by done. f_equal. by apply hash_blocks_chain.
Qed.

Lemma hash_prefix_is_hash_block_witness :
  HashPrefix 32 0 [11; 12; 13; 14; 15] 2 0 2 = Ok (hash_chain 0 [[PInt 11; PInt 12]; [PInt 13; PInt 14]]).
Proof.
  apply (hash_prefix_is_hash_block 32 0 [11; 12; 13; 14; 15] 2 0 2).
  - lia.
  - repeat constructor.
  - lia.
  - lia.
  - vm_compute. split; [discriminate|reflexivity].
  - vm_compute. reflexivity.
Defined.

(** The check for zero comes before the truncation in Python and after it in
    C++, so that a block hash can be 0, the invalid one, in Python only. *)
Example collapsed_combination :
  (collapses 0 (PInt (2 ^ 64 - CONST)), hash_combine 0 (PInt (2 ^ 64 - CONST)), HashCombine 0 (2 ^ 64 - CONST))
  = (true, 0, 1).
Proof. vm_compute. reflexivity. Qed.
