(* ===== verification/MindiePool.v ===== *)
(** * The MindIE memory pool (ucm/integration/mindie/unifiedcache_mempool.py)

    [UnifiedCacheMempool] is the pool MindIE's scheduler and workers call with
    string keys.  For an MLA model every tensor-parallel rank holds the same
    cache, so that all ranks use the keys of rank 0 and share the dumping among
    them.  The theorem follows a block through the puts of all ranks to the
    get of any.  [hashlib.md5], the store and a task's id are parameters. *)

From Stdlib Require Import Ascii String.
From S2P Require Import Prelude.
From S2P Require Import PyStr.
From S2P Require Import StoreApi.
From S2P Require Import Config.
From S2P Require Import ConnectorWorker.
Local Open Scope Z_scope.
Local Open Scope py_scope.

Definition LOAD_OK : Z := 0.
Definition DUMP_OK : Z := 0.
Definition LOAD_ERROR : Z := -1.
Definition DUMP_ERROR : Z := -1.
Definition TASK_INVALID : Z := 0.

(** [BypassMode] *)
Definition BYPASS_GET : Z := 1.
Definition BYPASS_PUT : Z := 2.
Definition BYPASS_EXISTS : Z := 4.

(** ** Configuration *)

(** [d.get(k)] on a value that should be a dictionary *)
Definition get_field (k : string) (v : cfg_value) : res cfg_value :=
  match v with
  | CDict d => Ok (default CNone (od_get k d))
  | _ => Err AttributeError
  end.

(** An integer field with its default; a value of another type is rejected. *)
Definition get_int (k : string) (dflt : Z) (v : cfg_value) : res Z :=
  match v with
  | CDict d => match od_get k d with
               | None => Ok dflt
               | Some (CInt z) => Ok z
               | Some _ => Err TypeError
               end
  | _ => Err AttributeError
  end.

(** [l[0]] *)
Definition first_item (v : cfg_value) : res cfg_value :=
  match v with
  | CList (x :: _) => Ok x
  | CList [] => Err IndexError
  | CStr (String a _) => Ok (CStr (String a EmptyString))
  | CStr EmptyString => Err IndexError
  | CDict _ => Err KeyError
  | _ => Err TypeError
  end.

Record ParallelConfig := {
  dp_size : Z;
  tp_size : Z;
  sp_size : Z;
  cp_size : Z;
  scp_size : Z;
  backend_raw : cfg_value;
  weight_path : cfg_value;
}.

Definition parse_mindie_config (mindie_config : cfg_value) : res ParallelConfig :=
  let? b := get_field "BackendConfig" mindie_config in
  let? backend := if truthy b then Ok b
                  else let? p := get_field "mindie_server_prefill_config" mindie_config in
                       get_field "BackendConfig" p in
  let? deploy := get_field "ModelDeployConfig" backend in
  let? configs := get_field "ModelConfig" deploy in
  let? model_config := first_item configs in
  let? dp := get_int "dp" 1 model_config in
  let? tp := get_int "tp" 1 model_config in
  let? sp := get_int "sp" 1 model_config in
  let? cp := get_int "cp" 1 model_config in
  let? world_size := get_int "worldSize" 1 model_config in
  let scp := sp * cp in
  let tp := if (tp * dp =? 1) || (tp * cp =? 1) then world_size else tp in
  let? path := get_field "modelWeightPath" model_config in
  Ok {| dp_size := dp; tp_size := tp; sp_size := sp; cp_size := cp; scp_size := scp;
        backend_raw := backend; weight_path := path |}.

(** [is_mla] and [share_buffer_enable] *)
Definition parse_model_config (model_arc : list (string * cfg_value)) (scp : Z) : bool * bool :=
  if od_mem "kv_lora_rank"%string model_arc then (true, scp =? 1) else (false, false).

(** Two adjacent string literals are one string. *)
Definition certs_to_check : list string :=
  ["/etc/kvcs/tls/ca.crt"; String.append "/etc/kvcs/tls/tls.crt" "/etc/kvcs/tls/tls.key"]%string.

Definition check_kvcs_certificates (is_file : string -> bool) : res unit :=
  let missing_certs := filter (fun p => is_file p = false) certs_to_check in
  match missing_certs with [] => Ok tt | _ => Err FileNotFoundError end.

(** The bytes of a K and of a V block of one layer; [None] without caches. *)
Definition get_io_size_info (kv_caches : option (Z * Z * Z)) : list Z * Z :=
  match kv_caches with
  | None => ([0], 0)
  | Some (num_layers, k_io_size, v_io_size) =>
      let tensor_size_list := py_repeat k_io_size num_layers ++ py_repeat v_io_size num_layers in
      (tensor_size_list, zsum tensor_size_list)
  end.

(** ** The keys of the plugin (prefix_cache_plugin.py) *)

Record KeyConfig := {
  k_tp_rank : Z;
  k_tp_size : Z;
  k_scp_rank : Z;
  k_scp_size : Z;
  k_model_name : string;
}.

(** [_init_prefix_key_cache]: [f"_{rank}_{size}_{self.model_name}"] *)
Definition key_suffix (rank size : Z) (model_name : string) : string :=
  String underscore (String.append (str_of_Z rank)
    (String underscore (String.append (str_of_Z size) (String underscore model_name)))).
Definition prefix_key_suffix (k : KeyConfig) : string :=
  if 1 <? k_scp_size k then key_suffix (k_scp_rank k) (k_scp_size k) (k_model_name k)
  else key_suffix (k_tp_rank k) (k_tp_size k) (k_model_name k).
Definition get_prefix_keys (k : KeyConfig) (hash_value : Z) : string :=
  String.append (str_of_Z hash_value) (prefix_key_suffix k).

(** ** The pool *)

Record MempoolConfig := {
  is_mla : bool;
  m_tp_size : Z;
  m_scp_size : Z;
  bypass : Z;
}.

Record Pool (W : Type) := { pool_tp_rank : Z; pool_world : W }.
Arguments Build_Pool {W} _ _.
Arguments pool_tp_rank {W} _.
Arguments pool_world {W} _.

Definition bypassed (c : MempoolConfig) (mode : Z) : bool := negb (Z.land (bypass c) mode =? 0).
Definition shares_keys (c : MempoolConfig) : bool := is_mla c && (m_scp_size c =? 1).

Section pool.
Context {W : Type} `{Store W} (md5 : bytes -> bytes) (task_id : task -> Z) (c : MempoolConfig).
Abbreviation ST := (Pool W).

Definition new_pool (w : W) : ST := Build_Pool (-1) w.
Definition on_store {A} (m : M W A) : M ST A := zoom pool_world (fun w s => Build_Pool (pool_tp_rank s) w) m.

(** The rank of a key and the same key for rank 0. *)
Definition key_rank (key : string) : res (list string * Z) :=
  let parts := split_on underscore key in
  let? p := py_idx parts 1 in
  let? cur_tp := of_option ValueError (py_int p) in
  Ok (parts, cur_tp).
Definition rank0_key (parts : list string) : string := join (String underscore EmptyString) (<[1%nat := "0"%string]> parts).

Fixpoint rank0_loop (keys : list string) (rank0_keys rest : list string) (cur : option Z) : M ST (list string * Z) :=
  match rest with
  | [] => match cur with Some cur_tp => ret (rank0_keys, cur_tp) | None => raise NameError end
  | key :: rest' =>
      let! ' (parts, cur_tp) := lift_res (key_rank key) in
      do! modify (fun s => if pool_tp_rank s <? 0 then Build_Pool cur_tp (pool_world s) else s) in
      if cur_tp =? 0 then ret (keys, cur_tp)
      else rank0_loop keys (rank0_keys ++ [rank0_key parts]) rest' (Some cur_tp)
  end.
Definition get_tp_rank_0_hash_key (keys : list string) : M ST (list string * Z) := rank0_loop keys [] keys None.

(** The pointers of a block, layer by layer, in one list. *)
Definition get_tensors_for_store (mindie_tensors : list (list (list Z))) : list (list Z) :=
  (fun block : list (list Z) => concat block) <$> mindie_tensors.

Definition check_task (t : task) : bool := negb (task_id t =? TASK_INVALID).
Definition wait_task (t : task) : M ST bool :=
  catch_runtime (do! on_store (wait t) in ret true) (ret false).

Definition exists_ (keys : list string) : M ST bool :=
  if bypassed c BYPASS_EXISTS then ret false
  else
    let look keys := catch_runtime (let! found_idx := on_store (lookup_on_prefix (md5 <$> keys)) in ret (0 <=? found_idx))
                       (ret false) in
    if shares_keys c then
      let! ' (keys, cur_tp) := get_tp_rank_0_hash_key keys in
      if 0 <? cur_tp then ret true else look keys
    else look keys.

Definition batch_exist (keys : list string) : M ST (list bool) :=
  let n := pylen keys in
  do! py_assert (0 <? n) in
  if bypassed c BYPASS_EXISTS then ret (py_repeat false n)
  else
    catch_runtime
      (if shares_keys c then
         let tp := m_tp_size c in
         if (tp <=? 0) || negb (n mod tp =? 0) then ret (py_repeat false n)
         else
           let block_tp0_keys := slice_step keys 0 tp in
           let! found_idx := on_store (lookup_on_prefix (md5 <$> block_tp0_keys)) in
           let num_hit_blocks := found_idx + 1 in
           ret (concat ((fun block_idx => py_repeat (block_idx <? num_hit_blocks) tp) <$> zrange 0 (pylen block_tp0_keys)))
       else
         let! found_idx := on_store (lookup_on_prefix (md5 <$> keys)) in
         ret (py_repeat true (found_idx + 1) ++ py_repeat false (n - found_idx - 1)))
      (ret (py_repeat false n)).

(** Submit, check the task and wait for it. *)
Definition run_task (m : M W task) (ok err : Z) : M ST Z :=
  let! submitted := catch_runtime (let! t := on_store m in ret (Some t)) (ret None) in
  match submitted with
  | None => ret err
  | Some t =>
      if negb (check_task t) then ret err
      else let! done := wait_task t in ret (if done : bool then ok else err)
  end.

Definition put (keys : list string) (tensors : list (list (list Z))) : M ST Z :=
  if bypassed c BYPASS_PUT then ret DUMP_OK
  else
    let dump keys tensors :=
      run_task (dump_data (md5 <$> keys) (py_repeat 0 (pylen keys)) (get_tensors_for_store tensors) 0) DUMP_OK DUMP_ERROR in
    if shares_keys c then
      let! ' (tp0_keys, _) := get_tp_rank_0_hash_key keys in
      let! r := gets pool_tp_rank in
      let keys := slice_step tp0_keys r (m_tp_size c) in
      match keys with
      | [] => ret DUMP_OK
      | _ => dump keys (slice_step tensors r (m_tp_size c))
      end
    else dump keys tensors.

Definition get (keys : list string) (tensors : list (list (list Z))) : M ST Z :=
  if bypassed c BYPASS_GET then ret LOAD_OK
  else
    let load keys :=
      run_task (load_data (md5 <$> keys) (py_repeat 0 (pylen keys)) (get_tensors_for_store tensors)) LOAD_OK LOAD_ERROR in
    if shares_keys c then
      let! ' (keys, _) := get_tp_rank_0_hash_key keys in load keys
    else load keys.
End pool.

(** ** Keys of rank 0 *)

Lemma split_on_nonempty ch s : exists x xs, split_on ch s = x :: xs.
Proof. destruct s as [|a s]; simpl; [by eexists _, _|]. destruct (Ascii.eqb a ch); [by eexists _, _|]. destruct (split_on ch s); by eexists _, _. Qed.

Lemma join_split ch s : join (String ch EmptyString) (split_on ch s) = s.
Proof.
  induction s as [|a s IH]; [done|]. cbn [split_on]. destruct (split_on_nonempty ch s) as (x & xs & Hs).
  destruct (Ascii.eqb_spec a ch) as [->|Hne]; rewrite Hs in *.
  - change (join (String ch EmptyString) (EmptyString :: x :: xs))
      with (String ch (join (String ch EmptyString) (x :: xs))). by rewrite IH.
  - rewrite <- IH. by destruct xs.
Qed.

Lemma digits_no_underscore n : 0 <= n ->
  string_forall (fun a => negb (Ascii.eqb a underscore)) (str_of_Z n) = true.
Proof.
  intros Hn. unfold str_of_Z. rewrite (proj2 (Z.ltb_ge n 0)) by done.
  apply (digits_no_char underscore); [done|by apply str_of_nonneg_digits].
Qed.

(** The key of a block for rank [r] of [n]. *)
Definition tp_key (n : Z) (model : string) (r h : Z) : string := String.append (str_of_Z h) (key_suffix r n model).

Lemma tp_key_plugin k h : k_scp_size k <= 1 ->
  get_prefix_keys k h = tp_key (k_tp_size k) (k_model_name k) (k_tp_rank k) h.
Proof. intros Hs. unfold get_prefix_keys, prefix_key_suffix, tp_key. by rewrite (proj2 (Z.ltb_ge _ _)). Qed.

Lemma key_rank_tp_key n model r h : 0 <= r -> 0 <= h ->
  exists parts, key_rank (tp_key n model r h) = Ok (parts, r) /\ rank0_key parts = tp_key n model 0 h.
Proof.
  intros Hr Hh. unfold key_rank, tp_key, key_suffix.
  rewrite split_on_app by (by apply digits_no_underscore). rewrite split_on_app by (by apply digits_no_underscore).
  set (rest := String.append (str_of_Z n) (String underscore model)).
  assert (Hp : py_int (str_of_Z r) = Some r).
  { unfold str_of_Z. rewrite (proj2 (Z.ltb_ge r 0)) by done. by apply py_int_str_nonneg. }
  eexists. split.
  - change (py_idx (str_of_Z h :: str_of_Z r :: split_on underscore rest) 1) with (Ok (str_of_Z r)). simpl. by rewrite Hp.
  - unfold rank0_key. simpl insert. destruct (split_on_nonempty underscore rest) as (x & xs & Hs).
    rewrite Hs. change (join (String underscore EmptyString) (str_of_Z h :: "0"%string :: x :: xs))
      with (String.append (str_of_Z h) (String underscore (String.append "0" (String underscore
             (join (String underscore EmptyString) (x :: xs)))))).
    by rewrite <- Hs, join_split.
Qed.

(** ** One transfer through the pool *)

Section transfers.
Context {W D : Type} `{StoreLaws W D} (md5 : bytes -> bytes) (task_id : task -> Z) (c : MempoolConfig).

(** The only load in flight, waited for. *)
Lemma wait_single_load ids (rows : list (list Z)) w t w1 w2 : idle_world w ->
  load_data ids (py_repeat 0 (pylen ids)) rows w = (Ok t, w1) -> wait t w1 = (Ok tt, w2) ->
  NoDup (concat rows) -> forall i id row ds, ids !! i = Some id -> rows !! i = Some row ->
  stored w id 0 = Some ds -> length ds = length row -> devmem w2 <$> row = ds.
Proof.
  intros Hi Hl Hw Hn i id row ds Hid Hrow Hst Hlen.
  destruct (load_data_ok _ _ _ _ _ _ Hl) as [[_ Hf1] [_ Es1]].
  assert (Hf1' : forall t' f, flights w1 t' = Some f -> t' = t /\ f = FLoad ids (py_repeat 0 (pylen ids)) rows).
  { intros t' f [?|Hx]%Hf1; [done|]. by rewrite Hi in Hx. }
  assert (Hnw : ~ writing w1 id 0).
  { intros (t' & ? & ? & ? & ? & ? & Hx & _). by apply Hf1' in Hx as [_ Hx]. }
  assert (Hin : flights w1 t = Some (FLoad ids (py_repeat 0 (pylen ids)) rows)) by (apply Hf1; auto).
  eapply (wait_load t w1 w2 ids (py_repeat 0 (pylen ids)) rows i id 0 row ds Hw Hin Hn); [| |done| |done].
  - intros t' ids' sh' addrs' Hx Hne. by apply Hf1' in Hx as [? _].
  - split; [done|]. split; [|done]. apply lookup_replicate. split; [done|].
    apply lookup_lt_Some in Hid. unfold pylen. lia.
  - rewrite Es1; [done|by apply idle_not_writing|done].
Qed.

Lemma run_task_ok (m : M W task) ok err s s' : ok <> err -> run_task task_id m ok err s = (Ok ok, s') ->
  exists t w1 w2, m (pool_world s) = (Ok t, w1) /\ wait t w1 = (Ok tt, w2) /\
    s' = Build_Pool (pool_tp_rank s) w2.
Proof.
  intros Hne. unfold run_task, wait_task, catch_runtime, catch, on_store, bind, ret, zoom.
  destruct (m (pool_world s)) as [[t|e] w1]; [|by destruct (is_runtime_error e); intros [= ? ?]].
  destruct (negb (check_task task_id t)); [by intros [= ? ?]|]. simpl.
  destruct (wait t w1) as [[[]|e] w2] eqn:Hw; [intros [= <-]; by exists t, w1, w2|].
  destruct (is_runtime_error e); by intros [= ? ?].
Qed.

(** The keys of one rank, brought to rank 0. *)
Lemma rank0_loop_keys n model r all rest acc (s : Pool W) : 0 < r -> Forall (fun h => 0 <= h) rest -> 0 <= pool_tp_rank s ->
  rank0_loop all acc (tp_key n model r <$> rest) (Some r) s = (Ok (acc ++ (tp_key n model 0 <$> rest), r), s).
Proof.
  intros Hr Hh Hs. revert acc. induction Hh as [|h rest Hh _ IH]; intros acc; [by rewrite app_nil_r|].
  rewrite !fmap_cons. cbn [rank0_loop]. destruct (key_rank_tp_key n model r h ltac:(lia) Hh) as (parts & Hk & Hz).
  rewrite Hk. unfold bind at 1. simpl. unfold bind at 1, modify. rewrite (proj2 (Z.ltb_ge _ _) Hs).
  rewrite (proj2 (Z.eqb_neq r 0)) by lia. rewrite IH, Hz. by rewrite <- app_assoc.
Qed.

Lemma rank0_keys n model r hs (s : Pool W) : 0 <= r -> Forall (fun h => 0 <= h) hs -> hs <> [] ->
  get_tp_rank_0_hash_key (tp_key n model r <$> hs) s =
  (Ok (tp_key n model 0 <$> hs, r), Build_Pool (if pool_tp_rank s <? 0 then r else pool_tp_rank s) (pool_world s)).
Proof.
  intros Hr Hh Hne. destruct hs as [|h hs]; [done|]. apply Forall_cons in Hh as [Hh Hhs].
  unfold get_tp_rank_0_hash_key. set (all := tp_key n model r <$> h :: hs) at 1.
  rewrite fmap_cons. cbn [rank0_loop].
  destruct (key_rank_tp_key n model r h Hr Hh) as (parts & Hk & Hz). rewrite Hk. unfold bind at 1. simpl.
  unfold bind at 1, modify.
  assert (Hs : (if pool_tp_rank s <? 0 then Build_Pool r (pool_world s) else s) =
               Build_Pool (if pool_tp_rank s <? 0 then r else pool_tp_rank s) (pool_world s)).
  { destruct s as [tr w]. simpl. by destruct (tr <? 0). }
  rewrite Hs. destruct (Z.eqb_spec r 0) as [->|Hne']; [done|].
  rewrite rank0_loop_keys; [by rewrite Hz|lia|done|]. simpl. destruct (Z.ltb_spec (pool_tp_rank s) 0); lia.
Qed.

(** ** All ranks *)

Context (n : Z) (model : string) (hs : list Z).
Context (Hsh : shares_keys c = true) (Hn : 0 < n) (Hsize : m_tp_size c = n) (Hhs : Forall (fun h => 0 <= h) hs)
  (Hne : hs <> []).

Abbreviation ids := ((fun h => md5 (tp_key n model 0 h)) <$> hs).

Lemma md5_keys0 (l : list Z) : md5 <$> (tp_key n model 0 <$> l) = (fun h => md5 (tp_key n model 0 h)) <$> l.
Proof. by rewrite <- list_fmap_compose. Qed.

Lemma slice_step_fmap {A B} (f : A -> B) l r k : slice_step (f <$> l) r k = f <$> slice_step l r k.
Proof. unfold slice_step. by rewrite every_nth_fmap. Qed.

Lemma NoDup_slice_step {A} (l : list A) r k : 0 <= r -> 0 < k -> NoDup l -> NoDup (slice_step l r k).
Proof.
  intros Hr Hk Hl. apply NoDup_alt. intros i j x. rewrite !lookup_slice_step by done. intros Ha Hb.
  pose proof (proj1 (NoDup_alt l) Hl _ _ x Ha Hb). nia.
Qed.

(** The index of a block inside the share of its rank. *)
Lemma share_lookup {A} (l : list A) r (i : nat) x : Z.of_nat i mod n = r -> l !! i = Some x ->
  slice_step l r n !! Z.to_nat (Z.of_nat i / n) = Some x.
Proof.
  intros Hi Hl. pose proof (Z.mod_pos_bound (Z.of_nat i) n Hn). rewrite lookup_slice_step by lia. rewrite <- Hl. f_equal.
  pose proof (Z.div_pos (Z.of_nat i) n ltac:(lia) Hn). apply Nat2Z.inj.
  rewrite Nat2Z.inj_add, Nat2Z.inj_mul, !Z2Nat.id by lia. rewrite <- Hi. pose proof (Z.div_mod (Z.of_nat i) n). lia.
Qed.

Lemma share_elem {A} (l : list A) r x : 0 <= r < n -> x ∈ slice_step l r n ->
  exists i, l !! i = Some x /\ Z.of_nat i mod n = r.
Proof.
  intros Hr (j & Hj)%list_elem_of_lookup. rewrite lookup_slice_step in Hj by lia.
  eexists. split; [exact Hj|]. rewrite Nat2Z.inj_add, Nat2Z.inj_mul, !Z2Nat.id by lia.
  rewrite Z.mul_comm, Z.mod_add by lia. by apply Z.mod_small.
Qed.

(** The put of one rank with its own pool object on the common store. *)
Definition put_rank (T : Z -> list (list (list Z))) (r : Z) : M W Z := fun w =>
  let '(res, p) := put md5 task_id c (tp_key n model r <$> hs) (T r) (new_pool w) in (res, pool_world p).

Lemma put_rank_spec T r w w' : 0 <= r < n -> bypassed c BYPASS_PUT = false -> idle_world w -> NoDup ids ->
  length (T r) = length hs -> put_rank T r w = (Ok DUMP_OK, w') ->
  idle_world w' /\ (forall a, devmem w' a = devmem w a) /\
  (forall i id, ids !! i = Some id -> Z.of_nat i mod n <> r -> stored w' id 0 = stored w id 0) /\
  (forall i id rows, ids !! i = Some id -> T r !! i = Some rows -> Z.of_nat i mod n = r ->
     stored w' id 0 = Some (devmem w <$> concat rows)).
Proof.
  intros Hr Hb Hi Hnd Hlen. unfold put_rank, put. rewrite Hb, Hsh.
  unfold bind at 1. rewrite rank0_keys by (done || lia). unfold bind at 1, gets. simpl.
  rewrite Hsize. set (keys := slice_step (tp_key n model 0 <$> hs) r n).
  assert (Hk : md5 <$> keys = slice_step ids r n) by (unfold keys; by rewrite <- slice_step_fmap, md5_keys0).
  destruct keys as [|k0 ks] eqn:Hkeys.
  - intros [= <-]. simpl. split; [done|]. split; [done|]. split; [done|].
    intros i id rows Hid _ Hm. pose proof (share_lookup _ r i id Hm Hid) as Hx. by rewrite <- Hk in Hx.
  - rewrite <- Hkeys in *. clear Hkeys k0 ks.
    destruct (run_task _ _ _ _ _) as [res p] eqn:Hrun. intros [= -> <-].
    destruct (run_task_ok _ DUMP_OK DUMP_ERROR _ _ ltac:(done) Hrun) as (t & w1 & w2 & Hd & Hw & ->). simpl in *.
    rewrite Hk in Hd. replace (pylen keys) with (pylen (slice_step ids r n)) in Hd by (rewrite <- Hk; by autorewrite with pylen).
    destruct (wait_single_dump md5 _ _ _ _ _ _ _ _ Hi Hd Hw) as (Hi2 & Hm2 & Hs2 & Hok2).
    { apply NoDup_slice_step; [lia|done|done]. }
    split; [done|]. split; [done|]. split.
    + intros i id Hid Hmod. apply Hs2. left. intros Hx. apply share_elem in Hx as (j & Hj & Hjm); [|done].
      apply Hmod. rewrite <- Hjm. do 2 f_equal. exact (proj1 (NoDup_alt _) Hnd _ _ _ Hid Hj).
    + intros i id rows Hid Hrows Hm. apply (Hok2 eq_refl (Z.to_nat (Z.of_nat i / n)) id); [by apply share_lookup|].
      unfold get_tensors_for_store. rewrite list_lookup_fmap. by rewrite (share_lookup _ r i rows Hm Hrows).
Qed.

(** The puts of some ranks, one after the other. *)
Lemma put_ranks_spec T (Dt : nat -> list D) ranks w rs w' :
  Forall (fun r => 0 <= r < n) ranks -> bypassed c BYPASS_PUT = false -> idle_world w -> NoDup ids ->
  (forall r, r ∈ ranks -> length (T r) = length hs /\
     forall i rows, T r !! i = Some rows -> devmem w <$> concat rows = Dt i) ->
  map_m (put_rank T) ranks w = (Ok rs, w') -> Forall (eq DUMP_OK) rs ->
  idle_world w' /\
  (forall i id, ids !! i = Some id -> Z.of_nat i mod n ∈ ranks -> stored w' id 0 = Some (Dt i)) /\
  (forall i id, ids !! i = Some id -> Z.of_nat i mod n ∉ ranks -> stored w' id 0 = stored w id 0).
Proof.
  intros Hr Hb Hi Hnd. revert w rs w' Hi.
  induction Hr as [|r ranks Hr _ IH]; intros w rs w' Hi HT Hrun Hok.
  { injection Hrun as <- <-. split; [done|]. split; [set_solver|done]. }
  simpl in Hrun. apply bind_inv_ok in Hrun as (v & w1 & Hp & Hrun).
  apply bind_inv_ok in Hrun as (vs & w2 & Hq & Hrun). injection Hrun as <- <-.
  apply Forall_cons in Hok as [<- Hok]. destruct (HT r ltac:(by left)) as [Hl Hc].
  destruct (put_rank_spec T r w w1 Hr Hb Hi Hnd Hl Hp) as (Hi1 & Hm1 & Ho1 & Hs1).
  assert (HT1 : forall r', r' ∈ ranks -> length (T r') = length hs /\
     forall i rows, T r' !! i = Some rows -> devmem w1 <$> concat rows = Dt i).
  { intros r' Hr'. destruct (HT r' ltac:(by right)) as [Hl' Hc']. split; [done|]. intros i rows Hrow.
    rewrite <- (Hc' i rows Hrow). apply list_fmap_ext. intros. by rewrite Hm1. }
  destruct (IH w1 vs w2 Hi1 HT1 Hq Hok) as (Hi2 & Hs2 & Ho2). split; [done|]. split; intros i id Hid.
  - rewrite elem_of_cons. intros Hin.
    destruct (decide (Z.of_nat i mod n ∈ ranks)) as [Hin'|Hout]; [by apply Hs2|].
    destruct Hin as [Hm|]; [|done]. rewrite (Ho2 i id Hid Hout).
    assert (Hi' : (i < length (T r))%nat) by (rewrite Hl; apply lookup_lt_Some in Hid; by rewrite length_fmap in Hid).
    apply lookup_lt_is_Some_2 in Hi' as [rows Hrows].
    rewrite (Hs1 i id rows Hid Hrows Hm). f_equal. by apply Hc.
  - rewrite not_elem_of_cons. intros [Hmr Hout]. by rewrite (Ho2 i id Hid Hout), (Ho1 i id Hid Hmr).
Qed.

(** C29. For an MLA model, what the ranks put any rank gets.  Every rank
    calls [put] with its own keys for the same blocks, in any order and with
    its own pool object; block [i] is dumped by rank [i mod tp_size] alone,
    under the key of rank 0.  When all of these calls report success, a [get]
    by any rank into its own blocks, from a store that holds what they left,
    fills each block with the contents the ranks had. *)
Theorem mindie_ranks_round_trip T U Dt ranks p w rs w1 w2 p2 :
  bypassed c BYPASS_PUT = false -> bypassed c BYPASS_GET = false -> idle_world w -> NoDup ids ->
  (forall r, r ∈ ranks <-> 0 <= r < n) ->
  (forall r, r ∈ ranks -> length (T r) = length hs /\
     forall i rows, T r !! i = Some rows -> devmem w <$> concat rows = Dt i) ->
  map_m (put_rank T) ranks w = (Ok rs, w1) -> Forall (eq DUMP_OK) rs ->
  idle_world w2 -> (forall id, stored w2 id 0 = stored w1 id 0) ->
  0 <= p -> NoDup (concat (get_tensors_for_store U)) ->
  (forall i rows, U !! i = Some rows -> length (concat rows) = length (Dt i)) ->
  get md5 task_id c (tp_key n model p <$> hs) U (new_pool w2) = (Ok LOAD_OK, p2) ->
  forall i h rows, hs !! i = Some h -> U !! i = Some rows -> devmem (pool_world p2) <$> concat rows = Dt i.
Proof.
  intros Hbp Hbg Hi Hnd Hr HT Hput Hok Hi2 Hst Hp HU Hlen Hget i h rows Hh Hrows.
  destruct (put_ranks_spec T Dt ranks w rs w1) as (_ & Hall & _); try done.
  { apply Forall_forall. intros r Hin. by apply Hr. }
  assert (Hid : ids !! i = Some (md5 (tp_key n model 0 h))) by (by rewrite list_lookup_fmap, Hh).
  assert (Hs : stored w2 (md5 (tp_key n model 0 h)) 0 = Some (Dt i)).
  { rewrite Hst. apply (Hall i); [done|]. apply Hr, Z.mod_pos_bound, Hn. }
  unfold get in Hget. rewrite Hbg, Hsh in Hget. apply bind_inv_ok in Hget as ([keys tp] & s1 & Hk & Hget).
  rewrite rank0_keys in Hk by done. injection Hk as <- <- <-. simpl in Hget.
  destruct (run_task_ok _ LOAD_OK LOAD_ERROR _ _ ltac:(done) Hget) as (t & w3 & w4 & Hl & Hw & ->). simpl in *.
  rewrite md5_keys0 in Hl. replace (pylen (tp_key n model 0 <$> hs)) with (pylen ids) in Hl by (by rewrite !pylen_fmap).
  apply (wait_single_load _ _ _ _ _ _ Hi2 Hl Hw HU i _ (concat rows) (Dt i) Hid); [|done|].
  - unfold get_tensors_for_store. by rewrite list_lookup_fmap, Hrows.
  - symmetry. by apply Hlen.
Qed.
End transfers.

(** ** Lookups *)

Section lookups.
Context {W D : Type} `{StoreLaws W D} (md5 : bytes -> bytes) (c : MempoolConfig).

(** [batch_exist] answers for every key, and a key of a block before the first
    missing one is [True] on all ranks. *)
Lemma batch_exist_shared keys (s : Pool W) k w : shares_keys c = true -> bypassed c BYPASS_EXISTS = false ->
  0 < m_tp_size c -> pylen keys mod m_tp_size c = 0 -> keys <> [] ->
  lookup_on_prefix (md5 <$> slice_step keys 0 (m_tp_size c)) (pool_world s) = (Ok k, w) ->
  batch_exist md5 c keys s =
  (Ok (concat ((fun block_idx => py_repeat (block_idx <? k + 1) (m_tp_size c))
                 <$> zrange 0 (pylen (slice_step keys 0 (m_tp_size c))))), Build_Pool (pool_tp_rank s) w).
Proof.
  intros Hsh Hb Ht Hm Hne Hl. unfold batch_exist. rewrite bind_assert.
  2: { destruct keys as [|x keys]; [done|]. rewrite pylen_cons. pose proof (pylen_nonneg keys). lia. }
  rewrite Hb, Hsh, (proj2 (Z.leb_gt (m_tp_size c) 0)) by done. rewrite Hm. simpl.
  unfold catch_runtime, catch, bind, on_store, zoom. by rewrite Hl.
Qed.

(** A failing lookup finds nothing. *)
Lemma batch_exist_error keys (s : Pool W) e w : shares_keys c = false -> bypassed c BYPASS_EXISTS = false ->
  keys <> [] -> lookup_on_prefix (md5 <$> keys) (pool_world s) = (Err e, w) ->
  batch_exist md5 c keys s = (Ok (py_repeat false (pylen keys)), Build_Pool (pool_tp_rank s) w).
Proof.
  intros Hsh Hb Hne Hl. unfold batch_exist. rewrite bind_assert.
  2: { destruct keys as [|x keys]; [done|]. rewrite pylen_cons. pose proof (pylen_nonneg keys). lia. }
  rewrite Hb, Hsh. unfold catch_runtime, catch, bind, on_store, zoom. rewrite Hl.
  by rewrite (lookup_on_prefix_err _ _ _ _ Hl).
Qed.
End lookups.

(** The missing comma between the last two certificates: with all three files
    present the check still fails. *)
Example certificates_are_never_found :
  check_kvcs_certificates (fun p => mem p ["/etc/kvcs/tls/ca.crt"; "/etc/kvcs/tls/tls.crt"; "/etc/kvcs/tls/tls.key"]%string)
  = Err FileNotFoundError.
Proof. vm_compute. reflexivity. Qed.

(** ** A concrete pool: two ranks, three blocks of one layer *)
Module PoolWitness.
Definition cfg : MempoolConfig := {| is_mla := true; m_tp_size := 2; m_scp_size := 1; bypass := 0 |}.
Definition md5_id (s : bytes) : bytes := s.
Definition hashes : list Z := [5; 6; 7].
Definition contents_of (i : nat) : list Z := [10 * Z.of_nat i; 10 * Z.of_nat i + 1].
(** rank [r] has block [i] at [100 r + 10 i], with K and V *)
Definition tensors (r : Z) : list (list (list Z)) := (fun i => [[100 * r + 10 * i; 100 * r + 10 * i + 1]]) <$> [0; 1; 2].
Definition mem0 : MemStore.world Z := MemStore.idle ∅ (fun a => a mod 100).
Definition id_of (t : task (W := MemStore.world Z)) : Z := Z.of_nat t + 1.
Definition after : MemStore.world Z := (map_m (put_rank md5_id id_of cfg 2 "m" hashes tensors) [1; 0] mem0).2.
(** the blocks of rank 1 for the [get] *)
Definition targets : list (list (list Z)) := (fun i => [[500 + 10 * i; 500 + 10 * i + 1]]) <$> [0; 1; 2].
Definition final : Pool (MemStore.world Z) :=
  (get md5_id id_of cfg (tp_key 2 "m" 1 <$> hashes) targets (new_pool after)).2.

Lemma mindie_ranks_round_trip_witness :
  MemStore.memory (pool_world final) <$> [500; 501; 510; 511; 520; 521] = [0; 1; 10; 11; 20; 21] /\
  forall i h rows, hashes !! i = Some h -> targets !! i = Some rows ->
    MemStore.memory (pool_world final) <$> concat rows = contents_of i.
Proof.
  split; [vm_compute; reflexivity|].
  apply (mindie_ranks_round_trip md5_id id_of cfg 2 "m" hashes eq_refl eq_refl eq_refl
           ltac:(repeat constructor; discriminate) ltac:(discriminate)
           tensors targets contents_of [1; 0] 1 mem0 [0; 0] after after final).
  - reflexivity.
  - reflexivity.
  - intros t. reflexivity.
  - apply (bool_decide_eq_true_1 (NoDup _)). vm_compute. reflexivity.
  - intros r. rewrite !elem_of_cons, elem_of_nil. lia.
  - intros r Hr. assert (r = 1 \/ r = 0) as [->| ->] by set_solver; (split; [reflexivity|]);
      intros [|[|[|i]]] rows [= <-]; vm_compute; reflexivity.
  - vm_compute. reflexivity.
  - repeat constructor.
  - intros t. vm_compute. reflexivity.
  - intros id. reflexivity.
  - lia.
  - apply (bool_decide_eq_true_1 (NoDup _)). vm_compute. reflexivity.
  - intros [|[|[|i]]] rows [= <-]; reflexivity.
  - apply run_ok. vm_compute. reflexivity.
Defined.
End PoolWitness.
