(* ===== verification/MindiePlugin.v ===== *)
(** * The prefix-cache plugin of MindIE
    (ucm/integration/mindie/patch/prefix_cache_plugin.py, uc_utils.py)

    On a prefill the plugin asks the pool for the blocks the scheduler found
    there ([get_prefix_kvcache_from_mempool]) and offers it the blocks it has
    computed ([put_prefix_kvcache_to_mempool]), or leaves the latter to a
    thread.  With sequence or context parallelism the blocks of a request go
    round the ranks. *)

From Stdlib Require Import Ascii String.
From S2P Require Import Prelude.
From S2P Require Import PyStr.
From S2P Require Import StoreApi.
From S2P Require Import MindieHash.
From S2P Require Import MindiePool.
Local Open Scope Z_scope.
Local Open Scope py_scope.

(** ** Addresses (KVPtrComputer) *)

(** The K and the V cache of a layer: first address and bytes of a block. *)
Record LayerCache := { lc_base : Z * Z; lc_stride : Z * Z }.

(** [self.ptr_table[layer, kv, block]], on [np.uint64] *)
Definition ptr (base stride b : Z) : Z := u64 (base + u64 (stride * b)).
Definition layer_ptrs (b : Z) (l : LayerCache) : list Z :=
  [ptr (lc_base l).1 (lc_stride l).1 b; ptr (lc_base l).2 (lc_stride l).2 b].

(** [self.ptr_table[:, :, idx].transpose(2, 0, 1)]; numpy counts a negative
    index from the end. *)
Definition ptrs_for_blocks_np (npu_cache : list LayerCache) (max_num_blocks : Z) (block_ids : list Z)
    : res (list (list (list Z))) :=
  foldr (fun b acc =>
    let? rows := acc in
    if (b <? - max_num_blocks) || (max_num_blocks <=? b) then Err IndexError
    else let b := if b <? 0 then max_num_blocks + b else b in
         Ok ((layer_ptrs b <$> npu_cache) :: rows)) (Ok []) block_ids.

(** ** The plugin *)

Inductive MemPoolType := DISABLED | SYNC_WRITE | ASYNC_WRITE.
#[global] Instance mem_pool_type_eq_dec : EqDecision MemPoolType.
Proof. solve_decision. Defined.

(** Block counts: one per request, or one per request and rank; a shape that
    does not fit the number of ranks is rejected. *)
Inductive Counts := C1 (l : list Z) | C2 (l : list (list Z)).

Record InputMetadata := {
  batch_size : Z;
  is_prefill : bool;
  max_block_size : Z;
  batch_seq_len : list Z;
  batch_dp_rank_ids : list Z;
  input_ids : list Z;
  batch_block_tables : list (list Z);
  computed_blocks : option Counts;
  remote_computed_blocks : option Counts;
}.

Record PluginConfig := {
  p_keys : KeyConfig;
  p_attn_dp_rank : Z;
  p_num_put_layers : Z;
  p_mempool_type : MemPoolType;
  (** the width of the token arrays *)
  p_token_bits : Z;
  p_npu_cache : list LayerCache;
  p_max_num_blocks : Z;
}.

Definition scp (c : PluginConfig) : Z := k_scp_size (p_keys c).

(** [np.zeros] of the shape the ranks need *)
Definition zero_counts (c : PluginConfig) (n : Z) : Counts :=
  if 1 <? scp c then C2 (py_repeat (py_repeat 0 (scp c)) n) else C1 (py_repeat 0 n).

(** The count of every request: [np.sum(..., axis=1)] with several ranks. *)
Definition total_counts (c : PluginConfig) (v : Counts) : res (list Z) :=
  match v with
  | C2 l => if 1 <? scp c then Ok (zsum <$> l) else Err TypeError
  | C1 l => if 1 <? scp c then Err ValueError else Ok l
  end.

(** The blocks from [computed] to [last] of this rank, each with the index at
    which the code looks up its block id. *)
Definition own_blocks (k : KeyConfig) (computed last : Z) : list (Z * Z) :=
  if 1 <? k_scp_size k then
    let first := computed + (k_scp_rank k - computed mod k_scp_size k) mod k_scp_size k in
    let bs := pyrange first last (k_scp_size k) in
    zip bs (zrange 0 (pylen bs))
  else (fun b => (b, b)) <$> zrange computed last.

(** The keys and the block ids of some blocks of request [i]. *)
Fixpoint pick_blocks (k : KeyConfig) (prefix_hashes : list Z) (table : list Z) (bs : list (Z * Z))
    : res (list string * list Z) :=
  match bs with
  | [] => Ok ([], [])
  | (b, j) :: bs' =>
      let? h := py_idx prefix_hashes b in
      let? id := py_idx table j in
      let? rest := pick_blocks k prefix_hashes table bs' in
      Ok (get_prefix_keys k h :: rest.1, id :: rest.2)
  end.

(** One request of [get_prefix_kvcache_from_mempool]; [offset] is where its
    tokens begin. *)
Definition get_request (c : PluginConfig) (md : InputMetadata) (computed : list Z) (remote : option (list Z)) (offset i : Z)
    : res (list string * list Z * Z) :=
  let? seq_len := py_idx (batch_seq_len md) i in
  let? dp := py_idx (batch_dp_rank_ids md) i in
  let mb := max_block_size md in
  let full_blocks := if mb =? 0 then 0 else (seq_len - 1) / mb in
  if negb (dp =? p_attn_dp_rank c) then Ok ([], [], offset + seq_len)
  else if full_blocks <=? 0 then Ok ([], [], offset + seq_len)
  else
    let? computed := py_idx computed i in
    let? remote_computed := match remote with Some l => py_idx l i | None => Err TypeError end in
    if (remote_computed <=? computed) || (full_blocks <=? computed) then Ok ([], [], offset + seq_len)
    else
      let remote_computed := Z.min remote_computed full_blocks in
      let flat := slice (input_ids md) offset (offset + remote_computed * mb) in
      let? prefix_hashes := HashPrefix (p_token_bits c) MindieHash.INVALID_HASH_VALUE flat mb 0 remote_computed in
      let? table := py_idx (batch_block_tables md) i in
      let? picked := pick_blocks (p_keys c) prefix_hashes table (own_blocks (p_keys c) computed remote_computed) in
      Ok (picked, offset + seq_len).

Fixpoint get_requests (c : PluginConfig) (md : InputMetadata) (computed : list Z) (remote : option (list Z)) (offset : Z) (is_ : list Z)
    : res (list string * list Z) :=
  match is_ with
  | [] => Ok ([], [])
  | i :: is' =>
      let? one := get_request c md computed remote offset i in
      let? rest := get_requests c md computed remote one.2 is' in
      Ok (one.1.1 ++ rest.1, one.1.2 ++ rest.2)
  end.

Definition get_selection (c : PluginConfig) (md : InputMetadata) : res (list string * list Z) :=
  let? computed := total_counts c (default (zero_counts c (batch_size md)) (computed_blocks md)) in
  let? remote := match remote_computed_blocks md with
                 | Some v => let? l := total_counts c v in Ok (Some l)
                 | None => if 1 <? scp c then Err ValueError else Ok None
                 end in
  get_requests c md computed remote 0 (zrange 0 (batch_size md)).

(** One request of [put_prefix_kvcache_to_mempool]; [ids] are all its tokens. *)
Definition put_request (c : PluginConfig) (md : InputMetadata) (seq_lens : list Z) (ids : list (list Z))
    (remote : list Z) (i : Z) : res (list string * list Z) :=
  let? dp := py_idx (batch_dp_rank_ids md) i in
  let mb := max_block_size md in
  if negb (dp =? p_attn_dp_rank c) then Ok ([], [])
  else
    let? seq_len := py_idx seq_lens i in
    if negb (mb =? 0) && (seq_len - 1 <? mb) then Ok ([], [])
    else if mb =? 0 then Err ZeroDivisionError
    else
      let full_blocks := (seq_len - 1) / mb in
      if full_blocks <=? 0 then Ok ([], [])
      else
        let? computed := py_idx remote i in
        if full_blocks <=? computed then Ok ([], [])
        else
          let? row := py_idx ids i in
          let flat := slice_to row (full_blocks * mb) in
          let? prefix_hashes := HashPrefix (p_token_bits c) MindieHash.INVALID_HASH_VALUE flat mb 0 full_blocks in
          let? table := py_idx (batch_block_tables md) i in
          pick_blocks (p_keys c) prefix_hashes table (own_blocks (p_keys c) computed full_blocks).

Fixpoint put_requests (c : PluginConfig) (md : InputMetadata) (seq_lens : list Z) (ids : list (list Z))
    (remote : list Z) (is_ : list Z) : res (list string * list Z) :=
  match is_ with
  | [] => Ok ([], [])
  | i :: is' =>
      let? one := put_request c md seq_lens ids remote i in
      let? rest := put_requests c md seq_lens ids remote is' in
      Ok (one.1 ++ rest.1, one.2 ++ rest.2)
  end.

Definition own_requests (c : PluginConfig) (md : InputMetadata) : list Z :=
  filter (fun d => d = p_attn_dp_rank c) (batch_dp_rank_ids md).

Section plugin.
Context {W : Type} `{Store W} (md5 : bytes -> bytes) (task_id : task -> Z) (pc : MempoolConfig) (c : PluginConfig).

Definition get_prefix_kvcache_from_mempool (md : InputMetadata) : M (Pool W) unit :=
  if bool_decide (p_mempool_type c = DISABLED) then ret tt
  else
    let! ' (prefix_keys, req_block_ids) := lift_res (get_selection c md) in
    match prefix_keys with
    | [] => ret tt
    | _ =>
        let! tensors := lift_res (ptrs_for_blocks_np (p_npu_cache c) (p_max_num_blocks c) req_block_ids) in
        do! MindiePool.get md5 task_id pc prefix_keys tensors in ret tt
    end.

(** [seq_lens] and [ids] are what [infer_context] has for the cache ids. *)
Definition put_prefix_kvcache_to_mempool (md : InputMetadata) (seq_lens : list Z) (ids : list (list Z)) : M (Pool W) unit :=
  if bool_decide (p_mempool_type c = DISABLED) || negb (is_prefill md) || bool_decide (own_requests c md = []) then ret tt
  else
    let! remote := lift_res (total_counts c (default (zero_counts c (batch_size md)) (remote_computed_blocks md))) in
    let! ' (prefix_keys, req_block_ids) := lift_res (put_requests c md seq_lens ids remote (zrange 0 (batch_size md))) in
    match prefix_keys with
    | [] => ret tt
    | _ =>
        let! tensors := lift_res (ptrs_for_blocks_np (p_npu_cache c) (p_max_num_blocks c) req_block_ids) in
        do! put md5 task_id pc prefix_keys tensors in ret tt
    end.
End plugin.

(** ** The writing thread *)

(** [put_prefix_kvcache_put_task_queue]: one task per layer, marked as first,
    as last, and whether the step only saves. *)
Definition put_tasks (c : PluginConfig) (md : InputMetadata) : res (list (bool * bool * bool)) :=
  let? only_save_kv :=
    match remote_computed_blocks md with
    | None => Ok true
    | Some v =>
        if scp c =? 1 then
          match v with
          | C1 l => Ok (zsum ((fun x => x.2) <$> filter (fun x => x.1 = p_attn_dp_rank c) (zip (batch_dp_rank_ids md) l)) =? 0)
          | C2 _ => Err ValueError
          end
        else Ok false
    end in
  Ok ((fun layer_id => (layer_id =? 0, layer_id =? p_num_put_layers c - 1, only_save_kv))
        <$> zrange 0 (p_num_put_layers c)).

(** What the thread does with the tasks of one step, in order. *)
Inductive ThreadEvent :=
  | ClearSave
  | WaitEvent (only_save_kv : bool)
  | PutBlocks
  | SetSave.

Definition thread_step (t : bool * bool * bool) : list ThreadEvent :=
  let '(is_first, is_last, only_save_kv) := t in
  (if is_first : bool then [ClearSave] else []) ++ [WaitEvent only_save_kv] ++
  (if is_last : bool then [PutBlocks; SetSave] else []).
Definition thread_events (ts : list (bool * bool * bool)) : list ThreadEvent := concat (thread_step <$> ts).

(** ** The blocks of a rank *)

Lemma elem_of_pyrange lo hi step x : 0 < step ->
  x ∈ pyrange lo hi step <-> exists i, 0 <= i /\ x = lo + step * i /\ x < hi.
Proof.
  intros Hs. unfold pyrange. rewrite list_elem_of_fmap. setoid_rewrite elem_of_seq.
  pose proof (cdiv_spec (hi - lo) step Hs) as Hc. split.
  - intros (y & -> & Hy). exists (Z.of_nat y). split; [lia|]. split; [done|]. nia.
  - intros (i & Hi & -> & Hlt). exists (Z.to_nat i). rewrite Z2Nat.id by done. split; [done|]. nia.
Qed.

Lemma pyrange_NoDup lo hi step : 0 < step -> NoDup (pyrange lo hi step).
Proof.
  intros Hs. unfold pyrange. apply NoDup_fmap_2_strong; [|apply NoDup_seq]. intros x y _ _. nia.
Qed.

Lemma own_blocks_fst k computed last : (own_blocks k computed last).*1 =
  if 1 <? k_scp_size k then pyrange (computed + (k_scp_rank k - computed mod k_scp_size k) mod k_scp_size k) last (k_scp_size k)
  else zrange computed last.
Proof.
  unfold own_blocks. destruct (1 <? k_scp_size k).
  - rewrite fst_zip; [done|]. rewrite length_zrange. unfold pylen. lia.
  - rewrite <- list_fmap_compose. simpl. by rewrite list_fmap_id.
Qed.

(** The blocks go round the ranks. *)
Lemma own_blocks_elem k computed last b : 1 < k_scp_size k -> 0 <= k_scp_rank k < k_scp_size k ->
  b ∈ (own_blocks k computed last).*1 <-> computed <= b < last /\ b mod k_scp_size k = k_scp_rank k.
Proof.
  intros Hn Hr. rewrite own_blocks_fst, (proj2 (Z.ltb_lt 1 _)), elem_of_pyrange by lia.
  set (n := k_scp_size k) in *. set (r := k_scp_rank k) in *. set (d := (r - computed mod n) mod n).
  assert (Hd : 0 <= d < n) by (apply Z.mod_pos_bound; lia).
  assert (Hm : (computed + d) mod n = r).
  { unfold d. rewrite Zplus_mod_idemp_r. replace (computed + (r - computed mod n)) with (r + n * (computed / n)).
    - rewrite Z.mul_comm, Z.mod_add by lia. by apply Z.mod_small.
    - pose proof (Z.div_mod computed n). lia. }
  split.
  - intros (i & Hi & -> & Hlt). split; [nia|]. by rewrite Z.mul_comm, Z.mod_add by lia.
  - intros [Hb Hbm]. exists ((b - (computed + d)) / n).
    assert (Hdiv : (b - (computed + d)) mod n = 0) by (rewrite Zminus_mod, Hm, Hbm, Z.sub_diag; done).
    pose proof (Z.div_mod (b - (computed + d)) n ltac:(lia)) as He. rewrite Hdiv in He.
    assert (-1 < (b - (computed + d)) / n) by nia. lia.
Qed.

Lemma own_blocks_single k computed last b : k_scp_size k <= 1 ->
  b ∈ (own_blocks k computed last).*1 <-> computed <= b < last.
Proof. intros Hn. rewrite own_blocks_fst, (proj2 (Z.ltb_ge 1 _)) by done. apply elem_of_zrange. Qed.

(** ** What a get asks for *)

Lemma hash_blocks_lookup w t1 t2 bs b n1 n2 p i : (i < n1)%nat -> (i < n2)%nat ->
  (forall j, (j <= i)%nat -> slice t1 ((b + Z.of_nat j) * bs) ((b + Z.of_nat j) * bs + bs) =
                             slice t2 ((b + Z.of_nat j) * bs) ((b + Z.of_nat j) * bs + bs)) ->
  hash_blocks_from w t1 bs b n1 p !! i = hash_blocks_from w t2 bs b n2 p !! i.
Proof.
  revert b n1 n2 p. induction i as [|i IH]; intros b [|n1] [|n2] p H1 H2 Hs; try lia; simpl.
  - pose proof (Hs 0%nat ltac:(lia)) as Hb. rewrite Z.add_0_r in Hb. by rewrite Hb.
  - pose proof (Hs 0%nat ltac:(lia)) as Hb. rewrite Z.add_0_r in Hb. rewrite Hb. apply IH; [lia|lia|].
    intros j Hj. pose proof (Hs (S j) ltac:(lia)) as Hsj.
    by replace (b + 1 + Z.of_nat j) with (b + Z.of_nat (S j)) by lia.
Qed.

Lemma length_hash_blocks w t bs b n p : length (hash_blocks_from w t bs b n p) = n.
Proof. revert b p. induction n as [|n IH]; intros b p; [done|]. simpl. by rewrite IH. Qed.

Lemma pick_blocks_keys k hs table bs keys ids key : pick_blocks k hs table bs = Ok (keys, ids) ->
  key ∈ keys <-> exists b h, b ∈ bs.*1 /\ py_idx hs b = Ok h /\ key = get_prefix_keys k h.
Proof.
  revert keys ids. induction bs as [|[b j] bs IH]; intros keys ids; simpl.
  - intros [= <- <-]. split; [by intros ?%not_elem_of_nil|by intros (? & ? & ?%not_elem_of_nil & _)].
  - destruct (py_idx hs b) as [h|] eqn:Eh; [|done]. destruct (py_idx table j) as [id|]; [|done].
    destruct (pick_blocks k hs table bs) as [[ks is_]|] eqn:Ep; [|done]. intros [= <- <-]. simpl.
    rewrite elem_of_cons, (IH ks is_ eq_refl). split.
    + intros [->|(b' & h' & Hb & Hh & ->)]; [exists b, h|exists b', h']; (split; [|done]); [by left|by right].
    + intros (b' & h' & Hb & Hh & ->). apply elem_of_cons in Hb as [->|Hb]; [left; congruence|].
      right. by exists b', h'.
Qed.

Lemma slice_agree {A} (l1 l2 : list A) n lo hi : (forall x, Z.of_nat x < n -> l1 !! x = l2 !! x) ->
  0 <= lo -> 0 <= hi <= n -> slice l1 lo hi = slice l2 lo hi.
Proof.
  intros Hx Hlo Hhi. apply list_eq. intros i. rewrite !lookup_slice by lia. case_decide; [|done]. apply Hx. lia.
Qed.

(** The requests of a reader and of a writer with the same tokens. *)
Lemma flat_agree (r row : list Z) off e full fw mb x : 0 <= off -> 0 < mb -> 0 <= e <= full -> full <= fw ->
  slice r off (off + full * mb) = slice_to row (full * mb) -> Z.of_nat x < e * mb ->
  slice r off (off + e * mb) !! x = slice_to row (fw * mb) !! x.
Proof.
  intros Hoff Hmb He Hfw Heq Hx. apply (f_equal (fun l => l !! x)) in Heq. unfold slice_to in *.
  rewrite !lookup_slice in * by nia. rewrite !decide_True in * by nia. done.
Qed.

(** A get asks the pool only for keys that the puts of the same rank
    offer.  When a reader's request begins with the tokens of a writer's, up to
    its last full block, and the writer starts no later than the reader and has
    at least as many full blocks, then every key [get_request] selects is among
    those [put_request] selects, whatever the two hold locally. *)
Theorem gets_ask_for_offered_keys cr cw mdr mdw computed remote off i seq_lens rows wremote j
    keys_r ids_r off' keys_w ids_w mb seq_r seq_w row comp_r comp_w :
  p_keys cr = p_keys cw -> p_token_bits cr = p_token_bits cw ->
  max_block_size mdr = mb -> max_block_size mdw = mb -> 0 < mb -> 0 <= off ->
  (1 < k_scp_size (p_keys cr) -> 0 <= k_scp_rank (p_keys cr) < k_scp_size (p_keys cr)) ->
  py_idx (batch_seq_len mdr) i = Ok seq_r -> py_idx seq_lens j = Ok seq_w ->
  py_idx (batch_dp_rank_ids mdw) j = Ok (p_attn_dp_rank cw) -> py_idx rows j = Ok row ->
  py_idx computed i = Ok comp_r -> py_idx wremote j = Ok comp_w -> 0 <= comp_w <= comp_r ->
  (seq_r - 1) / mb <= (seq_w - 1) / mb < 2 ^ 32 -> mb < 2 ^ 32 ->
  slice (input_ids mdr) off (off + (seq_r - 1) / mb * mb) = slice_to row ((seq_r - 1) / mb * mb) ->
  get_request cr mdr computed (Some remote) off i = Ok (keys_r, ids_r, off') ->
  put_request cw mdw seq_lens rows wremote j = Ok (keys_w, ids_w) ->
  forall key, key ∈ keys_r -> key ∈ keys_w.
Proof.
  intros Hk Hw Hmr Hmw Hmb Hoff Hrank Hsr Hsw Hdw Hrow Hcr Hcw Hcc Hfull Hmb2 Htok Hget Hput key Hin.
  unfold get_request in Hget. rewrite Hsr, Hmr in Hget. rewrite (proj2 (Z.eqb_neq mb 0)) in Hget by lia.
  destruct (py_idx (batch_dp_rank_ids mdr) i) as [dp|]; [|done].
  destruct (negb _); [injection Hget as <- _ _; set_solver|].
  destruct (Z.leb_spec ((seq_r - 1) / mb) 0) as [|Hf]; [injection Hget as <- _ _; set_solver|].
  rewrite Hcr in Hget. destruct (py_idx remote i) as [rem|]; [|done].
  destruct (Z.leb_spec rem comp_r) as [|Hrem]; [injection Hget as <- _ _; set_solver|].
  destruct (Z.leb_spec ((seq_r - 1) / mb) comp_r) as [|Hcf]; [injection Hget as <- _ _; set_solver|].
  simpl in Hget. set (e := Z.min rem ((seq_r - 1) / mb)) in *.
  unfold HashPrefix at 1 in Hget. rewrite (proj2 (Z.eqb_neq mb 0)) in Hget by lia.
  rewrite (proj2 (Z.ltb_ge e 0)) in Hget by lia. destruct (_ <? _); [done|]. rewrite Z.sub_0_r in Hget.
  destruct (py_idx (batch_block_tables mdr) i) as [tr|]; [|done].
  destruct (pick_blocks _ _ tr _) as [picked|] eqn:Ep; [|done]. injection Hget as -> _.
  unfold put_request in Hput. rewrite Hdw, Hmw, Z.eqb_refl, Hsw in Hput. simpl in Hput.
  rewrite (proj2 (Z.eqb_neq mb 0)) in Hput by lia. simpl in Hput.
  assert (Hle : mb <= seq_w - 1).
  { apply Z.nlt_ge. intros Hlt. assert ((seq_w - 1) / mb < 1) by (apply Z.div_lt_upper_bound; lia). lia. }
  rewrite (proj2 (Z.ltb_ge (seq_w - 1) mb)) in Hput by lia.
  rewrite (proj2 (Z.leb_gt ((seq_w - 1) / mb) 0)) in Hput by lia. rewrite Hcw in Hput.
  rewrite (proj2 (Z.leb_gt ((seq_w - 1) / mb) comp_w)) in Hput by lia. rewrite Hrow in Hput.
  unfold HashPrefix at 1 in Hput. rewrite (proj2 (Z.eqb_neq mb 0)) in Hput by lia.
  rewrite (proj2 (Z.ltb_ge ((seq_w - 1) / mb) 0)) in Hput by lia.
  destruct (_ <? _); [done|]. rewrite Z.sub_0_r in Hput.
  destruct (py_idx (batch_block_tables mdw) j) as [tw|]; [|done].
  rewrite (pick_blocks_keys _ _ _ _ _ _ key Hput). rewrite (pick_blocks_keys _ _ _ _ _ _ key Ep) in Hin.
  destruct Hin as (b & h & Hb & Hh & ->). exists b, h.
  assert (Hbr : comp_r <= b < e).
  { destruct (Z.lt_ge_cases 1 (k_scp_size (p_keys cr))) as [Hs|Hs]; [apply own_blocks_elem in Hb as [? _]; auto|by apply own_blocks_single in Hb]. }
  split; [|split; [|by rewrite Hk]].
  - rewrite <- Hk. destruct (Z.lt_ge_cases 1 (k_scp_size (p_keys cr))) as [Hs|Hs].
    + apply own_blocks_elem in Hb as [_ Hb]; [|done|auto]. apply own_blocks_elem; [done|auto|]. split; [lia|done].
    + apply own_blocks_single; [done|]. lia.
  - rewrite <- Hh. unfold py_idx. f_equal. rewrite !py_nth_nonneg by lia. rewrite <- Hw.
    symmetry. apply hash_blocks_lookup; [lia|lia|]. intros x Hx. rewrite Z.add_0_l.
    apply (slice_agree _ _ (e * mb)); [|nia|nia].
    intros y Hy. apply (flat_agree _ _ _ _ ((seq_r - 1) / mb)); try done; lia.
Qed.

Lemma thread_events_cons t ts : thread_events (t :: ts) = thread_step t ++ thread_events ts.
Proof. done. Qed.

(** The blocks are put once, after the events of all layers. *)
Lemma thread_events_order c md ts only : 0 < p_num_put_layers c -> put_tasks c md = Ok ts ->
  (forall t, t ∈ ts -> t.2 = only) ->
  thread_events ts = ClearSave :: py_repeat (WaitEvent only) (p_num_put_layers c) ++ [PutBlocks; SetSave].
Proof.
  unfold put_tasks. intros Hn Hts Honly.
  assert (Hex : exists b, ts = (fun l => (l =? 0, l =? p_num_put_layers c - 1, b)) <$> zrange 0 (p_num_put_layers c)).
  { destruct (remote_computed_blocks md) as [v|]; [|injection Hts as <-; by eexists].
    destruct (scp c =? 1); [|injection Hts as <-; by eexists]. destruct v; [|done]. injection Hts as <-. by eexists. }
  destruct Hex as [b ->]. clear Hts. set (n := p_num_put_layers c) in *.
  assert (b = only) as -> by (apply (Honly (0 =? 0, 0 =? n - 1, b)); apply list_elem_of_fmap; exists 0;
    split; [done|apply elem_of_zrange; lia]). clear Honly.
  assert (Hgen : forall m lo, 0 <= lo -> lo + Z.of_nat m = n -> (0 < m)%nat ->
    thread_events ((fun l => (l =? 0, l =? n - 1, only)) <$> zrange lo n) =
    (if lo =? 0 then [ClearSave] else []) ++ py_repeat (WaitEvent only) (Z.of_nat m) ++ [PutBlocks; SetSave]).
  { induction m as [|m IH]; intros lo Hlo Hm Hpos; [lia|]. rewrite zrange_cons, fmap_cons by lia.
    rewrite thread_events_cons. unfold thread_step at 1.
    unfold py_repeat. rewrite Nat2Z.id. destruct m as [|m].
    - rewrite (proj2 (Z.eqb_eq lo (n - 1))), zrange_nil by lia. simpl. by rewrite <- app_assoc.
    - rewrite (proj2 (Z.eqb_neq lo (n - 1))) by lia.
      rewrite IH by lia. rewrite (proj2 (Z.eqb_neq (lo + 1) 0)) by lia. unfold py_repeat. rewrite Nat2Z.id.
      simpl. by rewrite <- app_assoc. }
  rewrite (Hgen (Z.to_nat n) 0) by lia. by rewrite Z2Nat.id by lia.
Qed.

(** ** Concrete requests *)
Module PluginDemo.
(** ranks 0 and 1 of a sequence-parallel group *)
Definition keys (r : Z) : KeyConfig :=
  {| k_tp_rank := 0; k_tp_size := 1; k_scp_rank := r; k_scp_size := 2; k_model_name := "m" |}.
Definition cfg (r : Z) : PluginConfig :=
  {| p_keys := keys r; p_attn_dp_rank := 0; p_num_put_layers := 2; p_mempool_type := SYNC_WRITE; p_token_bits := 64;
     p_npu_cache := [{| lc_base := (1000, 2000); lc_stride := (16, 8) |}; {| lc_base := (3000, 4000); lc_stride := (16, 8) |}];
     p_max_num_blocks := 10 |}.
(** nine tokens in blocks of two: four full blocks *)
Definition md : InputMetadata :=
  {| batch_size := 1; is_prefill := true; max_block_size := 2; batch_seq_len := [9]; batch_dp_rank_ids := [0];
     input_ids := [1; 2; 3; 4; 5; 6; 7; 8; 9]; batch_block_tables := [[4; 5; 6; 7]]; computed_blocks := Some (C2 [[1; 1]]);
     remote_computed_blocks := Some (C2 [[2; 2]]) |}.
Definition got : list string * list Z :=
  match get_request (cfg 0) md [2] (Some [4]) 0 0 with Ok r => r.1 | Err _ => ([], []) end.
Definition offered : list string * list Z :=
  match put_request (cfg 0) md [9] [[1; 2; 3; 4; 5; 6; 7; 8; 9]] [0] 0 with Ok r => r | Err _ => ([], []) end.

Lemma gets_ask_for_offered_keys_witness :
  length got.1 = 1%nat /\ forall key, key ∈ got.1 -> key ∈ offered.1.
Proof.
  split; [vm_compute; reflexivity|].
  apply (gets_ask_for_offered_keys (cfg 0) (cfg 0) md md [2] [4] 0 0 [9] [[1; 2; 3; 4; 5; 6; 7; 8; 9]] [0] 0
           got.1 got.2 9 offered.1 offered.2 2 9 9 [1; 2; 3; 4; 5; 6; 7; 8; 9] 2 0);
    try reflexivity; try (vm_compute; reflexivity); try lia.
  - intros _. split; vm_compute; [discriminate|reflexivity].
Defined.

(** With several ranks the index into the block table restarts at 0 for the
    first block that is fetched, while without them a block is found at its own
    index.  Rank 0 holds blocks 0 and 2 in its first two places (4 and 5):
    fetching block 2 goes to place 0, over block 0, and a put stores the
    contents of place 0 under the key of block 2. *)
Example scp_index_restarts :
  (own_blocks (keys 0) 0 4, own_blocks (keys 0) 2 4, got.2) = ([(0, 0); (2, 1)], [(2, 0)], [4]).
Proof. vm_compute. reflexivity. Qed.

(** The sizes passed to the store list all K blocks before all V blocks, the
    addresses alternate: with K and V of different sizes the second tensor of
    a block is the V of layer 0 and has the size of a K. *)
Example sizes_and_addresses_disagree :
  ((get_io_size_info (Some (2, 16, 8))).1,
   res_map (fmap (M := list) (fun b : list (list Z) => concat b))
     (ptrs_for_blocks_np (p_npu_cache (cfg 0)) 10 [1]))
  = ([16; 16; 8; 8], Ok [[1016; 2008; 3016; 4008]]).
Proof. vm_compute. reflexivity. Qed.
End PluginDemo.
