(* ===== verification/Prefetch.v ===== *)
(** * The prefetch engine of gathered sparse attention
    (ucm/sparse/gsa/prefetch/prefetch_engine.py, [execute_begin] of ucm/sparse/gsa/gsa.py)

    Before a step the engine chooses, per layer, the block table and the number
    of tokens the attention of each request sees: the selected blocks and the
    last one, or all blocks.  Tensors are lists, [layer][row][column]; the C++
    engine is seen through the calls it gets, and what it and the top-k kernel
    write into shared tensors between two calls is the caller's to say. *)

From S2P Require Import Prelude.
From S2P Require Import GsaStat.
From stdpp Require Import sorting.
Local Open Scope Z_scope.
Local Open Scope py_scope.

Abbreviation tensor2 := (list (list Z)).
Abbreviation tensor3 := (list (list (list Z))).

(** ** Writing into tensors *)

(** [row[:n] = vals]: the lengths agree or one value fills the slice. *)
Definition set_slice (n : Z) (vals row : list Z) : res (list Z) :=
  let m := Z.min n (pylen row) in
  if pylen vals =? m then Ok (vals ++ drop (length vals) row)
  else if pylen vals =? 1 then Ok (py_repeat (default 0 (vals !! 0%nat)) m ++ drop (Z.to_nat m) row)
  else Err RuntimeError.

Definition set_item (i x : Z) (row : list Z) : res (list Z) := of_option IndexError (py_setitem row i x).

(** Replace the element at [i] by what [f] makes of it. *)
Definition upd_at {A} (i : Z) (f : A -> res A) (l : list A) : res (list A) :=
  let? x := py_idx l i in
  let? y := f x in
  of_option IndexError (py_setitem l i y).

Fixpoint map2_res {A B C} (f : A -> B -> res C) (l : list A) (k : list B) : res (list C) :=
  match l, k with
  | [], [] => Ok []
  | x :: l', z :: k' => let? y := f x z in let? ys := map2_res f l' k' in Ok (y :: ys)
  | _, _ => Err RuntimeError
  end.

(** [t[:, b, :n] = vals], the same for every layer *)
Definition set_rows (b n : Z) (vals : list Z) (t : tensor3) : res tensor3 :=
  map_res (upd_at b (set_slice n vals)) t.
(** [t[:, b, :n] = vals] with a row per layer *)
Definition set_layer_rows (b n : Z) (vals : tensor2) (t : tensor3) : res tensor3 :=
  map2_res (fun layer v => upd_at b (set_slice n v) layer) t vals.
(** [t[:, b]] changed by [f] *)
Definition upd_cells (b : Z) (f : Z -> Z) (t : tensor2) : res tensor2 := map_res (upd_at b (fun x => Ok (f x))) t.

(** ** The engine *)

(** The calls of the C++ engine. *)
Inductive EngineCall (H : Type) :=
  | SetBlocksTableInfo (load_success : tensor3) (block_table_len : tensor2) (topk : tensor3) (step_time : Z)
  | RunAsyncPrefetch (req_ids : list string) (topk_len : list Z) (select : list Z)
  | AddBlocksMap (id : string) (index block : Z)
  | SetBlocksMap (id : string) (table : list Z) (idx : list Z) (hashes : list H) (max_idx : Z)
  | SetBlocksMapMultilayer (id : string) (remain prefetch : list (option (list (Z * Z)))) (hashes : list H) (max_idx : Z).
Arguments SetBlocksTableInfo {H} _ _ _ _.
Arguments RunAsyncPrefetch {H} _ _ _.
Arguments AddBlocksMap {H} _ _ _.
Arguments SetBlocksMap {H} _ _ _ _ _.
Arguments SetBlocksMapMultilayer {H} _ _ _ _ _.

(** The tensors of [_init_tensor]. *)
Record Tensors := {
  prefetch_blocks : tensor3;
  m_load_success_list : tensor3;
  use_block_table : tensor3;
  prefetch_block_len : tensor2;
  gsa_seq_len : tensor2;
  block_table_len : tensor2;
  use_block_table_len : tensor2;
  prefetch_topk_buf : tensor3;
}.

(** What [model_input_deal] notes of the step. *)
Record Run := {
  step_time : Z;
  select_bs_index : list Z;
  block_table_list_bs : list (list Z);
  req_ids_bs : list string;
  atb_gsa_enable : bool;
  ptopk_prefetch_enable : bool;
  is_topk_cal : bool;
}.

(** The top-k results: the cache the kernel writes, the copy handed out last,
    and whose it is. *)
Record TopK := {
  use_topk_caches : tensor3;
  topk_space : Z;
  e_topk_buf_tmp : option tensor3;
  topk_bs : list (string * bool * Z);
  is_topk_update : bool;
}.

Record Engine (H : Type) := {
  e_tensors : Tensors;
  e_tables : EngineTables;
  e_stats : list (string * GSAReqStat H);
  e_calls : list (EngineCall H);
  e_run : Run;
  e_topk : TopK;
}.
Arguments e_tensors {H} _.
Arguments e_tables {H} _.
Arguments e_stats {H} _.
Arguments e_calls {H} _.
Arguments e_run {H} _.
Arguments e_topk {H} _.

(** What the model is given. *)
Record GsaInput := {
  in_topk_caches : tensor3;
  in_is_topk : bool;
  in_block_tables : tensor3;
  in_seq_len : tensor2;
}.

Section engine.
Context {H : Type} (env : GSAEnv H) (num_attention_layers sp_max_len : Z).
Abbreviation ST := (Engine H).
Abbreviation STAT := (GSAReqStat H).

Definition set_tensors (x : Tensors) (s : ST) : ST :=
  {| e_tensors := x; e_tables := e_tables s; e_stats := e_stats s; e_calls := e_calls s; e_run := e_run s; e_topk := e_topk s |}.
Definition set_tables (x : EngineTables) (s : ST) : ST :=
  {| e_tensors := e_tensors s; e_tables := x; e_stats := e_stats s; e_calls := e_calls s; e_run := e_run s; e_topk := e_topk s |}.
Definition set_stats (x : list (string * STAT)) (s : ST) : ST :=
  {| e_tensors := e_tensors s; e_tables := e_tables s; e_stats := x; e_calls := e_calls s; e_run := e_run s; e_topk := e_topk s |}.
Definition add_call (x : EngineCall H) (s : ST) : ST :=
  {| e_tensors := e_tensors s; e_tables := e_tables s; e_stats := e_stats s; e_calls := e_calls s ++ [x]; e_run := e_run s;
     e_topk := e_topk s |}.
Definition set_run (x : Run) (s : ST) : ST :=
  {| e_tensors := e_tensors s; e_tables := e_tables s; e_stats := e_stats s; e_calls := e_calls s; e_run := x; e_topk := e_topk s |}.
Definition set_topk (x : TopK) (s : ST) : ST :=
  {| e_tensors := e_tensors s; e_tables := e_tables s; e_stats := e_stats s; e_calls := e_calls s; e_run := e_run s; e_topk := x |}.

Definition with_use_table (x : tensor3) (t : Tensors) : Tensors :=
  {| prefetch_blocks := prefetch_blocks t; m_load_success_list := m_load_success_list t; use_block_table := x;
     prefetch_block_len := prefetch_block_len t; gsa_seq_len := gsa_seq_len t; block_table_len := block_table_len t;
     use_block_table_len := use_block_table_len t; prefetch_topk_buf := prefetch_topk_buf t |}.
Definition with_use_len (x : tensor2) (t : Tensors) : Tensors :=
  {| prefetch_blocks := prefetch_blocks t; m_load_success_list := m_load_success_list t; use_block_table := use_block_table t;
     prefetch_block_len := prefetch_block_len t; gsa_seq_len := gsa_seq_len t; block_table_len := block_table_len t;
     use_block_table_len := x; prefetch_topk_buf := prefetch_topk_buf t |}.
Definition with_seq_len (x : tensor2) (t : Tensors) : Tensors :=
  {| prefetch_blocks := prefetch_blocks t; m_load_success_list := m_load_success_list t; use_block_table := use_block_table t;
     prefetch_block_len := prefetch_block_len t; gsa_seq_len := x; block_table_len := block_table_len t;
     use_block_table_len := use_block_table_len t; prefetch_topk_buf := prefetch_topk_buf t |}.
Definition with_prefetch_topk (x : tensor3) (t : Tensors) : Tensors :=
  {| prefetch_blocks := prefetch_blocks t; m_load_success_list := m_load_success_list t; use_block_table := use_block_table t;
     prefetch_block_len := prefetch_block_len t; gsa_seq_len := gsa_seq_len t; block_table_len := block_table_len t;
     use_block_table_len := use_block_table_len t; prefetch_topk_buf := x |}.

Definition upd_use_table (f : tensor3 -> res tensor3) : M ST unit :=
  let! t := gets e_tensors in
  let! x := lift_res (f (use_block_table t)) in
  modify (fun s => set_tensors (with_use_table x (e_tensors s)) s).
Definition upd_seq_len (f : tensor2 -> res tensor2) : M ST unit :=
  let! t := gets e_tensors in
  let! x := lift_res (f (gsa_seq_len t)) in
  modify (fun s => set_tensors (with_seq_len x (e_tensors s)) s).
Definition call_engine (c : EngineCall H) : M ST unit := modify (add_call c).
Definition req_stat (id : string) : M ST STAT :=
  let! l := gets e_stats in lift_res (of_option KeyError (od_get id l)).
Definition put_req_stat (id : string) (st : STAT) : M ST unit := modify (fun s => set_stats (od_set id st (e_stats s)) s).

(** [enumerate(self.req_ids_bs)] with the index in the batch and the row. *)
Definition each_request (f : Z -> Z -> string -> M ST unit) : M ST unit :=
  let! run := gets e_run in
  for_ (enumerate (req_ids_bs run)) (fun x =>
    let! b := lift_res (py_idx (select_bs_index run) x.1) in f x.1 b x.2).

(** ** The kind of the step *)

Fixpoint any_gsa (stats : list (string * STAT)) (ids : list string) : res bool :=
  match ids with
  | [] => Ok false
  | id :: ids' => let? st := of_option KeyError (od_get id stats) in if is_gsa st then Ok true else any_gsa stats ids'
  end.

(** [_get_run_type]; [ptopk] is [PTOPK_PREFETCH_ENABLE] *)
Definition get_run_type (ptopk : bool) : M ST unit :=
  let! stats := gets e_stats in
  let! run := gets e_run in
  let! open_gsa := lift_res (any_gsa stats (req_ids_bs run)) in
  modify (fun s => set_run {| step_time := step_time run; select_bs_index := select_bs_index run;
    block_table_list_bs := block_table_list_bs run; req_ids_bs := req_ids_bs run; atb_gsa_enable := open_gsa;
    ptopk_prefetch_enable := open_gsa && ptopk; is_topk_cal := is_topk_cal run |} s).

Definition set_is_gsa (id : string) (b : bool) : M ST unit :=
  modify (fun s => set_tables {| block_map_flag := block_map_flag (e_tables s); block_table_flag := block_table_flag (e_tables s);
                                 is_gsa_req_id := <[id := b]> (is_gsa_req_id (e_tables s)) |} s).

(** [_set_req_stat]: a request once marked stays marked. *)
Definition set_req_stat : M ST unit :=
  let! run := gets e_run in
  for_ (req_ids_bs run) (fun id =>
    let! st := req_stat id in
    let! t := gets e_tables in
    match is_gsa_req_id t !! id with
    | Some _ => if bool_decide (stage st <> PREFILL) && is_gsa st then set_is_gsa id true else ret tt
    | None => set_is_gsa id (is_gsa st)
    end).

Fixpoint max_block_len_of (stats : list (string * STAT)) (ids : list string) (acc : Z) : res Z :=
  match ids with
  | [] => Ok acc
  | id :: ids' =>
      let? st := of_option KeyError (od_get id stats) in
      max_block_len_of stats ids' (Z.max acc (pylen (blocks st)))
  end.
Definition get_max_block_len : M ST Z :=
  let! stats := gets e_stats in
  let! run := gets e_run in
  lift_res (max_block_len_of stats (req_ids_bs run) 0).

(** ** The top-k results *)

(** [buf[:, index, :n]] *)
Definition topk_of (buf : tensor3) (index n : Z) : res tensor2 :=
  map_res (fun layer => let? row := py_idx layer index in Ok (slice_to row n)) buf.

(** The results of the requests noted last go to their state. *)
Definition give_topk (buf : option tensor3) (x : Z * (string * bool * Z)) : M ST unit :=
  let '(index, (id, gsa, n)) := x in
  let! stats := gets e_stats in
  match od_get id stats with
  | Some st =>
      if gsa then
        let! b := lift_res (of_option TypeError buf) in
        let! v := lift_res (topk_of b index n) in
        put_req_stat id (GsaStat.with_topk_buf (Some v) st)
      else ret tt
  | None => ret tt
  end.

(** [_topk_tmp_deal] *)
Definition topk_tmp_deal (topk_buf : tensor3) : M ST unit :=
  let! k := gets e_topk in
  do! for_ (enumerate (topk_bs k)) (give_topk (e_topk_buf_tmp k)) in
  let! run := gets e_run in
  let! bs := map_m (fun id =>
    let! st := req_stat id in
    let! n := lift_res (compute_topk_len (e_config env) (pylen (blocks st))) in
    ret (id, is_gsa st, n + num_prefetch_blocks (e_config env))) (req_ids_bs run) in
  modify (fun s => set_topk {| use_topk_caches := use_topk_caches k; topk_space := topk_space k; e_topk_buf_tmp := Some topk_buf;
                               topk_bs := bs; is_topk_update := is_topk_update k |} s).

(** [_topk_insert_last_idx] *)
Definition insert_last_idx (id : string) : M ST unit :=
  let! st := req_stat id in
  match topk_buf_tmp st with
  | None => ret tt
  | Some buf =>
      let last_idx := pylen (blocks st) - 1 in
      if existsb (mem last_idx) buf then ret tt
      else put_req_stat id (GsaStat.with_topk_buf (Some ((fun row => row ++ [last_idx]) <$> buf)) st)
  end.
Definition topk_insert_last_idx : M ST unit :=
  let! run := gets e_run in for_ (req_ids_bs run) insert_last_idx.

(** ** The first top-k selection *)

Definition same_length (rows : tensor2) : bool :=
  match rows with [] => true | r :: rest => forallb (fun x => (length x =? length r)%nat) rest end.

Definition map_values (m : option (list (Z * Z))) : res (list Z) :=
  match m with Some d => Ok (od_values d) | None => Err AttributeError end.

(** The rows of the kept and of the prefetched blocks, per layer; the lists of
    the last layer give the lengths. *)
Definition mapped_rows (rm pm : list (option (list (Z * Z)))) : res (tensor2 * tensor2 * Z * Z) :=
  let? rows := map_res (fun layer =>
    let? r := py_idx rm layer in
    let? rv := map_values r in
    let? p := py_idx pm layer in
    let? pv := map_values p in
    Ok (merge_sort Z.le rv, pv)) (zrange 0 num_attention_layers) in
  match last rows with
  | None => Err NameError
  | Some (topk, prefetch) =>
      if same_length rows.*1 && same_length rows.*2 then Ok (rows.*1, rows.*2, pylen topk, pylen prefetch)
      else Err ValueError
  end.

(** The same rows for every layer. *)
Definition indexed_rows (table remain prefetch : list Z) : res (tensor2 * tensor2 * Z * Z) :=
  if negb (pylen remain <? sp_max_len) then Err AssertionError
  else
    let? pv := map_res (py_idx table) prefetch in
    let? tv := map_res (py_idx table) remain in
    Ok (py_repeat tv num_attention_layers, py_repeat pv num_attention_layers, pylen tv, pylen pv).

Definition write_first (b : Z) (rows : tensor2 * tensor2 * Z * Z) (t : Tensors) : res Tensors :=
  let '(topk, prefetch, ntopk, nprefetch) := rows in
  let? pl := upd_cells b (fun _ => nprefetch) (prefetch_block_len t) in
  let? bl := upd_cells b (fun _ => ntopk) (block_table_len t) in
  let? ul := upd_cells b (fun _ => ntopk) (use_block_table_len t) in
  let? pb := set_layer_rows b nprefetch prefetch (prefetch_blocks t) in
  let? ub := set_layer_rows b ntopk topk (use_block_table t) in
  let? ml := set_layer_rows b ntopk topk (m_load_success_list t) in
  Ok {| prefetch_blocks := pb; m_load_success_list := ml; use_block_table := ub; prefetch_block_len := pl;
        gsa_seq_len := gsa_seq_len t; block_table_len := bl; use_block_table_len := ul; prefetch_topk_buf := prefetch_topk_buf t |}.

Definition first_topk_one (index b : Z) (id : string) : M ST unit :=
  let! st := req_stat id in
  match remain_idx st with
  | None => ret tt
  | Some remain =>
      let! run := gets e_run in
      let! table := lift_res (py_idx (block_table_list_bs run) index) in
      let table := slice_to table (pylen (blocks st)) in
      let! rows := lift_res
        match reamin_map st with
        | Some rm => match prefetch_map st with Some pm => mapped_rows rm pm | None => Err TypeError end
        | None => match prefetch_idx st with Some pre => indexed_rows table remain pre | None => Err TypeError end
        end in
      let! t := gets e_tensors in
      let! t' := lift_res (write_first b rows t) in
      do! modify (set_tensors t') in
      let! hashes := lift_res (of_option TypeError (block_hashes st)) in
      let max_idx := pylen hashes in
      let! tb := gets e_tables in
      let! marked := lift_res (of_option KeyError (is_gsa_req_id tb !! id)) in
      if marked : bool then
        match reamin_map st, prefetch_map st with
        | Some rm, Some pm => call_engine (SetBlocksMapMultilayer id rm pm hashes max_idx)
        | _, _ => call_engine (SetBlocksMap id table (default [] (prefetch_idx st) ++ remain) hashes max_idx)
        end
      else ret tt
  end.
(** [_first_topk_deal] *)
Definition first_topk_deal : M ST unit := each_request first_topk_one.

(** ** The tables with prefetch *)

Definition add_flag (id : string) (index block : Z) : M ST unit :=
  modify (fun s =>
    let t := e_tables s in
    let fresh := bool_decide (block_table_flag t !! id = None) in
    let old_t := if fresh then [] else default [] (block_table_flag t !! id) in
    let old_m := if fresh then [] else default [] (block_map_flag t !! id) in
    set_tables {| block_map_flag := <[id := old_m ++ [(index, block)]]> (block_map_flag t);
                  block_table_flag := <[id := old_t ++ [block]]> (block_table_flag t); is_gsa_req_id := is_gsa_req_id t |} s).
Definition reset_flags (id : string) : M ST unit :=
  modify (fun s => set_tables {| block_map_flag := <[id := []]> (block_map_flag (e_tables s));
                                 block_table_flag := <[id := []]> (block_table_flag (e_tables s));
                                 is_gsa_req_id := is_gsa_req_id (e_tables s) |} s).

(** A block behind those in use, in every layer. *)
Definition append_block (b block : Z) (t : Tensors) : res Tensors :=
  let? rows := map2_res (fun layer lens =>
    let? n := py_idx lens b in
    if negb (n <? sp_max_len) then Err AssertionError else upd_at b (set_item n block) layer)
    (use_block_table t) (use_block_table_len t) in
  let? lens := upd_cells b (fun n => n + 1) (use_block_table_len t) in
  Ok (with_use_len lens (with_use_table rows t)).
Definition append_used (b block : Z) : M ST unit :=
  let! t := gets e_tensors in
  let! t' := lift_res (append_block b block t) in
  modify (set_tensors t').

(** A whole table: all blocks of the request. *)
Definition use_all_blocks (b seq_len n : Z) (vals : list Z) : M ST unit :=
  do! upd_seq_len (upd_cells b (fun _ => seq_len)) in upd_use_table (set_rows b n vals).

Definition gsa_block_len_one (index b : Z) (id : string) : M ST unit :=
  let! st := req_stat id in
  let bs := e_block_size env in
  let remain_slot := get_seq_len st mod bs in
  if bool_decide (stage st = DECODE) then
    if remain_slot =? 0 then upd_seq_len (upd_cells b (fun n => n * bs))
    else if remain_slot =? 1 then
      do! upd_seq_len (upd_cells b (fun n => n * bs + remain_slot)) in
      let! last_block := lift_res (py_idx (blocks st) (-1)) in
      do! append_used b last_block in
      add_flag id (pylen (blocks st) - 1) last_block
    else upd_seq_len (upd_cells b (fun n => (n - 1) * bs + remain_slot))
  else
    do! reset_flags id in
    use_all_blocks b (get_seq_len st) (pylen (blocks st)) (blocks st).
(** [_gsa_block_len_pre] *)
Definition gsa_block_len_pre : M ST unit :=
  do! modify (fun s => set_tensors (with_seq_len (use_block_table_len (e_tensors s)) (e_tensors s)) s) in
  each_request gsa_block_len_one.

(** ** The tables without prefetch *)

(** The blocks at the selected indices, per layer. *)
Definition select_rows (table : list Z) (buf : tensor2) : res tensor2 := map_res (map_res (py_idx table)) buf.

Definition no_gsa_one (index b : Z) (id : string) : M ST unit :=
  let! st := req_stat id in
  let! run := gets e_run in
  let! table := lift_res (py_idx (block_table_list_bs run) index) in
  let! tb := gets e_tables in
  let! marked := lift_res (of_option KeyError (is_gsa_req_id tb !! id)) in
  let bs := e_block_size env in
  match (if marked : bool then topk_buf_tmp st else None) with
  | Some buf =>
      if pylen table - 1 <? foldr Z.max 0 (concat buf) then
        do! upd_seq_len (upd_cells b (fun _ => get_seq_len st)) in
        do! upd_use_table (map_res (upd_at b (fun row => Ok (py_repeat 0 (pylen row))))) in
        upd_use_table (set_rows b (pylen (blocks st)) table)
      else
        let! first := lift_res (py_idx buf 0) in
        let n := pylen first in
        let remain_slot := get_seq_len st mod bs in
        let! rows := lift_res (select_rows table buf) in
        do! upd_use_table (set_layer_rows b n rows) in
        upd_seq_len (upd_cells b (fun _ => if remain_slot =? 0 then n * bs else n * bs - bs + remain_slot))
  | None => use_all_blocks b (get_seq_len st) (pylen (blocks st)) table
  end.
(** [_no_gsa_input_deal] *)
Definition no_gsa_input_deal : M ST unit := each_request no_gsa_one.

(** ** A step *)

Definition select_layers {A} (idx : list Z) (t : list (list A)) : res (list (list A)) :=
  map_res (fun layer => map_res (py_idx layer) idx) t.

(** [model_input_deal]; [None] when the model gets no sparse input. *)
Definition model_input_deal (ptopk : bool) (req_ids : list string) (tables : list (list Z)) (maps : list Z) (is_topk_done : bool)
    : M ST (option GsaInput) :=
  do! modify (fun s => set_run {| step_time := step_time (e_run s) + 1; select_bs_index := maps; block_table_list_bs := tables;
        req_ids_bs := req_ids; atb_gsa_enable := atb_gsa_enable (e_run s);
        ptopk_prefetch_enable := ptopk_prefetch_enable (e_run s); is_topk_cal := is_topk_cal (e_run s) |} s) in
  do! get_run_type ptopk in
  do! set_req_stat in
  let! run := gets e_run in
  if negb (atb_gsa_enable run) then ret None
  else
    let! max_len := get_max_block_len in
    let! n := lift_res (compute_topk_len (e_config env) max_len) in
    let topk_len := n + num_prefetch_blocks (e_config env) in
    let! k := gets e_topk in
    let! buf := lift_res (select_layers maps (use_topk_caches k)) in
    let buf := (fun layer : tensor2 => (fun row : list Z => slice_to row topk_len) <$> layer) <$> buf in
    let cal := is_topk_done && (topk_space k mod 3 =? 0) in
    do! modify (fun s => set_run {| step_time := step_time (e_run s); select_bs_index := maps; block_table_list_bs := tables;
          req_ids_bs := req_ids; atb_gsa_enable := atb_gsa_enable (e_run s);
          ptopk_prefetch_enable := ptopk_prefetch_enable (e_run s); is_topk_cal := cal |} s) in
    do! (if cal then
           do! topk_tmp_deal buf in
           modify (fun s => set_topk {| use_topk_caches := use_topk_caches (e_topk s); topk_space := topk_space (e_topk s);
             e_topk_buf_tmp := e_topk_buf_tmp (e_topk s); topk_bs := topk_bs (e_topk s); is_topk_update := true |} s)
         else ret tt) in
    do! topk_insert_last_idx in
    do! (if ptopk_prefetch_enable run then do! first_topk_deal in gsa_block_len_pre else no_gsa_input_deal) in
    let! t := gets e_tensors in
    let! bt := lift_res (select_layers maps (use_block_table t)) in
    let! sl := lift_res (select_layers maps (gsa_seq_len t)) in
    ret (Some {| in_topk_caches := buf; in_is_topk := cal; in_block_tables := bt; in_seq_len := sl |}).

(** ** The asynchronous prefetch *)

Definition clear_map_flag (id : string) : M ST unit :=
  modify (fun s => set_tables {| block_map_flag := <[id := []]> (block_map_flag (e_tables s));
                                 block_table_flag := block_table_flag (e_tables s); is_gsa_req_id := is_gsa_req_id (e_tables s) |} s).
Definition clear_table_flag (id : string) : M ST unit :=
  modify (fun s => set_tables {| block_map_flag := block_map_flag (e_tables s);
                                 block_table_flag := <[id := []]> (block_table_flag (e_tables s));
                                 is_gsa_req_id := is_gsa_req_id (e_tables s) |} s).

(** The blocks made since the last swap follow the prefetched ones. *)
Definition swap_one (x : Z * Z) : M ST unit :=
  let '(index, b) := x in
  let! run := gets e_run in
  let! id := lift_res (py_idx (req_ids_bs run) index) in
  let! t := gets e_tables in
  do! match block_map_flag t !! id with
      | Some l => do! for_ l (fun e => call_engine (AddBlocksMap id e.1 e.2)) in clear_map_flag id
      | None => ret tt
      end in
  do! match block_table_flag t !! id with
      | Some l => do! for_ l (append_used b) in clear_table_flag id
      | None => ret tt
      end in
  let! st := req_stat id in
  match topk_buf_tmp st with
  | None => ret tt
  | Some buf =>
      let! first := lift_res (py_idx buf 0) in
      let! ts := gets e_tensors in
      let! x := lift_res (set_layer_rows index (pylen first) buf (prefetch_topk_buf ts)) in
      modify (fun s => set_tensors (with_prefetch_topk x (e_tensors s)) s)
  end.
(** [_swap_block_table_tensor] *)
Definition swap_block_table_tensor (bs_index_list : list Z) : M ST unit := for_ (enumerate bs_index_list) swap_one.

(** The two pairs of tensors change places. *)
Definition swap_tables (t : Tensors) : Tensors :=
  {| prefetch_blocks := prefetch_blocks t; m_load_success_list := use_block_table t; use_block_table := m_load_success_list t;
     prefetch_block_len := prefetch_block_len t; gsa_seq_len := gsa_seq_len t; block_table_len := use_block_table_len t;
     use_block_table_len := block_table_len t; prefetch_topk_buf := prefetch_topk_buf t |}.

Definition topk_len_of (id : string) : M ST Z :=
  let! t := gets e_tables in
  let! marked := lift_res (of_option KeyError (is_gsa_req_id t !! id)) in
  if marked : bool then
    let! st := req_stat id in
    match topk_buf_tmp st with
    | Some buf => let! first := lift_res (py_idx buf 0) in ret (pylen first)
    | None => ret 0
    end
  else ret 0.

(** [deal_async_prefetch]: whether the C++ engine was started. *)
Definition deal_async_prefetch (is_prefetch_done : bool) : M ST bool :=
  do! modify (fun s => set_topk {| use_topk_caches := use_topk_caches (e_topk s); topk_space := topk_space (e_topk s) + 1;
        e_topk_buf_tmp := e_topk_buf_tmp (e_topk s); topk_bs := topk_bs (e_topk s); is_topk_update := is_topk_update (e_topk s) |} s) in
  let! run := gets e_run in
  if negb (atb_gsa_enable run) then ret false
  else
    let! k := gets e_topk in
    if is_prefetch_done && ptopk_prefetch_enable run && is_topk_update k then
      do! modify (fun s => set_tensors (swap_tables (e_tensors s)) s) in
      do! swap_block_table_tensor (select_bs_index run) in
      let! t := gets e_tensors in
      do! call_engine (SetBlocksTableInfo (m_load_success_list t) (block_table_len t)
                         ((fun layer => slice_to layer (pylen (select_bs_index run))) <$> prefetch_topk_buf t) (step_time run)) in
      let! lens := map_m topk_len_of (req_ids_bs run) in
      do! call_engine (RunAsyncPrefetch (req_ids_bs run) lens (select_bs_index run)) in
      do! modify (fun s => set_topk {| use_topk_caches := use_topk_caches (e_topk s); topk_space := topk_space (e_topk s);
            e_topk_buf_tmp := e_topk_buf_tmp (e_topk s); topk_bs := topk_bs (e_topk s); is_topk_update := false |} s) in
      ret true
    else ret false.

(** [GSA.execute_begin]: the arrays of the batch, by the index of each request. *)
Fixpoint batch_arrays (stats : list (string * STAT)) (slots_of : list (string * Z)) (ids : list string)
    (acc : list string * list (list Z) * list Z) : res (list string * list (list Z) * list Z) :=
  match ids with
  | [] => Ok acc
  | id :: ids' =>
      let? st := of_option KeyError (od_get id stats) in
      let i := index_in_batch (progress st) in
      let? slot := of_option KeyError (od_get id slots_of) in
      let? a := of_option IndexError (py_setitem acc.1.1 i id) in
      let? b := of_option IndexError (py_setitem acc.1.2 i (blocks st)) in
      let? c := of_option IndexError (py_setitem acc.2 i slot) in
      batch_arrays stats slots_of ids' (a, b, c)
  end.
Definition execute_begin (ptopk : bool) (slots_of : list (string * Z)) (scheduled : list string) (is_topk_done : bool)
    : M ST (option GsaInput) :=
  let n := pylen scheduled in
  let! stats := gets e_stats in
  let! ' (ids, tables, maps) :=
    lift_res (batch_arrays stats slots_of scheduled (py_repeat ""%string n, py_repeat [] n, py_repeat 0 n)) in
  model_input_deal ptopk ids tables maps is_topk_done.
End engine.

(** ** Tensors of the right shape *)

Definition layer_shape (B n : Z) (layer : tensor2) : Prop :=
  pylen layer = B /\ Forall (fun row => pylen row = n) layer.
Definition shaped3 (L B n : Z) (t : tensor3) : Prop := pylen t = L /\ Forall (layer_shape B n) t.
Definition shaped2 (L B : Z) (t : tensor2) : Prop := pylen t = L /\ Forall (fun row => pylen row = B) t.

(** The entry [(l, b)] of a tensor. *)
Definition at2 {A} (t : list (list A)) (l : nat) (b : Z) : option A := layer ← t !! l; layer !! Z.to_nat b.

Lemma upd_at_ok {A} (f : A -> res A) (l : list A) b x y : 0 <= b -> l !! Z.to_nat b = Some x -> f x = Ok y ->
  upd_at b f l = Ok (<[Z.to_nat b := y]> l).
Proof.
  intros Hb Hx Hf. unfold upd_at, py_idx. rewrite py_nth_nonneg, Hx by done. simpl. rewrite Hf.
  unfold py_setitem. rewrite (proj2 (Z.ltb_ge b 0)) by done. apply lookup_lt_Some in Hx.
  rewrite (proj2 (Z.ltb_ge b 0)), (proj2 (Z.leb_gt (pylen l) b)) by (unfold pylen; lia). done.
Qed.

Lemma set_slice_ok vals row : pylen vals <= pylen row -> set_slice (pylen vals) vals row = Ok (vals ++ drop (length vals) row).
Proof. intros Hl. unfold set_slice. rewrite Z.min_l by done. by rewrite Z.eqb_refl. Qed.

Lemma at2_fmap {A B} (f : list A -> list B) t l b : at2 (f <$> t) l b = (t !! l ≫= fun layer => f layer !! Z.to_nat b).
Proof. unfold at2. rewrite list_lookup_fmap. by destruct (t !! l). Qed.

Lemma at2_is_Some {A} (t : list (list A)) L B l b : pylen t = L -> Forall (fun row => pylen row = B) t -> Z.of_nat l < L -> 0 <= b < B ->
  exists x, at2 t l b = Some x.
Proof.
  intros Hl HF Hll Hb. unfold at2, pylen in *. destruct (lookup_lt_is_Some_2 t l) as [layer Hlay]; [lia|].
  rewrite Forall_lookup in HF. pose proof (HF _ _ Hlay) as Hlen. rewrite Hlay. simpl.
  apply lookup_lt_is_Some. lia.
Qed.

(** Changing the cell [b] of every layer. *)
Definition put_cells {A} (b : Z) (g : A -> A) (t : list (list A)) : list (list A) :=
  (fun layer => match layer !! Z.to_nat b with Some x => <[Z.to_nat b := g x]> layer | None => layer end) <$> t.

Lemma upd_layers_ok {A} b (f : A -> res A) (g : A -> A) t B : Forall (fun row => pylen row = B) t -> 0 <= b < B ->
  (forall layer x, layer ∈ t -> layer !! Z.to_nat b = Some x -> f x = Ok (g x)) ->
  map_res (upd_at b f) t = Ok (put_cells b g t).
Proof.
  intros Ht Hb Hf. unfold put_cells. apply map_res_ok. intros layer Hin.
  rewrite Forall_forall in Ht. pose proof (Ht _ Hin) as Hlen. unfold pylen in Hlen.
  destruct (lookup_lt_is_Some_2 layer (Z.to_nat b)) as [x Hx]; [lia|].
  rewrite (upd_at_ok _ _ _ x (g x)); [|lia|done|by apply (Hf layer)]. by rewrite Hx.
Qed.

Lemma at2_put_cells {A} b (g : A -> A) t l b' : 0 <= b -> 0 <= b' ->
  at2 (put_cells b g t) l b' = if decide (b' = b) then g <$> at2 t l b' else at2 t l b'.
Proof.
  intros Hb Hb'. unfold at2, put_cells. rewrite list_lookup_fmap. destruct (t !! l) as [layer|]; simpl; [|by case_decide].
  case_decide as Hd.
  - subst b'. destruct (layer !! Z.to_nat b) as [x|] eqn:Hx; simpl; [|by rewrite Hx].
    rewrite list_lookup_insert_eq; [done|]. by apply lookup_lt_Some in Hx.
  - destruct (layer !! Z.to_nat b) as [x|]; [|done]. apply list_lookup_insert_ne. lia.
Qed.

Lemma put_cells_shape {A} b (g : A -> A) t (P : A -> Prop) L B : pylen t = L ->
  Forall (fun layer => pylen layer = B /\ Forall P layer) t -> (forall x, P x -> P (g x)) ->
  pylen (put_cells b g t) = L /\ Forall (fun layer => pylen layer = B /\ Forall P layer) (put_cells b g t).
Proof.
  intros HL HF Hg. unfold put_cells. split; [by rewrite pylen_fmap|]. apply Forall_fmap.
  eapply Forall_impl; [exact HF|]. intros layer [Hl Hp]. simpl.
  destruct (layer !! Z.to_nat b) as [x|] eqn:Hx; [|done]. split; [unfold pylen in *; by rewrite length_insert|].
  apply Forall_insert; [done|]. apply Hg. rewrite Forall_lookup in Hp. by eapply Hp.
Qed.

(** A row per layer. *)
Lemma set_layer_rows_ok b n t rows L B sp : shaped3 L B sp t -> pylen rows = L -> 0 <= b < B -> 0 <= n <= sp ->
  Forall (fun row => pylen row = n) rows ->
  exists t', set_layer_rows b n rows t = Ok t' /\ shaped3 L B sp t' /\
    (forall l b', 0 <= b' -> b' <> b -> at2 t' l b' = at2 t l b') /\
    (forall l v, rows !! l = Some v -> exists row, at2 t' l b = Some row /\ take (length v) row = v).
Proof.
  intros [HL HF] Hrows Hb Hn HR. unfold set_layer_rows. revert rows L HL Hrows HR.
  induction HF as [|layer t Hlayer HF IH]; intros rows L HL Hrows HR.
  - assert (rows = []) as -> by (apply pylen_zero; rewrite pylen_nil in HL; lia).
    exists []. split; [done|]. split; [by split|]. split; [done|]. intros l v Hv. by rewrite lookup_nil in Hv.
  - destruct rows as [|v rows]; [rewrite pylen_cons in HL; rewrite pylen_nil in Hrows; pose proof (pylen_nonneg t); lia|].
    apply Forall_cons in HR as [Hv HR]. rewrite pylen_cons in HL. rewrite pylen_cons in Hrows.
    destruct (IH rows (L - 1)) as (t' & Ht' & [HL' HF'] & Hfr & Hat); [lia|lia|done|].
    destruct Hlayer as [Hlen Hsp].
    destruct (lookup_lt_is_Some_2 layer (Z.to_nat b)) as [row Hrow]; [unfold pylen in *; lia|].
    assert (Hrsp : pylen row = sp) by (rewrite Forall_lookup in Hsp; by eapply Hsp).
    exists (<[Z.to_nat b := v ++ drop (length v) row]> layer :: t'). simpl.
    rewrite (upd_at_ok _ _ _ row (v ++ drop (length v) row)), Ht'; [|lia|done|rewrite <- Hv; apply set_slice_ok; lia].
    split; [done|]. split; [split|split].
    + rewrite pylen_cons. lia.
    + constructor; [|done]. split; [unfold pylen in *; by rewrite length_insert|]. apply Forall_insert; [done|].
      unfold pylen in *. rewrite length_app, length_drop. lia.
    + intros [|l] b' Hb' Hne; [|by apply Hfr]. unfold at2. simpl. apply list_lookup_insert_ne. lia.
    + intros [|l] v' Hl; [|by apply Hat]. injection Hl as <-. unfold at2. simpl.
      rewrite list_lookup_insert_eq by (by apply lookup_lt_Some in Hrow). eexists. split; [done|].
      by rewrite take_app_length.
Qed.

Lemma set_rows_ok b vals t L B sp : shaped3 L B sp t -> 0 <= b < B -> pylen vals <= sp ->
  let t' := put_cells b (fun row => vals ++ drop (length vals) row) t in
  set_rows b (pylen vals) vals t = Ok t' /\ shaped3 L B sp t' /\
  forall l, Z.of_nat l < L -> exists row, at2 t' l b = Some row /\ take (length vals) row = vals.
Proof.
  intros [HL HF] Hb Hv t'.
  assert (HB : Forall (fun layer : tensor2 => pylen layer = B) t) by (eapply Forall_impl; [exact HF|]; by intros ? []).
  assert (Hrow : forall layer row, layer ∈ t -> layer !! Z.to_nat b = Some row -> pylen row = sp).
  { intros layer row Hin Hr. rewrite Forall_forall in HF. destruct (HF _ Hin) as [_ Hp]. rewrite Forall_lookup in Hp. by eapply Hp. }
  split; [|split].
  - apply (upd_layers_ok b _ _ t B HB Hb). intros layer row Hin Hr. apply set_slice_ok. by rewrite (Hrow _ _ Hin Hr).
  - apply (put_cells_shape b _ t (fun row => pylen row = sp) L B HL HF). intros row Hr. unfold pylen in *.
    rewrite length_app, length_drop. lia.
  - intros l Hl. destruct (at2_is_Some t L B l b HL HB Hl Hb) as [row Hr]. unfold t'. rewrite at2_put_cells by lia.
    rewrite decide_True, Hr by done. eexists. split; [done|]. by rewrite take_app_length.
Qed.

(** ** The tables without prefetch are right *)

Section no_prefetch.
Context {H : Type} (env : GSAEnv H) (L B sp : Z).
Context (HL : 0 < L) (Hbs : 0 < e_block_size env).
Abbreviation ST := (Engine H).
Abbreviation STAT := (GSAReqStat H).
Implicit Types (st : STAT) (s : ST) (t : Tensors) (sels : tensor2).

Definition last_idx st : Z := pylen (blocks st) - 1.
Definition with_last st sels : tensor2 := (fun sel => sel ++ [last_idx st]) <$> sels.

(** The selection the tables are made from: the last block is put at the end of
    every layer, unless some layer has selected it. *)
Definition chosen st sels : tensor2 := if existsb (mem (last_idx st)) sels then sels else with_last st sels.

(** A selection that names a block the request does not have yet is not used. *)
Definition out_of_range st sels : bool := existsb (existsb (fun x => last_idx st <? x)) sels.
Definition sparse_choice st (marked : bool) : option tensor2 :=
  match (if marked then topk_buf_tmp st else None) with
  | Some sels => if out_of_range st sels then None else Some (chosen st sels)
  | None => None
  end.

(** As many blocks are selected in every layer, and the tables have room. *)
Record sels_ok sels (k : Z) : Prop := {
  so_layers : pylen sels = L;
  so_rows : Forall (fun sel => pylen sel = k) sels;
  so_index : Forall (Forall (fun x => 0 <= x)) sels;
  so_room : k + 1 <= sp;
}.
Definition request_ok st (marked : bool) : Prop :=
  blocks st <> [] /\ pylen (blocks st) <= sp /\
  forall sels, marked = true -> topk_buf_tmp st = Some sels -> exists k, sels_ok sels k.

Definition picked (table sel : list Z) : list Z := (fun i => default 0 (table !! Z.to_nat i)) <$> sel.

(** What the attention of the request in row [b] sees: the blocks of its
    selection, of which the final one is filled like the request's last block and
    the others are full; or all of its blocks. *)
Definition attends st (marked : bool) t (b : Z) : Prop :=
  match sparse_choice st marked with
  | Some sels => forall l sel, sels !! l = Some sel -> exists row, at2 (use_block_table t) l b = Some row /\
      take (length sel) row = picked (blocks st) sel /\
      at2 (gsa_seq_len t) l b = Some ((pylen sel - 1) * e_block_size env + ((get_seq_len st - 1) mod e_block_size env + 1))
  | None => forall l, Z.of_nat l < L -> exists row, at2 (use_block_table t) l b = Some row /\
      take (length (blocks st)) row = blocks st /\ at2 (gsa_seq_len t) l b = Some (get_seq_len st)
  end.

Definition shapes t : Prop := shaped3 L B sp (use_block_table t) /\ shaped2 L B (gsa_seq_len t).
Definition same_row t t' (b : Z) : Prop := forall l, at2 (use_block_table t') l b = at2 (use_block_table t) l b /\
  at2 (gsa_seq_len t') l b = at2 (gsa_seq_len t) l b.

Lemma attends_same_row st marked t t' b : same_row t t' b -> attends st marked t b -> attends st marked t' b.
Proof.
  intros Hs. unfold attends. destruct (sparse_choice st marked) as [sels|].
  - intros Ha l sel Hl. destruct (Ha l sel Hl) as (row & Hr & Ht & Hq). destruct (Hs l) as [-> ->]. by exists row.
  - intros Ha l Hl. destruct (Ha l Hl) as (row & Hr & Ht & Hq). destruct (Hs l) as [-> ->]. by exists row.
Qed.

(** The state after [insert_last_idx]. *)
Definition padded st : STAT :=
  match topk_buf_tmp st with
  | None => st
  | Some buf => if existsb (mem (last_idx st)) buf then st else GsaStat.with_topk_buf (Some (with_last st buf)) st
  end.

Lemma padded_same st : blocks (padded st) = blocks st /\ get_seq_len (padded st) = get_seq_len st.
Proof. unfold padded. destruct (topk_buf_tmp st) as [buf|]; [|done]. by destruct (existsb _ buf). Qed.

Lemma topk_padded st : topk_buf_tmp (padded st) = chosen st <$> topk_buf_tmp st.
Proof.
  unfold padded, chosen. destruct (topk_buf_tmp st) as [buf|] eqn:Hb; simpl; [|done].
  by destruct (existsb _ buf); simpl; rewrite ?Hb.
Qed.

Lemma last_tokens n bs k : 0 < bs -> (if n mod bs =? 0 then k * bs else k * bs - bs + n mod bs) = (k - 1) * bs + ((n - 1) mod bs + 1).
Proof.
  intros Hb. pose proof (Z.mod_pos_bound n bs Hb) as Hm. pose proof (Z.div_mod n bs ltac:(lia)) as Hd.
  revert Hm Hd. generalize (n mod bs) as m, (n / bs) as q. intros m q Hm ->.
  destruct (Z.eqb_spec m 0) as [->|Hz].
  - replace (bs * q + 0 - 1) with ((bs - 1) + (q - 1) * bs) by lia. rewrite Z.mod_add, Z.mod_small by lia. lia.
  - replace (bs * q + m - 1) with ((m - 1) + q * bs) by lia. rewrite Z.mod_add, Z.mod_small by lia. lia.
Qed.

Lemma py_idx_ok (l : list Z) i : 0 <= i < pylen l -> py_idx l i = Ok (default 0 (l !! Z.to_nat i)).
Proof.
  intros Hi. unfold py_idx. rewrite py_nth_nonneg by lia. unfold pylen in Hi.
  destruct (lookup_lt_is_Some_2 l (Z.to_nat i)) as [x ->]; [lia|done].
Qed.

Lemma last_idx_nonneg st : blocks st <> [] -> 0 <= last_idx st.
Proof. unfold last_idx, pylen. destruct (blocks st); [done|]. simpl. lia. Qed.

(** The rows the tables are made from are as long as each other, and not empty. *)
Lemma chosen_rows st sels k : sels_ok sels k ->
  pylen (chosen st sels) = L /\ exists n, 1 <= n <= sp /\ Forall (fun row => pylen row = n) (chosen st sels).
Proof.
  intros [Hl Hr _ Hroom]. unfold chosen. destruct (existsb _ sels) eqn:E.
  - split; [done|]. exists k. split; [|done]. apply existsb_exists in E as (sel & Hin & Hmem). apply mem_spec in Hmem.
    apply list_elem_of_In in Hin. rewrite Forall_forall in Hr. specialize (Hr _ Hin).
    destruct sel as [|x sel]; [by apply elem_of_nil in Hmem|]. rewrite pylen_cons in Hr. pose proof (pylen_nonneg sel). lia.
  - split; [unfold with_last; by rewrite pylen_fmap|]. exists (k + 1). split.
    + destruct sels as [|sel sels]; [rewrite pylen_nil in Hl; lia|]. apply Forall_cons in Hr as [Hr _].
      pose proof (pylen_nonneg sel). lia.
    + apply Forall_fmap. eapply Forall_impl; [exact Hr|]. intros sel Hs. simpl in *. rewrite pylen_app, pylen_cons, pylen_nil. lia.
Qed.

Lemma foldr_max_ltb v l : 0 <= v -> (v <? foldr Z.max 0 l) = existsb (fun x => v <? x) l.
Proof.
  intros Hv. induction l as [|x l IH]; simpl; [apply Z.ltb_ge; lia|]. rewrite <- IH.
  destruct (Z.ltb_spec v x), (Z.ltb_spec v (foldr Z.max 0 l)); simpl; [apply Z.ltb_lt; lia..|apply Z.ltb_ge; lia].
Qed.

(** The test on the largest index is a test on the selection itself. *)
Lemma max_chosen st sels : blocks st <> [] ->
  (pylen (blocks st) - 1 <? foldr Z.max 0 (concat (chosen st sels))) = out_of_range st sels.
Proof.
  intros Hne%last_idx_nonneg. fold (last_idx st). rewrite foldr_max_ltb by done. unfold out_of_range, chosen.
  destruct (existsb (mem (last_idx st)) sels).
  - induction sels as [|sel sels IH]; simpl; [done|]. by rewrite existsb_app, IH.
  - unfold with_last. induction sels as [|sel sels IH]; [done|]. csimpl. rewrite !existsb_app, IH. simpl.
    rewrite Z.ltb_irrefl. by rewrite !orb_false_r.
Qed.

Lemma chosen_index st sels k : blocks st <> [] -> sels_ok sels k -> out_of_range st sels = false ->
  Forall (Forall (fun x => 0 <= x < pylen (blocks st))) (chosen st sels).
Proof.
  intros Hne%last_idx_nonneg [_ _ Hidx _] Hout. assert (H0 : Forall (Forall (fun x => 0 <= x < pylen (blocks st))) sels).
  { rewrite Forall_forall in *. intros sel Hin. specialize (Hidx sel Hin). rewrite Forall_forall in *. intros x Hx.
    specialize (Hidx x Hx). split; [done|]. apply not_true_iff_false in Hout. unfold last_idx in *.
    destruct (Z.lt_ge_cases x (pylen (blocks st))) as [|Hge]; [done|]. exfalso. apply Hout, existsb_exists.
    exists sel. split; [by apply list_elem_of_In|]. apply existsb_exists. exists x. split; [by apply list_elem_of_In|].
    apply Z.ltb_lt. unfold last_idx. lia. }
  unfold chosen. destruct (existsb _ sels); [done|]. apply Forall_fmap. eapply Forall_impl; [exact H0|]. intros sel Hs. simpl.
  apply Forall_app. split; [done|]. repeat constructor; unfold last_idx in *; lia.
Qed.

Lemma select_rows_of table (sels : tensor2) : Forall (Forall (fun x => 0 <= x < pylen table)) sels ->
  select_rows table sels = Ok (picked table <$> sels).
Proof.
  intros Hidx. unfold select_rows. apply map_res_ok. intros row Hin. rewrite Forall_forall in Hidx.
  specialize (Hidx _ Hin). rewrite Forall_forall in Hidx. apply (map_res_ok _ (fun i => default 0 (table !! Z.to_nat i))).
  intros x Hx. by apply py_idx_ok, Hidx.
Qed.

(** Everything but the two tensors the tables live in. *)
Definition rest_same s s' : Prop :=
  e_stats s' = e_stats s /\ e_tables s' = e_tables s /\ e_run s' = e_run s.

Lemma set_cells_ok b (f : Z -> Z) (t : tensor2) : shaped2 L B t -> 0 <= b < B ->
  upd_cells b f t = Ok (put_cells b f t) /\ shaped2 L B (put_cells b f t).
Proof.
  intros [Hl HF] Hb. split; [by apply (upd_layers_ok b _ f t B HF Hb)|].
  destruct (put_cells_shape b f t (fun _ => True) L B Hl) as [Hl' HF']; [|done|].
  - eapply Forall_impl; [exact HF|]. intros row Hr. split; [done|]. by apply Forall_true.
  - split; [done|]. eapply Forall_impl; [exact HF'|]. by intros row [? _].
Qed.

(** Both tensors written at row [b]. *)
Lemma write_tables b seq rows s (t' : tensor3) : shapes (e_tensors s) -> 0 <= b < B ->
  rows (use_block_table (e_tensors s)) = Ok t' -> shaped3 L B sp t' ->
  (forall l b', 0 <= b' -> b' <> b -> at2 t' l b' = at2 (use_block_table (e_tensors s)) l b') ->
  exists s', (do! upd_use_table rows in upd_seq_len (upd_cells b (fun _ => seq))) s = (Ok tt, s') /\
    (do! upd_seq_len (upd_cells b (fun _ => seq)) in upd_use_table rows) s = (Ok tt, s') /\
    rest_same s s' /\ shapes (e_tensors s') /\ use_block_table (e_tensors s') = t' /\
    (forall l, Z.of_nat l < L -> at2 (gsa_seq_len (e_tensors s')) l b = Some seq) /\
    (forall b', 0 <= b' -> b' <> b -> same_row (e_tensors s) (e_tensors s') b').
Proof.
  intros [H3 H2] Hb Hrows Ht' Hfr. destruct (set_cells_ok b (fun _ => seq) _ H2 Hb) as [Hc Hsh].
  eexists. split; [|split; [|split; [|split; [|split; [|split]]]]].
  - unfold upd_use_table, upd_seq_len. m_unfold. rewrite Hrows. simpl. rewrite Hc. reflexivity.
  - unfold upd_use_table, upd_seq_len. m_unfold. rewrite Hc. simpl. rewrite Hrows. reflexivity.
  - done.
  - split; [exact Ht'|exact Hsh].
  - done.
  - intros l Hl. simpl. rewrite at2_put_cells by lia. rewrite decide_True by done.
    destruct H2 as [HL2 HF2]. by destruct (at2_is_Some _ _ _ l b HL2 HF2 Hl Hb) as [x ->].
  - intros b' Hb' Hne l. simpl. split; [by apply Hfr|]. rewrite at2_put_cells by lia. by rewrite decide_False.
Qed.

(** A whole table, after the row was cleared. *)
Lemma clear_rows_ok b vals (t : tensor3) : shaped3 L B sp t -> 0 <= b < B -> pylen vals <= sp ->
  exists t' : tensor3, (let? t1 := map_res (upd_at b (fun row => Ok (py_repeat 0 (pylen row)))) t in set_rows b (pylen vals) vals t1) = Ok t' /\
    shaped3 L B sp t' /\ (forall l b', 0 <= b' -> b' <> b -> at2 t' l b' = at2 t l b') /\
    (forall l, Z.of_nat l < L -> exists row, at2 t' l b = Some row /\ take (length vals) row = vals).
Proof.
  intros [Hl HF] Hb Hv. set (g := fun row : list Z => py_repeat 0 (pylen row)).
  assert (HB : Forall (fun layer : tensor2 => pylen layer = B) t) by (eapply Forall_impl; [exact HF|]; by intros ? []).
  rewrite (upd_layers_ok b _ g t B HB Hb) by done. simpl.
  assert (Hs : shaped3 L B sp (put_cells b g t)).
  { apply (put_cells_shape b g t (fun row => pylen row = sp) L B Hl HF). intros row Hr. unfold g, py_repeat, pylen in *.
    rewrite length_replicate. lia. }
  destruct (set_rows_ok b vals (put_cells b g t) L B sp Hs Hb Hv) as (Hset & Hs' & Hat). eexists. split; [exact Hset|].
  split; [exact Hs'|]. split; [|exact Hat]. intros l b' Hb' Hne. rewrite !at2_put_cells by lia. by rewrite !decide_False.
Qed.

(** One request: what its row holds, and the other rows. *)
Definition row_written st marked b s s' : Prop :=
  rest_same s s' /\ shapes (e_tensors s') /\ attends st marked (e_tensors s') b /\
  (forall b', 0 <= b' -> b' <> b -> same_row (e_tensors s) (e_tensors s') b').

Lemma selected_row st marked b s (t : tensor2) n : sparse_choice st marked = Some t -> shapes (e_tensors s) -> 0 <= b < B ->
  pylen t = L -> 1 <= n <= sp -> Forall (fun row => pylen row = n) t ->
  exists s', (do! upd_use_table (set_layer_rows b n (picked (blocks st) <$> t)) in
    upd_seq_len (upd_cells b (fun _ => if get_seq_len st mod e_block_size env =? 0 then n * e_block_size env
      else n * e_block_size env - e_block_size env + get_seq_len st mod e_block_size env))) s = (Ok tt, s') /\ row_written st marked b s s'.
Proof.
  intros Hc Hsh Hb Hl Hn Hrows. destruct (set_layer_rows_ok b n (use_block_table (e_tensors s)) (picked (blocks st) <$> t) L B sp)
    as (t' & Ht' & Hs3 & Hfr & Hat); [apply Hsh|by rewrite pylen_fmap|done|lia| |].
  { apply Forall_fmap. eapply Forall_impl; [exact Hrows|]. intros row Hr. simpl. unfold picked. by rewrite pylen_fmap. }
  set (seq := if _ =? 0 then _ else _).
  destruct (write_tables b seq (set_layer_rows b n (picked (blocks st) <$> t)) s t' Hsh Hb Ht' Hs3 Hfr)
    as (s' & Hrun & _ & Hrest & Hsh' & Eu & Hseq & Hother).
  exists s'. split; [exact Hrun|]. split; [done|]. split; [done|]. split; [|done].
  unfold attends. rewrite Hc, Eu. intros l sel Hs. destruct (Hat l (picked (blocks st) sel)) as (row & Hr & Htk).
  { by rewrite list_lookup_fmap, Hs. }
  exists row. split; [done|]. split; [unfold picked in Htk at 1; by rewrite length_fmap in Htk|].
  rewrite Hseq. 2: { apply lookup_lt_Some in Hs. unfold pylen in Hl. lia. }
  rewrite Forall_lookup in Hrows. rewrite (Hrows _ _ Hs). unfold seq. f_equal. by apply last_tokens.
Qed.

Lemma whole_row st marked b s (rows : tensor3 -> res tensor3) (t' : tensor3) :
  sparse_choice st marked = None -> shapes (e_tensors s) -> 0 <= b < B -> rows (use_block_table (e_tensors s)) = Ok t' ->
  shaped3 L B sp t' -> (forall l b', 0 <= b' -> b' <> b -> at2 t' l b' = at2 (use_block_table (e_tensors s)) l b') ->
  (forall l, Z.of_nat l < L -> exists row, at2 t' l b = Some row /\ take (length (blocks st)) row = blocks st) ->
  exists s', (do! upd_seq_len (upd_cells b (fun _ => get_seq_len st)) in upd_use_table rows) s = (Ok tt, s') /\
    row_written st marked b s s'.
Proof.
  intros Hc Hsh Hb Hrows Hs3 Hfr Hat.
  destruct (write_tables b (get_seq_len st) rows s t' Hsh Hb Hrows Hs3 Hfr) as (s' & _ & Hrun & Hrest & Hsh' & Eu & Hseq & Hother).
  exists s'. split; [exact Hrun|]. split; [done|]. split; [done|]. split; [|done]. unfold attends. rewrite Hc, Eu.
  intros l Hl. destruct (Hat l Hl) as (row & Hr & Htk). exists row. split; [done|]. split; [done|]. by apply Hseq.
Qed.

Lemma no_gsa_one_ok st marked index b id s : request_ok st marked -> shapes (e_tensors s) -> 0 <= b < B ->
  od_get id (e_stats s) = Some (padded st) -> is_gsa_req_id (e_tables s) !! id = Some marked ->
  py_idx (block_table_list_bs (e_run s)) index = Ok (blocks st) ->
  exists s', no_gsa_one env index b id s = (Ok tt, s') /\ row_written st marked b s s'.
Proof.
  intros (Hne & Hroom & Hok) Hsh Hb Hst Hmk Htb. destruct (padded_same st) as [Eb Es].
  unfold no_gsa_one, req_stat, bind, gets, lift_res at 1 2 3. rewrite Hst. simpl. rewrite Htb. simpl.
  rewrite Hmk. simpl. rewrite topk_padded, Eb, Es.
  destruct (if marked then topk_buf_tmp st else None) as [sels|] eqn:Hsel.
  - destruct marked; [|done]. rewrite Hsel. cbn [fmap option_fmap option_map]. rewrite (max_chosen st sels Hne).
    destruct (Hok sels eq_refl Hsel) as [k Hk]. destruct (out_of_range st sels) eqn:Hout.
    + destruct (clear_rows_ok b (blocks st) _ (proj1 Hsh) Hb Hroom) as (t' & Ht' & Hs3 & Hfr & Hat).
      destruct (whole_row st true b s (fun t : tensor3 => let? t1 := map_res (upd_at b (fun row => Ok (py_repeat 0 (pylen row)))) t in
        set_rows b (pylen (blocks st)) (blocks st) t1) t') as (s' & Hrun & Hw); [|exact Hsh|exact Hb|exact Ht'|exact Hs3|exact Hfr|exact Hat|].
      { unfold sparse_choice. by rewrite Hsel, Hout. }
      exists s'. split; [|done]. rewrite <- Hrun. unfold upd_use_table, upd_seq_len. m_unfold.
      destruct (upd_cells b _ _); simpl; [|done]. revert Ht'. destruct (map_res _ _) as [t1|]; simpl; [|done]. by intros ->.
    + destruct (chosen_rows st sels k Hk) as (Hl & n & Hn & Hrows). pose proof (chosen_index st sels k Hne Hk Hout) as Hidx.
      destruct (selected_row st true b s (chosen st sels) n) as (s' & Hrun & Hw); [|done..|].
      { unfold sparse_choice. by rewrite Hsel, Hout. }
      exists s'. split; [|done]. rewrite <- Hrun. destruct (chosen st sels) as [|sel0 rest] eqn:Ec; [rewrite pylen_nil in Hl; lia|].
      unfold lift_res, py_idx. rewrite py_nth_nonneg by done. simpl.
      rewrite (select_rows_of (blocks st) (sel0 :: rest) Hidx). apply Forall_cons in Hrows as [-> _]. done.
  - replace (if marked then chosen st <$> topk_buf_tmp st else None) with (@None tensor2)
      by (destruct marked; [by rewrite Hsel|done]).
    destruct (set_rows_ok b (blocks st) (use_block_table (e_tensors s)) L B sp) as (Hset & Hs3 & Hat); [apply Hsh|done|done|].
    eapply (whole_row st marked b s); [unfold sparse_choice; by rewrite Hsel|done|done|exact Hset|done| |done].
    intros l b' Hb' Hne'. rewrite at2_put_cells by lia. by rewrite decide_False.
Qed.

(** *** All requests *)

Lemma insert_last_idx_ok id st s : od_get id (e_stats s) = Some st ->
  exists s', insert_last_idx id s = (Ok tt, s') /\ e_tensors s' = e_tensors s /\ e_tables s' = e_tables s /\ e_run s' = e_run s /\
    od_get id (e_stats s') = Some (padded st) /\ (forall id', id' <> id -> od_get id' (e_stats s') = od_get id' (e_stats s)).
Proof.
  intros Hst. unfold insert_last_idx, req_stat. m_unfold. rewrite Hst. simpl. unfold padded.
  destruct (topk_buf_tmp st) as [buf|]; [|by exists s]. fold (last_idx st). destruct (existsb (mem (last_idx st)) buf); [by exists s|].
  eexists. split; [reflexivity|]. simpl. do 3 (split; [done|]). split; [by rewrite od_get_set_eq|].
  intros id' Hne. by rewrite od_get_set_ne.
Qed.

Lemma insert_loop ids s : NoDup ids -> (forall id, id ∈ ids -> exists st, od_get id (e_stats s) = Some st) ->
  exists s', for_ ids insert_last_idx s = (Ok tt, s') /\ e_tensors s' = e_tensors s /\ e_tables s' = e_tables s /\
    e_run s' = e_run s /\ forall id st, id ∈ ids -> od_get id (e_stats s) = Some st -> od_get id (e_stats s') = Some (padded st).
Proof.
  intros Hnd. revert s. induction Hnd as [|id ids Hout Hnd IH]; intros s Hs; [exists s; do 4 (split; [done|]); set_solver|].
  destruct (Hs id ltac:(by left)) as [st Hst].
  destruct (insert_last_idx_ok id st s Hst) as (s1 & Hr1 & E1 & E2 & E3 & Hg & Ho).
  destruct (IH s1) as (s2 & Hr2 & F1 & F2 & F3 & Hg2).
  { intros id' Hin. rewrite Ho by (intros ->; done). apply Hs. by right. }
  assert (Hkeep : forall id' s s', id' ∉ ids -> for_ ids insert_last_idx s = (Ok tt, s') ->
            od_get id' (e_stats s') = od_get id' (e_stats s)).
  { clear. intros id' s0 s1 Hout. revert s0 s1. induction ids as [|x ids IH]; intros s0 s1; simpl; [by intros [= <-]|].
    apply not_elem_of_cons in Hout as [Hne Hout]. intros Hb. apply bind_inv_ok in Hb as ([] & s2 & Hx & Hb).
    rewrite (IH Hout _ _ Hb). unfold insert_last_idx, req_stat in Hx. revert Hx. m_unfold.
    destruct (od_get x (e_stats s0)) as [st|]; [|done]. simpl. destruct (topk_buf_tmp st) as [buf|]; [|by intros [= <-]].
    destruct (existsb _ buf); [by intros [= <-]|]. intros [= <-]. simpl. by apply od_get_set_ne. }
  exists s2. split; [simpl; by rewrite (bind_ok _ _ _ _ _ Hr1)|]. split; [congruence|]. split; [congruence|].
  split; [congruence|]. intros id' st' Hin Hst'. apply elem_of_cons in Hin as [->|Hin].
  - rewrite (Hkeep id s1 s2 Hout Hr2). congruence.
  - apply Hg2; [done|]. rewrite Ho; [done|]. intros ->. done.
Qed.

(** What the step knows of a request of the batch; [old] holds the states the
    requests had before their selections were extended. *)
Record known_request (old : list (string * STAT)) s (x : Z * string) (b : Z) st (marked : bool) : Prop := {
  kr_old : od_get x.2 old = Some st;
  kr_ok : request_ok st marked;
  kr_stat : od_get x.2 (e_stats s) = Some (padded st);
  kr_marked : is_gsa_req_id (e_tables s) !! x.2 = Some marked;
  kr_table : py_idx (block_table_list_bs (e_run s)) x.1 = Ok (blocks st);
  kr_row : py_idx (select_bs_index (e_run s)) x.1 = Ok b;
  kr_range : 0 <= b < B;
}.

Lemma no_gsa_loop old xs s : shapes (e_tensors s) ->
  (forall x, x ∈ xs -> exists b st marked, known_request old s x b st marked) ->
  (forall i j x y b, xs !! i = Some x -> xs !! j = Some y -> py_idx (select_bs_index (e_run s)) x.1 = Ok b ->
     py_idx (select_bs_index (e_run s)) y.1 = Ok b -> i = j) ->
  exists s', for_ xs (fun x => let! b := lift_res (py_idx (select_bs_index (e_run s)) x.1) in no_gsa_one env x.1 b x.2) s = (Ok tt, s') /\
    (forall b', 0 <= b' -> (forall x, x ∈ xs -> py_idx (select_bs_index (e_run s)) x.1 <> Ok b') ->
       same_row (e_tensors s) (e_tensors s') b') /\
    (forall x b st marked, x ∈ xs -> known_request old s x b st marked -> attends st marked (e_tensors s') b).
Proof.
  revert s. induction xs as [|x xs IH]; intros s Hsh Hk Hinj; [exists s; split; [done|]; split; [done|set_solver]|].
  destruct (Hk x ltac:(by left)) as (b & st & marked & Hx). pose proof Hx as [Hold Hm Hg Hmk Htb Hsel Hb].
  destruct (no_gsa_one_ok st marked x.1 b x.2 s Hm Hsh Hb Hg Hmk Htb) as (s1 & Hr1 & (E1 & E2 & E3) & Hsh1 & Ha & Ho).
  assert (Hknown : forall y b' st' mk', known_request old s y b' st' mk' -> known_request old s1 y b' st' mk').
  { intros y b' st' mk' []. by split; rewrite ?E1, ?E2, ?E3. }
  destruct (IH s1 Hsh1) as (s2 & Hr2 & Ho2 & Ha2).
  { intros y Hy. destruct (Hk y ltac:(by right)) as (b' & st' & mk' & Hy'). exists b', st', mk'. by apply Hknown. }
  { rewrite E3. intros i j y z b' Hy Hz Hby Hbz. pose proof (Hinj (S i) (S j) y z b' Hy Hz Hby Hbz). lia. }
  rewrite E3 in Hr2, Ho2. exists s2. split; [|split].
  - cbn [for_]. rewrite (bind_ok _ _ s tt s1); [exact Hr2|]. unfold bind at 1, lift_res. by rewrite Hsel.
  - intros b' Hb' Hnot l. assert (Hne : b' <> b) by (intros ->; by apply (Hnot x); [left|]).
    destruct (Ho b' Hb' Hne l) as [<- <-]. apply Ho2; [done|]. intros y Hy. apply Hnot. by right.
  - intros y b' st' mk' Hy Hky. apply elem_of_cons in Hy as [->|Hy]; [|by apply (Ha2 y b' st' mk' Hy), Hknown].
    destruct Hky as [Hold' _ _ Hmk' _ Hsel' _]. assert (b' = b) as -> by congruence. assert (st' = st) as -> by congruence.
    assert (mk' = marked) as -> by congruence. apply (attends_same_row _ _ (e_tensors s1)); [|done].
    apply Ho2; [lia|]. intros y Hy Hyb. apply list_elem_of_lookup in Hy as [j Hj].
    pose proof (Hinj 0%nat (S j) x y b eq_refl Hj Hsel Hyb). lia.
Qed.

(** The final block of a layer's table. *)
Lemma last_chosen st sels l sel : sels !! l = Some sel ->
  exists sel', chosen st sels !! l = Some sel' /\
    (last sel' = Some (last_idx st) <-> existsb (mem (last_idx st)) sels = false \/ last sel = Some (last_idx st)).
Proof.
  intros Hl. unfold chosen. destruct (existsb _ sels) eqn:E.
  - exists sel. split; [done|]. split; [by right|]. by intros [?|?].
  - exists (sel ++ [last_idx st]). unfold with_last. rewrite list_lookup_fmap, Hl. split; [done|].
    rewrite last_snoc. split; [by left|done].
Qed.

(** All rows, once the selections are extended. *)
Lemma batch_rows s s1 ids sel : shapes (e_tensors s) -> select_bs_index (e_run s) = sel -> NoDup sel ->
  length sel = length ids -> Forall (fun b => 0 <= b < B) sel ->
  (forall i id, ids !! i = Some id -> exists st marked, od_get id (e_stats s) = Some st /\
     is_gsa_req_id (e_tables s) !! id = Some marked /\ request_ok st marked /\
     block_table_list_bs (e_run s) !! i = Some (blocks st)) ->
  e_tensors s1 = e_tensors s -> e_tables s1 = e_tables s -> e_run s1 = e_run s ->
  (forall id st, id ∈ ids -> od_get id (e_stats s) = Some st -> od_get id (e_stats s1) = Some (padded st)) ->
  exists s2, for_ (enumerate ids) (fun x => let! b := lift_res (py_idx (select_bs_index (e_run s1)) x.1) in no_gsa_one env x.1 b x.2) s1
      = (Ok tt, s2) /\
    forall i id b st marked, ids !! i = Some id -> sel !! i = Some b -> od_get id (e_stats s) = Some st ->
      is_gsa_req_id (e_tables s) !! id = Some marked -> attends st marked (e_tensors s2) b.
Proof.
  intros Hsh Hsel Hns Hlen Hrange Hreq E1 E2 E3 Hg.
  assert (Hidx : forall (i : nat) b, sel !! i = Some b -> py_idx (select_bs_index (e_run s1)) (Z.of_nat i) = Ok b).
  { intros i b Hi. unfold py_idx. by rewrite py_nth_nonneg, Nat2Z.id, E3, Hsel, Hi by lia. }
  assert (Hkn : forall i id b, ids !! i = Some id -> sel !! i = Some b ->
            exists st marked, known_request (e_stats s) s1 (Z.of_nat i, id) b st marked).
  { intros i id b Hi Hbi. destruct (Hreq i id Hi) as (st & marked & Hst & Hmk & Hm & Htb). exists st, marked.
    split; simpl; [done|done|apply Hg; [by eapply list_elem_of_lookup_2|done]|by rewrite E2| |by apply Hidx|].
    - unfold py_idx. by rewrite py_nth_nonneg, Nat2Z.id, E3, Htb by lia.
    - rewrite Forall_lookup in Hrange. by apply (Hrange i). }
  assert (Henum : forall x, x ∈ enumerate ids -> exists i id b, x = (Z.of_nat i, id) /\ ids !! i = Some id /\ sel !! i = Some b).
  { intros x (i & Hi)%list_elem_of_lookup. rewrite lookup_enumerate in Hi. destruct (ids !! i) as [id|] eqn:Hid; [|done].
    injection Hi as <-. destruct (lookup_lt_is_Some_2 sel i) as [b Hb]; [apply lookup_lt_Some in Hid; lia|]. by exists i, id, b. }
  destruct (no_gsa_loop (e_stats s) (enumerate ids) s1) as (s2 & Hr2 & _ & Ha).
  - by rewrite E1.
  - intros x Hx. destruct (Henum x Hx) as (i & id & b & -> & Hi & Hb). exists b. by apply Hkn.
  - intros i j x y b. rewrite !lookup_enumerate. destruct (ids !! i) as [id|] eqn:Hi; [|done].
    destruct (ids !! j) as [id'|] eqn:Hj; [|done]. intros [= <-] [= <-]. simpl.
    destruct (lookup_lt_is_Some_2 sel i) as [b1 Hb1]; [apply lookup_lt_Some in Hi; lia|].
    destruct (lookup_lt_is_Some_2 sel j) as [b2 Hb2]; [apply lookup_lt_Some in Hj; lia|].
    rewrite (Hidx i b1 Hb1), (Hidx j b2 Hb2). intros [= ->] [= ->]. by eapply NoDup_lookup.
  - exists s2. split; [exact Hr2|]. intros i id b st marked Hi Hb Hst Hmk. apply (Ha (Z.of_nat i, id) b st marked).
    + apply (list_elem_of_lookup_2 _ i). by rewrite lookup_enumerate, Hi.
    + destruct (Hkn i id b Hi Hb) as (st' & mk' & Hk). pose proof Hk as [Hst' _ _ Hmk' _ _ _]. simpl in *.
      rewrite E2 in Hmk'. assert (st' = st) as -> by congruence. by assert (mk' = marked) as -> by congruence.
Qed.

(** C32. What the attention of a step without prefetch sees, for any selection
    of the requests.  Preparing the tables does not fail.  The row of a sparse
    request then holds, in each layer, the blocks of its selection, and after
    them its last block unless some layer has selected it already; its length
    counts all the tokens of the blocks but the final one, and of the final one
    as many as the last block has.  So the final block is the one counted as
    partly filled exactly when no layer has selected the last block or the layer
    has it at its end; a selection with the last block elsewhere is not put
    right.  A request that is not sparse, or that has selected a block it does
    not have, gets all its blocks and its whole length.  The rows of the requests
    do not disturb each other. *)
Theorem sparse_tables_hold_the_selection s ids sel :
  shapes (e_tensors s) -> req_ids_bs (e_run s) = ids -> select_bs_index (e_run s) = sel ->
  NoDup ids -> NoDup sel -> length sel = length ids -> Forall (fun b => 0 <= b < B) sel ->
  (forall i id, ids !! i = Some id -> exists st marked, od_get id (e_stats s) = Some st /\
     is_gsa_req_id (e_tables s) !! id = Some marked /\ request_ok st marked /\
     block_table_list_bs (e_run s) !! i = Some (blocks st)) ->
  exists s', (do! topk_insert_last_idx in no_gsa_input_deal env) s = (Ok tt, s') /\
    forall i id b st marked, ids !! i = Some id -> sel !! i = Some b -> od_get id (e_stats s) = Some st ->
      is_gsa_req_id (e_tables s) !! id = Some marked ->
      attends st marked (e_tensors s') b /\
      (forall sels l own, marked = true -> topk_buf_tmp st = Some sels -> out_of_range st sels = false -> sels !! l = Some own ->
         exists final row, chosen st sels !! l = Some final /\ at2 (use_block_table (e_tensors s')) l b = Some row /\
           take (length final) row = picked (blocks st) final /\
           (last final = Some (last_idx st) <-> existsb (mem (last_idx st)) sels = false \/ last own = Some (last_idx st))).
Proof.
  intros Hsh Hids Hsel Hnd Hns Hlen Hrange Hreq.
  destruct (insert_loop ids s Hnd) as (s1 & Hr1 & E1 & E2 & E3 & Hg).
  { intros id (i & Hi)%list_elem_of_lookup. destruct (Hreq i id Hi) as (st & _ & Hst & _). by exists st. }
  destruct (batch_rows s s1 ids sel) as (s2 & Hr2 & Ha); try done.
  exists s2. split.
  - unfold topk_insert_last_idx, no_gsa_input_deal, each_request. rewrite (bind_ok _ _ s tt s1).
    + unfold bind at 1, gets. rewrite E3, Hids. rewrite E3 in Hr2. exact Hr2.
    + unfold bind, gets. by rewrite Hids.
  - intros i id b st marked Hi Hb Hst Hmk. pose proof (Ha i id b st marked Hi Hb Hst Hmk) as Hat. split; [exact Hat|].
    intros sels l own -> Hbuf Hout Hown. destruct (last_chosen st sels l own Hown) as (final & Hf & Hlast).
    unfold attends, sparse_choice in Hat. rewrite Hbuf, Hout in Hat. destruct (Hat l final Hf) as (row & Hr & Ht & _).
    by exists final, row.
Qed.
End no_prefetch.

(** ** Concrete steps: one layer, blocks of two tokens *)
Module PrefetchDemo.
Definition env : GSAEnv Z :=
  {| e_config := new_GSAConfig; e_block_size := 2; e_rank := 0; e_use_mla := false; e_parent_block_hash := 0;
     e_hasher := fun h _ => h; e_rank_hasher := fun h => h; e_max_block_len := 6 |}.
(** a request with [n] tokens, one of them new *)
Definition stat (bl : list Z) (n : Z) (buf : option tensor2) : GSAReqStat Z :=
  {| blocks := bl; progress := {| num_computed_tokens := n - 1; num_scheduled_tokens := 1; num_prompt_tokens := 2;
       num_output_tokens := n - 2; index_in_batch := 0 |};
     slots := {| repre_slot_mapping := []; calc_block_table := []; calc_repre_slot_mapping := []; include_mask := []; exclude_mask := [] |};
     is_use_gsa := true; remain_idx := None; prefetch_idx := None; sparse_len := 0; topk_buf_tmp := buf; reamin_map := None;
     prefetch_map := None; block_hashes := None; num_prompt_blocks := 1 |}.
Definition zeros3 : tensor3 := [[[0; 0; 0; 0; 0; 0]; [0; 0; 0; 0; 0; 0]]].
Definition zeros2 : tensor2 := [[0; 0]].
Definition start (buf : tensor2) : Engine Z :=
  {| e_tensors := {| prefetch_blocks := zeros3; m_load_success_list := zeros3; use_block_table := zeros3;
       prefetch_block_len := zeros2; gsa_seq_len := zeros2; block_table_len := zeros2; use_block_table_len := zeros2;
       prefetch_topk_buf := zeros3 |};
     e_tables := {| block_map_flag := ∅; block_table_flag := ∅; is_gsa_req_id := {["r" := true; "q" := false]} |};
     e_stats := [("r"%string, stat [10; 11; 12; 13; 14] 9 (Some buf)); ("q"%string, stat [20; 21] 4 None)];
     e_calls := [];
     e_run := {| step_time := 1; select_bs_index := [1; 0]; block_table_list_bs := [[10; 11; 12; 13; 14]; [20; 21]];
       req_ids_bs := ["r"; "q"]%string; atb_gsa_enable := true; ptopk_prefetch_enable := false; is_topk_cal := false |};
     e_topk := {| use_topk_caches := []; topk_space := 0; e_topk_buf_tmp := None; topk_bs := []; is_topk_update := false |} |}.

(** The hypotheses of the theorem, for any selection of four blocks or less. *)
Lemma batch_ok buf k : sels_ok 1 6 buf k ->
  shapes 1 2 6 (e_tensors (start buf)) /\
  (forall i id, ["r"; "q"]%string !! i = Some id -> exists st marked, od_get id (e_stats (start buf)) = Some st /\
     is_gsa_req_id (e_tables (start buf)) !! id = Some marked /\ request_ok 1 6 st marked /\
     block_table_list_bs (e_run (start buf)) !! i = Some (blocks st)).
Proof.
  intros Hk. split; [repeat split; repeat constructor|].
  intros [|[|i]] id [= <-]; do 2 eexists; (split; [reflexivity|]); (split; [reflexivity|]);
    (split; [split; [discriminate|split; [vm_compute; discriminate|]]|reflexivity]).
  - intros sels _ [= <-]. by exists k.
  - by intros sels ? [=].
Qed.

Lemma sparse_tables_hold_the_selection_witness :
  (exists s' row, (do! topk_insert_last_idx in no_gsa_input_deal env) (start [[0; 2]]) = (Ok tt, s') /\
     at2 (use_block_table (e_tensors s')) 0 1 = Some row /\ take 3 row = [10; 12; 14]) /\
  (exists s' row, (do! topk_insert_last_idx in no_gsa_input_deal env) (start [[0; 3; 4; 1]]) = (Ok tt, s') /\
     at2 (use_block_table (e_tensors s')) 0 1 = Some row /\ take 4 row = [10; 13; 14; 11]).
Proof.
  split.
  - destruct (batch_ok [[0; 2]] 2) as [Hsh Hreq]; [split; [done|repeat constructor..|lia]; lia|].
    destruct (sparse_tables_hold_the_selection env 1 2 6 ltac:(lia) ltac:(reflexivity) (start [[0; 2]])
                ["r"; "q"]%string [1; 0]) as (s' & Hr & Ha); [exact Hsh|reflexivity|reflexivity| | |reflexivity| |exact Hreq|].
    + by apply (bool_decide_eq_true_1 (NoDup _)).
    + by apply (bool_decide_eq_true_1 (NoDup _)).
    + repeat constructor; lia.
    + destruct (Ha 0%nat "r"%string 1 _ true eq_refl eq_refl eq_refl eq_refl) as [Hat _].
      destruct (Hat 0%nat [0; 2; 4] eq_refl) as (row & Hrow & Htk & _). by exists s', row.
  - destruct (batch_ok [[0; 3; 4; 1]] 4) as [Hsh Hreq]; [split; [done|repeat constructor..|lia]; lia|].
    destruct (sparse_tables_hold_the_selection env 1 2 6 ltac:(lia) ltac:(reflexivity) (start [[0; 3; 4; 1]])
                ["r"; "q"]%string [1; 0]) as (s' & Hr & Ha); [exact Hsh|reflexivity|reflexivity| | |reflexivity| |exact Hreq|].
    + by apply (bool_decide_eq_true_1 (NoDup _)).
    + by apply (bool_decide_eq_true_1 (NoDup _)).
    + repeat constructor; lia.
    + destruct (Ha 0%nat "r"%string 1 _ true eq_refl eq_refl eq_refl eq_refl) as [Hat _].
      destruct (Hat 0%nat [0; 3; 4; 1] eq_refl) as (row & Hrow & Htk & _). by exists s', row.
Defined.

(** The C++ selector puts the first block and the two last ones before the
    others, so that a fresh selection of four of five blocks is [0; 3; 4; 1].
    It contains the last block, which is then not put at the end: the table
    ends with block 11, of which one token is attended, and the last block 14
    counts as full although it holds one token. *)
Example last_block_in_the_middle :
  let '(r, s') := (do! topk_insert_last_idx in no_gsa_input_deal env) (start [[0; 3; 4; 1]]) in
  (r, at2 (use_block_table (e_tensors s')) 0 1, at2 (gsa_seq_len (e_tensors s')) 0 1)
  = (Ok tt, Some [10; 13; 14; 11; 0; 0], Some 7).
Proof. vm_compute. reflexivity. Qed.
End PrefetchDemo.
