(* ===== verification/DeviceMem.v ===== *)
(** * The device memory the KV caches live in

    A cache is a contiguous tensor whose first dimension counts its blocks; the
    contents of one block is one value of a type [D].  The stores load and dump
    blocks by address, the sparse methods also read and write them. *)

From S2P Require Import Prelude.
From S2P Require Import StoreApi.
From S2P Require Import Layout.
Local Open Scope Z_scope.
Local Open Scope py_scope.

(** Reading and writing the block at a device address. *)
Class KvMem (W D : Type) : Type := {
  mem_read : W -> Z -> D;
  mem_write : Z -> D -> W -> W;
}.

Class KvMemLaws (W D : Type) `{StoreView W D} `{KvMem W D} : Prop := {
  mem_read_ok : forall w a, mem_read w a = devmem w a;
  mem_write_mem : forall a d w x, devmem (mem_write a d w) x = if decide (x = a) then d else devmem w x;
  mem_write_stored : forall a d w id sh, stored (mem_write a d w) id sh = stored w id sh;
  mem_write_flights : forall a d w t, flights (mem_write a d w) t = flights w t;
}.

(** ** The blocks of a cache *)
Section blocks.
Context {T : Type} `{TensorOps T}.

Definition block_numel (t : T) : Z := zprod (t_shape (t_index t 0)).

(** The address of [t[id]]. *)
Definition cache_addr (t : T) (id : Z) : res Z :=
  let n := hd 0 (t_shape t) in
  if (- n <=? id) && (id <? n)
  then Ok ((if id <? 0 then id + n else id) * (block_numel t * t_element_size t) + t_data_ptr t)
  else Err IndexError.

(** The same for a block the cache has. *)
Definition addr (t : T) (id : Z) : Z := id * (block_numel t * t_element_size t) + t_data_ptr t.

Lemma cache_addr_nonneg t id : 0 <= id < hd 0 (t_shape t) -> cache_addr t id = Ok (addr t id).
Proof.
  intros Hid. unfold cache_addr.
  rewrite (proj2 (Z.leb_le _ _)), (proj2 (Z.ltb_lt _ _)), (proj2 (Z.ltb_ge _ _)) by lia. done.
Qed.
End blocks.

(** ** Reading and writing blocks *)
Section access.
Context {T W D : Type} `{TensorOps T} `{KvMem W D}.

Definition cache_addrs (t : T) (ids : list Z) : M W (list Z) := map_m (fun id => lift_res (cache_addr t id)) ids.

(** [t[ids].clone()] *)
Definition read_blocks (t : T) (ids : list Z) : M W (list D) :=
  let! addrs := cache_addrs t ids in
  gets (fun w => mem_read w <$> addrs).

Definition write_block (e : Z * D) : M W unit := modify (mem_write e.1 e.2).

(** [t[ids] = vals], with torch's broadcast of a single row *)
Definition write_blocks (t : T) (ids : list Z) (vals : list D) : M W unit :=
  let! addrs := cache_addrs t ids in
  if pylen vals =? pylen ids then for_ (zip addrs vals) write_block
  else match vals with
       | [d] => for_ ((fun a => (a, d)) <$> addrs) write_block
       | _ => raise RuntimeError
       end.

Definition write_all (l : list (Z * D)) (w : W) : W := foldl (fun w e => mem_write e.1 e.2 w) w l.

Lemma write_all_app l1 l2 w : write_all (l1 ++ l2) w = write_all l2 (write_all l1 w).
Proof. apply foldl_app. Qed.

(** The blocks of a cache of [n] blocks. *)
Definition ids_ok (n : Z) (ids : list Z) : Prop := Forall (fun id => 0 <= id < n) ids.

Lemma ids_ok_slice n bl lo hi : ids_ok n bl -> ids_ok n (slice bl lo hi).
Proof. unfold ids_ok. rewrite !Forall_forall. intros Hb i Hi%elem_of_slice. auto. Qed.

Lemma cache_addrs_run t bl (w : W) : ids_ok (hd 0 (t_shape t)) bl -> cache_addrs t bl w = (Ok (addr t <$> bl), w).
Proof.
  intros Hi. unfold cache_addrs. induction Hi as [|i bl Hi His IH]; [done|]. simpl.
  rewrite (bind_ok _ _ _ (addr t i) w) by (unfold lift_res; by rewrite cache_addr_nonneg).
  by rewrite (bind_ok _ _ _ _ _ IH).
Qed.

Lemma write_blocks_run t bl vals w : ids_ok (hd 0 (t_shape t)) bl -> length vals = length bl ->
  write_blocks t bl vals w = (Ok tt, write_all (zip (addr t <$> bl) vals) w).
Proof.
  intros Hi Hl. unfold write_blocks. rewrite (bind_ok _ _ _ _ _ (cache_addrs_run t bl w Hi)).
  rewrite (proj2 (Z.eqb_eq _ _)) by (unfold pylen; lia).
  clear Hi Hl. generalize (zip (addr t <$> bl) vals). intros l. revert w.
  induction l as [|e l IH]; intros w; simpl; [done|]. unfold write_block at 1, modify, bind. by rewrite IH.
Qed.
End access.

Section access_laws.
Context {T W D : Type} `{TensorOps T} `{StoreView W D} `{!KvMem W D} `{!KvMemLaws W D}.
Implicit Types (l : list (Z * D)) (w : W).

Lemma write_all_stored l w id shd : stored (write_all l w) id shd = stored w id shd.
Proof. revert w. induction l as [|e l IH]; intros w; simpl; [done|]. by rewrite IH, mem_write_stored. Qed.
Lemma write_all_flights l w t : flights (write_all l w) t = flights w t.
Proof. revert w. induction l as [|e l IH]; intros w; simpl; [done|]. by rewrite IH, mem_write_flights. Qed.
Lemma write_all_other l w a : a ∉ l.*1 -> devmem (write_all l w) a = devmem w a.
Proof.
  revert w. induction l as [|e l IH]; intros w Ha; simpl in *; [done|]. apply not_elem_of_cons in Ha as [Hne Ha].
  by rewrite IH, mem_write_mem, decide_False.
Qed.

(** The contents of some blocks of a cache. *)
Definition contents_of (t : T) bl w : list D := (fun i => devmem w (addr t i)) <$> bl.

Lemma read_blocks_run t bl w : ids_ok (hd 0 (t_shape t)) bl -> read_blocks t bl w = (Ok (contents_of t bl w), w).
Proof.
  intros Hi. unfold read_blocks. rewrite (bind_ok _ _ _ _ _ (cache_addrs_run t bl w Hi)).
  unfold gets, contents_of. do 2 f_equal. rewrite <- list_fmap_compose. apply list_fmap_ext.
  intros j i _. simpl. apply mem_read_ok.
Qed.
End access_laws.

(** ** A concrete memory and concrete tensors *)
Module MemDemo.
(** A tensor is a shape and an address, its elements have two bytes. *)
Definition tensor : Type := list Z * Z.
#[global] Instance tensor_ops : TensorOps tensor := {|
  t_shape t := t.1;
  t_element_size _ := 2;
  t_data_ptr t := t.2;
  t_index t i := (drop 1 t.1, t.2 + i * (zprod (drop 1 t.1) * 2));
|}.

Abbreviation W := (MemStore.world Z).
#[global] Instance mem : KvMem W Z := {|
  mem_read w a := MemStore.memory w a;
  mem_write a d w := MemStore.World (MemStore.blocks w) (fun x => if decide (x = a) then d else MemStore.memory w x)
                       (MemStore.pending w) (MemStore.broken w) (MemStore.refused w);
|}.
#[global] Instance mem_laws : KvMemLaws W Z.
Proof. by split. Qed.
End MemDemo.
