(* ===== verification/Esa.v ===== *)
(** * ESA sparse attention (ucm/sparse/esa/esa.py)

    Once a long prompt is computed, a request keeps on the device its first
    blocks, its last blocks, and a window between them that is filled, every
    few decoding steps, with the stored blocks the retrieval workers find most
    relevant.  Every layer of every request is a small state machine driven by
    the hooks before and after the attention; its blocks are retrieved by
    representatives kept in slots of a pool the requests share.

    Native code and vLLM are interfaces: [Store], the retrieval workers
    ([Retrieval]), the memory the KV caches live in ([KvMem]) and torch's
    tensors ([TensorOps]).  The contents of a block in one layer's cache is one
    value of type [D], its representative a value of type [F]. *)

From Stdlib Require Import Ascii String.
From S2P Require Import Prelude.
From S2P Require Import PyStr.
From S2P Require Import StoreApi.
From S2P Require Import Hasher.
From S2P Require Import Layout.
From S2P Require Import DeviceMem.
From S2P Require Import GsaSparse.
From stdpp Require Import strings.
Local Open Scope Z_scope.
Local Open Scope py_scope.

(** ** Interfaces *)

(** The retrieval worker of a layer (ucm/sparse/esa/retrieval): [get_result]
    is the ["indices"] of the result. *)
Class Retrieval (R Q : Type) : Type := {
  rtask : Type;
  r_submit : Z -> Q -> Z -> list (list Z) -> M R rtask;
  r_wait : Z -> rtask -> M R unit;
  r_get_result : Z -> rtask -> M R (list (list Z));
}.

(** ** Data *)

(** [ReprePool] *)
Record ReprePool := { free_slots : gset Z; allocated : gset Z }.

Definition new_ReprePool (num_slots : Z) : ReprePool :=
  {| free_slots := list_to_set (zrange 0 num_slots); allocated := ∅ |}.

(** [list(self.free_slots)] is in the order in which Python iterates over a set
    of integers, the parameter [order]. *)
Definition pool_allocate (order : gset Z -> list Z) (num_new_slots : Z) (p : ReprePool)
    : res (list Z * ReprePool) :=
  if Z.of_nat (size (free_slots p)) <? num_new_slots then Err AssertionError
  else
    let slots := slice_to (order (free_slots p)) num_new_slots in
    Ok (slots, {| free_slots := free_slots p ∖ list_to_set slots;
                  allocated := allocated p ∪ list_to_set slots |}).

Definition pool_free (slots : list Z) (p : ReprePool) : ReprePool :=
  {| free_slots := free_slots p ∪ list_to_set slots;
     allocated := allocated p ∖ list_to_set slots |}.

Record ReqMeta := {
  request_id : string;
  index_in_batch : Z;
  num_scheduled_tokens : Z;
  num_computed_tokens : Z;
  vllm_block_ids : list Z;
  query_start_loc : Z;
  prompt_token_ids : list Z;
  output_token_ids : list Z;
  is_preempt : bool;
  ucm_block_hashes : list bytes;
}.

Definition num_prompt_tokens (m : ReqMeta) : Z := pylen (prompt_token_ids m).
Definition num_output_tokens (m : ReqMeta) : Z := pylen (output_token_ids m).
Definition num_tokens (m : ReqMeta) : Z := num_prompt_tokens m + num_output_tokens m.
Definition is_last_chunk (m : ReqMeta) : bool :=
  num_tokens m <=? num_computed_tokens m + num_scheduled_tokens m.

(** What the code reads of [esa_cfg] and of vLLM's configuration. *)
Record EsaConfig := {
  init_window_sz : Z;
  local_window_sz : Z;
  min_blocks : Z;
  sparse_ratio : float;
  retrieval_stride : Z;
  block_size : Z;
  (** layers of this pipeline rank, and of the model *)
  num_layers : Z;
  total_num_hidden_layers : Z;
  (** [model_config.dtype.itemsize] *)
  itemsize : Z;
  rank : Z;
  is_mla : bool;
  model_name : string;
  tp_size : Z;
  dtype_name : string;
}.

Definition get_sparse_range (init_window local_window prompt_len bs : Z) : Z :=
  cdiv prompt_len bs - init_window - local_window.

(** [int(self.sparse_range * self.esa_cfg["sparse_ratio"])] *)
Definition top_k (c : EsaConfig) (sparse_range : Z) : res Z :=
  int_of_float (float_mul (float_of_Z sparse_range) (sparse_ratio c)).

(** ** Which blocks of the window change *)

(** The first loop of [diff_two_map]: the keys and values of [map2] that are
    still to be placed, and the entries of [map1] that stay. *)
Definition keep_entry (map2 : list (Z * bytes)) (acc : gset Z * gset bytes * list (Z * bytes)) (e : Z * bytes)
    : res (gset Z * gset bytes * list (Z * bytes)) :=
  let '(keys2_set, values2_set, updated_map) := acc in
  let '(k1, v1) := e in
  if mem k1 (od_keys map2) && mem v1 (od_values map2) then
    if bool_decide (k1 ∈ keys2_set) && bool_decide (v1 ∈ values2_set)
    then Ok (keys2_set ∖ {[k1]}, values2_set ∖ {[v1]}, od_set k1 v1 updated_map)
    else Err KeyError
  else Ok acc.

Fixpoint keep_entries (map2 : list (Z * bytes)) (acc : gset Z * gset bytes * list (Z * bytes))
    (l : list (Z * bytes)) : res (gset Z * gset bytes * list (Z * bytes)) :=
  match l with
  | [] => Ok acc
  | e :: l' => let? acc' := keep_entry map2 acc e in keep_entries map2 acc' l'
  end.

(** The orders in which Python iterates over the two sets are parameters. *)
Record SetOrders := { order_int : gset Z -> list Z; order_bytes : gset bytes -> list bytes }.

Definition diff_two_map (so : SetOrders) (map1 map2 : list (Z * bytes))
    : res (list (Z * bytes) * list (Z * bytes)) :=
  let? r := keep_entries map2 (list_to_set (od_keys map2), list_to_set (od_values map2), []) map1 in
  let '(keys2_set, values2_set, updated_map) := r in
  let placed := zip (order_int so keys2_set) (order_bytes so values2_set) in
  Ok (foldl (fun m e => od_set e.1 e.2 m) updated_map placed,
      foldl (fun m e => od_set e.1 e.2 m) [] placed).

(** ** The state of a request in one layer *)

Record ReqStatePerLayer (T D RT ST : Type) := {
  layer_name : string;
  layer_id : Z;
  slots : list Z;
  slots_to_relative_indexes : list (Z * Z);
  retrieval_task : option RT;
  req_meta : option ReqMeta;
  k_cache : option T;
  v_cache : option T;
  tasks : list (Z * ST);
  block_hashes : option (list bytes);
  pre_topk_block_hashes : list (Z * bytes);
  sparse_range : Z;
  init_static_flag : bool;
  (** the keys and, when there is a cache of values, the values *)
  init_window : option (list D * option (list D));
  local_window : option (list D * option (list D));
  step : Z;
}.
Arguments layer_name {T D RT ST} _.
Arguments layer_id {T D RT ST} _.
Arguments slots {T D RT ST} _.
Arguments slots_to_relative_indexes {T D RT ST} _.
Arguments retrieval_task {T D RT ST} _.
Arguments req_meta {T D RT ST} _.
Arguments k_cache {T D RT ST} _.
Arguments v_cache {T D RT ST} _.
Arguments tasks {T D RT ST} _.
Arguments block_hashes {T D RT ST} _.
Arguments pre_topk_block_hashes {T D RT ST} _.
Arguments sparse_range {T D RT ST} _.
Arguments init_static_flag {T D RT ST} _.
Arguments init_window {T D RT ST} _.
Arguments local_window {T D RT ST} _.
Arguments step {T D RT ST} _.

(** What the requests share: the store and the device, the retrieval workers,
    and per layer the pool of slots and the representatives in them. *)
Record Shared (W R F : Type) := MkShared {
  world : W;
  retrieval : R;
  layer_pools : list ReprePool;
  data : list (gmap Z F);
}.
Arguments MkShared {W R F} _ _ _ _.
Arguments world {W R F} _.
Arguments retrieval {W R F} _.
Arguments layer_pools {W R F} _.
Arguments data {W R F} _.

Section setters.
Context {T D RT ST W R F : Type}.
Abbreviation RS := (ReqStatePerLayer T D RT ST).
Implicit Types (r : RS) (s : Shared W R F).

Definition with_slots x y r : RS :=
  {| layer_name := layer_name r; layer_id := layer_id r; slots := x; slots_to_relative_indexes := y;
     retrieval_task := retrieval_task r; req_meta := req_meta r; k_cache := k_cache r; v_cache := v_cache r;
     tasks := tasks r; block_hashes := block_hashes r; pre_topk_block_hashes := pre_topk_block_hashes r;
     sparse_range := sparse_range r; init_static_flag := init_static_flag r; init_window := init_window r;
     local_window := local_window r; step := step r |}.
Definition with_retrieval_task x r : RS :=
  {| layer_name := layer_name r; layer_id := layer_id r; slots := slots r;
     slots_to_relative_indexes := slots_to_relative_indexes r;
     retrieval_task := x; req_meta := req_meta r; k_cache := k_cache r; v_cache := v_cache r;
     tasks := tasks r; block_hashes := block_hashes r; pre_topk_block_hashes := pre_topk_block_hashes r;
     sparse_range := sparse_range r; init_static_flag := init_static_flag r; init_window := init_window r;
     local_window := local_window r; step := step r |}.
(** [update_meta] *)
Definition update_meta x r : RS :=
  {| layer_name := layer_name r; layer_id := layer_id r; slots := slots r;
     slots_to_relative_indexes := slots_to_relative_indexes r;
     retrieval_task := retrieval_task r; req_meta := Some x; k_cache := k_cache r; v_cache := v_cache r;
     tasks := tasks r; block_hashes := block_hashes r; pre_topk_block_hashes := pre_topk_block_hashes r;
     sparse_range := sparse_range r; init_static_flag := init_static_flag r; init_window := init_window r;
     local_window := local_window r; step := step r |}.
Definition with_static k v h r : RS :=
  {| layer_name := layer_name r; layer_id := layer_id r; slots := slots r;
     slots_to_relative_indexes := slots_to_relative_indexes r;
     retrieval_task := retrieval_task r; req_meta := req_meta r; k_cache := Some k; v_cache := v;
     tasks := tasks r; block_hashes := h; pre_topk_block_hashes := pre_topk_block_hashes r;
     sparse_range := sparse_range r; init_static_flag := true; init_window := init_window r;
     local_window := local_window r; step := step r |}.
Definition with_tasks x r : RS :=
  {| layer_name := layer_name r; layer_id := layer_id r; slots := slots r;
     slots_to_relative_indexes := slots_to_relative_indexes r;
     retrieval_task := retrieval_task r; req_meta := req_meta r; k_cache := k_cache r; v_cache := v_cache r;
     tasks := x; block_hashes := block_hashes r; pre_topk_block_hashes := pre_topk_block_hashes r;
     sparse_range := sparse_range r; init_static_flag := init_static_flag r; init_window := init_window r;
     local_window := local_window r; step := step r |}.
Definition with_topk x r : RS :=
  {| layer_name := layer_name r; layer_id := layer_id r; slots := slots r;
     slots_to_relative_indexes := slots_to_relative_indexes r;
     retrieval_task := retrieval_task r; req_meta := req_meta r; k_cache := k_cache r; v_cache := v_cache r;
     tasks := tasks r; block_hashes := block_hashes r; pre_topk_block_hashes := x;
     sparse_range := sparse_range r; init_static_flag := init_static_flag r; init_window := init_window r;
     local_window := local_window r; step := step r |}.
Definition with_sparse_range x r : RS :=
  {| layer_name := layer_name r; layer_id := layer_id r; slots := slots r;
     slots_to_relative_indexes := slots_to_relative_indexes r;
     retrieval_task := retrieval_task r; req_meta := req_meta r; k_cache := k_cache r; v_cache := v_cache r;
     tasks := tasks r; block_hashes := block_hashes r; pre_topk_block_hashes := pre_topk_block_hashes r;
     sparse_range := x; init_static_flag := init_static_flag r; init_window := init_window r;
     local_window := local_window r; step := step r |}.
Definition with_windows x y r : RS :=
  {| layer_name := layer_name r; layer_id := layer_id r; slots := slots r;
     slots_to_relative_indexes := slots_to_relative_indexes r;
     retrieval_task := retrieval_task r; req_meta := req_meta r; k_cache := k_cache r; v_cache := v_cache r;
     tasks := tasks r; block_hashes := block_hashes r; pre_topk_block_hashes := pre_topk_block_hashes r;
     sparse_range := sparse_range r; init_static_flag := init_static_flag r; init_window := x;
     local_window := y; step := step r |}.
Definition with_step x r : RS :=
  {| layer_name := layer_name r; layer_id := layer_id r; slots := slots r;
     slots_to_relative_indexes := slots_to_relative_indexes r;
     retrieval_task := retrieval_task r; req_meta := req_meta r; k_cache := k_cache r; v_cache := v_cache r;
     tasks := tasks r; block_hashes := block_hashes r; pre_topk_block_hashes := pre_topk_block_hashes r;
     sparse_range := sparse_range r; init_static_flag := init_static_flag r; init_window := init_window r;
     local_window := local_window r; step := x |}.

Definition put_world w s : Shared W R F := MkShared w (retrieval s) (layer_pools s) (data s).
Definition put_retrieval x s : Shared W R F := MkShared (world s) x (layer_pools s) (data s).
Definition put_pools x s : Shared W R F := MkShared (world s) (retrieval s) x (data s).
Definition put_data x s : Shared W R F := MkShared (world s) (retrieval s) (layer_pools s) x.
End setters.

(** ** One layer of one request *)
Section layer.
Context {T W D R Q F : Type} `{TensorOps T} `{Store W} `{KvMem W D} `{Retrieval R Q}.
Context (so : SetOrders) (c : EsaConfig).
(** [hash((tuple(block_ids), store_type, tensor_type))] *)
Context (task_hash_func : list bytes -> string -> string -> Z).
(** the rows [start, start + len) of the batch's queries, brought to the heads of the keys *)
Context (query_rows : Q -> Z -> Z -> Q).
(** the mean over a block's tokens of its keys, and its values if they are given *)
Context (block_repre : D -> option D -> F).
Abbreviation RS := (ReqStatePerLayer T D rtask task).
Abbreviation LS := (RS * Shared W R F)%type.

Definition req {A} (f : RS -> A) : M LS A := gets (fun s => f s.1).
Definition on_req (f : RS -> RS) : M LS unit := modify (fun s => (f s.1, s.2)).
Definition on_shared (f : Shared W R F -> Shared W R F) : M LS unit := modify (fun s => (s.1, f s.2)).
Definition store_call {A} (m : M W A) : M LS A :=
  zoom (fun s => world s.2) (fun w s => (s.1, put_world w s.2)) m.
Definition retrieval_call {A} (m : M R A) : M LS A :=
  zoom (fun s => retrieval s.2) (fun x s => (s.1, put_retrieval x s.2)) m.
Definition the {A} (e : exn) (o : option A) : M LS A := lift_res (of_option e o).
Definition meta : M LS ReqMeta := let! m := req req_meta in the AttributeError m.
Definition k_tensor : M LS T := let! k := req k_cache in the TypeError k.

(** *** The blocks of a cache *)

(** [np.array(ids, np.uint64) * block_data_size + base_ptrs], one row per block *)
Definition block_ptr (t : T) (id : Z) : Z := u64 (id * (block_numel t * itemsize c) + t_data_ptr t).
Definition ptr_rows (t : T) (ids : list Z) : res (list (list Z)) :=
  if forallb (fun id => (0 <=? id) && (id <? 2 ^ 64)) ids
  then Ok ((fun id => [block_ptr t id]) <$> ids) else Err OverflowError.

Definition layer_read (t : T) (ids : list Z) : M LS (list D) := store_call (read_blocks t ids).
Definition layer_write (t : T) (ids : list Z) (vals : list D) : M LS unit := store_call (write_blocks t ids vals).

(** *** The methods of [ReqStatePerLayer] *)

Definition submit_transfer (hashes : list bytes) (shards : list Z) (rows : list (list Z))
    (transfer_type tensor_type : string) : M LS unit :=
  let! t := store_call (load_data hashes shards rows) in
  on_req (fun r => with_tasks (od_set (task_hash_func hashes transfer_type tensor_type) t (tasks r)) r).

(** The connector never has a [rope_store], so that the transfer of the rope
    cache raises. *)
Definition launch_transfer_task (transfer_type : string) (hashes : list bytes) (ids : list Z) : M LS unit :=
  let length := pylen hashes in
  let! k := k_tensor in
  let! lid := req layer_id in
  let shard_indexs := py_repeat lid length in
  let! k_block_ptrs := lift_res (ptr_rows k ids) in
  do! submit_transfer hashes shard_indexs k_block_ptrs transfer_type "key" in
  let! v := req v_cache in
  if negb (is_mla c) then
    let v_shard_indexs := py_repeat (lid + num_layers c) length in
    let! v := the TypeError v in
    let! v_block_ptrs := lift_res (ptr_rows v ids) in
    submit_transfer hashes v_shard_indexs v_block_ptrs transfer_type "value"
  else match v with
       | Some _ => raise AttributeError
       | None => ret tt
       end.

(** A block's representative is computed from its key, with MLA from its rope
    part too. *)
Definition extract_block_repre (ids : list Z) : M LS (list F) :=
  let! k := k_tensor in
  let! v := req v_cache in
  match is_mla c, v with
  | true, Some v =>
      let! ks := layer_read k ids in
      let! vs := layer_read v ids in
      ret (zip_with (fun x y => block_repre x (Some y)) ks vs)
  | _, _ => let! ks := layer_read k ids in ret ((fun x => block_repre x None) <$> ks)
  end.

(** [forward_context.no_compile_layers], with the cache of each layer *)
Definition maybe_register_static_data (forward_context : list (string * kv_layer T)) : M LS unit :=
  let! registered := req init_static_flag in
  if registered : bool then ret tt
  else
    let! name := req layer_name in
    let! kv_cache := the KeyError (od_get name forward_context) in
    let! ' (k, v) :=
      match is_mla c, kv_cache with
      | true, KTensor t => ret (t, None)
      | true, KOther => raise AttributeError
      | false, KOther => raise TypeError
      | false, KTensor t => ret (t_index t 0, Some (t_index t 1))
      | _, KTuple ts =>
          let! k := lift_res (py_idx ts 0) in
          let! v := lift_res (py_idx ts 1) in
          ret (k, Some v)
      end in
    let! m := meta in
    on_req (with_static k v (Some (ucm_block_hashes m))).

Definition wait_transfer_task_done : M LS unit :=
  let! ts := req tasks in
  do! for_ ts (fun e => store_call (wait e.2)) in
  on_req (with_tasks []).

Definition start_retrieval (batch_query : Q) : M LS unit :=
  let! m := meta in
  let query := query_rows batch_query (query_start_loc m) (num_scheduled_tokens m) in
  let! range := req sparse_range in
  let! topk := lift_res (top_k c range) in
  let! sl := req slots in
  let! lid := req layer_id in
  let! t := retrieval_call (r_submit lid query topk [sl]) in
  on_req (with_retrieval_task (Some t)).

Definition wait_retrieval_and_start_load : M LS unit :=
  let! t := req retrieval_task in
  let! t := the TypeError t in
  let! lid := req layer_id in
  do! retrieval_call (r_wait lid t) in
  let! result := retrieval_call (r_get_result lid t) in
  let! choosed_slots := lift_res (py_idx result 0) in
  let! index_of := req slots_to_relative_indexes in
  let! rel_block_ids := map_m (fun e => the KeyError (od_get e index_of)) choosed_slots in
  let! all_hashes := req block_hashes in
  let! hashes := map_m (fun i => let! l := the TypeError all_hashes in lift_res (py_idx l i)) rel_block_ids in
  let! range := req sparse_range in
  let! topk := lift_res (top_k c range) in
  let! m := meta in
  let ids := slice (vllm_block_ids m) (init_window_sz c) (init_window_sz c + topk) in
  let target_map := foldl (fun d e => od_set e.1 e.2 d) [] (zip ids hashes) in
  let! old := req pre_topk_block_hashes in
  let! ' (updated, diff_blocks) := lift_res (diff_two_map so old target_map) in
  do! on_req (with_topk updated) in
  do! (match diff_blocks with
       | [] => ret tt
       | _ => launch_transfer_task "load" (od_values diff_blocks) (od_keys diff_blocks)
       end) in
  on_req (with_retrieval_task None).

(** [data[self.layer_id][new_slots] = vals] *)
Definition store_repre (lid : Z) (new_slots : list Z) (vals : list F) : M LS unit :=
  let! tables := gets (fun s : LS => data s.2) in
  let! table := lift_res (py_idx tables lid) in
  let! entries :=
    if pylen vals =? pylen new_slots then ret (zip new_slots vals)
    else match vals with
         | [v] => ret ((fun x => (x, v)) <$> new_slots)
         | _ => raise RuntimeError
         end in
  let table := foldl (fun (d : gmap Z F) e => <[e.1 := e.2]> d) table entries in
  let! tables := lift_res (of_option IndexError (py_setitem tables lid table)) in
  on_shared (put_data tables).

Definition allocate_slots_of (lid n : Z) : M LS (list Z) :=
  let! pools := gets (fun s : LS => layer_pools s.2) in
  let! pool := lift_res (py_idx pools lid) in
  let! ' (new_slots, pool) := lift_res (pool_allocate (order_int so) n pool) in
  let! pools := lift_res (of_option IndexError (py_setitem pools lid pool)) in
  do! on_shared (put_pools pools) in
  ret new_slots.

(** The keys, and the values if the caches are a pair, of some blocks. *)
Definition clone_window (ids : list Z) : M LS (list D * option (list D)) :=
  let! k := k_tensor in
  let! ks := layer_read k ids in
  let! v := req v_cache in
  match is_mla c, v with
  | true, None => ret (ks, None)
  | _, _ =>
      let! v := the TypeError v in
      let! vs := layer_read v ids in
      ret (ks, Some vs)
  end.

Definition block_repre_data : M LS unit :=
  let! m := meta in
  let range := get_sparse_range (init_window_sz c) (local_window_sz c) (num_prompt_tokens m) (block_size c) in
  do! on_req (with_sparse_range range) in
  let ids := vllm_block_ids m in
  let ids_dump := slice ids (init_window_sz c) (init_window_sz c + range) in
  let! repre := extract_block_repre ids_dump in
  (* [repre.reshape(repre.shape[0], -1)] of no rows *)
  do! (match repre with [] => raise RuntimeError | _ => ret tt end) in
  let! lid := req layer_id in
  let! new_slots := allocate_slots_of lid range in
  let! old := req slots in
  let og_len := pylen old in
  do! on_req (fun r => with_slots (slots r ++ new_slots)
        (foldl (fun d e => od_set e.2 (og_len + e.1) d) (slots_to_relative_indexes r) (enumerate new_slots)) r) in
  do! store_repre lid new_slots repre in
  let local_window_start := init_window_sz c + range in
  let! i := clone_window (slice_to ids (init_window_sz c)) in
  do! on_req (fun r => with_windows (Some i) (local_window r) r) in
  let! l := clone_window (slice_from ids local_window_start) in
  on_req (fun r => with_windows (init_window r) (Some l) r).

(** [self.step % self.esa_cfg["retrieval_stride"]] *)
Definition phase : M LS Z :=
  let! n := req step in
  if retrieval_stride c =? 0 then raise ZeroDivisionError else ret (n mod retrieval_stride c).

(** The windows go back to the blocks the request has now. *)
Definition restore_windows : M LS unit :=
  let! m := meta in
  let ids := vllm_block_ids m in
  let! iw := req init_window in
  let! lw := req local_window in
  let! k := k_tensor in
  let! v := req v_cache in
  let! l := the (match is_mla c, v with true, None => AttributeError | _, _ => TypeError end) lw in
  let! i := the TypeError iw in
  let local_window_sz := pylen l.1 in
  let init_ids := slice_to ids (init_window_sz c) in
  match is_mla c, v with
  | true, None =>
      do! layer_write k init_ids i.1 in
      layer_write k (slice_from ids (- local_window_sz)) l.1
  | _, _ =>
      let! v := the TypeError v in
      let! iv := the TypeError i.2 in
      let! lv := the TypeError l.2 in
      do! layer_write k init_ids i.1 in
      do! layer_write v init_ids iv in
      do! layer_write k (slice_from ids (- local_window_sz)) l.1 in
      layer_write v (slice_from ids (- local_window_sz)) lv
  end.

Definition layer_attention_begin (query : Q) (forward_context : list (string * kv_layer T)) : M LS unit :=
  do! maybe_register_static_data forward_context in
  let! p := phase in
  if p =? 1 then
    let! n := req step in
    do! (if n =? 1 then
           do! restore_windows in
           do! start_retrieval query in
           wait_retrieval_and_start_load
         else ret tt) in
    let! ts := req tasks in
    if 0 <? pylen ts then wait_transfer_task_done else ret tt
  else ret tt.

Definition next_step : M LS unit := on_req (fun r => with_step (step r + 1) r).

Definition layer_attention_finished (query : Q) : M LS unit :=
  let! n := req step in
  if n =? 0 then
    let! m := meta in
    if is_last_chunk m then do! block_repre_data in next_step else ret tt
  else
    let! p := phase in
    do! (if p =? 2 then start_retrieval query else ret tt) in
    do! (if p =? 0 then wait_retrieval_and_start_load else ret tt) in
    next_step.
End layer.

(** ** The batch *)

(** vLLM's cached request in the worker. *)
Record CachedRequest := {
  cr_prompt_token_ids : list Z;
  cr_output_token_ids : list Z;
  cr_num_computed_tokens : Z;
  cr_block_ids : list (list Z);
}.

Record AttnMetadata := {
  am_query_start_loc : list Z;
  am_num_decodes : Z;
  (** [prefill.query_start_loc]; whether there is a [decode] *)
  am_prefill : option (list Z);
  am_decode : bool;
}.

Record StepInput := {
  (** [scheduler_output.num_scheduled_tokens] *)
  si_num_scheduled_tokens : list (string * Z);
  si_cached_reqs : option (list (string * bool));
  (** [input_batch.req_ids] and [req_id_to_index] *)
  si_req_ids : list string;
  si_req_id_to_index : list (string * Z);
  si_requests : list (string * CachedRequest);
  (** one object, or one per layer *)
  si_attn_metadata : AttnMetadata + list (string * AttnMetadata);
}.

Record EsaState (T D RT ST W R F : Type) := MkEsa {
  req_states : list (string * list (option (ReqStatePerLayer T D RT ST)));
  esa_shared : Shared W R F;
  sparse_metadata : list ReqMeta;
  sparse_metadata_prefill : list ReqMeta;
  sparse_metadata_decode : list ReqMeta;
  (** [self.block_hashes[req_id][self.rank]] *)
  esa_block_hashes : gmap string (list bytes);
}.
Arguments MkEsa {T D RT ST W R F} _ _ _ _ _ _.
Arguments req_states {T D RT ST W R F} _.
Arguments esa_shared {T D RT ST W R F} _.
Arguments sparse_metadata {T D RT ST W R F} _.
Arguments sparse_metadata_prefill {T D RT ST W R F} _.
Arguments sparse_metadata_decode {T D RT ST W R F} _.
Arguments esa_block_hashes {T D RT ST W R F} _.

(** [int(layer_name.split(".")[2])] *)
Definition layer_id_of (name : string) : res Z :=
  let? part := py_idx (split_on dot name) 2 in of_option ValueError (py_int part).

Definition new_ReqStatePerLayer {T D RT ST} (name : string) : res (ReqStatePerLayer T D RT ST) :=
  let? lid := layer_id_of name in
  Ok {| layer_name := name; layer_id := lid; slots := []; slots_to_relative_indexes := [];
        retrieval_task := None; req_meta := None; k_cache := None; v_cache := None; tasks := [];
        block_hashes := None; pre_topk_block_hashes := []; sparse_range := 0; init_static_flag := false;
        init_window := None; local_window := None; step := 0 |}.

Definition is_sparsed_request (c : EsaConfig) (prompt : list Z) : bool :=
  block_size c * min_blocks c <=? pylen prompt.

(** *** Block hashes *)
Section hashes.
Context (md5 : bytes -> bytes) (pickle_dumps : hash_input -> bytes) (c : EsaConfig).

Definition hasher (rank_id : Z) : RequestHasher :=
  new_RequestHasher (model_name c) (tp_size c) (dtype_name c) rank_id.

(** The loop of [set_block_hashes] over the starts of the blocks. *)
Fixpoint window_hashes (h : RequestHasher) (token_ids : list Z) (num_total_blocks : Z) (starts : list Z)
    (parent_block_hash_value : bytes) : list bytes :=
  match starts with
  | [] => []
  | start :: starts' =>
      let block_idx := start / block_size c in
      if num_total_blocks - local_window_sz c <=? block_idx
      then window_hashes h token_ids num_total_blocks starts' parent_block_hash_value
      else
        let block_token_ids := slice token_ids start (start + block_size c) in
        if pylen block_token_ids <? block_size c then []
        else
          let hash_value := hash_call md5 pickle_dumps h (HBlock parent_block_hash_value block_token_ids) in
          let rest := window_hashes h token_ids num_total_blocks starts' hash_value in
          if init_window_sz c <=? block_idx then hash_value :: rest else rest
  end.

Definition new_block_hashes (token_ids : list Z) : list bytes :=
  let h := hasher 0 in
  let hashes := window_hashes h token_ids (cdiv (pylen token_ids) (block_size c))
                  (pyrange 0 (pylen token_ids) (block_size c)) (seed md5 pickle_dumps h) in
  if negb (rank c =? 0) && negb (is_mla c)
  then (fun id => hash_call md5 pickle_dumps (hasher (rank c)) (HBytes id)) <$> hashes
  else hashes.

Definition set_block_hashes (req_id : string) (token_ids : list Z) (table : gmap string (list bytes))
    : gmap string (list bytes) :=
  match table !! req_id with
  | Some _ => table
  | None => <[req_id := new_block_hashes token_ids]> table
  end.
End hashes.

(** *** The methods of [ESA] in the worker *)
Section esa.
Context {T W D R Q F : Type} `{TensorOps T} `{Store W} `{KvMem W D} `{Retrieval R Q}.
Context (so : SetOrders) (c : EsaConfig) (task_hash_func : list bytes -> string -> string -> Z)
  (query_rows : Q -> Z -> Z -> Q) (block_repre : D -> option D -> F).
Context (md5 : bytes -> bytes) (pickle_dumps : hash_input -> bytes).
Abbreviation RS := (ReqStatePerLayer T D rtask task).
Abbreviation ST := (EsaState T D rtask task W R F).

Definition put_req_states x (s : ST) : ST :=
  MkEsa x (esa_shared s) (sparse_metadata s) (sparse_metadata_prefill s) (sparse_metadata_decode s)
    (esa_block_hashes s).
Definition put_shared x (s : ST) : ST :=
  MkEsa (req_states s) x (sparse_metadata s) (sparse_metadata_prefill s) (sparse_metadata_decode s)
    (esa_block_hashes s).
Definition put_metadata m p d (s : ST) : ST :=
  MkEsa (req_states s) (esa_shared s) m p d (esa_block_hashes s).
Definition put_block_hashes x (s : ST) : ST :=
  MkEsa (req_states s) (esa_shared s) (sparse_metadata s) (sparse_metadata_prefill s)
    (sparse_metadata_decode s) x.

(** [self.req_states[id][layer_id]] and its assignment *)
Definition layer_states_of (id : string) : M ST (list (option RS)) :=
  let! st := gets req_states in lift_res (of_option KeyError (od_get id st)).
Definition get_layer_state (id : string) (lid : Z) : M ST (option RS) :=
  let! l := layer_states_of id in lift_res (py_idx l lid).
Definition set_layer_state (id : string) (lid : Z) (x : option RS) : M ST unit :=
  let! l := layer_states_of id in
  let! l := lift_res (of_option IndexError (py_setitem l lid x)) in
  modify (fun s => put_req_states (od_set id l (req_states s)) s).

(** A method of the request's state in a layer, which it changes in place. *)
Definition on_layer {A} (id : string) (lid : Z) (m : M (RS * Shared W R F) A) : M ST A :=
  let! x := get_layer_state id lid in
  match x with
  | None => raise AttributeError
  | Some rs =>
      let! sh := gets esa_shared in
      let '(r, (rs', sh')) := m (rs, sh) in
      do! set_layer_state id lid (Some rs') in
      do! modify (put_shared sh') in
      lift_res r
  end.

(** [layer_state.repre_pool.free(layer_state.slots)] *)
Definition free_layer_state (x : option RS) : M ST unit :=
  match x with
  | None => raise AttributeError
  | Some rs =>
      let! sh := gets esa_shared in
      let! pool := lift_res (py_idx (layer_pools sh) (layer_id rs)) in
      let! pools := lift_res (of_option IndexError
                      (py_setitem (layer_pools sh) (layer_id rs) (pool_free (slots rs) pool))) in
      modify (put_shared (put_pools pools sh))
  end.

Definition get_or_create_layerwise_req_state (m : ReqMeta) (name : string) : M ST unit :=
  let id := request_id m in
  let! lid := lift_res (layer_id_of name) in
  do! (if is_preempt m then
         let! x := get_layer_state id lid in
         do! free_layer_state x in
         set_layer_state id lid None
       else ret tt) in
  do! modify (fun s => if od_mem id (req_states s) then s
                       else put_req_states (od_set id (py_repeat None (total_num_hidden_layers c)) (req_states s)) s) in
  let! x := get_layer_state id lid in
  match x with
  | Some _ => ret tt
  | None =>
      let! pools := gets (fun s => layer_pools (esa_shared s)) in
      let! _ := lift_res (py_idx pools lid) in
      let! rs := lift_res (new_ReqStatePerLayer name) in
      set_layer_state id lid (Some rs)
  end.

Definition create_req_state_attention_begin (query : Q) (fc : list (string * kv_layer T)) (name : string)
    (m : ReqMeta) : M ST unit :=
  do! get_or_create_layerwise_req_state m name in
  let! lid := lift_res (layer_id_of name) in
  on_layer (request_id m) lid
    (do! on_req (update_meta m) in layer_attention_begin so c task_hash_func query_rows query fc).

Definition update_req_state_attention_end (query : Q) (name : string) (m : ReqMeta) : M ST unit :=
  let! lid := lift_res (layer_id_of name) in
  on_layer (request_id m) lid
    (do! on_req (update_meta m) in
     layer_attention_finished so c task_hash_func query_rows block_repre query).

(** The requests a hook is run for: with MLA it depends on the phase. *)
Definition hook_requests (phase : option string) : M ST (list ReqMeta) :=
  if negb (is_mla c) then gets sparse_metadata
  else gets (fun s =>
    (if bool_decide (phase = Some "prefill"%string) then sparse_metadata_prefill s else []) ++
    (if bool_decide (phase = Some "decode"%string) then sparse_metadata_decode s else [])).

Definition attention_begin (query : Q) (name : string) (fc : list (string * kv_layer T)) (phase : option string)
    : M ST unit :=
  let! l := hook_requests phase in
  for_ l (create_req_state_attention_begin query fc name).

Definition attention_finished (query : Q) (name : string) (phase : option string) : M ST unit :=
  let! l := hook_requests phase in
  for_ l (update_req_state_attention_end query name).

(** The part of the three calls of [add_request] that differs. *)
Definition make_meta (req_id : string) (index scheduled : Z) (r : CachedRequest) (start : Z) (preempted : bool)
    (hashes : list bytes) : res ReqMeta :=
  let? ids := py_idx (cr_block_ids r) 0 in
  Ok {| request_id := req_id; index_in_batch := index; num_scheduled_tokens := scheduled;
        num_computed_tokens := cr_num_computed_tokens r; vllm_block_ids := ids; query_start_loc := start;
        prompt_token_ids := cr_prompt_token_ids r; output_token_ids := cr_output_token_ids r;
        is_preempt := preempted; ucm_block_hashes := hashes |}.

Definition attn_of (a : AttnMetadata + list (string * AttnMetadata)) : res AttnMetadata :=
  match a with
  | inl a => Ok a
  | inr [] => Err StopIteration
  | inr ((_, a) :: _) => Ok a
  end.

(** One round of the loop of [build_sparse_meta]. *)
Definition add_sparse_request (i : StepInput) (decode_set preempt_reqs : list string) (e : string * Z) : M ST unit :=
  let '(req_id, scheduled) := e in
  let! r := lift_res (of_option KeyError (od_get req_id (si_requests i))) in
  if negb (is_sparsed_request c (cr_prompt_token_ids r)) then ret tt
  else
    do! modify (fun s => put_block_hashes
          (set_block_hashes md5 pickle_dumps c req_id (cr_prompt_token_ids r) (esa_block_hashes s)) s) in
    let! a := lift_res (attn_of (si_attn_metadata i)) in
    let! index := lift_res (of_option KeyError (od_get req_id (si_req_id_to_index i))) in
    let! hashes := gets (fun s => default [] (esa_block_hashes s !! req_id)) in
    let preempted := mem req_id preempt_reqs in
    if negb (is_mla c) then
      let! start := lift_res (py_idx (am_query_start_loc a) index) in
      let! m := lift_res (make_meta req_id index scheduled r start preempted hashes) in
      modify (fun s => put_metadata (sparse_metadata s ++ [m]) (sparse_metadata_prefill s) (sparse_metadata_decode s) s)
    else if mem req_id decode_set then
      if am_decode a then
        let! start := lift_res (py_idx (am_query_start_loc a) index) in
        let! m := lift_res (make_meta req_id index scheduled r start preempted hashes) in
        modify (fun s => put_metadata (sparse_metadata s) (sparse_metadata_prefill s) (sparse_metadata_decode s ++ [m]) s)
      else ret tt
    else
      let index := index - am_num_decodes a in
      let! locs := lift_res (of_option AttributeError (am_prefill a)) in
      let! start := lift_res (py_idx locs index) in
      let! m := lift_res (make_meta req_id index scheduled r start preempted hashes) in
      modify (fun s => put_metadata (sparse_metadata s) (sparse_metadata_prefill s ++ [m]) (sparse_metadata_decode s) s).

Definition build_sparse_meta (i : StepInput) : M ST unit :=
  do! modify (put_metadata [] [] []) in
  let decode_set := filter (fun id => default 0 (od_get id (si_num_scheduled_tokens i)) = 1) (si_req_ids i) in
  let preempt_reqs := match si_cached_reqs i with
                      | Some l => (filter (fun e => Is_true e.2) l).*1
                      | None => []
                      end in
  for_ (si_num_scheduled_tokens i) (add_sparse_request i decode_set preempt_reqs).

Definition request_finished_in_worker (id : string) : M ST unit :=
  let! states := gets req_states in
  match od_get id states with
  | None => ret tt
  | Some l =>
      do! for_ l free_layer_state in
      modify (fun s => put_req_states (od_del id (req_states s)) s)
  end.
End esa.

(** *** The methods of [ESA] in the scheduler *)

(** vLLM's [Request], as far as it is read. *)
Record EsaRequest := {
  er_id : string;
  er_preempted : bool;
  er_prompt_token_ids : list Z;
  er_num_prompt_tokens : Z;
  er_num_output_tokens : Z;
  er_num_computed_tokens : Z;
}.

(** The output tokens of a request since it was last preempted. *)
Definition true_output_tokens (preempted : gmap string Z) (r : EsaRequest) : Z :=
  match preempted !! er_id r with
  | Some n => er_num_output_tokens r - n
  | None => er_num_output_tokens r
  end.

Definition compressed_prompt_len (c : EsaConfig) (prompt_len : Z) : res Z :=
  let range := get_sparse_range (init_window_sz c) (local_window_sz c) prompt_len (block_size c) in
  let flaw := prompt_len mod block_size c in
  let local_window_tokens :=
    if flaw =? 0 then block_size c * local_window_sz c
    else flaw + block_size c * (local_window_sz c - 1) in
  let? k := top_k c range in
  Ok (init_window_sz c * block_size c + k * block_size c + local_window_tokens).

(** The first component of the state is [preempt_req_output_tokens]. *)
Definition esa_estimate_num_slots_sparsed (c : EsaConfig) (r : EsaRequest) : M (gmap string Z) Z :=
  do! (if er_preempted r then modify <[er_id r := er_num_output_tokens r]> else ret tt) in
  let! preempted := get in
  if (er_num_computed_tokens r =? 0) || (true_output_tokens preempted r =? 0)
     || negb (is_sparsed_request c (er_prompt_token_ids r))
  then ret BlockPool.INVALID_SLOT
  else
    let! n := lift_res (compressed_prompt_len c (er_num_prompt_tokens r)) in
    ret (n + er_num_output_tokens r).

(** [kv_free] is the manager's [free]. *)
Definition esa_allocate_slots {K} (ops : SlotOps K) (kv_free : string -> SlotState K -> SlotState K)
    (preempted : gmap string Z) (r : EsaRequest) (num_slots_sparsed : Z) : M (SlotState K) (option (list Z)) :=
  do! (if true_output_tokens preempted r =? 1 then modify (kv_free (er_id r)) else ret tt) in
  let! n := gets (blocks_to_allocate ops (er_id r) num_slots_sparsed) in
  let! free := gets (sl_num_free_blocks ops) in
  if free <? n then ret None
  else
    do! modify (sl_allocate_new_blocks ops (er_id r) num_slots_sparsed) in
    let! blocks := gets (fun s => default [] (sl_table s !! er_id r)) in
    ret (Some blocks).
