(* ===== verification/EsaBlocks.v ===== *)
(** * ESA: which blocks are loaded, and under which names

    [diff_two_map] keeps the blocks of the device window that stay selected and
    pairs the others with the places that are free; the hashes a request's
    window is loaded by are a slice of those the connector stores under. *)

From Stdlib Require Import Ascii String.
From S2P Require Import Prelude.
From S2P Require Import Wp.
From S2P Require Import PyStr.
From S2P Require Import StoreApi.
From S2P Require Import Hasher.
From S2P Require Import Layout.
From S2P Require Import Connector.
From S2P Require Import ConnectorWorker.
From S2P Require Import Esa.
From stdpp Require Import strings.
Local Open Scope Z_scope.
Local Open Scope py_scope.

(** ** The changed blocks *)

(** Python iterates over each element of a set once, in some order. *)
Record OrderLaws (so : SetOrders) : Prop := {
  ol_int : forall s, order_int so s ≡ₚ elements s;
  ol_bytes : forall s, order_bytes so s ≡ₚ elements s;
}.

Lemma set_entries_new {K V} `{EqDecision K} (d l : list (K * V)) :
  NoDup (od_keys (d ++ l)) -> foldl (fun m e => od_set e.1 e.2 m) d l = d ++ l.
Proof.
  revert d. induction l as [|[k v] l IH]; intros d Hn; simpl; [by rewrite app_nil_r|].
  rewrite od_set_new.
  - rewrite IH; [by rewrite <- app_assoc|]. by rewrite <- app_assoc.
  - unfold od_keys in *. rewrite fmap_app in Hn. apply NoDup_app in Hn as (_ & Hd & _).
    intros Hk. apply (Hd k Hk). by left.
Qed.

Lemma set_entries_nil {K V} `{EqDecision K} (l : list (K * V)) :
  NoDup (od_keys l) -> foldl (fun m e => od_set e.1 e.2 m) [] l = l.
Proof. intros Hn. by rewrite set_entries_new. Qed.

(** After a prefix [done] of [map1]: what is left to place, and what was kept. *)
Record kept_inv (map2 done : list (Z * bytes)) (ks : gset Z) (vs : gset bytes) (upd : list (Z * bytes)) : Prop := {
  kp_sub : upd `sublist_of` done;
  kp_keys : forall k, (k ∈ od_keys upd \/ k ∈ ks) <-> k ∈ od_keys map2;
  kp_vals : forall x, (x ∈ od_values upd \/ x ∈ vs) <-> x ∈ od_values map2;
  kp_keys_disj : forall k, k ∈ od_keys upd -> k ∉ ks;
  kp_vals_disj : forall x, x ∈ od_values upd -> x ∉ vs;
}.

Lemma keep_entries_spec map2 l done ks vs upd :
  NoDup (od_keys (done ++ l)) -> NoDup (od_values (done ++ l)) -> kept_inv map2 done ks vs upd ->
  exists ks' vs' upd', keep_entries map2 (ks, vs, upd) l = Ok (ks', vs', upd') /\
    kept_inv map2 (done ++ l) ks' vs' upd'.
Proof.
  revert done ks vs upd. induction l as [|[k x] l IH]; intros done ks vs upd Hk Hv Hi.
  { exists ks, vs, upd. by rewrite app_nil_r. }
  destruct Hi as [Hsub HK HV HKd HVd]. simpl.
  assert (Hkn : (k ∉ od_keys done) /\ (x ∉ od_values done)).
  { unfold od_keys, od_values in Hk, Hv. rewrite fmap_app in Hk. rewrite fmap_app in Hv.
    apply NoDup_app in Hk as (_ & Hk & _), Hv as (_ & Hv & _).
    split; intros Hin; [apply (Hk k Hin)|apply (Hv x Hin)]; by left. }
  assert (Hku : k ∉ od_keys upd).
  { intros Hin. apply (proj1 Hkn). unfold od_keys in *. eapply elem_of_submseteq; [exact Hin|].
    by apply sublist_submseteq, sublist_fmap. }
  assert (Hxu : x ∉ od_values upd).
  { intros Hin. apply (proj2 Hkn). unfold od_values in *. eapply elem_of_submseteq; [exact Hin|].
    by apply sublist_submseteq, sublist_fmap. }
  replace (done ++ (k, x) :: l) with ((done ++ [(k, x)]) ++ l) in * by by rewrite <- app_assoc.
  destruct (mem k (od_keys map2) && mem x (od_values map2)) eqn:Hm.
  - apply andb_true_iff in Hm as [Hmk Hmx]. apply mem_spec in Hmk, Hmx.
    assert (k ∈ ks) by (apply HK in Hmk as [?|?]; [done|done]).
    assert (x ∈ vs) by (apply HV in Hmx as [?|?]; [done|done]).
    rewrite !bool_decide_true by done. simpl. apply IH; [done..|].
    rewrite od_set_new by done. split.
    + by apply sublist_app.
    + intros k'. rewrite <- HK. unfold od_keys. rewrite fmap_app. simpl.
      destruct (decide (k' = k)); set_solver.
    + intros x'. rewrite <- HV. unfold od_values. rewrite fmap_app. simpl.
      destruct (decide (x' = x)); set_solver.
    + intros k'. unfold od_keys in *. rewrite fmap_app. set_solver.
    + intros x'. unfold od_values in *. rewrite fmap_app. set_solver.
  - apply IH; [done..|]. split; [|done..]. by apply sublist_inserts_r.
Qed.

(** The new assignment places the blocks of [map2], keeping those that are there
    already; [diff_map] is what has to be loaded. *)
Lemma diff_two_map_spec so map1 map2 :
  OrderLaws so -> NoDup (od_keys map1) -> NoDup (od_values map1) ->
  NoDup (od_keys map2) -> NoDup (od_values map2) ->
  exists kept diff, diff_two_map so map1 map2 = Ok (kept ++ diff, diff) /\
    kept `sublist_of` map1 /\
    od_keys (kept ++ diff) ≡ₚ od_keys map2 /\ od_values (kept ++ diff) ≡ₚ od_values map2.
Proof.
  intros [Hoi Hob] Hk1 Hv1 Hk2 Hv2.
  destruct (keep_entries_spec map2 map1 [] (list_to_set (od_keys map2)) (list_to_set (od_values map2)) [])
    as (ks & vs & kept & Heq & [Hsub HK HV HKd HVd]); [done|done|split; set_solver|].
  unfold diff_two_map. rewrite Heq. simpl in Hsub.
  assert (Hkk : NoDup (od_keys kept)) by (eapply sublist_NoDup; [exact Hk1|by apply sublist_fmap]).
  assert (Hkv : NoDup (od_values kept)) by (eapply sublist_NoDup; [exact Hv1|by apply sublist_fmap]).
  assert (Hpk : od_keys kept ++ elements ks ≡ₚ od_keys map2).
  { apply NoDup_Permutation; [|done|].
    - apply NoDup_app. split; [done|]. split; [|apply NoDup_elements].
      intros k Hk. rewrite elem_of_elements. by apply HKd.
    - intros k. rewrite elem_of_app, elem_of_elements. apply HK. }
  assert (Hpv : od_values kept ++ elements vs ≡ₚ od_values map2).
  { apply NoDup_Permutation; [|done|].
    - apply NoDup_app. split; [done|]. split; [|apply NoDup_elements].
      intros x Hx. rewrite elem_of_elements. by apply HVd.
    - intros x. rewrite elem_of_app, elem_of_elements. apply HV. }
  set (placed := zip (order_int so ks) (order_bytes so vs)).
  assert (Hlen : length (order_int so ks) = length (order_bytes so vs)).
  { rewrite (Permutation_length (Hoi ks)), (Permutation_length (Hob vs)).
    apply Permutation_length in Hpk, Hpv. unfold od_keys, od_values in *.
    rewrite length_app, !length_fmap in Hpk. rewrite length_app, !length_fmap in Hpv.
    pose proof (Permutation_length (Permutation_refl map2)). lia. }
  assert (Hp1 : od_keys placed = order_int so ks) by (apply fst_zip; lia).
  assert (Hp2 : od_values placed = order_bytes so vs) by (apply snd_zip; lia).
  assert (Hall : od_keys (kept ++ placed) ≡ₚ od_keys map2).
  { unfold od_keys in *. by rewrite fmap_app, Hp1, Hoi. }
  exists kept, placed. split; [|split; [done|split; [done|]]].
  - rewrite set_entries_new by by rewrite Hall. rewrite set_entries_nil; [done|].
    rewrite Hp1, Hoi. apply NoDup_elements.
  - unfold od_values in *. by rewrite fmap_app, Hp2, Hob.
Qed.

(** ** The names of the blocks *)
Section names.
Context (md5 : bytes -> bytes) (pickle_dumps : hash_input -> bytes) (c : EsaConfig).
Abbreviation bs := (block_size c).

(** All blocks but the last are full. *)
Lemma full_before n b : 0 < b -> cdiv n b - 1 <= n / b.
Proof. intros Hb. pose proof (cdiv_spec n b Hb). apply Z.div_le_lower_bound; nia. Qed.

Lemma window_hashes_chain h toks parent n i :
  0 < bs -> 0 <= init_window_sz c -> 1 <= local_window_sz c -> 0 <= i ->
  i + Z.of_nat n = cdiv (pylen toks) bs ->
  window_hashes md5 pickle_dumps c h toks (cdiv (pylen toks) bs) ((fun k => bs * (i + Z.of_nat k)) <$> seq 0 n) parent =
  drop (Z.to_nat (init_window_sz c - i))
    (chain md5 pickle_dumps h parent (block_at bs toks <$> zrange i (cdiv (pylen toks) bs - local_window_sz c))).
Proof.
  intros Hbs Hinit Hloc. revert i parent. induction n as [|n IH]; intros i parent Hi Hn.
  - rewrite zrange_nil by lia. simpl. by rewrite drop_nil.
  - cbn [seq fmap list_fmap window_hashes].
    replace (bs * (i + Z.of_nat 0)) with (i * bs) by lia. rewrite Z.div_mul by lia.
    assert (Hrest : forall p, window_hashes md5 pickle_dumps c h toks (cdiv (pylen toks) bs)
        ((fun k => bs * (i + Z.of_nat k)) <$> seq 1 n) p =
      drop (Z.to_nat (init_window_sz c - (i + 1)))
        (chain md5 pickle_dumps h p (block_at bs toks <$> zrange (i + 1) (cdiv (pylen toks) bs - local_window_sz c)))).
    { intros p. rewrite <- IH by lia. rewrite <- fmap_S_seq, <- list_fmap_compose. f_equal.
      apply list_fmap_ext. intros. simpl. lia. }
    destruct (_ <=? i) eqn:Hge.
    + apply Z.leb_le in Hge. rewrite Hrest, !zrange_nil by lia. simpl. by rewrite !drop_nil.
    + apply Z.leb_gt in Hge. replace (i * bs + bs) with ((i + 1) * bs) by lia.
      change (slice toks (i * bs) ((i + 1) * bs)) with (block_at bs toks i).
      assert (i < pylen toks / bs) by (pose proof (full_before (pylen toks) bs Hbs); lia).
      rewrite pylen_block_at, Z.ltb_irrefl by lia. rewrite Hrest.
      rewrite (zrange_cons i) by lia. cbn [fmap list_fmap chain].
      destruct (_ <=? i) eqn:Hwin.
      * apply Z.leb_le in Hwin. replace (Z.to_nat (init_window_sz c - i)) with 0%nat by lia.
        by replace (Z.to_nat (init_window_sz c - (i + 1))) with 0%nat by lia.
      * apply Z.leb_gt in Hwin.
        replace (Z.to_nat (init_window_sz c - i)) with (S (Z.to_nat (init_window_sz c - (i + 1)))) by lia. done.
Qed.

(** The hashes between the windows are a slice of the connector's. *)
Lemma window_hashes_slice h toks parent :
  0 < bs -> 0 <= init_window_sz c -> 1 <= local_window_sz c ->
  let total := cdiv (pylen toks) bs in
  window_hashes md5 pickle_dumps c h toks total (pyrange 0 (pylen toks) bs) parent =
  slice (generate_hash md5 pickle_dumps h bs toks parent) (init_window_sz c) (Z.max 0 (total - local_window_sz c)).
Proof.
  intros Hbs Hinit Hloc total. pose proof (pylen_nonneg toks).
  pose proof (cdiv_nonneg (pylen toks) bs Hbs ltac:(lia)) as Ht. fold total in Ht.
  pose proof (full_before (pylen toks) bs Hbs) as Hfull. fold total in Hfull.
  assert (0 <= pylen toks / bs) by (apply Z.div_pos; lia).
  assert (Hfb : pylen (generate_hash md5 pickle_dumps h bs toks parent) = pylen toks / bs) by by apply pylen_generate_hash.
  transitivity (drop (Z.to_nat (init_window_sz c))
    (chain md5 pickle_dumps h parent (block_at bs toks <$> zrange 0 (total - local_window_sz c)))).
  { pose proof (window_hashes_chain h toks parent (Z.to_nat total) 0) as Hc. rewrite Z.sub_0_r in Hc.
    fold total in Hc. rewrite <- Hc by lia. unfold pyrange. by rewrite Z.sub_0_r. }
  rewrite slice_nonneg by lia. rewrite generate_hash_chain by done.
  rewrite <- skipn_firstn_comm, chain_take, take_full_blocks by lia.
  destruct (decide (total - local_window_sz c <= 0)).
  - by rewrite !zrange_nil by lia.
  - by rewrite Z2Nat.id, Z.max_r by lia.
Qed.
End names.

(** C35. The blocks ESA loads go by the names they were stored with: between the
    first and the last blocks of the prompt, in order, the ids the connector of
    the same rank loads and dumps under; and there is one for every block of
    the sparse range, so that the block a slot stands for has its hash at the
    slot's relative index. *)
Theorem esa_hashes_are_the_connectors md5 pickle_dumps (c : EsaConfig) (conn : ConnConfig) toks :
  0 < block_size c -> 0 <= init_window_sz c -> 1 <= local_window_sz c ->
  tp_rank conn = rank c -> Connector.is_mla conn = is_mla c -> request_hasher conn = hasher c (rank c) ->
  let range := get_sparse_range (init_window_sz c) (local_window_sz c) (pylen toks) (block_size c) in
  let ids := generate_hash md5 pickle_dumps (hasher c 0) (block_size c) toks (seed md5 pickle_dumps (hasher c 0)) in
  0 <= range ->
  new_block_hashes md5 pickle_dumps c toks
    = slice (load_key_ids md5 pickle_dumps conn ids) (init_window_sz c) (init_window_sz c + range) /\
  (is_mla c = false \/ rank c = 0 -> load_key_ids md5 pickle_dumps conn ids = dump_key_ids md5 pickle_dumps conn ids) /\
  pylen (new_block_hashes md5 pickle_dumps c toks) = range.
Proof.
  intros Hbs Hinit Hloc Hrank Hmla Hh range ids Hr.
  assert (Hw : new_block_hashes md5 pickle_dumps c toks =
    slice (load_key_ids md5 pickle_dumps conn ids) (init_window_sz c) (init_window_sz c + range)).
  { unfold new_block_hashes. rewrite window_hashes_slice by done. fold ids.
    rewrite Z.max_r by (unfold range, get_sparse_range in Hr; lia).
    replace (cdiv (pylen toks) (block_size c) - local_window_sz c) with (init_window_sz c + range)
      by (unfold range, get_sparse_range; lia).
    unfold load_key_ids, rehash. rewrite Hrank, Hmla, Hh. destruct (_ && _); [apply slice_fmap|done]. }
  split; [done|]. split.
  - unfold load_key_ids, dump_key_ids. rewrite Hrank, Hmla.
    intros [->| ->]; [by rewrite andb_true_r|done].
  - rewrite Hw. assert (Hl : pylen (load_key_ids md5 pickle_dumps conn ids) = pylen toks / block_size c).
    { unfold load_key_ids, rehash. destruct (_ && _); [rewrite pylen_fmap|]; by apply pylen_generate_hash. }
    rewrite pylen_slice by lia.
    rewrite Hl. pose proof (full_before (pylen toks) (block_size c) Hbs).
    unfold range, get_sparse_range in *. lia.
Qed.
