(* ===== verification/EsaRuns.v ===== *)
(** * ESA: what the device window holds

    Transfers go on while the model computes, and only the blocks that change
    are loaded: at every attention of the decoding the window holds exactly the
    stored blocks of the retrieval that counts for the step, and the hooks fail with the store's and
    the workers' errors only. *)

From Stdlib Require Import Ascii String.
From S2P Require Import Prelude.
From S2P Require Import Wp.
From S2P Require Import PyStr.
From S2P Require Import StoreApi.
From S2P Require Import Hasher.
From S2P Require Import Layout.
From S2P Require Import DeviceMem.
From S2P Require Import Connector.
From S2P Require Import ConnectorWorker.
From S2P Require Import Esa.
From S2P Require Import EsaBlocks.
From stdpp Require Import strings.
Local Open Scope Z_scope.
Local Open Scope py_scope.

(** ** Transfers into the window *)

Section transfers.
Context {W D : Type} `{StoreLaws W D} `{!KvMem W D} `{!KvMemLaws W D}.
(** the device addresses the transfers may write *)
Context (region : list Z).

(** A load: its task, the blocks, their shard and their destinations. *)
Abbreviation transfer := (task * (list bytes * Z * list Z))%type.

(** The loads of a list are in flight, and no other writes the region. *)
Record own (w : W) (ls : list transfer) : Prop := {
  own_flight : forall t hs sh dst, (t, (hs, sh, dst)) ∈ ls -> length hs = length dst /\
    flights w t = Some (FLoad hs (py_repeat sh (pylen hs)) ((fun a => [a]) <$> dst));
  own_tasks : NoDup ls.*1;
  own_dst : NoDup (concat ((fun l => l.2.2) <$> ls));
  own_region : forall l a, l ∈ ls -> a ∈ l.2.2 -> a ∈ region;
  own_others : forall t hs shs rows, flights w t = Some (FLoad hs shs rows) ->
    t ∈ ls.*1 \/ forall a, a ∈ region -> a ∉ concat rows;
}.

Definition free_of (ls : list transfer) (a : Z) : Prop := a ∈ region /\ forall l, l ∈ ls -> a ∉ l.2.2.

(** Nothing but the destinations of the loads has changed, and no dump has started. *)
Definition undisturbed (ls : list transfer) (w w' : W) : Prop :=
  (forall a, free_of ls a -> devmem w' a = devmem w a) /\
  (forall id sh, ~ writing w id sh -> stored w' id sh = stored w id sh /\ ~ writing w' id sh).

Lemma keeps_refl ls w : undisturbed ls w w.
Proof. done. Qed.

Lemma keeps_trans ls1 ls2 ls w1 w2 w3 :
  undisturbed ls1 w1 w2 -> undisturbed ls2 w2 w3 -> (forall a, free_of ls a -> free_of ls1 a /\ free_of ls2 a) -> undisturbed ls w1 w3.
Proof.
  intros [M1 S1] [M2 S2] Hf. split.
  - intros a [F1 F2]%Hf. by rewrite M2, M1.
  - intros id sh Hw. destruct (S1 _ _ Hw) as [E1 Hw1]. destruct (S2 _ _ Hw1) as [E2 Hw2].
    split; [congruence|done].
Qed.

Lemma concat_singletons (dst : list Z) : concat ((fun a => [a]) <$> dst) = dst.
Proof. induction dst; simpl; f_equal; done. Qed.

Lemma own_not_busy w ls a : own w ls -> free_of ls a -> ~ busy w a.
Proof.
  intros Ho [Ha Hn] (t & hs & shs & rows & Hf & Hin).
  destruct (own_others _ _ Ho _ _ _ _ Hf) as [Ht|Ht].
  - apply list_elem_of_fmap in Ht as ([t' [[hs' sh'] dst]] & -> & Hl).
    destruct (own_flight _ _ Ho _ _ _ _ Hl) as [_ Hf']. simpl in Hf. rewrite Hf in Hf'.
    injection Hf' as -> -> ->. rewrite concat_singletons in Hin. by apply (Hn _ Hl).
  - by eapply Ht.
Qed.

Lemma own_not_writing (w w' : W) t f id sh :
  flights_add w w' t f -> (forall hs shs rows ds, f <> FDump hs shs rows ds) -> ~ writing w id sh -> ~ writing w' id sh.
Proof.
  intros [_ Hf] Hl Hw (t' & hs & shs & rows & ds & i & Hf' & Hx).
  apply Hf in Hf' as [[-> Hf']|Hf']; [by eapply Hl|]. apply Hw. by exists t', hs, shs, rows, ds, i.
Qed.

Lemma own_load w ls hs sh dst t w' :
  own w ls -> load_data hs (py_repeat sh (pylen hs)) ((fun a => [a]) <$> dst) w = (Ok t, w') ->
  length hs = length dst -> NoDup dst -> (forall a, a ∈ dst -> free_of ls a) ->
  own w' (ls ++ [(t, (hs, sh, dst))]) /\ undisturbed (ls ++ [(t, (hs, sh, dst))]) w w'.
Proof.
  intros Ho Hl Hlen Hnd Hfree. apply load_data_ok in Hl as [[Hnew Hf] [Hm Hs]].
  assert (Ho' : own w' (ls ++ [(t, (hs, sh, dst))])).
  { split.
    - intros t' hs' sh' dst' [Hin|Hin%list_elem_of_singleton]%elem_of_app.
      + destruct (own_flight _ _ Ho _ _ _ _ Hin) as [? ?]. split; [done|]. apply Hf. by right.
      + injection Hin as -> -> -> ->. split; [done|]. apply Hf. by left.
    - rewrite fmap_app. apply NoDup_app. split; [apply Ho|]. split; [|apply NoDup_singleton].
      simpl. intros t' Ht' Ht%list_elem_of_singleton. subst t'. apply list_elem_of_fmap in Ht' as ([? [[??]?]] & -> & Hin).
      apply (own_flight _ _ Ho) in Hin as [_ Hin]. simpl in *. by rewrite Hnew in Hin.
    - rewrite fmap_app, concat_app. simpl. rewrite app_nil_r. apply NoDup_app. split; [apply Ho|].
      split; [|done]. intros a Ha Hd. apply Hfree in Hd as [_ Hd].
      apply elem_of_concat in Ha as (l & Hl & Ha). apply list_elem_of_fmap in Hl as (l' & -> & Hl').
      by apply (Hd _ Hl').
    - intros l a [Hin| ->%list_elem_of_singleton]%elem_of_app Ha; [by eapply (own_region _ _ Ho)|].
      by apply Hfree.
    - intros t' hs' shs rows [[-> _]|Hin]%Hf; [left; rewrite fmap_app; set_solver|].
      destruct (own_others _ _ Ho _ _ _ _ Hin); [left; rewrite fmap_app; set_solver|by right]. }
  split; [done|]. split.
  - intros a Ha. apply Hm; [|by eapply own_not_busy].
    apply (own_not_busy _ _ _ Ho). split; [apply Ha|]. intros l Hl. apply Ha. set_solver.
  - intros id s Hw. assert (~ writing w' id s) by (eapply own_not_writing; [by split| |done]; done).
    split; [by apply Hs|done].
Qed.

Lemma own_wait w t x ls w' :
  own w ((t, x) :: ls) -> wait t w = (Ok tt, w') ->
  own w' ls /\ undisturbed ((t, x) :: ls) w w' /\
  (forall i h a d, x.1.1 !! i = Some h -> x.2 !! i = Some a -> ~ writing w h x.1.2 ->
     stored w h x.1.2 = Some [d] -> devmem w' a = d).
Proof.
  intros Ho Hw. destruct x as [[hs sh] dst].
  destruct (own_flight _ _ Ho t hs sh dst ltac:(by left)) as [Hlen Hfl].
  pose proof (wait_flights _ _ _ _ Hw) as [Hf [Hm Hs]].
  pose proof (own_tasks _ _ Ho) as Hnt. simpl in Hnt. apply NoDup_cons in Hnt as [Hnt1 Hnt2].
  pose proof (own_dst _ _ Ho) as Hnd. simpl in Hnd. apply NoDup_app in Hnd as (Hd1 & Hd2 & Hd3).
  assert (Ho' : own w' ls).
  { split; [|done|done|..].
    - intros t' hs' sh' dst' Hin. destruct (own_flight _ _ Ho t' hs' sh' dst' ltac:(by right)) as [? ?].
      split; [done|]. apply Hf. split; [|done]. intros ->. apply Hnt1, list_elem_of_fmap. by eexists (_, _).
    - intros l a Hl. eapply (own_region _ _ Ho). by right.
    - intros t' hs' shs rows [Hne Hin]%Hf.
      destruct (own_others _ _ Ho _ _ _ _ Hin) as [[->|]%elem_of_cons|]; [done|by left|by right]. }
  assert (Hnw : forall id s, ~ writing w id s -> ~ writing w' id s).
  { intros id s Hn (t' & a1 & a2 & a3 & a4 & i & [_ Hin]%Hf & Hx). apply Hn. by exists t', a1, a2, a3, a4, i. }
  split; [done|]. split; [split|].
  - intros a [Ha Hn]. apply Hm; [by eapply own_not_busy|].
    apply (own_not_busy _ _ _ Ho'). split; [done|]. intros l Hl. apply Hn. by right.
  - intros id s Hn. split; [apply Hs; auto|auto].
  - intros i h a d Hh Ha Hn Hst. simpl in *.
    assert (devmem w' <$> [a] = [d]) as [= ?]; [|done].
    eapply (wait_load t w w' hs _ _ i h sh [a] [d]); [exact Hw|exact Hfl|..]; try done.
    + by rewrite concat_singletons.
    + intros t' hs' shs rows Hf' Hne b Hb. rewrite concat_singletons in Hb.
      destruct (own_others _ _ Ho _ _ _ _ Hf') as [[->|Hin]%elem_of_cons|Hin]; [done| |].
      * apply list_elem_of_fmap in Hin as ([? [[??] dst']] & -> & Hin). simpl in *.
        destruct (own_flight _ _ Ho _ _ _ _ (list_elem_of_further _ _ _ Hin)) as [_ Hf2].
        rewrite Hf' in Hf2. injection Hf2 as -> -> ->. rewrite concat_singletons. intros Hb'.
        apply (Hd2 b Hb), elem_of_concat. exists dst'. split; [|done]. apply list_elem_of_fmap.
        by eexists (_, (_, _, _)).
      * apply Hin. eapply (own_region _ _ Ho); [by left|]. done.
    + split; [done|]. split; [|by rewrite list_lookup_fmap, Ha].
      unfold py_repeat. apply lookup_replicate_2. apply lookup_lt_Some in Hh. unfold pylen. lia.
Qed.
End transfers.

(** ** The retrieval workers *)

(** What was asked of a task: the query, how many blocks, and among which
    slots; [relevant] is the worker's notion of the best ones. *)
Class RetrievalView (R Q : Type) `{Retrieval R Q} : Type := {
  asked : R -> Z -> rtask -> option (Q * Z * list (list Z));
  relevant : Q -> Z -> list Z -> list Z -> Prop;
}.

Class RetrievalLaws (R Q : Type) `{RetrievalView R Q} : Prop := {
  (** a query of the wrong shape is refused *)
  rl_submit_err : forall lid q n idx r e r', r_submit lid q n idx r = (Err e, r') -> is_runtime_error e = true;
  rl_submit : forall lid q n idx r t r',
    r_submit lid q n idx r = (Ok t, r') -> asked r' lid t = Some (q, n, idx);
  (** [wait] returns when the task is done, its result is then there once *)
  rl_result : forall r lid t q n idx, asked r lid t = Some (q, n, idx) ->
    exists r1 rows r2, r_wait lid t r = (Ok tt, r1) /\ r_get_result lid t r1 = (Ok rows, r2) /\
      Forall2 (relevant q n) idx rows;
  (** the best [n] of a row, or all of them *)
  rl_relevant : forall q n idx row, relevant q n idx row -> NoDup idx -> 0 <= n ->
    NoDup row /\ row ⊆ idx /\ pylen row = Z.min n (pylen idx);
}.

(** ** The window of one request in one layer *)

(** Two contiguous caches of [n] blocks in elements of the model's type, apart
    from each other. *)
Record cache_ok {T} `{TensorOps T} (c : EsaConfig) (n : Z) (t : T) : Prop := {
  co_blocks : hd 0 (t_shape t) = n;
  co_item : t_element_size t = itemsize c;
  co_size : 0 < block_numel t * t_element_size t;
  co_base : 0 <= t_data_ptr t;
  co_end : t_data_ptr t + n * (block_numel t * t_element_size t) <= 2 ^ 64;
}.

Section caches.
Context {T : Type} `{TensorOps T} (c : EsaConfig) (n : Z) (t : T) (Ht : cache_ok c n t).

Lemma addr_inj i j : addr t i = addr t j -> i = j.
Proof. unfold addr. pose proof (co_size _ _ _ Ht). nia. Qed.

Lemma block_ptr_addr id : 0 <= id < n -> block_ptr c t id = addr t id.
Proof.
  intros Hid. unfold block_ptr, addr, u64. rewrite <- (co_item _ _ _ Ht). apply Z.mod_small.
  pose proof (co_size _ _ _ Ht). pose proof (co_base _ _ _ Ht). pose proof (co_end _ _ _ Ht).
  generalize dependent (block_numel t * t_element_size t). intros sz. nia.
Qed.

Lemma ptr_rows_ok ids : ids_ok n ids -> ptr_rows c t ids = Ok ((fun a => [a]) <$> (addr t <$> ids)).
Proof.
  intros Hi. unfold ptr_rows. pose proof (co_size _ _ _ Ht). pose proof (co_base _ _ _ Ht).
  pose proof (co_end _ _ _ Ht). rewrite (proj2 (forallb_forall _ _)).
  - f_equal. rewrite <- list_fmap_compose. apply list_fmap_ext. intros i id Hid.
    apply (Forall_lookup_1 _ _ _ _ Hi) in Hid. simpl. by rewrite block_ptr_addr.
  - intros id Hid%list_elem_of_In. unfold ids_ok in Hi. rewrite Forall_forall in Hi. apply Hi in Hid.
    apply andb_true_iff. rewrite Z.leb_le, Z.ltb_lt. split; [lia|].
    generalize dependent (block_numel t * t_element_size t). intros sz. nia.
Qed.

Lemma cache_addr_ok id : 0 <= id < n -> cache_addr t id = Ok (addr t id).
Proof.
  intros Hid. unfold cache_addr. rewrite (co_blocks _ _ _ Ht).
  rewrite (proj2 (Z.leb_le _ _)), (proj2 (Z.ltb_lt _ _)), (proj2 (Z.ltb_ge _ _)) by lia. done.
Qed.

Lemma NoDup_addrs ids : NoDup ids -> NoDup (addr t <$> ids).
Proof. apply NoDup_fmap_2. intros i j. apply addr_inj. Qed.
End caches.

(** The hooks around an attention. *)
Inductive Hook := Begin | Finish.
#[global] Instance hook_eq_dec : EqDecision Hook.
Proof. solve_decision. Defined.

Section window.
Context {T W D R Q F : Type} `{TensorOps T} `{StoreLaws W D} `{!KvMem W D} `{!KvMemLaws W D} `{RetrievalLaws R Q}.
Context (so : SetOrders) (Hso : OrderLaws so) (c : EsaConfig) (Hmla : is_mla c = false).
Context (thf : list bytes -> string -> string -> Z)
  (Hthf : forall hs ty, thf hs ty "key" <> thf hs ty "value").
Context (query_rows : Q -> Z -> Z -> Q).
Context (k v : T) (n : Z) (Hk : cache_ok c n k) (Hv : cache_ok c n v)
  (Hkv : forall i j, 0 <= i < n -> 0 <= j < n -> addr k i <> addr v j).
(** the layer, the blocks of the request's window, and the hashes of its sparse
    blocks *)
Context (lid : Z) (ids : list Z) (Hids : ids_ok n ids) (Hnd : NoDup ids) (hs_all : list bytes) (Hhs : NoDup hs_all).
Abbreviation RS := (ReqStatePerLayer T D rtask task).
Abbreviation LS := (RS * Shared W R F)%type.
Implicit Types (rs : RS) (sh : Shared W R F) (w : W).

Definition region : list Z := (addr k <$> ids) ++ (addr v <$> ids).
Abbreviation own := (own region).
Abbreviation undisturbed := (undisturbed region).
Abbreviation free_of := (free_of region).

(** Block [id] of the window holds the stored keys and values of block [h]. *)
Definition in_window w (id : Z) (h : bytes) : Prop :=
  stored w h lid = Some [devmem w (addr k id)] /\ stored w h (lid + num_layers c) = Some [devmem w (addr v id)].

(** The blocks of the sparse range are in the store, and stay as they are. *)
Definition all_stored w : Prop := forall h, h ∈ hs_all ->
  (exists d, stored w h lid = Some [d]) /\ (exists d, stored w h (lid + num_layers c) = Some [d]) /\
  ~ writing w h lid /\ ~ writing w h (lid + num_layers c).

(** The two loads of some blocks of the window. *)
Definition loads_of (tk tv : task) (diff : list (Z * bytes)) : list (task * (list bytes * Z * list Z)) :=
  [(tk, (od_values diff, lid, addr k <$> od_keys diff));
   (tv, (od_values diff, lid + num_layers c, addr v <$> od_keys diff))].

(** [diff] is still to arrive. *)
Record loading rs w (diff : list (Z * bytes)) : Prop := {
  ld_own : exists ls, own w ls /\ (tasks rs).*2 = ls.*1 /\
    ((diff = [] /\ ls = []) \/ exists tk tv, ls = loads_of tk tv diff);
  ld_tasks : diff = [] -> tasks rs = [];
  ld_kept : exists kept, pre_topk_block_hashes rs = kept ++ diff /\
    forall id h, (id, h) ∈ kept -> in_window w id h;
  ld_keys : NoDup (od_keys (pre_topk_block_hashes rs));
  ld_vals : NoDup (od_values (pre_topk_block_hashes rs));
  ld_ids : forall id, id ∈ od_keys (pre_topk_block_hashes rs) -> id ∈ ids;
  ld_hashes : forall h, h ∈ od_values (pre_topk_block_hashes rs) -> h ∈ hs_all;
}.

Lemma all_stored_keeps ls w w' : all_stored w -> undisturbed ls w w' -> all_stored w'.
Proof.
  intros Ha [_ Hs] h Hh. destruct (Ha h Hh) as ((dk & Hdk) & (dv & Hdv) & Hwk & Hwv).
  destruct (Hs _ _ Hwk) as [Ek ?], (Hs _ _ Hwv) as [Ev ?].
  split; [exists dk; congruence|]. split; [exists dv; congruence|]. done.
Qed.

Lemma in_window_keeps ls w w' id h : all_stored w -> h ∈ hs_all -> undisturbed ls w w' ->
  free_of ls (addr k id) -> free_of ls (addr v id) -> in_window w id h -> in_window w' id h.
Proof.
  intros Ha Hh [Hm Hs] Fk Fv [Ik Iv]. destruct (Ha h Hh) as (_ & _ & Hwk & Hwv).
  destruct (Hs _ _ Hwk) as [Ek _], (Hs _ _ Hwv) as [Ev _]. unfold in_window.
  by rewrite Ek, Ev, (Hm _ Fk), (Hm _ Fv).
Qed.

Lemma elem_of_region_k id : id ∈ ids -> addr k id ∈ region.
Proof. intros Hid. apply elem_of_app. left. by apply list_elem_of_fmap_2. Qed.
Lemma elem_of_region_v id : id ∈ ids -> addr v id ∈ region.
Proof. intros Hid. apply elem_of_app. right. by apply list_elem_of_fmap_2. Qed.

Lemma ids_range id : id ∈ ids -> 0 <= id < n.
Proof. intros Hid. unfold ids_ok in Hids. rewrite Forall_forall in Hids. auto. Qed.

(** *** Waiting for the loads *)

Lemma free_of_cons l ls a : free_of (l :: ls) a <-> free_of ls a /\ a ∉ l.2.2.
Proof.
  split.
  - intros [Ha Hn]. split; [split; [done|]|]; [intros l' Hl'; apply Hn; by right|apply Hn; by left].
  - intros [[Ha Hn] Hl]. split; [done|]. intros l' [->|Hl']%elem_of_cons; auto.
Qed.

Lemma own_head w t hs shd dst ls a : own w ((t, (hs, shd, dst)) :: ls) -> a ∈ dst -> free_of ls a.
Proof.
  intros Ho Ha. split; [eapply (own_region _ _ _ Ho); [by left|done]|]. intros l Hl Hla.
  pose proof (own_dst _ _ _ Ho) as Hd. simpl in Hd. apply NoDup_app in Hd as (_ & Hd & _).
  apply (Hd a Ha), elem_of_concat. exists l.2.2. split; [|done]. apply list_elem_of_fmap. by exists l.
Qed.

Lemma wait_all ls ts rs sh : own (world sh) ls -> ts.*2 = ls.*1 ->
  wpx is_runtime_error (for_ ts (fun e : Z * task => store_call (wait e.2)))
    (fun _ s' => exists w', s' = (rs, put_world w' sh) /\ own w' [] /\ undisturbed ls (world sh) w' /\
       forall l i h a d, l ∈ ls -> l.2.1.1 !! i = Some h -> l.2.2 !! i = Some a ->
         ~ writing (world sh) h l.2.1.2 -> stored (world sh) h l.2.1.2 = Some [d] -> devmem w' a = d)
    (rs, sh).
Proof.
  revert ls sh. induction ts as [|[x t] ts IH]; intros [|[t' [[hs shd] dst]] ls] sh Ho Hts; try done.
  { apply wpx_wp, wp_ret. exists (world sh). destruct sh. split; [done|]. split; [done|]. split; [done|].
    intros ????? Hl. by apply elem_of_nil in Hl. }
  injection Hts as <- Hts. simpl. apply wpx_bind. apply wpx_zoom. simpl.
  apply wpx_of; [intros e w' Hw; by eapply wait_err|]. intros [] w1 Hw.
  destruct (own_wait _ _ _ _ _ _ Ho Hw) as (Ho1 & Hk1 & Hl1).
  eapply wpx_mono; [apply (IH ls (put_world w1 sh) Ho1 Hts)|]. intros [] s' (w' & -> & Ho' & Hk' & Hl').
  exists w'. split; [done|]. split; [done|]. split.
  - eapply keeps_trans; [exact Hk1|exact Hk'|]. intros a Ha. split; [done|]. by apply free_of_cons in Ha as [? _].
  - intros l i h a d [->|Hl]%elem_of_cons Hh Ha Hnw Hst; simpl in *.
    + rewrite (proj1 Hk'); [by eapply Hl1|]. eapply own_head; [exact Ho|]. by eapply list_elem_of_lookup_2.
    + destruct (proj2 Hk1 _ _ Hnw) as [Es Hnw1]. eapply Hl'; [exact Hl|done|done|done|congruence].
Qed.

Lemma length_od_keys {K V} (d : list (K * V)) : length (od_keys d) = length d.
Proof. apply length_fmap. Qed.

Lemma kept_free diff id ls :
  (forall j, j ∈ od_keys diff -> j ∈ ids) -> id ∈ ids -> id ∉ od_keys diff ->
  ((diff = [] /\ ls = []) \/ exists tk tv, ls = loads_of tk tv diff) ->
  free_of ls (addr k id) /\ free_of ls (addr v id).
Proof.
  intros Hsub Hid Hn Hls.
  assert (Hdi : forall j, j ∈ od_keys diff -> 0 <= j < n) by (intros j Hj; by apply ids_range, Hsub).
  assert (Hi := ids_range id Hid).
  destruct Hls as [[-> ->]|(tk & tv & ->)].
  { split; (split; [by apply elem_of_region_k || by apply elem_of_region_v|]); intros l Hl; by apply elem_of_nil in Hl. }
  split; (split; [by apply elem_of_region_k || by apply elem_of_region_v|]);
    intros l [->| ->%list_elem_of_singleton]%elem_of_cons; simpl; intros (j & Hj & Hjd)%list_elem_of_fmap.
  - apply Hn. by rewrite (addr_inj _ _ _ Hk _ _ Hj).
  - by eapply Hkv, Hj; auto.
  - symmetry in Hj. by eapply Hkv, Hj; auto.
  - apply Hn. by rewrite (addr_inj _ _ _ Hv _ _ Hj).
Qed.

Lemma wait_loading rs sh diff : loading rs (world sh) diff -> all_stored (world sh) ->
  wpx is_runtime_error wait_transfer_task_done
    (fun _ s' => exists w', s' = (with_tasks [] rs, put_world w' sh) /\
       loading (with_tasks [] rs) w' [] /\ all_stored w') (rs, sh).
Proof.
  intros Hld Hst. destruct (ld_own _ _ _ Hld) as (ls & Ho & Hts & Hls).
  destruct (ld_kept _ _ _ Hld) as (kept & Hpre & Hin).
  unfold wait_transfer_task_done, req, on_req. wp_steps. simpl.
  eapply wpx_mono; [apply (wait_all ls _ rs sh Ho Hts)|]. intros [] s' (w' & -> & Ho' & Hk' & Hl').
  wp_steps. simpl. exists w'. split; [done|]. split; [|by eapply all_stored_keeps].
  split; simpl; [exists []; by auto|done| |apply Hld..].
  exists (pre_topk_block_hashes rs). rewrite app_nil_r. split; [done|]. intros id h Hidh.
  assert (Hh : h ∈ hs_all) by (apply (ld_hashes _ _ _ Hld), list_elem_of_fmap; by exists (id, h)).
  assert (Hid : id ∈ ids) by (apply (ld_ids _ _ _ Hld), list_elem_of_fmap; by exists (id, h)).
  destruct (Hst h Hh) as ((dk & Hdk) & (dv & Hdv) & Hwk & Hwv).
  destruct (decide (id ∈ od_keys diff)) as [Hd|Hd].
  - (* one of the blocks that were loaded *)
    assert (Hidd : (id, h) ∈ diff).
    { rewrite Hpre in Hidh. apply elem_of_app in Hidh as [Hkept|]; [|done]. exfalso.
      pose proof (ld_keys _ _ _ Hld) as Hnk. rewrite Hpre in Hnk. unfold od_keys in Hnk, Hd.
      rewrite fmap_app in Hnk. apply NoDup_app in Hnk as (_ & Hnk & _). apply (Hnk id); [|done].
      apply list_elem_of_fmap. by exists (id, h). }
    destruct Hls as [[-> _]|(tk & tv & ->)]; [by apply elem_of_nil in Hidd|].
    apply list_elem_of_lookup in Hidd as [i Hi].
    assert (Hv1 : od_values diff !! i = Some h) by (unfold od_values; by rewrite list_lookup_fmap, Hi).
    assert (Hk1 : od_keys diff !! i = Some id) by (unfold od_keys; by rewrite list_lookup_fmap, Hi).
    unfold in_window. destruct (proj2 Hk' _ _ Hwk) as [-> _], (proj2 Hk' _ _ Hwv) as [-> _].
    rewrite Hdk, Hdv. split; do 2 f_equal; symmetry.
    + eapply (Hl' (tk, (od_values diff, lid, addr k <$> od_keys diff)) i h); simpl; [by left|done|by rewrite list_lookup_fmap, Hk1|done|done].
    + eapply (Hl' (tv, (od_values diff, lid + num_layers c, addr v <$> od_keys diff)) i h); simpl; [by right; left|done|by rewrite list_lookup_fmap, Hk1|done|done].
  - destruct (kept_free diff id ls) as [Fk Fv]; [|done..|].
    { intros j Hj. apply (ld_ids _ _ _ Hld). rewrite Hpre. unfold od_keys in *. rewrite fmap_app. set_solver. }
    eapply in_window_keeps; [exact Hst|done|exact Hk'|done|done|]. apply Hin.
    rewrite Hpre in Hidh. apply elem_of_app in Hidh as [|Hidd]; [done|]. exfalso. apply Hd, list_elem_of_fmap.
    by exists (id, h).
Qed.

(** *** Starting the loads *)

(** What was set up when the prompt was complete and does not change: the block
    a slot stands for is at the slot's position. *)
Record static rs : Prop := {
  st_lid : layer_id rs = lid;
  st_k : k_cache rs = Some k;
  st_v : v_cache rs = Some v;
  st_hashes : block_hashes rs = Some hs_all;
  st_flag : init_static_flag rs = true;
  st_slots : NoDup (slots rs);
  st_index : slots_to_relative_indexes rs = zip (slots rs) (zrange 0 (pylen (slots rs)));
  st_len : pylen (slots rs) = pylen hs_all;
  st_topk : top_k c (sparse_range rs) = Ok (pylen ids);
  st_room : pylen ids <= pylen (slots rs);
}.

(** The block behind a slot. *)
Definition hash_of rs (s : Z) (h : bytes) : Prop := exists i : nat, slots rs !! i = Some s /\ hs_all !! i = Some h.

(** The window is assigned to the best blocks for a query. *)
Definition selected rs (q : Q) : Prop := exists chosen hashes,
  relevant q (pylen ids) (slots rs) chosen /\ Forall2 (hash_of rs) chosen hashes /\
  od_keys (pre_topk_block_hashes rs) ≡ₚ ids /\ od_values (pre_topk_block_hashes rs) ≡ₚ hashes.

Lemma launch_spec rs sh diff :
  static rs -> own (world sh) [] -> tasks rs = [] -> NoDup (od_keys diff) -> (forall i, i ∈ od_keys diff -> i ∈ ids) ->
  wpx is_runtime_error (launch_transfer_task c thf "load" (od_values diff) (od_keys diff))
    (fun _ s' => exists tk tv ts w', s' = (with_tasks ts rs, put_world w' sh) /\ ts.*2 = [tk; tv] /\
       own w' (loads_of tk tv diff) /\ undisturbed (loads_of tk tv diff) (world sh) w') (rs, sh).
Proof.
  intros Hs Ho Hts Hnk Hsub.
  assert (Hok : ids_ok n (od_keys diff)) by (apply Forall_forall; intros i Hi; by apply ids_range, Hsub).
  assert (Hlen : length (od_values diff) = length (od_keys diff)) by (unfold od_values, od_keys; by rewrite !length_fmap).
  unfold launch_transfer_task, k_tensor, req, the, submit_transfer, on_req. wp_steps. simpl.
  rewrite (st_k _ Hs). simpl. wp_steps. simpl. rewrite (st_lid _ Hs), (ptr_rows_ok _ _ _ Hk _ Hok). wp_steps.
  apply wpx_zoom. apply wpx_of; [intros e w' Hw; by eapply load_data_err|]. intros tk w1 Hw1. simpl.
  destruct (own_load _ _ _ _ _ _ _ _ Ho Hw1) as [Ho1 Hk1]; [by rewrite length_fmap|by apply (NoDup_addrs c n)|..].
  { intros a (j & -> & Hj)%list_elem_of_fmap. split; [by apply elem_of_region_k, Hsub|]. intros l Hl. by apply elem_of_nil in Hl. }
  wp_steps. simpl. rewrite Hmla, (st_v _ Hs). simpl. wp_steps. rewrite (ptr_rows_ok _ _ _ Hv _ Hok). wp_steps.
  apply wpx_zoom. apply wpx_of; [intros e w' Hw; by eapply load_data_err|]. intros tv w2 Hw2. simpl.
  destruct (own_load _ _ _ _ _ _ _ _ Ho1 Hw2) as [Ho2 Hk2]; [by rewrite length_fmap|by apply (NoDup_addrs c n)|..].
  { intros a (j & -> & Hj)%list_elem_of_fmap. split; [by apply elem_of_region_v, Hsub|].
    intros l ->%list_elem_of_singleton. simpl. intros (i & Hi & Hid)%list_elem_of_fmap. symmetry in Hi.
    eapply Hkv, Hi; by apply ids_range, Hsub. }
  wp_steps. simpl. rewrite Hts. simpl. rewrite decide_False by by apply not_eq_sym, Hthf.
  eexists tk, tv, _, w2. split; [done|]. split; [done|]. split; [done|].
  eapply keeps_trans; [exact Hk1|exact Hk2|]. intros a [Ha Hn]. split; (split; [done|]); intros l Hl; apply Hn; set_solver.
Qed.

Lemma index_of rs s (i : nat) : static rs ->
  slots rs !! i = Some s -> od_get s (slots_to_relative_indexes rs) = Some (Z.of_nat i).
Proof.
  intros Hs Hi. rewrite (st_index _ Hs). apply lookup_lt_Some in Hi as Hlt. apply od_elem_get.
  - unfold od_keys. rewrite fst_zip; [apply Hs|]. rewrite length_zrange. unfold pylen. lia.
  - apply list_elem_of_lookup. exists i. apply lookup_zip_Some. split; [done|].
    unfold zrange. rewrite list_lookup_fmap, lookup_seq_lt; [simpl; f_equal; lia|]. unfold pylen. lia.
Qed.

Lemma chosen_hashes rs chosen : static rs -> chosen ⊆ slots rs ->
  exists hashes, Forall2 (hash_of rs) chosen hashes.
Proof.
  intros Hs. induction chosen as [|s chosen IH]; intros Hsub; [by exists []|].
  destruct IH as [hashes Hh]; [set_solver|]. assert (s ∈ slots rs) as [i Hi]%list_elem_of_lookup by set_solver.
  destruct (lookup_lt_is_Some_2 hs_all i) as [h Hx].
  { apply lookup_lt_Some in Hi. pose proof (st_len _ Hs). unfold pylen in *. lia. }
  exists (h :: hashes). constructor; [by exists i|done].
Qed.

Lemma hash_of_inj rs s1 s2 h : static rs -> hash_of rs s1 h -> hash_of rs s2 h -> s1 = s2.
Proof.
  intros Hs (i & Hi & Hhi) (j & Hj & Hhj). assert (i = j) as <- by (by eapply NoDup_lookup; [exact Hhs|..]).
  congruence.
Qed.

Lemma NoDup_hashes rs chosen hashes : static rs -> NoDup chosen -> Forall2 (hash_of rs) chosen hashes ->
  NoDup hashes /\ hashes ⊆ hs_all.
Proof.
  intros Hs Hc Hf. induction Hf as [|s h chosen hashes Hsh Hf IH]; [split; [constructor|set_solver]|].
  apply NoDup_cons in Hc as [Hn Hc]. destruct (IH Hc) as [Hn' Hsub]. split.
  - apply NoDup_cons. split; [|done]. intros [j Hj]%list_elem_of_lookup.
    destruct (Forall2_lookup_r _ _ _ _ _ Hf Hj) as (s' & Hs' & Hh').
    rewrite (hash_of_inj _ _ _ _ Hs Hsh Hh') in Hn. apply Hn. by eapply list_elem_of_lookup_2.
  - destruct Hsh as (i & _ & Hi). intros x [->|Hx]%elem_of_cons; [by eapply list_elem_of_lookup_2|auto].
Qed.

Lemma rels_of rs chosen hashes : static rs -> Forall2 (hash_of rs) chosen hashes -> exists rels,
  Forall2 (fun s r => od_get s (slots_to_relative_indexes rs) = Some r) chosen rels /\
  Forall2 (fun r h => py_idx hs_all r = Ok h) rels hashes.
Proof.
  intros Hs. induction 1 as [|s h chosen hashes (i & Hi & Hh) Hch (rels & H1' & H2')]; [by exists []|].
  exists (Z.of_nat i :: rels). split; (constructor; [|done]).
  - by apply index_of.
  - unfold py_idx. rewrite py_nth_nonneg by lia. by rewrite Nat2Z.id, Hh.
Qed.

(** The window's part of a request's blocks. *)
Definition window_of (m : ReqMeta) : list Z :=
  slice (vllm_block_ids m) (init_window_sz c) (init_window_sz c + pylen ids).

(** The new assignment is being loaded. *)
Lemma loading_new rs rs' w w' kept diff hashes ls :
  loading rs w [] -> all_stored w -> kept `sublist_of` pre_topk_block_hashes rs ->
  od_keys (kept ++ diff) ≡ₚ ids -> od_values (kept ++ diff) ≡ₚ hashes -> NoDup hashes -> hashes ⊆ hs_all ->
  pre_topk_block_hashes rs' = kept ++ diff -> (tasks rs').*2 = ls.*1 -> (diff = [] -> tasks rs' = []) ->
  ((diff = [] /\ ls = []) \/ exists tk tv, ls = loads_of tk tv diff) -> own w' ls -> undisturbed ls w w' ->
  loading rs' w' diff.
Proof.
  intros Hld Hst Hkept Hkeys Hvals Hnh Hsub Hpre Hts Htd Hls Ho Hkp.
  destruct (ld_kept _ _ _ Hld) as (kept0 & Hpre0 & Hin). rewrite app_nil_r in Hpre0.
  assert (Hnk : NoDup (od_keys (kept ++ diff))) by by rewrite Hkeys.
  split; rewrite ?Hpre; [by exists ls|done| |done|by rewrite Hvals|by setoid_rewrite Hkeys|].
  - exists kept. split; [done|]. intros id h Hidh.
    assert (Hh : h ∈ hs_all).
    { apply Hsub. rewrite <- Hvals. apply list_elem_of_fmap. exists (id, h). split; [done|]. apply elem_of_app. by left. }
    assert (Hid : id ∈ ids).
    { rewrite <- Hkeys. apply list_elem_of_fmap. exists (id, h). split; [done|]. apply elem_of_app. by left. }
    destruct (kept_free diff id ls) as [Fk Fv]; [..|done|].
    + intros j Hj. rewrite <- Hkeys. unfold od_keys in *. rewrite fmap_app. set_solver.
    + done.
    + unfold od_keys in *. rewrite fmap_app in Hnk. apply NoDup_app in Hnk as (_ & Hnk & _). apply Hnk.
      apply list_elem_of_fmap. by exists (id, h).
    + eapply in_window_keeps; [exact Hst|done|exact Hkp|done|done|]. apply Hin. rewrite <- Hpre0.
      eapply elem_of_submseteq; [exact Hidh|]. by apply sublist_submseteq.
  - intros h Hh. apply Hsub. by rewrite <- Hvals.
Qed.

(** The blocks that changed, if there are any. *)
Lemma load_diff_spec rs sh diff :
  static rs -> own (world sh) [] -> tasks rs = [] -> NoDup (od_keys diff) -> (forall j, j ∈ od_keys diff -> j ∈ ids) ->
  wpx is_runtime_error
    (match diff with [] => ret tt | _ => launch_transfer_task c thf "load" (od_values diff) (od_keys diff) end)
    (fun _ s' => exists ts w' ls, s' = (with_tasks ts rs, put_world w' sh) /\ ts.*2 = ls.*1 /\ (diff = [] -> ts = []) /\
       own w' ls /\ undisturbed ls (world sh) w' /\ ((diff = [] /\ ls = []) \/ exists tk tv, ls = loads_of tk tv diff)) (rs, sh).
Proof.
  intros Hs Ho Hts Hn Hsub. destruct diff as [|e diff0] eqn:Hd.
  - wp_steps. exists [], (world sh), []. split; [|do 4 (split; [done|]); by left].
    f_equal; [|by destruct sh]. clear -Hts. destruct rs. simpl in *. by subst.
  - rewrite <- Hd in *. eapply wpx_mono; [by apply (launch_spec rs sh diff)|].
    intros [] s' (tk & tv & ts & w' & -> & Hts' & Ho' & Hk'). exists ts, w', (loads_of tk tv diff).
    split; [done|]. split; [done|]. split; [by rewrite Hd|]. split; [done|]. split; [done|]. right. by exists tk, tv.
Qed.

(** The places of the window are assigned anew. *)
Lemma reassign rs w hashes : loading rs w [] -> length ids = length hashes -> NoDup hashes ->
  exists kept diff, diff_two_map so (pre_topk_block_hashes rs)
      (foldl (fun d e => od_set e.1 e.2 d) [] (zip ids hashes)) = Ok (kept ++ diff, diff) /\
    kept `sublist_of` pre_topk_block_hashes rs /\
    od_keys (kept ++ diff) ≡ₚ ids /\ od_values (kept ++ diff) ≡ₚ hashes /\
    NoDup (od_keys diff) /\ forall j, j ∈ od_keys diff -> j ∈ ids.
Proof.
  intros Hld Hlh Hnh.
  assert (Hzk : od_keys (zip ids hashes) = ids) by (apply fst_zip; lia).
  assert (Hzv : od_values (zip ids hashes) = hashes) by (apply snd_zip; lia).
  rewrite set_entries_nil by by rewrite Hzk.
  destruct (diff_two_map_spec so (pre_topk_block_hashes rs) (zip ids hashes) Hso (ld_keys _ _ _ Hld) (ld_vals _ _ _ Hld))
    as (kept & diff & Hdiff & Hkept & Hkeys & Hvals); [by rewrite Hzk|by rewrite Hzv|].
  rewrite Hzk in Hkeys. rewrite Hzv in Hvals. exists kept, diff. do 4 (split; [done|]).
  unfold od_keys in *. rewrite fmap_app in Hkeys. split.
  - assert (Hn : NoDup (kept.*1 ++ diff.*1)) by by rewrite Hkeys. by apply NoDup_app in Hn as (_ & _ & Hn).
  - intros j Hj. rewrite <- Hkeys. set_solver.
Qed.

Lemma reload_spec rs sh t q m :
  static rs -> loading rs (world sh) [] -> all_stored (world sh) -> tasks rs = [] -> req_meta rs = Some m ->
  retrieval_task rs = Some t -> asked (retrieval sh) lid t = Some (q, pylen ids, [slots rs]) -> window_of m = ids ->
  wpx is_runtime_error (wait_retrieval_and_start_load so c thf)
    (fun _ s' => static s'.1 /\ step s'.1 = step rs /\ slots s'.1 = slots rs /\ retrieval_task s'.1 = None /\
       selected s'.1 q /\ all_stored (world s'.2) /\ exists diff, loading s'.1 (world s'.2) diff) (rs, sh).
Proof.
  intros Hs Hld Hst Hts Hm Ht Hask Hwin.
  destruct (rl_result _ _ _ _ _ _ Hask) as (r1 & rows & r2 & Hr1 & Hr2 & Hrows).
  inversion Hrows as [|? chosen ? ? Hrel Hnil]; subst. inversion Hnil; subst. clear Hnil Hrows.
  destruct (rl_relevant _ _ _ _ Hrel (st_slots _ Hs) (pylen_nonneg ids)) as (Hnc & Hsub & Hlen).
  pose proof (st_room _ Hs). rewrite Z.min_l in Hlen by done.
  destruct (chosen_hashes _ _ Hs Hsub) as [hashes Hch].
  destruct (NoDup_hashes _ _ _ Hs Hnc Hch) as [Hnh Hhsub].
  assert (Hlh : length ids = length hashes).
  { apply Forall2_length in Hch. unfold pylen in Hlen. lia. }
  unfold wait_retrieval_and_start_load, meta, req, the, retrieval_call, on_req. wp_steps. simpl. rewrite Ht. simpl.
  wp_steps. simpl. rewrite (st_lid _ Hs). apply wpx_zoom, wpx_wp. simpl. eapply wp_intro; [exact Hr1|].
  wp_steps. apply wpx_zoom, wpx_wp. simpl. eapply wp_intro; [exact Hr2|]. wp_steps. wp_lift. simpl.
  destruct (rels_of _ _ _ Hs Hch) as (rels & Hr1' & Hr2').
  apply wpx_wp. eapply (wp_map_Forall2 _ chosen rels).
  { eapply Forall2_impl; [exact Hr1'|]. intros s r Hsr. unfold lift_res. simpl. by rewrite Hsr. }
  wp_steps. apply wpx_wp. eapply (wp_map_Forall2 _ rels hashes).
  { eapply Forall2_impl; [exact Hr2'|]. intros r h Hrh. unfold lift_res, bind. simpl. rewrite (st_hashes _ Hs). simpl. by rewrite Hrh. }
  wp_steps. simpl. rewrite (st_topk _ Hs). wp_steps. simpl. rewrite Hm. simpl. wp_steps. simpl.
  fold (window_of m). rewrite Hwin.
  destruct (reassign rs (world sh) hashes Hld Hlh Hnh) as (kept & diff & Hdiff & Hkept & Hkeys & Hvals & Hnk).
  rewrite Hdiff. wp_steps.
  assert (Ho : own (world sh) []).
  { destruct (ld_own _ _ _ Hld) as (ls & Ho & Hls & _). rewrite Hts in Hls. by destruct ls. }
  assert (Hsel : forall rs', static rs' -> slots rs' = slots rs -> pre_topk_block_hashes rs' = kept ++ diff -> selected rs' q).
  { intros rs' Hs' Hsl Hpre. exists chosen, hashes. rewrite Hsl, Hpre. split; [done|]. split; [|done].
    eapply Forall2_impl; [exact Hch|]. intros s h (i & Hi & Hh). exists i. by rewrite Hsl. }
  set (rs1 := with_topk (kept ++ diff) rs). assert (Hs1 : static rs1) by (split; apply Hs).
  simpl. do 2 wp_step. simpl. fold rs1.
  eapply wpx_call; [by apply (load_diff_spec rs1 _ diff); [| | |apply Hnk|apply Hnk]|].
  intros [] s' (ts & w' & ls & -> & Hts' & Htd & Ho' & Hk' & Hls). wp_steps. simpl.
  split; [by split; apply Hs|]. do 3 (split; [done|]). split; [by apply Hsel; [split; apply Hs|..]|].
  split; [by eapply all_stored_keeps|]. exists diff.
  by apply (loading_new rs _ (world sh) _ kept diff hashes ls).
Qed.

(** *** Restoring the windows *)

Lemma layer_read_run t bl rs sh : cache_ok c n t -> ids_ok n bl ->
  layer_read t bl (rs, sh) = (Ok (contents_of t bl (world sh)), (rs, sh)).
Proof.
  intros Ht Hi. unfold layer_read, store_call, zoom. simpl.
  rewrite read_blocks_run by by rewrite (co_blocks _ _ _ Ht). by destruct sh.
Qed.

Lemma layer_write_run t bl vals rs sh : cache_ok c n t -> ids_ok n bl -> length vals = length bl ->
  layer_write t bl vals (rs, sh) = (Ok tt, (rs, put_world (write_all (zip (addr t <$> bl) vals) (world sh)) sh)).
Proof.
  intros Ht Hi Hl. unfold layer_write, store_call, zoom. simpl.
  by rewrite write_blocks_run by by rewrite ?(co_blocks _ _ _ Ht).
Qed.

(** The windows taken when the prompt was complete fit the blocks of the request
    now. *)
Record windows_fit rs (m : ReqMeta) (ki vi kl vl : list D) : Prop := {
  wf_init : init_window rs = Some (ki, Some vi);
  wf_local : local_window rs = Some (kl, Some vl);
  wf_init_ids : ids_ok n (slice_to (vllm_block_ids m) (init_window_sz c));
  wf_local_ids : ids_ok n (slice_from (vllm_block_ids m) (- pylen kl));
  wf_ki : length ki = length (slice_to (vllm_block_ids m) (init_window_sz c));
  wf_vi : length vi = length (slice_to (vllm_block_ids m) (init_window_sz c));
  wf_kl : length kl = length (slice_from (vllm_block_ids m) (- pylen kl));
  wf_vl : length vl = length (slice_from (vllm_block_ids m) (- pylen kl));
}.

Definition restored (m : ReqMeta) (ki vi kl vl : list D) : list (Z * D) :=
  let bl := slice_to (vllm_block_ids m) (init_window_sz c) in
  let ls := slice_from (vllm_block_ids m) (- pylen kl) in
  zip (addr k <$> bl) ki ++ zip (addr v <$> bl) vi ++ zip (addr k <$> ls) kl ++ zip (addr v <$> ls) vl.

Lemma restore_windows_run rs sh m ki vi kl vl :
  k_cache rs = Some k -> v_cache rs = Some v -> req_meta rs = Some m -> windows_fit rs m ki vi kl vl ->
  restore_windows c (rs, sh) = (Ok tt, (rs, put_world (write_all (restored m ki vi kl vl) (world sh)) sh)).
Proof.
  intros Hck Hcv Hm [Hwi Hwl Hii Hli Hki Hvi Hkl Hvl].
  unfold restore_windows, meta, k_tensor, req, the, gets, lift_res, of_option, bind. simpl.
  rewrite Hm, Hwi, Hwl, Hck, Hcv, Hmla. simpl.
  rewrite (layer_write_run k) by done. simpl. rewrite (layer_write_run v) by done. simpl.
  rewrite (layer_write_run k) by done. simpl. rewrite (layer_write_run v) by done.
  unfold restored. by rewrite !write_all_app.
Qed.

(** *** The decoding *)

(** What a step's query is for the retrieval. *)
Definition step_query (m : ReqMeta) (q : Q) : Q := query_rows q (query_start_loc m) (num_scheduled_tokens m).

(** The methods the hooks of [ESA] run, with the step's metadata. *)
Definition begin_step (m : ReqMeta) (q : Q) (fc : list (string * kv_layer T)) : M LS unit :=
  do! on_req (update_meta m) in layer_attention_begin so c thf query_rows q fc.
Definition finish_step (block_repre : D -> option D -> F) (m : ReqMeta) (q : Q) : M LS unit :=
  do! on_req (update_meta m) in layer_attention_finished so c thf query_rows block_repre q.

Abbreviation at_phase rs := (step rs mod retrieval_stride c).

(** The hooks that ran, by step, with their queries, the newest first. *)
Definition Log : Type := list ((Z * Hook) * Q).
(** The hook that asked for the blocks the attention of step [i] sees: in the
    first [retrieval_stride] steps that before the first attention; from then on,
    in each group of [retrieval_stride] steps, that after the second attention of the group before. *)
Definition chosen_by (i : Z) : Z * Hook :=
  if i <=? retrieval_stride c then (1, Begin)
  else (retrieval_stride c * ((i - 1) / retrieval_stride c - 1) + 2, Finish).
(** The hook whose retrieval is under way in step [i], if one is. *)
Definition asked_by (i : Z) : Z * Hook := (retrieval_stride c * ((i - 1) / retrieval_stride c) + 2, Finish).

(** The invariant between the hooks; [att]: the attention is running. *)
Record decoding (att : bool) (qs : Log) (s : LS) : Prop := {
  dc_static : static s.1;
  dc_step : 1 <= step s.1;
  dc_stored : all_stored (world s.2);
  dc_loading : exists diff, loading s.1 (world s.2) diff /\ (att = true \/ at_phase s.1 <> 1 -> diff = []);
  dc_first : step s.1 = 1 -> att = false -> pre_topk_block_hashes s.1 = [];
  dc_selected : 1 < step s.1 \/ att = true -> exists q, od_get (chosen_by (step s.1)) qs = Some q /\ selected s.1 q;
  dc_asked : at_phase s.1 = 0 \/ 3 <= at_phase s.1 -> exists t q, od_get (asked_by (step s.1)) qs = Some q /\
    retrieval_task s.1 = Some t /\ asked (retrieval s.2) lid t = Some (q, pylen ids, [slots s.1]);
}.

(** The metadata of a step fits: the window is where it was, and at the first
    step the request's windows fit too. *)
Definition step_fits (m : ReqMeta) rs : Prop :=
  window_of m = ids /\ (step rs = 1 -> exists ki vi kl vl, windows_fit rs m ki vi kl vl).

Lemma loading_ext rs rs' w diff : tasks rs' = tasks rs ->
  pre_topk_block_hashes rs' = pre_topk_block_hashes rs -> loading rs w diff -> loading rs' w diff.
Proof. intros Ht Hp [? ? ? ? ? ? ?]. split; rewrite ?Ht, ?Hp; done. Qed.

Lemma loading_done rs w diff : loading rs w diff -> tasks rs = [] -> diff = [].
Proof.
  intros Hld Hts. destruct (ld_own _ _ _ Hld) as (ls & _ & Hl & [[Hd _]|(tk & tv & ->)]); [done|].
  by rewrite Hts in Hl.
Qed.

Lemma all_stored_ext w w' : (forall id shd, stored w' id shd = stored w id shd) ->
  (forall t, flights w' t = flights w t) -> all_stored w -> all_stored w'.
Proof.
  intros Hs Hf Ha h Hh. destruct (Ha h Hh) as (Hk1 & Hv1 & Hw1 & Hw2). rewrite !Hs.
  split; [done|]. split; [done|]. unfold writing. setoid_rewrite Hf. done.
Qed.

Lemma own_ext w w' ls : (forall t, flights w' t = flights w t) -> own w ls -> own w' ls.
Proof. intros Hf [? ? ? ? ?]. split; try done; setoid_rewrite Hf; done. Qed.

(** At the first step nothing is in the window yet. *)
Lemma loading_nothing rs w w' : (forall t, flights w' t = flights w t) ->
  pre_topk_block_hashes rs = [] -> loading rs w [] -> loading rs w' [].
Proof.
  intros Hf Hp [(ls & Ho & Hl & Hls) ? _ ? ? ? ?]. split; try done.
  - exists ls. split; [by eapply own_ext|done].
  - exists []. rewrite Hp. split; [done|]. intros id h Hin. by apply elem_of_nil in Hin.
Qed.

Lemma start_retrieval_spec rs sh m q : static rs -> req_meta rs = Some m ->
  wpx is_runtime_error (start_retrieval c query_rows q)
    (fun _ s' => exists t r', s' = (with_retrieval_task (Some t) rs, put_retrieval r' sh) /\
       asked r' lid t = Some (step_query m q, pylen ids, [slots rs])) (rs, sh).
Proof.
  intros Hs Hm. unfold start_retrieval, meta, req, the, retrieval_call, on_req. wp_steps. simpl. rewrite Hm. wp_lift.
  simpl. rewrite (st_topk _ Hs). wp_steps. simpl. rewrite (st_lid _ Hs). apply wpx_zoom.
  apply wpx_of; [intros e r' Hr; by eapply rl_submit_err|]. intros t r' Hr. simpl. wp_steps. simpl.
  exists t, r'. split; [done|]. by eapply rl_submit.
Qed.

Lemma static_ext rs rs' : layer_id rs' = layer_id rs -> k_cache rs' = k_cache rs -> v_cache rs' = v_cache rs ->
  block_hashes rs' = block_hashes rs -> init_static_flag rs' = init_static_flag rs -> slots rs' = slots rs ->
  slots_to_relative_indexes rs' = slots_to_relative_indexes rs -> sparse_range rs' = sparse_range rs ->
  static rs -> static rs'.
Proof. intros E1 E2 E3 E4 E5 E6 E7 E8 [? ? ? ? ? ? ? ? ? ?]. split; by rewrite ?E1, ?E2, ?E3, ?E4, ?E5, ?E6, ?E7, ?E8. Qed.

Lemma selected_ext rs rs' q : slots rs' = slots rs -> pre_topk_block_hashes rs' = pre_topk_block_hashes rs ->
  selected rs q -> selected rs' q.
Proof.
  intros Es Ep (chosen & hashes & Hr & Hf & Hp). exists chosen, hashes. rewrite Es, Ep. split; [done|]. split; [|done].
  eapply Forall2_impl; [exact Hf|]. intros s h (i & Hi & Hh). exists i. by rewrite Es.
Qed.

Lemma drain_spec rs sh diff : loading rs (world sh) diff -> all_stored (world sh) ->
  wpx is_runtime_error (let! ts := req tasks in if 0 <? pylen ts then wait_transfer_task_done else ret tt)
    (fun _ s' => exists w', s' = (with_tasks [] rs, put_world w' sh) /\
       loading (with_tasks [] rs) w' [] /\ all_stored w') (rs, sh).
Proof.
  intros Hld Hst. unfold req at 1. wp_steps. simpl. destruct (tasks rs) as [|e ts] eqn:Hts.
  - rewrite (loading_done _ _ _ Hld Hts) in Hld. wp_steps. exists (world sh). split; [|split; [|done]].
    + f_equal; [|by destruct sh]. clear -Hts. destruct rs. simpl in *. by subst.
    + by eapply loading_ext; [..|exact Hld].
  - rewrite (proj2 (Z.ltb_lt _ _)) by (rewrite pylen_cons; pose proof (pylen_nonneg ts); lia).
    by eapply wait_loading.
Qed.

Lemma decoding_meta att qs rs sh m : decoding att qs (rs, sh) -> decoding att qs (update_meta m rs, sh).
Proof.
  intros [Hs ? ? (diff & Hld & ?) ? Hsel ?]. simpl in *. split; simpl; try done.
  - by eapply static_ext; [..|exact Hs].
  - exists diff. split; [by eapply loading_ext; [..|exact Hld]|done].
Qed.

Context (Hstride : 3 <= retrieval_stride c).

(** *** Which hook chose *)

Lemma od_get_top (key : Z * Hook) (q : Q) (qs : Log) : od_get key ((key, q) :: qs) = Some q.
Proof. simpl. by rewrite decide_True. Qed.
Lemma od_get_other (key key' : Z * Hook) (q : Q) (qs : Log) : key <> key' -> od_get key ((key', q) :: qs) = od_get key qs.
Proof. intros Hne. simpl. by rewrite decide_False. Qed.
#[local] Arguments od_get : simpl never.

Lemma chosen_first : chosen_by 1 = (1, Begin).
Proof. unfold chosen_by. by replace (1 <=? retrieval_stride c) with true by lia. Qed.
Lemma chosen_not_begin i : 1 < i -> chosen_by i <> (i, Begin).
Proof. intros Hi. unfold chosen_by. destruct (_ <=? _); intros [=]. lia. Qed.
Lemma stride_bounds i : retrieval_stride c * (i / retrieval_stride c) <= i < retrieval_stride c * (i / retrieval_stride c) + retrieval_stride c.
Proof. pose proof (Z.div_mod i (retrieval_stride c) ltac:(lia)). pose proof (Z.mod_pos_bound i (retrieval_stride c) ltac:(lia)). lia. Qed.
Lemma chosen_not_finish i : chosen_by i <> (i, Finish).
Proof. unfold chosen_by. destruct (_ <=? _); intros [=]. pose proof (stride_bounds (i - 1)). lia. Qed.
Lemma div_before i : (i - 1) / retrieval_stride c = if i mod retrieval_stride c =? 0 then i / retrieval_stride c - 1 else i / retrieval_stride c.
Proof.
  pose proof (Z.div_mod i (retrieval_stride c) ltac:(lia)). pose proof (Z.mod_pos_bound i (retrieval_stride c) ltac:(lia)). symmetry.
  destruct (Z.eqb_spec (i mod retrieval_stride c) 0) as [He|He].
  - apply (Z.div_unique _ _ _ (retrieval_stride c - 1)); lia.
  - apply (Z.div_unique _ _ _ (i mod retrieval_stride c - 1)); lia.
Qed.
Lemma chosen_next i : i mod retrieval_stride c <> 0 -> chosen_by (i + 1) = chosen_by i.
Proof.
  intros Hi. unfold chosen_by. rewrite Z.add_simpl_r, div_before. rewrite (proj2 (Z.eqb_neq _ _) Hi).
  replace (i + 1 <=? retrieval_stride c) with (i <=? retrieval_stride c); [done|].
  assert (i <> retrieval_stride c) by (intros ->; apply Hi, Z_mod_same_full). lia.
Qed.
Lemma chosen_reload i : 1 <= i -> i mod retrieval_stride c = 0 -> chosen_by (i + 1) = asked_by i.
Proof.
  intros Hi H0i. unfold chosen_by, asked_by. rewrite Z.add_simpl_r, div_before, H0i. simpl.
  assert (~ i < retrieval_stride c) by (intros Hlt; rewrite Z.mod_small in H0i; lia).
  by replace (i + 1 <=? retrieval_stride c) with false by lia.
Qed.
Lemma asked_not_finish i : i mod retrieval_stride c <> 2 -> asked_by i <> (i, Finish).
Proof.
  intros Hi [= He]. apply Hi. symmetry. apply (Z.mod_unique _ _ ((i - 1) / retrieval_stride c)); lia.
Qed.
Lemma asked_second i : i mod retrieval_stride c = 2 -> asked_by (i + 1) = (i, Finish).
Proof.
  intros Hi. unfold asked_by. rewrite Z.add_simpl_r. f_equal. pose proof (Z.div_mod i (retrieval_stride c) ltac:(lia)). lia.
Qed.
Lemma asked_next i : i mod retrieval_stride c <> 0 -> asked_by (i + 1) = asked_by i.
Proof. intros Hi. unfold asked_by. rewrite Z.add_simpl_r, div_before. by rewrite (proj2 (Z.eqb_neq _ _) Hi). Qed.

Lemma phase_run rs sh : phase c (rs, sh) = (Ok (at_phase rs), (rs, sh)).
Proof.
  unfold phase, req, gets, bind. simpl. rewrite (proj2 (Z.eqb_neq _ _)) by lia. done.
Qed.

(** The first step of the decoding restores the windows and starts over. *)
Lemma first_step_spec rs sh m q ki vi kl vl :
  static rs -> loading rs (world sh) [] -> all_stored (world sh) -> pre_topk_block_hashes rs = [] ->
  req_meta rs = Some m -> windows_fit rs m ki vi kl vl -> window_of m = ids ->
  wpx is_runtime_error (do! restore_windows c in do! start_retrieval c query_rows q in wait_retrieval_and_start_load so c thf)
    (fun _ s' => static s'.1 /\ step s'.1 = step rs /\ slots s'.1 = slots rs /\ retrieval_task s'.1 = None /\
       selected s'.1 (step_query m q) /\ all_stored (world s'.2) /\ exists diff, loading s'.1 (world s'.2) diff) (rs, sh).
Proof.
  intros Hs Hld Hst Hp Hm Hfit Hwin. apply wpx_bind, wpx_wp.
  eapply wp_intro; [eapply restore_windows_run; [by apply Hs|by apply Hs|done|done]|]. set (w1 := write_all _ _).
  assert (Hf1 : forall t, flights w1 t = flights (world sh) t) by (intros t; apply write_all_flights).
  assert (Hst1 : all_stored w1) by (eapply all_stored_ext; [|exact Hf1|exact Hst]; intros id shd; apply write_all_stored).
  assert (Hld1 : loading rs w1 []) by (by eapply loading_nothing).
  eapply wpx_call; [by eapply start_retrieval_spec|]. intros [] s' (t & r' & -> & Hask).
  eapply wpx_mono; [eapply (reload_spec (with_retrieval_task (Some t) rs) _ t (step_query m q) m)|]; try done.
  - by eapply static_ext; [..|exact Hs].
  - by eapply loading_ext; [..|exact Hld1].
  - by apply (ld_tasks _ _ _ Hld).
Qed.

(** The window holds the selection while the attention runs. *)
Lemma begin_spec qs rs sh m q fc : decoding false qs (rs, sh) -> step_fits m rs ->
  wpx is_runtime_error (begin_step m q fc)
    (fun _ s' => decoding true (((step rs, Begin), step_query m q) :: qs) s' /\ step s'.1 = step rs) (rs, sh).
Proof.
  intros Hd Hfit. unfold begin_step, on_req. wp_steps. simpl.
  apply (decoding_meta _ _ _ _ m) in Hd. destruct Hfit as [Hwin Hfit].
  change (step rs) with (step (update_meta m rs)) in Hfit |- *.
  assert (Hm : req_meta (update_meta m rs) = Some m) by done.
  assert (Hfit' : step (update_meta m rs) = 1 -> exists ki vi kl vl, windows_fit (update_meta m rs) m ki vi kl vl).
  { intros H1s. destruct (Hfit H1s) as (ki & vi & kl & vl & [? ? ? ? ? ? ? ?]). by exists ki, vi, kl, vl. }
  clear Hfit. revert Hd Hm Hfit'. generalize (update_meta m rs). clear rs. intros rs Hd Hm Hfit.
  destruct Hd as [Hs Hstep Hst (diff & Hld & Hdiff) Hfirst Hsel Hask]. simpl in *.
  unfold layer_attention_begin, maybe_register_static_data. unfold req at 1. wp_steps. simpl. rewrite (st_flag _ Hs).
  wp_steps. apply wpx_wp. eapply wp_intro; [apply phase_run|].
  assert (Hatt : forall rs' sh', static rs' -> step rs' = step rs -> all_stored (world sh') -> loading rs' (world sh') [] ->
    (exists q0, od_get (chosen_by (step rs)) (((step rs, Begin), step_query m q) :: qs) = Some q0 /\ selected rs' q0) ->
    (at_phase rs <> 1 -> retrieval_task rs' = retrieval_task rs /\ retrieval sh' = retrieval sh /\ slots rs' = slots rs) ->
    decoding true (((step rs, Begin), step_query m q) :: qs) (rs', sh') /\ step rs' = step rs).
  { intros rs' sh' Hs' Hn' Hst' Hld' Hsel' Hr'. split; [|done]. split; simpl; rewrite ?Hn'; try done.
    - by exists [].
    - intros Hph. destruct (Hask Hph) as (t & q0 & Hq0 & Ht & Has). destruct Hr' as (-> & -> & ->); [lia|].
      exists t, q0. split; [by rewrite od_get_other by (unfold asked_by; congruence)|done]. }
  destruct (at_phase rs =? 1) eqn:Hph.
  - apply Z.eqb_eq in Hph. unfold req at 1. do 2 wp_step. simpl. destruct (step rs =? 1) eqn:Hone.
    + apply Z.eqb_eq in Hone. destruct (Hfit Hone) as (ki & vi & kl & vl & Hfit').
      assert (Hp : pre_topk_block_hashes rs = []) by auto.
      assert (diff = []) as ->.
      { destruct (ld_kept _ _ _ Hld) as (kept & Hk0 & _). rewrite Hp in Hk0. symmetry in Hk0. by apply app_nil in Hk0 as [_ ?]. }
      eapply wpx_call; [eapply (first_step_spec rs sh m q ki vi kl vl); done|].
      intros [] [rs2 sh2] (Hs2 & Hn2 & Hsl2 & Hr2 & Hsel2 & Hst2 & diff2 & Hld2). simpl in *.
      eapply wpx_mono; [by eapply drain_spec|]. intros [] s' (w' & -> & Hld' & Hst').
      apply Hatt; try done; [by eapply static_ext; [..|exact Hs2]|].
      exists (step_query m q). split; [by rewrite Hone, chosen_first, od_get_top|]. by eapply selected_ext; [..|exact Hsel2].
    + apply Z.eqb_neq in Hone. do 2 wp_step.
      eapply wpx_mono; [by eapply drain_spec|]. intros [] s' (w' & -> & Hld' & Hst').
      destruct (Hsel ltac:(left; lia)) as (q0 & Hq0 & Hsq).
      apply Hatt; try done; [by eapply static_ext; [..|exact Hs]|].
      exists q0. split; [by rewrite od_get_other by (apply chosen_not_begin; lia)|]. by eapply selected_ext; [..|exact Hsq].
  - apply Z.eqb_neq in Hph. wp_steps.
    assert (step rs <> 1) by (intros Hone; apply Hph; rewrite Hone; apply Z.mod_small; lia).
    destruct (Hsel ltac:(left; lia)) as (q0 & Hq0 & Hsq). rewrite (Hdiff ltac:(by right)) in Hld.
    apply Hatt; try done. exists q0. split; [by rewrite od_get_other by (apply chosen_not_begin; lia)|done].
Qed.

Lemma next_phase i : (i + 1) mod retrieval_stride c =
  if i mod retrieval_stride c =? retrieval_stride c - 1 then 0 else i mod retrieval_stride c + 1.
Proof.
  pose proof (Z.mod_pos_bound i (retrieval_stride c) ltac:(lia)) as Hb.
  pose proof (Z.div_mod i (retrieval_stride c) ltac:(lia)) as Hdm. symmetry.
  destruct (Z.eqb_spec (i mod retrieval_stride c) (retrieval_stride c - 1)) as [He|Hne].
  - apply (Z.mod_unique _ _ (i / retrieval_stride c + 1)); lia.
  - apply (Z.mod_unique _ _ (i / retrieval_stride c)); lia.
Qed.

(** One step further. *)
Lemma step_on rs rs' sh' qs : 1 <= step rs -> static rs' -> step rs' = step rs -> all_stored (world sh') ->
  forall diff', loading rs' (world sh') diff' -> (at_phase rs <> 0 -> diff' = []) ->
  (exists q0, od_get (chosen_by (step rs + 1)) qs = Some q0 /\ selected rs' q0) ->
  (2 <= at_phase rs -> exists t q0, od_get (asked_by (step rs + 1)) qs = Some q0 /\
     retrieval_task rs' = Some t /\ asked (retrieval sh') lid t = Some (q0, pylen ids, [slots rs'])) ->
  decoding false qs (with_step (step rs' + 1) rs', sh') /\ step (with_step (step rs' + 1) rs') = step rs + 1.
Proof.
  intros Hstep Hs' Hn' Hst' diff' Hld' Hd' Hsel' Hask'. split; [|simpl; lia].
  pose proof (next_phase (step rs)) as Hnp. pose proof (Z.mod_pos_bound (step rs) (retrieval_stride c) ltac:(lia)).
  split; simpl; rewrite ?Hn'; try done.
  - by eapply static_ext; [..|exact Hs'].
  - lia.
  - exists diff'. split; [by eapply loading_ext; [..|exact Hld']|]. intros [|Hph]; [done|]. apply Hd'.
    intros H0p. apply Hph. rewrite Hnp, H0p. rewrite (proj2 (Z.eqb_neq _ _)) by lia. done.
  - lia.
  - intros Hph. apply Hask'. rewrite Hnp in Hph. destruct (_ =? _) eqn:He; lia.
Qed.

(** After the attention the next retrieval is asked for, or its result loaded. *)
Lemma finished_spec block_repre qs rs sh m q : decoding true qs (rs, sh) -> window_of m = ids ->
  wpx is_runtime_error (finish_step block_repre m q)
    (fun _ s' => decoding false (((step rs, Finish), step_query m q) :: qs) s' /\ step s'.1 = step rs + 1) (rs, sh).
Proof.
  intros Hd Hwin. unfold finish_step, on_req. wp_steps. simpl.
  apply (decoding_meta _ _ _ _ m) in Hd. assert (Hm : req_meta (update_meta m rs) = Some m) by done.
  change (step rs) with (step (update_meta m rs)).
  revert Hd Hm. generalize (update_meta m rs). clear rs. intros rs Hd Hm.
  destruct Hd as [Hs Hstep Hst (diff & Hld & Hdiff) _ Hsel Hask]. simpl in *.
  rewrite (Hdiff ltac:(by left)) in Hld. destruct (Hsel ltac:(by right)) as (q0 & Hq0 & Hsq).
  pose proof (fun rs' sh' => step_on rs rs' sh' (((step rs, Finish), step_query m q) :: qs) Hstep) as Hnext.
  unfold layer_attention_finished, req. wp_steps. simpl. rewrite (proj2 (Z.eqb_neq _ _)) by lia.
  apply wpx_bind, wpx_wp. eapply wp_intro; [apply phase_run|].
  destruct (at_phase rs =? 2) eqn:H2p.
  - apply Z.eqb_eq in H2p. rewrite H2p. simpl. eapply wpx_call; [by eapply start_retrieval_spec|].
    intros [] s' (t & r' & -> & Has). unfold next_step, on_req. wp_steps. simpl.
    apply (Hnext (with_retrieval_task (Some t) rs) (put_retrieval r' sh)) with (diff' := []); simpl; try done.
    + by eapply static_ext; [..|exact Hs].
    + by eapply loading_ext; [..|exact Hld].
    + exists q0. split; [|by eapply selected_ext; [..|exact Hsq]].
      by rewrite chosen_next, od_get_other by (lia || apply chosen_not_finish; lia).
    + intros _. exists t, (step_query m q). split; [by rewrite (asked_second _ H2p), od_get_top|done].
  - apply Z.eqb_neq in H2p. do 2 wp_step. destruct (at_phase rs =? 0) eqn:H0p.
    + apply Z.eqb_eq in H0p. destruct (Hask ltac:(by left)) as (t & q1 & Hq1 & Ht & Has).
      eapply wpx_call; [eapply (reload_spec rs sh t q1 m); try done; by apply (ld_tasks _ _ _ Hld)|].
      intros [] [rs2 sh2] (Hs2 & Hn2 & Hsl2 & Hr2 & Hsel2 & Hst2 & diff2 & Hld2). simpl in *.
      unfold next_step, on_req. wp_steps. simpl. eapply Hnext with (diff' := diff2); try done.
      * exists q1. split; [|done]. by rewrite chosen_reload, od_get_other by (lia || apply asked_not_finish; lia).
      * lia.
    + apply Z.eqb_neq in H0p. unfold next_step, on_req. wp_steps. simpl. eapply Hnext with (diff' := []); try done.
      * exists q0. split; [|done]. by rewrite chosen_next, od_get_other by (lia || apply chosen_not_finish; lia).
      * intros Hp. destruct (Hask ltac:(right; lia)) as (t & q1 & Hq1 & Hx). exists t, q1. split; [|done].
        by rewrite asked_next, od_get_other by (lia || apply asked_not_finish; lia).
Qed.

(** *** Other requests and the model between the hooks *)

(** They keep the loads of this request and do not load into its window; what
    they change of the device is elsewhere; the request's stored blocks stay. *)
Record env (s s' : LS) : Prop := {
  env_req : s'.1 = s.1;
  env_flights : forall t, t ∈ (tasks s.1).*2 -> flights (world s'.2) t = flights (world s.2) t;
  env_others : forall t hs shs rows, flights (world s'.2) t = Some (FLoad hs shs rows) ->
    t ∈ (tasks s.1).*2 \/ forall a, a ∈ region -> a ∉ concat rows;
  env_mem : forall a, a ∈ region -> ~ busy (world s.2) a -> devmem (world s'.2) a = devmem (world s.2) a;
  env_store : forall h shd, h ∈ hs_all -> shd = lid \/ shd = lid + num_layers c ->
    stored (world s'.2) h shd = stored (world s.2) h shd /\ ~ writing (world s'.2) h shd;
  env_asked : forall t, retrieval_task s.1 = Some t -> asked (retrieval s'.2) lid t = asked (retrieval s.2) lid t;
}.

Lemma env_loading s s' diff : loading s.1 (world s.2) diff -> env s s' -> loading s.1 (world s'.2) diff.
Proof.
  intros [(ls & Ho & Hl & Hls) Htd (kept & Hp & Hin) Hnk Hnv Hi Hh] [_ Hf Hot Hm Hst _]. split; try done.
  - exists ls. split; [|done]. split; try apply Ho.
    + intros t hs shd dst Hx. destruct (own_flight _ _ _ Ho _ _ _ _ Hx) as [? <-]. split; [done|]. apply Hf.
      rewrite Hl. apply list_elem_of_fmap. by eexists (_, _).
    + rewrite <- Hl. apply Hot.
  - exists kept. split; [done|]. intros id h Hidh.
    assert (Hidp : (id, h) ∈ pre_topk_block_hashes s.1) by (rewrite Hp; set_solver).
    assert (Hhs' : h ∈ hs_all) by (apply Hh, list_elem_of_fmap; by exists (id, h)).
    assert (Hid' : id ∈ ids) by (apply Hi, list_elem_of_fmap; by exists (id, h)).
    destruct (kept_free diff id ls) as [Fk Fv]; [..|done|].
    + intros j Hj. apply Hi. rewrite Hp. unfold od_keys in *. rewrite fmap_app. set_solver.
    + done.
    + rewrite Hp in Hnk. unfold od_keys in *. rewrite fmap_app in Hnk. apply NoDup_app in Hnk as (_ & Hnk & _).
      apply Hnk, list_elem_of_fmap. by exists (id, h).
    + destruct (Hst h lid Hhs' ltac:(by left)) as [Ek _], (Hst h _ Hhs' ltac:(by right)) as [Ev _].
      destruct (Hin id h Hidh) as [Ik Iv]. unfold in_window. rewrite Ek, Ev.
      rewrite !Hm; [done|apply Fv|by eapply own_not_busy|apply Fk|by eapply own_not_busy].
Qed.

Lemma env_decoding att qs s s' : decoding att qs s -> env s s' -> decoding att qs s'.
Proof.
  intros [Hs Hstep Hst (diff & Hld & Hdiff) Hfirst Hsel Hask] He. pose proof (env_loading _ _ _ Hld He) as Hld'.
  destruct He as [Hr Hf Hot Hm Hstore Has]. split; rewrite ?Hr; try done.
  - intros h Hh. destruct (Hstore h lid Hh ltac:(by left)) as [Ek Wk], (Hstore h _ Hh ltac:(by right)) as [Ev Wv].
    destruct (Hst h Hh) as (? & ? & _). rewrite Ek, Ev. done.
  - by exists diff.
  - intros Hp. destruct (Hask Hp) as (t & q & Hq & Ht & Ha). exists t, q. split; [done|]. split; [done|].
    by rewrite (Has t Ht).
Qed.

(** The decoding from a first state on, with whatever happens in between. *)
Inductive esa_run (block_repre : D -> option D -> F) (s0 : LS) : bool -> Log -> LS -> Prop :=
  | run_start : esa_run block_repre s0 false [] s0
  | run_env att qs s s' : esa_run block_repre s0 att qs s -> env s s' -> esa_run block_repre s0 att qs s'
  | run_begin qs s m q fc s' : esa_run block_repre s0 false qs s -> step_fits m s.1 ->
      begin_step m q fc s = (Ok tt, s') -> esa_run block_repre s0 true (((step s.1, Begin), step_query m q) :: qs) s'
  | run_finish qs s m q s' : esa_run block_repre s0 true qs s -> window_of m = ids ->
      finish_step block_repre m q s = (Ok tt, s') -> esa_run block_repre s0 false (((step s.1, Finish), step_query m q) :: qs) s'.

Lemma run_decoding block_repre s0 att qs s : decoding false [] s0 -> esa_run block_repre s0 att qs s -> decoding att qs s.
Proof.
  intros H0d. induction 1 as [|att qs s s' Hr IH He|qs s m q fc s' Hr IH Hf Hb|qs s m q s' Hr IH Hw Hb]; [done|..].
  - by eapply env_decoding.
  - destruct s as [rs sh]. by destruct (wpx_run _ _ _ _ _ _ Hb (begin_spec qs rs sh m q fc IH Hf)).
  - destruct s as [rs sh]. by destruct (wpx_run _ _ _ _ _ _ Hb (finished_spec block_repre qs rs sh m q IH Hw)).
Qed.

(** *** The end of the prompt *)

Lemma pool_allocate_spec num pool : 0 <= num <= Z.of_nat (size (free_slots pool)) ->
  exists new pool', pool_allocate (order_int so) num pool = Ok (new, pool') /\ NoDup new /\ pylen new = num /\
    list_to_set new ⊆ free_slots pool.
Proof.
  intros Hn. unfold pool_allocate. rewrite (proj2 (Z.ltb_ge _ _)) by lia.
  pose proof (ol_int _ Hso (free_slots pool)) as Hp. eexists _, _. split; [done|].
  assert (Hnd' : NoDup (order_int so (free_slots pool))) by (rewrite Hp; apply NoDup_elements).
  split; [by apply NoDup_slice|]. split.
  - rewrite slice_to_take by lia. unfold pylen. rewrite length_take, (Permutation_length Hp).
    unfold size, set_size in Hn. simpl in *. lia.
  - intros x Hx%elem_of_list_to_set. apply elem_of_slice in Hx. rewrite Hp in Hx. by apply elem_of_elements.
Qed.

Lemma index_entries (l : list Z) (j : Z) d : NoDup (od_keys d ++ l) ->
  foldl (fun d e => od_set e.2 (0 + e.1) d) d (enumerate_from j l) = d ++ zip l (zrange j (j + pylen l)).
Proof.
  unfold enumerate_from. revert j d. induction l as [|x l IH]; intros j d Hn; simpl.
  - by rewrite zrange_nil, app_nil_r by (rewrite pylen_nil; lia).
  - rewrite pylen_cons. rewrite (zrange_cons j) by (pose proof (pylen_nonneg l); lia). simpl.
    replace (j + (1 + pylen l)) with ((j + 1) + pylen l) by lia. rewrite IH.
    + rewrite od_set_new; [by rewrite <- app_assoc|]. apply NoDup_app in Hn as (_ & Hn & _).
      intros Hx. apply (Hn x Hx). by left.
    + rewrite od_keys_set_new, <- app_assoc; [done|]. apply NoDup_app in Hn as (_ & Hn & _).
      intros Hx. apply (Hn x Hx). by left.
Qed.

(** A request whose prompt has just been computed for the first time. *)
Record fresh rs (m : ReqMeta) : Prop := {
  fr_lid : layer_id rs = lid;
  fr_k : k_cache rs = Some k;
  fr_v : v_cache rs = Some v;
  fr_hashes : block_hashes rs = Some hs_all;
  fr_flag : init_static_flag rs = true;
  fr_slots : slots rs = [];
  fr_index : slots_to_relative_indexes rs = [];
  fr_tasks : tasks rs = [];
  fr_topk : pre_topk_block_hashes rs = [];
  fr_step : step rs = 0;
  fr_last : is_last_chunk m = true;
  fr_ids : ids_ok n (vllm_block_ids m);
}.

(** The blocks between the windows, and the room for their representatives. *)
Record has_room sh (range : Z) (m : ReqMeta) : Prop := {
  hr_lid : 0 <= lid;
  hr_pool : exists pool, layer_pools sh !! Z.to_nat lid = Some pool /\ range <= Z.of_nat (size (free_slots pool));
  hr_table : exists table, data sh !! Z.to_nat lid = Some table;
  hr_range : 0 < range;
  hr_init : 0 <= init_window_sz c;
  hr_blocks : init_window_sz c + range <= pylen (vllm_block_ids m);
}.

Definition sparse_range_of (m : ReqMeta) : Z :=
  get_sparse_range (init_window_sz c) (local_window_sz c) (num_prompt_tokens m) (block_size c).

(** The first blocks of the prompt, and those after its sparse range. *)
Definition init_ids (m : ReqMeta) : list Z := slice_to (vllm_block_ids m) (init_window_sz c).
Definition local_ids (m : ReqMeta) : list Z := slice_from (vllm_block_ids m) (init_window_sz c + sparse_range_of m).
Definition window_copy bl w : option (list D * option (list D)) :=
  Some (contents_of k bl w, Some (contents_of v bl w)).

Lemma clone_window_run rs sh bl : k_cache rs = Some k -> v_cache rs = Some v -> ids_ok n bl ->
  clone_window c bl (rs, sh) = (Ok (contents_of k bl (world sh), Some (contents_of v bl (world sh))), (rs, sh)).
Proof.
  intros Hck Hcv Hi. unfold clone_window.
  rewrite (bind_ok _ _ _ k (rs, sh)) by (unfold k_tensor, req, gets, the, bind; simpl; by rewrite Hck).
  rewrite (bind_ok _ _ _ _ _ (layer_read_run k bl rs sh Hk Hi)).
  rewrite (bind_ok _ _ _ (Some v) (rs, sh)) by (unfold req, gets; simpl; by rewrite Hcv).
  rewrite Hmla. rewrite (bind_ok _ _ _ v (rs, sh)) by done.
  by rewrite (bind_ok _ _ _ _ _ (layer_read_run v bl rs sh Hv Hi)).
Qed.

Lemma extract_run block_repre rs sh bl : k_cache rs = Some k -> ids_ok n bl ->
  extract_block_repre c block_repre bl (rs, sh) =
    (Ok ((fun x => block_repre x None) <$> contents_of k bl (world sh)), (rs, sh)).
Proof.
  intros Hck Hi. unfold extract_block_repre.
  rewrite (bind_ok _ _ _ k (rs, sh)) by (unfold k_tensor, req, gets, the, bind; simpl; by rewrite Hck).
  unfold req at 1. unfold bind at 1. simpl. rewrite Hmla.
  by rewrite (bind_ok _ _ _ _ _ (layer_read_run k bl rs sh Hk Hi)).
Qed.

Lemma allocate_run rs sh num pool : 0 <= lid -> layer_pools sh !! Z.to_nat lid = Some pool ->
  0 <= num <= Z.of_nat (size (free_slots pool)) ->
  exists new pools, allocate_slots_of so lid num (rs, sh) = (Ok new, (rs, put_pools pools sh)) /\
    NoDup new /\ pylen new = num.
Proof.
  intros Hl Hp Hn. destruct (pool_allocate_spec num pool Hn) as (new & pool' & Ha & Hnn & Hln & _).
  exists new, (<[Z.to_nat lid := pool']> (layer_pools sh)). split; [|done].
  unfold allocate_slots_of, gets, lift_res, bind, on_shared, modify. simpl.
  rewrite (py_idx_nth _ _ _ Hl Hp), Ha. simpl. by rewrite (py_setitem_nth _ _ _ _ Hl Hp).
Qed.

Lemma store_repre_run rs sh new vals table : 0 <= lid -> data sh !! Z.to_nat lid = Some table ->
  pylen vals = pylen new -> exists tables, store_repre lid new vals (rs, sh) = (Ok tt, (rs, put_data tables sh)).
Proof.
  intros Hl Ht Hn. eexists. unfold store_repre, gets, lift_res, bind. simpl. rewrite (py_idx_nth _ _ _ Hl Ht).
  rewrite Hn, Z.eqb_refl. simpl. by rewrite (py_setitem_nth _ _ _ _ Hl Ht).
Qed.

Lemma block_repre_spec block_repre rs sh m :
  req_meta rs = Some m -> fresh rs m -> has_room sh (sparse_range_of m) m ->
  wp (block_repre_data so c block_repre) (fun _ s' => exists new, NoDup new /\ pylen new = sparse_range_of m /\
    s'.1 = with_windows (window_copy (init_ids m) (world sh)) (window_copy (local_ids m) (world sh))
             (with_slots new (zip new (zrange 0 (pylen new))) (with_sparse_range (sparse_range_of m) rs)) /\
    world s'.2 = world sh /\ retrieval s'.2 = retrieval sh) (rs, sh).
Proof.
  intros Hm Hfr [Hlid (pool & Hpool & Hfree) (table & Htable) Hrange Hinit Hblocks].
  set (sparse := slice (vllm_block_ids m) (init_window_sz c) (init_window_sz c + sparse_range_of m)).
  assert (Hsparse : ids_ok n sparse) by apply ids_ok_slice, Hfr.
  assert (Hls : pylen sparse = sparse_range_of m) by (unfold sparse; rewrite pylen_slice; lia).
  unfold block_repre_data, meta, the, on_req. unfold req at 1. wp_steps. simpl. rewrite Hm. eapply wp_lift; [done|].
  fold (sparse_range_of m) sparse. wp_steps. simpl.
  eapply wp_intro; [by apply extract_run; [apply Hfr|]|]. set (vals := _ <$> _).
  assert (Hlv : pylen vals = sparse_range_of m) by (unfold vals, contents_of; by rewrite !pylen_fmap).
  wp_step. replace (match vals with [] => _ | _ => _ end) with (@ret LS unit tt)
    by (destruct vals; [rewrite pylen_nil in Hlv; lia|done]).
  unfold req at 1. wp_steps. simpl. rewrite (fr_lid _ _ Hfr).
  destruct (allocate_run (with_sparse_range (sparse_range_of m) rs) sh (sparse_range_of m) pool)
    as (new & pools & Hal & Hnn & Hln); [done|done|lia|].
  eapply wp_intro; [exact Hal|]. unfold req at 1. wp_steps. simpl. rewrite (fr_slots _ _ Hfr), (fr_index _ _ Hfr).
  change (pylen []) with 0. unfold enumerate. rewrite (index_entries new 0 []) by done. rewrite !app_nil_l. set (rs1 := with_slots _ _ _).
  destruct (store_repre_run rs1 (put_pools pools sh) new vals table) as [tables Hstore]; [done|done|lia|].
  assert (Hc1 : k_cache rs1 = Some k) by apply Hfr. assert (Hc2 : v_cache rs1 = Some v) by apply Hfr.
  eapply wp_intro; [exact Hstore|]. wp_steps.
  eapply wp_intro; [apply clone_window_run; [done|done|apply ids_ok_slice, Hfr]|]. wp_steps.
  eapply wp_intro; [apply clone_window_run; [done|done|apply ids_ok_slice, Hfr]|]. wp_steps.
  exists new. done.
Qed.
(** The prompt's last chunk starts the decoding, once its blocks are stored. *)
Lemma prompt_spec block_repre rs sh m q :
  fresh rs m -> has_room sh (sparse_range_of m) m -> top_k c (sparse_range_of m) = Ok (pylen ids) ->
  pylen ids <= sparse_range_of m -> pylen hs_all = sparse_range_of m ->
  wp (finish_step block_repre m q) (fun _ s' =>
    init_window s'.1 = window_copy (init_ids m) (world sh) /\ local_window s'.1 = window_copy (local_ids m) (world sh) /\
    forall sh2, own (world sh2) [] -> all_stored (world sh2) -> decoding false [] (s'.1, sh2)) (rs, sh).
Proof.
  intros Hfr Hroom Htopk Hle Hlen. unfold finish_step, layer_attention_finished, on_req, req. wp_steps. simpl.
  change (step (update_meta m rs)) with (step rs). rewrite (fr_step _ _ Hfr). simpl. unfold meta, req, the. wp_steps. simpl. eapply wp_lift; [done|].
  rewrite (fr_last _ _ Hfr).
  assert (Hfr' : fresh (update_meta m rs) m) by (destruct Hfr; by split).
  eapply wp_call; [by apply block_repre_spec|]. intros [] [rs' sh'] (new & Hnn & Hln & Heq & _). simpl in Heq. subst rs'.
  unfold next_step, on_req. wp_steps. simpl. do 2 (split; [done|]). intros sh2 Ho Hst.
  pose proof (Z.mod_small 1 (retrieval_stride c) ltac:(lia)) as Hph.
  split; simpl; rewrite ?(fr_step _ _ Hfr), ?(fr_topk _ _ Hfr); simpl; try done; try lia.
  - split; simpl; try apply Hfr; try done; congruence || lia.
  - exists []. split; [|done].
    split; simpl; rewrite ?(fr_topk _ _ Hfr), ?(fr_tasks _ _ Hfr); simpl; try done.
    + exists []. split; [done|]. split; [done|]. by left.
    + exists []. split; [done|]. intros id h Hin. by apply elem_of_nil in Hin.
    + constructor.
    + constructor.
    + intros id Hin. by apply elem_of_nil in Hin.
    + intros h Hin. by apply elem_of_nil in Hin.
  - change (0 + 1) with 1. rewrite Hph. lia.
Qed.

(** What the attention finds in the window. *)
Record window_ready (qs : Log) (s : LS) : Prop := {
  wr_tasks : tasks s.1 = [];
  wr_selected : exists q, od_get (chosen_by (step s.1)) qs = Some q /\ selected s.1 q;
  wr_contents : forall id h, (id, h) ∈ pre_topk_block_hashes s.1 -> in_window (world s.2) id h;
}.

Lemma decoding_ready qs s : decoding true qs s -> window_ready qs s.
Proof.
  intros [Hs Hstep Hst (diff & Hld & Hdiff) Hfirst Hsel Hask].
  rewrite (Hdiff ltac:(by left)) in Hld. split.
  - by apply (ld_tasks _ _ _ Hld).
  - by apply Hsel; right.
  - destruct (ld_kept _ _ _ Hld) as (kept & Hp & Hin). rewrite app_nil_r in Hp. by rewrite Hp.
Qed.

(** C4. At every attention the window holds the selected blocks.  Let a retrieval
    be made every [retrieval_stride] steps, at least three.  The last chunk
    of a prompt is processed without an error; then, whenever the blocks of its
    sparse range are stored, and through every sequence of decoding steps with
    other requests' work in between: when a step's attention runs no load is in
    flight, the places of the window are assigned to the blocks the workers
    found most relevant for the query of the retrieval that counts for this
    step ([chosen_by]: the one made before the first attention for the first
    [retrieval_stride] steps, and afterwards, in each group of as many steps, the
    one asked for after the second attention of the group before), and each place
    holds the stored keys and values of its block.  The hooks fail with nothing but an
    error of the store or the workers. *)
Theorem esa_window_holds_the_selection block_repre rs sh m q :
  fresh rs m -> has_room sh (sparse_range_of m) m -> top_k c (sparse_range_of m) = Ok (pylen ids) ->
  pylen ids <= sparse_range_of m -> pylen hs_all = sparse_range_of m ->
  exists rs1 sh1, finish_step block_repre m q (rs, sh) = (Ok tt, (rs1, sh1)) /\
    forall sh2 att qs s, own (world sh2) [] -> all_stored (world sh2) -> esa_run block_repre (rs1, sh2) att qs s ->
      (att = true -> window_ready qs s) /\
      (att = false -> forall m q fc e s', step_fits m s.1 -> begin_step m q fc s = (Err e, s') -> is_runtime_error e = true) /\
      (att = true -> forall m q e s', window_of m = ids -> finish_step block_repre m q s = (Err e, s') -> is_runtime_error e = true).
Proof.
  intros Hfr Hroom Htopk Hle Hlen.
  destruct (wp_elim _ _ _ (prompt_spec block_repre rs sh m q Hfr Hroom Htopk Hle Hlen)) as ([] & [rs1 sh1] & Hrun & _ & _ & Hdec).
  exists rs1, sh1. split; [done|]. intros sh2 att qs [rs' sh'] Ho Hst Hr.
  apply (run_decoding _ _ _ _ _ (Hdec sh2 Ho Hst)) in Hr. split; [|split].
  - intros ->. by apply decoding_ready.
  - intros -> m' q' fc e s' Hf He. by eapply wpx_err, begin_spec.
  - intros -> m' q' e s' Hf He. by eapply wpx_err, finished_spec.
Qed.
End window.
