(* ===== verification/EsaPool.v ===== *)
(** * ESA: the slots of the representatives

    Every block's representative has a slot of its layer's pool.  Over any
    sequence of hooks, steps and finished requests, preemptions included, a
    slot is free or belongs to one request, and every slot a finished request
    had is free again. *)

From Stdlib Require Import Ascii String.
From S2P Require Import Prelude.
From S2P Require Import Wp.
From S2P Require Import PyStr.
From S2P Require Import StoreApi.
From S2P Require Import Hasher.
From S2P Require Import Layout.
From S2P Require Import DeviceMem.
From S2P Require Import Esa.
From S2P Require Import EsaBlocks.
From stdpp Require Import strings.
Local Open Scope Z_scope.
Local Open Scope py_scope.

(** ** The pool of a layer and who holds its slots *)

Definition take_slots (new : list Z) (p : ReprePool) : ReprePool :=
  {| free_slots := free_slots p ∖ list_to_set new; allocated := allocated p ∪ list_to_set new |}.

Lemma take_slots_nil p : take_slots [] p = p.
Proof. destruct p. unfold take_slots. simpl. f_equal; set_solver. Qed.

Lemma take_slots_app new1 new2 p : take_slots new2 (take_slots new1 p) = take_slots (new1 ++ new2) p.
Proof. unfold take_slots. simpl. f_equal; set_solver. Qed.

(** Each of the slots of [all] is free or held by one request. *)
Record shared_out (all : gset Z) (held : string -> list Z) (p : ReprePool) : Prop := {
  so_disjoint : free_slots p ## allocated p;
  so_all : free_slots p ∪ allocated p = all;
  so_nodup : forall id, NoDup (held id);
  so_held : forall x, x ∈ allocated p <-> exists id, x ∈ held id;
  so_owner : forall id1 id2 x, x ∈ held id1 -> x ∈ held id2 -> id1 = id2;
}.

Lemma shared_out_ext all held held' p : (forall id, held id = held' id) -> shared_out all held p -> shared_out all held' p.
Proof.
  intros He [H1 H2 H3 H4 H5]. split; try done.
  - intros id. by rewrite <- He.
  - intros x. rewrite H4. by setoid_rewrite He.
  - intros id1 id2 x. rewrite <- !He. apply H5.
Qed.

Lemma shared_out_take all held held' p id new :
  shared_out all held p -> list_to_set new ⊆ free_slots p -> NoDup new ->
  (forall id', held' id' = if decide (id' = id) then held id ++ new else held id') ->
  shared_out all held' (take_slots new p).
Proof.
  intros [H1 H2 H3 H4 H5] Hf Hn He.
  assert (Hnew : forall x id', x ∈ new -> x ∉ held id').
  { intros x id' Hx Hh. assert (x ∈ allocated p) by (apply H4; by exists id'). set_solver. }
  split; simpl.
  - set_solver.
  - rewrite <- H2. apply set_eq. intros x. destruct (decide (x ∈ new)); set_solver.
  - intros id'. rewrite He. case_decide; [|done]. apply NoDup_app. split; [done|]. split; [|done].
    intros x Hx Hx'. by apply (Hnew x id).
  - intros x. rewrite elem_of_union, elem_of_list_to_set, H4. setoid_rewrite He. split.
    + intros [[id' Hx]|Hx]; [exists id'|exists id; rewrite decide_True by done; set_solver].
      case_decide; [subst; set_solver|done].
    + intros [id' Hx]. case_decide; [|left; by exists id']. apply elem_of_app in Hx as [Hx|Hx]; [|by right].
      left. by exists id.
  - intros id1 id2 x. rewrite !He. repeat case_decide; subst; rewrite ?elem_of_app; intros; try done.
    + destruct_or!; [by eapply H5|exfalso; by eapply Hnew].
    + destruct_or!; [by eapply H5|exfalso; by eapply Hnew].
    + by eapply H5.
Qed.

Lemma shared_out_free all held held' p id :
  shared_out all held p -> (forall id', held' id' = if decide (id' = id) then [] else held id') ->
  shared_out all held' (pool_free (held id) p).
Proof.
  intros [H1 H2 H3 H4 H5] He.
  assert (Hh : forall x, x ∈ held id -> x ∈ allocated p) by (intros x Hx; apply H4; by exists id).
  split; simpl.
  - set_solver.
  - rewrite <- H2. apply set_eq. intros x. destruct (decide (x ∈ held id)); set_solver.
  - intros id'. rewrite He. case_decide; [constructor|done].
  - intros x. rewrite elem_of_difference, elem_of_list_to_set, H4. setoid_rewrite He. split.
    + intros [[id' Hx] Hn]. exists id'. by rewrite decide_False by (by intros ->).
    + intros [id' Hx]. case_decide; [by apply elem_of_nil in Hx|]. split; [by exists id'|].
      intros Hx'. by apply (H5 id' id x) in Hx'.
  - intros id1 id2 x. rewrite !He. repeat case_decide; subst; rewrite ?elem_of_nil; try done. apply H5.
Qed.

(** ** One layer of a request only takes free slots *)
Section layer.
Context {T W D R Q F : Type} `{TensorOps T} `{Store W} `{!KvMem W D} `{Retrieval R Q}.
Abbreviation RS := (ReqStatePerLayer T D rtask task).
Abbreviation LS := (RS * Shared W R F)%type.

Definition grown_by (new : list Z) (s s' : LS) : Prop :=
  layer_id s'.1 = layer_id s.1 /\ slots s'.1 = slots s.1 ++ new /\ NoDup new /\
  (forall x, x ∈ new -> exists p, layer_pools s.2 !! Z.to_nat (layer_id s.1) = Some p /\ x ∈ free_slots p) /\
  (forall i, layer_pools s'.2 !! i =
     (fun p => if decide (i = Z.to_nat (layer_id s.1)) then take_slots new p else p) <$> layer_pools s.2 !! i).

(** The layer takes some slots of its pool that were free. *)
Definition grown (s s' : LS) : Prop := 0 <= layer_id s.1 -> exists new, grown_by new s s'.

Lemma grown_same s s' : layer_id s'.1 = layer_id s.1 -> slots s'.1 = slots s.1 ->
  layer_pools s'.2 = layer_pools s.2 -> grown s s'.
Proof.
  intros Hl Hs Hp _. exists []. split; [done|]. split; [by rewrite app_nil_r|]. split; [constructor|].
  split; [set_solver|]. intros i. rewrite Hp. destruct (_ !! i) as [p|]; [|done]. simpl.
  case_decide; [by rewrite take_slots_nil|done].
Qed.

#[export] Instance grown_preorder : PreOrder grown.
Proof.
  split.
  - intros s. by apply grown_same.
  - intros s1 s2 s3 H12 H23 Hl. destruct (H12 Hl) as (new1 & L1 & S1 & N1 & F1 & P1).
    destruct H23 as (new2 & L2 & S2 & N2 & F2 & P2); [by rewrite L1|]. rewrite L1 in *.
    exists (new1 ++ new2). split; [congruence|]. split; [by rewrite S2, S1, app_assoc|].
    assert (Hf : forall x, x ∈ new2 -> exists p, layer_pools s1.2 !! Z.to_nat (layer_id s1.1) = Some p /\
      x ∈ free_slots p /\ x ∉ new1).
    { intros x (p & Hp & Hx)%F2. rewrite P1 in Hp. destruct (_ !! _) as [p1|]; [|done]. simpl in Hp.
      rewrite decide_True in Hp by done. injection Hp as <-. exists p1. simpl in Hx. set_solver. }
    split; [|split].
    + apply NoDup_app. split; [done|]. split; [|done]. intros x H1x H2x. by destruct (Hf x H2x) as (p & _ & _ & ?).
    + intros x [Hx|Hx]%elem_of_app; [by apply F1|]. destruct (Hf x Hx) as (p & Hp & Hx' & _). by exists p.
    + intros i. rewrite P2, P1. destruct (_ !! i); [|done]. simpl. case_decide; [|done]. by rewrite take_slots_app.
Qed.

Context (so : SetOrders) (Hso : OrderLaws so) (c : EsaConfig) (thf : list bytes -> string -> string -> Z)
  (query_rows : Q -> Z -> Z -> Q) (block_repre : D -> option D -> F).

Lemma on_req_same f : (forall r, layer_id (f r) = layer_id r /\ slots (f r) = slots r) -> msteps grown (on_req (F := F) f).
Proof. intros Hf s. apply grown_same; simpl; by try apply Hf. Qed.
Lemma on_shared_same f : (forall s, layer_pools (f s) = layer_pools s) -> msteps grown (on_shared (T := T) (D := D) f).
Proof. intros Hf s. apply grown_same; simpl; by try apply Hf. Qed.
Lemma store_call_same {A} (m : M W A) : msteps grown (store_call m).
Proof. intros s. unfold store_call, zoom. destruct (m _). by apply grown_same. Qed.
Lemma retrieval_call_same {A} (m : M R A) : msteps grown (retrieval_call m).
Proof. intros s. unfold retrieval_call, zoom. destruct (m _). by apply grown_same. Qed.
#[local] Hint Resolve on_req_same on_shared_same store_call_same retrieval_call_same : msteps.

Lemma launch_grown ty hashes ids : msteps grown (launch_transfer_task c thf ty hashes ids).
Proof. unfold launch_transfer_task, submit_transfer, k_tensor, req, the. m_steps. Qed.
Lemma restore_grown : msteps grown (restore_windows c).
Proof. unfold restore_windows, layer_write, meta, k_tensor, req, the. m_steps. Qed.
Lemma register_grown fc : msteps grown (maybe_register_static_data c fc).
Proof. unfold maybe_register_static_data, meta, req, the. m_steps. Qed.
Lemma wait_grown : msteps grown wait_transfer_task_done.
Proof. unfold wait_transfer_task_done, req. m_steps. Qed.
Lemma retrieve_grown q : msteps grown (start_retrieval c query_rows q).
Proof. unfold start_retrieval, meta, req, the. m_steps. Qed.
Lemma load_grown : msteps grown (wait_retrieval_and_start_load so c thf).
Proof. unfold wait_retrieval_and_start_load, meta, req, the. m_steps. Qed.

Lemma pool_allocate_inv num p new p' : pool_allocate (order_int so) num p = Ok (new, p') ->
  NoDup new /\ list_to_set new ⊆ free_slots p /\ p' = take_slots new p.
Proof.
  unfold pool_allocate. destruct (_ <? num); [done|]. intros [= <- <-].
  pose proof (ol_int _ Hso (free_slots p)) as Hp. split; [|split; [|done]].
  - apply NoDup_slice. rewrite Hp. apply NoDup_elements.
  - intros x Hx%elem_of_list_to_set. apply elem_of_slice in Hx. rewrite Hp in Hx. by apply elem_of_elements.
Qed.

(** The slots that are taken are recorded at once. *)
Lemma allocate_grown num (index : Z -> list Z -> list (Z * Z) -> list (Z * Z)) (rest : Z -> list Z -> M LS unit) :
  (forall lid new, msteps grown (rest lid new)) ->
  msteps grown (let! lid := req layer_id in
                let! new := allocate_slots_of so lid num in
                let! old := req slots in
                do! on_req (fun r => with_slots (slots r ++ new) (index (pylen old) new (slots_to_relative_indexes r)) r) in
                rest lid new).
Proof.
  intros Hr [rs sh]. unfold req, allocate_slots_of, gets, lift_res, on_shared, on_req, modify, bind, ret. simpl.
  destruct (py_idx (layer_pools sh) (layer_id rs)) as [p|e] eqn:Hp; [|by apply grown_same]. simpl.
  destruct (pool_allocate _ num p) as [[new p']|e] eqn:Ha; [|by apply grown_same]. simpl.
  destruct (py_setitem _ _ p') as [pools|] eqn:Hset; [|by apply grown_same]. simpl.
  destruct (pool_allocate_inv _ _ _ _ Ha) as (Hn & Hf & ->).
  etransitivity; [|apply Hr]. intros Hl. simpl in Hl. exists new. unfold py_idx, of_option in Hp.
  rewrite py_nth_nonneg in Hp by done. destruct (_ !! _) as [p0|] eqn:Hp0; [|done]. injection Hp as ->.
  split; [done|]. split; [done|]. split; [done|]. split; simpl.
  - intros x Hx. exists p. split; [done|]. set_solver.
  - unfold py_setitem in Hset. cbv zeta in Hset. destruct (layer_id rs <? 0) eqn:Hneg; [apply Z.ltb_lt in Hneg; lia|].
    destruct (_ || _) in Hset; [done|]. injection Hset as <-. intros i. destruct (decide (i = Z.to_nat (layer_id rs))) as [->|Hne].
    + rewrite list_lookup_insert_eq by (by eapply lookup_lt_Some). rewrite Hp0. simpl.
      done.
    + rewrite list_lookup_insert_ne by done. by destruct (_ !! i).
Qed.

Lemma repre_grown : msteps grown (block_repre_data so c block_repre).
Proof.
  unfold block_repre_data.
  m_bind; [unfold meta, req, the; m_steps|intros m]. cbv zeta.
  m_bind; [by apply on_req_same|intros _].
  m_bind; [unfold extract_block_repre, layer_read, k_tensor, req, the; m_steps|].
  intros repre. m_bind; [m_steps|intros _].
  apply (allocate_grown _ (fun og new d => foldl (fun d e => od_set e.2 (og + e.1) d) d (enumerate new))).
  intros lid new. unfold store_repre, clone_window, layer_read, k_tensor, req, the. m_steps.
Qed.

Lemma begin_grown q fc : msteps grown (layer_attention_begin so c thf query_rows q fc).
Proof.
  unfold layer_attention_begin, phase, req.
  m_bind; [apply register_grown|intros _].
  m_bind; [m_steps|intros p]. case_match; [|m_steps].
  m_bind; [m_steps|intros n0].
  m_bind; [ |intros _; m_steps; apply wait_grown].
  case_match; [|m_steps]. m_bind; [apply restore_grown|intros _].
  m_bind; [apply retrieve_grown|intros _]. apply load_grown.
Qed.

Lemma finish_grown q : msteps grown (layer_attention_finished so c thf query_rows block_repre q).
Proof.
  unfold layer_attention_finished, phase, next_step, meta, req, the.
  m_bind; [m_steps|intros n0]. case_match.
  - m_bind; [m_steps|intros m]. case_match; [|m_steps].
    m_bind; [apply repre_grown|intros _]. by apply on_req_same.
  - m_bind; [m_steps|intros p].
    m_bind; [case_match; [apply retrieve_grown|m_steps]|intros _].
    m_bind; [case_match; [apply load_grown|m_steps]|intros _]. by apply on_req_same.
Qed.
End layer.

(** ** The pools over the whole batch *)
Section batch.
Context {T W D R Q F : Type} `{TensorOps T} `{Store W} `{!KvMem W D} `{Retrieval R Q}.
Context (so : SetOrders) (Hso : OrderLaws so) (c : EsaConfig) (thf : list bytes -> string -> string -> Z)
  (query_rows : Q -> Z -> Z -> Q) (block_repre : D -> option D -> F).
Context (md5 : bytes -> bytes) (pickle_dumps : hash_input -> bytes).
Abbreviation RS := (ReqStatePerLayer T D rtask task).
Abbreviation ST := (EsaState T D rtask task W R F).
Implicit Types (s st : ST).

(** The slots a request holds in a layer. *)
Definition slots_at st (i : nat) (id : string) : list Z :=
  match od_get id (req_states st) with
  | Some l => match l !! i with Some (Some rs) => slots rs | _ => [] end
  | None => []
  end.

Record pools_ok (all : gset Z) st : Prop := {
  pk_ids : NoDup (od_keys (req_states st));
  pk_layers : forall id l i rs, od_get id (req_states st) = Some l -> l !! i = Some (Some rs) -> layer_id rs = Z.of_nat i;
  pk_shared : forall i p, layer_pools (esa_shared st) !! i = Some p -> shared_out all (slots_at st i) p;
}.
Context (all : gset Z).

Lemma pools_ok_same st st' : req_states st' = req_states st -> layer_pools (esa_shared st') = layer_pools (esa_shared st) ->
  pools_ok all st -> pools_ok all st'.
Proof. intros Hr Hp [? ? ?]. split; unfold slots_at; rewrite ?Hr, ?Hp; done. Qed.

(** One layer of one request changes. *)
Lemma pools_ok_set st id l lid x pools sh : pools_ok all st ->
  od_get id (req_states st) = Some l -> (lid < length l)%nat ->
  (forall rs, x = Some rs -> layer_id rs = Z.of_nat lid) ->
  layer_pools sh = pools ->
  (forall i p, pools !! i = Some p -> exists p0, layer_pools (esa_shared st) !! i = Some p0 /\
     if decide (i = lid) then forall held', (forall id', held' id' = if decide (id' = id) then match x with Some rs => slots rs | None => [] end
                                                      else slots_at st i id') -> shared_out all held' p
     else p = p0) ->
  pools_ok all (put_shared sh (put_req_states (od_set id (<[lid := x]> l) (req_states st)) st)).
Proof.
  intros [Hi Hl Hs] Hg Hlt Hx <- Hp.
  assert (Hg' : forall id', od_get id' (od_set id (<[lid:=x]> l) (req_states st)) =
    if decide (id' = id) then Some (<[lid:=x]> l) else od_get id' (req_states st)) by (intros; apply od_get_set).
  split; simpl.
  - by apply od_set_NoDup.
  - intros id' l' i rs Hg1 Hi1. rewrite Hg' in Hg1. case_decide as Hid; [|by eapply Hl]. subst id'. injection Hg1 as <-.
    destruct (decide (i = lid)) as [->|Hne].
    + rewrite list_lookup_insert_eq in Hi1 by done. by apply Hx; injection Hi1.
    + rewrite list_lookup_insert_ne in Hi1 by done. by eapply Hl.
  - intros i p Hpi. destruct (Hp i p Hpi) as (p0 & Hp0 & Hcase).
    assert (He : forall id', slots_at (put_shared sh (put_req_states (od_set id (<[lid:=x]> l) (req_states st)) st)) i id' =
      if decide (i = lid) then if decide (id' = id) then match x with Some rs => slots rs | None => [] end else slots_at st i id'
      else slots_at st i id').
    { intros id'. unfold slots_at. simpl. rewrite Hg'. destruct (decide (id' = id)) as [->|]; [|by case_decide].
      rewrite Hg. destruct (decide (i = lid)) as [->|Hne]; [rewrite list_lookup_insert_eq by done|rewrite list_lookup_insert_ne by done].
      - by destruct x.
      - done. }
    destruct (decide (i = lid)); [by apply Hcase|]. subst p. eapply shared_out_ext; [|by apply Hs].
    intros id'. by rewrite He.
Qed.

Lemma get_layer_state_run st id lid r st' : 0 <= lid -> get_layer_state id lid st = (r, st') -> st' = st /\
  forall x, r = Ok x -> exists l, od_get id (req_states st) = Some l /\ l !! Z.to_nat lid = Some x.
Proof.
  intros Hl. unfold get_layer_state, layer_states_of, gets, lift_res, bind. simpl.
  destruct (od_get id (req_states st)) as [l|]; simpl; intros [= <- <-]; [|done]. split; [done|]. intros x.
  unfold py_idx. rewrite py_nth_nonneg by done. intros Hx. exists l. split; [done|].
  destruct (l !! Z.to_nat lid); simpl in Hx; by simplify_eq.
Qed.

Lemma set_layer_state_run st id lid l x : 0 <= lid -> od_get id (req_states st) = Some l -> (Z.to_nat lid < length l)%nat ->
  set_layer_state id lid x st = (Ok tt, put_req_states (od_set id (<[Z.to_nat lid := x]> l) (req_states st)) st).
Proof.
  intros Hl Hg Hlt. unfold set_layer_state, layer_states_of, gets, lift_res, modify, bind. simpl. rewrite Hg. simpl.
  unfold py_setitem. cbv zeta. destruct (lid <? 0) eqn:Hneg; [apply Z.ltb_lt in Hneg; lia|].
  destruct ((lid <? 0) || (pylen l <=? lid)) eqn:Hout; [|done].
  apply orb_true_iff in Hout as [Hout|Hout]; [apply Z.ltb_lt in Hout|apply Z.leb_le in Hout]; unfold pylen in *; lia.
Qed.

(** A hook of a request's layer. *)
Lemma on_layer_ok {A} st id lid (m : M (RS * Shared W R F) A) : 0 <= lid -> msteps grown m -> pools_ok all st ->
  pools_ok all (on_layer id lid m st).2.
Proof.
  intros Hlid Hm Hok. unfold on_layer, bind at 1. destruct (get_layer_state id lid st) as [r st0] eqn:Hget.
  destruct (get_layer_state_run _ _ _ _ _ Hlid Hget) as [-> Hx]. destruct r as [[rs|]|e]; [|done..].
  destruct (Hx _ eq_refl) as (l & Hg & Hi). unfold gets, bind at 1. simpl.
  destruct (m (rs, esa_shared st)) as [r [rs' sh']] eqn:Hrun.
  pose proof (msteps_run _ _ _ _ _ Hm Hrun) as Hgr. pose proof (pk_layers _ _ Hok _ _ _ _ Hg Hi) as Hlr.
  destruct Hgr as (new & Hl' & Hs' & Hn & Hf & Hp); [simpl; lia|]. simpl in *.
  rewrite Hlr, Nat2Z.id in Hp, Hf. rewrite Hlr in Hl'.
  rewrite (bind_ok _ _ _ _ _ (set_layer_state_run _ _ _ l (Some rs') Hlid Hg ltac:(by eapply lookup_lt_Some))).
  unfold modify, lift_res, bind. simpl.
  apply (pools_ok_set st id l (Z.to_nat lid) (Some rs') (layer_pools sh') sh' Hok Hg); [by eapply lookup_lt_Some| |done|].
  { intros ? [= <-]. done. }
  intros i p Hpi. rewrite Hp in Hpi. destruct (layer_pools (esa_shared st) !! i) as [p0|] eqn:Hp0; [|done].
  exists p0. split; [done|]. injection Hpi as <-. case_decide as Hi0; [|done]. subst i. intros held' He.
  apply (shared_out_take all (slots_at st (Z.to_nat lid)) held' p0 id new); [by apply (pk_shared _ _ Hok)| |done|].
  - intros x Hx'%elem_of_list_to_set. destruct (Hf x Hx') as (p & Hp1 & Hx1). congruence.
  - intros id'. rewrite He. case_decide; [|done]. subst. rewrite Hs'. unfold slots_at. by rewrite Hg, Hi.
Qed.

(** A preempted request gives its slots back. *)
Lemma free_and_clear_ok st id lid : 0 <= lid -> pools_ok all st ->
  pools_ok all ((let! x := get_layer_state id lid in do! free_layer_state x in set_layer_state id lid None) st).2.
Proof.
  intros Hlid Hok. unfold bind at 1. destruct (get_layer_state id lid st) as [r st0] eqn:Hget.
  destruct (get_layer_state_run _ _ _ _ _ Hlid Hget) as [-> Hx]. destruct r as [[rs|]|e]; [|done..].
  destruct (Hx _ eq_refl) as (l & Hg & Hi). pose proof (pk_layers _ _ Hok _ _ _ _ Hg Hi) as Hlr.
  unfold free_layer_state, gets, lift_res, modify, bind. simpl. rewrite Hlr, Z2Nat.id by done.
  unfold py_idx at 1. rewrite py_nth_nonneg by done.
  destruct (layer_pools (esa_shared st) !! Z.to_nat lid) as [p|] eqn:Hp; [|done]. simpl.
  rewrite (py_setitem_nth _ _ _ _ Hlid Hp). simpl. rewrite (set_layer_state_run _ _ _ l None) by first [done|by eapply lookup_lt_Some].
  eapply pools_ok_same; [..|apply (pools_ok_set st id l (Z.to_nat lid) None
    (<[Z.to_nat lid := pool_free (slots rs) p]> (layer_pools (esa_shared st)))
    (put_pools (<[Z.to_nat lid := pool_free (slots rs) p]> (layer_pools (esa_shared st))) (esa_shared st)) Hok Hg)];
    [done|done|by eapply lookup_lt_Some|done|done|].
  intros i p' Hpi. destruct (decide (i = Z.to_nat lid)) as [->|Hne].
  - rewrite list_lookup_insert_eq in Hpi by (by eapply lookup_lt_Some). injection Hpi as <-. exists p. split; [done|].
    intros held' He. replace (slots rs) with (slots_at st (Z.to_nat lid) id) by (unfold slots_at; by rewrite Hg, Hi).
    apply (shared_out_free all (slots_at st (Z.to_nat lid)) held' p id); [by apply (pk_shared _ _ Hok)|done].
  - rewrite list_lookup_insert_ne in Hpi by done. by exists p'.
Qed.

Lemma new_layer_state name lid rs : layer_id_of name = Ok lid ->
  new_ReqStatePerLayer (T := T) (D := D) (RT := rtask) (ST := task) name = Ok rs -> layer_id rs = lid /\ slots rs = [].
Proof. unfold new_ReqStatePerLayer. intros ->. simpl. by intros [= <-]. Qed.

(** The states of a request that is new here are empty. *)
Lemma ensure_request_ok st id : pools_ok all st ->
  pools_ok all (if od_mem id (req_states st) then st
                else put_req_states (od_set id (py_repeat None (total_num_hidden_layers c)) (req_states st)) st).
Proof.
  intros Hok. unfold od_mem. destruct (od_get id (req_states st)) as [l|] eqn:Hg; [done|]. destruct Hok as [Hi Hl Hs].
  assert (Hr : forall i x, (py_repeat None (total_num_hidden_layers c) : list (option RS)) !! i = Some x -> x = None)
    by (intros i x; unfold py_repeat; by intros [? _]%lookup_replicate).
  split; simpl.
  - by apply od_set_NoDup.
  - intros id' l i rs. rewrite od_get_set. case_decide; [|by apply Hl]. intros [= <-] Hx. by apply Hr in Hx.
  - intros i p Hp. eapply shared_out_ext; [|by apply Hs]. intros id'. unfold slots_at. simpl. rewrite od_get_set.
    case_decide; [|done]. subst. rewrite Hg. case_match eqn:Hx; [|done]. by apply Hr in Hx as ->.
Qed.

(** A statement that keeps the pools, and what follows it. *)
Lemma then_ok {A B} (m : M ST A) (k : A -> M ST B) st : pools_ok all (m st).2 ->
  (forall a st', m st = (Ok a, st') -> pools_ok all st' -> pools_ok all (k a st').2) -> pools_ok all (bind m k st).2.
Proof. intros Hm Hk. unfold bind. destruct (m st) as [[a|e] st'] eqn:Hr; [by apply Hk|done]. Qed.

Lemma create_ok st id name lid : layer_id_of name = Ok lid -> 0 <= lid -> pools_ok all st ->
  pools_ok all ((let! x := get_layer_state id lid in
    match x with
    | Some _ => ret tt
    | None =>
        let! pools := gets (fun s => layer_pools (esa_shared s)) in
        let! _ := lift_res (py_idx pools lid) in
        let! rs := lift_res (new_ReqStatePerLayer name) in
        set_layer_state id lid (Some rs)
    end) st).2.
Proof.
  intros Hname Hlid Hok. unfold bind at 1. destruct (get_layer_state id lid st) as [r st0] eqn:Hget.
  destruct (get_layer_state_run _ _ _ _ _ Hlid Hget) as [-> Hx]. destruct r as [[rs|]|e]; [done| |done].
  destruct (Hx _ eq_refl) as (l & Hg & Hi). unfold gets, lift_res, bind. simpl.
  destruct (py_idx _ lid) as [pool|]; [|done]. destruct (new_ReqStatePerLayer name) as [rs|] eqn:Hnew; [|done].
  destruct (new_layer_state _ _ _ Hname Hnew) as [Hl0 Hs0].
  rewrite (set_layer_state_run _ _ _ l) by first [done|by eapply lookup_lt_Some]. simpl.
  eapply pools_ok_same; [..|apply (pools_ok_set st id l (Z.to_nat lid) (Some rs)
    (layer_pools (esa_shared st)) (esa_shared st) Hok Hg)]; [done|done|by eapply lookup_lt_Some| |done|].
  - intros ? [= <-]. lia.
  - intros i p Hp. exists p. split; [done|]. case_decide; [|done]. subst i. intros held' He.
    eapply shared_out_ext; [|by apply (pk_shared _ _ Hok)]. intros id'. rewrite He. case_decide; [|done]. subst.
    rewrite Hs0. unfold slots_at. by rewrite Hg, Hi.
Qed.

Lemma get_or_create_ok st m name lid : layer_id_of name = Ok lid -> 0 <= lid -> pools_ok all st ->
  pools_ok all (get_or_create_layerwise_req_state c m name st).2.
Proof.
  intros Hname Hlid Hok. unfold get_or_create_layerwise_req_state. rewrite Hname.
  apply then_ok; [done|]. intros ? ? [= <- <-] _.
  apply then_ok; [case_match; [by apply free_and_clear_ok|done]|]. intros _ st1 _ Hok1.
  apply then_ok; [by apply ensure_request_ok|]. intros _ st2 _ Hok2. by apply create_ok.
Qed.

(** A loop over the requests of a step. *)
Lemma for_ok {A} (l : list A) (f : A -> M ST unit) st :
  (forall x st, pools_ok all st -> pools_ok all (f x st).2) -> pools_ok all st -> pools_ok all (for_ l f st).2.
Proof.
  intros Hf. revert st. induction l as [|x l IH]; intros st Hok; [done|]. simpl. apply then_ok; auto.
Qed.

Lemma hook_ok phase (f : ReqMeta -> M ST unit) st :
  (forall x st, pools_ok all st -> pools_ok all (f x st).2) -> pools_ok all st ->
  pools_ok all ((let! l := hook_requests c phase in for_ l f) st).2.
Proof.
  intros Hf Hok. unfold hook_requests, gets, bind. destruct (negb (is_mla c)); by apply for_ok.
Qed.

Lemma attention_begin_ok st q name fc phase lid : layer_id_of name = Ok lid -> 0 <= lid -> pools_ok all st ->
  pools_ok all (attention_begin so c thf query_rows q name fc phase st).2.
Proof.
  intros Hname Hlid. apply hook_ok. intros m st' Hok. unfold create_req_state_attention_begin.
  apply then_ok; [by eapply get_or_create_ok|]. intros _ st1 _ Hok1. rewrite Hname.
  apply then_ok; [done|]. intros ? ? [= <- <-] _. apply on_layer_ok; [done| |done].
  m_bind; [by apply on_req_same|intros _; apply begin_grown].
Qed.

Lemma attention_finished_ok st q name phase lid : layer_id_of name = Ok lid -> 0 <= lid -> pools_ok all st ->
  pools_ok all (attention_finished so c thf query_rows block_repre q name phase st).2.
Proof.
  intros Hname Hlid. apply hook_ok. intros m st' Hok. unfold update_req_state_attention_end.
  rewrite Hname. apply then_ok; [done|]. intros ? ? [= <- <-] _. apply on_layer_ok; [done| |done].
  m_bind; [by apply on_req_same|intros _; by apply finish_grown].
Qed.

(** What a finished request held is free again. *)
Lemma free_layer_run st rs st' i : free_layer_state (Some rs) st = (Ok tt, st') -> layer_id rs = Z.of_nat i ->
  exists p, layer_pools (esa_shared st) !! i = Some p /\ req_states st' = req_states st /\
    layer_pools (esa_shared st') = <[i := pool_free (slots rs) p]> (layer_pools (esa_shared st)).
Proof.
  intros Hrun Hl. unfold free_layer_state, gets, lift_res, modify, bind in Hrun. simpl in Hrun. rewrite Hl in Hrun.
  unfold py_idx at 1 in Hrun. rewrite py_nth_nonneg, Nat2Z.id in Hrun by lia.
  destruct (layer_pools (esa_shared st) !! i) as [p|] eqn:Hp; [|done]. simpl in Hrun. exists p. split; [done|].
  rewrite (py_setitem_nth _ _ p) in Hrun by (rewrite ?Nat2Z.id; first [lia|done]). rewrite Nat2Z.id in Hrun.
  simpl in Hrun. by injection Hrun as <-.
Qed.

Lemma free_all_run l : forall (k : nat) st st',
  (forall i rs, l !! i = Some (Some rs) -> layer_id rs = Z.of_nat (k + i)) ->
  for_ l free_layer_state st = (Ok tt, st') ->
  req_states st' = req_states st /\
  (forall i, (i < k)%nat -> layer_pools (esa_shared st') !! i = layer_pools (esa_shared st) !! i) /\
  (forall i, layer_pools (esa_shared st') !! (k + i)%nat =
     (fun p => match l !! i with Some (Some rs) => pool_free (slots rs) p | _ => p end)
       <$> layer_pools (esa_shared st) !! (k + i)%nat).
Proof.
  induction l as [|x l IH]; intros k st st' Hl Hrun.
  { injection Hrun as <-. split; [done|]. split; [done|]. intros i. simpl. by destruct (_ !! _). }
  simpl in Hrun. unfold bind in Hrun. destruct (free_layer_state x st) as [[[]|e] st1] eqn:H1x; [|done].
  destruct x as [rs|]; [|done].
  destruct (free_layer_run _ _ _ k H1x) as (p & Hp & Hr1 & Hp1); [rewrite (Hl 0%nat rs eq_refl); lia|].
  destruct (IH (S k) st1 st') as (Hr & Hlow & Hhigh); [|done|].
  { intros i rs' Hi. rewrite (Hl (S i) rs' Hi). lia. }
  split; [congruence|]. split.
  - intros i Hi. rewrite Hlow, Hp1, list_lookup_insert_ne by lia. done.
  - intros [|i].
    + rewrite Nat.add_0_r, Hlow, Hp1, list_lookup_insert_eq, Hp by first [lia|by eapply lookup_lt_Some]. done.
    + replace (k + S i)%nat with (S k + i)%nat by lia. rewrite Hhigh, Hp1, list_lookup_insert_ne by lia. done.
Qed.

Lemma finished_ok st id st' : pools_ok all st -> request_finished_in_worker id st = (Ok tt, st') ->
  pools_ok all st' /\ od_get id (req_states st') = None.
Proof.
  intros Hok. unfold request_finished_in_worker, gets, bind. simpl.
  destruct (od_get id (req_states st)) as [l|] eqn:Hg; [|by intros [= <-]].
  destruct (for_ l free_layer_state st) as [[[]|e] st1] eqn:Hf; [|done]. intros [= <-].
  destruct (free_all_run l 0 st st1) as (Hr & _ & Hp); [by intros i rs Hi; eapply pk_layers|done|].
  assert (Hd : od_get id (od_del id (req_states st1)) = None) by (apply od_get_del_eq; rewrite Hr; by apply Hok).
  split; [|done]. split; simpl.
  - apply od_del_NoDup. rewrite Hr. by apply Hok.
  - intros id' l' i rs Hg'. destruct (decide (id' = id)) as [->|Hne]; [by rewrite Hd in Hg'|].
    rewrite od_get_del_ne, Hr in Hg' by done. by eapply pk_layers.
  - intros i p' Hp'. change (layer_pools (esa_shared st1) !! i = Some p') in Hp'. change i with (0 + i)%nat in Hp'. rewrite Hp in Hp'. simpl in Hp'.
    destruct (layer_pools (esa_shared st) !! i) as [p|] eqn:Hpi; [|done]. injection Hp' as <-.
    set (st2 := put_req_states (od_del id (req_states st1)) st1).
    assert (He : forall id', slots_at st2 i id' = if decide (id' = id) then [] else slots_at st i id').
    { intros id'. unfold slots_at, st2. simpl. case_decide as Hid; [subst; by rewrite Hd|].
      by rewrite od_get_del_ne, Hr. }
    assert (Hsl : slots_at st i id = match l !! i with Some (Some rs) => slots rs | _ => [] end)
      by (unfold slots_at; by rewrite Hg).
    pose proof (pk_shared _ _ Hok i p Hpi) as Hso2.
    destruct (l !! i) as [[rs|]|] eqn:Hli.
    + rewrite <- Hsl. by apply (shared_out_free all (slots_at st i) _ p id).
    + eapply shared_out_ext; [|exact Hso2]. intros id'. rewrite He. case_decide; [by subst|done].
    + eapply shared_out_ext; [|exact Hso2]. intros id'. rewrite He. case_decide; [by subst|done].
Qed.

Definition same_pools st st' : Prop :=
  req_states st' = req_states st /\ layer_pools (esa_shared st') = layer_pools (esa_shared st).
#[local] Instance same_pools_preorder : PreOrder same_pools.
Proof. split; [done|]. intros s1 s2 s3 [? ?] [? ?]. split; congruence. Qed.

Lemma build_meta_same i : msteps same_pools (build_sparse_meta c md5 pickle_dumps i).
Proof.
  assert (Hm : forall f : ST -> ST, (forall s, req_states (f s) = req_states s /\ esa_shared (f s) = esa_shared s) ->
    msteps same_pools (modify f)) by (intros f Hf s; split; simpl; [|f_equal]; apply Hf).
  unfold build_sparse_meta. m_bind; [by apply Hm|intros _]. apply msteps_for; [typeclasses eauto|].
  intros [id scheduled]. unfold add_sparse_request. m_bind; [m_steps|intros r]. case_match; [m_steps|].
  m_bind; [by apply Hm|intros _]. m_steps; by apply Hm.
Qed.

(** The operations of a worker, with hooks for the layers of the model. *)
Inductive esa_reach (num : Z) (layers : nat) (d0 : Shared W R F) : ST -> Prop :=
  | reach_init : layer_pools d0 = replicate layers (new_ReprePool num) ->
      esa_reach num layers d0 (MkEsa [] d0 [] [] [] ∅)
  | reach_meta st i : esa_reach num layers d0 st -> esa_reach num layers d0 (build_sparse_meta c md5 pickle_dumps i st).2
  | reach_begin st q name lid fc phase : esa_reach num layers d0 st -> layer_id_of name = Ok lid -> 0 <= lid ->
      esa_reach num layers d0 (attention_begin so c thf query_rows q name fc phase st).2
  | reach_end st q name lid phase : esa_reach num layers d0 st -> layer_id_of name = Ok lid -> 0 <= lid ->
      esa_reach num layers d0 (attention_finished so c thf query_rows block_repre q name phase st).2
  | reach_world st w r : esa_reach num layers d0 st ->
      esa_reach num layers d0 (put_shared (put_retrieval r (put_world w (esa_shared st))) st)
  | reach_done st id st' : esa_reach num layers d0 st -> request_finished_in_worker id st = (Ok tt, st') ->
      esa_reach num layers d0 st'.
End batch.

(** C34. No two requests share a slot, and none is lost.  Whatever hooks, steps,
    preemptions and finished requests there were, errors of the store included:
    in every layer the slots are split into free and allocated ones, each
    allocated slot is held by exactly one request, once; and when a request is
    finished, all it held is free. *)
Theorem esa_slots_have_one_owner {T W D R Q F} `{TensorOps T} `{Store W} `{!KvMem W D} `{Retrieval R Q}
    so c thf (query_rows : Q -> Z -> Z -> Q) (block_repre : D -> option D -> F) md5 pickle_dumps num layers d0 st :
  OrderLaws so -> esa_reach (T := T) so c thf query_rows block_repre md5 pickle_dumps num layers d0 st ->
  (forall i p, layer_pools (esa_shared st) !! i = Some p -> shared_out (list_to_set (zrange 0 num)) (slots_at st i) p) /\
  (forall id st' i, request_finished_in_worker id st = (Ok tt, st') -> slots_at st' i id = []).
Proof.
  intros Hso Hr. assert (Hok : pools_ok (list_to_set (zrange 0 num)) st).
  { induction Hr as [Hp|st i Hr IH|st q name lid fc phase Hr IH Hn Hl|st q name lid phase Hr IH Hn Hl|st w r Hr IH|st id st' Hr IH Hd].
    - split; simpl; [constructor|done|]. intros i p. rewrite Hp. intros [-> _]%lookup_replicate.
      split; simpl; try set_solver. constructor.
    - destruct (build_meta_same (T := T) (D := D) (R := R) (F := F) c md5 pickle_dumps i st) as [Hs Hp].
      by eapply pools_ok_same.
    - by eapply attention_begin_ok.
    - by eapply attention_finished_ok.
    - by apply (pools_ok_same _ st).
    - by eapply finished_ok. }
  split; [by apply Hok|]. intros id st' i Hd. unfold slots_at. by destruct (finished_ok _ _ _ _ Hok Hd) as [_ ->].
Qed.
