(* ===== verification/EsaDemo.v ===== *)
(** * ESA: a small concrete run *)

From Stdlib Require Import Ascii String.
From S2P Require Import Prelude.
From S2P Require Import Wp.
From S2P Require Import PyStr.
From S2P Require Import StoreApi.
From S2P Require Import Hasher.
From S2P Require Import Layout.
From S2P Require Import DeviceMem.
From S2P Require Import Connector.
From S2P Require Import ConnectorWorker.
From S2P Require Import Esa.
From S2P Require Import EsaBlocks.
From S2P Require Import EsaRuns.
From S2P Require Import EsaPool.
From stdpp Require Import strings.
Local Open Scope Z_scope.
Local Open Scope py_scope.

Module EsaDemo.
Import MemDemo.
(** Workers that keep what was asked and answer with the first slots. *)
Abbreviation R := (list (Z * (Z * Z * list (list Z)))).
Definition asked_of (r : R) (lid : Z) (t : nat) : option (Z * Z * list (list Z)) :=
  match r !! t with
  | Some (l, x) => if decide (l = lid) then Some x else None
  | None => None
  end.
Definition first_slots (_ n : Z) (idx row : list Z) : Prop := row = take (Z.to_nat n) idx.
#[global] Instance workers : Retrieval R Z := {|
  rtask := nat;
  r_submit lid q n idx := fun r => (Ok (length r), r ++ [(lid, (q, n, idx))]);
  r_wait _ _ := ret tt;
  r_get_result lid t := fun r =>
    match asked_of r lid t with
    | Some (_, n, idx) => (Ok (take (Z.to_nat n) <$> idx), r)
    | None => (Err RuntimeError, r)
    end;
|}.
#[global] Instance workers_view : RetrievalView R Z := {| asked := asked_of; relevant := first_slots |}.
#[global] Instance workers_laws : RetrievalLaws R Z.
Proof.
  split.
  - done.
  - intros lid q n idx r t r' [= <- <-]. unfold asked_of, asked. simpl. unfold asked_of.
    rewrite lookup_app_r, Nat.sub_diag by done. simpl. by rewrite decide_True.
  - intros r lid t q n idx Ha. simpl in Ha. exists r, (take (Z.to_nat n) <$> idx), r. split; [done|]. simpl. rewrite Ha.
    split; [done|]. clear Ha. induction idx; constructor; done.
  - intros q n idx row -> Hn Hz. split; [by eapply sublist_NoDup, sublist_take|]. split.
    + intros x Hx. by eapply elem_of_submseteq, sublist_submseteq, sublist_take.
    + unfold pylen. rewrite length_take. lia.
Qed.

(** ** One decoding step: blocks of two tokens, a prompt of four blocks of which
    the first and the last stay, and one of the two others is selected *)
Definition half : float := SpecFloat.S754_finite false 4503599627370496 (-53).
Definition cfg : EsaConfig :=
  {| init_window_sz := 1; local_window_sz := 1; min_blocks := 3; sparse_ratio := half; retrieval_stride := 3;
     block_size := 2; num_layers := 2; total_num_hidden_layers := 2; itemsize := 2; rank := 0; is_mla := false;
     model_name := "m"; tp_size := 1; dtype_name := "bf16" |}.
Definition so : SetOrders := {| order_int := elements; order_bytes := elements |}.
Definition thf (_ : list bytes) (_ ty : string) : Z := if decide (ty = "key"%string) then 0 else 1.
Definition query_rows (q _ _ : Z) : Z := q.
Definition block_repre (x : Z) (_ : option Z) : Z := x.

(** Two caches of eight blocks of four bytes. *)
Definition k : tensor := ([8; 2; 1], 0).
Definition v : tensor := ([8; 2; 1], 100).
Definition hashes : list bytes := ["a"; "b"]%string.
Definition stored_blocks : gmap (bytes * Z) (list Z) :=
  list_to_map [(("a"%string, 1), [71]); (("b"%string, 1), [72]); (("a"%string, 3), [81]); (("b"%string, 3), [82])].

Definition meta_of (ids : list Z) (computed scheduled : Z) (out : list Z) : ReqMeta :=
  {| request_id := "r"; index_in_batch := 0; num_scheduled_tokens := scheduled; num_computed_tokens := computed;
     vllm_block_ids := ids; query_start_loc := 0; prompt_token_ids := [1; 2; 3; 4; 5; 6; 7]; output_token_ids := out;
     is_preempt := false; ucm_block_hashes := hashes |}.
Definition prompt : ReqMeta := meta_of [0; 1; 2; 3] 0 7 [].
Definition token : ReqMeta := meta_of [4; 5; 6] 7 1 [9].

Definition layer1 : ReqStatePerLayer tensor Z nat nat :=
  match new_ReqStatePerLayer "model.layers.1.attn" with
  | Ok rs => with_static k (Some v) (Some hashes) rs
  | Err _ => {| layer_name := ""; layer_id := 0; slots := []; slots_to_relative_indexes := []; retrieval_task := None;
                req_meta := None; k_cache := None; v_cache := None; tasks := []; block_hashes := None;
                pre_topk_block_hashes := []; sparse_range := 0; init_static_flag := false; init_window := None;
                local_window := None; step := 0 |}
  end.
Definition shared (bl : gmap (bytes * Z) (list Z)) : Shared W R Z :=
  MkShared (MemStore.idle bl (fun a => a)) [] [new_ReprePool 10; new_ReprePool 10] [∅; ∅].

Abbreviation LS := (ReqStatePerLayer tensor Z nat nat * Shared W R Z)%type.
Definition after_prompt : ReqStatePerLayer tensor Z nat nat :=
  (finish_step so cfg thf query_rows block_repre prompt 5 (layer1, shared ∅)).2.1.
Definition at_attention : LS :=
  (begin_step so cfg thf query_rows token 6 [] (after_prompt, shared stored_blocks)).2.

Lemma k_ok : cache_ok cfg 8 k.
Proof. by split. Qed.
Lemma v_ok : cache_ok cfg 8 v.
Proof. by split. Qed.
Lemma apart i j : 0 <= i < 8 -> 0 <= j < 8 -> addr k i <> addr v j.
Proof. unfold addr, block_numel. simpl. lia. Qed.
Lemma orders_ok : OrderLaws so.
Proof. by split. Qed.
Lemma idle_own (region : list Z) bl : own region (world (shared bl)) [].
Proof.
  split; try (simpl; by constructor).
  - intros t hs sh dst Hin. by apply elem_of_nil in Hin.
  - intros l a Hin. by apply elem_of_nil in Hin.
Qed.
Lemma all_are_stored : all_stored cfg 1 hashes (world (shared stored_blocks)).
Proof.
  intros h Hh. assert (Hw : forall sh, ~ writing (world (shared stored_blocks)) h sh).
  { intros sh (t & ? & ? & ? & ? & ? & Hf & _). done. }
  apply elem_of_cons in Hh as [->|Hh]; [|apply list_elem_of_singleton in Hh as ->];
    (split; [by eexists|split; [by eexists|done]]).
Qed.

Lemma esa_window_holds_the_selection_witness :
  devmem (world at_attention.2) (addr k 5) = 71 /\ window_ready cfg k v 1 [5] hashes [((1, Begin), 6)] at_attention.
Proof.
  split; [vm_compute; reflexivity|].
  destruct (esa_window_holds_the_selection (T := tensor) (W := W) (Q := Z) so orders_ok cfg eq_refl thf ltac:(discriminate)
    query_rows k v 8 k_ok v_ok apart 1 [5] ltac:(unfold ids_ok; rewrite Forall_singleton; lia)
    ltac:(apply (bool_decide_eq_true_1 (NoDup _)); reflexivity) hashes
    ltac:(apply (bool_decide_eq_true_1 (NoDup _)); vm_compute; reflexivity) ltac:(simpl; lia)
    block_repre layer1 (shared ∅) prompt 5) as (rs1 & sh1 & Hrun & Hall).
  - split; try reflexivity. unfold ids_ok. simpl. rewrite !Forall_cons. split_and!; try lia. done.
  - split; try (vm_compute; congruence).
    + eexists. split; [reflexivity|]. vm_compute. congruence.
    + eexists. reflexivity.
  - vm_compute. reflexivity.
  - vm_compute. congruence.
  - vm_compute. reflexivity.
  - assert (rs1 = after_prompt) as -> by (symmetry; exact (f_equal (fun x => x.2.1) Hrun)).
    eapply (Hall (shared stored_blocks) true); [apply idle_own|apply all_are_stored| |reflexivity].
    change [((1, Begin), 6)] with [((step (after_prompt, shared stored_blocks).1, Begin), step_query query_rows token 6)].
    eapply run_begin with (s := (after_prompt, shared stored_blocks)) (qs := []) (m := token) (q := 6) (fc := []); [apply run_start| |unfold at_attention; vm_compute; reflexivity].
    split; [vm_compute; reflexivity|]. intros _. exists [0], [100], [12], [112].
    split; vm_compute; try reflexivity; repeat constructor; lia || congruence.
Defined.

(** The whole instance: a step with two new requests. *)
Abbreviation ST := (EsaState tensor Z (rtask (R := R) (Q := Z)) (task (W := W)) W R Z).
Definition request (toks ids : list Z) : CachedRequest :=
  {| cr_prompt_token_ids := toks; cr_output_token_ids := []; cr_num_computed_tokens := 0; cr_block_ids := [ids] |}.
Definition step_input : StepInput :=
  {| si_num_scheduled_tokens := [("r", 7); ("s", 8)]%string; si_cached_reqs := None; si_req_ids := ["r"; "s"]%string;
     si_req_id_to_index := [("r", 0); ("s", 1)]%string;
     si_requests := [("r"%string, request [1; 2; 3; 4; 5; 6; 7] [0; 1; 2; 3]);
                     ("s"%string, request [1; 2; 3; 4; 5; 6; 7; 8] [4; 5; 6; 7])];
     si_attn_metadata := inl {| am_query_start_loc := [0; 7; 15]; am_num_decodes := 0; am_prefill := None; am_decode := false |} |}.
Definition caches : list (string * kv_layer tensor) := [("model.layers.0.attn"%string, KTuple [k; v])].
Definition start : ST := MkEsa [] (shared ∅) [] [] [] ∅.
Definition with_metadata : ST := (build_sparse_meta cfg Demo.md5 Demo.pickle_short step_input start).2.
Definition begun : ST :=
  (attention_begin so cfg thf query_rows 5 "model.layers.0.attn" caches None with_metadata).2.
Definition ended : ST :=
  (attention_finished so cfg thf query_rows block_repre 5 "model.layers.0.attn" None begun).2.

Lemma esa_slots_have_one_owner_witness :
  slots_at ended 0 "r" = [7; 9] /\ slots_at ended 0 "s" = [5; 3] /\
  forall p, layer_pools (esa_shared ended) !! 0%nat = Some p -> shared_out (list_to_set (zrange 0 10)) (slots_at ended 0) p.
Proof.
  split; [vm_compute; reflexivity|]. split; [vm_compute; reflexivity|]. intros p Hp.
  eapply (esa_slots_have_one_owner so cfg thf query_rows block_repre Demo.md5 Demo.pickle_short 10 2 (shared ∅));
    [apply orders_ok| |exact Hp].
  eapply reach_end; [|vm_compute; reflexivity|apply Z.le_refl].
  eapply reach_begin; [|vm_compute; reflexivity|apply Z.le_refl]. apply reach_meta. apply (reach_init (T := tensor) (W := W) (D := Z) (R := R) (Q := Z) (F := Z) so cfg thf query_rows block_repre Demo.md5 Demo.pickle_short 10 2 (shared ∅)). reflexivity.
Defined.

Definition hashes_of (toks : list Z) : list bytes :=
  load_key_ids Demo.md5 Demo.pickle_short (ConnDemo.conn WORKER)
    (generate_hash Demo.md5 Demo.pickle_short (hasher cfg 0) 2 toks (seed Demo.md5 Demo.pickle_short (hasher cfg 0))).
Lemma esa_hashes_are_the_connectors_witness :
  new_block_hashes Demo.md5 Demo.pickle_short cfg [1; 2; 3; 4; 5; 6; 7; 8; 9]
    = slice (hashes_of [1; 2; 3; 4; 5; 6; 7; 8; 9]) 1 4 /\
  pylen (new_block_hashes Demo.md5 Demo.pickle_short cfg [1; 2; 3; 4; 5; 6; 7; 8; 9]) = 3.
Proof.
  destruct (esa_hashes_are_the_connectors Demo.md5 Demo.pickle_short cfg (ConnDemo.conn WORKER) [1; 2; 3; 4; 5; 6; 7; 8; 9])
    as (H1 & _ & H3); [reflexivity|vm_compute; congruence|vm_compute; congruence|reflexivity|reflexivity|reflexivity| |].
  - vm_compute. congruence.
  - split; [exact H1|exact H3].
Defined.

(** *** Behaviours a reader would not expect *)

(** With a stride of two the second step waits for a retrieval nobody asked for. *)
Definition stride_two : EsaConfig :=
  {| init_window_sz := 1; local_window_sz := 1; min_blocks := 3; sparse_ratio := half; retrieval_stride := 2;
     block_size := 2; num_layers := 2; total_num_hidden_layers := 2; itemsize := 2; rank := 0; is_mla := false;
     model_name := "m"; tp_size := 1; dtype_name := "bf16" |}.
Example stride_two_raises :
  (let s1 := begin_step so stride_two thf query_rows token 6 [] (after_prompt, shared stored_blocks) in
   let s2 := finish_step so stride_two thf query_rows block_repre token 6 s1.2 in
   let s3 := begin_step so stride_two thf query_rows token 6 [] s2.2 in
   (s1.1, s2.1, s3.1, (finish_step so stride_two thf query_rows block_repre token 6 s3.2).1))
  = (Ok tt, Ok tt, Ok tt, Err TypeError).
Proof. vm_compute. reflexivity. Qed.

(** A prompt that fills its last block: the first output token opens a block,
    and the local window comes back one block too late. *)
Example full_prompt_needs_four_blocks : compressed_prompt_len cfg 8 = Ok 6.
Proof. reflexivity. Qed.
Definition full_prompt (ids : list Z) (computed scheduled : Z) (out : list Z) : ReqMeta :=
  {| request_id := "r"; index_in_batch := 0; num_scheduled_tokens := scheduled; num_computed_tokens := computed;
     vllm_block_ids := ids; query_start_loc := 0; prompt_token_ids := [1; 2; 3; 4; 5; 6; 7; 8]; output_token_ids := out;
     is_preempt := false; ucm_block_hashes := hashes |}.
Definition full_attention : LS :=
  let rs := (finish_step so cfg thf query_rows block_repre (full_prompt [0; 1; 2; 3] 0 8 []) 5 (layer1, shared ∅)).2.1 in
  (begin_step so cfg thf query_rows (full_prompt [4; 5; 6; 7] 8 1 [9]) 6 [] (rs, shared stored_blocks)).2.
(** block 3 held 12: it should be in block 6, before the one of the new token *)
Example local_window_one_block_late :
  mem_read (world full_attention.2) (addr k 6) = 24 /\ mem_read (world full_attention.2) (addr k 7) = 12.
Proof. split; vm_compute; reflexivity. Qed.

Definition wide : EsaConfig :=
  {| init_window_sz := 1; local_window_sz := 3; min_blocks := 3; sparse_ratio := half; retrieval_stride := 3;
     block_size := 2; num_layers := 2; total_num_hidden_layers := 2; itemsize := 2; rank := 0; is_mla := false;
     model_name := "m"; tp_size := 1; dtype_name := "bf16" |}.
(** A prompt no longer than the windows cannot be computed. *)
Example no_sparse_range_raises :
  (finish_step so wide thf query_rows block_repre prompt 5 (layer1, shared ∅)).1 = Err RuntimeError.
Proof. vm_compute. reflexivity. Qed.
End EsaDemo.
