(* ===== verification/StoreBase.v ===== *)
(** * The older store interface (ucm/store/ucmstore.py)

    [UcmKVStoreBase]: blocks are named by strings, parts of a block by an
    offset; tensors are the addresses of their contents ([DeviceMem]).  KVStar
    is written against it, and the Mooncake store implements it. *)

From S2P Require Import Prelude.
Local Open Scope Z_scope.

Class UcmKVStoreBase (W : Type) : Type := {
  kv_task : Type;
  (** 0 - success, per block *)
  kv_create : list string -> M W (list Z);
  kv_lookup : list string -> M W (list bool);
  kv_prefetch : list string -> M W unit;
  (** block ids, offsets and the tensors to fill, or to read *)
  kv_load : list string -> list Z -> list Z -> M W kv_task;
  kv_dump : list string -> list Z -> list Z -> M W kv_task;
  (** 0 - success *)
  kv_wait : kv_task -> M W Z;
  kv_commit : list string -> bool -> M W unit;
}.
