(* ===== verification/Kvstar.v ===== *)
(** * KVStar multi-step sparse attention (ucm/sparse/kvstar/multistep.py)

    A decoding request keeps its first and last prompt blocks on the device and
    a window of retrieved blocks between them.  The queries of
    [retrieval_stride] steps form a group; when a group is full a worker looks
    for the blocks most relevant to it, and one stride later the result is
    loaded into the window.

    The retrieval workers ([KvRetrieve]), the store ([UcmKVStoreBase]), torch's
    tensors and the device memory are interfaces.  A query is one token's row of
    type [Q], a representative a value of type [F], the index of the pruned
    dimensions a value of type [P]. *)

From Stdlib Require Import Ascii String.
From S2P Require Import Prelude.
From S2P Require Import PyStr.
From S2P Require Import StoreApi.
From S2P Require Import StoreBase.
From S2P Require Import Hasher.
From S2P Require Import Layout.
From S2P Require Import DeviceMem.
From S2P Require Import GsaSparse.
From stdpp Require Import strings.
Local Open Scope Z_scope.
Local Open Scope py_scope.

(** [kvstar_retrieve]: [k_result] is the ["data"] of a successful task. *)
Class KvRetrieve (R Q F P : Type) : Type := {
  ktask : Type;
  k_async : list Q -> list F -> option P -> Z -> Z -> M R ktask;
  k_wait : ktask -> M R unit;
  k_result : ktask -> M R (option (list Z));
}.

(** ** The request of a step *)

Inductive ReqStage := PREFILL | DECODE.
#[export] Instance ReqStage_eq_dec : EqDecision ReqStage.
Proof. solve_decision. Defined.

Record ReqMeta := {
  request_id : string;
  index_in_batch : Z;
  num_prompt_tokens : Z;
  num_output_tokens : Z;
  num_scheduled_tokens : Z;
  num_computed_tokens : Z;
  num_sparsed_tokens : Z;
  vllm_block_ids : list Z;
  token_blk_size : Z;
  prompt_token_ids : list Z;
  query_start_loc : Z;
  query_len : Z;
  retrieval_stride : Z;
  block_hashes : list string;
}.

Definition step (m : ReqMeta) : Z := num_output_tokens m.
Definition stage (m : ReqMeta) : ReqStage := if 0 <? num_output_tokens m then DECODE else PREFILL.
Definition is_last_chunk (m : ReqMeta) : bool :=
  num_prompt_tokens m <=? num_computed_tokens m + num_scheduled_tokens m.
Definition prefill_fully_blk_num (m : ReqMeta) : Z := num_prompt_tokens m / token_blk_size m.

(** Where the queries of a step belong in their group. *)
Definition query_offload_info (m : ReqMeta) : option (list Z) :=
  match stage m with
  | PREFILL =>
      let end_pos := num_computed_tokens m + num_scheduled_tokens m in
      if end_pos <? num_prompt_tokens m - retrieval_stride m then None
      else
        let valid_end := retrieval_stride m - (num_prompt_tokens m - end_pos) in
        let valid_num := Z.min valid_end (num_scheduled_tokens m) in
        let valid_start := valid_end - valid_num in
        Some (zrange valid_start valid_end)
  | DECODE => Some [num_output_tokens m mod retrieval_stride m]
  end.

(** ** The state of a request in a layer *)

Record KvstarConfig := {
  ks_init_window_sz : Z;
  ks_local_window_sz : Z;
  ks_sparse_ratio : float;
  ks_retrieval_stride : Z;
  ks_blk_repre_dim_prune_ratio : float;
  ks_block_size : Z;
  ks_total_num_hidden_layers : Z;
  ks_rank : Z;
  ks_is_mla : bool;
  ks_model_name : string;
  ks_world_size : Z;
  ks_tp_size : Z;
  ks_dtype_name : string;
}.

(** The groups of queries and their retrievals, by the group's record. *)
Record Groups (Q RT : Type) := MkGroups {
  standby_query_group : list (string * list (option Q));
  do_retrieve_query_group : list (string * list Q);
  step_group_retrieve_result : list (string * list string);
  task_waiter : list (string * RT);
}.
Arguments MkGroups {Q RT} _ _ _ _.
Arguments standby_query_group {Q RT} _.
Arguments do_retrieve_query_group {Q RT} _.
Arguments step_group_retrieve_result {Q RT} _.
Arguments task_waiter {Q RT} _.

(** What is taken from the KV cache when the prompt is complete. *)
Record Windows (D F P : Type) := MkWindows {
  init_window : option (list D * list D);
  local_window : option (list D * list D);
  blk_repre : option (list F);
  d_pruned_index : option P;
}.
Arguments MkWindows {D F P} _ _ _ _.
Arguments init_window {D F P} _.
Arguments local_window {D F P} _.
Arguments blk_repre {D F P} _.
Arguments d_pruned_index {D F P} _.

Record ReqPerLayerState (T D Q F P RT ST : Type) := MkLayer {
  layer_name : string;
  layer_id : Z;
  req_meta : ReqMeta;
  num_tokens : Z;
  num_blocks_dumped : Z;
  (** the registered caches, with the block size and the hashes *)
  registered : option (T * T * Z * list string);
  windows : Windows D F P;
  groups : Groups Q RT;
  blk_trans_tasks : list (Z * ST);
  layer_wise_pre_swap_area_block_hashes : list (Z * string);
}.
Arguments MkLayer {T D Q F P RT ST} _ _ _ _ _ _ _ _ _ _.
Arguments layer_name {T D Q F P RT ST} _.
Arguments layer_id {T D Q F P RT ST} _.
Arguments req_meta {T D Q F P RT ST} _.
Arguments num_tokens {T D Q F P RT ST} _.
Arguments num_blocks_dumped {T D Q F P RT ST} _.
Arguments registered {T D Q F P RT ST} _.
Arguments windows {T D Q F P RT ST} _.
Arguments groups {T D Q F P RT ST} _.
Arguments blk_trans_tasks {T D Q F P RT ST} _.
Arguments layer_wise_pre_swap_area_block_hashes {T D Q F P RT ST} _.

Section setters.
Context {T D Q F P RT ST : Type}.
Abbreviation RS := (ReqPerLayerState T D Q F P RT ST).
Implicit Types (r : RS) (g : Groups Q RT).

(** [update_meta] *)
Definition update_meta x r : RS :=
  MkLayer (layer_name r) (layer_id r) x (num_tokens r) (num_blocks_dumped r) (registered r) (windows r) (groups r)
    (blk_trans_tasks r) (layer_wise_pre_swap_area_block_hashes r).
Definition with_num_tokens x r : RS :=
  MkLayer (layer_name r) (layer_id r) (req_meta r) x (num_blocks_dumped r) (registered r) (windows r) (groups r)
    (blk_trans_tasks r) (layer_wise_pre_swap_area_block_hashes r).
Definition with_registered x r : RS :=
  MkLayer (layer_name r) (layer_id r) (req_meta r) (num_tokens r) (num_blocks_dumped r) x (windows r) (groups r)
    (blk_trans_tasks r) (layer_wise_pre_swap_area_block_hashes r).
Definition with_windows x r : RS :=
  MkLayer (layer_name r) (layer_id r) (req_meta r) (num_tokens r) (num_blocks_dumped r) (registered r) x (groups r)
    (blk_trans_tasks r) (layer_wise_pre_swap_area_block_hashes r).
Definition with_groups (f : Groups Q RT -> Groups Q RT) r : RS :=
  MkLayer (layer_name r) (layer_id r) (req_meta r) (num_tokens r) (num_blocks_dumped r) (registered r) (windows r)
    (f (groups r)) (blk_trans_tasks r) (layer_wise_pre_swap_area_block_hashes r).
Definition with_tasks x r : RS :=
  MkLayer (layer_name r) (layer_id r) (req_meta r) (num_tokens r) (num_blocks_dumped r) (registered r) (windows r)
    (groups r) x (layer_wise_pre_swap_area_block_hashes r).
Definition with_pre_swap x r : RS :=
  MkLayer (layer_name r) (layer_id r) (req_meta r) (num_tokens r) (num_blocks_dumped r) (registered r) (windows r)
    (groups r) (blk_trans_tasks r) x.

Definition with_standby f g : Groups Q RT :=
  MkGroups (f (standby_query_group g)) (do_retrieve_query_group g) (step_group_retrieve_result g) (task_waiter g).
Definition with_do_retrieve f g : Groups Q RT :=
  MkGroups (standby_query_group g) (f (do_retrieve_query_group g)) (step_group_retrieve_result g) (task_waiter g).
Definition with_results f g : Groups Q RT :=
  MkGroups (standby_query_group g) (do_retrieve_query_group g) (f (step_group_retrieve_result g)) (task_waiter g).
Definition with_waiter f g : Groups Q RT :=
  MkGroups (standby_query_group g) (do_retrieve_query_group g) (step_group_retrieve_result g) (f (task_waiter g)).
End setters.

(** ** The methods of [ReqPerLayerState] *)
Section layer.
Context {T W D R Q F P : Type} `{TensorOps T} `{UcmKVStoreBase W} `{KvMem W D} `{KvRetrieve R Q F P}.
Context (c : KvstarConfig).
(** [hash((tuple(block_ids), store_type, tensor_type))] *)
Context (blk_trans_task_hash : list string -> string -> string -> Z).
(** the dimensions with the largest keys, and the mean keys of every block over
    them, or over all dimensions *)
Context (prune_index : list D -> P) (mean_keys : option P -> list D -> list F).
Abbreviation RS := (ReqPerLayerState T D Q F P ktask kv_task).
Abbreviation LS := (RS * (W * R))%type.

Definition req {A} (f : RS -> A) : M LS A := gets (fun s => f s.1).
Definition on_req (f : RS -> RS) : M LS unit := modify (fun s => (f s.1, s.2)).
Definition store_call {A} (m : M W A) : M LS A := zoom (fun s => s.2.1) (fun w s => (s.1, (w, s.2.2))) m.
Definition retrieve_call {A} (m : M R A) : M LS A := zoom (fun s => s.2.2) (fun r s => (s.1, (s.2.1, r))) m.
Definition the {A} (e : exn) (o : option A) : M LS A := lift_res (of_option e o).
Definition stride : Z := ks_retrieval_stride c.

(** The caches, where they are used before they are registered. *)
Definition k_cache (e : exn) : M LS T := let! x := req registered in the e ((fun x => x.1.1.1) <$> x).
Definition v_cache (e : exn) : M LS T := let! x := req registered in the e ((fun x => x.1.1.2) <$> x).
(** [self.block_hashes], empty at first *)
Definition layer_hashes : M LS (list string) := req (fun r => from_option snd [] (registered r)).

Definition get_retrieve_record (cur_step : Z) : string :=
  if cur_step =? 1 then "prefill"%string else ("decode" ++ str_of_Z (cur_step - stride))%string.

Definition retrieval_async (cur_step topk : Z) : M LS unit :=
  let record := get_retrieve_record cur_step in
  if topk =? 0 then on_req (with_groups (with_results (od_set record [])))
  else
    let! standby := req (fun r => standby_query_group (groups r)) in
    let! group := the KeyError (od_get record standby) in
    let query_group := omap id group in
    do! (match query_group with [] => raise RuntimeError | _ => ret tt end) in
    do! on_req (with_groups (with_do_retrieve (od_set record query_group))) in
    let! w := req windows in
    let! rid := req (fun r => request_id (req_meta r)) in
    let! rid := the ValueError (py_int rid) in
    let! repre := the TypeError (blk_repre w) in
    let! task_id := retrieve_call (k_async query_group repre (d_pruned_index w) topk rid) in
    on_req (with_groups (with_waiter (od_set record task_id))).

Definition dim_prune_limit : float := SpecFloat.S754_finite false 8827055269646172 (-53).

Definition extract_block_repre (ids : list Z) (prune_dim_enable : bool) : M LS (option (list F)) :=
  let! last := lift_res (py_idx ids (-1)) in
  if last <? 2 then ret None
  else
    let! k := k_cache TypeError in
    let! ks := store_call (read_blocks k ids) in
    let! w := req windows in
    if prune_dim_enable && SpecFloat.SFltb (ks_blk_repre_dim_prune_ratio c) dim_prune_limit then
      let p := prune_index ks in
      do! on_req (with_windows (MkWindows (init_window w) (local_window w) (blk_repre w) (Some p))) in
      ret (Some (mean_keys (Some p) ks))
    else ret (Some (mean_keys (d_pruned_index w) ks)).

Definition prepare_init_and_local_window : M LS unit :=
  let! ids := req (fun r => vllm_block_ids (req_meta r)) in
  let! w := req windows in
  let! k := k_cache TypeError in
  let! v := v_cache TypeError in
  let! i := the TypeError (init_window w) in
  do! store_call (write_blocks k (slice_to ids (ks_init_window_sz c)) i.1) in
  do! store_call (write_blocks v (slice_to ids (ks_init_window_sz c)) i.2) in
  match local_window w with
  | None => ret tt
  | Some l =>
      do! store_call (write_blocks k (slice_from ids (- ks_local_window_sz c)) l.1) in
      store_call (write_blocks v (slice_from ids (- ks_local_window_sz c)) l.2)
  end.

Definition clone_blocks (ids : list Z) : M LS (list D * list D) :=
  let! k := k_cache TypeError in
  let! ks := store_call (read_blocks k ids) in
  let! v := v_cache TypeError in
  let! vs := store_call (read_blocks v ids) in
  ret (ks, vs).

Definition construct_init_and_local_window : M LS unit :=
  let! ids := req (fun r => vllm_block_ids (req_meta r)) in
  let! i := clone_blocks (slice_to ids (ks_init_window_sz c)) in
  do! on_req (fun r => with_windows (MkWindows (Some i) (local_window (windows r)) (blk_repre (windows r))
                                       (d_pruned_index (windows r))) r) in
  let local_window_sz := Z.min (ks_local_window_sz c) (pylen (slice_from ids (ks_init_window_sz c))) in
  if 0 <? local_window_sz then
    let! l := clone_blocks (slice_from ids (- local_window_sz)) in
    on_req (fun r => with_windows (MkWindows (init_window (windows r)) (Some l) (blk_repre (windows r))
                                     (d_pruned_index (windows r))) r)
  else ret tt.

Definition get_retrieve_candidate_block_ids : M LS (list Z) :=
  let! m := req req_meta in
  let! w := req windows in
  let! repre := the AttributeError (blk_repre w) in
  let! n := lift_res (ceil_of_float (float_mul (float_of_Z (pylen repre)) (ks_sparse_ratio c))) in
  ret (slice (vllm_block_ids m) (ks_init_window_sz c) (n + ks_init_window_sz c)).

(** The group a decoding step belongs to, and its place in it. *)
Definition get_decode_step_record (cur_decode_step : Z) : res (string * Z) :=
  if stride =? 0 then Err ZeroDivisionError
  else Ok (("decode" ++ str_of_Z ((cur_decode_step - 1) / stride * stride + 1))%string, (cur_decode_step - 1) mod stride).

Definition save_to_standby (group_record : string) (in_query_group_idx query_relative_idx : Z) (tokens : list Q)
    : M LS unit :=
  do! on_req (with_groups (with_standby (fun d =>
        if od_mem group_record d then d else od_set group_record (py_repeat None stride) d))) in
  let! row := lift_res (py_idx tokens query_relative_idx) in
  let! standby := req (fun r => standby_query_group (groups r)) in
  let! group := the KeyError (od_get group_record standby) in
  let! group := the IndexError (py_setitem group in_query_group_idx (Some row)) in
  on_req (with_groups (with_standby (od_set group_record group))).

Definition offload_prefill_query (query : list Q) : M LS unit :=
  let! m := req req_meta in
  match query_offload_info m with
  | None | Some [] => ret tt
  | Some info =>
      do! py_assert (pylen info <=? query_len m) in
      let stop := query_start_loc m + query_len m in
      let tokens := slice query (stop - pylen info) stop in
      for_ (enumerate info) (fun e => save_to_standby "prefill" e.2 e.1 tokens)
  end.

(** The record of the group whose result is loaded at a step. *)
Definition retrieve_record_of (load_step : Z) : string :=
  if load_step <=? stride * 2 then "prefill"%string
  else
    let cur_group_idx := cdiv load_step stride in
    ("decode" ++ str_of_Z ((cur_group_idx - 3) * stride + 1))%string.

(** The result of a group is fetched once; its queries are then dropped. *)
Definition fetch_result (record : string) : M LS unit :=
  let! results := req (fun r => step_group_retrieve_result (groups r)) in
  match od_get record results with
  | Some _ => ret tt
  | None =>
      let! waiter := req (fun r => task_waiter (groups r)) in
      let! task_id := the KeyError (od_get record waiter) in
      do! retrieve_call (k_wait task_id) in
      let! data := retrieve_call (k_result task_id) in
      let! standby := req (fun r => standby_query_group (groups r)) in
      do! (if od_mem record standby then on_req (with_groups (with_standby (od_del record))) else raise KeyError) in
      let! doing := req (fun r => do_retrieve_query_group (groups r)) in
      do! (if od_mem record doing then on_req (with_groups (with_do_retrieve (od_del record))) else raise KeyError) in
      match data with
      | Some topk_indices =>
          let! hashes := layer_hashes in
          let! selected := map_m (fun i => lift_res (py_idx hashes (i + ks_init_window_sz c))) topk_indices in
          on_req (with_groups (with_results (od_set record selected)))
      | None => raise AssertionError
      end
  end.

(** [l.remove(x)] *)
Fixpoint list_remove {A} `{EqDecision A} (x : A) (l : list A) : list A :=
  match l with
  | [] => []
  | y :: l' => if decide (x = y) then l' else y :: list_remove x l'
  end.

(** One round of the loop over the places of the window: the places that keep
    their block, the other places, and the blocks still to place. *)
Definition match_place (pre_swap : list (Z * string)) (acc : list (Z * string) * list Z * list string) (blk : Z)
    : list (Z * string) * list Z * list string :=
  let '(matched, candidates, hashes) := acc in
  match od_get blk pre_swap with
  | Some h => if mem h hashes then (od_set blk h matched, list_remove blk candidates, list_remove h hashes) else acc
  | None => acc
  end.

(** The new contents of the window, and what has to be loaded where. *)
Definition swap_area (pre_swap : list (Z * string)) (candidates : list Z) (hashes : list string)
    : list (Z * string) * list Z * list string :=
  let put m l := foldl (fun m e => od_set e.1 e.2 m) m l in
  match pre_swap with
  | [] => (put [] (zip candidates hashes), candidates, hashes)
  | _ =>
      let '(matched, rest, missing) := foldl (match_place pre_swap) ([], candidates, hashes) candidates in
      (put matched (zip rest missing), rest, missing)
  end.

Definition launch_transfer_task (hashes : list string) (ids : list Z) : M LS unit :=
  let! k := k_cache AttributeError in
  let! v := v_cache TypeError in
  let! lid := req layer_id in
  let block_data_size := block_numel k * t_element_size k in
  let offsets_k := py_repeat (compute_layer_offset block_data_size lid false false) (pylen hashes) in
  let offsets_v := py_repeat (compute_layer_offset block_data_size lid true false) (pylen hashes) in
  let! key_src_tensors := store_call (cache_addrs k ids) in
  let! value_src_tensors := store_call (cache_addrs v ids) in
  let! task_k := store_call (kv_load hashes offsets_k key_src_tensors) in
  let! task_v := store_call (kv_load hashes offsets_v value_src_tensors) in
  do! on_req (fun r => with_tasks (od_set (blk_trans_task_hash hashes "load" "key") task_k (blk_trans_tasks r)) r) in
  on_req (fun r => with_tasks (od_set (blk_trans_task_hash hashes "load" "value") task_v (blk_trans_tasks r)) r).

Definition load_retrieve_result_async (load_step : Z) (candidates : list Z) : M LS unit :=
  let record := retrieve_record_of load_step in
  do! fetch_result record in
  let! results := req (fun r => step_group_retrieve_result (groups r)) in
  let! hashes := the AttributeError (od_get record results) in
  if negb (bool_decide (record = "prefill"%string)) || (load_step =? 1) then
    let! pre_swap := req layer_wise_pre_swap_area_block_hashes in
    let '(area, rest, missing) := swap_area pre_swap candidates hashes in
    do! on_req (with_pre_swap area) in
    if 0 <? pylen missing then launch_transfer_task missing rest else ret tt
  else ret tt.

Definition wait_for_blk_transfer_task_done : M LS unit :=
  let! ts := req blk_trans_tasks in
  do! for_ ts (fun e => do! store_call (kv_wait e.2) in ret tt) in
  on_req (with_tasks []).

(** [if step % stride == r: ...] *)
Definition at_phase (r : Z) (m : M LS unit) : M LS unit :=
  let! n := req (fun r => step (req_meta r)) in
  if stride =? 0 then raise ZeroDivisionError
  else if n mod stride =? r then m else ret tt.

Definition layer_attention_begin (query : list Q) : M LS unit :=
  let! m := req req_meta in
  match stage m with
  | PREFILL => offload_prefill_query query
  | DECODE =>
      let! w := req windows in
      match blk_repre w with
      | None => ret tt
      | Some _ =>
          do! py_assert (query_len m =? 1) in
          let! ' (record, idx) := lift_res (get_decode_step_record (step m)) in
          do! save_to_standby record idx (query_start_loc m) query in
          do! at_phase 0
            (let! candidates := get_retrieve_candidate_block_ids in
             retrieval_async (step m + 1) (pylen candidates)) in
          do! (if step m =? 1 then
                 do! prepare_init_and_local_window in
                 let! candidates := get_retrieve_candidate_block_ids in
                 do! wait_for_blk_transfer_task_done in
                 do! retrieval_async (step m) (pylen candidates) in
                 load_retrieve_result_async (step m) candidates
               else ret tt) in
          at_phase 1 wait_for_blk_transfer_task_done
      end
  end.

Definition compute_block_repre (num_blocks_need_dump : Z) : M LS unit :=
  let! m := req req_meta in
  if bool_decide (stage m = PREFILL) && is_last_chunk m then
    let! dumped := req num_blocks_dumped in
    let! repre := extract_block_repre (slice_to (vllm_block_ids m) (dumped + num_blocks_need_dump)) true in
    let kept := match repre with
                | None => None
                | Some l => if pylen l <=? 2 then None
                            else Some (slice l (ks_init_window_sz c) (- ks_local_window_sz c))
                end in
    do! on_req (fun r => with_windows (MkWindows (init_window (windows r)) (local_window (windows r)) kept
                                         (d_pruned_index (windows r))) r) in
    construct_init_and_local_window
  else ret tt.

(** [forward_context.no_compile_layers], with the cache of each layer *)
Definition maybe_register_kv_cache (forward_context : list (string * kv_layer T)) : M LS unit :=
  let! x := req registered in
  if negb (from_option (fun x => x.1.2) 0 x =? 0) then ret tt
  else
    let! name := req layer_name in
    let! kv_cache := the KeyError (od_get name forward_context) in
    let! ' (k, v) :=
      match kv_cache with
      | KTensor t => ret (t_index t 0, t_index t 1)
      | KTuple ts =>
          let! k := lift_res (py_idx ts 0) in
          let! v := lift_res (py_idx ts 1) in
          ret (k, v)
      | KOther => raise TypeError
      end in
    let! block_size := lift_res (py_idx (t_shape k) 1) in
    let! m := req req_meta in
    do! on_req (with_registered (Some (k, v, block_size, []))) in
    let! _ := lift_res (py_idx (t_shape k) 2) in
    do! on_req (with_registered (Some (k, v, block_size, block_hashes m))) in
    let! _ := lift_res (py_idx (t_shape k) 3) in
    ret tt.

Definition layer_attention_finished (forward_context : list (string * kv_layer T)) : M LS unit :=
  let! m := req req_meta in
  match stage m with
  | DECODE =>
      if stride * 2 <=? step m then
        at_phase 0
          (let! candidates := get_retrieve_candidate_block_ids in
           load_retrieve_result_async (step m + 1) candidates)
      else ret tt
  | PREFILL =>
      do! maybe_register_kv_cache forward_context in
      let num_tokens_updated := num_computed_tokens m + num_scheduled_tokens m in
      let! dumped := req num_blocks_dumped in
      let! bs := req (fun r => from_option (fun x => x.1.2) 0 (registered r)) in
      do! (if bs =? 0 then raise ZeroDivisionError else ret tt) in
      let num_blocks_need_dump := num_tokens_updated / bs - dumped in
      do! on_req (with_num_tokens num_tokens_updated) in
      compute_block_repre num_blocks_need_dump
  end.
End layer.

(** ** The batch *)

(** [int(layer_name.split(".")[2])] *)
Definition layer_id_of (name : string) : res Z :=
  let? part := py_idx (split_on dot name) 2 in of_option ValueError (py_int part).

Definition new_ReqPerLayerState {T D Q F P RT ST} (m : ReqMeta) (name : string)
    : res (ReqPerLayerState T D Q F P RT ST) :=
  let? lid := layer_id_of name in
  Ok {| layer_name := name; layer_id := lid; req_meta := m; num_tokens := 0; num_blocks_dumped := 0;
        registered := None; windows := MkWindows None None (Some []) None; groups := MkGroups [] [] [] [];
        blk_trans_tasks := []; layer_wise_pre_swap_area_block_hashes := [] |}.

(** *** Block hashes *)

(** The digit of a number below 16. *)
Definition hex_digit (n : N) : ascii := ascii_of_N (if (n <? 10)%N then 48 + n else 87 + n).

(** [str(b)] of bytes: between quotes, with escapes *)
Definition chr (n : N) : ascii := ascii_of_N n.
Definition single_quote : ascii := chr 39.
Definition double_quote : ascii := chr 34.
Definition backslash : ascii := chr 92.

Definition escape_byte (quote a : ascii) : string :=
  let n := N_of_ascii a in
  if bool_decide (a = quote) || (n =? 92)%N then String backslash (String a EmptyString)
  else if (n =? 9)%N then String backslash "t"
  else if (n =? 10)%N then String backslash "n"
  else if (n =? 13)%N then String backslash "r"
  else if ((n <? 32) || (127 <=? n))%N
       then String backslash (String "x" (String (hex_digit (n / 16)) (String (hex_digit (n mod 16)) EmptyString)))
  else String a EmptyString.
Fixpoint escape_bytes (quote : ascii) (b : bytes) : string :=
  match b with
  | EmptyString => EmptyString
  | String a b' => (escape_byte quote a ++ escape_bytes quote b')%string
  end.
Fixpoint contains_byte (a : ascii) (b : bytes) : bool :=
  match b with EmptyString => false | String x b' => bool_decide (x = a) || contains_byte a b' end.
Definition str_of_bytes (b : bytes) : string :=
  let quote := if contains_byte single_quote b && negb (contains_byte double_quote b) then double_quote else single_quote in
  ("b" ++ String quote (escape_bytes quote b ++ String quote EmptyString))%string.

(** [int.from_bytes(b, byteorder="big")] *)
Fixpoint int_of_bytes (acc : Z) (b : bytes) : Z :=
  match b with
  | EmptyString => acc
  | String a b' => int_of_bytes (acc * 256 + Z.of_N (N_of_ascii a)) b'
  end.

Section hashes.
Context (md5 : bytes -> bytes) (pickle_dumps : hash_input -> bytes).
(** [pickle.dumps] of a block's parent - an integer, then digests - and tokens *)
Context (pickle_block : (Z + bytes) * list Z -> bytes).
Context (c : KvstarConfig).

Definition compute_parent_block_hash (model_name : string) (world_size : Z) (dtype : string) (seed_rank : Z) : Z :=
  int_of_bytes 0 (md5 (model_name ++ ":" ++ str_of_Z world_size ++ ":" ++ dtype ++ ":" ++ str_of_Z seed_rank
                       ++ "UCM_HASH_SEED")%string).

Definition hasher (rank : Z) : RequestHasher :=
  new_RequestHasher (ks_model_name c) (ks_tp_size c) (ks_dtype_name c) rank.

Fixpoint block_hashes_loop (token_ids : list Z) (starts : list Z) (parent : Z + bytes) : list string :=
  match starts with
  | [] => []
  | start :: starts' =>
      let block_token_ids := slice token_ids start (start + ks_block_size c) in
      if pylen block_token_ids <? ks_block_size c then []
      else
        let hash_value := md5 (String.append (meta_bytes (hasher 0)) (pickle_block (parent, block_token_ids))) in
        str_of_bytes hash_value :: block_hashes_loop token_ids starts' (inr hash_value)
  end.

Definition kvstar_block_hashes (token_ids : list Z) : list string :=
  let parent := compute_parent_block_hash (ks_model_name c) (ks_world_size c) (ks_dtype_name c) 0 in
  let hashes := block_hashes_loop token_ids (pyrange 0 (pylen token_ids) (ks_block_size c)) (inl parent) in
  if negb (ks_rank c =? 0) && negb (ks_is_mla c)
  then (fun id => str_of_bytes (hash_call md5 pickle_dumps (hasher (ks_rank c)) (HStr id))) <$> hashes
  else hashes.

(** [self.block_hashes[req_id][self.rank]] *)
Definition set_block_hashes (req_id : Z) (token_ids : list Z) (table : gmap Z (list string)) : gmap Z (list string) :=
  match table !! req_id with
  | Some _ => table
  | None => <[req_id := kvstar_block_hashes token_ids]> table
  end.
End hashes.

(** *** The methods of [KVStarMultiStep] *)

Record CachedRequest := {
  cr_prompt_token_ids : list Z;
  cr_output_token_ids : list Z;
  cr_num_computed_tokens : Z;
  cr_block_ids : list (list Z);
}.

Record StepInput := {
  si_num_scheduled_tokens : list (string * Z);
  si_req_sparsed_slots : list (string * Z);
  si_req_id_to_index : list (string * Z);
  si_requests : list (string * CachedRequest);
  si_query_start_loc : list Z;
}.

Record KvstarState (T D Q F P RT ST W R : Type) := MkKvstar {
  req_states : list (string * list (option (ReqPerLayerState T D Q F P RT ST)));
  outside : W * R;
  sparse_metadata : list ReqMeta;
  kv_block_hashes : gmap Z (list string);
}.
Arguments MkKvstar {T D Q F P RT ST W R} _ _ _ _.
Arguments req_states {T D Q F P RT ST W R} _.
Arguments outside {T D Q F P RT ST W R} _.
Arguments sparse_metadata {T D Q F P RT ST W R} _.
Arguments kv_block_hashes {T D Q F P RT ST W R} _.

Section kvstar.
Context {T W D R Q F P : Type} `{TensorOps T} `{UcmKVStoreBase W} `{KvMem W D} `{KvRetrieve R Q F P}.
Context (c : KvstarConfig) (blk_trans_task_hash : list string -> string -> string -> Z)
  (prune_index : list D -> P) (mean_keys : option P -> list D -> list F).
Context (md5 : bytes -> bytes) (pickle_dumps : hash_input -> bytes) (pickle_block : (Z + bytes) * list Z -> bytes).
Abbreviation RS := (ReqPerLayerState T D Q F P ktask kv_task).
Abbreviation ST := (KvstarState T D Q F P ktask kv_task W R).

Definition put_req_states x (s : ST) : ST := MkKvstar x (outside s) (sparse_metadata s) (kv_block_hashes s).
Definition put_outside x (s : ST) : ST := MkKvstar (req_states s) x (sparse_metadata s) (kv_block_hashes s).
Definition put_metadata x (s : ST) : ST := MkKvstar (req_states s) (outside s) x (kv_block_hashes s).
Definition put_block_hashes x (s : ST) : ST := MkKvstar (req_states s) (outside s) (sparse_metadata s) x.

Definition set_layer_state (id : string) (lid : Z) (x : RS) : M ST unit :=
  let! states := gets req_states in
  let! l := lift_res (of_option KeyError (od_get id states)) in
  let! l := lift_res (of_option IndexError (py_setitem l lid (Some x))) in
  modify (fun s => put_req_states (od_set id l (req_states s)) s).

(** The state of a request in a layer, a new one if there is none. *)
Definition create_layerwise_req_state (m : ReqMeta) (name : string) : M ST RS :=
  let! lid := lift_res (layer_id_of name) in
  do! modify (fun s => if od_mem (request_id m) (req_states s) then s
       else put_req_states (od_set (request_id m) (py_repeat None (ks_total_num_hidden_layers c)) (req_states s)) s) in
  let! states := gets req_states in
  let! l := lift_res (of_option KeyError (od_get (request_id m) states)) in
  let! x := lift_res (py_idx l lid) in
  match x with
  | Some r => ret r
  | None =>
      let! r := lift_res (new_ReqPerLayerState m name) in
      do! set_layer_state (request_id m) lid r in
      ret r
  end.

(** A hook of a request's layer, which changes the layer's state in place. *)
Definition run_layer (name : string) (f : M (RS * (W * R)) unit) (m : ReqMeta) : M ST unit :=
  let! r := create_layerwise_req_state m name in
  let! lid := lift_res (layer_id_of name) in
  let! o := gets outside in
  let '(result, (r', o')) := f (update_meta m r, o) in
  do! set_layer_state (request_id m) lid r' in
  do! modify (put_outside o') in
  lift_res result.

Definition attention_begin (query : list Q) (name : string) : M ST unit :=
  let! l := gets sparse_metadata in
  for_ l (run_layer name (layer_attention_begin c blk_trans_task_hash query)).

Definition attention_finished (name : string) (forward_context : list (string * kv_layer T)) : M ST unit :=
  let! l := gets sparse_metadata in
  for_ l (run_layer name (layer_attention_finished c blk_trans_task_hash prune_index mean_keys forward_context)).

Definition request_finished_in_worker (id : string) : M ST unit :=
  let! states := gets req_states in
  if od_mem id states then modify (fun s => put_req_states (od_del id (req_states s)) s) else raise KeyError.

(** One round of the loop of [build_sparse_meta]: the metadata so far. *)
Definition add_request_meta (i : StepInput) (acc : list ReqMeta) (e : string * Z) : M ST (list ReqMeta) :=
  let '(req_id, scheduled) := e in
  let! r := lift_res (of_option KeyError (od_get req_id (si_requests i))) in
  let! n := lift_res (of_option ValueError (py_int req_id)) in
  do! modify (fun s => put_block_hashes (set_block_hashes md5 pickle_dumps pickle_block c n
                                          (cr_prompt_token_ids r) (kv_block_hashes s)) s) in
  let! index := lift_res (of_option KeyError (od_get req_id (si_req_id_to_index i))) in
  let! q_start := lift_res (py_idx (si_query_start_loc i) index) in
  let! q_next := lift_res (py_idx (si_query_start_loc i) (index + 1)) in
  if ks_block_size c <? pylen (cr_prompt_token_ids r) then
    let! sparsed := lift_res (of_option KeyError (od_get req_id (si_req_sparsed_slots i))) in
    let! ids := lift_res (py_idx (cr_block_ids r) 0) in
    let! hashes := gets (fun s => default [] (kv_block_hashes s !! n)) in
    ret (acc ++ [{| request_id := req_id; index_in_batch := index;
                    num_prompt_tokens := pylen (cr_prompt_token_ids r); num_output_tokens := pylen (cr_output_token_ids r);
                    num_scheduled_tokens := scheduled; num_computed_tokens := cr_num_computed_tokens r;
                    num_sparsed_tokens := sparsed; vllm_block_ids := ids; token_blk_size := ks_block_size c;
                    prompt_token_ids := cr_prompt_token_ids r; query_start_loc := q_start; query_len := q_next - q_start;
                    retrieval_stride := ks_retrieval_stride c; block_hashes := hashes |}])
  else ret acc.

Definition build_sparse_meta (i : StepInput) : M ST unit :=
  let! l := for_acc (si_num_scheduled_tokens i) [] (add_request_meta i) in
  modify (put_metadata l).
End kvstar.

(** *** The scheduler's side *)

(** vLLM's [Request], as far as it is read. *)
Record KvstarRequest := {
  kr_id : string;
  kr_num_prompt_tokens : Z;
  kr_num_output_tokens : Z;
  kr_num_tokens : Z;
}.

Definition estimate_num_slots_sparsed (c : KvstarConfig) (r : KvstarRequest) : res Z :=
  if kr_num_output_tokens r =? 0 then Ok BlockPool.INVALID_SLOT
  else
    let bs := ks_block_size c in
    let full := kr_num_prompt_tokens r / bs in
    let fixed := Z.min (ks_init_window_sz c + ks_local_window_sz c) full in
    let? saved := ceil_of_float (float_mul (float_of_Z (full - fixed)) (ks_sparse_ratio c)) in
    let dense_total := cdiv (kr_num_tokens r) bs in
    let compressed := full - saved - fixed in
    let budget := dense_total - compressed in
    let tail := kr_num_tokens r mod bs in
    Ok (if tail =? 0 then budget * bs else (budget - 1) * bs + tail).

(** The blocks that are kept are the last ones. *)
Definition kv_sort_block {K} (ops : SlotOps K) (original need : Z) (acc : list Z * list Z) (ib : Z * Z)
    : M (SlotState K) (list Z * list Z) :=
  let '(kept, returned) := acc in
  let '(i, block) := ib in
  do! modify (fun s => MkSlots (sl_table s) (sl_ref_cnt s) (maybe_evict_cached_block ops block (sl_rest s))) in
  ret (if original - need <=? i then (kept ++ [block], returned) else (kept, returned ++ [block])).

Definition kv_allocate_slots {K} (ops : SlotOps K) (c : KvstarConfig) (r : KvstarRequest) (num_slots_sparsed : Z)
    : M (SlotState K) (option (list Z)) :=
  let need := cdiv num_slots_sparsed (ks_block_size c) in
  let! allocated := gets (fun s => default [] (sl_table s !! kr_id r)) in
  let! ' (kept, returned) := for_acc (enumerate allocated) ([], []) (kv_sort_block ops (pylen allocated) need) in
  do! modify (free_blocks ops returned) in
  do! modify (fun s => MkSlots (<[kr_id r := kept]> (sl_table s)) (sl_ref_cnt s) (sl_rest s)) in
  let! n := gets (blocks_to_allocate ops (kr_id r) num_slots_sparsed) in
  let! free := gets (sl_num_free_blocks ops) in
  if free <? n then ret None
  else
    do! modify (sl_allocate_new_blocks ops (kr_id r) num_slots_sparsed) in
    let! blocks := gets (fun s => default [] (sl_table s !! kr_id r)) in
    ret (Some blocks).
