(* ===== verification/KvstarRuns.v ===== *)
(** * KVStar: the groups of queries

    However a prompt is chunked, the hooks of its chunks do not fail and the first
    group holds the queries of its last tokens, but a prompt shorter than a block
    raises; and while the model decodes, every retrieval is asked with a full
    group, waited for once, one stride after it was asked, and its blocks are in
    the window when the next group begins. *)

From Stdlib Require Import Ascii String.
From S2P Require Import Prelude.
From S2P Require Import Wp.
From S2P Require Import PyStr.
From S2P Require Import StoreApi.
From S2P Require Import StoreBase.
From S2P Require Import Layout.
From S2P Require Import DeviceMem.
From S2P Require Import Kvstar.
From stdpp Require Import strings.
Local Open Scope Z_scope.
Local Open Scope py_scope.

(** ** Groups as functions *)

(** The list with [f j] at place [j]. *)
Definition table {A} (n : Z) (f : Z -> A) : list A := f <$> zrange 0 n.

Lemma lookup_table {A} n (f : Z -> A) (j : Z) : 0 <= j < n -> table n f !! Z.to_nat j = Some (f j).
Proof.
  intros Hj. unfold table, zrange. rewrite !list_lookup_fmap, lookup_seq_lt by lia. simpl. f_equal. f_equal. lia.
Qed.
Lemma pylen_table {A} n (f : Z -> A) : 0 <= n -> pylen (table n f) = n.
Proof. intros. unfold table. rewrite pylen_fmap. unfold pylen. rewrite length_zrange. lia. Qed.
Lemma table_ext {A} n (f g : Z -> A) : (forall j, 0 <= j < n -> f j = g j) -> table n f = table n g.
Proof.
  intros He. unfold table. apply list_fmap_ext. intros i j Hj. apply He.
  unfold zrange in Hj. rewrite list_lookup_fmap in Hj. destruct (seq _ _ !! i) as [x|] eqn:Hx; [|done].
  apply lookup_seq in Hx as [-> Hlt]. simpl in Hj. injection Hj as <-. lia.
Qed.
Lemma insert_table {A} n (f : Z -> A) (j : Z) x : 0 <= j < n ->
  <[Z.to_nat j := x]> (table n f) = table n (fun i => if decide (i = j) then x else f i).
Proof.
  intros Hj. apply list_eq. intros i. destruct (decide (i < Z.to_nat n)%nat) as [Hi|Hi].
  - replace i with (Z.to_nat (Z.of_nat i)) by lia. rewrite lookup_table by lia. destruct (decide (Z.of_nat i = j)) as [<-|Hne].
    + rewrite list_lookup_insert_eq; [done|]. pose proof (pylen_table n f). unfold pylen in *. lia.
    + by rewrite list_lookup_insert_ne, lookup_table by lia.
  - rewrite !lookup_ge_None_2; [done|..]; rewrite ?length_insert; pose proof (pylen_table n f);
      pose proof (pylen_table n (fun i => if decide (i = j) then x else f i)); unfold pylen in *; lia.
Qed.
Lemma repeat_table {A} n (x : A) : py_repeat x n = table n (fun _ => x).
Proof.
  unfold py_repeat, table, zrange. rewrite Z.sub_0_r. generalize (Z.to_nat n), 0%nat. intros m.
  induction m as [|m IH]; intros k; simpl; [done|]. by rewrite (IH (S k)).
Qed.

Section layer.
Context {T W D R Q F P : Type} `{TensorOps T} `{UcmKVStoreBase W} `{KvMem W D} `{KvRetrieve R Q F P}.
Context (c : KvstarConfig) (tth : list string -> string -> string -> Z).
Abbreviation RS := (ReqPerLayerState T D Q F P ktask kv_task).
Abbreviation LS := (RS * (W * R))%type.
Abbreviation stride := (Kvstar.stride c).
Implicit Types (rs : RS) (g : Groups Q ktask).

(** Only the queries of one group may change. *)
Record only_group (record : string) g g' : Prop := {
  og_other : forall k, k <> record -> od_get k (standby_query_group g') = od_get k (standby_query_group g);
  og_doing : do_retrieve_query_group g' = do_retrieve_query_group g;
  og_results : step_group_retrieve_result g' = step_group_retrieve_result g;
  og_waiter : task_waiter g' = task_waiter g;
}.

#[export] Instance only_group_preorder record : PreOrder (only_group record).
Proof.
  split; [by split|]. intros g g1 g2 [O1 ? ? ?] [O2 ? ? ?]. split; try congruence.
  intros k Hk. by rewrite O2, O1.
Qed.

(** The queries of a group, by place; it is created with its first query. *)
Definition holds_group (record : string) (f : Z -> option Q) g : Prop :=
  match od_get record (standby_query_group g) with
  | Some grp => grp = table stride f
  | None => forall j, 0 <= j < stride -> f j = None
  end.

Lemma holds_group_get record f g j : holds_group record f g -> 0 <= j < stride -> is_Some (f j) ->
  od_get record (standby_query_group g) = Some (table stride f).
Proof.
  unfold holds_group. destruct (od_get _ _) as [grp|]; [by intros ->|]. intros Hn Hj [x Hx].
  by rewrite Hn in Hx.
Qed.
Lemma holds_group_ext record f f' g : holds_group record f g -> (forall j, 0 <= j < stride -> f j = f' j) ->
  holds_group record f' g.
Proof.
  unfold holds_group. intros Hg He. destruct (od_get _ _) as [grp|].
  - subst grp. by apply table_ext.
  - intros j Hj. rewrite <- He; auto.
Qed.
Lemma holds_group_other record record' f g g' :
  only_group record g g' -> record' <> record -> holds_group record' f g -> holds_group record' f g'.
Proof. intros [Ho _ _ _] Hr. unfold holds_group. by rewrite (Ho _ Hr). Qed.

Lemma save_spec record j qi tokens row f rs o :
  py_idx tokens qi = Ok row -> 0 <= j < stride -> holds_group record f (groups rs) ->
  wp (save_to_standby c record j qi tokens) (fun _ s' => exists g', s' = (with_groups (fun _ => g') rs, o) /\
    only_group record (groups rs) g' /\ holds_group record (fun i => if decide (i = j) then Some row else f i) g') (rs, o).
Proof.
  intros Hrow Hj Hg. unfold save_to_standby, on_req, req, the. wp_steps. simpl.
  eapply wp_lift; [exact Hrow|]. wp_steps. simpl. unfold holds_group in Hg.
  set (d := standby_query_group (groups rs)) in *. set (d1 := if od_mem record d then d else _).
  assert (Hd1 : od_get record d1 = Some (table stride f) /\ (forall k, k <> record -> od_get k d1 = od_get k d)).
  { unfold d1, od_mem. destruct (od_get record d) as [grp|] eqn:Hd; simpl.
    - rewrite Hd. by subst grp.
    - rewrite od_get_set_eq. split; [|intros k Hk; by apply od_get_set_ne].
      f_equal. rewrite repeat_table. apply table_ext. intros i Hi. symmetry. by apply Hg. }
  destruct Hd1 as (Hd1 & Hd2). rewrite Hd1. eapply wp_lift; [done|].
  assert (Hl : table stride f !! Z.to_nat j = Some (f j)) by by apply lookup_table.
  rewrite (py_setitem_nth _ _ _ _ (proj1 Hj) Hl). wp_steps. eapply wp_lift; [done|]. wp_steps. simpl.
  rewrite insert_table by done. eexists. split; [done|]. split; [split; try done|].
  - intros k Hk. simpl. rewrite od_get_set_ne by done. by apply Hd2.
  - unfold holds_group. simpl. by rewrite od_get_set_eq.
Qed.

(** ** The prompt *)

(** The rows of [tokens] fill the places from [a] to [b]. *)
Lemma save_range record a i b tokens f rs o :
  0 <= i -> 0 <= a -> a + i <= b <= stride -> pylen tokens = b - a -> holds_group record f (groups rs) ->
  wp (for_ (enumerate_from i (zrange (a + i) b)) (fun e => save_to_standby c record e.2 e.1 tokens))
    (fun _ s' => exists g', s' = (with_groups (fun _ => g') rs, o) /\ only_group record (groups rs) g' /\
       holds_group record (fun j => if decide (a + i <= j < b) then tokens !! Z.to_nat (j - a) else f j) g') (rs, o).
Proof.
  intros Hi Ha Hb Hl. remember (Z.to_nat (b - a - i)) as n eqn:Hn. revert i f rs Hi Hb Hn.
  induction n as [|n IH]; intros i f rs Hi Hb Hn Hg.
  - rewrite zrange_nil by lia. rewrite enumerate_from_nil. apply wp_ret.
    exists (groups rs). split; [by destruct rs|]. split; [done|].
    eapply holds_group_ext; [exact Hg|]. intros j Hj. by rewrite decide_False by lia.
  - rewrite zrange_cons, enumerate_from_cons by lia. simpl.
    assert (Hs : is_Some (tokens !! Z.to_nat i)) by (apply lookup_lt_is_Some; unfold pylen in Hl; lia).
    destruct Hs as [row Hrow].
    eapply wp_call; [apply save_spec; [by apply py_idx_nth|lia|exact Hg]|].
    intros [] _ (g1 & -> & Ho1 & Hg1). replace (a + i + 1) with (a + (i + 1)) by lia.
    eapply wp_mono; [apply IH; [lia..|exact Hg1]|]. intros [] _ (g2 & -> & Ho2 & Hg2).
    exists g2. split; [done|]. split; [by etransitivity|]. eapply holds_group_ext; [exact Hg2|].
    intros j Hj. cbv beta. destruct (decide (j = a + i)) as [->|Hne].
    + rewrite decide_False, decide_True by lia. rewrite <- Hrow. do 2 f_equal. lia.
    + destruct (decide (a + (i + 1) <= j < b)); [rewrite decide_True by lia; done|by rewrite decide_False by lia].
Qed.
(** The rows of the tokens from [lo] to [hi] of a prompt of [n] tokens are in
    the step's query. *)
Record chunk_of (q : Z -> Q) (n lo hi : Z) (m : ReqMeta) (query : list Q) : Prop := {
  ch_range : 0 <= lo < hi /\ hi <= n;
  ch_prompt : num_prompt_tokens m = n;
  ch_output : num_output_tokens m = 0;
  ch_computed : num_computed_tokens m = lo;
  ch_scheduled : num_scheduled_tokens m = hi - lo;
  ch_query_len : query_len m = hi - lo;
  ch_stride : retrieval_stride m = stride;
  ch_start : 0 <= query_start_loc m;
  ch_rows : slice query (query_start_loc m) (query_start_loc m + (hi - lo)) = q <$> zrange lo hi;
}.

Lemma chunk_tail q n lo hi m query v : chunk_of q n lo hi m query -> 0 <= v <= hi - lo ->
  slice query (query_start_loc m + (hi - lo) - v) (query_start_loc m + (hi - lo)) = q <$> zrange (hi - v) hi.
Proof.
  intros [? ? ? ? ? ? ? Hs Hr] Hv. set (a := query_start_loc m) in *.
  rewrite <- (slice_app_adj query a (a + (hi - lo) - v)), (zrange_app lo (hi - v)), fmap_app in Hr by lia.
  apply (app_inj_1 _ _ _ _) in Hr as [_ Hr]; [done|].
  assert (Hl : pylen (slice query a (a + (hi - lo))) = hi - lo).
  { rewrite <- (slice_app_adj query a (a + (hi - lo) - v)), Hr by lia.
    rewrite <- fmap_app, <- (zrange_app lo (hi - v)) by lia. rewrite pylen_fmap. unfold pylen.
    rewrite length_zrange. lia. }
  rewrite pylen_slice in Hl by lia. rewrite length_fmap, length_zrange.
  enough (pylen (slice query a (a + (hi - lo) - v)) = hi - v - lo) by (unfold pylen in *; lia).
  rewrite pylen_slice by lia. lia.
Qed.

(** The last tokens of the prompt, as far as they are computed. *)
Definition last_queries (q : Z -> Q) (n c0 upto j : Z) : option Q :=
  if decide (c0 <= n - stride + j < upto) then Some (q (n - stride + j)) else None.

Lemma offload_prefill_spec q n c0 lo hi m query rs o :
  chunk_of q n lo hi m query -> 0 <= c0 <= lo -> 0 < stride -> req_meta rs = m ->
  holds_group "prefill" (last_queries q n c0 lo) (groups rs) ->
  wp (layer_attention_begin c tth query) (fun _ s' => exists g', s' = (with_groups (fun _ => g') rs, o) /\
    only_group "prefill" (groups rs) g' /\ holds_group "prefill" (last_queries q n c0 hi) g') (rs, o).
Proof.
  intros Hc Hc0 Hst Hm Hg. pose proof Hc as [Hrg Hp Ho Hlo Hsc Hql Hrs Hs Hrows].
  unfold layer_attention_begin, offload_prefill_query, req. wp_steps. simpl. rewrite Hm. unfold stage.
  rewrite Ho. simpl. wp_steps. simpl. rewrite Hm. unfold query_offload_info, stage.
  rewrite Ho, Hlo, Hsc, Hp, Hrs. simpl. replace (lo + (hi - lo)) with hi by lia.
  assert (Hsame : (forall j, 0 <= j < stride -> last_queries q n c0 lo j = last_queries q n c0 hi j) ->
    exists g', (rs, o) = (with_groups (fun _ => g') rs, o) /\
      only_group "prefill" (groups rs) g' /\ holds_group "prefill" (last_queries q n c0 hi) g').
  { intros He. exists (groups rs). split; [by destruct rs|]. split; [done|]. by eapply holds_group_ext. }
  destruct (Z.ltb_spec hi (n - stride)).
  { apply wp_ret, Hsame. intros j Hj. unfold last_queries. by rewrite !decide_False by lia. }
  set (v := Z.min (stride - (n - hi)) (hi - lo)). set (e := stride - (n - hi)).
  destruct (zrange (e - v) e) as [|x l] eqn:Hz.
  { apply wp_ret, Hsame. intros j Hj. unfold last_queries.
    assert (e <= 0) by (apply (f_equal length) in Hz; rewrite length_zrange in Hz; simpl in Hz; lia).
    by rewrite !decide_False by lia. }
  rewrite <- Hz. clear x l Hz. assert (Hlen : pylen (zrange (e - v) e) = v) by (unfold pylen; rewrite length_zrange; lia).
  rewrite Hlen, Hql. apply wp_bind, wp_assert; [apply Z.leb_le; lia|].
  rewrite (chunk_tail _ _ _ _ _ _ _ Hc) by lia. rewrite <- (Z.add_0_r (e - v)). unfold enumerate.
  eapply wp_mono; [apply save_range; [lia..| |exact Hg]|].
  { rewrite pylen_fmap. unfold pylen. rewrite length_zrange. lia. }
  intros [] _ (g' & -> & Hon & Hg'). exists g'. split; [done|]. split; [done|].
  eapply holds_group_ext; [exact Hg'|]. intros j Hj. cbv beta. unfold last_queries.
  destruct (decide (e - v + 0 <= j < e)) as [Hin|Hout].
  - rewrite decide_True by lia. unfold zrange. rewrite !list_lookup_fmap, lookup_seq_lt by lia. simpl.
    do 2 f_equal. lia.
  - destruct (decide (c0 <= n - stride + j < lo)); [by rewrite decide_True by lia|by rewrite decide_False by lia].
Qed.
(** What happens between the hooks of a prompt keeps the groups. *)
Definition same_groups (s s' : LS) : Prop := groups s'.1 = groups s.1.
#[local] Instance same_groups_preorder : PreOrder same_groups.
Proof. split; [by intros ?|]. intros ? ? ? H12 H23. unfold same_groups in *. congruence. Qed.

Lemma keep_req {A} (f : RS -> A) : msteps same_groups (req f).
Proof. by intros s. Qed.
Lemma keep_the {A} e (o : option A) : msteps same_groups (the e o).
Proof. by intros s. Qed.
Lemma keep_store {A} (m : M W A) : msteps same_groups (store_call m).
Proof. intros s. unfold store_call, zoom. by destruct (m s.2.1). Qed.
Lemma keep_on_req (f : RS -> RS) : (forall r, groups (f r) = groups r) -> msteps same_groups (on_req f).
Proof. intros Hf s. apply Hf. Qed.
Hint Resolve keep_req keep_the keep_store : msteps.
Hint Extern 1 (msteps same_groups (on_req _)) => apply keep_on_req; intros ?; reflexivity : msteps.

Lemma finished_keeps_groups pi mk fc s :
  num_output_tokens (req_meta s.1) = 0 -> same_groups s (layer_attention_finished c tth pi mk fc s).2.
Proof.
  intros Ho. unfold layer_attention_finished, req, bind at 1, gets. unfold stage. rewrite Ho. simpl.
  match goal with |- same_groups _ (?m s).2 => enough (Hm : msteps same_groups m) by apply Hm end.
  unfold maybe_register_kv_cache, compute_block_repre, extract_block_repre, construct_init_and_local_window,
    clone_blocks, k_cache, v_cache. m_steps.
Qed.
(** *** The hook after the attention of a chunk *)

Context (prune_index : list D -> P) (mean_keys : option P -> list D -> list F).
(** The blocks of the caches and their size. *)
Context (nb bs : Z) (Hbs : 0 < bs).

(** The caches, once registered, and what a chunk is computed with: the layer's
    caches, block ids they have, and, when it completes the prompt, at least one full block. *)
Definition registered_ok rs : Prop :=
  match registered rs with Some (k, v, b, _) => hd 0 (t_shape k) = nb /\ hd 0 (t_shape v) = nb /\ b = bs | None => True end.
Definition cache_parts (x : kv_layer T) : option (T * T) :=
  match x with KTensor t => Some (t_index t 0, t_index t 1) | KTuple [k; v] => Some (k, v) | _ => None end.
Record chunk_room (name : string) (fc : list (string * kv_layer T)) (m : ReqMeta) : Prop := {
  rm_caches : exists x k v heads size, od_get name fc = Some x /\ cache_parts x = Some (k, v) /\
    t_shape k = [nb; bs; heads; size] /\ hd 0 (t_shape v) = nb;
  rm_ids : ids_ok nb (vllm_block_ids m);
  rm_last : is_last_chunk m = true -> bs <= num_computed_tokens m + num_scheduled_tokens m /\ vllm_block_ids m <> [];
}.

Lemma read_ok t bl rs (o : W * R) : ids_ok (hd 0 (t_shape t)) bl -> exists l, store_call (read_blocks t bl) (rs, o) = (Ok l, (rs, o)).
Proof.
  intros Hi. destruct o as [w r]. eexists. unfold store_call, zoom, read_blocks. simpl.
  by rewrite (bind_ok _ _ _ _ _ (cache_addrs_run t bl w Hi)).
Qed.

Lemma register_chunk fc m rs o : registered_ok rs -> chunk_room (layer_name rs) fc m ->
  wp (maybe_register_kv_cache fc) (fun _ s' => exists k v hs, s' = (with_registered (Some (k, v, bs, hs)) rs, o) /\
    hd 0 (t_shape k) = nb /\ hd 0 (t_shape v) = nb) (rs, o).
Proof.
  intros Hreg [(x & k & v & heads & size & Hx & Hp & Hk & Hv) _ _].
  unfold maybe_register_kv_cache, registered_ok, req, the, on_req in *. wp_steps. cbn [fst].
  destruct (registered rs) as [[[[k0 v0] b] hs]|] eqn:Hr; cbn [from_option fst snd].
  - destruct Hreg as (Hk0 & Hv0 & ->). rewrite (proj2 (Z.eqb_neq _ _)) by lia. cbn [negb]. wp_steps. exists k0, v0, hs.
    split; [|done]. f_equal. destruct rs. simpl in *. by subst.
  - rewrite Z.eqb_refl. cbn [negb]. wp_steps. cbn [fst]. rewrite Hx. eapply wp_lift; [done|].
    eapply (wp_call _ _ (fun kv s' => kv = (k, v) /\ s' = (rs, o))).
    { destruct x as [t|ts|]; simpl in Hp; [by injection Hp as -> ->; wp_steps| |done].
      destruct ts as [|k1 [|v1 [|? ?]]]; try done. injection Hp as -> ->. wp_steps. eapply wp_lift; [done|]. wp_steps.
      eapply wp_lift; [done|]. by wp_steps. }
    intros _ _ [-> ->]. rewrite Hk. wp_steps. eapply wp_lift; [done|]. wp_steps. cbn [fst snd]. eapply wp_lift; [done|]. wp_steps. cbn [fst snd].
    eapply wp_lift; [done|]. wp_steps. exists k, v, (block_hashes (req_meta rs)). rewrite Hk. split; [done|]. done.
Qed.

Lemma clone_chunk k v hs ids rs o : registered rs = Some (k, v, bs, hs) -> hd 0 (t_shape k) = nb -> hd 0 (t_shape v) = nb -> ids_ok nb ids ->
  wp (clone_blocks ids) (fun _ s' => s' = (rs, o)) (rs, o).
Proof.
  intros Hr Hk Hv Hi. unfold clone_blocks, k_cache, v_cache, req, the. wp_steps. cbn [fst]. rewrite Hr. eapply wp_lift; [done|]. wp_steps.
  destruct (read_ok k ids rs o) as [lk Elk]; [by rewrite Hk|]. eapply wp_intro; [exact Elk|]. wp_steps. cbn [fst]. rewrite Hr.
  eapply wp_lift; [done|]. wp_steps. destruct (read_ok v ids rs o) as [lv Elv]; [by rewrite Hv|]. eapply wp_intro; [exact Elv|]. by wp_steps.
Qed.

Lemma represent_chunk k v hs need rs o : registered rs = Some (k, v, bs, hs) -> hd 0 (t_shape k) = nb -> hd 0 (t_shape v) = nb ->
  ids_ok nb (vllm_block_ids (req_meta rs)) ->
  (is_last_chunk (req_meta rs) = true -> 0 < num_blocks_dumped rs + need /\ vllm_block_ids (req_meta rs) <> []) ->
  wp (compute_block_repre c prune_index mean_keys need) (fun _ s' => registered s'.1 = registered rs /\ layer_name s'.1 = layer_name rs) (rs, o).
Proof.
  intros Hr Hk Hv Hi Hl. unfold compute_block_repre, req, on_req. wp_steps. cbn [fst].
  destruct (_ && _) eqn:E; [|by wp_steps]. apply andb_true_iff in E as [_ E]. destruct (Hl E) as [Hpos Hne]. wp_steps. cbn [fst].
  eapply (wp_mono _ (fun _ s' => exists w, s' = (with_windows w rs, o))).
  { unfold extract_block_repre, k_cache, req, the, on_req.
    set (bl := slice_to _ _). assert (Hbl : bl <> []).
    { unfold bl. rewrite slice_to_take by lia. destruct (vllm_block_ids (req_meta rs)); [done|].
      replace (Z.to_nat _) with (S (Z.to_nat (num_blocks_dumped rs + need - 1))) by lia. done. }
    assert (Hlast : exists x, py_idx bl (-1) = Ok x).
    { destruct bl as [|x l] using rev_ind; [done|]. exists x. apply py_idx_snoc. }
    destruct Hlast as [x Hx]. wp_steps. eapply wp_lift; [exact Hx|]. destruct (x <? 2).
    { wp_steps. exists (windows rs). by destruct rs. }
    wp_steps. cbn [fst]. rewrite Hr. eapply wp_lift; [done|]. wp_steps. destruct (read_ok k bl rs o) as [lk Elk].
    { rewrite Hk. by apply ids_ok_slice. }
    eapply wp_intro; [exact Elk|]. wp_steps. cbn [fst]. destruct (_ && _); wp_steps; cbn [fst snd]; [by eexists|].
    exists (windows rs). by destruct rs. }
  intros repre _ [w ->]. wp_steps. cbn [fst snd]. unfold construct_init_and_local_window, req, on_req. wp_steps. cbn [fst snd].
  set (rs2 := with_windows _ _). assert (Hr2 : registered rs2 = Some (k, v, bs, hs)) by done.
  eapply wp_mono; [apply (clone_chunk k v hs _ rs2 o Hr2 Hk Hv); by apply ids_ok_slice|]. intros i _ ->. wp_steps. cbn [fst snd].
  destruct (_ <? _); [|by wp_steps]. set (rs3 := with_windows _ rs2). wp_steps.
  eapply wp_mono; [apply (clone_chunk k v hs _ rs3 o Hr2 Hk Hv); by apply ids_ok_slice|]. intros l _ ->. by wp_steps.
Qed.

Lemma finished_chunk fc m rs o : registered_ok rs -> chunk_room (layer_name rs) fc m -> req_meta rs = m -> num_output_tokens m = 0 ->
  wp (layer_attention_finished c tth prune_index mean_keys fc)
    (fun _ s' => registered_ok s'.1 /\ layer_name s'.1 = layer_name rs) (rs, o).
Proof.
  intros Hreg Hroom Hm Ho. unfold layer_attention_finished, req. wp_steps. cbn [fst]. rewrite Hm. unfold stage. rewrite Ho. simpl.
  apply wp_bind. eapply wp_mono; [by eapply register_chunk|]. intros _ _ (k & v & hs & -> & Hk & Hv). unfold on_req. wp_steps. cbn [fst snd].
  cbn [registered with_registered from_option fst snd]. rewrite (proj2 (Z.eqb_neq _ _)) by lia. wp_steps. cbn [fst snd].
  eapply wp_mono; [eapply (represent_chunk k v hs); try done|].
  - simpl. rewrite Hm. apply (rm_ids _ _ _ Hroom).
  - simpl. rewrite Hm. intros Hl. destruct (rm_last _ _ _ Hroom Hl) as [Hle Hne]. split; [|done].
    assert (1 <= (num_computed_tokens m + num_scheduled_tokens m) / bs) by (apply Z.div_le_lower_bound; lia). lia.
  - intros [] s' [E1 E2]. split; [|exact E2]. unfold registered_ok. by rewrite E1.
Qed.

(** *** The chunks of a prompt *)

(** The first [c0] tokens of the prompt are cached.  Other layers run in between. *)
Inductive prefill_run (q : Z -> Q) (n c0 : Z) (rs0 : RS) : Z -> RS -> Prop :=
| prefill_start : prefill_run q n c0 rs0 c0 rs0
| prefill_chunk lo hi rs m query fc o rs1 o1 s' :
    prefill_run q n c0 rs0 lo rs -> chunk_of q n lo hi m query -> chunk_room (layer_name rs) fc m ->
    layer_attention_begin c tth query (update_meta m rs, o) = (Ok tt, (rs1, o1)) ->
    layer_attention_finished c tth prune_index mean_keys fc (rs1, o1) = (Ok tt, s') ->
    prefill_run q n c0 rs0 hi s'.1.

Lemma prefill_run_holds q n c0 rs0 x rs : 0 < stride -> 0 <= c0 -> registered_ok rs0 ->
  od_get "prefill" (standby_query_group (groups rs0)) = None -> prefill_run q n c0 rs0 x rs ->
  c0 <= x /\ holds_group "prefill" (last_queries q n c0 x) (groups rs) /\ registered_ok rs.
Proof.
  intros Hst Hc0 Hreg Hnone. induction 1 as [|lo hi rs m query fc o rs1 o1 s' _ IH Hc Hroom Hb Hf].
  - split; [done|]. split; [|done]. unfold holds_group. rewrite Hnone. intros j Hj. unfold last_queries. by rewrite decide_False by lia.
  - destruct IH as (Hx & Hg & Hreg1). pose proof (ch_range _ _ _ _ _ _ Hc) as Hr. split; [lia|].
    pose proof (offload_prefill_spec q n c0 lo hi m query (update_meta m rs) o Hc (conj Hc0 Hx) Hst eq_refl Hg) as Hw.
    apply wp_elim in Hw as (u & s1 & Hrun & g' & Hs1 & _ & Hg'). rewrite Hrun in Hb. injection Hb as _ ->.
    injection Hs1 as -> ->. pose proof (ch_output _ _ _ _ _ _ Hc) as Ho.
    assert (Hk : same_groups (with_groups (fun _ => g') (update_meta m rs), o) s').
    { change s' with (@Ok unit tt, s').2. rewrite <- Hf. by apply finished_keeps_groups. }
    split; [by rewrite Hk|].
    pose proof (finished_chunk fc m (with_groups (fun _ => g') (update_meta m rs)) o Hreg1 Hroom eq_refl Ho) as Hw.
    apply wp_elim in Hw as (u' & s2 & Hrun2 & Hreg2 & _). rewrite Hrun2 in Hf. by injection Hf as _ ->.
Qed.

Lemma last_queries_present q n c0 : 0 < stride -> c0 < n -> 0 <= c0 ->
  omap id (table stride (last_queries q n c0 n)) = q <$> zrange (Z.max c0 (n - stride)) n.
Proof.
  intros Hst Hn Hc0. set (k := Z.max 0 (c0 - (n - stride))). unfold table.
  rewrite (zrange_app 0 k stride), fmap_app by lia.
  assert (Hb : last_queries q n c0 n <$> zrange 0 k = (fun _ => None) <$> zrange 0 k).
  { apply list_fmap_ext. intros i j Hj. apply list_elem_of_lookup_2, elem_of_zrange in Hj.
    unfold last_queries. by rewrite decide_False by lia. }
  assert (He : last_queries q n c0 n <$> zrange k stride = (fun j => Some (q (n - stride + j))) <$> zrange k stride).
  { apply list_fmap_ext. intros i j Hj. apply list_elem_of_lookup_2, elem_of_zrange in Hj.
    unfold last_queries. by rewrite decide_True by lia. }
  rewrite Hb, He, omap_app. clear Hb He.
  replace (omap id ((fun _ => None) <$> zrange 0 k)) with (@nil Q).
  2: { by induction (zrange 0 k). }
  simpl. trans ((fun j => q (n - stride + j)) <$> zrange k stride).
  { induction (zrange k stride) as [|x l IH]; [done|]. simpl. by f_equal. }
  apply list_eq. intros i. unfold zrange. rewrite !list_lookup_fmap.
  destruct (decide (i < Z.to_nat (stride - k))%nat).
  - rewrite !lookup_seq_lt by lia. simpl. do 2 f_equal. lia.
  - by rewrite !lookup_seq_ge by lia.
Qed.
(** C28. However the prompt is chunked, and however much of it the prefix cache
    holds, neither hook of a chunk fails, given the layer's caches, block ids they
    have and, for the chunk that completes the prompt, at least one full block;
    and when the prompt is complete the first group has one place per step of the
    stride and holds the queries of the prompt's last tokens, in order, as far as
    they were computed. *)
Theorem prefill_group_is_the_last_queries q n c0 rs0 x rs : 0 < stride -> 0 <= c0 -> registered_ok rs0 ->
  od_get "prefill" (standby_query_group (groups rs0)) = None -> prefill_run q n c0 rs0 x rs ->
  (forall m hi query fc o, chunk_of q n x hi m query -> chunk_room (layer_name rs) fc m ->
     exists rs1 o1 s', layer_attention_begin c tth query (update_meta m rs, o) = (Ok tt, (rs1, o1)) /\
       layer_attention_finished c tth prune_index mean_keys fc (rs1, o1) = (Ok tt, s')) /\
  (x = n -> c0 < n -> exists grp, od_get "prefill" (standby_query_group (groups rs)) = Some grp /\
     pylen grp = stride /\ omap id grp = q <$> zrange (Z.max c0 (n - stride)) n).
Proof.
  intros Hst Hc0 Hreg Hn Hrun. destruct (prefill_run_holds _ _ _ _ _ _ Hst Hc0 Hreg Hn Hrun) as (Hx & Hg & Hreg1). split.
  - intros m hi query fc o Hc Hroom.
    pose proof (offload_prefill_spec q n c0 x hi m query (update_meta m rs) o Hc (conj Hc0 Hx) Hst eq_refl Hg) as Hw.
    apply wp_elim in Hw as ([] & s1 & Hrun1 & g' & -> & _).
    pose proof (finished_chunk fc m (with_groups (fun _ => g') (update_meta m rs)) o Hreg1 Hroom eq_refl (ch_output _ _ _ _ _ _ Hc)) as Hw.
    apply wp_elim in Hw as ([] & s2 & Hrun2 & _). by eexists _, _, s2.
  - intros -> Hlt. exists (table stride (last_queries q n c0 n)). split; [|split].
    + apply (holds_group_get _ _ _ (stride - 1) Hg); [lia|]. unfold last_queries. rewrite decide_True by lia. eauto.
    + apply pylen_table. lia.
    + by apply last_queries_present.
Qed.

(** A prompt shorter than a block has no full block to represent: the hook after
    the attention of its last chunk raises. *)
Lemma prompt_below_a_block_raises fc m rs o k v hs : registered rs = Some (k, v, bs, hs) -> req_meta rs = m ->
  num_output_tokens m = 0 -> is_last_chunk m = true -> 0 <= num_computed_tokens m + num_scheduled_tokens m < bs ->
  (layer_attention_finished c tth prune_index mean_keys fc (rs, o)).1 = Err IndexError.
Proof.
  intros Hr Hm Ho Hl Hn. unfold layer_attention_finished, bind, req, gets. simpl. rewrite Hm. unfold stage. rewrite Ho. simpl.
  unfold maybe_register_kv_cache, bind, req, gets, ret. simpl. rewrite Hr. simpl. rewrite (proj2 (Z.eqb_neq bs 0)) by lia. simpl.
  rewrite Hr. simpl. rewrite (proj2 (Z.eqb_neq bs 0)) by lia. simpl. unfold compute_block_repre, bind, req, gets, on_req, modify, ret. simpl.
  rewrite Hm. unfold stage. rewrite Ho, Hl. simpl. unfold extract_block_repre, bind, lift_res.
  rewrite (Z.div_small _ bs) by done. rewrite Z.sub_0_l, Z.add_opp_diag_r. by rewrite slice_to_take by lia.
Qed.
End layer.
