(* ===== verification/KvstarSwap.v ===== *)
(** * KVStar: the window of retrieved blocks

    [swap_area] gives every place of the window one of the chosen blocks, keeps
    the blocks that are there already, and says which blocks are to be loaded
    where. *)

From Stdlib Require Import Ascii String.
From S2P Require Import Prelude.
From S2P Require Import Kvstar.
From stdpp Require Import strings.
Local Open Scope Z_scope.

Section remove.
Context {A : Type} `{EqDecision A}.
Implicit Types (x : A) (l : list A).

Lemma list_remove_perm x l : x ∈ l -> l ≡ₚ x :: list_remove x l.
Proof.
  induction l as [|y l IH]; intros Hx; simpl; [by apply elem_of_nil in Hx|].
  case_decide as Hxy; [by subst|]. apply elem_of_cons in Hx as [->|Hx]; [done|].
  rewrite Permutation_swap. by rewrite <- IH.
Qed.
End remove.

(** [d[k] = v] for pairs with fresh keys *)
Lemma put_fresh (m l : list (Z * string)) : NoDup (m.*1 ++ l.*1) ->
  foldl (fun m e => od_set e.1 e.2 m) m l = m ++ l.
Proof.
  revert m. induction l as [|[k v] l IH]; intros m Hn; simpl in *; [by rewrite app_nil_r|].
  rewrite od_set_new.
  - rewrite IH; [by rewrite <- app_assoc|]. rewrite fmap_app. simpl. by rewrite <- app_assoc.
  - unfold od_keys. intros Hk. apply NoDup_app in Hn as (_ & Hd & _). apply (Hd k Hk). by left.
Qed.

(** While the places [todo] are still to be looked at. *)
Record matching (pre : list (Z * string)) (cand : list Z) (hashes : list string) (todo : list Z)
    (acc : list (Z * string) * list Z * list string) : Prop := {
  ma_places : acc.1.1.*1 ++ acc.1.2 ≡ₚ cand;
  ma_hashes : acc.1.1.*2 ++ acc.2 ≡ₚ hashes;
  ma_kept : forall e, e ∈ acc.1.1 -> e ∈ pre;
  ma_todo : forall b, b ∈ todo -> b ∈ acc.1.2;
}.

Lemma match_place_step pre cand hashes b todo acc : NoDup cand -> NoDup (b :: todo) ->
  matching pre cand hashes (b :: todo) acc -> matching pre cand hashes todo (match_place pre acc b).
Proof.
  intros Hc Ht Hm. pose proof (NoDup_cons_1_1 _ _ Ht) as Hb. destruct acc as [[matched rest] hs].
  pose proof Hm as [Hp Hh Hk Hd]. simpl in *.
  assert (Hskip : matching pre cand hashes todo (matched, rest, hs)).
  { split; simpl; [done..|]. intros b' Hb'. apply Hd. by right. }
  destruct (od_get b pre) as [h|] eqn:Hg; [|done]. destruct (mem h hs) eqn:Hin; [|done]. apply mem_spec in Hin.
  assert (Hr : b ∈ rest) by (apply Hd; by left). clear Hskip.
  pose proof (list_remove_perm _ _ Hr) as Hr'. pose proof (list_remove_perm _ _ Hin) as Hh'.
  assert (Hnew : b ∉ od_keys matched).
  { unfold od_keys. intros Hbm. rewrite <- Hp in Hc. apply NoDup_app in Hc as (_ & Hdis & _). by apply (Hdis b Hbm). }
  rewrite od_set_new by done. split; simpl.
  - rewrite fmap_app, <- app_assoc. simpl. by rewrite <- Hr'.
  - rewrite fmap_app, <- app_assoc. simpl. by rewrite <- Hh'.
  - intros e [He|He%list_elem_of_singleton]%elem_of_app; [by apply Hk|]. subst e. by apply od_get_elem.
  - intros b' Hb'. assert (Hb2 : b' ∈ rest) by (apply Hd; by right). rewrite Hr' in Hb2.
    apply elem_of_cons in Hb2 as [->|]; done.
Qed.

(** The window of the chosen blocks: one place for each, the blocks that were
    there stay, the others are loaded. *)
Record swapped (pre : list (Z * string)) (cand : list Z) (hashes : list string)
    (area : list (Z * string)) (rest : list Z) (missing : list string) : Prop := {
  sw_places : area.*1 ≡ₚ cand;
  sw_hashes : area.*2 ≡ₚ hashes;
  sw_rest : rest ⊆ cand;
  sw_nodup : NoDup rest;
  sw_len : length rest = length missing;
  sw_from : forall e, e ∈ area -> e ∈ zip rest missing \/ (e ∈ pre /\ e.1 ∉ rest);
}.

Lemma swap_area_spec pre cand hashes area rest missing : NoDup cand -> length hashes = length cand ->
  swap_area pre cand hashes = (area, rest, missing) -> swapped pre cand hashes area rest missing.
Proof.
  intros Hc Hl Hs. unfold swap_area in Hs.
  enough (exists matched, area = matched ++ zip rest missing /\ matching pre cand hashes [] (matched, rest, missing))
    as (matched & -> & [Hp Hh Hk _]).
  { simpl in *. pose proof (Permutation_length Hp) as Hlp. pose proof (Permutation_length Hh) as Hlh.
    rewrite length_app, length_fmap in Hlp. rewrite length_app, length_fmap in Hlh. assert (Hlr : length rest = length missing) by lia.
    split; [by rewrite fmap_app, fst_zip by lia|by rewrite fmap_app, snd_zip by lia| | |done|].
    - intros b Hb. rewrite <- Hp. apply elem_of_app. by right.
    - rewrite <- Hp in Hc. by apply NoDup_app in Hc as (_ & _ & ?).
    - intros e [He|He]%elem_of_app; [right|by left]. split; [by apply Hk|]. intros Hr. rewrite <- Hp in Hc.
      apply NoDup_app in Hc as (_ & Hd & _). apply (Hd e.1); [|done]. by apply list_elem_of_fmap_2. }
  destruct pre as [|e0 pre'].
  - injection Hs as <- <- <-. exists []. split; [|by split; simpl; try done; intros ? ?%elem_of_nil].
    apply put_fresh. simpl. by rewrite fst_zip by lia.
  - set (pre := e0 :: pre') in *.
    assert (Hm : matching pre cand hashes [] (foldl (match_place pre) ([], cand, hashes) cand)).
    { assert (H0 : matching pre cand hashes cand ([], cand, hashes)).
      { split; simpl; try done. by intros ? ?%elem_of_nil. }
      assert (Hgen : forall todo acc, NoDup todo -> matching pre cand hashes todo acc ->
        matching pre cand hashes [] (foldl (match_place pre) acc todo)).
      { induction todo as [|b todo IH]; intros acc Ht Ha; [done|]. simpl. apply IH; [by apply NoDup_cons_1_2 in Ht|].
        by apply match_place_step. }
      by apply Hgen. }
    destruct (foldl _ _ _) as [[matched r] ms]. injection Hs as <- <- <-. exists matched. split; [|done].
    destruct Hm as [Hp Hh _ _]. simpl in *. apply put_fresh.
    pose proof (Permutation_length Hp) as Hlp. pose proof (Permutation_length Hh) as Hlh.
    rewrite length_app, length_fmap in Hlp. rewrite length_app, length_fmap in Hlh. rewrite fst_zip by lia. by rewrite Hp.
Qed.
