(* ===== verification/KvstarDecode.v ===== *)
(** * KVStar: the pipeline of a decoding request

    While the model decodes, the queries of [retrieval_stride] steps form a
    group; the retrieval for a full group is asked in the hook before the last
    of its steps' attention, waited for one stride later, and its blocks are
    loaded and waited for before the next step's attention. *)

From Stdlib Require Import Ascii String.
From S2P Require Import Prelude.
From S2P Require Import Wp.
From S2P Require Import PyStr.
From S2P Require Import StoreApi.
From S2P Require Import StoreBase.
From S2P Require Import Layout.
From S2P Require Import DeviceMem.
From S2P Require Import GsaSparse.
From S2P Require Import Kvstar.
From S2P Require Import KvstarRuns.
From S2P Require Import KvstarSwap.
From stdpp Require Import strings.
Local Open Scope Z_scope.
Local Open Scope py_scope.

(** ** The names of the groups *)
Section names.
Context (c : KvstarConfig).
Abbreviation stride := (Kvstar.stride c).

(** The group of the steps from [k * stride + 1] to [(k + 1) * stride]. *)
Definition group_name (k : Z) : string := ("decode" ++ str_of_Z (k * stride + 1))%string.

Lemma group_name_inj k k' : 0 < stride -> 0 <= k -> 0 <= k' -> group_name k = group_name k' -> k = k'.
Proof.
  intros Hs Hk Hk'. unfold group_name. simpl. intros [= He]. unfold str_of_Z in He.
  rewrite !(proj2 (Z.ltb_ge _ _)) in He by nia. apply str_of_nonneg_inj in He; nia.
Qed.
Lemma group_name_prefill k : group_name k <> "prefill"%string.
Proof. done. Qed.

Lemma step_record k s : 0 < stride -> 0 <= k -> k * stride + 1 <= s <= (k + 1) * stride ->
  get_decode_step_record c s = Ok (group_name k, s - 1 - k * stride).
Proof.
  intros Hs Hk Hr. unfold get_decode_step_record. rewrite (proj2 (Z.eqb_neq _ _)) by lia.
  assert (Hq : (s - 1) / stride = k) by (symmetry; apply (Z.div_unique _ _ _ (s - 1 - k * stride)); lia).
  rewrite Z.mod_eq, Hq by lia. unfold group_name. do 2 f_equal. lia.
Qed.
Lemma ask_record m : 0 < stride -> 1 <= m -> get_retrieve_record c (m * stride + 1) = group_name (m - 1).
Proof.
  intros Hs Hm. unfold get_retrieve_record. rewrite (proj2 (Z.eqb_neq _ _)) by nia.
  unfold group_name. do 2 f_equal. lia.
Qed.
Lemma load_record m : 0 < stride -> 2 <= m -> retrieve_record_of c (m * stride + 1) = group_name (m - 2).
Proof.
  intros Hs Hm. unfold retrieve_record_of. rewrite (proj2 (Z.leb_gt _ _)) by nia.
  rewrite (cdiv_unique _ _ (m + 1)) by nia. unfold group_name. do 2 f_equal. lia.
Qed.
End names.

(** Parts of blocks at one offset: hash, offset and address. *)
Definition parts (hs : list string) (off : Z) (addrs : list Z) : list (string * Z * Z) :=
  (fun e : string * Z => (e.1, off, e.2)) <$> zip hs addrs.

Lemma elem_of_parts i h off (ids : list Z) hs (f : Z -> Z) : (i, h) ∈ zip ids hs ->
  (h, off, f i) ∈ parts hs off (f <$> ids).
Proof.
  revert hs. induction ids as [|i' ids IH]; intros [|h' hs]; simpl; try by intros ?%elem_of_nil.
  intros [[= -> ->]|Hi]%elem_of_cons; [by left|]. right. by apply IH.
Qed.

Lemma parts_addrs hs off addrs : length hs = length addrs -> (parts hs off addrs).*2 = addrs.
Proof.
  intros Hl. unfold parts. rewrite <- list_fmap_compose. simpl. rewrite <- (snd_zip hs addrs) at 2 by lia.
  apply list_fmap_ext. by intros ? [].
Qed.

Section decode.
Context {T W D R Q F P : Type} `{TensorOps T} `{UcmKVStoreBase W} `{KvMem W D} `{KvRetrieve R Q F P}.
Context (c : KvstarConfig) (tth : list string -> string -> string -> Z).
Context (prune_index : list D -> P) (mean_keys : option P -> list D -> list F).
Abbreviation RS := (ReqPerLayerState T D Q F P ktask kv_task).
Abbreviation LS := (RS * (W * R))%type.
Abbreviation stride := (Kvstar.stride c).
Implicit Types (rs : RS) (g : Groups Q ktask).

(** ** What is fixed while a request decodes *)
Context (kc vc : T) (bs lid : Z) (hashes : list string) (win : Windows D F P).
Context (repre : list F) (rid : Z) (cand : list Z) (row : Z -> Q) (prompt_queries : list Q).

(** The errors of the workers and the store. *)
Context (ok : exn -> bool).

(** ** The retrieval workers

    A task keeps the queries it was asked with; its answer is a function of
    them, one place in the representatives for every place of the window. *)
Context (asked : R -> ktask -> list Q -> Prop) (choice : list Q -> list Z).

Definition asked_still (r r' : R) : Prop := forall t qs, asked r t qs -> asked r' t qs.

Record WorkerLaws : Prop := {
  wl_async : forall qs r, wpx ok (k_async qs repre (d_pruned_index win) (pylen cand) rid)
               (fun t r' => asked r' t qs /\ asked_still r r') r;
  wl_wait : forall t r, wpx ok (k_wait t) (fun _ r' => asked_still r r') r;
  wl_result : forall t qs r, asked r t qs ->
    wpx ok (k_result t) (fun d r' => d = Some (choice qs) /\ asked_still r r') r;
  wl_range : forall qs i, i ∈ choice qs -> 0 <= i + ks_init_window_sz c < pylen hashes;
  wl_count : forall qs, length (choice qs) = length cand;
}.

(** The hashes of the chosen blocks. *)
Definition chosen (qs : list Q) : list string :=
  (fun i => default EmptyString (hashes !! Z.to_nat (i + ks_init_window_sz c))) <$> choice qs.

(** ** The store

    [loading w t l]: the task [t] is loading the parts [l] of blocks - hash,
    offset and address; [holds w a h o]: the memory at [a] holds such a part. *)
Context (loading : W -> kv_task -> list (string * Z * Z) -> Prop) (holds : W -> Z -> string -> Z -> Prop).

Record TransferLaws : Prop := {
  tl_load : forall hs off addrs w, length hs = length addrs -> NoDup addrs ->
    wpx ok (kv_load hs (py_repeat off (pylen hs)) addrs) (fun t w' =>
      loading w' t (parts hs off addrs) /\
      (forall t' l, loading w t' l -> (forall a, a ∈ addrs -> a ∉ l.*2) -> loading w' t' l) /\
      (forall a h o, a ∉ addrs -> holds w a h o -> holds w' a h o)) w;
  tl_wait : forall t w, wpx ok (kv_wait t) (fun _ w' =>
      (forall t' l, loading w t' l -> loading w' t' l) /\
      (forall a h o, holds w a h o -> holds w' a h o) /\
      (forall l h o a, loading w t l -> (h, o, a) ∈ l -> holds w' a h o)) w;
}.

(** The hash of a transfer tells the keys from the values. *)
Context (Htth : forall hs, tth hs "load" "key" <> tth hs "load" "value").

Definition offset_k : Z := compute_layer_offset (block_numel kc * t_element_size kc) lid false false.
Definition offset_v : Z := compute_layer_offset (block_numel kc * t_element_size kc) lid true false.

(** The block [e.1] of both caches holds the layer's part of the block [e.2]. *)
Definition resident (w : W) (e : Z * string) : Prop :=
  holds w (addr kc e.1) e.2 offset_k /\ holds w (addr vc e.1) e.2 offset_v.

(** What the tasks in flight are loading. *)
Inductive in_flight (w : W) : list (Z * kv_task) -> list (Z * string) -> Prop :=
| flight_none : in_flight w [] []
| flight_two hk hv tk tv ids hs :
    length hs = length ids ->
    loading w tk (parts hs offset_k (addr kc <$> ids)) ->
    loading w tv (parts hs offset_v (addr vc <$> ids)) ->
    in_flight w [(hk, tk); (hv, tv)] (zip ids hs).

(** The window: every place of it holds, or will hold, a chosen block. *)
Record window (qs : list Q) (w : W) (tasks : list (Z * kv_task)) (area : list (Z * string)) : Prop := {
  wi_places : area.*1 ≡ₚ cand;
  wi_hashes : area.*2 ≡ₚ chosen qs;
  wi_blocks : exists l, in_flight w tasks l /\ forall e, e ∈ area -> e ∈ l \/ resident w e;
}.

(** ** The operations of a hook *)

Lemma store_spec {A} (m : M W A) (Post : A -> W -> Prop) rs w r : wpx ok m Post w ->
  wpx ok (store_call m) (fun a s' => exists w', s' = (rs, (w', r)) /\ Post a w') (rs, (w, r)).
Proof. intros Hm. apply wpx_zoom. eapply wpx_mono; [exact Hm|]. intros a w' Hp. by exists w'. Qed.
Lemma retrieve_spec {A} (m : M R A) (Post : A -> R -> Prop) rs w r : wpx ok m Post r ->
  wpx ok (retrieve_call m) (fun a s' => exists r', s' = (rs, (w, r')) /\ Post a r') (rs, (w, r)).
Proof. intros Hm. apply wpx_zoom. eapply wpx_mono; [exact Hm|]. intros a r' Hp. by exists r'. Qed.

Lemma wait_one t rs w r : TransferLaws ->
  wpx ok (do! store_call (kv_wait t) in ret tt) (fun _ s' => exists w', s' = (rs, (w', r)) /\
      (forall t' l, loading w t' l -> loading w' t' l) /\
      (forall a h o, holds w a h o -> holds w' a h o) /\
      (forall l h o a, loading w t l -> (h, o, a) ∈ l -> holds w' a h o)) (rs, (w, r)).
Proof.
  intros Hl. eapply wpx_call; [apply store_spec, (tl_wait Hl)|]. intros z s' Hs'. by apply wpx_wp, wp_ret.
Qed.

Lemma wait_spec rs w r l : TransferLaws -> in_flight w (blk_trans_tasks rs) l ->
  wpx ok wait_for_blk_transfer_task_done (fun _ s' => exists w', s' = (with_tasks [] rs, (w', r)) /\
    (forall e, e ∈ l -> resident w' e) /\ (forall e, resident w e -> resident w' e)) (rs, (w, r)).
Proof.
  intros Hl Hf. unfold wait_for_blk_transfer_task_done, req, on_req. do 2 wp_step. simpl.
  inversion Hf as [Ht|hk hv tk tv ids hs Hlen Hk Hv Ht]; subst l; simpl.
  - do 3 wp_step. exists w. split; [done|]. split; [by intros ? ?%elem_of_nil|done].
  - wp_step. eapply wpx_call; [by apply wait_one|]. intros _ _ (w1 & -> & Hl1 & Hh1 & Hd1).
    eapply wpx_call; [by apply wait_one|]. intros _ _ (w2 & -> & Hl2 & Hh2 & Hd2).
    do 2 wp_step. exists w2. split; [done|]. split.
    + intros [i h] He. split.
      * apply Hh2. by apply (Hd1 _ _ _ _ Hk), elem_of_parts.
      * by apply (Hd2 _ _ _ _ (Hl1 _ _ Hv)), elem_of_parts.
    + intros e [He1 He2]. split; auto.
Qed.

(** The addresses of the window's places differ. *)
Context (Hk_ok : ids_ok (hd 0 (t_shape kc)) cand) (Hv_ok : ids_ok (hd 0 (t_shape vc)) cand).
Context (Haddrs : NoDup ((addr kc <$> cand) ++ (addr vc <$> cand))).

Lemma ids_ok_subset n ids ids' : ids_ok n ids -> ids' ⊆ ids -> ids_ok n ids'.
Proof. unfold ids_ok. rewrite !Forall_forall. intros Hi Hs x Hx. by apply Hi, Hs. Qed.

Lemma addr_disjoint x y : x ∈ cand -> y ∈ cand -> addr kc x <> addr vc y.
Proof.
  intros Hx Hy He. apply NoDup_app in Haddrs as (_ & Hd & _). apply (Hd (addr kc x)); [by apply list_elem_of_fmap_2|].
  rewrite He. by apply list_elem_of_fmap_2.
Qed.
Lemma addr_inj_k : NoDup (addr kc <$> cand).
Proof. by apply NoDup_app in Haddrs as (? & _ & _). Qed.
Lemma addr_inj_v : NoDup (addr vc <$> cand).
Proof. by apply NoDup_app in Haddrs as (_ & _ & ?). Qed.

Lemma NoDup_fmap_subset {A B} (f : A -> B) (l l' : list A) : NoDup (f <$> l) -> l' ⊆ l -> NoDup l' -> NoDup (f <$> l').
Proof.
  intros Hf Hs Hn. apply NoDup_fmap_2_strong; [|done]. intros x y Hx%Hs Hy%Hs He.
  apply list_elem_of_lookup in Hx as [i Hi], Hy as [j Hj].
  pose proof (NoDup_lookup _ i j (f x) Hf) as Hij. rewrite !list_lookup_fmap, Hi, Hj in Hij. simpl in Hij.
  rewrite He in Hij. specialize (Hij eq_refl eq_refl). subst j. congruence.
Qed.

Lemma addr_fresh (t : T) ids b : NoDup (addr t <$> cand) -> ids ⊆ cand -> b ∈ cand -> b ∉ ids -> addr t b ∉ addr t <$> ids.
Proof.
  intros Hn Hs Hb Hni (x & He & Hx)%list_elem_of_fmap. apply Hni.
  pose proof (Hs _ Hx) as Hxc. apply list_elem_of_lookup in Hb as [i Hi], Hxc as [j Hj].
  pose proof (NoDup_lookup _ i j (addr t b) Hn) as Hij. rewrite !list_lookup_fmap, Hi, Hj in Hij. simpl in Hij.
  rewrite He in Hij. specialize (Hij eq_refl eq_refl). subst j. congruence.
Qed.

Lemma addrs_spec (t : T) ids (s : LS) : ids_ok (hd 0 (t_shape t)) ids ->
  wpx ok (store_call (cache_addrs t ids)) (fun a s' => s' = s /\ a = addr t <$> ids) s.
Proof.
  intros Hi. destruct s as [rs [w r]]. eapply wpx_mono; [apply (store_spec _ (fun a w' => w' = w /\ a = addr t <$> ids))|].
  - apply wpx_wp. by eapply wp_intro; [by apply cache_addrs_run|].
  - intros a s' (w' & -> & -> & ->). done.
Qed.

Lemma kv_launch_spec rs w r hs ids : TransferLaws -> registered rs = Some (kc, vc, bs, hashes) -> layer_id rs = lid ->
  blk_trans_tasks rs = [] -> length hs = length ids -> ids ⊆ cand -> NoDup ids ->
  wpx ok (launch_transfer_task tth hs ids) (fun _ s' => exists w' tasks, s' = (with_tasks tasks rs, (w', r)) /\
    in_flight w' tasks (zip ids hs) /\
    (forall e, e.1 ∈ cand -> e.1 ∉ ids -> resident w e -> resident w' e)) (rs, (w, r)).
Proof.
  intros Hl Hreg Hlid Ht Hlen Hsub Hnd.
  unfold launch_transfer_task, Kvstar.k_cache, Kvstar.v_cache, req, the, on_req.
  do 3 wp_step. cbn [fst]. rewrite Hreg. wp_lift1. do 3 wp_step. cbn [fst].
  rewrite Hreg. wp_lift1. do 2 wp_step. cbn [fst snd]. rewrite Hlid.
  eapply wpx_call; [apply addrs_spec; by eapply ids_ok_subset|]. intros _ _ [-> ->].
  eapply wpx_call; [apply addrs_spec; by eapply ids_ok_subset|]. intros _ _ [-> ->].
  assert (Hnk : NoDup (addr kc <$> ids)) by (eapply NoDup_fmap_subset; [apply addr_inj_k|done..]).
  assert (Hnv : NoDup (addr vc <$> ids)) by (eapply NoDup_fmap_subset; [apply addr_inj_v|done..]).
  eapply wpx_call; [apply store_spec, (tl_load Hl); [by rewrite length_fmap|done]|].
  intros tk _ (w1 & -> & Hk1 & Hl1 & Hh1).
  eapply wpx_call; [apply store_spec, (tl_load Hl); [by rewrite length_fmap|done]|].
  intros tv _ (w2 & -> & Hk2 & Hl2 & Hh2).
  wp_steps. simpl. rewrite Ht. simpl. rewrite decide_False by done.
  eexists w2, _. split; [done|]. split.
  - constructor; [done| |done]. apply Hl2; [done|]. rewrite parts_addrs by by rewrite length_fmap.
    intros a (x & -> & Hx)%list_elem_of_fmap (y & He & Hy)%list_elem_of_fmap.
    symmetry in He. by apply addr_disjoint in He; [|apply Hsub..].
  - intros [b h] Hb Hni [He1 He2]. simpl in *. split.
    + apply Hh2; [|apply Hh1; [|done]]; simpl.
      * intros (x & He & Hx)%list_elem_of_fmap. by apply addr_disjoint in He; [|done|apply Hsub].
      * by apply addr_fresh; [apply addr_inj_k|..].
    + apply Hh2; [|apply Hh1; [|done]]; simpl.
      * by apply addr_fresh; [apply addr_inj_v|..].
      * intros (x & He & Hx)%list_elem_of_fmap. symmetry in He. by apply addr_disjoint in He; [|apply Hsub|done].
Qed.
Context (Hrepre : blk_repre win = Some repre) (Hcand : NoDup cand) (Hcand0 : cand <> []).

(** What the hooks leave alone. *)
Record decoding rs : Prop := {
  de_windows : windows rs = win;
  de_registered : registered rs = Some (kc, vc, bs, hashes);
  de_layer : layer_id rs = lid;
}.

Definition asked_groups record qs t g : Groups Q ktask :=
  MkGroups (standby_query_group g) (od_set record qs (do_retrieve_query_group g)) (step_group_retrieve_result g)
    (od_set record t (task_waiter g)).

Lemma ask_spec record cur grp qs rs w r : WorkerLaws -> decoding rs -> py_int (request_id (req_meta rs)) = Some rid ->
  get_retrieve_record c cur = record -> od_get record (standby_query_group (groups rs)) = Some grp ->
  omap id grp = qs -> qs <> [] ->
  wpx ok (retrieval_async c cur (pylen cand)) (fun _ s' => exists t r',
    s' = (with_groups (asked_groups record qs t) rs, (w, r')) /\ asked r' t qs /\ asked_still r r') (rs, (w, r)).
Proof.
  intros Hl Hd Hrid Hrec Hgrp Hqs Hne. unfold retrieval_async, req, the, on_req. rewrite Hrec.
  rewrite (proj2 (Z.eqb_neq _ _)) by by rewrite pylen_zero.
  do 2 wp_step. cbn [fst snd]. rewrite Hgrp. wp_step. wp_lift1. rewrite Hqs.
  destruct qs as [|q0 qs']; [done|]. do 8 wp_step. cbn [fst snd]. simpl req_meta. rewrite Hrid. wp_step. wp_lift1.
  simpl windows. rewrite (de_windows _ Hd), Hrepre. wp_step. wp_lift1.
  eapply wpx_call; [apply retrieve_spec, (wl_async Hl)|]. intros t _ (r' & -> & Ha & Hs). wp_steps.
  exists t, r'. split; [done|]. split; [exact Ha|exact Hs].
Qed.

Definition fetched_groups record qs g : Groups Q ktask :=
  MkGroups (od_del record (standby_query_group g)) (od_del record (do_retrieve_query_group g))
    (od_set record (chosen qs) (step_group_retrieve_result g)) (task_waiter g).

(** The retrieval of a group is out. *)
Record waiting record (qs : list Q) g (r : R) : Prop := {
  wa_result : od_get record (step_group_retrieve_result g) = None;
  wa_task : exists t, od_get record (task_waiter g) = Some t /\ asked r t qs;
  wa_standby : od_mem record (standby_query_group g) = true;
  wa_doing : od_mem record (do_retrieve_query_group g) = true;
}.

Lemma fetch_spec record qs rs w r : WorkerLaws -> decoding rs -> waiting record qs (groups rs) r ->
  wpx ok (fetch_result c record) (fun _ s' => exists r',
    s' = (with_groups (fetched_groups record qs) rs, (w, r')) /\ asked_still r r') (rs, (w, r)).
Proof.
  intros Hl Hd [Hr (t & Ht & Ha) Hs Hdo]. unfold fetch_result, req, the, on_req, layer_hashes, req.
  do 2 wp_step. cbn [fst snd]. rewrite Hr. do 3 wp_step. cbn [fst snd]. rewrite Ht. wp_lift1.
  eapply wpx_call; [apply retrieve_spec, (wl_wait Hl)|]. intros _ _ (r1 & -> & Hs1).
  eapply wpx_call; [apply retrieve_spec, (wl_result Hl); by apply Hs1|]. intros _ _ (r2 & -> & -> & Hs2).
  do 2 wp_step. cbn [fst snd]. rewrite Hs. do 4 wp_step. simpl do_retrieve_query_group. rewrite Hdo.
  do 4 wp_step. simpl registered. rewrite (de_registered _ Hd). wp_step. simpl from_option.
  eapply wpx_wp, wp_map_m; [|].
  - intros i Hi. unfold lift_res. rewrite (py_idx_nth _ _ (default EmptyString (hashes !! Z.to_nat (i + ks_init_window_sz c)))).
    + reflexivity.
    + by apply (wl_range Hl qs).
    + pose proof (wl_range Hl qs i Hi) as Hrg. unfold pylen in Hrg.
      destruct (lookup_lt_is_Some_2 hashes (Z.to_nat (i + ks_init_window_sz c))) as [x Hx]; [lia|]. by rewrite Hx.
  - wp_step. exists r2. split; [done|]. intros t' qs' Ht'. by apply Hs2, Hs1.
Qed.

Lemma load_spec record load_step qs rs w r : WorkerLaws -> TransferLaws -> decoding rs ->
  retrieve_record_of c load_step = record -> record <> "prefill"%string \/ load_step = 1 ->
  waiting record qs (groups rs) r -> blk_trans_tasks rs = [] ->
  (forall e, e ∈ layer_wise_pre_swap_area_block_hashes rs -> e.1 ∈ cand /\ resident w e) ->
  wpx ok (load_retrieve_result_async c tth load_step cand) (fun _ s' => exists tasks area w' r',
    s' = (with_tasks tasks (with_pre_swap area (with_groups (fetched_groups record qs) rs)), (w', r')) /\
    window qs w' tasks area /\ asked_still r r') (rs, (w, r)).
Proof.
  intros Hl Htl Hd Hrec Hcase Hw Ht Hpre. unfold load_retrieve_result_async, req, the, on_req. rewrite Hrec.
  eapply wpx_call; [by apply fetch_spec|]. intros _ _ (r' & -> & Hr').
  do 2 wp_step. cbn [fst snd]. simpl step_group_retrieve_result. rewrite od_get_set_eq. wp_step. wp_lift1.
  replace (negb (bool_decide (record = "prefill"%string)) || (load_step =? 1)) with true.
  2: { symmetry. destruct Hcase as [Hp| ->]; [by rewrite bool_decide_false|by rewrite orb_true_r]. }
  do 2 wp_step. simpl layer_wise_pre_swap_area_block_hashes.
  destruct (swap_area _ cand (chosen qs)) as [[area rest] missing] eqn:Hsw.
  apply swap_area_spec in Hsw as [Hpl Hh Hsub Hnd Hlen Hfrom]; [|done|].
  2: { unfold chosen. rewrite length_fmap. apply (wl_count Hl). }
  do 2 wp_step. destruct (Z.ltb_spec 0 (pylen missing)) as [Hm|Hm].
  - eapply wpx_mono; [eapply kv_launch_spec; try done; apply Hd|]. intros _ _ (w' & tasks & -> & Hf & Hk).
    exists tasks, area, w', r'. split; [done|]. split; [|done]. split; [done..|]. exists (zip rest missing).
    split; [done|]. intros e [He|[He Hn]]%Hfrom; [by left|right]. apply Hk; [by apply Hpre|done|by apply Hpre].
  - wp_steps. exists [], area, w, r'. rewrite <- Ht. split; [by destruct rs|]. split; [|done]. split; [done..|].
    exists []. split; [rewrite Ht; constructor|]. intros e [He|[He _]]%Hfrom; [|right; by apply Hpre].
    assert (missing = []) as -> by (apply pylen_zero; pose proof (pylen_nonneg missing); lia).
    destruct rest; [by apply elem_of_nil in He|done].
Qed.
(** ** The groups while the steps go by *)
Context (Hstride : 2 <= stride).
Abbreviation name := (group_name c).

(** The queries of a group. *)
Definition group_queries (k : Z) : list Q := row <$> zrange (k * stride + 1) ((k + 1) * stride + 1).
(** Those of them that are computed at step [s]. *)
Definition so_far (s k j : Z) : option Q :=
  if decide (k * stride + 1 + j <= s) then Some (row (k * stride + 1 + j)) else None.

(** The queries up to step [s] are in their groups, the full groups up to step
    [a] are asked for, and the results up to step [f] are fetched. *)
Record pipeline (s a f : Z) g (r : R) : Prop := {
  pi_standby : forall k, 0 <= k -> f < (k + 2) * stride -> holds_group c (name k) (so_far s k) g;
  pi_waiting : forall k, 0 <= k -> (k + 1) * stride <= a -> f < (k + 2) * stride ->
    waiting (name k) (group_queries k) g r;
  pi_results : forall k, 0 <= k -> f < (k + 2) * stride -> od_get (name k) (step_group_retrieve_result g) = None;
}.

Lemma pipeline_forget s a f f' g r : f <= f' -> pipeline s a f g r -> pipeline s a f' g r.
Proof. intros Hf [H1' H2' H3']. split; intros; [apply H1'|apply H2'|apply H3']; lia. Qed.

Lemma full_group s k : 0 <= k -> (k + 1) * stride <= s ->
  omap id (table stride (so_far s k)) = group_queries k.
Proof.
  intros Hk Hs. unfold table, group_queries.
  trans ((fun j => row (k * stride + 1 + j)) <$> zrange 0 stride).
  - assert (Hall : forall j, j ∈ zrange 0 stride -> so_far s k j = Some (row (k * stride + 1 + j))).
    { intros j Hj%elem_of_zrange. unfold so_far. by rewrite decide_True by lia. }
    induction (zrange 0 stride) as [|j l IH]; [done|]. simpl. rewrite Hall by by left. simpl. f_equal.
    apply IH. intros j' Hj'. apply Hall. by right.
  - apply list_eq. intros i. unfold zrange. rewrite !list_lookup_fmap.
    replace (Z.to_nat ((k + 1) * stride + 1 - (k * stride + 1))) with (Z.to_nat (stride - 0)) by lia.
    destruct (decide (i < Z.to_nat (stride - 0))%nat).
    + rewrite !lookup_seq_lt by lia. done.
    + by rewrite !lookup_seq_ge by lia.
Qed.
Lemma full_group_nonempty k : 0 <= k -> group_queries k <> [].
Proof. intros Hk. unfold group_queries. rewrite zrange_cons by lia. done. Qed.

Lemma waiting_still record qs g g' r r' record' : waiting record qs g r -> record <> record' -> asked_still r r' ->
  only_group record' g g' -> waiting record qs g' r'.
Proof.
  intros [H1' (t & H2' & H2'') H3' H4'] Hne Hs [Ho Hd Hr Hw]. split.
  - by rewrite Hr.
  - exists t. rewrite Hw. auto.
  - unfold od_mem in *. by rewrite Ho.
  - by rewrite Hd.
Qed.

(** The query of a step. *)
Lemma pipeline_save s k0 g g' r : 0 <= k0 -> k0 * stride + 1 <= s <= (k0 + 1) * stride ->
  pipeline (s - 1) (s - 1) (s - 1) g r -> only_group (name k0) g g' ->
  holds_group c (name k0) (fun i => if decide (i = s - 1 - k0 * stride) then Some (row s) else so_far (s - 1) k0 i) g' ->
  pipeline s (s - 1) (s - 1) g' r.
Proof.
  intros Hk0 Hs [Hst Hwa Hre] Ho Hg. split.
  - intros k Hk Hf. destruct (decide (k = k0)) as [->|Hne].
    + eapply holds_group_ext; [exact Hg|]. intros j Hj. unfold so_far. cbv beta.
      destruct (decide (j = s - 1 - k0 * stride)) as [->|Hnj].
      * rewrite decide_True by lia. do 2 f_equal. lia.
      * destruct (decide (k0 * stride + 1 + j <= s - 1)); [by rewrite decide_True by lia|by rewrite decide_False by lia].
    + eapply (holds_group_ext _ _ (so_far (s - 1) k)).
      * eapply holds_group_other; [exact Ho| |by apply Hst]. intros He. apply Hne. apply (group_name_inj c); try done. lia.
      * intros j Hj. unfold so_far.
        assert (k * stride + 1 + j <> s) by nia.
        destruct (decide (k * stride + 1 + j <= s - 1)); [by rewrite decide_True by lia|by rewrite decide_False by lia].
  - intros k Hk Ha Hf. eapply waiting_still; [by apply Hwa| |by intros ? ?|exact Ho].
    intros He. apply group_name_inj in He; [nia|lia..].
  - intros k Hk Hf. rewrite (og_results _ _ _ Ho). by apply Hre.
Qed.
(** Asking and fetching touch one record. *)
Lemma waiting_ask record qs g r : forall record' qs' t r', waiting record qs g r -> record <> record' -> asked_still r r' ->
  waiting record qs (asked_groups record' qs' t g) r'.
Proof.
  intros record' qs' t r' [H1' (t1 & H2' & H2'') H3' H4'] Hne Hs. split; simpl; [done| |done|].
  - exists t1. rewrite od_get_set_ne by done. auto.
  - unfold od_mem in *. by rewrite od_get_set_ne.
Qed.
Lemma waiting_fetched record qs g r record' qs' r' : waiting record qs g r -> record <> record' -> asked_still r r' ->
  waiting record qs (fetched_groups record' qs' g) r'.
Proof.
  intros [H1' (t1 & H2' & H2'') H3' H4'] Hne Hs. split; simpl.
  - by rewrite od_get_set_ne.
  - eauto.
  - unfold od_mem in *. by rewrite od_get_del_ne.
  - unfold od_mem in *. by rewrite od_get_del_ne.
Qed.
Lemma waiting_asked record qs g r t grp : od_get record (step_group_retrieve_result g) = None ->
  od_get record (standby_query_group g) = Some grp -> asked r t qs -> waiting record qs (asked_groups record qs t g) r.
Proof.
  intros Hr Hg Ha. split; simpl; [done| |by unfold od_mem; rewrite Hg|by unfold od_mem; rewrite od_get_set_eq].
  exists t. by rewrite od_get_set_eq.
Qed.

Lemma pipeline_other s a f g r r' record qs t : (forall k, name k <> record) -> asked_still r r' ->
  pipeline s a f g r -> pipeline s a f (asked_groups record qs t g) r'.
Proof.
  intros Hne Hs [Hst Hwa Hre]. split; [exact Hst| |exact Hre].
  intros k Hk Ha Hf. apply waiting_ask with (r := r); auto.
Qed.
Lemma pipeline_other_fetched s a f g r r' record qs : (forall k, name k <> record) -> asked_still r r' ->
  pipeline s a f g r -> pipeline s a f (fetched_groups record qs g) r'.
Proof.
  intros Hne Hs [Hst Hwa Hre]. split.
  - intros k Hk Hf. unfold holds_group. simpl. rewrite od_get_del_ne by done. by apply Hst.
  - intros k Hk Ha Hf. apply waiting_fetched with (r := r); auto.
  - intros k Hk Hf. simpl. rewrite od_get_set_ne by done. by apply Hre.
Qed.

Lemma pipeline_ask m g t r r' : 1 <= m -> let s := m * stride in
  pipeline s (s - 1) (s - 1) g r -> asked r' t (group_queries (m - 1)) -> asked_still r r' ->
  pipeline s s (s - 1) (asked_groups (name (m - 1)) (group_queries (m - 1)) t g) r'.
Proof.
  intros Hm s [Hst Hwa Hre] Ha Hs. split; [exact Hst| |exact Hre].
  intros k Hk Hka Hf. destruct (decide (k = m - 1)) as [->|Hne].
  - assert (Hg : holds_group c (name (m - 1)) (so_far s (m - 1)) g) by (apply Hst; [lia|subst s; nia]).
    apply (holds_group_get _ _ _ _ 0) in Hg; [|lia|unfold so_far; rewrite decide_True by (subst s; nia); eauto].
    eapply waiting_asked; [apply Hre; [lia|subst s; nia]|exact Hg|exact Ha].
  - apply waiting_ask with (r := r); [apply Hwa; [lia| |done]|..|done].
    + subst s. nia.
    + intros He. apply group_name_inj in He; lia.
Qed.
Lemma pipeline_fetch m g r r' : 2 <= m -> let s := m * stride in
  pipeline s s (s - 1) g r -> asked_still r r' ->
  pipeline s s s (fetched_groups (name (m - 2)) (group_queries (m - 2)) g) r'.
Proof.
  intros Hm s [Hst Hwa Hre] Hs.
  assert (Hne : forall k, 0 <= k -> s < (k + 2) * stride -> name k <> name (m - 2)).
  { intros k Hk Hf He. apply group_name_inj in He; [subst s k; nia|lia..]. }
  split.
  - intros k Hk Hf. unfold holds_group. simpl. rewrite od_get_del_ne by by apply Hne. apply Hst; lia.
  - intros k Hk Ha Hf. apply waiting_fetched with (r := r); [apply Hwa; lia|by apply Hne|done].
  - intros k Hk Hf. simpl. rewrite od_get_set_ne by by apply Hne. apply Hre; lia.
Qed.
Lemma pipeline_no_ask s g r : s mod stride <> 0 -> pipeline s (s - 1) (s - 1) g r -> pipeline s s (s - 1) g r.
Proof.
  intros Hm [Hst Hwa Hre]. split; [exact Hst| |exact Hre]. intros k Hk Ha Hf. apply Hwa; [done| |done].
  destruct (decide (s = (k + 1) * stride)) as [->|]; [|lia]. by rewrite Z.mod_mul in Hm by lia.
Qed.
(** ** The hooks of a step *)
Context (places : Z) (Hplaces : ceil_of_float (float_mul (float_of_Z (pylen repre)) (ks_sparse_ratio c)) = Ok places).

(** The window saved at the end of the prompt fits the block table. *)
Record window_fits (t : T) (ids : list Z) (init_vals : list D) (local_vals : option (list D)) : Prop := {
  wf_init : ids_ok (hd 0 (t_shape t)) (slice_to ids (ks_init_window_sz c));
  wf_init_len : length init_vals = length (slice_to ids (ks_init_window_sz c));
  wf_local : forall l, local_vals = Some l -> ids_ok (hd 0 (t_shape t)) (slice_from ids (- ks_local_window_sz c)) /\
    length l = length (slice_from ids (- ks_local_window_sz c));
}.
Definition windows_fit (ids : list Z) : Prop :=
  exists i, init_window win = Some i /\ window_fits kc ids i.1 (fst <$> local_window win) /\
    window_fits vc ids i.2 (snd <$> local_window win).

Record decode_of (s : Z) (m : ReqMeta) (query : list Q) : Prop := {
  do_step : num_output_tokens m = s;
  do_id : py_int (request_id m) = Some rid;
  do_query_len : query_len m = 1;
  do_row : py_idx query (query_start_loc m) = Ok (row s);
  do_places : slice (vllm_block_ids m) (ks_init_window_sz c) (places + ks_init_window_sz c) = cand;
  do_fits : s = 1 -> windows_fit (vllm_block_ids m);
}.

Lemma places_spec s rs (o : W * R) m query : decoding rs -> decode_of s m query -> req_meta rs = m ->
  wpx ok (get_retrieve_candidate_block_ids c) (fun a s' => a = cand /\ s' = (rs, o)) (rs, o).
Proof.
  intros Hd Hm He. unfold get_retrieve_candidate_block_ids, req, the. do 4 wp_step. cbn [fst].
  rewrite (de_windows _ Hd), Hrepre, He. wp_step. wp_lift1. wp_step. rewrite Hplaces. wp_lift1. wp_steps.
  by rewrite (do_places _ _ _ Hm).
Qed.

Lemma write_spec (t : T) ids vals rs w r : ids_ok (hd 0 (t_shape t)) ids -> length vals = length ids ->
  wpx ok (store_call (write_blocks t ids vals)) (fun _ s' => exists w', s' = (rs, (w', r))) (rs, (w, r)).
Proof.
  intros Hi Hl. eapply wpx_mono; [apply (store_spec _ (fun _ _ => True))|].
  - apply wpx_wp. by eapply wp_intro; [by apply write_blocks_run|].
  - intros a s' (w' & -> & _). by exists w'.
Qed.

Lemma prepare_spec rs w r : decoding rs -> windows_fit (vllm_block_ids (req_meta rs)) ->
  wpx ok (prepare_init_and_local_window c) (fun _ s' => exists w', s' = (rs, (w', r))) (rs, (w, r)).
Proof.
  intros Hd (i & Hi & [Hki Hkl Hkw] & [Hvi Hvl Hvw]).
  unfold prepare_init_and_local_window, Kvstar.k_cache, Kvstar.v_cache, req, the.
  do 7 wp_step. cbn [fst]. rewrite (de_registered _ Hd). wp_lift1. do 3 wp_step. cbn [fst].
  rewrite (de_registered _ Hd). wp_lift1. wp_step. cbn [fst]. rewrite (de_windows _ Hd), Hi. wp_lift1.
  eapply wpx_call; [by apply write_spec|]. intros _ _ (w1 & ->).
  eapply wpx_call; [by apply write_spec|]. intros _ _ (w2 & ->).
  destruct (local_window win) as [[lk lv]|]; [|wp_steps; by exists w2].
  destruct (Hkw lk eq_refl) as [Hk1 Hk2], (Hvw lv eq_refl) as [Hv1 Hv2].
  eapply wpx_call; [by apply write_spec|]. intros _ _ (w3 & ->). by apply write_spec.
Qed.

(** The queries of the group whose choice is in the window at step [s]. *)
Definition queries_at (s : Z) : list Q :=
  if decide (s <= stride * 2) then prompt_queries else group_queries ((s - 1) / stride - 2).

(** Between the steps [s] and [s + 1]. *)
Record at_rest (s : Z) rs (w : W) (r : R) : Prop := {
  ar_decoding : decoding rs;
  ar_pipeline : pipeline s s s (groups rs) r;
  ar_tasks : s mod stride <> 0 -> blk_trans_tasks rs = [];
  ar_first : s = 0 -> blk_trans_tasks rs = [] /\ layer_wise_pre_swap_area_block_hashes rs = [] /\
    od_get "prefill" (step_group_retrieve_result (groups rs)) = None /\
    exists grp, od_get "prefill" (standby_query_group (groups rs)) = Some grp /\ omap id grp = prompt_queries /\
      prompt_queries <> [];
  ar_window : 1 <= s -> window (queries_at (s + 1)) w (blk_trans_tasks rs) (layer_wise_pre_swap_area_block_hashes rs);
}.

(** At the attention of step [s]. *)
Record attending (s : Z) rs (w : W) (r : R) : Prop := {
  at_decoding : decoding rs;
  at_pipeline : pipeline s s (s - 1) (groups rs) r;
  at_tasks : blk_trans_tasks rs = [];
  at_places : (layer_wise_pre_swap_area_block_hashes rs).*1 ≡ₚ cand;
  at_hashes : (layer_wise_pre_swap_area_block_hashes rs).*2 ≡ₚ chosen (queries_at s);
  at_resident : forall e, e ∈ layer_wise_pre_swap_area_block_hashes rs -> resident w e;
}.
Lemma at_phase_spec n mt (Post : unit -> LS -> Prop) rs o : req_meta rs = mt ->
  (num_output_tokens mt mod stride = n -> forall m, wpx ok m Post (rs, o) -> wpx ok (at_phase c n m) Post (rs, o)) /\
  (num_output_tokens mt mod stride <> n -> forall m, Post tt (rs, o) -> wpx ok (at_phase c n m) Post (rs, o)).
Proof.
  intros He. split; intros Hn m Hm; unfold at_phase, req; do 2 wp_step; cbn [fst]; rewrite He; unfold step;
    rewrite (proj2 (Z.eqb_neq _ _)) by lia.
  - by rewrite (proj2 (Z.eqb_eq _ _)).
  - rewrite (proj2 (Z.eqb_neq _ _)) by done. by wp_step.
Qed.

Lemma ask_phase s rs w r m query : WorkerLaws -> 1 <= s -> decoding rs -> req_meta rs = m -> decode_of s m query ->
  pipeline s (s - 1) (s - 1) (groups rs) r ->
  wpx ok (at_phase c 0 (let! candidates := get_retrieve_candidate_block_ids c in
                        retrieval_async c (step m + 1) (pylen candidates)))
    (fun _ s' => exists g' r', s' = (with_groups (fun _ => g') rs, (w, r')) /\ pipeline s s (s - 1) g' r' /\
       (s mod stride <> 0 -> g' = groups rs)) (rs, (w, r)).
Proof.
  intros Hl Hs Hd He Hm Hp. pose proof (do_step _ _ _ Hm) as Hs'.
  pose proof (at_phase_spec 0 m) as Hph. destruct (decide (s mod stride = 0)) as [Hz|Hz].
  - apply (proj1 (Hph _ _ _ He)); [congruence|]. subst s. eapply wpx_call; [by eapply places_spec|]. intros _ _ [-> ->].
    assert (Hq : num_output_tokens m = num_output_tokens m / stride * stride)
      by (rewrite Z.mul_comm; apply Z.div_exact; lia).
    set (q := num_output_tokens m / stride) in *. assert (1 <= q) by nia.
    assert (Hg : holds_group c (name (q - 1)) (so_far (num_output_tokens m) (q - 1)) (groups rs)) by (apply Hp; nia).
    apply (holds_group_get _ _ _ _ 0) in Hg; [|lia|unfold so_far; rewrite decide_True by nia; eauto].
    eapply wpx_mono; [eapply ask_spec; [done|done|by rewrite He; apply Hm| |exact Hg|apply full_group; nia|apply full_group_nonempty; lia]|].
    { unfold step. rewrite Hq. apply ask_record; lia. }
    intros _ _ (t & r' & -> & Ha & Hst). eexists _, r'. split; [done|]. split; [|done].
    rewrite Hq. apply pipeline_ask with (r := r); [lia|by rewrite <- Hq|done..].
  - apply (proj2 (Hph _ _ _ He)); [congruence|]. exists (groups rs), r. split; [by destruct rs|]. split; [|done].
    by apply pipeline_no_ask.
Qed.

Lemma wait_phase qs rs w r m : TransferLaws -> req_meta rs = m ->
  window qs w (blk_trans_tasks rs) (layer_wise_pre_swap_area_block_hashes rs) ->
  (num_output_tokens m mod stride <> 1 -> blk_trans_tasks rs = []) ->
  wpx ok (at_phase c 1 wait_for_blk_transfer_task_done) (fun _ s' => exists w', s' = (with_tasks [] rs, (w', r)) /\
    forall e, e ∈ layer_wise_pre_swap_area_block_hashes rs -> resident w' e) (rs, (w, r)).
Proof.
  intros Htl He [Hpl Hh (l & Hf & Hb)] Ht. pose proof (at_phase_spec 1 m) as Hph.
  destruct (decide (num_output_tokens m mod stride = 1)) as [Hz|Hz];
    [apply (proj1 (Hph _ _ _ He)); [done|]|apply (proj2 (Hph _ _ _ He)); [done|]].
  - eapply wpx_mono; [by apply wait_spec|]. intros _ _ (w' & -> & H1' & H2'). exists w'. split; [done|].
    intros e [He1|He1]%Hb; auto.
  - exists w. rewrite <- (Ht Hz). split; [by destruct rs|]. rewrite (Ht Hz) in Hf. inversion Hf; subst l.
    intros e [He1%elem_of_nil|He1]%Hb; done.
Qed.

(** The hook of the first step. *)
Lemma first_phase rs w r m query grp : WorkerLaws -> TransferLaws -> decoding rs -> req_meta rs = m ->
  decode_of 1 m query -> pipeline 1 1 0 (groups rs) r -> blk_trans_tasks rs = [] ->
  layer_wise_pre_swap_area_block_hashes rs = [] -> od_get "prefill" (step_group_retrieve_result (groups rs)) = None ->
  od_get "prefill" (standby_query_group (groups rs)) = Some grp -> omap id grp = prompt_queries -> prompt_queries <> [] ->
  wpx ok (do! prepare_init_and_local_window c in
          let! candidates := get_retrieve_candidate_block_ids c in
          do! wait_for_blk_transfer_task_done in
          do! retrieval_async c 1 (pylen candidates) in
          load_retrieve_result_async c tth 1 candidates)
    (fun _ s' => exists rs' w' r', s' = (rs', (w', r')) /\ decoding rs' /\ req_meta rs' = m /\
       pipeline 1 1 0 (groups rs') r' /\
       window prompt_queries w' (blk_trans_tasks rs') (layer_wise_pre_swap_area_block_hashes rs')) (rs, (w, r)).
Proof.
  intros Hl Htl Hd He Hm Hp Ht Ha Hr Hg Hq Hne.
  eapply wpx_call; [apply prepare_spec; [done|rewrite He; by apply (do_fits _ _ _ Hm)]|]. intros _ _ (w1 & ->).
  eapply wpx_call; [by eapply places_spec|]. intros _ _ [-> ->].
  eapply wpx_call; [apply (wait_spec _ _ _ []); [done|rewrite Ht; constructor]|]. intros _ _ (w2 & -> & _ & _).
  eapply wpx_call; [eapply (ask_spec "prefill"); [done|by destruct Hd|simpl; rewrite He; apply Hm|done|exact Hg|exact Hq|done]|].
  intros _ _ (t & r1 & -> & Hask & Hst).
  eapply wpx_mono; [apply (load_spec "prefill" 1 prompt_queries)|].
  - done.
  - done.
  - by destruct Hd.
  - unfold retrieve_record_of. by rewrite (proj2 (Z.leb_le _ _)) by lia.
  - by right.
  - by eapply waiting_asked.
  - done.
  - simpl. rewrite Ha. by intros ? ?%elem_of_nil.
  - intros _ _ (tasks & area & w3 & r2 & -> & Hw & Hst2). eexists _, w3, r2. split; [done|].
    split; [by destruct Hd|]. split; [done|]. split; [|done]. simpl.
    apply pipeline_other_fetched with (r := r1); [done..|]. by apply pipeline_other with (r := r).
Qed.
Lemma resident_window qs w area : area.*1 ≡ₚ cand -> area.*2 ≡ₚ chosen qs -> (forall e, e ∈ area -> resident w e) ->
  window qs w [] area.
Proof. intros Hp Hh Hr. split; [done..|]. exists []. split; [constructor|auto]. Qed.

Lemma kv_begin_spec s rs w r m query : WorkerLaws -> TransferLaws -> 1 <= s -> decode_of s m query ->
  at_rest (s - 1) rs w r ->
  wpx ok (layer_attention_begin c tth query) (fun _ s' => exists rs' w' r', s' = (rs', (w', r')) /\
    req_meta rs' = m /\ attending s rs' w' r') (update_meta m rs, (w, r)).
Proof.
  intros Hl Htl Hs Hm [Hd Hp Ht Hfirst Hwin]. pose proof (do_step _ _ _ Hm) as Hsm.
  unfold layer_attention_begin, req. do 2 wp_step. cbn [fst]. unfold stage at 1. simpl req_meta. rewrite Hsm.
  rewrite (proj2 (Z.ltb_lt _ _)) by lia. do 2 wp_step. cbn [fst]. simpl windows. rewrite (de_windows _ Hd), Hrepre.
  apply wpx_bind, wpx_wp, wp_assert; [by rewrite (do_query_len _ _ _ Hm)|].
  set (k0 := (s - 1) / stride). assert (Hk0 : k0 * stride <= s - 1 < (k0 + 1) * stride).
  { pose proof (Z.div_mod (s - 1) stride ltac:(lia)). pose proof (Z.mod_pos_bound (s - 1) stride ltac:(lia)).
    subst k0. lia. }
  assert (0 <= k0) by (apply Z.div_pos; lia).
  wp_step. unfold step at 1. rewrite Hsm, (step_record c k0) by lia. wp_lift1.
  eapply wpx_call.
  { apply wpx_wp, save_spec with (f := so_far (s - 1) k0); [apply Hm|lia|]. simpl. apply Hp; nia. }
  intros _ _ (g1 & -> & Hon & Hg1). pose proof (pipeline_save s k0 _ g1 r ltac:(done) ltac:(lia) Hp Hon Hg1) as Hp1.
  set (rs1 := with_groups (fun _ => g1) (update_meta m rs)). assert (Hd1 : decoding rs1) by by destruct Hd.
  eapply wpx_call; [by eapply (ask_phase s rs1 w r m query)|]. intros _ _ (g2 & r2 & -> & Hp2 & Hsame).
  set (rs2 := with_groups (fun _ => g2) rs1). assert (Hd2 : decoding rs2) by by destruct Hd.
  eapply (wpx_call _ _ _ (fun _ s' => exists rs3 w3 r3, s' = (rs3, (w3, r3)) /\ decoding rs3 /\ req_meta rs3 = m /\
    pipeline s s (s - 1) (groups rs3) r3 /\ (s mod stride <> 1 -> blk_trans_tasks rs3 = []) /\
    window (queries_at s) w3 (blk_trans_tasks rs3) (layer_wise_pre_swap_area_block_hashes rs3))).
  - unfold step. rewrite Hsm. destruct (Z.eqb_spec s 1) as [->|Hs1].
    + destruct (Hfirst eq_refl) as (Ht0 & Ha0 & Hr0 & grp & Hg0 & Hq0 & Hne0).
      assert (Hg2 : g2 = g1) by (apply Hsame; rewrite Z.mod_1_l; lia).
      eapply wpx_mono; [eapply (first_phase rs2 w r2 m query grp); try done|].
      * simpl. by rewrite Hg2, (og_results _ _ _ Hon).
      * simpl. rewrite Hg2, (og_other _ _ _ Hon); [done|]. intros He. by symmetry in He.
      * intros _ _ (rs3 & w3 & r3 & -> & Hd3 & Hm3 & Hp3 & Hw3). exists rs3, w3, r3. do 4 (split; [done|]).
        split; [by rewrite Z.mod_1_l by lia|]. unfold queries_at. by rewrite decide_True by lia.
    + wp_step. exists rs2, w, r2. do 4 (split; [done|]). simpl. split.
      * intros Hz. apply Ht. intros Hz'. apply Hz. replace s with (1 + (s - 1)) by lia.
        rewrite <- Z.add_mod_idemp_r, Hz' by lia. apply Z.mod_1_l. lia.
      * replace s with (s - 1 + 1) by lia. apply Hwin. lia.
  - intros _ _ (rs3 & w3 & r3 & -> & Hd3 & Hm3 & Hp3 & Ht3 & Hw3).
    eapply wpx_mono; [eapply wait_phase; [done|exact Hm3|exact Hw3|by rewrite Hsm]|].
    intros _ _ (w4 & -> & Hres). eexists _, w4, r3. split; [done|]. split; [done|].
    split; simpl; [by destruct Hd3|done..|apply Hw3|apply Hw3|done].
Qed.

Lemma kv_finished_spec s rs w r m query fc : WorkerLaws -> TransferLaws -> 1 <= s -> decode_of s m query ->
  req_meta rs = m -> attending s rs w r ->
  wpx ok (layer_attention_finished c tth prune_index mean_keys fc)
    (fun _ s' => exists rs' w' r', s' = (rs', (w', r')) /\ at_rest s rs' w' r') (rs, (w, r)).
Proof.
  intros Hl Htl Hs Hm He [Hd Hp Ht Hpl Hh Hres]. pose proof (do_step _ _ _ Hm) as Hsm.
  assert (Hskip : (s mod stride = 0 -> s < stride * 2) -> at_rest s rs w r).
  { intros Hlt. split; [done|by apply (pipeline_forget _ _ (s - 1)); [lia|]|done|lia|].
    intros _. rewrite Ht. apply resident_window; [done| |done].
    enough (queries_at (s + 1) = queries_at s) as -> by done. unfold queries_at.
    destruct (decide (s mod stride = 0)) as [Hz|Hz]; [specialize (Hlt Hz); by rewrite !decide_True by lia|].
    pose proof (Z.div_mod s stride ltac:(lia)). pose proof (Z.mod_pos_bound s stride ltac:(lia)).
    assert ((s - 1) / stride = s / stride).
    { symmetry. apply (Z.div_unique _ _ _ (s mod stride - 1)); lia. }
    replace (s + 1 - 1) with s by lia. destruct (decide (s <= stride * 2)).
    - rewrite decide_True; [done|]. assert (s <> stride * 2); [|lia]. intros ->. by rewrite Z.mul_comm, Z.mod_mul in Hz by lia.
    - rewrite decide_False by lia. by do 2 f_equal. }
  unfold layer_attention_finished, req. do 2 wp_step. cbn [fst]. unfold stage. rewrite He, Hsm.
  rewrite (proj2 (Z.ltb_lt _ _)) by lia. unfold step. rewrite Hsm.
  destruct (Z.leb_spec (stride * 2) s) as [Hge|Hlt]; [|wp_step; eexists _, _, _; split; [done|]; by apply Hskip].
  pose proof (at_phase_spec 0 m) as Hph. destruct (decide (s mod stride = 0)) as [Hz|Hz].
  2: { apply (proj2 (Hph _ _ _ He)); [congruence|]. eexists _, _, _. split; [done|]. by apply Hskip. }
  apply (proj1 (Hph _ _ _ He)); [congruence|]. eapply wpx_call; [by eapply places_spec|]. intros _ _ [-> ->].
  assert (Hq : s = s / stride * stride) by (rewrite Z.mul_comm; apply Z.div_exact; lia).
  set (q := s / stride) in *. assert (2 <= q) by nia.
  eapply wpx_mono; [apply (load_spec (name (q - 2)) _ (group_queries (q - 2))); try done|].
  - rewrite Hq. apply load_record; lia.
  - left. apply group_name_prefill.
  - apply Hp; nia.
  - intros e Hin. split; [|by apply Hres]. rewrite <- Hpl. by apply list_elem_of_fmap_2.
  - intros _ _ (tasks & area & w' & r' & -> & Hw & Hst). eexists _, w', r'. split; [done|].
    split; [by destruct Hd| |done|lia|].
    + simpl. rewrite Hq. apply pipeline_fetch with (r := r); [lia|by rewrite <- Hq|done].
    + intros _. simpl. unfold queries_at. rewrite decide_False by lia.
      replace ((s + 1 - 1) / stride) with q by (subst q; f_equal; lia). done.
Qed.
(** ** The run *)

(** When the prompt is complete: its last queries wait in their group. *)
Record prefilled rs : Prop := {
  pf_decoding : decoding rs;
  pf_group : exists grp, standby_query_group (groups rs) = [("prefill"%string, grp)] /\ omap id grp = prompt_queries;
  pf_queries : prompt_queries <> [];
  pf_results : step_group_retrieve_result (groups rs) = [];
  pf_tasks : blk_trans_tasks rs = [];
  pf_area : layer_wise_pre_swap_area_block_hashes rs = [];
}.

Lemma prefilled_at_rest rs w r : prefilled rs -> at_rest 0 rs w r.
Proof.
  intros [Hd (grp & Hg & Hq) Hne Hr Ht Ha]. split; [done| |done| |lia].
  - split.
    + intros k Hk _. unfold holds_group. rewrite Hg. simpl.
      intros j Hj. unfold so_far. by rewrite decide_False by nia.
    + intros k Hk Hlt. nia.
    + intros k Hk _. by rewrite Hr.
  - intros _. split; [done|]. split; [done|]. rewrite Hr, Hg. split; [done|]. by exists grp.
Qed.

(** What the other layers and requests may do to the workers and the store. *)
Record others (w w' : W) (r r' : R) : Prop := {
  ot_asked : asked_still r r';
  ot_loading : forall t l, loading w t l -> loading w' t l;
  ot_holds : forall a h o, holds w a h o -> holds w' a h o;
}.

Lemma others_resident w w' r r' e : others w w' r r' -> resident w e -> resident w' e.
Proof. intros [_ _ Hh] [He1 He2]. split; auto. Qed.
Lemma at_rest_others s rs w r w' r' : others w w' r r' -> at_rest s rs w r -> at_rest s rs w' r'.
Proof.
  intros Ho [Hd [Hst Hwa Hre] Ht Hf Hw]. split; [done| |done|done|].
  - split; [done| |done]. intros k Hk Ha Hlt. destruct (Hwa k Hk Ha Hlt) as [H1' (t & H2' & H2'') H3' H4'].
    split; [done| |done|done]. exists t. split; [done|]. by apply (ot_asked _ _ _ _ Ho).
  - intros Hs. destruct (Hw Hs) as [Hp Hh (l & Hfl & Hb)]. split; [done..|]. exists l. split.
    + destruct Hfl; constructor; try done; by apply (ot_loading _ _ _ _ Ho).
    + intros e [He|He]%Hb; [by left|right]. by eapply others_resident.
Qed.

Inductive decode_run : Z -> RS -> W -> R -> Prop :=
| run_prefilled rs w r : prefilled rs -> decode_run 0 rs w r
| run_step s rs w r m query fc s1 rs' w' r' :
    decode_run s rs w r -> decode_of (s + 1) m query ->
    layer_attention_begin c tth query (update_meta m rs, (w, r)) = (Ok tt, s1) ->
    layer_attention_finished c tth prune_index mean_keys fc s1 = (Ok tt, (rs', (w', r'))) ->
    decode_run (s + 1) rs' w' r'
| run_others s rs w r w' r' : decode_run s rs w r -> others w w' r r' -> decode_run s rs w' r'.

Lemma decode_run_at_rest s rs w r : WorkerLaws -> TransferLaws -> decode_run s rs w r -> 0 <= s /\ at_rest s rs w r.
Proof.
  intros Hl Htl. induction 1 as [rs w r Hp|s rs w r m query fc s1 rs' w' r' _ [Hs IH] Hm Hb Hf|s rs w r w' r' _ [Hs IH] Ho].
  - split; [done|]. by apply prefilled_at_rest.
  - split; [lia|]. assert (IH' : at_rest (s + 1 - 1) rs w r) by by replace (s + 1 - 1) with s by lia.
    pose proof (kv_begin_spec (s + 1) rs w r m query Hl Htl ltac:(lia) Hm IH') as Hbs.
    apply (wpx_run _ _ _ _ _ _ Hb) in Hbs as (rs1 & w1 & r1 & -> & He & Hat).
    pose proof (kv_finished_spec (s + 1) rs1 w1 r1 m query fc Hl Htl ltac:(lia) Hm He Hat) as Hfs.
    by apply (wpx_run _ _ _ _ _ _ Hf) in Hfs as (rs2 & w2 & r2 & [= -> -> ->] & Har).
  - split; [done|]. by eapply at_rest_others.
Qed.

(** C5. While a request decodes, its hooks fail only if a worker or the store
    fails.  At every step's attention no transfer is in flight, and the window
    holds, in the places between the first and the last blocks, the blocks the
    worker chose for a full group of queries - those of the prompt's last tokens
    until the second stride is over, then those of the stride before the last
    one - each in both caches. *)
Theorem retrieved_blocks_reach_their_window s rs w r m query : WorkerLaws -> TransferLaws ->
  decode_run s rs w r -> decode_of (s + 1) m query ->
  match layer_attention_begin c tth query (update_meta m rs, (w, r)) with
  | (Err e, _) => ok e = true
  | (Ok _, (rs', (w', r'))) =>
      blk_trans_tasks rs' = [] /\
      (layer_wise_pre_swap_area_block_hashes rs').*1 ≡ₚ cand /\
      (layer_wise_pre_swap_area_block_hashes rs').*2 ≡ₚ chosen (queries_at (s + 1)) /\
      (forall e, e ∈ layer_wise_pre_swap_area_block_hashes rs' -> resident w' e) /\
      forall fc, match layer_attention_finished c tth prune_index mean_keys fc (rs', (w', r')) with
                 | (Err e, _) => ok e = true
                 | (Ok _, _) => True
                 end
  end.
Proof.
  intros Hl Htl Hrun Hm. destruct (decode_run_at_rest _ _ _ _ Hl Htl Hrun) as [Hs Har].
  assert (Har' : at_rest (s + 1 - 1) rs w r) by by replace (s + 1 - 1) with s by lia.
  pose proof (kv_begin_spec (s + 1) rs w r m query Hl Htl ltac:(lia) Hm Har') as Hbs. unfold wpx in Hbs.
  destruct (layer_attention_begin _ _ _ _) as [[u|e] s1]; [|done]. destruct Hbs as (rs1 & w1 & r1 & -> & He & Hat).
  pose proof Hat as [Hd Hp Ht Hpl Hh Hres]. do 4 (split; [done|]). intros fc.
  pose proof (kv_finished_spec (s + 1) rs1 w1 r1 m query fc Hl Htl ltac:(lia) Hm He Hat) as Hfs. unfold wpx in Hfs.
  by destruct (layer_attention_finished _ _ _ _ _ _) as [[u'|e] s2].
Qed.
End decode.
