(* ===== verification/KvstarSlots.v ===== *)
(** * KVStar: block tables and prompts at the boundaries

    What the scheduler's side keeps of a request's block table when decoding
    begins, and what happens to prompts of one or two blocks. *)

From Stdlib Require Import Ascii String.
From S2P Require Import Prelude.
From S2P Require Import Wp.
From S2P Require Import PyStr.
From S2P Require Import StoreApi.
From S2P Require Import StoreBase.
From S2P Require Import Layout.
From S2P Require Import DeviceMem.
From S2P Require Import GsaSparse.
From S2P Require Import Kvstar.
From S2P Require Import KvstarRuns.
From stdpp Require Import strings.
Local Open Scope Z_scope.
Local Open Scope py_scope.

(** ** Slots *)
Section slots.
Context {K : Type} (ops : SlotOps K).
Implicit Types (c : KvstarConfig) (r : KvstarRequest) (s : SlotState K).

(** The blocks of a full prompt that leave the device. *)
Definition compressed c r (saved : Z) : Z :=
  let full := kr_num_prompt_tokens r / ks_block_size c in
  full - saved - Z.min (ks_init_window_sz c + ks_local_window_sz c) full.

Definition saved_blocks c r : res Z :=
  let full := kr_num_prompt_tokens r / ks_block_size c in
  ceil_of_float (float_mul (float_of_Z (full - Z.min (ks_init_window_sz c + ks_local_window_sz c) full)) (ks_sparse_ratio c)).

Lemma estimate_spec c r saved : 0 < ks_block_size c -> kr_num_output_tokens r <> 0 -> saved_blocks c r = Ok saved ->
  Kvstar.estimate_num_slots_sparsed c r = Ok (kr_num_tokens r - compressed c r saved * ks_block_size c).
Proof.
  intros Hbs Ho Hs. unfold Kvstar.estimate_num_slots_sparsed, compressed, saved_blocks in *.
  rewrite (proj2 (Z.eqb_neq _ _)) by done. rewrite Hs. simpl. f_equal.
  set (bs := ks_block_size c) in *. set (n := kr_num_tokens r). set (x := _ - saved - _).
  pose proof (Z.div_mod n bs ltac:(lia)) as Hd. pose proof (Z.mod_pos_bound n bs Hbs) as Hm.
  destruct (Z.eqb_spec (n mod bs) 0) as [Hz|Hz].
  - rewrite (cdiv_unique n bs (n / bs)) by nia. nia.
  - rewrite (cdiv_unique n bs (n / bs + 1)) by nia. nia.
Qed.

(** No block of the table is a cached one any more. *)
Definition evicted (l : list Z) s : SlotState K :=
  MkSlots (sl_table s) (sl_ref_cnt s) (foldl (fun k b => maybe_evict_cached_block ops b k) (sl_rest s) l).

Lemma kv_sort_ok original need l kept returned i s :
  for_acc (enumerate_from i l) (kept, returned) (kv_sort_block ops original need) s =
    (Ok (kept ++ drop (Z.to_nat (original - need - i)) l, returned ++ take (Z.to_nat (original - need - i)) l), evicted l s).
Proof.
  revert i kept returned s. induction l as [|b l IH]; intros i kept returned s.
  - rewrite enumerate_from_nil, drop_nil, take_nil, !app_nil_r. by destruct s.
  - rewrite enumerate_from_cons. simpl. unfold kv_sort_block at 1, bind at 1, modify at 1. unfold bind at 1, ret at 1.
    destruct (Z.leb_spec (original - need) i) as [Hle|Hlt]; rewrite IH; unfold evicted; simpl.
    + replace (Z.to_nat (original - need - i)) with 0%nat by lia.
      replace (Z.to_nat (original - need - (i + 1))) with 0%nat by lia. simpl. by rewrite <- app_assoc, !drop_0.
    + replace (Z.to_nat (original - need - i)) with (S (Z.to_nat (original - need - (i + 1)))) by lia. simpl.
      by rewrite <- app_assoc.
Qed.

(** A state of a request whose blocks [l] were cut to [drop k l]. *)
Definition cut (id : string) (k : nat) (l : list Z) s : SlotState K :=
  let f := free_blocks ops (take k l) (evicted l s) in
  MkSlots (<[id := drop k l]> (sl_table f)) (sl_ref_cnt f) (sl_rest f).

Lemma allocate_spec c r slots l s : sl_table s !! kr_id r = Some l ->
  let s1 := cut (kr_id r) (Z.to_nat (pylen l - cdiv slots (ks_block_size c))) l s in
  kv_allocate_slots ops c r slots s =
    if sl_num_free_blocks ops s1 <? blocks_to_allocate ops (kr_id r) slots s1 then (Ok None, s1)
    else let s2 := sl_allocate_new_blocks ops (kr_id r) slots s1 in
         (Ok (Some (default [] (sl_table s2 !! kr_id r))), s2).
Proof.
  intros Hl s1. unfold kv_allocate_slots, bind at 1, gets at 1. rewrite Hl. simpl default.
  rewrite (bind_ok _ _ _ _ _ (kv_sort_ok _ _ l [] [] 0 s)). simpl app. rewrite Z.sub_0_r.
  unfold bind, modify, gets, ret. cbv beta iota. fold (cut (kr_id r) (Z.to_nat (pylen l - cdiv slots (ks_block_size c))) l s).
  fold s1. by destruct (_ <? _).
Qed.

(** C38. When a request begins to decode, [allocate_slots] frees blocks at the
    front of its table and keeps the last ones, as many as the estimated slots
    take.  If the prompt does not end with a full block these are the prompt's
    blocks but the compressed ones, and the new token's slot follows the
    prompt's last token in the last of them.  If the prompt ends with a full
    block one more block of the prompt is kept, so that the new token's slot is
    the first slot of the prompt's last block. *)
Theorem first_decode_step_keeps_the_tail c r saved l s : 0 < ks_block_size c -> kr_num_output_tokens r = 1 ->
  kr_num_tokens r = kr_num_prompt_tokens r + 1 -> saved_blocks c r = Ok saved -> 0 < compressed c r saved ->
  sl_table s !! kr_id r = Some l -> pylen l = cdiv (kr_num_prompt_tokens r) (ks_block_size c) -> compressed c r saved < pylen l ->
  let full_end := bool_decide (kr_num_prompt_tokens r mod ks_block_size c = 0) in
  exists slots k, Kvstar.estimate_num_slots_sparsed c r = Ok slots /\
    k = Z.to_nat (if full_end then compressed c r saved - 1 else compressed c r saved) /\
    (let s1 := cut (kr_id r) k l s in
     kv_allocate_slots ops c r slots s =
       if sl_num_free_blocks ops s1 <? blocks_to_allocate ops (kr_id r) slots s1 then (Ok None, s1)
       else let s2 := sl_allocate_new_blocks ops (kr_id r) slots s1 in
            (Ok (Some (default [] (sl_table s2 !! kr_id r))), s2)) /\
    (slots - 1) / ks_block_size c = pylen (drop k l) - 1 /\
    (slots - 1) mod ks_block_size c = kr_num_prompt_tokens r mod ks_block_size c.
Proof.
  intros Hbs Ho Hn Hs Hc Hl Hlen Hlt full_end.
  pose proof (estimate_spec c r saved Hbs ltac:(lia) Hs) as He. rewrite Hn in He.
  set (bs := ks_block_size c) in *. set (p := kr_num_prompt_tokens r) in *. set (x := compressed c r saved) in *.
  pose proof (Z.div_mod p bs ltac:(lia)) as Hd. pose proof (Z.mod_pos_bound p bs Hbs) as Hm.
  set (q := p / bs) in *. set (f := p mod bs) in *.
  assert (Hq : pylen l = if full_end then q else q + 1).
  { unfold full_end. destruct (bool_decide_reflect (f = 0)); rewrite Hlen; apply cdiv_unique; nia. }
  assert (Hneed : cdiv (p + 1 - x * bs) bs = q + 1 - x) by (apply cdiv_unique; nia).
  exists (p + 1 - x * bs), (Z.to_nat (if full_end then x - 1 else x)). split; [done|]. split; [done|]. split; [|split].
  - rewrite (allocate_spec _ _ _ l) by done. fold bs. rewrite Hneed.
    replace (Z.to_nat (pylen l - (q + 1 - x))) with (Z.to_nat (if full_end then x - 1 else x)); [done|].
    rewrite Hq. destruct full_end; f_equal; lia.
  - assert (Hk : pylen (drop (Z.to_nat (if full_end then x - 1 else x)) l) = q + 1 - x).
    { unfold pylen. rewrite length_drop. unfold pylen in Hq, Hlt. destruct full_end; lia. }
    rewrite Hk. replace (p + 1 - x * bs - 1) with (f + (q - x) * bs) by nia.
    rewrite Z.div_add, Z.div_small by lia. lia.
  - replace (p + 1 - x * bs - 1) with (f + (q - x) * bs) by nia. rewrite Z.mod_add by lia. by apply Z.mod_small.
Qed.
End slots.

(** ** Prompts of one or two full blocks *)
Section short.
Context {T W D R Q F P : Type} `{TensorOps T} `{UcmKVStoreBase W} `{KvMem W D} `{KvRetrieve R Q F P}.
Context (c : KvstarConfig) (tth : list string -> string -> string -> Z).
Context (prune_index : list D -> P) (mean_keys : option P -> list D -> list F).
Context (Hmean : forall p ds, length (mean_keys p ds) = length ds).
Abbreviation RS := (ReqPerLayerState T D Q F P ktask kv_task).
Abbreviation LS := (RS * (W * R))%type.
Abbreviation any := (fun _ : exn => true).
Implicit Types rs : RS.

(** The block size of the caches, registered or to be. *)
Definition caches_of_size (fc : list (string * kv_layer T)) (bs : Z) rs : Prop :=
  match registered rs with
  | Some x => x.1.2 = bs
  | None => exists k v, od_get (layer_name rs) fc = Some (KTuple [k; v]) /\ py_idx (t_shape k) 1 = Ok bs
  end.

Lemma wpx_any {A S} (m : M S A) : forall s, wpx any m (fun _ _ => True) s.
Proof. intros s. apply wpx_of; done. Qed.

Lemma lift_any {A S} (r : res A) (s : S) : wpx any (lift_res r) (fun _ s' => s' = s) s.
Proof. apply wpx_of; [done|]. by intros a s' [= _ <-]. Qed.

Definition register_keeps rs rs' : Prop :=
  windows rs' = windows rs /\ req_meta rs' = req_meta rs /\ num_blocks_dumped rs' = num_blocks_dumped rs.

Lemma register_spec fc bs rs o : 0 < bs -> caches_of_size fc bs rs ->
  wpx any (maybe_register_kv_cache fc) (fun _ s' => register_keeps rs s'.1 /\
     from_option (fun x => x.1.2) 0 (registered s'.1) = bs) (rs, o).
Proof.
  intros Hbs Hc. unfold maybe_register_kv_cache, req, the, on_req, caches_of_size in *. do 2 wp_step. cbn [fst].
  destruct (registered rs) as [x|] eqn:Hr; simpl.
  - rewrite Hc, (proj2 (Z.eqb_neq _ _)) by lia. simpl. wp_step. simpl. rewrite Hr. by split.
  - destruct Hc as (k & v & Hg & Hs). do 2 wp_step. cbn [fst]. wp_step. rewrite Hg. wp_lift1.
    do 2 wp_step. wp_lift1. wp_step. wp_lift1. wp_step. cbn iota. wp_step. rewrite Hs. wp_lift1. do 4 wp_step. cbn [fst snd].
    eapply wpx_call; [apply lift_any|]. intros _ _ ->. do 2 wp_step.
    eapply wpx_call; [apply lift_any|]. intros _ _ ->. wp_step. by split.
Qed.

Lemma store_any {A} (m : M W A) rs o : wpx any (store_call m) (fun _ s' => s'.1 = rs) (rs, o).
Proof. apply wpx_zoom. apply wpx_of; [done|]. by intros a w _. Qed.

Lemma clone_any ids rs o : wpx any (clone_blocks ids) (fun _ s' => s'.1 = rs) (rs, o).
Proof.
  unfold clone_blocks, k_cache, v_cache, req, the. do 3 wp_step. cbn [fst].
  eapply wpx_mono; [apply lift_any|]. intros k _ ->. eapply wpx_call; [apply store_any|]. intros ks [rs1 o1] <-.
  do 3 wp_step. cbn [fst]. eapply wpx_mono; [apply lift_any|]. intros v _ ->.
  eapply wpx_call; [apply store_any|]. intros vs [rs2 o2] Hs. by wp_step.
Qed.

Lemma windows_any rs o : wpx any (construct_init_and_local_window c)
  (fun _ s' => blk_repre (windows s'.1) = blk_repre (windows rs)) (rs, o).
Proof.
  unfold construct_init_and_local_window, req, on_req. do 2 wp_step. cbn [fst].
  eapply wpx_call; [apply clone_any|]. intros i [rs1 o1] Hs. simpl in Hs. subst rs1. do 2 wp_step. cbn [fst snd].
  destruct (_ <? _); [|by wp_step].
  eapply wpx_call; [apply clone_any|]. intros l [rs2 o2] Hs. simpl in Hs. subst rs2. by wp_step.
Qed.

Lemma length_map_m {A B S} (f : A -> M S B) l : forall s, wpx any (map_m f l) (fun a _ => length a = length l) s.
Proof.
  induction l as [|x l IH]; intros s; simpl; [by wp_step|].
  eapply wpx_call; [apply wpx_any|]. intros y s1 _. eapply wpx_call; [apply IH|]. intros ys s2 Hl. wp_step. simpl. by rewrite Hl.
Qed.

Lemma extract_any ids rs o : wpx any (extract_block_repre c prune_index mean_keys ids true)
  (fun a _ => forall l, a = Some l -> length l = length ids) (rs, o).
Proof.
  unfold extract_block_repre, k_cache, req, the, on_req. eapply wpx_call; [apply wpx_any|]. intros last s1 _.
  destruct (last <? 2); [by wp_step|]. eapply wpx_call; [apply wpx_any|]. intros k s2 _.
  eapply (wpx_call _ _ _ (fun ks _ => length ks = length ids)).
  { apply wpx_zoom. unfold read_blocks, cache_addrs. eapply wpx_call; [apply length_map_m|].
    intros addrs w Hl. wp_step. by rewrite length_fmap. }
  intros ks s3 Hks. do 2 wp_step. destruct (_ && _); wp_steps; intros l [= <-]; by rewrite Hmean.
Qed.

(** A prompt of one or two full blocks has no representatives.  The hooks
    before attention then leave the request alone, but the hook after attention
    does not: it raises at the last step of the second stride, and of every later
    one. *)
Theorem short_prompts_cannot_decode fc bs rs o m : 0 < bs -> caches_of_size fc bs rs -> num_blocks_dumped rs = 0 ->
  req_meta rs = m -> stage m = PREFILL -> is_last_chunk m = true ->
  0 <= (num_computed_tokens m + num_scheduled_tokens m) / bs <= 2 ->
  match layer_attention_finished c tth prune_index mean_keys fc (rs, o) with
  | (Err _, _) => True
  | (Ok _, (rs', o')) => forall m' query, stage m' = DECODE ->
      layer_attention_begin c tth query (update_meta m' rs', o') = (Ok tt, (update_meta m' rs', o')) /\
      (0 < Kvstar.stride c -> Kvstar.stride c * 2 <= step m' -> step m' mod Kvstar.stride c = 0 ->
       layer_attention_finished c tth prune_index mean_keys fc (update_meta m' rs', o') =
         (Err AttributeError, (update_meta m' rs', o')))
  end.
Proof.
  intros Hbs Hc Hd He Hp Hlast Hn.
  assert (Hw : wpx any (layer_attention_finished c tth prune_index mean_keys fc)
    (fun _ s' => blk_repre (windows s'.1) = None) (rs, o)).
  { unfold layer_attention_finished, req. do 2 wp_step. cbn [fst]. rewrite He, Hp.
    eapply wpx_call; [by apply register_spec|]. intros _ [rs1 o1] [(Hw1 & Hm1 & Hd1) Hr1]. simpl in *.
    do 4 wp_step. cbn [fst]. rewrite Hr1, (proj2 (Z.eqb_neq _ _)) by lia. do 3 wp_step.
    unfold compute_block_repre, req, on_req. wp_step. wp_step. cbn [fst snd].
    wp_step. cbn [fst req_meta with_num_tokens]. rewrite Hm1, He, Hp, Hlast, bool_decide_true by done. cbn [andb].
    do 2 wp_step. cbn [fst num_blocks_dumped with_num_tokens]. rewrite Hd1, Hd. simpl (_ + _). rewrite Z.sub_0_r.
    set (n := (num_computed_tokens m + num_scheduled_tokens m) / bs) in *.
    eapply wpx_call; [apply extract_any|]. intros repre [rs2 o2] Hl. do 2 wp_step. cbn [fst snd].
    eapply wpx_mono; [apply windows_any|]. intros _ s' ->. simpl. destruct repre as [l|]; [|done].
    rewrite (proj2 (Z.leb_le _ _)); [done|]. unfold pylen. rewrite (Hl l eq_refl), slice_to_take, length_take by lia. lia. }
  unfold wpx in Hw. destruct (layer_attention_finished _ _ _ _ _ _) as [[u|e] [rs' o']]; [|done]. simpl in Hw.
  intros m' query Hdec. split.
  - unfold layer_attention_begin, bind, req, gets, update_meta. simpl. rewrite Hdec. simpl. by rewrite Hw.
  - intros Hst Hge Hz. unfold layer_attention_finished, bind, req, gets. simpl. rewrite Hdec, (proj2 (Z.leb_le _ _)) by done.
    unfold at_phase, bind, req, gets. simpl. rewrite (proj2 (Z.eqb_neq _ _)) by lia. rewrite Hz. simpl.
    unfold get_retrieve_candidate_block_ids, bind, req, gets, the, lift_res. simpl. by rewrite Hw.
Qed.
End short.

(** ** Block ids *)

Lemma escape_byte_nonempty q a : (1 <= String.length (escape_byte q a))%nat.
Proof. unfold escape_byte. repeat (case_match; simpl; try lia). Qed.
Lemma escape_bytes_length q b : (String.length b <= String.length (escape_bytes q b))%nat.
Proof.
  induction b as [|a b IH]; simpl; [lia|]. pose proof (escape_byte_nonempty q a) as Ha.
  assert (Hl : forall s1 s2 : string, String.length (s1 ++ s2)%string = (String.length s1 + String.length s2)%nat).
  { induction s1 as [|x s1 IH1]; intros s2; simpl; [done|]. by rewrite IH1. }
  rewrite Hl. lia.
Qed.
(** The id KVStar keeps of a block is the [str] of the digest, the id under which
    the connector stores the block is the digest: they never agree. *)
Lemma kvstar_ids_are_no_digests b d : String.length d = String.length b -> str_of_bytes b <> d.
Proof.
  intros Hl He. subst d.
  assert (Hq : forall q, String.length ("b" ++ String q (escape_bytes q b ++ String q EmptyString))%string <> String.length b).
  { intros q Hq. pose proof (escape_bytes_length q b) as Hb. revert Hq Hb. generalize (escape_bytes q b). simpl. intros s Hq Hb.
    enough (forall s', (String.length s <= String.length (String.append s s'))%nat) as Hs
      by (specialize (Hs (String q EmptyString)); lia).
    clear. intros s'. induction s as [|x s IH]; simpl; lia. }
  by apply Hq in Hl.
Qed.
