(* ===== verification/KvstarBind.v ===== *)
(** * The CPU cores of the retrieval workers (ucm/sparse/kvstar/utils.py)

    The output of [lscpu -e] is read into the physical cores of every NUMA node;
    the ranks share the nodes, or the cores where there are more ranks than
    nodes.  The command's output is an argument. *)

From Stdlib Require Import Ascii String.
From S2P Require Import Prelude.
From S2P Require Import PyStr.
From stdpp Require Import strings sorting.
Local Open Scope Z_scope.
Local Open Scope py_scope.

(** The nodes with their physical cores, and one logical CPU of each. *)
Abbreviation topology := (list (Z * list (Z * Z))).

Definition to_int (s : string) : res Z := of_option ValueError (py_int s).

Definition add_cpu (t : topology) (numa_id core_id logical_cpu_id : Z) : topology :=
  let cores := default [] (od_get numa_id t) in
  od_set numa_id (if od_mem core_id cores then cores else od_set core_id logical_cpu_id cores) t.

Definition add_line (t : topology) (line : string) : res topology :=
  match words line with
  | w0 :: w1 :: _ :: w3 :: _ =>
      let? logical_cpu_id := to_int w0 in
      let? numa_id := to_int w1 in
      let? core_id := to_int w3 in
      Ok (add_cpu t numa_id core_id logical_cpu_id)
  | _ => Ok t
  end.

Fixpoint add_lines (t : topology) (lines : list string) : res topology :=
  match lines with
  | [] => Ok t
  | line :: lines' => let? t' := add_line t line in add_lines t' lines'
  end.

Definition get_physical_core_topology (lscpu : string) : res (list (Z * list Z)) :=
  let lscpu_output := split_on newline (strip lscpu) in
  let? topology := add_lines [] (slice_from lscpu_output 1) in
  Ok ((fun e => (e.1, merge_sort Z.le (od_values e.2))) <$> topology).

Definition pair_le (x y : Z * Z) : Prop := x.1 < y.1 \/ (x.1 = y.1 /\ x.2 <= y.2).
#[export] Instance pair_le_dec : RelDecision pair_le.
Proof. intros x y. unfold pair_le. apply _. Defined.

(** [int(len(l) * ratio)] *)
Definition share {A} (l : list A) (ratio : float) : res Z := int_of_float (float_mul (float_of_Z (pylen l)) ratio).

Definition with_numa (numa_id : Z) (cores : list Z) : list (Z * Z) := (fun core => (core, numa_id)) <$> cores.

Fixpoint bind_numas (m : list (Z * list Z)) (ratio : float) (numas : list Z) : res (list (Z * Z)) :=
  match numas with
  | [] => Ok []
  | numa_id :: numas' =>
      let cores := default [] (od_get numa_id m) in
      let? cores_to_take := share cores ratio in
      let? rest := bind_numas m ratio numas' in
      Ok (with_numa numa_id (slice_to cores cores_to_take) ++ rest)
  end.

Definition get_bind_cpus_for_rank (lscpu : string) (world_size rank_id : Z) (ratio : float)
    : res (list (Z * Z) * list Z) :=
  let? physical_core_map := get_physical_core_topology lscpu in
  match physical_core_map with
  | [] => Ok ([], [])
  | _ =>
      let sorted_numa_ids := merge_sort Z.le (od_keys physical_core_map) in
      if world_size =? 0 then Err ZeroDivisionError
      else
        let numas_per_rank := pylen physical_core_map / world_size in
        if 0 <? numas_per_rank then
          let start_numa_idx := rank_id * numas_per_rank in
          let alloc_numa_ids := slice sorted_numa_ids start_numa_idx (start_numa_idx + numas_per_rank) in
          let? bind_info_list := bind_numas physical_core_map ratio alloc_numa_ids in
          Ok (merge_sort pair_le bind_info_list, alloc_numa_ids)
        else
          let all_cores := concat ((fun n => with_numa n (default [] (od_get n physical_core_map))) <$> sorted_numa_ids) in
          let cores_per_rank := pylen all_cores / world_size in
          if cores_per_rank =? 0 then Ok ([], sorted_numa_ids)
          else
            let start_core_idx := rank_id * cores_per_rank in
            let rank_core_share := slice all_cores start_core_idx (start_core_idx + cores_per_rank) in
            let? cores_to_take := share rank_core_share ratio in
            Ok (merge_sort pair_le (slice_to rank_core_share cores_to_take), sorted_numa_ids)
  end.

(** ** The topology has every logical CPU once *)

(** The CPUs of the lines that are read. *)
Definition line_cpu (line : string) : option Z :=
  match words line with w0 :: _ :: _ :: _ :: _ => py_int w0 | _ => None end.

Record topology_ok (t : topology) (seen : list Z) : Prop := {
  tp_numas : NoDup (od_keys t);
  tp_cores : forall n cores, (n, cores) ∈ t -> NoDup (od_keys cores);
  tp_once : NoDup (concat ((fun e => od_values e.2) <$> t));
  tp_seen : forall x, x ∈ concat ((fun e => od_values e.2) <$> t) -> x ∈ seen;
}.

Definition all_cpus (t : topology) : list Z := concat ((fun e => od_values e.2) <$> t).

Lemma all_cpus_set n cores' t :
  all_cpus (od_set n cores' t) ++ od_values (default [] (od_get n t)) ≡ₚ all_cpus t ++ od_values cores'.
Proof.
  unfold all_cpus. induction t as [|[n' cores] t IH]; simpl; [by rewrite !app_nil_r|].
  case_decide as Hn; simpl.
  - rewrite <- !app_assoc. by solve_Permutation.
  - rewrite <- !app_assoc. by rewrite IH.
Qed.

Lemma add_cpu_cpus t n core x : od_get core (default [] (od_get n t)) = None ->
  all_cpus (add_cpu t n core x) ≡ₚ x :: all_cpus t.
Proof.
  intros Hc. unfold add_cpu, od_mem. rewrite Hc. simpl.
  apply od_get_None in Hc. rewrite (od_set_new core) by done.
  set (cores := default [] (od_get n t)) in *.
  pose proof (all_cpus_set n (cores ++ [(core, x)]) t) as Hp. fold cores in Hp.
  unfold od_values at 2 in Hp. rewrite fmap_app in Hp. simpl in Hp. fold (od_values cores) in Hp.
  apply (Permutation_app_inv_r (od_values cores)). rewrite Hp. simpl. solve_Permutation.
Qed.

Lemma topology_add t seen n core x : topology_ok t seen -> x ∉ seen -> topology_ok (add_cpu t n core x) (x :: seen).
Proof.
  intros [Hk Hc Ho Hs] Hx. fold (all_cpus t) in Ho, Hs. set (cores := default [] (od_get n t)).
  assert (Hn : NoDup (od_keys cores)).
  { unfold cores. destruct (od_get n t) as [cs|] eqn:Hg; [|constructor]. by eapply Hc, od_get_elem. }
  assert (Hks : NoDup (od_keys (add_cpu t n core x))) by by apply od_set_NoDup.
  assert (Hcs : forall n' cores', (n', cores') ∈ add_cpu t n core x -> NoDup (od_keys cores')).
  { intros n' cores' [[-> ->]|Hin]%elem_of_od_set; [|by eapply Hc]. fold cores.
    destruct (od_mem core cores); [done|by apply od_set_NoDup]. }
  destruct (od_get core cores) as [y|] eqn:Hg.
  - assert (Hp : all_cpus (add_cpu t n core x) ≡ₚ all_cpus t).
    { pose proof (all_cpus_set n cores t) as Hp. fold cores in Hp.
      apply (Permutation_app_inv_r (od_values cores)). unfold add_cpu, od_mem. fold cores. by rewrite Hg. }
    split; [done..| |]; fold (all_cpus (add_cpu t n core x)); [by rewrite Hp|].
    intros z. rewrite Hp. intros Hz. right. by apply Hs.
  - pose proof (add_cpu_cpus t n core x Hg) as Hp.
    split; [done..| |]; fold (all_cpus (add_cpu t n core x)); rewrite ?Hp.
    + constructor; [|done]. intros Hin. by apply Hx, Hs.
    + intros z. rewrite Hp. intros [->|Hz]%elem_of_cons; [by left|right; by apply Hs].
Qed.

Lemma topology_lines lines : forall t seen t', topology_ok t seen -> NoDup (omap line_cpu lines) ->
  (forall x, x ∈ omap line_cpu lines -> x ∉ seen) -> add_lines t lines = Ok t' -> exists seen', topology_ok t' seen'.
Proof.
  induction lines as [|line lines IH]; intros t seen t' Ht Hn Hd Ha; simpl in *; [injection Ha as <-; eauto|].
  destruct (add_line t line) as [t1|e] eqn:Hl; [|done]. simpl in Ha.
  assert (Hn' : NoDup (omap line_cpu lines)).
  { destruct (line_cpu line); [by apply NoDup_cons in Hn as [_ ?]|done]. }
  assert (Hskip : t1 = t -> exists seen', topology_ok t' seen').
  { intros ->. eapply IH; [exact Ht|done| |exact Ha]. intros x Hx. apply Hd.
    destruct (line_cpu line); [by right|done]. }
  unfold add_line in Hl. unfold line_cpu at 1 in Hn. unfold line_cpu at 1 in Hd.
  destruct (words line) as [|w0 [|w1 [|w2 [|w3 ws]]]]; try (injection Hl as <-; by apply Hskip).
  unfold to_int in Hl. destruct (py_int w0) as [x|]; [|done]. destruct (py_int w1) as [n|]; [|done].
  destruct (py_int w3) as [core|]; [|done]. injection Hl as <-. simpl in *.
  apply NoDup_cons in Hn as [Hx _]. eapply (IH _ (x :: seen)); [|done| |exact Ha].
  - apply topology_add; [done|]. apply Hd. by left.
  - intros y Hy [->|Hs]%elem_of_cons; [done|]. by apply (Hd y); [right|].
Qed.

(** ** Every rank has cores of its own *)

Lemma topology_cores lscpu m : NoDup (omap line_cpu (slice_from (split_on newline (strip lscpu)) 1)) ->
  get_physical_core_topology lscpu = Ok m -> NoDup (od_keys m) /\ NoDup (concat (od_values m)).
Proof.
  intros Hn Hm. unfold get_physical_core_topology in Hm. destruct (add_lines _ _) as [t|e] eqn:Ht; [|done].
  injection Hm as <-. apply (topology_lines _ _ []) in Ht as (seen & [Hk _ Ho _]); [| |done|].
  - split; [unfold od_keys; by rewrite <- list_fmap_compose|]. unfold od_values at 1. rewrite <- list_fmap_compose.
    assert (Hp : concat ((fun e : Z * list (Z * Z) => merge_sort Z.le (od_values e.2)) <$> t) ≡ₚ all_cpus t).
    { unfold all_cpus. clear. induction t as [|e t IH]; simpl; [done|]. by rewrite IH, merge_sort_Permutation. }
    unfold all_cpus in Hp. by rewrite Hp.
  - split; simpl; [constructor|by intros ? ? ?%elem_of_nil|constructor|done].
  - intros x _ Hx. by apply elem_of_nil in Hx.
Qed.

Section ranks.
Context (m : list (Z * list Z)) (Hkeys : NoDup (od_keys m)) (Hcores : NoDup (concat (od_values m))).

Definition numa_cores (n : Z) : list Z := default [] (od_get n m).
Abbreviation sorted_numa_ids := (merge_sort Z.le (od_keys m)).

Lemma cores_of_numas : NoDup (concat (numa_cores <$> sorted_numa_ids)).
Proof.
  assert (Hp : concat (numa_cores <$> sorted_numa_ids) ≡ₚ concat (od_values m)); [|by rewrite Hp].
  rewrite merge_sort_Permutation. clear Hcores. unfold numa_cores.
  assert (Hg : (fun n => default [] (od_get n m)) <$> od_keys m = od_values m); [|by rewrite Hg].
  unfold od_keys, od_values. rewrite <- list_fmap_compose. apply list_fmap_ext. intros i [n cs] Hi. simpl.
  erewrite od_elem_get; [done|done|]. by eapply list_elem_of_lookup_2.
Qed.

Lemma bind_numas_cores ratio numas l : bind_numas m ratio numas = Ok l ->
  forall x, x ∈ l.*1 -> exists i n, numas !! i = Some n /\ x ∈ numa_cores n.
Proof.
  revert l. induction numas as [|n numas IH]; intros l Hl x Hx; simpl in Hl; [injection Hl as <-; by apply elem_of_nil in Hx|].
  destruct (share _ _) as [k|]; [|done]. simpl in Hl. destruct (bind_numas m ratio numas) as [rest|]; [|done].
  injection Hl as <-. rewrite fmap_app in Hx. apply elem_of_app in Hx as [Hx|Hx].
  - exists 0%nat, n. split; [done|]. unfold with_numa in Hx. rewrite <- list_fmap_compose in Hx. simpl in Hx.
    rewrite list_fmap_id in Hx. by eapply elem_of_slice.
  - destruct (IH rest eq_refl x Hx) as (i & n' & Hi & Hn'). by exists (S i), n'.
Qed.
End ranks.

Lemma all_cores_fst m ns : (concat ((fun n => with_numa n (numa_cores m n)) <$> ns)).*1 = concat (numa_cores m <$> ns).
Proof.
  induction ns as [|n ns IH]; [done|]. rewrite !fmap_cons. simpl concat. rewrite fmap_app. f_equal; [|exact IH].
  unfold with_numa. rewrite <- list_fmap_compose. apply list_fmap_id.
Qed.

(** The [r]th share of a list. *)
Lemma share_index {A} (l : list A) r k i x : 0 <= r -> 0 < k -> slice l (r * k) (r * k + k) !! i = Some x ->
  exists j, l !! j = Some x /\ r = Z.of_nat j / k.
Proof.
  intros Hr Hk Hi. rewrite lookup_slice in Hi by nia. destruct (decide _) as [Hlt|]; [|done].
  exists (Z.to_nat (r * k) + i)%nat. split; [done|]. apply (Z.div_unique _ _ _ (Z.of_nat i)); nia.
Qed.

(** Where [lscpu] lists every CPU once, two ranks never bind their
    retrieval workers to the same core, whether the ranks share the NUMA nodes or
    their cores. *)
Theorem ranks_bind_cores_of_their_own lscpu world_size r r' ratio l numas l' numas' : 0 < world_size -> 0 <= r -> 0 <= r' ->
  NoDup (omap line_cpu (slice_from (split_on newline (strip lscpu)) 1)) ->
  get_bind_cpus_for_rank lscpu world_size r ratio = Ok (l, numas) ->
  get_bind_cpus_for_rank lscpu world_size r' ratio = Ok (l', numas') ->
  forall x, x ∈ l.*1 -> x ∈ l'.*1 -> r = r'.
Proof.
  intros Hw Hr Hr' Hn Hl Hl' x Hx Hx'. unfold get_bind_cpus_for_rank in *.
  destruct (get_physical_core_topology lscpu) as [m|] eqn:Hm; [|done]. simpl in Hl, Hl'.
  destruct (topology_cores _ _ Hn Hm) as [Hk Hc]. clear Hn Hm.
  destruct m as [|e m0]; [injection Hl as <- <-; by apply elem_of_nil in Hx|]. set (m := e :: m0) in *. clearbody m.
  rewrite (proj2 (Z.eqb_neq _ _)) in Hl, Hl' by lia. pose proof (cores_of_numas m Hk Hc) as Hall.
  destruct (Z.ltb_spec 0 (pylen m / world_size)) as [Hq|Hq].
  - destruct (bind_numas m ratio (slice _ (r * _) _)) as [b|] eqn:Hb; [|done]. injection Hl as <- <-.
    destruct (bind_numas m ratio (slice _ (r' * _) _)) as [b'|] eqn:Hb'; [|done]. injection Hl' as <- <-.
    rewrite merge_sort_Permutation in Hx, Hx'.
    destruct (bind_numas_cores _ _ _ _ Hb x Hx) as (i & n & Hi & Hin).
    destruct (bind_numas_cores _ _ _ _ Hb' x Hx') as (i' & n' & Hi' & Hin').
    apply share_index in Hi as (j & Hj & ->), Hi' as (j' & Hj' & ->); try done.
    enough (j = j') as -> by done. eapply (NoDup_concat_lookup _ j j' _ _ x Hall); [..|exact Hin|exact Hin'];
      rewrite list_lookup_fmap; [by rewrite Hj|by rewrite Hj'].
  - set (all := concat _) in Hl, Hl'. destruct (Z.eqb_spec (pylen all / world_size) 0); [injection Hl as <- <-; by apply elem_of_nil in Hx|].
    assert (Hk0 : 0 < pylen all / world_size) by (pose proof (Z.div_pos (pylen all) world_size (pylen_nonneg all) Hw); lia).
    set (k := pylen all / world_size) in *. clearbody k.
    destruct (share (slice all (r * k) _) ratio) as [t|]; [|done]. injection Hl as <- <-.
    destruct (share (slice all (r' * k) _) ratio) as [t'|]; [|done]. injection Hl' as <- <-.
    rewrite merge_sort_Permutation in Hx, Hx'.
    assert (Hfst : NoDup all.*1).
    { change all with (concat ((fun n => with_numa n (numa_cores m n)) <$> merge_sort Z.le (od_keys m))). by rewrite all_cores_fst. }
    apply list_elem_of_fmap in Hx as (y & -> & Hy%elem_of_slice), Hx' as (y' & He & Hy'%elem_of_slice).
    apply list_elem_of_lookup in Hy as [i Hi], Hy' as [i' Hi'].
    apply share_index in Hi as (j & Hj & ->), Hi' as (j' & Hj' & ->); try done.
    enough (j = j') as -> by done. apply (NoDup_lookup _ _ _ y.1 Hfst); rewrite list_lookup_fmap; [by rewrite Hj|].
    rewrite Hj'. simpl. by rewrite He.
Qed.
