(* ===== verification/KvstarDemo.v ===== *)
(** * KVStar: runs

    A worker that chooses by the sum of a group's queries and a store that loads
    at once, and a request that is prefilled in two chunks and decodes six
    tokens with a stride of two. *)

From Stdlib Require Import Ascii String.
From S2P Require Import Prelude.
From S2P Require Import Wp.
From S2P Require Import PyStr.
From S2P Require Import StoreApi.
From S2P Require Import StoreBase.
From S2P Require Import Layout.
From S2P Require Import DeviceMem.
From S2P Require Import GsaSparse.
From S2P Require Import Kvstar.
From S2P Require Import KvstarRuns.
From S2P Require Import KvstarSwap.
From S2P Require Import KvstarDecode.
From S2P Require Import KvstarSlots.
From S2P Require Import KvstarBind.
From stdpp Require Import strings.
Local Open Scope Z_scope.
Local Open Scope py_scope.

Module KvstarDemo.
(** The contents of a block is its hash and the offset of the part. *)
Definition D : Type := string * Z.
Definition W : Type := list (Z * D).

Fixpoint put_parts (l : list (string * Z * Z)) (w : W) : W :=
  match l with [] => w | (h, o, a) :: l' => put_parts l' (od_set a (h, o) w) end.

#[export] Instance mem : KvMem W D := {|
  mem_read w a := default (EmptyString, 0) (od_get a w);
  mem_write a d w := od_set a d w;
|}.
#[export] Instance store : UcmKVStoreBase W := {|
  kv_task := unit;
  kv_create hs := ret (py_repeat 0 (pylen hs));
  kv_lookup hs := ret (py_repeat true (pylen hs));
  kv_prefetch _ := ret tt;
  kv_load hs os addrs := modify (put_parts (zip (zip hs os) addrs));
  kv_dump _ _ _ := ret tt;
  kv_wait _ := ret 0;
  kv_commit _ _ := ret tt;
|}.

(** The worker remembers what it was asked with. *)
Definition R : Type := list (list Z).
Definition choice (qs : list Z) : list Z := [zsum qs mod 3].
#[export] Instance worker : KvRetrieve R Z Z unit := {|
  ktask := nat;
  k_async qs _ _ _ _ := fun r => (Ok (length r), r ++ [qs]);
  k_wait _ := ret tt;
  k_result t := gets (fun r => choice <$> (r !! t));
|}.

Definition config : KvstarConfig := {|
  ks_init_window_sz := 1; ks_local_window_sz := 1; ks_sparse_ratio := SpecFloat.S754_finite false 4503599627370496 (-54); ks_retrieval_stride := 2;
  ks_blk_repre_dim_prune_ratio := float_of_Z 1; ks_block_size := 4; ks_total_num_hidden_layers := 1; ks_rank := 0;
  ks_is_mla := false; ks_model_name := "m"; ks_world_size := 1; ks_tp_size := 1; ks_dtype_name := "bf16";
|}.
Definition tth (hs : list string) (_ kind : string) : Z := if String.eqb kind "key" then 0 else 1.

Definition asked (r : R) (t : nat) (qs : list Z) : Prop := r !! t = Some qs.
Definition holds (w : W) (a : Z) (h : string) (o : Z) : Prop := od_get a w = Some (h, o).
Definition loading (w : W) (_ : unit) (l : list (string * Z * Z)) : Prop :=
  forall h o a, (h, o, a) ∈ l -> holds w a h o.

Lemma put_parts_other l w a : a ∉ l.*2 -> od_get a (put_parts l w) = od_get a w.
Proof.
  revert w. induction l as [|[[h o] x] l IH]; intros w Ha; [done|]. simpl in *.
  apply not_elem_of_cons in Ha as [Hne Ha]. by rewrite IH, od_get_set_ne.
Qed.
Lemma put_parts_here l w h o a : NoDup l.*2 -> (h, o, a) ∈ l -> od_get a (put_parts l w) = Some (h, o).
Proof.
  revert w. induction l as [|[[h' o'] x] l IH]; intros w Hn Hin; [by apply elem_of_nil in Hin|]. simpl in *.
  apply NoDup_cons in Hn as [Hx Hn]. apply elem_of_cons in Hin as [[= <- <- <-]|Hin]; [|by apply IH].
  by rewrite put_parts_other, od_get_set_eq.
Qed.
Lemma zip_repeat hs off addrs : zip (zip hs (py_repeat off (pylen hs))) addrs = parts hs off addrs.
Proof.
  unfold py_repeat, parts, pylen. rewrite Nat2Z.id. revert addrs.
  induction hs as [|h hs IH]; intros [|a addrs]; simpl; [done..|]. by rewrite IH.
Qed.

Definition no_error (e : exn) : bool := false.

Lemma transfer_laws : TransferLaws no_error loading holds.
Proof.
  split.
  - intros hs off addrs w Hl Hn. apply wpx_wp. unfold kv_load, store, wp, modify. rewrite zip_repeat.
    assert (Ha : (parts hs off addrs).*2 = addrs) by by apply parts_addrs.
    split; [|split].
    + intros h o a Hin. apply put_parts_here; [by rewrite Ha|done].
    + intros t' l Hw Hd h o a Hin. unfold holds. rewrite put_parts_other; [by apply Hw|]. rewrite Ha.
      intros Hb. apply (Hd a Hb). change a with (h, o, a).2. by apply list_elem_of_fmap_2.
    + intros a h o Hb Hw. unfold holds. by rewrite put_parts_other by by rewrite Ha.
  - intros t w. apply wpx_wp, wp_ret. split; [done|]. split; [done|]. intros l h o a Hw. by apply Hw.
Qed.

(** A prompt of twenty tokens, five blocks; the window keeps one block of three. *)
Definition hashes : list string := ["h0"; "h1"; "h2"; "h3"; "h4"]%string.
Definition kc : MemDemo.tensor := ([8; 4; 1; 1], 0).
Definition vc : MemDemo.tensor := ([8; 4; 1; 1], 1000).
Definition layer : string := "model.layers.0.attn".
Definition fc : list (string * kv_layer MemDemo.tensor) := [(layer, KTuple [kc; vc])].
Definition prune_index (_ : list D) : unit := tt.
Definition mean_keys (_ : option unit) (ds : list D) : list Z := snd <$> ds.

Definition meta_of_stride (st n out lo hi : Z) (ids : list Z) : ReqMeta := {|
  request_id := "7"; index_in_batch := 0; num_prompt_tokens := n; num_output_tokens := out;
  num_scheduled_tokens := hi - lo; num_computed_tokens := lo; num_sparsed_tokens := 0; vllm_block_ids := ids;
  token_blk_size := 4; prompt_token_ids := zrange 0 n; query_start_loc := 0; query_len := hi - lo;
  retrieval_stride := st; block_hashes := hashes;
|}.
Definition meta_of : Z -> Z -> Z -> Z -> list Z -> ReqMeta := meta_of_stride 2.
Abbreviation meta := (meta_of 20).
Abbreviation RS := (ReqPerLayerState MemDemo.tensor D Z Z unit (ktask (R := R)) (kv_task (W := W))).
Abbreviation begin_hook := (layer_attention_begin (T := MemDemo.tensor) config tth).
Abbreviation finished_hook := (layer_attention_finished (T := MemDemo.tensor) config tth prune_index mean_keys fc).

(** The query of a token is its position. *)
Definition chunk (lo hi : Z) (s : RS * (W * R)) : RS * (W * R) :=
  (finished_hook (begin_hook (zrange lo hi) (update_meta (meta 0 lo hi [2; 3; 4; 5; 6]) s.1, s.2)).2).2.
Definition start : RS :=
  match new_ReqPerLayerState (meta 0 0 12 [2; 3; 4; 5; 6]) layer with Ok r => r | Err _ => MkLayer layer 0 (meta 0 0 12 []) 0 0 None
    (MkWindows None None None None) (MkGroups [] [] [] []) [] [] end.
Definition prompt_done : RS * (W * R) := chunk 12 20 (chunk 0 12 (start, ([], []))).

(** After the prompt the table keeps the first block, one place and the last block. *)
Definition decode_meta (s : Z) : ReqMeta := meta s (19 + s) (20 + s) [2; 3; 6; 7].
Definition decode_step (s : Z) (st : RS * (W * R)) : RS * (W * R) :=
  (finished_hook (begin_hook [19 + s] (update_meta (decode_meta s) st.1, st.2)).2).2.
Definition decoded (n : nat) : RS * (W * R) := foldl (fun st s => decode_step s st) prompt_done (zrange 1 (1 + Z.of_nat n)).
Definition row (s : Z) : Z := 19 + s.
Definition after_prompt : Windows D Z unit := Eval vm_compute in windows prompt_done.1.

Lemma worker_laws : WorkerLaws config hashes after_prompt [0; 0; 0] 7 [3] no_error asked choice.
Proof.
  split.
  - intros qs r. apply wpx_wp. unfold k_async, worker, wp. split.
    + unfold asked, R. by rewrite lookup_app_r, Nat.sub_diag by lia.
    + intros t' qs' Ha. unfold asked, R in *. by rewrite lookup_app_l by (eapply lookup_lt_Some, Ha).
  - intros t r. apply wpx_wp, wp_ret. by intros ? ?.
  - intros t qs r Ha. apply wpx_wp. apply wp_gets. split; [|by intros ? ?]. unfold asked in Ha. exact (f_equal (fmap choice) Ha).
  - intros qs i Hi%list_elem_of_singleton. subst i. pose proof (Z.mod_pos_bound (zsum qs) 3 ltac:(lia)).
    change (0 <= zsum qs mod 3 + 1 < 5). lia.
  - done.
Qed.

Lemma chunk_ok lo hi : 0 <= lo < hi -> hi <= 20 ->
  chunk_of config (fun p => p) 20 lo hi (meta 0 lo hi [2; 3; 4; 5; 6]) (zrange lo hi).
Proof.
  intros Hlo Hhi. split; try done; [lia..|]. simpl. rewrite list_fmap_id, slice_full; [done|done|].
  unfold pylen. rewrite length_zrange. lia.
Qed.
Abbreviation prompt_chunks := (prefill_run config tth prune_index mean_keys 8 4 (fun p => p) 20 0 start).
Lemma ids_ok_check n l : forallb (fun i => (0 <=? i) && (i <? n)) l = true -> ids_ok n l.
Proof. intros Hl. apply Forall_forall. intros i Hi%list_elem_of_In. rewrite forallb_forall in Hl. specialize (Hl i Hi). lia. Qed.
Lemma chunk_room_ok name lo hi : name = layer -> 0 <= lo < hi ->
  chunk_room 8 4 name fc (meta 0 lo hi [2; 3; 4; 5; 6]).
Proof.
  intros -> Hlo. split; [|by apply ids_ok_check; vm_compute|].
  - by exists (KTuple [kc; vc]), kc, vc, 1, 1.
  - unfold is_last_chunk. simpl. intros Hl%Z.leb_le. split; [lia|done].
Qed.
Lemma chunk_run lo hi (s : RS * (W * R)) : 0 <= lo < hi -> hi <= 20 -> layer_name s.1 = layer ->
  (begin_hook (zrange lo hi) (update_meta (meta 0 lo hi [2; 3; 4; 5; 6]) s.1, s.2)).1 = Ok tt ->
  (finished_hook (begin_hook (zrange lo hi) (update_meta (meta 0 lo hi [2; 3; 4; 5; 6]) s.1, s.2)).2).1 = Ok tt ->
  prompt_chunks lo s.1 -> prompt_chunks hi (chunk lo hi s).1.
Proof.
  intros Hlo Hhi Hn Hb1 Hf1 Hrun. unfold chunk.
  destruct (begin_hook _ _) as [r [rs1 o1]] eqn:Hb, (finished_hook _) as [r' s'] eqn:Hf.
  cbn [fst snd] in *. subst r r'.
  eapply prefill_chunk; [exact Hrun|by apply chunk_ok|by apply chunk_room_ok|exact Hb|exact Hf].
Qed.
Lemma prompt_run : prompt_chunks 20 prompt_done.1.
Proof.
  apply chunk_run; [lia..|by vm_compute|by vm_compute|by vm_compute|].
  apply chunk_run; [lia..|by vm_compute|by vm_compute|by vm_compute|]. constructor.
Qed.

(** A run stopped after the first chunk, and what the theorem says of the second. *)
Lemma first_chunk_run : prompt_chunks 12 (chunk 0 12 (start, ([], []))).1.
Proof. apply chunk_run; [lia..|by vm_compute|by vm_compute|by vm_compute|]. constructor. Qed.

Lemma prefill_group_is_the_last_queries_witness :
  (exists rs1 o1 s', begin_hook (zrange 12 20) (update_meta (meta 0 12 20 [2; 3; 4; 5; 6])
                       (chunk 0 12 (start, ([], []))).1, ([], [])) = (Ok tt, (rs1, o1)) /\
     finished_hook (rs1, o1) = (Ok tt, s')) /\
  (exists grp, od_get "prefill" (standby_query_group (groups prompt_done.1)) = Some grp /\ pylen grp = 2 /\
    omap id grp = [18; 19]).
Proof.
  split.
  - eapply (prefill_group_is_the_last_queries (T := MemDemo.tensor) (W := W) (R := R) config tth prune_index mean_keys
      8 4 ltac:(lia) (fun p => p) 20 0 start 12 (chunk 0 12 (start, ([], []))).1 eq_refl ltac:(done) I eq_refl first_chunk_run);
      [by apply chunk_ok|by apply chunk_room_ok].
  - apply (prefill_group_is_the_last_queries (T := MemDemo.tensor) (W := W) (R := R) config tth prune_index mean_keys
      8 4 ltac:(lia) (fun p => p) 20 0 start 20 prompt_done.1); [done..|exact prompt_run|done|lia].
Defined.

Abbreviation run := (decode_run config tth prune_index mean_keys kc vc 4 0 hashes after_prompt 7 [3] row [18; 19]
                       asked loading holds 1).
Lemma decode_ok s : 1 <= s -> decode_of config kc vc after_prompt 7 [3] row 1 s (decode_meta s) [19 + s].
Proof.
  intros Hs. split; try done; [simpl; lia|]. intros _. eexists. split; [reflexivity|].
  split; split; try (vm_compute; reflexivity).
  - apply ids_ok_check. by vm_compute.
  - intros l Hl. vm_compute in Hl. injection Hl as <-. split; [apply ids_ok_check; by vm_compute|by vm_compute].
  - apply ids_ok_check. by vm_compute.
  - intros l Hl. vm_compute in Hl. injection Hl as <-. split; [apply ids_ok_check; by vm_compute|by vm_compute].
Qed.
Lemma prompt_done_prefilled : prefilled kc vc 4 0 hashes after_prompt [18; 19] prompt_done.1.
Proof. split; [split; by vm_compute|eexists; split; by vm_compute|done|by vm_compute..]. Qed.
Lemma step_run s (st : RS * (W * R)) : 0 <= s -> run s st.1 st.2.1 st.2.2 ->
  (begin_hook [19 + (s + 1)] (update_meta (decode_meta (s + 1)) st.1, st.2)).1 = Ok tt ->
  (finished_hook (begin_hook [19 + (s + 1)] (update_meta (decode_meta (s + 1)) st.1, st.2)).2).1 = Ok tt ->
  run (s + 1) (decode_step (s + 1) st).1 (decode_step (s + 1) st).2.1 (decode_step (s + 1) st).2.2.
Proof.
  intros Hs Hrun Hb Hf. unfold decode_step. destruct st as [rs [w r]]. cbn [fst snd] in *.
  destruct (begin_hook _ _) as [rb sb] eqn:Hbe. cbn [fst snd] in *. subst rb.
  destruct (finished_hook sb) as [rf [rs' [w' r']]] eqn:Hfe. cbn [fst snd] in *. subst rf.
  eapply run_step; [exact Hrun|apply decode_ok; lia|exact Hbe|exact Hfe].
Qed.
Lemma decoded_run : run 5 (decoded 5).1 (decoded 5).2.1 (decoded 5).2.2.
Proof.
  unfold decoded. change (zrange 1 (1 + Z.of_nat 5)) with [1; 2; 3; 4; 5]. cbn [foldl].
  let go n := (apply (step_run n); [lia| |by vm_compute|by vm_compute]) in go 4; go 3; go 2; go 1; go 0.
  apply run_prefilled, prompt_done_prefilled.
Qed.

Lemma retrieved_blocks_reach_their_window_witness : exists rs' w' r',
  begin_hook [25] (update_meta (decode_meta 6) (decoded 5).1, (decoded 5).2) = (Ok tt, (rs', (w', r'))) /\
  blk_trans_tasks rs' = [] /\ (layer_wise_pre_swap_area_block_hashes rs').*1 ≡ₚ [3] /\
  (layer_wise_pre_swap_area_block_hashes rs').*2 ≡ₚ chosen config hashes choice [20; 21] /\
  (forall e, e ∈ layer_wise_pre_swap_area_block_hashes rs' -> resident kc vc 0 holds w' e).
Proof.
  assert (Ht := retrieved_blocks_reach_their_window (T := MemDemo.tensor) (R := R) config tth prune_index mean_keys kc vc
    4 0 hashes after_prompt [0; 0; 0] 7 [3] row [18; 19] no_error asked choice loading holds ltac:(done)
    ltac:(apply ids_ok_check; by vm_compute) ltac:(apply ids_ok_check; by vm_compute)
    ltac:(apply (bool_decide_unpack _); by vm_compute) ltac:(done) ltac:(apply NoDup_singleton) ltac:(done) ltac:(done) 1
    ltac:(by vm_compute) 5 (decoded 5).1 (decoded 5).2.1 (decoded 5).2.2 (decode_meta 6) [25] worker_laws transfer_laws
    decoded_run ltac:(apply decode_ok; lia)).
  rewrite <- !surjective_pairing in Ht. destruct (begin_hook [25] _) as [[[]|e] [rs' [w' r']]] eqn:Hb; [|done].
  exists rs', w', r'. split; [done|]. destruct Ht as (Ht1 & Ht2 & Ht3 & Ht4 & _).
  assert (Hq : queries_at config row [18; 19] (5 + 1) = [20; 21]) by by vm_compute. rewrite Hq in Ht3.
  exact (conj Ht1 (conj Ht2 (conj Ht3 Ht4))).
Defined.

(** *** The block table *)

(** Prompts of twenty-two and of twenty tokens: two of five full blocks are compressed. *)
Definition request (prompt : Z) : KvstarRequest :=
  {| kr_id := "7"; kr_num_prompt_tokens := prompt; kr_num_output_tokens := 1; kr_num_tokens := prompt + 1 |}.
Definition table_of (l : list Z) : SlotState (list Z) := MkSlots {["7" := l]} ∅ [].

Lemma first_decode_step_keeps_the_tail_witness : exists slots,
  Kvstar.estimate_num_slots_sparsed config (request 22) = Ok slots /\
  (slots - 1) / 4 = pylen (drop 2 [10; 11; 12; 13; 14; 15]) - 1 /\ (slots - 1) mod 4 = 2 /\
  (kv_allocate_slots SparseDemo.demo_ops config (request 22) slots (table_of [10; 11; 12; 13; 14; 15])).1
    = Ok (Some [12; 13; 14; 15; 500]).
Proof.
  destruct (first_decode_step_keeps_the_tail SparseDemo.demo_ops config (request 22) 1 [10; 11; 12; 13; 14; 15]
    (table_of [10; 11; 12; 13; 14; 15])) as (slots & k & He & Hk & Ha & H1 & H2); [by vm_compute..|].
  subst k. exists slots. split; [exact He|]. split; [exact H1|]. split; [exact H2|].
  transitivity (Ok (Some [12; 13; 14; 15; 500]) : res (option (list Z))); [|reflexivity].
  exact (eq_trans (f_equal fst Ha) ltac:(by vm_compute)).
Defined.

(** A prompt of whole blocks gets no block for its first new token: the table
    keeps four of the prompt's five blocks, and the token's slot is the first
    one of the last of them. *)
Example whole_blocks_get_no_new_block :
  Kvstar.estimate_num_slots_sparsed config (request 20) = Ok 13 /\
  (sl_table (kv_allocate_slots {| maybe_evict_cached_block _ k := k; free_blocks _ s := s;
     blocks_to_allocate id n s := cdiv n 4 - pylen (default [] (sl_table s !! id)); sl_num_free_blocks _ := 10;
     sl_allocate_new_blocks _ _ s := s |} config (request 20) 13 (table_of [10; 11; 12; 13; 14])).2) !! "7"%string
    = Some [11; 12; 13; 14].
Proof. split; by vm_compute. Qed.

(** *** A prompt of two blocks *)
Definition short_done : res unit * (RS * (W * R)) :=
  finished_hook (update_meta (meta_of 8 0 0 8 [2; 3]) start, ([], [])).
Lemma short_prompts_cannot_decode_witness :
  let m := meta_of 8 4 11 12 [2; 3; 4] in let s := short_done.2 in
  short_done.1 = Ok tt /\
  finished_hook (update_meta m s.1, s.2) = (Err AttributeError, (update_meta m s.1, s.2)).
Proof.
  intros m s. split; [by vm_compute|].
  pose proof (short_prompts_cannot_decode (T := MemDemo.tensor) (R := R) config tth prune_index mean_keys
    ltac:(intros p ds; apply length_fmap) fc 4 (update_meta (meta_of 8 0 0 8 [2; 3]) start) ([], [])
    (meta_of 8 0 0 8 [2; 3]) ltac:(done) ltac:(exists kc, vc; split; by vm_compute) ltac:(done) ltac:(done) ltac:(done)
    ltac:(done) ltac:(by vm_compute)) as Ht.
  subst s. unfold short_done. destruct (finished_hook _) as [[[]|e] [rs' o']] eqn:Hf.
  - apply (Ht m []); [done|done|by vm_compute|by vm_compute].
  - apply (f_equal fst) in Hf. vm_compute in Hf. discriminate.
Defined.

(** *** CPU cores *)
Definition lscpu : string := String.append "CPU NODE SOCKET CORE" (String newline (String.append "0 0 0 0" (String newline
  (String.append "1 0 0 1" (String newline (String.append "2 1 1 2" (String newline (String.append "3 1 1 3"
  (String newline "4 0 0 0"))))))))).
Lemma ranks_bind_cores_of_their_own_witness :
  get_bind_cpus_for_rank lscpu 2 0 (float_of_Z 1) = Ok ([(0, 0); (1, 0)], [0]) /\
  get_bind_cpus_for_rank lscpu 2 1 (float_of_Z 1) = Ok ([(2, 1); (3, 1)], [1]) /\
  forall x, x ∈ [0; 1] -> x ∈ [2; 3] -> 0 = 1.
Proof.
  assert (H0 : get_bind_cpus_for_rank lscpu 2 0 (float_of_Z 1) = Ok ([(0, 0); (1, 0)], [0])) by by vm_compute.
  assert (H1 : get_bind_cpus_for_rank lscpu 2 1 (float_of_Z 1) = Ok ([(2, 1); (3, 1)], [1])) by by vm_compute.
  split; [exact H0|]. split; [exact H1|].
  apply (ranks_bind_cores_of_their_own lscpu 2 0 1 (float_of_Z 1) _ _ _ _ ltac:(lia) ltac:(lia) ltac:(lia)
    ltac:(apply (bool_decide_unpack _); by vm_compute) H0 H1).
Defined.

(** *** With a stride of one no transfer is ever waited for after the first step. *)
Definition config1 : KvstarConfig := {|
  ks_init_window_sz := 1; ks_local_window_sz := 1; ks_sparse_ratio := ks_sparse_ratio config; ks_retrieval_stride := 1;
  ks_blk_repre_dim_prune_ratio := float_of_Z 1; ks_block_size := 4; ks_total_num_hidden_layers := 1; ks_rank := 0;
  ks_is_mla := false; ks_model_name := "m"; ks_world_size := 1; ks_tp_size := 1; ks_dtype_name := "bf16";
|}.
Definition step1 (s : Z) (st : RS * (W * R)) : (res unit * (RS * (W * R))) * (RS * (W * R)) :=
  let b := layer_attention_begin (T := MemDemo.tensor) config1 tth [19 + s] (update_meta (decode_meta s) st.1, st.2) in
  (b, (layer_attention_finished (T := MemDemo.tensor) config1 tth prune_index mean_keys fc b.2).2).
Example stride_one_does_not_wait :
  let b := layer_attention_begin (T := MemDemo.tensor) config1 tth (zrange 0 20)
    (update_meta (meta_of_stride 1 20 0 0 20 [2; 3; 4; 5; 6]) start, ([], [])) in
  let f := layer_attention_finished (T := MemDemo.tensor) config1 tth prune_index mean_keys fc b.2 in
  let s2 := (step1 2 (step1 1 f.2).2).2 in
  b.1 = Ok tt /\ f.1 = Ok tt /\ (step1 3 s2).1.1 = Ok tt /\ length (blk_trans_tasks (step1 3 s2).1.2.1) = 2%nat.
Proof. repeat split; by vm_compute. Qed.
End KvstarDemo.
