(* ===== verification/GsaOnDevice.v ===== *)
(** * GSA on the device (ucm/sparse/gsa_on_device/gsa_on_device.py)

    The keys of every token are hashed into a cache beside the KV cache; at a
    decoding step the blocks of a request closest to its query replace the
    request's row of the block table, layer by layer.  The attention metadata
    and the tensors they refer to are shared with vLLM and written in place:
    tensors live in a heap, and the metadata refer to the first rows of one.

    The hashes, the distance kernels and [torch.topk] are an interface.  The
    branches for NPUs, which call other kernels, are not modelled. *)

From Stdlib Require Import Ascii String.
From S2P Require Import Prelude.
From S2P Require Import PyStr.
From stdpp Require Import strings sorting.
Local Open Scope Z_scope.
Local Open Scope py_scope.

(** ** hamming_topk.py *)

Definition update_seq_len (topk_token block_size n : Z) : Z :=
  let drop_block_num := (Z.max 0 (n - topk_token) + block_size - 1) / block_size in
  n - drop_block_num * block_size.
Definition update_seq_lens (seq_lens : list Z) (topk_token block_size : Z) : list Z :=
  update_seq_len topk_token block_size <$> seq_lens.

(** The smallest score of every block. *)
Definition block_mins (block_size : Z) (scores : list Z) : list Z :=
  (fun j => let block := slice scores (j * block_size) ((j + 1) * block_size) in
            foldr Z.min (hd 0 block) block) <$> zrange 0 (pylen scores / block_size).

(** The schedule of an MLA kernel: [tile_scheduler_metadata] and [num_splits]. *)
Definition Tile : Type := list (list Z) * list Z.

(** The kernels: [hamming_dist] is the number of bits in which the hash of a
    query and the one cached at an offset of a block differ, [torch_topk k]
    gives the indices of the [k] smallest entries. *)
Class HashOps (K Kv Qv QH : Type) : Type := {
  cache_keys : string -> list Kv -> list Z -> K -> K;
  hash_query : Qv -> QH;
  hash_query_mla : Qv -> Qv -> QH;
  hamming_dist : K -> string -> QH -> Z -> Z -> Z;
  torch_topk : Z -> list Z -> list Z;
  get_mla_metadata : list Z -> Tile;
}.

Section topk.
Context {K Kv Qv QH : Type} `{HashOps K Kv Qv QH}.
Context (block_size : Z).

(** [half(INFINITY)]: above the largest finite half. *)
Definition INFINITY : Z := 65536.

(** [HammingScoreContiKernel] for one request: the score of every token its row
    has place for. *)
Definition token_score (k : K) (layer : string) (q : QH) (row : list Z) (seq_len sink recent pos : Z) : Z :=
  let is_sink_or_recent := (pos <? sink) || ((seq_len - recent <=? pos) && (pos <? seq_len)) in
  let is_inf := seq_len <=? pos in
  if is_inf then INFINITY
  else if is_sink_or_recent then 0
  else hamming_dist k layer q (default 0 (row !! Z.to_nat (pos / block_size))) (pos mod block_size).
Definition hamming_score (k : K) (layer : string) (q : QH) (row : list Z) (seq_len sink recent : Z) : list Z :=
  token_score k layer q row seq_len sink recent <$> zrange 0 (block_size * pylen row).

(** The blocks chosen for one request, as indices into its row, and the row of
    the sparse table. *)
Definition select_indices (k : K) (layer : string) (topk_token sink recent : Z) (q : QH) (row : list Z) (seq_len : Z) : res (list Z) :=
  let block_output := block_mins block_size (hamming_score k layer q row seq_len sink recent) in
  if pylen block_output <? topk_token / block_size then Err RuntimeError
  else Ok (merge_sort Z.le (torch_topk (topk_token / block_size) block_output)).

Definition select_blocks (k : K) (layer : string) (topk_token sink recent : Z) (q : QH) (row : list Z) (seq_len : Z) : res (list Z) :=
  let? ind := select_indices k layer topk_token sink recent q row seq_len in
  map_res (fun i => of_option RuntimeError (py_nth row i)) ind.

Definition cuda_hamming_topk (k : K) (layer : string) (q_hash : list QH) (block_table : list (list Z)) (seq_lens : list Z)
    (topk_token sink_token recent_token : Z) : res (list (list Z)) :=
  if block_size =? 0 then Err ZeroDivisionError
  else if negb (topk_token mod block_size =? 0) then Err AssertionError
  else if negb ((0 <? recent_token) && (sink_token + recent_token <? topk_token)) then Err AssertionError
  else map_res (fun e => select_blocks k layer topk_token sink_token recent_token e.1.1 e.1.2 e.2) (zip (zip q_hash block_table) seq_lens).
End topk.

(** ** Configuration *)

Record DevConfig := {
  dc_is_mla : bool;
  dc_block_size : Z;
  dc_topk_tokens : Z;
  dc_rollback_layers : list Z;
  dc_skip_layers : list Z;
  dc_seq_len_threshold : Z;
  dc_concurrency_threshold : Z;
  dc_max_batch_size : Z;
  (** [max_model_len] *)
  dc_max_num_tokens : Z;
  dc_use_graph : bool;
}.

(** [int(layer_name.split(".")[2])] *)
Definition get_layer_state (c : DevConfig) (layer_name : string) : res (bool * bool) :=
  let? part := py_idx (split_on dot layer_name) 2 in
  let? layer_id := of_option ValueError (py_int part) in
  let? skip := if layer_id <? pylen (dc_skip_layers c) then py_idx (dc_skip_layers c) layer_id else Ok 0 in
  Ok (mem layer_id (dc_rollback_layers c), negb (skip =? 0)).

(** ** Tensors *)

(** The first [v_rows] rows of a tensor. *)
Record View := MkView { v_id : Z; v_rows : Z }.

Record Tensors := MkTensors { tables : gmap Z (list (list Z)); vectors : gmap Z (list Z) }.

(** The buffers of the method: [full_block_table], [full_seq_lens] and
    [cg_buf_topk_seq_lens_qwen]. *)
Definition FULL_TABLE : Z := -1.
Definition FULL_LENS : Z := -2.
Definition TOPK_LENS : Z := -3.

(** Attention metadata. *)
Record DecodeMeta := MkDecode {
  d_block_table : list (list Z);
  d_seq_lens : list Z;
  d_tile : Tile;
}.

Record PrefillMeta := {
  p_block_table : list (list Z);
  (** [chunked_context.seq_lens] *)
  p_chunked_seq_lens : option (option (list Z));
  p_query_start_loc : option (list Z);
  p_seq_lens : option (list Z);
}.

Record AttnMetadata := MkMeta {
  m_block_table : View;
  m_seq_lens : View;
  m_query_start_loc : list Z;
  m_slot_mapping : list Z;
  m_num_actual_tokens : Z;
  m_decode : option (DecodeMeta);
  m_prefill : option PrefillMeta;
}.

(** ** State *)

Record Flags := MkFlags {
  gsa_enabled : bool;
  has_decode : bool;
  decode_only : bool;
  has_pc_hit : bool;
}.

(** The tensors the method remembers: the full tables, the ones it writes, the
    last choice and its lengths. *)
Record Views := MkViews {
  ori_table : View;
  ori_lens : View;
  new_table : View;
  new_lens : View;
  topk_lens_qwen : View;
}.

(** For MLA: the lengths of the choice with the tiles planned for them, the
    metadata of the decoding requests before the hook, and the last choice. *)
Record Mla := MkMla {
  topk_seq_lens_mla : option (list Z * Tile);
  mla_origin : option (DecodeMeta);
  mla_topk_table : option (list (list Z));
}.

(** The buffers CUDA graphs read: [cg_buf_topk_tile_scheduler_metadata],
    [cg_buf_topk_num_splits] and [cg_buf_topk_seq_lens]. *)
Record CgBuffers := MkCg { cg_tile : list (list Z); cg_splits : list Z; cg_lens : list Z }.

Record Dev (K : Type) := MkDev {
  flags : Flags;
  num_reqs : Z;
  is_prefill_flag : gmap string bool;
  decode_req_ids : list Z;
  (** the prefix-cache hits of the step: their slots and blocks *)
  prefix_info : list Z * list Z;
  views : option Views;
  topk_views : option (View * View);
  mla : Mla;
  cg_bufs : CgBuffers;
  tensors : Tensors;
  metas : gmap Z (AttnMetadata);
  khash : K;
}.
Arguments MkDev {K} _ _ _ _ _ _ _ _ _ _ _ _.
Arguments flags {K} _.
Arguments num_reqs {K} _.
Arguments is_prefill_flag {K} _.
Arguments decode_req_ids {K} _.
Arguments prefix_info {K} _.
Arguments views {K} _.
Arguments topk_views {K} _.
Arguments mla {K} _.
Arguments cg_bufs {K} _.
Arguments tensors {K} _.
Arguments metas {K} _.
Arguments khash {K} _.

Section setters.
Context {K : Type}.
Definition with_flags (x : Flags) (s : Dev K) : Dev K := MkDev x (num_reqs s) (is_prefill_flag s) (decode_req_ids s) (prefix_info s) (views s) (topk_views s) (mla s) (cg_bufs s) (tensors s) (metas s) (khash s).
Definition with_num_reqs (x : Z) (s : Dev K) : Dev K := MkDev (flags s) x (is_prefill_flag s) (decode_req_ids s) (prefix_info s) (views s) (topk_views s) (mla s) (cg_bufs s) (tensors s) (metas s) (khash s).
Definition with_prefill_flag (x : gmap string bool) (s : Dev K) : Dev K := MkDev (flags s) (num_reqs s) x (decode_req_ids s) (prefix_info s) (views s) (topk_views s) (mla s) (cg_bufs s) (tensors s) (metas s) (khash s).
Definition with_decode_req_ids (x : list Z) (s : Dev K) : Dev K := MkDev (flags s) (num_reqs s) (is_prefill_flag s) x (prefix_info s) (views s) (topk_views s) (mla s) (cg_bufs s) (tensors s) (metas s) (khash s).
Definition with_prefix_info (x : list Z * list Z) (s : Dev K) : Dev K := MkDev (flags s) (num_reqs s) (is_prefill_flag s) (decode_req_ids s) x (views s) (topk_views s) (mla s) (cg_bufs s) (tensors s) (metas s) (khash s).
Definition with_views (x : option Views) (s : Dev K) : Dev K := MkDev (flags s) (num_reqs s) (is_prefill_flag s) (decode_req_ids s) (prefix_info s) x (topk_views s) (mla s) (cg_bufs s) (tensors s) (metas s) (khash s).
Definition with_topk_views (x : option (View * View)) (s : Dev K) : Dev K := MkDev (flags s) (num_reqs s) (is_prefill_flag s) (decode_req_ids s) (prefix_info s) (views s) x (mla s) (cg_bufs s) (tensors s) (metas s) (khash s).
Definition with_mla (x : Mla) (s : Dev K) : Dev K := MkDev (flags s) (num_reqs s) (is_prefill_flag s) (decode_req_ids s) (prefix_info s) (views s) (topk_views s) x (cg_bufs s) (tensors s) (metas s) (khash s).
Definition with_cg_bufs (x : CgBuffers) (s : Dev K) : Dev K := MkDev (flags s) (num_reqs s) (is_prefill_flag s) (decode_req_ids s) (prefix_info s) (views s) (topk_views s) (mla s) x (tensors s) (metas s) (khash s).
Definition with_tensors (x : Tensors) (s : Dev K) : Dev K := MkDev (flags s) (num_reqs s) (is_prefill_flag s) (decode_req_ids s) (prefix_info s) (views s) (topk_views s) (mla s) (cg_bufs s) x (metas s) (khash s).
Definition with_metas (x : gmap Z AttnMetadata) (s : Dev K) : Dev K := MkDev (flags s) (num_reqs s) (is_prefill_flag s) (decode_req_ids s) (prefix_info s) (views s) (topk_views s) (mla s) (cg_bufs s) (tensors s) x (khash s).
Definition with_khash (x : K) (s : Dev K) : Dev K := MkDev (flags s) (num_reqs s) (is_prefill_flag s) (decode_req_ids s) (prefix_info s) (views s) (topk_views s) (mla s) (cg_bufs s) (tensors s) (metas s) x.
End setters.

Section device.
Context {K Kv Qv QH : Type} `{HashOps K Kv Qv QH}.
Context (c : DevConfig).
Abbreviation ST := (Dev K).

Definition max_block_per_seq : Z := cdiv (dc_max_num_tokens c) (dc_block_size c).

Definition the {A} (e : exn) (o : option A) : M ST A := lift_res (of_option e o).

(** *** Reading and writing tensors *)
Definition read_table (v : View) : M ST (list (list Z)) :=
  let! t := gets (fun s => tables (tensors s) !! v_id v) in
  let! rows := the RuntimeError t in
  ret (take (Z.to_nat (v_rows v)) rows).
Definition read_lens (v : View) : M ST (list Z) :=
  let! t := gets (fun s => vectors (tensors s) !! v_id v) in
  let! xs := the RuntimeError t in
  ret (take (Z.to_nat (v_rows v)) xs).

Definition put_table (id : Z) (rows : list (list Z)) : M ST unit :=
  modify (fun s => with_tensors (MkTensors (<[id := rows]> (tables (tensors s))) (vectors (tensors s))) s).
Definition put_lens (id : Z) (xs : list Z) : M ST unit :=
  modify (fun s => with_tensors (MkTensors (tables (tensors s)) (<[id := xs]> (vectors (tensors s)))) s).

(** [x[: n].copy_(y)]: one row is repeated, otherwise the numbers of rows agree. *)
Definition broadcast {A} (n : Z) (l : list A) : res (list A) :=
  if pylen l =? n then Ok l
  else match l with [x] => Ok (py_repeat x n) | _ => Err RuntimeError end.

(** [x[: n] = y] and [x[: n].copy_(y)] on rows: the rows beyond are kept. *)
Definition assign_prefix {A} (n : Z) (y x : list A) : res (list A) :=
  let m := Z.min n (pylen x) in
  let? y := broadcast m y in Ok (y ++ drop (Z.to_nat m) x).

Definition copy_table (id n : Z) (rows : list (list Z)) : M ST unit :=
  let! rows := lift_res (map_res (broadcast max_block_per_seq) rows) in
  let! old := gets (fun s => tables (tensors s) !! id) in
  let! old := the RuntimeError old in
  let! new := lift_res (assign_prefix n rows old) in
  put_table id new.
Definition copy_lens (id n : Z) (xs : list Z) : M ST unit :=
  let! old := gets (fun s => vectors (tensors s) !! id) in
  let! old := the RuntimeError old in
  let! new := lift_res (assign_prefix n xs old) in
  put_lens id new.

(** [table[i, : topk] = chosen; table[i, topk :] = 0] for the rows given *)
Definition write_row (e : Z * list Z) (rows : list (list Z)) : res (list (list Z)) :=
  let? row := py_idx rows e.1 in
  if pylen row <? pylen e.2 then Err RuntimeError
  else of_option IndexError (py_setitem rows e.1 (e.2 ++ py_repeat 0 (pylen row - pylen e.2))).
Fixpoint write_rows (l : list (Z * list Z)) (rows : list (list Z)) : res (list (list Z)) :=
  match l with
  | [] => Ok rows
  | e :: l' => let? rows' := write_row e rows in write_rows l' rows'
  end.
Fixpoint write_entries (l : list (Z * Z)) (xs : list Z) : res (list Z) :=
  match l with
  | [] => Ok xs
  | (i, x) :: l' => let? xs' := of_option IndexError (py_setitem xs i x) in write_entries l' xs'
  end.

(** *** Metadata objects: [get_layer_attn_metadata] *)
Definition layer_meta (ctx : string -> option Z) (layer_name : string) : M ST Z := the KeyError (ctx layer_name).
Definition get_meta (id : Z) : M ST (AttnMetadata) :=
  let! o := gets (fun s => metas s !! id) in the KeyError o.
Definition set_meta (id : Z) (m : AttnMetadata) : M ST unit := modify (fun s => with_metas (<[id := m]> (metas s)) s).
Definition set_view (id : Z) (table lens : View) : M ST unit :=
  let! m := get_meta id in
  set_meta id (MkMeta table lens (m_query_start_loc m) (m_slot_mapping m) (m_num_actual_tokens m) (m_decode m) (m_prefill m)).
Definition set_decode (id : Z) (d : DecodeMeta) : M ST unit :=
  let! m := get_meta id in
  set_meta id (MkMeta (m_block_table m) (m_seq_lens m) (m_query_start_loc m) (m_slot_mapping m) (m_num_actual_tokens m)
                 (Some d) (m_prefill m)).

(** *** Hashing the keys: [cache_k_hash_gqa_cuda], [cache_k_hash_mla_cuda]

    [prefix_keys] reads the KV cache of the layer at the blocks of the
    prefix-cache hits. *)
Context (prefix_keys : string -> list Z -> list Kv).

Definition cache_k_hash_gqa_cuda (key : list Kv) (meta : AttnMetadata) (layer_name : string) : M ST unit :=
  let slots := m_slot_mapping meta in
  do! modify (fun s => with_khash (cache_keys layer_name (slice_to key (pylen slots)) slots (khash s)) s) in
  let! f := gets flags in
  if has_pc_hit f then
    let! ' (slots, blocks) := gets prefix_info in
    let k_cache := prefix_keys layer_name blocks in
    modify (fun s => with_khash (cache_keys layer_name (slice_to k_cache (pylen slots)) slots (khash s)) s)
  else ret tt.

Definition cache_k_hash_mla_cuda (key : list Kv) (meta : AttnMetadata) (layer_name : string) : M ST unit :=
  do! modify (fun s => with_khash (cache_keys layer_name key (m_slot_mapping meta) (khash s)) s) in
  let! f := gets flags in
  if has_pc_hit f then
    let! ' (slots, blocks) := gets prefix_info in
    modify (fun s => with_khash (cache_keys layer_name (prefix_keys layer_name blocks) slots (khash s)) s)
  else ret tt.

(** *** Replacing the block table *)
Definition recent_token : Z := dc_block_size c * 4.

(** Writing rows of a view, and entries of one. *)
Definition update_table (v : View) (f : list (list Z) -> res (list (list Z))) : M ST unit :=
  let! rows := gets (fun s => tables (tensors s) !! v_id v) in
  let! rows := the RuntimeError rows in
  let! new := lift_res (f (take (Z.to_nat (v_rows v)) rows)) in
  put_table (v_id v) (new ++ drop (Z.to_nat (v_rows v)) rows).
Definition update_lens (v : View) (f : list Z -> res (list Z)) : M ST unit :=
  let! xs := gets (fun s => vectors (tensors s) !! v_id v) in
  let! xs := the RuntimeError xs in
  let! new := lift_res (f (take (Z.to_nat (v_rows v)) xs)) in
  put_lens (v_id v) (new ++ drop (Z.to_nat (v_rows v)) xs).

(** The rows [ids] of [l] with their numbers. *)
Definition pick {A} (ids : list Z) (l : list A) : res (list (Z * A)) :=
  map_res (fun i => let? x := py_idx l i in Ok (i, x)) ids.

Definition update_decode_topk_gqa_cuda (query : list Qv) (layer_name : string) (id : Z) : M ST unit :=
  let! n := gets num_reqs in
  let q_hash := hash_query <$> slice_to query n in
  let! m := get_meta id in
  let! table := read_table (m_block_table m) in
  let! lens := read_lens (m_seq_lens m) in
  let! k := gets khash in
  let! chosen := lift_res (cuda_hamming_topk (dc_block_size c) k layer_name q_hash table lens
                             (dc_topk_tokens c) (dc_block_size c) recent_token) in
  let! v := gets views in
  let! v := the AttributeError v in
  let! f := gets flags in
  do! (if decode_only f then
         do! (if pylen chosen =? n then ret tt else raise RuntimeError) in
         do! update_table (new_table v) (write_rows (enumerate chosen)) in
         do! set_view id (new_table v) (m_seq_lens m) in
         let! lens := read_lens (topk_lens_qwen v) in
         update_lens (new_lens v) (assign_prefix n lens)
       else
         let! ids := gets decode_req_ids in
         let! rows := lift_res (pick ids chosen) in
         do! update_table (new_table v) (write_rows rows) in
         do! set_view id (new_table v) (m_seq_lens m) in
         let! lens := read_lens (topk_lens_qwen v) in
         let! entries := lift_res (pick ids lens) in
         update_lens (new_lens v) (write_entries entries)) in
  do! set_view id (new_table v) (new_lens v) in
  modify (with_topk_views (Some (new_table v, new_lens v))).

Definition update_decode_topk_mla_cuda (is_rollback_layer is_skip_hash_layer : bool) (ql_nope q_pe : list Qv)
    (layer_name : string) (id : Z) : M ST unit :=
  if is_rollback_layer then ret tt
  else
    let! m := get_meta id in
    let! d := the AttributeError (m_decode m) in
    let! x := gets mla in
    let! block_table :=
      (if is_skip_hash_layer then the TypeError (mla_topk_table x)
       else
         let q_hash := (fun e => hash_query_mla e.1 e.2) <$> zip ql_nope q_pe in
         let! k := gets khash in
         let! t := lift_res (cuda_hamming_topk (dc_block_size c) k layer_name q_hash (d_block_table d) (d_seq_lens d)
                               (dc_topk_tokens c) (dc_block_size c) recent_token) in
         do! modify (fun s => with_mla (MkMla (topk_seq_lens_mla (mla s)) (mla_origin (mla s)) (Some t)) s) in
         ret t) in
    let! ' (seq_lens, tile) := the TypeError (topk_seq_lens_mla x) in
    do! modify (fun s => with_mla (MkMla (topk_seq_lens_mla (mla s)) (Some d) (mla_topk_table (mla s))) s) in
    set_decode id (MkDecode block_table seq_lens tile).

(** *** The hooks of a layer *)
Definition attention_begin (ctx : string -> option Z) (query ql_nope q_pe : list Qv) (key : list Kv) (decode_phase : bool)
    (layer_name : string) : M ST unit :=
  let! id := layer_meta ctx layer_name in
  let! m := get_meta id in
  let! ' (is_rollback_layer, is_skip_hash_layer) := lift_res (get_layer_state c layer_name) in
  do! (if is_rollback_layer || is_skip_hash_layer then ret tt
       else if dc_is_mla c then cache_k_hash_mla_cuda key m layer_name
       else cache_k_hash_gqa_cuda key m layer_name) in
  let! f := gets flags in
  if negb (gsa_enabled f) then ret tt
  else if dc_is_mla c then
    if decode_phase
    then update_decode_topk_mla_cuda is_rollback_layer is_skip_hash_layer ql_nope q_pe layer_name id
    else ret tt
  else if has_decode f && negb is_rollback_layer then
    if is_skip_hash_layer then
      let! v := gets topk_views in
      let! v := the AttributeError v in
      set_view id v.1 v.2
    else update_decode_topk_gqa_cuda query layer_name id
  else ret tt.

Definition attention_finished (ctx : string -> option Z) (decode_phase : bool) (layer_name : string) : M ST unit :=
  let! f := gets flags in
  if negb (gsa_enabled f) then ret tt
  else
    let! id := layer_meta ctx layer_name in
    if dc_is_mla c then
      if decode_phase then
        let! ' (is_rollback_layer, _) := lift_res (get_layer_state c layer_name) in
        if is_rollback_layer then ret tt
        else
          let! x := gets mla in
          let! d := the AttributeError (mla_origin x) in
          set_decode id d
      else ret tt
    else if has_decode f then
      let! ' (is_rollback_layer, _) := lift_res (get_layer_state c layer_name) in
      if is_rollback_layer then ret tt
      else
        let! v := gets views in
        let! v := the AttributeError v in
        set_view id (ori_table v) (ori_lens v)
    else ret tt.

(** *** What a step prepares *)

(** [maybe_init_cudagraph_buffers_for_topk] *)
Definition maybe_init_cudagraph_buffers_for_topk (n sm_parts : Z) (tile : Tile) (lens : list Z) : M ST (Tile * list Z) :=
  let! b := gets cg_bufs in
  let! tiles := lift_res (assign_prefix sm_parts tile.1 (cg_tile b)) in
  do! modify (with_cg_bufs (MkCg tiles (cg_splits b) (cg_lens b))) in
  let! splits := lift_res (assign_prefix n tile.2 (cg_splits b)) in
  let! last := lift_res (py_idx tile.2 (-1)) in
  let splits := slice_to splits n ++ py_repeat last (pylen (cg_splits b) - n) in
  do! modify (with_cg_bufs (MkCg tiles splits (cg_lens b))) in
  let! ls := lift_res (assign_prefix (pylen lens) lens (cg_lens b)) in
  do! modify (with_cg_bufs (MkCg tiles splits ls)) in
  ret ((slice_to tiles sm_parts, slice_to splits n), slice_to ls (pylen lens)).

(** [ids] are the entries of [decode_req_ids_buf]. *)
Definition prepare_cuda_decode_sparse_meta (m : AttnMetadata) (ids : list Z) : M ST unit :=
  if dc_is_mla c then
    match m_decode m with
    | None => ret tt
    | Some d =>
        let lens := update_seq_lens (d_seq_lens d) (dc_topk_tokens c) (dc_block_size c) in
        let set x := modify (fun s => with_mla (MkMla (Some x) (mla_origin (mla s)) (mla_topk_table (mla s))) s) in
        let tile := get_mla_metadata lens in
        do! set (lens, tile) in
        if dc_use_graph c then
          let! ' (tile, lens) := maybe_init_cudagraph_buffers_for_topk (pylen (d_tile d).2) (pylen (d_tile d).1) tile lens in
          set (lens, tile)
        else ret tt
    end
  else
    let! n := gets num_reqs in
    let! lens := read_lens (m_seq_lens m) in
    let! table := read_table (m_block_table m) in
    do! copy_lens FULL_LENS n lens in
    do! copy_table FULL_TABLE n table in
    let! f := gets flags in
    do! (if decode_only f then ret tt else modify (with_decode_req_ids ids)) in
    do! copy_lens TOPK_LENS n (update_seq_lens lens (dc_topk_tokens c) (dc_block_size c)) in
    modify (with_views (Some (MkViews (MkView FULL_TABLE n) (MkView FULL_LENS n) (m_block_table m) (m_seq_lens m)
                                (MkView TOPK_LENS n)))).

(** *** Requests *)

(** Slots and blocks of the tokens a request did not have to compute:
    [num_prefix_tokens], [num_prefix_blocks], [prefix_block_ids],
    [prefix_slot_mapping]. *)
Definition rebuild_prefix_cache_info_for_req (block_table_row : list Z) (num_prompt_tokens qlen : Z)
    : res (Z * Z * list Z * list Z) :=
  let block_size := dc_block_size c in
  if negb ((0 <=? qlen) && (qlen <=? num_prompt_tokens)) then Err AssertionError
  else
    let num_prefix_tokens := num_prompt_tokens - qlen in
    if num_prefix_tokens <=? 0 then Ok (0, 0, [], [])
    else
      let num_prefix_blocks := (num_prefix_tokens + block_size - 1) / block_size in
      let prefix_block_ids := slice_to block_table_row num_prefix_blocks in
      let token_idx := zrange 0 (Z.min num_prefix_tokens (dc_max_num_tokens c)) in
      let? slots := map_res (fun t =>
                       let block_index := t / block_size in
                       let block_offset := t - block_index * block_size in
                       let? b := py_idx prefix_block_ids block_index in
                       Ok (b * block_size + block_offset)) token_idx in
      Ok (num_prefix_tokens, num_prefix_blocks, prefix_block_ids, slots).

Definition get_block_table_row (m : AttnMetadata) (req_row_id qlen : Z) : M ST (list Z) :=
  if negb (dc_is_mla c) then
    let! table := read_table (m_block_table m) in
    lift_res (py_idx table req_row_id)
  else
    let rows := match m_decode m with Some d => d_block_table d | None => [] end in
    let num_decode_rows := pylen rows in
    let prefill_row :=
      match m_prefill m with
      | Some p =>
          let local := req_row_id - num_decode_rows in
          if (0 <=? local) && (local <? pylen (p_block_table p)) then py_idx (p_block_table p) local else Err RuntimeError
      | None => Err RuntimeError
      end in
    lift_res (if (qlen =? 1) && bool_decide (is_Some (m_decode m)) && (req_row_id <? num_decode_rows)
              then py_idx rows req_row_id
              else prefill_row).

(** [x[1:] - x[:-1]] *)
Definition differences (l : list Z) : list Z :=
  (fun e => e.1 - e.2) <$> zip (slice_from l 1) (slice_to l (-1)).

(** [None] where the metadata has no lengths. *)
Definition get_seq_lens (m : AttnMetadata) : M ST (option (list Z)) :=
  if negb (dc_is_mla c) then let! lens := read_lens (m_seq_lens m) in ret (Some lens)
  else
    ret (match m_decode m with
         | Some d => Some (d_seq_lens d)
         | None =>
             match m_prefill m with
             | None => None
             | Some p =>
                 match p_chunked_seq_lens p, p_query_start_loc p with
                 | Some lens, _ => lens
                 | None, Some q => Some (differences q)
                 | None, None => p_seq_lens p
                 end
             end
         end).

(** What [build_sparse_meta] reads of the scheduler's output and the requests. *)
Record DevReq := MkDevReq { dr_num_computed_tokens : Z; dr_num_prompt_tokens : Z }.
Record SchedOut := MkSched {
  so_num_scheduled_tokens : list (string * Z);
  so_num_external : gmap string Z;
  so_finished_req_ids : list string;
  (** [scheduled_cached_reqs]: the ids and [resumed_from_preemption] *)
  so_cached : list (string * bool);
}.

(** What the loop of [build_sparse_meta] gathers: the rows of the decoding
    requests, the slots and blocks of the hits and their number. *)
Record Gathered := MkGathered { g_ids : list Z; g_slots : list Z; g_blocks : list Z; g_hits : Z }.

(** [buf[k : k + n] = y] for a buffer of [cap] entries: what is written. *)
Definition append_to (cap : Z) (written y : list Z) (n : Z) : res (list Z) :=
  let k := pylen written in
  let? y := broadcast (Z.max 0 (Z.min (k + n) cap - k)) y in Ok (written ++ y).

Definition max_prefix_tokens : Z := dc_max_num_tokens c * dc_max_batch_size c.
Definition max_prefix_blocks : Z := cdiv max_prefix_tokens (dc_block_size c).

Definition gather_prefix (m : AttnMetadata) (req : DevReq) (row qlen : Z) (g : Gathered) : M ST Gathered :=
  let! block_table_row := get_block_table_row m row qlen in
  let! ' (nt, nb, blocks, slots) := lift_res (rebuild_prefix_cache_info_for_req block_table_row (dr_num_prompt_tokens req) qlen) in
  let! slots := lift_res (append_to max_prefix_tokens (g_slots g) slots nt) in
  let! blocks := lift_res (append_to max_prefix_blocks (g_blocks g) blocks nb) in
  ret (MkGathered (g_ids g) slots blocks (g_hits g + 1)).

Definition build_request (sched : SchedOut) (requests : string -> option DevReq) (req_id_to_index : string -> option Z)
    (m : AttnMetadata) (q_lens : list Z) (g : Gathered) (e : string * Z) : M ST Gathered :=
  let '(req_id, num_scheduled_tokens) := e in
  let! req := the KeyError (requests req_id) in
  let! flag := gets (fun s => is_prefill_flag s !! req_id) in
  let is_decode := bool_decide (flag = Some false) in
  let is_first_prefil := bool_decide (flag = None) in
  let is_prefill := is_first_prefil || bool_decide (flag = Some true) in
  let is_last_chunk := is_prefill && (dr_num_prompt_tokens req <=? dr_num_computed_tokens req + num_scheduled_tokens) in
  let! g :=
    (if is_decode then
       let! row := the KeyError (req_id_to_index req_id) in
       if dc_max_batch_size c <=? pylen (g_ids g) then raise IndexError
       else ret (MkGathered (g_ids g ++ [row]) (g_slots g) (g_blocks g) (g_hits g))
     else ret g) in
  let! g :=
    (if is_first_prefil then
       do! modify (fun s => with_prefill_flag (<[req_id := true]> (is_prefill_flag s)) s) in
       let! row := the KeyError (req_id_to_index req_id) in
       let! qlen := lift_res (py_idx q_lens row) in
       if 0 <? default 0 (so_num_external sched !! req_id) then gather_prefix m req row qlen g else ret g
     else ret g) in
  do! (if is_last_chunk then modify (fun s => with_prefill_flag (<[req_id := false]> (is_prefill_flag s)) s) else ret tt) in
  ret g.

(** [len([x for x in l if x >= threshold])] *)
Definition count_long (threshold : Z) (l : list Z) : Z := pylen (filter (fun x => threshold <= x) l).

Definition set_flags (g : Flags -> Flags) : M ST unit := modify (fun s => with_flags (g (flags s)) s).

Definition build_sparse_meta (sched : SchedOut) (requests : string -> option DevReq) (req_id_to_index : string -> option Z)
    (meta_id : Z) : M ST unit :=
  do! modify (with_num_reqs (pylen (so_num_scheduled_tokens sched))) in
  let! m := get_meta meta_id in
  let! seq_lens := get_seq_lens m in
  match seq_lens with
  | None => ret tt
  | Some lens =>
      let! n := gets num_reqs in
      let num_long_reqs := count_long (dc_seq_len_threshold c) (slice_to lens n) in
      let enabled := dc_concurrency_threshold c <=? num_long_reqs in
      do! set_flags (fun f => MkFlags enabled (has_decode f) (decode_only f) (has_pc_hit f)) in
      let q_lens := differences (m_query_start_loc m) in
      let! g := for_acc (so_num_scheduled_tokens sched) (MkGathered [] [] [] 0)
                  (build_request sched requests req_id_to_index m q_lens) in
      do! set_flags (fun f => MkFlags (gsa_enabled f) (has_decode f) (decode_only f) (0 <? g_hits g)) in
      do! (if 0 <? g_hits g then modify (with_prefix_info (g_slots g, g_blocks g)) else ret tt) in
      if negb enabled then ret tt
      else
        let num_decodes := pylen (g_ids g) in
        let some := 0 <? num_decodes in
        do! set_flags (fun f => MkFlags (gsa_enabled f) some (some && (num_decodes =? n)) (has_pc_hit f)) in
        if some then prepare_cuda_decode_sparse_meta m (g_ids g) else ret tt
  end.

(** Before a graph is captured, and after. *)
Definition build_dummy_sparse_meta (meta_id : Z) : M ST bool :=
  let! m := get_meta meta_id in
  let! seq_lens := get_seq_lens m in
  match seq_lens with
  | None => ret false
  | Some lens =>
      do! modify (with_num_reqs (pylen lens)) in
      do! set_flags (fun _ => MkFlags true true true false) in
      do! prepare_cuda_decode_sparse_meta m [] in
      ret true
  end.
Definition reset_gsa_capture_state : M ST unit := set_flags (fun _ => MkFlags false false false false).
Definition execute_finished : M ST unit := set_flags (fun _ => MkFlags false false false false).

Definition free_cached_request (request_id : string) : M ST unit :=
  modify (fun s => with_prefill_flag (delete request_id (is_prefill_flag s)) s).

Definition update_states (sched : SchedOut) : M ST unit :=
  do! for_ (so_finished_req_ids sched) free_cached_request in
  for_ (so_cached sched) (fun e => if e.2 then free_cached_request e.1 else ret tt).

(** *** A layer: [unified_attention_with_output]

    [impl.forward] reads the tables and the lengths the metadata refers to. *)
Record LayerCall := MkLayer { lc_name : string; lc_query : list Qv; lc_key : list Kv }.

Definition forward_reads (id : Z) : M ST (list (list Z) * list Z) :=
  let! m := get_meta id in
  let! table := read_table (m_block_table m) in
  let! lens := read_lens (m_seq_lens m) in
  ret (table, lens).

Definition unified_attention_with_output (ctx : string -> option Z) (l : LayerCall) : M ST (list (list Z) * list Z) :=
  let! id := layer_meta ctx (lc_name l) in
  do! attention_begin ctx (lc_query l) [] [] (lc_key l) false (lc_name l) in
  let! seen := forward_reads id in
  do! attention_finished ctx false (lc_name l) in
  ret seen.
End device.
Arguments LayerCall : clear implicits.
