(* ===== verification/GsaOnDeviceTopk.v ===== *)
(** * The blocks GSA on the device chooses

    The scores of a request's blocks, which of them the smallest ones are, and
    the tokens attention reads through a row of the sparse table: an increasing
    choice of the request's own tokens, with the first and the newest one. *)

From Stdlib Require Import Ascii String.
From S2P Require Import Prelude.
From S2P Require Import PyStr.
From S2P Require Import GsaOnDevice.
From stdpp Require Import strings sorting.
Local Open Scope Z_scope.
Local Open Scope py_scope.

(** ** Lists *)

Lemma map_res_Forall2 {A B} (f : A -> res B) l r : map_res f l = Ok r -> Forall2 (fun x y => f x = Ok y) l r.
Proof.
  revert r. induction l as [|x l IH]; cbn; intros r Hr; [injection Hr as <-; constructor|].
  destruct (f x) as [y|] eqn:E; [|done]. destruct (map_res f l) as [ys|] eqn:El; [|done].
  injection Hr as <-. constructor; [done|]. by apply IH.
Qed.

(** A list without duplicates inside [l'] is no longer than [l']. *)
Lemma NoDup_bound {A} (l l' : list A) : NoDup l -> (forall x, x ∈ l -> x ∈ l') -> (length l <= length l')%nat.
Proof. intros Hl Hi. by apply submseteq_length, NoDup_submseteq. Qed.

(** The smallest element of a slice. *)
Lemma foldr_min_le l d x : x ∈ l -> foldr Z.min d l <= x.
Proof. induction l as [|y l IH]; intros Hx; [by apply elem_of_nil in Hx|]. apply elem_of_cons in Hx as [-> |Hx]; cbn; [lia|]. specialize (IH Hx). lia. Qed.

Lemma foldr_min_elem l : l <> [] -> foldr Z.min (hd 0 l) l ∈ l.
Proof.
  intros Hl. destruct l as [|y l]; [done|]. cbn [hd].
  assert (G : forall l d, foldr Z.min d l = d \/ foldr Z.min d l ∈ l).
  { clear. induction l as [|z l IH]; intros d; [by left|]. cbn. destruct (IH d) as [-> |Hd].
    - destruct (Z.min_spec z d) as [[_ -> ]|[_ -> ]]; [right; left|by left].
    - destruct (Z.min_spec z (foldr Z.min d l)) as [[_ -> ]|[_ -> ]]; right; [left|by right]. }
  destruct (G (y :: l) y) as [->|]; [left|done].
Qed.

(** Strictly increasing integers. *)
Lemma sorted_lookup_lt (l : list Z) i j x y :
  StronglySorted Z.lt l -> (i < j)%nat -> l !! i = Some x -> l !! j = Some y -> x < y.
Proof.
  intros Hl. revert i j. induction Hl as [|z l Hl IH Hz]; intros i j Hij Hi Hj; [done|].
  destruct j as [|j]; [lia|]. destruct i as [|i]; cbn in *.
  - injection Hi as ->. rewrite Forall_lookup in Hz. by eapply Hz.
  - apply (IH i j); [lia|done..].
Qed.

Lemma merge_sort_increasing (l : list Z) : NoDup l -> StronglySorted Z.lt (merge_sort Z.le l).
Proof.
  intros Hl. pose proof (StronglySorted_merge_sort Z.le l) as Hs.
  assert (Hd : NoDup (merge_sort Z.le l)) by (by rewrite merge_sort_Permutation).
  induction Hs as [|x l' Hs IH Hx]; constructor; apply NoDup_cons in Hd as [Hn Hd]; [by apply IH|].
  rewrite Forall_forall in *. intros y Hy. specialize (Hx y Hy). assert (x <> y) by (by intros ->). lia.
Qed.

(** An increasing list of nonnegative integers that holds all below [n] starts
    with them. *)
Lemma increasing_prefix (l : list Z) (n : nat) :
  StronglySorted Z.lt l -> (forall x, x ∈ l -> 0 <= x) -> (forall x, 0 <= x < Z.of_nat n -> x ∈ l) ->
  forall i, (i < n)%nat -> l !! i = Some (Z.of_nat i).
Proof.
  intros Hs Hp Ha i. induction i as [i IH] using lt_wf_ind. intros Hi.
  assert (Hin : Z.of_nat i ∈ l) by (apply Ha; lia). apply list_elem_of_lookup in Hin as [k Hk].
  destruct (lt_eq_lt_dec k i) as [[Hlt| ->]|Hgt]; [|done|].
  - rewrite IH in Hk by lia. injection Hk. lia.
  - assert (is_Some (l !! i)) as [x Hx].
    { apply lookup_lt_is_Some. apply lookup_lt_Some in Hk. lia. }
    pose proof (sorted_lookup_lt l i k x _ Hs Hgt Hx Hk). pose proof (Hp x (list_elem_of_lookup_2 _ _ _ Hx)).
    assert (Hx' : l !! Z.to_nat x = Some x) by (rewrite (IH (Z.to_nat x)) by lia; f_equal; lia).
    pose proof (sorted_lookup_lt l (Z.to_nat x) i x x Hs ltac:(lia) Hx' Hx). lia.
Qed.

(** The largest element of an increasing list is its last. *)
Lemma increasing_last (l : list Z) m :
  StronglySorted Z.lt l -> m ∈ l -> (forall x, x ∈ l -> x <= m) -> last l = Some m.
Proof.
  intros Hs Hm Ha. apply list_elem_of_lookup in Hm as [i Hi]. rewrite last_lookup.
  pose proof (lookup_lt_Some _ _ _ Hi) as Hl.
  destruct (decide (i = Nat.pred (length l))) as [->|Hne]; [done|].
  assert (is_Some (l !! Nat.pred (length l))) as [x Hx] by (apply lookup_lt_is_Some; lia).
  pose proof (sorted_lookup_lt l i (Nat.pred (length l)) m x Hs ltac:(lia) Hi Hx). pose proof (Ha x (list_elem_of_lookup_2 _ _ _ Hx)). lia.
Qed.

Lemma increasing_fmap_zrange (f : Z -> Z) lo hi :
  (forall p p', lo <= p < p' -> p' < hi -> f p < f p') -> StronglySorted Z.lt (f <$> zrange lo hi).
Proof.
  remember (Z.to_nat (hi - lo)) as m eqn:E. revert lo E. induction m as [|m IH]; intros lo E Hf.
  - rewrite zrange_nil by lia. constructor.
  - rewrite zrange_cons by lia. cbn. constructor.
    + apply IH; [lia|]. intros p p' Hp Hp'. apply Hf; lia.
    + apply Forall_forall. intros x (p & -> & Hp%elem_of_zrange)%list_elem_of_fmap. apply Hf; lia.
Qed.

Lemma lookup_zrange lo hi i : lo <= i < hi -> zrange lo hi !! Z.to_nat (i - lo) = Some i.
Proof. intros Hi. unfold zrange. rewrite list_lookup_fmap, lookup_seq_lt by lia. cbn. f_equal. lia. Qed.

(** ** What attention reads *)

(** The slot of a token of a request, and the slots read through a row. *)
Definition token_slot (bs : Z) (row : list Z) (t : Z) : Z := default 0 (row !! Z.to_nat (t / bs)) * bs + t mod bs.
Definition read_slots (bs : Z) (row : list Z) (len : Z) : list Z := token_slot bs row <$> zrange 0 len.

(** The lengths of the sparse rows: at most [topk] tokens, as many in the last
    block as before. *)
Lemma update_seq_len_short topk bs n : 0 < bs -> n <= topk -> update_seq_len topk bs n = n.
Proof. intros Hbs Hn. unfold update_seq_len. rewrite Z.max_l by lia. rewrite Z.div_small by lia. lia. Qed.

Lemma update_seq_len_long topk bs n : 0 < bs -> topk mod bs = 0 -> topk < n ->
  update_seq_len topk bs n = n - (cdiv n bs - topk / bs) * bs.
Proof.
  intros Hbs Hm Hn. unfold update_seq_len. rewrite Z.max_r by lia. do 2 f_equal.
  pose proof (cdiv_spec n bs Hbs). pose proof (Z.div_mod topk bs ltac:(lia)).
  symmetry. apply (Z.div_unique _ _ _ (n - topk + bs - 1 - bs * (cdiv n bs - topk / bs))); nia.
Qed.

(** ** What the kernels promise *)

Record TopkLaws {K Kv Qv QH : Type} (H : HashOps K Kv Qv QH) : Prop := {
  topk_length : forall k l, 0 <= k <= pylen l -> pylen (torch_topk k l) = k;
  topk_nodup : forall k l, NoDup (torch_topk k l);
  topk_range : forall k l i, i ∈ torch_topk k l -> 0 <= i < pylen l;
  topk_smallest : forall k l i j x y, i ∈ torch_topk k l -> j ∉ torch_topk k l -> 0 <= j ->
    l !! Z.to_nat i = Some x -> l !! Z.to_nat j = Some y -> x <= y;
}.

(** Hashes of different tokens differ, by less than a half can hold. *)
Definition hashes_differ {K Kv Qv QH} `{HashOps K Kv Qv QH} (k : K) (layer : string) (q : QH) : Prop :=
  forall block offset, 0 < hamming_dist k layer q block offset < INFINITY.

Lemma pylen_block_mins {K Kv Qv QH} `{HashOps K Kv Qv QH} bs k layer (q : QH) row len sink recent : 0 < bs ->
  pylen (block_mins bs (hamming_score bs k layer q row len sink recent)) = pylen row.
Proof.
  intros Hbs. pose proof (pylen_nonneg row). unfold block_mins, hamming_score.
  rewrite !pylen_fmap, (pylen_zrange 0 (bs * _)), Z.sub_0_r, Z.mul_comm, Z.div_mul by nia.
  rewrite pylen_zrange; lia.
Qed.

Section select.
Context {K Kv Qv QH : Type} `{HO : HashOps K Kv Qv QH} (LW : TopkLaws HO).
Context (bs topk : Z) (Hbs : 0 < bs) (Hmod : topk mod bs = 0) (Hbig : bs + bs * 4 < topk).
Context (k : K) (layer : string) (q : QH) (Hdist : hashes_differ k layer q).
Context (row : list Z) (len : Z) (Hlen : 0 < len <= bs * pylen row).

Abbreviation n := (topk / bs).
Abbreviation vb := (cdiv len bs).
Abbreviation score := (token_score bs k layer q row len bs (bs * 4)).
Abbreviation scores := (hamming_score bs k layer q row len bs (bs * 4)).
Abbreviation mins := (block_mins bs scores).

Lemma slice_zrange N a b : 0 <= a <= b -> b <= N -> slice (zrange 0 N) a b = zrange a b.
Proof.
  intros Ha Hb. rewrite (zrange_app 0 a N), (zrange_app a b N) by lia.
  rewrite slice_nonneg by lia. rewrite drop_app_length', take_app_length'; [done|..];
  rewrite length_zrange; lia.
Qed.

Lemma pylen_mins : pylen mins = pylen row.
Proof. by apply pylen_block_mins. Qed.

(** The score of a block is one of its tokens', and the smallest. *)
Lemma mins_lookup j : 0 <= j < pylen row ->
  exists m, mins !! Z.to_nat j = Some m
    /\ (exists p, j * bs <= p < (j + 1) * bs /\ score p = m)
    /\ (forall p, j * bs <= p < (j + 1) * bs -> m <= score p).
Proof.
  intros Hj. eexists. split.
  { pose proof pylen_mins as Hp. unfold block_mins, pylen in Hp. rewrite length_fmap, length_zrange in Hp.
    unfold block_mins. rewrite list_lookup_fmap. unfold zrange at 1. rewrite list_lookup_fmap, lookup_seq_lt by (unfold pylen in *; lia).
    cbn [fmap option_fmap option_map]. reflexivity. }
  replace (0 + Z.of_nat (0 + Z.to_nat j)) with j by lia. unfold hamming_score.
  rewrite <- slice_fmap, slice_zrange by nia.
  set (b := score <$> zrange (j * bs) ((j + 1) * bs)).
  assert (Hb : forall x, x ∈ b <-> exists p, j * bs <= p < (j + 1) * bs /\ score p = x).
  { intros x. unfold b. rewrite list_elem_of_fmap. setoid_rewrite elem_of_zrange. naive_solver. }
  split.
  - apply Hb, foldr_min_elem. unfold b. rewrite zrange_cons by nia. done.
  - intros p Hp. apply foldr_min_le, Hb. eauto.
Qed.

(** A block past the end scores infinity; one with a token of the request does
    not; the first and the last one score 0, and few others do. *)
Lemma score_bounds p : 0 <= score p /\ (p < len -> score p < INFINITY) /\ (len <= p -> score p = INFINITY).
Proof.
  unfold token_score. specialize (Hdist (default 0 (row !! Z.to_nat (p / bs))) (p mod bs)) as [Hd1 Hd2].
  destruct (Z.leb_spec len p); [unfold INFINITY; lia|]. destruct (_ || _); unfold INFINITY in *; lia.
Qed.

Lemma score_zero p : 0 <= p < len -> (score p = 0 <-> p < bs \/ len - bs * 4 <= p).
Proof.
  intros Hp. unfold token_score. specialize (Hdist (default 0 (row !! Z.to_nat (p / bs))) (p mod bs)) as [Hd1 Hd2].
  destruct (Z.leb_spec len p); [lia|]. destruct (Z.ltb_spec p bs); cbn; [lia|].
  destruct (Z.leb_spec (len - bs * 4) p); cbn; [|lia]. destruct (Z.ltb_spec p len); [lia|lia].
Qed.

Lemma vb_bounds : 0 < vb <= pylen row /\ bs * (vb - 1) < len <= bs * vb.
Proof. pose proof (cdiv_spec len bs Hbs). nia. Qed.

Lemma mins_valid j m : 0 <= j < vb -> mins !! Z.to_nat j = Some m -> 0 <= m < INFINITY.
Proof.
  intros Hj Hm. pose proof vb_bounds as [Hv Hb]. destruct (mins_lookup j ltac:(lia)) as (m' & Hm' & (p & Hp & <-) & Hle).
  rewrite Hm in Hm'. injection Hm' as ->. split; [apply score_bounds|].
  specialize (Hle (j * bs) ltac:(nia)). pose proof (score_bounds (j * bs)) as (_ & Hlt & _). specialize (Hlt ltac:(nia)). lia.
Qed.

Lemma mins_invalid j m : vb <= j < pylen row -> mins !! Z.to_nat j = Some m -> m = INFINITY.
Proof.
  intros Hj Hm. pose proof vb_bounds as [Hv Hb]. destruct (mins_lookup j ltac:(lia)) as (m' & Hm' & (p & Hp & <-) & Hle).
  rewrite Hm in Hm'. injection Hm' as ->. apply score_bounds. nia.
Qed.

Lemma mins_zero j : 0 <= j < vb -> (j = 0 \/ j = vb - 1) -> mins !! Z.to_nat j = Some 0.
Proof.
  intros Hj Hor. pose proof vb_bounds as [Hv Hb]. destruct (mins_lookup j ltac:(lia)) as (m & Hm & (p & Hp & Hs) & Hle).
  rewrite Hm. f_equal. pose proof (score_bounds p) as [Hs0 _].
  set (t := if decide (j = 0) then 0 else len - 1).
  assert (Ht : j * bs <= t < (j + 1) * bs /\ 0 <= t < len /\ (t < bs \/ len - bs * 4 <= t)).
  { unfold t. case_decide; [subst; nia|]. assert (j = vb - 1) as -> by lia. nia. }
  destruct Ht as (Ht & Htl & Hz). specialize (Hle t Ht). apply score_zero in Hz; [|done]. lia.
Qed.

(** The blocks that score 0. *)
Definition kept_blocks : list Z := 0 :: zrange ((len - bs * 4) / bs) vb.

Lemma mins_zero_kept j : 0 <= j < vb -> mins !! Z.to_nat j = Some 0 -> j ∈ kept_blocks.
Proof.
  intros Hj Hm. pose proof vb_bounds as [Hv Hb]. destruct (mins_lookup j ltac:(lia)) as (m & Hm' & (p & Hp & Hs) & _).
  rewrite Hm in Hm'. injection Hm' as <-. unfold kept_blocks. apply elem_of_cons.
  destruct (Z.lt_ge_cases p len) as [Hpl|Hpl].
  - apply score_zero in Hs; [|nia]. destruct Hs as [Hs|Hs]; [left; nia|].
    right. apply elem_of_zrange. split; [|lia]. nia.
  - destruct (score_bounds p) as (_ & _ & Hi). rewrite Hi in Hs by done. done.
Qed.

Lemma kept_blocks_few : (length kept_blocks <= 6)%nat.
Proof.
  unfold kept_blocks. cbn. rewrite length_zrange. pose proof vb_bounds as [Hv Hb].
  assert (vb - (len - bs * 4) / bs <= 5) by nia. lia.
Qed.

Lemma topk_blocks : topk = bs * n /\ 6 <= n.
Proof. pose proof (Z.div_mod topk bs ltac:(lia)). nia. Qed.

Context (Hn : n <= pylen row).
Abbreviation ind := (merge_sort Z.le (torch_topk n mins)).

Lemma elem_of_ind x : x ∈ ind <-> x ∈ torch_topk n mins.
Proof. by rewrite merge_sort_Permutation. Qed.

Lemma ind_facts : StronglySorted Z.lt ind /\ pylen ind = n /\ NoDup ind /\ (forall x, x ∈ ind -> 0 <= x < pylen row).
Proof.
  pose proof topk_blocks as [_ H6]. pose proof (topk_nodup _ LW n mins) as Hd.
  split; [by apply merge_sort_increasing|]. split.
  - unfold pylen. rewrite merge_sort_Permutation. apply (topk_length _ LW). rewrite pylen_mins. lia.
  - split; [by rewrite merge_sort_Permutation|]. intros x Hx%elem_of_ind.
    apply (topk_range _ LW) in Hx. by rewrite pylen_mins in Hx.
Qed.

(** A chosen block scores no more than one left out. *)
Lemma ind_smallest i j x y : i ∈ ind -> j ∉ ind -> 0 <= j ->
  mins !! Z.to_nat i = Some x -> mins !! Z.to_nat j = Some y -> x <= y.
Proof. rewrite !elem_of_ind. apply (topk_smallest _ LW). Qed.

Lemma mins_some j : 0 <= j < pylen row -> exists m, mins !! Z.to_nat j = Some m.
Proof. intros Hj. destruct (mins_lookup j Hj) as (m & Hm & _). eauto. Qed.

(** With one valid block left out, the chosen ones are valid. *)
Lemma left_out_valid j : 0 <= j < vb -> j ∉ ind -> forall x, x ∈ ind -> x < vb.
Proof.
  intros Hj Hn' x Hx. pose proof vb_bounds as [Hv _]. pose proof ind_facts as (_ & _ & _ & Hr).
  specialize (Hr x Hx). destruct (mins_some x Hr) as [mx Hmx]. destruct (mins_some j ltac:(lia)) as [mj Hmj].
  pose proof (ind_smallest x j mx mj Hx Hn' ltac:(lia) Hmx Hmj) as Hle.
  destruct (Z.lt_ge_cases x vb) as [|Hge]; [done|].
  apply mins_invalid in Hmx; [|lia]. apply mins_valid in Hmj; [|lia]. lia.
Qed.

Lemma ind_covers : vb <= n -> forall j, 0 <= j < vb -> j ∈ ind.
Proof.
  intros Hvn j Hj. destruct (decide (j ∈ ind)) as [|Hn']; [done|]. exfalso.
  pose proof ind_facts as (_ & Hl & Hd & Hr). pose proof (left_out_valid j Hj Hn') as Hlt.
  assert (Hb : (length (j :: ind) <= length (zrange 0 vb))%nat).
  { apply NoDup_bound; [by constructor|]. intros x Hx. apply elem_of_zrange.
    apply elem_of_cons in Hx as [-> |Hx]; [lia|]. specialize (Hlt x Hx). specialize (Hr x Hx). lia. }
  rewrite length_zrange in Hb. cbn in Hb. unfold pylen in Hl. lia.
Qed.

Lemma ind_within : n < vb -> forall x, x ∈ ind -> x < vb.
Proof.
  intros Hvn x Hx. pose proof ind_facts as (_ & Hl & Hd & Hr).
  destruct (decide (Forall (fun j => j ∈ ind) (zrange 0 vb))) as [Hall|Hex].
  - exfalso. rewrite Forall_forall in Hall.
    assert (Hb : (length (zrange 0 vb) <= length ind)%nat).
    { apply NoDup_bound; [|done]. unfold zrange. apply NoDup_fmap_2; [intros ???; lia|apply NoDup_seq]. }
    rewrite length_zrange in Hb. unfold pylen in Hl. lia.
  - apply not_Forall_Exists in Hex; [|intros ?; apply _]. apply Exists_exists in Hex as (j & Hj%elem_of_zrange & Hn').
    by apply (left_out_valid j).
Qed.

Lemma ind_keeps_ends j : 0 <= j < vb -> (j = 0 \/ j = vb - 1) -> j ∈ ind.
Proof.
  intros Hj Hor. destruct (decide (j ∈ ind)) as [|Hn']; [done|]. exfalso.
  pose proof vb_bounds as [Hv _]. pose proof ind_facts as (_ & Hl & Hd & Hr). pose proof (mins_zero j Hj Hor) as Hj0.
  assert (Hz : forall x, x ∈ ind -> x ∈ kept_blocks).
  { intros x Hx. specialize (Hr x Hx). pose proof (left_out_valid j Hj Hn' x Hx) as Hlt.
    destruct (mins_some x Hr) as [mx Hmx]. pose proof (ind_smallest x j mx 0 Hx Hn' ltac:(lia) Hmx Hj0).
    pose proof (mins_valid x mx ltac:(lia) Hmx). assert (mx = 0) as -> by lia. apply mins_zero_kept; [lia|done]. }
  assert (Hb : (length (j :: ind) <= length kept_blocks)%nat).
  { apply NoDup_bound; [by constructor|]. intros x Hx. apply elem_of_cons in Hx as [-> |Hx]; [|by apply Hz].
    by apply mins_zero_kept. }
  pose proof kept_blocks_few. pose proof topk_blocks. rewrite length_cons in Hb. unfold pylen in Hl. lia.
Qed.

Abbreviation new_len := (update_seq_len topk bs len).
Abbreviation used := (cdiv new_len bs).

(** As many tokens in the last block, and blocks enough chosen. *)
Lemma new_len_facts : 0 < new_len <= topk /\ new_len <= len /\ 0 < used <= n
  /\ new_len - (used - 1) * bs = len - (vb - 1) * bs /\ (len <= topk -> used = vb) /\ (topk < len -> used = n /\ n < vb).
Proof.
  pose proof vb_bounds as [Hv Hb]. pose proof topk_blocks as [Ht H6]. destruct (Z.le_gt_cases len topk) as [Hs|Hl].
  - rewrite update_seq_len_short by lia. nia.
  - rewrite update_seq_len_long by lia.
    assert (Hu : cdiv (len - (vb - n) * bs) bs = n) by (apply cdiv_unique; nia).
    rewrite Hu. nia.
Qed.

(** The blocks read: the request's own, from its first to its last. *)
Lemma ind_at j : 0 <= j < used -> exists x, ind !! Z.to_nat j = Some x /\ 0 <= x < vb
  /\ (j = 0 -> x = 0) /\ (x = vb - 1 <-> j = used - 1).
Proof.
  intros Hj. pose proof new_len_facts as (_ & _ & Hu & _ & Hs & Hl). pose proof vb_bounds as [Hv _].
  pose proof ind_facts as (Hi & Hp & _ & Hr).
  assert (Hr' : forall x, x ∈ ind -> 0 <= x) by (intros x Hx; apply Hr; done).
  destruct (Z.le_gt_cases len topk) as [Hle|Hgt].
  - rewrite Hs in * by done. exists j. split; [|lia].
    rewrite (increasing_prefix _ (Z.to_nat vb) Hi Hr'); [f_equal; lia| |lia].
    intros x Hx. apply ind_covers; lia.
  - destruct (Hl Hgt) as [Hun Hnv]. rewrite Hun in *. pose proof (ind_within Hnv) as Hw.
    assert (is_Some (ind !! Z.to_nat j)) as [x Hx] by (apply lookup_lt_is_Some; unfold pylen in Hp; lia).
    exists x. pose proof (list_elem_of_lookup_2 _ _ _ Hx) as Hxi. split; [done|]. split; [auto|].
    assert (Hlast : ind !! Z.to_nat (n - 1) = Some (vb - 1)).
    { pose proof (increasing_last ind (vb - 1) Hi) as Hz. rewrite last_lookup in Hz.
      replace (Nat.pred (length ind)) with (Z.to_nat (n - 1)) in Hz by (unfold pylen in Hp; lia).
      apply Hz; [apply ind_keeps_ends; lia|]. intros y Hy. specialize (Hw y Hy). lia. }
    split; [|split].
    + intros ->. change (Z.to_nat 0) with 0%nat in Hx.
      rewrite (increasing_prefix _ 1 Hi Hr' ltac:(intros y Hy; apply ind_keeps_ends; lia) 0) in Hx by lia.
      by injection Hx as <-.
    + intros ->. destruct (decide (j = n - 1)) as [|Hne]; [done|].
      pose proof (sorted_lookup_lt ind (Z.to_nat j) (Z.to_nat (n - 1)) _ _ Hi ltac:(lia) Hx Hlast). lia.
    + intros ->. rewrite Hx in Hlast. by injection Hlast.
Qed.

Lemma select_ind : select_indices bs k layer topk bs (bs * 4) q row len = Ok ind.
Proof. unfold select_indices. rewrite pylen_mins. destruct (Z.ltb_spec (pylen row) n); [lia|done]. Qed.

Lemma select_chosen : exists chosen, select_blocks bs k layer topk bs (bs * 4) q row len = Ok chosen
  /\ pylen chosen = n /\ forall i x, ind !! i = Some x -> chosen !! i = row !! Z.to_nat x.
Proof.
  pose proof ind_facts as (_ & Hl & _ & Hr). exists ((fun x => default 0 (row !! Z.to_nat x)) <$> ind).
  assert (Hrow : forall x, x ∈ ind -> is_Some (row !! Z.to_nat x)).
  { intros x Hx. apply lookup_lt_is_Some. specialize (Hr x Hx). unfold pylen in Hr. lia. }
  split; [|split].
  - unfold select_blocks. rewrite select_ind. apply map_res_ok. intros x Hx. unfold py_nth.
    specialize (Hr x Hx). destruct (Z.ltb_spec x 0); [lia|]. by destruct (Hrow x Hx) as [y ->].
  - by rewrite pylen_fmap.
  - intros i x Hx. rewrite list_lookup_fmap, Hx. cbn. destruct (Hrow x) as [y ->]; [|done]. by eapply list_elem_of_lookup_2.
Qed.

(** The token at position [p] of the sparse row. *)
Definition token_at (p : Z) : Z := default 0 (ind !! Z.to_nat (p / bs)) * bs + p mod bs.

Lemma token_at_block p : 0 <= p < new_len -> exists x, ind !! Z.to_nat (p / bs) = Some x /\ 0 <= p / bs < used
  /\ token_at p = x * bs + p mod bs /\ 0 <= x < vb /\ (p / bs = 0 -> x = 0) /\ (x = vb - 1 <-> p / bs = used - 1).
Proof.
  intros Hp. pose proof (cdiv_spec new_len bs Hbs) as Hc.
  assert (Hj : 0 <= p / bs < used) by nia. destruct (ind_at _ Hj) as (x & Hx & Hb).
  exists x. unfold token_at. rewrite Hx. done.
Qed.

Lemma token_at_lt p p' : 0 <= p < p' -> p' < new_len -> token_at p < token_at p'.
Proof.
  intros Hp Hp'. destruct (token_at_block p ltac:(lia)) as (x & Hx & Hj & -> & Hr & _).
  destruct (token_at_block p' ltac:(lia)) as (x' & Hx' & Hj' & -> & Hr' & _).
  pose proof ind_facts as (Hi & _). destruct (Z.lt_ge_cases (p / bs) (p' / bs)) as [Hlt|Hge].
  - pose proof (sorted_lookup_lt ind (Z.to_nat (p / bs)) (Z.to_nat (p' / bs)) _ _ Hi ltac:(lia) Hx Hx'). nia.
  - assert (He : p / bs = p' / bs) by nia. rewrite He, Hx' in Hx. injection Hx as ->. nia.
Qed.

Lemma token_at_bounds p : 0 <= p < new_len -> 0 <= token_at p < len /\ (p = 0 -> token_at p = 0)
  /\ (p = new_len - 1 -> token_at p = len - 1).
Proof.
  intros Hp. destruct (token_at_block p Hp) as (x & _ & Hj & -> & Hr & H0 & Hl).
  pose proof new_len_facts as (_ & _ & _ & He & _). pose proof vb_bounds as [Hv Hb]. pose proof (cdiv_spec new_len bs Hbs) as Hc.
  split; [|split].
  - destruct (decide (x = vb - 1)) as [Hx|Hx]; [|nia]. apply Hl in Hx as Hq. nia.
  - intros ->. rewrite H0 by (by apply Z.div_0_l; lia). rewrite Z.mod_0_l; lia.
  - intros ->. assert (Hq : (new_len - 1) / bs = used - 1) by nia. apply Hl in Hq as ->. nia.
Qed.

Lemma read_chosen chosen rest : (forall i x, ind !! i = Some x -> chosen !! i = row !! Z.to_nat x) -> pylen chosen = n ->
  read_slots bs (chosen ++ rest) new_len = token_slot bs row <$> (token_at <$> zrange 0 new_len).
Proof.
  intros Hc Hl. unfold read_slots. rewrite <- list_fmap_compose. apply list_fmap_ext.
  intros i p Hp. pose proof (list_elem_of_lookup_2 _ _ _ Hp) as Hr%elem_of_zrange.
  destruct (token_at_block p Hr) as (x & Hx & Hj & Ht & _). cbn. rewrite Ht. unfold token_slot.
  pose proof new_len_facts as (_ & _ & Hu & _).
  rewrite lookup_app_l by (unfold pylen in Hl; lia). rewrite (Hc _ _ Hx). f_equal.
  - rewrite Z.div_add_l, Z.div_small by (try apply Z.mod_pos_bound; lia). by rewrite Z.add_0_r.
  - rewrite Z.add_comm, Z.mod_add, Z.mod_mod; lia.
Qed.

(** C16. Attention over a row of the sparse table, with the length computed for
    it, reads an increasing choice of the request's own tokens, no more than
    [topk]: the first and the newest token are among them, and all of them are
    when the request is short.  This is for cached codes that differ from the
    query's, and a [topk] that is a whole number of blocks, more than five. *)
Theorem sparse_row_reads_own_tokens rest :
  exists chosen ts, select_blocks bs k layer topk bs (bs * 4) q row len = Ok chosen
    /\ read_slots bs (chosen ++ rest) new_len = token_slot bs row <$> ts
    /\ StronglySorted Z.lt ts /\ (forall t, t ∈ ts -> 0 <= t < len) /\ pylen ts <= topk
    /\ hd_error ts = Some 0 /\ last ts = Some (len - 1) /\ (len <= topk -> ts = zrange 0 len).
Proof.
  destruct select_chosen as (chosen & Hs & Hl & Hc). pose proof new_len_facts as (Hn0 & _ & _ & _ & Hshort & _).
  exists chosen, (token_at <$> zrange 0 new_len). split; [done|]. split; [by apply read_chosen|].
  split; [apply increasing_fmap_zrange; intros; apply token_at_lt; lia|]. split.
  { intros t (p & -> & Hp%elem_of_zrange)%list_elem_of_fmap. by apply token_at_bounds. }
  split; [rewrite pylen_fmap, pylen_zrange; lia|]. split; [|split].
  - rewrite zrange_cons by lia. cbn. f_equal. apply token_at_bounds; lia.
  - rewrite (zrange_app 0 (new_len - 1) new_len), (zrange_cons (new_len - 1)), (zrange_nil (new_len - 1 + 1)) by lia.
    rewrite fmap_app, last_app. cbn. f_equal. apply token_at_bounds; lia.
  - intros Hle. rewrite update_seq_len_short by lia. rewrite <- list_fmap_id. apply list_fmap_ext.
    intros i p Hp. pose proof (list_elem_of_lookup_2 _ _ _ Hp) as Hr%elem_of_zrange. cbn.
    destruct (token_at_block p) as (x & Hx & Hj & -> & _); [rewrite update_seq_len_short; lia|].
    pose proof ind_facts as (Hi & _ & _ & Hr').
    rewrite (increasing_prefix _ (Z.to_nat vb) Hi) in Hx; [injection Hx as <-| | |].
    + pose proof (Z.div_mod p bs). lia.
    + intros y Hy. by apply Hr'.
    + intros y Hy. pose proof new_len_facts as (_ & _ & Hu & _). apply ind_covers; [|lia]. rewrite <- Hshort by lia. lia.
    + rewrite Hshort in Hj by lia. lia.
Qed.
End select.
