(* ===== verification/GsaOnDeviceRuns.v ===== *)
(** * GSA on the device: a step of the worker

    What the layers of a decoding step see through the metadata they share,
    although the tables are rewritten in place under it. *)

From Stdlib Require Import Ascii String.
From S2P Require Import Prelude.
From S2P Require Import Wp.
From S2P Require Import PyStr.
From S2P Require Import GsaOnDevice.
From S2P Require Import GsaOnDeviceTopk.
From stdpp Require Import strings sorting.
Local Open Scope Z_scope.
Local Open Scope py_scope.

(** Run the glue of a method. *)
Ltac dev_step :=
  match goal with
  | |- wp (bind _ _) _ _ => apply wp_bind
  | |- wp (ret _) _ _ => apply wp_ret
  | |- wp (gets _) _ _ => apply wp_gets
  | |- wp (modify _) _ _ => apply wp_modify
  | |- wp (lift_res (of_option _ (Some _))) _ _ => eapply wp_lift; [reflexivity|]
  | |- wp (lift_res (Ok _)) _ _ => eapply wp_lift; [reflexivity|]
  end; cbv beta.
Ltac dev := repeat dev_step.

(** ** Writing rows and entries *)

Lemma py_idx_lookup {A} (l : list A) i x : 0 <= i -> l !! Z.to_nat i = Some x -> py_idx l i = Ok x.
Proof. intros Hi Hx. unfold py_idx, py_nth. destruct (Z.ltb_spec i 0); [lia|]. by rewrite Hx. Qed.

Lemma pick_ok {A} (ids : list Z) (l : list A) (f : Z -> A) :
  (forall i, i ∈ ids -> 0 <= i /\ l !! Z.to_nat i = Some (f i)) -> pick ids l = Ok ((fun i => (i, f i)) <$> ids).
Proof. intros Hl. apply map_res_ok. intros i Hi. destruct (Hl i Hi) as [H0 Hx]. by rewrite (py_idx_lookup _ _ _ H0 Hx). Qed.

(** A row of the sparse table: the chosen blocks, then zeros. *)
Definition pad (width : Z) (c : list Z) : list Z := c ++ py_repeat 0 (width - pylen c).

Lemma pylen_pad w c : pylen c <= w -> pylen (pad w c) = w.
Proof. intros Hc. unfold pad. rewrite pylen_app, pylen_repeat; lia. Qed.

Definition rows_of_width (w : Z) (rows : list (list Z)) : Prop := Forall (fun r => pylen r = w) rows.

Lemma write_rows_ok (f : Z -> list Z) w ids rows :
  rows_of_width w rows -> (forall i, i ∈ ids -> 0 <= i < pylen rows /\ pylen (f i) <= w) ->
  exists rows', write_rows ((fun i => (i, f i)) <$> ids) rows = Ok rows' /\ length rows' = length rows
    /\ rows_of_width w rows'
    /\ forall j : nat, (j < length rows)%nat -> rows' !! j = if mem (Z.of_nat j) ids then Some (pad w (f (Z.of_nat j))) else rows !! j.
Proof.
  revert rows. induction ids as [|i ids IH]; intros rows Hw Hi.
  { exists rows. split_and!; [done..|]. intros j Hj. unfold mem. by rewrite bool_decide_eq_false_2 by apply not_elem_of_nil. }
  destruct (Hi i ltac:(left)) as [Hir Hil].
  assert (is_Some (rows !! Z.to_nat i)) as [r Hr] by (apply lookup_lt_is_Some; unfold pylen in Hir; lia).
  assert (Hrw : pylen r = w) by (eapply (Forall_lookup_1 _ _ _ _ Hw Hr)).
  set (rows1 := <[Z.to_nat i := pad w (f i)]> rows).
  assert (Hl1 : length rows1 = length rows) by apply length_insert.
  destruct (IH rows1) as (rows' & Hrun & Hl & Hw' & Hlook).
  { apply Forall_insert; [done|]. by apply pylen_pad. }
  { intros k Hk. unfold pylen. rewrite Hl1. apply Hi. by right. }
  exists rows'. split_and!; [|congruence|done|].
  - cbn. unfold write_row. cbn [fst snd]. rewrite (py_idx_lookup _ _ _ (proj1 Hir) Hr). rewrite Hrw.
    destruct (Z.ltb_spec w (pylen (f i))); [lia|]. rewrite py_setitem_ok by done. exact Hrun.
  - intros j Hj. rewrite Hlook by lia. unfold mem, rows1 in *. destruct (decide (Z.of_nat j ∈ ids)) as [Hin|Hni].
    + by rewrite !bool_decide_eq_true_2 by (try right; done).
    + rewrite (bool_decide_eq_false_2 (_ ∈ ids)) by done. destruct (decide (Z.of_nat j = i)) as [<-|Hne].
      * rewrite Nat2Z.id, list_lookup_insert_eq by done. by rewrite bool_decide_eq_true_2 by left.
      * rewrite list_lookup_insert_ne by lia. rewrite bool_decide_eq_false_2; [done|]. by intros [|]%elem_of_cons.
Qed.

Lemma write_entries_ok (f : Z -> Z) ids xs : (forall i, i ∈ ids -> 0 <= i < pylen xs) ->
  exists xs', write_entries ((fun i => (i, f i)) <$> ids) xs = Ok xs' /\ length xs' = length xs
    /\ forall j : nat, (j < length xs)%nat -> xs' !! j = if mem (Z.of_nat j) ids then Some (f (Z.of_nat j)) else xs !! j.
Proof.
  revert xs. induction ids as [|i ids IH]; intros xs Hi.
  { exists xs. split_and!; [done..|]. intros j Hj. unfold mem. by rewrite bool_decide_eq_false_2 by apply not_elem_of_nil. }
  pose proof (Hi i ltac:(left)) as Hir. set (xs1 := <[Z.to_nat i := f i]> xs).
  assert (Hl1 : length xs1 = length xs) by apply length_insert.
  destruct (IH xs1) as (xs' & Hrun & Hl & Hlook).
  { intros k Hk. unfold pylen. rewrite Hl1. apply Hi. by right. }
  exists xs'. split_and!; [|congruence|].
  - cbn. rewrite py_setitem_ok by done. exact Hrun.
  - intros j Hj. rewrite Hlook by lia. unfold mem, xs1 in *. destruct (decide (Z.of_nat j ∈ ids)) as [Hin|Hni].
    + by rewrite !bool_decide_eq_true_2 by (try right; done).
    + rewrite (bool_decide_eq_false_2 (_ ∈ ids)) by done. destruct (decide (Z.of_nat j = i)) as [<-|Hne].
      * rewrite Nat2Z.id, list_lookup_insert_eq by done. by rewrite bool_decide_eq_true_2 by left.
      * rewrite list_lookup_insert_ne by lia. rewrite bool_decide_eq_false_2; [done|]. by intros [|]%elem_of_cons.
Qed.

(** A list of [n] items given by their indices. *)
Definition tabulate {A} (n : Z) (f : Z -> A) : list A := f <$> zrange 0 n.

Lemma tabulate_lookup {A} n (f : Z -> A) (j : nat) : Z.of_nat j < n -> tabulate n f !! j = Some (f (Z.of_nat j)).
Proof. intros Hj. unfold tabulate, zrange. rewrite !list_lookup_fmap, lookup_seq_lt by lia. done. Qed.

Lemma length_tabulate {A} n (f : Z -> A) : length (tabulate n f) = Z.to_nat n.
Proof. unfold tabulate. rewrite length_fmap, length_zrange. f_equal. lia. Qed.

Lemma tabulate_eq {A} n (f : Z -> A) (l : list A) : Z.to_nat n = length l ->
  (forall j, (j < length l)%nat -> l !! j = Some (f (Z.of_nat j))) -> l = tabulate n f.
Proof.
  intros Hn Hl. apply list_eq. intros j. destruct (decide (j < length l)%nat) as [Hj|Hj].
  - rewrite Hl, tabulate_lookup by lia. done.
  - rewrite !(proj2 (lookup_ge_None _ _)); rewrite ?length_tabulate; [done|lia..].
Qed.

Lemma enumerate_tabulate {A} n (f : Z -> A) : enumerate (tabulate n f) = (fun i => (i, f i)) <$> zrange 0 n.
Proof.
  unfold enumerate, enumerate_from, tabulate. destruct (Z.le_gt_cases n 0).
  { rewrite (zrange_nil 0 n) by lia. by rewrite zrange_nil by done. }
  replace (0 + pylen (f <$> zrange 0 n)) with n by (rewrite pylen_fmap, pylen_zrange; lia).
  induction (zrange 0 n) as [|x l IH]; cbn; [done|]. by rewrite IH.
Qed.

Lemma map_res_index {A B} (f : A -> res B) (g : Z -> B) l :
  (forall (j : nat) x, l !! j = Some x -> f x = Ok (g (Z.of_nat j))) -> map_res f l = Ok (tabulate (pylen l) g).
Proof.
  intros Hf. assert (Hr : exists r, map_res f l = Ok r).
  { assert (Hx : forall x, x ∈ l -> exists y, f x = Ok y).
    { intros x (j & Hj)%list_elem_of_lookup. eauto. }
    clear Hf. induction l as [|x l IH]; [by exists []|]. cbn.
    destruct (Hx x ltac:(left)) as [y ->]. destruct IH as [r ->]; [|by eexists]. intros z Hz. apply Hx. by right. }
  destruct Hr as [r Hr]. rewrite Hr. f_equal. apply map_res_Forall2 in Hr. pose proof (Forall2_length _ _ _ Hr) as Hl.
  apply tabulate_eq; [unfold pylen; lia|]. intros j Hj.
  destruct (lookup_lt_is_Some_2 l j ltac:(lia)) as [x Hx]. destruct (Forall2_lookup_l _ _ _ _ _ Hr Hx) as (y & Hy & Hfy).
  rewrite (Hf _ _ Hx) in Hfy. rewrite Hy. congruence.
Qed.

(** ** Reading and writing through views *)
Section views.
Context {K : Type}.
Implicit Types (s : Dev K) (v : View).

(** A view refers to the rows (or the entries) given. *)
Definition shows s v (rows : list (list Z)) : Prop :=
  exists t, tables (tensors s) !! v_id v = Some t /\ take (Z.to_nat (v_rows v)) t = rows.
Definition shows_lens s v (xs : list Z) : Prop :=
  exists t, vectors (tensors s) !! v_id v = Some t /\ take (Z.to_nat (v_rows v)) t = xs.

Lemma wp_read_table v rows (Q : list (list Z) -> Dev K -> Prop) s : shows s v rows -> Q rows s -> wp (read_table v) Q s.
Proof. intros (t & Ht & <-) HQ. unfold wp, read_table, the. m_unfold. by rewrite Ht. Qed.

Lemma wp_read_lens v xs (Q : list Z -> Dev K -> Prop) s : shows_lens s v xs -> Q xs s -> wp (read_lens v) Q s.
Proof. intros (t & Ht & <-) HQ. unfold wp, read_lens, the. m_unfold. by rewrite Ht. Qed.

Definition set_table (id : Z) (t : list (list Z)) s : Dev K :=
  with_tensors (MkTensors (<[id := t]> (tables (tensors s))) (vectors (tensors s))) s.
Definition set_lens (id : Z) (t : list Z) s : Dev K :=
  with_tensors (MkTensors (tables (tensors s)) (<[id := t]> (vectors (tensors s)))) s.

Lemma take_replaced {A} n (new old : list A) : length new = length (take n old) -> take n (new ++ drop n old) = new.
Proof.
  rewrite length_take. intros Hl. destruct (Nat.le_gt_cases n (length old)).
  - rewrite take_app_length'; [done|lia].
  - rewrite drop_ge, app_nil_r by lia. apply take_ge. lia.
Qed.

Lemma wp_update_table v f rows new (Q : unit -> Dev K -> Prop) s :
  shows s v rows -> f rows = Ok new -> length new = length rows ->
  (forall t, take (Z.to_nat (v_rows v)) t = new -> Q tt (set_table (v_id v) t s)) -> wp (update_table v f) Q s.
Proof.
  intros (t & Ht & <-) Hf Hl HQ. unfold wp, update_table, the, put_table. m_unfold. rewrite Ht. cbn. rewrite Hf.
  apply HQ. by apply take_replaced.
Qed.

Lemma wp_update_lens v f xs new (Q : unit -> Dev K -> Prop) s :
  shows_lens s v xs -> f xs = Ok new -> length new = length xs ->
  (forall t, take (Z.to_nat (v_rows v)) t = new -> Q tt (set_lens (v_id v) t s)) -> wp (update_lens v f) Q s.
Proof.
  intros (t & Ht & <-) Hf Hl HQ. unfold wp, update_lens, the, put_lens. m_unfold. rewrite Ht. cbn. rewrite Hf.
  apply HQ. by apply take_replaced.
Qed.

Lemma shows_set_table v t s rows : take (Z.to_nat (v_rows v)) t = rows -> shows (set_table (v_id v) t s) v rows.
Proof. intros Ht. exists t. cbn. by rewrite lookup_insert_eq. Qed.
Lemma shows_set_table_ne v id t s rows : id <> v_id v -> shows s v rows -> shows (set_table id t s) v rows.
Proof. intros Hne (x & Hx & Hr). exists x. cbn. by rewrite lookup_insert_ne. Qed.
Lemma shows_set_lens v id t s rows : shows s v rows -> shows (set_lens id t s) v rows.
Proof. done. Qed.
Lemma shows_lens_set_lens v t s xs : take (Z.to_nat (v_rows v)) t = xs -> shows_lens (set_lens (v_id v) t s) v xs.
Proof. intros Ht. exists t. cbn. by rewrite lookup_insert_eq. Qed.
Lemma shows_lens_set_lens_ne v id t s xs : id <> v_id v -> shows_lens s v xs -> shows_lens (set_lens id t s) v xs.
Proof. intros Hne (x & Hx & Hr). exists x. cbn. by rewrite lookup_insert_ne. Qed.
Lemma shows_lens_set_table v id t s xs : shows_lens s v xs -> shows_lens (set_table id t s) v xs.
Proof. done. Qed.

Lemma wp_get_meta id m (Q : AttnMetadata -> Dev K -> Prop) s : metas s !! id = Some m -> Q m s -> wp (get_meta id) Q s.
Proof. intros Hm HQ. unfold wp, get_meta, the. m_unfold. by rewrite Hm. Qed.

Definition retarget (m : AttnMetadata) (table lens : View) : AttnMetadata :=
  MkMeta table lens (m_query_start_loc m) (m_slot_mapping m) (m_num_actual_tokens m) (m_decode m) (m_prefill m).

Lemma wp_set_view id table lens m (Q : unit -> Dev K -> Prop) s : metas s !! id = Some m ->
  Q tt (with_metas (<[id := retarget m table lens]> (metas s)) s) -> wp (set_view id table lens) Q s.
Proof. intros Hm HQ. unfold set_view. apply wp_bind, (wp_get_meta _ m); [done|]. by apply wp_modify. Qed.
End views.

(** ** A step *)
Section step.
Context {K Kv Qv QH : Type} `{HO : HashOps K Kv Qv QH} (LW : TopkLaws HO).
Context (c : DevConfig) (prefix_keys : string -> list Z -> list Kv).
Abbreviation bs := (dc_block_size c).
Abbreviation topk := (dc_topk_tokens c).

(** What the configuration of a GQA model promises; the lengths are checked by
    [__init__] and by [cuda_hamming_topk]. *)
Record GqaConfig : Prop := {
  gc_gqa : dc_is_mla c = false;
  gc_block : 0 < bs;
  gc_divides : topk mod bs = 0;
  gc_topk : bs + bs * 4 < topk;
  gc_fits : topk / bs <= max_block_per_seq c;
}.
Context (GC : GqaConfig).
Abbreviation width := (max_block_per_seq c).

(** The step: its requests, their full tables and lengths, the slots of its
    tokens, the rows whose choice is used and the prefix-cache hits. *)
Context (n : Z) (T : list (list Z)) (L : list Z) (slots : list Z) (D : list Z) (hit : option (list Z * list Z)).
Context (HT : pylen T = n) (HL : pylen L = n) (HW : rows_of_width width T) (HD : forall i, i ∈ D -> 0 <= i < n).

(** The blocks chosen for row [i] at a layer, and what the layer then sees. *)
Definition chosen_row (k : K) (l : LayerCall Kv Qv) (i : Z) : list Z :=
  match lc_query l !! Z.to_nat i, T !! Z.to_nat i, L !! Z.to_nat i with
  | Some q, Some row, Some len =>
      match select_blocks bs k (lc_name l) topk bs (bs * 4) (hash_query q) row len with Ok x => x | Err _ => [] end
  | _, _, _ => []
  end.
Definition sparse_table (k : K) (l : LayerCall Kv Qv) : list (list Z) :=
  tabulate n (fun i => if mem i D then pad width (chosen_row k l i) else default [] (T !! Z.to_nat i)).
Definition sparse_lens : list Z :=
  tabulate n (fun i => let len := default 0 (L !! Z.to_nat i) in if mem i D then update_seq_len topk bs len else len).

(** The cache of key hashes after a layer cached its own. *)
Definition cached (l : LayerCall Kv Qv) (k : K) : K :=
  let k1 := cache_keys (lc_name l) (slice_to (lc_key l) (pylen slots)) slots k in
  match hit with
  | Some (s, b) => cache_keys (lc_name l) (slice_to (prefix_keys (lc_name l) b) (pylen s)) s k1
  | None => k1
  end.

(** What the layers see, one after the other. *)
Inductive layer_kind := Rollback | Skip | Choose.
Definition kind_of (l : LayerCall Kv Qv) : layer_kind :=
  match get_layer_state c (lc_name l) with
  | Ok (true, _) => Rollback
  | Ok (false, true) => Skip
  | _ => Choose
  end.
Fixpoint layers_see (k : K) (last : list (list Z) * list Z) (ls : list (LayerCall Kv Qv)) : list (list (list Z) * list Z) :=
  match ls with
  | [] => []
  | l :: ls' =>
      match kind_of l with
      | Rollback => (T, L) :: layers_see k last ls'
      | Skip => last :: layers_see k last ls'
      | Choose => let k' := cached l k in let now := (sparse_table k' l, sparse_lens) in now :: layers_see k' now ls'
      end
  end.

(** The layers are configured, queried for every request, and the first that
    does not roll back chooses. *)
Definition layer_ok (l : LayerCall Kv Qv) : Prop :=
  (exists st, get_layer_state c (lc_name l) = Ok st) /\ n <= pylen (lc_query l).
Fixpoint first_chooses (ls : list (LayerCall Kv Qv)) : Prop :=
  match ls with
  | [] => True
  | l :: ls' => match kind_of l with Rollback => first_chooses ls' | Skip => False | Choose => True end
  end.

Lemma select_blocks_ok k layer q row len : pylen row = width ->
  exists x, select_blocks bs k layer topk bs (bs * 4) q row len = Ok x /\ pylen x = topk / bs.
Proof.
  intros Hrow. destruct GC as [_ Hb Hm Ht Hf].
  set (sc := hamming_score bs k layer q row len bs (bs * 4)).
  assert (Hmins : pylen (block_mins bs sc) = width).
  { rewrite <- Hrow. by apply pylen_block_mins. }
  unfold select_blocks, select_indices. fold sc. rewrite Hmins.
  destruct (Z.ltb_spec width (topk / bs)); [lia|]. set (ind := merge_sort _ _).
  assert (Hind : forall i, i ∈ ind -> 0 <= i < pylen row).
  { intros i Hi. rewrite Hrow, <- Hmins. apply (topk_range _ LW (topk / bs)). unfold ind in Hi. by rewrite merge_sort_Permutation in Hi. }
  exists ((fun i => default 0 (row !! Z.to_nat i)) <$> ind). split.
  - apply map_res_ok. intros i Hi. specialize (Hind i Hi). unfold py_nth. destruct (Z.ltb_spec i 0); [lia|].
    destruct (lookup_lt_is_Some_2 row (Z.to_nat i)) as [x ->]; [unfold pylen in Hind; lia|done].
  - rewrite pylen_fmap. unfold pylen, ind. rewrite merge_sort_Permutation. apply (topk_length _ LW). rewrite Hmins.
    split; [apply Z.div_pos; lia|lia].
Qed.

Lemma chosen_row_length k l i : pylen (chosen_row k l i) <= width.
Proof.
  unfold chosen_row. pose proof GC as [_ Hb _ Ht Hf]. assert (0 <= topk / bs) by (apply Z.div_pos; lia).
  destruct (lc_query l !! _) as [q|]; [|rewrite pylen_nil; lia].
  destruct (T !! Z.to_nat i) as [row|] eqn:Hrow; [|rewrite pylen_nil; lia].
  destruct (L !! _) as [len|]; [|rewrite pylen_nil; lia].
  destruct (select_blocks_ok k (lc_name l) (hash_query q) row len) as (x & -> & Hx); [|lia].
  eapply (Forall_lookup_1 _ _ _ _ HW Hrow).
Qed.

Lemma topk_rows k l : n <= pylen (lc_query l) ->
  cuda_hamming_topk bs k (lc_name l) (hash_query <$> slice_to (lc_query l) n) T L topk bs (recent_token c)
    = Ok (tabulate n (chosen_row k l)).
Proof.
  intros Hq. destruct GC as [_ Hb Hm Ht _]. unfold cuda_hamming_topk, recent_token.
  rewrite (proj2 (Z.eqb_neq bs 0)), Hm by lia. cbn [Z.eqb negb].
  destruct (Z.ltb_spec 0 (bs * 4)); [|lia]. destruct (Z.ltb_spec (bs + bs * 4) topk); [|lia]. cbn [andb negb].
  pose proof (pylen_nonneg T) as Hn0. set (qs := hash_query <$> _).
  assert (Hqs : pylen qs = n) by (unfold qs; rewrite pylen_fmap, slice_to_take by lia; unfold pylen in *; rewrite length_take; lia).
  rewrite (map_res_index _ (chosen_row k l)).
  - do 2 f_equal. unfold pylen in *. rewrite !length_zip. lia.
  - intros j [[q row] len] Hj. apply lookup_zip_Some in Hj as [Hj Hlen].
    apply lookup_zip_Some in Hj as [Hqj Hrow]. cbn [fst snd] in *. unfold qs in Hqj.
    rewrite list_lookup_fmap, slice_to_take in Hqj by lia. apply fmap_Some in Hqj as (q0 & Hq0 & ->).
    apply lookup_take_Some in Hq0 as [Hq0 _]. unfold chosen_row. rewrite Nat2Z.id, Hq0, Hrow, Hlen.
    by destruct (select_blocks_ok k (lc_name l) (hash_query q0) row len (Forall_lookup_1 _ _ _ _ HW Hrow)) as (x & -> & _).
Qed.

(** Tables that differ from the full ones in the rows of the choice only. *)
Definition agrees (N : list (list Z)) : Prop :=
  length N = length T /\ rows_of_width width N /\ forall j : nat, (j < length T)%nat -> Z.of_nat j ∉ D -> N !! j = T !! j.
Definition agrees_lens (NL : list Z) : Prop :=
  length NL = length L /\ forall j : nat, (j < length L)%nat -> Z.of_nat j ∉ D -> NL !! j = L !! j.

Lemma agrees_refl : agrees T /\ agrees_lens L.
Proof. done. Qed.

Lemma write_choice k l N : agrees N ->
  write_rows ((fun i => (i, chosen_row k l i)) <$> D) N = Ok (sparse_table k l).
Proof.
  intros (Hlen & Hw & Hag). destruct (write_rows_ok (chosen_row k l) width D N Hw) as (N' & -> & Hl' & _ & Hlook).
  { intros i Hi. specialize (HD i Hi). split; [unfold pylen in *; lia|apply chosen_row_length]. }
  f_equal. apply tabulate_eq; [unfold pylen in *; lia|]. intros j Hj. rewrite Hlook by lia. rewrite Nat2Z.id.
  destruct (mem (Z.of_nat j) D) eqn:Hm; [done|]. apply bool_decide_eq_false in Hm. rewrite Hag by (done || lia).
  by destruct (lookup_lt_is_Some_2 T j ltac:(lia)) as [x ->].
Qed.

Lemma write_choice_lens NL : agrees_lens NL ->
  write_entries ((fun i => (i, update_seq_len topk bs (default 0 (L !! Z.to_nat i)))) <$> D) NL = Ok sparse_lens.
Proof.
  intros (Hlen & Hag).
  destruct (write_entries_ok (fun i => update_seq_len topk bs (default 0 (L !! Z.to_nat i))) D NL) as (N' & -> & Hl' & Hlook).
  { intros i Hi. specialize (HD i Hi). unfold pylen in *. lia. }
  f_equal. apply tabulate_eq; [unfold pylen in *; lia|]. intros j Hj. rewrite Hlook by lia. rewrite Nat2Z.id.
  destruct (mem (Z.of_nat j) D) eqn:Hm; [done|]. apply bool_decide_eq_false in Hm. rewrite Hag by (done || lia).
  by destruct (lookup_lt_is_Some_2 L j ltac:(lia)) as [x ->].
Qed.

Lemma agrees_choice k l : agrees (sparse_table k l) /\ agrees_lens sparse_lens.
Proof.
  unfold agrees, agrees_lens, sparse_table, sparse_lens. rewrite !length_tabulate. split_and!.
  - unfold pylen in HT. lia.
  - apply Forall_lookup. intros j r Hj. pose proof (lookup_lt_Some _ _ _ Hj) as Hl. rewrite length_tabulate in Hl.
    rewrite tabulate_lookup in Hj by lia. injection Hj as <-. destruct (mem _ D); [apply pylen_pad, chosen_row_length|].
    rewrite Nat2Z.id. destruct (lookup_lt_is_Some_2 T j) as [x Hx]; [unfold pylen in HT; lia|]. rewrite Hx.
    apply (Forall_lookup_1 _ _ _ _ HW Hx).
  - intros j Hj Hn. rewrite tabulate_lookup by (unfold pylen in HT; lia). unfold mem.
    rewrite bool_decide_eq_false_2 by done. rewrite Nat2Z.id. by destruct (lookup_lt_is_Some_2 T j Hj) as [x ->].
  - unfold pylen in HL. lia.
  - intros j Hj Hn. rewrite tabulate_lookup by (unfold pylen in HL; lia). unfold mem.
    rewrite bool_decide_eq_false_2 by done. rewrite Nat2Z.id. by destruct (lookup_lt_is_Some_2 L j Hj) as [x ->].
Qed.

(** *** The state between two layers *)
Context (mid : Z) (bt sl : View) (Hbt : v_rows bt = n) (Hsl : v_rows sl = n)
  (Hbt_id : v_id bt <> FULL_TABLE) (Hsl_id : v_id sl <> FULL_LENS /\ v_id sl <> TOPK_LENS).
Abbreviation full := (MkView FULL_TABLE n).
Abbreviation full_lens := (MkView FULL_LENS n).
Abbreviation topk_lens := (MkView TOPK_LENS n).

(** What the step keeps: [now] is in the tensors the method writes. *)
Record Held (decode_only_step : bool) (k : K) (now : list (list Z) * list Z) (s : Dev K) : Prop := {
  rn_flags : flags s = MkFlags true true decode_only_step (bool_decide (is_Some hit));
  rn_reqs : num_reqs s = n;
  rn_ids : if decode_only_step then D = zrange 0 n else decode_req_ids s = D;
  rn_hit : forall p, hit = Some p -> prefix_info s = p;
  rn_views : views s = Some (MkViews full full_lens bt sl topk_lens);
  rn_khash : khash s = k;
  rn_full : shows s full T;
  rn_full_lens : shows_lens s full_lens L;
  rn_topk : shows_lens s topk_lens (update_seq_lens L topk bs);
  rn_table : shows s bt now.1;
  rn_lens : shows_lens s sl now.2;
  rn_agrees : agrees now.1 /\ agrees_lens now.2;
}.

(** The shared metadata refers to the tensors [at_]. *)
Definition points (s : Dev K) (at_ : View * View) : Prop :=
  exists m, metas s !! mid = Some m /\ m_slot_mapping m = slots /\ (m_block_table m, m_seq_lens m) = at_.

(** Between two layers it refers to the copies of the full tensors, or to the
    tensors themselves while nothing is chosen yet. *)
Record Running (decode_only_step : bool) (k : K) (chosen : bool) (at_ : View * View) (now : list (list Z) * list Z) (s : Dev K) : Prop := {
  rn_held :> Held decode_only_step k now s;
  rn_meta : points s at_;
  rn_chosen : if chosen then topk_views s = Some (bt, sl) else now = (T, L);
}.
Definition rest_at (chosen : bool) : View * View := if chosen then (full, full_lens) else (bt, sl).

Context (ctx : string -> option Z) (Hctx : forall name, ctx name = Some mid).

Lemma running_khash b k k' ch at_ now s : Running b k ch at_ now s -> Running b k' ch at_ now (with_khash k' s).
Proof. intros [[] Hp Hc]. by split. Qed.

Lemma cache_ok b k ch at_ now (l : LayerCall Kv Qv) m s : Running b k ch at_ now s -> m_slot_mapping m = slots ->
  wp (cache_k_hash_gqa_cuda prefix_keys (lc_key l) m (lc_name l)) (fun _ s' => Running b (cached l k) ch at_ now s') s.
Proof.
  intros HR Hm. unfold cache_k_hash_gqa_cuda. rewrite Hm. do 4 wp_step. cbn. rewrite (rn_flags _ _ _ _ HR). cbn.
  rewrite (rn_khash _ _ _ _ HR). unfold cached. destruct hit as [[ps pb]|] eqn:Hhit; cbn.
  - do 2 wp_step. cbn. rewrite (rn_hit _ _ _ _ HR _ Hhit). wp_step.
    eapply running_khash, running_khash, HR.
  - wp_step. eapply running_khash, HR.
Qed.

Lemma forward_ok (s : Dev K) m rows xs : metas s !! mid = Some m -> shows s (m_block_table m) rows -> shows_lens s (m_seq_lens m) xs ->
  wp (forward_reads mid) (fun x s' => x = (rows, xs) /\ s' = s) s.
Proof.
  intros Hm Hr Hx. unfold forward_reads. apply wp_bind, (wp_get_meta _ m); [done|].
  apply wp_bind, (wp_read_table _ rows); [done|]. apply wp_bind, (wp_read_lens _ xs); [done|]. by apply wp_ret.
Qed.

Lemma meta_shows b k ch now s : Running b k ch (rest_at ch) now s ->
  exists m, metas s !! mid = Some m /\ m_slot_mapping m = slots /\ shows s (m_block_table m) T /\ shows_lens s (m_seq_lens m) L.
Proof.
  intros HR. destruct (rn_meta _ _ _ _ _ _ HR) as (m & Hm & Hs & Hv). exists m. split_and!; [done..| |].
  - destruct ch; injection Hv as -> _; [apply (rn_full _ _ _ _ HR)|]. pose proof (rn_table _ _ _ _ HR) as Ht. by rewrite (rn_chosen _ _ _ _ _ _ HR) in Ht.
  - destruct ch; injection Hv as _ ->; [apply (rn_full_lens _ _ _ _ HR)|]. pose proof (rn_lens _ _ _ _ HR) as Ht. by rewrite (rn_chosen _ _ _ _ _ _ HR) in Ht.
Qed.

(** A layer that rolls back sees the full table. *)
Lemma rollback_ok b k ch now (l : LayerCall Kv Qv) s : Running b k ch (rest_at ch) now s -> kind_of l = Rollback ->
  wp (unified_attention_with_output c prefix_keys ctx l) (fun x s' => x = (T, L) /\ Running b k ch (rest_at ch) now s') s.
Proof.
  intros HR Hk. destruct (meta_shows _ _ _ _ _ HR) as (m & Hm & _ & Ht & Hl).
  unfold kind_of in Hk. destruct (get_layer_state c (lc_name l)) as [[[] sk]|] eqn:Hst; try done; [|by destruct sk].
  unfold unified_attention_with_output, attention_begin, attention_finished, layer_meta, the. rewrite Hctx.
  dev. apply (wp_get_meta _ m); [done|]. rewrite Hst. dev. cbn. dev. rewrite (rn_flags _ _ _ _ HR). cbn.
  rewrite (gc_gqa GC). cbn. dev. eapply wp_mono; [by apply (forward_ok s m T L)|].
  intros x s' [-> ->]. dev. rewrite (rn_flags _ _ _ _ HR). cbn. dev. cbn. dev. by split.
Qed.

Lemma running_retarget b k ch at_ now m table lens s : Running b k ch at_ now s -> metas s !! mid = Some m ->
  Running b k ch (table, lens) now (with_metas (<[mid := retarget m table lens]> (metas s)) s).
Proof.
  intros [[] (m' & Hm' & Hs & _) Hc] Hm. rewrite Hm in Hm'. injection Hm' as <-.
  split; [done| |done]. eexists. cbn. by rewrite lookup_insert_eq.
Qed.

(** The end of a layer that looked at a choice. *)
Lemma finish_ok b k at_ now (l : LayerCall Kv Qv) sk s : Running b k true at_ now s -> get_layer_state c (lc_name l) = Ok (false, sk) ->
  wp (attention_finished c ctx false (lc_name l)) (fun _ s' => Running b k true (rest_at true) now s') s.
Proof.
  intros HR Hst. destruct (rn_meta _ _ _ _ _ _ HR) as (m & Hm & _).
  unfold attention_finished, layer_meta, the. rewrite Hctx. dev.
  rewrite (rn_flags _ _ _ _ HR). cbn. dev. rewrite (gc_gqa GC). cbn. dev. rewrite Hst. dev. cbn. dev.
  rewrite (rn_views _ _ _ _ HR). dev. apply (wp_set_view _ _ _ m); [done|]. by eapply running_retarget.
Qed.

(** What follows the choice of a layer. *)
Lemma after_choice b k now (l : LayerCall Kv Qv) sk s : Running b k true (bt, sl) now s -> get_layer_state c (lc_name l) = Ok (false, sk) ->
  wp (bind (forward_reads mid) (fun x => bind (attention_finished c ctx false (lc_name l)) (fun _ => ret x)))
     (fun x s' => x = now /\ Running b k true (rest_at true) now s') s.
Proof.
  intros HR Hst. destruct (rn_meta _ _ _ _ _ _ HR) as (m & Hm & _ & Hv). injection Hv as Hv1 Hv2. destruct now as [N NL].
  apply wp_bind. eapply wp_mono.
  { apply (forward_ok s m N NL); [done|rewrite Hv1; apply (rn_table _ _ _ _ HR)|rewrite Hv2; apply (rn_lens _ _ _ _ HR)]. }
  intros x s' [-> ->]. dev. eapply wp_mono; [by eapply finish_ok|]. intros [] s' HR'. by apply wp_ret.
Qed.

(** A layer that skips sees the last choice. *)
Lemma skip_ok b k now (l : LayerCall Kv Qv) s : Running b k true (rest_at true) now s -> get_layer_state c (lc_name l) = Ok (false, true) ->
  wp (unified_attention_with_output c prefix_keys ctx l) (fun x s' => x = now /\ Running b k true (rest_at true) now s') s.
Proof.
  intros HR Hst. destruct (rn_meta _ _ _ _ _ _ HR) as (m & Hm & _).
  unfold unified_attention_with_output, attention_begin, layer_meta, the. rewrite Hctx.
  dev. apply (wp_get_meta _ m); [done|]. rewrite Hst. dev. cbn. dev. rewrite (rn_flags _ _ _ _ HR). cbn.
  rewrite (gc_gqa GC). cbn. dev. rewrite (rn_chosen _ _ _ _ _ _ HR). dev. apply (wp_set_view _ _ _ m); [done|].
  eapply after_choice, Hst. by eapply running_retarget.
Qed.

Lemma held_table b k N N' NL t s : Held b k (N, NL) s -> take (Z.to_nat (v_rows bt)) t = N' -> agrees N' ->
  Held b k (N', NL) (set_table (v_id bt) t s).
Proof.
  intros [] Ht HN. constructor; try done.
  - by apply shows_set_table_ne.
  - by apply shows_set_table.
  - split; [done|apply rn_agrees0].
Qed.

Lemma held_lens b k N NL NL' t s : Held b k (N, NL) s -> take (Z.to_nat (v_rows sl)) t = NL' -> agrees_lens NL' ->
  Held b k (N, NL') (set_lens (v_id sl) t s).
Proof.
  intros [] Ht HN. destruct Hsl_id. constructor; try done.
  - by apply shows_lens_set_lens_ne.
  - by apply shows_lens_set_lens_ne.
  - by apply shows_lens_set_lens.
  - split; [apply rn_agrees0|done].
Qed.

Lemma held_metas b k now ms s : Held b k now s -> Held b k now (with_metas ms s).
Proof. intros []. by constructor. Qed.

(** Writing the choice, its lengths and the metadata. *)
Lemma write_table_ok b k N NL N' f s : Held b k (N, NL) s -> f N = Ok N' -> agrees N' ->
  wp (update_table bt f) (fun _ s' => Held b k (N', NL) s' /\ metas s' = metas s) s.
Proof.
  intros HR Hf HN. eapply wp_update_table; [apply (rn_table _ _ _ _ HR)|done| |].
  - destruct (rn_agrees _ _ _ _ HR) as [[Hl _] _]. destruct HN as [Hl' _]. cbn in *. congruence.
  - intros t Ht. split; [by eapply held_table|done].
Qed.

Lemma write_lens_ok b k N NL NL' f s : Held b k (N, NL) s -> f NL = Ok NL' -> agrees_lens NL' ->
  wp (update_lens sl f) (fun _ s' => Held b k (N, NL') s' /\ metas s' = metas s) s.
Proof.
  intros HR Hf HN. eapply wp_update_lens; [apply (rn_lens _ _ _ _ HR)|done| |].
  - destruct (rn_agrees _ _ _ _ HR) as [_ [Hl _]]. destruct HN as [Hl' _]. cbn in *. congruence.
  - intros t Ht. split; [by eapply held_lens|done].
Qed.

Lemma pick_choice k l : pick D (tabulate n (chosen_row k l)) = Ok ((fun i => (i, chosen_row k l i)) <$> D).
Proof.
  apply pick_ok. intros i Hi. specialize (HD i Hi). split; [lia|]. rewrite tabulate_lookup by lia. by rewrite Z2Nat.id by lia.
Qed.

Lemma lookup_lens i : 0 <= i < n ->
  update_seq_lens L topk bs !! Z.to_nat i = Some (update_seq_len topk bs (default 0 (L !! Z.to_nat i))).
Proof.
  intros Hi. unfold update_seq_lens. rewrite list_lookup_fmap.
  destruct (lookup_lt_is_Some_2 L (Z.to_nat i)) as [x ->]; [unfold pylen in HL; lia|done].
Qed.

Lemma pick_lens : pick D (update_seq_lens L topk bs)
  = Ok ((fun i => (i, update_seq_len topk bs (default 0 (L !! Z.to_nat i)))) <$> D).
Proof. apply pick_ok. intros i Hi. specialize (HD i Hi). split; [lia|]. by apply lookup_lens. Qed.

Lemma assign_lens NL : D = zrange 0 n -> agrees_lens NL -> assign_prefix n (update_seq_lens L topk bs) NL = Ok sparse_lens.
Proof.
  intros HDn [Hl _]. assert (Hn : length L = Z.to_nat n) by (unfold pylen in HL; lia).
  unfold assign_prefix. rewrite Z.min_l by (unfold pylen in *; lia). unfold broadcast, update_seq_lens.
  rewrite pylen_fmap, HL, Z.eqb_refl. rewrite drop_ge, app_nil_r by lia. f_equal.
  apply tabulate_eq; rewrite length_fmap; [lia|]. intros j Hj. rewrite list_lookup_fmap, Nat2Z.id.
  destruct (lookup_lt_is_Some_2 L j Hj) as [x ->]. cbn. unfold mem. rewrite bool_decide_eq_true_2; [done|].
  rewrite HDn. apply elem_of_zrange. lia.
Qed.

Lemma choose_begin b k ch now (l : LayerCall Kv Qv) s : Running b k ch (rest_at ch) now s -> n <= pylen (lc_query l) ->
  wp (update_decode_topk_gqa_cuda c (lc_query l) (lc_name l) mid)
     (fun _ s' => Running b k true (bt, sl) (sparse_table k l, sparse_lens) s') s.
Proof.
  intros HR Hq. destruct (meta_shows _ _ _ _ _ HR) as (m & Hm & Hslots & Ht & Hl).
  unfold update_decode_topk_gqa_cuda. do 2 wp_step. rewrite (rn_reqs _ _ _ _ HR).
  apply wp_bind, (wp_get_meta _ m); [done|]. apply wp_bind, (wp_read_table _ T); [done|].
  apply wp_bind, (wp_read_lens _ L); [done|]. do 2 wp_step. rewrite (rn_khash _ _ _ _ HR).
  apply wp_bind. eapply wp_lift; [by apply topk_rows|]. dev. rewrite (rn_views _ _ _ _ HR). unfold the. dev.
  rewrite (rn_flags _ _ _ _ HR). cbn.
  pose proof (agrees_choice k l) as [Ha1 Ha2]. pose proof (rn_agrees _ _ _ _ HR) as [Ho1 Ho2].
  eapply wp_mono with (Q := fun _ s' => Held b k (sparse_table k l, sparse_lens) s' /\ is_Some (metas s' !! mid)
    /\ forall m', metas s' !! mid = Some m' -> m_slot_mapping m' = slots).
  2:{ intros [] s' (HH & [m' Hm'] & Hs'). apply wp_bind, (wp_set_view _ _ _ m'); [done|]. apply wp_modify.
      split; [destruct HH; constructor; done| |done].
      eexists. cbn. rewrite lookup_insert_eq. split_and!; [done|exact (Hs' _ Hm')|done]. }
  destruct now as [N NL]. pose proof (rn_held _ _ _ _ _ _ HR) as HH. cbn in Ho1, Ho2.
  destruct b.
  - pose proof (rn_ids _ _ _ _ HR) as Hids. cbn in Hids.
    replace (pylen (tabulate n (chosen_row k l))) with n by (unfold pylen; rewrite length_tabulate; unfold pylen in HT; lia).
    rewrite Z.eqb_refl. dev. rewrite enumerate_tabulate, <- Hids.
    eapply wp_mono; [eapply write_table_ok; [done|by apply write_choice|done]|].
    intros [] s1 [H1 Hms]. rewrite <- Hms in Hm. dev. apply (wp_set_view _ _ _ m); [done|]. dev.
    eapply wp_read_lens; [apply (rn_topk _ _ _ _ (held_metas _ _ _ _ _ H1))|].
    eapply wp_mono; [eapply write_lens_ok; [by apply held_metas|by apply assign_lens|done]|].
    intros [] s2 [H2 Hms2]. split; [done|]. rewrite Hms2. cbn. rewrite lookup_insert_eq. split; [done|].
    by intros ? [= <-].
  - dev. rewrite (rn_ids _ _ _ _ HR : decode_req_ids s = D). rewrite pick_choice. dev.
    eapply wp_mono; [eapply write_table_ok; [done|by apply write_choice|done]|].
    intros [] s1 [H1 Hms]. rewrite <- Hms in Hm. dev. apply (wp_set_view _ _ _ m); [done|]. dev.
    eapply wp_read_lens; [apply (rn_topk _ _ _ _ (held_metas _ _ _ _ _ H1))|]. dev. rewrite pick_lens. dev.
    eapply wp_mono; [eapply write_lens_ok; [by apply held_metas|by apply write_choice_lens|done]|].
    intros [] s2 [H2 Hms2]. split; [done|]. rewrite Hms2. cbn. rewrite lookup_insert_eq. split; [done|].
    by intros ? [= <-].
Qed.

(** A layer that chooses sees its own choice. *)
Lemma choose_ok b k ch now (l : LayerCall Kv Qv) s :
  Running b k ch (rest_at ch) now s -> get_layer_state c (lc_name l) = Ok (false, false) -> n <= pylen (lc_query l) ->
  wp (unified_attention_with_output c prefix_keys ctx l)
     (fun x s' => x = (sparse_table (cached l k) l, sparse_lens)
        /\ Running b (cached l k) true (rest_at true) (sparse_table (cached l k) l, sparse_lens) s') s.
Proof.
  intros HR Hst Hq. destruct (rn_meta _ _ _ _ _ _ HR) as (m & Hm & Hslots & _).
  unfold unified_attention_with_output, attention_begin, layer_meta, the. rewrite Hctx.
  dev. apply (wp_get_meta _ m); [done|]. rewrite Hst. dev. cbn. rewrite (gc_gqa GC). dev.
  eapply wp_mono; [by eapply cache_ok|]. intros [] s1 H1. dev. rewrite (rn_flags _ _ _ _ H1). cbn. 
  eapply wp_mono; [by eapply choose_begin|]. intros [] s2 H2. by eapply after_choice.
Qed.

Lemma layers_run b ls k ch now s :
  Running b k ch (rest_at ch) now s -> Forall layer_ok ls -> ch = true \/ first_chooses ls ->
  wp (map_m (unified_attention_with_output c prefix_keys ctx) ls)
     (fun xs s' => xs = layers_see k now ls /\ exists k' ch' now', Running b k' ch' (rest_at ch') now' s') s.
Proof.
  revert k ch now s. induction ls as [|l ls IH]; intros k ch now s HR Hls Hf.
  { apply wp_ret. eauto 10. }
  apply Forall_cons in Hls as [[[st Hst] Hq] Hls]. cbn [map_m layers_see first_chooses] in *.
  assert (Hk : kind_of l = match st with (true, _) => Rollback | (false, true) => Skip | _ => Choose end).
  { unfold kind_of. by rewrite Hst. }
  apply wp_bind. destruct st as [[] [|]]; rewrite Hk in *.
  1,2: eapply wp_mono; [by eapply rollback_ok|]; intros x s1 [-> H1]; apply wp_bind;
    (eapply wp_mono; [by eapply IH|]); intros xs s2 [-> H2]; by apply wp_ret.
  - destruct Hf as [-> |[]]. eapply wp_mono; [by eapply skip_ok|]. intros x s1 [-> H1]. apply wp_bind.
    eapply wp_mono; [eapply IH; [done..|by left]|]. intros xs s2 [-> H2]. by apply wp_ret.
  - eapply wp_mono; [by eapply choose_ok|]. intros x s1 [-> H1]. apply wp_bind.
    eapply wp_mono; [eapply IH; [done..|by left]|]. intros xs s2 [-> H2]. by apply wp_ret.
Qed.
End step.
