(* ===== verification/GsaOnDeviceBuild.v ===== *)
(** * GSA on the device: what a step prepares

    The requests that decode, the prefix-cache hits, and the step as a whole:
    [build_sparse_meta] followed by the layers. *)

From Stdlib Require Import Ascii String.
From S2P Require Import Prelude.
From S2P Require Import Wp.
From S2P Require Import PyStr.
From S2P Require Import GsaOnDevice.
From S2P Require Import GsaOnDeviceTopk.
From S2P Require Import GsaOnDeviceRuns.
From stdpp Require Import strings sorting.
Local Open Scope Z_scope.
Local Open Scope py_scope.

(** ** The requests a worker knows

    A request that was scheduled since it started (or resumed), with the tokens
    computed for it and those of its prompt. *)
Abbreviation Known := (gmap string (Z * Z)).

Definition prefilling (p : Z * Z) : bool := p.1 <? p.2.
Definition flags_of (known : Known) : gmap string bool := prefilling <$> known.

Definition forget (sched : SchedOut) (known : Known) : Known :=
  foldl (fun kn r => delete r kn) known
    (so_finished_req_ids sched ++ (filter (fun e => e.2 = true) (so_cached sched)).*1).

Definition advance (requests : string -> option DevReq) (l : list (string * Z)) (known : Known) : Known :=
  foldl (fun kn e => match requests e.1 with
                     | Some q => <[e.1 := (dr_num_computed_tokens q + e.2, dr_num_prompt_tokens q)]> kn
                     | None => kn
                     end) known l.

Section requests.
Context {K : Type}.
Implicit Types s : Dev K.

Lemma free_all_ok l s :
  for_ l free_cached_request s = (Ok tt, with_prefill_flag (foldl (fun f r => delete r f) (is_prefill_flag s) l) s).
Proof.
  revert s. induction l as [|r l IH]; intros s; cbn.
  - by destruct s.
  - by rewrite IH.
Qed.

Lemma flags_delete (l : list string) (known : Known) :
  foldl (fun f r => delete r f) (flags_of known) l = flags_of (foldl (fun kn r => delete r kn) known l).
Proof.
  revert known. induction l as [|r l IH]; intros known; [done|]. cbn [foldl]. unfold flags_of at 1.
  by rewrite <- fmap_delete, IH.
Qed.

(** [update_states] forgets the finished and the resumed requests. *)
Lemma update_states_ok sched known s : is_prefill_flag s = flags_of known ->
  update_states sched s = (Ok tt, with_prefill_flag (flags_of (forget sched known)) s).
Proof.
  intros Hf. unfold update_states, bind. rewrite free_all_ok, Hf.
  assert (Hrun : forall (l : list (string * bool)) (s : Dev K), for_ l (fun e => if e.2 then free_cached_request e.1 else ret tt) s
                             = for_ (filter (fun e : string * bool => e.2 = true) l).*1 free_cached_request s).
  { clear. induction l as [|[r []] l IH]; intros s; [done| |].
    - rewrite filter_cons_True by done. cbn. by rewrite IH.
    - rewrite filter_cons_False by done. cbn. by rewrite IH. }
  rewrite Hrun, free_all_ok. cbn. unfold forget. by rewrite <- foldl_app, flags_delete.
Qed.
End requests.

(** ** The loop of [build_sparse_meta] *)
Section build.
Context {K Kv Qv QH : Type} `{HO : HashOps K Kv Qv QH}.
Context (c : DevConfig) (Hgqa : dc_is_mla c = false) (Hbs : 0 < dc_block_size c) (Hmax : 0 <= dc_max_num_tokens c)
  (Hbt_mod : dc_max_num_tokens c mod dc_block_size c = 0).
Context (sched : SchedOut) (requests : string -> option DevReq) (idx : string -> option Z).
Context (m : AttnMetadata) (T : list (list Z)) (q_lens : list Z) (known : Known).
Context (HW : rows_of_width (max_block_per_seq c) T).
Abbreviation bs := (dc_block_size c).

(** Tokens fetched from outside for a request scheduled for the first time. *)
Definition is_hit (r : string) : bool :=
  bool_decide (known !! r = None) && (0 <? default 0 (so_num_external sched !! r)).
Definition decodes (r : string) : bool :=
  match known !! r with Some p => negb (prefilling p) | None => false end.

(** A request of the step: it has a row, what is known of it is what the
    scheduler says, and a hit leaves [num_prompt - qlen] tokens. *)
Record request_ok (e : string * Z) : Prop := {
  ro_req : exists q i qlen row, requests e.1 = Some q /\ idx e.1 = Some i /\ 0 <= i /\ q_lens !! Z.to_nat i = Some qlen
    /\ T !! Z.to_nat i = Some row /\ (forall p, known !! e.1 = Some p -> q = MkDevReq p.1 p.2)
    /\ (is_hit e.1 = true -> 0 <= qlen <= dr_num_prompt_tokens q /\ dr_num_prompt_tokens q <= dc_max_num_tokens c);
  ro_tokens : 0 <= e.2;
}.

Definition row_of (r : string) : Z := default 0 (idx r).
Definition prefix_tokens (r : string) : Z :=
  match requests r with
  | Some q => dr_num_prompt_tokens q - default 0 (q_lens !! Z.to_nat (row_of r))
  | None => 0
  end.
Definition table_row (r : string) : list Z := default [] (T !! Z.to_nat (row_of r)).

(** What the step gathers of a request. *)
Definition decode_row (e : string * Z) : list Z := if decodes e.1 then [row_of e.1] else [].
Definition prefix_slots (e : string * Z) : list Z :=
  if is_hit e.1 then read_slots bs (table_row e.1) (prefix_tokens e.1) else [].
Definition prefix_blocks (e : string * Z) : list Z :=
  if is_hit e.1 then slice_to (table_row e.1) (cdiv (prefix_tokens e.1) bs) else [].

Lemma ceil_div a : (a + bs - 1) / bs = cdiv a bs.
Proof. symmetry. apply cdiv_unique; [done|]. pose proof (Z.div_mod (a + bs - 1) bs ltac:(lia)). pose proof (Z.mod_pos_bound (a + bs - 1) bs Hbs). nia. Qed.

Lemma rebuild_ok row np qlen : pylen row = max_block_per_seq c -> 0 <= qlen <= np -> np <= dc_max_num_tokens c ->
  rebuild_prefix_cache_info_for_req c row np qlen
    = Ok (np - qlen, cdiv (np - qlen) bs, slice_to row (cdiv (np - qlen) bs), read_slots bs row (np - qlen)).
Proof.
  intros Hrow Hq Hnp. unfold rebuild_prefix_cache_info_for_req.
  destruct (Z.leb_spec 0 qlen); [|lia]. destruct (Z.leb_spec qlen np); [|lia]. cbn [andb negb].
  destruct (Z.leb_spec (np - qlen) 0).
  { assert (np - qlen = 0) as -> by lia. unfold read_slots. rewrite zrange_nil by lia.
    rewrite (cdiv_unique 0 bs 0) by lia. rewrite slice_to_take by lia. done. }
  rewrite ceil_div, Z.min_l by lia. pose proof (cdiv_spec (np - qlen) bs Hbs) as Hc.
  assert (Hcw : cdiv (np - qlen) bs <= pylen row) by (rewrite Hrow; apply cdiv_mono; lia).
  rewrite (map_res_ok _ (token_slot bs row)); [done|]. intros t Ht%elem_of_zrange.
  assert (Hb : 0 <= t / bs < cdiv (np - qlen) bs) by nia.
  assert (is_Some (row !! Z.to_nat (t / bs))) as [b Hrb] by (apply lookup_lt_is_Some; unfold pylen in Hcw; lia).
  rewrite (py_idx_lookup _ _ b); [|lia|].
  - unfold token_slot. rewrite Hrb. cbn. f_equal. rewrite Z.mod_eq by lia. lia.
  - rewrite slice_to_take by lia. by rewrite lookup_take_lt by lia.
Qed.

Lemma append_ok cap written y k : pylen y = k -> pylen written + k <= cap -> append_to cap written y k = Ok (written ++ y).
Proof.
  intros Hy Hc. pose proof (pylen_nonneg y). unfold append_to. rewrite Z.min_l, Z.max_r by lia. unfold broadcast.
  replace (pylen written + k - pylen written) with k by lia. by rewrite Hy, Z.eqb_refl.
Qed.

Lemma pylen_read_slots row k : 0 <= k -> pylen (read_slots bs row k) = k.
Proof. intros. unfold read_slots. rewrite pylen_fmap, pylen_zrange; lia. Qed.

Lemma blocks_of_max k : k <= dc_max_num_tokens c -> cdiv k bs <= dc_max_num_tokens c / bs.
Proof.
  intros Hk. etransitivity; [by apply cdiv_mono|]. rewrite (cdiv_unique _ _ (dc_max_num_tokens c / bs)); [lia|lia|].
  pose proof (Z.div_mod (dc_max_num_tokens c) bs ltac:(lia)). nia.
Qed.

(** The buffers of the hits have room for every request of a batch. *)
Definition room (seen : Z) (g : Gathered) : Prop :=
  pylen (g_ids g) <= seen /\ pylen (g_slots g) <= dc_max_num_tokens c * seen
    /\ pylen (g_blocks g) <= dc_max_num_tokens c / bs * seen.

Lemma max_blocks_eq : max_prefix_blocks c = dc_max_num_tokens c / bs * dc_max_batch_size c.
Proof.
  unfold max_prefix_blocks, max_prefix_tokens. pose proof (Z.div_mod (dc_max_num_tokens c) bs ltac:(lia)) as Hd.
  apply cdiv_unique; [done|]. rewrite Hd, Hbt_mod at 1 2 3 4. rewrite !Z.add_0_r. rewrite (Z.mul_comm bs (_ / bs)), Z.div_mul by lia. nia.
Qed.

Definition gathered (e : string * Z) (g : Gathered) : Gathered :=
  MkGathered (g_ids g ++ decode_row e) (g_slots g ++ prefix_slots e) (g_blocks g ++ prefix_blocks e)
    (g_hits g + (if is_hit e.1 then 1 else 0)).
Definition progress (e : string * Z) : bool :=
  match requests e.1 with
  | Some q => prefilling (dr_num_computed_tokens q + e.2, dr_num_prompt_tokens q)
  | None => false
  end.

Lemma hit_ok e q i qlen (row : list Z) g (s : Dev K) seen : is_hit e.1 = true ->
  requests e.1 = Some q -> idx e.1 = Some i -> 0 <= i -> q_lens !! Z.to_nat i = Some qlen -> T !! Z.to_nat i = Some row ->
  0 <= qlen <= dr_num_prompt_tokens q -> dr_num_prompt_tokens q <= dc_max_num_tokens c ->
  shows s (m_block_table m) T -> room seen g -> seen < dc_max_batch_size c ->
  wp (gather_prefix c m q i qlen g)
     (fun g' s' => g' = MkGathered (g_ids g) (g_slots g ++ prefix_slots e) (g_blocks g ++ prefix_blocks e) (g_hits g + 1) /\ s' = s) s.
Proof.
  intros Hh Hq Hi Hi0 Hql Hrow Hqlen Hnp Hs (_ & Hr1 & Hr2) Hd.
  assert (Hw : pylen row = max_block_per_seq c) by exact (Forall_lookup_1 _ _ _ _ HW Hrow).
  pose proof (rebuild_ok row _ _ Hw Hqlen Hnp) as Hrb. set (np := dr_num_prompt_tokens q - qlen) in *.
  assert (Hnp' : 0 <= np <= dc_max_num_tokens c) by lia. pose proof (blocks_of_max np ltac:(lia)) as Hbm.
  pose proof (cdiv_nonneg np bs Hbs ltac:(lia)) as Hc0.
  assert (Hcw : cdiv np bs <= pylen row) by (rewrite Hw; apply cdiv_mono; lia).
  unfold gather_prefix, get_block_table_row. rewrite Hgqa. cbn [negb]. dev. apply (wp_read_table _ T); [done|].
  rewrite (py_idx_lookup _ _ _ Hi0 Hrow). dev. rewrite Hrb. dev. cbv iota. dev.
  rewrite (append_ok _ (g_slots g)); [|apply pylen_read_slots; lia|unfold max_prefix_tokens; nia]. dev.
  rewrite (append_ok _ (g_blocks g)); [|rewrite slice_to_take by lia; unfold pylen in *; rewrite length_take; lia|].
  - dev. split; [|done]. unfold prefix_slots, prefix_blocks, prefix_tokens, table_row, row_of.
    rewrite Hh, Hq, Hi. cbn. by rewrite Hql, Hrow.
  - rewrite max_blocks_eq. nia.
Qed.

Lemma build_request_ok e g (s : Dev K) seen : request_ok e -> is_prefill_flag s !! e.1 = prefilling <$> known !! e.1 ->
  shows s (m_block_table m) T -> room seen g -> 0 <= seen < dc_max_batch_size c ->
  wp (build_request c sched requests idx m q_lens g e)
     (fun g' s' => g' = gathered e g /\ s' = with_prefill_flag (<[e.1 := progress e]> (is_prefill_flag s)) s) s.
Proof.
  intros [(q & i & qlen & row & Hq & Hi & Hi0 & Hql & Hrow & Hkn & Hhit) Hk] Hf Hs Hroom Hd.
  destruct e as [r k]. cbn [fst snd] in *. unfold build_request, the. rewrite Hq. dev. rewrite Hf.
  unfold gathered, progress, decode_row, decodes. cbn [fst snd]. rewrite Hq.
  destruct (known !! r) as [[cp p]|] eqn:Hknr.
  - assert (Hnh : is_hit r = false) by (unfold is_hit; by rewrite Hknr).
    unfold prefix_slots, prefix_blocks. cbn [fst snd]. rewrite Hnh, !app_nil_r, Z.add_0_r.
    rewrite (Hkn _ eq_refl). cbn [fmap option_fmap option_map fst snd dr_num_computed_tokens dr_num_prompt_tokens] in *.
    unfold prefilling in *. cbn [fst snd] in *. destruct (Z.ltb_spec cp p) as [Hlt|Hge].
    + repeat (case_bool_decide; [try done|try done]). cbn. dev.
      destruct (Z.leb_spec p (cp + k)); dev; destruct (Z.ltb_spec (cp + k) p); try lia; rewrite ?app_nil_r.
      * by destruct g.
      * split; [by destruct g|]. rewrite insert_id by done. by destruct s.
    + repeat (case_bool_decide; [try done|try done]). cbn. dev. rewrite Hi. dev.
      destruct (Z.leb_spec (dc_max_batch_size c) (pylen (g_ids g))); [destruct Hroom; lia|]. dev.
      unfold row_of. rewrite Hi. destruct (Z.ltb_spec (cp + k) p); [lia|]. split; [done|].
      rewrite insert_id by done. by destruct s.
  - cbn [fmap option_fmap option_map negb] in *. repeat (case_bool_decide; [try done|try done]). cbn. dev. rewrite Hi. dev.
    rewrite (py_idx_lookup _ _ _ Hi0 Hql). dev.
    eapply wp_mono with (Q := fun g' s' => g' = MkGathered (g_ids g) (g_slots g ++ prefix_slots (r, k)) (g_blocks g ++ prefix_blocks (r, k))
      (g_hits g + (if is_hit r then 1 else 0)) /\ s' = with_prefill_flag (<[r := true]> (is_prefill_flag s)) s).
    + assert (Hih : is_hit r = (0 <? default 0 (so_num_external sched !! r))).
      { unfold is_hit. rewrite Hknr. by rewrite bool_decide_eq_true_2 by done. }
      rewrite <- Hih. destruct (is_hit r) eqn:Hh.
      * destruct (Hhit eq_refl) as [Hq1 Hq2].
        apply (hit_ok (r, k) q i qlen row g (with_prefill_flag (<[r:=true]> (is_prefill_flag s)) s) seen); try done. lia.
      * dev. unfold prefix_slots, prefix_blocks. cbn [fst snd]. rewrite Hh, !app_nil_r, Z.add_0_r. by destruct g.
    + intros g' s' [-> ->]. dev. unfold prefilling. cbn [fst snd].
      destruct (Z.leb_spec (dr_num_prompt_tokens q) (dr_num_computed_tokens q + k)), (Z.ltb_spec (dr_num_computed_tokens q + k) (dr_num_prompt_tokens q)); try lia.
      * dev. rewrite app_nil_r. split; [done|]. unfold with_prefill_flag. cbn. by rewrite insert_insert_eq.
      * dev. by rewrite app_nil_r.
Qed.

Lemma room_gathered e g seen : request_ok e -> room seen g -> room (seen + 1) (gathered e g).
Proof.
  intros [(q & i & qlen & row & Hq & Hi & Hi0 & Hql & Hrow & _ & Hhit) _] (H1 & H2 & H3).
  assert (Hm : 0 <= dc_max_num_tokens c / bs) by (apply Z.div_pos; lia).
  unfold room, gathered, decode_row, prefix_slots, prefix_blocks. cbn [g_ids g_slots g_blocks]. rewrite !pylen_app.
  split; [destruct (decodes e.1); rewrite ?pylen_cons, ?pylen_nil; lia|].
  destruct (is_hit e.1) eqn:Hh.
  - destruct (Hhit eq_refl) as [Hq1 Hq2]. unfold prefix_tokens, row_of. rewrite Hq, Hi. cbn. rewrite Hql. cbn.
    rewrite pylen_read_slots by lia. pose proof (blocks_of_max (dr_num_prompt_tokens q - qlen) ltac:(lia)).
    pose proof (cdiv_nonneg (dr_num_prompt_tokens q - qlen) bs Hbs ltac:(lia)).
    assert (pylen (slice_to (table_row e.1) (cdiv (dr_num_prompt_tokens q - qlen) bs)) <= cdiv (dr_num_prompt_tokens q - qlen) bs).
    { rewrite slice_to_take by lia. unfold pylen. rewrite length_take. lia. }
    split; nia.
  - rewrite !pylen_nil. split; nia.
Qed.

Lemma loop_run es : forall g (s : Dev K) seen, Forall request_ok es -> NoDup es.*1 ->
  (forall r, r ∈ es.*1 -> is_prefill_flag s !! r = prefilling <$> known !! r) -> shows s (m_block_table m) T ->
  room seen g -> 0 <= seen -> seen + pylen es <= dc_max_batch_size c ->
  wp (for_acc es g (build_request c sched requests idx m q_lens))
     (fun g' s' => g' = foldl (fun g e => gathered e g) g es
        /\ s' = with_prefill_flag (foldl (fun f e => <[e.1 := progress e]> f) (is_prefill_flag s) es) s) s.
Proof.
  induction es as [|e es IH]; intros g s seen Hes Hnd Hf Hs Hroom Hseen Hcap.
  { apply wp_ret. split; [done|]. by destruct s. }
  apply Forall_cons in Hes as [He Hes]. rewrite fmap_cons in Hnd, Hf. apply NoDup_cons in Hnd as [Hni Hnd].
  rewrite pylen_cons in Hcap. pose proof (pylen_nonneg es). cbn [for_acc foldl]. apply wp_bind.
  eapply wp_mono; [apply (build_request_ok e g s seen); [done|apply Hf; left|done|done|lia]|].
  intros g1 s1 [-> ->]. eapply wp_mono.
  { apply (IH _ _ (seen + 1)); [done|done| |done|by apply room_gathered|lia|lia].
    intros r Hr. cbn. rewrite lookup_insert_ne by (intros <-; done). apply Hf. by right. }
  intros g2 s2 [-> ->]. done.
Qed.

Lemma gathered_all es : forall g, foldl (fun g e => gathered e g) g es
  = MkGathered (g_ids g ++ concat (decode_row <$> es)) (g_slots g ++ concat (prefix_slots <$> es))
      (g_blocks g ++ concat (prefix_blocks <$> es)) (g_hits g + pylen (filter (fun e => is_hit e.1 = true) es)).
Proof.
  induction es as [|e es IH]; intros g; cbn [foldl fmap list_fmap concat].
  { rewrite !app_nil_r. unfold filter, list_filter. rewrite pylen_nil, Z.add_0_r. by destruct g. }
  rewrite IH. unfold gathered at 1 2 3 4. cbn [g_ids g_slots g_blocks g_hits]. rewrite <- !app_assoc. f_equal.
  destruct (is_hit e.1) eqn:Hh.
  - rewrite filter_cons_True by done. rewrite pylen_cons. lia.
  - rewrite filter_cons_False by (rewrite Hh; done). lia.
Qed.

Lemma advance_cons e es kn q : requests e.1 = Some q ->
  advance requests (e :: es) kn
    = advance requests es (<[e.1 := (dr_num_computed_tokens q + e.2, dr_num_prompt_tokens q)]> kn).
Proof. intros Hq. unfold advance. cbn [foldl]. by rewrite Hq. Qed.

Lemma flags_advance es kn : Forall request_ok es ->
  foldl (fun f e => <[e.1 := progress e]> f) (flags_of kn) es = flags_of (advance requests es kn).
Proof.
  revert kn. induction es as [|e es IH]; intros kn Hes; [done|]. apply Forall_cons in Hes as [He Hes].
  destruct He as [(q & i & qlen & row & Hq & _) _]. cbn [foldl].
  rewrite (advance_cons e es kn q Hq), <- IH by done. unfold progress at 2. rewrite Hq. f_equal.
  unfold flags_of. by rewrite fmap_insert.
Qed.
End build.

(** ** The step as a whole *)

Lemma layers_see_ext {K Kv Qv QH : Type} `{HO : HashOps K Kv Qv QH} c (prefix_keys : string -> list Z -> list Kv) n T L slots D D' hit k last (ls : list (LayerCall Kv Qv)) : (forall i, i ∈ D <-> i ∈ D') ->
  layers_see c prefix_keys n T L slots D hit k last ls = layers_see c prefix_keys n T L slots D' hit k last ls.
Proof.
  intros HD. assert (Hm : forall i, mem i D = mem i D') by (intros i; unfold mem; by apply bool_decide_ext).
  assert (Ht : forall k l, sparse_table c n T L D k l = sparse_table c n T L D' k l).
  { intros k0 l. unfold sparse_table, tabulate. apply list_fmap_ext. intros i x _. by rewrite Hm. }
  assert (Hl : sparse_lens c n L D = sparse_lens c n L D').
  { unfold sparse_lens, tabulate. apply list_fmap_ext. intros i x _. by rewrite Hm. }
  revert k last. induction ls as [|l ls IH]; intros k last; [done|]. cbn. rewrite Ht, Hl, !IH. done.
Qed.

Section whole.
Context {K Kv Qv QH : Type} `{HO : HashOps K Kv Qv QH} (LW : TopkLaws HO).
Context (c : DevConfig).
Abbreviation bs := (dc_block_size c).
Abbreviation topk := (dc_topk_tokens c).

(** The worker's state, what the step schedules and the tensors it shares. *)
Context (GC : GqaConfig c) (Hmax : 0 <= dc_max_num_tokens c) (Hmod : dc_max_num_tokens c mod bs = 0).
Context (sched : SchedOut) (requests : string -> option DevReq) (idx : string -> option Z) (mid : Z).
Abbreviation es := (so_num_scheduled_tokens sched).
Abbreviation n := (pylen es).
Context (m : AttnMetadata) (T : list (list Z)) (L : list Z) (known : Known).
Context (HT : pylen T = n) (HL : pylen L = n) (HW : rows_of_width (max_block_per_seq c) T) (Hbatch : n <= dc_max_batch_size c).
Context (Hbt : v_rows (m_block_table m) = n) (Hsl : v_rows (m_seq_lens m) = n).
Context (Hbt_id : v_id (m_block_table m) <> FULL_TABLE)
  (Hsl_id : v_id (m_seq_lens m) <> FULL_LENS /\ v_id (m_seq_lens m) <> TOPK_LENS).
Abbreviation q_lens := (differences (m_query_start_loc m)).
Context (Hes : Forall (request_ok c sched requests idx T q_lens known) es).
Context (Hnd : NoDup es.*1) (Hrows : NoDup (row_of idx <$> es.*1)) (Hlt : forall r, r ∈ es.*1 -> row_of idx r < n).

Record Ready (s : Dev K) : Prop := {
  rd_meta : metas s !! mid = Some m;
  rd_table : shows s (m_block_table m) T;
  rd_lens : shows_lens s (m_seq_lens m) L;
  rd_buffers : exists t l l', tables (tensors s) !! FULL_TABLE = Some t /\ n <= pylen t
    /\ vectors (tensors s) !! FULL_LENS = Some l /\ n <= pylen l
    /\ vectors (tensors s) !! TOPK_LENS = Some l' /\ n <= pylen l';
}.

(** What the step gathers. *)
Definition decode_rows : list Z := concat (decode_row idx known <$> es).
Definition hits : Z := pylen (filter (fun e => is_hit sched known e.1 = true) es).
Definition step_hit : option (list Z * list Z) :=
  if 0 <? hits
  then Some (concat (prefix_slots c sched requests idx T q_lens known <$> es),
             concat (prefix_blocks c sched requests idx T q_lens known <$> es))
  else None.
Definition enabled : bool := dc_concurrency_threshold c <=? count_long (dc_seq_len_threshold c) L.
Definition sparse : bool := enabled && (0 <? pylen decode_rows).
Definition all_decode : bool := pylen decode_rows =? n.
Definition written_rows : list Z := if all_decode then zrange 0 n else decode_rows.

Lemma decode_rows_filter : decode_rows = row_of idx <$> filter (fun r => decodes known r = true) es.*1.
Proof.
  unfold decode_rows, decode_row. clear. generalize es. intros l. induction l as [|e l IH]; [done|].
  rewrite !fmap_cons. cbn [concat]. rewrite IH. destruct (decodes known e.1) eqn:Hd.
  - rewrite filter_cons_True by done. done.
  - rewrite filter_cons_False by (rewrite Hd; done). done.
Qed.

Lemma decode_rows_in i : i ∈ decode_rows -> 0 <= i < n.
Proof.
  rewrite decode_rows_filter. intros (r & -> & [_ Hr]%list_elem_of_filter)%list_elem_of_fmap. split; [|by apply Hlt].
  apply list_elem_of_fmap in Hr as (e & -> & He). rewrite Forall_forall in Hes.
  destruct (Hes e He) as [(q & i & qlen & row & _ & Hi & Hi0 & _) _]. unfold row_of. by rewrite Hi.
Qed.

Lemma decode_rows_NoDup : NoDup decode_rows.
Proof.
  rewrite decode_rows_filter. eapply sublist_NoDup; [exact Hrows|].
  apply (sublist_fmap (row_of idx)). apply sublist_filter.
Qed.

(** A step in which every request decodes rewrites every row. *)
Lemma written_rows_mem i : i ∈ written_rows <-> i ∈ decode_rows.
Proof.
  unfold written_rows, all_decode. destruct (Z.eqb_spec (pylen decode_rows) n) as [He|]; [|done]. rewrite elem_of_zrange.
  split; [|apply decode_rows_in]. intros Hi.
  assert (Hp : decode_rows ≡ₚ zrange 0 n).
  { apply submseteq_length_Permutation; [apply NoDup_submseteq; [apply decode_rows_NoDup|]|].
    - intros x Hx. by apply elem_of_zrange, decode_rows_in.
    - rewrite length_zrange. unfold pylen in *. lia. }
  rewrite Hp. by apply elem_of_zrange.
Qed.

Lemma loop_ok s : Ready s -> is_prefill_flag s = flags_of known ->
  wp (for_acc es (MkGathered [] [] [] 0) (build_request c sched requests idx m q_lens))
     (fun g s' => g = MkGathered decode_rows (concat (prefix_slots c sched requests idx T q_lens known <$> es))
                        (concat (prefix_blocks c sched requests idx T q_lens known <$> es)) hits
        /\ s' = with_prefill_flag (flags_of (advance requests es known)) s) s.
Proof.
  intros HR Hf. destruct GC as [Hg Hb _ _ _]. eapply wp_mono.
  - eapply (loop_run c Hg Hb Hmax Hmod sched requests idx m T q_lens known HW es _ s 0); [done|done| |apply HR|unfold room; cbn [g_ids g_slots g_blocks]; rewrite !pylen_nil, !Z.mul_0_r; lia|lia|lia].
    intros r _. rewrite Hf. unfold flags_of. by rewrite lookup_fmap.
  - intros g s' [-> ->]. rewrite gathered_all, Hf by done. split; [done|].
    by rewrite (flags_advance c sched requests idx T q_lens known) by done.
Qed.

Lemma wp_copy_lens id xs t (Q : unit -> Dev K -> Prop) s : pylen xs = n -> vectors (tensors s) !! id = Some t -> n <= pylen t ->
  (forall t', take (Z.to_nat n) t' = xs -> Q tt (set_lens id t' s)) -> wp (copy_lens id n xs) Q s.
Proof.
  intros Hx Ht Hl HQ. unfold copy_lens, the, put_lens. dev. rewrite Ht. dev.
  unfold assign_prefix, broadcast. rewrite Z.min_l, Hx, Z.eqb_refl by lia. dev.
  apply HQ. apply take_app_length'. unfold pylen in *. lia.
Qed.

Lemma wp_copy_table id xs t (Q : unit -> Dev K -> Prop) s : pylen xs = n -> rows_of_width (max_block_per_seq c) xs ->
  tables (tensors s) !! id = Some t -> n <= pylen t ->
  (forall t', take (Z.to_nat n) t' = xs -> Q tt (set_table id t' s)) -> wp (copy_table c id n xs) Q s.
Proof.
  intros Hx Hw Ht Hl HQ. unfold copy_table, the, put_table.
  rewrite (map_res_ok _ (fun row => row)).
  - rewrite list_fmap_id. dev. rewrite Ht. dev. unfold assign_prefix, broadcast. rewrite Z.min_l, Hx, Z.eqb_refl by lia. dev.
    apply HQ. apply take_app_length'. unfold pylen in *. lia.
  - intros row Hr. unfold broadcast. rewrite (proj1 (Forall_forall _ _) Hw row Hr). by rewrite Z.eqb_refl.
Qed.

(** The state [prepare_cuda_decode_sparse_meta] leaves: the copies made, the
    rows of the decoding requests and the views. *)
Lemma prepared_runs s s1 t1 t2 t3 : Ready s -> num_reqs s = n ->
  flags s = MkFlags true true all_decode (bool_decide (is_Some step_hit)) ->
  (forall p, step_hit = Some p -> prefix_info s = p) ->
  take (Z.to_nat n) t1 = L -> take (Z.to_nat n) t2 = T -> take (Z.to_nat n) t3 = update_seq_lens L topk bs ->
  s1 = set_table FULL_TABLE t2 (set_lens FULL_LENS t1 s) ->
  Running c n T L (m_slot_mapping m) written_rows step_hit mid (m_block_table m) (m_seq_lens m)
    all_decode (khash s) false (rest_at n (m_block_table m) (m_seq_lens m) false) (T, L)
    (with_views (Some (MkViews (MkView FULL_TABLE n) (MkView FULL_LENS n) (m_block_table m) (m_seq_lens m) (MkView TOPK_LENS n)))
       (set_lens TOPK_LENS t3 (if all_decode then s1 else with_decode_req_ids decode_rows s1))).
Proof.
  intros HR Hn Hf Hh Ht1 Ht2 Ht3 ->. destruct HR, Hsl_id as [Hi1 Hi2].
  destruct rd_table0 as (tt & Htt & Htt'), rd_lens0 as (tl & Htl & Htl').
  assert (Hids : if all_decode then written_rows = zrange 0 n else decode_rows = written_rows).
  { unfold written_rows. by destruct all_decode. }
  revert Hids Hf. generalize written_rows. intros D Hids Hf. split; [constructor| |done].
  all: try (destruct all_decode; by auto).
  - exists t2. split; [|done]. by destruct all_decode; cbn; rewrite lookup_insert_eq.
  - exists t1. split; [|done]. destruct all_decode; cbn; rewrite lookup_insert_ne by done; by rewrite lookup_insert_eq.
  - exists t3. split; [|done]. by destruct all_decode; cbn; rewrite lookup_insert_eq.
  - exists tt. split; [|done]. destruct all_decode; cbn; by rewrite lookup_insert_ne by done.
  - exists tl. split; [|done]. destruct all_decode; cbn; by rewrite !lookup_insert_ne by done.
  - eexists. split; [|done]. destruct all_decode; cbn; done.
Qed.

Lemma prepare_ok s : Ready s -> num_reqs s = n -> 
  flags s = MkFlags true true all_decode (bool_decide (is_Some step_hit)) ->
  (forall p, step_hit = Some p -> prefix_info s = p) ->
  wp (prepare_cuda_decode_sparse_meta c m decode_rows)
     (fun _ s' => Running c n T L (m_slot_mapping m) written_rows step_hit mid (m_block_table m) (m_seq_lens m)
                    all_decode (khash s) false (rest_at n (m_block_table m) (m_seq_lens m) false) (T, L) s'
        /\ is_prefill_flag s' = is_prefill_flag s) s.
Proof.
  intros HR Hn Hf Hh. destruct (rd_buffers _ HR) as (t & l & l' & Ht & Htn & Hl & Hln & Hl' & Hln').
  unfold prepare_cuda_decode_sparse_meta. rewrite (gc_gqa _ GC). dev. rewrite Hn.
  apply (wp_read_lens _ L); [apply HR|]. dev. apply (wp_read_table _ T); [apply HR|]. dev.
  eapply wp_copy_lens; [done|done|done|]. intros t1 Ht1. dev.
  eapply wp_copy_table; [done|done|done|done|]. intros t2 Ht2. dev. cbn. rewrite Hf. cbn.
  set (s1 := set_table FULL_TABLE t2 (set_lens FULL_LENS t1 s)).
  eapply wp_mono with (Q := fun _ s' => s' = (if all_decode then s1 else with_decode_req_ids decode_rows s1)).
  { destruct all_decode; dev; reflexivity. }
  intros [] s2 ->. dev. eapply (wp_copy_lens _ _ l').
  - unfold update_seq_lens. by rewrite pylen_fmap.
  - destruct all_decode; cbn; by rewrite lookup_insert_ne by done.
  - done.
  - intros t3 Ht3. dev. split; [by eapply prepared_runs|by destruct all_decode].
Qed.

(** A step without sparse attention. *)
Definition Idle (s : Dev K) : Prop :=
  (gsa_enabled (flags s) = false \/ has_decode (flags s) = false)
    /\ exists m', metas s !! mid = Some m' /\ shows s (m_block_table m') T /\ shows_lens s (m_seq_lens m') L.

(** [build_sparse_meta] either leaves the state [layers_run] starts from, or
    one without sparse attention. *)
Lemma build_run s : Ready s -> is_prefill_flag s = flags_of known ->
  wp (build_sparse_meta c sched requests idx mid)
     (fun _ s' => is_prefill_flag s' = flags_of (advance requests es known)
        /\ if sparse then Running c n T L (m_slot_mapping m) written_rows step_hit mid (m_block_table m) (m_seq_lens m)
                            all_decode (khash s) false (rest_at n (m_block_table m) (m_seq_lens m) false) (T, L) s'
           else Idle s') s.
Proof.
  intros HR Hf. unfold build_sparse_meta. dev. apply (wp_get_meta _ m); [apply HR|].
  unfold get_seq_lens. rewrite (gc_gqa _ GC). cbn [negb]. dev. apply (wp_read_lens _ L); [apply HR|]. dev. cbn [num_reqs with_num_reqs].
  rewrite slice_to_take by apply pylen_nonneg. rewrite take_ge by (unfold pylen in *; lia). fold enabled. unfold set_flags. dev.
  eapply wp_mono; [apply loop_ok; [by destruct HR|done]|]. intros g s1 [-> ->]. dev. cbn [g_hits g_ids g_slots g_blocks].
  set (slots := concat (prefix_slots _ _ _ _ _ _ _ <$> es)). set (blocks := concat (prefix_blocks _ _ _ _ _ _ _ <$> es)).
  assert (Hsh : bool_decide (is_Some step_hit) = (0 <? hits)).
  { unfold step_hit. destruct (0 <? hits); [by apply bool_decide_eq_true_2|by apply bool_decide_eq_false_2; intros []]. }
  set (s2 := with_prefill_flag _ _). set (s3 := with_flags _ s2).
  eapply wp_mono with (Q := fun _ s' => s' = if 0 <? hits then with_prefix_info (slots, blocks) s3 else s3).
  { destruct (0 <? hits); dev; done. }
  intros [] s4 ->. unfold sparse. destruct enabled eqn:He; cbn [negb andb].
  2:{ dev. split; [by destruct (0 <? hits)|]. split; [left; by destruct (0 <? hits)|].
      destruct HR. exists m. by destruct (0 <? hits). }
  dev.
  destruct (0 <? pylen decode_rows) eqn:Hd.
  2:{ dev. split; [by destruct (0 <? hits)|]. split; [right; by destruct (0 <? hits)|].
      destruct HR. exists m. by destruct (0 <? hits). }
  set (s5 := with_flags _ _). assert (Hk : khash s5 = khash s) by by destruct (0 <? hits).
  rewrite <- Hk. eapply wp_mono.
  - apply prepare_ok.
    + destruct HR. constructor; by destruct (0 <? hits).
    + by destruct (0 <? hits).
    + rewrite Hsh. by destruct (0 <? hits).
    + unfold step_hit. intros p. destruct (0 <? hits); [by intros [= <-]|done].
  - intros [] s6 [H6 Hf6]. split; [|done]. rewrite Hf6. by destruct (0 <? hits).
Qed.
Context (prefix_keys : string -> list Z -> list Kv).

Lemma cache_keeps (key : list Kv) m' name (s : Dev K) :
  wp (cache_k_hash_gqa_cuda prefix_keys key m' name) (fun _ s' => exists k, s' = with_khash k s) s.
Proof.
  unfold cache_k_hash_gqa_cuda. dev. destruct (has_pc_hit _); dev; [destruct (prefix_info _) as [ps pb]; dev|]; by eexists.
Qed.

Context (ctx : string -> option Z) (Hctx : forall name, ctx name = Some mid).

Lemma idle_layer (l : LayerCall Kv Qv) (s : Dev K) st : Idle s -> get_layer_state c (lc_name l) = Ok st ->
  wp (unified_attention_with_output c prefix_keys ctx l) (fun x s' => x = (T, L) /\ Idle s') s.
Proof.
  intros [Hoff (m' & Hm & Ht & Hl)] Hst. unfold unified_attention_with_output, attention_begin, layer_meta, the. rewrite Hctx. dev.
  apply (wp_get_meta _ m'); [done|]. rewrite Hst. dev. destruct st as [rb sk]. cbv iota. dev.
  eapply wp_mono with (Q := fun _ s' => exists k, s' = with_khash k s).
  { destruct (rb || sk); [dev; exists (khash s); by destruct s|]. rewrite (gc_gqa _ GC). apply cache_keeps. }
  intros [] s1 [k ->]. dev. eapply wp_mono with (Q := fun _ s' => s' = with_khash k s).
  { cbn. rewrite (gc_gqa _ GC). destruct (gsa_enabled (flags s)), (has_decode (flags s)); cbn; dev; try done. naive_solver. }
  intros [] s2 ->. apply wp_bind. eapply wp_mono; [by apply (forward_ok mid _ m' T L)|].
  intros x s3 [-> ->]. dev. unfold attention_finished, layer_meta, the. rewrite Hctx, (gc_gqa _ GC). dev. cbn.
  assert (Hid : Idle (with_khash k s)) by (split; [done|by exists m']).
  destruct (gsa_enabled (flags s)), (has_decode (flags s)); cbn; dev; try done. naive_solver.
Qed.

Lemma idle_layers (ls : list (LayerCall Kv Qv)) (s : Dev K) : Idle s -> Forall (layer_ok c n) ls ->
  wp (map_m (unified_attention_with_output c prefix_keys ctx) ls) (fun xs s' => xs = (fun _ => (T, L)) <$> ls /\ Idle s') s.
Proof.
  revert s. induction ls as [|l ls IH]; intros s HI Hls; [by apply wp_ret|].
  apply Forall_cons in Hls as [[[st Hst] _] Hls]. cbn [map_m]. apply wp_bind.
  eapply wp_mono; [by eapply idle_layer|]. intros x s1 [-> H1]. apply wp_bind.
  eapply wp_mono; [by apply IH|]. intros xs s2 [-> H2]. by apply wp_ret.
Qed.

End whole.

(** *** The theorems *)
Section theorems.
Context {K Kv Qv QH : Type} `{HO : HashOps K Kv Qv QH}.
Context (c : DevConfig).

(** What the scheduler and vLLM set up for a step: the rows of its requests,
    their full tables and lengths, in tensors that are not the method's own. *)
Record StepOk (sched : SchedOut) (requests : string -> option DevReq) (idx : string -> option Z)
    (m : AttnMetadata) (T : list (list Z)) (L : list Z) (known : Known) : Prop := {
  so_gqa : GqaConfig c;
  so_max : 0 <= dc_max_num_tokens c /\ dc_max_num_tokens c mod dc_block_size c = 0;
  so_table : pylen T = pylen (so_num_scheduled_tokens sched) /\ rows_of_width (max_block_per_seq c) T;
  so_lens : pylen L = pylen (so_num_scheduled_tokens sched);
  so_batch : pylen (so_num_scheduled_tokens sched) <= dc_max_batch_size c;
  so_views : v_rows (m_block_table m) = pylen (so_num_scheduled_tokens sched)
    /\ v_rows (m_seq_lens m) = pylen (so_num_scheduled_tokens sched);
  so_own : v_id (m_block_table m) <> FULL_TABLE /\ v_id (m_seq_lens m) <> FULL_LENS /\ v_id (m_seq_lens m) <> TOPK_LENS;
  so_requests : Forall (request_ok c sched requests idx T (differences (m_query_start_loc m)) known) (so_num_scheduled_tokens sched);
  so_distinct : NoDup (so_num_scheduled_tokens sched).*1 /\ NoDup (row_of idx <$> (so_num_scheduled_tokens sched).*1);
  so_rows : forall r, r ∈ (so_num_scheduled_tokens sched).*1 -> row_of idx r < pylen (so_num_scheduled_tokens sched);
}.

Definition run_step (prefix_keys : string -> list Z -> list Kv) (sched : SchedOut) (requests : string -> option DevReq) (idx : string -> option Z) (mid : Z)
    (ctx : string -> option Z) (ls : list (LayerCall Kv Qv)) : M (Dev K) (list (list (list Z) * list Z)) :=
  do! update_states sched in
  do! build_sparse_meta c sched requests idx mid in
  map_m (unified_attention_with_output c prefix_keys ctx) ls.

(** C6. With sparse attention on and some request decoding, every layer of a
    step sees what it should, although the tables are overwritten in place
    under the shared metadata: a layer that rolls back the full tables, a layer
    that chooses its own choice for the rows that decode and the full rows for
    the others, a layer that skips the last choice made; without, every layer
    sees the full tables.  At the end the metadata shows the full tables
    again. *)
Theorem layers_see_their_choice (prefix_keys : string -> list Z -> list Kv) sched requests idx mid ctx ls m T L known s :
  TopkLaws HO -> StepOk sched requests idx m T L (forget sched known) ->
  Ready sched mid m T L s -> is_prefill_flag s = flags_of known -> (forall name, ctx name = Some mid) ->
  Forall (layer_ok c (pylen (so_num_scheduled_tokens sched))) ls -> first_chooses c ls ->
  exists xs s', run_step prefix_keys sched requests idx mid ctx ls s = (Ok xs, s')
    /\ xs = (if sparse c sched idx L (forget sched known)
             then layers_see c prefix_keys (pylen (so_num_scheduled_tokens sched)) T L (m_slot_mapping m)
                    (decode_rows sched idx (forget sched known)) (step_hit c sched requests idx m T (forget sched known)) (khash s) (T, L) ls
             else (fun _ => (T, L)) <$> ls)
    /\ exists m', metas s' !! mid = Some m' /\ shows s' (m_block_table m') T /\ shows_lens s' (m_seq_lens m') L.
Proof.
  intros HLW [] HR Hf Hctx Hls Hfirst. destruct so_max0 as [Hm1 Hm2], so_table0 as [HT HW], so_views0 as [Hv1 Hv2], so_own0 as (Ho1 & Ho23), so_distinct0 as [Hd1 Hd2].
  assert (Hmem : forall i, i ∈ written_rows sched idx (forget sched known) <-> i ∈ decode_rows sched idx (forget sched known)).
  { intros i. by eapply (written_rows_mem c Hm2 sched requests idx m T L). }
  apply wp_elim. unfold run_step. apply wp_bind. eapply wp_intro; [by apply update_states_ok|]. apply wp_bind.
  set (s1 := with_prefill_flag _ s). assert (HR1 : Ready sched mid m T L s1) by (destruct HR; by constructor).
  eapply wp_mono; [by eapply build_run with (m := m) (T := T) (L := L) (known := forget sched known)|].
  intros [] s2 [_ Hrun]. destruct (sparse _ _ _ _ _).
  - eapply wp_mono.
    + eapply layers_run; [done|done|done|done|done| |done|done|done|exact Hrun|done|by right].
      intros i Hi%Hmem. by eapply decode_rows_in.
    + intros xs s3 [-> (k & ch & now & Hend)]. split.
      * by apply layers_see_ext.
      * destruct (meta_shows _ _ _ _ _ _ _ _ _ _ _ _ _ _ _ Hend) as (m' & Hm' & _ & Ht & Hl). by exists m'.
  - eapply wp_mono; [by eapply idle_layers|]. intros xs s3 [-> [_ Hend]]. done.
Qed.

(** C26. The worker's prefill flags follow the requests: a request has a flag
    exactly while it was scheduled since it started or resumed, and the flag
    says whether tokens of its prompt are still to be computed. *)
Theorem prefill_flags_follow_the_requests sched requests idx mid m T L known s :
  TopkLaws HO -> StepOk sched requests idx m T L (forget sched known) ->
  Ready sched mid m T L s -> is_prefill_flag s = flags_of known ->
  exists s', bind (update_states sched) (fun _ => build_sparse_meta c sched requests idx mid) s = (Ok tt, s')
    /\ is_prefill_flag s' = flags_of (advance requests (so_num_scheduled_tokens sched) (forget sched known)).
Proof.
  intros HLW [] HR Hf. destruct so_max0 as [Hm1 Hm2], so_table0 as [HT HW], so_views0 as [Hv1 Hv2], so_own0 as (Ho1 & Ho23), so_distinct0 as [Hd1 Hd2].
  assert (Hwp : wp (bind (update_states sched) (fun _ => build_sparse_meta c sched requests idx mid))
                  (fun _ s' => is_prefill_flag s' = flags_of (advance requests (so_num_scheduled_tokens sched) (forget sched known))) s).
  { apply wp_bind. eapply wp_intro; [by apply update_states_ok|]. set (s1 := with_prefill_flag _ s).
    assert (HR1 : Ready sched mid m T L s1) by (destruct HR; by constructor).
    eapply wp_mono; [by eapply build_run with (m := m) (T := T) (L := L) (known := forget sched known)|]. by intros [] s2 [Hfl _]. }
  apply wp_elim in Hwp as ([] & s' & Hr & Hfl). by exists s'.
Qed.
End theorems.
