(* ===== verification/GsaOnDeviceConfig.v ===== *)
(** * GSA on the device: configuration and CUDA graphs

    The configuration file of a model ([GSAOnDeviceConfig], its validation, its
    JSON form), what [GSAOnDevice.__init__] checks of it, and the graphs
    captured for steps with sparse attention. *)

From Stdlib Require Import Ascii String.
From S2P Require Import Prelude.
From S2P Require Import PyStr.
From S2P Require Import Affinity.
From S2P Require Import GsaOnDevice.
From stdpp Require Import strings.
Local Open Scope string_scope.
Local Open Scope list_scope.
Local Open Scope Z_scope.
Local Open Scope py_scope.

(** ** The file of a model *)

(** [gsa_on_device_config_path_for_model] down to the path inside the package;
    where the package lies is looked up in the file system. *)
Definition gsa_on_device_config_rel (model_name : string) : res string :=
  let model := lower model_name in
  let has p := contains p model in
  if has "deepseek" && has "r1" then Ok "ucm/sparse/gsa_on_device/configs/gsa_on_device_deepseek_r1_awq_config.json"
  else if has "qwen3" && has "32b" && negb (has "coder")
  then Ok "ucm/sparse/gsa_on_device/configs/gsa_on_device_qwen3_32B_config.json"
  else if has "qwen3" && has "30b" && has "coder"
  then Ok "ucm/sparse/gsa_on_device/configs/gsa_on_device_qwen3_coder_30B_A3B_config.json"
  else if has "qwen3" && has "4b" then Ok "ucm/sparse/gsa_on_device/configs/gsa_on_device_qwen3_4B_config.json"
  else if has "qwq" && has "32b" then Ok "ucm/sparse/gsa_on_device/configs/gsa_on_device_qwq_32B_config.json"
  else if has "deepseek" && has "v2" then Ok "ucm/sparse/gsa_on_device/configs/gsa_on_device_deepseek_v2_lite_config.json"
  else Err ValueError.

(** ** [GSAOnDeviceConfig]

    A dataclass does not check the types of its fields: an object is its
    attributes, and what [json.dump] writes of it and [json.load] reads back are
    JSON values. *)
Inductive json : Type :=
  | JNull
  | JBool (b : bool)
  | JInt (z : Z)
  | JFloat (f : float)
  | JStr (s : string)
  | JList (l : list json).

Definition ints (l : list Z) : json := JList (JInt <$> l).

(** The fields with their defaults, in the order of the class. *)
Definition gsa_fields : list (string * json) := [
  ("model_name", JStr "DummyModel"); ("is_mla", JBool false); ("hash_weight_type", JStr "random");
  ("num_hidden_layers", JInt 36);
  ("gpu_seq_len_threshold", JInt 2048); ("gpu_concurrency_threshold", JInt 4);
  ("npu_seq_len_threshold", JInt 2048); ("npu_concurrency_threshold", JInt 4);
  ("chunk_size", JInt 128); ("chunk_repre_method", JStr "max"); ("head_dim", JInt 128); ("hash_bits", JInt 128);
  (* 0.3 *)
  ("top_k_ratio_per_layer", JList (replicate 36 (JFloat (SpecFloat.S754_finite false 5404319552844595 (-54)))));
  ("top_k_index_reuse", ints (replicate 36 (-1))); ("must_select_blocks", ints [0; -2; -1]);
  ("hash_weight", JNull);
  ("kv_lora_rank", JNull); ("qk_rope_head_dim", JNull); ("hash_bits_kv_lora", JNull); ("hash_bits_qk_rope", JNull);
  ("hash_weight_kv_lora", JNull); ("hash_weight_qk_rope", JNull);
  ("vllm_hash_attention_topk", JNull); ("vllm_hash_attention_reduction_head_num", JNull);
  ("vllm_hash_attention_rollback_layers", JList []); ("vllm_hash_attention_skip_layers", JList [])].

Definition Attrs : Type := list (string * json).

(** [cls( **kwargs)] *)
Definition new_config (kwargs : Attrs) : res Attrs :=
  if forallb (fun k => mem k gsa_fields.*1) kwargs.*1
  then Ok ((fun e => (e.1, default e.2 (od_get e.1 kwargs))) <$> gsa_fields)
  else Err TypeError.
Definition get_attr (k : string) (self : Attrs) : res json := of_option AttributeError (od_get k self).

(** [asdict]: the fields, and no other attribute. *)
Definition asdict (self : Attrs) : res Attrs :=
  map_res (fun k => let? v := get_attr k self in Ok (k, v)) gsa_fields.*1.
Definition to_json (self : Attrs) : res Attrs := asdict self.
Definition from_json (config_dict : Attrs) : res Attrs := new_config config_dict.

Definition set_attr (k : string) (v : json) : M Attrs unit := modify (od_set k v).

(** The arguments the two generators share. *)
Record GenArgs := {
  ga_model_name : string;
  ga_hash_weight_type : string;
  ga_num_hidden_layers : Z;
  ga_seq_len_threshold : Z;
  ga_chunk_size : Z;
  ga_chunk_repre_method : string;
  ga_top_k_ratio_per_layer : list float;
  ga_top_k_index_reuse : list Z;
  ga_must_select_blocks : list Z;
}.

(** Up to [chunk_repre_method]; the attributes set before a check that fails
    stay set. *)
Definition set_head (is_mla : bool) (a : GenArgs) : M Attrs unit :=
  do! set_attr "is_mla" (JBool is_mla) in
  do! set_attr "model_name" (JStr (ga_model_name a)) in
  if negb (mem (ga_hash_weight_type a) ["random"; "fixed"]) then raise ValueError
  else
    do! set_attr "hash_weight_type" (JStr (ga_hash_weight_type a)) in
    do! set_attr "num_hidden_layers" (JInt (ga_num_hidden_layers a)) in
    do! set_attr "seq_len_threshold" (JInt (ga_seq_len_threshold a)) in
    if negb (ga_chunk_size a mod 128 =? 0) then raise ValueError
    else
      do! set_attr "chunk_size" (JInt (ga_chunk_size a)) in
      if negb (mem (ga_chunk_repre_method a) ["max"; "min"; "sum"]) then raise ValueError
      else set_attr "chunk_repre_method" (JStr (ga_chunk_repre_method a)).

Definition set_layers (a : GenArgs) : M Attrs unit :=
  if negb (pylen (ga_top_k_ratio_per_layer a) =? ga_num_hidden_layers a) then raise ValueError
  else
    do! set_attr "top_k_ratio_per_layer" (JList (JFloat <$> ga_top_k_ratio_per_layer a)) in
    if negb (pylen (ga_top_k_index_reuse a) =? ga_num_hidden_layers a) then raise ValueError
    else
      do! set_attr "top_k_index_reuse" (ints (ga_top_k_index_reuse a)) in
      set_attr "must_select_blocks" (ints (ga_must_select_blocks a)).

Definition generate_config_data (a : GenArgs) (head_dim hash_bits : Z) : M Attrs unit :=
  do! set_head false a in
  do! set_attr "head_dim" (JInt head_dim) in
  do! set_attr "hash_bits" (JInt hash_bits) in
  do! set_layers a in
  if bool_decide (ga_hash_weight_type a = "random") then set_attr "hash_weight" JNull else ret tt.

Definition generate_mla_config_data (a : GenArgs)
    (kv_lora_rank qk_rope_head_dim hash_bits_kv_lora hash_bits_qk_rope : Z) : M Attrs unit :=
  do! set_head true a in
  do! set_attr "head_dim" (JInt (qk_rope_head_dim + kv_lora_rank)) in
  do! set_attr "hash_bits" (JInt (hash_bits_qk_rope + hash_bits_kv_lora)) in
  do! set_attr "kv_lora_rank" (JInt kv_lora_rank) in
  do! set_attr "qk_rope_head_dim" (JInt qk_rope_head_dim) in
  do! set_attr "hash_bits_kv_lora" (JInt hash_bits_kv_lora) in
  do! set_attr "hash_bits_qk_rope" (JInt hash_bits_qk_rope) in
  do! set_layers a in
  if bool_decide (ga_hash_weight_type a = "random") then
    do! set_attr "hash_weight" JNull in
    do! set_attr "hash_weight_kv_lora" JNull in
    set_attr "hash_weight_qk_rope" JNull
  else ret tt.

(** [len(x) != n] for the value of an attribute *)
Definition is_int (v : json) (n : Z) : bool := match v with JInt z => z =? n | _ => false end.
Definition floats (w : list (list float)) : json := JList ((fun r => JList (JFloat <$> r)) <$> w).
Definition check_fixed : M Attrs unit :=
  let! t := gets (get_attr "hash_weight_type") in
  let! t := lift_res t in
  match t with JStr "fixed" => ret tt | _ => raise ValueError end.
(** [len(w) != rows or len(w[0]) != cols] *)
Definition check_shape (w : list (list float)) (rows cols : string) : M Attrs unit :=
  let! r := gets (get_attr rows) in
  let! r := lift_res r in
  if negb (is_int r (pylen w)) then raise ValueError
  else
    let! row := lift_res (py_idx w 0) in
    let! cl := gets (get_attr cols) in
    let! cl := lift_res cl in
    if negb (is_int cl (pylen row)) then raise ValueError else ret tt.
Definition set_hash_weight (w : list (list float)) : M Attrs unit :=
  do! check_fixed in
  do! check_shape w "head_dim" "hash_bits" in
  set_attr "hash_weight" (floats w).
Definition set_mla_hash_weight (kv qk : list (list float)) : M Attrs unit :=
  do! check_fixed in
  do! check_shape kv "kv_lora_rank" "hash_bits_kv_lora" in
  do! check_shape qk "qk_rope_head_dim" "hash_bits_qk_rope" in
  do! set_attr "hash_weight_kv_lora" (floats kv) in
  set_attr "hash_weight_qk_rope" (floats qk).

(** ** [GSAOnDevice.__init__] on CUDA: what it reads of the file and checks *)
Record EngineConfig := {
  ec_is_mla : bool;
  ec_block_size : Z;
  ec_max_model_len : Z;
  ec_max_num_seqs : Z;
  ec_enforce_eager : bool;
}.

(** An attribute used as a number, and as a list of numbers. *)
Definition as_int (v : json) : res Z :=
  match v with JInt z => Ok z | JBool b => Ok (if b then 1 else 0) | _ => Err TypeError end.
Definition as_ints (v : json) : res (list Z) := match v with JList l => map_res as_int l | _ => Err TypeError end.

Definition new_GSAOnDevice (e : EngineConfig) (cfg : Attrs) : res DevConfig :=
  let? topk := get_attr "vllm_hash_attention_topk" cfg in
  let? rollback := get_attr "vllm_hash_attention_rollback_layers" cfg in
  let? skip := get_attr "vllm_hash_attention_skip_layers" cfg in
  let? thr := get_attr "gpu_seq_len_threshold" cfg in
  let? conc := get_attr "gpu_concurrency_threshold" cfg in
  let? topk := as_int topk in
  let? thr := as_int thr in
  if negb (topk <=? thr) then Err AssertionError
  else if ec_block_size e =? 0 then Err ZeroDivisionError
  else if negb (topk mod ec_block_size e =? 0) then Err AssertionError
  else if negb (topk <=? ec_max_model_len e) then Err AssertionError
  else
    let? conc := as_int conc in
    let? rollback := as_ints rollback in
    let? skip := as_ints skip in
    Ok {| dc_is_mla := ec_is_mla e; dc_block_size := ec_block_size e; dc_topk_tokens := topk;
          dc_rollback_layers := rollback; dc_skip_layers := skip; dc_seq_len_threshold := thr;
          dc_concurrency_threshold := conc; dc_max_batch_size := ec_max_num_seqs e;
          dc_max_num_tokens := ec_max_model_len e; dc_use_graph := negb (ec_enforce_eager e) |}.

(** ** CUDA graphs *)

Inductive CUDAGraphMode := NONE | PIECEWISE | FULL.

#[global] Instance CUDAGraphMode_eq_dec : EqDecision CUDAGraphMode.
Proof. solve_decision. Defined.

(** [BatchDescriptor], a pair, and [GsaBatchDescriptor], a triple: named tuples
    of different lengths are never equal. *)
Record Descriptor := MkDesc { bd_num_tokens : Z; bd_uniform_decode : bool; bd_gsa_enabled : option bool }.

#[global] Instance Descriptor_eq_dec : EqDecision Descriptor.
Proof. solve_decision. Defined.

Definition BatchDescriptor (num_tokens : Z) (uniform_decode : bool) : Descriptor := MkDesc num_tokens uniform_decode None.
Definition GsaBatchDescriptor (num_tokens : Z) (uniform_decode gsa_enabled : bool) : Descriptor :=
  MkDesc num_tokens uniform_decode (Some gsa_enabled).
Definition non_uniform (d : Descriptor) : Descriptor := MkDesc (bd_num_tokens d) false (bd_gsa_enabled d).

(** The dispatcher, the method's flags and the rest of the model runner. *)
Record GraphState (R : Type) := MkGraph {
  g_dispatch : Descriptor -> CUDAGraphMode * Descriptor;
  g_keys : list (CUDAGraphMode * Descriptor);
  g_flags : Flags;
  g_runner : R;
}.
Arguments MkGraph {R} _ _ _ _.
Arguments g_dispatch {R} _.
Arguments g_keys {R} _.
Arguments g_flags {R} _.
Arguments g_runner {R} _.

Section graphs.
Context {R : Type}.
Abbreviation GS := (GraphState R).

Definition resolve_batch_descriptor (d : Descriptor) (s : GS) : Descriptor :=
  if negb (gsa_enabled (g_flags s)) then d
  else if has_pc_hit (g_flags s) || negb (decode_only (g_flags s)) then d
  else
    let gsa_bd := GsaBatchDescriptor (bd_num_tokens d) (bd_uniform_decode d) true in
    if mem (FULL, gsa_bd) (g_keys s) then gsa_bd else d.

Definition adjust_cudagraph_runtime_mode (mode : CUDAGraphMode) (d : Descriptor) (num_input_tokens : Z) (uniform_decode : bool)
    (s : GS) : CUDAGraphMode * Descriptor :=
  if bool_decide (mode = FULL) && has_pc_hit (g_flags s)
  then (NONE, BatchDescriptor num_input_tokens uniform_decode)
  else (mode, d).

(** [_patched] *)
Definition patched (target : Descriptor) (orig : Descriptor -> CUDAGraphMode * Descriptor) (d : Descriptor) : CUDAGraphMode * Descriptor :=
  if (bd_num_tokens d =? bd_num_tokens target) && Bool.eqb (bd_uniform_decode d) (bd_uniform_decode target)
  then (FULL, target) else orig d.

Definition with_dispatch (f : Descriptor -> CUDAGraphMode * Descriptor) (s : GS) : GS := MkGraph f (g_keys s) (g_flags s) (g_runner s).
Definition add_cudagraph_key (mode : CUDAGraphMode) (d : Descriptor) : M GS unit :=
  modify (fun s => MkGraph (g_dispatch s) (g_keys s ++ [(mode, d)]) (g_flags s) (g_runner s)).
Definition reset_flags (s : GS) : GS := MkGraph (g_dispatch s) (g_keys s) (MkFlags false false false false) (g_runner s).

(** [_dummy_run] of the model runner, without the arguments that never change:
    the tokens, the mode and [force_attention]. *)
Context (dummy_run : Z -> CUDAGraphMode -> bool -> M GS unit).
Context (cudagraph_num_of_warmups : Z).

Definition capture_one (mode : CUDAGraphMode) (num_tokens : Z) : M GS unit :=
  let gsa_bd := GsaBatchDescriptor num_tokens true true in
  let! keys := gets g_keys in
  do! (if mem (FULL, gsa_bd) keys then ret tt else add_cudagraph_key FULL gsa_bd) in
  let! orig_dispatch := gets g_dispatch in
  do! modify (with_dispatch (patched gsa_bd orig_dispatch)) in
  finally
    (do! for_ (zrange 0 cudagraph_num_of_warmups) (fun _ => dummy_run num_tokens NONE true) in
     dummy_run num_tokens mode false)
    (fun s => reset_flags (with_dispatch orig_dispatch s)).

Definition maybe_capture_extra_cudagraphs (compilation_cases : list Z) (mode : CUDAGraphMode) (uniform_decode : bool)
    (remove_all_loras : M GS unit) : M GS unit :=
  if negb (uniform_decode && bool_decide (mode = FULL)) then ret tt
  else do! for_ compilation_cases (capture_one FULL) in remove_all_loras.
End graphs.

(** ** Properties *)

(** *** The configuration file *)

Lemma od_get_fields {A B} `{EqDecision A} (f : A * B -> B) (l : list (A * B)) k v :
  NoDup l.*1 -> (k, v) ∈ l -> od_get k ((fun e => (e.1, f e)) <$> l) = Some (f (k, v)).
Proof.
  induction l as [|[k' v'] l IH]; intros Hnd Hin; [by apply elem_of_nil in Hin|].
  apply NoDup_cons in Hnd as [Hn Hnd]. cbn. case_decide as Hk.
  - subst. apply elem_of_cons in Hin as [[= <-]|Hin]; [done|]. destruct Hn. by apply (list_elem_of_fmap_2 fst) in Hin.
  - apply elem_of_cons in Hin as [[= -> ->]|Hin]; [done|]. by apply IH.
Qed.

Lemma gsa_fields_nodup : NoDup gsa_fields.*1.
Proof. by apply (bool_decide_unpack _). Qed.

(** What a file gives: its values, defaults for the others. *)
Lemma new_config_get kwargs o k d : new_config kwargs = Ok o -> (k, d) ∈ gsa_fields ->
  od_get k o = Some (default d (od_get k kwargs)).
Proof.
  unfold new_config. destruct (forallb _ _); [|done]. intros [= <-] Hk.
  exact (od_get_fields (fun e => default e.2 (od_get e.1 kwargs)) gsa_fields k d gsa_fields_nodup Hk).
Qed.

Lemma od_get_pairs (g : string -> json) l k : od_get k ((fun k => (k, g k)) <$> l) = if mem k l then Some (g k) else None.
Proof.
  induction l as [|k' l IH]; [done|]. cbn. rewrite IH. unfold mem. case_decide as Hk.
  - subst. by rewrite bool_decide_eq_true_2 by left.
  - destruct (decide (k ∈ l)); [rewrite !bool_decide_eq_true_2; [done|by right|done]|].
    rewrite !bool_decide_eq_false_2; [done|by intros [|]%elem_of_cons|done].
Qed.

Lemma asdict_ok self d : asdict self = Ok d ->
  exists g, d = (fun k => (k, g k)) <$> gsa_fields.*1 /\ forall k, k ∈ gsa_fields.*1 -> od_get k self = Some (g k).
Proof.
  intros Hd. exists (fun k => default JNull (od_get k self)). unfold asdict in Hd. revert d Hd. generalize gsa_fields.*1 as l.
  induction l as [|k l IH]; intros d Hd; [by injection Hd as <-; split; [|intros ? ?%elem_of_nil]|]. cbn in Hd. unfold get_attr in Hd.
  destruct (od_get k self) as [v|] eqn:Hv; [|done]. cbn in Hd. destruct (map_res _ l) as [d'|] eqn:Hm; [|done].
  injection Hd as <-. destruct (IH d' eq_refl) as [-> Hg]. cbn. rewrite Hv. split; [done|].
  intros k' [-> |Hk']%elem_of_cons; [by rewrite Hv|by apply Hg].
Qed.

Lemma round_trip self d : to_json self = Ok d ->
  exists o, from_json d = Ok o /\ o.*1 = gsa_fields.*1 /\ forall k, od_get k o = if mem k gsa_fields.*1 then od_get k self else None.
Proof.
  intros (g & -> & Hg)%asdict_ok. unfold from_json, new_config.
  replace (forallb _ _) with true.
  2:{ symmetry. apply forallb_forall. intros k Hk%list_elem_of_In. apply bool_decide_eq_true_2.
      apply list_elem_of_fmap in Hk as (p & -> & Hp). by apply list_elem_of_fmap in Hp as (k & -> & Hk). }
  eexists. split; [done|]. split; [by rewrite <- list_fmap_compose|]. intros k.
  assert (He : (fun e : string * json => (e.1, default e.2 (od_get e.1 ((fun k => (k, g k)) <$> gsa_fields.*1)))) <$> gsa_fields
               = (fun k => (k, g k)) <$> gsa_fields.*1).
  { etransitivity; [|apply list_fmap_compose]. apply list_fmap_ext. intros i e He. unfold compose. cbv beta. rewrite od_get_pairs. unfold mem.
    rewrite bool_decide_eq_true_2; [done|]. eapply list_elem_of_fmap_2, list_elem_of_lookup_2, He. }
  rewrite He, od_get_pairs. destruct (mem k gsa_fields.*1) eqn:Hk; [|done]. apply bool_decide_eq_true in Hk. by rewrite Hg.
Qed.

(** Writing a configuration to its JSON file and reading it back keeps every
    field of the class, and nothing else of the object. *)
Theorem gsa_config_round_trip self d : to_json self = Ok d ->
  exists o, from_json d = Ok o /\ o.*1 = gsa_fields.*1 /\ forall k, od_get k o = if mem k gsa_fields.*1 then od_get k self else None.
Proof. apply round_trip. Qed.

(** The threshold given to the generators is no field of the class. *)
Lemma generated_threshold_is_lost (a : GenArgs) head_dim hash_bits self s' d :
  generate_config_data a head_dim hash_bits self = (Ok tt, s') -> to_json s' = Ok d ->
  exists o, from_json d = Ok o /\ od_get "seq_len_threshold" o = None.
Proof.
  intros _ Hd. destruct (round_trip s' d Hd) as (o & Ho & _ & Hg). exists o. split; [done|]. by rewrite Hg.
Qed.

Ltac in_fields := unfold gsa_fields; repeat first [apply elem_of_cons; left; reflexivity | apply elem_of_cons; right].

(** A file without [vllm_hash_attention_topk], such as the one for QwQ-32B,
    lets no worker start. *)
Lemma config_without_topk_fails e kwargs o : new_config kwargs = Ok o -> od_get "vllm_hash_attention_topk" kwargs = None ->
  new_GSAOnDevice e o = Err TypeError.
Proof.
  intros Ho Hk. assert (Hin : forall k d, (k, d) ∈ gsa_fields -> od_get k o = Some (default d (od_get k kwargs)))
    by (intros k d; by apply new_config_get).
  unfold new_GSAOnDevice, get_attr.
  rewrite (Hin "vllm_hash_attention_topk" JNull) by in_fields. rewrite Hk. cbn.
  rewrite (Hin "vllm_hash_attention_rollback_layers" (JList [])) by in_fields.
  rewrite (Hin "vllm_hash_attention_skip_layers" (JList [])) by in_fields.
  rewrite (Hin "gpu_seq_len_threshold" (JInt 2048)) by in_fields.
  rewrite (Hin "gpu_concurrency_threshold" (JInt 4)) by in_fields. done.
Qed.

(** *** Starting a worker *)

(** What [__init__] checked holds of the configuration the worker runs with;
    that a choice is longer than the tokens always kept is checked only when
    one is made. *)
Lemma init_config e cfg d : new_GSAOnDevice e cfg = Ok d ->
  dc_topk_tokens d <= dc_seq_len_threshold d /\ dc_block_size d <> 0 /\ dc_topk_tokens d mod dc_block_size d = 0
    /\ dc_topk_tokens d <= dc_max_num_tokens d /\ dc_is_mla d = ec_is_mla e /\ dc_block_size d = ec_block_size e
    /\ dc_max_num_tokens d = ec_max_model_len e.
Proof.
  unfold new_GSAOnDevice. repeat (destruct (get_attr _ cfg); [|done]). cbn.
  destruct (as_int a) as [topk|]; [|done]. destruct (as_int a2) as [thr|]; [|done].
  destruct (Z.leb_spec topk thr); [|done]. destruct (Z.eqb_spec (ec_block_size e) 0); [done|].
  destruct (Z.eqb_spec (topk mod ec_block_size e) 0); [|done]. destruct (Z.leb_spec topk (ec_max_model_len e)); [|done]. cbn.
  destruct (as_int a3); [|done]. destruct (as_ints a0); [|done]. destruct (as_ints a1); [|done]. by intros [= <-].
Qed.

(** *** Graphs *)
Section graph_lemmas.
Context {R : Type}.
Abbreviation GS := (GraphState R).
Context (dummy_run : Z -> CUDAGraphMode -> bool -> M GS unit) (warmups : Z).
(** A dummy run registers no graph and leaves the dispatcher alone. *)
Context (Hrun : forall n mode b s, g_keys (dummy_run n mode b s).2 = g_keys s).

Lemma warmups_keys l n s : g_keys (for_ l (fun _ : Z => dummy_run n NONE true) s).2 = g_keys s.
Proof.
  revert s. induction l as [|x l IH]; intros s; [done|]. cbn [for_]. unfold bind. specialize (Hrun n NONE true s).
  destruct (dummy_run n NONE true s) as [[[]|e] s']; cbn in *; [by rewrite IH|done].
Qed.

(** Whatever a capture meets, the dispatcher is restored, the flags are reset,
    and the graph of its size is registered. *)
Lemma capture_one_spec n mode s :
  let '(r, s') := capture_one dummy_run warmups mode n s in
  g_dispatch s' = g_dispatch s /\ g_flags s' = MkFlags false false false false
    /\ (FULL, GsaBatchDescriptor n true true) ∈ g_keys s' /\ forall k, k ∈ g_keys s -> k ∈ g_keys s'.
Proof.
  unfold capture_one. m_unfold. set (d := GsaBatchDescriptor n true true).
  set (s1 := if mem (FULL, d) (g_keys s) then s
             else MkGraph (g_dispatch s) (g_keys s ++ [(FULL, d)]) (g_flags s) (g_runner s)).
  assert (H1 : (if mem (FULL, d) (g_keys s) then ret tt else add_cudagraph_key FULL d) s = (Ok tt, s1)).
  { unfold s1. by destruct (mem _ _). }
  unfold ret in H1. rewrite H1. assert (Hk1 : (FULL, d) ∈ g_keys s1 /\ (forall k, k ∈ g_keys s -> k ∈ g_keys s1) /\ g_dispatch s1 = g_dispatch s).
  { unfold s1, mem. case_bool_decide; [done|]. cbn. set_solver. }
  destruct Hk1 as (Hk1 & Hk2 & Hd). set (s2 := with_dispatch _ s1). pose proof (warmups_keys (zrange 0 warmups) n s2) as Hw.
  destruct (for_ (zrange 0 warmups) _ s2) as [[[]|e] s3]; cbn in *.
  - pose proof (Hrun n mode false s3) as Hr. destruct (dummy_run n mode false s3) as [r s4]. cbn in *. rewrite Hr, Hw. done.
  - rewrite Hw. done.
Qed.

Lemma captures_keep cases mode s k : k ∈ g_keys s -> k ∈ g_keys (for_ cases (capture_one dummy_run warmups mode) s).2.
Proof.
  apply (for_preserves (fun s => k ∈ g_keys s)). intros n s1 _ Hk. pose proof (capture_one_spec n mode s1) as Hs.
  destruct (capture_one _ _ mode n s1) as [r s2]. by apply Hs.
Qed.

Lemma captures_restore cases mode s : g_dispatch (for_ cases (capture_one dummy_run warmups mode) s).2 = g_dispatch s.
Proof.
  apply (for_preserves (fun s' => g_dispatch s' = g_dispatch s)); [|done]. intros n s1 _ Hk. pose proof (capture_one_spec n mode s1) as Hs.
  destruct (capture_one _ _ mode n s1) as [r s2]. cbn. rewrite <- Hk. apply Hs.
Qed.

Lemma captured cases mode s s' n : for_ cases (capture_one dummy_run warmups mode) s = (Ok tt, s') -> n ∈ cases ->
  (FULL, GsaBatchDescriptor n true true) ∈ g_keys s'.
Proof.
  revert s. induction cases as [|m cases IH]; intros s Hr Hn; [by apply elem_of_nil in Hn|].
  cbn [for_] in Hr. apply bind_inv_ok in Hr as ([] & s1 & H1 & Hr). apply elem_of_cons in Hn as [-> |Hn]; [|by eapply IH].
  pose proof (captures_keep cases mode s1 (FULL, GsaBatchDescriptor m true true)) as Hk. rewrite Hr in Hk. apply Hk.
  pose proof (capture_one_spec m mode s) as Hs. rewrite H1 in Hs. exact (proj1 (proj2 (proj2 Hs))).
Qed.

(** C27. Once the graphs for a list of sizes are captured, a step of one of these
    sizes in which every request decodes with sparse attention, without a
    prefix-cache hit, is dispatched to the graph captured for it, and no other
    step is; the dispatcher itself is as it was before, even when a capture
    fails. *)
Theorem captured_graphs_are_used cases remove s r s' n uniform flags :
  (forall s, g_dispatch (remove s).2 = g_dispatch s /\ g_keys (remove s).2 = g_keys s) ->
  maybe_capture_extra_cudagraphs dummy_run warmups cases FULL true remove s = (r, s') ->
  g_dispatch s' = g_dispatch s
    /\ (r = Ok tt -> n ∈ cases ->
        let step := MkGraph (g_dispatch s') (g_keys s') flags (g_runner s') in
        resolve_batch_descriptor (BatchDescriptor n true) step
          = if gsa_enabled flags && decode_only flags && negb (has_pc_hit flags)
            then GsaBatchDescriptor n true true else BatchDescriptor n true)
    /\ (gsa_enabled flags && decode_only flags && negb (has_pc_hit flags) = false ->
        resolve_batch_descriptor (BatchDescriptor n uniform) (MkGraph (g_dispatch s') (g_keys s') flags (g_runner s'))
          = BatchDescriptor n uniform).
Proof.
  intros Hrem Hr. unfold maybe_capture_extra_cudagraphs in Hr. cbn in Hr. rewrite bool_decide_eq_true_2 in Hr by done. cbn in Hr.
  pose proof (captures_restore cases FULL s) as Hd. split; [|split].
  - destruct (for_ cases _ s) as [[[]|e] s1] eqn:Hc; [rewrite (bind_ok _ _ _ _ _ Hc) in Hr|rewrite (bind_err _ _ _ _ _ Hc) in Hr].
    + pose proof (Hrem s1) as [Hrem1 _]. rewrite Hr in Hrem1. cbn in *. congruence.
    + by injection Hr as <- <-.
  - intros -> Hn. apply bind_inv_ok in Hr as ([] & s1 & Hc & Hr). pose proof (captured _ _ _ _ _ Hc Hn) as Hk.
    pose proof (Hrem s1) as [_ Hrem2]. rewrite Hr in Hrem2. cbn in Hrem2. rewrite <- Hrem2 in Hk.
    unfold resolve_batch_descriptor. cbn. destruct flags as [[] ? [] []]; cbn; try done. unfold mem.
    by rewrite bool_decide_eq_true_2 by done.
  - intros Hf. unfold resolve_batch_descriptor. cbn. by destruct flags as [[] ? [] []].
Qed.
End graph_lemmas.
