(* ===== verification/GsaOnDeviceDemo.v ===== *)
(** * GSA on the device: runs on concrete inputs

    Kernels with hashes that are numbers, a step of two requests over four
    layers, and the witnesses of the theorems. *)

From Stdlib Require Import Ascii String.
From S2P Require Import Prelude.
From S2P Require Import Wp.
From S2P Require Import PyStr.
From S2P Require Import GsaOnDevice.
From S2P Require Import GsaOnDeviceTopk.
From S2P Require Import GsaOnDeviceRuns.
From S2P Require Import GsaOnDeviceBuild.
From S2P Require Import GsaOnDeviceConfig.
From stdpp Require Import strings sorting.
Local Open Scope string_scope.
Local Open Scope list_scope.
Local Open Scope Z_scope.
Local Open Scope py_scope.

(** ** Kernels *)

(** The indices of the [k] smallest of [l]. *)
Definition smaller (p q : Z * Z) : Prop := p.1 <= q.1.
#[local] Instance smaller_dec p q : Decision (smaller p q).
Proof. unfold smaller. apply _. Defined.
#[local] Instance smaller_total : Total smaller.
Proof. intros p q. unfold smaller. lia. Qed.
#[local] Instance smaller_trans : Transitive smaller.
Proof. intros p q r. unfold smaller. lia. Qed.

Definition ranked (l : list Z) : list (Z * Z) := merge_sort smaller (zip l (zrange 0 (pylen l))).
Definition smallest (k : Z) (l : list Z) : list Z := (take (Z.to_nat k) (ranked l)).*2.

(** The hash of a key is the key, cached by slot; two hashes differ in at least
    one bit. *)
#[local] Instance demo_ops : HashOps (list (Z * Z)) Z Z Z := {
  cache_keys := fun _ keys slots k => zip slots keys ++ k;
  hash_query := fun q => q;
  hash_query_mla := fun q _ => q;
  hamming_dist := fun k _ q block offset => 1 + Z.min 100 (Z.abs (q - default 50 (od_get (block * 1 + offset) k)));
  torch_topk := smallest;
  get_mla_metadata := fun lens => ([lens], lens);
}.

Lemma ranked_perm l : ranked l ≡ₚ zip l (zrange 0 (pylen l)).
Proof. apply merge_sort_Permutation. Qed.

Lemma elem_of_ranked l x i : (x, i) ∈ ranked l <-> 0 <= i /\ l !! Z.to_nat i = Some x.
Proof.
  rewrite ranked_perm. rewrite list_elem_of_lookup. setoid_rewrite lookup_zip_Some. split.
  - intros (j & Hx & Hi). pose proof (lookup_lt_Some _ _ _ Hx). unfold zrange in Hi.
    rewrite list_lookup_fmap, lookup_seq_lt in Hi by (unfold pylen; lia). cbn in Hi. injection Hi as <-.
    split; [lia|]. by replace (Z.to_nat (0 + Z.of_nat j)) with j by lia.
  - intros [H0 Hx]. exists (Z.to_nat i). split; [done|]. pose proof (lookup_lt_Some _ _ _ Hx).
    rewrite <- (Z.sub_0_r i) at 1. apply lookup_zrange. unfold pylen. lia.
Qed.

Lemma ranked_nodup l : NoDup (ranked l).*2.
Proof.
  rewrite ranked_perm. rewrite snd_zip by (rewrite length_zrange; unfold pylen; lia).
  unfold zrange. apply NoDup_fmap_2; [intros ???; lia|apply NoDup_seq].
Qed.

Lemma demo_laws : TopkLaws demo_ops.
Proof.
  constructor; cbn.
  - intros k l Hk. unfold smallest, pylen in *. rewrite length_fmap, length_take, ranked_perm, length_zip, length_zrange. unfold pylen. lia.
  - intros k l. unfold smallest. rewrite fmap_take. eapply sublist_NoDup; [apply ranked_nodup|apply sublist_take].
  - intros k l i Hi. unfold smallest in Hi. apply list_elem_of_fmap in Hi as ([x j] & -> & Hi). cbn.
    apply elem_of_take in Hi as (n & Hi & _). apply list_elem_of_lookup_2, elem_of_ranked in Hi as [H0 Hx].
    apply lookup_lt_Some in Hx. unfold pylen. lia.
  - intros k l i j x y Hi Hj H0 Hx Hy. unfold smallest in *.
    apply list_elem_of_fmap in Hi as ([x' i'] & -> & Hi). cbn in *.
    pose proof (StronglySorted_merge_sort smaller (zip l (zrange 0 (pylen l)))) as Hs.
    fold (ranked l) in Hs. assert (Hjr : (y, j) ∈ ranked l) by by apply elem_of_ranked.
    rewrite <- (take_drop (Z.to_nat k) (ranked l)) in Hjr, Hs. apply elem_of_app in Hjr as [Hjt|Hjd].
    { destruct Hj. by apply (list_elem_of_fmap_2 snd) in Hjt. }
    assert (Hxi : x' = x).
    { assert ((x', i') ∈ ranked l) as [_ Hx']%elem_of_ranked by (apply elem_of_take in Hi as (p & Hp & _); by eapply list_elem_of_lookup_2). congruence. }
    subst. exact (StronglySorted_app_1_elem_of smaller _ _ (x, i') (y, j) Hs Hi Hjd).
Qed.

(** ** One row *)

(** Blocks of one token, six of them chosen of eight. *)
Lemma demo_differ k layer q : hashes_differ (H := demo_ops) k layer q.
Proof. intros block offset. cbn. unfold INFINITY. lia. Qed.

Definition demo_row : list Z := [10; 11; 12; 13; 14; 15; 16; 17].

Lemma sparse_row_reads_own_tokens_witness :
  exists chosen ts, select_blocks (H := demo_ops) 1 [] "l" 6 1 4 0 demo_row 8 = Ok chosen
    /\ read_slots 1 (chosen ++ [0; 0]) 6 = token_slot 1 demo_row <$> ts
    /\ StronglySorted Z.lt ts /\ (forall t, t ∈ ts -> 0 <= t < 8) /\ pylen ts <= 6
    /\ hd_error ts = Some 0 /\ last ts = Some 7 /\ (8 <= 6 -> ts = zrange 0 8).
Proof.
  apply (sparse_row_reads_own_tokens (HO := demo_ops) demo_laws 1 6 ltac:(lia) ltac:(done) ltac:(lia) [] "l" 0 (demo_differ _ _ _)
           demo_row 8 ltac:(by vm_compute) ltac:(by vm_compute) [0; 0]).
Defined.

(** ** A step

    One request decodes its eighth token, another begins with four of its eight
    tokens fetched from outside; the first layer rolls back, the second and the
    last choose, the third skips. *)
Definition demo_config : DevConfig := {|
  dc_is_mla := false; dc_block_size := 1; dc_topk_tokens := 6; dc_rollback_layers := [0]; dc_skip_layers := [0; 0; 1; 0];
  dc_seq_len_threshold := 7; dc_concurrency_threshold := 1; dc_max_batch_size := 2; dc_max_num_tokens := 8; dc_use_graph := false |}.

Definition demo_sched : SchedOut := {|
  so_num_scheduled_tokens := [("a", 1); ("b", 4)]; so_num_external := {["b" := 4]};
  so_finished_req_ids := ["z"]; so_cached := [("a", false)] |}.
Definition demo_requests (r : string) : option DevReq :=
  if decide (r = "a") then Some (MkDevReq 7 5) else if decide (r = "b") then Some (MkDevReq 4 8) else None.
Definition demo_idx (r : string) : option Z := if decide (r = "a") then Some 0 else if decide (r = "b") then Some 1 else None.
Definition demo_table : list (list Z) := [[10; 11; 12; 13; 14; 15; 16; 17]; [20; 21; 22; 23; 24; 25; 26; 27]].
Definition demo_lens : list Z := [8; 8].
Definition demo_meta : AttnMetadata := MkMeta (MkView 1 2) (MkView 1 2) [0; 1; 5] [17; 24; 25; 26; 27] 5 None None.
Definition demo_known : gmap string (Z * Z) := {["a" := (7, 5); "z" := (9, 9)]}.
Definition demo_khash : list (Z * Z) := [(10, 3); (11, 9); (12, 40); (13, 8); (14, 0); (15, 1); (16, 2); (17, 5)].
Definition demo_state : Dev (list (Z * Z)) :=
  MkDev (MkFlags false false false false) 0 (flags_of demo_known) [] ([], []) None None (MkMla None None None) (MkCg [] [] [])
    (MkTensors {[1 := demo_table; FULL_TABLE := [[]; []]]} {[1 := demo_lens; FULL_LENS := [0; 0]; TOPK_LENS := [0; 0]]})
    {[0 := demo_meta]} demo_khash.
Definition demo_layer (name : string) : LayerCall Z Z := MkLayer name [8; 0; 0; 0; 0] [5; 60; 61; 62; 63].
Definition demo_layers : list (LayerCall Z Z) :=
  demo_layer <$> ["model.layers.0.attn"; "model.layers.1.attn"; "model.layers.2.attn"; "model.layers.3.attn"].
Definition demo_prefix (layer : string) (blocks : list Z) : list Z := (fun b => b + 100) <$> blocks.
Definition demo_run := run_step (HO := demo_ops) demo_config demo_prefix demo_sched demo_requests demo_idx 0 (fun _ => Some 0) demo_layers demo_state.

Lemma demo_gqa : GqaConfig demo_config.
Proof. by constructor. Qed.

Lemma demo_forget : forget demo_sched demo_known = {["a" := (7, 5)]}.
Proof. by vm_compute. Qed.

Lemma demo_step_ok : StepOk demo_config demo_sched demo_requests demo_idx demo_meta demo_table demo_lens {["a" := (7, 5)]}.
Proof.
  constructor; try done; try apply demo_gqa.
  - split; [done|]. by repeat constructor.
  - repeat constructor; cbn [fst snd]; try lia.
    + exists (MkDevReq 7 5), 0, 1, [10; 11; 12; 13; 14; 15; 16; 17]. split_and!; try done. by intros p [= <-].
    + exists (MkDevReq 4 8), 1, 4, [20; 21; 22; 23; 24; 25; 26; 27]. by split_and!.
  - split; apply (bool_decide_unpack _); by vm_compute.
  - intros r Hr. cbn in Hr. apply elem_of_cons in Hr as [-> |Hr]; [by vm_compute|].
    apply elem_of_cons in Hr as [-> |Hr]; [by vm_compute|]. by apply elem_of_nil in Hr.
Qed.

Lemma demo_ready : Ready demo_sched 0 demo_meta demo_table demo_lens demo_state.
Proof.
  constructor; [done|by exists demo_table|by exists demo_lens|].
  by exists [[]; []], [0; 0], [0; 0].
Qed.

Lemma demo_layers_ok : Forall (layer_ok demo_config 2) demo_layers.
Proof. repeat constructor; try (eexists; by vm_compute); by vm_compute. Qed.

(** What the layers see: the full tables, two choices and the first of them
    again. *)
Definition demo_choice : list (list Z) * list Z := ([[10; 13; 14; 15; 16; 17; 0; 0]; [20; 21; 22; 23; 24; 25; 26; 27]], [6; 8]).

Lemma layers_see_their_choice_witness :
  exists s', demo_run = (Ok [(demo_table, demo_lens); demo_choice; demo_choice; demo_choice], s')
    /\ exists m', metas s' !! 0 = Some m' /\ shows s' (m_block_table m') demo_table /\ shows_lens s' (m_seq_lens m') demo_lens.
Proof.
  destruct (layers_see_their_choice (HO := demo_ops) demo_config demo_prefix demo_sched demo_requests demo_idx 0 (fun _ => Some 0)
              demo_layers demo_meta demo_table demo_lens demo_known demo_state demo_laws
              ltac:(rewrite demo_forget; exact demo_step_ok) demo_ready eq_refl (fun _ => eq_refl) demo_layers_ok I)
    as (xs & s' & Hrun & Hxs & Hend).
  exists s'. split; [|exact Hend]. unfold demo_run. rewrite Hrun, Hxs. by vm_compute.
Defined.

Lemma prefill_flags_follow_the_requests_witness :
  exists s', bind (update_states demo_sched) (fun _ => build_sparse_meta demo_config demo_sched demo_requests demo_idx 0) demo_state = (Ok tt, s')
    /\ is_prefill_flag s' = {["a" := false; "b" := false]}.
Proof.
  destruct (prefill_flags_follow_the_requests (HO := demo_ops) demo_config demo_sched demo_requests demo_idx 0 demo_meta demo_table
              demo_lens demo_known demo_state demo_laws ltac:(rewrite demo_forget; exact demo_step_ok) demo_ready eq_refl)
    as (s' & Hrun & Hf).
  exists s'. split; [exact Hrun|]. rewrite Hf. by vm_compute.
Defined.

(** ** Configuration and graphs *)

Definition demo_attrs : Attrs := gsa_fields ++ [("seq_len_threshold", JInt 4096)].

Lemma gsa_config_round_trip_witness : exists o, from_json gsa_fields = Ok o /\ o.*1 = gsa_fields.*1
  /\ forall k, od_get k o = if mem k gsa_fields.*1 then od_get k demo_attrs else None.
Proof. apply (gsa_config_round_trip demo_attrs gsa_fields). by vm_compute. Defined.

(** A runner whose dummy runs only count. *)
Definition demo_dummy_run (num_tokens : Z) (mode : CUDAGraphMode) (force : bool) : M (GraphState Z) unit :=
  modify (fun s => MkGraph (g_dispatch s) (g_keys s) (g_flags s) (g_runner s + num_tokens)).
Definition demo_graphs : GraphState Z := MkGraph (fun d => (NONE, d)) [] (MkFlags false false false false) 0.

Lemma captured_graphs_are_used_witness :
  resolve_batch_descriptor (BatchDescriptor 2 true)
    (MkGraph (fun d => (NONE, d)) (g_keys (maybe_capture_extra_cudagraphs demo_dummy_run 1 [1; 2] FULL true (ret tt) demo_graphs).2)
       (MkFlags true true true false) 0) = GsaBatchDescriptor 2 true true.
Proof.
  pose proof (captured_graphs_are_used demo_dummy_run 1 (fun _ _ _ _ => eq_refl) [1; 2] (ret tt) demo_graphs (Ok tt)
                (maybe_capture_extra_cudagraphs demo_dummy_run 1 [1; 2] FULL true (ret tt) demo_graphs).2 2 true
                (MkFlags true true true false) (fun s => conj eq_refl eq_refl) ltac:(by vm_compute)) as (_ & Hused & _).
  exact (Hused eq_refl ltac:(right; left)).
Defined.
