(* ===== verification/Triton.v ===== *)
(** * Triton launches and strided tensors

    What the kernels of the hash encoder have in common: a launch runs one
    program per index of its grid, concurrently; a program loads tiles under a
    mask from tensors no program writes, computes, and stores a tile under a
    mask.  A program's stores are the list of its single writes, and a
    [Schedule] is the device's choice of how the writes of all programs
    interleave.  Sums of products are exact up to the laws [Exact]. *)

From S2P Require Import Prelude.
Local Open Scope Z_scope.

(** ** Memory *)

Section memory.
Context {V : Type}.

Definition write (m : Z -> V) (w : Z * V) : Z -> V := fun a => if a =? w.1 then w.2 else m a.
Definition write_all (m : Z -> V) (ws : list (Z * V)) : Z -> V := foldl write m ws.

(** No two writes disagree about an address. *)
Definition consistent (ws : list (Z * V)) : Prop :=
  forall a v v', (a, v) ∈ ws -> (a, v') ∈ ws -> v = v'.

Lemma write_all_untouched ws m a : a ∉ ws.*1 -> write_all m ws a = m a.
Proof.
  revert m. induction ws as [|[b v] ws IH]; intros m; csimpl; [done|].
  rewrite not_elem_of_cons. intros [Hb Ha]. unfold write_all in *. simpl.
  rewrite IH by done. unfold write. simpl. by destruct (Z.eqb_spec a b).
Qed.

Lemma write_all_elem ws m a v : consistent ws -> (a, v) ∈ ws -> write_all m ws a = v.
Proof.
  induction ws as [|[b u] ws IH] using rev_ind; intros Hc Hin; [set_solver|].
  unfold write_all. rewrite foldl_app. simpl. unfold write at 1. simpl.
  destruct (Z.eqb_spec a b) as [->|Hne].
  - apply (Hc b); set_solver.
  - apply IH; [intros c x y Hx Hy; apply (Hc c); set_solver|set_solver].
Qed.

(** Consistent writes have one outcome, whatever their order. *)
Lemma write_all_same ws ws' m a :
  consistent ws -> (forall w, w ∈ ws <-> w ∈ ws') -> write_all m ws a = write_all m ws' a.
Proof.
  intros Hc He.
  assert (Hc' : consistent ws').
  { intros b v v' Hv Hv'. apply (Hc b); by apply He. }
  destruct (decide (a ∈ ws.*1)) as [Hin|Hout].
  - apply list_elem_of_fmap in Hin as ([b v] & -> & Hin). simpl.
    rewrite (write_all_elem ws m b v), (write_all_elem ws' m b v); [done|done| |done|done]. by apply He.
  - rewrite !write_all_untouched; [done| |done]. intros Hin. apply Hout.
    apply list_elem_of_fmap in Hin as (w & -> & Hin). apply list_elem_of_fmap. exists w. split; [done|]. by apply He.
Qed.
End memory.

(** ** Launches *)

(** The order in which the writes of the programs reach the memory. *)
Class Schedule (V : Type) : Type := {
  interleave : list (list (Z * V)) -> list (Z * V);
  interleave_perm progs : interleave progs ≡ₚ concat progs;
}.

(** One program after the other, and the reverse. *)
#[export] Instance in_order V : Schedule V := {| interleave progs := concat progs; interleave_perm progs := reflexivity _ |}.
Definition backwards V : Schedule V :=
  {| interleave progs := reverse (concat progs); interleave_perm progs := reverse_Permutation (concat progs) |}.

(** The grid of a launch, and its effect on the memory the programs store to. *)
Definition grid2 (n0 n1 : Z) : list (Z * Z) := i ← zrange 0 n0; (fun j => (i, j)) <$> zrange 0 n1.
Definition grid3 (n0 n1 n2 : Z) : list (Z * Z * Z) := p ← grid2 n0 n1; (fun k => (p, k)) <$> zrange 0 n2.

Definition launch {V P} `{Schedule V} (grid : list P) (program : P -> list (Z * V)) (m : Z -> V) : Z -> V :=
  write_all m (interleave (program <$> grid)).

Lemma elem_of_grid2 n0 n1 i j : (i, j) ∈ grid2 n0 n1 <-> 0 <= i < n0 /\ 0 <= j < n1.
Proof.
  unfold grid2. rewrite list_elem_of_bind. split.
  - intros (i' & (j' & [= -> ->] & Hj%elem_of_zrange)%list_elem_of_fmap & Hi%elem_of_zrange). done.
  - intros [Hi Hj]. exists i. split; [|by apply elem_of_zrange]. apply list_elem_of_fmap. exists j.
    split; [done|by apply elem_of_zrange].
Qed.
Lemma elem_of_grid3 n0 n1 n2 i j k :
  (i, j, k) ∈ grid3 n0 n1 n2 <-> 0 <= i < n0 /\ 0 <= j < n1 /\ 0 <= k < n2.
Proof.
  unfold grid3. rewrite list_elem_of_bind. split.
  - intros ([i' j'] & (k' & [= -> -> ->] & Hk%elem_of_zrange)%list_elem_of_fmap & Hg%elem_of_grid2). tauto.
  - intros (Hi & Hj & Hk). exists (i, j). split; [|by apply elem_of_grid2]. apply list_elem_of_fmap. exists k.
    split; [done|by apply elem_of_zrange].
Qed.

Lemma elem_of_interleave {V} `{Schedule V} progs w :
  w ∈ interleave progs <-> exists p, p ∈ progs /\ w ∈ p.
Proof. rewrite interleave_perm. rewrite elem_of_concat. naive_solver. Qed.

Lemma launch_same {V P Q} `{S1 : Schedule V} `{S2 : Schedule V} (grid : list P) (grid' : list Q) prog prog' m a :
  let ws := interleave (Schedule := S1) (prog <$> grid) in
  consistent ws ->
  (forall w, (exists p, p ∈ grid /\ w ∈ prog p) <-> (exists q, q ∈ grid' /\ w ∈ prog' q)) ->
  launch (H := S1) grid prog m a = launch (H := S2) grid' prog' m a.
Proof.
  intros ws Hc He. apply write_all_same; [done|]. intros w. rewrite !elem_of_interleave.
  setoid_rewrite list_elem_of_fmap. specialize (He w). naive_solver.
Qed.

(** What a launch leaves at an address, from a description [P] of its writes. *)
Section launch_writes.
Context {V P : Type} `{Schedule V} (grid : list P) (prog : P -> list (Z * V)) (W : Z * V -> Prop).
Context (HW : forall w, (exists p, p ∈ grid /\ w ∈ prog p) <-> W w).

Lemma elem_of_launch w : w ∈ interleave (prog <$> grid) <-> W w.
Proof using HW. rewrite elem_of_interleave, <- HW. setoid_rewrite list_elem_of_fmap. naive_solver. Qed.

Lemma launch_consistent : (forall a v v', W (a, v) -> W (a, v') -> v = v') -> consistent (interleave (prog <$> grid)).
Proof using HW. intros Hc a v v' Hv%elem_of_launch Hv'%elem_of_launch. by apply (Hc a). Qed.

Lemma launch_value m a v : (forall a v v', W (a, v) -> W (a, v') -> v = v') -> W (a, v) -> launch grid prog m a = v.
Proof using HW. intros Hc Hv. apply write_all_elem; [by apply launch_consistent|by apply elem_of_launch]. Qed.

Lemma launch_other m a : (forall v, ~ W (a, v)) -> launch grid prog m a = m a.
Proof using HW.
  intros Hno. apply write_all_untouched. intros ([a' v] & -> & Hin%elem_of_launch)%list_elem_of_fmap. by apply (Hno v).
Qed.
End launch_writes.

(** ** Tiles *)

Abbreviation tile V := (Z -> Z -> V).

(** [tl.load(ptr + ..., mask, other)] *)
Definition tl_load {V} (m : Z -> V) (ptr : tile Z) (mask : tile bool) (other : V) : tile V :=
  fun i j => if mask i j then m (ptr i j) else other.
(** [tl.store(ptrs, tile, mask)] for a tile of [n0] rows and [n1] columns. *)
Definition tl_store {V} (n0 n1 : Z) (ptr : tile Z) (t : tile V) (mask : tile bool) : list (Z * V) :=
  p ← grid2 n0 n1; if mask p.1 p.2 then [(ptr p.1 p.2, t p.1 p.2)] else [].

Lemma elem_of_tl_store {V} n0 n1 ptr (t : tile V) mask w :
  w ∈ tl_store n0 n1 ptr t mask <->
  exists i j, 0 <= i < n0 /\ 0 <= j < n1 /\ mask i j = true /\ w = (ptr i j, t i j).
Proof.
  unfold tl_store. rewrite list_elem_of_bind. split.
  - intros ([i j] & Hw & Hg%elem_of_grid2). simpl in Hw. destruct (mask i j) eqn:E; [|set_solver].
    apply list_elem_of_singleton in Hw. exists i, j. tauto.
  - intros (i & j & Hi & Hj & E & ->). exists (i, j). split; [simpl; rewrite E; by left|by apply elem_of_grid2].
Qed.

(** ** Sums of products *)

Class Scalar (F : Type) : Type := { fzero : F; fadd : F -> F -> F; fmul : F -> F -> F; positive : F -> bool }.

(** Exact arithmetic: rounding, on which the order of a sum depends, is left out. *)
Class Exact (F : Type) `{Scalar F} : Prop := {
  fadd_assoc x y z : fadd x (fadd y z) = fadd (fadd x y) z;
  fadd_comm x y : fadd x y = fadd y x;
  fadd_zero x : fadd fzero x = x;
  fmul_zero : fmul fzero fzero = fzero;
}.

#[export] Instance Z_scalar : Scalar Z := {| fzero := 0; fadd := Z.add; fmul := Z.mul; positive := Z.ltb 0 |}.
#[export] Instance Z_exact : Exact Z.
Proof. split; intros; simpl; lia. Qed.

Section sums.
Context {F : Type} `{Scalar F}.

Definition fsum (l : list F) : F := foldr fadd fzero l.

(** [tl.dot(x, code)] for tiles with [n] columns and [n] rows. *)
Definition tl_dot (n : Z) (x code : tile F) : tile F :=
  fun i j => fsum ((fun k => fmul (x i k) (code k j)) <$> zrange 0 n).

(** The loop of the kernels: [for k in range(0, tl.cdiv(K, BLOCK_K)): acc +=
    tl.dot(x, code); offs_k += BLOCK_K], for loads at the columns [offs_k]. *)
Definition dot_loop (K BLOCK_K : Z) (load_x load_code : (Z -> Z) -> tile F) : tile F :=
  (foldl (fun st _ =>
     (fun i j => fadd (st.1 i j) (tl_dot BLOCK_K (load_x st.2) (load_code st.2) i j),
      fun k => st.2 k + BLOCK_K))
     ((fun _ _ => fzero) : tile F, fun k => k) (zrange 0 (cdiv K BLOCK_K))).1.

Context `{!Exact F}.

Lemma fadd_zero_r x : fadd x fzero = x.
Proof. by rewrite fadd_comm, fadd_zero. Qed.

Lemma fsum_app l1 l2 : fsum (l1 ++ l2) = fadd (fsum l1) (fsum l2).
Proof. induction l1 as [|x l1 IH]; simpl; [by rewrite fadd_zero|]. by rewrite IH, fadd_assoc. Qed.

Lemma fsum_zero l : Forall (fun x => x = fzero) l -> fsum l = fzero.
Proof. induction 1 as [|x l -> _ IH]; [done|]. simpl. by rewrite IH, fadd_zero. Qed.

Lemma fsum_shift (g : Z -> F) a n : 0 <= n ->
  fsum ((fun k => g (a + k)) <$> zrange 0 n) = fsum (g <$> zrange a (a + n)).
Proof.
  intros Hn. f_equal. unfold zrange. rewrite <- !list_fmap_compose.
  replace (a + n - a) with (n - 0) by lia. apply list_fmap_ext. intros i j _. simpl. f_equal.
Qed.

Lemma dot_loop_spec K BK load_x load_code (x : tile F) (code : tile F) i j :
  0 < BK -> 0 <= K ->
  (forall offs k, load_x offs i k = if offs k <? K then x i (offs k) else fzero) ->
  (forall offs k, load_code offs k j = if offs k <? K then code (offs k) j else fzero) ->
  dot_loop K BK load_x load_code i j = fsum ((fun k => fmul (x i k) (code k j)) <$> zrange 0 K).
Proof.
  intros HBK HK Hx Hc. unfold dot_loop.
  set (g k := if k <? K then fmul (x i k) (code k j) else fzero).
  set (body := fun st _ => _).
  assert (Hloop : forall n, let st := foldl body ((fun _ _ => fzero) : tile F, fun k => k) (zrange 0 (Z.of_nat n)) in
            st.1 i j = fsum (g <$> zrange 0 (Z.of_nat n * BK)) /\ (forall k, st.2 k = Z.of_nat n * BK + k)).
  { induction n as [|n [IH1 IH2]]; [split; [done|intros; simpl; lia]|].
    rewrite Nat2Z.inj_succ. unfold Z.succ. rewrite (zrange_app 0 (Z.of_nat n)) by lia.
    rewrite (zrange_cons (Z.of_nat n)), (zrange_nil (Z.of_nat n + 1)) by lia. cbv zeta. rewrite foldl_app. cbn [foldl].
    set (st := foldl body _ _) in *. unfold body at 1 2. cbn [fst snd]. split.
    - assert (0 <= Z.of_nat n * BK) by (apply Z.mul_nonneg_nonneg; lia).
      replace ((Z.of_nat n + 1) * BK) with (Z.of_nat n * BK + BK) by ring.
      rewrite IH1. unfold tl_dot. rewrite (zrange_app 0 (Z.of_nat n * BK) (Z.of_nat n * BK + BK)) by lia.
      rewrite fmap_app, fsum_app, <- (fsum_shift g (Z.of_nat n * BK)) by lia. f_equal. f_equal. apply list_fmap_ext. intros ? k _. rewrite Hx, Hc, IH2. unfold g.
      destruct (_ <? K); [done|apply fmul_zero].
    - intros k. rewrite IH2. ring. }
  pose proof (cdiv_nonneg K BK HBK HK). pose proof (cdiv_spec K BK HBK).
  destruct (Hloop (Z.to_nat (cdiv K BK))) as [E _]. rewrite Z2Nat.id in E by done.
  fold body. rewrite E.
  rewrite (zrange_app 0 K) by lia. rewrite fmap_app, fsum_app, (fsum_zero (g <$> zrange K _)), fadd_zero_r.
  - f_equal. apply list_fmap_ext. intros n k Hk%list_elem_of_lookup_2%elem_of_zrange. unfold g.
    by replace (k <? K) with true by lia.
  - apply Forall_fmap, Forall_forall. intros k Hk%elem_of_zrange. unfold compose, g.
    by replace (k <? K) with false by lia.
Qed.
End sums.
