(* ===== verification/HashEncoder.v ===== *)
(** * Hash codes (ucm/sparse/gsa_on_device/hash_encoder.py)

    [HashEncoder] projects vectors with a matrix and packs the signs of the
    projections, eight to a byte.  On CUDA two kernels do it, one of them
    writing the bytes straight into the paged cache; on a CPU it is a few
    operations of torch.  The scalars are a parameter (class [Scalar]); the
    operations for NPUs are parameters. *)

From Stdlib Require Import Ascii String.
From S2P Require Import Prelude.
From S2P Require Import Triton.
Local Open Scope Z_scope.
Local Open Scope py_scope.

(** ** Tensors *)

Inductive DeviceType : Type := Cuda | Npu | Cpu | OtherDevice.
#[global] Instance DeviceType_eq_dec : EqDecision DeviceType.
Proof. solve_decision. Defined.
Record Device := MkDevice { dev_type : DeviceType; dev_index : Z }.
#[global] Instance Device_eq_dec : EqDecision Device.
Proof. solve_decision. Defined.
Inductive Dtype : Type := Uint8 | Float16 | Bfloat16 | Float32 | Float64 | OtherDtype.
#[global] Instance Dtype_eq_dec : EqDecision Dtype.
Proof. solve_decision. Defined.

(** A tensor: a view, by its shape and its strides, of a storage. *)
Record Tensor (A : Type) := MkTensor {
  t_shape : list Z;
  t_strides : list Z;
  t_dtype : Dtype;
  t_device : Device;
  t_storage : Z -> A;
}.
Arguments MkTensor {A} _ _ _ _ _.
Arguments t_shape {A} _.
Arguments t_strides {A} _.
Arguments t_dtype {A} _.
Arguments t_device {A} _.
Arguments t_storage {A} _.

Section tensors.
Context {A : Type}.
Implicit Types t : Tensor A.

Definition numel t : Z := zprod (t_shape t).
Definition stride t (k : nat) : Z := default 0 (t_strides t !! k).
(** The element with the index [idx]. *)
Definition offset (strides idx : list Z) : Z := zsum (zip_with Z.mul idx strides).
Definition at_ t (idx : list Z) : A := t_storage t (offset (t_strides t) idx).

Fixpoint contiguous_strides (shape : list Z) : list Z :=
  match shape with [] => [] | _ :: s => zprod s :: contiguous_strides s end.
(** The index of the element at position [f] in row-major order. *)
Fixpoint unravel (shape : list Z) (f : Z) : list Z :=
  match shape with [] => [] | _ :: s => f / zprod s :: unravel s (f mod zprod s) end.
(** The element at position [f] in row-major order. *)
Definition flat t (f : Z) : A := at_ t (unravel (t_shape t) f).

(** [is_contiguous]: the strides of dimensions of size one do not matter. *)
Fixpoint contiguous_layout (shape strides : list Z) : bool :=
  match shape, strides with
  | n :: s, k :: ks => ((n =? 1) || (k =? zprod s)) && contiguous_layout s ks
  | _, _ => true
  end.
Definition is_contiguous t : bool := (numel t =? 0) || contiguous_layout (t_shape t) (t_strides t).

Definition contiguous_tensor (shape : list Z) (dt : Dtype) (dev : Device) (f : Z -> A) : Tensor A :=
  MkTensor shape (contiguous_strides shape) dt dev f.

(** [t.reshape(shape)]: the same elements in row-major order; [t.view(shape)]
    also wants [t] contiguous. *)
Definition reshape t (shape : list Z) : res (Tensor A) :=
  if numel t =? zprod shape then Ok (contiguous_tensor shape (t_dtype t) (t_device t) (flat t)) else Err RuntimeError.
Definition view t (shape : list Z) : res (Tensor A) :=
  if is_contiguous t then reshape t shape else Err RuntimeError.
(** [t.reshape(-1, n)] *)
Definition reshape_rows t (n : Z) : res (Tensor A) :=
  if n <=? 0 then Err RuntimeError else reshape t [numel t / n; n].

(** [shape[-1]], [shape[:-1]] *)
Definition last_dim t : res Z := py_idx (t_shape t) (-1).
Definition lead_dims t : list Z := slice (t_shape t) 0 (-1).
End tensors.

Definition u8 (x : Z) : Z := x mod 256.

Section encoder.
Context {F : Type} `{Scalar F} `{Schedule Z}.
(** [t.to(dtype)], element by element, and the operations for NPUs. *)
Context (cast : Dtype -> Dtype -> F -> F).
Context (npu_sign_bits_pack : list F -> list Z) (npu_sign_bits_unpack : list Z -> list Z).

Definition to_dtype (d : Dtype) (t : Tensor F) : Tensor F :=
  if decide (t_dtype t = d) then t
  else contiguous_tensor (t_shape t) d (t_device t) (fun f => cast (t_dtype t) d (flat t f)).

(** ** The kernels *)

(** [(acc > 0).to(tl.uint8)] *)
Definition sign_bits (acc : tile F) : tile Z := fun i j => if positive (acc i j) then 1 else 0.
(** [tl.sum(reshape(bits) * pack_w, axis=-1).to(tl.uint8)] *)
Definition pack_bits (bits : tile Z) (pack_w : Z -> Z) : tile Z :=
  fun i c => u8 (zsum ((fun j => u8 (bits i (8 * c + j) * pack_w j)) <$> zrange 0 8)).

Definition triton_hash_code_kernel (x code : Tensor F) (pack_w : Tensor Z) (M K N stride_om stride_on BLOCK_M BLOCK_K BLOCK_N : Z)
    (pid : Z * Z) : list (Z * Z) :=
  let pid_m := pid.1 in
  let pid_n := pid.2 in
  let offs_m i := pid_m * BLOCK_M + i in
  let offs_n j := pid_n * BLOCK_N + j in
  let acc := dot_loop K BLOCK_K
    (fun offs_k => tl_load (t_storage x) (fun i k => offs_m i * stride x 0 + offs_k k * stride x 1)
                           (fun i k => (offs_m i <? M) && (offs_k k <? K)) fzero)
    (fun offs_k => tl_load (t_storage code) (fun k j => offs_k k * stride code 0 + offs_n j * stride code 1)
                           (fun k j => (offs_k k <? K) && (offs_n j <? N)) fzero) in
  let packed := pack_bits (sign_bits acc) (fun j => t_storage pack_w (j * stride pack_w 0)) in
  let offs_n c := pid_n * (BLOCK_N / 8) + c in
  tl_store BLOCK_M (BLOCK_N / 8) (fun i c => offs_m i * stride_om + offs_n c * stride_on) packed
           (fun i c => (offs_m i <? M) && (offs_n c <? N / 8)).

(** [torch.empty] leaves the output with what the memory held, [junk]. *)
Context (junk : Z -> Z).

Definition triton_hash_code (x code : Tensor F) (pack_weight : Tensor Z) : res (Tensor Z) :=
  let m := lead_dims x in
  let? K := last_dim x in
  let? x := reshape_rows x K in
  let? M := py_idx (t_shape x) 0 in
  let? N := match t_shape code with [_; N] => Ok N | _ => Err ValueError end in
  let? n_pack := py_idx (t_shape pack_weight) 0 in
  if negb ((n_pack =? 8) && (N mod 8 =? 0)) then Err AssertionError
  else
    let hash_out := contiguous_tensor [M; N / 8] (t_dtype pack_weight) (t_device x) junk in
    let BLOCK_M := 32 in
    let BLOCK_K := 64 in
    let BLOCK_N := 16 in
    let grid := grid2 (cdiv M BLOCK_M) (cdiv N BLOCK_N) in
    let mem := launch grid
      (triton_hash_code_kernel x code pack_weight M K N (stride hash_out 0) (stride hash_out 1) BLOCK_M BLOCK_K BLOCK_N)
      (t_storage hash_out) in
    view (contiguous_tensor [M; N / 8] (t_dtype hash_out) (t_device hash_out) mem) (m ++ [N / 8]).

Definition reshape_and_cache_khash_kernel (k_in : Tensor Z) (slots : Z -> Z) (k_cache : Tensor Z)
    (n_tokens H W block_size cache_num_slots BLOCK : Z) (pid : Z * Z) : list (Z * Z) :=
  let pid_t := pid.1 in
  let pid_c := pid.2 in
  if n_tokens <=? pid_t then [] else
  let slot := slots pid_t in
  if slot <? 0 then [] else
  if cache_num_slots <=? slot then [] else
  let b := slot / block_size in
  let s := slot - b * block_size in
  let n_elems := H * W in
  lane ← zrange 0 BLOCK;
  let offs := pid_c * BLOCK + lane in
  let h := offs / W in
  let w := offs - h * W in
  if offs <? n_elems
  then [(b * stride k_cache 0 + s * stride k_cache 1 + h * stride k_cache 2 + w * stride k_cache 3,
         t_storage k_in (pid_t * stride k_in 0 + h * stride k_in 1 + w * stride k_in 2))]
  else [].

Definition with_storage {A} (t : Tensor A) (f : Z -> A) : Tensor A :=
  MkTensor (t_shape t) (t_strides t) (t_dtype t) (t_device t) f.

Definition is_cuda {A} (t : Tensor A) : bool := bool_decide (dev_type (t_device t) = Cuda).

Definition reshape_and_cache_khash_triton (k_hash_compute slot_mapping k_hash : Tensor Z) (block_size : Z) : res (Tensor Z) :=
  if negb (is_cuda k_hash_compute && is_cuda k_hash && is_cuda slot_mapping) then Err AssertionError else
  match t_shape k_hash_compute, t_shape k_hash, t_shape slot_mapping with
  | [T; H; W], [B; BS; H'; W'], [n] =>
      if negb (n =? T) then Err AssertionError
      else if negb (BS =? block_size) then Err AssertionError
      else if negb ((H =? H') && (W =? W')) then Err AssertionError
      else
        let cache_num_slots := B * block_size in
        let n_elems := H * W in
        let BLOCK := if n_elems <=? 256 then 256 else if n_elems <=? 512 then 512 else 1024 in
        let n_chunks := cdiv n_elems BLOCK in
        Ok (with_storage k_hash (launch (grid2 T n_chunks)
          (reshape_and_cache_khash_kernel k_hash_compute (t_storage slot_mapping) k_hash T H W block_size cache_num_slots BLOCK)
          (t_storage k_hash)))
  | _, _, _ => Err AssertionError
  end.

Definition fused_hash_and_cache_kernel (x code : Tensor F) (pack_w : Tensor Z) (slots : Z -> Z) (k_cache : Tensor Z)
    (T K N_BITS N_BYTES block_size cache_num_slots BLOCK_M BLOCK_K BLOCK_N : Z) (pid : Z * Z * Z) : list (Z * Z) :=
  let pid_m := pid.1.1 in
  let pid_n := pid.1.2 in
  let pid_h := pid.2 in
  if T <=? pid_m * BLOCK_M then [] else
  if N_BITS <=? pid_n * BLOCK_N then [] else
  let offs_m i := pid_m * BLOCK_M + i in
  let offs_n j := pid_n * BLOCK_N + j in
  let m_mask i := offs_m i <? T in
  let n_mask j := offs_n j <? N_BITS in
  let acc := dot_loop K BLOCK_K
    (fun offs_k => tl_load (t_storage x) (fun i k => offs_m i * stride x 0 + pid_h * stride x 1 + offs_k k * stride x 2)
                           (fun i k => m_mask i && (offs_k k <? K)) fzero)
    (fun offs_k => tl_load (t_storage code) (fun k j => offs_k k * stride code 0 + offs_n j * stride code 1)
                           (fun k j => (offs_k k <? K) && n_mask j) fzero) in
  let packed := pack_bits (sign_bits acc) (fun j => t_storage pack_w (j * stride pack_w 0)) in
  let offs_byte c := pid_n * (BLOCK_N / 8) + c in
  let slot i := if m_mask i then slots (offs_m i) else -1 in
  let valid_slot i := (0 <=? slot i) && (slot i <? cache_num_slots) in
  let valid_row i := m_mask i && valid_slot i in
  let out_mask i c := valid_row i && (offs_byte c <? N_BYTES) in
  let safe_slot i := if valid_row i then slot i else 0 in
  let b i := safe_slot i / block_size in
  let s i := safe_slot i mod block_size in
  tl_store BLOCK_M (BLOCK_N / 8)
    (fun i c => b i * stride k_cache 0 + s i * stride k_cache 1 + pid_h * stride k_cache 2 + offs_byte c * stride k_cache 3)
    packed out_mask.

(** [x @ code] for matrices, and the reference for one device's worth of torch. *)
Definition matmul (x code : Tensor F) : res (Tensor F) :=
  match t_shape x, t_shape code with
  | [M; K], [K'; N] =>
      if negb (K =? K') then Err RuntimeError
      else Ok (contiguous_tensor [M; N] (t_dtype x) (t_device x) (fun f =>
             fsum ((fun k => fmul (at_ x [f / N; k]) (at_ code [k; f mod N])) <$> zrange 0 K)))
  | _, _ => Err RuntimeError
  end.

Definition torch_hash_code (x code : Tensor F) (pack_weight : Tensor Z) : res (Tensor Z) :=
  let? x := matmul x code in
  match t_shape x with
  | [M; N] =>
      if negb (N mod 8 =? 0) then Err RuntimeError
      else if negb (bool_decide (t_shape pack_weight = [8])) then Err RuntimeError
      else Ok (contiguous_tensor [M; N / 8] Uint8 (t_device x) (fun f =>
             pack_bits (sign_bits (fun i j => at_ x [i; j])) (fun j => at_ pack_weight [j]) (f / (N / 8)) (f mod (N / 8))))
  | _ => Err RuntimeError
  end.

(** ** [HashEncoder] *)

Record Encoder := MkEncoder {
  input_dim : Z;
  hash_bits : Z;
  hash_numbers : Z;
  dtype : Dtype;
  device : Device;
  hash_weights : Tensor F;
  (** an attribute on CUDA and CPU only *)
  bit_masks : option (Tensor Z);
}.

(** [torch.normal], [torch.linalg.qr] and [torch.sign]. *)
Context (normal : Z -> Z -> Dtype -> Device -> Tensor F) (qr : Tensor F -> Tensor F * Tensor F) (sign : F -> F).

(** [torch.diag(R)], and [Q * d] for a matrix and a vector. *)
Definition diag (R : Tensor F) : res (Tensor F) :=
  match t_shape R with
  | [n; k] => Ok (contiguous_tensor [Z.min n k] (t_dtype R) (t_device R) (fun i => at_ R [i; i]))
  | _ => Err RuntimeError
  end.
Definition mul_columns (Q d : Tensor F) : res (Tensor F) :=
  match t_shape Q, t_shape d with
  | [n; k], [k'] =>
      if k =? k' then Ok (contiguous_tensor [n; k] (t_dtype Q) (t_device Q) (fun f => fmul (at_ Q [f / k; f mod k]) (at_ d [f mod k])))
      else Err RuntimeError
  | _, _ => Err RuntimeError
  end.

Definition init_hash_weights (input_dim hash_bits : Z) (d : Dtype) (dev : Device) : res (Tensor F) :=
  let random_weights := normal input_dim hash_bits d dev in
  let (Q, R) := qr random_weights in
  let? r := diag R in
  let d := contiguous_tensor (t_shape r) (t_dtype r) (t_device r) (fun i => sign (t_storage r i)) in
  mul_columns Q d.

Definition init_bit_masks (dev : Device) : Tensor Z := contiguous_tensor [8] Uint8 dev (fun i => u8 (2 ^ i)).

Definition new_HashEncoder (input_dim hash_bits : Z) (d : Dtype) (dev : Device) : res Encoder :=
  if negb (hash_bits mod 8 =? 0) then Err ValueError
  else
    let d := if bool_decide (dev_type dev = Npu) && negb (bool_decide (d ∈ [Float16; Float32; Float64])) then Float16 else d in
    let d := if bool_decide (dev_type dev = Cuda) && bool_decide (d = Bfloat16) then Float32 else d in
    let? w := init_hash_weights input_dim hash_bits d dev in
    Ok (MkEncoder input_dim hash_bits (hash_bits / 8) d dev w
          (if decide (dev_type dev = Cuda \/ dev_type dev = Cpu) then Some (init_bit_masks dev) else None)).

(** [x.copy_(y)] writes the elements of [y] into those of [x]; shapes that differ
    here do so in the number of columns, none of which is one, and do not
    broadcast. *)
Definition copy_ (x y : Tensor F) : res (Tensor F) :=
  if decide (t_shape x = t_shape y) then Ok (contiguous_tensor (t_shape x) (t_dtype x) (t_device x) (flat y))
  else Err RuntimeError.

Definition set_hash_weight (e : Encoder) (w : Tensor F) : res Encoder :=
  if decide (t_shape w <> [input_dim e; hash_bits e]) then Err ValueError
  else if decide (t_dtype w <> dtype e) then Err ValueError
  else if decide (t_device w <> device e) then Err ValueError
  else
    let? new := copy_ (hash_weights e) w in
    Ok (MkEncoder (input_dim e) (hash_bits e) (hash_numbers e) (dtype e) (device e) new (bit_masks e)).

Definition list_tensor (l : list Z) (d : Dtype) (dev : Device) : Tensor Z :=
  contiguous_tensor [pylen l] d dev (fun i => default 0 (py_nth l i)).

Definition compute_hash (e : Encoder) (x : Tensor F) : res (Tensor Z) :=
  let? n := last_dim x in
  if negb (n =? input_dim e) then Err ValueError
  else if decide (t_device x <> device e) then Err ValueError
  else
    let orig_shape := lead_dims x in
    let? x_flat := reshape_rows x (input_dim e) in
    let x_flat := to_dtype (dtype e) x_flat in
    let masks := of_option AttributeError (bit_masks e) in
    let? packed_codes_flat :=
      match dev_type (device e) with
      | Npu =>
          let? xW := matmul x_flat (hash_weights e) in
          Ok (list_tensor (npu_sign_bits_pack (flat xW <$> zrange 0 (numel xW))) Uint8 (device e))
      | Cuda =>
          let? masks := masks in
          let? code := triton_hash_code x_flat (hash_weights e) masks in
          view code [numel code]
      | Cpu =>
          let? masks := masks in
          let? code := torch_hash_code x_flat (hash_weights e) masks in
          view code [numel code]
      | OtherDevice => Err ValueError
      end in
    view packed_codes_flat (orig_shape ++ [hash_numbers e]).

(** [cache.view(torch.uint8)] of a tensor of two-byte elements whose storage is
    given byte by byte. *)
Definition view_bytes (t : Tensor Z) : res (Tensor Z) :=
  match reverse (t_shape t), reverse (t_strides t) with
  | n :: ns, 1 :: ks =>
      Ok (MkTensor (reverse (2 * n :: ns)) (reverse (1 :: ((fun k => 2 * k) <$> ks))) Uint8 (t_device t) (t_storage t))
  | _, _ => Err RuntimeError
  end.

Definition reinterpret_cache_as_u8 (e : Encoder) (cache : Tensor Z) : res (Tensor Z) :=
  let? last := last_dim cache in
  match t_dtype cache with
  | Uint8 => if negb (last =? hash_numbers e) then Err ValueError else Ok cache
  | Bfloat16 =>
      if negb (hash_numbers e mod 2 =? 0) then Err ValueError
      else if negb (last =? hash_numbers e / 2) then Err ValueError
      else
        let? cache_u8 := view_bytes cache in
        let? last := last_dim cache_u8 in
        if negb (last =? hash_numbers e) then Err ValueError else Ok cache_u8
  | _ => Err ValueError
  end.

(** The caller's cache, with the storage after the launch. *)
Definition compute_hash_and_cache (e : Encoder) (x : Tensor F) (slot_mapping k_hash_cache : Tensor Z)
    (block_size BLOCK_M BLOCK_K BLOCK_N : Z) : res (Tensor Z) :=
  if decide (dev_type (device e) <> Cuda) then Err NotImplementedError else
  match t_shape x, t_shape slot_mapping, t_shape k_hash_cache with
  | [T; H; K], [n], [B; BS; H_cache; _] =>
      if negb (K =? input_dim e) then Err ValueError
      else if decide (t_device x <> device e) then Err ValueError
      else if decide (t_device slot_mapping <> device e) then Err ValueError
      else if decide (t_device k_hash_cache <> device e) then Err ValueError
      else if negb (BLOCK_N mod 8 =? 0) then Err ValueError
      else if negb (n =? T) then Err ValueError
      else if negb (BS =? block_size) then Err ValueError
      else if negb (H_cache =? H) then Err ValueError
      else
        let? k_hash_cache_u8 := reinterpret_cache_as_u8 e k_hash_cache in
        match t_shape k_hash_cache_u8 with
        | [B2; BS2; H2; W2] =>
            if negb ((B2 =? B) && (BS2 =? BS) && (H2 =? H)) then Err ValueError
            else if negb (W2 =? hash_numbers e) then Err ValueError
            else
              let x := to_dtype (dtype e) x in
              let cache_num_slots := B * block_size in
              let? masks := of_option AttributeError (bit_masks e) in
              let grid := grid3 (cdiv T BLOCK_M) (cdiv (hash_bits e) BLOCK_N) H in
              Ok (with_storage k_hash_cache (launch grid
                (fused_hash_and_cache_kernel x (hash_weights e) masks (t_storage slot_mapping) k_hash_cache_u8 T K
                   (hash_bits e) (hash_numbers e) block_size cache_num_slots BLOCK_M BLOCK_K BLOCK_N)
                (t_storage k_hash_cache_u8)))
        | _ => Err ValueError
        end
  | _, _, _ => Err ValueError
  end.

Definition unpack_hash (e : Encoder) (packed_codes : Tensor Z) : res (Tensor Z) :=
  let? n := last_dim packed_codes in
  if negb (n =? hash_numbers e) then Err ValueError
  else if decide (t_device packed_codes <> device e) then Err ValueError
  else if decide (t_dtype packed_codes <> Uint8) then Err ValueError
  else
    let orig_shape := lead_dims packed_codes in
    let? packed_codes_flat := view packed_codes [numel packed_codes] in
    let? unpacked_bits_flat :=
      match dev_type (device e) with
      | Npu => Ok (list_tensor (npu_sign_bits_unpack (flat packed_codes_flat <$> zrange 0 (numel packed_codes_flat))) Float16 (device e))
      | Cuda | Cpu =>
          let? masks := of_option AttributeError (bit_masks e) in
          let? packed_codes_2d := reshape_rows packed_codes_flat (hash_numbers e) in
          let? N := py_idx (t_shape packed_codes_2d) 0 in
          let unpacked_bits := contiguous_tensor [N; hash_numbers e; 8] Float16 (device e) (fun f =>
            let byte := at_ packed_codes_2d [f / 8 / hash_numbers e; (f / 8) mod hash_numbers e] in
            (if 0 <? Z.land byte (at_ masks [f mod 8]) then 1 else 0) * 2 - 1) in
          reshape_rows unpacked_bits (hash_bits e)
      | OtherDevice => Err ValueError
      end in
    view unpacked_bits_flat (orig_shape ++ [hash_bits e]).
End encoder.
Arguments Encoder : clear implicits.
