(* ===== verification/HashEncoderFacts.v ===== *)
(** * Hash codes: what the kernels compute

    Both kernels and the reference pack the signs of the same projections,
    whatever order their stores reach the memory in, and unpacking gives the
    signs back. *)

From S2P Require Import Prelude.
From S2P Require Import Triton.
From S2P Require Import HashEncoder.
Local Open Scope Z_scope.
Local Open Scope py_scope.

(** ** Row-major order *)

Lemma zprod_nonneg l : Forall (fun n => 0 <= n) l -> 0 <= zprod l.
Proof. induction 1; simpl; [lia|]. by apply Z.mul_nonneg_nonneg. Qed.

Lemma zprod_app l1 l2 : zprod (l1 ++ l2) = zprod l1 * zprod l2.
Proof. unfold zprod. induction l1 as [|x l IH]; simpl; [lia|]. rewrite IH. lia. Qed.

Lemma offset_unravel shape f :
  Forall (fun n => 0 <= n) shape -> 0 <= f < zprod shape -> offset (contiguous_strides shape) (unravel shape f) = f.
Proof.
  revert f. induction shape as [|n s IH]; intros f Hs Hf; [unfold offset; simpl in *; lia|].
  apply Forall_cons in Hs as [Hn Hs]. pose proof (zprod_nonneg s Hs). simpl in Hf.
  assert (0 < zprod s) by (destruct (decide (zprod s = 0)) as [E|]; [rewrite E in Hf; lia|lia]).
  unfold offset. simpl. fold (offset (contiguous_strides s) (unravel s (f mod zprod s))).
  rewrite IH; [|done|by apply Z.mod_pos_bound]. pose proof (Z.div_mod f (zprod s)). lia.
Qed.

Section layout.
Context {A : Type}.

Lemma flat_contiguous shape dt dev (g : Z -> A) f :
  Forall (fun n => 0 <= n) shape -> 0 <= f < zprod shape -> flat (contiguous_tensor shape dt dev g) f = g f.
Proof. intros Hs Hf. unfold flat, at_. simpl. by rewrite offset_unravel. Qed.

Lemma contiguous_layout_refl shape : contiguous_layout shape (contiguous_strides shape) = true.
Proof. induction shape as [|n s IH]; [done|]. simpl. by rewrite Z.eqb_refl, orb_true_r, IH. Qed.

Lemma is_contiguous_tensor shape dt dev (g : Z -> A) : is_contiguous (contiguous_tensor shape dt dev g) = true.
Proof. unfold is_contiguous. simpl. by rewrite contiguous_layout_refl, orb_true_r. Qed.

(** Reshaping a contiguous tensor keeps the elements in row-major order. *)
Lemma view_contiguous shape shape' dt dev (g : Z -> A) :
  zprod shape = zprod shape' -> Forall (fun n => 0 <= n) shape ->
  exists g', view (contiguous_tensor shape dt dev g) shape' = Ok (contiguous_tensor shape' dt dev g') /\
    (forall f, 0 <= f < zprod shape -> g' f = g f).
Proof.
  intros He Hs. unfold view, reshape, numel. rewrite is_contiguous_tensor. simpl. rewrite He, Z.eqb_refl.
  eexists. split; [done|]. intros f Hf. apply flat_contiguous; [done|lia].
Qed.

Lemma at_2d M N dt dev (g : Z -> A) i j : at_ (contiguous_tensor [M; N] dt dev g) [i; j] = g (i * N + j).
Proof. unfold at_, offset. simpl. f_equal. lia. Qed.

Lemma unravel_3d (T H K t h k : Z) : 0 <= h < H -> 0 <= k < K -> unravel [T; H; K] ((t * H + h) * K + k) = [t; h; k].
Proof.
  intros Hh Hk. simpl. rewrite !Z.mul_1_r.
  assert (Hr : 0 <= h * K + k < H * K) by nia.
  replace ((t * H + h) * K + k) with (t * (H * K) + (h * K + k)) by ring.
  assert (E : (t * (H * K) + (h * K + k)) mod (H * K) = h * K + k).
  { rewrite Z.add_comm, Z_mod_plus_full. by apply Z.mod_small. }
  rewrite E, Z.div_add_l by lia. rewrite (Z.div_small _ _ Hr), Z.div_add_l by lia.
  rewrite (Z.div_small k) by lia. rewrite (Z.add_comm (h * K)), Z_mod_plus_full, (Z.mod_small k) by lia.
  by rewrite Z.div_1_r, !Z.add_0_r.
Qed.
End layout.

Lemma slice_lead {A} (l : list A) x : slice (l ++ [x]) 0 (-1) = l.
Proof.
  rewrite slice_init, length_app. simpl length. replace (length l + 1 - 1)%nat with (length l) by lia. apply take_app_length.
Qed.

(** ** Packing *)

(** The byte with the given bits, lowest first. *)
Definition byte_of (b : Z -> bool) : Z := zsum ((fun j => if b j then 2 ^ j else 0) <$> zrange 0 8).

Lemma pack_bits_byte (bits : tile Z) pw i c (b : Z -> bool) :
  (forall j, 0 <= j < 8 -> bits i (8 * c + j) = if b j then 1 else 0) -> (forall j, 0 <= j < 8 -> pw j = 2 ^ j) ->
  pack_bits bits pw i c = byte_of b.
Proof.
  intros Hb Hw. unfold pack_bits, byte_of. change (zrange 0 8) with [0; 1; 2; 3; 4; 5; 6; 7]. csimpl.
  rewrite !Hb, !Hw by lia.
  destruct (b 0), (b 1), (b 2), (b 3), (b 4), (b 5), (b 6), (b 7); reflexivity.
Qed.

Lemma byte_of_testbit b j : 0 <= j < 8 -> Z.testbit (byte_of b) j = b j.
Proof.
  intros Hj. unfold byte_of. change (zrange 0 8) with [0; 1; 2; 3; 4; 5; 6; 7]. csimpl.
  assert (Hc : j = 0 \/ j = 1 \/ j = 2 \/ j = 3 \/ j = 4 \/ j = 5 \/ j = 6 \/ j = 7) by lia.
  destruct (b 0) eqn:E0, (b 1) eqn:E1, (b 2) eqn:E2, (b 3) eqn:E3, (b 4) eqn:E4, (b 5) eqn:E5, (b 6) eqn:E6, (b 7) eqn:E7;
    (destruct Hc as [->|[->|[->|[->|[->|[->|[->| ->]]]]]]]; symmetry; assumption).
Qed.

Lemma byte_of_range b : 0 <= byte_of b < 256.
Proof.
  unfold byte_of. change (zrange 0 8) with [0; 1; 2; 3; 4; 5; 6; 7]. csimpl.
  destruct (b 0), (b 1), (b 2), (b 3), (b 4), (b 5), (b 6), (b 7); simpl; lia.
Qed.

Lemma byte_of_ext b b' : (forall j, 0 <= j < 8 -> b j = b' j) -> byte_of b = byte_of b'.
Proof. intros He. unfold byte_of. f_equal. apply list_fmap_ext. intros ? j Hj%list_elem_of_lookup_2%elem_of_zrange. by rewrite He. Qed.

Lemma land_bit x j : 0 <= j -> (0 <? Z.land x (2 ^ j)) = Z.testbit x j.
Proof.
  intros Hj. destruct (Z.testbit x j) eqn:E.
  - apply Z.ltb_lt. apply Z.le_neq. split; [apply Z.land_nonneg; right; lia|]. intros H0.
    assert (Ht : Z.testbit (Z.land x (2 ^ j)) j = false) by (by rewrite <- H0, Z.bits_0).
    by rewrite Z.land_spec, E, Z.pow2_bits_true in Ht.
  - replace (Z.land x (2 ^ j)) with 0; [done|]. symmetry. apply Z.bits_inj. intros k. rewrite Z.bits_0, Z.land_spec.
    destruct (Z.eqb_spec k j) as [->|Hk]; [by rewrite E|]. rewrite Z.pow2_bits_false by done. by rewrite andb_false_r.
Qed.

(** ** Tiling *)

Lemma tile_cover n B r : 0 < B -> 0 <= r < n -> 0 <= r / B < cdiv n B /\ 0 <= r mod B < B /\ r / B * B + r mod B = r.
Proof.
  intros HB Hr. pose proof (Z.div_mod r B). pose proof (Z.mod_pos_bound r B HB). pose proof (cdiv_spec n B HB).
  assert (0 <= r / B) by (apply Z.div_pos; lia). split; [|lia]. split; [done|].
  apply Z.div_lt_upper_bound; lia.
Qed.

(** ** The kernels *)

Section kernels.
Context {F : Type} `{Scalar F, !Exact F}.

(** The projection of a row on column [n] of the weights, and byte [c] of its
    hash: the signs of eight projections. *)
Definition projection (weights : Tensor F) (K : Z) (row : Z -> F) (n : Z) : F :=
  fsum ((fun k => fmul (row k) (at_ weights [k; n])) <$> zrange 0 K).
Definition hash_bit (weights : Tensor F) (K : Z) (row : Z -> F) (n : Z) : bool := positive (projection weights K row n).
Definition hash_byte (weights : Tensor F) (K : Z) (row : Z -> F) (c : Z) : Z :=
  byte_of (fun j => hash_bit weights K row (8 * c + j)).

Lemma hash_byte_ext weights K row row' c :
  (forall k, 0 <= k < K -> row k = row' k) -> hash_byte weights K row c = hash_byte weights K row' c.
Proof.
  intros He. apply byte_of_ext. intros j _. unfold hash_bit, projection. f_equal. f_equal.
  apply list_fmap_ext. intros ? k Hk%list_elem_of_lookup_2%elem_of_zrange. by rewrite He.
Qed.

Lemma packed_tile weights K BK lx lc pw row i c n :
  0 < BK -> 0 <= K ->
  (forall offs k, lx offs i k = if offs k <? K then row (offs k) else fzero) ->
  (forall offs k j, 0 <= j < 8 -> lc offs k (8 * c + j) = if offs k <? K then at_ weights [offs k; 8 * n + j] else fzero) ->
  (forall j, 0 <= j < 8 -> pw j = 2 ^ j) ->
  pack_bits (sign_bits (dot_loop K BK lx lc)) pw i c = hash_byte weights K row n.
Proof.
  intros HBK HK Hx Hc Hw. apply pack_bits_byte; [|done]. intros j Hj. unfold sign_bits, hash_bit, projection.
  by rewrite (dot_loop_spec K BK lx lc (fun _ => row) (fun k _ => at_ weights [k; 8 * n + j])) by auto.
Qed.

Lemma at_strides2 {A} (t : Tensor A) s0 s1 i j : t_strides t = [s0; s1] -> at_ t [i; j] = t_storage t (i * stride t 0 + j * stride t 1).
Proof. intros Hs. unfold at_, offset, stride. rewrite Hs. simpl. f_equal. lia. Qed.

(** The masks [(8)] that pack a byte. *)
Definition masks_ok (pw : Tensor Z) : Prop := forall j, 0 <= j < 8 -> t_storage pw (j * stride pw 0) = 2 ^ j.

Lemma triton_writes (x weights : Tensor F) pw M K N som son BM BK BN s0 s1 w :
  0 < BM -> 0 < BK -> 0 < BN -> BN mod 8 = 0 -> N mod 8 = 0 -> 0 <= K ->
  t_strides weights = [s0; s1] -> masks_ok pw ->
  (exists p, p ∈ grid2 (cdiv M BM) (cdiv N BN) /\ w ∈ triton_hash_code_kernel x weights pw M K N som son BM BK BN p) <->
  (exists r c, 0 <= r < M /\ 0 <= c < N / 8 /\
     w = (r * som + c * son, hash_byte weights K (fun k => t_storage x (r * stride x 0 + k * stride x 1)) c)).
Proof.
  intros HBM HBK HBN HBN8 HN8 HK Hs Hpw.
  assert (Hval : forall pm pn i c, 0 <= pm * BM + i < M -> 0 <= pn * (BN / 8) + c < N / 8 -> 0 <= c < BN / 8 ->
    pack_bits (sign_bits (dot_loop K BK
      (fun offs_k => tl_load (t_storage x) (fun i k => (pm * BM + i) * stride x 0 + offs_k k * stride x 1)
                           (fun i k => (pm * BM + i <? M) && (offs_k k <? K)) fzero)
      (fun offs_k => tl_load (t_storage weights) (fun k j => offs_k k * stride weights 0 + (pn * BN + j) * stride weights 1)
                           (fun k j => (offs_k k <? K) && (pn * BN + j <? N)) fzero)))
      (fun j => t_storage pw (j * stride pw 0)) i c =
    hash_byte weights K (fun k => t_storage x ((pm * BM + i) * stride x 0 + k * stride x 1)) (pn * (BN / 8) + c)).
  { intros pm pn i c Hr Hc Hc'. apply packed_tile; [done|done|..|done].
    - intros offs k. unfold tl_load. by replace (pm * BM + i <? M) with true by lia.
    - intros offs k j Hj. unfold tl_load.
      assert (He : pn * BN + (8 * c + j) = 8 * (pn * (BN / 8) + c) + j) by (assert (BN = 8 * (BN / 8)) by lia; nia).
      rewrite He. replace (8 * (pn * (BN / 8) + c) + j <? N) with true by lia.
      rewrite andb_true_r. by rewrite (at_strides2 _ _ _ _ _ Hs). }
  split.
  - intros ([pm pn] & Hg%elem_of_grid2 & (i & c & Hi & Hc & Hm & ->)%elem_of_tl_store).
    simpl in Hm. apply andb_true_iff in Hm as [Hm1%Z.ltb_lt Hm2%Z.ltb_lt].
    assert (0 <= pm * BM) by nia. assert (0 <= pn * (BN / 8)) by nia.
    exists (pm * BM + i), (pn * (BN / 8) + c). split; [lia|]. split; [lia|]. simpl. by rewrite Hval by lia.
  - intros (r & c & Hr & Hc & ->).
    destruct (tile_cover M BM r HBM Hr) as (Hpm & Hi & Er).
    destruct (tile_cover (N / 8) (BN / 8) c ltac:(lia) Hc) as (Hpn & Hc' & Ec).
    exists (r / BM, c / (BN / 8)). split.
    + apply elem_of_grid2. split; [done|]. split; [lia|]. pose proof (cdiv_spec N BN HBN). nia.
    + apply elem_of_tl_store. exists (r mod BM), (c mod (BN / 8)). cbn [fst snd].
      split; [done|]. split; [done|]. rewrite Er, Ec. split; [lia|]. rewrite Hval by lia. by rewrite Er, Ec.
Qed.
(** The rows of a launch's output. *)
Lemma triton_output `{Schedule Z} (x weights : Tensor F) pw M K N s0 s1 m r c :
  N mod 8 = 0 -> 0 <= K -> t_strides weights = [s0; s1] -> masks_ok pw -> 0 <= r < M -> 0 <= c < N / 8 ->
  launch (grid2 (cdiv M 32) (cdiv N 16)) (triton_hash_code_kernel x weights pw M K N (N / 8) 1 32 64 16) m (r * (N / 8) + c) =
  hash_byte weights K (fun k => t_storage x (r * stride x 0 + k * stride x 1)) c.
Proof.
  intros HN8 HK Hs Hpw Hr Hc.
  pose proof (fun w => triton_writes x weights pw M K N (N / 8) 1 32 64 16 s0 s1 w ltac:(lia) ltac:(lia) ltac:(lia) ltac:(done) HN8 HK Hs Hpw) as Hw.
  apply (launch_value _ _ _ Hw).
  - intros a v v' (r1 & c1 & Hr1 & Hc1 & [= -> ->]) (r2 & c2 & Hr2 & Hc2 & [= E ->]).
    assert (r1 = r2 /\ c1 = c2) as [-> ->]; [|done]. apply (Z.div_mod_unique (N / 8)); [by left|by left|lia].
  - exists r, c. by rewrite Z.mul_1_r.
Qed.
End kernels.

(** ** [compute_hash] *)

(** What [__init__] and [set_hash_weight] leave in an encoder for CUDA or a CPU. *)
Record encoder_ok {F : Type} (e : Encoder F) : Prop := {
  ok_dim : 0 < input_dim e;
  ok_bits : 0 <= hash_bits e;
  ok_bits8 : hash_bits e mod 8 = 0;
  ok_numbers : hash_numbers e = hash_bits e / 8;
  ok_weights : t_shape (hash_weights e) = [input_dim e; hash_bits e];
  ok_strides : exists s0 s1, t_strides (hash_weights e) = [s0; s1];
  ok_masks : bit_masks e = Some (init_bit_masks (device e));
}.

Lemma init_masks_ok dev : masks_ok (init_bit_masks dev).
Proof.
  intros j Hj. unfold init_bit_masks, stride, u8. simpl. rewrite Z.mul_1_r. apply Z.mod_small.
  split; [apply Z.pow_nonneg; lia|]. change 256 with (2 ^ 8). apply Z.pow_lt_mono_r; lia.
Qed.

Lemma reshape_rows_of {A} (x : Tensor A) K : 0 < K -> numel x mod K = 0 ->
  reshape_rows x K = Ok (contiguous_tensor [numel x / K; K] (t_dtype x) (t_device x) (flat x)).
Proof.
  intros HK Hm. unfold reshape_rows, reshape. replace (K <=? 0) with false by lia. simpl.
  replace (numel x =? _) with true; [done|]. symmetry. apply Z.eqb_eq. pose proof (Z.div_mod (numel x) K). lia.
Qed.

Ltac shape_of :=
  match goal with |- context [t_shape (contiguous_tensor ?s ?a ?b ?c)] =>
    change (t_shape (contiguous_tensor s a b c)) with s end.

Section compute_hash.
Context {F : Type} `{Scalar F} (cast : Dtype -> Dtype -> F -> F).

(** Row [r] of the rows [x.reshape(-1, K)], in the type [d]. *)
Definition hash_row (d : Dtype) (x : Tensor F) (K r : Z) : Z -> F :=
  fun k => if decide (t_dtype x = d) then flat x (r * K + k) else cast (t_dtype x) d (flat x (r * K + k)).

(** The rows as [compute_hash] hands them to the kernel. *)
Lemma cast_rows d (x : Tensor F) K M : 0 < K -> 0 <= M ->
  let t := to_dtype cast d (contiguous_tensor [M; K] (t_dtype x) (t_device x) (flat x)) in
  t_shape t = [M; K] /\ t_strides t = [K * 1; 1] /\ t_device t = t_device x /\
  (forall r k, 0 <= r < M -> 0 <= k < K -> at_ t [r; k] = hash_row d x K r k).
Proof.
  intros HK HM. unfold to_dtype, hash_row. simpl. destruct (decide _) as [Hd|Hd].
  - split; [done|]. split; [done|]. split; [done|]. intros r k Hr Hk. by rewrite at_2d.
  - split; [done|]. split; [done|]. split; [done|]. intros r k Hr Hk. rewrite at_2d.
    assert (0 <= r * K + k < M * K) by nia.
    f_equal. f_equal. apply (offset_unravel [M; K]); [repeat constructor; lia|simpl; lia].
Qed.

Context `{!Exact F} `{S : Schedule Z} (junk : Z -> Z) (sbp : list F -> list Z).

Lemma triton_hash_code_ok (x W : Tensor F) K M N dev s0 s1 K' :
  t_shape x = [M; K] -> 0 < K -> 0 <= M -> 0 <= N -> N mod 8 = 0 -> t_shape W = [K'; N] -> t_strides W = [s0; s1] ->
  exists g, triton_hash_code junk x W (init_bit_masks dev) = Ok (contiguous_tensor [M; N / 8] Uint8 (t_device x) g) /\
    (forall r c, 0 <= r < M -> 0 <= c < N / 8 -> g (r * (N / 8) + c) = hash_byte W K (fun k => at_ x [r; k]) c).
Proof.
  intros Hx HK HM HN HN8 HW Hs. unfold triton_hash_code, last_dim, lead_dims.
  rewrite Hx. change (py_idx [M; K] (-1)) with (Ok K). cbv iota beta zeta.
  assert (Hn : numel x = M * K) by (unfold numel; rewrite Hx; simpl; lia).
  rewrite reshape_rows_of by (rewrite ?Hn, ?Z_mod_mult; done). rewrite Hn, Z.div_mul by lia.
  change (py_idx (t_shape (contiguous_tensor [M; K] (t_dtype x) (t_device x) (flat x))) 0) with (Ok M). cbv iota beta.
  rewrite HW. change (py_idx (t_shape (init_bit_masks dev)) 0) with (Ok 8). rewrite HN8. cbn [Z.eqb Pos.eqb andb negb].
  set (mem := launch _ _ _).
  change (slice [M; K] 0 (-1)) with [M]. change ([M] ++ [N / 8]) with [M; N / 8].
  assert (Hd : 0 <= N / 8) by lia.
  destruct (view_contiguous [M; N / 8] [M; N / 8] Uint8 (t_device x) mem eq_refl ltac:(repeat constructor; lia)) as (g & Hv & Hg).
  exists g. split; [exact Hv|]. intros r c Hr Hc. rewrite Hg by (simpl; nia). unfold mem.
  unfold stride at 1 2. simpl t_strides. cbn [contiguous_strides lookup list_lookup default].
  change (id (zprod [N / 8])) with (N / 8 * 1). change (id (zprod [])) with 1. rewrite (Z.mul_1_r (N / 8)).
  rewrite (triton_output _ W _ M K N s0 s1); [|done|lia|done|apply init_masks_ok|done|done].
  apply hash_byte_ext. intros k Hk. unfold flat. f_equal. unfold stride. simpl.
  rewrite Hx. simpl. rewrite !Z.mul_1_r, Z.div_1_r.
  rewrite Z.div_add_l, (Z.div_small k), Z.add_0_r by lia.
  by rewrite Z.add_comm, Z_mod_plus_full, Z.mod_small by lia.
Qed.

Lemma torch_hash_code_ok (x W : Tensor F) K M N dev :
  t_shape x = [M; K] -> 0 < K -> 0 <= M -> 0 <= N -> N mod 8 = 0 -> t_shape W = [K; N] ->
  exists g, torch_hash_code x W (init_bit_masks dev) = Ok (contiguous_tensor [M; N / 8] Uint8 (t_device x) g) /\
    (forall r c, 0 <= r < M -> 0 <= c < N / 8 -> g (r * (N / 8) + c) = hash_byte W K (fun k => at_ x [r; k]) c).
Proof.
  intros Hx HK HM HN HN8 HW. unfold torch_hash_code, matmul. rewrite Hx, HW, Z.eqb_refl. cbn [negb].
  cbv iota beta. shape_of. cbv iota beta. rewrite HN8. cbn [Z.eqb negb].
  rewrite bool_decide_true by done. cbn [negb].
  eexists. split; [done|]. intros r c Hr Hc. cbv beta.
  rewrite Z.div_add_l, (Z.div_small c), Z.add_0_r by lia.
  rewrite (Z.add_comm _ c), Z_mod_plus_full, Z.mod_small by lia.
  apply pack_bits_byte.
  - intros j Hj. unfold sign_bits, hash_bit, projection. rewrite at_2d.
    assert (0 <= 8 * c + j < N) by lia.
    rewrite Z.div_add_l, (Z.div_small (8 * c + j)), Z.add_0_r by lia.
    by rewrite (Z.add_comm _ (8 * c + j)), Z_mod_plus_full, Z.mod_small by lia.
  - intros j Hj. unfold at_, offset, init_bit_masks, u8. simpl. rewrite Z.mul_1_r, Z.add_0_r.
    apply Z.mod_small. split; [apply Z.pow_nonneg; lia|]. change 256 with (2 ^ 8). apply Z.pow_lt_mono_r; lia.
Qed.

Lemma compute_hash_ok (e : Encoder F) (x : Tensor F) lead :
  encoder_ok e -> dev_type (device e) = Cuda \/ dev_type (device e) = Cpu -> t_device x = device e ->
  t_shape x = lead ++ [input_dim e] -> Forall (fun n => 0 <= n) lead ->
  exists g, compute_hash cast sbp junk e x =
      Ok (contiguous_tensor (lead ++ [hash_numbers e]) Uint8 (device e) g) /\
    (forall r c, 0 <= r < zprod lead -> 0 <= c < hash_numbers e ->
       g (r * hash_numbers e + c) = hash_byte (hash_weights e) (input_dim e) (hash_row (dtype e) x (input_dim e) r) c).
Proof.
  intros [Hdim Hb Hb8 Hnum HW (s0 & s1 & Hs) Hm] Hdev Hx Hshape Hlead. set (M := zprod lead).
  assert (HM : 0 <= M) by (by apply zprod_nonneg).
  unfold compute_hash, last_dim, lead_dims. rewrite Hshape.
  rewrite (py_idx_snoc lead). cbv iota beta. rewrite Z.eqb_refl. cbn [negb].
  destruct (decide (t_device x <> device e)) as [Hne|_]; [by destruct Hne|].
  assert (Hn : numel x = M * input_dim e) by (unfold numel; rewrite Hshape, zprod_app; simpl; lia).
  rewrite reshape_rows_of by (rewrite ?Hn, ?Z_mod_mult; done). rewrite Hn, Z.div_mul by lia.
  destruct (cast_rows (dtype e) x (input_dim e) M Hdim HM) as (Hs1 & Hs2 & Hd & Hrow). rewrite Hm. cbv iota beta zeta.
  set (xf := to_dtype cast (dtype e) _) in *.
  assert (Hcode : exists g, match dev_type (device e) with
      | Npu => Err ValueError
      | Cuda => triton_hash_code junk xf (hash_weights e) (init_bit_masks (device e))
      | Cpu => torch_hash_code xf (hash_weights e) (init_bit_masks (device e))
      | OtherDevice => Err ValueError end = Ok (contiguous_tensor [M; hash_bits e / 8] Uint8 (t_device xf) g) /\
    (forall r c, 0 <= r < M -> 0 <= c < hash_bits e / 8 ->
       g (r * (hash_bits e / 8) + c) = hash_byte (hash_weights e) (input_dim e) (fun k => at_ xf [r; k]) c)).
  { destruct Hdev as [-> | ->]; [by eapply triton_hash_code_ok|by apply torch_hash_code_ok]. }
  destruct Hcode as (g & Hg & Hgv). assert (0 <= hash_bits e / 8) by lia.
  destruct (view_contiguous [M; hash_bits e / 8] [numel (contiguous_tensor [M; hash_bits e / 8] Uint8 (t_device xf) g)] Uint8 (t_device xf) g
    ltac:(unfold numel; simpl; lia) ltac:(repeat constructor; lia)) as (g1 & Hv1 & Hg1).
  destruct (view_contiguous [numel (contiguous_tensor [M; hash_bits e / 8] Uint8 (t_device xf) g)] (lead ++ [hash_numbers e]) Uint8 (t_device xf) g1
    ltac:(unfold numel; simpl; rewrite zprod_app, Hnum; simpl; lia) ltac:(unfold numel; simpl; repeat constructor; nia)) as (g2 & Hv2 & Hg2).
  exists g2. split.
  - rewrite slice_lead.
    rewrite Hd, Hx in *. destruct Hdev as [E|E]; rewrite E in *; cbn [of_option]; rewrite Hg, Hv1; done.
  - intros r c Hr Hc. rewrite Hnum in *. assert (0 <= r * (hash_bits e / 8) + c < M * (hash_bits e / 8)) by nia.
    rewrite Hg2, Hg1 by (unfold numel; simpl; lia). rewrite Hgv by done. apply hash_byte_ext. intros k Hk. by apply Hrow.
Qed.
End compute_hash.
