(* ===== verification/HashEncoderCache.v ===== *)
(** * Hash codes: writing the paged cache

    The fused kernel against hashing first and copying then; construction of
    encoders; unpacking. *)

From S2P Require Import Prelude.
From S2P Require Import Triton.
From S2P Require Import HashEncoder.
From S2P Require Import HashEncoderFacts.
Local Open Scope Z_scope.
Local Open Scope py_scope.

(** ** The bytes the kernels write *)

(** Where byte [c] of head [h] of the slot [slot] is in the storage. *)
Definition slot_cell (u : Tensor Z) (block_size slot h c : Z) : Z :=
  slot / block_size * stride u 0 + slot mod block_size * stride u 1 + h * stride u 2 + c * stride u 3.

Section writes.
Context {F : Type} `{Scalar F, !Exact F}.

Lemma fused_writes (x W : Tensor F) pw slots u T NH K N bs num BM BK BN s0 s1 w :
  0 < BM -> 0 < BK -> 0 < BN -> BN mod 8 = 0 -> N mod 8 = 0 -> 0 <= K ->
  t_strides W = [s0; s1] -> masks_ok pw ->
  (exists p, p ∈ grid3 (cdiv T BM) (cdiv N BN) NH /\ w ∈ fused_hash_and_cache_kernel x W pw slots u T K N (N / 8) bs num BM BK BN p) <->
  (exists t h c, 0 <= t < T /\ 0 <= h < NH /\ 0 <= c < N / 8 /\ 0 <= slots t < num /\
     w = (slot_cell u bs (slots t) h c,
          hash_byte W K (fun k => t_storage x (t * stride x 0 + h * stride x 1 + k * stride x 2)) c)).
Proof.
  intros HBM HBK HBN HBN8 HN8 HK Hs Hpw.
  assert (Hval : forall pm pn h i c, 0 <= pm * BM + i < T -> 0 <= pn * (BN / 8) + c < N / 8 -> 0 <= c < BN / 8 ->
    pack_bits (sign_bits (dot_loop K BK
      (fun offs_k => tl_load (t_storage x) (fun i k => (pm * BM + i) * stride x 0 + h * stride x 1 + offs_k k * stride x 2)
                           (fun i k => (pm * BM + i <? T) && (offs_k k <? K)) fzero)
      (fun offs_k => tl_load (t_storage W) (fun k j => offs_k k * stride W 0 + (pn * BN + j) * stride W 1)
                           (fun k j => (offs_k k <? K) && (pn * BN + j <? N)) fzero)))
      (fun j => t_storage pw (j * stride pw 0)) i c =
    hash_byte W K (fun k => t_storage x ((pm * BM + i) * stride x 0 + h * stride x 1 + k * stride x 2)) (pn * (BN / 8) + c)).
  { intros pm pn h i c Hr Hc Hc'. apply packed_tile; [done|done|..|done].
    - intros offs k. unfold tl_load. by replace (pm * BM + i <? T) with true by lia.
    - intros offs k j Hj. unfold tl_load.
      assert (He : pn * BN + (8 * c + j) = 8 * (pn * (BN / 8) + c) + j) by (assert (BN = 8 * (BN / 8)) by lia; nia).
      rewrite He. replace (8 * (pn * (BN / 8) + c) + j <? N) with true by lia.
      rewrite andb_true_r. by rewrite (at_strides2 _ _ _ _ _ Hs). }
  split.
  - intros ([[pm pn] h] & (Hpm & Hpn & Hh)%elem_of_grid3 & Hw). unfold fused_hash_and_cache_kernel in Hw. cbn [fst snd] in Hw.
    destruct (T <=? pm * BM); [set_solver|]. destruct (N <=? pn * BN); [set_solver|].
    apply elem_of_tl_store in Hw as (i & c & Hi & Hc & Hm & ->).
    apply andb_true_iff in Hm as [[Hm1 Hm2]%andb_true_iff Hm3%Z.ltb_lt]. rewrite Hm1 in Hm2 |- *. cbv iota in Hm2 |- *. rewrite Hm2. cbn [andb].
    apply Z.ltb_lt in Hm1. apply andb_true_iff in Hm2 as [Hm4%Z.leb_le Hm5%Z.ltb_lt].
    assert (0 <= pm * BM) by nia. assert (0 <= pn * (BN / 8)) by nia.
    exists (pm * BM + i), h, (pn * (BN / 8) + c). rewrite <- Hval by lia. split_and!; [lia..|done].
  - intros (t & h & c & Ht & Hh & Hc & Hsl & ->).
    destruct (tile_cover T BM t HBM Ht) as (Hpm & Hi & Et).
    destruct (tile_cover (N / 8) (BN / 8) c ltac:(lia) Hc) as (Hpn & Hc' & Ec).
    assert (Hpn' : c / (BN / 8) * BN < N) by (assert (BN = 8 * (BN / 8)) by lia; nia).
    exists (t / BM, c / (BN / 8), h). split.
    + apply elem_of_grid3. split; [done|]. split; [|done]. split; [lia|]. pose proof (cdiv_spec N BN HBN). nia.
    + unfold fused_hash_and_cache_kernel. cbn [fst snd].
      replace (T <=? t / BM * BM) with false by lia. replace (N <=? c / (BN / 8) * BN) with false by lia.
      apply elem_of_tl_store. exists (t mod BM), (c mod (BN / 8)).
      rewrite Hval by lia. rewrite !Et, !Ec.
      replace (t <? T) with true by lia. replace ((0 <=? slots t) && (slots t <? num)) with true by lia.
      replace (c <? N / 8) with true by lia. done.
Qed.

End writes.

Lemma copy_writes (k_in u : Tensor Z) slots T NH W bs num BLOCK w :
  0 < BLOCK -> 0 <= NH -> 0 <= W ->
  (exists p, p ∈ grid2 T (cdiv (NH * W) BLOCK) /\ w ∈ reshape_and_cache_khash_kernel k_in slots u T NH W bs num BLOCK p) <->
  (exists t h c, 0 <= t < T /\ 0 <= h < NH /\ 0 <= c < W /\ 0 <= slots t < num /\
     w = (slot_cell u bs (slots t) h c, t_storage k_in (t * stride k_in 0 + h * stride k_in 1 + c * stride k_in 2))).
Proof.
  intros HB HH HW. unfold slot_cell. split.
  - intros ([t ch] & (Ht & Hch)%elem_of_grid2 & Hw). unfold reshape_and_cache_khash_kernel in Hw. cbn [fst snd] in Hw.
    replace (T <=? t) with false in Hw by lia. destruct (slots t <? 0) eqn:E1; [set_solver|].
    destruct (num <=? slots t) eqn:E2; [set_solver|].
    apply list_elem_of_bind in Hw as (lane & Hw & Hl%elem_of_zrange). cbv zeta in Hw.
    set (o := ch * BLOCK + lane) in *. destruct (o <? NH * W) eqn:E3; [|set_solver].
    apply list_elem_of_singleton in Hw as ->. assert (0 <= ch * BLOCK) by nia. assert (0 <= o < NH * W) by lia.
    assert (HW0 : 0 < W) by nia. pose proof (Z.div_mod o W ltac:(lia)). pose proof (Z.mod_pos_bound o W HW0).
    exists t, (o / W), (o - o / W * W). split; [done|].
    split; [split; [apply Z.div_pos; lia|apply Z.div_lt_upper_bound; lia]|]. split; [lia|]. split; [lia|].
    f_equal. f_equal. f_equal. f_equal. f_equal. pose proof (Z_div_mod_eq_full (slots t) bs). lia.
  - intros (t & h & c & Ht & Hh & Hc & Hs & ->). set (o := h * W + c). assert (0 <= o < NH * W) by (unfold o; nia).
    destruct (tile_cover (NH * W) BLOCK o HB ltac:(done)) as (Hp & Hl & Eo).
    exists (t, o / BLOCK). split; [by apply elem_of_grid2|]. unfold reshape_and_cache_khash_kernel. cbn [fst snd].
    replace (T <=? t) with false by lia. replace (slots t <? 0) with false by lia. replace (num <=? slots t) with false by lia.
    apply list_elem_of_bind. exists (o mod BLOCK). split; [|by apply elem_of_zrange]. cbv zeta. rewrite Eo.
    replace (o <? NH * W) with true by lia.
    assert (E : o / W = h) by (unfold o; rewrite Z.div_add_l, Z.div_small by lia; lia).
    rewrite E. replace (o - h * W) with c by (unfold o; lia).
    apply list_elem_of_singleton. f_equal. f_equal. f_equal. f_equal. f_equal. pose proof (Z_div_mod_eq_full (slots t) bs). lia.
Qed.

(** ** Storage without overlaps *)

Definition in_box (shape idx : list Z) : Prop := Forall2 (fun n i => 0 <= i < n) shape idx.

(** No two elements of a view share a place of the storage. *)
Definition no_overlap {A} (t : Tensor A) : Prop :=
  forall idx idx', in_box (t_shape t) idx -> in_box (t_shape t) idx' ->
    offset (t_strides t) idx = offset (t_strides t) idx' -> idx = idx'.

Lemma offset_in_box shape idx : in_box shape idx -> 0 <= offset (contiguous_strides shape) idx < zprod shape.
Proof.
  induction 1 as [|n i s idx Hi Hs IH]; [unfold offset; simpl; lia|].
  unfold offset in *. cbn [contiguous_strides zip_with zsum foldr zprod] in *. fold (zprod s) in *.
  fold (zsum (zip_with Z.mul idx (contiguous_strides s))). nia.
Qed.

Lemma contiguous_no_overlap {A} shape dt dev (f : Z -> A) : no_overlap (contiguous_tensor shape dt dev f).
Proof.
  unfold no_overlap. simpl. intros idx idx' Hi. revert idx'.
  induction Hi as [|n i s idx Hn Hs IH]; intros idx' Hi' He; [by apply Forall2_nil_inv_l in Hi' as ->|].
  apply Forall2_cons_inv_l in Hi' as (i' & idx2 & Hn' & Hs' & ->).
  pose proof (offset_in_box s idx Hs). pose proof (offset_in_box s idx2 Hs').
  assert (E : i = i' /\ offset (contiguous_strides s) idx = offset (contiguous_strides s) idx2).
  { apply (Z.div_mod_unique (zprod s)); [by left|by left|]. unfold offset in *. simpl in He. lia. }
  destruct E as [-> E]. f_equal. by apply IH.
Qed.

Lemma slot_cell_inj u B bs NH W sl h c sl' h' c' :
  no_overlap u -> t_shape u = [B; bs; NH; W] -> length (t_strides u) = 4%nat -> 0 < bs ->
  0 <= sl < B * bs -> 0 <= h < NH -> 0 <= c < W -> 0 <= sl' < B * bs -> 0 <= h' < NH -> 0 <= c' < W ->
  slot_cell u bs sl h c = slot_cell u bs sl' h' c' -> sl = sl' /\ h = h' /\ c = c'.
Proof.
  intros Hno Hsh Hst Hbs Hsl Hh Hc Hsl' Hh' Hc' He.
  assert (Hbox : forall sl h c, 0 <= sl < B * bs -> 0 <= h < NH -> 0 <= c < W ->
            in_box (t_shape u) [sl / bs; sl mod bs; h; c]).
  { clear -Hsh Hbs. intros sl h c Hsl Hh Hc. rewrite Hsh. pose proof (Z.mod_pos_bound sl bs Hbs).
    repeat constructor; try lia; [apply Z.div_pos; lia|apply Z.div_lt_upper_bound; lia]. }
  pose proof (Hno _ _ (Hbox sl h c Hsl Hh Hc) (Hbox sl' h' c' Hsl' Hh' Hc')) as E.
  assert (Hoff : forall sl h c, offset (t_strides u) [sl / bs; sl mod bs; h; c] = slot_cell u bs sl h c).
  { intros. unfold slot_cell, offset, stride. destruct (t_strides u) as [|k0 [|k1 [|k2 [|k3 []]]]]; try done. simpl. lia. }
  rewrite !Hoff in E. specialize (E He). injection E as E1 E2 -> ->. split; [|done].
  rewrite (Z_div_mod_eq_full sl bs), (Z_div_mod_eq_full sl' bs). congruence.
Qed.

Lemma reinterpret_shape {F} (e : Encoder F) cache u B bs NH w :
  t_shape cache = [B; bs; NH; w] -> length (t_strides cache) = 4%nat -> reinterpret_cache_as_u8 e cache = Ok u ->
  t_shape u = [B; bs; NH; hash_numbers e] /\ length (t_strides u) = 4%nat /\ t_storage u = t_storage cache /\ t_device u = t_device cache.
Proof.
  intros Hs Hl. unfold reinterpret_cache_as_u8, last_dim. rewrite Hs. change (py_idx [B; bs; NH; w] (-1)) with (Ok w). cbv iota beta.
  destruct (t_dtype cache); try discriminate.
  - destruct (Z.eqb_spec w (hash_numbers e)) as [<-|]; [|discriminate]. intros [= <-]. done.
  - destruct (hash_numbers e mod 2 =? 0) eqn:E1; [|discriminate]. destruct (Z.eqb_spec w (hash_numbers e / 2)) as [->|]; [|discriminate].
    cbn [negb]. unfold view_bytes. rewrite Hs. destruct (t_strides cache) as [|k0 [|k1 [|k2 [|k3 []]]]]; try discriminate.
    simpl. destruct k3 as [|[]|]; try discriminate. cbn [t_shape].
    change (py_idx _ (-1)) with (Ok (2 * (hash_numbers e / 2))). cbv iota beta.
    destruct (Z.eqb_spec (2 * (hash_numbers e / 2)) (hash_numbers e)) as [E|]; [|discriminate]. intros [= <-]. simpl. by rewrite E.
Qed.

Lemma cast_cells {F} (cast : Dtype -> Dtype -> F -> F) d (x : Tensor F) T NH K i h k :
  t_shape x = [T; NH; K] -> length (t_strides x) = 3%nat -> 0 <= i < T -> 0 <= h < NH -> 0 <= k < K ->
  let t := to_dtype cast d x in
  t_storage t (i * stride t 0 + h * stride t 1 + k * stride t 2) = hash_row cast d x K (i * NH + h) k.
Proof.
  intros Hs Hl Hi Hh Hk. unfold to_dtype, hash_row. destruct (decide _) as [_|_].
  - unfold flat. rewrite Hs, unravel_3d by done. unfold at_, offset, stride.
    destruct (t_strides x) as [|k0 [|k1 [|k2 []]]]; try done. simpl. f_equal. lia.
  - simpl. f_equal. f_equal. unfold stride. simpl. rewrite Hs. simpl. ring.
Qed.

(** ** The fused kernel *)

Section fused.
Context {F : Type} `{Scalar F, !Exact F}.
Context (cast : Dtype -> Dtype -> F -> F).
Context (e : Encoder F) (x : Tensor F) (slots cache u : Tensor Z) (T NH B bs : Z).
Context (Hok : encoder_ok e) (Hdev : dev_type (device e) = Cuda).
Context (Hxd : t_device x = device e) (Hsd : t_device slots = device e) (Hcd : t_device cache = device e).
Context (Hx : t_shape x = [T; NH; input_dim e]) (Hxs : length (t_strides x) = 3%nat).
Context (Hs : t_shape slots = [T]).
Context (w : Z) (Hc : t_shape cache = [B; bs; NH; w]) (Hcs : length (t_strides cache) = 4%nat).
Context (Hu : reinterpret_cache_as_u8 e cache = Ok u) (Hno : no_overlap u).
Context (HT : 0 <= T) (HNH : 0 <= NH) (Hbs : 0 < bs).
Context (Hdistinct : forall t t', 0 <= t < T -> 0 <= t' < T -> 0 <= t_storage slots t < B * bs ->
  t_storage slots t = t_storage slots t' -> t = t').

(** The bytes to write: those of every token whose slot is one of the cache. *)
Definition token_writes (wr : Z * Z) : Prop :=
  exists t h c, 0 <= t < T /\ 0 <= h < NH /\ 0 <= c < hash_numbers e /\ 0 <= t_storage slots t < B * bs /\
    wr = (slot_cell u bs (t_storage slots t) h c,
          hash_byte (hash_weights e) (input_dim e) (hash_row cast (dtype e) x (input_dim e) (t * NH + h)) c).

Lemma token_writes_consistent a v v' : token_writes (a, v) -> token_writes (a, v') -> v = v'.
Proof.
  intros (t & h & c & Ht & Hh & Hc1 & Hsl & [= -> ->]) (t' & h' & c' & Ht' & Hh' & Hc' & Hsl' & [= E ->]).
  destruct (reinterpret_shape e cache u B bs NH w Hc Hcs Hu) as (Hus & Hul & _).
  destruct (slot_cell_inj u B bs NH (hash_numbers e) _ h c _ h' c' Hno Hus Hul Hbs Hsl Hh Hc1 Hsl' Hh' Hc' E) as (Es & <- & <-).
  by rewrite (Hdistinct t t' Ht Ht' Hsl Es).
Qed.

Lemma fused_token_writes BM BK BN wr : 0 < BM -> 0 < BK -> 0 < BN -> BN mod 8 = 0 ->
  let x' := to_dtype cast (dtype e) x in
  (exists p, p ∈ grid3 (cdiv T BM) (cdiv (hash_bits e) BN) NH /\
     wr ∈ fused_hash_and_cache_kernel x' (hash_weights e) (init_bit_masks (device e)) (t_storage slots) u T (input_dim e)
            (hash_bits e) (hash_numbers e) bs (B * bs) BM BK BN p) <-> token_writes wr.
Proof using Hok Hx Hxs Exact0.
  clear Hcs. intros HBM HBK HBN HBN8 x'. destruct Hok as [Hdim Hb Hb8 Hnum HW (s0 & s1 & Hst) Hm]. rewrite Hnum.
  rewrite (fused_writes x' (hash_weights e) (init_bit_masks (device e)) (t_storage slots) u T NH (input_dim e) (hash_bits e) bs (B * bs) BM BK BN s0 s1)
    by (first [done | lia | apply init_masks_ok]).
  unfold token_writes. rewrite Hnum.
  split; intros (t & h & c & Ht & Hh & Hc1 & Hsl & ->); exists t, h, c; (do 4 (split; [done|])); f_equal;
    apply hash_byte_ext; intros k Hk; [|symmetry]; by apply (cast_cells cast (dtype e) x T NH (input_dim e)).
Qed.

Lemma copy_token_writes g BLOCK wr : 0 < BLOCK ->
  (forall r c, 0 <= r < T * NH -> 0 <= c < hash_numbers e ->
     g (r * hash_numbers e + c) = hash_byte (hash_weights e) (input_dim e) (hash_row cast (dtype e) x (input_dim e) r) c) ->
  (exists p, p ∈ grid2 T (cdiv (NH * hash_numbers e) BLOCK) /\
     wr ∈ reshape_and_cache_khash_kernel (contiguous_tensor [T; NH; hash_numbers e] Uint8 (device e) g) (t_storage slots) u
            T NH (hash_numbers e) bs (B * bs) BLOCK p) <-> token_writes wr.
Proof using Hok HNH.
  clear Hcs Hxs. intros HB Hg. assert (0 <= hash_numbers e) by (destruct Hok as [_ Hb _ Hnum _ _ _]; lia).
  rewrite copy_writes by done. unfold token_writes.
  assert (Hv : forall t h c, 0 <= t < T -> 0 <= h < NH -> 0 <= c < hash_numbers e ->
    t_storage (contiguous_tensor [T; NH; hash_numbers e] Uint8 (device e) g)
      (t * stride (contiguous_tensor [T; NH; hash_numbers e] Uint8 (device e) g) 0 +
       h * stride (contiguous_tensor [T; NH; hash_numbers e] Uint8 (device e) g) 1 +
       c * stride (contiguous_tensor [T; NH; hash_numbers e] Uint8 (device e) g) 2) =
    hash_byte (hash_weights e) (input_dim e) (hash_row cast (dtype e) x (input_dim e) (t * NH + h)) c).
  { intros t h c Ht Hh Hc1. rewrite <- Hg by nia. unfold stride. simpl. f_equal. ring. }
  split; intros (t & h & c & Ht & Hh & Hc1 & Hsl & ->); exists t, h, c; (do 4 (split; [done|])); by rewrite Hv.
Qed.
End fused.

(** C13. The fused kernel is hashing followed by copying.  For keys of any
    strides, distinct slots and a cache, of bytes or of two-byte elements, whose
    elements do not overlap, whatever the order in which the stores of the
    kernels reach memory and whatever the tile sizes: [compute_hash] and then
    [reshape_and_cache_khash_triton] on the bytes of the cache leave the storage
    as [compute_hash_and_cache] does.  Every token whose slot is in the cache has
    the signs of its own projections at its slot, head by head and byte by byte,
    and no other byte of the storage changes: padding tokens, with a negative
    slot, write nothing.  Sums are exact. *)
Theorem fused_kernel_is_hash_then_cache {F} `{Scalar F, !Exact F} (S1 S2 S3 : Schedule Z) cast sbp junk
    (e : Encoder F) x slots cache u T NH B bs w BM BK BN :
  encoder_ok e -> dev_type (device e) = Cuda ->
  t_device x = device e -> t_device slots = device e -> t_device cache = device e ->
  t_shape x = [T; NH; input_dim e] -> length (t_strides x) = 3%nat -> t_shape slots = [T] ->
  t_shape cache = [B; bs; NH; w] -> length (t_strides cache) = 4%nat ->
  reinterpret_cache_as_u8 e cache = Ok u -> no_overlap u -> 0 <= T -> 0 <= NH -> 0 < bs ->
  (forall t t', 0 <= t < T -> 0 <= t' < T -> 0 <= t_storage slots t < B * bs ->
     t_storage slots t = t_storage slots t' -> t = t') ->
  0 < BM -> 0 < BK -> 0 < BN -> BN mod 8 = 0 ->
  exists h copied fused,
    compute_hash (H0 := S1) cast sbp junk e x = Ok h /\
    reshape_and_cache_khash_triton (H0 := S2) h slots u bs = Ok copied /\
    compute_hash_and_cache (H0 := S3) cast e x slots cache bs BM BK BN = Ok fused /\
    (forall a, t_storage fused a = t_storage copied a) /\
    (forall t h c, 0 <= t < T -> 0 <= h < NH -> 0 <= c < hash_numbers e -> 0 <= t_storage slots t < B * bs ->
       t_storage fused (slot_cell u bs (t_storage slots t) h c) =
       hash_byte (hash_weights e) (input_dim e) (hash_row cast (dtype e) x (input_dim e) (t * NH + h)) c) /\
    (forall a, (forall t h c, 0 <= t < T -> 0 <= h < NH -> 0 <= c < hash_numbers e -> 0 <= t_storage slots t < B * bs ->
                  a <> slot_cell u bs (t_storage slots t) h c) -> t_storage fused a = t_storage cache a).
Proof.
  intros Hok Hdev Hxd Hsd Hcd Hx Hxs Hs Hc Hcs Hu Hno HT HNH Hbs Hdis HBM HBK HBN HBN8.
  destruct (reinterpret_shape e cache u B bs NH w Hc Hcs Hu) as (Hus & Hul & Hust & Hud).
  destruct (compute_hash_ok (S := S1) cast junk sbp e x [T; NH] Hok (or_introl Hdev) Hxd Hx ltac:(repeat constructor; done)) as (g & Hg & Hgv).
  assert (Hcopy : forall BLOCK wr, 0 < BLOCK -> _) by
    (intros BLOCK wr HB; apply (copy_token_writes cast e x slots u T NH B bs Hok HNH g BLOCK wr HB); intros; apply Hgv; simpl; lia).
  pose proof (fun wr => fused_token_writes cast e x slots u T NH B bs Hok Hx Hxs BM BK BN wr HBM HBK HBN HBN8) as Hfused.
  pose proof (token_writes_consistent cast e x slots cache u T NH B bs w Hc Hcs Hu Hno Hbs Hdis) as Hone.
  assert (Hcu : forall t : Tensor Z, t_device t = device e -> is_cuda t = true).
  { intros t Ht. unfold is_cuda. by rewrite Ht, bool_decide_true. }
  eexists _, _, _. split; [exact Hg|]. split; [|split; [|split; [|split]]].
  - unfold reshape_and_cache_khash_triton. rewrite !Hcu by (done || by rewrite Hud). cbn [andb negb].
    shape_of. rewrite Hus, Hs. simpl app. cbv iota. rewrite !Z.eqb_refl. cbn [andb negb]. reflexivity.
  - unfold compute_hash_and_cache. destruct (decide _) as [Hne|_]; [by destruct Hne|]. rewrite Hx, Hs, Hc, Z.eqb_refl. cbn [negb].
    rewrite Hxd, Hsd, Hcd. destruct (decide (device e <> device e)) as [Hne|_]; [by destruct Hne|].
    rewrite HBN8, !Z.eqb_refl. cbn [negb Z.eqb]. rewrite Hu, Hus, !Z.eqb_refl. cbn [andb negb].
    destruct Hok as [_ _ _ _ _ _ Hm]. rewrite Hm. reflexivity.
  - intros a. simpl t_storage. rewrite Hust. apply (launch_same (S1 := S3) (S2 := S2)).
    + by apply (launch_consistent _ _ _ Hfused).
    + intros wr. rewrite Hfused, Hcopy; [done|]. by repeat case_match.
  - intros t h c Ht Hh Hc1 Hsl. apply (launch_value _ _ _ Hfused); [exact Hone|]. by exists t, h, c.
  - rewrite <- Hust. intros a Ha. apply (launch_other _ _ _ Hfused).
    intros v (t & h & c & Ht & Hh & Hc1 & Hsl & [= -> ->]). by apply (Ha t h c).
Qed.

(** ** One code for all devices *)

Lemma hash_byte_weights {F} `{Scalar F} (W W' : Tensor F) K row row' c N :
  (forall k n, 0 <= k < K -> 0 <= n < N -> at_ W [k; n] = at_ W' [k; n]) -> (forall k, 0 <= k < K -> row k = row' k) ->
  0 <= c < N / 8 -> hash_byte W K row c = hash_byte W' K row' c.
Proof.
  intros HW Hr Hc. apply byte_of_ext. intros j Hj. unfold hash_bit, projection. f_equal. f_equal.
  apply list_fmap_ext. intros ? k Hk%list_elem_of_lookup_2%elem_of_zrange. rewrite Hr, HW by lia. done.
Qed.

(** C18. The code of a vector does not depend on the device: an encoder on CUDA,
    in whatever order its kernel's stores reach memory, and one on a CPU with
    the same weights give tensors of the same shape with the same bytes for
    vectors with the same elements, whatever strides these have.  Byte [c] of a
    vector has the signs of its projections on the columns [8 * c] to
    [8 * c + 7], the first in the lowest bit.  Sums are exact. *)
Theorem triton_hash_is_torch_hash {F} `{Scalar F, !Exact F} (S1 S2 : Schedule Z) cast sbp junk
    (gpu cpu : Encoder F) (x y : Tensor F) lead :
  encoder_ok gpu -> encoder_ok cpu -> dev_type (device gpu) = Cuda -> dev_type (device cpu) = Cpu ->
  input_dim cpu = input_dim gpu -> hash_bits cpu = hash_bits gpu -> dtype cpu = dtype gpu ->
  (forall k n, 0 <= k < input_dim gpu -> 0 <= n < hash_bits gpu -> at_ (hash_weights gpu) [k; n] = at_ (hash_weights cpu) [k; n]) ->
  t_device x = device gpu -> t_device y = device cpu -> t_dtype x = t_dtype y ->
  t_shape x = lead ++ [input_dim gpu] -> t_shape y = t_shape x -> Forall (fun n => 0 <= n) lead ->
  (forall f, 0 <= f < numel x -> flat x f = flat y f) ->
  exists hx hy,
    compute_hash (H0 := S1) cast sbp junk gpu x = Ok hx /\ compute_hash (H0 := S2) cast sbp junk cpu y = Ok hy /\
    t_shape hx = lead ++ [hash_numbers gpu] /\ t_shape hy = t_shape hx /\
    (forall f, 0 <= f < numel hx -> flat hx f = flat hy f) /\
    (forall r c, 0 <= r < zprod lead -> 0 <= c < hash_numbers gpu ->
       flat hx (r * hash_numbers gpu + c) =
       hash_byte (hash_weights gpu) (input_dim gpu) (hash_row cast (dtype gpu) x (input_dim gpu) r) c).
Proof.
  intros Hg Hc Hgd Hcd Hdim Hbits Hdt HW Hx Hy Hxy Hsx Hsy Hlead He.
  destruct (compute_hash_ok (S := S1) cast junk sbp gpu x lead Hg (or_introl Hgd) Hx Hsx Hlead) as (g & Eg & Hgv).
  rewrite Hsx, <- Hdim in Hsy.
  destruct (compute_hash_ok (S := S2) cast junk sbp cpu y lead Hc (or_intror Hcd) Hy Hsy Hlead) as (g' & Eg' & Hgv').
  assert (Hn : hash_numbers cpu = hash_numbers gpu) by (destruct Hg, Hc; congruence).
  assert (Hnb : hash_numbers gpu = hash_bits gpu / 8) by apply Hg.
  assert (Hnn : 0 <= hash_numbers gpu) by (destruct Hg; lia). rewrite Hn, Hdim, Hdt in *.
  assert (Hp : zprod (lead ++ [hash_numbers gpu]) = zprod lead * hash_numbers gpu) by (rewrite zprod_app; simpl; lia).
  assert (Hf : Forall (fun n => 0 <= n) (lead ++ [hash_numbers gpu])) by (apply Forall_app; split; [done|by constructor]).
  pose proof (zprod_nonneg lead Hlead).
  eexists _, _. split; [exact Eg|]. split; [exact Eg'|]. split; [done|]. split; [done|].
  assert (Hrow : forall r c, 0 <= r < zprod lead -> 0 <= c < hash_numbers gpu -> g (r * hash_numbers gpu + c) = g' (r * hash_numbers gpu + c)).
  { intros r c Hr Hc'. rewrite Hgv, Hgv' by done. apply (hash_byte_weights _ _ _ _ _ _ (hash_bits gpu)); [done| |lia].
    intros k Hk. unfold hash_row. rewrite Hxy, He; [done|]. unfold numel. rewrite Hsx, zprod_app. simpl. nia. }
  split; intros.
  - unfold numel in *. simpl t_shape in *. rewrite !flat_contiguous by done.
    destruct (decide (hash_numbers gpu = 0)) as [E|]; [rewrite Hp, E in *; lia|].
    rewrite (Z_div_mod_eq_full f (hash_numbers gpu)), (Z.mul_comm (hash_numbers gpu)). apply Hrow.
    + split; [apply Z.div_pos; lia|apply Z.div_lt_upper_bound; lia].
    + apply Z.mod_pos_bound. lia.
  - rewrite flat_contiguous by (done || rewrite Hp; nia). by apply Hgv.
Qed.

(** ** Unpacking *)

Lemma unpack_hash_ok {F} (npu : list Z -> list Z) (e : Encoder F) lead g :
  encoder_ok e -> 0 < hash_bits e -> dev_type (device e) = Cuda \/ dev_type (device e) = Cpu -> Forall (fun n => 0 <= n) lead ->
  exists b, unpack_hash npu e (contiguous_tensor (lead ++ [hash_numbers e]) Uint8 (device e) g) =
      Ok (contiguous_tensor (lead ++ [hash_bits e]) Float16 (device e) b) /\
    (forall r n, 0 <= r < zprod lead -> 0 <= n < hash_bits e ->
       b (r * hash_bits e + n) = if Z.testbit (g (r * hash_numbers e + n / 8)) (n mod 8) then 1 else -1).
Proof.
  intros [Hdim Hb Hb8 Hnum HW _ Hm] Hb0 Hdev Hlead. set (M := zprod lead).
  assert (HM : 0 <= M) by (by apply zprod_nonneg). assert (Hn : 0 < hash_numbers e) by lia.
  assert (Hf : Forall (fun n => 0 <= n) (lead ++ [hash_numbers e])) by (apply Forall_app; split; [done|constructor; [lia|done]]).
  set (h := contiguous_tensor _ _ _ g).
  assert (Hnh : numel h = M * hash_numbers e) by (unfold numel; simpl; rewrite zprod_app; simpl; lia).
  assert (Hnh' : zprod (lead ++ [hash_numbers e]) = M * hash_numbers e) by done.
  unfold unpack_hash, last_dim, lead_dims. simpl t_shape. rewrite py_idx_snoc. cbv iota beta. rewrite Z.eqb_refl. cbn [negb].
  destruct (decide (t_device h <> device e)) as [Hne|_]; [by destruct Hne|].
  destruct (decide (t_dtype h <> Uint8)) as [Hne|_]; [by destruct Hne|].
  destruct (view_contiguous (lead ++ [hash_numbers e]) [numel h] Uint8 (device e) g ltac:(unfold numel; simpl; lia) Hf) as (g1 & Hv1 & Hg1).
  fold h in Hv1. rewrite Hv1, Hm. cbv iota beta zeta. rewrite Hnh in *.
  rewrite slice_lead.
  assert (Hrr : reshape_rows (contiguous_tensor [M * hash_numbers e] Uint8 (device e) g1) (hash_numbers e) =
    Ok (contiguous_tensor [M; hash_numbers e] Uint8 (device e) (flat (contiguous_tensor [M * hash_numbers e] Uint8 (device e) g1)))).
  { rewrite reshape_rows_of; [|done|unfold numel; simpl; rewrite Z.mul_1_r; by apply Z_mod_mult].
    unfold numel. simpl. by rewrite Z.mul_1_r, Z.div_mul by lia. }
  set (T1 := contiguous_tensor [M * hash_numbers e] Uint8 (device e) g1) in *.
  pose (T2 := contiguous_tensor [M; hash_numbers e] Uint8 (device e) (flat T1)). fold T2 in Hrr.
  pose (bf := fun f => (if 0 <? Z.land (at_ T2 [f / 8 / hash_numbers e; (f / 8) mod hash_numbers e]) (at_ (init_bit_masks (device e)) [f mod 8])
                        then 1 else 0) * 2 - 1).
  pose (T3 := contiguous_tensor [M; hash_numbers e; 8] Float16 (device e) bf).
  assert (Hn3 : numel T3 = M * hash_bits e) by (unfold numel; simpl; rewrite Hnum; lia).
  assert (Hr3 : reshape_rows T3 (hash_bits e) = Ok (contiguous_tensor [M; hash_bits e] Float16 (device e) (flat T3))).
  { rewrite reshape_rows_of by (rewrite ?Hn3, ?Z_mod_mult; done). by rewrite Hn3, Z.div_mul by lia. }
  destruct (view_contiguous [M; hash_bits e] (lead ++ [hash_bits e]) Float16 (device e) (flat T3)
    ltac:(rewrite zprod_app; simpl; lia) ltac:(repeat constructor; lia)) as (b & Hv & Hbv).
  exists b. split.
  - destruct Hdev as [-> | ->]; cbn [of_option]; rewrite Hrr; cbv iota beta; change (py_idx (t_shape T2) 0) with (Ok M);
      cbv iota beta; fold bf; fold T3; rewrite Hr3; exact Hv.
  - intros r n Hr Hn'. assert (Hf0 : 0 <= r * hash_bits e + n < M * hash_bits e) by nia.
    rewrite Hbv by (simpl; lia). unfold T3. rewrite flat_contiguous; [|repeat constructor; lia|simpl; lia]. unfold bf, T2.
    assert (E8 : (r * hash_bits e + n) / 8 = r * hash_numbers e + n / 8 /\ (r * hash_bits e + n) mod 8 = n mod 8) by lia.
    destruct E8 as [-> ->]. assert (0 <= n / 8 < hash_numbers e) by lia.
    assert (Ed : (r * hash_numbers e + n / 8) / hash_numbers e = r) by (rewrite Z.div_add_l, (Z.div_small (n / 8)) by lia; lia).
    assert (Em : (r * hash_numbers e + n / 8) mod hash_numbers e = n / 8)
      by (rewrite (Z.add_comm _ (n / 8)), Z_mod_plus_full; apply Z.mod_small; lia).
    rewrite Ed, Em, at_2d. unfold T1. assert (0 <= r * hash_numbers e + n / 8 < M * hash_numbers e).
    { assert (0 <= r * hash_numbers e) by (apply Z.mul_nonneg_nonneg; lia).
      assert ((r + 1) * hash_numbers e <= M * hash_numbers e) by (apply Z.mul_le_mono_nonneg_r; lia). lia. }
    rewrite flat_contiguous; [|repeat constructor; lia|simpl; lia]. rewrite Hg1 by (rewrite Hnh'; lia).
    assert (Hmask : at_ (init_bit_masks (device e)) [n mod 8] = 2 ^ (n mod 8)).
    { unfold at_. replace (offset _ _) with (n mod 8 * stride (init_bit_masks (device e)) 0) by (unfold offset, stride; simpl; lia).
      apply init_masks_ok. lia. }
    rewrite Hmask, land_bit by lia. by destruct (Z.testbit _ _).
Qed.

(** C30. Unpacking a code gives the signs of the projections: for vectors of the
    encoder's dimension in a tensor of any shape, on CUDA or a CPU, the result of
    [_unpack_hash] on that of [compute_hash] has [hash_bits] entries per vector,
    [1] in the columns on which the vector's projection is positive and [-1] in
    the others. *)
Theorem unpack_hash_round_trip {F} `{Scalar F, !Exact F} `{Schedule Z} cast sbp sbu junk (e : Encoder F) (x : Tensor F) lead :
  encoder_ok e -> 0 < hash_bits e -> dev_type (device e) = Cuda \/ dev_type (device e) = Cpu -> t_device x = device e ->
  t_shape x = lead ++ [input_dim e] -> Forall (fun n => 0 <= n) lead ->
  exists h bits, compute_hash cast sbp junk e x = Ok h /\ unpack_hash sbu e h = Ok bits /\
    t_shape bits = lead ++ [hash_bits e] /\
    (forall r n, 0 <= r < zprod lead -> 0 <= n < hash_bits e ->
       flat bits (r * hash_bits e + n) =
       if hash_bit (hash_weights e) (input_dim e) (hash_row cast (dtype e) x (input_dim e) r) n then 1 else -1).
Proof.
  intros Hok Hb0 Hdev Hx Hs Hlead. destruct (compute_hash_ok cast junk sbp e x lead Hok Hdev Hx Hs Hlead) as (g & Hg & Hgv).
  destruct (unpack_hash_ok sbu e lead g Hok Hb0 Hdev Hlead) as (b & Hb & Hbv).
  exists (contiguous_tensor (lead ++ [hash_numbers e]) Uint8 (device e) g), (contiguous_tensor (lead ++ [hash_bits e]) Float16 (device e) b).
  split; [exact Hg|]. split; [exact Hb|]. split; [done|]. intros r n Hr Hn. pose proof (zprod_nonneg lead Hlead).
  assert (Hnum : hash_numbers e = hash_bits e / 8) by apply Hok. assert (hash_bits e mod 8 = 0) by apply Hok.
  rewrite flat_contiguous; [|apply Forall_app; split; [done|constructor; [lia|done]]|rewrite zprod_app; simpl; nia].
  rewrite Hbv by done. rewrite Hgv by lia. unfold hash_byte. rewrite byte_of_testbit by lia.
  by replace (8 * (n / 8) + n mod 8) with n by lia.
Qed.

(** ** Making an encoder *)

(** [torch.normal] and the reduced mode of [torch.linalg.qr]. *)
Record QrLaws {F : Type} (normal : Z -> Z -> Dtype -> Device -> Tensor F) (qr : Tensor F -> Tensor F * Tensor F) : Prop := {
  normal_shape n k d dev : t_shape (normal n k d dev) = [n; k];
  qr_shape (t : Tensor F) n k : t_shape t = [n; k] -> t_shape (qr t).1 = [n; Z.min n k] /\ t_shape (qr t).2 = [Z.min n k; k];
}.

Section making.
Context {F : Type} `{Scalar F}.
Context (normal : Z -> Z -> Dtype -> Device -> Tensor F) (qr : Tensor F -> Tensor F * Tensor F) (sign : F -> F).
Context (L : QrLaws normal qr).

Lemma init_hash_weights_ok n k d dev : exists f dt dv,
  init_hash_weights normal qr sign n k d dev = Ok (contiguous_tensor [n; Z.min n k] dt dv f).
Proof.
  unfold init_hash_weights. pose proof (qr_shape _ _ L (normal n k d dev) n k (normal_shape _ _ L n k d dev)) as [HQ HR].
  destruct (qr _) as [Q R]. simpl in HQ, HR. unfold diag. rewrite HR. cbv iota beta zeta. unfold mul_columns. rewrite HQ.
  shape_of. replace (Z.min (Z.min n k) k) with (Z.min n k) by lia. simpl. rewrite Z.eqb_refl. by eauto.
Qed.

Lemma new_encoder n k d dev :
  k mod 8 = 0 -> dev_type dev = Cuda \/ dev_type dev = Cpu ->
  exists e, new_HashEncoder normal qr sign n k d dev = Ok e /\ input_dim e = n /\ hash_bits e = k /\ hash_numbers e = k / 8 /\
    device e = dev /\ bit_masks e = Some (init_bit_masks dev) /\ t_shape (hash_weights e) = [n; Z.min n k] /\
    t_strides (hash_weights e) = [Z.min n k * 1; 1].
Proof.
  intros Hk Hdev. unfold new_HashEncoder. rewrite Hk. cbn [Z.eqb negb]. cbv zeta.
  match goal with |- context [init_hash_weights normal qr sign n k ?d' dev] =>
    destruct (init_hash_weights_ok n k d' dev) as (f & dt & dv & ->) end. cbv iota beta.
  destruct (decide _) as [_|Hn]; [|by destruct Hn]. eexists. split; [done|]. done.
Qed.

Lemma set_weight (e : Encoder F) w : encoder_ok e ->
  t_shape w = [input_dim e; hash_bits e] -> t_dtype w = dtype e -> t_device w = device e ->
  exists e', set_hash_weight e w = Ok e' /\ encoder_ok e' /\ device e' = device e /\ dtype e' = dtype e /\
    input_dim e' = input_dim e /\ hash_bits e' = hash_bits e /\
    (forall k n, 0 <= k < input_dim e -> 0 <= n < hash_bits e -> at_ (hash_weights e') [k; n] = at_ w [k; n]).
Proof.
  intros Hok Hs Hd Hdev. unfold set_hash_weight. rewrite Hs, Hd, Hdev.
  do 3 (destruct (decide _) as [Hne|_]; [by destruct Hne|]).
  destruct Hok as [Hdim Hb Hb8 Hnum HW Hst Hm]. unfold copy_. rewrite HW, Hs. rewrite decide_True by done. cbv iota beta.
  eexists. split; [done|]. split; [split; simpl; eauto|]. do 4 (split; [done|]). intros k n Hk Hn. cbn [hash_weights].
  rewrite at_2d. unfold flat. f_equal. rewrite Hs. simpl. rewrite !Z.mul_1_r, Z.div_1_r.
  rewrite Z.div_add_l, (Z.div_small n), Z.add_0_r by lia. by rewrite Z.add_comm, Z_mod_plus_full, Z.mod_small by lia.
Qed.

Lemma view_shape {A} (t t' : Tensor A) s : view t s = Ok t' -> t_shape t' = s /\ numel t = zprod s.
Proof.
  unfold view, reshape. destruct (is_contiguous t); [|done]. destruct (Z.eqb_spec (numel t) (zprod s)); [|done]. by intros [= <-].
Qed.

(** Without enough columns for its bits. *)
Lemma wide_set_weight (e : Encoder F) w n : t_shape (hash_weights e) = [input_dim e; n] -> n <> hash_bits e ->
  exists err, set_hash_weight e w = Err err.
Proof.
  intros Hs Hn. unfold set_hash_weight. repeat (case_decide; [by eauto|]). unfold copy_.
  destruct (decide _) as [E|]; [|by eauto]. rewrite Hs in E. destruct (decide (t_shape w = [input_dim e; hash_bits e])) as [E'|]; [|done].
  rewrite E' in E. injection E as ->. done.
Qed.

Lemma wide_compute_hash `{Schedule Z} cast sbp junk (e : Encoder F) x lead n :
  dev_type (device e) = Cuda \/ dev_type (device e) = Cpu -> bit_masks e = Some (init_bit_masks (device e)) ->
  t_shape (hash_weights e) = [input_dim e; n] -> n / 8 <> hash_numbers e ->
  t_shape x = lead ++ [input_dim e] -> 0 < input_dim e -> 0 < zprod lead ->
  exists err, compute_hash cast sbp junk e x = Err err.
Proof.
  intros Hdev Hm HW Hn Hs Hdim HM. unfold compute_hash, last_dim, lead_dims. rewrite Hs, py_idx_snoc, slice_lead. cbv iota beta.
  rewrite Z.eqb_refl. cbn [negb]. destruct (decide _) as [|_]; [by eauto|].
  assert (Hnx : numel x = zprod lead * input_dim e) by (unfold numel; rewrite Hs, zprod_app; simpl; lia).
  rewrite reshape_rows_of by (rewrite ?Hnx, ?Z_mod_mult; done). rewrite Hnx, Z.div_mul by lia. rewrite Hm. cbv iota beta zeta.
  destruct (cast_rows cast (dtype e) x (input_dim e) (zprod lead) Hdim ltac:(lia)) as (Hs1 & Hs2 & Hd & _).
  set (xf := to_dtype cast _ _) in *.
  assert (Hcode : forall r, r = triton_hash_code junk xf (hash_weights e) (init_bit_masks (device e)) \/
                    r = torch_hash_code xf (hash_weights e) (init_bit_masks (device e)) ->
            (exists err, r = Err err) \/ exists t, r = Ok t /\ t_shape t = [zprod lead; n / 8]).
  { intros r [-> | ->].
    - unfold triton_hash_code, last_dim, lead_dims. rewrite Hs1. change (py_idx [_; _] (-1)) with (Ok (input_dim e)). cbv iota beta zeta.
      assert (Hnf : numel xf = zprod lead * input_dim e) by (unfold numel; rewrite Hs1; simpl; lia).
      rewrite reshape_rows_of by (rewrite ?Hnf, ?Z_mod_mult; done). rewrite Hnf, Z.div_mul by lia. rewrite HW. cbv iota beta.
      shape_of. change (py_idx [zprod lead; input_dim e] 0) with (Ok (zprod lead)). change (py_idx (t_shape (init_bit_masks _)) 0) with (Ok 8).
      cbv iota beta. destruct (negb _); [by eauto|]. right. unfold view, reshape. rewrite is_contiguous_tensor.
      unfold numel. shape_of. change (slice [zprod lead; input_dim e] 0 (-1) ++ [n / 8]) with [zprod lead; n / 8]. rewrite Z.eqb_refl. by eauto.
    - unfold torch_hash_code, matmul. rewrite Hs1, HW, Z.eqb_refl. cbn [negb]. cbv iota beta. shape_of. cbv iota beta.
      destruct (negb _); [by eauto|]. destruct (negb _); by eauto. }
  assert (Hbad : forall r, (exists err, r = Err err) \/ (exists t : Tensor Z, r = Ok t /\ t_shape t = [zprod lead; n / 8]) ->
    exists err, (let? flat := (let? code := r in view code [numel code]) in view flat (lead ++ [hash_numbers e])) = Err err).
  { intros r [[err ->]|(t & -> & Ht)]; [by eauto|]. cbv iota beta.
    destruct (view t [numel t]) as [t1|err] eqn:E1; [|by eauto]. cbv iota beta.
    destruct (view t1 _) as [t2|err] eqn:E2; [|by eauto]. destruct Hn.
    apply view_shape in E1 as [E1 _]. apply view_shape in E2 as [_ E2]. unfold numel in E2 at 1. rewrite E1, zprod_app in E2.
    unfold numel in E2. rewrite Ht in E2. apply (Z.mul_reg_l _ _ (zprod lead)); [lia|].
    change (zprod [hash_numbers e]) with (hash_numbers e * 1) in E2.
    change (zprod [zprod [zprod lead; n / 8]]) with (zprod lead * (n / 8 * 1) * 1) in E2. lia. }
  destruct Hdev as [-> | ->]; cbn [of_option]; apply Hbad, Hcode; auto.
Qed.

(** How many bits an encoder can have.  An encoder made for CUDA or a CPU
    with [hash_bits] a multiple of eight and at most the dimension of the vectors is
    ready to hash, and stays so when weights of its shape, type and device
    replace its own.  With more bits than dimensions construction succeeds all
    the same, but the orthogonal matrix has one column per dimension only:
    [set_hash_weight] raises for all weights and [compute_hash] for all
    vectors. *)
Theorem encoders_hash_up_to_their_dimension `{Schedule Z} cast sbp junk n k d dev :
  0 < n -> 0 <= k -> k mod 8 = 0 -> dev_type dev = Cuda \/ dev_type dev = Cpu ->
  exists e, new_HashEncoder normal qr sign n k d dev = Ok e /\ input_dim e = n /\ hash_bits e = k /\ device e = dev /\
    (k <= n -> encoder_ok e /\
       (forall w, t_shape w = [n; k] -> t_dtype w = dtype e -> t_device w = dev -> exists e', set_hash_weight e w = Ok e' /\ encoder_ok e')) /\
    (n < k ->
       (forall w, exists err, set_hash_weight e w = Err err) /\
       (forall x lead, t_shape x = lead ++ [n] -> 0 < zprod lead -> exists err, compute_hash cast sbp junk e x = Err err)).
Proof using L.
  intros Hn Hk Hk8 Hdev. destruct (new_encoder n k d dev Hk8 Hdev) as (e & He & E1 & E2 & E3 & E4 & Hm & HW & Hst).
  exists e. do 4 (split; [done|]). rewrite <- E4 in Hdev, Hm. split.
  - intros Hle. assert (Hok : encoder_ok e).
    { split; rewrite ?E1, ?E2, ?E3; [done..| |by eauto|done]. rewrite HW. do 3 f_equal. lia. }
    split; [done|]. intros w Hw Hd Hwd. rewrite <- E1, <- E2 in Hw. rewrite <- E4 in Hwd.
    destruct (set_weight e w Hok Hw Hd Hwd) as (e' & He' & Hok' & _). by exists e'.
  - intros Hlt. rewrite Z.min_l in HW by lia. rewrite <- E1 in HW at 1. split.
    + intros w. apply (wide_set_weight e w n HW). lia.
    + intros x lead Hx HM. rewrite <- E1 in Hx. apply (wide_compute_hash cast sbp junk e x lead n); try done; lia.
Qed.
End making.
