(* ===== verification/HammingScore.v ===== *)
(** * Hamming distances of cached codes
    (ucm/sparse/gsa_on_device/csrc/cuda/ham_dist/paged_ham_dist_mla.cu)

    The CUDA kernel that scores the tokens of a request, thread by thread, for
    paged codes: threads count differing bits word by word in shared memory,
    then sum them per token in half precision.  [GsaOnDevice] uses its scores
    through the interface [hamming_dist]. *)

From S2P Require Import Prelude.
From S2P Require Import GsaOnDevice.
From S2P Require Import Triton.
From S2P Require Import HashEncoder.
From S2P Require Import HashEncoderFacts.
Local Open Scope Z_scope.
Local Open Scope py_scope.

(** [__popc] and [__popcll] of words of [n] bits. *)
Definition popc (n x : Z) : Z := zsum ((fun i => Z.b2z (Z.testbit x i)) <$> zrange 0 n).

(** Rounding a natural number to half precision, to nearest, ties to even; what
    is too large is infinite. *)
Definition half (n : Z) : Z :=
  if n <=? 2048 then n
  else
    let ulp := 2 ^ (Z.log2 n - 10) in
    let q := n / ulp in
    let r := n mod ulp in
    let q := if (ulp <? 2 * r) || ((2 * r =? ulp) && Z.odd q) then q + 1 else q in
    Z.min INFINITY (q * ulp).

Section kernel.
(** The template's parameters, with chunks of 64 bits: every chunk count the
    code instantiates is even. *)
Context (NumHead NumKVHead NumChunk : Z) (reduce_kvhead : bool).
Definition NumThreads : Z := 512.
Definition NumTokens : Z := NumThreads / (NumKVHead * NumChunk).
Definition ELEMS : Z := NumKVHead * NumChunk * NumTokens.
Definition BLOCK_M : Z := ELEMS / NumChunk / NumKVHead.
Definition KVGroup : Z := NumHead / NumKVHead.

Lemma BLOCK_M_tokens :
  0 < NumKVHead -> 0 < NumChunk -> NumKVHead * NumChunk <= NumThreads -> BLOCK_M = NumTokens /\ 0 < NumTokens.
Proof.
  intros HKV HNC Hfit. assert (0 < NumTokens) by (unfold NumTokens, NumThreads in *; apply Z.div_str_pos; nia).
  split; [|done]. unfold BLOCK_M, ELEMS. rewrite Z.div_div by lia.
  replace (NumKVHead * NumChunk * NumTokens) with (NumTokens * (NumChunk * NumKVHead)) by ring. apply Z.div_mul. nia.
Qed.

(** The pointers, and the sizes. *)
Context (keys query block_table seq_len : Z -> Z).
Context (BSZ SEQ SINK RECENT block_size max_num_block_per_seq : Z).

Definition left_m (block_start_m : Z) : Z := Z.min BLOCK_M (SEQ - block_start_m).

(** What thread [tid] leaves in [smem_popc]. *)
Definition thread_popc (block_id batch_id tid : Z) : Z :=
  let actual_seq_len := seq_len batch_id in
  let block_start_m := block_id * BLOCK_M in
  let left_elem := left_m block_start_m * NumKVHead * NumChunk in
  if tid <? left_elem then
    let kv_head_id := (tid / NumChunk) mod NumKVHead in
    let kv_chunk_id := tid mod NumChunk in
    let token_in_block_idx := tid / NumChunk / NumKVHead in
    let token_global_m := block_start_m + token_in_block_idx in
    let block_slot := token_global_m / block_size in
    let offset_in_block := token_global_m mod block_size in
    let block_id_from_table :=
      if (0 <=? block_slot) && (block_slot <? max_num_block_per_seq)
      then block_table (batch_id * max_num_block_per_seq + block_slot) else 0 in
    if block_start_m <? actual_seq_len then
      let key := keys (block_id_from_table * (NumKVHead * block_size * NumChunk) +
                       ((kv_head_id * block_size + offset_in_block) * NumChunk + kv_chunk_id)) in
      foldl (fun score i =>
        score + popc 64 (Z.lxor key (query (batch_id * NumHead * NumChunk + (kv_head_id * KVGroup * NumChunk + kv_chunk_id) + i * NumChunk))))
        0 (zrange 0 KVGroup)
    else 0
  else 0.

(** The sum of a token's chunks for one head, in half precision. *)
Definition head_sum (smem_popc : Z -> Z) (m_id kv : Z) : Z :=
  foldl (fun sum h => half (sum + half (smem_popc ((m_id * NumKVHead + kv) * NumChunk + h)))) 0 (zrange 0 NumChunk).

Definition out_value (batch_id pos sum : Z) : Z :=
  let actual_seq_len := seq_len batch_id in
  let is_sink_or_recent := (pos <? SINK) || ((actual_seq_len - RECENT <=? pos) && (pos <? actual_seq_len)) in
  let is_inf := actual_seq_len <=? pos in
  if is_inf then INFINITY else if is_sink_or_recent then 0 else sum.

(** The stores of a thread block. *)
Definition HammingScoreContiKernel (pid : Z * Z) : list (Z * Z) :=
  let block_id := pid.1 in
  let batch_id := pid.2 in
  let block_start_m := block_id * BLOCK_M in
  let smem_popc := thread_popc block_id batch_id in
  if reduce_kvhead then
    tid ← zrange 0 NumThreads;
    if (tid <? BLOCK_M) && (tid <? left_m block_start_m) then
      let pos := block_start_m + tid in
      let min_sum := foldl (fun m kv => let sum := head_sum smem_popc tid kv in if sum <? m then sum else m) INFINITY (zrange 0 NumKVHead) in
      [(batch_id * SEQ + pos, out_value batch_id pos min_sum)]
    else []
  else
    tid ← zrange 0 NumThreads;
    let kv_head_id := tid / BLOCK_M in
    let m_id := tid mod BLOCK_M in
    let pos := m_id + block_start_m in
    if (tid <? NumKVHead * BLOCK_M) && (m_id <? left_m block_start_m) then
      [(batch_id * NumKVHead * SEQ + block_start_m + kv_head_id * SEQ + m_id, out_value batch_id pos (head_sum smem_popc m_id kv_head_id))]
    else [].

(** [HammingScoreContiCUDA] with a block table: the output, flat. *)
Definition hamming_score_cuda `{Schedule Z} (junk : Z -> Z) : Z -> Z :=
  launch (grid2 ((SEQ * NumKVHead * NumChunk + ELEMS - 1) / ELEMS) BSZ) HammingScoreContiKernel junk.

(** ** What a token's score is *)

Context (HKV : 0 < NumKVHead) (HNC : 0 < NumChunk) (Hfit : NumKVHead * NumChunk <= NumThreads).

(** Bits of chunk [h] of the token's code for head [kv] that differ from the
    queries of its group, as the kernel addresses the codes. *)
Definition chunk_dist (batch pos kv h : Z) : Z :=
  let slot := pos / block_size in
  let block := if slot <? max_num_block_per_seq then block_table (batch * max_num_block_per_seq + slot) else 0 in
  let key := keys (block * (NumKVHead * block_size * NumChunk) + ((kv * block_size + pos mod block_size) * NumChunk + h)) in
  zsum ((fun i => popc 64 (Z.lxor key (query (batch * NumHead * NumChunk + (kv * KVGroup * NumChunk + h) + i * NumChunk)))) <$> zrange 0 KVGroup).

Lemma foldl_add {A} (f : A -> Z) l a : foldl (fun s x => s + f x) a l = a + zsum (f <$> l).
Proof. revert a. induction l as [|x l IH]; intros a; csimpl; [lia|]. rewrite IH. lia. Qed.

Lemma thread_popc_dist b batch m kv h :
  0 < block_size -> 0 <= b -> 0 <= m < left_m (b * BLOCK_M) -> 0 <= kv < NumKVHead -> 0 <= h < NumChunk -> b * BLOCK_M + m < seq_len batch ->
  thread_popc b batch ((m * NumKVHead + kv) * NumChunk + h) = chunk_dist batch (b * BLOCK_M + m) kv h.
Proof.
  intros Hbs Hb Hm Hkv Hh Hlen. pose proof (BLOCK_M_tokens HKV HNC Hfit) as [HM HT]. unfold thread_popc.
  replace (_ <? left_m _ * NumKVHead * NumChunk) with true by (symmetry; apply Z.ltb_lt; nia).
  assert (E1 : ((m * NumKVHead + kv) * NumChunk + h) / NumChunk = m * NumKVHead + kv) by (rewrite Z.div_add_l, (Z.div_small h) by lia; lia).
  assert (E2 : ((m * NumKVHead + kv) * NumChunk + h) mod NumChunk = h) by (rewrite Z.add_comm, Z_mod_plus_full; apply Z.mod_small; lia).
  assert (E3 : (m * NumKVHead + kv) / NumKVHead = m) by (rewrite Z.div_add_l, (Z.div_small kv) by lia; lia).
  assert (E4 : (m * NumKVHead + kv) mod NumKVHead = kv) by (rewrite Z.add_comm, Z_mod_plus_full; apply Z.mod_small; lia).
  rewrite E1, E2, E3, E4. assert (0 <= b * BLOCK_M) by nia.
  replace (b * BLOCK_M <? seq_len batch) with true by lia.
  assert (0 <= (b * BLOCK_M + m) / block_size) by (apply Z.div_pos; lia).
  replace (0 <=? _) with true by lia. cbn [andb]. rewrite foldl_add. done.
Qed.

(** The distance of a token for a head, summed in half precision. *)
Definition head_dist (batch pos kv : Z) : Z :=
  foldl (fun sum h => half (sum + half (chunk_dist batch pos kv h))) 0 (zrange 0 NumChunk).

Lemma head_sum_dist b batch m kv :
  0 < block_size -> 0 <= b -> 0 <= m < left_m (b * BLOCK_M) -> 0 <= kv < NumKVHead -> b * BLOCK_M + m < seq_len batch ->
  head_sum (thread_popc b batch) m kv = head_dist batch (b * BLOCK_M + m) kv.
Proof.
  intros Hbs Hb Hm Hkv Hlen. unfold head_sum, head_dist.
  assert (Hl : forall l s, (forall h, h ∈ l -> 0 <= h < NumChunk) ->
    foldl (fun sum h => half (sum + half (thread_popc b batch ((m * NumKVHead + kv) * NumChunk + h)))) s l =
    foldl (fun sum h => half (sum + half (chunk_dist batch (b * BLOCK_M + m) kv h))) s l).
  { induction l as [|h l IH]; intros s Hl; [done|]. simpl. rewrite thread_popc_dist by (done || apply Hl; by left).
    apply IH. intros h' Hh'. apply Hl. by right. }
  apply Hl. intros h Hh. by apply elem_of_zrange in Hh.
Qed.

(** The scores of a token: one per head, or the smallest of its heads. *)
Definition head_score (batch pos kv : Z) : Z := out_value batch pos (head_dist batch pos kv).
Definition token_min (batch pos : Z) : Z :=
  out_value batch pos (foldl (fun m kv => let sum := head_dist batch pos kv in if sum <? m then sum else m) INFINITY (zrange 0 NumKVHead)).

Lemma grid_covers pos : 0 <= pos < SEQ -> 0 <= pos / BLOCK_M < (SEQ * NumKVHead * NumChunk + ELEMS - 1) / ELEMS.
Proof.
  intros Hp. pose proof (BLOCK_M_tokens HKV HNC Hfit) as [-> HT]. unfold ELEMS.
  assert (Hk : 0 < NumKVHead * NumChunk) by nia. set (k := NumKVHead * NumChunk) in *.
  split; [apply Z.div_pos; lia|]. apply Z.div_lt_upper_bound; [lia|].
  pose proof (Z.mul_div_le (SEQ * NumKVHead * NumChunk + k * NumTokens - 1) (k * NumTokens) ltac:(nia)) as Hle.
  assert (Hlt : SEQ * k < k * NumTokens * ((SEQ * NumKVHead * NumChunk + k * NumTokens - 1) / (k * NumTokens)) + 1).
  { replace (SEQ * NumKVHead * NumChunk) with (SEQ * k) by (unfold k; ring).
    pose proof (Z.div_mod (SEQ * k + k * NumTokens - 1) (k * NumTokens) ltac:(nia)).
    pose proof (Z.mod_pos_bound (SEQ * k + k * NumTokens - 1) (k * NumTokens) ltac:(nia)). lia. }
  clear Hle. set (g := _ / _) in *. assert (SEQ * k <= NumTokens * g * k) by lia.
  assert (SEQ <= NumTokens * g) by (apply (Z.mul_le_mono_pos_r _ _ k); lia). lia.
Qed.

Lemma foldl_min_ext (f g : Z -> Z) l s : (forall x, x ∈ l -> f x = g x) ->
  foldl (fun m kv => let sum := f kv in if sum <? m then sum else m) s l =
  foldl (fun m kv => let sum := g kv in if sum <? m then sum else m) s l.
Proof.
  revert s. induction l as [|x l IH]; intros s Hf; [done|]. cbn [foldl]. cbv zeta. rewrite Hf by (by left).
  apply IH. intros y Hy. apply Hf. by right.
Qed.

Context (Hbs : 0 < block_size).

Lemma reduced_writes w : reduce_kvhead = true ->
  (exists p, p ∈ grid2 ((SEQ * NumKVHead * NumChunk + ELEMS - 1) / ELEMS) BSZ /\ w ∈ HammingScoreContiKernel p) <->
  (exists batch pos, 0 <= batch < BSZ /\ 0 <= pos < SEQ /\ w = (batch * SEQ + pos, token_min batch pos)).
Proof.
  intros Hr. pose proof (BLOCK_M_tokens HKV HNC Hfit) as [HM HT]. unfold HammingScoreContiKernel. rewrite Hr.
  assert (Hval : forall b batch m, 0 <= b -> 0 <= m < left_m (b * BLOCK_M) ->
    out_value batch (b * BLOCK_M + m)
      (foldl (fun mn kv => let sum := head_sum (thread_popc b batch) m kv in if sum <? mn then sum else mn) INFINITY (zrange 0 NumKVHead)) =
    token_min batch (b * BLOCK_M + m)).
  { intros b batch m Hb Hm. unfold token_min, out_value. destruct (seq_len batch <=? _) eqn:E; [done|]. destruct (_ || _); [done|].
    apply foldl_min_ext. intros kv Hkv%elem_of_zrange. apply head_sum_dist; lia. }
  split.
  - intros ([b batch] & [Hb Hbt]%elem_of_grid2 & (tid & Hw & Ht%elem_of_zrange)%list_elem_of_bind). cbn [fst snd] in Hw.
    destruct (_ && _) eqn:E; [|set_solver]. apply andb_true_iff in E as [E1 E2]. cbv zeta in Hw.
    rewrite Hval in Hw by lia. apply list_elem_of_singleton in Hw as ->.
    assert (0 <= b * BLOCK_M) by nia. exists batch, (b * BLOCK_M + tid). unfold left_m in E2. split; [done|]. split; [lia|done].
  - intros (batch & pos & Hbt & Hp & ->). pose proof (grid_covers pos Hp). exists (pos / BLOCK_M, batch). split; [by apply elem_of_grid2|].
    pose proof (Z.mod_pos_bound pos BLOCK_M ltac:(lia)). pose proof (Z.div_mod pos BLOCK_M ltac:(lia)) as Ep.
    assert (HN : NumTokens <= NumThreads) by (unfold NumTokens, NumThreads; apply Z.div_le_upper_bound; nia).
    assert (Hl : pos mod BLOCK_M < left_m (pos / BLOCK_M * BLOCK_M)) by (unfold left_m; lia).
    apply list_elem_of_bind. exists (pos mod BLOCK_M). split; [|apply elem_of_zrange; lia]. cbn [fst snd].
    replace ((_ <? BLOCK_M) && _) with true by lia. cbv zeta. rewrite Hval by lia.
    replace (pos / BLOCK_M * BLOCK_M + pos mod BLOCK_M) with pos by lia. by left.
Qed.

Lemma heads_writes w : reduce_kvhead = false ->
  (exists p, p ∈ grid2 ((SEQ * NumKVHead * NumChunk + ELEMS - 1) / ELEMS) BSZ /\ w ∈ HammingScoreContiKernel p) <->
  (exists batch kv pos, 0 <= batch < BSZ /\ 0 <= kv < NumKVHead /\ 0 <= pos < SEQ /\
     w = (batch * NumKVHead * SEQ + kv * SEQ + pos, head_score batch pos kv)).
Proof.
  intros Hr. pose proof (BLOCK_M_tokens HKV HNC Hfit) as [HM HT]. unfold HammingScoreContiKernel. rewrite Hr.
  assert (Hval : forall b batch m kv, 0 <= b -> 0 <= m < left_m (b * BLOCK_M) -> 0 <= kv < NumKVHead ->
    out_value batch (m + b * BLOCK_M) (head_sum (thread_popc b batch) m kv) = head_score batch (b * BLOCK_M + m) kv).
  { intros b batch m kv Hb Hm Hkv. rewrite Z.add_comm. unfold head_score, out_value. destruct (seq_len batch <=? _) eqn:E; [done|].
    destruct (_ || _); [done|]. apply head_sum_dist; lia. }
  split.
  - intros ([b batch] & [Hb Hbt]%elem_of_grid2 & (tid & Hw & Ht%elem_of_zrange)%list_elem_of_bind). cbn [fst snd] in Hw. cbv zeta in Hw.
    destruct (_ && _) eqn:E; [|set_solver]. apply andb_true_iff in E as [E1%Z.ltb_lt E2%Z.ltb_lt].
    pose proof (Z.mod_pos_bound tid BLOCK_M ltac:(lia)).
    assert (Hkv : 0 <= tid / BLOCK_M < NumKVHead) by (split; [apply Z.div_pos; lia|apply Z.div_lt_upper_bound; lia]).
    rewrite Hval in Hw by lia. apply list_elem_of_singleton in Hw as ->.
    assert (0 <= b * BLOCK_M) by nia. exists batch, (tid / BLOCK_M), (b * BLOCK_M + tid mod BLOCK_M). unfold left_m in E2.
    do 2 (split; [done|]). split; [lia|]. f_equal. lia.
  - intros (batch & kv & pos & Hbt & Hkv & Hp & ->). pose proof (grid_covers pos Hp). exists (pos / BLOCK_M, batch). split; [by apply elem_of_grid2|].
    pose proof (Z.mod_pos_bound pos BLOCK_M ltac:(lia)). pose proof (Z.div_mod pos BLOCK_M ltac:(lia)) as Ep.
    assert (Hl : pos mod BLOCK_M < left_m (pos / BLOCK_M * BLOCK_M)) by (unfold left_m; lia).
    assert (HN : NumKVHead * BLOCK_M <= NumThreads).
    { pose proof (Z.mul_div_le NumThreads (NumKVHead * NumChunk) ltac:(nia)). unfold NumTokens in HM. rewrite HM. nia. }
    assert (Hd : (kv * BLOCK_M + pos mod BLOCK_M) / BLOCK_M = kv) by (rewrite Z.div_add_l, (Z.div_small (_ mod _)) by lia; lia).
    assert (Hmd : (kv * BLOCK_M + pos mod BLOCK_M) mod BLOCK_M = pos mod BLOCK_M) by (rewrite Z.add_comm, Z_mod_plus_full; apply Z.mod_small; lia).
    assert (Ht : 0 <= kv * BLOCK_M + pos mod BLOCK_M < NumKVHead * BLOCK_M) by nia.
    apply list_elem_of_bind. exists (kv * BLOCK_M + pos mod BLOCK_M). split; [|apply elem_of_zrange; lia]. cbn [fst snd]. cbv zeta.
    rewrite Hd, Hmd. replace ((_ <? NumKVHead * BLOCK_M) && _) with true by lia. rewrite Hval by lia.
    replace (pos / BLOCK_M * BLOCK_M + pos mod BLOCK_M) with pos by lia. apply list_elem_of_singleton. f_equal. lia.
Qed.
End kernel.

(** ** Bits, bytes and words *)

Lemma zsum_ext (f g : Z -> Z) l : (forall x, x ∈ l -> f x = g x) -> zsum (f <$> l) = zsum (g <$> l).
Proof. intros He. f_equal. apply list_fmap_ext. intros i x Hx%list_elem_of_lookup_2. by apply He. Qed.

Lemma zsum_add (f g : Z -> Z) l : zsum ((fun x => f x + g x) <$> l) = zsum (f <$> l) + zsum (g <$> l).
Proof. induction l as [|x l IH]; csimpl; [done|]. rewrite IH. lia. Qed.

Lemma zsum_swap (f : Z -> Z -> Z) l l' :
  zsum ((fun x => zsum (f x <$> l')) <$> l) = zsum ((fun y => zsum ((fun x => f x y) <$> l)) <$> l').
Proof.
  induction l as [|x l IH]; csimpl.
  - induction l' as [|y l' IH']; csimpl; [done|]. by rewrite <- IH'.
  - rewrite IH. rewrite <- zsum_add. done.
Qed.

Lemma zsum_le (f g : Z -> Z) l : (forall x, x ∈ l -> f x <= g x) -> zsum (f <$> l) <= zsum (g <$> l).
Proof. induction l as [|x l IH]; intros Hl; csimpl; [lia|]. pose proof (Hl x ltac:(by left)). specialize (IH ltac:(set_solver)). lia. Qed.

Lemma zsum_blocks (f : Z -> Z) k n : 0 <= k -> 0 <= n ->
  zsum (f <$> zrange 0 (n * k)) = zsum ((fun h => zsum ((fun i => f (h * k + i)) <$> zrange 0 k)) <$> zrange 0 n).
Proof.
  intros Hk Hn. revert n Hn. apply natlike_ind; [done|]. intros n Hn IH. unfold Z.succ. rewrite zrange_succ by done.
  rewrite fmap_app, zsum_app, <- IH. replace ((n + 1) * k) with (n * k + k) by ring.
  assert (0 <= n * k) by (by apply Z.mul_nonneg_nonneg). rewrite (zrange_app 0 (n * k) (n * k + k)) by lia. rewrite fmap_app, zsum_app. f_equal.
  csimpl. rewrite Z.add_0_r. f_equal. unfold zrange. rewrite <- !list_fmap_compose.
  replace (n * k + k - n * k) with (k - 0) by lia. apply list_fmap_ext. intros i j _. simpl. f_equal.
Qed.

Lemma popc_ext n x y : (forall i, 0 <= i < n -> Z.testbit x i = Z.testbit y i) -> popc n x = popc n y.
Proof. intros He. unfold popc. apply zsum_ext. intros i Hi%elem_of_zrange. by rewrite He. Qed.

Lemma popc_bytes n x : 0 <= n -> popc (8 + n) x = popc 8 x + popc n (Z.shiftr x 8).
Proof.
  intros Hn. unfold popc. rewrite (zrange_app 0 8 (8 + n)) by lia. rewrite fmap_app, zsum_app. f_equal.
  replace (zrange 8 (8 + n)) with ((fun i => i + 8) <$> zrange 0 n).
  - rewrite <- list_fmap_compose. apply zsum_ext. intros i Hi%elem_of_zrange. unfold compose. by rewrite Z.shiftr_spec by lia.
  - unfold zrange. rewrite <- list_fmap_compose. replace (8 + n - 8) with (n - 0) by lia. apply list_fmap_ext. intros i j _. simpl. lia.
Qed.

(** Little-endian words. *)
Definition le_word (bytes : list Z) : Z := foldr (fun b w => b + 256 * w) 0 bytes.

Lemma le_word_cons b w : 0 <= b < 256 -> Z.shiftr (b + 256 * w) 8 = w /\ (forall i, 0 <= i < 8 -> Z.testbit (b + 256 * w) i = Z.testbit b i).
Proof.
  intros Hb. split; [rewrite Z.shiftr_div_pow2 by lia; change (2 ^ 8) with 256; lia|]. intros i Hi.
  rewrite <- (Z.mod_pow2_bits_low _ 8) by lia. change (2 ^ 8) with 256. f_equal. lia.
Qed.

Lemma popc_le_word l l' : length l = length l' -> Forall (fun b => 0 <= b < 256) l -> Forall (fun b => 0 <= b < 256) l' ->
  popc (8 * pylen l) (Z.lxor (le_word l) (le_word l')) = zsum (zip_with (fun a b => popc 8 (Z.lxor a b)) l l').
Proof.
  intros Hl Hb. revert l' Hl. induction Hb as [|b l Hb1 Hb IH]; intros [|b' l'] Hl Hb'; try done.
  apply Forall_cons in Hb' as [Hb1' Hb']. rewrite pylen_cons. pose proof (pylen_nonneg l).
  replace (8 * (1 + pylen l)) with (8 + 8 * pylen l) by lia. rewrite popc_bytes by lia. simpl.
  destruct (le_word_cons b (le_word l) Hb1) as [E1 E2]. destruct (le_word_cons b' (le_word l') Hb1') as [E1' E2'].
  rewrite Z.shiftr_lxor, E1, E1', IH by (done || (injection Hl; done)). f_equal. apply popc_ext. intros i Hi. by rewrite !Z.lxor_spec, E2, E2'.
Qed.

(** Word [i] of a storage of bytes, and the bits in which [n] bytes differ. *)
Definition word_at (bytes : Z -> Z) (i : Z) : Z := le_word ((fun k => bytes (i * 8 + k)) <$> zrange 0 8).
Definition bits_differing (n : Z) (a b : Z -> Z) : Z := zsum ((fun c => popc 8 (Z.lxor (a c) (b c))) <$> zrange 0 n).

Lemma popc_word_at f g i j : (forall a, 0 <= f a < 256) -> (forall a, 0 <= g a < 256) ->
  popc 64 (Z.lxor (word_at f i) (word_at g j)) = bits_differing 8 (fun k => f (i * 8 + k)) (fun k => g (j * 8 + k)).
Proof.
  intros Hf Hg. unfold word_at, bits_differing.
  pose proof (popc_le_word ((fun k => f (i * 8 + k)) <$> zrange 0 8) ((fun k => g (j * 8 + k)) <$> zrange 0 8)) as E.
  rewrite pylen_fmap, pylen_zrange in E by lia. change (8 * (8 - 0)) with 64 in E. rewrite E; [|by rewrite !length_fmap|..].
  - rewrite zip_with_fmap_l, zip_with_fmap_r. by rewrite zip_with_diag.
  - apply Forall_fmap, Forall_forall. intros. apply Hf.
  - apply Forall_fmap, Forall_forall. intros. apply Hg.
Qed.

(** The differing bits of two bytes of signs are the differing signs. *)
Lemma bits_differing_signs b b' :
  popc 8 (Z.lxor (byte_of b) (byte_of b')) = zsum ((fun j => if Bool.eqb (b j) (b' j) then 0 else 1) <$> zrange 0 8).
Proof.
  unfold popc. apply zsum_ext. intros j Hj%elem_of_zrange. rewrite Z.lxor_spec, !byte_of_testbit by done.
  by destruct (b j), (b' j).
Qed.

(** ** The scores of cached codes *)

Lemma zsum_fmap_nonneg (f : Z -> Z) l : (forall x, x ∈ l -> 0 <= f x) -> 0 <= zsum (f <$> l).
Proof. intros Hf. apply zsum_nonneg, Forall_fmap, Forall_forall. exact Hf. Qed.

Lemma popc_nonneg n x : 0 <= popc n x.
Proof. apply zsum_fmap_nonneg. intros i _. destruct (Z.testbit x i); simpl; lia. Qed.

(** Sums of up to 2048 are exact in half precision. *)
Lemma half_sum_exact (f : Z -> Z) l s : 0 <= s -> (forall x, x ∈ l -> 0 <= f x) -> s + zsum (f <$> l) <= 2048 ->
  foldl (fun sum h => half (sum + half (f h))) s l = s + zsum (f <$> l).
Proof.
  revert s. induction l as [|x l IH]; intros s Hs Hf Hle; csimpl; [lia|]. csimpl in Hle.
  pose proof (Hf x ltac:(by left)). pose proof (zsum_fmap_nonneg f l ltac:(set_solver)).
  assert (Hh : forall n, n <= 2048 -> half n = n) by (intros n Hn; unfold half; by replace (n <=? 2048) with true by lia).
  rewrite (Hh (f x)), Hh by lia. rewrite IH by (done || lia || set_solver). lia.
Qed.

Section codes.
Context (NumHead NumKVHead NumChunk : Z) (u q : Tensor Z) (block_table : Z -> Z).
Context (NB BSZ bs max_num_block_per_seq : Z).
(** A contiguous cache of codes and the contiguous codes of the queries. *)
Context (Hus : t_shape u = [NB; bs; NumKVHead; NumChunk * 8]) (Hut : t_strides u = contiguous_strides (t_shape u)).
Context (Hqs : t_shape q = [BSZ; 1; NumHead; NumChunk * 8]) (Hqt : t_strides q = contiguous_strides (t_shape q)).
Context (Hub : forall a, 0 <= t_storage u a < 256) (Hqb : forall a, 0 <= t_storage q a < 256).
Context (HKV : 0 < NumKVHead) (HNC : 0 < NumChunk) (Hfit : NumKVHead * NumChunk <= NumThreads) (Hbs : 0 < bs).

Abbreviation keys := (word_at (t_storage u)).
Abbreviation query := (word_at (t_storage q)).

(** The block of a position, and the bits in which the codes of the queries of
    a group differ from the code of head [h] at offset [t] of a block. *)
Definition block_of (batch pos : Z) : Z :=
  let slot := pos / bs in if slot <? max_num_block_per_seq then block_table (batch * max_num_block_per_seq + slot) else 0.
Definition code_dist (batch kv block t h : Z) : Z :=
  zsum ((fun i => bits_differing (NumChunk * 8) (fun c => at_ u [block; t; h; c])
                    (fun c => at_ q [batch; 0; kv * KVGroup NumHead NumKVHead + i; c])) <$> zrange 0 (KVGroup NumHead NumKVHead)).

Lemma chunk_code batch pos kv :
  let cell := kv * bs + pos mod bs in
  zsum ((fun h => chunk_dist NumHead NumKVHead NumChunk keys query block_table bs max_num_block_per_seq batch pos kv h) <$> zrange 0 NumChunk) =
  code_dist batch kv (block_of batch pos) (cell / NumKVHead) (cell mod NumKVHead).
Proof.
  intros cell. unfold chunk_dist, code_dist. fold (block_of batch pos). set (bl := block_of batch pos).
  rewrite zsum_swap. apply zsum_ext. intros i Hi%elem_of_zrange. unfold bits_differing. rewrite zsum_blocks by lia.
  apply zsum_ext. intros h Hh%elem_of_zrange. rewrite popc_word_at by done. unfold bits_differing.
  apply zsum_ext. intros k Hk%elem_of_zrange.
  assert (Hu1 : at_ u [bl; cell / NumKVHead; cell mod NumKVHead; h * 8 + k] =
    t_storage u ((bl * (NumKVHead * bs * NumChunk) + (cell * NumChunk + h)) * 8 + k)).
  { unfold at_, offset. rewrite Hut, Hus. simpl. f_equal.
    pose proof (Z_div_mod_eq_full cell NumKVHead) as Ec. rewrite Ec at 3. ring. }
  assert (Hq1 : at_ q [batch; 0; kv * KVGroup NumHead NumKVHead + i; h * 8 + k] =
    t_storage q ((batch * NumHead * NumChunk + (kv * KVGroup NumHead NumKVHead * NumChunk + h) + i * NumChunk) * 8 + k)).
  { unfold at_, offset. rewrite Hqt, Hqs. simpl. f_equal. ring. }
  rewrite Hu1, Hq1. done.
Qed.

Lemma chunk_dist_nonneg batch pos kv h : 0 <= chunk_dist NumHead NumKVHead NumChunk keys query block_table bs max_num_block_per_seq batch pos kv h.
Proof. apply zsum_fmap_nonneg. intros. apply popc_nonneg. Qed.

Lemma bits_differing_bound n a b : 0 <= n -> bits_differing n a b <= 8 * n.
Proof.
  intros Hn. unfold bits_differing.
  assert (Hp : forall x, popc 8 x <= 8).
  { intros x. unfold popc. change (zrange 0 8) with [0; 1; 2; 3; 4; 5; 6; 7]. csimpl.
    repeat match goal with |- context [Z.b2z ?t] => pose proof (Z.b2z_bit0 t); destruct t; simpl Z.b2z end; lia. }
  etransitivity; [apply (zsum_le _ (fun _ => 8)); intros; apply Hp|]. rewrite zsum_const, pylen_zrange by done. lia.
Qed.

(** With codes short enough the sum in half precision is the distance. *)
Lemma head_dist_code batch pos kv :
  let cell := kv * bs + pos mod bs in
  KVGroup NumHead NumKVHead * (NumChunk * 64) <= 2048 -> 0 <= KVGroup NumHead NumKVHead ->
  head_dist NumHead NumKVHead NumChunk keys query block_table bs max_num_block_per_seq batch pos kv =
  code_dist batch kv (block_of batch pos) (cell / NumKVHead) (cell mod NumKVHead).
Proof.
  intros cell Hle HG. unfold cell. rewrite <- chunk_code. unfold head_dist. rewrite half_sum_exact; [by rewrite Z.add_0_l|lia| |].
  - intros. apply chunk_dist_nonneg.
  - rewrite Z.add_0_l, chunk_code. etransitivity; [|exact Hle]. unfold code_dist.
    etransitivity; [apply (zsum_le _ (fun _ => NumChunk * 64))|].
    + intros i _. etransitivity; [apply bits_differing_bound|]; lia.
    + rewrite zsum_const, pylen_zrange by done. lia.
Qed.
End codes.

(** C14. The distance kernel scores every token by its own cached code, for one
    key head.  Over a contiguous cache of codes and the contiguous codes of the
    queries, in whatever order its thread blocks store: the score of each
    position a row of the block table has place for is infinite beyond the
    request, zero for the first [SINK] and the last [RECENT] tokens, and
    otherwise the number of bits in which the code at the token's place, its
    block in the request's row and its offset there, differs from the codes of
    the request's query heads: the sum over the heads is exact, as it does
    not exceed 2048. *)
Theorem hamming_kernel_scores_own_codes `{Schedule Z} NumHead NumChunk (u q : Tensor Z) block_table seq_len NB BSZ SEQ SINK RECENT bs width junk :
  t_shape u = [NB; bs; 1; NumChunk * 8] -> t_strides u = contiguous_strides (t_shape u) ->
  t_shape q = [BSZ; 1; NumHead; NumChunk * 8] -> t_strides q = contiguous_strides (t_shape q) ->
  (forall a, 0 <= t_storage u a < 256) -> (forall a, 0 <= t_storage q a < 256) ->
  0 < NumChunk <= NumThreads -> 0 < bs -> 0 <= NumHead -> NumHead * (NumChunk * 64) <= 2048 ->
  forall batch pos, 0 <= batch < BSZ -> 0 <= pos < SEQ -> SEQ = bs * width ->
  let scores := hamming_score_cuda NumHead 1 NumChunk false (word_at (t_storage u)) (word_at (t_storage q)) block_table seq_len
                  BSZ SEQ SINK RECENT bs width junk in
  scores (batch * SEQ + pos) =
    if seq_len batch <=? pos then INFINITY
    else if (pos <? SINK) || (seq_len batch - RECENT <=? pos) then 0
    else zsum ((fun head => bits_differing (NumChunk * 8) (fun c => at_ u [block_table (batch * width + pos / bs); pos mod bs; 0; c])
                              (fun c => at_ q [batch; 0; head; c])) <$> zrange 0 NumHead).
Proof.
  intros Hus Hut Hqs Hqt Hub Hqb HNC Hbs HH Hle batch pos Hb Hp HSEQ scores.
  assert (HG : KVGroup NumHead 1 = NumHead) by (apply Z.div_1_r).
  pose proof (fun w => heads_writes NumHead 1 NumChunk false (word_at (t_storage u)) (word_at (t_storage q)) block_table seq_len
    BSZ SEQ SINK RECENT bs width ltac:(lia) ltac:(lia) ltac:(lia) Hbs w eq_refl) as Hw.
  assert (Hs : scores (batch * SEQ + pos) = head_score NumHead 1 NumChunk (word_at (t_storage u)) (word_at (t_storage q)) block_table seq_len
     SINK RECENT bs width batch pos 0).
  { apply (launch_value _ _ _ Hw).
    - intros a v v' (b1 & k1 & q1 & Hb1 & Hk1 & Hq1 & [= -> ->]) (b2 & k2 & q2 & Hb2 & Hk2 & Hq2 & [= E ->]).
      assert (k1 = 0) as -> by lia. assert (k2 = 0) as -> by lia.
      assert (b1 = b2 /\ q1 = q2) as [-> ->]; [|done]. apply (Z.div_mod_unique SEQ); [by left|by left|lia].
    - exists batch, 0, pos. split; [done|]. split; [lia|]. split; [done|]. f_equal. ring. }
  rewrite Hs. unfold head_score, out_value. destruct (Z.leb_spec (seq_len batch) pos) as [|Hlt]; [done|].
  replace (pos <? seq_len batch) with true by lia. rewrite andb_true_r. destruct (_ || _); [done|].
  rewrite (head_dist_code NumHead 1 NumChunk u q block_table NB BSZ bs width Hus Hut Hqs Hqt Hub Hqb) by (rewrite ?HG; lia).
  unfold code_dist. rewrite HG, Z.div_1_r, Z.mod_1_r, !Z.mul_0_l, Z.add_0_l. unfold block_of.
  assert (0 <= pos / bs < width) by (split; [apply Z.div_pos; lia|apply Z.div_lt_upper_bound; lia]).
  by replace (pos / bs <? width) with true by lia.
Qed.

(** C19. With several key heads the kernel reads the codes of other tokens.  It
    takes a block for one head after the other, [(kv_head, offset)], where
    [compute_hash_and_cache] wrote [(offset, head)] into the cache of the same
    shape [(blocks, block_size, heads, bytes)]: what it scores as head [kv] of
    the token at [offset] is the code at place [kv * block_size + offset] of the
    block in the order of writing, which is that token's and head's for all
    tokens and heads only if there is one head or one token per block. *)
Theorem hamming_kernel_reads_by_head `{Schedule Z} NumHead NumKVHead NumChunk (u q : Tensor Z) block_table seq_len NB BSZ SEQ SINK RECENT bs width junk :
  t_shape u = [NB; bs; NumKVHead; NumChunk * 8] -> t_strides u = contiguous_strides (t_shape u) ->
  t_shape q = [BSZ; 1; NumHead; NumChunk * 8] -> t_strides q = contiguous_strides (t_shape q) ->
  (forall a, 0 <= t_storage u a < 256) -> (forall a, 0 <= t_storage q a < 256) ->
  0 < NumKVHead -> 0 < NumChunk -> NumKVHead * NumChunk <= NumThreads -> 0 < bs -> 0 <= NumHead ->
  KVGroup NumHead NumKVHead * (NumChunk * 64) <= 2048 -> SEQ = bs * width ->
  let scores := hamming_score_cuda NumHead NumKVHead NumChunk true (word_at (t_storage u)) (word_at (t_storage q)) block_table seq_len
                  BSZ SEQ SINK RECENT bs width junk in
  let place kv pos := kv * bs + pos mod bs in
  (forall batch pos, 0 <= batch < BSZ -> 0 <= pos < SEQ -> SINK <= pos -> pos < seq_len batch - RECENT -> 0 <= RECENT ->
     scores (batch * SEQ + pos) =
       foldl (fun m kv =>
         let sum := code_dist NumHead NumKVHead NumChunk u q batch kv (block_table (batch * width + pos / bs))
                      (place kv pos / NumKVHead) (place kv pos mod NumKVHead) in
         if sum <? m then sum else m) INFINITY (zrange 0 NumKVHead)) /\
  ((forall kv pos, 0 <= kv < NumKVHead -> 0 <= pos -> place kv pos / NumKVHead = pos mod bs /\ place kv pos mod NumKVHead = kv) <->
   NumKVHead = 1 \/ bs = 1).
Proof.
  intros Hus Hut Hqs Hqt Hub Hqb HKV HNC Hfit Hbs HH Hle HSEQ scores place. split.
  - intros batch pos Hb Hp Hsink Hrec HR.
    pose proof (fun w => reduced_writes NumHead NumKVHead NumChunk true (word_at (t_storage u)) (word_at (t_storage q)) block_table seq_len
      BSZ SEQ SINK RECENT bs width HKV HNC Hfit Hbs w eq_refl) as Hw.
    assert (Hs : scores (batch * SEQ + pos) = token_min NumHead NumKVHead NumChunk (word_at (t_storage u)) (word_at (t_storage q))
       block_table seq_len SINK RECENT bs width batch pos).
    { apply (launch_value _ _ _ Hw); [|by exists batch, pos].
      intros a v v' (b1 & q1 & Hb1 & Hq1 & [= -> ->]) (b2 & q2 & Hb2 & Hq2 & [= E ->]).
      assert (b1 = b2 /\ q1 = q2) as [-> ->]; [|done]. apply (Z.div_mod_unique SEQ); [by left|by left|lia]. }
    rewrite Hs. unfold token_min, out_value. replace (seq_len batch <=? pos) with false by lia.
    replace ((pos <? SINK) || _) with false by lia. apply foldl_min_ext. intros kv Hkv%elem_of_zrange.
    rewrite (head_dist_code NumHead NumKVHead NumChunk u q block_table NB BSZ bs width Hus Hut Hqs Hqt Hub Hqb) by
      (first [done | lia | apply Z.div_pos; lia]).
    unfold block_of. assert (0 <= pos / bs < width) by (split; [apply Z.div_pos; lia|apply Z.div_lt_upper_bound; lia]).
    by replace (pos / bs <? width) with true by lia.
  - unfold place. split.
    + intros Hall. destruct (decide (NumKVHead = 1)); [by left|]. destruct (decide (bs = 1)); [by right|].
      destruct (Hall 0 1 ltac:(lia) ltac:(lia)) as [Hd _]. rewrite Z.mul_0_l, Z.add_0_l, (Z.mod_small 1), Z.div_small in Hd by lia. lia.
    + intros [-> | ->] kv pos Hkv Hp; [rewrite Z.div_1_r, Z.mod_1_r; lia|]. rewrite Z.mod_1_r, Z.mul_1_r, Z.add_0_r.
      by rewrite Z.div_small, Z.mod_small.
Qed.
