(* ===== verification/HashEncoderDemo.v ===== *)
(** * Hash codes: concrete runs

    Encoders over the integers, evaluated; the theorems of [HashEncoderCache] and
    [HammingScore] at concrete inputs. *)

From S2P Require Import Prelude.
From S2P Require Import GsaOnDevice.
From S2P Require Import Triton.
From S2P Require Import HashEncoder.
From S2P Require Import HashEncoderFacts.
From S2P Require Import HashEncoderCache.
From S2P Require Import HammingScore.
Local Open Scope Z_scope.
Local Open Scope py_scope.

Definition gpu0 : Device := MkDevice Cuda 0.
Definition cpu0 : Device := MkDevice Cpu 0.
Definition tensor_of {A} (shape : list Z) (d : Dtype) (dev : Device) (zero : A) (l : list A) : Tensor A :=
  contiguous_tensor shape d dev (fun i => default zero (l !! Z.to_nat i)).
Definition no_cast : Dtype -> Dtype -> Z -> Z := fun _ _ x => x.
Definition no_junk : Z -> Z := fun _ => 99.
Definition no_pack : list Z -> list Z := id.

(** Two dimensions, sixteen bits: each column a direction. *)
Definition demo_weights (dev : Device) : Tensor Z :=
  tensor_of [2; 16] Float32 dev 0
    [1; 0; -1; 0; 1; 1; -1; -1;  2; 1; -2; -1; 3; 1; -3; -1;
     0; 1; 0; -1; 1; -1; 1; -1;  1; 2; -1; -2; 1; 3; -1; -3].
Definition demo_encoder (dev : Device) : Encoder Z :=
  MkEncoder 2 16 2 Float32 dev (demo_weights dev) (Some (init_bit_masks dev)).
Lemma demo_ok dev : encoder_ok (demo_encoder dev).
Proof. split; try (vm_compute; done). by exists 16, 1. Qed.

(** Keys of three tokens with one head, stored column by column. *)
Definition demo_keys : Tensor Z :=
  MkTensor [3; 1; 2] [1; 3; 3] Float32 gpu0 (fun i => default 0 ([5; -1; 0; 2; -4; 7] !! Z.to_nat i)).
Definition demo_slots : Tensor Z := tensor_of [3] OtherDtype gpu0 0 [3; -1; 0].
(** A cache of two blocks of two tokens; one element of two bytes per token. *)
Definition demo_cache : Tensor Z := tensor_of [2; 2; 1; 1] Bfloat16 gpu0 0 [].

Definition bytes_of (n : Z) (r : res (Tensor Z)) : list Z := match r with Ok t => t_storage t <$> zrange 0 n | Err _ => [] end.

Example demo_fused :
  bytes_of 8 (compute_hash_and_cache no_cast (demo_encoder gpu0) demo_keys demo_slots demo_cache 2 64 16 32) =
  [82; 51; 0; 0; 0; 0; 51; 51] /\
  bytes_of 8 (compute_hash_and_cache (H0 := backwards Z) no_cast (demo_encoder gpu0) demo_keys demo_slots demo_cache 2 2 1 8) =
  [82; 51; 0; 0; 0; 0; 51; 51].
Proof. vm_compute. done. Qed.
Example demo_hash :
  (let? h := compute_hash no_cast no_pack no_junk (demo_encoder gpu0) demo_keys in Ok (t_shape h)) = Ok [3; 1; 2] /\
  bytes_of 6 (compute_hash no_cast no_pack no_junk (demo_encoder gpu0) demo_keys) = [51; 51; 172; 204; 82; 51].
Proof. vm_compute. done. Qed.

(** The cache as bytes: two per token. *)
Definition demo_u8 : Tensor Z := MkTensor [2; 2; 1; 2] [4; 2; 2; 1] Uint8 gpu0 (t_storage demo_cache).
Lemma demo_no_overlap : no_overlap demo_u8.
Proof. exact (contiguous_no_overlap [2; 2; 1; 2] Uint8 gpu0 (t_storage demo_cache)). Qed.
Lemma demo_distinct t t' : 0 <= t < 3 -> 0 <= t' < 3 -> 0 <= t_storage demo_slots t < 2 * 2 ->
  t_storage demo_slots t = t_storage demo_slots t' -> t = t'.
Proof.
  intros Ht Ht' Hs He. assert (Hc : t = 0 \/ t = 1 \/ t = 2) by lia. assert (Hc' : t' = 0 \/ t' = 1 \/ t' = 2) by lia.
  destruct Hc as [->|[->| ->]], Hc' as [->|[->| ->]]; vm_compute in He; try discriminate; try done;
    exfalso; clear He; vm_compute in Hs; lia.
Qed.

(** Token 0 has slot 3: the second token of the second block. *)
Lemma fused_kernel_is_hash_then_cache_witness :
  exists h copied fused,
    compute_hash (H0 := backwards Z) no_cast no_pack no_junk (demo_encoder gpu0) demo_keys = Ok h /\
    reshape_and_cache_khash_triton (H0 := in_order Z) h demo_slots demo_u8 2 = Ok copied /\
    compute_hash_and_cache (H0 := backwards Z) no_cast (demo_encoder gpu0) demo_keys demo_slots demo_cache 2 64 16 32 = Ok fused /\
    (forall a, t_storage fused a = t_storage copied a) /\ t_storage fused 6 = 51 /\ t_storage fused 3 = t_storage demo_cache 3.
Proof.
  destruct (fused_kernel_is_hash_then_cache (backwards Z) (in_order Z) (backwards Z) no_cast no_pack no_junk (demo_encoder gpu0)
    demo_keys demo_slots demo_cache demo_u8 3 1 2 2 1 64 16 32 (demo_ok gpu0) ltac:(done) ltac:(done) ltac:(done) ltac:(done) ltac:(done) ltac:(done)
    ltac:(done) ltac:(done) ltac:(done) ltac:(vm_compute; done) demo_no_overlap ltac:(lia) ltac:(lia) ltac:(lia)
    demo_distinct ltac:(lia) ltac:(lia) ltac:(lia) ltac:(done)) as (h & copied & fused & H1 & H2 & H3 & H4 & H5 & H6).
  exists h, copied, fused. split; [exact H1|]. split; [exact H2|]. split; [exact H3|]. split; [exact H4|]. split.
  - etransitivity; [exact (H5 0 0 0 ltac:(lia) ltac:(lia) ltac:(simpl; lia) ltac:(vm_compute; done))|]. vm_compute. done.
  - apply H6. intros t h' c Ht Hh Hc Hs. change (hash_numbers (demo_encoder gpu0)) with 2 in Hc.
    change (slot_cell demo_u8 2 (t_storage demo_slots t) h' c) with
      (t_storage demo_slots t / 2 * 4 + t_storage demo_slots t mod 2 * 2 + h' * 2 + c * 1).
    assert (Hsl : t_storage demo_slots t = 3 \/ t_storage demo_slots t = -1 \/ t_storage demo_slots t = 0).
    { assert (t = 0 \/ t = 1 \/ t = 2) as [->|[->| ->]] by lia; vm_compute; tauto. }
    destruct Hsl as [E|[E|E]]; rewrite E in *; lia.
Defined.

Lemma triton_hash_is_torch_hash_witness :
  exists hx hy,
    compute_hash (H0 := backwards Z) no_cast no_pack no_junk (demo_encoder gpu0) demo_keys = Ok hx /\
    compute_hash no_cast no_pack no_junk (demo_encoder cpu0) (tensor_of [3; 1; 2] Float32 cpu0 0 [5; 2; -1; -4; 0; 7]) = Ok hy /\
    (forall f, 0 <= f < numel hx -> flat hx f = flat hy f).
Proof.
  destruct (triton_hash_is_torch_hash (backwards Z) (in_order Z) no_cast no_pack no_junk (demo_encoder gpu0) (demo_encoder cpu0) demo_keys
    (tensor_of [3; 1; 2] Float32 cpu0 0 [5; 2; -1; -4; 0; 7]) [3; 1] (demo_ok gpu0) (demo_ok cpu0) ltac:(done) ltac:(done) ltac:(done) ltac:(done)
    ltac:(done) ltac:(done) ltac:(done) ltac:(done) ltac:(done) ltac:(done) ltac:(done) ltac:(repeat constructor; lia)) as (hx & hy & H1 & H2 & _ & _ & H5 & _).
  - intros f Hf. change (numel demo_keys) with 6 in Hf.
    assert (f = 0 \/ f = 1 \/ f = 2 \/ f = 3 \/ f = 4 \/ f = 5) as [->|[->|[->|[->|[->| ->]]]]] by lia; vm_compute; done.
  - exists hx, hy. done.
Defined.

Lemma unpack_hash_round_trip_witness :
  exists h bits, compute_hash no_cast no_pack no_junk (demo_encoder cpu0) (tensor_of [2; 2] Float32 cpu0 0 [5; 2; -1; -4]) = Ok h /\
    unpack_hash no_pack (demo_encoder cpu0) h = Ok bits /\ t_shape bits = [2; 16] /\ flat bits 3 = -1 /\ flat bits 19 = 1.
Proof.
  destruct (unpack_hash_round_trip no_cast no_pack no_pack no_junk (demo_encoder cpu0) (tensor_of [2; 2] Float32 cpu0 0 [5; 2; -1; -4]) [2]
    (demo_ok cpu0) ltac:(done) (or_intror eq_refl) ltac:(done) ltac:(done) ltac:(repeat constructor; lia)) as (h & bits & H1 & H2 & H3 & H4).
  exists h, bits. split; [exact H1|]. split; [exact H2|]. split; [exact H3|]. split.
  - etransitivity; [exact (H4 0 3 ltac:(simpl; lia) ltac:(simpl; lia))|]. vm_compute. done.
  - etransitivity; [exact (H4 1 3 ltac:(simpl; lia) ltac:(simpl; lia))|]. vm_compute. done.
Defined.

(** Matrices of ones stand for the orthogonal factors. *)
Definition demo_normal (n k : Z) (d : Dtype) (dev : Device) : Tensor Z := contiguous_tensor [n; k] d dev (fun _ => 1).
Definition demo_qr (t : Tensor Z) : Tensor Z * Tensor Z :=
  match t_shape t with
  | [n; k] => (contiguous_tensor [n; Z.min n k] (t_dtype t) (t_device t) (fun _ => 1), contiguous_tensor [Z.min n k; k] (t_dtype t) (t_device t) (fun _ => 1))
  | _ => (t, t)
  end.
Lemma demo_qr_laws : QrLaws demo_normal demo_qr.
Proof. split; [done|]. intros t n k Ht. unfold demo_qr. by rewrite Ht. Qed.

Lemma encoders_hash_up_to_their_dimension_witness :
  exists e, new_HashEncoder demo_normal demo_qr Z.sgn 8 16 Bfloat16 cpu0 = Ok e /\
    (exists err, compute_hash no_cast no_pack no_junk e (tensor_of [1; 8] Bfloat16 cpu0 0 []) = Err err).
Proof.
  destruct (encoders_hash_up_to_their_dimension demo_normal demo_qr Z.sgn demo_qr_laws no_cast no_pack no_junk 8 16 Bfloat16 cpu0
    ltac:(lia) ltac:(lia) ltac:(done) (or_intror eq_refl)) as (e & He & _ & _ & _ & _ & Hwide).
  exists e. split; [exact He|]. destruct (Hwide ltac:(lia)) as [_ Hc]. apply (Hc _ [1]); [done|simpl; lia].
Defined.

(** ** Distances *)

(** Codes of eight bytes: a cache of two blocks of two tokens, and one query. *)
Definition demo_cache_codes (heads : Z) : Tensor Z :=
  contiguous_tensor [2; 2; heads; 8] Uint8 gpu0 (fun i => if i mod 8 =? 0 then (i / 8) * (i / 8) mod 256 else 0).
Definition demo_query (heads : Z) : Tensor Z := contiguous_tensor [1; 1; heads; 8] Uint8 gpu0 (fun _ => 0).
Lemma demo_code_bytes heads a : 0 <= t_storage (demo_cache_codes heads) a < 256.
Proof. simpl. case_match; lia. Qed.
Definition demo_table (i : Z) : Z := default 0 ([1; 0] !! Z.to_nat i).

(** The request's blocks are 1 and 0: its tokens have the codes 4, 9, 0, 1. *)
Example demo_scores :
  hamming_score_cuda 1 1 1 false (word_at (t_storage (demo_cache_codes 1))) (word_at (t_storage (demo_query 1))) demo_table
    (fun _ => 3) 1 4 0 0 2 2 no_junk <$> zrange 0 4 = [1; 2; 0; INFINITY].
Proof. vm_compute. done. Qed.

(** With two heads block 1 has the codes 16 and 25 of its first token and 36 and 49
    of its second.  The kernel takes 25 and 49 for those of the second, and
    scores it with three differing bits where two are right. *)
Example demo_mixed_heads :
  hamming_score_cuda 2 2 1 true (word_at (t_storage (demo_cache_codes 2))) (word_at (t_storage (demo_query 2))) demo_table
    (fun _ => 2) 1 2 0 0 2 1 no_junk <$> zrange 0 2 = [1; 3] /\
  (foldr Z.min 64 ((fun h => bits_differing 8 (fun c => at_ (demo_cache_codes 2) [1; 1; h; c]) (fun _ => 0)) <$> zrange 0 2)) = 2.
Proof. vm_compute. done. Qed.

Lemma hamming_kernel_scores_own_codes_witness :
  hamming_score_cuda (H := backwards Z) 1 1 1 false (word_at (t_storage (demo_cache_codes 1))) (word_at (t_storage (demo_query 1))) demo_table
    (fun _ => 3) 1 4 0 0 2 2 no_junk 1 = 2.
Proof.
  pose proof (hamming_kernel_scores_own_codes (H := backwards Z) 1 1 (demo_cache_codes 1) (demo_query 1) demo_table (fun _ => 3) 2 1 4 0 0 2 2 no_junk
    ltac:(done) ltac:(done) ltac:(done) ltac:(done) (demo_code_bytes 1) ltac:(intros; simpl; lia) ltac:(unfold NumThreads; lia) ltac:(lia) ltac:(lia) ltac:(lia)
    0 1 ltac:(lia) ltac:(lia) ltac:(lia)) as Hs.
  etransitivity; [exact Hs|]. vm_compute. done.
Defined.

Lemma hamming_kernel_reads_by_head_witness :
  hamming_score_cuda (H := backwards Z) 2 2 1 true (word_at (t_storage (demo_cache_codes 2))) (word_at (t_storage (demo_query 2))) demo_table
    (fun _ => 2) 1 2 0 0 2 1 no_junk 0 = 1.
Proof.
  destruct (hamming_kernel_reads_by_head (H := backwards Z) 2 2 1 (demo_cache_codes 2) (demo_query 2) demo_table (fun _ => 2) 2 1 2 0 0 2 1 no_junk
    ltac:(done) ltac:(done) ltac:(done) ltac:(done) (demo_code_bytes 2) ltac:(intros; simpl; lia) ltac:(lia) ltac:(lia) ltac:(unfold NumThreads; lia) ltac:(lia) ltac:(lia)
    ltac:(vm_compute; done) ltac:(lia)) as [Hs _].
  etransitivity; [exact (Hs 0 0 ltac:(lia) ltac:(lia) ltac:(lia) ltac:(lia) ltac:(lia))|]. vm_compute. done.
Defined.
