(* ===== verification/Rerope.v ===== *)
(** * ReRoPE attention
    (ucm/sparse/rerope/triton_unified_attention_rerope.py)

    Paged attention in which a key near the query is scored with rotated
    queries and keys and a far one with a second pair: the kernel that goes over all
    blocks of a request, the pair of kernels that goes over segments of them and
    merges, and the function that chooses between the two.  Scalars are a
    parameter (class [Floats]); minus infinity is [None]. *)

From Stdlib Require Import Ascii String.
From S2P Require Import Prelude.
From S2P Require Import Triton.
From S2P Require Import HashEncoder.
Local Open Scope Z_scope.
Local Open Scope py_scope.

(** ** Scalars *)

Class Floats (F : Type) : Type := {
  f_zero : F;
  f_one : F;
  f_add : F -> F -> F;
  f_sub : F -> F -> F;
  f_mul : F -> F -> F;
  f_div : F -> F -> F;
  f_opp : F -> F;
  f_exp : F -> F;
  f_max : F -> F -> F;
  f_is_zero : F -> bool;
  f_of_Z : Z -> F;
  f_positive : F -> bool;
  f_nan : F;
}.

Section scalars.
Context {F : Type} `{Floats F}.

Definition f_sum (l : list F) : F := foldr f_add f_zero l.

(** [tl.dot] of a row and a column of [n] entries. *)
Definition f_dot (n : Z) (x y : Z -> F) : F := f_sum ((fun k => f_mul (x k) (y k)) <$> zrange 0 n).

(** Scores: [None] is minus infinity. *)
Definition s_max (a b : option F) : option F :=
  match a, b with Some x, Some y => Some (f_max x y) | Some x, None => Some x | None, _ => b end.
Definition s_maxs (l : list (option F)) : option F := foldr s_max None l.
(** [exp(s - m)] *)
Definition s_exp (s : option F) (m : F) : F := match s with Some x => f_exp (f_sub x m) | None => f_zero end.
Definition s_add (s : option F) (x : F) : option F := (fun y => f_add y x) <$> s.

Definition cdiv_fn (x y : Z) : Z := (x + y - 1) / y.

Definition apply_softcap (S x : F) : F :=
  let Sdiv := f_div S x in
  let p1 := f_exp Sdiv in
  let p2 := f_exp (f_opp Sdiv) in
  f_div (f_mul x (f_sub p1 p2)) (f_add p1 p2).
End scalars.

(** ** Which sequence a query block belongs to *)

(** A binary search; [fuel] bounds the rounds, each of which shrinks the range. *)
Fixpoint find_loop (value : Z -> Z) (target_idx : Z) (fuel : nat) (left right : Z) : Z :=
  match fuel with
  | O => left
  | S fuel =>
      if left <? right then
        let mid := (left + right) / 2 in
        let mid_val := value mid in
        if mid_val <=? target_idx then find_loop value target_idx fuel (mid + 1) right
        else find_loop value target_idx fuel left mid
      else left
  end.

Definition find_seq_idx (query_start_len : Z -> Z) (target_idx num_seqs BLOCK_Q : Z) (use_q_block_mode : bool) : Z :=
  let value mid := let val := query_start_len mid in if use_q_block_mode then val / BLOCK_Q + mid else val in
  find_loop value target_idx (Z.to_nat num_seqs) 0 num_seqs - 1.

(** ** The kernels *)

(** The arguments that are numbers; [q_fp8] and the like say which tensors hold
    eight-bit floats. *)
Record Params := MkParams {
  num_query_heads : Z;
  num_queries_per_kv : Z;
  block_table_stride : Z;
  query_stride : Z * Z;
  query2_stride : Z * Z;
  output_stride : Z * Z;
  REROPE_WINDOW : Z;
  BLOCK_SIZE : Z;
  HEAD_SIZE : Z;
  HEAD_SIZE_PADDED : Z;
  USE_ALIBI_SLOPES : bool;
  USE_SOFTCAP : bool;
  SLIDING_WINDOW : Z;
  stride_k_cache : Z * Z * Z * Z;
  stride_k_cache2 : Z * Z * Z * Z;
  stride_v_cache : Z * Z * Z * Z;
  BLOCK_Q : Z;
  num_seqs : Z;
  rows_M : Z;
  fp8 : bool * bool * bool * bool * bool;
}.
Definition q_fp8 (p : Params) : bool := (fp8 p).1.1.1.1.
Definition q2_fp8 (p : Params) : bool := (fp8 p).1.1.1.2.
Definition k_fp8 (p : Params) : bool := (fp8 p).1.1.2.
Definition k2_fp8 (p : Params) : bool := (fp8 p).1.2.
Definition v_fp8 (p : Params) : bool := (fp8 p).2.

(** The arguments that are pointers or floats. *)
Record Inputs (F : Type) := MkInputs {
  query_ptr : Z -> F;
  key_cache_ptr : Z -> F;
  query2_ptr : Z -> F;
  key_cache2_ptr : Z -> F;
  value_cache_ptr : Z -> F;
  block_tables_ptr : Z -> Z;
  seq_lens_ptr : Z -> Z;
  alibi_slopes_ptr : Z -> F;
  query_start_len_ptr : Z -> Z;
  scale : F;
  k_scale : F;
  v_scale : F;
  softcap : F;
}.
Arguments MkInputs {F} _ _ _ _ _ _ _ _ _ _ _ _ _.
Arguments query_ptr {F} _.
Arguments key_cache_ptr {F} _.
Arguments query2_ptr {F} _.
Arguments key_cache2_ptr {F} _.
Arguments value_cache_ptr {F} _.
Arguments block_tables_ptr {F} _.
Arguments seq_lens_ptr {F} _.
Arguments alibi_slopes_ptr {F} _.
Arguments query_start_len_ptr {F} _.
Arguments scale {F} _.
Arguments k_scale {F} _.
Arguments v_scale {F} _.
Arguments softcap {F} _.

(** What a program keeps per row: the running maximum, the sum of the weights
    and the weighted sum of the values. *)
Record Running (F : Type) := MkRunning { run_M : Z -> option F; run_L : Z -> F; run_acc : tile F }.
Arguments MkRunning {F} _ _ _.
Arguments run_M {F} _.
Arguments run_L {F} _.
Arguments run_acc {F} _.

Section kernels.
Context {F : Type} `{Floats F} (p : Params) (a : Inputs F).

(** The place of a program: its sequence and the first query of its block. *)
Section program.
Context (q_block_global_idx kv_head_idx : Z).

Definition seq_idx : Z := find_seq_idx (query_start_len_ptr a) q_block_global_idx (num_seqs p) (BLOCK_Q p) true.
Definition q_block_start_idx : Z := query_start_len_ptr a seq_idx / BLOCK_Q p + seq_idx.
Definition q_block_local_idx : Z := q_block_global_idx - q_block_start_idx.
Definition cur_batch_in_all_start_index : Z := query_start_len_ptr a seq_idx.
Definition cur_batch_query_len : Z := query_start_len_ptr a (seq_idx + 1) - cur_batch_in_all_start_index.
Definition out_of_queries : bool := cur_batch_query_len <=? q_block_local_idx * BLOCK_Q p.

Definition query_pos (m : Z) : Z := q_block_local_idx * BLOCK_Q p + m / num_queries_per_kv p.
Definition query_offset_0 (m : Z) : Z := cur_batch_in_all_start_index + query_pos m.
Definition query_offset_1 (m : Z) : Z := kv_head_idx * num_queries_per_kv p + m mod num_queries_per_kv p.
Definition dim_mask (d : Z) : bool := d <? HEAD_SIZE p.
Definition query_mask_0 (m : Z) : bool := query_pos m <? cur_batch_query_len.
Definition query_mask_1 (m : Z) : bool := query_offset_1 m <? num_query_heads p.
Definition row_mask (m d : Z) : bool := dim_mask d && query_mask_0 m && query_mask_1 m.

Definition Q_tile : tile F :=
  tl_load (query_ptr a) (fun m d => query_offset_0 m * (query_stride p).1 + query_offset_1 m * (query_stride p).2 + d) row_mask f_zero.
Definition Q2_tile : tile F :=
  tl_load (query2_ptr a) (fun m d => query_offset_0 m * (query2_stride p).1 + query_offset_1 m * (query2_stride p).2 + d) row_mask f_zero.

Definition seq_len : Z := seq_lens_ptr a seq_idx.
Definition context_len : Z := seq_len - cur_batch_query_len.
Definition alibi_slope (m : Z) : F := if query_mask_1 m then alibi_slopes_ptr a (query_offset_1 m) else f_zero.
Definition num_blocks : Z := cdiv_fn seq_len (BLOCK_SIZE p).

Definition init_running : Running F := MkRunning (fun _ => None) (fun _ => f_one) (fun _ _ => f_zero).

(** The tiles of block [j]. *)
Definition physical_block_idx (j : Z) : Z := block_tables_ptr a (seq_idx * block_table_stride p + j).
Definition cache_offset (s : Z * Z * Z * Z) (j d n : Z) : Z :=
  physical_block_idx j * s.1.1.1 + kv_head_idx * s.1.2 + d * s.2 + n * s.1.1.2.
(** [(x.to(tl.float32) * tl.load(scale)).to(...)], the rounding left out. *)
Definition dequantize (x_fp8 q_fp8 : bool) (s x : F) : F := if x_fp8 then (if q_fp8 then x else f_mul x s) else x.
Definition K_tile (j : Z) : tile F := fun d n =>
  dequantize (k_fp8 p) (q_fp8 p) (k_scale a)
    (tl_load (key_cache_ptr a) (cache_offset (stride_k_cache p) j) (fun d _ => dim_mask d) f_zero d n).
Definition K2_tile (j : Z) : tile F := fun d n =>
  dequantize (k2_fp8 p) (q2_fp8 p) (k_scale a)
    (tl_load (key_cache2_ptr a) (cache_offset (stride_k_cache2 p) j) (fun d _ => dim_mask d) f_zero d n).
Definition V_tile (j : Z) : tile F := fun n d =>
  dequantize (v_fp8 p) (q_fp8 p) (v_scale a)
    (tl_load (value_cache_ptr a) (fun n d => cache_offset (stride_v_cache p) j d n) (fun _ d => dim_mask d) f_zero n d).

(** The scores of block [j]. *)
Definition S_tile (j : Z) : tile (option F) := fun m n =>
  let seq_offset := j * BLOCK_SIZE p + n in
  let seq_mask := seq_offset <? context_len + query_pos m + 1 in
  let S1 := f_add f_zero (f_mul (scale a) (f_dot (HEAD_SIZE_PADDED p) (Q_tile m) (fun d => K_tile j d n))) in
  let S2 := f_add f_zero (f_mul (scale a) (f_dot (HEAD_SIZE_PADDED p) (Q2_tile m) (fun d => K2_tile j d n))) in
  let query_pos_rerope := context_len + query_pos m + 1 in
  let pos_diff := Z.abs (query_pos_rerope - seq_offset) in
  let rerope_mask := (pos_diff <? REROPE_WINDOW p) && query_mask_0 m in
  let S1 := if USE_SOFTCAP p then apply_softcap S1 (softcap a) else S1 in
  let S2 := if USE_SOFTCAP p then apply_softcap S2 (softcap a) else S2 in
  let S := if rerope_mask then S1 else S2 in
  let S := if query_mask_1 m && query_mask_0 m && seq_mask then Some S else None in
  let S := if 0 <? SLIDING_WINDOW p
           then (if context_len + query_pos m - seq_offset <? SLIDING_WINDOW p then S else None) else S in
  if USE_ALIBI_SLOPES p then s_add S (f_mul (alibi_slope m) (f_of_Z (seq_offset - context_len))) else S.

(** The body of the loop over the blocks. *)
Definition tile_step (st : Running F) (j : Z) : Running F :=
  let S := S_tile j in
  let m_j m := match s_max (run_M st m) (s_maxs (S m <$> zrange 0 (BLOCK_SIZE p))) with Some x => x | None => f_zero end in
  let P m n := s_exp (S m n) (m_j m) in
  let l_j m := f_sum (P m <$> zrange 0 (BLOCK_SIZE p)) in
  let alpha m := s_exp (run_M st m) (m_j m) in
  let V := V_tile j in
  MkRunning (fun m => Some (m_j m))
    (fun m => f_add (f_mul (run_L st m) (alpha m)) (l_j m))
    (fun m d => f_add (f_mul (run_acc st m d) (alpha m)) (f_dot (BLOCK_SIZE p) (P m) (fun n => V n d))).

Definition run_blocks (lo hi : Z) : Running F := foldl tile_step init_running (zrange lo hi).

(** The segments of a sequence. *)
Definition blocks_per_segment (NUM_SEGMENTS : Z) : Z := cdiv_fn seq_len (NUM_SEGMENTS * BLOCK_SIZE p).
End program.

Definition kernel_unified_attention_2d (pid : Z * Z) : list (Z * F) :=
  let q_block := pid.1 in
  let kv_head_idx := pid.2 in
  if out_of_queries q_block then [] else
  let st := run_blocks q_block kv_head_idx 0 (num_blocks q_block) in
  tl_store (rows_M p) (HEAD_SIZE_PADDED p)
    (fun m d => query_offset_0 q_block m * (output_stride p).1 + query_offset_1 kv_head_idx m * (output_stride p).2 + d)
    (fun m d => f_div (run_acc st m d) (run_L st m))
    (row_mask q_block kv_head_idx).

(** The run of a segment, if the program gets there. *)
Definition segment_run (NUM_SEGMENTS : Z) (pid : Z * Z * Z) : option (Running F) :=
  let q_block := pid.1.1 in
  let segm_idx := pid.2 in
  if out_of_queries q_block then None else
  let bps := blocks_per_segment q_block NUM_SEGMENTS in
  if seq_len q_block <=? segm_idx * bps * BLOCK_SIZE p then None else
  Some (run_blocks q_block pid.1.2 (segm_idx * bps) (Z.min ((segm_idx + 1) * bps) (num_blocks q_block))).

(** The stores of [kernel_unified_attention_3d] to its three outputs. *)
Definition segm_offset (NUM_SEGMENTS : Z) (pid : Z * Z * Z) (m : Z) : Z :=
  query_offset_0 pid.1.1 m * (num_query_heads p * NUM_SEGMENTS) + query_offset_1 pid.1.2 m * NUM_SEGMENTS + pid.2.
Definition segm_output_writes (NUM_SEGMENTS : Z) (pid : Z * Z * Z) : list (Z * F) :=
  match segment_run NUM_SEGMENTS pid with
  | None => []
  | Some st =>
      tl_store (rows_M p) (HEAD_SIZE_PADDED p)
        (fun m d => query_offset_0 pid.1.1 m * (num_query_heads p * NUM_SEGMENTS * HEAD_SIZE_PADDED p) +
                    query_offset_1 pid.1.2 m * (NUM_SEGMENTS * HEAD_SIZE_PADDED p) + pid.2 * HEAD_SIZE_PADDED p + d)
        (run_acc st) (row_mask pid.1.1 pid.1.2)
  end.
Definition segm_row_writes {A} (NUM_SEGMENTS : Z) (value : Running F -> Z -> A) (pid : Z * Z * Z) : list (Z * A) :=
  match segment_run NUM_SEGMENTS pid with
  | None => []
  | Some st =>
      tl_store (rows_M p) 1 (fun m _ => segm_offset NUM_SEGMENTS pid m) (fun m _ => value st m)
        (fun m _ => query_mask_0 pid.1.1 m && query_mask_1 pid.1.2 m)
  end.

Definition reduce_segments (NUM_SEGMENTS : Z) (segm_output : Z -> F) (segm_max : Z -> option F) (segm_expsum : Z -> F)
    (pid : Z * Z) : list (Z * F) :=
  let query_token_idx := pid.1 in
  let query_head_idx := pid.2 in
  let seq_idx := find_seq_idx (query_start_len_ptr a) query_token_idx (num_seqs p) (BLOCK_Q p) false in
  let seq_len := seq_lens_ptr a seq_idx in
  let blocks_per_segment := cdiv_fn seq_len (NUM_SEGMENTS * BLOCK_SIZE p) in
  let act_num_segments := cdiv_fn seq_len (blocks_per_segment * BLOCK_SIZE p) in
  let segm_mask g := g <? act_num_segments in
  let offset g := query_token_idx * (num_query_heads p * NUM_SEGMENTS) + query_head_idx * NUM_SEGMENTS + g in
  let segm_max g := if segm_mask g then segm_max (offset g) else None in
  let out_offset (_ d : Z) := query_token_idx * (output_stride p).1 + query_head_idx * (output_stride p).2 + d in
  match s_maxs (segm_max <$> zrange 0 NUM_SEGMENTS) with
  | None => tl_store 1 (HEAD_SIZE_PADDED p) out_offset (fun _ _ => f_nan) (fun _ d => dim_mask d)
  | Some overall_max =>
      let weight g := s_exp (segm_max g) overall_max in
      let segm_expsum g := f_mul (if segm_mask g then segm_expsum (offset g) else f_zero) (weight g) in
      let overall_expsum := f_sum (segm_expsum <$> zrange 0 NUM_SEGMENTS) in
      let segm_output g d :=
        f_mul (if segm_mask g && dim_mask d then
                 segm_output (query_token_idx * (num_query_heads p * NUM_SEGMENTS * HEAD_SIZE_PADDED p) +
                   query_head_idx * (NUM_SEGMENTS * HEAD_SIZE_PADDED p) + g * HEAD_SIZE_PADDED p + d) else f_zero) (weight g) in
      let acc d :=
        let acc_sum := f_sum ((fun g => segm_output g d) <$> zrange 0 NUM_SEGMENTS) in
        if f_is_zero overall_expsum then f_zero else f_div acc_sum overall_expsum in
      tl_store 1 (HEAD_SIZE_PADDED p) out_offset (fun _ d => acc d) (fun _ d => dim_mask d)
  end.
End kernels.

(** ** [unified_attention_rerope] *)

Section host.
Context {F : Type} `{Floats F} `{Schedule F} `{Schedule (option F)}.
(** [triton.next_power_of_2], and the sizes and the kind of a type's elements. *)
Context (next_power_of_2 : Z -> Z) (element_size : Dtype -> Z) (is_fp8 : Dtype -> bool).
(** What [torch.empty] leaves in the buffers of the segments. *)
Context (junk : Z -> F) (junk_max : Z -> option F).

Definition strides4 {A} (t : Tensor A) : Z * Z * Z * Z := (stride t 0, stride t 1, stride t 2, stride t 3).

(** The arguments of either launch; the one over all blocks passes the strides
    of [k] for those of [k2]. *)
Definition make_params (q k q2 k2 v out : Tensor F) (k2_strides : Z * Z * Z * Z) (block_table : Tensor Z) (rerope_window window0 : Z)
    (use_alibi use_softcap : bool) (nqpk BLOCK_Q num_seqs : Z) : Params :=
  let head_size := default 0 (t_shape q !! 2%nat) in
  {| num_query_heads := default 0 (t_shape q !! 1%nat); num_queries_per_kv := nqpk; block_table_stride := stride block_table 0;
     query_stride := (stride q 0, stride q 1); query2_stride := (stride q2 0, stride q2 1); output_stride := (stride out 0, stride out 1);
     REROPE_WINDOW := rerope_window; BLOCK_SIZE := default 0 (t_shape v !! 1%nat); HEAD_SIZE := head_size;
     HEAD_SIZE_PADDED := next_power_of_2 head_size; USE_ALIBI_SLOPES := use_alibi; USE_SOFTCAP := use_softcap;
     SLIDING_WINDOW := 1 + window0; stride_k_cache := strides4 k; stride_k_cache2 := k2_strides; stride_v_cache := strides4 v;
     BLOCK_Q := BLOCK_Q; num_seqs := num_seqs; rows_M := 16;
     fp8 := (is_fp8 (t_dtype q), is_fp8 (t_dtype q2), is_fp8 (t_dtype k), is_fp8 (t_dtype k2), is_fp8 (t_dtype v)) |}.

Definition unified_attention_rerope (q k q2 k2 v out : Tensor F) (cu_seqlens_q : Tensor Z) (max_seqlen_q : Z) (seqused_k : Tensor Z)
    (softmax_scale : F) (causal : bool) (rerope_window window0 : Z) (block_table : Tensor Z) (cap : F)
    (q_descale : option F) (k_descale v_descale : F) (alibi_slopes : option (Tensor F)) : res (Tensor F) :=
  if negb causal then Err AssertionError else
  if bool_decide (is_Some q_descale) then Err AssertionError else
  match t_shape q, t_shape k, t_shape v, t_shape seqused_k with
  | [tokens; num_query_heads; head_size], [_; _; num_kv_heads; _], [_; block_size; _; _], num_seqs :: _ =>
      if negb ((2 <=? element_size (t_dtype q)) || (32 <=? block_size)) then Err AssertionError
      else if num_kv_heads =? 0 then Err ZeroDivisionError
      else
        let num_queries_per_kv := num_query_heads / num_kv_heads in
        if num_queries_per_kv =? 0 then Err ZeroDivisionError else
        let BLOCK_Q := 16 / num_queries_per_kv in
        if BLOCK_Q =? 0 then Err ZeroDivisionError else
        let total_num_q_blocks := tokens / BLOCK_Q + num_seqs in
        let a := MkInputs (t_storage q) (t_storage k) (t_storage q2) (t_storage k2) (t_storage v) (t_storage block_table)
                   (t_storage seqused_k) (match alibi_slopes with Some t => t_storage t | None => fun _ => f_zero end)
                   (t_storage cu_seqlens_q) softmax_scale k_descale v_descale cap in
        let params k2_strides := make_params q k q2 k2 v out k2_strides block_table rerope_window window0
                        (bool_decide (is_Some alibi_slopes)) (f_positive cap) num_queries_per_kv BLOCK_Q num_seqs in
        if (1 <? max_seqlen_q) || (128 <? total_num_q_blocks * num_kv_heads) then
          let p := params (strides4 k) in
          Ok (with_storage out (launch (grid2 total_num_q_blocks num_kv_heads) (kernel_unified_attention_2d p a) (t_storage out)))
        else
          let NUM_SEGMENTS := 16 in
          let p := params (strides4 k2) in
          let grid := grid3 total_num_q_blocks num_kv_heads NUM_SEGMENTS in
          let segm_output := launch grid (segm_output_writes p a NUM_SEGMENTS) junk in
          let segm_max := launch grid (segm_row_writes p a NUM_SEGMENTS run_M) junk_max in
          let segm_expsum := launch grid (segm_row_writes p a NUM_SEGMENTS run_L) junk in
          Ok (with_storage out (launch (grid2 tokens num_query_heads) (reduce_segments p a NUM_SEGMENTS segm_output segm_max segm_expsum)
                (t_storage out)))
  | _, _, _, _ => Err IndexError
  end.
End host.
