(* ===== verification/ReropeFacts.v ===== *)
(** * ReRoPE attention: searching, and softmax in pieces

    The binary search finds the sequence of a query block; a row's running
    maximum, sum and weighted sum represent the softmax over the blocks seen so
    far, whatever the maxima, and pieces can be merged. *)

From S2P Require Import Prelude.
From S2P Require Import Triton.
From S2P Require Import Rerope.
Local Open Scope Z_scope.
Local Open Scope py_scope.

(** ** The search *)

Lemma find_loop_spec value t n : forall fuel left right,
  0 <= left -> left <= right -> right <= n -> right - left <= Z.of_nat fuel ->
  (forall i j, 0 <= i -> i <= j -> j < n -> value i <= value j) ->
  (forall i, 0 <= i < left -> value i <= t) -> (forall i, right <= i < n -> t < value i) ->
  let r := find_loop value t fuel left right in
  left <= r <= right /\ (forall i, 0 <= i < r -> value i <= t) /\ (forall i, r <= i < n -> t < value i).
Proof.
  induction fuel as [|fuel IH]; intros left right Hl Hlr Hr Hf Hmono Hlo Hhi; simpl.
  { assert (left = right) as <- by lia. split; [lia|]. done. }
  destruct (Z.ltb_spec left right) as [Hlt|]; [|assert (left = right) as <- by lia; split; [lia|done]].
  set (mid := (left + right) / 2). assert (Hm : left <= mid < right) by (unfold mid; lia).
  destruct (Z.leb_spec (value mid) t) as [Hle|Hgt].
  - destruct (IH (mid + 1) right ltac:(lia) ltac:(lia) ltac:(lia) ltac:(lia) Hmono) as (H1 & H2 & H3); [|done|split; [lia|done]].
    intros i Hi. assert (value i <= value mid) by (apply Hmono; lia). lia.
  - destruct (IH left mid ltac:(lia) ltac:(lia) ltac:(lia) ltac:(lia) Hmono) as (H1 & H2 & H3); [done| |split; [lia|done]].
    intros i Hi. assert (value mid <= value i) by (apply Hmono; lia). lia.
Qed.

(** The search ends at the last index whose value is not beyond the target. *)
Lemma find_loop_last value t n s :
  0 <= s < n -> (forall i j, 0 <= i -> i <= j -> j < n -> value i <= value j) ->
  value s <= t -> (s + 1 < n -> t < value (s + 1)) -> find_loop value t (Z.to_nat n) 0 n - 1 = s.
Proof.
  intros Hs Hmono Hle Hlt. destruct (find_loop_spec value t n (Z.to_nat n) 0 n) as (H1 & H2 & H3); try lia; try done.
  set (r := find_loop _ _ _ _ _) in *. assert (~ r <= s) by (intros Hr; specialize (H3 s ltac:(lia)); lia).
  destruct (decide (s + 1 < n)) as [Hn|]; [|lia]. assert (~ s + 1 < r) by (intros Hr; specialize (H2 (s + 1) ltac:(lia)); specialize (Hlt Hn); lia). lia.
Qed.

Lemma find_loop_range value t n :
  0 < n -> (forall i j, 0 <= i -> i <= j -> j < n -> value i <= value j) -> value 0 <= t ->
  let s := find_loop value t (Z.to_nat n) 0 n - 1 in
  0 <= s < n /\ value s <= t /\ (s + 1 < n -> t < value (s + 1)).
Proof.
  intros Hn Hmono H0 s. destruct (find_loop_spec value t n (Z.to_nat n) 0 n) as (H1 & H2 & H3); try lia; try done.
  unfold s. set (r := find_loop _ _ _ _ _) in *. assert (r <> 0) by (intros E; specialize (H3 0 ltac:(lia)); lia).
  split; [lia|]. split; [apply H2; lia|]. intros Hr. apply H3. lia.
Qed.

(** ** Softmax in exact arithmetic *)

(** Real arithmetic as far as the kernels rely on it. *)
Class RealLaws (F : Type) `{Floats F} : Prop := {
  f_add_comm x y : f_add x y = f_add y x;
  f_add_assoc x y z : f_add x (f_add y z) = f_add (f_add x y) z;
  f_add_0_l x : f_add f_zero x = x;
  f_mul_comm x y : f_mul x y = f_mul y x;
  f_mul_assoc x y z : f_mul x (f_mul y z) = f_mul (f_mul x y) z;
  f_mul_1_l x : f_mul f_one x = x;
  f_mul_0_l x : f_mul f_zero x = f_zero;
  f_mul_add_l x y z : f_mul (f_add x y) z = f_add (f_mul x z) (f_mul y z);
  f_exp_sub x y : f_exp (f_sub x y) = f_mul (f_exp x) (f_exp (f_opp y));
  f_exp_opp x : f_mul (f_exp (f_opp x)) (f_exp x) = f_one;
  f_exp_pos x : f_positive (f_exp x) = true;
  f_add_pos x y : f_positive x = true -> f_positive y = true -> f_positive (f_add x y) = true;
  f_mul_pos x y : f_positive x = true -> f_positive y = true -> f_positive (f_mul x y) = true;
  f_pos_nonzero x : f_positive x = true -> f_is_zero x = false;
  f_div_scale x y c : f_positive y = true -> f_positive c = true -> f_div (f_mul x c) (f_mul y c) = f_div x y;
}.

Section softmax.
Context {F : Type} `{RealLaws F}.

Lemma f_add_0_r x : f_add x f_zero = x.
Proof. by rewrite f_add_comm, f_add_0_l. Qed.
Lemma f_mul_0_r x : f_mul x f_zero = f_zero.
Proof. by rewrite f_mul_comm, f_mul_0_l. Qed.

Lemma f_sum_app l1 l2 : f_sum (l1 ++ l2) = f_add (f_sum l1) (f_sum l2).
Proof. induction l1 as [|x l IH]; simpl; [by rewrite f_add_0_l|]. by rewrite IH, f_add_assoc. Qed.

Lemma f_sum_mul (f : Z -> F) l c : f_sum ((fun k => f_mul (f k) c) <$> l) = f_mul (f_sum (f <$> l)) c.
Proof. induction l as [|x l IH]; csimpl; [by rewrite f_mul_0_l|]. by rewrite IH, f_mul_add_l. Qed.

Lemma f_sum_ext (f g : Z -> F) l : (forall x, x ∈ l -> f x = g x) -> f_sum (f <$> l) = f_sum (g <$> l).
Proof. intros He. f_equal. apply list_fmap_ext. intros i x Hx%list_elem_of_lookup_2. by apply He. Qed.

Lemma f_sum_zero (f : Z -> F) l : (forall x, x ∈ l -> f x = f_zero) -> f_sum (f <$> l) = f_zero.
Proof. induction l as [|x l IH]; intros Hf; csimpl; [done|]. rewrite Hf by (by left). rewrite IH by (intros; apply Hf; by right). apply f_add_0_l. Qed.

(** Terms that vanish can be left out. *)
Lemma f_sum_filter (f : Z -> F) (P : Z -> Prop) `{forall x, Decision (P x)} l :
  (forall x, x ∈ l -> ~ P x -> f x = f_zero) -> f_sum (f <$> filter P l) = f_sum (f <$> l).
Proof.
  induction l as [|x l IH]; intros Hf; [done|]. rewrite filter_cons. destruct (decide (P x)); csimpl.
  - by rewrite IH by (intros; apply Hf; [by right|done]).
  - rewrite IH by (intros; apply Hf; [by right|done]). rewrite (Hf x) by (done || by left). by rewrite f_add_0_l.
Qed.

(** A sum whose terms vanish from [c] on. *)
Lemma f_sum_cut (f g : Z -> F) c n : 0 <= c <= n ->
  (forall x, 0 <= x < c -> f x = g x) -> (forall x, c <= x < n -> f x = f_zero) -> f_sum (f <$> zrange 0 n) = f_sum (g <$> zrange 0 c).
Proof.
  intros Hc Hfg Hz. rewrite (zrange_app 0 c) by lia. rewrite fmap_app, f_sum_app, (f_sum_zero f (zrange c n)), f_add_0_r.
  - apply f_sum_ext. intros x Hx%elem_of_zrange. by apply Hfg.
  - intros x Hx%elem_of_zrange. by apply Hz.
Qed.

Lemma f_sum_shift (f : Z -> F) lo n : 0 <= n -> f_sum ((fun k => f (lo + k)) <$> zrange 0 n) = f_sum (f <$> zrange lo (lo + n)).
Proof.
  intros Hn. f_equal. unfold zrange. rewrite <- !list_fmap_compose.
  replace (lo + n - lo) with (n - 0) by lia. apply list_fmap_ext. intros i j _. simpl. f_equal.
Qed.

(** The weight of a score, relative to nothing. *)
Definition weight (s : option F) : F := match s with Some x => f_exp x | None => f_zero end.

Lemma s_exp_weight s m : s_exp s m = f_mul (weight s) (f_exp (f_opp m)).
Proof. destruct s as [x|]; simpl; [apply f_exp_sub|by rewrite f_mul_0_l]. Qed.

Lemma rescale x m m' : f_mul (f_mul x (f_exp (f_opp m))) (s_exp (Some m) m') = f_mul x (f_exp (f_opp m')).
Proof.
  simpl. rewrite f_exp_sub, <- f_mul_assoc. f_equal. by rewrite f_mul_assoc, f_exp_opp, f_mul_1_l.
Qed.

(** *** A row *)

(** The running state of one row over blocks of [BS] keys. *)
Definition RowState : Type := option F * F * (Z -> F).
Definition row_step (score : Z -> option F) (value : Z -> Z -> F) (BS : Z) (st : RowState) (j : Z) : RowState :=
  let '(M, L, acc) := st in
  let S n := score (j * BS + n) in
  let m_j := match s_max M (s_maxs (S <$> zrange 0 BS)) with Some x => x | None => f_zero end in
  let P n := s_exp (S n) m_j in
  (Some m_j, f_add (f_mul L (s_exp M m_j)) (f_sum (P <$> zrange 0 BS)),
   fun d => f_add (f_mul (acc d) (s_exp M m_j)) (f_dot BS P (fun n => value (j * BS + n) d))).
Definition row_run (score : Z -> option F) (value : Z -> Z -> F) (BS lo hi : Z) : RowState :=
  foldl (row_step score value BS) (None, f_one, fun _ => f_zero) (zrange lo hi).

(** A state stands for the keys seen: sum and weighted sum of their weights, up
    to the factor the maximum gives. *)
Definition stands_for (score : Z -> option F) (value : Z -> Z -> F) (keys : list Z) (st : RowState) : Prop :=
  exists m, st.1.1 = Some m /\
    st.1.2 = f_mul (f_sum ((fun k => weight (score k)) <$> keys)) (f_exp (f_opp m)) /\
    (forall d, st.2 d = f_mul (f_sum ((fun k => f_mul (weight (score k)) (value k d)) <$> keys)) (f_exp (f_opp m))).

Lemma block_sums score value BS j m : 0 <= BS ->
  f_sum ((fun n => s_exp (score (j * BS + n)) m) <$> zrange 0 BS) =
    f_mul (f_sum ((fun k => weight (score k)) <$> zrange (j * BS) (j * BS + BS))) (f_exp (f_opp m)) /\
  (forall d : Z, f_dot BS (fun n => s_exp (score (j * BS + n)) m) (fun n => value (j * BS + n) d) =
    f_mul (f_sum ((fun k => f_mul (weight (score k)) (value k d)) <$> zrange (j * BS) (j * BS + BS))) (f_exp (f_opp m))).
Proof.
  intros HBS. split.
  - rewrite <- (f_sum_shift (fun k => weight (score k))) by done. rewrite <- f_sum_mul. apply f_sum_ext. intros n _. apply s_exp_weight.
  - intros d. unfold f_dot. rewrite <- (f_sum_shift (fun k => f_mul (weight (score k)) (value k d))) by done. rewrite <- f_sum_mul.
    apply f_sum_ext. intros n _. rewrite s_exp_weight, <- !f_mul_assoc. f_equal. apply f_mul_comm.
Qed.

Lemma row_step_first score value BS st j : 0 <= BS -> st.1.1 = None ->
  stands_for score value (zrange (j * BS) (j * BS + BS)) (row_step score value BS st j).
Proof.
  destruct st as [[M L] acc]. simpl. intros HBS ->. simpl. eexists. split; [done|]. cbn [fst snd].
  destruct (block_sums score value BS j (match s_maxs ((fun n => score (j * BS + n)) <$> zrange 0 BS) with Some x => x | None => f_zero end) HBS) as [H1 H2].
  split; [rewrite f_mul_0_r, f_add_0_l; exact H1|]. intros d. rewrite f_mul_0_r, f_add_0_l. apply H2.
Qed.

Lemma row_step_next score value BS keys st j : 0 <= BS -> stands_for score value keys st ->
  stands_for score value (keys ++ zrange (j * BS) (j * BS + BS)) (row_step score value BS st j).
Proof.
  destruct st as [[M L] acc]. intros HBS (m & HM & HL & Hacc). simpl in *. subst M. eexists. split; [done|]. cbn [fst snd].
  match goal with |- context [s_exp (Some m) ?m'] => destruct (block_sums score value BS j m' HBS) as [H1 H2] end.
  split; [|intros d]; rewrite fmap_app, f_sum_app, f_mul_add_l.
  - rewrite HL, rescale. f_equal. exact H1.
  - rewrite Hacc, rescale. f_equal. apply H2.
Qed.

Lemma row_run_stands score value BS lo hi : 0 <= BS -> lo < hi ->
  stands_for score value (zrange (lo * BS) (hi * BS)) (row_run score value BS lo hi).
Proof.
  intros HBS Hlt. unfold row_run.
  assert (Hgen : forall n, 0 <= n -> stands_for score value (zrange (lo * BS) ((lo + n + 1) * BS))
      (foldl (row_step score value BS) (None, f_one, fun _ => f_zero) (zrange lo (lo + n + 1)))).
  { apply natlike_ind.
    - replace (lo + 0 + 1) with (lo + 1) by lia. rewrite (zrange_cons lo), (zrange_nil (lo + 1)) by lia. cbn [foldl].
      replace ((lo + 1) * BS) with (lo * BS + BS) by ring. by apply row_step_first.
    - intros n Hn IH. unfold Z.succ. rewrite (zrange_app lo (lo + n + 1) (lo + (n + 1) + 1)) by lia.
      rewrite (zrange_cons (lo + n + 1)), (zrange_nil (lo + n + 1 + 1)) by lia. rewrite foldl_app. cbn [foldl].
      replace ((lo + (n + 1) + 1) * BS) with ((lo + n + 1) * BS + BS) by ring.
      rewrite (zrange_app (lo * BS) ((lo + n + 1) * BS)) by nia. by apply row_step_next. }
  specialize (Hgen (hi - lo - 1) ltac:(lia)). by replace (lo + (hi - lo - 1) + 1) with hi in Hgen by lia.
Qed.

(** *** Positive sums *)

Lemma weights_positive (s : Z -> option F) l : (exists k, k ∈ l /\ is_Some (s k)) -> f_positive (f_sum ((fun k => weight (s k)) <$> l)) = true.
Proof.
  assert (Hnn : forall l, f_sum ((fun k => weight (s k)) <$> l) = f_zero \/ f_positive (f_sum ((fun k => weight (s k)) <$> l)) = true).
  { clear l. induction l as [|k l IH]; csimpl; [by left|]. unfold weight at 1 3. destruct (s k) as [x|].
    - right. destruct IH as [->|IH]; [rewrite f_add_0_r; apply f_exp_pos|apply f_add_pos; [apply f_exp_pos|done]].
    - by rewrite f_add_0_l. }
  induction l as [|k l IH]; intros (k0 & Hin & Hs); [set_solver|]. csimpl. unfold weight at 1. destruct (s k) as [x|] eqn:E.
  - destruct (Hnn l) as [->|Hp]; [rewrite f_add_0_r; apply f_exp_pos|apply f_add_pos; [apply f_exp_pos|done]].
  - rewrite f_add_0_l. apply IH. apply elem_of_cons in Hin as [->|Hin]; [by destruct Hs as [? Hs]; rewrite E in Hs|by exists k0].
Qed.

(** The quotient does not depend on the maximum. *)
Lemma stands_for_quotient score value keys st d :
  stands_for score value keys st -> (exists k, k ∈ keys /\ is_Some (score k)) ->
  f_div (st.2 d) st.1.2 =
  f_div (f_sum ((fun k => f_mul (weight (score k)) (value k d)) <$> keys)) (f_sum ((fun k => weight (score k)) <$> keys)).
Proof.
  intros (m & _ & -> & Hacc) Hex. rewrite Hacc. apply f_div_scale; [by apply weights_positive|apply f_exp_pos].
Qed.

Lemma stands_for_nonzero score value keys st :
  stands_for score value keys st -> (exists k, k ∈ keys /\ is_Some (score k)) -> f_is_zero st.1.2 = false.
Proof. intros (m & _ & -> & _) Hex. apply f_pos_nonzero, f_mul_pos; [by apply weights_positive|apply f_exp_pos]. Qed.

(** *** Merging segments *)

Lemma merge_segments score value (seg : Z -> RowState) (keys : Z -> list Z) o gs :
  (forall g, g ∈ gs -> stands_for score value (keys g) (seg g)) ->
  f_sum ((fun g => f_mul (seg g).1.2 (s_exp (seg g).1.1 o)) <$> gs) =
    f_mul (f_sum ((fun k => weight (score k)) <$> concat (keys <$> gs))) (f_exp (f_opp o)) /\
  (forall d, f_sum ((fun g => f_mul ((seg g).2 d) (s_exp (seg g).1.1 o)) <$> gs) =
    f_mul (f_sum ((fun k => f_mul (weight (score k)) (value k d)) <$> concat (keys <$> gs))) (f_exp (f_opp o))).
Proof.
  intros Hg. induction gs as [|g gs IH]; [split; [|intros d]; csimpl; by rewrite f_mul_0_l|].
  destruct IH as [IH1 IH2]; [intros; apply Hg; by right|].
  destruct (Hg g ltac:(by left)) as (m & HM & HL & Hacc). split; [|intros d]; csimpl; rewrite fmap_app, f_sum_app, f_mul_add_l.
  - rewrite IH1, HM, HL, rescale. done.
  - rewrite IH2, HM, Hacc, rescale. done.
Qed.

Lemma s_maxs_some (l : list (option F)) : (exists s, s ∈ l /\ is_Some s) -> is_Some (s_maxs l).
Proof.
  induction l as [|s l IH]; intros (s0 & Hin & Hs); [set_solver|]. simpl. apply elem_of_cons in Hin as [->|Hin].
  - destruct Hs as [x ->]. by destruct (s_maxs l).
  - destruct (IH ltac:(by exists s0)) as [x ->]. by destruct s.
Qed.
End softmax.

(** ** Masked attention of one query *)

Section attention.
Context {F : Type} `{Floats F}.

(** The query and its second version, the keys, their second version and the
    values by position, and the slope of the head, if any. *)
Record Row := MkRow { r_q : Z -> F; r_q2 : Z -> F; r_k : Z -> Z -> F; r_k2 : Z -> Z -> F; r_v : Z -> Z -> F; r_slope : option F }.
(** Scale, cap of the scores if any, ReRoPE window, sliding window (none
    if not positive) and head size. *)
Record Masks := MkMasks { k_scale_of : F; k_cap : option F; k_window : Z; k_sliding : Z; k_dim : Z }.

Context (ks : Masks) (r : Row).

(** The query is at position [pos] of the request, counted from its first
    token; [ctx] tokens were computed before this step.  As in
    docs/source/user-guide/rerope/rerope.md, a key less than the window away is scored by
    the first pair, any other by the second. *)
Definition score_of (ctx pos key : Z) : F :=
  let dot q k := f_mul (k_scale_of ks) (f_dot (k_dim ks) q k) in
  let raw := if pos - key <? k_window ks then dot (r_q r) (r_k r key) else dot (r_q2 r) (r_k2 r key) in
  let capped := match k_cap ks with Some c => apply_softcap raw c | None => raw end in
  match r_slope r with Some slope => f_add capped (f_mul slope (f_of_Z (key - ctx))) | None => capped end.
Definition in_window (pos key : Z) : Prop := 0 < k_sliding ks -> pos - key < k_sliding ks.
#[global] Instance in_window_dec pos key : Decision (in_window pos key).
Proof. unfold in_window. apply _. Defined.
Definition visible (pos : Z) : list Z := filter (in_window pos) (zrange 0 (pos + 1)).
Definition attention (ctx pos d : Z) : F :=
  f_div (f_sum ((fun key => f_mul (f_exp (score_of ctx pos key)) (r_v r key d)) <$> visible pos))
        (f_sum ((fun key => f_exp (score_of ctx pos key)) <$> visible pos)).

(** The score a kernel gives the key: minus infinity if it is not visible. *)
Definition masked_score (ctx pos key : Z) : option F :=
  if decide (key <= pos /\ in_window pos key) then Some (score_of ctx pos key) else None.

Lemma masked_sums `{!RealLaws F} ctx pos n : pos < n -> 0 <= pos ->
  (forall d, f_sum ((fun k => f_mul (weight (masked_score ctx pos k)) (r_v r k d)) <$> zrange 0 n) =
    f_sum ((fun key => f_mul (f_exp (score_of ctx pos key)) (r_v r key d)) <$> visible pos)) /\
  f_sum ((fun k => weight (masked_score ctx pos k)) <$> zrange 0 n) = f_sum ((fun key => f_exp (score_of ctx pos key)) <$> visible pos).
Proof.
  intros Hn Hp.
  assert (Hsum : forall g : Z -> F -> F, (forall k, g k f_zero = f_zero) ->
    f_sum ((fun k => g k (weight (masked_score ctx pos k))) <$> zrange 0 n) = f_sum ((fun k => g k (f_exp (score_of ctx pos k))) <$> visible pos)).
  { intros g Hg. rewrite (zrange_app 0 (pos + 1) n) by lia. rewrite fmap_app, f_sum_app.
    rewrite (f_sum_zero _ (zrange (pos + 1) n)), f_add_0_r.
    - rewrite <- (f_sum_filter _ (in_window pos)).
      + apply f_sum_ext. intros k [Hw Hk%elem_of_zrange]%list_elem_of_filter. unfold masked_score. by rewrite decide_True by (split; [lia|done]).
      + intros k _ Hw. unfold masked_score. rewrite decide_False by tauto. apply Hg.
    - intros k Hk%elem_of_zrange. unfold masked_score. rewrite decide_False by lia. apply Hg. }
  split; [intros d; apply (Hsum (fun k w => f_mul w (r_v r k d))); intros; apply f_mul_0_l|by apply (Hsum (fun k w => w))].
Qed.

(** The query's own key is visible. *)
Lemma own_key ctx pos n : 0 <= pos < n -> exists k, k ∈ zrange 0 n /\ is_Some (masked_score ctx pos k).
Proof.
  intros Hp. exists pos. split; [by apply elem_of_zrange|]. unfold masked_score.
  rewrite decide_True; [by eexists|]. split; [lia|]. intros Hs. lia.
Qed.
End attention.

(** Rows that agree pointwise have the same attention. *)
Record row_eq {F} (r r' : Row (F := F)) : Prop := {
  eq_q x : r_q r x = r_q r' x;
  eq_q2 x : r_q2 r x = r_q2 r' x;
  eq_k key x : r_k r key x = r_k r' key x;
  eq_k2 key x : r_k2 r key x = r_k2 r' key x;
  eq_v key x : r_v r key x = r_v r' key x;
  eq_slope : r_slope r = r_slope r';
}.

Lemma score_of_ext {F} `{Floats F} ks r r' ctx pos key : row_eq r r' -> score_of ks r ctx pos key = score_of ks r' ctx pos key.
Proof.
  intros [Eq Eq2 Ek Ek2 _ Es]. unfold score_of. rewrite Es.
  assert (E1 : f_dot (k_dim ks) (r_q r) (r_k r key) = f_dot (k_dim ks) (r_q r') (r_k r' key)).
  { unfold f_dot. f_equal. apply list_fmap_ext. intros ? x _. by rewrite Eq, Ek. }
  assert (E2 : f_dot (k_dim ks) (r_q2 r) (r_k2 r key) = f_dot (k_dim ks) (r_q2 r') (r_k2 r' key)).
  { unfold f_dot. f_equal. apply list_fmap_ext. intros ? x _. by rewrite Eq2, Ek2. }
  by rewrite E1, E2.
Qed.

Lemma attention_ext {F} `{Floats F} ks r r' ctx pos d : row_eq r r' -> attention ks r ctx pos d = attention ks r' ctx pos d.
Proof.
  intros E. unfold attention. f_equal; f_equal; apply list_fmap_ext; intros ? key _; rewrite (score_of_ext ks r r') by done; [|done].
  by rewrite (eq_v _ _ E).
Qed.
Arguments Row : clear implicits.
Arguments Masks : clear implicits.
