(* ===== verification/ReropeRuns.v ===== *)
(** * ReRoPE attention: what the programs store

    Every query, head and dimension of the batch is stored by some program, with
    the masked attention of its own row, by the kernel over all blocks as by the
    kernels over segments. *)

From S2P Require Import Prelude.
From S2P Require Import Triton.
From S2P Require Import HashEncoder.
From S2P Require Import HashEncoderFacts.
From S2P Require Import Rerope.
From S2P Require Import ReropeFacts.
Local Open Scope Z_scope.
Local Open Scope py_scope.

Section runs.
Context {F : Type} `{RealLaws F} (p : Params) (a : Inputs F).

(** The row of query [pos] of sequence [s] and head [h], as the kernels address
    it, and the masks: the kernels count the distance to a key one too far, so
    their window is one shorter than their argument. *)
Definition query_len (s : Z) : Z := query_start_len_ptr a (s + 1) - query_start_len_ptr a s.
Definition ctx_of (s : Z) : Z := seq_lens_ptr a s - query_len s.
Definition cached (strides : Z * Z * Z * Z) (mem : Z -> F) (s h key d : Z) : F :=
  mem (block_tables_ptr a (s * block_table_stride p + key / BLOCK_SIZE p) * strides.1.1.1 + h / num_queries_per_kv p * strides.1.2 +
       d * strides.2 + key mod BLOCK_SIZE p * strides.1.1.2).
Definition row_of (s pos h : Z) : Row F := {|
  r_q d := query_ptr a ((query_start_len_ptr a s + pos) * (query_stride p).1 + h * (query_stride p).2 + d);
  r_q2 d := query2_ptr a ((query_start_len_ptr a s + pos) * (query2_stride p).1 + h * (query2_stride p).2 + d);
  r_k key d := dequantize (k_fp8 p) (q_fp8 p) (k_scale a) (cached (stride_k_cache p) (key_cache_ptr a) s h key d);
  r_k2 key d := dequantize (k2_fp8 p) (q2_fp8 p) (k_scale a) (cached (stride_k_cache2 p) (key_cache2_ptr a) s h key d);
  r_v key d := dequantize (v_fp8 p) (q_fp8 p) (v_scale a) (cached (stride_v_cache p) (value_cache_ptr a) s h key d);
  r_slope := if USE_ALIBI_SLOPES p then Some (alibi_slopes_ptr a h) else None |}.
Definition masks_of : Masks F := {|
  k_scale_of := scale a; k_cap := if USE_SOFTCAP p then Some (softcap a) else None; k_window := REROPE_WINDOW p - 1;
  k_sliding := SLIDING_WINDOW p; k_dim := HEAD_SIZE p |}.
Definition row_score (s pos h key : Z) : option F := masked_score masks_of (row_of s pos h) (ctx_of s) (ctx_of s + pos) key.
Definition row_attention (s pos h d : Z) : F := attention masks_of (row_of s pos h) (ctx_of s) (ctx_of s + pos) d.

(** The sizes fit together. *)
Record batch_ok : Prop := {
  b_seqs : 0 < num_seqs p;
  b_first : query_start_len_ptr a 0 = 0;
  b_mono i j : 0 <= i -> i <= j -> j <= num_seqs p -> query_start_len_ptr a i <= query_start_len_ptr a j;
  b_lens s : 0 <= s < num_seqs p -> query_len s <= seq_lens_ptr a s;
  b_group : 0 < num_queries_per_kv p;
  b_block_q : 0 < BLOCK_Q p;
  b_rows : BLOCK_Q p * num_queries_per_kv p <= rows_M p;
  b_block : 0 < BLOCK_SIZE p;
  b_head : 0 <= HEAD_SIZE p <= HEAD_SIZE_PADDED p;
}.
Context (B : batch_ok).

(** *** One tile *)

Lemma padded_dot (x y x' y' : Z -> F) :
  (forall d, 0 <= d < HEAD_SIZE p -> x d = x' d /\ y d = y' d) -> (forall d, HEAD_SIZE p <= d -> x d = f_zero) ->
  f_dot (HEAD_SIZE_PADDED p) x y = f_dot (HEAD_SIZE p) x' y'.
Proof using B H0.
  intros Heq Hz. destruct (b_head B). apply f_sum_cut; [lia| |].
  - intros d Hd. by destruct (Heq d Hd) as [-> ->].
  - intros d Hd. rewrite Hz by lia. apply f_mul_0_l.
Qed.

Section row.
Context (qb kvh m : Z) (Hm : 0 <= m).
Context (Hq0 : query_mask_0 p a qb m = true) (Hq1 : query_mask_1 p kvh m = true).
Abbreviation s := (seq_idx p a qb).
Abbreviation pos := (query_pos p a qb m).
Abbreviation h := (query_offset_1 p kvh m).

Lemma head_kv : h / num_queries_per_kv p = kvh.
Proof using B.
  unfold query_offset_1. pose proof (b_group B). rewrite Z.div_add_l by lia.
  rewrite (Z.div_small (m mod _)) by (apply Z.mod_pos_bound; lia). lia.
Qed.

Lemma tile_key j n : 0 <= n < BLOCK_SIZE p -> (j * BLOCK_SIZE p + n) / BLOCK_SIZE p = j /\ (j * BLOCK_SIZE p + n) mod BLOCK_SIZE p = n.
Proof using B.
  intros Hn. pose proof (b_block B). rewrite Z.div_add_l, (Z.div_small n) by lia. split; [lia|].
  rewrite Z.add_comm, Z_mod_plus_full. by apply Z.mod_small.
Qed.

Lemma tile_cached strides mem j d n : 0 <= n < BLOCK_SIZE p ->
  mem (cache_offset p a qb kvh strides j d n) = cached strides mem s h (j * BLOCK_SIZE p + n) d.
Proof using B. intros Hn. unfold cached, cache_offset, physical_block_idx. destruct (tile_key j n Hn) as [-> ->]. by rewrite head_kv. Qed.

Lemma S_tile_row j n : 0 <= n < BLOCK_SIZE p -> S_tile p a qb kvh j m n = row_score s pos h (j * BLOCK_SIZE p + n).
Proof using B Hq0 Hq1 H0.
  intros Hn. set (key := j * BLOCK_SIZE p + n).
  assert (Hrow : forall d, row_mask p a qb kvh m d = (d <? HEAD_SIZE p)) by (intros d; unfold row_mask, dim_mask; by rewrite Hq0, Hq1, !andb_true_r).
  assert (E1 : f_dot (HEAD_SIZE_PADDED p) (Q_tile p a qb kvh m) (fun d => K_tile p a qb kvh j d n) =
               f_dot (HEAD_SIZE p) (r_q (row_of s pos h)) (r_k (row_of s pos h) key)).
  { apply padded_dot; unfold Q_tile, K_tile, tl_load.
    - intros d Hd. rewrite Hrow. unfold dim_mask. replace (d <? HEAD_SIZE p) with true by lia. by rewrite tile_cached.
    - intros d Hd. rewrite Hrow. by replace (d <? HEAD_SIZE p) with false by lia. }
  assert (E2 : f_dot (HEAD_SIZE_PADDED p) (Q2_tile p a qb kvh m) (fun d => K2_tile p a qb kvh j d n) =
               f_dot (HEAD_SIZE p) (r_q2 (row_of s pos h)) (r_k2 (row_of s pos h) key)).
  { apply padded_dot; unfold Q2_tile, K2_tile, tl_load.
    - intros d Hd. rewrite Hrow. unfold dim_mask. replace (d <? HEAD_SIZE p) with true by lia. by rewrite tile_cached.
    - intros d Hd. rewrite Hrow. by replace (d <? HEAD_SIZE p) with false by lia. }
  unfold S_tile. rewrite E1, E2, !f_add_0_l, Hq0, Hq1. cbn [andb]. rewrite andb_true_r. fold key.
  change (context_len p a qb) with (ctx_of s). unfold row_score, masked_score, score_of, in_window. cbn [masks_of k_scale_of k_cap k_window k_sliding k_dim].
  destruct (Z.ltb_spec key (ctx_of s + pos + 1)) as [Hle|Hgt].
  2: { rewrite decide_False by lia. by repeat case_match. }
  rewrite (Z.abs_eq (ctx_of s + pos + 1 - key)) by lia. unfold alibi_slope. rewrite Hq1.
  replace (ctx_of s + pos + 1 - key <? REROPE_WINDOW p) with (ctx_of s + pos - key <? REROPE_WINDOW p - 1) by lia.
  destruct (Z.ltb_spec 0 (SLIDING_WINDOW p)) as [Hs|Hs].
  - destruct (Z.ltb_spec (ctx_of s + pos - key) (SLIDING_WINDOW p)) as [Hw|Hw].
    + rewrite decide_True by lia. simpl. destruct (USE_ALIBI_SLOPES p), (USE_SOFTCAP p), (_ <? REROPE_WINDOW p - 1); done.
    + rewrite decide_False by lia. by destruct (USE_ALIBI_SLOPES p).
  - rewrite decide_True by lia. simpl. destruct (USE_ALIBI_SLOPES p), (USE_SOFTCAP p), (_ <? REROPE_WINDOW p - 1); done.
Qed.

Lemma V_tile_row j n d : 0 <= n < BLOCK_SIZE p -> d < HEAD_SIZE p -> V_tile p a qb kvh j n d = r_v (row_of s pos h) (j * BLOCK_SIZE p + n) d.
Proof using B.
  intros Hn Hd. unfold V_tile, tl_load, dim_mask. replace (d <? HEAD_SIZE p) with true by lia. by rewrite tile_cached.
Qed.

(** The state of the row after some blocks. *)
Lemma run_blocks_row lo hi :
  let st := run_blocks p a qb kvh lo hi in
  let rs := row_run (row_score s pos h) (r_v (row_of s pos h)) (BLOCK_SIZE p) lo hi in
  run_M st m = rs.1.1 /\ run_L st m = rs.1.2 /\ (forall d, d < HEAD_SIZE p -> run_acc st m d = rs.2 d).
Proof using B Hq0 Hq1 H0.
  unfold run_blocks, row_run.
  assert (Hgen : forall l st (rs : RowState), run_M st m = rs.1.1 /\ run_L st m = rs.1.2 /\ (forall d, d < HEAD_SIZE p -> run_acc st m d = rs.2 d) ->
    let st' := foldl (tile_step p a qb kvh) st l in
    let rs' := foldl (row_step (row_score s pos h) (r_v (row_of s pos h)) (BLOCK_SIZE p)) rs l in
    run_M st' m = rs'.1.1 /\ run_L st' m = rs'.1.2 /\ (forall d, d < HEAD_SIZE p -> run_acc st' m d = rs'.2 d)).
  { induction l as [|j l IH]; intros st rs Hst; [done|]. cbn [foldl]. apply IH. destruct Hst as (E1 & E2 & E3). destruct rs as [[M L] acc].
    simpl in E1, E2, E3. unfold tile_step, row_step. cbn [run_M run_L run_acc fst snd]. rewrite E1, E2.
    assert (ES : S_tile p a qb kvh j m <$> zrange 0 (BLOCK_SIZE p) = (fun n => row_score s pos h (j * BLOCK_SIZE p + n)) <$> zrange 0 (BLOCK_SIZE p)).
    { apply list_fmap_ext. intros ? n Hn%list_elem_of_lookup_2%elem_of_zrange. by apply S_tile_row. }
    rewrite ES. split; [done|]. split.
    - f_equal. apply f_sum_ext. intros n Hn%elem_of_zrange. by rewrite S_tile_row.
    - intros d Hd. rewrite E3 by done. f_equal. apply f_sum_ext. intros n Hn%elem_of_zrange. by rewrite S_tile_row, V_tile_row by done. }
  apply Hgen. done.
Qed.
End row.

(** *** Programs and rows *)

Context (tokens num_kv_heads : Z).
Context (Htok : query_start_len_ptr a (num_seqs p) <= tokens) (Hheads : num_query_heads p = num_kv_heads * num_queries_per_kv p).

Definition valid_row (s pos h : Z) : Prop :=
  0 <= s < num_seqs p /\ 0 <= pos < query_len s /\ 0 <= h < num_query_heads p.
Definition total_blocks : Z := tokens / BLOCK_Q p + num_seqs p.

Lemma block_value_mono i j : 0 <= i -> i <= j -> j <= num_seqs p ->
  query_start_len_ptr a i / BLOCK_Q p + i <= query_start_len_ptr a j / BLOCK_Q p + j.
Proof using B.
  intros Hi Hij Hj. pose proof (b_mono B i j Hi Hij Hj) as Hm.
  pose proof (Z.div_le_mono _ _ (BLOCK_Q p) (b_block_q B) Hm). lia.
Qed.

Lemma program_row qb kvh m :
  0 <= qb -> 0 <= kvh -> 0 <= m -> query_mask_0 p a qb m = true -> query_mask_1 p kvh m = true ->
  out_of_queries p a qb = false /\ valid_row (seq_idx p a qb) (query_pos p a qb m) (query_offset_1 p kvh m).
Proof using B.
  intros Hqb Hk Hm H0' H1'. pose proof (b_group B). pose proof (b_block_q B). unfold valid_row.
  assert (Hs : 0 <= seq_idx p a qb < num_seqs p /\ query_start_len_ptr a (seq_idx p a qb) / BLOCK_Q p + seq_idx p a qb <= qb).
  { unfold seq_idx, find_seq_idx.
    destruct (find_loop_range (fun mid => query_start_len_ptr a mid / BLOCK_Q p + mid) qb (num_seqs p) (b_seqs B)) as (Hr1 & Hr2 & _); [| |done].
    - intros i j Hi Hij Hj. apply block_value_mono; lia.
    - by rewrite (b_first B). }
  assert (0 <= q_block_local_idx p a qb) by (unfold q_block_local_idx, q_block_start_idx; lia).
  assert (0 <= m / num_queries_per_kv p) by (apply Z.div_pos; lia).
  assert (0 <= q_block_local_idx p a qb * BLOCK_Q p) by (apply Z.mul_nonneg_nonneg; lia).
  unfold query_mask_0 in H0'. apply Z.ltb_lt in H0'. unfold query_mask_1 in H1'. apply Z.ltb_lt in H1'.
  pose proof (Z.mod_pos_bound m (num_queries_per_kv p) ltac:(lia)).
  assert (0 <= kvh * num_queries_per_kv p) by (apply Z.mul_nonneg_nonneg; lia).
  change (query_len (seq_idx p a qb)) with (cur_batch_query_len p a qb). split.
  - unfold out_of_queries. apply Z.leb_gt. unfold query_pos in H0'. lia.
  - split; [tauto|]. split; [unfold query_pos in *; lia|]. unfold query_offset_1 in *. lia.
Qed.

Lemma row_program s pos h :
  valid_row s pos h ->
  exists qb kvh m, 0 <= qb < total_blocks /\ 0 <= kvh < num_kv_heads /\ 0 <= m < rows_M p /\
    seq_idx p a qb = s /\ query_pos p a qb m = pos /\ query_offset_1 p kvh m = h /\
    query_mask_0 p a qb m = true /\ query_mask_1 p kvh m = true.
Proof using B Htok Hheads.
  intros (Hs & Hpos & Hh). pose proof (b_group B). pose proof (b_block_q B). pose proof (b_rows B).
  set (BQ := BLOCK_Q p) in *. set (G := num_queries_per_kv p) in *. set (qsl := query_start_len_ptr a) in *.
  pose proof (Z.mod_pos_bound pos BQ ltac:(lia)). pose proof (Z.mod_pos_bound h G ltac:(lia)).
  pose proof (Z_div_mod_eq_full pos BQ). pose proof (Z_div_mod_eq_full h G).
  set (qb := qsl s / BQ + s + pos / BQ). set (m := pos mod BQ * G + h mod G).
  assert (Hlt : qb < qsl (s + 1) / BQ + (s + 1)).
  { assert ((qsl s + pos) / BQ <= qsl (s + 1) / BQ) by (apply Z.div_le_mono; [done|]; unfold query_len in Hpos; fold qsl in Hpos; lia).
    assert (qsl s / BQ + pos / BQ <= (qsl s + pos) / BQ); [|unfold qb; lia].
    apply Z.div_le_lower_bound; [done|]. pose proof (Z.mul_div_le (qsl s) BQ ltac:(done)). pose proof (Z.mul_div_le pos BQ ltac:(done)). lia. }
  assert (Hpd : 0 <= pos / BQ) by (apply Z.div_pos; lia).
  assert (Hqs : 0 <= qsl s / BQ) by (apply Z.div_pos; [|done]; rewrite <- (b_first B); apply (b_mono B); lia).
  assert (Eseq : seq_idx p a qb = s).
  { unfold seq_idx, find_seq_idx. apply find_loop_last; [done| | |].
    - intros i j Hi Hij Hj. apply block_value_mono; lia.
    - fold qsl BQ. unfold qb. lia.
    - intros _. fold qsl BQ. lia. }
  assert (Em : m / G = pos mod BQ /\ m mod G = h mod G).
  { unfold m. split; [rewrite Z.div_add_l, (Z.div_small (h mod G)) by lia; lia|]. rewrite Z.add_comm, Z_mod_plus_full. apply Z.mod_mod. lia. }
  assert (Epos : query_pos p a qb m = pos).
  { unfold query_pos, q_block_local_idx, q_block_start_idx. rewrite Eseq. fold qsl BQ G. destruct Em as [-> _]. unfold qb. lia. }
  assert (Eh : query_offset_1 p (h / G) m = h) by (unfold query_offset_1; fold G; destruct Em as [_ ->]; lia).
  exists qb, (h / G), m. split; [split; [unfold qb; lia|]|].
  { unfold total_blocks. fold BQ. pose proof (block_value_mono (s + 1) (num_seqs p) ltac:(lia) ltac:(lia) ltac:(lia)) as Hmv. fold qsl BQ in Hmv.
    pose proof (Z.div_le_mono _ _ BQ ltac:(done) Htok) as Hd. fold qsl in Hd. lia. }
  split; [split; [apply Z.div_pos; lia|apply Z.div_lt_upper_bound; lia]|].
  split; [split; [apply Z.add_nonneg_nonneg; [apply Z.mul_nonneg_nonneg|]; lia|]|].
  { assert (m < BQ * G); [|lia]. unfold m. assert ((pos mod BQ + 1) * G <= BQ * G) by (apply Z.mul_le_mono_nonneg_r; lia). lia. }
  do 3 (split; [done|]). split; [unfold query_mask_0; rewrite Epos; unfold cur_batch_query_len, cur_batch_in_all_start_index; rewrite Eseq|unfold query_mask_1; rewrite Eh];
    apply Z.ltb_lt; [apply Hpos|apply Hh].
Qed.

(** *** The kernel over all blocks *)

Lemma num_blocks_spec n : n <= cdiv_fn n (BLOCK_SIZE p) * BLOCK_SIZE p.
Proof using B.
  pose proof (b_block B). unfold cdiv_fn. pose proof (Z_div_mod_eq_full (n + BLOCK_SIZE p - 1) (BLOCK_SIZE p)).
  pose proof (Z.mod_pos_bound (n + BLOCK_SIZE p - 1) (BLOCK_SIZE p) ltac:(done)). lia.
Qed.

(** The scores of a row cover its visible keys. *)
Lemma row_quotient s pos h d n rs :
  valid_row s pos h -> seq_lens_ptr a s <= n -> stands_for (row_score s pos h) (r_v (row_of s pos h)) (zrange 0 n) rs ->
  f_is_zero rs.1.2 = false /\ f_div (rs.2 d) rs.1.2 = row_attention s pos h d.
Proof using B H0.
  intros (Hs & Hpos & _) Hn Hst. pose proof (b_lens B s Hs).
  assert (Hp : 0 <= ctx_of s + pos < n) by (unfold ctx_of; lia). split; [apply (stands_for_nonzero _ _ _ _ Hst), own_key; lia|].
  rewrite (stands_for_quotient _ _ _ _ _ Hst) by (apply own_key; lia).
  destruct (masked_sums masks_of (row_of s pos h) (ctx_of s) (ctx_of s + pos) n) as [E1 E2]; [lia..|].
  unfold row_score. by rewrite E1, E2.
Qed.

Lemma writes_2d w :
  (exists pid, pid ∈ grid2 total_blocks num_kv_heads /\ w ∈ kernel_unified_attention_2d p a pid) <->
  (exists s pos h d, valid_row s pos h /\ 0 <= d < HEAD_SIZE p /\
     w = ((query_start_len_ptr a s + pos) * (output_stride p).1 + h * (output_stride p).2 + d, row_attention s pos h d)).
Proof using B H0 Htok Hheads.
  assert (Hval : forall qb kvh m d, 0 <= m -> 0 <= d < HEAD_SIZE p -> query_mask_0 p a qb m = true -> query_mask_1 p kvh m = true ->
    valid_row (seq_idx p a qb) (query_pos p a qb m) (query_offset_1 p kvh m) ->
    let st := run_blocks p a qb kvh 0 (num_blocks p a qb) in
    f_div (run_acc st m d) (run_L st m) = row_attention (seq_idx p a qb) (query_pos p a qb m) (query_offset_1 p kvh m) d).
  { intros qb kvh m d Hm Hd Hq0 Hq1 Hv. destruct (run_blocks_row qb kvh m Hq0 Hq1 0 (num_blocks p a qb)) as (_ & E2 & E3).
    cbv zeta. rewrite E2, E3 by lia. pose proof (num_blocks_spec (seq_len p a qb)) as Hnb. pose proof (b_block B).
    assert (Hpos : 0 < seq_len p a qb) by (destruct Hv as (Hs & Hp & _); pose proof (b_lens B _ Hs); unfold seq_len; lia).
    eapply (row_quotient _ _ _ d); [done|exact Hnb|]. apply (row_run_stands _ _ _ 0); [lia|]. unfold num_blocks.
    apply Z.div_str_pos. lia. }
  split.
  - intros ([qb kvh] & [Hqb Hk]%elem_of_grid2 & Hw). unfold kernel_unified_attention_2d in Hw. cbn [fst snd] in Hw.
    destruct (out_of_queries p a qb) eqn:Eo; [set_solver|]. apply elem_of_tl_store in Hw as (m & d & Hm & Hd & Hmask & ->).
    unfold row_mask, dim_mask in Hmask. apply andb_true_iff in Hmask as [[Hd'%Z.ltb_lt Hq0]%andb_true_iff Hq1].
    destruct (program_row qb kvh m) as [_ Hv]; [lia..|done|done|].
    exists (seq_idx p a qb), (query_pos p a qb m), (query_offset_1 p kvh m), d. split; [done|]. split; [lia|].
    rewrite Hval by (done || lia). done.
  - intros (s & pos & h & d & Hv & Hd & ->). destruct (row_program s pos h Hv) as (qb & kvh & m & Hqb & Hk & Hm & <- & <- & <- & Hq0 & Hq1).
    exists (qb, kvh). split; [by apply elem_of_grid2|]. unfold kernel_unified_attention_2d. cbn [fst snd].
    destruct (program_row qb kvh m) as [-> _]; [lia..|done|done|]. apply elem_of_tl_store. exists m, d.
    pose proof (b_head B). split; [lia|]. split; [lia|]. split; [unfold row_mask, dim_mask; rewrite Hq0, Hq1; lia|].
    rewrite Hval by (done || lia). done.
Qed.
End runs.
