(* ===== verification/ReropeSegments.v ===== *)
(** * ReRoPE attention: segments

    The kernel over segments stores, per token, head and segment, the state of
    the row over the segment's blocks; merging them gives the attention of the
    whole row, as the kernel over all blocks computes it. *)

From S2P Require Import Prelude.
From S2P Require Import Triton.
From S2P Require Import HashEncoder.
From S2P Require Import HashEncoderFacts.
From S2P Require Import Rerope.
From S2P Require Import ReropeFacts.
From S2P Require Import ReropeRuns.
Local Open Scope Z_scope.
Local Open Scope py_scope.

(** ** Rounding up *)

Lemma cdiv_fn_lt n k g : 0 < k -> g < cdiv_fn n k <-> g * k < n.
Proof.
  intros Hk. unfold cdiv_fn. pose proof (Z_div_mod_eq_full (n + k - 1) k). pose proof (Z.mod_pos_bound (n + k - 1) k Hk).
  set (c := (n + k - 1) / k) in *. split; intros Hlt.
  - assert ((g + 1) * k <= c * k) by (apply Z.mul_le_mono_nonneg_r; lia). lia.
  - destruct (Z.lt_ge_cases g c) as [|Hge]; [done|]. assert (c * k <= g * k) by (apply Z.mul_le_mono_nonneg_r; lia). lia.
Qed.
Lemma cdiv_fn_pos n k : 0 < k -> 0 < n -> 0 < cdiv_fn n k.
Proof. intros Hk Hn. apply cdiv_fn_lt; lia. Qed.
Lemma cdiv_fn_le n k g : 0 < k -> n <= g * k -> cdiv_fn n k <= g.
Proof. intros Hk Hn. apply Z.nlt_ge. rewrite cdiv_fn_lt by done. lia. Qed.
Lemma cdiv_fn_ge n k : 0 < k -> n <= cdiv_fn n k * k.
Proof. intros Hk. pose proof (cdiv_fn_lt n k (cdiv_fn n k) Hk). lia. Qed.

(** A range, cut into pieces of length [k]. *)
Lemma concat_pieces n k c : 0 <= n -> 0 < k -> 0 <= c ->
  concat ((fun g => zrange (g * k) (Z.min ((g + 1) * k) n)) <$> zrange 0 c) = zrange 0 (Z.min (c * k) n).
Proof.
  intros Hn Hk. revert c. apply natlike_ind; [by rewrite (zrange_nil 0 (Z.min _ _)) by lia|].
  intros c Hc IH. unfold Z.succ. rewrite zrange_succ, fmap_app, concat_app, IH by done. csimpl. rewrite app_nil_r.
  assert (0 <= c * k) by (apply Z.mul_nonneg_nonneg; lia).
  replace ((c + 1) * k) with (c * k + k) by ring. destruct (Z.le_gt_cases (c * k) n).
  - rewrite (Z.min_l (c * k) n) by done. rewrite <- (zrange_app 0 (c * k) (Z.min (c * k + k) n)) by lia. done.
  - rewrite !Z.min_r by lia. rewrite (zrange_nil (c * k)) by lia. apply app_nil_r.
Qed.

Section segments.
Context {F : Type} `{RealLaws F} (p : Params) (a : Inputs F).
Context (B : batch_ok p a) (num_kv_heads NUM_SEGMENTS : Z) (HNS : 0 < NUM_SEGMENTS).
Context (Hheads : num_query_heads p = num_kv_heads * num_queries_per_kv p).
Abbreviation tokens := (query_start_len_ptr a (num_seqs p)).
Abbreviation BS := (BLOCK_SIZE p).
Abbreviation NS := NUM_SEGMENTS.

(** The blocks per segment of a sequence, the segments it fills, and the state
    of a row over one. *)
Definition bps (s : Z) : Z := cdiv_fn (seq_lens_ptr a s) (NS * BS).
Definition act (s : Z) : Z := cdiv_fn (seq_lens_ptr a s) (bps s * BS).
Definition seg_state (s pos h g : Z) : RowState :=
  row_run (row_score p a s pos h) (r_v (row_of p a s pos h)) BS (g * bps s) (Z.min ((g + 1) * bps s) (cdiv_fn (seq_lens_ptr a s) BS)).

Lemma segment_sizes s pos h : valid_row p a s pos h ->
  0 < seq_lens_ptr a s /\ 0 < bps s /\ 0 < bps s * BS /\ 0 < act s <= NS.
Proof using B HNS.
  intros (Hs & Hpos & _). pose proof (b_lens p a B s Hs) as Hl. pose proof (b_block p a B) as HB.
  assert (Hn : 0 < seq_lens_ptr a s) by lia.
  assert (Hk : 0 < NS * BS) by (by apply Z.mul_pos_pos). assert (Hb : 0 < bps s) by (by apply cdiv_fn_pos).
  assert (Hbb : 0 < bps s * BS) by (by apply Z.mul_pos_pos).
  do 3 (split; [done|]). split; [by apply cdiv_fn_pos|]. apply cdiv_fn_le; [done|].
  pose proof (cdiv_fn_ge (seq_lens_ptr a s) (NS * BS) Hk). fold (bps s) in *. lia.
Qed.

(** A segment's state stands for its keys. *)
Lemma seg_state_stands s pos h g : valid_row p a s pos h -> 0 <= g < act s ->
  stands_for (row_score p a s pos h) (r_v (row_of p a s pos h))
    (zrange (g * (bps s * BS)) (Z.min ((g + 1) * (bps s * BS)) (cdiv_fn (seq_lens_ptr a s) BS * BS))) (seg_state s pos h g).
Proof using B HNS H0.
  intros Hv Hg. destruct (segment_sizes s pos h Hv) as (Hn & Hb & Hbb & Ha). pose proof (b_block p a B) as HB.
  assert (Hlt : g * (bps s * BS) < seq_lens_ptr a s) by (apply cdiv_fn_lt; [done|]; unfold act in Hg; lia).
  assert (Hlt' : g * bps s < cdiv_fn (seq_lens_ptr a s) BS) by (apply cdiv_fn_lt; lia).
  rewrite !Z.mul_assoc, Z.mul_min_distr_nonneg_r by lia. apply row_run_stands; lia.
Qed.

(** ** The stores *)

Lemma segment_run_some qb kvh m g :
  0 <= qb -> 0 <= kvh -> 0 <= m -> 0 <= g -> query_mask_0 p a qb m = true -> query_mask_1 p kvh m = true ->
  let s := seq_idx p a qb in
  let pos := query_pos p a qb m in
  let h := query_offset_1 p kvh m in
  if g <? act s then
    exists st, segment_run p a NS (qb, kvh, g) = Some st /\
      run_M st m = (seg_state s pos h g).1.1 /\ run_L st m = (seg_state s pos h g).1.2 /\
      (forall d, d < HEAD_SIZE p -> run_acc st m d = (seg_state s pos h g).2 d)
  else segment_run p a NS (qb, kvh, g) = None.
Proof using B HNS H0.
  intros Hqb Hk Hm Hg Hq0 Hq1 s pos h. destruct (program_row p a B qb kvh m) as [Ho Hv]; [done..|].
  destruct (segment_sizes _ _ _ Hv) as (Hn & Hb & Hbb & Ha). unfold segment_run. cbn [fst snd]. rewrite Ho.
  change (blocks_per_segment p a qb NS) with (bps s). change (seq_len p a qb) with (seq_lens_ptr a s).
  pose proof (cdiv_fn_lt (seq_lens_ptr a s) (bps s * BS) g Hbb) as Hlt. fold (act s) in Hlt.
  replace (g * bps s * BS) with (g * (bps s * BS)) by ring.
  destruct (Z.ltb_spec g (act s)) as [Hga|Hga].
  - replace (seq_lens_ptr a s <=? _) with false by lia. eexists. split; [done|]. by apply run_blocks_row.
  - by replace (seq_lens_ptr a s <=? _) with true by lia.
Qed.

(** The place of a token, head and segment in the buffers. *)
Definition cell (s pos h g : Z) : Z := (query_start_len_ptr a s + pos) * (num_query_heads p * NS) + h * NS + g.

Abbreviation grid := (grid3 (total_blocks p tokens) num_kv_heads NS).

Lemma segm_output_stores w :
  (exists pid, pid ∈ grid /\ w ∈ segm_output_writes p a NS pid) <->
  (exists s pos h g d, valid_row p a s pos h /\ 0 <= g < act s /\ 0 <= d < HEAD_SIZE p /\
     w = (cell s pos h g * HEAD_SIZE_PADDED p + d, (seg_state s pos h g).2 d)).
Proof using B HNS H0 Hheads.
  split.
  - intros ([[qb kvh] g] & (Hqb & Hk & Hg)%elem_of_grid3 & Hw). unfold segm_output_writes in Hw.
    destruct (segment_run p a NS (qb, kvh, g)) as [st|] eqn:Er; [|set_solver].
    apply elem_of_tl_store in Hw as (m & d & Hm & Hd & Hmask & ->). cbn [fst snd] in *.
    unfold row_mask, dim_mask in Hmask. apply andb_true_iff in Hmask as [[Hd'%Z.ltb_lt Hq0]%andb_true_iff Hq1].
    destruct (program_row p a B qb kvh m) as [_ Hv]; [lia..|done|done|].
    pose proof (segment_run_some qb kvh m g ltac:(lia) ltac:(lia) ltac:(lia) ltac:(lia) Hq0 Hq1) as Hsome. cbv zeta in Hsome.
    destruct (Z.ltb_spec g (act (seq_idx p a qb))); [|congruence]. destruct Hsome as (st' & Er' & _ & _ & E3).
    rewrite Er in Er'. injection Er' as <-.
    exists (seq_idx p a qb), (query_pos p a qb m), (query_offset_1 p kvh m), g, d. do 3 (split; [done || lia|]).
    rewrite E3 by lia. f_equal. unfold cell, query_offset_0, cur_batch_in_all_start_index. ring.
  - intros (s & pos & h & g & d & Hv & Hg & Hd & ->). destruct (segment_sizes s pos h Hv) as (_ & _ & _ & Ha).
    destruct (row_program p a B tokens num_kv_heads ltac:(lia) Hheads s pos h Hv) as (qb & kvh & m & Hqb & Hk & Hm & <- & <- & <- & Hq0 & Hq1).
    exists (qb, kvh, g). split; [apply elem_of_grid3; lia|]. unfold segm_output_writes.
    pose proof (segment_run_some qb kvh m g ltac:(lia) ltac:(lia) ltac:(lia) ltac:(lia) Hq0 Hq1) as Hsome. cbv zeta in Hsome.
    destruct (Z.ltb_spec g (act (seq_idx p a qb))); [|lia]. destruct Hsome as (st & -> & _ & _ & E3).
    apply elem_of_tl_store. exists m, d. cbn [fst snd]. pose proof (b_head p a B).
    split; [lia|]. split; [lia|]. split; [unfold row_mask, dim_mask; rewrite Hq0, Hq1; lia|].
    rewrite E3 by lia. f_equal. unfold cell, query_offset_0, cur_batch_in_all_start_index. ring.
Qed.

(** The buffers with one number per row: the maximum and the sum. *)
Lemma segm_row_stores {A} (value : Running F -> Z -> A) (rv : RowState -> A) w :
  (forall st m rs, run_M st m = rs.1.1 -> run_L st m = rs.1.2 -> value st m = rv rs) ->
  (exists pid, pid ∈ grid /\ w ∈ segm_row_writes p a NS value pid) <->
  (exists s pos h g, valid_row p a s pos h /\ 0 <= g < act s /\ w = (cell s pos h g, rv (seg_state s pos h g))).
Proof using B HNS H0 Hheads.
  intros Hrv. split.
  - intros ([[qb kvh] g] & (Hqb & Hk & Hg)%elem_of_grid3 & Hw). unfold segm_row_writes in Hw.
    destruct (segment_run p a NS (qb, kvh, g)) as [st|] eqn:Er; [|set_solver].
    apply elem_of_tl_store in Hw as (m & d & Hm & Hd & [Hq0 Hq1]%andb_true_iff & ->). cbn [fst snd] in *.
    destruct (program_row p a B qb kvh m) as [_ Hv]; [lia..|done|done|].
    pose proof (segment_run_some qb kvh m g ltac:(lia) ltac:(lia) ltac:(lia) ltac:(lia) Hq0 Hq1) as Hsome. cbv zeta in Hsome.
    destruct (Z.ltb_spec g (act (seq_idx p a qb))); [|congruence]. destruct Hsome as (st' & Er' & E1 & E2 & _).
    rewrite Er in Er'. injection Er' as <-.
    exists (seq_idx p a qb), (query_pos p a qb m), (query_offset_1 p kvh m), g. do 2 (split; [done || lia|]).
    by rewrite (Hrv st m _ E1 E2).
  - intros (s & pos & h & g & Hv & Hg & ->). destruct (segment_sizes s pos h Hv) as (_ & _ & _ & Ha).
    destruct (row_program p a B tokens num_kv_heads ltac:(lia) Hheads s pos h Hv) as (qb & kvh & m & Hqb & Hk & Hm & <- & <- & <- & Hq0 & Hq1).
    exists (qb, kvh, g). split; [apply elem_of_grid3; lia|]. unfold segm_row_writes.
    pose proof (segment_run_some qb kvh m g ltac:(lia) ltac:(lia) ltac:(lia) ltac:(lia) Hq0 Hq1) as Hsome. cbv zeta in Hsome.
    destruct (Z.ltb_spec g (act (seq_idx p a qb))); [|lia]. destruct Hsome as (st & -> & E1 & E2 & _).
    apply elem_of_tl_store. exists m, 0. cbn [fst snd]. do 2 (split; [lia|]). split; [by rewrite Hq0, Hq1|].
    by rewrite (Hrv st m _ E1 E2).
Qed.

(** *** Reading them back *)

Lemma radix_inj n x y g g' : 0 <= g < n -> 0 <= g' < n -> x * n + g = y * n + g' -> x = y /\ g = g'.
Proof using Type. intros Hg Hg' He. apply (Z.div_mod_unique n); [by left|by left|lia]. Qed.

Lemma token_inj s pos h s' pos' h' :
  valid_row p a s pos h -> valid_row p a s' pos' h' -> query_start_len_ptr a s + pos = query_start_len_ptr a s' + pos' -> s = s' /\ pos = pos'.
Proof using B.
  intros (Hs & Hp & _) (Hs' & Hp' & _) He. unfold query_len in *.
  assert (~ s < s') by (intros Hlt; pose proof (b_mono p a B (s + 1) s' ltac:(lia) ltac:(lia) ltac:(lia)); lia).
  assert (~ s' < s) by (intros Hlt; pose proof (b_mono p a B (s' + 1) s ltac:(lia) ltac:(lia) ltac:(lia)); lia).
  assert (s = s') as <- by lia. split; [done|lia].
Qed.

Lemma cell_inj s pos h g s' pos' h' g' :
  valid_row p a s pos h -> valid_row p a s' pos' h' -> 0 <= g < NS -> 0 <= g' < NS ->
  cell s pos h g = cell s' pos' h' g' -> s = s' /\ pos = pos' /\ h = h' /\ g = g'.
Proof using B.
  intros Hv Hv' Hg Hg' He. unfold cell in He.
  destruct (radix_inj NS ((query_start_len_ptr a s + pos) * num_query_heads p + h) ((query_start_len_ptr a s' + pos') * num_query_heads p + h') g g')
    as [He' <-]; [done|done|lia|].
  destruct (radix_inj (num_query_heads p) _ _ h h' ltac:(apply Hv) ltac:(apply Hv') He') as [Ht <-].
  by destruct (token_inj s pos h s' pos' h Hv Hv' Ht) as [<- <-].
Qed.

Lemma read_rows {A} `{Schedule A} (value : Running F -> Z -> A) rv m s pos h g :
  (forall st m rs, run_M st m = rs.1.1 -> run_L st m = rs.1.2 -> value st m = rv rs) ->
  valid_row p a s pos h -> 0 <= g < act s ->
  launch grid (segm_row_writes p a NS value) m (cell s pos h g) = rv (seg_state s pos h g).
Proof using B HNS H0 Hheads.
  intros Hrv Hv Hg. eapply launch_value; [intros w; by apply segm_row_stores|..].
  - intros x v v' (s1 & pos1 & h1 & g1 & Hv1 & Hg1 & [= -> ->]) (s2 & pos2 & h2 & g2 & Hv2 & Hg2 & [= E ->]).
    pose proof (segment_sizes _ _ _ Hv1). pose proof (segment_sizes _ _ _ Hv2).
    by destruct (cell_inj _ _ _ g1 _ _ _ g2 Hv1 Hv2 ltac:(lia) ltac:(lia) E) as (<- & <- & <- & <-).
  - by exists s, pos, h, g.
Qed.

Lemma read_output `{Schedule F} junk s pos h g d : valid_row p a s pos h -> 0 <= g < act s -> 0 <= d < HEAD_SIZE p ->
  launch grid (segm_output_writes p a NS) junk (cell s pos h g * HEAD_SIZE_PADDED p + d) = (seg_state s pos h g).2 d.
Proof using B HNS H0 Hheads.
  intros Hv Hg Hd. pose proof (b_head p a B). eapply launch_value; [intros w; by apply segm_output_stores|..].
  - intros x v v' (s1 & pos1 & h1 & g1 & d1 & Hv1 & Hg1 & Hd1 & [= -> ->]) (s2 & pos2 & h2 & g2 & d2 & Hv2 & Hg2 & Hd2 & [= E ->]).
    pose proof (segment_sizes _ _ _ Hv1). pose proof (segment_sizes _ _ _ Hv2).
    destruct (radix_inj (HEAD_SIZE_PADDED p) _ _ d1 d2 ltac:(lia) ltac:(lia) E) as [E' <-].
    by destruct (cell_inj _ _ _ g1 _ _ _ g2 Hv1 Hv2 ltac:(lia) ltac:(lia) E') as (<- & <- & <- & <-).
  - by exists s, pos, h, g, d.
Qed.

(** *** The merge *)

Lemma token_row tok h : 0 <= tok < tokens -> 0 <= h < num_query_heads p ->
  let s := find_seq_idx (query_start_len_ptr a) tok (num_seqs p) (BLOCK_Q p) false in
  valid_row p a s (tok - query_start_len_ptr a s) h.
Proof using B.
  intros Ht Hh s. unfold s, find_seq_idx. clear s.
  destruct (find_loop_range (query_start_len_ptr a) tok (num_seqs p) (b_seqs p a B)) as (Hr1 & Hr2 & Hr3).
  - intros i j Hi Hij Hj. apply (b_mono p a B); lia.
  - rewrite (b_first p a B). lia.
  - cbv zeta. set (s := find_loop _ _ _ _ _ - 1) in *. change (fun mid => query_start_len_ptr a mid) with (query_start_len_ptr a).
    split; [done|]. split; [|done]. unfold query_len. split; [lia|].
    destruct (Z.lt_ge_cases (s + 1) (num_seqs p)) as [Hlt|Hge]; [specialize (Hr3 Hlt); lia|].
    replace (s + 1) with (num_seqs p) by lia. lia.
Qed.

(** All of a row's segments, merged at any maximum, stand for the whole row. *)
Lemma merged_stands s pos h o : valid_row p a s pos h ->
  stands_for (row_score p a s pos h) (r_v (row_of p a s pos h)) (zrange 0 (cdiv_fn (seq_lens_ptr a s) BS * BS))
    (Some o, f_sum ((fun g => f_mul (seg_state s pos h g).1.2 (s_exp (seg_state s pos h g).1.1 o)) <$> zrange 0 (act s)),
     fun d => f_sum ((fun g => f_mul ((seg_state s pos h g).2 d) (s_exp (seg_state s pos h g).1.1 o)) <$> zrange 0 (act s))).
Proof using B HNS H0.
  intros Hv. destruct (segment_sizes s pos h Hv) as (Hn & Hb & Hbb & Ha). pose proof (b_block p a B) as HB.
  destruct (merge_segments (row_score p a s pos h) (r_v (row_of p a s pos h)) (seg_state s pos h)
    (fun g => zrange (g * (bps s * BS)) (Z.min ((g + 1) * (bps s * BS)) (cdiv_fn (seq_lens_ptr a s) BS * BS))) o (zrange 0 (act s))) as [E1 E2].
  { intros g Hg%elem_of_zrange. by apply seg_state_stands. }
  assert (Hnb : 0 <= cdiv_fn (seq_lens_ptr a s) BS * BS) by (pose proof (cdiv_fn_ge (seq_lens_ptr a s) BS HB); lia).
  rewrite concat_pieces in E1, E2 by lia.
  assert (Hall : Z.min (act s * (bps s * BS)) (cdiv_fn (seq_lens_ptr a s) BS * BS) = cdiv_fn (seq_lens_ptr a s) BS * BS).
  { apply Z.min_r. rewrite Z.mul_assoc. apply Z.mul_le_mono_nonneg_r; [lia|]. apply cdiv_fn_le; [done|].
    pose proof (cdiv_fn_ge (seq_lens_ptr a s) (bps s * BS) Hbb). fold (act s) in *. lia. }
  rewrite Hall in E1, E2. exists o. split; [done|]. split; [exact E1|exact E2].
Qed.

Section buffers.
Context `{Schedule F} `{Schedule (option F)} (junk : Z -> F) (junk_max : Z -> option F).
Abbreviation segm_output := (launch grid (segm_output_writes p a NS) junk).
Abbreviation segm_max := (launch grid (segm_row_writes p a NS run_M) junk_max).
Abbreviation segm_expsum := (launch grid (segm_row_writes p a NS run_L) junk).

Lemma reduce_stores tok h w : 0 <= tok < tokens -> 0 <= h < num_query_heads p ->
  w ∈ reduce_segments p a NS segm_output segm_max segm_expsum (tok, h) <->
  (exists s pos d, valid_row p a s pos h /\ tok = query_start_len_ptr a s + pos /\ 0 <= d < HEAD_SIZE p /\
     w = (tok * (output_stride p).1 + h * (output_stride p).2 + d, row_attention p a s pos h d)).
Proof using B HNS H0 Hheads.
  intros Ht Hh. pose proof (token_row tok h Ht Hh) as Hv. cbv zeta in Hv. unfold reduce_segments. cbn [fst snd].
  set (s := find_seq_idx _ tok _ _ _) in *. set (pos := tok - query_start_len_ptr a s) in *.
  assert (Etok : tok = query_start_len_ptr a s + pos) by (unfold pos; lia).
  change (cdiv_fn (seq_lens_ptr a s) (NS * BS)) with (bps s). change (cdiv_fn (seq_lens_ptr a s) (bps s * BS)) with (act s).
  destruct (segment_sizes s pos h Hv) as (Hn & Hb & Hbb & Ha). pose proof (b_head p a B) as Hhd.
  assert (Ecell : forall g, tok * (num_query_heads p * NS) + h * NS + g = cell s pos h g) by (intros g; unfold cell; by rewrite Etok).
  assert (Emax : forall g, 0 <= g -> (if g <? act s then segm_max (tok * (num_query_heads p * NS) + h * NS + g) else None) =
                           if g <? act s then (seg_state s pos h g).1.1 else None).
  { intros g Hg. destruct (Z.ltb_spec g (act s)); [|done]. rewrite Ecell. by apply (read_rows run_M (fun rs => rs.1.1)). }
  assert (Hsome : is_Some (s_maxs ((fun g => if g <? act s then segm_max (tok * (num_query_heads p * NS) + h * NS + g) else None) <$> zrange 0 NS))).
  { apply s_maxs_some. destruct (seg_state_stands s pos h 0 Hv ltac:(lia)) as (m & Hm & _). exists (Some m). split; [|done].
    apply list_elem_of_fmap. exists 0. split; [|apply elem_of_zrange; lia]. rewrite Emax by lia. replace (0 <? act s) with true by lia. done. }
  destruct Hsome as [o ->]. pose proof (merged_stands s pos h o Hv) as Hst. set (rs := (_, _, _)) in Hst.
  match goal with |- context [f_is_zero ?L] => assert (EL : L = rs.1.2) end.
  { apply f_sum_cut; [lia| |].
    - intros g Hg. rewrite Emax by lia. replace (g <? act s) with true by lia. rewrite Ecell. f_equal. by apply (read_rows run_L (fun rs => rs.1.2)).
    - intros g Hg. replace (g <? act s) with false by lia. apply f_mul_0_l. }
  assert (Eacc : forall d, 0 <= d < HEAD_SIZE p ->
    f_sum ((fun g => f_mul (if (g <? act s) && dim_mask p d
                            then segm_output (tok * (num_query_heads p * NS * HEAD_SIZE_PADDED p) + h * (NS * HEAD_SIZE_PADDED p) + g * HEAD_SIZE_PADDED p + d)
                            else f_zero)
      (s_exp (if g <? act s then segm_max (tok * (num_query_heads p * NS) + h * NS + g) else None) o)) <$> zrange 0 NS) = rs.2 d).
  { intros d Hd. apply f_sum_cut; [lia| |].
    - intros g Hg. rewrite Emax by lia. unfold dim_mask. replace (g <? act s) with true by lia. replace (d <? HEAD_SIZE p) with true by lia.
      replace (_ + _ + _ + d) with (cell s pos h g * HEAD_SIZE_PADDED p + d) by (rewrite <- Ecell; ring). f_equal. by apply read_output.
    - intros g Hg. replace (g <? act s) with false by lia. apply f_mul_0_l. }
  destruct (row_quotient p a B s pos h 0 _ rs Hv (cdiv_fn_ge _ _ (b_block p a B)) Hst) as [Hnz _].
  rewrite EL, Hnz, elem_of_tl_store. split.
  - intros (i & d & _ & Hd & Hm & ->). unfold dim_mask in Hm. exists s, pos, d. do 2 (split; [done|]). split; [lia|].
    rewrite Eacc by lia. f_equal. by apply (row_quotient p a B s pos h d _ rs Hv (cdiv_fn_ge _ _ (b_block p a B)) Hst).
  - intros (s' & pos' & d & Hv' & Et & Hd & ->). destruct (token_inj s pos h s' pos' h Hv Hv' ltac:(lia)) as [<- <-].
    exists 0, d. do 2 (split; [lia|]). split; [unfold dim_mask; lia|]. rewrite Eacc by lia. f_equal. symmetry.
    by apply (row_quotient p a B s pos h d _ rs Hv (cdiv_fn_ge _ _ (b_block p a B)) Hst).
Qed.

(** The launch that merges stores what the kernel over all blocks stores. *)
Lemma reduce_writes w :
  (exists pid, pid ∈ grid2 tokens (num_query_heads p) /\ w ∈ reduce_segments p a NS segm_output segm_max segm_expsum pid) <->
  (exists s pos h d, valid_row p a s pos h /\ 0 <= d < HEAD_SIZE p /\
     w = ((query_start_len_ptr a s + pos) * (output_stride p).1 + h * (output_stride p).2 + d, row_attention p a s pos h d)).
Proof using B HNS H0 Hheads.
  split.
  - intros ([tok h] & [Ht Hh]%elem_of_grid2 & (s & pos & d & Hv & -> & Hd & ->)%reduce_stores); [|done..]. by exists s, pos, h, d.
  - intros (s & pos & h & d & Hv & Hd & ->). exists (query_start_len_ptr a s + pos, h).
    assert (Hv' := Hv). destruct Hv' as (Hs & Hpos & Hh). unfold query_len in Hpos.
    pose proof (b_mono p a B 0 s ltac:(lia) ltac:(lia) ltac:(lia)). rewrite (b_first p a B) in *.
    pose proof (b_mono p a B (s + 1) (num_seqs p) ltac:(lia) ltac:(lia) ltac:(lia)).
    assert (Ht : 0 <= query_start_len_ptr a s + pos < tokens) by lia.
    split; [by apply elem_of_grid2|]. apply reduce_stores; [done..|]. by exists s, pos, d.
Qed.
End buffers.
End segments.
