(* ===== verification/ReropeAttention.v ===== *)
(** * ReRoPE attention: the function

    [unified_attention_rerope] writes the masked attention of every token and
    head, whichever kernels it launches and however their programs interleave. *)

From S2P Require Import Prelude.
From S2P Require Import Triton.
From S2P Require Import HashEncoder.
From S2P Require Import HashEncoderFacts.
From S2P Require Import HashEncoderCache.
From S2P Require Import Rerope.
From S2P Require Import ReropeFacts.
From S2P Require Import ReropeRuns.
From S2P Require Import ReropeSegments.
Local Open Scope Z_scope.
Local Open Scope py_scope.

Section attention.
Context {F : Type} `{RealLaws F} (next_power_of_2 : Z -> Z) (element_size : Dtype -> Z) (is_fp8 : Dtype -> bool).
Context (q k q2 k2 v out : Tensor F) (cu_seqlens_q seqused_k block_table : Tensor Z) (alibi_slopes : option (Tensor F)).
Context (softmax_scale cap k_descale v_descale : F) (max_seqlen_q rerope_window window0 : Z).
(** Requests, tokens, heads, heads of the cache, heads per head of the cache,
    tokens per block and numbers per head. *)
Context (n T NH NKV G BS HS : Z).

(** The batch: the queries of request [s], and a token of its cache. *)
Definition queries_of (s : Z) : Z := at_ cu_seqlens_q [s + 1] - at_ cu_seqlens_q [s].
Definition context_of (s : Z) : Z := at_ seqused_k [s] - queries_of s.
Definition cache_at (t : Tensor F) (s h key d : Z) : F := at_ t [at_ block_table [s; key / BS]; key mod BS; h / G; d].
Definition tensor_row (s pos h : Z) : Row F := {|
  r_q d := at_ q [at_ cu_seqlens_q [s] + pos; h; d];
  r_q2 d := at_ q2 [at_ cu_seqlens_q [s] + pos; h; d];
  r_k key d := dequantize (is_fp8 (t_dtype k)) (is_fp8 (t_dtype q)) k_descale (cache_at k s h key d);
  r_k2 key d := dequantize (is_fp8 (t_dtype k2)) (is_fp8 (t_dtype q2)) k_descale (cache_at k2 s h key d);
  r_v key d := dequantize (is_fp8 (t_dtype v)) (is_fp8 (t_dtype q)) v_descale (cache_at v s h key d);
  r_slope := (fun t => at_ t [h]) <$> alibi_slopes |}.
Definition tensor_masks (window : Z) : Masks F := {|
  k_scale_of := softmax_scale; k_cap := if f_positive cap then Some cap else None; k_window := window;
  k_sliding := 1 + window0; k_dim := HS |}.
(** The attention of rerope.md with a given window. *)
Definition token_attention (window s pos h d : Z) : F :=
  attention (tensor_masks window) (tensor_row s pos h) (context_of s) (context_of s + pos) d.

Definition all_blocks_launch : bool := (1 <? max_seqlen_q) || (128 <? (T / (16 / G) + n) * NKV).

(** What the caller sees to: shapes that fit, tensors the kernels may address
    as they do, at most sixteen heads per head of the cache, and the offsets of
    the requests. *)
Record batch : Prop := {
  t_q : t_shape q = [T; NH; HS];
  t_k : exists NB, t_shape k = [NB; BS; NKV; HS];
  t_v : exists NB, t_shape v = [NB; BS; NKV; HS];
  t_used : t_shape seqused_k = [n];
  t_out : t_shape out = [T; NH; HS];
  l_q : exists s0 s1, t_strides q = [s0; s1; 1];
  l_q2 : exists s0 s1, t_strides q2 = [s0; s1; 1];
  l_out : exists s0 s1, t_strides out = [s0; s1; 1];
  l_k : length (t_strides k) = 4%nat;
  l_k2 : length (t_strides k2) = 4%nat;
  l_v : length (t_strides v) = 4%nat;
  l_table : exists s0, t_strides block_table = [s0; 1];
  l_cu : t_strides cu_seqlens_q = [1];
  l_used : t_strides seqused_k = [1];
  l_alibi t : alibi_slopes = Some t -> t_strides t = [1];
  l_same : all_blocks_launch = true -> t_strides k2 = t_strides k;
  n_pos : 0 < n;
  NKV_pos : 0 < NKV;
  NH_eq : NH = NKV * G;
  G_fits : 0 < G <= 16;
  BS_pos : 0 < BS;
  HS_padded : 0 <= HS <= next_power_of_2 HS;
  fp8_block : 2 <= element_size (t_dtype q) \/ 32 <= BS;
  cu_first : at_ cu_seqlens_q [0] = 0;
  cu_mono i j : 0 <= i -> i <= j -> j <= n -> at_ cu_seqlens_q [i] <= at_ cu_seqlens_q [j];
  cu_last : at_ cu_seqlens_q [n] = T;
  used_covers s : 0 <= s < n -> queries_of s <= at_ seqused_k [s];
  out_distinct : no_overlap out;
}.
Context (C : batch).

(** *** The arguments of the kernels *)

Definition the_inputs : Inputs F :=
  MkInputs (t_storage q) (t_storage k) (t_storage q2) (t_storage k2) (t_storage v) (t_storage block_table)
    (t_storage seqused_k) (match alibi_slopes with Some t => t_storage t | None => fun _ => f_zero end)
    (t_storage cu_seqlens_q) softmax_scale k_descale v_descale cap.
Definition the_params (k2_strides : Z * Z * Z * Z) : Params :=
  make_params next_power_of_2 is_fp8 q k q2 k2 v out k2_strides block_table rerope_window window0
    (bool_decide (is_Some alibi_slopes)) (f_positive cap) G (16 / G) n.

Lemma at_1d {A} (t : Tensor A) i : t_strides t = [1] -> at_ t [i] = t_storage t i.
Proof using Type. intros E. unfold at_, offset. rewrite E. simpl. f_equal. lia. Qed.
Lemma at_rows {A} (t : Tensor A) i j x : (exists s0 s1, t_strides t = [s0; s1; 1]) -> at_ t [i; j; x] = t_storage t (i * stride t 0 + j * stride t 1 + x).
Proof using Type. intros (s0 & s1 & E). unfold at_, offset, stride. rewrite E. simpl. f_equal. lia. Qed.
Lemma at_cache {A} (t : Tensor A) b i h d : length (t_strides t) = 4%nat ->
  at_ t [b; i; h; d] = t_storage t (b * stride t 0 + h * stride t 2 + d * stride t 3 + i * stride t 1).
Proof using Type.
  intros E. unfold at_, offset, stride. destruct (t_strides t) as [|s0 [|s1 [|s2 [|s3 [|? ?]]]]]; try done. simpl. f_equal. lia.
Qed.

Lemma cu_at i : query_start_len_ptr the_inputs i = at_ cu_seqlens_q [i].
Proof using C. symmetry. apply at_1d, (l_cu C). Qed.
Lemma queries_at i : query_len the_inputs i = queries_of i.
Proof using C. unfold query_len, queries_of. by rewrite !cu_at. Qed.
Lemma ctx_at s : ctx_of the_inputs s = context_of s.
Proof using C. unfold ctx_of, context_of. rewrite queries_at. f_equal. symmetry. apply at_1d, (l_used C). Qed.

Lemma the_batch_ok ks : batch_ok (the_params ks) the_inputs.
Proof using C.
  destruct (t_v C) as [NB Ev]. pose proof (G_fits C) as HG.
  assert (HB : 0 < 16 / G) by (apply Z.div_str_pos; lia). pose proof (Z.mul_div_le 16 G ltac:(lia)).
  split; unfold the_params; simpl.
  - apply (n_pos C).
  - change (query_start_len_ptr the_inputs 0 = 0). rewrite cu_at. apply (cu_first C).
  - intros i j Hi Hij Hj. change (query_start_len_ptr the_inputs i <= query_start_len_ptr the_inputs j). rewrite !cu_at. by apply (cu_mono C).
  - intros s Hs. change (query_len the_inputs s <= seq_lens_ptr the_inputs s). rewrite queries_at.
    replace (seq_lens_ptr the_inputs s) with (at_ seqused_k [s]) by apply at_1d, (l_used C). by apply (used_covers C).
  - lia.
  - done.
  - lia.
  - rewrite Ev. apply (BS_pos C).
  - rewrite (t_q C). apply (HS_padded C).
Qed.

Lemma the_heads ks : num_query_heads (the_params ks) = NKV * num_queries_per_kv (the_params ks).
Proof using C. unfold the_params. simpl. rewrite (t_q C). apply (NH_eq C). Qed.

Lemma cached_at ks t s h key d : length (t_strides t) = 4%nat ->
  cached (the_params ks) the_inputs (strides4 t) (t_storage t) s h key d = cache_at t s h key d.
Proof using C.
  intros Ht. destruct (t_v C) as [NB Ev]. destruct (l_table C) as [b0 Eb]. unfold cached, cache_at. rewrite at_cache by done.
  unfold the_params. simpl. rewrite Ev. simpl. f_equal. do 3 f_equal. unfold at_, offset, stride. rewrite Eb. simpl. f_equal. f_equal. lia.
Qed.

Lemma the_row_eq s pos h : row_eq (row_of (the_params (strides4 k2)) the_inputs s pos h) (tensor_row s pos h).
Proof using C.
  split; intros; unfold row_of, tensor_row; cbn [r_q r_q2 r_k r_k2 r_v r_slope].
  - rewrite at_rows by apply (l_q C). by rewrite cu_at.
  - rewrite at_rows by apply (l_q2 C). by rewrite cu_at.
  - rewrite <- (cached_at (strides4 k2)) by apply (l_k C). done.
  - rewrite <- (cached_at (strides4 k2)) by apply (l_k2 C). done.
  - rewrite <- (cached_at (strides4 k2)) by apply (l_v C). done.
  - unfold the_params, the_inputs. simpl. destruct alibi_slopes as [t|] eqn:E; [|done]. simpl. f_equal. symmetry. apply at_1d, (l_alibi C t E).
Qed.

Lemma the_row s pos h d :
  row_attention (the_params (strides4 k2)) the_inputs s pos h d = token_attention (rerope_window - 1) s pos h d.
Proof using C.
  unfold row_attention, token_attention. rewrite ctx_at, (attention_ext _ _ _ _ _ _ (the_row_eq s pos h)). f_equal.
  unfold masks_of, tensor_masks, the_params. simpl. by rewrite (t_q C).
Qed.

(** *** What a launch leaves *)

Abbreviation p := (the_params (strides4 k2)).
Abbreviation kernel_attention := (token_attention (rerope_window - 1)).

Definition valid_cell (s pos h d : Z) : Prop := 0 <= s < n /\ 0 <= pos < queries_of s /\ 0 <= h < NH /\ 0 <= d < HS.

Lemma valid_cell_in_box s pos h d : valid_cell s pos h d -> in_box [T; NH; HS] [at_ cu_seqlens_q [s] + pos; h; d].
Proof using C.
  intros (Hs & Hp & Hh & Hd). unfold queries_of in Hp. pose proof (cu_mono C 0 s ltac:(lia) ltac:(lia) ltac:(lia)) as H1.
  pose proof (cu_mono C (s + 1) n ltac:(lia) ltac:(lia) ltac:(lia)) as H2. rewrite (cu_first C) in H1. rewrite (cu_last C) in H2.
  repeat (constructor; [lia|]). constructor.
Qed.

Lemma valid_cell_row s pos h d : valid_cell s pos h d <-> valid_row p the_inputs s pos h /\ 0 <= d < HEAD_SIZE p.
Proof using C.
  unfold valid_cell, valid_row. rewrite queries_at.
  change (HEAD_SIZE p) with (default 0 (t_shape q !! 2%nat)). change (num_query_heads p) with (default 0 (t_shape q !! 1%nat)).
  rewrite (t_q C). simpl. tauto.
Qed.

Lemma launch_attention {P} `{Schedule F} (grid : list P) prog m :
  (forall w, (exists pid, pid ∈ grid /\ w ∈ prog pid) <->
    (exists s pos h d, valid_row p the_inputs s pos h /\ 0 <= d < HEAD_SIZE p /\
      w = ((query_start_len_ptr the_inputs s + pos) * (output_stride p).1 + h * (output_stride p).2 + d, row_attention p the_inputs s pos h d))) ->
  (forall s pos h d, valid_cell s pos h d ->
     at_ (with_storage out (launch grid prog m)) [at_ cu_seqlens_q [s] + pos; h; d] = kernel_attention s pos h d) /\
  (forall x, (forall idx, in_box [T; NH; HS] idx -> offset (t_strides out) idx <> x) -> launch grid prog m x = m x).
Proof using C.
  intros HW0. set (addr s pos h d := offset (t_strides out) [at_ cu_seqlens_q [s] + pos; h; d]).
  assert (HW : forall w, (exists pid, pid ∈ grid /\ w ∈ prog pid) <->
    (exists s pos h d, valid_cell s pos h d /\ w = (addr s pos h d, kernel_attention s pos h d))).
  { intros w. rewrite HW0. destruct (l_out C) as (o0 & o1 & Eo).
    assert (Ea : forall s pos h d, (query_start_len_ptr the_inputs s + pos) * (output_stride p).1 + h * (output_stride p).2 + d = addr s pos h d).
    { intros s pos h d. unfold addr, offset. rewrite cu_at. unfold the_params. simpl. unfold stride. rewrite Eo. simpl. lia. }
    split; intros (s & pos & h & d & Hr).
    - destruct Hr as (Hv & Hd & ->). exists s, pos, h, d. rewrite valid_cell_row, Ea, the_row. done.
    - destruct Hr as (Hc & ->). exists s, pos, h, d. rewrite <- Ea, the_row. apply valid_cell_row in Hc as [Hv Hd]. done. }
  assert (Hinj : forall x w w', (exists s pos h d, valid_cell s pos h d /\ (x, w) = (addr s pos h d, kernel_attention s pos h d)) ->
      (exists s pos h d, valid_cell s pos h d /\ (x, w') = (addr s pos h d, kernel_attention s pos h d)) -> w = w').
  { intros x w w' (s1 & pos1 & h1 & d1 & Hc1 & [= -> ->]) (s2 & pos2 & h2 & d2 & Hc2 & [= E ->]).
    apply (out_distinct C) in E as [= Et <- <-]; [|rewrite (t_out C); by apply valid_cell_in_box..].
    apply valid_cell_row in Hc1 as [Hv1 _]. apply valid_cell_row in Hc2 as [Hv2 _]. rewrite <- !cu_at in Et.
    by destruct (token_inj p the_inputs (the_batch_ok _) _ _ _ _ _ _ Hv1 Hv2 Et) as [<- <-]. }
  split.
  - intros s pos h d Hc. change (launch grid prog m (addr s pos h d) = kernel_attention s pos h d).
    apply (launch_value grid prog _ HW _ _ _ Hinj). by exists s, pos, h, d.
  - intros x Hx. apply (launch_other grid prog _ HW). intros w (s & pos & h & d & Hc & [= -> _]).
    by apply (Hx [at_ cu_seqlens_q [s] + pos; h; d]); [apply (valid_cell_in_box s pos h d)|].
Qed.

(** *** The run *)

Lemma run_of `{Schedule F} `{Schedule (option F)} junk junk_max :
  let seg {V} `{Schedule V} (writes : Params -> Inputs F -> Z -> Z * Z * Z -> list (Z * V)) m :=
    launch (grid3 (total_blocks p T) NKV 16) (writes p the_inputs 16) m in
  unified_attention_rerope next_power_of_2 element_size is_fp8 junk junk_max q k q2 k2 v out cu_seqlens_q max_seqlen_q seqused_k
    softmax_scale true rerope_window window0 block_table cap None k_descale v_descale alibi_slopes =
  Ok (with_storage out
    (if all_blocks_launch then launch (grid2 (total_blocks p T) NKV) (kernel_unified_attention_2d p the_inputs) (t_storage out)
     else launch (grid2 T NH) (reduce_segments p the_inputs 16 (seg segm_output_writes junk)
            (seg (fun p a NS => segm_row_writes p a NS run_M) junk_max) (seg (fun p a NS => segm_row_writes p a NS run_L) junk)) (t_storage out))).
Proof using C.
  intros seg. destruct (t_k C) as [NBk Ek]. destruct (t_v C) as [NBv Ev]. pose proof (fp8_block C) as Hfp8.
  pose proof (NKV_pos C). pose proof (G_fits C) as HG. unfold unified_attention_rerope. cbn [negb]. rewrite bool_decide_eq_false_2 by (by intros [? ?]).
  rewrite (t_q C), Ek, Ev, (t_used C).
  replace (negb ((2 <=? element_size (t_dtype q)) || (32 <=? BS))) with false by lia. replace (NKV =? 0) with false by lia.
  assert (HGq : NH / NKV = G) by (rewrite (NH_eq C), Z.mul_comm; apply Z.div_mul; lia). rewrite HGq.
  replace (G =? 0) with false by lia. assert (0 < 16 / G) by (apply Z.div_str_pos; lia). replace (16 / G =? 0) with false by lia.
  fold the_inputs. unfold total_blocks, all_blocks_launch in *.
  destruct ((1 <? max_seqlen_q) || (128 <? (T / (16 / G) + n) * NKV)) eqn:El; [|done].
  assert (Es : strides4 k = strides4 k2) by (unfold strides4, stride; by rewrite (l_same C El)). rewrite Es. done.
Qed.
(** C9. Whichever kernels [unified_attention_rerope] launches, the one over all
    blocks or those over segments that are merged, and however their programs
    interleave, it returns, and the output holds for every request, query, head
    and number the attention rerope.md defines, but for a window of
    [rerope_window - 1], one shorter than the argument: the query attends to the
    keys at or before it in its sliding window; those less than
    [rerope_window - 1] tokens away are scored by the first queries and keys, all
    others by the second.  (rerope.md gives the keys [rerope_window - 1] tokens
    away the first pair; the kernels give them the second.)  Nothing else of the
    output's storage changes.  For the launch over all blocks the second cache needs the strides of the first. *)
Theorem rerope_attention_is_masked_attention (S : Schedule F) (S' : Schedule (option F)) junk junk_max :
  exists out',
    unified_attention_rerope next_power_of_2 element_size is_fp8 junk junk_max q k q2 k2 v out cu_seqlens_q max_seqlen_q seqused_k
      softmax_scale true rerope_window window0 block_table cap None k_descale v_descale alibi_slopes = Ok (with_storage out out') /\
    (forall s pos h d, 0 <= s < n -> 0 <= pos < queries_of s -> 0 <= h < NH -> 0 <= d < HS ->
       at_ (with_storage out out') [at_ cu_seqlens_q [s] + pos; h; d] = token_attention (rerope_window - 1) s pos h d) /\
    (forall x, (forall idx, in_box [T; NH; HS] idx -> offset (t_strides out) idx <> x) -> out' x = t_storage out x).
Proof using C H0.
  rewrite run_of. eexists. split; [done|].
  assert (Htok : T = query_start_len_ptr the_inputs (num_seqs p)) by (rewrite cu_at; symmetry; apply (cu_last C)).
  pose proof (the_heads (strides4 k2)) as Hh. pose proof (the_batch_ok (strides4 k2)) as HB.
  assert (Hnh : num_query_heads p = NH) by (unfold the_params; simpl; by rewrite (t_q C)).
  destruct all_blocks_launch.
  - destruct (launch_attention (grid2 (total_blocks p T) NKV) (kernel_unified_attention_2d p the_inputs) (t_storage out)) as [H1 H2].
    { intros w. apply writes_2d; [done|lia|done]. }
    split; [|exact H2]. intros s pos h d Hs Hp Hh' Hd. apply H1. done.
  - match goal with |- context [launch (grid2 T NH) ?prog _] => destruct (launch_attention (grid2 T NH) prog (t_storage out)) as [H1 H2] end.
    { intros w. rewrite <- Hnh. rewrite Htok. apply reduce_writes; [done|lia|done]. }
    split; [|exact H2]. intros s pos h d Hs Hp Hh' Hd. apply H1. done.
Qed.
End attention.
