(* ===== verification/ReropeDemo.v ===== *)
(** * ReRoPE attention: concrete runs

    A small batch evaluated over the rationals, with powers of two for the
    exponential, by either launch; the laws of [ReropeFacts] for the real numbers, and the theorem
    of [ReropeAttention] at a batch of reals. *)

From Stdlib Require Import Reals Lra QArith Qround Qpower Qminmax.
From S2P Require Import Prelude.
From S2P Require Import Triton.
From S2P Require Import HashEncoder.
From S2P Require Import HashEncoderFacts.
From S2P Require Import HashEncoderCache.
From S2P Require Import Rerope.
From S2P Require Import ReropeFacts.
From S2P Require Import ReropeAttention.
Local Open Scope Z_scope.
Local Open Scope py_scope.

(** ** Rationals *)

#[local] Instance Q_floats : Floats Q := {|
  f_zero := 0%Q; f_one := 1%Q;
  f_add x y := Qred (x + y); f_sub x y := Qred (x - y); f_mul x y := Qred (x * y); f_div x y := Qred (x / y); f_opp x := Qred (- x);
  f_exp x := Qred (Qpower 2 (Qfloor x)); f_max x y := if Qle_bool x y then y else x; f_is_zero x := Qeq_bool x 0;
  f_of_Z := inject_Z; f_positive x := negb (Qle_bool x 0); f_nan := (-1)%Q |}.

Definition cuda0 : Device := MkDevice Cuda 0.
Definition q_tensor (shape l : list Z) : Tensor Q :=
  contiguous_tensor shape Float32 cuda0 (fun i => inject_Z (default 0 (l !! Z.to_nat i))).
Definition z_tensor (shape l : list Z) : Tensor Z := contiguous_tensor shape OtherDtype cuda0 (fun i => default 0 (l !! Z.to_nat i)).

(** Two requests of one token each, two heads on one head of the cache, blocks of two
    tokens: the first request has three tokens in blocks 1 and 0, the second one in block 2. *)
Definition demo_q : Tensor Q := q_tensor [2; 2; 1] [1; 2; 1; 1].
Definition demo_q2 : Tensor Q := q_tensor [2; 2; 1] [-1; 1; 0; 0].
Definition demo_k : Tensor Q := q_tensor [3; 2; 1; 1] [3; 9; 1; 2; 5; 9].
Definition demo_k2 : Tensor Q := q_tensor [3; 2; 1; 1] [0; 0; 1; 2; 0; 0].
Definition demo_v : Tensor Q := q_tensor [3; 2; 1; 1] [8; 99; 10; 30; 7; 99].
Definition demo_out : Tensor Q := q_tensor [2; 2; 1] [].
Definition demo_table : Tensor Z := z_tensor [2; 2] [1; 0; 2; 0].

Definition demo_run (max_seqlen_q window rerope_window : Z) : res (list Q) :=
  let? t := unified_attention_rerope (fun n => n) (fun _ => 4) (fun _ => false) (fun _ => (-7)%Q) (fun _ => None)
    demo_q demo_k demo_q2 demo_k2 demo_v demo_out (z_tensor [3] [0; 1; 2]) max_seqlen_q (z_tensor [2] [3; 1]) 1%Q true rerope_window (window - 1)
    demo_table 0%Q None 1%Q 1%Q None in
  Ok (t_storage t <$> zrange 0 4).

(** Head 0 of request 0 scores its tokens with -1, -2 (the second pair) and 3
    (the first): (10/2 + 30/4 + 8*8) / (1/2 + 1/4 + 8). *)
Example demo_both_launches :
  demo_run 2 0 2 = Ok [(306 # 35)%Q; (326 # 35)%Q; 7%Q; 7%Q] /\ demo_run 1 0 2 = demo_run 2 0 2.
Proof. vm_compute. done. Qed.
(** A sliding window of two tokens hides the first; a ReRoPE window of one
    token, which no key is nearer than, leaves the second pair to score them all. *)
Example demo_windows :
  demo_run 1 2 2 = Ok [(26 # 3)%Q; (158 # 17)%Q; 7%Q; 7%Q] /\ demo_run 2 2 2 = demo_run 1 2 2 /\
  demo_run 1 0 1 = Ok [(82 # 7)%Q; (148 # 7)%Q; 7%Q; 7%Q].
Proof. vm_compute. done. Qed.

(** What rerope.md defines, for request 0: with a window of two the token next to
    the query is near; the kernels called with that window compute the attention for a window of one. *)
Definition documented (window h : Z) : Q :=
  token_attention (fun _ => false) demo_q demo_k demo_q2 demo_k2 demo_v (z_tensor [3] [0; 1; 2]) (z_tensor [2] [3; 1]) demo_table None
    1%Q 0%Q 1%Q 1%Q (-1) 2 2 1 window 0 0 h 0.
Lemma rerope_window_is_one_short :
  documented 2 <$> [0; 1] = [(378 # 25)%Q; (506 # 41)%Q] /\
  documented 1 <$> [0; 1] = [(306 # 35)%Q; (326 # 35)%Q] /\
  demo_run 1 0 2 = Ok ((documented 1 <$> [0; 1]) ++ [7%Q; 7%Q]).
Proof. vm_compute. done. Qed.

(** ** Real numbers *)

#[local] Instance R_floats : Floats R := {|
  f_zero := 0%R; f_one := 1%R; f_add := Rplus; f_sub := Rminus; f_mul := Rmult; f_div := Rdiv; f_opp := Ropp; f_exp := exp; f_max := Rmax;
  f_is_zero x := if Req_dec_T x 0 then true else false; f_of_Z := IZR; f_positive x := if Rlt_dec 0 x then true else false; f_nan := 0%R |}.

#[local] Instance R_laws : RealLaws R.
Proof.
  assert (Hpos : forall x, f_positive x = true <-> (0 < x)%R) by (intros x; simpl; by destruct (Rlt_dec 0 x)).
  split; intros; rewrite ?Hpos in *; try (simpl; ring).
  - simpl. unfold Rminus. apply exp_plus.
  - simpl. rewrite <- exp_plus, Rplus_opp_l. apply exp_0.
  - apply exp_pos.
  - simpl. lra.
  - simpl. by apply Rmult_lt_0_compat.
  - simpl. destruct (Req_dec_T x 0); [lra|done].
  - simpl. field. lra.
Qed.

Definition r_tensor (shape l : list Z) : Tensor R :=
  contiguous_tensor shape Float32 cuda0 (fun i => IZR (default 0 (l !! Z.to_nat i))).
Definition r_zeros (shape : list Z) : Tensor R := contiguous_tensor shape Float32 cuda0 (fun _ => 0%R).
Abbreviation the_batch q k := (batch (F := R) (fun n => n) (fun _ => 4) q k q k (r_tensor [3; 2; 1; 1] [8; 99; 10; 30; 7; 99]) (r_zeros [2; 2; 1])
  (z_tensor [3] [0; 1; 2]) (z_tensor [2] [3; 1]) demo_table None 1 2 2 2 1 2 2 1).

Lemma the_demo_batch : the_batch (r_zeros [2; 2; 1]) (r_zeros [3; 2; 1; 1]).
Proof.
  split; try (vm_compute; done); try (simpl; lia); try (by eexists); try (by do 2 eexists).
  - intros i j Hi Hij Hj. assert (Hc : (i = 0 \/ i = 1 \/ i = 2) /\ (j = 0 \/ j = 1 \/ j = 2)) by lia.
    destruct Hc as [[->|[->| ->]] [->|[->| ->]]]; vm_compute; try done; lia.
  - intros s Hs. assert (Hc : s = 0 \/ s = 1) by lia. by destruct Hc as [->| ->].
  - apply contiguous_no_overlap.
Qed.

(** Queries of zeros attend to all of their keys alike. *)
Lemma rerope_attention_is_masked_attention_witness :
  the_batch (r_zeros [2; 2; 1]) (r_zeros [3; 2; 1; 1]) /\
  exists out',
    unified_attention_rerope (F := R) (H0 := backwards R) (fun n => n) (fun _ => 4) (fun _ => false) (fun _ => 5%R) (fun _ => None)
      (r_zeros [2; 2; 1]) (r_zeros [3; 2; 1; 1]) (r_zeros [2; 2; 1]) (r_zeros [3; 2; 1; 1])
      (r_tensor [3; 2; 1; 1] [8; 99; 10; 30; 7; 99]) (r_zeros [2; 2; 1]) (z_tensor [3] [0; 1; 2]) 1 (z_tensor [2] [3; 1])
      1%R true 2 (-1) demo_table 0%R None 1%R 1%R None = Ok (with_storage (r_zeros [2; 2; 1]) out') /\
    out' 0 = 16%R /\ out' 3 = 7%R.
Proof.
  split; [exact the_demo_batch|].
  assert (I0 : 0 <= 0 < 2) by lia. assert (I1 : 0 <= 0 < 1) by lia. assert (I2 : 0 <= 1 < 2) by lia.
  destruct (rerope_attention_is_masked_attention (fun n => n) (fun _ => 4) (fun _ => false) (r_zeros [2; 2; 1]) (r_zeros [3; 2; 1; 1])
    (r_zeros [2; 2; 1]) (r_zeros [3; 2; 1; 1]) (r_tensor [3; 2; 1; 1] [8; 99; 10; 30; 7; 99]) (r_zeros [2; 2; 1])
    (z_tensor [3] [0; 1; 2]) (z_tensor [2] [3; 1]) demo_table None 1%R 0%R 1%R 1%R 1 2 (-1) 2 2 2 1 2 2 1 the_demo_batch
    (backwards R) (in_order (option R)) (fun _ => 5%R) (fun _ => None)) as (out' & E & Hout & _).
  exists out'. split; [exact E|].
  assert (Hscore : forall pos pos' key s h ctx,
    f_exp (score_of (tensor_masks (F := R) 1%R 0%R (-1) 1 (2 - 1))
      (tensor_row (F := R) (fun _ => false) (r_zeros [2; 2; 1]) (r_zeros [3; 2; 1; 1]) (r_zeros [2; 2; 1]) (r_zeros [3; 2; 1; 1])
         (r_tensor [3; 2; 1; 1] [8; 99; 10; 30; 7; 99]) (z_tensor [3] [0; 1; 2]) demo_table None 1%R 1%R 2 2 s pos h) ctx pos' key) = 1%R).
  { intros. etransitivity; [|apply exp_0]. apply (f_equal exp). unfold score_of. simpl. destruct (Rlt_dec 0 0); [lra|]. destruct (_ <? _); unfold at_, r_zeros; simpl; unfold f_dot, f_sum; change (zrange 0 1) with [0]; simpl; ring. }
  assert (Hmean : forall s h, token_attention (F := R) (fun _ => false) (r_zeros [2; 2; 1]) (r_zeros [3; 2; 1; 1]) (r_zeros [2; 2; 1]) (r_zeros [3; 2; 1; 1])
      (r_tensor [3; 2; 1; 1] [8; 99; 10; 30; 7; 99]) (z_tensor [3] [0; 1; 2]) (z_tensor [2] [3; 1]) demo_table None 1%R 0%R 1%R 1%R (-1) 2 2 1 (2 - 1) s 0 h 0 =
    let keys := visible (tensor_masks (F := R) 1%R 0%R (-1) 1 (2 - 1)) (context_of (z_tensor [3] [0; 1; 2]) (z_tensor [2] [3; 1]) s + 0) in
    f_div (f_sum ((fun key => cache_at demo_table 2 2 (r_tensor [3; 2; 1; 1] [8; 99; 10; 30; 7; 99]) s h key 0) <$> keys)) (f_sum ((fun _ => 1%R) <$> keys))).
  { intros s h. unfold token_attention, attention. cbv zeta. f_equal; apply f_sum_ext; intros key _; rewrite Hscore; simpl; [ring|done]. }
  split.
  - etransitivity; [exact (Hout 0 0 0 0 I0 I1 I0 I1)|]. rewrite Hmean. cbv zeta.
    change (visible _ _) with [0; 1; 2]. unfold cache_at, at_. simpl. field.
  - etransitivity; [exact (Hout 1 0 1 0 I2 I1 I2 I1)|]. rewrite Hmean. cbv zeta.
    change (visible _ _) with [0]. unfold cache_at, at_. simpl. field.
Defined.
